(* ===== verification/_CoqProject ===== *)
-Q . S2P
Prelude.v
PyStr.v
FloatModels.v
Json.v
JsonText.v
Url.v
OsdGlyphs.v
JsonPrefix.v
Reap.v
LearnedPrior.v
StatsClient.v
Probe.v
Bytes.v
Decision.v
Wire.v
TapWire.v
Capture.v
Signals.v
Policy.v
PolicyFacts.v
PolicyGates.v
Controller.v
LoopThread.v
Handoff.v
FlightLog.v
AggQueue.v
Tunnel.v
Keepalive.v
Mavlink.v
ServiceLife.v
LineProto.v
TxSel.v
StatsHub.v
Statsd.v
HubCallbacks.v
Pump.v
FeedText.v
StatsFeed.v
Cards.v
Schema.v
Events.v
ConnMonitor.v
MonitorLoop.v
Config.v
ConfigBuild.v
CtlSetup.v
SimChannel.v
Analyze.v
CrashBudget.v
RunnerSupervisor.v
Radio.v
Cluster.v
Cli.v
CliMain.v
Sha1.v
Graph.v
Children.v
NodeSession.v
Pixelpilot.v
Engine.v
EngineThread.v
Beamforming.v
DroneClient.v
MonitorCalls.v
Armer.v
Status.v
Api.v
HttpServer.v
AppMain.v
Wiring.v
ApiFacts.v
ApiScenarios.v
Boot.v
Witnesses.v
SystemWitnesses.v
ServiceWitnesses.v
FeedWitnesses.v
ToolWitnesses.v
BootWitnesses.v
