(* ===== verification/Prelude.v ===== *)
(** * fpvd ground station: a verification library

    ** The program

    fpvd is the ground-station daemon of a digital FPV link.  It receives the
    drone's video over wifi-broadcast, watches the link quality and tells the
    drone which modulation (MCS rung) to use; it also carries an IP tunnel and
    a MAVLink stream over the same link, supervises the processes that do the
    radio work, and serves its configuration over HTTP.

    The parts, under gs/fpvdgs/, and how they interact:
    - dynlink/: the closed loop.  The video receiver's tap (tap_wire,
      tap_client) and the stats feed (stats_client) drive the aggregator
      (signals); the policy (policy, with learned_prior and the probe feed)
      turns its signals into decisions (decision), which leave as sequenced
      packets (wire) and flight-log lines (flightlog).  controller is the
      event loop's glue; config_build makes its objects from the config.
    - wfb/: the radio side.  engine builds the data plane out of graph (the
      command lines), cluster (ports, scripts and sessions of remote nodes)
      and children (one supervised process each).  lineproto parses the
      telemetry lines of the wfb processes, aggregator merges them per antenna,
      statsd serves them over TCP, txsel picks the transmit card, tunnel and
      mavproxy carry packets with agg_queue batching, cards resolves the
      configured wifi cards; cli is the terminal viewer of the feed.
    - schema, config and config_defaults validate, load and store the
      configuration; connection_monitor decides whether the drone is there and
      publishes the edges on events; radio tunes the cards, beamforming and
      beamforming_armer keep the driver's beamformee in line with the
      configuration, pixelpilot and runner_supervisor run the display.
    - api and supervisor put it together: requests change the pending
      configuration, an apply validates it, drives the engine and the services
      to it and commits it.

    ** The library

    Code is translated to functions: state is passed explicitly, exceptions
    are the [Err] of [res] (with the Python exception class), effects (packets,
    callbacks, file writes, log lines, published events, processes spawned and
    reaped) are returned in order, and what the environment answers (clock,
    files, sockets, processes, HTTP) is an argument.  Coroutines and threads
    are machines: their state holds where each is suspended, and a run is a
    list of events, one per atomic stretch of code.  Python floats are an
    interface, [PyFloat], in which the models are generic; [FloatModels]
    implements it by IEEE binary64 and by exact rationals.  Statements that
    rounding would falsify (convexity, bounds of averages, back-off, windows of
    time) are made over rationals or over any instance with an order
    ([PyFloatOrder]); the ranges of configuration values over binary64, for
    finite numbers; the others for every instance.

    Support: this file (records, results, the float interface, deques),
    [PyStr] (Python's string operations), [FloatModels], [Json] (parsed
    documents and dicts), [JsonText] and [JsonPrefix] (the text of JSON, read
    back and cut short), [Url] (URLs and query strings, and the endpoint parser
    of dynlink/stats_client.py), [Bytes] (struct fields, CRC-32), [Sha1].

    The closed loop:
    - [LearnedPrior]: dynlink/learned_prior.py, [KneeModel] and [LearnedPrior]
      with load and flush.
    - [Probe]: probe/parser.py and probe/feed.py.
    - [StatsClient]: dynlink/stats_client.py, [parse_record] and its parts.
    - [Capture]: the capture of the tap to a file and its replay
      (dynlink/tap_client.py), and the replay of a captured feed.
    - [TapWire]: dynlink/tap_wire.py [decode]; tap_client.py
      [datagram_received].
    - [Signals]: dynlink/signals.py, every consumer of [SignalAggregator].
    - [Decision], [Policy]: dynlink/decision.py and policy.py, the selector's
      [select] split at its branches, the policy's [tick], [loss_event] and
      resets.  [PolicyFacts] and [PolicyGates] prove about them.
    - [Wire]: dynlink/wire.py, with the drone's decoder and duplicate filter
      (drone/src/dynlink) as the other end.
    - [Controller]: the handlers of dynlink/controller.py; [LoopThread]: its
      thread with start, stop and set_config, which idr_relay.py and
      connection_monitor.py share; [Handoff]: how a connection's calibration
      crosses from the bus to the loop, and the loop over the stats client;
      [CtlSetup]: what its thread builds from the snapshot, and its status.
    - [FlightLog]: dynlink/flightlog.py.

    The radio side:
    - [AggQueue], [Tunnel], [Mavlink], [LineProto], [TxSel], [StatsHub],
      [Cards]: the wfb/ modules of these names (mavproxy, aggregator).
    - [Statsd], [FeedText], [StatsFeed], [Cli]: wfb/statsd.py and the text it
      writes; the subscriptions of
      wfb/aggregator.py and the stats source of wfb/engine.py that rebinds to
      each new hub; wfb/cli.py.
    - [HubCallbacks]: the callbacks registered with the hub; [Pump]: the
      readers of a child's output, up to the listeners of the hub;
      [Keepalive]: the tunnel's keepalive timer; [CliMain]: the viewer from its
      command line to its output.
    - [ServiceLife]: start and stop of the tunnel and of the MAVLink service,
      the retries of the tun device, the sockets of dynlink/return_link.py and
      idr_relay.py.
    - [Reap]: the killing of stale wfb processes, of wfb/engine.py.
    - [Cluster], [Graph]: wfb/cluster.py's plan and scripts, wfb/graph.py.
    - [CrashBudget]: the restart budget shared by the two supervisors.
    - [Children], [NodeSession]: [WfbChild] of wfb/children.py and
      [NodeSession] of wfb/cluster.py, as machines on the engine's loop.
    - [Engine]: wfb/engine.py, [_setup], [_teardown], the thread-safe surface
      and the wiring of the transmit sockets; [EngineThread]: its thread and
      the waits of its callers.

    Configuration and services:
    - [Schema], [Config], [ConfigBuild]: schema.py, config.py with
      config_defaults.py, dynlink/config_build.py.
    - [Events], [ConnMonitor], [MonitorLoop]: events.py, connection_monitor.py
      (the evaluation, and the loop in which it awaits the drone);
      [MonitorCalls]: its thread and its calls of the drone.
    - [RunnerSupervisor], [Pixelpilot], [Radio]: the modules of these names.
    - [Beamforming]: beamforming.py, beamforming_armer.py, and the calls of
      drone_client.py they make; [Armer]: the armer's thread;
      [DroneClient]: drone_client.py's exchange.
    - [Status]: status.py, node_radio.py and the status functions of
      supervisor.py.
    - [Api]: api.py, and of supervisor.py the construction, start and shutdown
      of the application.  [ApiFacts] proves the transaction and the
      coherence of the daemon, [ApiScenarios] runs it on a bench.
    - [HttpServer]: the handler of api.py between the HTTP library and the API;
      [AppMain]: the application and [main] of supervisor.py, with the signals
      that interrupt them; [Boot]: which configurations boot; [Wiring]: small
      closures of supervisor.py and wfb/engine.py.

    Offline tools (gs/tools): [SimChannel] (simulate_channel.py and
    replay_flightlog.py), [Analyze] (flightlog_analyze.py).  [OsdGlyphs]: the
    check of the drone's glyph table, drone/tools/osd_glyphs_verify.py.

    [Witnesses], [SystemWitnesses], [ServiceWitnesses], [FeedWitnesses],
    [ToolWitnesses] and [BootWitnesses] apply the theorems to concrete runs.

    ** What the theorems show

    - The rung stays in range, ticks and losses move it one step at a time,
      demotes of a session are spaced, promotes pass their gates, sustained
      loss reaches the floor, and the policy raises at most the exception of
      [int] on a flap back-off that is not finite ([PolicyFacts],
      [PolicyGates]).
    - A drone that gets the controller's packets in order applies them all;
      of two packets, a repeated or overtaken one is dropped; a packet
      round-trips and one with one or two bits flipped is rejected
      ([Controller], [Wire]).
    - The tap decoder inverts the documented layout and accepts nothing else;
      the rolling window is a function of the history of records; smoothed
      signals stay within what was measured ([TapWire], [Signals]).
    - Batches and frames lose and invent nothing ([AggQueue], [Tunnel],
      [Mavlink]); the parsers' callbacks agree with their lines ([LineProto]);
      the window pass is sound and the selection settles ([StatsHub], [TxSel]).
    - A capture of the tap, cut anywhere, replays a prefix of its records
      through the text of the file ([Capture], on [JsonText] and
      [JsonPrefix]).
    - The stats feed, through its text and a replay, says what the hub says in
      process ([FeedText]), connected
      clients miss nothing, a full queue loses only its oldest, and every
      source finds the next hub ([Statsd], [StatsFeed]); the viewer's windows
      partition the feed ([Cli]).
    - An owner has one loop thread and its calls return; a running controller
      was built from its last snapshot and is bound to the adapter the
      connected drone reports ([LoopThread], [Handoff]).
    - The opening of the tun device is bounded and leaks nothing; what a service
      started it stops ([ServiceLife]); only wfb processes are reaped
      ([Reap]); a report of iw is read back ([Status]).
    - Ports of distributors, injectors, forwarders and aggregators meet, on
      every node, if no card names 127.0.0.1 as its host ([Graph]).
    - Supervision: no process is lost or left behind, the restart budget is the
      sliding window of the crash history, a watch that ends has reported its
      fault, a node session is never given up ([RunnerSupervisor], [Children],
      [NodeSession]).
    - The engine's set-up is all or nothing and its uplink follows respawned
      transmitters while sockets connect ([Engine]); its thread, interleaved with its callers, does
      what the one-step operations do ([EngineThread]).
    - Over IEEE doubles, validated configurations whose knobs are finite
      numbers build ([Schema], [ConfigBuild]), set the controller up, whose
      packets the drone applies ([CtlSetup]), and boot the whole daemon
      ([Boot]); committed ones load back, stale keys are dropped ([Config]).
    - The process exits with everything stopped, unless a signal comes at the
      wrong moment ([AppMain]); an HTTP exchange carries request and answer
      unchanged ([HttpServer]); an endpoint is read exactly when it is a host
      and a port ([Url]).
    - What a child prints reaches the listeners of the hub, in order ([Pump]);
      who follows the antenna is told every change ([HubCallbacks]); the uplink
      is never silent for two keepalive periods ([Keepalive]); the viewer's raw
      mode shows the server's records ([CliMain]).
    - A disconnect is confirmed, silence disconnects, edges alternate
      ([ConnMonitor]), also in the loop, where records arrive in the middle of
      an evaluation ([MonitorLoop]); what the monitor hears is what the drone
      answered ([MonitorCalls]).
    - A flight's summary counts what the policy logged ([Analyze]); the fitted
      channel is the piecewise linear one, rises with the rung, and the
      simulation accounts for every tick ([SimChannel]); the glyph check passes
      exactly when every glyph has its name ([OsdGlyphs]).
    - An apply is a transaction, which takes along what is patched while it
      runs; over any clean sequence of requests the engine and the services
      follow the effective configuration, the drone's address apart, and over
      any sequence, one after the other, it validates ([ApiFacts]).
    Lemmas that are evaluations of one run ([ApiScenarios] and the last lemmas
    of several files) show where the code departs from what it means to do.

    ** Bounds and fuel

    [unpack_go] and the framer's [scan] take the length of their buffer as
    fuel: every turn consumes at least one byte, and the framing theorems are
    proved of these definitions, so the fuel suffices.  The decimal printer of
    [PyStr] is fuelled by the number itself ([str_nat_fuel]).  Sequence
    numbers, CRCs, hash words and struct fields are kept at their width: 32-bit
    wrap-around in [Wire] and [Sha1], range errors of [struct.pack] as
    [Err StructError], two's complement in [Bytes.to_signed].
    [sequence_dedup] holds for runs of fewer than 2^31 packets, the window of
    the drone's serial-number comparison.  The readiness loop of
    [RunnerSupervisor] runs over the list of its polls; [wait_ready_returns]
    gives the number of polls after which it has returned, and
    [tun_open_bounded] the number of attempts at the tun device.  The scanner of
    [JsonText] is fuelled by the length of the text, which bounds the size of
    every value it can print ([dumps_len]).

    ** Not modelled

    The sockets themselves, the HTTP library and the TCP exchange of the drone
    client; the argument parsers of the mains (their results are arguments),
    the set-up of logging, and the printing of the offline tools (their totals
    are kept as floats, and only the text would tell an integer apart) and the
    drawing of their plots; the text of floats ([repr] and the formats are
    hypotheses of [JsonText] and [Analyze]), the check of an IPv6 address in a
    URL (an argument of [Url]) and strings with code points from 256 on;
    signals inside a step of [App.start] or [App.shutdown] ([AppMain] looks
    between the steps); what a wait of the engine's callers leaves behind when
    it times out ([EngineThread] has the step, not a theorem); requests that
    overlap an apply other than by patching the store (the server has a thread
    per connection and the API no lock); config files of
    the image and everything outside gs except the drone's packet reader and
    its glyph check. *)
From Stdlib Require Import ZArith Lia Bool.
From stdpp Require Import base list gmap strings numbers.

(* ------------------------------------------------------------------ *)
(** ** Record update *)

Class Settable (R : Type) := eta_record : R -> R.
Class Setter {R T : Type} (proj : R -> T) := upd : (T -> T) -> R -> R.

(** [Settable R] gives the eta-expansion of a record; the setter of one field
    abstracts that field's projection out of it. *)
Ltac build_setter :=
  match goal with
  | |- @Setter ?R ?T ?proj =>
      let inst := constr:(_ : Settable R) in
      let e := eval hnf in inst in
      let p := eval pattern proj in e in
      match p with
      | ?g _ => let t := constr:(fun (f : T -> T) => g (fun r => f (proj r))) in
                let t' := eval cbv beta in t in exact t'
      end
  end.
#[export] Hint Extern 1 (Setter _) => build_setter : typeclass_instances.

Declare Scope record_scope.
Delimit Scope record_scope with record.
Notation "r <| p := v |>" := (@upd _ _ p _ (fun _ => v) r)
  (at level 12, left associativity, p at level 11, v at level 99,
   format "r  <|  p  :=  v  |>") : record_scope.
Notation "r <| p ::= f |>" := (@upd _ _ p _ f r)
  (at level 12, left associativity, p at level 11, f at level 99,
   format "r  <|  p  ::=  f  |>") : record_scope.
#[global] Open Scope record_scope.

(* ------------------------------------------------------------------ *)
(** ** Errors as values *)

(** The exceptions the modelled code raises or catches. *)
Inductive pyerr :=
| SchemaError (msg : string)
| ValueError (msg : string)
| TypeError
| KeyError (key : string)
| AttributeError
| ZeroDivisionError
| OverflowError
| StructError
| TapDecodeError
| ContractVersionError (v : Z)
| OSError (errno : Z)
| DroneUnreachable
| DroneRejected (code : Z)
| HTTPException
| IndexError.

(** [try]-style results: a value or the exception that escapes. *)
Inductive res (A : Type) :=
| Ok (a : A)
| Err (e : pyerr).
Arguments Ok {A} a.
Arguments Err {A} e.

Definition rbind {A B} (m : res A) (k : A -> res B) : res B :=
  match m with Ok a => k a | Err e => Err e end.

Definition is_ok {A} (m : res A) : bool := match m with Ok _ => true | Err _ => false end.

Declare Scope res_scope.
Delimit Scope res_scope with res.
Notation "'let*' x ':=' m 'in' k" := (rbind m (fun x => k))
  (at level 10, x pattern, m at level 100, k at level 200,
   format "'[v' 'let*'  x  ':='  m  'in' '/' k ']'") : res_scope.
Notation "m ';;;' k" := (rbind m (fun _ => k))
  (at level 199, right associativity, format "'[v' m ';;;' '/' k ']'") : res_scope.
#[global] Open Scope res_scope.

(** [guard c e]: Python's [if c: raise e]. *)
Definition raise_if (c : bool) (e : pyerr) : res unit := if c then Err e else Ok tt.

(** A [for] loop whose body may raise. *)
Fixpoint for_each {A} (body : A -> res unit) (l : list A) : res unit :=
  match l with
  | [] => Ok tt
  | x :: l' => body x ;;; for_each body l'
  end.

Fixpoint map_res {A B} (f : A -> res B) (l : list A) : res (list B) :=
  match l with
  | [] => Ok []
  | x :: l' => let* y := f x in let* ys := map_res f l' in Ok (y :: ys)
  end.

(* ------------------------------------------------------------------ *)
(** ** Python floats

    The code computes with IEEE doubles.  The models are written against this
    interface, so a theorem that mentions only [PyFloat] holds for whatever the
    arithmetic does; [FloatModels] gives the bit-exact binary64 instance and the
    exact rational one.  [fpow] is the platform's [pow], which is not part of
    the repository; [ftrunc] is [int(x)] and [fround] [round(x)] of a finite
    [x], [fround1] is [round(x, 1)]; [fofstr] is [float("...")], [None] where
    it raises [ValueError]. *)
Class PyFloat (F : Type) := {
  fofZ : Z -> F;
  fadd : F -> F -> F;
  fsub : F -> F -> F;
  fmul : F -> F -> F;
  fdiv : F -> F -> F;
  fopp : F -> F;
  fleb : F -> F -> bool;
  fltb : F -> F -> bool;
  ftrunc : F -> Z;
  ffinite : F -> bool;
  fround : F -> Z;
  fround1 : F -> F;
  fpow : F -> F -> F;
  fofstr : string -> option F
}.

Declare Scope py_scope.
Delimit Scope py_scope with py.
Infix "+f" := fadd (at level 50, left associativity) : py_scope.
Infix "-f" := fsub (at level 50, left associativity) : py_scope.
Infix "*f" := fmul (at level 40, left associativity) : py_scope.
Infix "/f" := fdiv (at level 40, left associativity) : py_scope.
Infix "<=f" := fleb (at level 70) : py_scope.
Infix "<f" := fltb (at level 70) : py_scope.
Notation "x >=f y" := (fleb y x) (at level 70, only parsing) : py_scope.
Notation "x >f y" := (fltb y x) (at level 70, only parsing) : py_scope.
#[global] Open Scope py_scope.

Section FloatHelpers.
Context {F : Type} {PF : PyFloat F}.

(** [max(a, b)] and [min(a, b)]: the first of two arguments that compare equal
    (or do not compare) wins. *)
Definition fmax (a b : F) : F := if a <f b then b else a.
Definition fmin (a b : F) : F := if b <f a then b else a.
(** [x == y] and [bool(x)]. *)
Definition feqb (x y : F) : bool := (x <=f y) && (y <=f x).
Definition ftruthy (x : F) : bool := negb (feqb x (fofZ 0)).
(** A decimal literal [n/d]: correctly rounded, both parts being exact. *)
Definition flit (n d : Z) : F := fofZ n /f fofZ d.
(** [int(x)]: an infinity raises [OverflowError], NaN raises [ValueError]. *)
Definition int_error (x : F) : pyerr := if feqb x x then OverflowError else ValueError "int".
Definition int_of_float (x : F) : res Z := if ffinite x then Ok (ftrunc x) else Err (int_error x).
Definition round_float (x : F) : res Z := if ffinite x then Ok (fround x) else Err (int_error x).
(** [max]/[min] over a non-empty list, keeping the first extremum. *)
Definition fmax_list (x : F) (l : list F) : F := fold_left fmax l x.
Definition fmin_list (x : F) (l : list F) : F := fold_left fmin l x.
End FloatHelpers.

(** The order laws Python's comparisons obey on numbers that are not NaN. *)
Class PyFloatOrder (F : Type) {PF : PyFloat F} (num : F -> Prop) : Prop := {
  fleb_total : forall x y, num x -> num y -> fleb x y = false -> fleb y x = true;
  fleb_trans : forall x y z, num x -> num y -> num z ->
    fleb x y = true -> fleb y z = true -> fleb x z = true;
  fltb_fleb : forall x y, num x -> num y -> fltb x y = negb (fleb y x)
}.

Section OrderLemmas.
Context {F : Type} {PF : PyFloat F} {num : F -> Prop} {PO : PyFloatOrder F num}.

Lemma fleb_refl x : num x -> fleb x x = true.
Proof.
  intros H. destruct (fleb x x) eqn:E; [done|].
  rewrite <- E. by apply (fleb_total x x).
Qed.

Lemma num_fmax x y : num x -> num y -> num (fmax x y).
Proof. unfold fmax. by case_match. Qed.

Lemma num_fmin x y : num x -> num y -> num (fmin x y).
Proof. unfold fmin. by case_match. Qed.

Lemma fmax_ge_l x y : num x -> num y -> fleb x (fmax x y) = true.
Proof.
  intros Hx Hy. unfold fmax. destruct (fltb x y) eqn:E; [|by apply fleb_refl].
  rewrite fltb_fleb, negb_true_iff in E by done. by apply fleb_total.
Qed.

Lemma fmax_ge_r x y : num x -> num y -> fleb y (fmax x y) = true.
Proof.
  intros Hx Hy. unfold fmax. destruct (fltb x y) eqn:E; [by apply fleb_refl|].
  by rewrite fltb_fleb, negb_false_iff in E by done.
Qed.

Lemma fmin_le_l x y : num x -> num y -> fleb (fmin x y) x = true.
Proof.
  intros Hx Hy. unfold fmin. destruct (fltb y x) eqn:E; [|by apply fleb_refl].
  rewrite fltb_fleb, negb_true_iff in E by done. by apply fleb_total.
Qed.

Lemma fmin_le_r x y : num x -> num y -> fleb (fmin x y) y = true.
Proof.
  intros Hx Hy. unfold fmin. destruct (fltb y x) eqn:E; [by apply fleb_refl|].
  by rewrite fltb_fleb, negb_false_iff in E by done.
Qed.
End OrderLemmas.

(* ------------------------------------------------------------------ *)
(** ** Shared data helpers *)

(** [collections.deque(maxlen=n).append]: the oldest entry falls off. *)
Definition deque_push {A} (maxlen : nat) (q : list A) (x : A) : list A :=
  let q' := q ++ [x] in drop (length q' - maxlen) q'.

Lemma deque_push_length {A} n (q : list A) x :
  length (deque_push n q x) = Nat.min n (S (length q)).
Proof. unfold deque_push. rewrite length_drop, length_app. simpl. lia. Qed.

Lemma deque_push_suffix {A} n (q : list A) x :
  (length q < n)%nat -> deque_push n q x = q ++ [x].
Proof.
  intros H. unfold deque_push. rewrite length_app. simpl.
  replace (length q + 1 - n)%nat with 0%nat by lia. done.
Qed.

Definition sumZ (l : list Z) : Z := foldr Z.add 0%Z l.

Lemma sumZ_app l1 l2 : sumZ (l1 ++ l2) = (sumZ l1 + sumZ l2)%Z.
Proof. induction l1 as [|x l1 IH]; simpl; [done|]. unfold sumZ in *. simpl. lia. Qed.

Lemma sumZ_nonneg l : Forall (fun x => (0 <= x)%Z) l -> (0 <= sumZ l)%Z.
Proof. unfold sumZ. induction 1; simpl; lia. Qed.

(** Truthiness of an optional value. *)
Definition is_some {A} (o : option A) : bool := match o with Some _ => true | None => false end.

(* ------------------------------------------------------------------ *)
(** ** Automation *)

Create HintDb fpvd.
Create Rewrite HintDb fpvd.
#[export] Hint Resolve fmax_ge_l fmax_ge_r fmin_le_l fmin_le_r : fpvd.
#[export] Hint Rewrite @deque_push_length @sumZ_app : fpvd.

(** Unfold record updates and reduce the projections around them. *)
Ltac rsimpl := unfold upd in *; cbn in *.
(** Case on every [if] and [match] on a stuck scrutinee in the goal. *)
Ltac cases := repeat (case_match; simplify_eq/=).
(** Turn boolean tests in the context into propositions. *)
Ltac breflect :=
  repeat match goal with
  | H : andb _ _ = true |- _ => apply andb_true_iff in H as [? ?]
  | H : orb _ _ = false |- _ => apply orb_false_iff in H as [? ?]
  | H : negb _ = true |- _ => apply negb_true_iff in H
  | H : negb _ = false |- _ => apply negb_false_iff in H
  | H : context [Z.geb _ _] |- _ => rewrite Z.geb_leb in H
  | H : context [Z.gtb _ _] |- _ => rewrite Z.gtb_ltb in H
  | H : Z.ltb _ _ = true |- _ => apply Z.ltb_lt in H
  | H : Z.ltb _ _ = false |- _ => apply Z.ltb_ge in H
  | H : Z.leb _ _ = true |- _ => apply Z.leb_le in H
  | H : Z.leb _ _ = false |- _ => apply Z.leb_gt in H
  | H : Z.eqb _ _ = true |- _ => apply Z.eqb_eq in H
  | H : Z.eqb _ _ = false |- _ => apply Z.eqb_neq in H
  | H : bool_decide _ = true |- _ => apply bool_decide_eq_true in H
  | H : bool_decide _ = false |- _ => apply bool_decide_eq_false in H
  end.

(** Results: invert a successful bind. *)
Lemma rbind_ok {A B} (m : res A) (k : A -> res B) b :
  rbind m k = Ok b <-> exists a, m = Ok a /\ k a = Ok b.
Proof. destruct m; simpl; split; [eauto| |done|]; by intros (a' & [= <-] & ?). Qed.

Lemma raise_if_ok c e : raise_if c e = Ok tt <-> c = false.
Proof. by destruct c. Qed.

Lemma for_each_ok {A} (body : A -> res unit) l :
  for_each body l = Ok tt <-> Forall (fun x => body x = Ok tt) l.
Proof.
  induction l as [|x l IH]; simpl; [by split|]. split.
  - intros ([] & ? & ?)%rbind_ok. constructor; [done|]. by apply IH.
  - inversion 1; subst. apply rbind_ok. exists tt. split; [done|]. by apply IH.
Qed.

Lemma map_res_ok {A B} (f : A -> res B) l ys :
  map_res f l = Ok ys <-> Forall2 (fun x y => f x = Ok y) l ys.
Proof.
  revert ys. induction l as [|x l IH]; simpl; intros ys.
  { split; [by intros [= <-]|]. by inversion 1. }
  rewrite rbind_ok. split.
  - intros (y & Hy & H). apply rbind_ok in H as (ys' & H & [= <-]).
    constructor; [done|]. by apply IH.
  - inversion 1 as [|? y ? ys' Hy H']; subst. exists y. split; [done|].
    apply rbind_ok. exists ys'. split; [by apply IH|done].
Qed.
