(* ===== verification/PyStr.v ===== *)
(** * The string operations of Python the code uses

    [str.split], [str.strip], [str.lower], substring tests and [int(s, base)],
    on ASCII strings. *)
From Stdlib Require Import ZArith Lia Bool Ascii String.
From stdpp Require Import base tactics list strings.
From S2P Require Import Prelude.
Open Scope Z_scope.

Definition code (c : ascii) : Z := Z.of_N (N_of_ascii c).

(** The ASCII characters [str.isspace] accepts. *)
Definition is_space (c : ascii) : bool :=
  let n := code c in
  ((9 <=? n) && (n <=? 13)) || ((28 <=? n) && (n <=? 32)).

Definition is_digit (c : ascii) : bool := (48 <=? code c) && (code c <=? 57).

Definition lower_ascii (c : ascii) : ascii :=
  if (65 <=? code c) && (code c <=? 90) then ascii_of_N (Z.to_N (code c + 32)) else c.

Fixpoint lower (s : string) : string :=
  match s with
  | EmptyString => EmptyString
  | String c s' => String (lower_ascii c) (lower s')
  end.

Fixpoint lstrip (s : string) : string :=
  match s with
  | String c s' => if is_space c then lstrip s' else s
  | EmptyString => EmptyString
  end.

Fixpoint rstrip_if (p : ascii -> bool) (s : string) : string :=
  match s with
  | EmptyString => EmptyString
  | String c s' =>
      match rstrip_if p s' with
      | EmptyString => if p c then EmptyString else String c EmptyString
      | t => String c t
      end
  end.

(** [s.strip()] and [s.rstrip("\n")]. *)
Definition strip (s : string) : string := rstrip_if is_space (lstrip s).
Definition rstrip_nl (s : string) : string := rstrip_if (fun c => code c =? 10) s.

(** [s.split(sep)] for a one-character separator: never empty. *)
Fixpoint split (sep : ascii) (s : string) : list string :=
  match s with
  | EmptyString => [EmptyString]
  | String c s' =>
      if ascii_dec c sep then EmptyString :: split sep s'
      else match split sep s' with
           | [] => [String c EmptyString]
           | w :: ws => String c w :: ws
           end
  end.

(** [sub in s]. *)
Fixpoint contains (sub s : string) : bool :=
  String.prefix sub s ||
  match s with EmptyString => false | String _ s' => contains sub s' end.

(** [s.partition(sep)] as (head, found, tail), and the last-occurrence form. *)
Fixpoint partition_at (sep s : string) : string * bool * string :=
  if String.prefix sep s then (EmptyString, true, String.substring (String.length sep) (String.length s - String.length sep) s)
  else match s with
       | EmptyString => (EmptyString, false, EmptyString)
       | String c s' => let '(h, f, t) := partition_at sep s' in (String c h, f, t)
       end.

Fixpoint rpartition_char (sep : ascii) (s : string) : string * bool * string :=
  match s with
  | EmptyString => (EmptyString, false, EmptyString)
  | String c s' =>
      let '(h, f, t) := rpartition_char sep s' in
      if f then (String c h, true, t)
      else if ascii_dec c sep then (EmptyString, true, s')
      else (EmptyString, false, String c t)
  end.

Fixpoint all_chars (p : ascii -> bool) (s : string) : bool :=
  match s with EmptyString => true | String c s' => p c && all_chars p s' end.

(** [s.isdigit()]: false on the empty string. *)
Definition isdigit (s : string) : bool :=
  match s with EmptyString => false | _ => all_chars is_digit s end.

(** ** [int(s, base)] *)

Definition digit_val (c : ascii) : option Z :=
  let n := code c in
  if (48 <=? n) && (n <=? 57) then Some (n - 48)
  else if (97 <=? n) && (n <=? 122) then Some (n - 87)
  else if (65 <=? n) && (n <=? 90) then Some (n - 55)
  else None.

(** Digits with single underscores between them; [prev] says whether the last
    character was a digit. *)
Fixpoint parse_digits (base : Z) (s : string) (acc : Z) (prev : bool) : option Z :=
  match s with
  | EmptyString => if prev then Some acc else None
  | String c s' =>
      if code c =? 95 then if prev then parse_digits base s' acc false else None
      else match digit_val c with
           | Some d => if d <? base then parse_digits base s' (acc * base + d) true else None
           | None => None
           end
  end.

(** The optional [0x] of base 16, which may be followed by one underscore. *)
Definition parse_unsigned (base : Z) (s : string) : option Z :=
  match s with
  | String c0 (String c1 s') =>
      if (base =? 16) && (code c0 =? 48) && ((code c1 =? 120) || (code c1 =? 88))
      then match s' with
           | String c2 s'' => if code c2 =? 95 then parse_digits base s'' 0 false
                              else parse_digits base s' 0 false
           | EmptyString => None
           end
      else parse_digits base s 0 false
  | _ => parse_digits base s 0 false
  end.

Definition parse_int (base : Z) (s : string) : option Z :=
  match strip s with
  | String c s' =>
      if code c =? 45 then Z.opp <$> parse_unsigned base s'
      else if code c =? 43 then parse_unsigned base s'
      else parse_unsigned base (String c s')
  | EmptyString => None
  end.

(** [tuple(int(v) for v in s.split(":"))]: [None] where [int] raises. *)
Definition parse_ints (s : string) : option (list Z) :=
  mapM (parse_int 10) (split ":"%char s).

Example parse_int_neg : parse_int 10 " -1_024 " = Some (-1024).
Proof. reflexivity. Qed.
Example parse_int_hex : parse_int 16 "0x1F" = Some 31 /\ parse_int 16 "ff_0" = Some 4080.
Proof. split; reflexivity. Qed.
Example parse_int_bad : parse_int 10 "1__0" = None /\ parse_int 10 "" = None /\ parse_int 10 "-" = None.
Proof. repeat split; reflexivity. Qed.
Example split_tab : split "009"%char "a	b		" = ["a"; "b"; ""; ""].
Proof. reflexivity. Qed.

(* ------------------------------------------------------------------ *)
(** ** Lemmas *)

Lemma split_nonempty sep s : split sep s <> [].
Proof. destruct s; simpl; [done|]. destruct (ascii_dec _ _); [done|]. by destruct (split _ _). Qed.

Lemma split_no_sep sep s :
  all_chars (fun c => negb (bool_decide (c = sep))) s = true -> split sep s = [s].
Proof.
  induction s as [|c s IH]; simpl; [done|]. intros [H1 H2]%andb_true_iff.
  destruct (ascii_dec c sep) as [->|]; [by rewrite bool_decide_true in H1|].
  by rewrite IH.
Qed.

(** [sep.join(l)]. *)
Fixpoint join (sep : string) (l : list string) : string :=
  match l with
  | [] => EmptyString
  | [s] => s
  | s :: l' => s +:+ sep +:+ join sep l'
  end.

(** Splitting undoes joining when no field holds the separator. *)
Lemma split_join sep l :
  l <> [] -> Forall (fun s => all_chars (fun c => negb (bool_decide (c = sep))) s = true) l ->
  split sep (join (String sep EmptyString) l) = l.
Proof.
  induction l as [|s [|s' l] IH]; intros Hne Hall; [done| |].
  - inversion Hall; subst. by apply split_no_sep.
  - inversion Hall as [|? ? Hs Hl]; subst. specialize (IH ltac:(done) Hl).
    change (join _ _) with (s +:+ String sep (join (String sep EmptyString) (s' :: l))).
    clear Hall Hl Hne. revert IH. generalize (join (String sep EmptyString) (s' :: l)) as rest.
    intros rest IH. induction s as [|c s IHs].
    + simpl. destruct (ascii_dec sep sep) as [_|]; [|done]. by rewrite IH.
    + simpl in Hs. apply andb_true_iff in Hs as [H1 H2]. simpl.
      destruct (ascii_dec c sep) as [->|]; [by rewrite bool_decide_true in H1|].
      by rewrite IHs.
Qed.

(* ------------------------------------------------------------------ *)
(** ** Decimal printing *)

Definition digit_char (d : Z) : ascii := ascii_of_N (Z.to_N (48 + d)).

Fixpoint dec_go (fuel : nat) (n : Z) (acc : string) : string :=
  match fuel with
  | O => acc
  | S f => let acc' := String (digit_char (n mod 10)) acc in
           if n <? 10 then acc' else dec_go f (n / 10) acc'
  end.

(** [str(n)] of a natural number; the digits are at most one more than the bits. *)
Definition str_nat (n : Z) : string := dec_go (S (Z.to_nat (Z.log2 n))) n EmptyString.

Fixpoint zeros (k : nat) (s : string) : string :=
  match k with O => s | S k' => String "0"%char (zeros k' s) end.

(** [f"{n:0wd}"] of a natural number. *)
Definition zfill (w : nat) (n : Z) : string := zeros (w - String.length (str_nat n)) (str_nat n).

Lemma code_digit_char d : 0 <= d < 10 -> code (digit_char d) = 48 + d.
Proof. intros H. unfold code, digit_char. rewrite N_ascii_embedding by lia. lia. Qed.

Lemma digit_val_char d : 0 <= d < 10 -> digit_val (digit_char d) = Some d.
Proof.
  intros H. unfold digit_val. rewrite code_digit_char by done.
  destruct (Z.leb_spec 48 (48 + d)), (Z.leb_spec (48 + d) 57); try lia. cbn. f_equal. lia.
Qed.

Lemma is_digit_char d : 0 <= d < 10 -> is_digit (digit_char d) = true.
Proof. intros H. unfold is_digit. rewrite code_digit_char by done. lia. Qed.

Lemma parse_digits_char d s acc prev :
  0 <= d < 10 -> parse_digits 10 (String (digit_char d) s) acc prev = parse_digits 10 s (acc * 10 + d) true.
Proof.
  intros H. cbn [parse_digits]. rewrite code_digit_char by done.
  destruct (Z.eqb_spec (48 + d) 95); [lia|]. rewrite digit_val_char by done.
  destruct (Z.ltb_spec d 10); [done|lia].
Qed.

Lemma parse_dec_go f n acc prev :
  0 <= n < 10 ^ Z.of_nat f -> (0 < f)%nat ->
  parse_digits 10 (dec_go f n acc) 0 prev = parse_digits 10 acc n true.
Proof.
  revert n acc prev. induction f as [|f IH]; intros n acc prev Hn Hf; [lia|]. cbn [dec_go].
  destruct (Z.ltb_spec n 10).
  - rewrite parse_digits_char by (rewrite Z.mod_small; lia). rewrite Z.mod_small by lia. done.
  - assert (0 < f)%nat by (destruct f; [cbn in Hn; lia|lia]).
    rewrite IH; [| |done].
    + rewrite parse_digits_char by (apply Z.mod_pos_bound; lia). f_equal.
      pose proof (Z.div_mod n 10). lia.
    + rewrite Nat2Z.inj_succ, Z.pow_succ_r in Hn by lia.
      split; [apply Z.div_pos; lia|apply Z.div_lt_upper_bound; lia].
Qed.

Lemma dec_go_digits f n acc :
  0 <= n -> all_chars is_digit acc = true -> all_chars is_digit (dec_go f n acc) = true.
Proof.
  revert n acc. induction f as [|f IH]; intros n acc Hn Ha; [done|]. cbn [dec_go].
  assert (H1 : all_chars is_digit (String (digit_char (n mod 10)) acc) = true).
  { cbn. rewrite is_digit_char by (apply Z.mod_pos_bound; lia). done. }
  case_match; [done|]. apply IH; [|done]. apply Z.div_pos; lia.
Qed.

Lemma str_nat_fuel n : 0 <= n -> n < 10 ^ Z.of_nat (S (Z.to_nat (Z.log2 n))).
Proof.
  intros Hn. destruct (Z.eq_dec n 0) as [->|]; [done|].
  assert (H := Z.log2_spec n ltac:(lia)). assert (Hl := Z.log2_nonneg n).
  replace (Z.of_nat (S (Z.to_nat (Z.log2 n)))) with (Z.succ (Z.log2 n)) by lia.
  assert (2 ^ Z.succ (Z.log2 n) <= 10 ^ Z.succ (Z.log2 n)) by (apply Z.pow_le_mono_l; lia). lia.
Qed.

Lemma zeros_digits k s : all_chars is_digit s = true -> all_chars is_digit (zeros k s) = true.
Proof. intros H. by induction k. Qed.

Lemma parse_zeros k s prev : s <> EmptyString ->
  (forall prev, parse_digits 10 s 0 prev = parse_digits 10 s 0 false) ->
  parse_digits 10 (zeros k s) 0 prev = parse_digits 10 s 0 false.
Proof.
  intros Hs Hp. revert prev. induction k as [|k IH]; intros prev; cbn [zeros]; [apply Hp|].
  change "0"%char with (digit_char 0). rewrite parse_digits_char by lia. apply IH.
Qed.

Lemma digits_strip s : all_chars is_digit s = true -> strip s = s.
Proof.
  assert (Hsp : forall c, is_digit c = true -> is_space c = false).
  { intros c. unfold is_digit, is_space. intros H. breflect.
    destruct (Z.leb_spec (code c) 13), (Z.leb_spec (code c) 32); try lia;
      by rewrite !andb_false_r. }
  intros H. unfold strip. assert (Hl : lstrip s = s).
  { destruct s as [|c s]; [done|]. cbn in *. apply andb_true_iff in H as [H _]. by rewrite Hsp. }
  rewrite Hl. clear Hl. induction s as [|c s IH]; [done|]. cbn in *.
  apply andb_true_iff in H as [H1 H2]. rewrite IH by done. destruct s; [by rewrite Hsp|done].
Qed.

Lemma digits_parse_int s : all_chars is_digit s = true -> parse_int 10 s = parse_digits 10 s 0 false.
Proof.
  intros H. unfold parse_int. rewrite digits_strip by done. destruct s as [|c s]; [done|].
  cbn [all_chars] in H. apply andb_true_iff in H as [H _]. unfold is_digit in H. breflect.
  destruct (Z.eqb_spec (code c) 45); [lia|]. destruct (Z.eqb_spec (code c) 43); [lia|].
  unfold parse_unsigned. by destruct s.
Qed.

(** Printing then parsing a padded number gives it back. *)
Lemma parse_zfill w n : 0 <= n -> parse_int 10 (zfill w n) = Some n.
Proof.
  intros Hn. unfold zfill. assert (Hd : all_chars is_digit (str_nat n) = true) by (by apply dec_go_digits).
  rewrite digits_parse_int by (by apply zeros_digits).
  assert (Hp : forall prev, parse_digits 10 (str_nat n) 0 prev = Some n).
  { intros prev. unfold str_nat. rewrite parse_dec_go; [done| |lia]. split; [done|]. by apply str_nat_fuel. }
  rewrite parse_zeros; [apply Hp| |intros; by rewrite !Hp].
  intros E. specialize (Hp false). by rewrite E in Hp.
Qed.
