(* ===== verification/FloatModels.v ===== *)
(** * Two readings of Python's floats

    [binary64] is the IEEE double the interpreter uses, computed bit for bit by
    the specification floats of the core library (53-bit significand, exponent
    up to 1024, round to nearest even).  [QFloat] is exact rational arithmetic,
    in which the statements that are only meaningful without rounding (convex
    combinations, least squares) are made.  Both compute, so every model can be
    evaluated.  Both read [float("...")] on integer numerals only. *)
From Stdlib Require Import ZArith QArith Qround Qpower Lqa Lia Bool.
From Stdlib.Floats Require Import SpecFloat.
From stdpp Require Import base tactics.
From S2P Require Import Prelude PyStr.

(* ------------------------------------------------------------------ *)
(** ** IEEE binary64 *)

Abbreviation binary64 := spec_float.

Definition b64_ofZ (z : Z) : binary64 := binary_normalize 53 1024 z 0 false.

(** [int(x)]: truncation toward zero (the integer part of a finite double). *)
Definition b64_trunc (x : binary64) : Z :=
  match x with
  | S754_finite s m e =>
      let a := if (0 <=? e)%Z then Z.shiftl (Zpos m) e else Z.shiftr (Zpos m) (- e) in
      if s then (- a)%Z else a
  | _ => 0%Z
  end.

Fixpoint b64_pow_nat (x : binary64) (n : nat) : binary64 :=
  match n with
  | O => b64_ofZ 1
  | S n' => SFmul 53 1024 (b64_pow_nat x n') x
  end.

(** [pow] on an integral exponent: repeated multiplication (exact on the powers
    of two the default configuration uses). *)
Definition b64_pow (x y : binary64) : binary64 :=
  let n := b64_trunc y in
  if (n <? 0)%Z then SFdiv 53 1024 (b64_ofZ 1) (b64_pow_nat x (Z.to_nat (- n)))
  else b64_pow_nat x (Z.to_nat n).

(** Round half to even of the rational [n / d], [d > 0]. *)
Definition div_half_even (n d : Z) : Z :=
  let q := (n / d)%Z in
  let r := (n mod d)%Z in
  match (2 * r ?= d)%Z with
  | Lt => q
  | Gt => (q + 1)%Z
  | Eq => if Z.even q then q else (q + 1)%Z
  end.

(** [round(x)]: the exact value, half to even. *)
Definition b64_round (x : binary64) : Z :=
  match x with
  | S754_finite s m e =>
      let n := if s then Zneg m else Zpos m in
      if (0 <=? e)%Z then Z.shiftl n e else div_half_even n (2 ^ (- e))
  | _ => 0%Z
  end.

(** [round(x, 1)]: the exact value rounded to tenths, then the nearest double. *)
Definition b64_round1 (x : binary64) : binary64 :=
  match x with
  | S754_finite s m e =>
      let n := ((if s then -10 else 10) * Zpos m)%Z in
      let t := if (0 <=? e)%Z then Z.shiftl n e else div_half_even n (2 ^ (- e)) in
      SFdiv 53 1024 (b64_ofZ t) (b64_ofZ 10)
  | _ => x
  end.

#[export] Instance PyFloat_b64 : PyFloat binary64 := {|
  fofZ := b64_ofZ;
  fadd := SFadd 53 1024;
  fsub := SFsub 53 1024;
  fmul := SFmul 53 1024;
  fdiv := SFdiv 53 1024;
  fopp := SFopp;
  fleb := SFleb;
  fltb := SFltb;
  ftrunc := b64_trunc;
  ffinite x := match x with S754_finite _ _ _ | S754_zero _ => true | _ => false end;
  fround := b64_round;
  fround1 := b64_round1;
  fpow := b64_pow;
  fofstr s := b64_ofZ <$> parse_int 10 s
|}.

Definition b64_num (x : binary64) : Prop := x <> S754_nan.

(** The literal [0.1] is the double nearest to one tenth. *)
Example b64_tenth : flit 1 10 = S754_finite false 7205759403792794 (-56).
Proof. vm_compute. reflexivity. Qed.
Example b64_sum_not_exact : feqb (flit 1 10 +f flit 2 10 : binary64) (flit 3 10) = false.
Proof. vm_compute. reflexivity. Qed.

(** Comparison of doubles is the lexicographic order of a key. *)
Definition b64_key (x : binary64) : Z * Z * Z :=
  match x with
  | S754_infinity true => (-2, 0, 0)
  | S754_finite true m e => (-1, - e, - Zpos m)
  | S754_zero _ | S754_nan => (0, 0, 0)
  | S754_finite false m e => (1, e, Zpos m)
  | S754_infinity false => (2, 0, 0)
  end%Z.

Definition key_le (a b : Z * Z * Z) : Prop :=
  let '(a1, a2, a3) := a in let '(b1, b2, b3) := b in
  (a1 < b1 \/ (a1 = b1 /\ (a2 < b2 \/ (a2 = b2 /\ a3 <= b3))))%Z.

Lemma SFcompare_key x y :
  b64_num x -> b64_num y ->
  SFcompare x y = Some
    (let '(a1, a2, a3) := b64_key x in let '(b1, b2, b3) := b64_key y in
     match (a1 ?= b1)%Z with
     | Eq => match (a2 ?= b2)%Z with Eq => (a3 ?= b3)%Z | c => c end
     | c => c
     end).
Proof.
  unfold b64_num. destruct x as [[]|[]| |[]]; destruct y as [[]|[]| |[]]; try done; intros _ _; simpl.
  f_equal. rewrite Z.compare_opp, (Z.compare_antisym e e0). by destruct (e ?= e0)%Z.
Qed.

Lemma SFleb_key x y : b64_num x -> b64_num y ->
  SFleb x y = true <-> key_le (b64_key x) (b64_key y).
Proof.
  intros Hx Hy. unfold SFleb, key_le. rewrite SFcompare_key by done.
  destruct (b64_key x) as [[a1 a2] a3], (b64_key y) as [[b1 b2] b3].
  destruct (Z.compare_spec a1 b1); [destruct (Z.compare_spec a2 b2); [destruct (Z.compare_spec a3 b3)|..]|..];
    split; intros; try done; lia.
Qed.

Lemma SFltb_key x y : b64_num x -> b64_num y ->
  SFltb x y = true <-> ~ key_le (b64_key y) (b64_key x).
Proof.
  intros Hx Hy. unfold SFltb, key_le. rewrite SFcompare_key by done.
  destruct (b64_key x) as [[a1 a2] a3], (b64_key y) as [[b1 b2] b3].
  destruct (Z.compare_spec a1 b1); [destruct (Z.compare_spec a2 b2); [destruct (Z.compare_spec a3 b3)|..]|..];
    split; intros; try done; try lia; exfalso; lia.
Qed.

Lemma key_le_trans a b c : key_le a b -> key_le b c -> key_le a c.
Proof. destruct a as [[??]?], b as [[??]?], c as [[??]?]. unfold key_le. lia. Qed.

Lemma key_le_total a b : ~ key_le a b -> key_le b a.
Proof. destruct a as [[??]?], b as [[??]?]. unfold key_le. lia. Qed.

(** Doubles other than NaN are totally ordered by [<=]. *)
#[export] Instance PyFloatOrder_b64 : PyFloatOrder binary64 b64_num.
Proof.
  split; simpl.
  - intros x y Hx Hy H. apply SFleb_key; [done..|]. apply key_le_total.
    by rewrite <- SFleb_key, H.
  - intros x y z Hx Hy Hz. rewrite !SFleb_key by done. apply key_le_trans.
  - intros x y Hx Hy. apply eq_true_iff_eq. rewrite negb_true_iff, SFltb_key by done.
    rewrite <- not_true_iff_false. by rewrite SFleb_key.
Qed.

(** *** Integers below 2^53 are exact *)

Definition exact_int (z : Z) : Prop := (Z.abs z < 2 ^ 53)%Z.

(** The significand shifted to 53 digits. *)
Definition pow2_times (p k : positive) : positive := PosDef.Pos.iter xO p k.

Lemma pow2_times_val p k : (Zpos (pow2_times p k) = Zpos p * 2 ^ Zpos k)%Z.
Proof.
  unfold pow2_times. induction k as [|k IH] using Pos.peano_ind; [cbn; lia|].
  rewrite Pos.iter_succ, Pos2Z.inj_succ, Z.pow_succ_r by lia. rewrite Pos2Z.inj_xO, IH. lia.
Qed.

Lemma pow2_times_digits p k : digits2_pos (pow2_times p k) = (digits2_pos p + k)%positive.
Proof.
  unfold pow2_times. induction k as [|k IH] using Pos.peano_ind; [cbn; lia|].
  rewrite Pos.iter_succ. cbn. rewrite IH. lia.
Qed.

Lemma digits_bounds p : (2 ^ (Zpos (digits2_pos p) - 1) <= Zpos p < 2 ^ Zpos (digits2_pos p))%Z.
Proof.
  induction p as [p IH|p IH|]; cbn [digits2_pos]; [..|cbn; lia]; rewrite Pos2Z.inj_succ, Z.pow_succ_r by lia;
    replace (Z.succ (Zpos (digits2_pos p)) - 1)%Z with (Z.succ (Zpos (digits2_pos p) - 1)) by lia;
    rewrite Z.pow_succ_r by lia; lia.
Qed.

Lemma digits_le_53 p : (Zpos p < 2 ^ 53)%Z -> (Zpos (digits2_pos p) <= 53)%Z.
Proof.
  intros H. destruct (digits_bounds p) as [Hl _]. destruct (Z.le_gt_cases (Zpos (digits2_pos p)) 53) as [|Hg]; [done|].
  assert (2 ^ 53 <= 2 ^ (Zpos (digits2_pos p) - 1))%Z by (apply Z.pow_le_mono_r; lia). lia.
Qed.

(** The significand and the exponent of such an integer. *)
Definition significand (p : positive) : Z := (Zpos p * 2 ^ (53 - Zpos (digits2_pos p)))%Z.

Lemma round_53 s m e : Zpos (digits2_pos m) = 53%Z -> (-1000 <= e <= 0)%Z ->
  binary_round_aux 53 1024 s (Zpos m) e loc_Exact = S754_finite s m e.
Proof.
  intros Hd He. unfold binary_round_aux, shr_fexp, Zdigits2. rewrite Hd.
  assert (Hz : (fexp 53 1024 (53 + e) - e = 0)%Z) by (unfold fexp, SpecFloat.emin; lia).
  rewrite Hz. cbn [shr shr_record_of_loc shr_m loc_of_shr_record round_nearest_even Zdigits2]. rewrite Hd, Hz.
  cbn [shr shr_m]. destruct (Z.leb_spec e (1024 - 53)); [done|lia].
Qed.

Lemma b64_round_small s p : (Zpos p < 2 ^ 53)%Z ->
  exists m, Zpos m = significand p /\ binary_round 53 1024 s p 0 = S754_finite s m (Zpos (digits2_pos p) - 53).
Proof.
  intros Hp. assert (Hd := digits_le_53 p Hp). unfold binary_round, shl_align, significand.
  replace (fexp 53 1024 (Zpos (digits2_pos p) + 0)) with (Zpos (digits2_pos p) - 53)%Z by (unfold fexp, SpecFloat.emin; lia).
  rewrite Z.sub_0_r. destruct (Zpos (digits2_pos p) - 53)%Z as [|k|k] eqn:E; [|lia|].
  - exists p. replace (53 - Zpos (digits2_pos p))%Z with 0%Z by lia. split; [lia|]. apply round_53; lia.
  - exists (pow2_times p k). replace (53 - Zpos (digits2_pos p))%Z with (Zpos k) by lia.
    split; [apply pow2_times_val|]. apply round_53; [rewrite pow2_times_digits|]; lia.
Qed.

Lemma significand_order p q :
  (Zpos p < Zpos q)%Z -> (Zpos q < 2 ^ 53)%Z ->
  (Zpos (digits2_pos p) < Zpos (digits2_pos q) \/ Zpos (digits2_pos p) = Zpos (digits2_pos q) /\ significand p < significand q)%Z.
Proof.
  intros H Hq. assert (Hd := digits_le_53 q Hq). destruct (digits_bounds p) as [L1 U1], (digits_bounds q) as [L2 U2].
  destruct (Z.lt_trichotomy (Zpos (digits2_pos p)) (Zpos (digits2_pos q))) as [|[E|E]]; [by left|right|].
  - split; [done|]. unfold significand. rewrite E. apply Z.mul_lt_mono_pos_r; [|done]. apply Z.pow_pos_nonneg; lia.
  - assert (2 ^ Zpos (digits2_pos q) <= 2 ^ (Zpos (digits2_pos p) - 1))%Z by (apply Z.pow_le_mono_r; lia). lia.
Qed.

(** They compare as integers do. *)
Lemma b64_ofZ_lt a b : exact_int a -> exact_int b -> (a < b)%Z -> SFltb (b64_ofZ a) (b64_ofZ b) = true.
Proof.
  unfold exact_int, b64_ofZ, binary_normalize. intros Ha Hb H.
  destruct a as [|p|p], b as [|q|q]; try done;
    repeat match goal with |- context [binary_round 53 1024 ?s ?x 0] =>
      let m := fresh "m" in let Hm := fresh "Hm" in let Hr := fresh "Hr" in
      destruct (b64_round_small s x ltac:(lia)) as (m & Hm & Hr); rewrite Hr; clear Hr end; try done;
    apply SFltb_key; try (by unfold b64_num); unfold key_le; cbn [b64_key].
  - destruct (significand_order p q); lia.
  - destruct (significand_order q p); lia.
Qed.

Lemma b64_ofZ_finite a : exact_int a -> ffinite (b64_ofZ a) = true.
Proof.
  unfold exact_int, b64_ofZ, binary_normalize. intros Ha. destruct a as [|p|p]; [done|..].
  - destruct (b64_round_small false p ltac:(lia)) as (m & _ & ->). done.
  - destruct (b64_round_small true p ltac:(lia)) as (m & _ & ->). done.
Qed.

Lemma finite_num x : ffinite x = true -> b64_num x.
Proof. by destruct x. Qed.

Lemma b64_ofZ_leb a b : exact_int a -> exact_int b -> SFleb (b64_ofZ a) (b64_ofZ b) = (a <=? b)%Z.
Proof.
  intros Ha Hb. assert (Na := finite_num _ (b64_ofZ_finite a Ha)). assert (Nb := finite_num _ (b64_ofZ_finite b Hb)).
  destruct (Z.leb_spec a b) as [Hle|Hlt].
  - apply Z.le_lteq in Hle as [Hlt| ->]; [|exact (fleb_refl (num := b64_num) (b64_ofZ b) Nb)].
    apply b64_ofZ_lt in Hlt; [|done..]. change (fltb (b64_ofZ a) (b64_ofZ b) = true) in Hlt.
    rewrite fltb_fleb, negb_true_iff in Hlt by done. by apply fleb_total in Hlt.
  - apply b64_ofZ_lt in Hlt; [|done..]. change (fltb (b64_ofZ b) (b64_ofZ a) = true) in Hlt.
    by rewrite fltb_fleb, negb_true_iff in Hlt by done.
Qed.

(** What [int] makes of a finite double that is not negative. *)
Lemma b64_trunc_nonneg x : ffinite x = true -> SFleb (b64_ofZ 0) x = true -> (0 <= b64_trunc x)%Z.
Proof.
  destruct x as [s|s| |[] m e]; try done; intros _ H; cbn; try lia.
  destruct (0 <=? e)%Z; [apply Z.shiftl_nonneg|apply Z.shiftr_nonneg]; lia.
Qed.

(* ------------------------------------------------------------------ *)
(** ** Exact rationals *)

Definition Q_trunc (x : Q) : Z := Z.quot (Qnum x) (Zpos (Qden x)).

Definition PyFloat_Q : PyFloat Q := {|
  fofZ := inject_Z;
  fadd x y := Qred (x + y);
  fsub x y := Qred (x - y);
  fmul x y := Qred (x * y);
  fdiv x y := Qred (x / y);
  fopp x := Qred (- x);
  fleb := Qle_bool;
  fltb x y := negb (Qle_bool y x);
  ftrunc := Q_trunc;
  ffinite _ := true;
  fround x := div_half_even (Qnum x) (Zpos (Qden x));
  fround1 x := Qred (div_half_even (10 * Qnum x) (Zpos (Qden x)) # 10);
  fpow x y := Qred (Qpower x (Q_trunc y));
  fofstr s := inject_Z <$> parse_int 10 s
|}.
#[export] Existing Instance PyFloat_Q.

#[export] Instance PyFloatOrder_Q : PyFloatOrder Q (fun _ => True).
Proof.
  split; simpl.
  - intros x y _ _ H. apply Qle_bool_iff. destruct (Qlt_le_dec y x) as [Hlt|Hle].
    + by apply Qlt_le_weak.
    + apply Qle_bool_iff in Hle. congruence.
  - intros x y z _ _ _. rewrite !Qle_bool_iff. apply Qle_trans.
  - done.
Qed.

(** Rewriting the reduced operations to the field operations of [Q]. *)
Lemma Q_add_eq (x y : Q) : fadd x y == x + y.
Proof. apply Qred_correct. Qed.
Lemma Q_sub_eq (x y : Q) : fsub x y == x - y.
Proof. apply Qred_correct. Qed.
Lemma Q_mul_eq (x y : Q) : fmul x y == x * y.
Proof. apply Qred_correct. Qed.
Lemma Q_div_eq (x y : Q) : fdiv x y == x / y.
Proof. apply Qred_correct. Qed.
Create Rewrite HintDb qarith.
#[export] Hint Rewrite Q_add_eq Q_sub_eq Q_mul_eq Q_div_eq : qarith.
