(* ===== verification/Json.v ===== *)
(** * JSON values and the conversions the code applies to them

    The configuration, the persisted learned prior and the stats records are
    parsed JSON: [None], booleans, ints, floats, strings, lists and dicts (an
    association list with distinct keys, in insertion order). *)
From Stdlib Require Import ZArith Lia Bool String.
From stdpp Require Import base tactics list strings.
From S2P Require Import Prelude PyStr.
Open Scope Z_scope.

Inductive json (F : Type) :=
| JNull
| JBool (b : bool)
| JInt (z : Z)
| JFloat (f : F)
| JStr (s : string)
| JList (l : list (json F))
| JDict (d : list (string * json F)).
Arguments JNull {F}.
Arguments JBool {F} b.
Arguments JInt {F} z.
Arguments JFloat {F} f.
Arguments JStr {F} s.
Arguments JList {F} l.
Arguments JDict {F} d.

(** ** Dicts as insertion-ordered association lists *)

Section Dict.
Context {V : Type}.

(** [d.get(k)]. *)
Fixpoint dict_get (k : string) (d : list (string * V)) : option V :=
  match d with
  | [] => None
  | (k', v) :: d' => if String.eqb k k' then Some v else dict_get k d'
  end.

(** [d[k] = v]: in place when [k] is present, appended otherwise. *)
Fixpoint dict_set (k : string) (v : V) (d : list (string * V)) : list (string * V) :=
  match d with
  | [] => [(k, v)]
  | (k', v') :: d' => if String.eqb k k' then (k', v) :: d' else (k', v') :: dict_set k v d'
  end.

(** [del d[k]]. *)
Definition dict_del (k : string) (d : list (string * V)) : list (string * V) :=
  filter (fun kv => k <> kv.1) d.

Definition dict_keys (d : list (string * V)) : list string := map fst d.

(** [set(d) - known], as the keys that remain. *)
Definition unknown_keys (known : list string) (d : list (string * V)) : list string :=
  filter (fun k => k ∉ known) (dict_keys d).

Lemma dict_get_set_eq k v d : dict_get k (dict_set k v d) = Some v.
Proof.
  induction d as [|[k' v'] d IH]; simpl; [by rewrite String.eqb_refl|].
  destruct (String.eqb k k') eqn:E; simpl; rewrite E; [done|exact IH].
Qed.

Lemma dict_get_set_ne k k' v d : k <> k' -> dict_get k' (dict_set k v d) = dict_get k' d.
Proof.
  intros Hne. induction d as [|[k0 v0] d IH]; simpl.
  - destruct (String.eqb_spec k' k); [by subst|done].
  - destruct (String.eqb_spec k k0) as [->|]; simpl; [|by rewrite IH].
    destruct (String.eqb_spec k' k0); [by subst|done].
Qed.

Lemma dict_get_none k d : dict_get k d = None <-> k ∉ dict_keys d.
Proof.
  induction d as [|[k' v'] d IH]; simpl; [split; [intros _; apply not_elem_of_nil|done]|].
  rewrite not_elem_of_cons. destruct (String.eqb_spec k k') as [->|]; [naive_solver|].
  rewrite IH. naive_solver.
Qed.

Lemma dict_get_some_key k d v : dict_get k d = Some v -> k ∈ dict_keys d.
Proof.
  intros H. destruct (decide (k ∈ dict_keys d)) as [|Hn]; [done|].
  apply dict_get_none in Hn. congruence.
Qed.

Lemma dict_keys_set k v d :
  dict_keys (dict_set k v d) = if decide (k ∈ dict_keys d) then dict_keys d else dict_keys d ++ [k].
Proof.
  induction d as [|[k' v'] d IH]; simpl; [done|].
  destruct (String.eqb_spec k k') as [->|Hne]; simpl.
  { by rewrite decide_True by left. }
  rewrite IH. case_decide as H1; case_decide as H2; try done; exfalso.
  - apply H2. by right.
  - by apply elem_of_cons in H2 as [->|].
Qed.

Lemma dict_keys_set_NoDup k v d : NoDup (dict_keys d) -> NoDup (dict_keys (dict_set k v d)).
Proof.
  intros H. rewrite dict_keys_set. case_decide; [done|].
  apply NoDup_app. repeat split; [done| |apply NoDup_singleton].
  intros x Hx ->%list_elem_of_singleton. done.
Qed.

Lemma dict_get_del_ne k k' d : k <> k' -> dict_get k' (dict_del k d) = dict_get k' d.
Proof.
  intros Hne. unfold dict_del. induction d as [|[k0 v0] d IH]; [done|].
  rewrite filter_cons. simpl. case_decide as Hk; simpl.
  - by rewrite IH.
  - destruct (String.eqb_spec k' k0) as [->|]; [|by rewrite IH].
    by subst.
Qed.

Lemma unknown_keys_nil known d :
  unknown_keys known d = [] <-> Forall (fun k => k ∈ known) (dict_keys d).
Proof.
  unfold unknown_keys. induction (dict_keys d) as [|k ks IH]; [by split; [constructor|]|].
  rewrite filter_cons. case_decide as Hk.
  - split; [done|]. inversion 1; subst. done.
  - rewrite IH. split; [constructor; [|done]|by inversion 1].
    destruct (decide (k ∈ known)); [done|contradiction].
Qed.
End Dict.

(** ** Conversions *)

Section Conv.
Context {F : Type} {PF : PyFloat F}.

(** [isinstance] tests; a [bool] is an [int] to Python, so the code that means
    a number tests [bool] first. *)
Definition is_dict (v : json F) : bool := match v with JDict _ => true | _ => false end.
Definition is_list (v : json F) : bool := match v with JList _ => true | _ => false end.
Definition is_str (v : json F) : bool := match v with JStr _ => true | _ => false end.
Definition is_bool (v : json F) : bool := match v with JBool _ => true | _ => false end.
Definition is_none (v : json F) : bool := match v with JNull => true | _ => false end.
Definition is_int (v : json F) : bool := match v with JInt _ | JBool _ => true | _ => false end.
Definition is_num (v : json F) : bool :=
  match v with JInt _ | JBool _ | JFloat _ => true | _ => false end.

(** [bool(v)]. *)
Definition truthy (v : json F) : bool :=
  match v with
  | JNull => false
  | JBool b => b
  | JInt z => negb (z =? 0)
  | JFloat f => ftruthy f
  | JStr s => negb (String.eqb s "")
  | JList l => match l with [] => false | _ => true end
  | JDict d => match d with [] => false | _ => true end
  end.

(** [float(v)]: an int past the largest double raises. *)
Definition py_float (v : json F) : res F :=
  match v with
  | JInt z => if ffinite (fofZ z) then Ok (fofZ z) else Err OverflowError
  | JBool b => Ok (fofZ (if b then 1 else 0))
  | JFloat f => Ok f
  | JStr s => match fofstr s with Some f => Ok f | None => Err (ValueError "float") end
  | _ => Err TypeError
  end.

(** [int(v)]: NaN and the infinities raise. *)
Definition py_int (v : json F) : res Z :=
  match v with
  | JInt z => Ok z
  | JBool b => Ok (if b then 1 else 0)
  | JFloat f => int_of_float f
  | JStr s => match parse_int 10 s with Some z => Ok z | None => Err (ValueError "int") end
  | _ => Err TypeError
  end.

(** The number a JSON number denotes, for comparisons. *)
Definition num_val (v : json F) : F :=
  match v with
  | JInt z => fofZ z
  | JBool b => fofZ (if b then 1 else 0)
  | JFloat f => f
  | _ => fofZ 0
  end.

(** [a == b] on hashable values. *)
Definition scalar_eqb (a b : json F) : bool :=
  match a, b with
  | JStr s, JStr t => String.eqb s t
  | JNull, JNull => true
  | JBool x, JBool y => Bool.eqb x y
  | JInt x, JInt y => x =? y
  | _, _ => is_num a && is_num b && feqb (num_val a) (num_val b)
  end.

(** [a == b]: lists elementwise, dicts whatever the order of their keys. *)
Fixpoint json_eqb (a b : json F) {struct a} : bool :=
  match a with
  | JList l =>
      match b with
      | JList m => (fix go (l m : list (json F)) : bool :=
                      match l, m with
                      | [], [] => true
                      | x :: l', y :: m' => json_eqb x y && go l' m'
                      | _, _ => false
                      end) l m
      | _ => false
      end
  | JDict d =>
      match b with
      | JDict e => (length d =? length e)%nat &&
                   (fix go (d : list (string * json F)) : bool :=
                      match d with
                      | [] => true
                      | (k, x) :: d' => match dict_get k e with Some y => json_eqb x y | None => false end && go d'
                      end) d
      | _ => false
      end
  | _ => scalar_eqb a b
  end.

(** [v.get(k, default)] on a value known to be a dict; any other value has no
    [get]. *)
Definition obj_get (k : string) (default : json F) (v : json F) : res (json F) :=
  match v with
  | JDict d => Ok (match dict_get k d with Some x => x | None => default end)
  | _ => Err AttributeError
  end.
End Conv.
