(* ===== verification/JsonText.v ===== *)
(** * The text of JSON: [json.dumps] and [json.loads]

    The compact form of the encoder (", " and ": " between items, [ensure_ascii]
    escapes) and the decoder's scanner, on strings of code points below 256.
    [dumps] prints floats with [frepr] ([float.__repr__]); [loads] reads them
    with the float class's reader.  The last of two equal keys wins, in the
    place of the first. *)
From Stdlib Require Import ZArith Lia Bool Ascii String.
From stdpp Require Import base tactics list strings.
From S2P Require Import Prelude PyStr Json.
Open Scope Z_scope.

(** ** Strings *)

Definition hex_char (d : Z) : ascii := ascii_of_N (Z.to_N (if d <? 10 then 48 + d else 87 + d)).

(** [ESCAPE_ASCII]. *)
Definition escape_char (c : ascii) : string :=
  let n := code c in
  if n =? 34 then "\" +:+ String c EmptyString
  else if n =? 92 then "\\"
  else if n =? 10 then "\n"
  else if n =? 13 then "\r"
  else if n =? 9 then "\t"
  else if n =? 12 then "\f"
  else if n =? 8 then "\b"
  else if (32 <=? n) && (n <=? 126) then String c EmptyString
  else "\u00" +:+ String (hex_char (n / 16)) (String (hex_char (n mod 16)) EmptyString).

Fixpoint escape (s : string) : string :=
  match s with EmptyString => EmptyString | String c s => escape_char c +:+ escape s end.

Definition dquote : ascii := ascii_of_N 34.
Definition quoted (s : string) : string := String dquote (escape s +:+ String dquote EmptyString).

Definition hex_val (c : ascii) : option Z := d ← digit_val c; if d <? 16 then Some d else None.

(** The character after a backslash. *)
Definition unescape (c : ascii) : option ascii :=
  let n := code c in
  if (n =? 34) || (n =? 92) || (n =? 47) then Some c
  else if n =? 98 then Some (ascii_of_N 8)
  else if n =? 102 then Some (ascii_of_N 12)
  else if n =? 110 then Some (ascii_of_N 10)
  else if n =? 114 then Some (ascii_of_N 13)
  else if n =? 116 then Some (ascii_of_N 9)
  else None.

(** [scanstring], strict, after the opening quote; code points from 256 on are
    outside the model. *)
Fixpoint scan_string (s : string) : option (string * string) :=
  match s with
  | EmptyString => None
  | String c r =>
      if code c =? 34 then Some (EmptyString, r)
      else if code c =? 92 then
        match r with
        | String e r1 =>
            if code e =? 117 then
              match r1 with
              | String h1 (String h2 (String h3 (String h4 r2))) =>
                  a ← hex_val h1; b ← hex_val h2; x ← hex_val h3; y ← hex_val h4;
                  if (a =? 0) && (b =? 0) then
                    '(t, r3) ← scan_string r2; Some (String (ascii_of_N (Z.to_N (16 * x + y))) t, r3)
                  else None
              | _ => None
              end
            else u ← unescape e; '(t, r2) ← scan_string r1; Some (String u t, r2)
        | EmptyString => None
        end
      else if code c <? 32 then None
      else '(t, r1) ← scan_string r; Some (String c t, r1)
  end.

(** ** Numbers *)

Fixpoint take_digits (s : string) : string * string :=
  match s with
  | String c r => if is_digit c then let '(d, t) := take_digits r in (String c d, t) else (EmptyString, s)
  | EmptyString => (EmptyString, EmptyString)
  end.

(** The sign and integer part, and what follows. *)
Definition scan_int (s : string) : option (string * string) :=
  let '(sign, r) := match s with String c r => if code c =? 45 then (String c EmptyString, r) else (EmptyString, s) | _ => (EmptyString, s) end in
  match r with
  | String c r' =>
      if code c =? 48 then Some (sign +:+ String c EmptyString, r')
      else if is_digit c then let '(d, t) := take_digits r in Some (sign +:+ d, t)
      else None
  | EmptyString => None
  end.

Definition scan_frac (s : string) : string * string :=
  match s with
  | String c r => if code c =? 46 then let '(d, t) := take_digits r in if String.eqb d "" then (EmptyString, s) else (String c d, t)
                  else (EmptyString, s)
  | EmptyString => (EmptyString, s)
  end.

Definition scan_exp (s : string) : string * string :=
  match s with
  | String c r =>
      if (code c =? 101) || (code c =? 69) then
        let '(sign, r1) := match r with
                           | String g r1 => if (code g =? 43) || (code g =? 45) then (String g EmptyString, r1) else (EmptyString, r)
                           | EmptyString => (EmptyString, r)
                           end in
        let '(d, t) := take_digits r1 in
        if String.eqb d "" then (EmptyString, s) else (String c (sign +:+ d), t)
      else (EmptyString, s)
  | EmptyString => (EmptyString, s)
  end.

Section Codec.
Context {F : Type} {PF : PyFloat F}.

Definition scan_number (s : string) : option (json F * string) :=
  '(i, r) ← scan_int s;
  let '(f, r1) := scan_frac r in
  let '(e, r2) := scan_exp r1 in
  if String.eqb f "" && String.eqb e "" then z ← parse_int 10 i; Some (JInt z, r2)
  else x ← fofstr (i +:+ f +:+ e); Some (JFloat x, r2).

(** ** Values *)

Definition is_ws (c : ascii) : bool := let n := code c in (n =? 32) || (n =? 9) || (n =? 10) || (n =? 13).
Fixpoint skip_ws (s : string) : string :=
  match s with String c r => if is_ws c then skip_ws r else s | EmptyString => s end.

(** The tail of [s] after the literal [l]. *)
Fixpoint after (l s : string) : option string :=
  match l, s with
  | EmptyString, _ => Some s
  | String a l, String b s => if ascii_dec a b then after l s else None
  | String _ _, EmptyString => None
  end.

(** Items after the first, up to the closing bracket. *)
Fixpoint elements (pv : string -> option (json F * string)) (n : nat) (s : string) : option (list (json F) * string) :=
  match n with
  | O => None
  | S n =>
      '(v, r) ← pv s;
      match skip_ws r with
      | String c r1 =>
          if code c =? 44 then '(l, r2) ← elements pv n (skip_ws r1); Some (v :: l, r2)
          else if code c =? 93 then Some ([v], r1) else None
      | EmptyString => None
      end
  end.

Fixpoint members (pv : string -> option (json F * string)) (n : nat) (s : string) : option (list (string * json F) * string) :=
  match n, s with
  | S n, String q r =>
      if code q =? 34 then
        '(k, r) ← scan_string r;
        match skip_ws r with
        | String c r1 =>
            if code c =? 58 then
              '(v, r2) ← pv (skip_ws r1);
              match skip_ws r2 with
              | String c2 r3 =>
                  if code c2 =? 44 then '(l, r4) ← members pv n (skip_ws r3); Some ((k, v) :: l, r4)
                  else if code c2 =? 125 then Some ([(k, v)], r3) else None
              | EmptyString => None
              end
            else None
        | EmptyString => None
        end
      else None
  | _, _ => None
  end.

(** [dict(pairs)]. *)
Definition dict_of (l : list (string * json F)) : list (string * json F) :=
  fold_left (fun d kv => dict_set kv.1 kv.2 d) l [].

Definition literals : list (string * option (json F)) :=
  [("null", Some JNull); ("true", Some (JBool true)); ("false", Some (JBool false));
   ("NaN", JFloat <$> fofstr "NaN"); ("Infinity", JFloat <$> fofstr "Infinity"); ("-Infinity", JFloat <$> fofstr "-Infinity")].
Fixpoint scan_literal (ls : list (string * option (json F))) (s : string) : option (json F * string) :=
  match ls with
  | [] => None
  | (t, v) :: ls => match after t s with Some r => x ← v; Some (x, r) | None => scan_literal ls s end
  end.

(** [scan_once]. *)
Fixpoint scan_once (fuel : nat) (s : string) : option (json F * string) :=
  match fuel, s with
  | S f, String c r =>
      if code c =? 34 then '(t, r1) ← scan_string r; Some (JStr t, r1)
      else if code c =? 123 then
        match skip_ws r with
        | String c1 r1 => if code c1 =? 125 then Some (JDict [], r1)
                          else '(l, r2) ← members (scan_once f) f (skip_ws r); Some (JDict (dict_of l), r2)
        | EmptyString => None
        end
      else if code c =? 91 then
        match skip_ws r with
        | String c1 r1 => if code c1 =? 93 then Some (JList [], r1)
                          else '(l, r2) ← elements (scan_once f) f (skip_ws r); Some (JList l, r2)
        | EmptyString => None
        end
      else match scan_literal literals s with Some x => Some x | None => scan_number s end
  | _, _ => None
  end.

(** [None]: [JSONDecodeError].  A value nests and holds no more than its text
    has characters. *)
Definition loads (s : string) : option (json F) :=
  '(v, r) ← scan_once (S (String.length s)) (skip_ws s);
  match skip_ws r with EmptyString => Some v | _ => None end.

Variable frepr : F -> string.

Definition str_int (z : Z) : string := if z <? 0 then "-" +:+ str_nat (- z) else str_nat z.

Fixpoint dumps (j : json F) : string :=
  match j with
  | JNull => "null"
  | JBool true => "true"
  | JBool false => "false"
  | JInt z => str_int z
  | JFloat x => frepr x
  | JStr s => quoted s
  | JList l => "[" +:+ join ", " (map dumps l) +:+ "]"
  | JDict d => "{" +:+ join ", " (map (fun kv => quoted kv.1 +:+ ": " +:+ dumps kv.2) d) +:+ "}"
  end.
End Codec.

(* ------------------------------------------------------------------ *)
(** ** Reading back what was printed *)

Lemma sapp_assoc (a b c : string) : (a +:+ b) +:+ c = a +:+ (b +:+ c).
Proof. induction a as [|x a IH]; [done|]. exact (f_equal (String x) IH). Qed.
Lemma sapp_nil_r (a : string) : a +:+ "" = a.
Proof. induction a as [|x a IH]; [done|]. exact (f_equal (String x) IH). Qed.

Lemma sapp_cons c (a b : string) : String c a +:+ b = String c (a +:+ b).
Proof. done. Qed.
Lemma sapp_nil_l (a : string) : "" +:+ a = a.
Proof. done. Qed.

(** Appends computed as far as their first argument is known. *)
Ltac sapp := repeat first [rewrite sapp_cons | rewrite sapp_nil_l | rewrite sapp_assoc].

Lemma code_bound c : 0 <= code c < 256.
Proof. unfold code. assert (H := N_ascii_bounded c). lia. Qed.
Lemma code_inj c n : code c = Z.of_N n -> c = ascii_of_N n.
Proof. unfold code. intros H. rewrite <- (ascii_N_embedding c). f_equal. lia. Qed.
Lemma ascii_of_code c : ascii_of_N (Z.to_N (code c)) = c.
Proof. unfold code. rewrite N2Z.id. apply ascii_N_embedding. Qed.

Lemma code_hex d : 0 <= d < 16 -> code (hex_char d) = if d <? 10 then 48 + d else 87 + d.
Proof. intros H. unfold code, hex_char. rewrite N_ascii_embedding by (destruct (d <? 10); lia). destruct (d <? 10); lia. Qed.

Lemma hex_val_char d : 0 <= d < 16 -> hex_val (hex_char d) = Some d.
Proof.
  intros H. unfold hex_val, digit_val. rewrite code_hex by done. destruct (Z.ltb_spec d 10).
  - assert (E : (48 <=? 48 + d) && (48 + d <=? 57) = true) by lia. rewrite E. cbn. replace (48 + d - 48) with d by lia.
    destruct (Z.ltb_spec d 16); [done|lia].
  - assert (E : (48 <=? 87 + d) && (87 + d <=? 57) = false) by lia. assert (E' : (97 <=? 87 + d) && (87 + d <=? 122) = true) by lia.
    rewrite E, E'. cbn. replace (87 + d - 87) with d by lia. destruct (Z.ltb_spec d 16); [done|lia].
Qed.

(** One character. *)
Lemma scan_escape c s t r :
  scan_string s = Some (t, r) -> scan_string (escape_char c +:+ s) = Some (String c t, r).
Proof.
  intros H. assert (Hb := code_bound c). unfold escape_char.
  assert (Hc := code_inj c).
  destruct (Z.eqb_spec (code c) 34) as [E|N1]; [rewrite (Hc 34%N E); sapp; cbn; by rewrite H|].
  destruct (Z.eqb_spec (code c) 92) as [E|N2]; [rewrite (Hc 92%N E); sapp; cbn; by rewrite H|].
  destruct (Z.eqb_spec (code c) 10) as [E|N3]; [rewrite (Hc 10%N E); sapp; cbn; by rewrite H|].
  destruct (Z.eqb_spec (code c) 13) as [E|N4]; [rewrite (Hc 13%N E); sapp; cbn; by rewrite H|].
  destruct (Z.eqb_spec (code c) 9) as [E|N5]; [rewrite (Hc 9%N E); sapp; cbn; by rewrite H|].
  destruct (Z.eqb_spec (code c) 12) as [E|N6]; [rewrite (Hc 12%N E); sapp; cbn; by rewrite H|].
  destruct (Z.eqb_spec (code c) 8) as [E|N7]; [rewrite (Hc 8%N E); sapp; cbn; by rewrite H|].
  destruct ((32 <=? code c) && (code c <=? 126)) eqn:Ep.
  - rewrite sapp_cons, sapp_nil_l. cbn [scan_string].
    apply Z.eqb_neq in N1, N2. rewrite N1, N2. destruct (Z.ltb_spec (code c) 32); [lia|]. by rewrite H.
  - assert (H1 : 0 <= code c / 16 < 16) by (split; [apply Z.div_pos; lia|apply Z.div_lt_upper_bound; lia]).
    assert (H2 : 0 <= code c mod 16 < 16) by (apply Z.mod_pos_bound; lia).
    remember (hex_char (code c / 16)) as h1 eqn:E1. remember (hex_char (code c mod 16)) as h2 eqn:E2.
    change (scan_string (String "\" (String "u" (String "0" (String "0" (String h1 (String h2 s)))))) = Some (String c t, r)).
    cbn. rewrite E1, E2, !hex_val_char by done. cbn. rewrite H. cbn.
    rewrite <- (Z.div_mod (code c) 16) by lia. by rewrite ascii_of_code.
Qed.

Lemma scan_quoted s r : scan_string (escape s +:+ String dquote r) = Some (s, r).
Proof.
  induction s as [|c s IH]; [done|]. cbn [escape]. rewrite sapp_assoc. by apply scan_escape.
Qed.

(** What may follow a number. *)
Definition num_end (s : string) : bool :=
  match s with
  | String c _ => negb (is_digit c) && negb (code c =? 46) && negb (code c =? 101) && negb (code c =? 69)
  | EmptyString => true
  end.

Definition no_digit (s : string) : bool := match s with String c _ => negb (is_digit c) | EmptyString => true end.
Lemma num_end_no_digit r : num_end r = true -> no_digit r = true.
Proof. destruct r as [|c r]; [done|]. cbn. by destruct (is_digit c). Qed.

Lemma take_digits_app d r : all_chars is_digit d = true -> no_digit r = true -> take_digits (d +:+ r) = (d, r).
Proof.
  intros Hd Hr. induction d as [|c d IH]; sapp; cbn.
  - destruct r as [|c r]; [done|]. cbn in *. by destruct (is_digit c).
  - cbn in Hd. apply andb_true_iff in Hd as [-> Hd]. by rewrite (IH Hd).
Qed.

Lemma no_fraction r : num_end r = true -> scan_frac r = ("", r) /\ scan_exp r = ("", r).
Proof.
  destruct r as [|c r]; [done|]. cbn. destruct (code c =? 46), (code c =? 101), (code c =? 69), (is_digit c); done.
Qed.

(** The digits of a positive number start with no zero. *)
Lemma dec_go_head f n acc : 0 < n < 10 ^ Z.of_nat f -> exists d t, 1 <= d <= 9 /\ dec_go f n acc = String (digit_char d) t.
Proof.
  revert n acc. induction f as [|f IH]; intros n acc Hn; [cbn in Hn; lia|]. cbn [dec_go].
  rewrite Nat2Z.inj_succ, Z.pow_succ_r in Hn by lia. destruct (Z.ltb_spec n 10) as [|Hge].
  - exists n, acc. rewrite Z.mod_small by lia. split; [lia|done].
  - apply IH. assert (H1 := Z.div_le_lower_bound n 10 1 ltac:(lia) ltac:(lia)). split; [lia|]. apply Z.div_lt_upper_bound; lia.
Qed.

Lemma str_nat_digits n : 0 <= n -> all_chars is_digit (str_nat n) = true.
Proof. intros H. by apply dec_go_digits. Qed.

Lemma parse_str_nat n : 0 <= n -> parse_int 10 (str_nat n) = Some n.
Proof. exact (parse_zfill 0 n). Qed.

Lemma scan_nat n r : 0 <= n -> no_digit r = true ->
  match str_nat n +:+ r with
  | String c r' => if code c =? 48 then Some (String c EmptyString, r')
                   else if is_digit c then let '(d, t) := take_digits (str_nat n +:+ r) in Some (d, t) else None
  | EmptyString => None
  end = Some (str_nat n, r).
Proof.
  intros Hn Hr. destruct (decide (n = 0)) as [->|Hne]; [done|].
  destruct (dec_go_head (S (Z.to_nat (Z.log2 n))) n "") as (d & t & Hd & E); [split; [lia|by apply str_nat_fuel]|].
  assert (Hall := str_nat_digits n Hn). rewrite (take_digits_app _ _ Hall Hr). unfold str_nat in *. rewrite E in *.
  rewrite sapp_cons. cbv iota beta.
  rewrite code_digit_char, is_digit_char by lia. destruct (Z.eqb_spec (48 + d) 48); [lia|done].
Qed.

Lemma nospace_strip s : all_chars (fun c => negb (is_space c)) s = true -> strip s = s.
Proof.
  intros H. unfold strip. assert (Hl : lstrip s = s).
  { destruct s as [|c s]; [done|]. cbn in *. by destruct (is_space c). }
  rewrite Hl. clear Hl. induction s as [|c s IH]; [done|]. cbn in *. apply andb_true_iff in H as [H1 H2].
  rewrite IH by done. destruct s; [by destruct (is_space c)|done].
Qed.

Lemma all_chars_mono (p q : ascii -> bool) s : (forall c, p c = true -> q c = true) -> all_chars p s = true -> all_chars q s = true.
Proof. intros H. induction s as [|c s IH]; [done|]. cbn. rewrite !andb_true_iff. naive_solver. Qed.

Lemma parse_str_int z : parse_int 10 (str_int z) = Some z.
Proof.
  unfold str_int. destruct (Z.ltb_spec z 0); [|by apply parse_str_nat].
  assert (Hd := str_nat_digits (- z) ltac:(lia)). assert (Hp := parse_str_nat (- z) ltac:(lia)).
  rewrite digits_parse_int in Hp by done. unfold parse_int. rewrite nospace_strip; sapp.
  - change (Z.opp <$> parse_unsigned 10 (str_nat (- z)) = Some z).
    assert (E : parse_unsigned 10 (str_nat (- z)) = Some (- z)) by (destruct (str_nat (- z)) as [|? []]; done).
    rewrite E. cbn. f_equal. lia.
  - cbn. revert Hd. apply all_chars_mono. intros c. unfold is_digit, is_space. lia.
Qed.

(** ** Literals of numbers *)

(** An integer part, with its sign. *)
Definition int_literal (i : string) : Prop := exists sign n, (sign = EmptyString \/ sign = "-") /\ 0 <= n /\ i = sign +:+ str_nat n.

Definition digits (d : string) : Prop := all_chars is_digit d = true /\ d <> EmptyString.
Definition frac_literal (f : string) : Prop := exists d, f = "." +:+ d /\ digits d.
Definition exp_literal (e : string) : Prop :=
  exists sign d, e = "e" +:+ sign +:+ d /\ (sign = EmptyString \/ sign = "+" \/ sign = "-") /\ digits d.

(** A float's: with a fraction or an exponent. *)
Definition float_literal (s : string) : Prop :=
  exists i f e, s = i +:+ f +:+ e /\ int_literal i /\ (f = EmptyString \/ frac_literal f) /\ (e = EmptyString \/ exp_literal e) /\ f +:+ e <> EmptyString.

(** [repr] of the floats that [fok] accepts is such a literal, and [float] reads
    it back. *)
Class FloatRepr {F} {PF : PyFloat F} (frepr : F -> string) (fok : F -> bool) : Prop := {
  float_text : forall x, fok x = true -> float_literal (frepr x);
  float_back : forall x, fok x = true -> fofstr (frepr x) = Some x
}.
#[export] Instance no_floats {F} {PF : PyFloat F} (frepr : F -> string) : FloatRepr frepr (fun _ => false).
Proof. by split. Qed.

Lemma str_nat_head n : 0 <= n -> exists d t, 0 <= d <= 9 /\ str_nat n = String (digit_char d) t.
Proof.
  intros Hn. destruct (decide (n = 0)) as [->|]; [exists 0, EmptyString; split; [lia|done]|].
  destruct (dec_go_head (S (Z.to_nat (Z.log2 n))) n "") as (d & t & Hd & E); [split; [lia|by apply str_nat_fuel]|].
  exists d, t. split; [lia|done].
Qed.

Lemma scan_int_literal i r : int_literal i -> no_digit r = true -> scan_int (i +:+ r) = Some (i, r).
Proof.
  intros (sign & n & Hsign & Hn & ->) Hr. assert (Hs := scan_nat n r Hn Hr). unfold scan_int. destruct Hsign as [-> | ->]; sapp.
  - destruct (str_nat n +:+ r) as [|c r']; [done|].
    destruct (Z.eqb_spec (code c) 45) as [E45|]; [exfalso; unfold is_digit in Hs; by rewrite E45 in Hs|].
    destruct (code c =? 48); [by injection Hs as <- <-|]. destruct (is_digit c); [|done]. destruct (take_digits _). by injection Hs as -> ->.
  - change (code "-" =? 45) with true. cbv iota beta.
    destruct (str_nat n +:+ r) as [|c r']; [done|]. destruct (code c =? 48); [by injection Hs as <- <-|].
    destruct (is_digit c); [|done]. destruct (take_digits _). by injection Hs as -> ->.
Qed.

Lemma str_int_literal z : int_literal (str_int z).
Proof. unfold str_int. destruct (Z.ltb_spec z 0); [exists "-", (- z)|exists EmptyString, z]; (split; [auto|]); (split; [lia|done]). Qed.

Lemma scan_frac_literal f r : frac_literal f -> no_digit r = true -> scan_frac (f +:+ r) = (f, r).
Proof.
  intros (d & -> & Hd & Hne) Hr. sapp. unfold scan_frac. change (code "." =? 46) with true. cbv iota.
  rewrite take_digits_app by done. by destruct (String.eqb_spec d "").
Qed.

Lemma scan_exp_literal e r : exp_literal e -> no_digit r = true -> scan_exp (e +:+ r) = (e, r).
Proof.
  intros (sign & d & -> & Hs & Hd & Hne) Hr. unfold scan_exp. sapp. change ((code "e" =? 101) || (code "e" =? 69)) with true. cbv iota.
  destruct Hs as [-> |[-> | ->]]; sapp.
  - destruct d as [|c d]; [done|]. rewrite sapp_cons. cbn [all_chars] in Hd. assert (Hc : is_digit c = true) by (by apply andb_true_iff in Hd as [? _]).
    assert (E : (code c =? 43) || (code c =? 45) = false) by (unfold is_digit in Hc; lia). rewrite E, <- sapp_cons, take_digits_app by done. done.
  - change ((code "+" =? 43) || (code "+" =? 45)) with true. cbv iota. rewrite take_digits_app by done. by destruct (String.eqb_spec d "").
  - change ((code "-" =? 43) || (code "-" =? 45)) with true. cbv iota. rewrite take_digits_app by done. by destruct (String.eqb_spec d "").
Qed.

(** A number starts like no literal. *)
Lemma int_head s i r : scan_int s = Some (i, r) -> exists c t, s = String c t /\
  (is_digit c = true \/ (code c = 45 /\ exists d t', t = String d t' /\ is_digit d = true)).
Proof.
  unfold scan_int. destruct s as [|c s]; [done|]. intros H. exists c, s. split; [done|].
  assert (Hd : forall x, (x =? 48) = true -> (48 <=? x) && (x <=? 57) = true) by lia.
  destruct (Z.eqb_spec (code c) 45) as [E|E].
  - right. split; [done|]. destruct s as [|d s]; [done|]. exists d, s. split; [done|].
    destruct (code d =? 48) eqn:E0; [by apply Hd|by destruct (is_digit d)].
  - left. destruct (code c =? 48) eqn:E0; [by apply Hd|by destruct (is_digit c)].
Qed.

Lemma after_ne a b l s : a <> b -> after (String a l) (String b s) = None.
Proof. intros H. cbn. by destruct (ascii_dec a b). Qed.

Section RoundTrip.
Context {F : Type} {PF : PyFloat F} (frepr : F -> string) (fok : F -> bool) {FR : FloatRepr frepr fok}.

Lemma literals_none s t : is_Some (scan_int s) -> scan_literal literals (s +:+ t) = None :> option (json F * string).
Proof.
  intros [[i r] Hi]. destruct (int_head s i r Hi) as (c & s' & -> & Hc). rewrite sapp_cons. unfold literals. cbn [scan_literal].
  destruct Hc as [Hd|(Ec & d & s'' & -> & Hd)].
  - by repeat rewrite after_ne by (intros <-; done).
  - apply (code_inj c 45%N) in Ec as ->. repeat rewrite after_ne by done. cbn [after]. destruct (ascii_dec "-" (ascii_of_N 45)) as [_|]; [|done].
    rewrite sapp_cons. cbn [after]. by destruct (ascii_dec "I" d) as [<-|].
Qed.

(** With the distinct keys a dict has, and floats that [fok] accepts. *)
Fixpoint plain (j : json F) : bool :=
  match j with
  | JFloat x => fok x
  | JList l => forallb plain l
  | JDict d => bool_decide (NoDup (dict_keys d)) && forallb (fun kv => plain kv.2) d
  | _ => true
  end.

Fixpoint jsize (j : json F) : nat :=
  match j with
  | JList l => S (fold_right (fun x n => jsize x + S n)%nat O l)
  | JDict d => S (fold_right (fun kv n => jsize kv.2 + S n)%nat O d)
  | _ => 1
  end.

Lemma scan_str_int z r : num_end r = true -> scan_number (str_int z +:+ r) = Some (JInt z : json F, r).
Proof.
  intros Hr. destruct (no_fraction r Hr) as [Hf He]. unfold scan_number.
  rewrite scan_int_literal; [|apply str_int_literal|by apply num_end_no_digit]. cbn. rewrite Hf, He. cbn. by rewrite parse_str_int.
Qed.

Lemma scan_float x r : fok x = true -> num_end r = true -> scan_number (frepr x +:+ r) = Some (JFloat x, r).
Proof.
  intros Hx Hr. destruct (no_fraction r Hr) as [Hf He]. assert (Hd := num_end_no_digit r Hr).
  assert (Hb := float_back x Hx). destruct (float_text x Hx) as (i & f & e & E & Hi & Hfl & Hel & Hne). rewrite E in *. unfold scan_number. sapp.
  assert (Hed : no_digit (e +:+ r) = true) by (destruct Hel as [-> |(sg & d & -> & _)]; sapp; done).
  assert (Hfd : no_digit (f +:+ e +:+ r) = true) by (destruct Hfl as [-> |(d & -> & _)]; sapp; done).
  rewrite scan_int_literal by done. cbn [mbind option_bind].
  assert (Hsf : scan_frac (f +:+ e +:+ r) = (f, e +:+ r)).
  { destruct Hfl as [-> |Hfl]; [|by apply scan_frac_literal]. sapp. destruct Hel as [-> |(sg & d & -> & _)]; sapp; [done|]. reflexivity. }
  assert (Hse : scan_exp (e +:+ r) = (e, r)) by (destruct Hel as [-> |Hel]; [done|by apply scan_exp_literal]).
  rewrite Hsf, Hse. assert (Hb' : String.eqb f "" && String.eqb e "" = false).
  { destruct (String.eqb_spec f "") as [->|]; [|done]. destruct (String.eqb_spec e "") as [->|]; [|done]. done. }
  rewrite Hb', Hb. done.
Qed.

(** How a printed value starts: with no whitespace and no closing bracket. *)
Definition starts (s : string) : bool :=
  match s with String c _ => negb (is_ws c) && negb (code c =? 93) && negb (code c =? 125) | EmptyString => false end.

Lemma number_starts s (v : json F) r : scan_number s = Some (v, r) -> starts s = true.
Proof.
  unfold scan_number. destruct (scan_int s) as [[i r0]|] eqn:Ei; [|done]. intros _. destruct (int_head s i r0 Ei) as (c & t & -> & Hc).
  cbn. unfold is_ws. destruct Hc as [Hc|[Hc _]]; unfold is_digit in *; lia.
Qed.

Lemma dumps_starts j r : plain j = true -> starts (dumps frepr j +:+ r) = true.
Proof.
  destruct j as [| [] |z|x|s|l|d]; intros Hp; try done; cbn [dumps].
  - destruct (str_int_literal z) as (sign & n & [-> | ->] & Hn & ->); sapp; [|done]. destruct (str_nat_head n Hn) as (d & t & Hd & ->). sapp.
    cbn [starts]. unfold is_ws. rewrite code_digit_char by lia. lia.
  - destruct (float_text x Hp) as (i & f & e & -> & (sign & n & [-> | ->] & Hn & ->) & _); sapp; [|done].
    destruct (str_nat_head n Hn) as (d & t & Hd & ->). sapp. cbn [starts]. unfold is_ws. rewrite code_digit_char by lia. lia.
Qed.

Lemma skip_starts s : starts s = true -> skip_ws s = s.
Proof. destruct s as [|c s]; [done|]. cbn. by destruct (is_ws c). Qed.

Lemma scan_once_number f s (v : json F) r : scan_number s = Some (v, r) -> scan_once (S f) s = Some (v, r).
Proof.
  intros Hn. assert (Hi : is_Some (scan_int s)) by (unfold scan_number in Hn; destruct (scan_int s); [by eexists|done]).
  assert (Hl := literals_none s "" Hi). rewrite sapp_nil_r in Hl. destruct Hi as [[i r0] Hi].
  destruct (int_head s i r0 Hi) as (c & t & -> & Hc). cbn [scan_once].
  assert (H1 : (code c =? 34) = false) by (unfold is_digit in Hc; lia).
  assert (H2 : (code c =? 123) = false) by (unfold is_digit in Hc; lia).
  assert (H3 : (code c =? 91) = false) by (unfold is_digit in Hc; lia).
  by rewrite H1, H2, H3, Hl.
Qed.

(** Lists and dicts, given that their items are read back. *)
Definition reads (pv : string -> option (json F * string)) (j : json F) : Prop :=
  forall r, num_end r = true -> pv (dumps frepr j +:+ r) = Some (j, r).

Lemma join_cons sep x y l : join sep (x :: y :: l) = x +:+ sep +:+ join sep (y :: l).
Proof. done. Qed.

Lemma elements_read pv n l r :
  l <> [] -> (length l <= n)%nat -> Forall (fun x => plain x = true /\ reads pv x) l ->
  elements pv n (join ", " (map (dumps frepr) l) +:+ "]" +:+ r) = Some (l, r).
Proof.
  revert n. induction l as [|x l IH]; intros n Hne Hn Hl; [done|]. destruct n as [|n]; [cbn in Hn; lia|].
  apply Forall_cons in Hl as [[Hp Hx] Hl]. destruct l as [|y l].
  - cbn [map join elements]. rewrite Hx by done. done.
  - cbn [map]. rewrite join_cons. sapp. cbn [elements]. rewrite Hx by done. cbn [mbind option_bind skip_ws].
    change (is_ws ",") with false. change (code "," =? 44) with true. cbv iota beta. cbn [skip_ws].
    change (is_ws " ") with true. cbv iota. specialize (IH n ltac:(done) ltac:(cbn in *; lia) Hl).
    assert (Hs : starts (join ", " (map (dumps frepr) (y :: l)) +:+ "]" +:+ r) = true).
    { apply Forall_cons in Hl as [[Hy _] _]. cbn [map]. destruct l as [|w l]; [by apply dumps_starts|].
      cbn [map]. rewrite join_cons. sapp. by apply dumps_starts. }
    change (dumps frepr y :: map (dumps frepr) l) with (map (dumps frepr) (y :: l)).
    revert IH Hs. sapp. intros IH Hs. by rewrite (skip_starts _ Hs), IH.
Qed.
Definition member (kv : string * json F) : string := quoted kv.1 +:+ ": " +:+ dumps frepr kv.2.

Lemma members_read pv n d r :
  d <> [] -> (length d <= n)%nat -> Forall (fun kv => plain kv.2 = true /\ reads pv kv.2) d ->
  members pv n (join ", " (map member d) +:+ "}" +:+ r) = Some (d, r).
Proof.
  revert n. induction d as [|[k x] d IH]; intros n Hne Hn Hl; [done|]. destruct n as [|n]; [cbn in Hn; lia|].
  apply Forall_cons in Hl as [[Hp Hx] Hl]. cbn [snd] in *.
  assert (Hhead : forall r', num_end r' = true ->
    members pv (S n) (member (k, x) +:+ r') =
      match skip_ws r' with
      | String c2 r3 => if code c2 =? 44 then '(l, r4) ← members pv n (skip_ws r3); Some ((k, x) :: l, r4)
                        else if code c2 =? 125 then Some ([(k, x)], r3) else None
      | EmptyString => None
      end).
  { intros r' Hr'. unfold member, quoted. cbn [fst snd]. sapp. cbn [members]. change (code dquote =? 34) with true. cbv iota.
    rewrite scan_quoted. cbn [mbind option_bind skip_ws]. change (is_ws ":") with false. change (code ":" =? 58) with true. cbv iota.
    cbn [skip_ws]. change (is_ws " ") with true. cbv iota. rewrite (skip_starts _ (dumps_starts x r' Hp)), (Hx r' Hr'). done. }
  destruct d as [|kv d].
  - cbn [map join]. rewrite Hhead by done. done.
  - cbn [map]. rewrite join_cons. sapp. rewrite Hhead by done. cbn [skip_ws].
    change (is_ws ",") with false. change (code "," =? 44) with true. cbv iota. cbn [skip_ws].
    change (is_ws " ") with true. cbv iota. specialize (IH n ltac:(done) ltac:(cbn in *; lia) Hl).
    assert (Hs : forall t, starts (join ", " (map member (kv :: d)) +:+ t) = true) by (intros t; by destruct d).
    specialize (Hs ("}" +:+ r)). change (member kv :: map member d) with (map member (kv :: d)).
    revert IH Hs. sapp. intros IH Hs. by rewrite (skip_starts _ Hs), IH.
Qed.

Lemma dict_of_app (l d : list (string * json F)) :
  NoDup (dict_keys (d ++ l)) -> fold_left (fun d kv => dict_set kv.1 kv.2 d) l d = d ++ l.
Proof.
  revert d. induction l as [|[k v] l IH]; intros d Hn; cbn; [by rewrite app_nil_r|].
  assert (Hk : k ∉ dict_keys d).
  { intros Hin. unfold dict_keys in *. rewrite map_app in Hn. apply NoDup_app in Hn as (_ & Hn & _). apply (Hn k Hin). by left. }
  assert (Hs : dict_set k v d = d ++ [(k, v)]).
  { clear -Hk. induction d as [|[k' v'] d IH]; [done|]. cbn in *. apply not_elem_of_cons in Hk as [H1 H2].
    destruct (String.eqb_spec k k'); [done|]. by rewrite IH. }
  rewrite Hs, IH; rewrite <- app_assoc; done.
Qed.

Lemma items_small {A} (g : A -> json F) (l : list A) n :
  (fold_right (fun x n => jsize (g x) + S n)%nat O l <= n)%nat -> (length l <= n)%nat /\ Forall (fun x => (jsize (g x) <= n)%nat) l.
Proof.
  revert n. induction l as [|x l IH]; intros n Hn; cbn in *; [split; [lia|done]|].
  destruct (IH (n - 1 - jsize (g x))%nat ltac:(lia)) as [H1 H2]. split; [lia|]. constructor; [lia|].
  eapply Forall_impl; [exact H2|]. cbn. lia.
Qed.

Lemma scan_dumps f j r :
  plain j = true -> (jsize j <= f)%nat -> num_end r = true -> scan_once f (dumps frepr j +:+ r) = Some (j, r).
Proof.
  revert j r. induction f as [|f IH]; intros j r Hp Hf Hr; [destruct j; cbn in Hf; lia|].
  destruct j as [| [] |z|x|s|l|d]; try done.
  - by apply scan_once_number, scan_str_int.
  - by apply scan_once_number, scan_float.
  - unfold dumps, quoted. sapp. cbn [scan_once]. change (code dquote =? 34) with true. cbv iota. by rewrite scan_quoted.
  - cbn [jsize plain] in *. destruct (items_small (fun x => x) l f ltac:(lia)) as [Hl Hs]. rewrite forallb_forall in Hp.
    destruct l as [|x l]; [done|].
    assert (He : Forall (fun x => plain x = true /\ reads (scan_once f) x) (x :: l)).
    { rewrite List.Forall_forall in *. intros y Hy. split; [by apply Hp|].
      intros r' Hr'. apply IH; auto. }
    assert (Hx := elements_read (scan_once f) f (x :: l) r ltac:(done) Hl He).
    assert (Hst : starts (join ", " (map (dumps frepr) (x :: l)) +:+ "]" +:+ r) = true).
    { apply Forall_cons in He as [[Hy _] _]. cbn [map]. destruct l as [|w l]; [by apply dumps_starts|].
      cbn [map]. rewrite join_cons. sapp. by apply dumps_starts. }
    cbn [dumps]. revert Hx Hst. sapp. intros Hx Hst. cbn [scan_once]. change (code "[" =? 34) with false.
    change (code "[" =? 123) with false. change (code "[" =? 91) with true. cbv iota. rewrite (skip_starts _ Hst).
    destruct (join _ _ +:+ _) as [|c t]; [done|]. cbn in Hst. destruct (code c =? 93); [by destruct (is_ws c)|]. by rewrite Hx.
  - cbn [jsize plain] in *. destruct (items_small snd d f ltac:(lia)) as [Hl Hs]. apply andb_true_iff in Hp as [Hk Hp].
    rewrite forallb_forall in Hp. apply bool_decide_eq_true in Hk. destruct d as [|kv d]; [done|].
    assert (He : Forall (fun kv => plain kv.2 = true /\ reads (scan_once f) kv.2) (kv :: d)).
    { rewrite List.Forall_forall in *. intros y Hy. split; [by apply Hp|].
      intros r' Hr'. apply IH; auto. }
    assert (Hx := members_read (scan_once f) f (kv :: d) r ltac:(done) Hl He).
    assert (Hst : forall t, starts (join ", " (map member (kv :: d)) +:+ t) = true) by (intros t; by destruct d).
    specialize (Hst ("}" +:+ r)). cbn [dumps].
    change (map (fun kv => quoted kv.1 +:+ ": " +:+ dumps frepr kv.2) (kv :: d)) with (map member (kv :: d)).
    revert Hx Hst. sapp. intros Hx Hst. cbn [scan_once]. change (code "{" =? 34) with false.
    change (code "{" =? 123) with true. cbv iota. rewrite (skip_starts _ Hst).
    destruct (join _ _ +:+ _) as [|c t]; [done|]. cbn in Hst. destruct (code c =? 125); [by rewrite andb_false_r in Hst|]. rewrite Hx.
    cbn [mbind option_bind]. unfold dict_of. by rewrite dict_of_app.
Qed.

(** A value's text has at least as many characters as it has parts. *)
Lemma str_len a b : String.length (a +:+ b) = (String.length a + String.length b)%nat.
Proof. induction a as [|c a IH]; [done|]. rewrite sapp_cons. cbn. by rewrite IH. Qed.

Lemma str_int_len z : (1 <= String.length (str_int z))%nat.
Proof.
  unfold str_int. destruct (Z.ltb_spec z 0); [rewrite str_len; cbn; lia|].
  destruct (str_nat_head z ltac:(lia)) as (d & t & _ & ->). cbn. lia.
Qed.

Lemma join_len (l : list string) (sz : list nat) :
  Forall2 (fun s n => (n <= String.length s)%nat) l sz ->
  (fold_right (fun n m => n + S m)%nat O sz <= String.length (join ", " l) + 1)%nat.
Proof.
  induction 1 as [|s n l sz Hs Hl IH]; [cbn; lia|]. destruct l as [|s' l].
  - inversion Hl; subst. cbn in *. lia.
  - rewrite join_cons, !str_len. cbn [fold_right String.length] in *. lia.
Qed.

Lemma jsize_ind (P : json F -> Prop) :
  (forall j, (forall j', (jsize j' < jsize j)%nat -> P j') -> P j) -> forall j, P j.
Proof. intros H j. by apply (well_founded_ind (well_founded_ltof _ jsize)). Qed.

Lemma dumps_len j : plain j = true -> (jsize j <= String.length (dumps frepr j))%nat.
Proof.
  induction j as [j IH] using jsize_ind. destruct j as [| [] |z|x|s|l|d]; intros Hp; try (cbn; lia); try done.
  - apply str_int_len.
  - destruct (dumps frepr (JFloat x)) eqn:E; [|cbn; lia]. assert (H := dumps_starts (JFloat x) "" Hp). by rewrite E in H.
  - cbn [plain jsize dumps] in *. rewrite forallb_forall in Hp. rewrite !str_len. change (String.length "[") with 1%nat. change (String.length "]") with 1%nat.
    assert (Hj := join_len (map (dumps frepr) l) (map jsize l)). rewrite foldr_fmap in Hj.
    cut (Forall2 (fun s n => (n <= String.length s)%nat) (map (dumps frepr) l) (map jsize l)); [intros H; specialize (Hj H); lia|].
    apply Forall2_fmap, Forall_Forall2_diag, List.Forall_forall. intros x Hx. apply IH; [|by apply Hp].
    destruct (items_small (fun x => x) l _ (le_n _)) as [_ Hs]. rewrite List.Forall_forall in Hs. specialize (Hs x Hx). cbn [jsize]. lia.
  - cbn [plain jsize dumps] in *. apply andb_true_iff in Hp as [_ Hp]. rewrite forallb_forall in Hp. rewrite !str_len.
    change (String.length "{") with 1%nat. change (String.length "}") with 1%nat.
    assert (Hj := join_len (map member d) (map (fun kv => jsize kv.2) d)). rewrite foldr_fmap in Hj.
    change (map (fun kv => quoted kv.1 +:+ ": " +:+ dumps frepr kv.2) d) with (map member d).
    cut (Forall2 (fun s n => (n <= String.length s)%nat) (map member d) (map (fun kv => jsize kv.2) d)); [intros H; specialize (Hj H); lia|].
    apply Forall2_fmap, Forall_Forall2_diag, List.Forall_forall. intros x Hx. unfold member. rewrite !str_len.
    cut (jsize x.2 <= String.length (dumps frepr x.2))%nat; [lia|]. apply IH; [|by apply Hp].
    destruct (items_small snd d _ (le_n _)) as [_ Hs]. rewrite List.Forall_forall in Hs. specialize (Hs x Hx). cbn [jsize]. lia.
Qed.

(** What is printed is read back, with whitespace around it or not. *)
Theorem loads_dumps j r :
  plain j = true -> skip_ws r = EmptyString -> loads (dumps frepr j +:+ r) = Some j.
Proof.
  intros Hp Hr. unfold loads. rewrite (skip_starts _ (dumps_starts j r Hp)).
  rewrite scan_dumps; [cbn; by rewrite Hr|done|rewrite str_len; assert (H := dumps_len j Hp); lia|].
  destruct r as [|c r]; [done|]. cbn in *. destruct (is_ws c) eqn:E; [|done]. unfold is_ws, is_digit in *. lia.
Qed.

(** The text is of printable ASCII: on one line. *)
Definition printable (c : ascii) : bool := (32 <=? code c) && (code c <=? 126).

Lemma all_chars_sapp p (a b : string) : all_chars p (a +:+ b) = all_chars p a && all_chars p b.
Proof. induction a as [|c a IH]; [done|]. rewrite sapp_cons. cbn. by rewrite IH, andb_assoc. Qed.

Lemma hex_printable d : 0 <= d < 16 -> printable (hex_char d) = true.
Proof. intros H. unfold printable. rewrite code_hex by done. destruct (d <? 10) eqn:E; lia. Qed.

Lemma quoted_printable s : all_chars printable (quoted s) = true.
Proof.
  unfold quoted. cbn [all_chars]. rewrite all_chars_sapp. change (printable dquote) with true. cbn. rewrite andb_true_r.
  induction s as [|c s IH]; [done|]. cbn [escape]. rewrite all_chars_sapp, IH, andb_true_r. assert (Hb := code_bound c).
  unfold escape_char. destruct (Z.eqb_spec (code c) 34) as [E|]; [by rewrite (code_inj c 34%N E)|].
  repeat match goal with |- context [if ?x =? ?y then ?t else _] => destruct (x =? y); [done|] end.
  destruct ((32 <=? code c) && (code c <=? 126)) eqn:Ep; [cbn; unfold printable; by rewrite Ep|].
  rewrite all_chars_sapp. cbn [all_chars]. rewrite !hex_printable; [done|apply Z.mod_pos_bound; lia|].
  split; [apply Z.div_pos; lia|apply Z.div_lt_upper_bound; lia].
Qed.

Lemma digits_printable d : all_chars is_digit d = true -> all_chars printable d = true.
Proof. apply all_chars_mono. intros c. unfold is_digit, printable. lia. Qed.

Lemma float_printable s : float_literal s -> all_chars printable s = true.
Proof.
  intros (i & f & e & -> & (sign & n & Hs & Hn & ->) & Hf & He & _). rewrite !all_chars_sapp.
  rewrite (digits_printable (str_nat n)) by (by apply str_nat_digits).
  assert (E1 : all_chars printable sign = true) by (by destruct Hs as [-> | ->]).
  assert (E2 : all_chars printable f = true) by (destruct Hf as [-> |(d & -> & Hd & _)]; [done|]; by rewrite all_chars_sapp, (digits_printable d) by done).
  assert (E3 : all_chars printable e = true).
  { destruct He as [-> |(sg & d & -> & Hsg & Hd & _)]; [done|]. rewrite !all_chars_sapp, (digits_printable d) by done. by destruct Hsg as [-> |[-> | ->]]. }
  by rewrite E1, E2, E3.
Qed.

Lemma join_printable l : Forall (fun s => all_chars printable s = true) l -> all_chars printable (join ", " l) = true.
Proof.
  induction 1 as [|s l Hs Hl IH]; [done|]. destruct l as [|s' l]; [done|].
  rewrite join_cons, !all_chars_sapp, Hs, IH. done.
Qed.

Lemma dumps_printable j : plain j = true -> all_chars printable (dumps frepr j) = true.
Proof.
  induction j as [j IH] using jsize_ind. destruct j as [| [] |z|x|s|l|d]; intros Hp; try done.
  - cbn [dumps]. unfold str_int. assert (Hd : forall n, 0 <= n -> all_chars printable (str_nat n) = true).
    { intros n Hn. by apply digits_printable, str_nat_digits. }
    destruct (Z.ltb_spec z 0); [rewrite all_chars_sapp, Hd by lia; done|by apply Hd].
  - apply float_printable. exact (float_text x Hp).
  - apply quoted_printable.
  - cbn [plain dumps] in *. rewrite forallb_forall in Hp. rewrite !all_chars_sapp, join_printable; [done|].
    apply Forall_fmap, List.Forall_forall. intros x Hx. apply IH; [|by apply Hp].
    destruct (items_small (fun x => x) l _ (le_n _)) as [_ Hs]. rewrite List.Forall_forall in Hs. specialize (Hs x Hx). cbn [jsize]. lia.
  - cbn [plain dumps] in *. apply andb_true_iff in Hp as [_ Hp]. rewrite forallb_forall in Hp.
    rewrite !all_chars_sapp, join_printable; [done|]. apply Forall_fmap, List.Forall_forall. intros x Hx. cbn.
    rewrite !all_chars_sapp, quoted_printable. cbn. apply IH; [|by apply Hp].
    destruct (items_small snd d _ (le_n _)) as [_ Hs]. rewrite List.Forall_forall in Hs. specialize (Hs x Hx). cbn [jsize]. lia.
Qed.
End RoundTrip.
