(* ===== verification/Url.v ===== *)
(** * urllib.parse as the code uses it, and the endpoint parsers

    [urlsplit], [urlparse] and [parse_qs] on ASCII text, and on top of them the
    [_parse_endpoint] that dynlink/stats_client.py and wfb/cli.py both have.
    Whether the library accepts a bracketed host is an argument. *)
From Stdlib Require Import ZArith Lia Bool Ascii String.
From stdpp Require Import base tactics list sets strings.
From S2P Require Import Prelude PyStr Json JsonText.
Open Scope Z_scope.

(** ** Characters *)

Definition is_alpha (c : ascii) : bool := let n := code (lower_ascii c) in (97 <=? n) && (n <=? 122).
Definition scheme_char (c : ascii) : bool :=
  is_alpha c || is_digit c || (code c =? 43) || (code c =? 45) || (code c =? 46).

Fixpoint lstrip_if (p : ascii -> bool) (s : string) : string :=
  match s with String c s' => if p c then lstrip_if p s' else s | EmptyString => EmptyString end.
Fixpoint remove_if (p : ascii -> bool) (s : string) : string :=
  match s with EmptyString => EmptyString | String c s' => if p c then remove_if p s' else String c (remove_if p s') end.

(** [s] up to the first character of [p], and from there on. *)
Fixpoint break (p : ascii -> bool) (s : string) : string * string :=
  match s with
  | EmptyString => (EmptyString, EmptyString)
  | String c s' => if p c then (EmptyString, s) else let '(h, t) := break p s' in (String c h, t)
  end.
Definition tail_of (s : string) : string := match s with EmptyString => EmptyString | String _ t => t end.
Definition is_char (n : Z) (c : ascii) : bool := code c =? n.
Definition unsafe_char (c : ascii) : bool := is_char 9 c || is_char 10 c || is_char 13 c.
Definition has_char (n : Z) (s : string) : bool := negb (all_chars (fun c => negb (is_char n c)) s).

(** ** Splitting a URL *)

Record split_result := mkSplit { sr_scheme : string; sr_netloc : string; sr_path : string; sr_query : string; sr_fragment : string }.

(** A scheme: letters first, no other character before the colon. *)
Definition split_scheme (url : string) : string * string :=
  let '(h, t) := break (is_char 58) url in
  match h, t with
  | String c _, String _ rest => if is_alpha c && all_chars scheme_char h then (lower h, rest) else (EmptyString, url)
  | _, _ => (EmptyString, url)
  end.

Definition netloc_end (c : ascii) : bool := is_char 47 c || is_char 63 c || is_char 35 c.

Section Urls.
Variable bracket_ok : string -> bool.

Definition check_brackets (netloc : string) : res unit :=
  if negb (Bool.eqb (has_char 91 netloc) (has_char 93 netloc)) then Err (ValueError "Invalid IPv6 URL")
  else if has_char 91 netloc && negb (bracket_ok netloc) then Err (ValueError "bracketed host") else Ok tt.

Definition urlsplit (url : string) : res split_result :=
  let url := remove_if unsafe_char (lstrip_if (fun c => code c <=? 32) url) in
  let '(scheme, url) := split_scheme url in
  let '(netloc, url) := if String.prefix "//" url then break netloc_end (tail_of (tail_of url)) else (EmptyString, url) in
  check_brackets netloc ;;;
  let '(url, fragment) := break (is_char 35) url in
  let '(path, query) := break (is_char 63) url in
  Ok (mkSplit scheme netloc path (tail_of query) (tail_of fragment)).

(** [urlparse] cuts the parameters of the last segment, for the schemes that
    have them. *)
Definition uses_params : list string :=
  [""; "ftp"; "hdl"; "prospero"; "http"; "https"; "shttp"; "rtsp"; "rtspu"; "sip"; "sips"; "mms"; "sftp"; "tel"].
Definition cut_params (path : string) : string :=
  let '(dir, found, last) := rpartition_char "/"%char path in
  let last := (break (is_char 59) last).1 in
  if found then dir +:+ "/" +:+ last else last.

Definition urlparse (url : string) : res split_result :=
  let* r := urlsplit url in
  Ok (if bool_decide (sr_scheme r ∈ uses_params)
      then mkSplit (sr_scheme r) (sr_netloc r) (cut_params (sr_path r)) (sr_query r) (sr_fragment r) else r).

(** ** The host and the port of a netloc *)

Definition hostinfo (netloc : string) : string * string :=
  let info := let '(_, found, t) := rpartition_char "@"%char netloc in t in
  let '(_, bracketed) := break (is_char 91) info in
  match bracketed with
  | EmptyString => let '(h, t) := break (is_char 58) info in (h, tail_of t)
  | String _ rest => let '(h, t) := break (is_char 93) rest in (h, tail_of (break (is_char 58) (tail_of t)).2)
  end.

(** [hostname]: lower case up to a zone; [None] when empty. *)
Definition hostname (r : split_result) : option string :=
  match (hostinfo (sr_netloc r)).1 with
  | EmptyString => None
  | h => let '(name, zone) := break (is_char 37) h in Some (lower name +:+ zone)
  end.

Definition port (r : split_result) : res (option Z) :=
  match (hostinfo (sr_netloc r)).2 with
  | EmptyString => Ok None
  | p => if isdigit p
         then match parse_int 10 p with
              | Some n => if n <=? 65535 then Ok (Some n) else Err (ValueError "Port out of range 0-65535")
              | None => Err (ValueError "Port could not be cast to integer value")
              end
         else Err (ValueError "Port could not be cast to integer value")
  end.

(** ** The endpoint parsers *)

Definition BAD_ENDPOINT : pyerr := ValueError "endpoint must be tcp://host:port".

Definition _parse_endpoint (url : string) : res (string * Z) :=
  let url := if contains "://" url then url else "tcp://" +:+ url in
  let* parsed := urlparse url in
  if negb (String.eqb (sr_scheme parsed) "tcp") then Err (ValueError "unsupported scheme")
  else match hostname parsed with
       | None => Err BAD_ENDPOINT
       | Some host =>
           let* p := port parsed in
           match p with
           | None => Err BAD_ENDPOINT
           | Some n => if n =? 0 then Err BAD_ENDPOINT else Ok (host, n)
           end
       end.
End Urls.

(** ** A query *)

Fixpoint unquote (s : string) : string :=
  match s with
  | EmptyString => EmptyString
  | String c s' =>
      match s' with
      | String h (String l rest) =>
          if is_char 37 c
          then match digit_val h, digit_val l with
               | Some a, Some b => if (a <? 16) && (b <? 16) then String (ascii_of_N (Z.to_N (16 * a + b))) (unquote rest)
                                   else String c (unquote s')
               | _, _ => String c (unquote s')
               end
          else String c (unquote s')
      | _ => String c (unquote s')
      end
  end.
Fixpoint plus_spaces (s : string) : string :=
  match s with EmptyString => EmptyString | String c s' => String (if is_char 43 c then " "%char else c) (plus_spaces s') end.

(** One field; [None]: without a value, dropped. *)
Definition query_field (f : string) : option (string * string) :=
  match break (is_char 61) f with
  | (name, String _ value) => match value with EmptyString => None | _ => Some (unquote (plus_spaces name), unquote (plus_spaces value)) end
  | _ => None
  end.

Fixpoint add_field (d : list (string * list string)) (k v : string) : list (string * list string) :=
  match d with
  | [] => [(k, [v])]
  | (k', vs) :: d' => if String.eqb k k' then (k', vs ++ [v]) :: d' else (k', vs) :: add_field d' k v
  end.
Definition parse_qs (q : string) : list (string * list string) :=
  fold_left (fun d kv => add_field d kv.1 kv.2) (omap query_field (split "&"%char q)) [].

Example parse_endpoint_default : _parse_endpoint (fun _ => false) "tcp://127.0.0.1:8103" = Ok ("127.0.0.1", 8103).
Proof. reflexivity. Qed.
Example parse_endpoint_port0 : _parse_endpoint (fun _ => false) "GS:0" = Err BAD_ENDPOINT.
Proof. reflexivity. Qed.
Example parse_endpoint_udp : _parse_endpoint (fun _ => false) "udp://a:1" = Err (ValueError "unsupported scheme").
Proof. reflexivity. Qed.
Example parse_endpoint_v6 : _parse_endpoint (fun _ => true) "tcp://u@[FE80::1%Eth0]:81/x" = Ok ("fe80::1%Eth0", 81).
Proof. reflexivity. Qed.
Example parse_qs_some : parse_qs "pending=true&x&a=%41+b&pending=no" = [("pending", ["true"; "no"]); ("a", ["A b"])].
Proof. reflexivity. Qed.

(* ------------------------------------------------------------------ *)
(** ** What an endpoint is read as *)

Definition host_char (c : ascii) : bool := is_alpha c || is_digit c || (code c =? 45) || (code c =? 46) || (code c =? 95).

Lemma break_app p a b : all_chars (fun c => negb (p c)) a = true -> break p (a +:+ b) = (a +:+ (break p b).1, (break p b).2).
Proof.
  induction a as [|c a IH]; [intros _; apply surjective_pairing|]. cbn. intros [Hc%negb_true_iff Ha]%andb_prop. rewrite !sapp_cons. cbn. by rewrite Hc, IH.
Qed.

Lemma break_none p a : all_chars (fun c => negb (p c)) a = true -> break p a = (a, EmptyString).
Proof. induction a as [|c a IH]; cbn; [done|]. intros [Hc%negb_true_iff Ha]%andb_prop. by rewrite Hc, IH. Qed.

Lemma remove_if_app p a b : remove_if p (a +:+ b) = remove_if p a +:+ remove_if p b.
Proof. induction a as [|c a IH]; [done|]. rewrite sapp_cons. cbn. destruct (p c); rewrite IH; [done|by rewrite sapp_cons]. Qed.

Lemma remove_if_none p a : all_chars (fun c => negb (p c)) a = true -> remove_if p a = a.
Proof. induction a as [|c a IH]; cbn; [done|]. intros [Hc%negb_true_iff Ha]%andb_prop. by rewrite Hc, IH. Qed.

Lemma rpartition_none sep s : all_chars (fun c => negb (bool_decide (c = sep))) s = true -> rpartition_char sep s = (EmptyString, false, s).
Proof.
  induction s as [|c s IH]; cbn; [done|]. intros [Hc Hs]%andb_prop. rewrite IH by done.
  destruct (ascii_dec c sep); [|done]. by rewrite bool_decide_eq_true_2 in Hc.
Qed.

(** The characters of [host:port], none of which delimits a part of a URL. *)
Definition word_char (c : ascii) : bool := host_char c || is_char 58 c.

Lemma word_char_not n c :
  word_char c = true -> n ∉ [45; 46; 95; 58] -> (n < 48 \/ 57 < n) -> (n < 65 \/ 90 < n) -> (n < 97 \/ 122 < n) -> is_char n c = false.
Proof.
  intros H Hn H1 H2 H3. unfold is_char. apply Z.eqb_neq. intros E.
  unfold word_char, host_char, is_alpha, is_digit, is_char, lower_ascii in H. rewrite E in H.
  assert (n <> 45 /\ n <> 46 /\ n <> 95 /\ n <> 58) by (split_and!; intros ->; apply Hn; set_solver). revert H.
  destruct ((65 <=? n) && (n <=? 90)) eqn:E2; [lia|]. rewrite E. lia.
Qed.

Lemma word_without n s :
  all_chars word_char s = true -> n ∉ [45; 46; 95; 58] -> (n < 48 \/ 57 < n) -> (n < 65 \/ 90 < n) -> (n < 97 \/ 122 < n) ->
  all_chars (fun c => negb (is_char n c)) s = true.
Proof. intros H ? ? ? ?. eapply all_chars_mono, H. intros c Hc. by rewrite word_char_not. Qed.

Lemma host_colon s : all_chars host_char s = true -> all_chars (fun c => negb (is_char 58 c)) s = true.
Proof.
  apply all_chars_mono. intros c Hc. unfold is_char. apply negb_true_iff, Z.eqb_neq. intros E.
  unfold host_char, is_alpha, is_digit, lower_ascii in Hc. rewrite E in Hc. cbn in Hc. by rewrite E in Hc.
Qed.

Lemma digit_host c : is_digit c = true -> host_char c = true.
Proof. unfold host_char. intros ->. by rewrite orb_true_r. Qed.

Lemma word_netloc h d : all_chars host_char h = true -> all_chars is_digit d = true -> all_chars word_char (h +:+ ":" +:+ d) = true.
Proof.
  intros Hh Hd. rewrite !all_chars_sapp. cbn. rewrite andb_true_iff. unfold word_char.
  split; eapply all_chars_mono; [|done| |done]; intros c Hc; [by rewrite Hc|by rewrite digit_host].
Qed.

(** What is found has its characters. *)
Lemma contains_slash s : contains "://" s = true -> has_char 47 s = true.
Proof.
  unfold has_char. induction s as [|c s IH]; [done|]. cbn [contains all_chars]. rewrite negb_andb, negb_involutive, !orb_true_iff.
  intros [H|H]; [|right; by apply IH]. right. cbn [String.prefix] in H. destruct (ascii_dec ":" c); [|done].
  destruct s as [|c1 s]; [done|]. cbn [String.prefix] in H. destruct (ascii_dec "/" c1) as [<-|]; done.
Qed.

Lemma hostname_nonempty r h : hostname r = Some h -> h <> EmptyString.
Proof.
  unfold hostname. destruct (hostinfo _).1 as [|c t]; [done|]. cbn [break]. destruct (is_char 37 c); [by intros [= <-]|].
  destruct (break _ t). intros [= <-]. by rewrite sapp_cons.
Qed.

Lemma parse_digits_nonneg s acc prev n : 0 <= acc -> parse_digits 10 s acc prev = Some n -> 0 <= n.
Proof.
  revert acc prev. induction s as [|c s IH]; intros acc prev Ha; cbn; [destruct prev; naive_solver|].
  destruct (code c =? 95); [destruct prev; [by apply IH|done]|]. destruct (digit_val c) as [d|] eqn:Ed; [|done].
  destruct (d <? 10); [|done]. apply IH. unfold digit_val in Ed. repeat case_match; simplify_eq; lia.
Qed.

Lemma port_range r n : port r = Ok (Some n) -> 0 <= n <= 65535.
Proof.
  unfold port. destruct (hostinfo _).2 as [|c t] eqn:E; [done|]. rewrite <- E. clear E c t. generalize (hostinfo (sr_netloc r)).2. intros p.
  destruct (isdigit p) eqn:Ed; [|done]. destruct (parse_int 10 p) as [m|] eqn:Ep; [|done].
  destruct (Z.leb_spec m 65535); [|done]. intros [= <-]. split; [|done].
  destruct p as [|c p]; [done|]. rewrite digits_parse_int in Ep by done. by eapply parse_digits_nonneg in Ep.
Qed.

Ltac absent := apply word_without; [done|set_solver|lia|lia|lia].

Section Endpoints.
Variable bracket_ok : string -> bool.

(** The netloc [h:d]. *)
Lemma hostinfo_word h d : all_chars host_char h = true -> all_chars is_digit d = true -> hostinfo (h +:+ ":" +:+ d) = (h, d).
Proof.
  intros Hh Hd. assert (Hw := word_netloc h d Hh Hd).
  unfold hostinfo. rewrite rpartition_none.
  2: { eapply all_chars_mono, (word_without 64); [|done|set_solver|lia..]. intros c Hc. apply negb_true_iff, bool_decide_eq_false_2. by intros ->. }
  rewrite (break_none (is_char 91)) by absent. rewrite break_app by by apply host_colon. cbn. by rewrite sapp_nil_r.
Qed.

Lemma split_tcp x : split_scheme ("tcp://" +:+ x) = ("tcp", "//" +:+ x).
Proof. vm_compute. reflexivity. Qed.

Lemma slashes x : String.prefix "//" ("//" +:+ x) = true.
Proof. destruct x; vm_compute; reflexivity. Qed.
Lemma tail_slashes x : tail_of (tail_of ("//" +:+ x)) = x.
Proof. vm_compute. reflexivity. Qed.
Lemma tcp_has_scheme x : contains "://" ("tcp://" +:+ x) = true.
Proof. destruct x; vm_compute; reflexivity. Qed.

(** [tcp://h:d] with a path or nothing behind it. *)
Lemma urlparse_word h d rest :
  all_chars host_char h = true -> all_chars is_digit d = true -> (rest = EmptyString \/ exists t, rest = String "/" t) ->
  exists r, urlparse bracket_ok ("tcp://" +:+ h +:+ ":" +:+ d +:+ rest) = Ok r /\ sr_scheme r = "tcp" /\ sr_netloc r = h +:+ ":" +:+ d.
Proof.
  intros Hh Hd Hr. set (w := h +:+ ":" +:+ d). replace (h +:+ ":" +:+ d +:+ rest) with (w +:+ rest) by (unfold w; by sapp).
  assert (Hw : all_chars word_char w = true) by by apply word_netloc.
  unfold urlparse, urlsplit. cbn [lstrip_if].
  change (lstrip_if _ ("tcp://" +:+ w +:+ rest)) with ("tcp://" +:+ w +:+ rest).
  rewrite remove_if_app, remove_if_app, (remove_if_none _ w).
  2: { apply (all_chars_mono word_char); [|done]. intros c Hc. unfold unsafe_char.
       rewrite (word_char_not 9), (word_char_not 10), (word_char_not 13); done || set_solver || lia. }
  change (remove_if unsafe_char "tcp://") with "tcp://".
  rewrite split_tcp.
  cbv beta iota. rewrite slashes, tail_slashes. cbv iota.
  rewrite break_app.
  2: { apply (all_chars_mono word_char); [|done]. intros c Hc. unfold netloc_end.
       rewrite (word_char_not 47), (word_char_not 63), (word_char_not 35); done || set_solver || lia. }
  assert (E : (break netloc_end (remove_if unsafe_char rest)).1 = EmptyString) by (destruct Hr as [->|[t ->]]; done).
  rewrite E, sapp_nil_r. unfold check_brackets, has_char.
  rewrite !word_without by (done || set_solver || lia). cbn.
  destruct (break (is_char 35) _) as [url fr]. destruct (break (is_char 63) url) as [pth q]. cbn. by eexists.
Qed.

Lemma endpoint_read h n rest :
  h <> EmptyString -> all_chars host_char h = true -> 1 <= n <= 65535 -> (rest = EmptyString \/ exists t, rest = String "/" t) ->
  _parse_endpoint bracket_ok ("tcp://" +:+ h +:+ ":" +:+ str_nat n +:+ rest) = Ok (lower h, n).
Proof.
  intros Hne Hh Hn Hr. assert (Hd := str_nat_digits n ltac:(lia)).
  unfold _parse_endpoint. rewrite tcp_has_scheme.
  destruct (urlparse_word h (str_nat n) rest Hh Hd Hr) as (r & E1 & E2 & E). rewrite E1. cbn [rbind]. rewrite E2.
  change (negb (String.eqb "tcp" "tcp")) with false. cbv iota.
  unfold hostname, port. rewrite E, hostinfo_word by done. cbn [fst snd].
  destruct h as [|c h]; [done|]. rewrite break_none by (apply word_without; [|set_solver|lia..]; eapply all_chars_mono, Hh; intros c' Hc'; unfold word_char; by rewrite Hc').
  rewrite sapp_nil_r. destruct (str_nat_head n ltac:(lia)) as (d0 & t & Hd0 & Es). rewrite Es. unfold isdigit. rewrite <- Es, Hd, parse_str_nat by lia.
  rewrite (proj2 (Z.leb_le n 65535)) by lia. cbn [rbind]. rewrite (proj2 (Z.eqb_neq n 0)) by lia. done.
Qed.

(** Every [host:port] and [tcp://host:port/...] is read as the host in lower
    case and the port; and what is read is a host and a port from 1 to 65535. *)
Theorem endpoint_parser :
  (forall h n, h <> EmptyString -> all_chars host_char h = true -> 1 <= n <= 65535 ->
     _parse_endpoint bracket_ok (h +:+ ":" +:+ str_nat n) = Ok (lower h, n) /\
     forall rest, rest = EmptyString \/ (exists t, rest = String "/" t) ->
       _parse_endpoint bracket_ok ("tcp://" +:+ h +:+ ":" +:+ str_nat n +:+ rest) = Ok (lower h, n)) /\
  (forall url h n, _parse_endpoint bracket_ok url = Ok (h, n) -> h <> EmptyString /\ 1 <= n <= 65535).
Proof.
  split.
  - intros h n Hne Hh Hn. split; [|intros rest Hr; by apply endpoint_read].
    rewrite <- (endpoint_read h n EmptyString) by (done || by left). rewrite sapp_nil_r.
    unfold _parse_endpoint at 1. destruct (contains "://" (h +:+ ":" +:+ str_nat n)) eqn:Ec.
    + exfalso. apply contains_slash in Ec. unfold has_char in Ec.
      rewrite (word_without 47) in Ec; [done| |set_solver|lia..]. by apply word_netloc; [|apply str_nat_digits; lia].
    + unfold _parse_endpoint. by rewrite tcp_has_scheme.
  - intros url h n. unfold _parse_endpoint. intros (r & _ & H)%rbind_ok. case_match; [done|].
    destruct (hostname r) as [h'|] eqn:Eh; [|done]. apply rbind_ok in H as ([m|] & Hp & H); [|done].
    destruct (Z.eqb_spec m 0) as [|Hm]; simplify_eq. split; [by eapply hostname_nonempty|]. apply port_range in Hp. lia.
Qed.
End Endpoints.
