(* ===== verification/OsdGlyphs.v ===== *)
(** * drone/tools/osd_glyphs_verify.py

    The check of the OSD's icon constants against a font: the header's lines are
    searched for the constants, and each code point is looked up in the font's
    character map, which is an argument.  Text is ASCII. *)
From Stdlib Require Import ZArith Lia Bool Ascii String.
From stdpp Require Import base tactics list sets strings.
From S2P Require Import Prelude PyStr Json JsonText Url.
Open Scope Z_scope.

Definition word (c : ascii) : bool := is_alpha c || is_digit c || is_char 95 c.
Definition hex_digit (c : ascii) : bool := match digit_val c with Some d => d <? 16 | None => false end.
Definition name_char (c : ascii) : bool := word c || is_char 45 c.

(** The longest prefix of characters of [p], which may not be empty. *)
Definition some_of (p : ascii -> bool) (s : string) : option (string * string) :=
  match break (fun c => negb (p c)) s with (EmptyString, _) => None | hr => Some hr end.

Fixpoint take_n (n : nat) (s : string) : option (string * string) :=
  match n, s with
  | O, _ => Some (EmptyString, s)
  | S n, String c s => hr ← take_n n s; Some (String c hr.1, hr.2)
  | S _, EmptyString => None
  end.

(** [LINE_RE] at the start of [s]; none of its parts can match shorter and let
    the next one succeed. *)
Definition glyph_at (s : string) : option (string * Z * string) :=
  s ← after "kGlyph" s;
  w ← some_of word s;
  s ← after "=" (lstrip w.2);
  s ← after ("u8" +:+ String dquote "\U") (lstrip s);
  h ← take_n 8 s;
  (if all_chars hex_digit h.1 then Some tt else None) ≫= fun _ =>
  s ← after (String dquote ";") h.2;
  s ← after "//" (lstrip s);
  n ← some_of name_char (lstrip s);
  cp ← parse_int 16 h.1;
  Some ("kGlyph" +:+ w.1, cp, n.1).

(** [LINE_RE.search]. *)
Fixpoint glyph_in (s : string) : option (string * Z * string) :=
  match glyph_at s with
  | Some g => Some g
  | None => match s with EmptyString => None | String _ s => glyph_in s end
  end.

Definition parse_header (lines : list string) : list (string * Z * string) := omap glyph_in lines.

Section Check.
Variable cmap : list (Z * string).

Fixpoint cmap_get (cp : Z) (l : list (Z * string)) : option string :=
  match l with [] => None | (c, n) :: l => if c =? cp then Some n else cmap_get cp l end.

Definition matches (e : string * Z * string) : bool := bool_decide (cmap_get e.1.2 cmap = Some e.2).

(** [byname.get(name)]: the last code point of that name. *)
Definition byname (name : string) : option Z :=
  fold_left (fun acc cn => if String.eqb cn.2 name then Some cn.1 else acc) cmap None.

(** [if fix]: code point 0 counts as absent. *)
Definition suggestion (e : string * Z * string) : option Z :=
  match byname e.2 with Some c => if c =? 0 then None else Some c | None => None end.

Inductive verdict := NothingParsed | Mismatch (bad : list ((string * Z * string) * option Z)) | AllResolve (n : Z).

Definition osd_main (lines : list string) : Z * verdict :=
  match parse_header lines with
  | [] => (2, NothingParsed)
  | entries =>
      match List.filter (fun e => negb (matches e)) entries with
      | [] => (0, AllResolve (Z.of_nat (length entries)))
      | bad => (1, Mismatch (map (fun e => (e, suggestion e)) bad))
      end
  end.

(** ** What the exit code says *)

Lemma byname_from name l acc : NoDup (map fst l) ->
  fold_left (fun acc cn => if String.eqb cn.2 name then Some cn.1 else acc) l acc = acc \/
  exists c, fold_left (fun acc cn => if String.eqb cn.2 name then Some cn.1 else acc) l acc = Some c /\ cmap_get c l = Some name.
Proof.
  revert acc. induction l as [|[c n] l IH]; intros acc Hn; [by left|]. apply NoDup_cons in Hn as [Hc Hn]. cbn [fold_left snd fst].
  destruct (IH (if String.eqb n name then Some c else acc) Hn) as [E|(c' & E & Hg)]; rewrite E.
  - destruct (String.eqb_spec n name) as [->|]; [right|by left]. exists c. cbn. by rewrite Z.eqb_refl.
  - right. exists c'. split; [done|]. cbn. destruct (Z.eqb_spec c c') as [->|]; [|done]. exfalso. apply Hc. clear - Hg.
    induction l as [|[c n'] l IH]; [done|]. cbn in *. destruct (Z.eqb_spec c c') as [->|]; [by left|right; by apply IH].
Qed.

(** The check passes exactly when the header has constants and each of them is
    named in the font as its comment says; otherwise every mismatch is listed,
    and a suggested code point is one the font has under the expected name. *)
Theorem glyph_check lines : NoDup (map fst cmap) ->
  ((osd_main lines).1 = 0 <-> parse_header lines <> [] /\ Forall (fun e => cmap_get e.1.2 cmap = Some e.2) (parse_header lines)) /\
  (forall bad, (osd_main lines).2 = Mismatch bad ->
     (forall e, e ∈ map fst bad <-> e ∈ parse_header lines /\ cmap_get e.1.2 cmap <> Some e.2) /\
     forall e c, (e, Some c) ∈ bad -> cmap_get c cmap = Some e.2).
Proof.
  intros Hnd. unfold osd_main. destruct (parse_header lines) as [|e0 es] eqn:Ep; [split; [split; [done|by intros [? _]]|done]|].
  rewrite <- Ep. assert (Hne : parse_header lines <> []) by (by rewrite Ep). clear Ep e0 es.
  assert (Hb : forall e, e ∈ List.filter (fun e => negb (matches e)) (parse_header lines) <-> e ∈ parse_header lines /\ cmap_get e.1.2 cmap <> Some e.2).
  { intros e. rewrite !list_elem_of_In, filter_In. unfold matches. rewrite negb_true_iff, bool_decide_eq_false. done. }
  destruct (List.filter _ _) as [|b bad0] eqn:Ef; cbn [fst snd].
  - split; [|done]. split; [|done]. intros _. split; [done|]. apply Forall_forall. intros e He.
    destruct (decide (cmap_get e.1.2 cmap = Some e.2)) as [|Hx]; [done|]. exfalso. by apply (not_elem_of_nil e), Hb.
  - split.
    + split; [done|]. intros [_ Hall]. exfalso. destruct (proj1 (Hb b) ltac:(by left)) as [Hin Hx]. rewrite Forall_forall in Hall. by apply Hx, Hall.
    + intros bad [= <-]. split.
      * intros e. change ((b, suggestion b) :: map (fun e => (e, suggestion e)) bad0) with (map (fun e => (e, suggestion e)) (b :: bad0)).
        rewrite map_map, map_id. apply Hb.
      * intros e c. change ((b, suggestion b) :: map (fun e => (e, suggestion e)) bad0) with (map (fun e => (e, suggestion e)) (b :: bad0)).
        intros (e' & [= -> Hs] & _)%list_elem_of_In%in_map_iff. unfold suggestion, byname in Hs.
        destruct (byname_from e.2 cmap None Hnd) as [E|(c' & E & Hg)]; rewrite E in Hs; [done|]. by destruct (c' =? 0); simplify_eq.
Qed.
End Check.

Example speed_line :
  glyph_in ("inline constexpr const char* kGlyphSpeed = u8" +:+ String dquote ("\U000F04C5" +:+ String dquote ";   // md-speedometer (cap)")) =
  Some ("kGlyphSpeed", 984261, "md-speedometer").
Proof. reflexivity. Qed.
