(* ===== verification/JsonPrefix.v ===== *)
(** * A JSON object cut short is not JSON

    The decoder's scanner answers the same on a longer text, once the value it
    read is closed by a bracket or followed by something that is no part of a
    number.  So no proper prefix of a printed object parses. *)
From Stdlib Require Import ZArith Lia Bool Ascii String.
From stdpp Require Import base tactics list strings.
From S2P Require Import Prelude PyStr Json JsonText.
Open Scope Z_scope.

Section More.
Context {F : Type} {PF : PyFloat F}.
Implicit Types s r t : string.

(** What follows a value that is settled. *)
Definition settled (r : string) : bool := match r with EmptyString => false | _ => num_end r end.

Lemma skip_more s t c r : skip_ws s = String c r -> skip_ws (s +:+ t) = String c (r +:+ t).
Proof. induction s as [|a s IH]; [done|]. rewrite sapp_cons. cbn [skip_ws]. destruct (is_ws a); [done|]. by intros [= -> ->]. Qed.

Lemma string_more s t x r : scan_string s = Some (x, r) -> scan_string (s +:+ t) = Some (x, r +:+ t).
Proof.
  revert x r. induction s as [s IH] using (well_founded_ind (well_founded_ltof _ String.length)). unfold ltof in IH.
  intros x r. destruct s as [|c s]; [done|]. rewrite sapp_cons. cbn [scan_string].
  destruct (code c =? 34); [by intros [= <- <-]|]. destruct (code c =? 92).
  - destruct s as [|e s]; [done|]. rewrite sapp_cons. destruct (code e =? 117).
    + destruct s as [|h1 [|h2 [|h3 [|h4 s]]]]; try done. sapp.
      destruct (hex_val h1), (hex_val h2), (hex_val h3), (hex_val h4); try done. cbn [mbind option_bind].
      destruct (_ && _); [|done]. destruct (scan_string s) as [[y r']|] eqn:E; [|done]. cbn. intros [= <- <-].
      by rewrite (IH s ltac:(cbn; lia) _ _ E).
    + destruct (unescape e); [|done]. cbn. destruct (scan_string s) as [[y r']|] eqn:E; [|done]. cbn. intros [= <- <-].
      by rewrite (IH s ltac:(cbn; lia) _ _ E).
  - destruct (code c <? 32); [done|]. destruct (scan_string s) as [[y r']|] eqn:E; [|done]. cbn. intros [= <- <-].
    by rewrite (IH s ltac:(cbn; lia) _ _ E).
Qed.

Lemma digits_more s t d r : take_digits s = (d, r) -> r <> EmptyString -> take_digits (s +:+ t) = (d, r +:+ t).
Proof.
  revert d. induction s as [|c s IH]; intros d; [by intros [= <- <-]|]. rewrite sapp_cons. cbn [take_digits].
  destruct (is_digit c); [|by intros [= <- <-]]. destruct (take_digits s) as [d' r']. intros [= <- <-] Hr. by rewrite (IH d').
Qed.

Lemma int_more s t i r : scan_int s = Some (i, r) -> r <> EmptyString -> scan_int (s +:+ t) = Some (i, r +:+ t).
Proof.
  assert (Hn : forall sign s', match s' with
      | String c r' => if code c =? 48 then Some (sign +:+ String c EmptyString, r')
                       else if is_digit c then let '(d, t) := take_digits s' in Some (sign +:+ d, t) else None
      | EmptyString => None end = Some (i, r) -> r <> EmptyString ->
      match s' +:+ t with
      | String c r' => if code c =? 48 then Some (sign +:+ String c EmptyString, r')
                       else if is_digit c then let '(d, t) := take_digits (s' +:+ t) in Some (sign +:+ d, t) else None
      | EmptyString => None end = Some (i, r +:+ t)).
  { intros sign s' Hs Hr. destruct s' as [|c s']; [done|]. rewrite sapp_cons. destruct (code c =? 48); [by injection Hs as <- <-|].
    destruct (is_digit c); [|done]. destruct (take_digits (String c s')) as [d r'] eqn:E. injection Hs as <- <-.
    assert (Hm := digits_more _ t _ _ E Hr). rewrite sapp_cons in Hm. by rewrite Hm. }
  intros Hs Hr. unfold scan_int in *. destruct s as [|c s]; [done|]. rewrite sapp_cons.
  destruct (code c =? 45); [by apply Hn|]. apply (Hn EmptyString (String c s)); done.
Qed.

Definition after_int (r : string) : bool := match r with EmptyString => false | String c _ => negb (code c =? 46) && negb (is_digit c) end.

Lemma frac_more s t f r : scan_frac s = (f, r) -> after_int r = true -> scan_frac (s +:+ t) = (f, r +:+ t).
Proof.
  unfold scan_frac. destruct s as [|c s]; [by intros [= <- <-]|]. rewrite sapp_cons.
  destruct (code c =? 46) eqn:Ec; [|by intros [= <- <-]]. destruct (take_digits s) as [d r'] eqn:E.
  destruct (String.eqb_spec d "") as [->|Hd]; intros [= <- <-] Hr; [cbn in Hr; by rewrite Ec in Hr|].
  rewrite (digits_more s t d r' E) by (by intros ->). by destruct (String.eqb_spec d "").
Qed.

Lemma exp_more s t e r : scan_exp s = (e, r) -> settled r = true -> scan_exp (s +:+ t) = (e, r +:+ t).
Proof.
  unfold scan_exp. destruct s as [|c s]; [by intros [= <- <-]|]. rewrite sapp_cons.
  destruct ((code c =? 101) || (code c =? 69)) eqn:Ec; [|by intros [= <- <-]].
  assert (Hno : settled (String c s) = true -> False) by (cbn; intros; lia).
  destruct s as [|g s].
  - cbn. intros [= <- <-] Hr. done.
  - rewrite sapp_cons. destruct ((code g =? 43) || (code g =? 45)).
    + destruct (take_digits s) as [d r'] eqn:E. destruct (String.eqb_spec d "") as [->|Hd]; intros [= <- <-] Hr; [done|].
      rewrite (digits_more s t d r' E) by (by intros ->). by destruct (String.eqb_spec d "").
    + destruct (take_digits (String g s)) as [d r'] eqn:E. destruct (String.eqb_spec d "") as [->|Hd]; intros [= <- <-] Hr; [done|].
      assert (Hm := digits_more _ t _ _ E ltac:(by intros ->)). rewrite sapp_cons in Hm. rewrite Hm. by destruct (String.eqb_spec d "").
Qed.

(** Where the fraction and the exponent leave the text. *)
Lemma exp_rest s e r : scan_exp s = (e, r) -> settled r = true -> after_int s = true.
Proof.
  unfold scan_exp. destruct s as [|c s]; [by intros [= <- <-]|].
  destruct ((code c =? 101) || (code c =? 69)) eqn:Ec; [intros _ _; cbn; unfold is_digit; lia|].
  intros [= <- <-]. unfold settled, after_int, num_end. intros Hr. destruct (is_digit c), (code c =? 46); done.
Qed.

Lemma frac_rest s f r : scan_frac s = (f, r) -> r <> EmptyString -> s <> EmptyString.
Proof. by intros H Hr ->; injection H as <- <-. Qed.

Lemma number_more s t (v : json F) r : scan_number s = Some (v, r) -> settled r = true -> scan_number (s +:+ t) = Some (v, r +:+ t).
Proof.
  intros Hs Hr. unfold scan_number in *. destruct (scan_int s) as [[i r0]|] eqn:Ei; [|done]. cbn in Hs.
  destruct (scan_frac r0) as [f r1] eqn:Ef. destruct (scan_exp r1) as [e r2] eqn:Ee.
  assert (E2 : r2 = r) by (destruct (_ && _); [destruct (parse_int 10 i)|destruct (fofstr _)]; cbn in Hs; congruence). subst r2.
  assert (H1 := exp_rest _ _ _ Ee Hr). assert (Hne : r1 <> EmptyString) by (by intros ->).
  rewrite (int_more s t i r0 Ei (frac_rest _ _ _ Ef Hne)). cbn. rewrite (frac_more _ t _ _ Ef H1), (exp_more _ t _ _ Ee Hr).
  destruct (_ && _); [destruct (parse_int 10 i)|destruct (fofstr _)]; cbn in *; congruence.
Qed.

(** ** Literals *)

Lemma after_split l s r : after l s = Some r -> s = l +:+ r.
Proof.
  revert s. induction l as [|a l IH]; intros s; [by intros [= <-]|]. destruct s as [|b s]; [done|]. cbn.
  destruct (ascii_dec a b) as [->|]; [|done]. intros H. by rewrite sapp_cons, (IH s H).
Qed.

Lemma literal_more s t (v : json F) r : scan_literal literals s = Some (v, r) -> scan_literal literals (s +:+ t) = Some (v, r +:+ t).
Proof.
  unfold literals. cbn [scan_literal]. intros H.
  repeat match type of H with
    match after ?l s with _ => _ end = _ =>
      destruct (after l s) as [r0|] eqn:E;
        [apply after_split in E; subst s; destruct_or? H; revert H; sapp; cbn;
         try (by intros [= <- <-]); match goal with |- context [fofstr ?x] => destruct (fofstr x); [by intros [= <- <-]|done] end
        |clear E]
    end.
  done.
Qed.

(** ** Values *)

Definition container (v : json F) : bool := match v with JDict _ | JList _ => true | _ => false end.

Definition extends (pv pv' : string -> option (json F * string)) : Prop :=
  pv EmptyString = None /\ forall s t v r, pv s = Some (v, r) -> settled r || container v = true -> pv' (s +:+ t) = Some (v, r +:+ t).

(** A delimiter follows what it settles. *)
Lemma skip_settled r c r' : skip_ws r = String c r' -> (code c = 44 \/ code c = 93 \/ code c = 125) -> settled r = true.
Proof.
  destruct r as [|a r]; [done|]. cbn. destruct (is_ws a) eqn:Ew.
  - intros _ _. unfold is_ws, is_digit in *. lia.
  - intros [= -> ->] Hc. unfold is_digit. lia.
Qed.

Lemma elements_more pv pv' n n' s t l r :
  extends pv pv' -> (n <= n')%nat -> elements pv n s = Some (l, r) -> elements pv' n' (s +:+ t) = Some (l, r +:+ t).
Proof.
  intros [Hnil Hx]. revert n' s l. induction n as [|n IH]; intros n' s l Hn He; [done|]. destruct n' as [|n']; [lia|]. cbn [elements] in *.
  destruct (pv s) as [[v r0]|] eqn:Ev; [|done]. cbn in He. destruct (skip_ws r0) as [|c r1] eqn:Es; [done|].
  assert (Hset : code c = 44 \/ code c = 93 -> settled r0 = true) by (intros ?; eapply skip_settled; [done|lia]).
  destruct (Z.eqb_spec (code c) 44) as [Hc|].
  - rewrite (Hx s t v r0 Ev) by (by rewrite Hset; [|left]). cbn. rewrite (skip_more _ t _ _ Es). apply Z.eqb_eq in Hc. rewrite Hc.
    destruct (elements pv n (skip_ws r1)) as [[l' r2]|] eqn:El; [|done]. cbn in He. injection He as <- <-.
    assert (Hsk : skip_ws (r1 +:+ t) = skip_ws r1 +:+ t).
    { destruct (skip_ws r1) as [|c' r'] eqn:E'; [destruct n; [done|cbn in El; by rewrite Hnil in El]|]. by apply skip_more. }
    rewrite Hsk, (IH n' (skip_ws r1) l' ltac:(lia) El). done.
  - destruct (Z.eqb_spec (code c) 93) as [Hc|]; [|done]. injection He as <- <-.
    rewrite (Hx s t v r0 Ev) by (by rewrite Hset; [|right]). cbn. rewrite (skip_more _ t _ _ Es).
    apply Z.eqb_neq in n0. apply Z.eqb_eq in Hc. by rewrite n0, Hc.
Qed.

Lemma members_more pv pv' n n' s t l r :
  extends pv pv' -> (n <= n')%nat -> members pv n s = Some (l, r) -> members pv' n' (s +:+ t) = Some (l, r +:+ t).
Proof.
  intros [Hnil Hx]. revert n' s l. induction n as [|n IH]; intros n' s l Hn He; [done|]. destruct n' as [|n']; [lia|].
  destruct s as [|q s]; [done|]. rewrite sapp_cons. cbn [members] in *. destruct (code q =? 34); [|done].
  destruct (scan_string s) as [[k r0]|] eqn:Ek; [|done]. cbn in He. rewrite (string_more _ t _ _ Ek). cbn.
  destruct (skip_ws r0) as [|c r1] eqn:Es; [done|]. rewrite (skip_more _ t _ _ Es). destruct (code c =? 58); [|done].
  destruct (skip_ws r1) as [|c1 r1'] eqn:E1; [by rewrite Hnil in He|]. rewrite (skip_more _ t _ _ E1), <- sapp_cons.
  destruct (pv (String c1 r1')) as [[v r2]|] eqn:Ev; [|done]. cbn in He. destruct (skip_ws r2) as [|c2 r3] eqn:E2; [done|].
  assert (Hset : code c2 = 44 \/ code c2 = 125 -> settled r2 = true) by (intros ?; eapply skip_settled; [done|lia]).
  destruct (Z.eqb_spec (code c2) 44) as [Hc|Hc].
  - rewrite (Hx _ t v r2 Ev) by (by rewrite Hset; [|left]). cbn. rewrite (skip_more _ t _ _ E2). apply Z.eqb_eq in Hc. rewrite Hc.
    destruct (members pv n (skip_ws r3)) as [[l' r4]|] eqn:El; [|done]. cbn in He. injection He as <- <-.
    destruct (skip_ws r3) as [|c' r'] eqn:E'; [by destruct n|].
    rewrite (skip_more _ t _ _ E'), <- sapp_cons, (IH n' (String c' r') l' ltac:(lia) El). done.
  - destruct (Z.eqb_spec (code c2) 125) as [Hc'|]; [|done]. injection He as <- <-.
    rewrite (Hx _ t v r2 Ev) by (by rewrite Hset; [|right]). cbn. rewrite (skip_more _ t _ _ E2).
    apply Z.eqb_neq in Hc. apply Z.eqb_eq in Hc'. by rewrite Hc, Hc'.
Qed.

Lemma scan_more f f' : (f <= f')%nat -> extends (scan_once f) (scan_once f').
Proof.
  revert f'. induction f as [|f IH]; intros f' Hf; [by split|]. destruct f' as [|f']; [lia|]. split; [done|].
  specialize (IH f' ltac:(lia)). intros s t v r Hs Hr. destruct s as [|c s]; [done|]. rewrite sapp_cons. cbn [scan_once] in *.
  destruct (code c =? 34).
  { destruct (scan_string s) as [[x r0]|] eqn:E; [|done]. cbn in Hs. injection Hs as <- <-. by rewrite (string_more _ t _ _ E). }
  destruct (code c =? 123).
  { destruct (skip_ws s) as [|c1 r1] eqn:E; [done|]. rewrite (skip_more _ t _ _ E). destruct (code c1 =? 125); [by injection Hs as <- <-|].
    destruct (members _ _ _) as [[l r2]|] eqn:Em; [|done]. cbn in Hs. injection Hs as <- <-. rewrite <- sapp_cons.
    by rewrite (members_more _ _ f f' _ t _ _ IH ltac:(lia) Em). }
  destruct (code c =? 91).
  { destruct (skip_ws s) as [|c1 r1] eqn:E; [done|]. rewrite (skip_more _ t _ _ E). destruct (code c1 =? 93); [by injection Hs as <- <-|].
    destruct (elements _ _ _) as [[l r2]|] eqn:Em; [|done]. cbn in Hs. injection Hs as <- <-. rewrite <- sapp_cons.
    by rewrite (elements_more _ _ f f' _ t _ _ IH ltac:(lia) Em). }
  rewrite <- sapp_cons. destruct (scan_literal literals (String c s)) as [[x r0]|] eqn:El.
  - injection Hs as <- <-. by rewrite (literal_more _ t _ _ El).
  - assert (Hi : is_Some (scan_int (String c s))) by (unfold scan_number in Hs; destruct (scan_int (String c s)); [by eexists|done]).
    rewrite literals_none by done. assert (Hv : container v = false).
    { unfold scan_number in Hs. destruct (scan_int (String c s)) as [[i r0]|]; [|done]. cbn in Hs. destruct (scan_frac r0) as [? r1].
      destruct (scan_exp r1). destruct (_ && _); [destruct (parse_int 10 i)|destruct (fofstr _)]; cbn in Hs; try done; by injection Hs as <- <-. }
    rewrite Hv, orb_false_r in Hr. by apply number_more.
Qed.

(** ** No proper prefix of an object is JSON *)
Theorem cut_object_rejected frepr fok {FR : FloatRepr frepr fok} d p q :
  plain fok (JDict d : json F) = true -> p +:+ q = dumps frepr (JDict d : json F) -> q <> EmptyString -> loads p = None :> option (json F).
Proof.
  intros Hp E Hq. destruct p as [|c p]; [done|]. assert (Hc : c = "{"%char) by (rewrite sapp_cons in E; by injection E).
  subst c. unfold loads. change (skip_ws (String "{" p)) with (String "{" p). destruct (scan_once _ _) as [[v r]|] eqn:Es; [|done].
  exfalso. assert (Hv : container v = true).
  { cbn [scan_once] in Es. change (code "{" =? 34) with false in Es. change (code "{" =? 123) with true in Es. cbv iota in Es.
    destruct (skip_ws p) as [|c1 r1]; [done|]. destruct (code c1 =? 125); [by injection Es as <- <-|].
    destruct (members _ _ _) as [[l r2]|]; [|done]. cbn in Es. by injection Es as <- <-. }
  set (n := S (String.length (String "{" p))) in *.
  destruct (scan_more n (n + jsize (JDict d : json F)) ltac:(lia)) as [_ Hm].
  specialize (Hm _ q v r Es ltac:(by rewrite Hv, orb_true_r)). rewrite E in Hm.
  assert (Hd := scan_dumps frepr fok (n + jsize (JDict d : json F)) (JDict d) EmptyString Hp ltac:(lia) eq_refl).
  rewrite sapp_nil_r, Hm in Hd. injection Hd as _ Hd. by destruct r.
Qed.
End More.
