(* ===== verification/Reap.v ===== *)
(** * wfb/engine.py: reaping the processes of an earlier incarnation

    [_scan_wfb_pids] reads the command line of every process; [reap_stale_wfb]
    kills those that are wfb_rx or wfb_tx.  A listing of /proc, the bytes of
    each [cmdline] (or that it cannot be read) and the answer of each [kill] are
    the environment's. *)
From Stdlib Require Import ZArith Lia Bool Ascii String.
From stdpp Require Import base tactics list strings sets.
From S2P Require Import Prelude PyStr JsonText.
Open Scope Z_scope.

Definition NUL : ascii := ascii_of_N 0.

(** [argv.split(b"\0", 1)[0]]. *)
Definition argv0_of (cmdline : string) : string := (partition_at (String NUL EmptyString) cmdline).1.1.

(** [os.path.basename]: what follows the last slash. *)
Definition basename (path : string) : string :=
  let '(_, found, tail) := rpartition_char "/"%char path in if found then tail else path.

Definition is_wfb (cmdline : string) : bool :=
  let b := basename (argv0_of cmdline) in String.eqb b "wfb_rx" || String.eqb b "wfb_tx".

(** [listing]: the names in /proc, [None] when it cannot be listed; [cmdline]:
    the bytes, [None] when the process is gone or not ours to read. *)
Definition _scan_wfb_pids (listing : option (list string)) (cmdline : string -> option string) : list Z :=
  match listing with
  | None => []
  | Some names =>
      omap (fun name =>
              if isdigit name then
                match cmdline name with
                | Some text => if is_wfb text then parse_int 10 name else None
                | None => None
                end
              else None) names
  end.

(** The kills tried and the pids reaped; [kill]: whether the signal was sent. *)
Fixpoint reap_stale_wfb (me : Z) (kill : Z -> bool) (pids : list Z) : list Z * list Z :=
  match pids with
  | [] => ([], [])
  | pid :: pids =>
      let '(tried, reaped) := reap_stale_wfb me kill pids in
      if pid =? me then (tried, reaped) else (pid :: tried, if kill pid then pid :: reaped else reaped)
  end.

(** ** Only wfb processes die, and never the daemon *)

Lemma scan_spec names cmdline pid :
  pid ∈ _scan_wfb_pids (Some names) cmdline <->
  exists name text, name ∈ names /\ isdigit name = true /\ parse_int 10 name = Some pid /\ cmdline name = Some text /\ is_wfb text = true.
Proof.
  unfold _scan_wfb_pids. rewrite list_elem_of_omap. split.
  - intros (name & Hin & H). destruct (isdigit name) eqn:Ed; [|done]. destruct (cmdline name) as [text|] eqn:Ec; [|done].
    destruct (is_wfb text) eqn:Ew; [|done]. by exists name, text.
  - intros (name & text & Hin & Hd & Hp & Hc & Hw). exists name. split; [done|]. by rewrite Hd, Hc, Hw.
Qed.

Lemma reap_spec me kill pids :
  (forall pid, pid ∈ (reap_stale_wfb me kill pids).1 <-> pid ∈ pids /\ pid <> me) /\
  (forall pid, pid ∈ (reap_stale_wfb me kill pids).2 <-> pid ∈ pids /\ pid <> me /\ kill pid = true).
Proof.
  induction pids as [|p pids [IH1 IH2]]; [split; intros pid; cbn; rewrite elem_of_nil; tauto|]. cbn [reap_stale_wfb].
  destruct (reap_stale_wfb me kill pids) as [tried reaped]. cbn [fst snd] in *.
  destruct (Z.eqb_spec p me) as [->|Hne]; cbn [fst snd]; split; intros pid; specialize (IH1 pid); specialize (IH2 pid); rewrite !elem_of_cons.
  - rewrite IH1. intuition congruence.
  - rewrite IH2. intuition congruence.
  - rewrite IH1. intuition congruence.
  - destruct (kill p) eqn:Ek; [rewrite elem_of_cons|]; rewrite IH2; intuition congruence.
Qed.

(** What is killed: exactly the processes whose program is wfb_rx or wfb_tx,
    the daemon itself apart; what is reported reaped is what took the signal. *)
Theorem reap_only_wfb listing cmdline me kill pid :
  let '(tried, reaped) := reap_stale_wfb me kill (_scan_wfb_pids listing cmdline) in
  (pid ∈ tried <-> pid <> me /\ exists names name text, listing = Some names /\ name ∈ names /\ isdigit name = true /\
     parse_int 10 name = Some pid /\ cmdline name = Some text /\ is_wfb text = true) /\
  (pid ∈ reaped <-> pid ∈ tried /\ kill pid = true).
Proof.
  destruct (reap_spec me kill (_scan_wfb_pids listing cmdline)) as [H1 H2]. specialize (H1 pid). specialize (H2 pid).
  destruct (reap_stale_wfb _ _ _) as [tried reaped]. cbn in *. split; [|rewrite H2, H1; naive_solver].
  rewrite H1. destruct listing as [names|]; [|rewrite elem_of_nil; naive_solver]. rewrite scan_spec.
  split; [intros ((name & text & H) & Hne); split; [done|]; by exists names, name, text|].
  intros (Hne & names' & name & text & [= <-] & H). split; [|done]. by exists name, text.
Qed.

(** A command line as a process shows it: its words ended by NULs. *)
Example wfb_rx_found : is_wfb ("/usr/bin/wfb_rx" +:+ String NUL "-p") = true /\ is_wfb ("sh" +:+ String NUL "wfb_rx") = false.
Proof. split; reflexivity. Qed.
