(* ===== verification/LearnedPrior.v ===== *)
(** * The learned SNR prior (gs/fpvdgs/dynlink/learned_prior.py)

    [KneeModel] keeps, per MCS rung, the SNR at which the rung was seen to fail
    and a decayed sample count; [LearnedPrior] keys it by drone adapter and
    channel width and persists it.  File writes are returned as requests
    [(path, document)]; what a read of a path gives is an argument of the load. *)
From Stdlib Require Import ZArith QArith Lqa Lia Bool Ascii String.
From stdpp Require Import base tactics list strings.
From S2P Require Import Prelude PyStr Json FloatModels.
Open Scope Z_scope.

(** ** Configuration (dataclass LearnedPriorConfig) *)

Record LearnedPriorConfig (F : Type) := mkLPC {
  settle_ticks : Z;
  viable_loss : F;
  alpha_tighten : F;
  alpha_relax : F;
  min_samples : F;
  recency_decay : F;
  predictive_horizon_ticks : Z;
  predictive_slope_window_ticks : Z;
  predictive_min_drop_db : F;
  predictive_debounce_windows : Z;
  predictive_demote_margin_db : F;
  flush_interval_observations : Z;
  persist_dir : string
}.
Arguments mkLPC {F}.
Arguments settle_ticks {F} _.
Arguments viable_loss {F} _.
Arguments alpha_tighten {F} _.
Arguments alpha_relax {F} _.
Arguments min_samples {F} _.
Arguments recency_decay {F} _.
Arguments predictive_horizon_ticks {F} _.
Arguments predictive_slope_window_ticks {F} _.
Arguments predictive_min_drop_db {F} _.
Arguments predictive_debounce_windows {F} _.
Arguments predictive_demote_margin_db {F} _.
Arguments flush_interval_observations {F} _.
Arguments persist_dir {F} _.

Definition MAX_MCS : Z := 7.
Definition UNBOUND_KEY : string := "unbound".
Definition SCHEMA_VERSION : Z := 3.

(** ** State *)

Record KneeModel (F : Type) := mkKnee {
  knee : list (option F);
  count : list F
}.
Arguments mkKnee {F}.
Arguments knee {F} _.
Arguments count {F} _.

Record LearnedPrior (F : Type) := mkLP {
  lp_key : string;
  lp_ephemeral : bool;
  lp_model : KneeModel F;
  lp_since_flush : Z
}.
Arguments mkLP {F}.
Arguments lp_key {F} _.
Arguments lp_ephemeral {F} _.
Arguments lp_model {F} _.
Arguments lp_since_flush {F} _.
#[export] Instance eta_LP F : Settable (LearnedPrior F) :=
  fun r => mkLP (lp_key r) (lp_ephemeral r) (lp_model r) (lp_since_flush r).

(** What opening the persisted file gives. *)
Inductive file_read (F : Type) :=
| FileNotFound
| FileUnreadable
| FileDoc (doc : json F).
Arguments FileNotFound {F}.
Arguments FileUnreadable {F}.
Arguments FileDoc {F} doc.

Section Ops.
Context {F : Type} {PF : PyFloat F}.

(** The dataclass defaults. *)
Definition default_lpc : LearnedPriorConfig F := mkLPC
  5 (flit 5 100) (flit 25 100) (flit 5 100) (flit 80 10) (flit 9995 10000)
  3 10 (flit 10 10) 3 (flit 15 10) 50 "/etc/fpvd/learned".

(** [sum(samples)]: left to right from zero. *)
Definition fsum (l : list F) : F := fold_left fadd l (fofZ 0).

(** [lsq_slope]: least-squares gradient over evenly spaced samples. *)
Definition lsq_slope (samples : list F) : F :=
  let n := Z.of_nat (length samples) in
  if n <? 2 then fofZ 0
  else
    let mean_x := fofZ (n - 1) /f fofZ 2 in
    let mean_y := fsum samples /f fofZ n in
    let num := fsum (imap (fun i y => (fofZ (Z.of_nat i) -f mean_x) *f (y -f mean_y)) samples) in
    let den := fsum (map (fun i => fpow (fofZ (Z.of_nat i) -f mean_x) (fofZ 2)) (seq 0 (length samples))) in
    if ftruthy den then num /f den else fofZ 0.

(** *** KneeModel *)

Definition knee_init : KneeModel F :=
  mkKnee (replicate (Z.to_nat (MAX_MCS + 1)) None) (replicate (Z.to_nat (MAX_MCS + 1)) (fofZ 0)).

Definition out_of_range (rung : Z) : bool := (rung <? 0) || (rung >? MAX_MCS).

(** The knee after one sample at its own rung. *)
Definition knee_step (cfg : LearnedPriorConfig F) (k : option F) (value : F) (clean : bool) : option F :=
  match k with
  | None => if negb clean then Some value else None
  | Some k =>
      if clean && (value <f k) then Some (k +f alpha_relax cfg *f (value -f k))
      else if negb clean && (value >f k) then Some (k +f alpha_tighten cfg *f (value -f k))
      else Some k
  end.

Definition observe (cfg : LearnedPriorConfig F) (m : KneeModel F)
    (rung : Z) (value : F) (clean : bool) : KneeModel F :=
  if out_of_range rung then m
  else
    let d := recency_decay cfg in
    let count1 := if d <f fofZ 1 then map (fun c => c *f d) (count m) else count m in
    let i := Z.to_nat rung in
    let k := default None (knee m !! i) in
    let knee1 := <[i := knee_step cfg k value clean]> (knee m) in
    mkKnee knee1 (alter (fun c => c +f fofZ 1) i count1).

(** [_eff_knees]: the confident knees, made non-decreasing by a running max. *)
Fixpoint eff_from (cfg : LearnedPriorConfig F) (run : option F)
    (ks : list (option F)) (cs : list F) : list (option F) :=
  match ks, cs with
  | k :: ks', c :: cs' =>
      match k with
      | Some kv =>
          if c >=f min_samples cfg then
            let run' := match run with None => kv | Some r => fmax r kv end in
            Some run' :: eff_from cfg (Some run') ks' cs'
          else None :: eff_from cfg run ks' cs'
      | None => None :: eff_from cfg run ks' cs'
      end
  | _, _ => []
  end.

Definition eff_knees (cfg : LearnedPriorConfig F) (m : KneeModel F) : list (option F) :=
  eff_from cfg None (knee m) (count m).

Definition eff_knee (cfg : LearnedPriorConfig F) (m : KneeModel F) (rung : Z) : option F :=
  default None (eff_knees cfg m !! Z.to_nat rung).

Definition rung_unviable (cfg : LearnedPriorConfig F) (m : KneeModel F)
    (rung : Z) (value margin : F) : bool :=
  if out_of_range rung then false
  else match eff_knee cfg m rung with
       | None => false
       | Some k => value <f k -f margin
       end.

Definition rung_confident (cfg : LearnedPriorConfig F) (m : KneeModel F) (rung : Z) : bool :=
  if out_of_range rung then false else is_some (eff_knee cfg m rung).

(** [knees_snapshot]: the raw knees for the log, to one decimal. *)
Definition knees_snapshot (m : KneeModel F) : list (option F) :=
  map (fun k => match k with None => None | Some f => Some (fround1 f) end) (knee m).

(** *** Persistence of the model *)

Definition to_dict (m : KneeModel F) : json F :=
  JDict [("schema", JInt SCHEMA_VERSION);
         ("knees", JList (map (fun k => match k with None => JNull | Some f => JFloat f end) (knee m)));
         ("counts", JList (map JFloat (count m)))].

Definition knee_of_json (v : json F) : res (option F) :=
  match v with
  | JNull => Ok None
  | v => let* f := py_float v in Ok (Some f)
  end.

(** [doc.get("schema") != SCHEMA_VERSION], numbers comparing by value. *)
Definition schema_matches (v : option (json F)) : bool :=
  match v with
  | Some (JInt z) => z =? SCHEMA_VERSION
  | Some (JFloat f) => feqb f (fofZ SCHEMA_VERSION)
  | _ => false
  end.

(** Returns whether the document was accepted and the model it leaves; a list
    element [float] rejects escapes as an exception. *)
Definition load_dict (m : KneeModel F) (doc : json F) : res (bool * KneeModel F) :=
  match doc with
  | JDict d =>
      if negb (schema_matches (dict_get "schema" d)) then Ok (false, m)
      else match dict_get "knees" d, dict_get "counts" d with
           | Some (JList ks), Some (JList cs) =>
               if (Z.of_nat (length ks) =? MAX_MCS + 1) && (Z.of_nat (length cs) =? MAX_MCS + 1) then
                 let* ks' := map_res knee_of_json ks in
                 let* cs' := map_res py_float cs in
                 Ok (true, mkKnee ks' cs')
               else Ok (false, m)
           | _, _ => Ok (false, m)
           end
  | _ => Ok (false, m)
  end.

(** *** LearnedPrior *)

Definition path_safe_char (c : ascii) : bool :=
  let n := code c in
  ((65 <=? n) && (n <=? 90)) || ((97 <=? n) && (n <=? 122)) || is_digit c ||
  (n =? 46) || (n =? 95) || (n =? 45).

(** [re.sub(r"[^A-Za-z0-9._-]", "_", key)]. *)
Fixpoint sanitize (s : string) : string :=
  match s with
  | EmptyString => EmptyString
  | String c s' => String (if path_safe_char c then c else "_"%char) (sanitize s')
  end.

(** [os.path.join] with a second part that holds no slash. *)
Definition path_join (dir file : string) : string :=
  match dir with
  | EmptyString => file
  | _ => if String.eqb (String.substring (String.length dir - 1) 1 dir) "/" then dir +:+ file
         else dir +:+ "/" +:+ file
  end.

Definition lp_path (cfg : LearnedPriorConfig F) (key : string) : string :=
  path_join (persist_dir cfg) (sanitize key +:+ ".json").

(** The write [flush] asks for: none for the sentinel key. *)
Definition flush (cfg : LearnedPriorConfig F) (lp : LearnedPrior F) : list (string * json F) :=
  if lp_ephemeral lp then []
  else [(lp_path cfg (lp_key lp), JDict [("key", JStr (lp_key lp)); ("snr", to_dict (lp_model lp))])].

(** [_load]: missing and unreadable files leave the model cold; a document that
    is not an object has no [get]. *)
Definition load (cfg : LearnedPriorConfig F) (read : string -> file_read F)
    (lp : LearnedPrior F) : res (LearnedPrior F) :=
  if lp_ephemeral lp then Ok lp
  else match read (lp_path cfg (lp_key lp)) with
       | FileNotFound | FileUnreadable => Ok lp
       | FileDoc (JDict d) =>
           match dict_get "snr" d with
           | None | Some JNull => Ok lp
           | Some snr_doc =>
               let* (_, m) := load_dict (lp_model lp) snr_doc in Ok (lp <| lp_model := m |>)
           end
       | FileDoc _ => Err AttributeError
       end.

Definition lp_init (cfg : LearnedPriorConfig F) (read : string -> file_read F) (key : string)
    : res (LearnedPrior F) :=
  load cfg read (mkLP key (String.eqb key UNBOUND_KEY) knee_init 0).

(** Observe, then flush every [flush_interval_observations] samples. *)
Definition observe_and_flush (cfg : LearnedPriorConfig F) (lp : LearnedPrior F)
    (rung : Z) (snr : F) (clean : bool) : LearnedPrior F * list (string * json F) :=
  let lp1 := lp <| lp_model ::= (fun m => observe cfg m rung snr clean) |>
                <| lp_since_flush ::= Z.succ |> in
  if lp_since_flush lp1 >=? flush_interval_observations cfg
  then (lp1 <| lp_since_flush := 0 |>, flush cfg lp1)
  else (lp1, []).

Definition ingest (cfg : LearnedPriorConfig F) (lp : LearnedPrior F)
    (snr : option F) (operating_mcs : option Z) (operating_clean settled : bool)
    : LearnedPrior F * list (string * json F) :=
  match operating_mcs, snr with
  | Some mcs, Some v => if settled then observe_and_flush cfg lp mcs v operating_clean else (lp, [])
  | _, _ => (lp, [])
  end.

Definition teach_failure (cfg : LearnedPriorConfig F) (lp : LearnedPrior F)
    (rung : option Z) (snr : option F) : LearnedPrior F * list (string * json F) :=
  match rung, snr with
  | Some r, Some v => observe_and_flush cfg lp r v false
  | _, _ => (lp, [])
  end.

Definition snr_rung_confident (cfg : LearnedPriorConfig F) (lp : LearnedPrior F) (rung : option Z) : bool :=
  match rung with None => false | Some r => rung_confident cfg (lp_model lp) r end.

Definition snr_rung_unviable (cfg : LearnedPriorConfig F) (lp : LearnedPrior F)
    (target : option Z) (snr : option F) (margin : F) : bool :=
  match target, snr with
  | Some t, Some v => rung_unviable cfg (lp_model lp) t v margin
  | _, _ => false
  end.

Definition snr_predictive_rung_unviable (cfg : LearnedPriorConfig F) (lp : LearnedPrior F)
    (snr : option F) (slope_db_per_tick : F) (rung : option Z) (margin : F) : bool :=
  match snr, rung with
  | Some v, Some r =>
      let projected := v +f slope_db_per_tick *f fofZ (predictive_horizon_ticks cfg) in
      rung_unviable cfg (lp_model lp) r projected margin
  | _, _ => false
  end.
End Ops.

(* ------------------------------------------------------------------ *)
(** ** Invariants of the model *)

Section Theory.
Context {F : Type} {PF : PyFloat F}.
Implicit Types (cfg : LearnedPriorConfig F) (m : KneeModel F) (lp : LearnedPrior F).

Definition knee_wf m : Prop := length (knee m) = 8%nat /\ length (count m) = 8%nat.

Lemma out_of_range_false r : out_of_range r = false <-> 0 <= r <= MAX_MCS.
Proof. unfold out_of_range. rewrite orb_false_iff, Z.ltb_ge, Z.gtb_ltb, Z.ltb_ge. lia. Qed.

Lemma knee_init_wf : knee_wf knee_init.
Proof. done. Qed.

Lemma observe_wf cfg m r v c : knee_wf m -> knee_wf (observe cfg m r v c).
Proof.
  intros [Hk Hc]. unfold observe. destruct (out_of_range r); [done|]. split; simpl.
  - by rewrite length_insert.
  - rewrite length_alter. case_match; [by rewrite length_map|done].
Qed.

Lemma map_res_length {A B} (f : A -> res B) l ys : map_res f l = Ok ys -> length ys = length l.
Proof. intros H%map_res_ok. symmetry. by eapply Forall2_length. Qed.

Lemma load_dict_wf m doc b m' : knee_wf m -> load_dict m doc = Ok (b, m') -> knee_wf m'.
Proof.
  intros Hm. unfold load_dict. intros H. repeat case_match; simplify_eq/=; try done.
  apply rbind_ok in H as (ks & Hk & (cs & Hc & [= <- <-])%rbind_ok).
  apply map_res_length in Hk, Hc. breflect. unfold MAX_MCS in *. split; simpl; lia.
Qed.

(** Loading keeps the prior or replaces its model by a loaded one. *)
Lemma load_cases cfg read lp lp' :
  load cfg read lp = Ok lp' ->
  lp' = lp \/ exists doc b m, load_dict (lp_model lp) doc = Ok (b, m) /\ lp' = lp <| lp_model := m |>.
Proof.
  unfold load. intros H. repeat case_match; simplify_eq; auto;
  right; apply rbind_ok in H as ([? ?] & Hl & [= <-]); eauto 6.
Qed.

Lemma load_key cfg read lp lp' :
  load cfg read lp = Ok lp' ->
  lp_key lp' = lp_key lp /\ lp_ephemeral lp' = lp_ephemeral lp /\ lp_since_flush lp' = lp_since_flush lp.
Proof. by intros [->|(? & ? & ? & _ & ->)]%load_cases. Qed.

Lemma load_wf cfg read lp lp' :
  knee_wf (lp_model lp) -> load cfg read lp = Ok lp' -> knee_wf (lp_model lp').
Proof.
  intros Hm [->|(doc & b & m & Hl & ->)]%load_cases; [done|]. exact (load_dict_wf _ _ _ _ Hm Hl).
Qed.

(** The states a prior goes through: built for a key, then taught. *)
Inductive lp_reach cfg (read : string -> file_read F) : LearnedPrior F -> Prop :=
| reach_init key lp : lp_init cfg read key = Ok lp -> lp_reach cfg read lp
| reach_ingest lp snr mcs clean settled :
    lp_reach cfg read lp -> lp_reach cfg read (ingest cfg lp snr mcs clean settled).1
| reach_teach lp rung snr :
    lp_reach cfg read lp -> lp_reach cfg read (teach_failure cfg lp rung snr).1.

Definition lp_inv cfg lp : Prop :=
  knee_wf (lp_model lp) /\ lp_ephemeral lp = String.eqb (lp_key lp) UNBOUND_KEY /\
  0 <= lp_since_flush lp < flush_interval_observations cfg.

Lemma observe_and_flush_inv cfg lp r v c :
  lp_inv cfg lp -> lp_inv cfg (observe_and_flush cfg lp r v c).1.
Proof.
  intros (Hw & He & Hs). unfold observe_and_flush. rsimpl.
  destruct (_ >=? _) eqn:E; breflect; (split; [by apply observe_wf|]); (split; [done|]); simpl; lia.
Qed.

Lemma ingest_inv cfg lp snr mcs cl st : lp_inv cfg lp -> lp_inv cfg (ingest cfg lp snr mcs cl st).1.
Proof. intros H. unfold ingest. cases; auto using observe_and_flush_inv. Qed.

Lemma teach_inv cfg lp r snr : lp_inv cfg lp -> lp_inv cfg (teach_failure cfg lp r snr).1.
Proof. intros H. unfold teach_failure. cases; auto using observe_and_flush_inv. Qed.

(** In every reachable state the model has one knee and one count per
    rung, the prior is in-memory exactly for the pre-bind key, and fewer
    observations than the flush interval are unflushed. *)
Theorem lp_reach_inv cfg read lp :
  0 < flush_interval_observations cfg -> lp_reach cfg read lp -> lp_inv cfg lp.
Proof.
  intros Hi. induction 1 as [key lp Hinit|?????? IH|???? IH]; [|by apply ingest_inv|by apply teach_inv].
  unfold lp_init in Hinit. pose proof (load_key _ _ _ _ Hinit) as (Hk & He & Hs). simpl in *.
  split; [by eapply load_wf; [|exact Hinit]|]. rewrite Hk, He, Hs. split; [done|lia].
Qed.

(** ** Confident knees *)

Lemma eff_from_lookup_some cfg run ks cs i :
  is_Some (default None (eff_from cfg run ks cs !! i)) <->
  exists k c, ks !! i = Some (Some k) /\ cs !! i = Some c /\ fleb (min_samples cfg) c = true.
Proof.
  revert run cs i. induction ks as [|k ks IH]; intros run [|c cs] i; simpl.
  1-3: split; [by intros []|]; intros (? & ? & ? & ? & ?); destruct i; done.
  destruct i as [|i], k as [k|]; simpl.
  - destruct (fleb _ c) eqn:E; simpl; (split; [|]).
    + intros _. eauto 10.
    + eauto.
    + by intros [].
    + intros (? & ? & [= <-] & [= <-] & ?). congruence.
  - split; [by intros []|]. by intros (? & ? & ? & ?).
  - destruct (fleb _ c) eqn:E; simpl; apply IH.
  - apply IH.
Qed.

(** A rung is confident exactly when its own knee was planted and its own
    decayed count reaches [min_samples]: nothing is inherited from the rungs
    below. *)
Theorem rung_confident_own cfg m r :
  rung_confident cfg m r = true <->
  0 <= r <= MAX_MCS /\
  exists k c, knee m !! Z.to_nat r = Some (Some k) /\ count m !! Z.to_nat r = Some c /\
              fleb (min_samples cfg) c = true.
Proof.
  unfold rung_confident. destruct (out_of_range r) eqn:Er.
  - split; [done|]. intros [H%out_of_range_false _]. congruence.
  - apply out_of_range_false in Er. unfold eff_knee, eff_knees.
    rewrite <- (eff_from_lookup_some cfg None). destruct (default None _); simpl; naive_solver.
Qed.

Section Monotone.
Context {num : F -> Prop} {PO : PyFloatOrder F num}.

Lemma eff_from_ge cfg r ks cs i k :
  num r -> Forall (fun o => forall x, o = Some x -> num x) ks ->
  default None (eff_from cfg (Some r) ks cs !! i) = Some k -> num k /\ fleb r k = true.
Proof.
  revert r cs i. induction ks as [|k0 ks IH]; intros r [|c cs] i Hr Hks; simpl; [done..|].
  inversion Hks as [|? ? Hk0 Hks']; subst.
  destruct k0 as [k0|]; [|destruct i; simpl; [done|by apply IH]].
  specialize (Hk0 k0 eq_refl).
  destruct (fleb _ c); [|destruct i; simpl; [done|by apply IH]].
  assert (Hm : num (fmax r k0)) by by apply num_fmax.
  destruct i as [|i]; simpl.
  - intros [= <-]. split; [done|by apply fmax_ge_l].
  - intros (Hn & Hle)%IH; [|done..]. split; [done|].
    eapply fleb_trans; [..|exact Hle]; [done..|by apply fmax_ge_l].
Qed.

Lemma eff_from_mono cfg run ks cs i j a b :
  (forall r, run = Some r -> num r) -> Forall (fun o => forall x, o = Some x -> num x) ks ->
  (i <= j)%nat ->
  default None (eff_from cfg run ks cs !! i) = Some a ->
  default None (eff_from cfg run ks cs !! j) = Some b -> fleb a b = true.
Proof.
  revert run cs i j. induction ks as [|k0 ks IH]; intros run [|c cs] i j Hr Hks Hij; simpl; [done..|].
  inversion Hks as [|? ? Hk0 Hks']; subst.
  destruct k0 as [k0|]; [destruct (fleb _ c)|].
  1: set (r' := match run with Some r => fmax r k0 | None => k0 end).
  1: assert (Hr' : num r') by (subst r'; destruct run; [apply num_fmax|]; auto).
  all: destruct i as [|i], j as [|j]; simpl; try done; try lia.
  - intros [= <-] [= <-]. by apply fleb_refl.
  - intros [= <-] Hb. by apply eff_from_ge in Hb as [_ Hb].
  - apply IH; [|done|lia]. by intros ? [= <-].
  - apply IH; [done|done|lia].
  - apply IH; [done|done|lia].
Qed.

(** Effective knees never decrease with the rung. *)
Theorem eff_knees_monotone cfg m i j a b :
  Forall (fun o => forall x, o = Some x -> num x) (knee m) ->
  0 <= i <= j -> eff_knee cfg m i = Some a -> eff_knee cfg m j = Some b -> fleb a b = true.
Proof. intros Hk Hij. apply eff_from_mono; [done|done|lia]. Qed.
End Monotone.

(** ** Persistence *)

Lemma map_res_map {A B C} (f : B -> res C) (g : A -> B) l h :
  (forall x, f (g x) = Ok (h x)) -> map_res f (map g l) = Ok (map h l).
Proof. intros H. induction l as [|x l IH]; simpl; [done|]. by rewrite H, IH. Qed.

Lemma load_dict_to_dict m0 m : knee_wf m -> load_dict m0 (to_dict m) = Ok (true, m).
Proof.
  intros [Hk Hc]. unfold load_dict, to_dict. simpl.
  rewrite !length_map, Hk, Hc. simpl.
  rewrite (map_res_map _ _ _ id) by (by intros []). simpl.
  rewrite (map_res_map _ _ _ id) by done. simpl.
  rewrite !map_id. by destruct m.
Qed.

(** A prior built for the key of a flushed one, reading the file the
    flush wrote, starts from the same knees and counts. *)
Theorem flush_load_roundtrip cfg lp :
  knee_wf (lp_model lp) -> lp_ephemeral lp = String.eqb (lp_key lp) UNBOUND_KEY ->
  lp_ephemeral lp = false ->
  exists p doc, flush cfg lp = [(p, doc)] /\
    forall read, read p = FileDoc doc ->
      lp_init cfg read (lp_key lp) = Ok (lp <| lp_since_flush := 0 |>).
Proof.
  intros Hw He Hf. unfold flush. rewrite Hf. do 2 eexists. split; [done|]. intros read Hr.
  unfold lp_init, load. simpl. rewrite <- He, Hf, Hr. cbn [dict_get String.eqb Ascii.eqb Bool.eqb].
  rewrite load_dict_to_dict by done. rsimpl. by rewrite Hf.
Qed.

Lemma sanitize_safe s : all_chars path_safe_char (sanitize s) = true.
Proof. induction s as [|c s IH]; simpl; [done|]. rewrite IH. destruct (path_safe_char c) eqn:E; [by rewrite E|done]. Qed.

Lemma all_chars_app p s t : all_chars p (s +:+ t) = all_chars p s && all_chars p t.
Proof. induction s as [|c s IH]; simpl; [done|]. by rewrite IH, andb_assoc. Qed.

Lemma all_chars_impl (p q : ascii -> bool) s :
  (forall c, p c = true -> q c = true) -> all_chars p s = true -> all_chars q s = true.
Proof. intros H. induction s as [|c s IH]; simpl; [done|]. intros [??]%andb_true_iff. by rewrite H, IH. Qed.

Definition not_slash (c : ascii) : bool := negb (code c =? 47).

(** Whatever adapter id the drone reports, the file written is a direct child
    of [persist_dir]: the name appended to it holds no slash. *)
Theorem flush_path_confined cfg lp p doc :
  (p, doc) ∈ flush cfg lp ->
  exists name, all_chars not_slash name = true /\ p = path_join (persist_dir cfg) name.
Proof.
  unfold flush. destruct (lp_ephemeral lp); [by intros ?%elem_of_nil|].
  intros [= -> ->]%list_elem_of_singleton. eexists. split; [|done].
  rewrite all_chars_app. apply andb_true_iff. split; [|done].
  eapply all_chars_impl; [|apply sanitize_safe]. intros c. unfold path_safe_char, not_slash, is_digit.
  generalize (code c). intros n Hn. destruct (Z.eqb_spec n 47); [subst; done|done].
Qed.

(** A persisted file that is JSON but not an object makes the constructor
    raise. *)
Theorem load_malformed_raises cfg key (read : string -> file_read F) doc :
  key <> UNBOUND_KEY -> read (lp_path cfg key) = FileDoc doc -> is_dict doc = false ->
  lp_init cfg read key = Err AttributeError.
Proof.
  intros Hk Hr Hd. unfold lp_init, load. simpl.
  destruct (String.eqb_spec key UNBOUND_KEY); [done|]. rewrite Hr. by destruct doc.
Qed.
End Theory.

(* ------------------------------------------------------------------ *)
(** ** Learning in exact arithmetic *)

Section Exact.
Open Scope Q_scope.
Implicit Types (cfg : LearnedPriorConfig Q).

Definition alpha_ok (a : Q) : Prop := 0 <= a <= 1.

Lemma Qlt_bool_true (x y : Q) : fltb x y = true <-> x < y.
Proof.
  simpl. rewrite negb_true_iff. split.
  - intros H. apply Qnot_le_lt. intros Hle%Qle_bool_iff. congruence.
  - intros H. apply not_true_iff_false. rewrite Qle_bool_iff. lra.
Qed.

Lemma Qlt_bool_false (x y : Q) : fltb x y = false <-> y <= x.
Proof. simpl. by rewrite negb_false_iff, Qle_bool_iff. Qed.

Lemma blend_between (k v a : Q) : alpha_ok a ->
  (v <= k -> v <= k +f a *f (v -f k) <= k) /\ (k <= v -> k <= k +f a *f (v -f k) <= v).
Proof. intros [H0 H1]. autorewrite with qarith. split; intros H; split; nra. Qed.

(** One sample moves its rung's knee toward the sample and never past it:
    a clean sample only lowers a planted knee, a failure plants it or raises
    it. *)
Theorem knee_step_moves cfg k v :
  alpha_ok (alpha_relax cfg) -> alpha_ok (alpha_tighten cfg) ->
  match k, knee_step cfg k v true with
  | None, r => r = None
  | Some k0, Some k1 => k1 <= k0 /\ (v <= k0 -> v <= k1) /\ (k0 <= v -> k1 = k0)
  | Some _, None => False
  end /\
  match k, knee_step cfg k v false with
  | None, r => r = Some v
  | Some k0, Some k1 => k0 <= k1 /\ (k0 <= v -> k1 <= v) /\ (v <= k0 -> k1 = k0)
  | Some _, None => False
  end.
Proof.
  intros Hr Ht. destruct k as [k|]; [|done].
  unfold knee_step. cbn [andb negb]. split.
  - destruct (fltb v k) eqn:E; cbn [andb negb].
    + apply Qlt_bool_true in E. destruct (blend_between k v _ Hr) as [[H1 H2] _]; [lra|].
      split; [done|]. split; intros; [done|lra].
    + apply Qlt_bool_false in E. split; [lra|]. split; intros; [done|done].
  - cbn [andb negb]. destruct (fltb k v) eqn:E.
    + apply Qlt_bool_true in E. destruct (blend_between k v _ Ht) as [_ [H1 H2]]; [lra|].
      split; [done|]. split; intros; [done|lra].
    + apply Qlt_bool_false in E. split; [lra|]. split; intros; [done|done].
Qed.

(** The two signed margins leave a dead band: an SNR high enough to promote
    into a rung is never low enough to demote from it. *)
Theorem promote_demote_deadband cfg m r snr pm dm :
  0 <= pm -> 0 <= dm ->
  rung_unviable cfg m r snr (fopp pm) = false -> rung_unviable cfg m r snr dm = false.
Proof.
  intros Hp Hd. unfold rung_unviable. destruct (out_of_range r); [done|].
  destruct (eff_knee cfg m r) as [k|]; [|done].
  rewrite !Qlt_bool_false, !Q_sub_eq. simpl (fopp pm). rewrite Qred_correct. lra.
Qed.
(** *** The least-squares slope *)

Definition Qsum (l : list Q) : Q := foldr Qplus 0 l.

Lemma fsum_Qsum l : fsum l == Qsum l.
Proof.
  unfold fsum. assert (H : forall acc : Q, fold_left fadd l acc == acc + Qsum l).
  { induction l as [|x l IH]; intros acc; cbn [fold_left Qsum foldr]; [lra|].
    rewrite IH, Q_add_eq. unfold Qsum. lra. }
  rewrite H. cbn [fofZ PyFloat_Q]. unfold inject_Z. lra.
Qed.

Lemma Qsum_app l1 l2 : Qsum (l1 ++ l2) == Qsum l1 + Qsum l2.
Proof. unfold Qsum. induction l1 as [|x l1 IH]; simpl; [lra|]. rewrite IH. lra. Qed.

Lemma Qsum_ext {A} (f g : A -> Q) l : (forall x, f x == g x) -> Qsum (map f l) == Qsum (map g l).
Proof. intros H. unfold Qsum. induction l as [|x l IH]; simpl; [lra|]. rewrite IH, H. lra. Qed.

Lemma Qsum_scale {A} (f : A -> Q) c l : Qsum (map (fun x => c * f x) l) == c * Qsum (map f l).
Proof. unfold Qsum. induction l as [|x l IH]; simpl; [lra|]. rewrite IH. lra. Qed.

Lemma Qsum_affine {A} (f : A -> Q) a b l :
  Qsum (map (fun x => a + b * f x) l) == inject_Z (Z.of_nat (length l)) * a + b * Qsum (map f l).
Proof.
  unfold Qsum. induction l as [|x l IH]; cbn [length map foldr].
  { change (inject_Z (Z.of_nat 0)) with 0. lra. }
  rewrite IH, Nat2Z.inj_succ. unfold Z.succ. rewrite inject_Z_plus. change (inject_Z 1) with 1. lra.
Qed.

Lemma Qsum_nonneg {A} (f : A -> Q) l : (forall x, 0 <= f x) -> 0 <= Qsum (map f l).
Proof. intros H. unfold Qsum. induction l as [|x l IH]; simpl; [lra|]. specialize (H x). lra. Qed.

Definition idx (i : nat) : Q := inject_Z (Z.of_nat i).

Lemma idx_S n : idx (S n) == idx n + 1.
Proof. unfold idx. rewrite Nat2Z.inj_succ. unfold Z.succ. by rewrite inject_Z_plus. Qed.

Lemma Qsum_idx n : 2 * Qsum (map idx (seq 0 n)) == idx n * (idx n - 1).
Proof.
  induction n as [|n IH].
  { change (idx 0) with 0. change (Qsum (map idx (seq 0 0))) with 0. lra. }
  rewrite seq_S, map_app, Qsum_app. cbn [Nat.add map]. unfold Qsum at 2. cbn [foldr].
  rewrite idx_S. lra.
Qed.

Lemma imap_map_seq {A B} (g : nat -> A -> B) (f : nat -> A) n :
  imap g (map f (seq 0 n)) = map (fun i => g i (f i)) (seq 0 n).
Proof.
  apply list_eq. intros i. rewrite list_lookup_imap. change (map ?f ?l) with (f <$> l).
  rewrite !list_lookup_fmap. destruct (seq 0 n !! i) as [j|] eqn:E; [|done].
  apply lookup_seq in E as [-> _]. done.
Qed.

Lemma Qsquare_nonneg (x : Q) : 0 <= x * x.
Proof. destruct (Qlt_le_dec x 0); nra. Qed.

Lemma Qpow_two (x : Q) : fpow x (fofZ 2) == x * x.
Proof. cbn [fpow fofZ PyFloat_Q]. rewrite Qred_correct. change (Q_trunc (inject_Z 2)) with 2%Z. simpl. lra. Qed.

Lemma Q_truthy (x : Q) : 0 < x -> ftruthy x = true.
Proof.
  intros H. unfold ftruthy, feqb. apply negb_true_iff, andb_false_iff. left.
  apply not_true_iff_false. simpl. rewrite Qle_bool_iff. unfold inject_Z. lra.
Qed.

(** On a line the slope is the line's: the estimate of a steady ramp of the SNR
    is its gradient per tick, and of a constant SNR zero. *)
Theorem lsq_slope_line (a b : Q) (n : nat) :
  (2 <= n)%nat ->
  lsq_slope (map (fun i => a + b * idx i) (seq 0 n)) == b.
Proof.
  intros Hn. unfold lsq_slope. rewrite length_map, length_seq.
  destruct (Z.ltb_spec (Z.of_nat n) 2); [lia|].
  set (mx := fofZ (Z.of_nat n - 1) /f fofZ 2). 
  set (my := fsum _ /f fofZ (Z.of_nat n)).
  set (den := fsum (map (fun i => fpow _ _) _)). cbv zeta. rewrite imap_map_seq.
  assert (Hnq : 0 < idx n) by (unfold idx, Qlt; simpl; lia).
  assert (Hmx : mx == (idx n - 1) / 2).
  { subst mx. rewrite Q_div_eq. cbn [fofZ PyFloat_Q]. unfold Z.sub. by rewrite inject_Z_plus. }
  assert (Hmy : my == a + b * mx).
  { subst my. rewrite Q_div_eq, fsum_Qsum, Qsum_affine, length_seq, Hmx.
    fold (idx n). cbn [fofZ PyFloat_Q]. fold (idx n).
    assert (Hs : Qsum (map idx (seq 0 n)) == idx n * (idx n - 1) / 2)
      by (apply (Qmult_inj_l _ _ 2); [lra|]; rewrite Qsum_idx; field).
    rewrite Hs. field. lra. }
  assert (Hden : den == Qsum (map (fun i => (idx i - mx) * (idx i - mx)) (seq 0 n))).
  { subst den. rewrite fsum_Qsum. apply Qsum_ext. intros i. rewrite Qpow_two, Q_sub_eq. done. }
  assert (Hpos : 0 < den).
  { rewrite Hden. destruct n as [|n]; [lia|]. cbn [seq map]. unfold Qsum. cbn [foldr].
    assert (0 <= Qsum (map (fun i => (idx i - mx) * (idx i - mx)) (seq 1 n)))
      by (apply Qsum_nonneg; intros i; apply Qsquare_nonneg).
    assert (0 < mx).
    { rewrite Hmx. apply Qlt_shift_div_l; [done|].
      assert (1 < idx (S n)) by (unfold idx, Qlt; simpl; lia). lra. }
    fold (Qsum (map (fun i => (idx i - mx) * (idx i - mx)) (seq 1 n))).
    change (idx 0) with 0. nra. }
  rewrite Q_truthy by done. rewrite Q_div_eq, fsum_Qsum.
  rewrite (Qsum_ext _ (fun i => b * ((idx i - mx) * (idx i - mx)))).
  - rewrite Qsum_scale, <- Hden. field. lra.
  - intros i. autorewrite with qarith. rewrite Hmy. cbn [fofZ PyFloat_Q]. fold (idx i). lra.
Qed.
End Exact.
