(* ===== verification/StatsClient.v ===== *)
(** * Stats events (gs/fpvdgs/dynlink/stats_client.py)

    The records of the wfb stats feed and the decoder that turns one parsed
    JSON line into an event, errors included. *)
From Stdlib Require Import ZArith Lia Bool String.
From stdpp Require Import base tactics list strings pretty.
From S2P Require Import Prelude PyStr Json.
Open Scope Z_scope.

Definition CONTRACT_VERSIONS_SUPPORTED : list Z := [1; 2; 3].

(** One antenna's line of a 100 ms window (dataclass RxAnt). *)
Record RxAnt := mkRxAnt {
  ra_ant : Z; ra_freq : Z; ra_mcs : Z; ra_bw : Z; ra_pkt_recv : Z;
  ra_rssi_min : Z; ra_rssi_avg : Z; ra_rssi_max : Z;
  ra_snr_min : Z; ra_snr_avg : Z; ra_snr_max : Z;
  ra_evm_min : Z; ra_evm_avg : Z; ra_evm_max : Z
}.

Record SessionInfo := mkSession {
  fec_type : string; fec_k : Z; fec_n : Z; epoch : Z;
  interleave_depth : Z; contract_version : Z
}.

Record SettingsEvent (F : Type) := mkSettings {
  se_profile : string; se_is_cluster : bool; se_wlans : list (json F);
  se_settings : list (string * json F); se_timestamp : F
}.
Arguments mkSettings {F}.

Record RxEvent (F : Type) := mkRx {
  rx_timestamp : F; rx_id : string; packets_window : list (string * Z);
  rx_ant_stats : list RxAnt; rx_session : option SessionInfo; rx_tx_wlan : option (json F)
}.
Arguments mkRx {F}.
Arguments rx_timestamp {F} _.
Arguments rx_id {F} _.
Arguments packets_window {F} _.
Arguments rx_ant_stats {F} _.
Arguments rx_session {F} _.
Arguments rx_tx_wlan {F} _.

Record TxEvent (F : Type) := mkTx {
  tx_timestamp : F; tx_id : string; tx_packets_window : list (string * Z)
}.
Arguments mkTx {F}.

Record SessionEvent (F : Type) := mkSes {
  ses_timestamp : F; ses_id : string; ses_session : SessionInfo
}.
Arguments mkSes {F}.
Arguments ses_timestamp {F} _.
Arguments ses_id {F} _.
Arguments ses_session {F} _.

Inductive Event (F : Type) :=
| EvSettings (e : SettingsEvent F)
| EvRx (e : RxEvent F)
| EvTx (e : TxEvent F)
| EvSession (e : SessionEvent F).
Arguments EvSettings {F} e.
Arguments EvRx {F} e.
Arguments EvTx {F} e.
Arguments EvSession {F} e.

Section Parse.
Context {F : Type} {PF : PyFloat F}.
(** [str(v)] of a number, list or dict: the language's [repr]. *)
Variable repr : json F -> string.

Definition py_str (v : json F) : string :=
  match v with
  | JStr s => s
  | JNull => "None"
  | JBool b => if b then "True" else "False"
  | JInt z => pretty z
  | v => repr v
  end.

(** [v[k]]. *)
Definition item (k : string) (v : json F) : res (json F) :=
  match v with
  | JDict d => match dict_get k d with Some x => Ok x | None => Err (KeyError k) end
  | _ => Err TypeError
  end.

Definition int_item (k : string) (v : json F) : res Z := let* x := item k v in py_int x.

(** Iterating over a value. *)
Definition py_iter (v : json F) : res (list (json F)) :=
  match v with
  | JList l => Ok l
  | JDict d => Ok (map JStr (dict_keys d))
  | JStr s => Ok (map (fun c => JStr (String.String c EmptyString)) (String.list_ascii_of_string s))
  | _ => Err TypeError
  end.

(** [dict(v)]; a list of pairs, which no feed sends, is not read as a dict. *)
Definition py_dict (v : json F) : res (list (string * json F)) :=
  match v with JDict d => Ok d | JList [] => Ok [] | _ => Err TypeError end.

(** One packet counter: [[window, cumulative]] or a bare number. *)
Definition packet_count (v : json F) : res Z :=
  match v with
  | JList (x :: _) => py_int x
  | v => py_int v
  end.

Definition _parse_packets (v : json F) : res (list (string * Z)) :=
  match v with
  | JDict d => map_res (fun kv => let* n := packet_count kv.2 in Ok (kv.1, n)) d
  | _ => Err AttributeError
  end.

Definition _parse_session (d : json F) : res SessionInfo :=
  let* ft := obj_get "fec_type" (JStr "") d in
  let* k := int_item "fec_k" d in
  let* n := int_item "fec_n" d in
  let* ep := int_item "epoch" d in
  let* depth_v := obj_get "interleave_depth" (JInt 1) d in
  let* depth := py_int depth_v in
  let* cv := int_item "contract_version" d in
  Ok (mkSession (py_str ft) k n ep depth cv).

Definition int_get (k : string) (default : Z) (d : json F) : res Z :=
  let* v := obj_get k (JInt default) d in py_int v.

Definition _parse_rx_ant (d : json F) : res RxAnt :=
  let* a := int_item "ant" d in
  let* f := int_item "freq" d in
  let* m := int_item "mcs" d in
  let* b := int_item "bw" d in
  let* p := int_item "pkt_recv" d in
  let* r1 := int_item "rssi_min" d in
  let* r2 := int_item "rssi_avg" d in
  let* r3 := int_item "rssi_max" d in
  let* s1 := int_item "snr_min" d in
  let* s2 := int_item "snr_avg" d in
  let* s3 := int_item "snr_max" d in
  let* e1 := int_get "evm_min" (-1) d in
  let* e2 := int_get "evm_avg" (-1) d in
  let* e3 := int_get "evm_max" (-1) d in
  Ok (mkRxAnt a f m b p r1 r2 r3 s1 s2 s3 e1 e2 e3).

Definition check_contract (s : SessionInfo) : res unit :=
  raise_if (negb (bool_decide (contract_version s ∈ CONTRACT_VERSIONS_SUPPORTED)))
           (ContractVersionError (contract_version s)).

(** The session of an [rx] record: absent or falsy means none. *)
Definition rx_record_session (raw : json F) : res (option SessionInfo) :=
  match raw with
  | JDict d => match dict_get "session" d with
               | Some v => if truthy v then
                             let* s := _parse_session v in check_contract s ;;; Ok (Some s)
                           else Ok None
               | None => Ok None
               end
  | _ => Ok None
  end.

Definition parse_record (raw : json F) : res (option (Event F)) :=
  let* rtype := obj_get "type" JNull raw in
  let* ts_v := obj_get "timestamp" (JFloat (fofZ 0)) raw in
  let* ts := py_float ts_v in
  let* id := obj_get "id" (JStr "") raw in
  match rtype with
  | JStr t =>
      if String.eqb t "settings" then
        let* prof := obj_get "profile" (JStr "") raw in
        let* clus := obj_get "is_cluster" (JBool false) raw in
        let* wl := obj_get "wlans" (JList []) raw in
        let* wlans := py_iter wl in
        let* st := obj_get "settings" (JDict []) raw in
        let* settings := py_dict st in
        Ok (Some (EvSettings (mkSettings (py_str prof) (truthy clus) wlans settings ts)))
      else if String.eqb t "rx" then
        let* session := rx_record_session raw in
        let* pk := obj_get "packets" (JDict []) raw in
        let* packets := _parse_packets pk in
        let* al := obj_get "rx_ant_stats" (JList []) raw in
        let* ants := py_iter al in
        let* ants := map_res _parse_rx_ant ants in
        let* tw := obj_get "tx_wlan" JNull raw in
        Ok (Some (EvRx (mkRx ts (py_str id) packets ants session
                          (if is_none tw then None else Some tw))))
      else if String.eqb t "tx" then
        let* pk := obj_get "packets" (JDict []) raw in
        let* packets := _parse_packets pk in
        Ok (Some (EvTx (mkTx ts (py_str id) packets)))
      else if String.eqb t "new_session" then
        let* s := _parse_session raw in
        check_contract s ;;;
        Ok (Some (EvSession (mkSes ts (py_str id) s)))
      else Ok None
  | _ => Ok None
  end.
End Parse.

(* ------------------------------------------------------------------ *)

Section Theory.
Context {F : Type} {PF : PyFloat F} (repr : json F -> string).

(** The session an event hands to the controller, if any. *)
Definition event_session (e : Event F) : option SessionInfo :=
  match e with
  | EvRx r => rx_session r
  | EvSession s => Some (ses_session s)
  | _ => None
  end.

Lemma check_contract_ok s : check_contract s = Ok tt <-> contract_version s ∈ CONTRACT_VERSIONS_SUPPORTED.
Proof. unfold check_contract. rewrite raise_if_ok, negb_false_iff. apply bool_decide_eq_true. Qed.

Lemma rx_record_session_contract raw s :
  rx_record_session repr raw = Ok (Some s) -> contract_version s ∈ CONTRACT_VERSIONS_SUPPORTED.
Proof.
  unfold rx_record_session. intros H. repeat case_match; simplify_eq.
  apply rbind_ok in H as (s' & _ & ([] & Hc & [= <-])%rbind_ok). by apply check_contract_ok.
Qed.

(** No event that leaves the decoder carries a session of a contract version
    this code does not speak. *)
Theorem parse_record_contract raw e s :
  parse_record repr raw = Ok (Some e) -> event_session e = Some s ->
  contract_version s ∈ CONTRACT_VERSIONS_SUPPORTED.
Proof.
  unfold parse_record. intros H Hs.
  repeat match type of H with rbind _ _ = _ => apply rbind_ok in H as (? & ? & H) end.
  repeat case_match; simplify_eq;
    repeat match type of H with rbind _ _ = _ => apply rbind_ok in H as (? & ? & H) end;
    simplify_eq/=; subst.
  - by eapply rx_record_session_contract.
  - match goal with H : check_contract _ = Ok ?u |- _ => destruct u; by apply check_contract_ok end.
Qed.
End Theory.
