(* ===== verification/Probe.v ===== *)
(** * The link probe (gs/fpvdgs/probe/parser.py, gs/fpvdgs/probe/feed.py)

    [parse_line] reads the probe receiver's stdout, [McsAggregator] keeps a
    per-rung EWMA of the on-air packet error rate, and [ProbeFeed] joins them
    and stamps freshness.  The clock is an argument of the operations that read
    it; the lock of [ProbeFeed] makes each operation atomic, which is how they
    are modelled. *)
From Stdlib Require Import ZArith QArith Lqa Lia Bool Ascii String.
From stdpp Require Import base tactics list gmap strings.
From S2P Require Import Prelude PyStr FloatModels.
Open Scope Z_scope.

Definition TAB : ascii := "009"%char.

Inductive probe_rec :=
| PR_RX_ANT (mcs rssi snr : Z)
| PR_PKT (data fec_rec lost : Z).

(** [int()] failures and tuples of the wrong size raise [ValueError], which the
    function turns into [None]. *)
Definition parse_line (line : string) : option probe_rec :=
  let cols := split TAB (rstrip_nl line) in
  if (length cols <? 3)%nat then None
  else
    let kind := nth 1 cols "" in
    if String.eqb kind "RX_ANT" && (5 <=? length cols)%nat then
      match parse_ints (nth 2 cols "") with
      | Some [_freq; mcs; _bw] =>
          match parse_ints (nth 4 cols "") with
          | Some vals => if (length vals <? 7)%nat then None
                         else Some (PR_RX_ANT mcs (nth 2 vals 0) (nth 5 vals 0))
          | None => None
          end
      | _ => None
      end
    else if String.eqb kind "PKT" then
      match parse_ints (nth 2 cols "") with
      | Some f => if (length f <? 8)%nat then None
                  else Some (PR_PKT (nth 4 f 0) (nth 6 f 0) (nth 7 f 0))
      | None => None
      end
    else None.

(** ** McsAggregator *)

Record slot (F : Type) := mkSlot {
  sl_per : option F; sl_rssi : option Z; sl_snr : option Z; sl_windows : Z; sl_empty : Z
}.
Arguments mkSlot {F}.
Arguments sl_per {F} _.
Arguments sl_rssi {F} _.
Arguments sl_snr {F} _.
Arguments sl_windows {F} _.
Arguments sl_empty {F} _.
#[export] Instance eta_slot F : Settable (slot F) :=
  fun r => mkSlot (sl_per r) (sl_rssi r) (sl_snr r) (sl_windows r) (sl_empty r).

Record McsAggregator (F : Type) := mkMcsAgg {
  ma_alpha : F; ma_blackout_windows : Z; ma_m : gmap Z (slot F)
}.
Arguments mkMcsAgg {F}.
Arguments ma_alpha {F} _.
Arguments ma_blackout_windows {F} _.
Arguments ma_m {F} _.
#[export] Instance eta_ma F : Settable (McsAggregator F) :=
  fun r => mkMcsAgg (ma_alpha r) (ma_blackout_windows r) (ma_m r).

(** What the policy sees of one rung. *)
Record ProbeReading (F : Type) := mkReading {
  pr_per : option F; pr_snr : option Z; pr_fresh : bool
}.
Arguments mkReading {F}.
Arguments pr_per {F} _.
Arguments pr_snr {F} _.
Arguments pr_fresh {F} _.

Record ProbeFeed (F : Type) := mkFeed {
  pf_agg : McsAggregator F; pf_last_mcs : option Z; pf_updated : gmap Z F
}.
Arguments mkFeed {F}.
Arguments pf_agg {F} _.
Arguments pf_last_mcs {F} _.
Arguments pf_updated {F} _.
#[export] Instance eta_pf F : Settable (ProbeFeed F) :=
  fun r => mkFeed (pf_agg r) (pf_last_mcs r) (pf_updated r).

Section Ops.
Context {F : Type} {PF : PyFloat F}.

Definition empty_slot : slot F := mkSlot None None None 0 0.

(** [_slot]: the rung's entry, created on first use. *)
Definition _slot (a : McsAggregator F) (mcs : Z) : slot F := default empty_slot (ma_m a !! mcs).

Definition put_slot (a : McsAggregator F) (mcs : Z) (s : slot F) : McsAggregator F :=
  a <| ma_m ::= <[mcs := s]> |>.

Definition on_rx_ant (a : McsAggregator F) (mcs rssi snr : Z) : McsAggregator F :=
  put_slot a mcs (_slot a mcs <| sl_rssi := Some rssi |> <| sl_snr := Some snr |>).

Definition on_pkt (a : McsAggregator F) (mcs data lost : Z) : McsAggregator F :=
  let s := _slot a mcs in
  let denom := data + lost in
  if denom <=? 0 then
    let s1 := s <| sl_empty ::= Z.succ |> in
    put_slot a mcs (if sl_empty s1 >=? ma_blackout_windows a then s1 <| sl_per := Some (fofZ 1) |> else s1)
  else
    let s1 := s <| sl_empty := 0 |> in
    let win_per := fofZ lost /f fofZ denom in
    let per := match sl_per s1 with
               | None => win_per
               | Some p => ma_alpha a *f win_per +f (fofZ 1 -f ma_alpha a) *f p
               end in
    put_slot a mcs (s1 <| sl_per := Some per |> <| sl_windows ::= Z.succ |>).

(** ** ProbeFeed *)

Definition PROBE_FRESH_S : F := flit 5 10.
Definition PROBE_EWMA_ALPHA : F := flit 25 100.
Definition PROBE_BLACKOUT_WINDOWS : Z := 10.

Definition feed_init : ProbeFeed F :=
  mkFeed (mkMcsAgg PROBE_EWMA_ALPHA PROBE_BLACKOUT_WINDOWS ∅) None ∅.

(** [now] is the clock reading a packet-bearing window is stamped with. *)
Definition feed_line (pf : ProbeFeed F) (line : string) (now : F) : ProbeFeed F :=
  match parse_line line with
  | None => pf
  | Some (PR_RX_ANT mcs rssi snr) =>
      pf <| pf_last_mcs := Some mcs |> <| pf_agg ::= (fun a => on_rx_ant a mcs rssi snr) |>
  | Some (PR_PKT data _ lost) =>
      match pf_last_mcs pf with
      | None => pf
      | Some mcs =>
          let pf1 := pf <| pf_agg ::= (fun a => on_pkt a mcs data lost) |> in
          if data + lost >? 0 then pf1 <| pf_updated ::= <[mcs := now]> |> else pf1
      end
  end.

(** [(now - updated.get(mcs, -inf)) <= PROBE_FRESH_S]. *)
Definition is_fresh (pf : ProbeFeed F) (mcs : Z) (now : F) : bool :=
  match pf_updated pf !! mcs with
  | Some t => (now -f t) <=f PROBE_FRESH_S
  | None => false
  end.

Definition snapshot_fresh (pf : ProbeFeed F) (now : F) : gmap Z (ProbeReading F) :=
  map_imap (fun mcs s => match sl_per s with
                         | None => None
                         | Some p => Some (mkReading (Some p) (sl_snr s) (is_fresh pf mcs now))
                         end) (ma_m (pf_agg pf)).
End Ops.

(* ------------------------------------------------------------------ *)
(** ** Properties *)

Section Theory.
Context {F : Type} {PF : PyFloat F}.
Implicit Types (a : McsAggregator F).

Lemma slot_put_eq a mcs s : _slot (put_slot a mcs s) mcs = s.
Proof. unfold _slot, put_slot. rsimpl. by rewrite lookup_insert_eq. Qed.

Lemma slot_put_ne a mcs mcs' s : mcs <> mcs' -> _slot (put_slot a mcs s) mcs' = _slot a mcs'.
Proof. intros. unfold _slot, put_slot. rsimpl. by rewrite lookup_insert_ne. Qed.

(** Feed [n] windows without packets. *)
Fixpoint empties (n : nat) a (mcs : Z) : McsAggregator F :=
  match n with O => a | S n' => empties n' (on_pkt a mcs 0 0) mcs end.

Lemma on_pkt_empty_slot a mcs :
  _slot (on_pkt a mcs 0 0) mcs =
    let s1 := _slot a mcs <| sl_empty ::= Z.succ |> in
    if sl_empty s1 >=? ma_blackout_windows a then s1 <| sl_per := Some (fofZ 1) |> else s1.
Proof. unfold on_pkt. simpl. apply slot_put_eq. Qed.

Lemma empties_slot n a mcs :
  ma_blackout_windows (empties n a mcs) = ma_blackout_windows a /\
  sl_empty (_slot (empties n a mcs) mcs) = sl_empty (_slot a mcs) + Z.of_nat n /\
  sl_per (_slot (empties n a mcs) mcs) =
    if decide (n = 0%nat \/ sl_empty (_slot a mcs) + Z.of_nat n < ma_blackout_windows a)
    then sl_per (_slot a mcs) else Some (fofZ 1).
Proof.
  revert a. induction n as [|n IH]; intros a.
  { cbn [empties]. rewrite decide_True by auto. repeat split; lia. }
  cbn [empties]. destruct (IH (on_pkt a mcs 0 0)) as (Hb & He & Hp). clear IH.
  assert (Hb1 : ma_blackout_windows (on_pkt a mcs 0 0) = ma_blackout_windows a) by done.
  rewrite Hb, He, Hp, Hb1, on_pkt_empty_slot. clear Hb He Hp. cbv zeta. unfold upd.
  cbn [sl_empty sl_per]. destruct (_ >=? _) eqn:E; breflect; cbn [sl_empty sl_per].
  - split; [done|]. split; [lia|]. rewrite (decide_False (P := S n = 0%nat \/ _)) by lia. by case_decide.
  - split; [done|]. split; [lia|].
    rewrite (decide_ext _ (S n = 0%nat \/ sl_empty (_slot a mcs) + Z.of_nat (S n) < ma_blackout_windows a));
      [done|lia].
Qed.

(** Sparse empty windows carry no information, a full run of them does: from a
    rung whose last window had packets, the PER estimate is untouched by fewer
    than [blackout_windows] empty windows and is pinned to 1 from then on. *)
Theorem blackout_pins_per a mcs n :
  sl_empty (_slot a mcs) = 0 -> 0 < ma_blackout_windows a ->
  sl_per (_slot (empties n a mcs) mcs) =
    if Z.of_nat n <? ma_blackout_windows a then sl_per (_slot a mcs) else Some (fofZ 1).
Proof.
  intros H0 Hb. destruct (empties_slot n a mcs) as (_ & _ & ->). rewrite H0.
  destruct (Z.ltb_spec (Z.of_nat n) (ma_blackout_windows a)).
  - by rewrite decide_True by lia.
  - by rewrite decide_False by lia.
Qed.

(** Only windows that carried packets refresh a rung: a line that refreshes one
    is a PKT line with [data + lost > 0] for the rung of the last RX_ANT line. *)
Theorem feed_line_freshness (pf : ProbeFeed F) line now mcs :
  pf_updated (feed_line pf line now) !! mcs <> pf_updated pf !! mcs ->
  exists data fec lost, parse_line line = Some (PR_PKT data fec lost) /\ 0 < data + lost /\
    pf_last_mcs pf = Some mcs /\ pf_updated (feed_line pf line now) !! mcs = Some now.
Proof.
  unfold feed_line. destruct (parse_line line) as [[]|] eqn:E; rsimpl; try done.
  destruct (pf_last_mcs pf) as [m|] eqn:Em; [|done].
  destruct (_ >? _) eqn:Ed; simpl; [|done]. breflect. intros H.
  destruct (decide (m = mcs)) as [->|Hne].
  - rewrite lookup_insert_eq. eauto 10.
  - by rewrite lookup_insert_ne in H.
Qed.
End Theory.

Section Exact.
Open Scope Q_scope.

Definition per_ok (s : slot Q) : Prop := forall p, sl_per s = Some p -> 0 <= p <= 1.

Definition agg_ok (a : McsAggregator Q) : Prop := forall mcs, per_ok (_slot a mcs).

Lemma convex_unit (alpha x p : Q) :
  0 <= alpha <= 1 -> 0 <= x <= 1 -> 0 <= p <= 1 ->
  0 <= alpha *f x +f (fofZ 1 -f alpha) *f p <= 1.
Proof. intros. autorewrite with qarith. change (fofZ 1) with 1. split; nra. Qed.

Lemma ratio_unit (l d : Z) : (0 <= l)%Z -> (l <= d)%Z -> (0 < d)%Z -> 0 <= fofZ l /f fofZ d <= 1.
Proof.
  intros Hl Hd Hp. rewrite Q_div_eq. cbn [fofZ PyFloat_Q].
  assert (0 < inject_Z d) by (unfold Qlt; simpl; lia). split.
  - apply Qle_shift_div_l; [done|]. unfold Qle; simpl; lia.
  - apply Qle_shift_div_r; [done|]. unfold Qle; simpl; lia.
Qed.

Lemma on_pkt_ok a mcs data lost :
  0 <= ma_alpha a <= 1 -> (0 <= data)%Z -> (0 <= lost)%Z -> agg_ok a -> agg_ok (on_pkt a mcs data lost).
Proof.
  intros Ha Hd Hl Hok m. unfold on_pkt. destruct (_ <=? 0)%Z eqn:E; breflect.
  - destruct (decide (mcs = m)) as [->|]; [rewrite slot_put_eq|by rewrite slot_put_ne].
    specialize (Hok m). case_match; rsimpl; [|done]. intros p [= <-]. simpl. split; done.
  - destruct (decide (mcs = m)) as [->|]; [rewrite slot_put_eq|by rewrite slot_put_ne].
    specialize (Hok m). unfold upd. cbn [sl_per]. intros p [= <-].
    destruct (sl_per (_slot a m)) as [q|] eqn:Eq.
    + apply convex_unit; [done| |by apply Hok]. apply ratio_unit; lia.
    + apply ratio_unit; lia.
Qed.

Lemma on_rx_ant_ok a mcs rssi snr : agg_ok a -> agg_ok (on_rx_ant a mcs rssi snr).
Proof.
  intros Hok m. unfold on_rx_ant. destruct (decide (mcs = m)) as [->|]; [|rewrite slot_put_ne by done; apply Hok].
  rewrite slot_put_eq. exact (Hok m).
Qed.

(** Non-negative counters, the ones the probe receiver prints. *)
Definition rec_ok (r : option probe_rec) : Prop :=
  match r with Some (PR_PKT d f l) => (0 <= d /\ 0 <= l)%Z | _ => True end.

Definition feed_ok (pf : ProbeFeed Q) : Prop := agg_ok (pf_agg pf) /\ 0 <= ma_alpha (pf_agg pf) <= 1.

Lemma feed_line_ok pf line t : rec_ok (parse_line line) -> feed_ok pf -> feed_ok (feed_line pf line t).
Proof.
  intros Hr [Hok Ha]. unfold feed_line. destruct (parse_line line) as [[mcs rssi snr|d f l]|]; [|..|done].
  - split; [by apply on_rx_ant_ok|done].
  - destruct (pf_last_mcs pf) as [mcs|]; [|done]. destruct Hr as [Hd Hl].
    assert (H : feed_ok (pf <| pf_agg ::= (fun a => on_pkt a mcs d l) |>)).
    { split; [by apply on_pkt_ok|]. unfold upd, on_pkt. cbn [pf_agg]. by case_match. }
    by case_match.
Qed.

Lemma feed_lines_ok (lines : list (string * Q)) pf :
  Forall (fun ln => rec_ok (parse_line ln.1)) lines -> feed_ok pf ->
  feed_ok (fold_left (fun pf ln => feed_line pf ln.1 ln.2) lines pf).
Proof. intros H. revert pf. induction H; simpl; auto using feed_line_ok. Qed.

(** Every PER the policy can read from the feed is a probability. *)
Theorem feed_per_probability (lines : list (string * Q)) now mcs rd p :
  Forall (fun ln => rec_ok (parse_line ln.1)) lines ->
  snapshot_fresh (fold_left (fun pf ln => feed_line pf ln.1 ln.2) lines feed_init) now !! mcs = Some rd ->
  pr_per rd = Some p -> 0 <= p <= 1.
Proof.
  intros Hl Hs Hp. destruct (feed_lines_ok lines feed_init Hl) as [Hok _].
  { split; [|split; vm_compute; done]. intros m q. unfold _slot. simpl. by rewrite lookup_empty. }
  unfold snapshot_fresh in Hs. rewrite map_lookup_imap in Hs.
  destruct (ma_m _ !! mcs) as [s|] eqn:Em; [|done]. simpl in Hs.
  destruct (sl_per s) as [q|] eqn:Eq; [|done]. simplify_eq/=.
  specialize (Hok mcs). unfold _slot in Hok. rewrite Em in Hok. by apply Hok.
Qed.
End Exact.
