(* ===== verification/Bytes.v ===== *)
(** * Bytes, [struct] integers and CRC-32

    A byte string is a list of integers in 0..255.  Little- and big-endian
    fields of any width, their signed readings, range-checked packing as
    [struct.pack] does it, and the reflected CRC-32 of [binascii.crc32]. *)
From Stdlib Require Import ZArith Lia Bool List.
From stdpp Require Import base tactics list numbers.
From S2P Require Import Prelude.
Open Scope Z_scope.

Definition byte_ok (b : Z) : Prop := 0 <= b < 256.
Definition bytes_ok (l : list Z) : Prop := Forall byte_ok l.

Fixpoint le_bytes (n : nat) (z : Z) : list Z :=
  match n with
  | O => []
  | S n' => z mod 256 :: le_bytes n' (z / 256)
  end.

Fixpoint le_val (l : list Z) : Z :=
  match l with
  | [] => 0
  | b :: l' => b + 256 * le_val l'
  end.

Definition be_bytes (n : nat) (z : Z) : list Z := rev (le_bytes n z).
Definition be_val (l : list Z) : Z := le_val (rev l).

(** Two's complement reading of a [w]-bit value. *)
Definition to_signed (w z : Z) : Z := if z <? 2 ^ (w - 1) then z else z - 2 ^ w.

(** [struct.pack] of an unsigned field: out-of-range values raise. *)
Definition pack_be (n : nat) (z : Z) : res (list Z) :=
  if (0 <=? z) && (z <? 256 ^ Z.of_nat n) then Ok (be_bytes n z) else Err StructError.
Definition pack_le (n : nat) (z : Z) : res (list Z) :=
  if (0 <=? z) && (z <? 256 ^ Z.of_nat n) then Ok (le_bytes n z) else Err StructError.

(** Slices [data[off:off+n]]. *)
Definition slice (off n : nat) (l : list Z) : list Z := take n (drop off l).

(** ** Lemmas *)

Lemma le_bytes_length n z : length (le_bytes n z) = n.
Proof. revert z. induction n as [|n IH]; intros z; simpl; [done|]. by rewrite IH. Qed.

Lemma be_bytes_length n z : length (be_bytes n z) = n.
Proof. unfold be_bytes. by rewrite length_rev, le_bytes_length. Qed.

Lemma le_bytes_ok n z : bytes_ok (le_bytes n z).
Proof.
  revert z. induction n as [|n IH]; intros z; simpl; constructor; [|apply IH].
  apply Z.mod_pos_bound. lia.
Qed.

Lemma bytes_ok_rev l : bytes_ok l -> bytes_ok (rev l).
Proof. apply List.Forall_rev. Qed.

Lemma be_bytes_ok n z : bytes_ok (be_bytes n z).
Proof. apply bytes_ok_rev, le_bytes_ok. Qed.

Lemma bytes_ok_app l1 l2 : bytes_ok (l1 ++ l2) <-> bytes_ok l1 /\ bytes_ok l2.
Proof. apply Forall_app. Qed.

Lemma le_val_bytes n z : le_val (le_bytes n z) = z mod 256 ^ Z.of_nat n.
Proof.
  revert z. induction n as [|n IH]; intros z; cbn [le_bytes le_val].
  { change (256 ^ Z.of_nat 0) with 1. by rewrite Z.mod_1_r. }
  rewrite IH, Nat2Z.inj_succ, Z.pow_succ_r by lia.
  rewrite Z.rem_mul_r by lia. done.
Qed.

Lemma be_val_bytes n z : be_val (be_bytes n z) = z mod 256 ^ Z.of_nat n.
Proof. unfold be_val, be_bytes. rewrite rev_involutive. apply le_val_bytes. Qed.

Lemma le_val_bound l : bytes_ok l -> 0 <= le_val l < 256 ^ Z.of_nat (length l).
Proof.
  induction 1 as [|b l Hb _ IH]; cbn [le_val length]; [done|].
  rewrite Nat2Z.inj_succ, Z.pow_succ_r by lia. unfold byte_ok in Hb. lia.
Qed.

Lemma le_bytes_val l : bytes_ok l -> le_bytes (length l) (le_val l) = l.
Proof.
  induction 1 as [|b l Hb _ IH]; cbn [le_val length le_bytes]; [done|].
  unfold byte_ok in Hb. f_equal.
  - rewrite Z.mul_comm, Z.mod_add by lia. by apply Z.mod_small.
  - rewrite Z.mul_comm, Z.div_add, Z.div_small by lia. exact IH.
Qed.

Lemma be_val_bound l : bytes_ok l -> 0 <= be_val l < 256 ^ Z.of_nat (length l).
Proof. intros H. unfold be_val. rewrite <- length_rev. by apply le_val_bound, bytes_ok_rev. Qed.

Lemma be_val_inj l1 l2 :
  bytes_ok l1 -> bytes_ok l2 -> length l1 = length l2 -> be_val l1 = be_val l2 -> l1 = l2.
Proof.
  intros H1 H2 Hl He. rewrite <- (rev_involutive l1), <- (rev_involutive l2). f_equal.
  rewrite <- (le_bytes_val (rev l1)), <- (le_bytes_val (rev l2)) by by apply bytes_ok_rev.
  unfold be_val in He. by rewrite !length_rev, Hl, He.
Qed.

Lemma pack_be_ok n z l : pack_be n z = Ok l <-> 0 <= z < 256 ^ Z.of_nat n /\ l = be_bytes n z.
Proof.
  unfold pack_be. destruct (_ && _) eqn:E.
  - breflect. split; [by intros [= <-]|]. by intros [_ ->].
  - split; [done|]. intros [Hz _]. apply andb_false_iff in E as [E|E]; breflect; lia.
Qed.

Lemma to_signed_range w z : 0 < w -> 0 <= z < 2 ^ w -> - 2 ^ (w - 1) <= to_signed w z < 2 ^ (w - 1).
Proof.
  intros Hw Hz. unfold to_signed. assert (2 ^ w = 2 * 2 ^ (w - 1)).
  { rewrite <- Z.pow_succ_r by lia. f_equal. lia. }
  destruct (Z.ltb_spec z (2 ^ (w - 1))); lia.
Qed.

Lemma to_signed_mod w z : 0 < w -> - 2 ^ (w - 1) <= z < 2 ^ (w - 1) -> to_signed w (z mod 2 ^ w) = z.
Proof.
  intros Hw Hz. unfold to_signed. assert (2 ^ w = 2 * 2 ^ (w - 1)).
  { rewrite <- Z.pow_succ_r by lia. f_equal. lia. }
  destruct (Z.leb_spec 0 z).
  - rewrite Z.mod_small by lia. destruct (Z.ltb_spec z (2 ^ (w - 1))); lia.
  - replace (z mod 2 ^ w) with (z + 2 ^ w).
    + destruct (Z.ltb_spec (z + 2 ^ w) (2 ^ (w - 1))); lia.
    + rewrite <- (Z.mod_add z 1) by lia. rewrite Z.mod_small; lia.
Qed.

(* ------------------------------------------------------------------ *)
(** ** CRC-32 *)

Definition CRC_POLY : Z := 0xEDB88320.

(** One bit of the table-free loop: [(crc >> 1) ^ (POLY & -(crc & 1))]. *)
Definition crc_bit (c : Z) : Z := Z.lxor (Z.shiftr c 1) (if Z.testbit c 0 then CRC_POLY else 0).

Definition crc_byte (c b : Z) : Z := Nat.iter 8 crc_bit (Z.lxor c b).

Definition crc_raw (c : Z) (data : list Z) : Z := fold_left crc_byte data c.

Definition crc32 (data : list Z) : Z := Z.lxor (crc_raw 0xFFFFFFFF data) 0xFFFFFFFF.

(** The check value of the CRC-32 family: the digits 1 to 9. *)
Example crc32_check : crc32 [49; 50; 51; 52; 53; 54; 55; 56; 57] = 0xCBF43926.
Proof. vm_compute. reflexivity. Qed.

(** *** Linearity *)

Lemma crc_bit_lxor a b : crc_bit (Z.lxor a b) = Z.lxor (crc_bit a) (crc_bit b).
Proof.
  unfold crc_bit. rewrite Z.shiftr_lxor, Z.lxor_spec.
  apply Z.bits_inj'. intros n Hn. rewrite !Z.lxor_spec.
  destruct (Z.testbit a 0), (Z.testbit b 0); simpl xorb; cbv iota; rewrite ?Z.bits_0;
    destruct (Z.testbit (Z.shiftr a 1) n), (Z.testbit (Z.shiftr b 1) n), (Z.testbit CRC_POLY n); done.
Qed.

Lemma crc_bits_lxor n a b : Nat.iter n crc_bit (Z.lxor a b) = Z.lxor (Nat.iter n crc_bit a) (Nat.iter n crc_bit b).
Proof. induction n as [|n IH]; simpl; [done|]. by rewrite IH, crc_bit_lxor. Qed.

Lemma crc_byte_lxor c d a b : crc_byte (Z.lxor c d) (Z.lxor a b) = Z.lxor (crc_byte c a) (crc_byte d b).
Proof.
  unfold crc_byte. rewrite <- crc_bits_lxor. f_equal. apply Z.bits_inj'. intros n _.
  rewrite !Z.lxor_spec. by destruct (Z.testbit c n), (Z.testbit d n), (Z.testbit a n), (Z.testbit b n).
Qed.

(** XOR of two byte strings, as a channel error acts on a frame. *)
Definition xor_bytes (l e : list Z) : list Z := zip_with Z.lxor l e.

Lemma crc_raw_cons c b l : crc_raw c (b :: l) = crc_raw (crc_byte c b) l.
Proof. done. Qed.

Lemma xor_bytes_cons b l x e : xor_bytes (b :: l) (x :: e) = Z.lxor b x :: xor_bytes l e.
Proof. done. Qed.

Lemma crc_raw_xor l e c d :
  length e = length l -> crc_raw (Z.lxor c d) (xor_bytes l e) = Z.lxor (crc_raw c l) (crc_raw d e).
Proof.
  revert e c d. induction l as [|b l IH]; intros [|x e] c d Hl; try done.
  rewrite xor_bytes_cons, !crc_raw_cons, crc_byte_lxor. apply IH. simpl in Hl. lia.
Qed.

(** The error pattern alone decides how a CRC changes. *)
Lemma crc32_xor l e : length e = length l -> crc32 (xor_bytes l e) = Z.lxor (crc32 l) (crc_raw 0 e).
Proof.
  intros Hl. unfold crc32. rewrite <- (Z.lxor_0_r 0xFFFFFFFF) at 1.
  rewrite crc_raw_xor by done. rewrite !Z.lxor_assoc. f_equal. apply Z.lxor_comm.
Qed.

Lemma lxor_bound n a b : 0 <= n -> 0 <= a < 2 ^ n -> 0 <= b < 2 ^ n -> 0 <= Z.lxor a b < 2 ^ n.
Proof.
  intros Hn Ha Hb. assert (H0 : 0 <= Z.lxor a b) by (apply Z.lxor_nonneg; lia). split; [done|].
  apply Z.le_lteq in H0 as [H0|<-]; [|lia]. apply Z.log2_lt_pow2; [done|].
  eapply Z.le_lt_trans; [apply Z.log2_lxor; lia|].
  assert (Hl : forall x, 0 <= x < 2 ^ n -> 0 < n -> Z.log2 x < n).
  { intros x [[H|<-]%Z.le_lteq Hx] Hn'; [by apply Z.log2_lt_pow2|done]. }
  assert (0 < n). { destruct (Z.eq_dec n 0) as [->|]; [|lia]. simpl in *. assert (a = 0) by lia.
    assert (b = 0) by lia. subst. done. }
  apply Z.max_lub_lt; auto.
Qed.

Lemma crc_bit_bound c : 0 <= c < 2 ^ 32 -> 0 <= crc_bit c < 2 ^ 32.
Proof.
  intros Hc. apply lxor_bound; [lia| |unfold CRC_POLY; case_match; lia].
  rewrite Z.shiftr_div_pow2 by lia. change (2 ^ 1) with 2. split; [apply Z.div_pos; lia|].
  apply Z.div_lt_upper_bound; lia.
Qed.

Lemma crc_byte_bound c b : 0 <= c < 2 ^ 32 -> byte_ok b -> 0 <= crc_byte c b < 2 ^ 32.
Proof.
  intros Hc Hb. unfold crc_byte. assert (H : 0 <= Z.lxor c b < 2 ^ 32)
    by (apply lxor_bound; [lia|done|unfold byte_ok in Hb; lia]).
  generalize 8%nat. intros n. induction n as [|n IH]; simpl Nat.iter; [done|]. by apply crc_bit_bound.
Qed.

Lemma crc_raw_bound c l : 0 <= c < 2 ^ 32 -> bytes_ok l -> 0 <= crc_raw c l < 2 ^ 32.
Proof.
  intros Hc Hl. revert c Hc. induction Hl as [|b l Hb _ IH]; intros c Hc; [done|].
  apply IH. by apply crc_byte_bound.
Qed.

Lemma crc32_bound l : bytes_ok l -> 0 <= crc32 l < 2 ^ 32.
Proof. intros H. apply lxor_bound; [lia|by apply crc_raw_bound|lia]. Qed.

(** XOR commutes with reading an integer field and with slicing. *)
Lemma add_shift_lxor b l : byte_ok b -> b + 256 * l = Z.lxor b (Z.shiftl l 8).
Proof.
  intros Hb. unfold byte_ok in Hb. rewrite <- Z.add_nocarry_lxor.
  - rewrite Z.shiftl_mul_pow2 by lia. lia.
  - apply Z.bits_inj'. intros n Hn. rewrite Z.land_spec, Z.bits_0, Z.shiftl_spec by lia.
    destruct (Z.ltb_spec n 8); [rewrite (Z.testbit_neg_r l) by lia; apply andb_false_r|].
    apply andb_false_iff. left. destruct (Z.eq_dec b 0) as [->|]; [apply Z.bits_0|].
    apply Z.bits_above_log2; [lia|]. apply Z.lt_le_trans with 8; [|lia]. by apply Z.log2_lt_pow2; lia.
Qed.

Lemma byte_ok_lxor a b : byte_ok a -> byte_ok b -> byte_ok (Z.lxor a b).
Proof. apply (lxor_bound 8). lia. Qed.

Lemma xor_bytes_ok l e : bytes_ok l -> bytes_ok e -> bytes_ok (xor_bytes l e).
Proof.
  intros Hl. revert e. induction Hl as [|b l Hb _ IH]; intros e He; [constructor|].
  destruct e as [|x e]; [constructor|]. inversion He; subst. cbn [xor_bytes zip_with]. constructor.
  - by apply byte_ok_lxor.
  - by apply IH.
Qed.

Lemma le_val_xor l e :
  bytes_ok l -> bytes_ok e -> length e = length l -> le_val (xor_bytes l e) = Z.lxor (le_val l) (le_val e).
Proof.
  intros Hl. revert e. induction Hl as [|b l Hb _ IH]; intros [|x e] He Hlen; try done.
  inversion He as [|? ? Hx He']; subst. cbn [xor_bytes zip_with le_val].
  fold (xor_bytes l e). rewrite IH by (done || (simpl in Hlen; lia)).
  rewrite !add_shift_lxor by auto using byte_ok_lxor. rewrite Z.shiftl_lxor.
  apply Z.bits_inj'. intros n _. rewrite !Z.lxor_spec.
  by destruct (Z.testbit b n), (Z.testbit x n), (Z.testbit (Z.shiftl (le_val l) 8) n),
    (Z.testbit (Z.shiftl (le_val e) 8) n).
Qed.

Lemma rev_xor_bytes l e : length e = length l -> rev (xor_bytes l e) = xor_bytes (rev l) (rev e).
Proof.
  revert e. induction l as [|b l IH]; intros [|x e] Hlen; try done. simpl in Hlen.
  cbn [xor_bytes zip_with rev]. fold (xor_bytes l e). rewrite IH by lia.
  unfold xor_bytes. rewrite zip_with_app by (rewrite !length_rev; lia). done.
Qed.

Lemma be_val_xor l e :
  bytes_ok l -> bytes_ok e -> length e = length l -> be_val (xor_bytes l e) = Z.lxor (be_val l) (be_val e).
Proof.
  intros Hl He Hlen. unfold be_val. rewrite rev_xor_bytes by done.
  apply le_val_xor; [by apply bytes_ok_rev..|]. by rewrite !length_rev.
Qed.

Lemma slice_xor off n l e : slice off n (xor_bytes l e) = xor_bytes (slice off n l) (slice off n e).
Proof. unfold slice, xor_bytes. by rewrite zip_with_drop, zip_with_take. Qed.

Lemma slice_length off n l : (off + n <= length l)%nat -> length (slice off n l) = n.
Proof. intros H. unfold slice. rewrite length_take, length_drop. lia. Qed.

Lemma slice_ok off n l : bytes_ok l -> bytes_ok (slice off n l).
Proof. intros H. by apply Forall_take, Forall_drop. Qed.
