(* ===== verification/Decision.v ===== *)
(** * Decisions (gs/fpvdgs/dynlink/decision.py) and their reasons

    The policy explains each decision by a list of reason strings.  Their
    formatted text is kept as data: one constructor per f-string of the policy,
    with the values it interpolates. *)
From Stdlib Require Import ZArith.
From stdpp Require Import base tactics decidable.

(** Failure signature of a loss demote. *)
Inductive fail_class := Fade | Flap | Burst.
#[export] Instance fail_class_eq_dec : EqDecision fail_class.
Proof. solve_decision. Defined.

Inductive reason (F : Type) :=
| R_video_per_demote (loss : F) (klass : fail_class)
| R_emergency (fec : F) (starved : bool)
| R_snapback_promote (tgt : Z)
| R_knee_promote
| R_explore_promote
| R_predict_demote (cur tgt : Z)
| R_snr_demote (cur tgt : Z)
| R_fast.
Arguments R_video_per_demote {F}.
Arguments R_emergency {F}.
Arguments R_snapback_promote {F}.
Arguments R_knee_promote {F}.
Arguments R_explore_promote {F}.
Arguments R_predict_demote {F}.
Arguments R_snr_demote {F}.
Arguments R_fast {F}.

(** [signals_snapshot]: the fields the fast path leaves out are [None]. *)
Record Snapshot (F : Type) := mkSnapshot {
  sn_rssi : option (option F); sn_rssi_raw : option (option F);
  sn_residual_loss_w : F; sn_fec_work : F; sn_link_starved : option bool; sn_mcs : Z
}.
Arguments mkSnapshot {F}.

Record Decision (F : Type) := mkDecision {
  d_timestamp : F; d_mcs : Z; d_reason : list (reason F); d_signals_snapshot : Snapshot F
}.
Arguments mkDecision {F}.
Arguments d_timestamp {F} _.
Arguments d_mcs {F} _.
Arguments d_reason {F} _.
Arguments d_signals_snapshot {F} _.
