(* ===== verification/Wire.v ===== *)
(** * The decision packet (gs/fpvdgs/dynlink/wire.py) and its drone-side reader

    The ground station's encoder with its sequence counter, and the decoder and
    duplicate filter the drone runs on the same 15 bytes
    (drone/src/dynlink/wire.cpp, dedup.cpp), so that the contract between the
    two ends is a theorem. *)
From Stdlib Require Import ZArith Lia Bool List.
From stdpp Require Import base tactics list.
From S2P Require Import Prelude Bytes Decision.
Open Scope Z_scope.

Definition MAGIC : Z := 0x444C4B31.
Definition VERSION : Z := 3.
Definition PAYLOAD_SIZE : nat := 11.
Definition ON_WIRE_SIZE : nat := 15.

(** ** Ground station *)

Definition _crc32 (data : list Z) : Z := Z.land (crc32 data) 0xFFFFFFFF.

(** [struct.pack(">IBBIB", ...)] and the CRC; a field out of range raises. *)
Definition _encode_raw (version flags sequence mcs : Z) : res (list Z) :=
  let* m := pack_be 4 MAGIC in
  let* v := pack_be 1 version in
  let* f := pack_be 1 flags in
  let* s := pack_be 4 sequence in
  let* c := pack_be 1 mcs in
  let payload := m ++ v ++ f ++ s ++ c in
  let* k := pack_be 4 (_crc32 payload) in
  Ok (payload ++ k).

Record Encoder := mkEncoder { seq : Z }.

(** [Encoder.encode]: the counter advances before the packet is packed. *)
Definition encoder_encode {F} (e : Encoder) (decision : Decision F) (sequence : option Z)
    : Encoder * res (list Z) :=
  let '(e', s) := match sequence with
                  | None => (mkEncoder (Z.land (seq e + 1) 0xFFFFFFFF), seq e)
                  | Some s => (e, s)
                  end in
  (e', _encode_raw VERSION 0 s (d_mcs decision)).

Definition encode {F} (decision : Decision F) (sequence : Z) : res (list Z) :=
  (encoder_encode (mkEncoder sequence) decision (Some sequence)).2.

(** ** Drone *)

Inductive DecodeResult := DR_Ok (flags sequence mcs : Z) | DR_Short | DR_BadMagic | DR_BadVersion | DR_BadCrc.

Definition decodeDecision (buf : list Z) : DecodeResult :=
  if (length buf <? ON_WIRE_SIZE)%nat then DR_Short
  else if negb (be_val (slice 0 4 buf) =? MAGIC) then DR_BadMagic
  else if negb (nth 4 buf 0 =? VERSION) then DR_BadVersion
  else if negb (be_val (slice 11 4 buf) =? crc32 (slice 0 11 buf)) then DR_BadCrc
  else DR_Ok (nth 5 buf 0) (be_val (slice 6 4 buf)) (nth 10 buf 0).

Record Dedup := mkDedup { lastSeq : Z; ever : bool }.

(** [Dedup::check]: the returned flag says drop. *)
Definition dedup_check (d : Dedup) (s : Z) : Dedup * bool :=
  if negb (ever d) then (mkDedup s true, false)
  else
    let delta := to_signed 32 ((s - lastSeq d) mod 2 ^ 32) in
    if delta <=? 0 then (d, true) else (mkDedup s true, false).

(** The receive branch of the drone's loop on a decision packet: decode, filter,
    apply.  The result is the MCS handed on, if any. *)
Definition drone_packet (d : Dedup) (buf : list Z) : Dedup * option Z :=
  match decodeDecision buf with
  | DR_Ok _ s m => let '(d', drop) := dedup_check d s in (d', if drop then None else Some m)
  | _ => (d, None)
  end.

Fixpoint drone_receive (d : Dedup) (bufs : list (list Z)) : list Z :=
  match bufs with
  | [] => []
  | b :: bufs' => let '(d', r) := drone_packet d b in
                  match r with Some m => m :: drone_receive d' bufs' | None => drone_receive d' bufs' end
  end.

(* ------------------------------------------------------------------ *)
(** ** The frame *)

(** The payload and frame of in-range fields. *)
Definition payload_of (flags sequence mcs : Z) : list Z :=
  be_bytes 4 MAGIC ++ be_bytes 1 VERSION ++ be_bytes 1 flags ++ be_bytes 4 sequence ++ be_bytes 1 mcs.

Definition frame_of (flags sequence mcs : Z) : list Z :=
  payload_of flags sequence mcs ++ be_bytes 4 (crc32 (payload_of flags sequence mcs)).

Lemma payload_ok f s m : bytes_ok (payload_of f s m).
Proof. unfold payload_of. rewrite !bytes_ok_app. repeat split; apply be_bytes_ok. Qed.

Lemma payload_length f s m : length (payload_of f s m) = 11%nat.
Proof. done. Qed.

Lemma frame_length f s m : length (frame_of f s m) = 15%nat.
Proof. done. Qed.

Lemma frame_ok f s m : bytes_ok (frame_of f s m).
Proof. apply bytes_ok_app. split; [apply payload_ok|apply be_bytes_ok]. Qed.

Lemma _crc32_eq l : bytes_ok l -> _crc32 l = crc32 l.
Proof.
  intros H. unfold _crc32. change 0xFFFFFFFF with (Z.ones 32). rewrite Z.land_ones by lia.
  apply Z.mod_small. by apply crc32_bound.
Qed.

Definition u8 (z : Z) : Prop := 0 <= z < 2 ^ 8.
Definition u32 (z : Z) : Prop := 0 <= z < 2 ^ 32.

Lemma encode_raw_frame flags s m :
  _encode_raw VERSION flags s m =
    if (0 <=? flags) && (flags <? 2 ^ 8) && ((0 <=? s) && (s <? 2 ^ 32)) && ((0 <=? m) && (m <? 2 ^ 8))
    then Ok (frame_of flags s m) else Err StructError.
Proof.
  unfold _encode_raw, pack_be at 1 2 3 4 5.
  change (256 ^ Z.of_nat 1) with (2 ^ 8). change (256 ^ Z.of_nat 4) with (2 ^ 32).
  change ((0 <=? MAGIC) && (MAGIC <? 2 ^ 32)) with true.
  change ((0 <=? VERSION) && (VERSION <? 2 ^ 8)) with true. cbn [rbind].
  destruct ((0 <=? flags) && (flags <? 2 ^ 8)); cbn [rbind andb]; [|done].
  destruct ((0 <=? s) && (s <? 2 ^ 32)); cbn [rbind andb]; [|done].
  destruct ((0 <=? m) && (m <? 2 ^ 8)); cbn [rbind]; [|done].
  fold (payload_of flags s m). rewrite _crc32_eq by apply payload_ok.
  pose proof (crc32_bound _ (payload_ok flags s m)).
  unfold pack_be. change (256 ^ Z.of_nat 4) with (2 ^ 32).
  destruct (Z.leb_spec 0 (crc32 (payload_of flags s m))); [|lia].
  destruct (Z.ltb_spec (crc32 (payload_of flags s m)) (2 ^ 32)); [|lia]. done.
Qed.

Lemma encode_raw_ok flags s m : u8 flags -> u32 s -> u8 m -> _encode_raw VERSION flags s m = Ok (frame_of flags s m).
Proof.
  unfold u8, u32. intros Hf Hs Hm. rewrite encode_raw_frame.
  destruct (Z.leb_spec 0 flags), (Z.ltb_spec flags (2 ^ 8)), (Z.leb_spec 0 s), (Z.ltb_spec s (2 ^ 32)),
    (Z.leb_spec 0 m), (Z.ltb_spec m (2 ^ 8)); try lia. done.
Qed.

Lemma frame_fields f s m :
  slice 0 4 (frame_of f s m) = be_bytes 4 MAGIC /\
  nth 4 (frame_of f s m) 0 = VERSION /\
  slice 11 4 (frame_of f s m) = be_bytes 4 (crc32 (payload_of f s m)) /\
  slice 0 11 (frame_of f s m) = payload_of f s m /\
  nth 5 (frame_of f s m) 0 = f mod 256 /\
  slice 6 4 (frame_of f s m) = be_bytes 4 s /\
  nth 10 (frame_of f s m) 0 = m mod 256.
Proof. repeat split. Qed.

Lemma decode_frame s m : u32 s -> u8 m -> decodeDecision (frame_of 0 s m) = DR_Ok 0 s m.
Proof.
  unfold u8, u32. intros Hs Hm. unfold decodeDecision. rewrite frame_length.
  destruct (frame_fields 0 s m) as (-> & -> & -> & -> & -> & -> & ->).
  rewrite !be_val_bytes. change (256 ^ Z.of_nat 4) with (2 ^ 32).
  change (MAGIC mod 2 ^ 32) with MAGIC. change (0 mod 256) with 0.
  rewrite (Z.mod_small (crc32 _)) by apply crc32_bound, payload_ok.
  rewrite (Z.mod_small s), (Z.mod_small m) by lia.
  by rewrite !Z.eqb_refl.
Qed.

(** What the ground station encodes the drone's decoder reads back: a
    decision with a one-byte MCS under a 32-bit sequence number arrives as
    that MCS and number with clear flags; any other value raises instead of
    sending a wrong packet. *)
Theorem encode_decode {F} (d : Decision F) s :
  match encode d s with
  | Ok buf => u8 (d_mcs d) /\ u32 s /\ length buf = ON_WIRE_SIZE /\ decodeDecision buf = DR_Ok 0 s (d_mcs d)
  | Err e => e = StructError /\ ~ (u8 (d_mcs d) /\ u32 s)
  end.
Proof.
  unfold encode, encoder_encode. cbn [snd]. rewrite encode_raw_frame. unfold u8, u32.
  destruct (_ && _) eqn:E; cbn [andb] in E; breflect.
  - split; [lia|]. split; [lia|]. split; [done|]. apply decode_frame; unfold u8, u32; lia.
  - split; [done|]. intros [H1 H2]. rewrite andb_false_iff in E.
    destruct E as [E|E]; rewrite !andb_false_iff in E; destruct E as [E|E]; breflect; try lia;
    destruct E as [E|E]; breflect; lia.
Qed.

(* ------------------------------------------------------------------ *)
(** ** Corruption *)

(** The channel error that flips bit [i] (of 120) of a frame. *)
Definition bit_error (i : nat) : list Z :=
  map (fun j => if (j =? i / 8)%nat then 2 ^ Z.of_nat (i mod 8) else 0) (List.seq 0 15).

(** What an error does to the CRC comparison: zero means it goes unnoticed. *)
Definition syndrome (e : list Z) : Z := Z.lxor (crc_raw 0 (slice 0 11 e)) (be_val (slice 11 4 e)).

Lemma syndrome_table :
  bool_decide (NoDup (0 :: map (fun i => syndrome (bit_error i)) (List.seq 0 120))) = true.
Proof. vm_compute. reflexivity. Qed.

Lemma bit_error_ok i : (i < 120)%nat -> bytes_ok (bit_error i) /\ length (bit_error i) = 15%nat.
Proof.
  intros Hi. split; [|by unfold bit_error; rewrite length_map].
  unfold bit_error. apply Forall_forall. intros x (j & <- & _)%list_elem_of_In%in_map_iff.
  case_match; [|done]. pose proof (Nat.mod_upper_bound i 8 ltac:(lia)). split; [lia|].
  change 256 with (2 ^ 8). apply Z.pow_lt_mono_r; lia.
Qed.

Lemma syndrome_xor e1 e2 :
  bytes_ok e1 -> bytes_ok e2 -> length e1 = 15%nat -> length e2 = 15%nat ->
  syndrome (xor_bytes e1 e2) = Z.lxor (syndrome e1) (syndrome e2).
Proof.
  intros H1 H2 L1 L2. unfold syndrome. rewrite !slice_xor.
  rewrite <- (Z.lxor_0_l 0) at 1. rewrite crc_raw_xor by (rewrite !slice_length; lia).
  rewrite be_val_xor; [|by apply slice_ok..|rewrite !slice_length; lia].
  apply Z.bits_inj'. intros n _. rewrite !Z.lxor_spec.
  by destruct (Z.testbit (crc_raw 0 (slice 0 11 e1)) n), (Z.testbit (crc_raw 0 (slice 0 11 e2)) n),
    (Z.testbit (be_val (slice 11 4 e1)) n), (Z.testbit (be_val (slice 11 4 e2)) n).
Qed.

Lemma syndrome_bit i : (i < 120)%nat -> syndrome (bit_error i) <> 0.
Proof.
  intros Hi. pose proof syndrome_table as H. apply bool_decide_eq_true in H.
  apply NoDup_cons in H as [Hn _]. intros E. apply Hn. rewrite <- E.
  apply list_elem_of_In, in_map_iff. exists i. split; [done|]. apply in_seq. lia.
Qed.

Lemma syndrome_two_bits i j :
  (i < 120)%nat -> (j < 120)%nat -> i <> j -> syndrome (bit_error i) <> syndrome (bit_error j).
Proof.
  intros Hi Hj Hij E. pose proof syndrome_table as H. apply bool_decide_eq_true in H.
  apply NoDup_cons in H as [_ Hn]. apply Hij.
  apply (NoDup_lookup _ i j (syndrome (bit_error j)) Hn); change (map ?f ?l) with (f <$> l); rewrite list_lookup_fmap.
  - rewrite lookup_seq_lt by done. simpl. by rewrite E.
  - by rewrite lookup_seq_lt by done.
Qed.

Lemma corrupted_frame_ok f s m e :
  bytes_ok e -> length e = 15%nat ->
  (exists a b c, decodeDecision (xor_bytes (frame_of f s m) e) = DR_Ok a b c) -> syndrome e = 0.
Proof.
  intros He Hl (a & b & c & H). unfold decodeDecision in H.
  repeat case_match; try done. breflect.
  match goal with H : be_val _ = crc32 _ |- _ => rename H into Hc end.
  rewrite !slice_xor in Hc. destruct (frame_fields f s m) as (_ & _ & E1 & E2 & _).
  rewrite E1, E2 in Hc. clear E1 E2.
  rewrite be_val_xor in Hc by (apply be_bytes_ok || (by apply slice_ok) || (rewrite be_bytes_length, slice_length; lia)).
  rewrite crc32_xor in Hc by (rewrite payload_length, slice_length; lia).
  rewrite be_val_bytes, Z.mod_small in Hc by apply crc32_bound, payload_ok.
  unfold syndrome. apply Z.lxor_eq_0_iff. symmetry.
  apply (f_equal (Z.lxor (crc32 (payload_of f s m)))) in Hc.
  by rewrite <- !Z.lxor_assoc, Z.lxor_nilpotent, !Z.lxor_0_l in Hc.
Qed.

(** C28: The drone's decoder never accepts a decision packet in which one or
    two bits were flipped on the way. *)
Theorem corruption_detected {F} (d : Decision F) s buf i j :
  encode d s = Ok buf -> (i < 120)%nat -> (j < 120)%nat -> i <> j ->
  (forall a b c, decodeDecision (xor_bytes buf (bit_error i)) <> DR_Ok a b c) /\
  (forall a b c, decodeDecision (xor_bytes buf (xor_bytes (bit_error i) (bit_error j))) <> DR_Ok a b c).
Proof.
  intros Hb Hi Hj Hij. unfold encode, encoder_encode in Hb. cbn [snd] in Hb. rewrite encode_raw_frame in Hb.
  case_match; [|done]. injection Hb as <-.
  destruct (bit_error_ok i Hi) as [Oi Li], (bit_error_ok j Hj) as [Oj Lj]. split; intros a b c E.
  - apply (syndrome_bit i Hi). eapply corrupted_frame_ok; [done|done|]. eauto.
  - apply (syndrome_two_bits i j Hi Hj Hij). apply Z.lxor_eq_0_iff.
    rewrite <- syndrome_xor by done. eapply corrupted_frame_ok; [by apply xor_bytes_ok| |by eauto].
    unfold xor_bytes. rewrite length_zip_with. lia.
Qed.

(* ------------------------------------------------------------------ *)
(** ** Sequence numbers *)

Lemma land_ones32 z : Z.land z 0xFFFFFFFF = z mod 2 ^ 32.
Proof. change 0xFFFFFFFF with (Z.ones 32). by rewrite Z.land_ones. Qed.

Lemma encoder_next_seq {F} e (d : Decision F) : seq (encoder_encode e d None).1 = (seq e + 1) mod 2 ^ 32.
Proof. apply land_ones32. Qed.

(** The encoder after [n] further packets. *)
Definition encoder_after {F} (e : Encoder) (d : Decision F) (n : nat) : Encoder :=
  Nat.iter n (fun e => (encoder_encode e d None).1) e.

Lemma encoder_after_seq {F} e (d : Decision F) n :
  u32 (seq e) -> seq (encoder_after e d n) = (seq e + Z.of_nat n) mod 2 ^ 32.
Proof.
  intros He. unfold encoder_after. induction n as [|n IH].
  - simpl Nat.iter. rewrite Z.add_0_r, Z.mod_small; [done|exact He].
  - change (Nat.iter (S n) ?f e) with (f (Nat.iter n f e)). cbv beta.
    rewrite encoder_next_seq, IH, Zplus_mod_idemp_l. f_equal. lia.
Qed.

(** Over any run of fewer than 2^31 packets, wrap-around of the 32-bit
    counter included, a drone that acted on packet i acts on every later one
    and drops packet i and the earlier ones when they come again. *)
Theorem sequence_dedup {F} e (d : Decision F) i j :
  u32 (seq e) -> Z.abs (Z.of_nat j - Z.of_nat i) < 2 ^ 31 ->
  (dedup_check (mkDedup (seq (encoder_after e d i)) true) (seq (encoder_after e d j))).2 = (j <=? i)%nat.
Proof.
  intros He Hd. rewrite !encoder_after_seq by done. unfold dedup_check. cbn [negb ever lastSeq].
  rewrite <- Zminus_mod. replace (seq e + Z.of_nat j - (seq e + Z.of_nat i)) with (Z.of_nat j - Z.of_nat i) by lia.
  rewrite to_signed_mod by lia.
  destruct (Z.leb_spec (Z.of_nat j - Z.of_nat i) 0), (Nat.leb_spec j i); simpl; done || lia.
Qed.
