(* ===== verification/TapWire.v ===== *)
(** * The dynlink tap's wire format (gs/fpvdgs/dynlink/tap_wire.py)
      and its datagram handler (gs/fpvdgs/dynlink/tap_client.py)

    The decoder of the two little-endian record types, with the malformed and
    the unknown datagrams told apart, and the protocol object that counts and
    dispatches them.  The emitter of the records is the wfb receiver, which is
    not in the repository; [micro_bytes] and [loss_bytes] write the documented
    layout and serve as the specification the decoder inverts. *)
From Stdlib Require Import ZArith Lia Bool List.
From stdpp Require Import base tactics list.
From S2P Require Import Prelude Bytes StatsClient.
Open Scope Z_scope.

Definition TAP_TYPE_MICRO : Z := 1.
Definition TAP_TYPE_LOSS : Z := 2.
Definition TAP_VERSION : Z := 1.

(** [struct.calcsize] of "<BBHQIIIIIB", "<HBBQIbbbbbbhhh" and "<BBHQIII". *)
Definition HDR_SIZE : nat := 33.
Definition BUCKET_SIZE : nat := 28.
Definition LOSS_SIZE : nat := 24.

Record TapMicro := mkMicro {
  tm_seq : Z; tm_timestamp_ms : Z; tm_pkt_all : Z; tm_pkt_data : Z;
  tm_pkt_fec_rec : Z; tm_pkt_lost : Z; tm_pkt_out : Z; tm_rx_ant_stats : list RxAnt
}.

Record TapLoss := mkLoss {
  tl_seq : Z; tl_timestamp_ms : Z; tl_lost_count : Z; tl_last_seq : Z; tl_new_seq : Z
}.

Inductive tap_rec := Micro (m : TapMicro) | Loss (l : TapLoss).

(** Fields of a struct at a fixed offset. *)
Definition u_at (off n : nat) (data : list Z) : Z := le_val (slice off n data).
Definition s_at (off n : nat) (data : list Z) : Z := to_signed (8 * Z.of_nat n) (u_at off n data).

(** [_BUCKET.unpack_from(data, off)] into an antenna record. *)
Definition bucket_at (off : nat) (data : list Z) : RxAnt :=
  mkRxAnt (u_at (off + 4) 8 data) (u_at off 2 data) (u_at (off + 2) 1 data) (u_at (off + 3) 1 data)
          (u_at (off + 12) 4 data)
          (s_at (off + 16) 1 data) (s_at (off + 17) 1 data) (s_at (off + 18) 1 data)
          (s_at (off + 19) 1 data) (s_at (off + 20) 1 data) (s_at (off + 21) 1 data)
          (s_at (off + 22) 2 data) (s_at (off + 24) 2 data) (s_at (off + 26) 2 data).

(** The bucket loop: [n] records from [off] on. *)
Fixpoint buckets_from (n : nat) (off : nat) (data : list Z) : list RxAnt :=
  match n with
  | O => []
  | S n' => bucket_at off data :: buckets_from n' (off + BUCKET_SIZE) data
  end.

Definition decode (data : list Z) : res (option tap_rec) :=
  if (length data <? 2)%nat then Err TapDecodeError
  else
    let rtype := nth 0 data 0 in
    let version := nth 1 data 0 in
    if negb (version =? TAP_VERSION) || negb ((rtype =? TAP_TYPE_MICRO) || (rtype =? TAP_TYPE_LOSS))
    then Ok None
    else if rtype =? TAP_TYPE_LOSS then
      if negb (length data =? LOSS_SIZE)%nat then Err TapDecodeError
      else Ok (Some (Loss (mkLoss (u_at 2 2 data) (u_at 4 8 data) (u_at 12 4 data)
                                  (u_at 16 4 data) (u_at 20 4 data))))
    else if (length data <? HDR_SIZE)%nat then Err TapDecodeError
    else
      let n := Z.to_nat (u_at 32 1 data) in
      if negb (length data =? HDR_SIZE + n * BUCKET_SIZE)%nat then Err TapDecodeError
      else Ok (Some (Micro (mkMicro (u_at 2 2 data) (u_at 4 8 data) (u_at 12 4 data) (u_at 16 4 data)
                              (u_at 20 4 data) (u_at 24 4 data) (u_at 28 4 data)
                              (buckets_from n HDR_SIZE data)))).

(** ** TapProtocol *)

Record TapProtocol := mkTap { malformed : Z; ignored : Z; warned : bool }.

(** [datagram_received]: the record handed to [on_micro]/[on_loss], if any. *)
Definition datagram_received (p : TapProtocol) (data : list Z) : TapProtocol * option tap_rec :=
  match decode data with
  | Err _ => (mkTap (malformed p + 1) (ignored p) true, None)
  | Ok None => (mkTap (malformed p) (ignored p + 1) true, None)
  | Ok (Some r) => (p, Some r)
  end.

(* ------------------------------------------------------------------ *)
(** ** The documented layout *)

Definition bucket_bytes (a : RxAnt) : list Z :=
  le_bytes 2 (ra_freq a) ++ le_bytes 1 (ra_mcs a) ++ le_bytes 1 (ra_bw a) ++ le_bytes 8 (ra_ant a) ++
  le_bytes 4 (ra_pkt_recv a) ++
  le_bytes 1 (ra_rssi_min a) ++ le_bytes 1 (ra_rssi_avg a) ++ le_bytes 1 (ra_rssi_max a) ++
  le_bytes 1 (ra_snr_min a) ++ le_bytes 1 (ra_snr_avg a) ++ le_bytes 1 (ra_snr_max a) ++
  le_bytes 2 (ra_evm_min a) ++ le_bytes 2 (ra_evm_avg a) ++ le_bytes 2 (ra_evm_max a).

Definition micro_bytes (m : TapMicro) : list Z :=
  [TAP_TYPE_MICRO; TAP_VERSION] ++ le_bytes 2 (tm_seq m) ++ le_bytes 8 (tm_timestamp_ms m) ++
  le_bytes 4 (tm_pkt_all m) ++ le_bytes 4 (tm_pkt_data m) ++ le_bytes 4 (tm_pkt_fec_rec m) ++
  le_bytes 4 (tm_pkt_lost m) ++ le_bytes 4 (tm_pkt_out m) ++
  le_bytes 1 (Z.of_nat (length (tm_rx_ant_stats m))) ++
  concat (map bucket_bytes (tm_rx_ant_stats m)).

Definition loss_bytes (l : TapLoss) : list Z :=
  [TAP_TYPE_LOSS; TAP_VERSION] ++ le_bytes 2 (tl_seq l) ++ le_bytes 8 (tl_timestamp_ms l) ++
  le_bytes 4 (tl_lost_count l) ++ le_bytes 4 (tl_last_seq l) ++ le_bytes 4 (tl_new_seq l).

Definition tap_bytes (r : tap_rec) : list Z :=
  match r with Micro m => micro_bytes m | Loss l => loss_bytes l end.

(** The ranges of the fields. *)
Definition un (n : Z) (z : Z) : Prop := 0 <= z < 256 ^ n.
Definition sn (n : Z) (z : Z) : Prop := - 2 ^ (8 * n - 1) <= z < 2 ^ (8 * n - 1).

Definition bucket_ok (a : RxAnt) : Prop :=
  un 2 (ra_freq a) /\ un 1 (ra_mcs a) /\ un 1 (ra_bw a) /\ un 8 (ra_ant a) /\ un 4 (ra_pkt_recv a) /\
  sn 1 (ra_rssi_min a) /\ sn 1 (ra_rssi_avg a) /\ sn 1 (ra_rssi_max a) /\
  sn 1 (ra_snr_min a) /\ sn 1 (ra_snr_avg a) /\ sn 1 (ra_snr_max a) /\
  sn 2 (ra_evm_min a) /\ sn 2 (ra_evm_avg a) /\ sn 2 (ra_evm_max a).

Definition rec_ok (r : tap_rec) : Prop :=
  match r with
  | Micro m => un 2 (tm_seq m) /\ un 8 (tm_timestamp_ms m) /\ un 4 (tm_pkt_all m) /\ un 4 (tm_pkt_data m) /\
               un 4 (tm_pkt_fec_rec m) /\ un 4 (tm_pkt_lost m) /\ un 4 (tm_pkt_out m) /\
               (length (tm_rx_ant_stats m) < 256)%nat /\ Forall bucket_ok (tm_rx_ant_stats m)
  | Loss l => un 2 (tl_seq l) /\ un 8 (tl_timestamp_ms l) /\ un 4 (tl_lost_count l) /\
              un 4 (tl_last_seq l) /\ un 4 (tl_new_seq l)
  end.

(* ------------------------------------------------------------------ *)
(** ** The decoder inverts the layout *)

Lemma slice_app_skip off n (l1 l2 : list Z) :
  (length l1 <= off)%nat -> slice off n (l1 ++ l2) = slice (off - length l1) n l2.
Proof. intros H. unfold slice. by rewrite drop_app_ge by lia. Qed.

Lemma slice_app_head n (l1 l2 : list Z) : length l1 = n -> slice 0 n (l1 ++ l2) = l1.
Proof. intros <-. unfold slice. rewrite drop_0. apply take_app_length. Qed.

Lemma slice_all n (l : list Z) : length l = n -> slice 0 n l = l.
Proof. intros <-. unfold slice. rewrite drop_0. apply firstn_all. Qed.

Lemma le_field n z : un (Z.of_nat n) z -> le_val (le_bytes n z) = z.
Proof. intros H. rewrite le_val_bytes. by apply Z.mod_small. Qed.

Lemma le_field_signed n z :
  (0 < n)%nat -> sn (Z.of_nat n) z -> to_signed (8 * Z.of_nat n) (le_val (le_bytes n z)) = z.
Proof.
  intros Hn H. rewrite le_val_bytes. change 256 with (2 ^ 8). rewrite <- Z.pow_mul_r by lia.
  apply to_signed_mod; [lia|exact H].
Qed.

(** Walk a field access down a concatenation of fixed-width fields. *)
Ltac field_access :=
  repeat (rewrite slice_app_skip by (rewrite ?le_bytes_length; simpl; lia);
          rewrite ?le_bytes_length; cbn [length Nat.sub]);
  first [rewrite slice_app_head by apply le_bytes_length | rewrite slice_all by apply le_bytes_length].

Lemma bucket_bytes_length a : length (bucket_bytes a) = BUCKET_SIZE.
Proof. done. Qed.

Lemma bucket_at_bytes pre a post off :
  length pre = off -> bucket_ok a -> bucket_at off (pre ++ bucket_bytes a ++ post) = a.
Proof.
  intros <- (H1 & H2 & H3 & H4 & H5 & H6 & H7 & H8 & H9 & H10 & H11 & H12 & H13 & H14).
  assert (Hu : forall k n, u_at (length pre + k) n (pre ++ bucket_bytes a ++ post) =
                           u_at k n (bucket_bytes a ++ post)).
  { intros k n. unfold u_at. rewrite slice_app_skip by lia. do 2 f_equal. lia. }
  assert (Hu0 : forall n, u_at (length pre) n (pre ++ bucket_bytes a ++ post) =
                          u_at 0 n (bucket_bytes a ++ post)).
  { intros n. rewrite <- Hu. f_equal. lia. }
  unfold bucket_at, s_at. rewrite !Hu, !Hu0. clear Hu Hu0. unfold u_at, bucket_bytes.
  destruct a as [an fr mc bw pk r1 r2 r3 s1 s2 s3 e1 e2 e3]; cbn [ra_freq ra_mcs ra_bw ra_ant ra_pkt_recv ra_rssi_min ra_rssi_avg ra_rssi_max
    ra_snr_min ra_snr_avg ra_snr_max ra_evm_min ra_evm_avg ra_evm_max] in *.
  rewrite <- !app_assoc.
  f_equal; field_access; first [by apply le_field | apply le_field_signed; [lia|done]].
Qed.

Lemma buckets_from_bytes ants pre post off :
  length pre = off -> Forall bucket_ok ants ->
  buckets_from (length ants) off (pre ++ concat (map bucket_bytes ants) ++ post) = ants.
Proof.
  intros Hp Hok. revert pre off Hp. induction Hok as [|a ants Ha _ IH]; intros pre off Hp; [done|].
  cbn [length buckets_from map concat]. rewrite <- app_assoc. f_equal.
  - by apply bucket_at_bytes.
  - rewrite app_assoc. apply IH. rewrite length_app, bucket_bytes_length. lia.
Qed.

Lemma concat_buckets_length ants :
  length (concat (map bucket_bytes ants)) = (length ants * BUCKET_SIZE)%nat.
Proof.
  induction ants as [|a ants IH]; [done|]. cbn [map concat length].
  rewrite length_app, bucket_bytes_length, IH. lia.
Qed.

(** C32: Every tap record whose fields are in range survives the wire: encoded
    in the documented layout, the decoder reads back exactly it. *)
Theorem tap_roundtrip r : rec_ok r -> decode (tap_bytes r) = Ok (Some r).
Proof.
  destruct r as [m|l]; cbn [rec_ok tap_bytes].
  - destruct m as [sq ts pa pd pf pl po ants].
    cbn [tm_seq tm_timestamp_ms tm_pkt_all tm_pkt_data tm_pkt_fec_rec tm_pkt_lost tm_pkt_out tm_rx_ant_stats].
    intros (H1 & H2 & H3 & H4 & H5 & H6 & H7 & H8 & H9).
    set (data := micro_bytes _).
    assert (Hlen : length data = (HDR_SIZE + length ants * BUCKET_SIZE)%nat).
    { subst data. unfold micro_bytes. cbn [tm_seq tm_timestamp_ms tm_pkt_all tm_pkt_data tm_pkt_fec_rec
        tm_pkt_lost tm_pkt_out tm_rx_ant_stats]. rewrite !length_app, !le_bytes_length, concat_buckets_length. simpl. lia. }
    assert (Hn : u_at 32 1 data = Z.of_nat (length ants)).
    { subst data. unfold micro_bytes, u_at. cbn [tm_rx_ant_stats]. field_access. apply le_field.
      unfold un. change (256 ^ Z.of_nat 1) with 256. lia. }
    assert (Hb : buckets_from (length ants) HDR_SIZE data = ants).
    { subst data. unfold micro_bytes. cbn [tm_rx_ant_stats]. rewrite !app_assoc.
      rewrite <- (app_nil_r (concat _)). by apply buckets_from_bytes. }
    unfold decode. rewrite Hlen, Hn, Nat2Z.id, Nat.eqb_refl, Hb. clear Hn Hb Hlen.
    change (nth 0 data 0) with TAP_TYPE_MICRO. change (nth 1 data 0) with TAP_VERSION. cbn -[Nat.mul micro_bytes].
    subst data. unfold micro_bytes, u_at.
    cbn [tm_seq tm_timestamp_ms tm_pkt_all tm_pkt_data tm_pkt_fec_rec tm_pkt_lost tm_pkt_out tm_rx_ant_stats].
    do 4 f_equal; field_access; by apply le_field.
  - destruct l as [sq ts lc ls ns]. cbn [tl_seq tl_timestamp_ms tl_lost_count tl_last_seq tl_new_seq].
    intros (H1 & H2 & H3 & H4 & H5). unfold decode. cbn [loss_bytes].
    change (length (loss_bytes _)) with 24%nat.
    change (nth 0 (loss_bytes _) 0) with TAP_TYPE_LOSS. change (nth 1 (loss_bytes _) 0) with TAP_VERSION.
    cbn -[loss_bytes]. unfold loss_bytes, u_at. cbn [tl_seq tl_timestamp_ms tl_lost_count tl_last_seq tl_new_seq].
    do 4 f_equal; field_access; by apply le_field.
Qed.

(* ------------------------------------------------------------------ *)
(** ** The decoder accepts nothing else *)

Lemma le_bytes_mod n z : le_bytes n (z mod 256 ^ Z.of_nat n) = le_bytes n z.
Proof.
  pose proof (le_bytes_val (le_bytes n z) (le_bytes_ok n z)) as H.
  by rewrite le_bytes_length, le_val_bytes in H.
Qed.

Lemma le_bytes_signed n z : le_bytes n (to_signed (8 * Z.of_nat n) z) = le_bytes n z.
Proof.
  unfold to_signed. case_match; [done|]. rewrite <- (le_bytes_mod n z), <- (le_bytes_mod n (z - _)).
  f_equal. change 256 with (2 ^ 8). rewrite <- Z.pow_mul_r by lia.
  replace (z - 2 ^ (8 * Z.of_nat n)) with (z + (-1) * 2 ^ (8 * Z.of_nat n)) by lia.
  apply Z.mod_add. apply Z.pow_nonzero; lia.
Qed.

Section Exactly.
Context (data : list Z) (Hok : bytes_ok data).

Lemma u_at_bytes off n : (off + n <= length data)%nat -> le_bytes n (u_at off n data) = slice off n data.
Proof.
  intros H. unfold u_at. rewrite <- (slice_length off n data H) at 1.
  by apply le_bytes_val, slice_ok.
Qed.

Lemma s_at_bytes off n : (off + n <= length data)%nat -> le_bytes n (s_at off n data) = slice off n data.
Proof. intros H. unfold s_at. rewrite le_bytes_signed. by apply u_at_bytes. Qed.

Lemma u_at_range off n : (off + n <= length data)%nat -> un (Z.of_nat n) (u_at off n data).
Proof.
  intros H. unfold un, u_at. rewrite <- (slice_length off n data H) at 3.
  by apply le_val_bound, slice_ok.
Qed.

Lemma s_at_range off n : (0 < n)%nat -> (off + n <= length data)%nat -> sn (Z.of_nat n) (s_at off n data).
Proof.
  intros Hn H. apply to_signed_range; [lia|]. pose proof (u_at_range off n H) as Hu.
  unfold un in Hu. change 256 with (2 ^ 8) in Hu. by rewrite <- Z.pow_mul_r in Hu by lia.
Qed.

Lemma slice_join off a b (rest : list Z) : slice off a data ++ slice (off + a) b data ++ rest = slice off (a + b) data ++ rest.
Proof. unfold slice. rewrite app_assoc, <- drop_drop, take_take_drop. done. Qed.

Lemma slice_join_end off a b : slice off a data ++ slice (off + a) b data = slice off (a + b) data.
Proof. rewrite <- (app_nil_r (slice (off + a) b data)), slice_join. apply app_nil_r. Qed.

Lemma bucket_at_exact off :
  (off + BUCKET_SIZE <= length data)%nat ->
  bucket_bytes (bucket_at off data) = slice off BUCKET_SIZE data /\ bucket_ok (bucket_at off data).
Proof.
  unfold BUCKET_SIZE. intros H. split.
  - unfold bucket_bytes, bucket_at.
    cbn [ra_freq ra_mcs ra_bw ra_ant ra_pkt_recv ra_rssi_min ra_rssi_avg ra_rssi_max
         ra_snr_min ra_snr_avg ra_snr_max ra_evm_min ra_evm_avg ra_evm_max].
    rewrite !u_at_bytes, !s_at_bytes by lia.
    do 12 (rewrite slice_join; cbn [Nat.add]). by rewrite slice_join_end.
  - unfold bucket_ok, bucket_at.
    cbn [ra_freq ra_mcs ra_bw ra_ant ra_pkt_recv ra_rssi_min ra_rssi_avg ra_rssi_max
         ra_snr_min ra_snr_avg ra_snr_max ra_evm_min ra_evm_avg ra_evm_max].
    repeat split_and;
      first [apply (u_at_range _ 1) | apply (u_at_range _ 2) | apply (u_at_range _ 4) | apply (u_at_range _ 8)
            | apply (s_at_range _ 1) | apply (s_at_range _ 2)]; lia.
Qed.

Lemma buckets_from_exact n off :
  (off + n * BUCKET_SIZE <= length data)%nat ->
  concat (map bucket_bytes (buckets_from n off data)) = slice off (n * BUCKET_SIZE) data /\
  Forall bucket_ok (buckets_from n off data) /\ length (buckets_from n off data) = n.
Proof.
  revert off. induction n as [|n IH]; intros off H; [done|].
  assert (H1 : (off + BUCKET_SIZE <= length data)%nat) by (unfold BUCKET_SIZE in *; lia).
  destruct (bucket_at_exact off H1) as [Hb Hk].
  destruct (IH (off + BUCKET_SIZE)%nat) as (Hc & Hf & Hl); [unfold BUCKET_SIZE in *; lia|].
  cbn [buckets_from map concat length]. rewrite Hb, Hc, Hl. split; [|by auto].
  rewrite slice_join_end. done.
Qed.
End Exactly.

(** The tap decoder accepts nothing but documented encodings: a datagram
    it turns into a record is the encoding of that record, whose fields are in
    range. *)
Theorem tap_decode_exact data r :
  bytes_ok data -> decode data = Ok (Some r) -> tap_bytes r = data /\ rec_ok r.
Proof.
  intros Hok. unfold decode. destruct (length data <? 2)%nat eqn:E0; [done|].
  destruct (_ || _) eqn:E1; [done|]. apply orb_false_iff in E1 as [E1 E2]. breflect.
  assert (Hh : forall t rest, nth 0 data 0 = t -> [t; TAP_VERSION] ++ slice 2 rest data = slice 0 (2 + rest) data).
  { intros t rest <-. rewrite <- E1. destruct data as [|a [|b data']]; done. }
  destruct (nth 0 data 0 =? TAP_TYPE_LOSS) eqn:E3; breflect.
  - destruct (negb (length data =? LOSS_SIZE)%nat) eqn:E4; [done|].
    apply negb_false_iff, Nat.eqb_eq in E4. unfold LOSS_SIZE in *. intros [= <-]. split.
    + cbn [tap_bytes]. unfold loss_bytes. cbn [tl_seq tl_timestamp_ms tl_lost_count tl_last_seq tl_new_seq].
      rewrite !u_at_bytes by (done || lia). do 3 (rewrite slice_join; cbn [Nat.add]). rewrite slice_join_end.
      rewrite Hh by done. by apply slice_all.
    + cbn [rec_ok tl_seq tl_timestamp_ms tl_lost_count tl_last_seq tl_new_seq]. repeat split_and;
        first [apply (u_at_range _ Hok _ 2) | apply (u_at_range _ Hok _ 4) | apply (u_at_range _ Hok _ 8)]; lia.
  - destruct (length data <? HDR_SIZE)%nat eqn:E4; [done|]. apply Nat.ltb_ge in E4.
    set (n := Z.to_nat (u_at 32 1 data)). destruct (negb (_ =? _)%nat) eqn:E5; [done|].
    apply negb_false_iff, Nat.eqb_eq in E5. unfold HDR_SIZE in *. intros [= <-].
    assert (Hn : un 1 (u_at 32 1 data)) by (apply (u_at_range _ Hok _ 1); lia).
    destruct (buckets_from_exact data Hok n 33) as (Hc & Hf & Hl); [lia|].
    assert (Ht : nth 0 data 0 = TAP_TYPE_MICRO).
    { rewrite orb_true_iff, !Z.eqb_eq in E2. by destruct E2. }
    split.
    + cbn [tap_bytes]. unfold micro_bytes.
      cbn [tm_seq tm_timestamp_ms tm_pkt_all tm_pkt_data tm_pkt_fec_rec tm_pkt_lost tm_pkt_out tm_rx_ant_stats].
      rewrite Hl, Hc. subst n. rewrite Z2Nat.id by (unfold un in Hn; lia).
      rewrite !u_at_bytes by (done || lia). do 7 (rewrite slice_join; cbn [Nat.add]).
      rewrite slice_join_end, Hh by done. apply slice_all. lia.
    + cbn [rec_ok tm_seq tm_timestamp_ms tm_pkt_all tm_pkt_data tm_pkt_fec_rec tm_pkt_lost tm_pkt_out tm_rx_ant_stats].
      repeat split_and; try done;
        first [apply (u_at_range _ Hok _ 2); lia | apply (u_at_range _ Hok _ 4); lia | apply (u_at_range _ Hok _ 8); lia | idtac].
      rewrite Hl. subst n. unfold un in Hn. change (256 ^ 1) with 256 in Hn. lia.
Qed.
