(* ===== verification/Capture.v ===== *)
(** * dynlink/tap_client.py and dynlink/stats_client.py: capture and replay

    [TapCapture] appends each decoded tap record to a file as a line of JSON;
    [TapReplayClient] reads such a file back and calls the tap callbacks;
    [ReplayClient] replays a captured stats feed.  Files are text; what a
    failed write leaves on disk is the environment's answer. *)
From Stdlib Require Import ZArith Lia Bool Ascii String.
From stdpp Require Import base tactics list strings.
From S2P Require Import Prelude PyStr Json StatsClient Bytes TapWire JsonText JsonPrefix.
Open Scope Z_scope.

Definition LF : ascii := ascii_of_N 10.
Definition CR : ascii := ascii_of_N 13.

Section Capture.
Context {F : Type} {PF : PyFloat F} (frepr : F -> string).

(** ** Capturing *)

(** [dataclasses.asdict]. *)
Definition RxAnt_asdict (a : RxAnt) : list (string * json F) :=
  [("ant", JInt (ra_ant a)); ("freq", JInt (ra_freq a)); ("mcs", JInt (ra_mcs a)); ("bw", JInt (ra_bw a));
   ("pkt_recv", JInt (ra_pkt_recv a)); ("rssi_min", JInt (ra_rssi_min a)); ("rssi_avg", JInt (ra_rssi_avg a));
   ("rssi_max", JInt (ra_rssi_max a)); ("snr_min", JInt (ra_snr_min a)); ("snr_avg", JInt (ra_snr_avg a));
   ("snr_max", JInt (ra_snr_max a)); ("evm_min", JInt (ra_evm_min a)); ("evm_avg", JInt (ra_evm_avg a));
   ("evm_max", JInt (ra_evm_max a))].

Definition TapMicro_scalars (m : TapMicro) : list (string * json F) :=
  [("seq", JInt (tm_seq m)); ("timestamp_ms", JInt (tm_timestamp_ms m)); ("pkt_all", JInt (tm_pkt_all m));
   ("pkt_data", JInt (tm_pkt_data m)); ("pkt_fec_rec", JInt (tm_pkt_fec_rec m)); ("pkt_lost", JInt (tm_pkt_lost m));
   ("pkt_out", JInt (tm_pkt_out m))].

Definition TapLoss_asdict (l : TapLoss) : list (string * json F) :=
  [("seq", JInt (tl_seq l)); ("timestamp_ms", JInt (tl_timestamp_ms l)); ("lost_count", JInt (tl_lost_count l));
   ("last_seq", JInt (tl_last_seq l)); ("new_seq", JInt (tl_new_seq l))].

Definition capture_obj (r : tap_rec) : list (string * json F) :=
  match r with
  | Micro m => [("type", JStr "micro");
                ("rec", JDict (TapMicro_scalars m ++ [("rx_ant_stats", JList (map (fun a => JDict (RxAnt_asdict a)) (tm_rx_ant_stats m)))]))]
  | Loss l => [("type", JStr "loss"); ("rec", JDict (TapLoss_asdict l))]
  end.

Definition capture_text (r : tap_rec) : string := dumps frepr (JDict (capture_obj r)).
Definition capture_line (r : tap_rec) : string := capture_text r +:+ String LF EmptyString.

Record TapCapture := mkCapture { tc_fh : bool; tc_bytes : Z; tc_file : string }.
Definition MAX_BYTES : Z := 32 * 1024 * 1024.

(** Opening truncates the file; when it fails there is none. *)
Definition capture_open (ok : bool) : TapCapture := mkCapture ok 0 EmptyString.

(** A write succeeds, or raises [OSError] with the first [kept] characters of
    the file and the line on disk. *)
Inductive write_answer := Written | WriteFails (kept : nat).

Definition capture_write (c : TapCapture) (r : tap_rec) (a : write_answer) : TapCapture :=
  if negb (tc_fh c) || (MAX_BYTES <=? tc_bytes c) then c
  else
    let line := capture_line r in
    match a with
    | Written => mkCapture true (tc_bytes c + Z.of_nat (String.length line)) (tc_file c +:+ line)
    | WriteFails kept => mkCapture false (tc_bytes c) (substring 0 kept (tc_file c +:+ line))
    end.

Definition capture_close (c : TapCapture) : TapCapture := mkCapture false (tc_bytes c) (tc_file c).

Fixpoint capture_run (c : TapCapture) (rs : list (tap_rec * write_answer)) : TapCapture :=
  match rs with [] => c | (r, a) :: rs => capture_run (capture_write c r a) rs end.

(** ** Replaying *)

(** A call of a dataclass with keyword arguments: the values in field order. *)
Fixpoint construct (fields : list (string * option (json F))) (kw : list (string * json F)) : res (list (json F)) :=
  match fields with
  | [] => Ok []
  | (f, dflt) :: fields =>
      let* v := match dict_get f kw, dflt with Some v, _ => Ok v | None, Some v => Ok v | None, None => Err TypeError end in
      let* vs := construct fields kw in Ok (v :: vs)
  end.
Definition call_with (fields : list (string * option (json F))) (v : json F) : res (list (json F)) :=
  match v with
  | JDict kw => if bool_decide (unknown_keys (map fst fields) kw = []) then construct fields kw else Err TypeError
  | _ => Err TypeError
  end.

Definition required (names : list string) : list (string * option (json F)) := map (fun n => (n, None)) names.
Definition RxAnt_fields : list (string * option (json F)) :=
  required ["ant"; "freq"; "mcs"; "bw"; "pkt_recv"; "rssi_min"; "rssi_avg"; "rssi_max"; "snr_min"; "snr_avg"; "snr_max"] ++
  map (fun n => (n, Some (JInt (-1)))) ["evm_min"; "evm_avg"; "evm_max"].
Definition TapMicro_fields : list (string * option (json F)) :=
  required ["seq"; "timestamp_ms"; "pkt_all"; "pkt_data"; "pkt_fec_rec"; "pkt_lost"; "pkt_out"].
Definition TapLoss_fields : list (string * option (json F)) :=
  required ["seq"; "timestamp_ms"; "lost_count"; "last_seq"; "new_seq"].

(** What a callback is given: the values of the record's fields. *)
Inductive replayed := RMicro (vs : list (json F)) (ants : list (list (json F))) | RLoss (vs : list (json F)).

Definition replay_obj (obj : json F) : res (option replayed) :=
  match obj with
  | JDict o =>
      let rec := match dict_get "rec" o with Some v => if truthy v then v else JDict [] | None => JDict [] end in
      match dict_get "type" o with
      | Some (JStr "micro") =>
          match rec with
          | JDict kw =>
              let* items := py_iter (default (JList []) (dict_get "rx_ant_stats" kw)) in
              let* ants := map_res (call_with RxAnt_fields) items in
              let* vs := call_with TapMicro_fields (JDict (dict_del "rx_ant_stats" kw)) in
              Ok (Some (RMicro vs ants))
          | JList _ => Err TypeError
          | _ => Err AttributeError
          end
      | Some (JStr "loss") => let* vs := call_with TapLoss_fields rec in Ok (Some (RLoss vs))
      | _ => Ok None
      end
  | _ => Err AttributeError
  end.

Definition replay_line (line : string) : res (option replayed) :=
  let line := strip line in
  if String.eqb line EmptyString then Ok None
  else match loads line with None => Ok None | Some obj => replay_obj obj end.

(** [for line in fd], with universal newlines; an empty line more or less is
    not seen, since blank lines are skipped. *)
Definition text_lines (s : string) : list string := concat (map (split CR) (split LF s)).

(** The records handed to the callbacks, and the exception that ends the run. *)
Fixpoint replay_lines (ls : list string) : list replayed * option pyerr :=
  match ls with
  | [] => ([], None)
  | l :: ls =>
      match replay_line l with
      | Err e => ([], Some e)
      | Ok o => let '(out, e) := replay_lines ls in (match o with Some r => r :: out | None => out end, e)
      end
  end.
Definition replay_run (text : string) : list replayed * option pyerr := replay_lines (text_lines text).

(** [ReplayClient.run]: the events, until the stop flag is seen ([stops]: at
    the line of that number) or a record raises. *)
Fixpoint feed_replay (repr : json F -> string) (stops : nat -> bool) (i : nat) (ls : list string) : list (Event F) * option pyerr :=
  match ls with
  | [] => ([], None)
  | l :: ls =>
      if stops i then ([], None)
      else
        let line := strip l in
        let next := feed_replay repr stops (S i) ls in
        if String.eqb line EmptyString then next
        else match loads line with
             | None => next
             | Some raw => match parse_record repr raw with
                           | Err e => ([], Some e)
                           | Ok None => next
                           | Ok (Some ev) => (ev :: next.1, next.2)
                           end
             end
  end.
End Capture.

(* ------------------------------------------------------------------ *)
(** ** A capture replays what was captured *)

Section Facts.
Context {F : Type} {PF : PyFloat F} (frepr : F -> string).

(** The record a callback is given for a captured one. *)
Definition shown (r : tap_rec) : replayed (F := F) :=
  match r with
  | Micro m => RMicro (map snd (TapMicro_scalars m)) (map (fun a => map snd (RxAnt_asdict a)) (tm_rx_ant_stats m))
  | Loss l => RLoss (map snd (TapLoss_asdict l))
  end.

(** No floats. *)
Definition nofl (_ : F) : bool := false.

Lemma capture_plain r : plain nofl (JDict (capture_obj r) : json F) = true.
Proof.
  destruct r as [m|l]; [|done].
  assert (H : forallb (plain nofl) (map (fun a => JDict (RxAnt_asdict a) : json F) (tm_rx_ant_stats m)) = true).
  { induction (tm_rx_ant_stats m) as [|a l IH]; [done|]. cbn [map forallb]. by rewrite IH. }
  cbn. rewrite H. done.
Qed.

Lemma replay_captured r : replay_obj (JDict (capture_obj r) : json F) = Ok (Some (shown r)).
Proof.
  destruct r as [m|l]; [|done]. cbn -[map_res call_with RxAnt_fields RxAnt_asdict TapMicro_fields].
  assert (H : map_res (call_with RxAnt_fields) (map (fun a => JDict (RxAnt_asdict a)) (tm_rx_ant_stats m)) =
    Ok (map (fun a => map snd (RxAnt_asdict a : list (string * json F))) (tm_rx_ant_stats m))).
  { induction (tm_rx_ant_stats m) as [|a l IH]; [done|]. cbn [map map_res]. rewrite IH. done. }
  rewrite H. done.
Qed.

Lemma capture_text_printable r : all_chars printable (capture_text frepr r) = true.
Proof. exact (dumps_printable frepr nofl _ (capture_plain r)). Qed.

(** Printable text is one line and keeps its ends. *)
Lemma printable_line s : all_chars printable s = true -> text_lines s = [s].
Proof.
  intros H. unfold text_lines. rewrite split_no_sep; [cbn; rewrite split_no_sep; [done|]|]; revert H; apply all_chars_mono;
    intros c Hc; apply negb_true_iff, bool_decide_eq_false; intros ->; done.
Qed.

Lemma split_line sep s r : all_chars (fun c => negb (bool_decide (c = sep))) s = true -> split sep (s +:+ String sep r) = s :: split sep r.
Proof.
  induction s as [|c s IH]; intros H; [rewrite sapp_nil_l; cbn; by destruct (ascii_dec sep sep)|].
  rewrite sapp_cons. cbn in *. apply andb_true_iff in H as [H1 H2]. rewrite (IH H2).
  destruct (ascii_dec c sep) as [->|]; [by rewrite bool_decide_true in H1|done].
Qed.

Lemma text_lines_line s r : all_chars printable s = true -> text_lines (s +:+ String LF r) = s :: text_lines r.
Proof.
  intros H. assert (Hn : forall sep, code sep < 32 -> all_chars (fun c => negb (bool_decide (c = sep))) s = true).
  { intros sep Hs. revert H. apply all_chars_mono. intros c Hc. apply negb_true_iff, bool_decide_eq_false. intros ->.
    unfold printable in Hc. lia. }
  unfold text_lines. rewrite split_line by (by apply Hn). cbn [map concat]. by rewrite split_no_sep by (by apply Hn).
Qed.

Lemma rstrip_keeps p (s : string) c : p c = false -> rstrip_if p (s +:+ String c EmptyString) = s +:+ String c EmptyString.
Proof.
  intros Hc. induction s as [|a s IH]; [rewrite sapp_nil_l; cbn; by rewrite Hc|]. rewrite sapp_cons. cbn. rewrite IH. by destruct s.
Qed.

(** The text of an object keeps its ends. *)
Lemma strip_obj (d : list (string * json F)) : strip (dumps frepr (JDict d)) = dumps frepr (JDict d).
Proof.
  cbn [dumps]. rewrite <- sapp_assoc. unfold strip.
  match goal with |- rstrip_if _ (lstrip ?s) = _ => change (lstrip s) with s end. by apply rstrip_keeps.
Qed.

Lemma captured_line r : replay_line (capture_text frepr r) = Ok (Some (shown r)).
Proof.
  unfold replay_line, capture_text. rewrite strip_obj. destruct (String.eqb_spec (dumps frepr (JDict (capture_obj r))) "") as [E|_]; [done|].
  assert (H := loads_dumps frepr nofl (JDict (capture_obj r)) "" (capture_plain r) eq_refl). rewrite sapp_nil_r in H.
  rewrite H. apply replay_captured.
Qed.

Definition capture_file (rs : list tap_rec) : string := fold_right (fun r t => capture_line frepr r +:+ t) EmptyString rs.

Lemma replay_file_app rs t :
  replay_lines (text_lines (capture_file rs +:+ t)) = (map shown rs ++ (replay_lines (text_lines t)).1, (replay_lines (text_lines t)).2).
Proof.
  induction rs as [|r rs IH]; [cbn; by destruct (replay_lines _)|]. cbn [capture_file fold_right map]. fold (capture_file rs).
  unfold capture_line at 1. sapp. rewrite text_lines_line by apply capture_text_printable. cbn [replay_lines].
  rewrite captured_line, IH. done.
Qed.

Lemma sapp_split (a b c d : string) :
  a +:+ b = c +:+ d -> (exists x, a = c +:+ x /\ x +:+ b = d) \/ (exists x, c = a +:+ x /\ x <> EmptyString /\ b = x +:+ d).
Proof.
  revert a. induction c as [|y c IH]; intros a E; [left; by exists a|]. destruct a as [|z a].
  - right. exists (String y c). done.
  - rewrite !sapp_cons in E. injection E as -> E. destruct (IH a E) as [(x & -> & Hx)|(x & -> & Hx)]; [left|right]; by exists x.
Qed.

Lemma rstrip_prefix p (s : string) : exists w, s = rstrip_if p s +:+ w.
Proof.
  induction s as [|c s [w IH]]; [by exists EmptyString|]. cbn. destruct (rstrip_if p s) as [|a t] eqn:E.
  - destruct (p c); [by exists (String c s)|]. exists s. by rewrite sapp_cons.
  - exists w. rewrite sapp_cons. by f_equal.
Qed.

Lemma strip_prefix s : match s with String c _ => is_space c = false | _ => True end -> exists w, s = strip s +:+ w.
Proof.
  intros H. unfold strip. assert (Hl : lstrip s = s) by (destruct s as [|c s]; [done|]; cbn; by rewrite H). rewrite Hl. apply rstrip_prefix.
Qed.

(** A line cut short: nothing, or the whole record when only its newline is
    missing. *)
Lemma cut_line r p q :
  p +:+ q = capture_line frepr r -> q <> EmptyString ->
  replay_run p = (([], None) : list (replayed (F := F)) * option pyerr) \/ replay_run p = ([shown r], None).
Proof.
  intros E Hq. unfold capture_line in E.
  destruct (sapp_split p q (capture_text frepr r) (String LF EmptyString) E) as [(x & -> & Ex)|(x & Ep & Hx & _)].
  - assert (x = EmptyString) as -> by (destruct x as [|a x]; [done|]; rewrite sapp_cons in Ex; injection Ex as _ Ex; by destruct x, q).
    right. rewrite sapp_nil_r. unfold replay_run. rewrite printable_line by apply capture_text_printable. cbn [replay_lines].
    by rewrite captured_line.
  - left. assert (Hp : all_chars printable p = true).
    { assert (H := capture_text_printable r). rewrite Ep, all_chars_sapp in H. by apply andb_true_iff in H as [H _]. }
    unfold replay_run. rewrite printable_line by done. cbn [replay_lines].
    assert (Hl : replay_line p = Ok (None : option (replayed (F := F)))); [|by rewrite Hl].
    unfold replay_line. destruct (String.eqb (strip p) ""); [done|].
    destruct (strip_prefix p) as [w Hw]; [destruct p as [|c p]; [done|]; unfold capture_text in Ep; cbn [dumps] in Ep; rewrite !sapp_cons in Ep; by injection Ep as <- _|].
    rewrite (cut_object_rejected frepr nofl (capture_obj r) (strip p) (w +:+ x)); [done|apply capture_plain| |by destruct w].
    by rewrite <- sapp_assoc, <- Hw.
Qed.

(** A capture file cut anywhere replays a prefix of its records. *)
Lemma cut_file rs p q :
  p +:+ q = capture_file rs -> exists k, replay_run p = (map shown (take k rs) : list (replayed (F := F)), None).
Proof.
  revert p. induction rs as [|r rs IH]; intros p E; [exists O; by destruct p|].
  cbn [capture_file fold_right] in E. fold (capture_file rs) in E.
  destruct (sapp_split p q _ _ E) as [(x & -> & Ex)|(x & Ep & Hx & _)].
  - destruct (IH x Ex) as [k Hk]. exists (S k). assert (H := replay_file_app [r] x). unfold replay_run in *. rewrite Hk in H.
    cbn [capture_file fold_right] in H. revert H. sapp. intros ->. done.
  - destruct (cut_line r p x (eq_sym Ep) Hx) as [->| ->]; [by exists O|by exists 1%nat].
Qed.

Lemma capture_file_app a b : capture_file (a ++ b) = capture_file a +:+ capture_file b.
Proof. induction a as [|r a IH]; [done|]. cbn. rewrite sapp_assoc. f_equal. exact IH. Qed.

Lemma capture_file_snoc a r : capture_file (a ++ [r]) = capture_file a +:+ capture_line frepr r.
Proof. rewrite capture_file_app. cbn. by rewrite sapp_nil_r. Qed.

Lemma substring_prefix n s : exists w, s = substring 0 n s +:+ w.
Proof.
  revert n. induction s as [|c s IH]; intros [|n]; cbn; [by exists EmptyString..|by exists (String c s)|].
  destruct (IH n) as [w Hw]. exists w. rewrite sapp_cons. by f_equal.
Qed.

Definition clen (s : string) : Z := Z.of_nat (String.length s).
Lemma clen_app a b : clen (a +:+ b) = clen a + clen b.
Proof. unfold clen. rewrite str_len. lia. Qed.

(** Whole lines are on disk, [acc] of them, and the count is theirs; what came
    before the last is under the cap. *)
Definition holds (c : TapCapture) (acc : list tap_rec) : Prop :=
  tc_file c = capture_file acc /\ tc_bytes c = clen (capture_file acc) /\
  (forall acc' r, acc = acc' ++ [r] -> clen (capture_file acc') < MAX_BYTES).

Lemma capture_dead c rs : tc_fh c = false -> capture_run frepr c rs = c.
Proof. intros H. revert c H. induction rs as [|[r a] rs IH]; intros c H; [done|]. cbn. unfold capture_write. rewrite H. cbn. by apply IH. Qed.

Lemma capture_full c rs : MAX_BYTES <= tc_bytes c -> capture_run frepr c rs = c.
Proof.
  intros H. revert c H. induction rs as [|[r a] rs IH]; intros c H; [done|]. cbn. unfold capture_write.
  destruct (Z.leb_spec MAX_BYTES (tc_bytes c)); [|lia]. rewrite orb_true_r. by apply IH.
Qed.

Lemma capture_run_holds c acc rs :
  tc_fh c = true -> holds c acc ->
  let c' := capture_run frepr c rs in
  exists k q, tc_file c' +:+ q = capture_file (acc ++ take k (map fst rs)) /\
    (Forall (fun x => x.2 = Written) rs -> q = EmptyString /\ holds c' (acc ++ take k (map fst rs)) /\
       (tc_bytes c' < MAX_BYTES -> k = length rs)).
Proof.
  revert c acc. induction rs as [|[r a] rs IH]; intros c acc Hf Hh; cbn [capture_run map].
  - exists O, EmptyString. rewrite sapp_nil_r, app_nil_r. split; [apply Hh|done].
  - destruct (Z.leb_spec MAX_BYTES (tc_bytes c)) as [Hm|Hm].
    { assert (E : capture_write frepr c r a = c) by (unfold capture_write; rewrite Hf; destruct (Z.leb_spec MAX_BYTES (tc_bytes c)); [done|lia]).
      rewrite E, capture_full by done. exists O, EmptyString. rewrite sapp_nil_r, app_nil_r. split; [apply Hh|].
      intros _. split; [done|]. split; [done|]. lia. }
    destruct a as [|kept].
    + assert (E : capture_write frepr c r Written = mkCapture true (tc_bytes c + clen (capture_line frepr r)) (tc_file c +:+ capture_line frepr r))
        by (unfold capture_write; rewrite Hf; destruct (Z.leb_spec MAX_BYTES (tc_bytes c)); [lia|done]).
      destruct (IH (capture_write frepr c r Written) (acc ++ [r])) as (k & q & H1 & H2).
      * by rewrite E.
      * rewrite E. destruct Hh as (H1 & H2 & _). split; [|split]; cbn.
        -- by rewrite H1, capture_file_snoc.
        -- by rewrite H2, capture_file_snoc, clen_app.
        -- intros acc' r' Ha. apply app_inj_tail in Ha as [<- _]. lia.
      * exists (S k), q. rewrite <- app_assoc in H1, H2. split; [exact H1|]. intros Hall. apply Forall_cons in Hall as [_ Hall].
        destruct (H2 Hall) as (H3 & H4 & H5). split; [done|]. split; [exact H4|]. intros Hl. cbn. by rewrite (H5 Hl).
    + assert (E : capture_write frepr c r (WriteFails kept) = mkCapture false (tc_bytes c) (substring 0 kept (tc_file c +:+ capture_line frepr r)))
        by (unfold capture_write; rewrite Hf; destruct (Z.leb_spec MAX_BYTES (tc_bytes c)); [lia|done]).
      rewrite E, capture_dead by done. destruct (substring_prefix kept (tc_file c +:+ capture_line frepr r)) as [w Hw].
      exists 1%nat, w. split; [|by intros Hall; inversion Hall]. cbn. rewrite <- Hw. destruct Hh as [-> _]. by rewrite capture_file_snoc.
Qed.

(** C11: Through the text of the file: whatever the writes met and wherever
    the file is cut, a capture replays without an exception a prefix of the
    records captured, in order and unchanged; if no write failed, all of them
    up to the size cap, which the file passes by less than its last line. *)
Theorem capture_replays ok rs p q :
  let c := capture_run frepr (capture_open ok) rs in
  p +:+ q = tc_file c ->
  (exists k, replay_run p = (map shown (take k (map fst rs)) : list (replayed (F := F)), None)) /\
  (Forall (fun x => x.2 = Written) rs -> ok = true ->
     exists k, replay_run (tc_file c) = (map shown (take k (map fst rs)) : list (replayed (F := F)), None) /\
       (clen (tc_file c) < MAX_BYTES -> k = length rs) /\
       (forall acc r, take k (map fst rs) = acc ++ [r] -> clen (tc_file c) < MAX_BYTES + clen (capture_line frepr r))).
Proof.
  intros c Hpq. destruct ok.
  - destruct (capture_run_holds (capture_open true) [] rs eq_refl) as (k & q' & H1 & H2).
    { split; [done|]. split; [done|]. by intros [] ? [=]. }
    fold c in H1, H2. cbn [app] in H1, H2. split.
    + rewrite <- Hpq, sapp_assoc in H1. destruct (cut_file _ _ _ H1) as [k' Hk]. rewrite take_take in Hk. by eexists.
    + intros Hall _. destruct (H2 Hall) as (-> & (H3 & H4 & H5) & H6). exists k. split_and!.
      * assert (Hr := replay_file_app (take k (map fst rs)) ""). rewrite sapp_nil_r in Hr. unfold replay_run. rewrite H3, Hr. cbn. by rewrite app_nil_r.
      * intros Hl. apply H6. by rewrite H4, <- H3.
      * intros acc r E. specialize (H5 acc r E). rewrite H3, E, capture_file_snoc, clen_app. lia.
  - assert (E : c = capture_open false) by (by apply capture_dead). rewrite E in Hpq. split; [|done]. exists O. by destruct p.
Qed.
End Facts.
