(* ===== verification/Signals.v ===== *)
(** * Signal aggregation (gs/fpvdgs/dynlink/signals.py)

    [SignalAggregator] folds the 100 ms windows of the stats feed and the 10 ms
    windows and loss notices of the receiver tap into one [Signals] snapshot:
    raw per-window rates, the rolling tap window and the smoothed control axis. *)
From Stdlib Require Import ZArith QArith Qpower Lqa Lia Bool String.
From stdpp Require Import base tactics sets list gmap strings relations.
From S2P Require Import Prelude PyStr Json FloatModels StatsClient TapWire Probe.
Open Scope Z_scope.

(** ** State *)

Record Signals (F : Type) := mkSignals {
  rssi_min_w : option F; rssi_avg_w : option F; rssi_max_w : option F;
  mcs_w : option Z; snr_w : option F;
  evm_w : option F; evm_lo_w : option F; evm_min_w : option F;
  residual_loss_w : F; fec_work_rate_w : F; packet_rate_w : F;
  burst_rate_w : F; holdoff_rate_w : F; late_rate_w : F;
  link_starved_w : bool; tap_active : bool;
  rssi : option F; rssi_raw : option F; snr : option F;
  fec_work : F; burst_rate : F; holdoff_rate : F; late_rate : F;
  session : option SessionInfo; timestamp : F; windows_seen : Z; ant_count : Z;
  probe : option (gmap Z (ProbeReading F))
}.
Arguments mkSignals {F}.
Arguments rssi_min_w {F} _.
Arguments rssi_avg_w {F} _.
Arguments rssi_max_w {F} _.
Arguments mcs_w {F} _.
Arguments snr_w {F} _.
Arguments evm_w {F} _.
Arguments evm_lo_w {F} _.
Arguments evm_min_w {F} _.
Arguments residual_loss_w {F} _.
Arguments fec_work_rate_w {F} _.
Arguments packet_rate_w {F} _.
Arguments burst_rate_w {F} _.
Arguments holdoff_rate_w {F} _.
Arguments late_rate_w {F} _.
Arguments link_starved_w {F} _.
Arguments tap_active {F} _.
Arguments rssi {F} _.
Arguments rssi_raw {F} _.
Arguments snr {F} _.
Arguments fec_work {F} _.
Arguments burst_rate {F} _.
Arguments holdoff_rate {F} _.
Arguments late_rate {F} _.
Arguments session {F} _.
Arguments timestamp {F} _.
Arguments windows_seen {F} _.
Arguments ant_count {F} _.
Arguments probe {F} _.
#[export] Instance eta_Signals F : Settable (Signals F) := fun r =>
  mkSignals (rssi_min_w r) (rssi_avg_w r) (rssi_max_w r) (mcs_w r) (snr_w r)
    (evm_w r) (evm_lo_w r) (evm_min_w r) (residual_loss_w r) (fec_work_rate_w r) (packet_rate_w r)
    (burst_rate_w r) (holdoff_rate_w r) (late_rate_w r) (link_starved_w r) (tap_active r)
    (rssi r) (rssi_raw r) (snr r) (fec_work r) (burst_rate r) (holdoff_rate r) (late_rate r)
    (session r) (timestamp r) (windows_seen r) (ant_count r) (probe r).

(** One slot of the rolling window: data, fec_rec, lost, out. *)
Definition slot4 : Type := Z * Z * Z * Z.
Definition m_data (m : slot4) : Z := m.1.1.1.
Definition m_fec (m : slot4) : Z := m.1.1.2.
Definition m_lost (m : slot4) : Z := m.1.2.
Definition m_out (m : slot4) : Z := m.2.

Record SignalAggregator (F : Type) := mkAgg {
  ewma_alpha_rssi : F; ewma_alpha_fec : F; ewma_alpha_burst : F;
  starvation_threshold_pps : F;
  signals : Signals F; micro : list slot4; pending_lost : Z
}.
Arguments mkAgg {F}.
Arguments ewma_alpha_rssi {F} _.
Arguments ewma_alpha_fec {F} _.
Arguments ewma_alpha_burst {F} _.
Arguments starvation_threshold_pps {F} _.
Arguments signals {F} _.
Arguments micro {F} _.
Arguments pending_lost {F} _.
#[export] Instance eta_Agg F : Settable (SignalAggregator F) := fun r =>
  mkAgg (ewma_alpha_rssi r) (ewma_alpha_fec r) (ewma_alpha_burst r) (starvation_threshold_pps r)
    (signals r) (micro r) (pending_lost r).

Definition MICROS_PER_WINDOW : nat := 10.

Section Ops.
Context {F : Type} {PF : PyFloat F}.
Implicit Types (s : Signals F) (a : SignalAggregator F).

Definition WINDOW_S : F := flit 1 10.

(** [1.0 - (1.0 - alpha) ** (1.0 / MICROS_PER_WINDOW)]. *)
Definition micro_alpha (alpha : F) : F :=
  fofZ 1 -f fpow (fofZ 1 -f alpha) (fofZ 1 /f fofZ (Z.of_nat MICROS_PER_WINDOW)).

Definition _ewma (prev : option F) (new alpha : F) : F :=
  match prev with
  | None => new
  | Some p => alpha *f new +f (fofZ 1 -f alpha) *f p
  end.

(** The dataclass defaults. *)
Definition signals_init : Signals F :=
  mkSignals None None None None None None None None (fofZ 0) (fofZ 0) (fofZ 0) (fofZ 0) (fofZ 0) (fofZ 0)
    false false None None None (fofZ 0) (fofZ 0) (fofZ 0) (fofZ 0) None (fofZ 0) 0 0 None.

Definition agg_init (alpha_rssi alpha_fec alpha_burst threshold : F) : SignalAggregator F :=
  mkAgg alpha_rssi alpha_fec alpha_burst threshold signals_init [] 0.

Definition update_session a (ses : SessionInfo) : SignalAggregator F :=
  a <| signals ::= (fun s => s <| session := Some ses |>) |>.

Definition reset_smoothed a : SignalAggregator F :=
  a <| signals ::= (fun s => s <| rssi := None |> <| rssi_raw := None |> <| snr := None |>) |>.

Definition reset_micro_window a : SignalAggregator F :=
  a <| micro := [] |> <| pending_lost := 0 |>.

(** [max(ants, key=lambda a: a.snr_avg)]: the first best. *)
Definition best_ant (a0 : RxAnt) (rest : list RxAnt) : RxAnt :=
  fold_left (fun b x => if ra_snr_avg b <? ra_snr_avg x then x else b) rest a0.

(** A dict keyed by dongle, in insertion order. *)
Fixpoint zset {V} (k : Z) (v : V) (d : list (Z * V)) : list (Z * V) :=
  match d with
  | [] => [(k, v)]
  | (k', v') :: d' => if k =? k' then (k, v) :: d' else (k', v') :: zset k v d'
  end.
Fixpoint zget {V} (k : Z) (d : list (Z * V)) : option V :=
  match d with
  | [] => None
  | (k', v') :: d' => if k =? k' then Some v' else zget k d'
  end.

Definition fold_evm_ant (acc : list (Z * F) * list (Z * F)) (x : RxAnt) : list (Z * F) * list (Z * F) :=
  if ra_evm_avg x >? 0 then
    let d := Z.shiftr (ra_ant x) 8 in
    let av := fofZ (ra_evm_avg x) in
    let mi := fofZ (ra_evm_min x) in
    (zset d (fmax (default av (zget d acc.1)) av) acc.1,
     zset d (fmin (default mi (zget d acc.2)) mi) acc.2)
  else acc.

(** The three EVM fields: left alone when no slot carries a real lock. *)
Definition fold_evm s (ants : list RxAnt) : Signals F :=
  let d := fold_left fold_evm_ant ants ([], []) in
  match map snd d.1, map snd d.2 with
  | v :: vs, w :: ws =>
      s <| evm_w := Some (fmax_list v vs) |> <| evm_lo_w := Some (fmin_list v vs) |>
        <| evm_min_w := Some (fmin_list w ws) |>
  | _, _ => s
  end.

(** The RSSI, MCS and SNR part of [_fold_ants] on the non-empty list [a0 :: rest]. *)
Definition fold_best s (a0 : RxAnt) (rest : list RxAnt) : Signals F :=
  let ants := a0 :: rest in
  let rssi_avgs := map ra_rssi_avg ants in
  let n := Z.of_nat (length ants) in
  let best := best_ant a0 rest in
  s <| rssi_min_w := Some (fofZ (fold_left Z.min (map ra_rssi_min rest) (ra_rssi_min a0))) |>
    <| rssi_avg_w := Some (fofZ (sumZ rssi_avgs) /f fofZ n) |>
    <| rssi_max_w := Some (fofZ (fold_left Z.max (map ra_rssi_avg rest) (ra_rssi_avg a0))) |>
    <| mcs_w := Some (ra_mcs best) |>
    <| ant_count := n |>
    <| snr_w := Some (fofZ (ra_snr_avg best)) |>.

Definition _fold_ants s (a0 : RxAnt) (rest : list RxAnt) : Signals F :=
  fold_evm (fold_best s a0 rest) (a0 :: rest).

Definition fold_ants_if s (ants : list RxAnt) : Signals F :=
  match ants with [] => s | a0 :: rest => _fold_ants s a0 rest end.

(** The loss and repair rates of a window. *)
Definition set_loss_rates s (out lost fec_rec : Z) : Signals F :=
  let tx_primaries := out + lost in
  if tx_primaries >? 0 then
    s <| residual_loss_w := fofZ lost /f fofZ tx_primaries |>
      <| fec_work_rate_w := fofZ fec_rec /f fofZ tx_primaries |>
  else s <| residual_loss_w := fofZ 0 |> <| fec_work_rate_w := fofZ 0 |>.

Definition set_starved (threshold : F) s : Signals F :=
  s <| link_starved_w := is_some (session s) && (packet_rate_w s <f threshold) |>.

(** RSSI and SNR smoothing, shared by both cadences. *)
Definition smooth_axis (alpha : F) s : Signals F :=
  match rssi_max_w s with
  | Some r =>
      let s1 := s <| rssi_raw := Some (_ewma (rssi_raw s) r alpha) |> in
      match snr_w s1 with
      | Some w => s1 <| snr := Some (_ewma (snr s1) w alpha) |>
      | None => s1
      end
  | None => s
  end.

Definition pkt (k : string) (p : list (string * Z)) : Z := default 0 (dict_get k p).

(** The packet-derived part of [consume]. *)
Definition consume_packets s (ev : RxEvent F) : Signals F :=
  let p := packets_window ev in
  let s1 := s <| timestamp := rx_timestamp ev |> <| windows_seen ::= Z.succ |>
              <| session ::= (fun old => match rx_session ev with Some x => Some x | None => old end) |> in
  let s2 := set_loss_rates s1 (pkt "out" p) (pkt "lost" p) (pkt "fec_rec" p) in
  s2 <| packet_rate_w := fofZ (pkt "data" p) /f WINDOW_S |>
     <| burst_rate_w := fofZ (pkt "bursts_rec" p) /f WINDOW_S |>
     <| holdoff_rate_w := fofZ (pkt "holdoff" p) /f WINDOW_S |>
     <| late_rate_w := fofZ (pkt "late_deadline" p) /f WINDOW_S |>.

Definition consume a (ev : RxEvent F) : SignalAggregator F :=
  let s1 := consume_packets (signals a) ev in
  let s2 := fold_ants_if s1 (rx_ant_stats ev) in
  let s3 := set_starved (starvation_threshold_pps a) s2 in
  let s4 := smooth_axis (ewma_alpha_rssi a) s3 in
  let s5 := s4 <| fec_work := _ewma (Some (fec_work s4)) (fec_work_rate_w s4) (ewma_alpha_fec a) |>
               <| burst_rate := _ewma (Some (burst_rate s4)) (burst_rate_w s4) (ewma_alpha_burst a) |>
               <| holdoff_rate := _ewma (Some (holdoff_rate s4)) (holdoff_rate_w s4) (ewma_alpha_burst a) |>
               <| late_rate := _ewma (Some (late_rate s4)) (late_rate_w s4) (ewma_alpha_burst a) |> in
  a <| signals := s5 |>.

Definition _recompute_micro_window a : SignalAggregator F :=
  let data := sumZ (map m_data (micro a)) in
  let fec_rec := sumZ (map m_fec (micro a)) in
  let lost := sumZ (map m_lost (micro a)) + pending_lost a in
  let out := sumZ (map m_out (micro a)) in
  let s1 := set_loss_rates (signals a) out lost fec_rec in
  let s2 := s1 <| packet_rate_w := fofZ data /f WINDOW_S |> in
  a <| signals := set_starved (starvation_threshold_pps a) s2 |>.

Definition consume_micro a (rec : TapMicro) (now_s : F) : SignalAggregator F :=
  let a1 := a <| signals ::= (fun s => s <| timestamp := now_s |>) |>
              <| micro ::= (fun q => deque_push MICROS_PER_WINDOW q
                   (tm_pkt_data rec, tm_pkt_fec_rec rec, tm_pkt_lost rec, tm_pkt_out rec)) |>
              <| pending_lost := 0 |> in
  let a2 := _recompute_micro_window a1 in
  let s3 := fold_ants_if (signals a2) (tm_rx_ant_stats rec) in
  let s4 := smooth_axis (micro_alpha (ewma_alpha_rssi a)) s3 in
  a2 <| signals := s4 <| fec_work := _ewma (Some (fec_work s4)) (fec_work_rate_w s4)
                                           (micro_alpha (ewma_alpha_fec a)) |> |>.

Definition consume_loss a (rec : TapLoss) (now_s : F) : SignalAggregator F :=
  let a1 := a <| signals ::= (fun s => s <| timestamp := now_s |>) |>
              <| pending_lost ::= Z.add (tl_lost_count rec) |> in
  _recompute_micro_window a1.
End Ops.

(* ------------------------------------------------------------------ *)
(** ** The rolling tap window refines its history *)

(** What the tap delivers between two resets: records with their arrival time. *)
Definition tap_step {F} {PF : PyFloat F} (a : SignalAggregator F) (r : tap_rec * F) : SignalAggregator F :=
  match r with
  | (Micro m, now) => consume_micro a m now
  | (Loss l, now) => consume_loss a l now
  end.

Definition tap_run {F} {PF : PyFloat F} (a : SignalAggregator F) (h : list (tap_rec * F)) : SignalAggregator F :=
  fold_left tap_step h a.

(** Specification: the slots of the last ten MICROs of the history ... *)
Definition slot_of (m : TapMicro) : slot4 := (tm_pkt_data m, tm_pkt_fec_rec m, tm_pkt_lost m, tm_pkt_out m).
Definition hist_slots (h : list tap_rec) : list slot4 :=
  omap (fun r => match r with Micro m => Some (slot_of m) | Loss _ => None end) h.
Definition last_ten (h : list tap_rec) : list slot4 :=
  let l := hist_slots h in drop (length l - MICROS_PER_WINDOW) l.
(** ... and the losses announced since the last of them. *)
Definition unreported (h : list tap_rec) : Z :=
  fold_left (fun acc r => match r with Micro _ => 0 | Loss l => tl_lost_count l + acc end) h 0.

Section Window.
Context {F : Type} {PF : PyFloat F}.
Implicit Types (s : Signals F) (a : SignalAggregator F).

Definition same_window (s1 s2 : Signals F) : Prop :=
  residual_loss_w s1 = residual_loss_w s2 /\ fec_work_rate_w s1 = fec_work_rate_w s2 /\
  packet_rate_w s1 = packet_rate_w s2 /\ link_starved_w s1 = link_starved_w s2 /\
  session s1 = session s2.

#[local] Instance same_window_equiv : Equivalence same_window.
Proof.
  split; [done|by intros ? ? (?&?&?&?&?)|].
  intros x y z (?&?&?&?&?) (?&?&?&?&?). repeat split; etrans; eassumption.
Qed.

Lemma fold_evm_window s l : same_window (fold_evm s l) s.
Proof. unfold fold_evm. by repeat case_match. Qed.

Lemma fold_ants_window s l : same_window (fold_ants_if s l) s.
Proof. destruct l as [|a0 rest]; [done|]. etrans; [apply fold_evm_window|done]. Qed.

Lemma smooth_axis_window al s : same_window (smooth_axis al s) s.
Proof. unfold smooth_axis. by repeat case_match. Qed.

Lemma consume_micro_window a m now :
  same_window (signals (consume_micro a m now))
    (signals (_recompute_micro_window
       (a <| signals ::= (fun s => s <| timestamp := now |>) |>
          <| micro ::= (fun q => deque_push MICROS_PER_WINDOW q (slot_of m)) |> <| pending_lost := 0 |>))).
Proof.
  set (a2 := _recompute_micro_window _).
  trans (fold_ants_if (signals a2) (tm_rx_ant_stats m)); [|apply fold_ants_window].
  etrans; [|apply (smooth_axis_window (micro_alpha (ewma_alpha_rssi a)))]. done.
Qed.

Lemma tap_run_threshold a h : starvation_threshold_pps (tap_run a h) = starvation_threshold_pps a.
Proof.
  unfold tap_run. revert a. induction h as [|[[m|l] now] h IH]; intros a; [done|..];
    simpl; by rewrite IH.
Qed.

Lemma set_loss_rates_session s o l f : session (set_loss_rates s o l f) = session s.
Proof. unfold set_loss_rates. by case_match. Qed.

Lemma tap_step_session a r : session (signals (tap_step a r)) = session (signals a).
Proof.
  destruct r as [[m|l] now].
  - destruct (consume_micro_window a m now) as (_&_&_&_&Hs). etrans; [exact Hs|].
    etrans; [apply set_loss_rates_session|done].
  - etrans; [apply set_loss_rates_session|done].
Qed.

Lemma tap_run_session a h : session (signals (tap_run a h)) = session (signals a).
Proof.
  unfold tap_run. revert a. induction h as [|r h IH]; intros a; [done|].
  cbn [fold_left]. by rewrite IH, tap_step_session.
Qed.

Lemma fold_deque_push {A} n (l q : list A) :
  (length q <= n)%nat -> fold_left (deque_push n) l q = drop (length (q ++ l) - n) (q ++ l).
Proof.
  revert q. induction l as [|x l IH]; intros q Hq; cbn [fold_left].
  - rewrite app_nil_r. by replace (length q - n)%nat with 0%nat by lia.
  - rewrite IH by (rewrite deque_push_length; lia).
    unfold deque_push. rewrite !length_app, length_drop, length_app. cbn [length].
    replace (q ++ x :: l) with ((q ++ [x]) ++ l) by (by rewrite <- app_assoc).
    set (k := (length q + 1 - n)%nat).
    rewrite <- (drop_app_le (q ++ [x]) l k) by (rewrite length_app; simpl; lia).
    rewrite drop_drop. f_equal. lia.
Qed.

Lemma tap_run_micro a h :
  micro (tap_run a h) = fold_left (deque_push MICROS_PER_WINDOW) (hist_slots (map fst h)) (micro a).
Proof.
  unfold tap_run. revert a. induction h as [|[[m|l] now] h IH]; intros a; [done|..]; simpl; by rewrite IH.
Qed.

Lemma tap_run_pending a h :
  pending_lost (tap_run a h) =
  fold_left (fun acc r => match r with Micro _ => 0 | Loss l => tl_lost_count l + acc end)
    (map fst h) (pending_lost a).
Proof.
  unfold tap_run. revert a. induction h as [|[[m|l] now] h IH]; intros a; [done|..]; simpl; by rewrite IH.
Qed.

Lemma recompute_fields a :
  let lost := sumZ (map m_lost (micro a)) + pending_lost a in
  let prim := sumZ (map m_out (micro a)) + lost in
  let s := signals (_recompute_micro_window a) in
  residual_loss_w s = (if prim >? 0 then fofZ lost /f fofZ prim else fofZ 0) /\
  fec_work_rate_w s = (if prim >? 0 then fofZ (sumZ (map m_fec (micro a))) /f fofZ prim else fofZ 0) /\
  packet_rate_w s = fofZ (sumZ (map m_data (micro a))) /f WINDOW_S /\
  link_starved_w s = (is_some (session (signals a)) && (packet_rate_w s <f starvation_threshold_pps a)) /\
  session s = session (signals a).
Proof.
  cbv zeta. unfold _recompute_micro_window, set_loss_rates.
  destruct (_ >? 0); repeat split; reflexivity.
Qed.

Lemma recompute_window_dep a b :
  micro a = micro b -> pending_lost a = pending_lost b ->
  starvation_threshold_pps a = starvation_threshold_pps b ->
  session (signals a) = session (signals b) ->
  same_window (signals (_recompute_micro_window a)) (signals (_recompute_micro_window b)).
Proof.
  intros Hm Hp Ht Hs. unfold same_window.
  destruct (recompute_fields a) as (->&->&H1&->&->). destruct (recompute_fields b) as (->&->&H2&->&->).
  by rewrite H1, H2, Hm, Hp, Ht, Hs.
Qed.

(** The window fields right after a record are those the state's own slots and
    pending losses give. *)
Lemma tap_step_window a r :
  same_window (signals (tap_step a r)) (signals (_recompute_micro_window (tap_step a r))).
Proof.
  assert (Hs := tap_step_session a r). destruct r as [[m|l] now]; cbn [tap_step] in *.
  - etrans; [apply consume_micro_window|]. by apply recompute_window_dep.
  - by apply recompute_window_dep.
Qed.

(** C13: After any history of tap records the incremental window equals its
    specification on the history: the loss, packet rate and starvation flag
    are those of the last ten micro slots plus the losses reported since the
    last slot. *)
Theorem tap_window_refines_history a h r :
  let a' := tap_run (reset_micro_window a) (h ++ [r]) in
  let hist := map fst (h ++ [r]) in
  let w := last_ten hist in
  let lost := sumZ (map m_lost w) + unreported hist in
  let prim := sumZ (map m_out w) + lost in
  micro a' = w /\ pending_lost a' = unreported hist /\
  residual_loss_w (signals a') = (if prim >? 0 then fofZ lost /f fofZ prim else fofZ 0) /\
  packet_rate_w (signals a') = fofZ (sumZ (map m_data w)) /f WINDOW_S /\
  link_starved_w (signals a') =
    (is_some (session (signals a)) && (packet_rate_w (signals a') <f starvation_threshold_pps a)).
Proof.
  cbv zeta. set (a' := tap_run _ _).
  assert (Hm : micro a' = last_ten (map fst (h ++ [r]))).
  { subst a'. rewrite tap_run_micro. apply (fold_deque_push _ _ []). simpl. lia. }
  assert (Hp : pending_lost a' = unreported (map fst (h ++ [r]))) by apply tap_run_pending.
  assert (Ht : starvation_threshold_pps a' = starvation_threshold_pps a) by apply (tap_run_threshold (reset_micro_window a)).
  assert (Hs : session (signals a') = session (signals a)) by apply (tap_run_session (reset_micro_window a)).
  split; [done|]. split; [done|]. rewrite <- Hm, <- Hp, <- Ht, <- Hs.
  assert (Hw : same_window (signals a') (signals (_recompute_micro_window a'))).
  { subst a'. unfold tap_run. rewrite fold_left_app. apply tap_step_window. }
  destruct Hw as (->&_&->&->&_). clearbody a'. clear.
  destruct (recompute_fields a') as (?&?&?&?&?). by repeat split.
Qed.
End Window.

(* ------------------------------------------------------------------ *)
(** ** Exact arithmetic: bounds of the control axis

    Over the rationals, with the platform's [pow] left as a parameter. *)

Definition PyFloat_Qpow (pow : Q -> Q -> Q) : PyFloat Q := {|
  fofZ := inject_Z;
  fadd x y := Qred (x + y);
  fsub x y := Qred (x - y);
  fmul x y := Qred (x * y);
  fdiv x y := Qred (x / y);
  fopp x := Qred (- x);
  fleb := Qle_bool;
  fltb x y := negb (Qle_bool y x);
  ftrunc := Q_trunc;
  ffinite _ := true;
  fround := @fround Q PyFloat_Q;
  fround1 := @fround1 Q PyFloat_Q;
  fpow := pow;
  fofstr := @fofstr Q PyFloat_Q
|}.

Section Exact.
Variable pow : Q -> Q -> Q.
#[local] Instance PFpow : PyFloat Q := PyFloat_Qpow pow.
#[local] Remove Hints PyFloat_Q : typeclass_instances.
Open Scope Q_scope.

Lemma ewma_eq p x al : _ewma (Some p) x al == al * x + (1 - al) * p.
Proof. unfold _ewma. cbn [fadd fmul fsub fofZ PFpow PyFloat_Qpow]. by rewrite !Qred_correct. Qed.

Lemma micro_alpha_eq al : micro_alpha al == 1 - pow (Qred (inject_Z 1 - al)) (Qred (inject_Z 1 / inject_Z 10)).
Proof. unfold micro_alpha. cbn [fadd fmul fsub fdiv fpow fofZ PFpow PyFloat_Qpow]. by rewrite Qred_correct. Qed.

(** The gap to a constant input shrinks by [1 - alpha] per step. *)
Lemma ewma_iter x al p n :
  Nat.iter n (fun v => _ewma (Some v) x al) p - x == Qpower (1 - al) (Z.of_nat n) * (p - x).
Proof.
  induction n as [|n IH]; [simpl; lra|]. rewrite Nat2Z.inj_succ.
  cbn [Nat.iter nat_rect]. change (nat_rect _ _ _ n) with (Nat.iter n (fun v => _ewma (Some v) x al) p).
  rewrite ewma_eq. set (v := Nat.iter n _ p) in *.
  assert (Hp : Qpower (1 - al) (Z.succ (Z.of_nat n)) == (1 - al) * Qpower (1 - al) (Z.of_nat n)).
  { unfold Z.succ. rewrite Qpower_plus' by lia. simpl. lra. }
  rewrite Hp, <- Qmult_assoc, <- IH. lra.
Qed.

(** Ten micro windows smooth exactly like one. *)
Theorem ten_micros_one_window al x p :
  Qpower (pow (Qred (1 - al)) (1 # 10)) 10 == 1 - al ->
  Nat.iter 10 (fun v => _ewma (Some v) x (micro_alpha al)) p == _ewma (Some p) x al.
Proof.
  intros Hpow. assert (H := ewma_iter x (micro_alpha al) p 10).
  assert (Ha : 1 - micro_alpha al == pow (Qred (1 - al)) (1 # 10)).
  { rewrite micro_alpha_eq. change (Qred (inject_Z 1 / inject_Z 10)) with (1 # 10).
    change (inject_Z 1) with 1. lra. }
  rewrite Ha in H. change (Z.of_nat 10) with 10%Z in H. rewrite Hpow in H.
  rewrite ewma_eq. lra.
Qed.

(** *** Bounds *)

Variables (lo hi : Z).
Definition in_range (q : Q) : Prop := inject_Z lo <= q <= inject_Z hi.
Definition opt_in_range (o : option Q) : Prop := match o with None => True | Some q => in_range q end.
Definition unit_q (q : Q) : Prop := 0 <= q <= 1.
Definition ants_ok (l : list RxAnt) : Prop := Forall (fun x => (lo <= ra_snr_avg x <= hi)%Z) l.
Definition slot_ok (m : slot4) : Prop := (0 <= m_lost m /\ 0 <= m_out m)%Z.

(** The inputs: counters are counts, and every antenna reads an SNR in range. *)
Inductive agg_step (a : SignalAggregator Q) : SignalAggregator Q -> Prop :=
| S_consume ev : (0 <= pkt "out" (packets_window ev))%Z -> (0 <= pkt "lost" (packets_window ev))%Z ->
    ants_ok (rx_ant_stats ev) -> agg_step a (consume a ev)
| S_micro m now : slot_ok (slot_of m) -> ants_ok (tm_rx_ant_stats m) -> agg_step a (consume_micro a m now)
| S_loss l now : (0 <= tl_lost_count l)%Z -> agg_step a (consume_loss a l now)
| S_session ses : agg_step a (update_session a ses)
| S_reset : agg_step a (reset_smoothed a)
| S_reset_micro : agg_step a (reset_micro_window a).

Definition agg_ok (a : SignalAggregator Q) : Prop :=
  Forall slot_ok (micro a) /\ (0 <= pending_lost a)%Z /\
  unit_q (residual_loss_w (signals a)) /\
  opt_in_range (snr_w (signals a)) /\ opt_in_range (snr (signals a)).

Lemma ewma_in_range p x al : unit_q al -> in_range p -> in_range x -> in_range (_ewma (Some p) x al).
Proof.
  unfold in_range, unit_q. intros [Ha1 Ha2] [Hp1 Hp2] [Hx1 Hx2]. rewrite ewma_eq.
  set (l := inject_Z lo) in *. set (h := inject_Z hi) in *. split; nra.
Qed.

Lemma loss_rates_unit s o l f : (0 <= o)%Z -> (0 <= l)%Z -> unit_q (residual_loss_w (set_loss_rates s o l f)).
Proof.
  intros Ho Hl. unfold set_loss_rates, unit_q. destruct (_ >? 0)%Z eqn:E; unfold upd; cbn; [|by split].
  apply Z.gtb_lt in E. rewrite Qred_correct.
  assert (0 < inject_Z (o + l)) by (change 0 with (inject_Z 0); rewrite <- Zlt_Qlt; lia).
  split; [apply Qle_shift_div_l|apply Qle_shift_div_r]; try done.
  - rewrite Qmult_0_l. change 0 with (inject_Z 0). rewrite <- Zle_Qle. lia.
  - rewrite Qmult_1_l, <- Zle_Qle. lia.
Qed.

Lemma best_ant_in a0 rest : best_ant a0 rest ∈ a0 :: rest.
Proof.
  unfold best_ant. revert a0. induction rest as [|x rest IH]; intros a0; cbn [fold_left]; [set_solver|].
  destruct (_ <? _)%Z; [specialize (IH x)|specialize (IH a0)]; set_solver.
Qed.

Lemma fold_evm_axis (s : Signals Q) l : snr_w (fold_evm s l) = snr_w s /\ snr (fold_evm s l) = snr s.
Proof. unfold fold_evm. repeat case_match; split; reflexivity. Qed.

Lemma fold_ants_axis s l : ants_ok l ->
  opt_in_range (snr_w s) -> opt_in_range (snr_w (fold_ants_if s l)) /\ snr (fold_ants_if s l) = snr s.
Proof.
  intros Hl Hs. destruct l as [|a0 rest]; [done|].
  assert (H := best_ant_in a0 rest). unfold ants_ok in Hl. rewrite Forall_forall in Hl. apply Hl in H.
  unfold fold_ants_if, _fold_ants. destruct (fold_evm_axis (fold_best s a0 rest) (a0 :: rest)) as [Hw Hsn].
  split; [|etrans; [exact Hsn|reflexivity]]. rewrite Hw.
  change (in_range (inject_Z (ra_snr_avg (best_ant a0 rest)))). unfold in_range. by rewrite <- !Zle_Qle.
Qed.

Lemma smooth_axis_ok al s : unit_q al -> opt_in_range (snr_w s) -> opt_in_range (snr s) ->
  opt_in_range (snr_w (smooth_axis al s)) /\ opt_in_range (snr (smooth_axis al s)).
Proof.
  intros Ha Hw Hs. unfold smooth_axis. destruct (rssi_max_w s) as [r|]; [|done].
  unfold upd. cbn. destruct (snr_w s) as [w|] eqn:E; cbn; rewrite ?E; [|done].
  split; [done|]. destruct (snr s) as [p|]; [|done]. by apply ewma_in_range.
Qed.

Lemma recompute_ok a : Forall slot_ok (micro a) -> (0 <= pending_lost a)%Z ->
  opt_in_range (snr_w (signals a)) -> opt_in_range (snr (signals a)) -> agg_ok (_recompute_micro_window a).
Proof.
  intros Hm Hp Hw Hs. split; [done|]. split; [done|]. split.
  - apply loss_rates_unit.
    + apply sumZ_nonneg, Forall_map. eapply Forall_impl; [exact Hm|]. by intros ? [].
    + apply Z.add_nonneg_nonneg; [|done]. apply sumZ_nonneg, Forall_map.
      eapply Forall_impl; [exact Hm|]. by intros ? [].
  - unfold _recompute_micro_window, set_loss_rates. case_match; split; [exact Hw|exact Hs|exact Hw|exact Hs].
Qed.

(** Shared tail of both cadences: antennas, smoothing. *)
Lemma fold_smooth_ok al s l : unit_q al -> ants_ok l -> opt_in_range (snr_w s) -> opt_in_range (snr s) ->
  let s' := smooth_axis al (fold_ants_if s l) in
  opt_in_range (snr_w s') /\ opt_in_range (snr s') /\ residual_loss_w s' = residual_loss_w s.
Proof.
  intros Ha Hl Hw Hs. destruct (fold_ants_axis s l Hl Hw) as [Hw' Hs'].
  destruct (smooth_axis_ok al (fold_ants_if s l)) as [H1 H2]; [done..|by rewrite Hs'|].
  split; [done|]. split; [done|].
  destruct (smooth_axis_window al (fold_ants_if s l)) as (->&_).
  by destruct (fold_ants_window s l) as (->&_).
Qed.

Lemma micro_alpha_unit al : unit_q (pow (Qred (1 - al)) (1 # 10)) -> unit_q (micro_alpha al).
Proof.
  unfold unit_q. intros H. rewrite micro_alpha_eq.
  change (Qred (inject_Z 1 / inject_Z 10)) with (1 # 10). change (inject_Z 1) with 1. lra.
Qed.

Lemma agg_step_alpha a a' : agg_step a a' -> ewma_alpha_rssi a' = ewma_alpha_rssi a.
Proof. by destruct 1. Qed.

Lemma agg_step_ok a a' :
  unit_q (ewma_alpha_rssi a) -> unit_q (pow (Qred (1 - ewma_alpha_rssi a)) (1 # 10)) ->
  agg_ok a -> agg_step a a' -> agg_ok a'.
Proof.
  intros Hal Hpow (Hm & Hp & Hr & Hw & Hs) Hstep.
  destruct Hstep as [ev Ho Hl Hants|m now Hslot Hants|l now Hl|ses| |].
  - set (s1 := consume_packets (signals a) ev).
    assert (H1 : unit_q (residual_loss_w s1)) by (by apply loss_rates_unit).
    assert (H2 : snr_w s1 = snr_w (signals a) /\ snr s1 = snr (signals a)).
    { subst s1. unfold consume_packets, set_loss_rates. case_match; split; reflexivity. }
    destruct (fold_ants_axis s1 (rx_ant_stats ev)) as [H3 H4]; [done|by rewrite (proj1 H2)|].
    set (s3 := set_starved (starvation_threshold_pps a) (fold_ants_if s1 (rx_ant_stats ev))).
    destruct (smooth_axis_ok (ewma_alpha_rssi a) s3) as [H5 H6]; [done|done| |].
    { subst s3. change (snr (set_starved ?t ?s)) with (snr s). by rewrite H4, (proj2 H2). }
    split; [done|]. split; [done|]. split; [|done].
    cut (unit_q (residual_loss_w (smooth_axis (ewma_alpha_rssi a) s3))); [done|].
    destruct (smooth_axis_window (ewma_alpha_rssi a) s3) as (->&_). subst s3.
    change (residual_loss_w (set_starved ?t ?s)) with (residual_loss_w s).
    by destruct (fold_ants_window s1 (rx_ant_stats ev)) as (->&_).
  - destruct (recompute_ok (a <| signals ::= (fun s => s <| timestamp := now |>) |>
        <| micro ::= (fun q => deque_push MICROS_PER_WINDOW q (slot_of m)) |> <| pending_lost := 0%Z |>))
      as (Hm2 & Hp2 & Hr2 & Hw2 & Hs2); [|done..|].
    { unfold upd. cbn [micro]. apply Forall_drop, Forall_app. split; [done|]. by apply Forall_singleton. }
    destruct (fold_smooth_ok _ _ (tm_rx_ant_stats m) (micro_alpha_unit _ Hpow) Hants Hw2 Hs2) as (H1 & H2 & H3).
    split; [done|]. split; [done|]. split; [|done]. rewrite <- H3 in Hr2. exact Hr2.
  - apply recompute_ok; [done| |done..]. unfold upd. cbn [pending_lost]. lia.
  - done.
  - done.
  - done.
Qed.

(** Whatever records arrive, the loss the policy reads is a probability
    and the raw and smoothed SNR stay within the range of the antennas'
    readings. *)
Theorem signals_bounded ar af ab th a :
  unit_q ar -> unit_q (pow (Qred (1 - ar)) (1 # 10)) ->
  rtc agg_step (agg_init ar af ab th) a ->
  unit_q (residual_loss_w (signals a)) /\ opt_in_range (snr_w (signals a)) /\ opt_in_range (snr (signals a)).
Proof.
  intros Har Hpow Hrtc.
  cut (agg_ok a); [by intros (?&?&?&?&?)|].
  assert (H0 : agg_ok (agg_init ar af ab th)) by (by repeat split).
  assert (Hal : ewma_alpha_rssi (agg_init ar af ab th) = ar) by done.
  revert H0 Hal. induction Hrtc as [x|x y z Hstep _ IH]; intros H0 Hal; [done|].
  apply IH; [|by rewrite (agg_step_alpha _ _ Hstep)]. apply (agg_step_ok x); by rewrite ?Hal.
Qed.
End Exact.
