(* ===== verification/Policy.v ===== *)
(** * The MCS policy (gs/fpvdgs/dynlink/policy.py): data and operations

    [LeadingSelector] holds the rung, the flap damper, the trial and the
    snap-back memory; [Policy] runs it at 10 Hz on the aggregated signals, gates
    demotes by the shared cooldown, feeds the learned prior and reports each
    decision.  [loss_event] is the fast path outside the tick.

    Exceptions are values: an operation that raises leaves no state.  The log
    entries and file writes an operation asks for are part of its result. *)
From Stdlib Require Import ZArith Lia Bool String.
From stdpp Require Import base tactics list gmap strings pretty.
From S2P Require Import Prelude PyStr Json StatsClient Probe Signals LearnedPrior Decision.
Open Scope Z_scope.

Definition RAW_MIN_RELEASE_WINDOW_TICKS : nat := 20.
Definition PROBE_CLEAN_RELEASE_TICKS : Z := 20.

(** ** Configuration *)

Record SelectorConfig (F : Type) := mkSelCfg {
  video_demote_per : F;
  emergency_fec_pressure : F;
  max_mcs : Z;
  hold_modes_down_ms : Z;
  min_between_changes_ms : Z;
  starvation_windows : Z;
  demote_cooldown_windows : Z;
  snr_demote_debounce : Z;
  snr_promote_margin_db : F;
  snr_demote_margin_db : F;
  flap_base_backoff_ms : Z;
  flap_backoff_mult : F;
  flap_backoff_cap_ms : Z;
  flap_reset_clean_dwell_ticks : Z;
  promote_dwell_ticks : Z;
  promote_slope_min : F;
  trial_window_ms : Z;
  collapse_delta_db : F;
  flap_snr_release_db : F;
  flap_decay_ms : Z;
  snapback_recover_margin_db : F;
  confirm_ttl_ms : Z
}.
Arguments mkSelCfg {F}.
Arguments video_demote_per {F} _.
Arguments emergency_fec_pressure {F} _.
Arguments max_mcs {F} _.
Arguments hold_modes_down_ms {F} _.
Arguments min_between_changes_ms {F} _.
Arguments starvation_windows {F} _.
Arguments demote_cooldown_windows {F} _.
Arguments snr_demote_debounce {F} _.
Arguments snr_promote_margin_db {F} _.
Arguments snr_demote_margin_db {F} _.
Arguments flap_base_backoff_ms {F} _.
Arguments flap_backoff_mult {F} _.
Arguments flap_backoff_cap_ms {F} _.
Arguments flap_reset_clean_dwell_ticks {F} _.
Arguments promote_dwell_ticks {F} _.
Arguments promote_slope_min {F} _.
Arguments trial_window_ms {F} _.
Arguments collapse_delta_db {F} _.
Arguments flap_snr_release_db {F} _.
Arguments flap_decay_ms {F} _.
Arguments snapback_recover_margin_db {F} _.
Arguments confirm_ttl_ms {F} _.

(** The policy's configuration; the flight log's own is with the flight log. *)
Record PolicyConfig (F : Type) := mkPolCfg {
  pc_selector : SelectorConfig F;
  pc_prior : LearnedPriorConfig F;
  link_width : Z
}.
Arguments mkPolCfg {F}.
Arguments pc_selector {F} _.
Arguments pc_prior {F} _.
Arguments link_width {F} _.

(** ** State *)

Inductive release := RelTimer | RelRawMin | RelProbe.
#[export] Instance release_eq_dec : EqDecision release.
Proof. solve_decision. Defined.

Record LeadingSelector (F : Type) := mkSel {
  current_mcs : Z;
  last_change_time_ms : F;
  last_mcs_change_time_ms : F;
  reasons : list (reason F);
  clean_dwell : Z;
  flap_level : gmap Z Z;
  suppress_until_ms : gmap Z F;
  snr_at_last_flap : gmap Z F;
  last_flap_ms : gmap Z F;
  snr_w_recent : list F;
  last_release : option release;
  promote_suppressed : bool;
  trial_rung : option Z;
  trial_until_ms : F;
  confirmed_until_ms : gmap Z F;
  confirmed_snr : gmap Z F;
  snapback_tgt : option Z;
  last_fail : option (Z * fail_class * F)
}.
Arguments mkSel {F}.
Arguments current_mcs {F} _.
Arguments last_change_time_ms {F} _.
Arguments last_mcs_change_time_ms {F} _.
Arguments reasons {F} _.
Arguments clean_dwell {F} _.
Arguments flap_level {F} _.
Arguments suppress_until_ms {F} _.
Arguments snr_at_last_flap {F} _.
Arguments last_flap_ms {F} _.
Arguments snr_w_recent {F} _.
Arguments last_release {F} _.
Arguments promote_suppressed {F} _.
Arguments trial_rung {F} _.
Arguments trial_until_ms {F} _.
Arguments confirmed_until_ms {F} _.
Arguments confirmed_snr {F} _.
Arguments snapback_tgt {F} _.
Arguments last_fail {F} _.
#[export] Instance eta_Sel F : Settable (LeadingSelector F) := fun r =>
  mkSel (current_mcs r) (last_change_time_ms r) (last_mcs_change_time_ms r) (reasons r) (clean_dwell r)
    (flap_level r) (suppress_until_ms r) (snr_at_last_flap r) (last_flap_ms r) (snr_w_recent r)
    (last_release r) (promote_suppressed r) (trial_rung r) (trial_until_ms r)
    (confirmed_until_ms r) (confirmed_snr r) (snapback_tgt r) (last_fail r).

Record Policy (F : Type) := mkPolicy {
  profile_name : string;
  leading : LeadingSelector F;
  starvation_count : Z;
  ticks_at_mcs : Z;
  last_ingest_mcs : option Z;
  learned_prior : LearnedPrior F;
  snr_window : list F;
  predict_demote_count : Z;
  snr_demote_count : Z;
  windows_since_demote : Z;
  probe_clean_ticks : Z;
  probe_clean_rung : option Z
}.
Arguments mkPolicy {F}.
Arguments profile_name {F} _.
Arguments leading {F} _.
Arguments starvation_count {F} _.
Arguments ticks_at_mcs {F} _.
Arguments last_ingest_mcs {F} _.
Arguments learned_prior {F} _.
Arguments snr_window {F} _.
Arguments predict_demote_count {F} _.
Arguments snr_demote_count {F} _.
Arguments windows_since_demote {F} _.
Arguments probe_clean_ticks {F} _.
Arguments probe_clean_rung {F} _.
#[export] Instance eta_Policy F : Settable (Policy F) := fun r =>
  mkPolicy (profile_name r) (leading r) (starvation_count r) (ticks_at_mcs r) (last_ingest_mcs r)
    (learned_prior r) (snr_window r) (predict_demote_count r) (snr_demote_count r)
    (windows_since_demote r) (probe_clean_ticks r) (probe_clean_rung r).

(** Arguments of [select]. *)
Record SelIn (F : Type) := mkSelIn {
  si_snr_ewma : option F;
  si_snr_w : option F;
  si_slope : option F;
  si_loss_rate : F;
  si_loss_demote : bool;
  si_target_confident : bool;
  si_target_blocked : bool;
  si_fec_pressure : F;
  si_link_starved : bool;
  si_can_demote : bool;
  si_ts_ms : F;
  si_probe_veto : bool;
  si_probe_release : bool
}.
Arguments mkSelIn {F}.
Arguments si_snr_ewma {F} _.
Arguments si_snr_w {F} _.
Arguments si_slope {F} _.
Arguments si_loss_rate {F} _.
Arguments si_loss_demote {F} _.
Arguments si_target_confident {F} _.
Arguments si_target_blocked {F} _.
Arguments si_fec_pressure {F} _.
Arguments si_link_starved {F} _.
Arguments si_can_demote {F} _.
Arguments si_ts_ms {F} _.
Arguments si_probe_veto {F} _.
Arguments si_probe_release {F} _.

(** The flight-log entries of the tick and of the fast path. *)
Record TickEntry (F : Type) := mkTickEntry {
  te_ts : F; te_rssi : option F; te_rssi_raw : option F; te_snr : option F; te_snr_ewma : option F;
  te_promote_blocked : bool; te_promote_suppressed : bool; te_flap_level : Z;
  te_snr_knees : list (option F); te_evm : option F; te_evm_lo : option F; te_evm_min : option F;
  te_mcs : Z; te_width : Z; te_reason : list (reason F); te_residual_loss_w : F; te_fec_work : F;
  te_link_starved : bool; te_fail_class : option fail_class; te_trial : option Z;
  te_snapback_tgt : option Z; te_clean_dwell : Z; te_prior_learn : bool; te_slope : option F;
  te_predict_gated : bool; te_tap_active : bool; te_damper_release : option release;
  te_probe_per : option F; te_probe_fresh : bool; te_probe_veto : bool
}.
Arguments mkTickEntry {F}.

Record FastEntry (F : Type) := mkFastEntry {
  fe_ts : F; fe_snr : option F; fe_snr_ewma : option F; fe_mcs : Z; fe_width : Z;
  fe_reason : list (reason F); fe_residual_loss_w : F; fe_fail_class : option fail_class;
  fe_fast_path : bool; fe_loss_latency_ms : option F; fe_tap_active : bool
}.
Arguments mkFastEntry {F}.

Inductive flight_entry (F : Type) := Tick_entry (e : TickEntry F) | Fast_entry (e : FastEntry F).
Arguments Tick_entry {F} e.
Arguments Fast_entry {F} e.

(** What an operation of the policy hands to its surroundings. *)
Record Outputs (F : Type) := mkOut {
  o_decision : option (Decision F);
  o_flight : list (flight_entry F);
  o_files : list (string * json F)
}.
Arguments mkOut {F}.
Arguments o_decision {F} _.
Arguments o_flight {F} _.
Arguments o_files {F} _.

(* ------------------------------------------------------------------ *)
(** ** The selector *)

Section Ops.
Context {F : Type} {PF : PyFloat F}.
Implicit Types (cfg : SelectorConfig F) (s : LeadingSelector F) (i : SelIn F) (p : Policy F).

Definition PROBE_DIRTY_PER : F := flit 10 100.
Definition PROBE_CLEAN_PER : F := flit 2 100.

(** The dataclass defaults. *)
Definition default_selcfg : SelectorConfig F := mkSelCfg
  (flit 5 100) (flit 80 100) 7 2000 200 5 3 2 (flit 10 10) (flit 15 10)
  2000 (flit 20 10) 10000 30 30 (flit (-5) 100) 10000 (flit 40 10) (flit 30 10) 60000 (flit 30 10) 60000.

Definition cap_mcs cfg : Z := max_mcs cfg.

(** [LeadingSelector.__init__]. *)
Definition selector_init cfg : res (LeadingSelector F) :=
  let cap := cap_mcs cfg in
  raise_if (cap <? 0) (ValueError "max_mcs excludes every MCS") ;;;
  let start_mcs := if 1 >? cap then cap else 1 in
  Ok (mkSel start_mcs (fofZ (-1000000000)) (fofZ (-1000000000)) [] 0 ∅ ∅ ∅ ∅ [] None false None (fofZ 0) ∅ ∅ None None).

Definition _emergency_active cfg (fec_pressure : F) (link_starved : bool) : bool :=
  (fec_pressure >=f emergency_fec_pressure cfg) || link_starved.

Definition _flap_backoff_ms cfg (level : Z) : res Z :=
  let* ms := int_of_float (fofZ (flap_base_backoff_ms cfg)
                           *f fpow (flap_backoff_mult cfg) (fofZ (Z.min (level - 1) 40))) in
  Ok (Z.min ms (flap_backoff_cap_ms cfg)).

Definition _effective_flap_level cfg s (rung : Z) (ts_ms : F) : res Z :=
  let lvl := default 0 (flap_level s !! rung) in
  match last_flap_ms s !! rung with
  | Some last =>
      if negb (lvl =? 0) && (flap_decay_ms cfg >? 0) then
        let* quiet := int_of_float ((ts_ms -f last) /f fofZ (flap_decay_ms cfg)) in
        Ok (Z.max 0 (lvl - quiet))
      else Ok lvl
  | None => Ok lvl
  end.

Definition _charge_flap cfg s (rung : Z) (snr_ewma : option F) (ts_ms : F) : res (LeadingSelector F) :=
  let* eff := _effective_flap_level cfg s rung ts_ms in
  let lvl := eff + 1 in
  let* backoff := _flap_backoff_ms cfg lvl in
  Ok (s <| flap_level ::= <[rung := lvl]> |>
        <| last_flap_ms ::= <[rung := ts_ms]> |>
        <| suppress_until_ms ::= <[rung := ts_ms +f fofZ backoff]> |>
        <| snr_at_last_flap ::= (fun m => match snr_ewma with Some v => <[rung := v]> m | None => m end) |>).

(** [min(self._snr_w_recent) >= bar] on a full window. *)
Definition raw_min_clears s (bar : F) : bool :=
  (length (snr_w_recent s) =? RAW_MIN_RELEASE_WINDOW_TICKS)%nat &&
  match snr_w_recent s with [] => false | x :: l => fmin_list x l >=f bar end.

(** Whether the damper holds [rung], and the release channel it stamps. *)
Definition _suppressed cfg s (rung : Z) (ts_ms : F) (probe_release : bool) : LeadingSelector F * bool :=
  let until := default (fofZ 0) (suppress_until_ms s !! rung) in
  if ts_ms >=f until then
    (if ftruthy until then s <| last_release := Some RelTimer |> else s, false)
  else if probe_release then (s <| last_release := Some RelProbe |>, false)
  else match snr_at_last_flap s !! rung with
       | Some laf =>
           if raw_min_clears s (laf +f flap_snr_release_db cfg)
           then (s <| last_release := Some RelRawMin |>, false)
           else (s, true)
       | None => (s, true)
       end.

(** On probation: the rung entered by the last promote, inside its window. *)
Definition on_trial s (rung : Z) (ts_ms : F) : bool :=
  bool_decide (trial_rung s = Some rung) && (ts_ms <f trial_until_ms s).

Definition _classify cfg s (rung : Z) (snr_ewma snr_w : option F) (ts_ms : F) : fail_class :=
  match snr_ewma, snr_w with
  | Some e, Some w => if w <=f e -f collapse_delta_db cfg then Fade
                      else if on_trial s rung ts_ms then Flap else Burst
  | _, _ => if on_trial s rung ts_ms then Flap else Burst
  end.

(** The loop of [_snapback_target]; a rung without a recorded SNR raises. *)
Fixpoint snapback_scan cfg s (snr_ewma ts_ms : F) (best : option Z) (items : list (Z * F)) : res (option Z) :=
  match items with
  | [] => Ok best
  | (r, until) :: items' =>
      if (until <f ts_ms) || (r >? cap_mcs cfg) then snapback_scan cfg s snr_ewma ts_ms best items'
      else match confirmed_snr s !! r with
           | None => Err (KeyError (pretty r))
           | Some c =>
               let best' :=
                 if snr_ewma >=f c -f snapback_recover_margin_db cfg then
                   match best with
                   | None => Some r
                   | Some b => if r >? b then Some r else best
                   end
                 else best in
               snapback_scan cfg s snr_ewma ts_ms best' items'
           end
  end.

Definition _snapback_target cfg s (snr_ewma ts_ms : F) : res (option Z) :=
  snapback_scan cfg s snr_ewma ts_ms None (map_to_list (confirmed_until_ms s)).

Definition clamp cfg (mcs : Z) : Z := Z.max 0 (Z.min mcs (cap_mcs cfg)).

Definition external_demote cfg s (tgt : Z) (ts_ms : F) : LeadingSelector F :=
  let tgt := clamp cfg tgt in
  if tgt =? current_mcs s then s
  else s <| current_mcs := tgt |> <| last_change_time_ms := ts_ms |>
         <| last_mcs_change_time_ms := ts_ms |> <| clean_dwell := 0 |> <| trial_rung := None |>.

(** The closure [commit] of [select]. *)
Definition commit cfg s (new_mcs : Z) (why : reason F) (ts_ms : F) : LeadingSelector F :=
  let new_mcs := clamp cfg new_mcs in
  if new_mcs =? current_mcs s then s
  else s <| current_mcs := new_mcs |> <| last_change_time_ms := ts_ms |>
         <| last_mcs_change_time_ms := ts_ms |> <| clean_dwell := 0 |>
         <| reasons ::= (fun l => l ++ [why]) |>.

(** *** select, phase by phase *)

(** The per-call resets and the raw-SNR window. *)
Definition select_begin s i : LeadingSelector F :=
  s <| last_fail := None |> <| snapback_tgt := None |> <| last_release := None |> <| reasons := [] |>
    <| snr_w_recent ::= (fun q => match si_snr_w i with
                                  | Some w => deque_push RAW_MIN_RELEASE_WINDOW_TICKS q w
                                  | None => q
                                  end) |>.

(** A classified loss demote. *)
Definition demote_on_loss cfg s i : res (LeadingSelector F) :=
  let prev := current_mcs s in
  let ts_ms := si_ts_ms i in
  let trial := on_trial s prev ts_ms in
  let klass := _classify cfg s prev (si_snr_ewma i) (si_snr_w i) ts_ms in
  let s1 := commit cfg s (prev - 1) (R_video_per_demote (si_loss_rate i) klass) ts_ms in
  if current_mcs s1 =? prev then Ok s1
  else
    let s2 := match klass, si_snr_w i, si_snr_ewma i with
              | Fade, Some w, _ => s1 <| last_fail := Some (prev, Fade, w) |>
              | Flap, _, Some e => s1 <| last_fail := Some (prev, Flap, e) |>
              | _, _, _ => s1
              end in
    if trial then _charge_flap cfg s2 prev (si_snr_ewma i) ts_ms else Ok s2.

(** The dirty branch of [select]. *)
Definition select_demote cfg s i : res (LeadingSelector F) :=
  let prev := current_mcs s in
  let* s1 :=
    if si_can_demote i then
      if si_loss_demote i then demote_on_loss cfg s i
      else Ok (commit cfg s (prev - 1) (R_emergency (si_fec_pressure i) (si_link_starved i)) (si_ts_ms i))
    else Ok s in
  let s2 := if current_mcs s1 =? prev then s1 else s1 <| trial_rung := None |> in
  Ok (s2 <| clean_dwell := 0 |>).

(** Damper clear after a long clean dwell. *)
Definition clear_damper cfg s : LeadingSelector F :=
  let cur := current_mcs s in
  if clean_dwell s >=? flap_reset_clean_dwell_ticks cfg then
    s <| flap_level ::= delete cur |> <| suppress_until_ms ::= delete cur |>
      <| snr_at_last_flap ::= delete cur |> <| last_flap_ms ::= delete cur |>
  else s.

(** High-water confirmation of the current rung. *)
Definition confirm cfg s (snr_ewma : option F) (ts_ms : F) : LeadingSelector F :=
  let cur := current_mcs s in
  match snr_ewma with
  | Some e =>
      if clean_dwell s >=? promote_dwell_ticks cfg then
        let fresh := default (fofZ 0) (confirmed_until_ms s !! cur) >=f ts_ms in
        let level := match confirmed_snr s !! cur with
                     | Some prev_conf => if fresh then fmax prev_conf e else e
                     | None => e
                     end in
        s <| confirmed_until_ms ::= <[cur := ts_ms +f fofZ (confirm_ttl_ms cfg)]> |>
          <| confirmed_snr ::= <[cur := level]> |>
      else s
  | None => s
  end.

(** Clean-tick bookkeeping: dwell, damper clear, confirmation, probation end. *)
Definition select_clean cfg s i : LeadingSelector F :=
  let s1 := s <| clean_dwell ::= Z.succ |> in
  let s2 := confirm cfg (clear_damper cfg s1) (si_snr_ewma i) (si_ts_ms i) in
  match trial_rung s2 with
  | Some _ => if si_ts_ms i >=f trial_until_ms s2 then s2 <| trial_rung := None |> else s2
  | None => s2
  end.

(** The three promote routes; [target] is one above the current rung. *)
Definition promote_route cfg s i (snr_ewma slope : F) : res (LeadingSelector F) :=
  let cur := current_mcs s in
  let target := cur + 1 in
  let ts_ms := si_ts_ms i in
  let within_hold := (ts_ms -f last_change_time_ms s) <f fofZ (hold_modes_down_ms cfg) in
  let* sb := _snapback_target cfg s snr_ewma ts_ms in
  let s1 := s <| snapback_tgt := sb |> in
  let snapback := match sb with
                  | Some r => (r >? cur) && (slope >=f fofZ 0) && negb (si_target_blocked i)
                  | None => false
                  end in
  Ok (if snapback then commit cfg s1 target (R_snapback_promote (default 0 sb)) ts_ms
      else if negb within_hold && (clean_dwell s1 >=? promote_dwell_ticks cfg)
              && (slope >=f promote_slope_min cfg) then
        if si_target_confident i && negb (si_target_blocked i) then commit cfg s1 target R_knee_promote ts_ms
        else if negb (si_target_confident i) then commit cfg s1 target R_explore_promote ts_ms
        else s1
      else s1).

Definition select_promote cfg s i : res (LeadingSelector F) :=
  let cur := current_mcs s in
  let target := cur + 1 in
  let ts_ms := si_ts_ms i in
  match si_snr_ewma i with
  | None => Ok (s <| promote_suppressed := false |>)
  | Some snr_ewma =>
      if target >? cap_mcs cfg then Ok (s <| promote_suppressed := false |>)
      else
        let '(s1, held) := _suppressed cfg s target ts_ms (si_probe_release i) in
        let s2 := s1 <| promote_suppressed := held |> in
        let within_rate := (ts_ms -f last_change_time_ms s2) <f fofZ (min_between_changes_ms cfg) in
        let slope := default (fofZ 0) (si_slope i) in
        let* s3 := if negb within_rate && negb held && negb (si_probe_veto i)
                   then promote_route cfg s2 i snr_ewma slope else Ok s2 in
        Ok (if current_mcs s3 >? cur
            then s3 <| trial_rung := Some (current_mcs s3) |>
                    <| trial_until_ms := ts_ms +f fofZ (trial_window_ms cfg) |>
            else s3)
  end.

(** [select]: the new state with the rung and whether it changed. *)
Definition select cfg s i : res (LeadingSelector F * (Z * bool)) :=
  let prev := current_mcs s in
  let s0 := select_begin s i in
  let* s' := if si_loss_demote i || _emergency_active cfg (si_fec_pressure i) (si_link_starved i)
             then select_demote cfg s0 i
             else select_promote cfg (select_clean cfg s0 i) i in
  Ok (s', (current_mcs s', negb (current_mcs s' =? prev))).

(* ------------------------------------------------------------------ *)
(** ** The policy *)

Implicit Types (pc : PolicyConfig F) (sig : Signals F).

Definition policy_init pc (read : string -> file_read F) (profile : string) : res (Policy F) :=
  let* lead := selector_init (pc_selector pc) in
  let* lp := lp_init (pc_prior pc) read profile in
  raise_if (predictive_slope_window_ticks (pc_prior pc) <? 0) (ValueError "maxlen must be non-negative") ;;;
  Ok (mkPolicy profile lead 0 0 None lp [] 0 0 (demote_cooldown_windows (pc_selector pc)) 0 None).

(** [signals.timestamp * 1000.0 if signals.timestamp else 0.0]. *)
Definition ts_ms_of sig : F :=
  if ftruthy (timestamp sig) then timestamp sig *f fofZ 1000 else fofZ 0.

Definition cooldown_ok pc p : bool := windows_since_demote p >=? demote_cooldown_windows (pc_selector pc).

(** Cooldown and starvation counters. *)
Definition tick_counters p sig : Policy F :=
  p <| windows_since_demote ::= Z.succ |>
    <| starvation_count ::= (fun n => if link_starved_w sig then n + 1 else 0) |>.

Definition sustained_starved pc p : bool := starvation_count p >=? starvation_windows (pc_selector pc).
Definition sustained_loss pc sig : bool := residual_loss_w sig >=f video_demote_per (pc_selector pc).

(** The slope window takes this tick's SNR. *)
Definition tick_slope pc p sig : Policy F * option F :=
  match snr sig with
  | None => (p, None)
  | Some v =>
      let p1 := p <| snr_window ::= (fun q =>
                  deque_push (Z.to_nat (predictive_slope_window_ticks (pc_prior pc))) q v) |> in
      (p1, Some (lsq_slope (snr_window p1)))
  end.

(** Predictive demote; [ok] is the tick's cooldown verdict.  The last component
    is [predict_gated]. *)
Definition tick_predict pc p sig (slope : option F) (ok : bool) : Policy F * list (reason F) * bool :=
  let lc := pc_prior pc in
  match snr sig, slope with
  | Some v, Some sl =>
      let cur := current_mcs (leading p) in
      let projected_drop := fopp sl *f fofZ (predictive_horizon_ticks lc) in
      if snr_predictive_rung_unviable lc (learned_prior p) (Some v) sl (Some cur)
           (predictive_demote_margin_db lc) then
        if projected_drop >=f predictive_min_drop_db lc then
          let p1 := p <| predict_demote_count ::= Z.succ |> in
          if (predict_demote_count p1 >=? predictive_debounce_windows lc) && ok then
            let tgt := Z.max (cur - 1) 0 in
            if tgt <? cur then
              (p1 <| leading ::= (fun l => external_demote (pc_selector pc) l tgt (ts_ms_of sig)) |>,
               [R_predict_demote cur tgt], false)
            else (p1, [], false)
          else (p1, [], false)
        else (p <| predict_demote_count := 0 |>, [], true)
      else (p <| predict_demote_count := 0 |>, [], false)
  | _, _ => (p, [], false)
  end.

(** Proactive SNR demote; [start_mcs] is the rung the tick began at. *)
Definition tick_snr_demote pc p sig (ok : bool) (start_mcs : Z) : Policy F * list (reason F) :=
  let cur := current_mcs (leading p) in
  if snr_rung_unviable (pc_prior pc) (learned_prior p) (Some cur) (snr sig)
       (snr_demote_margin_db (pc_selector pc)) then
    let p1 := p <| snr_demote_count ::= Z.succ |> in
    if (snr_demote_count p1 >=? snr_demote_debounce (pc_selector pc)) && ok && (cur =? start_mcs) then
      let tgt := Z.max (cur - 1) 0 in
      if tgt <? cur then
        (p1 <| leading ::= (fun l => external_demote (pc_selector pc) l tgt (ts_ms_of sig)) |>,
         [R_snr_demote cur tgt])
      else (p1, [])
    else (p1, [])
  else (p <| snr_demote_count := 0 |>, []).

(** The knee gates of the promote target. *)
Definition promote_blocked pc p sig : bool :=
  snr_rung_unviable (pc_prior pc) (learned_prior p) (Some (current_mcs (leading p) + 1)) (snr sig)
    (fopp (snr_promote_margin_db (pc_selector pc))).
Definition target_confident pc p : bool :=
  snr_rung_confident (pc_prior pc) (learned_prior p) (Some (current_mcs (leading p) + 1)).

(** The probe's reading of the promote target. *)
Definition probe_at sig (mcs : Z) : option (ProbeReading F) := probe sig ≫= (fun d => d !! mcs).
Definition probe_per_of sig (mcs : Z) : option F := probe_at sig mcs ≫= pr_per.
Definition probe_fresh_of sig (mcs : Z) : bool :=
  match probe_at sig mcs with Some v => pr_fresh v | None => false end.
Definition probe_veto_of sig (mcs : Z) : bool :=
  probe_fresh_of sig mcs &&
  match probe_per_of sig mcs with Some per => per >=f PROBE_DIRTY_PER | None => false end.

Definition tick_probe p sig : Policy F :=
  let target := current_mcs (leading p) + 1 in
  let p1 := if bool_decide (probe_clean_rung p = Some target) then p
            else p <| probe_clean_ticks := 0 |> <| probe_clean_rung := Some target |> in
  if probe_fresh_of sig target &&
     match probe_per_of sig target with Some per => per <=f PROBE_CLEAN_PER | None => false end
  then p1 <| probe_clean_ticks ::= Z.succ |>
  else p1 <| probe_clean_ticks := 0 |>.

(** The arguments the tick passes to [select]. *)
Definition tick_sel_in pc p sig (slope : option F) (ok : bool) (start_mcs : Z) : SelIn F :=
  mkSelIn (snr sig) (snr_w sig) slope (residual_loss_w sig) (sustained_loss pc sig)
    (target_confident pc p) (promote_blocked pc p sig) (fec_work sig) (sustained_starved pc p)
    (ok && (current_mcs (leading p) =? start_mcs)) (ts_ms_of sig)
    (probe_veto_of sig (current_mcs (leading p) + 1))
    (probe_clean_ticks p >=? PROBE_CLEAN_RELEASE_TICKS).

(** Teaching a classified failure to the prior. *)
Definition teach_fail pc p : Policy F * list (string * json F) :=
  match last_fail (leading p) with
  | Some (rung, _, v) =>
      let '(lp, w) := teach_failure (pc_prior pc) (learned_prior p) (Some rung) (Some v) in
      (p <| learned_prior := lp |>, w)
  | None => (p, [])
  end.

(** Clean-side learning, once the rung has settled. *)
Definition tick_learn pc p sig (new_mcs : Z) : Policy F * bool * list (string * json F) :=
  let p1 := p <| ticks_at_mcs ::= (fun n => if bool_decide (last_ingest_mcs p = Some new_mcs) then n + 1 else 0) |>
              <| last_ingest_mcs := Some new_mcs |> in
  let settled := ticks_at_mcs p1 >=? settle_ticks (pc_prior pc) in
  let clean := residual_loss_w sig <f viable_loss (pc_prior pc) in
  let learn := is_some (snr sig) && settled && clean in
  if learn then
    let '(lp, w) := ingest (pc_prior pc) (learned_prior p1) (snr sig) (Some new_mcs) true true in
    (p1 <| learned_prior := lp |>, learn, w)
  else (p1, learn, []).

(** The state in which [tick] calls [select], the values it passes on, and the
    reasons the Policy-level demotes gave. *)
Definition tick_prepare pc p sig : Policy F * option F * list (reason F) * bool :=
  let p1 := tick_counters p sig in
  let ok := cooldown_ok pc p1 in
  let start_mcs := current_mcs (leading p) in
  let '(p2, slope) := tick_slope pc p1 sig in
  let '(p3, r1, gated) := tick_predict pc p2 sig slope ok in
  let '(p4, r2) := tick_snr_demote pc p3 sig ok start_mcs in
  (tick_probe p4 sig, slope, r1 ++ r2, gated).

Definition tick pc p sig : res (Policy F * Outputs F) :=
  let start_mcs := current_mcs (leading p) in
  let '(p5, slope, pre_reasons, predict_gated) := tick_prepare pc p sig in
  let ok := cooldown_ok pc p5 in
  let starved := sustained_starved pc p5 in
  let blocked := promote_blocked pc p5 sig in
  let target := current_mcs (leading p5) + 1 in
  let* (lead, (new_mcs, _)) := select (pc_selector pc) (leading p5) (tick_sel_in pc p5 sig slope ok start_mcs) in
  let p6 := p5 <| leading := lead |>
               <| windows_since_demote ::= (fun n => if new_mcs <? start_mcs then 0 else n) |> in
  let '(p7, w1) := teach_fail pc p6 in
  let '(p8, learn, w2) := tick_learn pc p7 sig new_mcs in
  let why := pre_reasons ++ reasons lead in
  let fail := match last_fail lead with Some (_, c, _) => Some c | None => None end in
  let entry := mkTickEntry (timestamp sig) (rssi sig) (rssi_raw sig) (snr_w sig) (snr sig)
    blocked (promote_suppressed lead) (default 0 (flap_level lead !! (current_mcs lead + 1)))
    (knees_snapshot (lp_model (learned_prior p8))) (evm_w sig) (evm_lo_w sig) (evm_min_w sig)
    new_mcs (link_width pc) why (residual_loss_w sig) (fec_work sig) starved fail (trial_rung lead)
    (snapback_tgt lead) (clean_dwell lead) learn slope predict_gated (tap_active sig) (last_release lead)
    (probe_per_of sig target) (probe_fresh_of sig target) (probe_veto_of sig target) in
  let dec := mkDecision (timestamp sig) new_mcs why
    (mkSnapshot (Some (rssi sig)) (Some (rssi_raw sig)) (residual_loss_w sig) (fec_work sig) (Some starved) new_mcs) in
  Ok (p8, mkOut (Some dec) [Tick_entry entry] (w1 ++ w2)).

(** The arguments the fast path passes to [select]. *)
Definition loss_sel_in sig : SelIn F :=
  mkSelIn (snr sig) (snr_w sig) None (residual_loss_w sig) true false false (fec_work sig) false true
    (ts_ms_of sig) false false.

Definition loss_event pc p sig (latency_ms : option F) : res (Policy F * Outputs F) :=
  if residual_loss_w sig <f video_demote_per (pc_selector pc) then Ok (p, mkOut None [] [])
  else if windows_since_demote p <? demote_cooldown_windows (pc_selector pc) then Ok (p, mkOut None [] [])
  else
    let start_mcs := current_mcs (leading p) in
    let* (lead, (new_mcs, changed)) := select (pc_selector pc) (leading p) (loss_sel_in sig) in
    let p1 := p <| leading := lead |> in
    if negb changed || (new_mcs >=? start_mcs) then Ok (p1, mkOut None [] [])
    else
      let '(p2, w) := teach_fail pc (p1 <| windows_since_demote := 0 |>) in
      let why := reasons lead ++ [R_fast] in
      let fail := match last_fail lead with Some (_, c, _) => Some c | None => None end in
      let entry := mkFastEntry (timestamp sig) (snr_w sig) (snr sig) new_mcs (link_width pc) why
        (residual_loss_w sig) fail true latency_ms true in
      let dec := mkDecision (timestamp sig) new_mcs why
        (mkSnapshot None None (residual_loss_w sig) (fec_work sig) None new_mcs) in
      Ok (p2, mkOut (Some dec) [Fast_entry entry] w).

Definition prior_key (adapter_id : string) (width : Z) : string := adapter_id +:+ "__bw" +:+ pretty width.

Definition bind_learned_prior pc (read : string -> file_read F) p (adapter_id : string) (width : Z)
    : res (Policy F) :=
  let key := prior_key adapter_id width in
  if String.eqb (lp_key (learned_prior p)) key then Ok p
  else let* lp := lp_init (pc_prior pc) read key in
       Ok (p <| profile_name := adapter_id |> <| learned_prior := lp |>).

Definition reset_for_new_session pc p : res (Policy F) :=
  let* lead := selector_init (pc_selector pc) in
  Ok (p <| leading := lead |> <| starvation_count := 0 |> <| ticks_at_mcs := 0 |>
        <| last_ingest_mcs := None |> <| predict_demote_count := 0 |> <| snr_demote_count := 0 |>
        <| windows_since_demote := demote_cooldown_windows (pc_selector pc) |>
        <| probe_clean_ticks := 0 |> <| probe_clean_rung := None |> <| snr_window := [] |>).

(** [close]: the prior's last flush; the flight log closes itself. *)
Definition close pc p : list (string * json F) := flush (pc_prior pc) (learned_prior p).
End Ops.
