(* ===== verification/PolicyFacts.v ===== *)
(** * The MCS policy: theorems

    The selector and the policy of [Policy], for every float arithmetic: the
    rung stays in range and moves one step at a time, promotes pass every gate,
    demotes respect the shared cooldown, the fast path only ever demotes, and
    the bookkeeping invariants that keep the code free of lookup errors. *)
From Stdlib Require Import ZArith Lia Bool String.
From stdpp Require Import base tactics list gmap strings relations.
From S2P Require Import Prelude PyStr Json StatsClient Signals LearnedPrior Decision Policy.
Open Scope Z_scope.

Section Selector.
Context {F : Type} {PF : PyFloat F}.
Implicit Types (cfg : SelectorConfig F) (s : LeadingSelector F) (i : SelIn F).

Lemma clamp_range cfg m : 0 <= cap_mcs cfg -> 0 <= clamp cfg m <= cap_mcs cfg.
Proof. unfold clamp. lia. Qed.

Lemma commit_mcs cfg s m why ts : current_mcs (commit cfg s m why ts) = clamp cfg m.
Proof. unfold commit. destruct (_ =? _) eqn:E; [by apply Z.eqb_eq in E|done]. Qed.

Lemma external_demote_mcs cfg s m ts : current_mcs (external_demote cfg s m ts) = clamp cfg m.
Proof. unfold external_demote. destruct (_ =? _) eqn:E; [by apply Z.eqb_eq in E|done]. Qed.

Lemma charge_flap_mcs cfg s r e ts s' : _charge_flap cfg s r e ts = Ok s' -> current_mcs s' = current_mcs s.
Proof. unfold _charge_flap. intros (eff & _ & (b & _ & [= <-])%rbind_ok)%rbind_ok. done. Qed.

Lemma suppressed_mcs cfg s r ts pr :
  current_mcs (_suppressed cfg s r ts pr).1 = current_mcs s /\
  last_change_time_ms (_suppressed cfg s r ts pr).1 = last_change_time_ms s.
Proof. unfold _suppressed. by repeat case_match. Qed.

Lemma clear_damper_mcs cfg s : current_mcs (clear_damper cfg s) = current_mcs s.
Proof. unfold clear_damper. by case_match. Qed.

Lemma confirm_mcs cfg s e ts : current_mcs (confirm cfg s e ts) = current_mcs s.
Proof. unfold confirm. by repeat case_match. Qed.

Lemma select_clean_mcs cfg s i : current_mcs (select_clean cfg s i) = current_mcs s.
Proof.
  unfold select_clean. repeat case_match; cbn; etrans; try apply confirm_mcs; by rewrite clear_damper_mcs.
Qed.

Lemma demote_on_loss_mcs cfg s i s' :
  demote_on_loss cfg s i = Ok s' -> current_mcs s' = clamp cfg (current_mcs s - 1).
Proof.
  unfold demote_on_loss. set (s1 := commit _ _ _ _ _).
  assert (H1 : current_mcs s1 = clamp cfg (current_mcs s - 1)) by apply commit_mcs.
  destruct (_ =? _); [by intros [= <-]|].
  set (s2 := match _classify _ _ _ _ _ _ with Fade => _ | _ => _ end).
  assert (H2 : current_mcs s2 = current_mcs s1) by (subst s2; by repeat case_match).
  destruct (on_trial _ _ _); [|by intros [= <-]; rewrite H2].
  intros ->%charge_flap_mcs. by rewrite H2.
Qed.

Lemma select_demote_mcs cfg s i s' :
  select_demote cfg s i = Ok s' ->
  current_mcs s' = if si_can_demote i then clamp cfg (current_mcs s - 1) else current_mcs s.
Proof.
  unfold select_demote. intros (s1 & H & [= <-])%rbind_ok.
  trans (current_mcs s1); [by destruct (current_mcs s1 =? _)|].
  destruct (si_can_demote i); [|by injection H as <-].
  destruct (si_loss_demote i); [by eapply demote_on_loss_mcs|].
  injection H as <-. apply commit_mcs.
Qed.

(** *** Promotes *)

(** The time since the last change is at least [ms]. *)
Definition since_change s (ts_ms : F) (ms : Z) : bool :=
  negb ((ts_ms -f last_change_time_ms s) <f fofZ ms).

(** The snap-back route is open: a live confirmed rung above the current one
    whose SNR is nearly back, the SNR not falling, the knee not objecting. *)
Definition route_snapback cfg s i (e : F) : Prop :=
  exists r, _snapback_target cfg s e (si_ts_ms i) = Ok (Some r) /\ current_mcs s < r /\
  (default (fofZ 0) (si_slope i) >=f fofZ 0) = true /\ si_target_blocked i = false.

(** The climbing routes are open: hold and dwell served, the SNR not falling,
    and the knee either cold or with headroom. *)
Definition route_climb cfg s i : Prop :=
  since_change s (si_ts_ms i) (hold_modes_down_ms cfg) = true /\
  promote_dwell_ticks cfg <= clean_dwell s /\
  (default (fofZ 0) (si_slope i) >=f promote_slope_min cfg) = true /\
  (si_target_confident i = false \/ si_target_blocked i = false).

Definition dirty cfg i : bool :=
  si_loss_demote i || _emergency_active cfg (si_fec_pressure i) (si_link_starved i).

(** What a promote from [s], the state after the clean-tick bookkeeping, needs. *)
Definition promote_gates cfg s i : Prop :=
  current_mcs s < cap_mcs cfg /\ si_probe_veto i = false /\
  since_change s (si_ts_ms i) (min_between_changes_ms cfg) = true /\
  (_suppressed cfg s (current_mcs s + 1) (si_ts_ms i) (si_probe_release i)).2 = false /\
  exists e, si_snr_ewma i = Some e /\ (route_snapback cfg s i e \/ route_climb cfg s i).

Lemma snapback_scan_dep cfg s s' e ts b l :
  confirmed_snr s = confirmed_snr s' -> snapback_scan cfg s e ts b l = snapback_scan cfg s' e ts b l.
Proof.
  intros H. revert b. induction l as [|[r u] l IH]; intros b; simpl; [done|].
  rewrite H. repeat case_match; done || apply IH.
Qed.

Lemma suppressed_maps cfg s r ts pr :
  let s' := (_suppressed cfg s r ts pr).1 in
  confirmed_snr s' = confirmed_snr s /\ confirmed_until_ms s' = confirmed_until_ms s /\
  clean_dwell s' = clean_dwell s.
Proof. unfold _suppressed. by repeat case_match. Qed.

Lemma promote_route_cases cfg s i e s' :
  promote_route cfg s i e (default (fofZ 0) (si_slope i)) = Ok s' ->
  current_mcs s' = current_mcs s \/
  (current_mcs s' = clamp cfg (current_mcs s + 1) /\ (route_snapback cfg s i e \/ route_climb cfg s i)).
Proof.
  unfold promote_route. intros (sb & Hsb & H)%rbind_ok.
  set (s1 := s <| snapback_tgt := sb |>) in *.
  set (slope := default (fofZ 0) (si_slope i)) in *.
  match type of H with Ok (if ?b then _ else _) = _ => destruct b eqn:Eb end.
  - injection H as <-. right. rewrite commit_mcs. split; [done|]. left.
    destruct sb as [r|]; [|done]. breflect. exists r. by repeat split.
  - destruct (negb _ && _ && _) eqn:E2; [|injection H as <-; by left].
    apply andb_true_iff in E2 as [[E2 E3]%andb_true_iff E4].
    apply Z.geb_le in E3.
    destruct (si_target_confident i) eqn:Ec, (si_target_blocked i) eqn:Ebl; cbn in H; injection H as <-;
      first [by left | right; rewrite commit_mcs; split; [done|]; right; unfold route_climb; rewrite Ec, Ebl; auto].
Qed.

Lemma select_promote_cases cfg s i s' :
  select_promote cfg s i = Ok s' -> 0 <= current_mcs s ->
  current_mcs s' = current_mcs s \/ (current_mcs s' = current_mcs s + 1 /\ promote_gates cfg s i).
Proof.
  intros H Hr. unfold select_promote in H. destruct (si_snr_ewma i) as [e|] eqn:Ee; [|injection H as <-; by left].
  destruct (_ >? _) eqn:Ecap; [injection H as <-; by left|]. rewrite Z.gtb_ltb, Z.ltb_ge in Ecap.
  destruct (suppressed_mcs cfg s (current_mcs s + 1) (si_ts_ms i) (si_probe_release i)) as [Hm Hl].
  destruct (suppressed_maps cfg s (current_mcs s + 1) (si_ts_ms i) (si_probe_release i)) as (Hc & Hu & Hd).
  destruct (_suppressed _ _ _ _ _) as [s1 held] eqn:Es. cbn [fst] in *.
  apply rbind_ok in H as (s3 & H3 & [= <-]).
  assert (Hs3 : current_mcs (if current_mcs s3 >? current_mcs s then
            s3 <| trial_rung := Some (current_mcs s3) |> <| trial_until_ms := si_ts_ms i +f fofZ (trial_window_ms cfg) |>
            else s3) = current_mcs s3) by (by destruct (current_mcs s3 >? current_mcs s)).
  rewrite Hs3. clear Hs3.
  destruct (negb _ && _ && _) eqn:Eg; [|injection H3 as <-; by left].
  apply andb_true_iff in Eg as [[E1 E2]%andb_true_iff E3].
  rewrite negb_true_iff in E2, E3. subst held.
  apply promote_route_cases in H3 as [H3|[H3 Hroute]]; [left; by rewrite H3|right].
  unfold promote_gates. rewrite H3, Es. cbn [snd]. change (current_mcs (s1 <| promote_suppressed := false |>)) with (current_mcs s1).
  rewrite Hm. unfold clamp. split; [lia|]. split; [lia|]. split; [done|].
  split; [unfold since_change; by rewrite <- Hl|]. split; [done|]. exists e. split; [done|].
  destruct Hroute as [(r & Hr1 & Hr2 & Hr3)|(Hr1 & Hr2 & Hr3)]; [left|right].
  - exists r. split; [|split; [|done]]; [|by rewrite <- Hm].
    rewrite <- Hr1. unfold _snapback_target. 
    change (confirmed_until_ms (s1 <| promote_suppressed := false |>)) with (confirmed_until_ms s1).
    rewrite Hu. apply snapback_scan_dep. by rewrite <- Hc.
  - unfold route_climb. rewrite <- Hd. split; [unfold since_change; by rewrite <- Hl|]. done.
Qed.

Definition sel_ok cfg s : Prop := 0 <= current_mcs s <= cap_mcs cfg.

(** The state the promote routes see. *)
Definition after_clean cfg s i : LeadingSelector F := select_clean cfg (select_begin s i) i.

Lemma after_clean_mcs cfg s i : current_mcs (after_clean cfg s i) = current_mcs s.
Proof. etrans; [apply select_clean_mcs|done]. Qed.

Lemma select_cases cfg s i s' m ch :
  select cfg s i = Ok (s', (m, ch)) -> sel_ok cfg s ->
  m = current_mcs s' /\ ch = negb (m =? current_mcs s) /\
  (m = current_mcs s \/
   (m = current_mcs s - 1 /\ dirty cfg i = true /\ si_can_demote i = true) \/
   (m = current_mcs s + 1 /\ dirty cfg i = false /\ promote_gates cfg (after_clean cfg s i) i)).
Proof.
  unfold select, sel_ok. intros (s1 & H & [= <- <- <-])%rbind_ok Hok. split; [done|]. split; [done|].
  fold (dirty cfg i) in H. destruct (dirty cfg i) eqn:Ed.
  - apply select_demote_mcs in H. change (current_mcs (select_begin s i)) with (current_mcs s) in H.
    rewrite H. destruct (si_can_demote i); [|by left]. unfold clamp.
    destruct (Z.eq_dec (current_mcs s) 0); [left; lia|right; left; lia].
  - fold (after_clean cfg s i) in H.
    assert (Hm := after_clean_mcs cfg s i).
    apply select_promote_cases in H as [H|[H Hg]]; [left|right; right|]; rewrite ?H, ?Hm; auto; lia.
Qed.

Lemma select_sel_ok cfg s i s' m ch :
  select cfg s i = Ok (s', (m, ch)) -> sel_ok cfg s -> sel_ok cfg s'.
Proof.
  intros H Hok. destruct (select_cases _ _ _ _ _ _ H Hok) as (-> & _ & [Hm|[(Hm & Hd & Hc)|(Hm & _ & Hg & _)]]);
    unfold sel_ok in *; rewrite Hm; [done| |].
  - unfold select in H. apply rbind_ok in H as (s1 & H & [= <- _ _]).
    fold (dirty cfg i) in H. rewrite Hd in H. apply select_demote_mcs in H. rewrite Hc in H.
    change (current_mcs (select_begin s i)) with (current_mcs s) in H. unfold clamp in H. lia.
  - rewrite after_clean_mcs in Hg. lia.
Qed.

Lemma selector_init_ok cfg s : selector_init cfg = Ok s -> sel_ok cfg s.
Proof.
  unfold selector_init, raise_if. destruct (_ <? 0) eqn:E; cbn [rbind]; [done|]. intros [= <-]. breflect.
  unfold sel_ok. cbn. destruct (_ >? _) eqn:E2; breflect; lia.
Qed.

Lemma external_demote_ok cfg s m ts : sel_ok cfg s -> sel_ok cfg (external_demote cfg s m ts).
Proof. unfold sel_ok. rewrite external_demote_mcs. unfold clamp. lia. Qed.
End Selector.

(* ------------------------------------------------------------------ *)
(** ** The tick, opened up *)

Section Tick.
Context {F : Type} {PF : PyFloat F}.
Implicit Types (pc : PolicyConfig F) (p : Policy F) (sig : Signals F).

Definition mcs_of p : Z := current_mcs (leading p).
Definition pol_ok pc p : Prop := sel_ok (pc_selector pc) (leading p).

(** What the preparation of a tick keeps, and the one step down it may take. *)
Definition prepared pc (ok : bool) (ts : F) p p' : Prop :=
  windows_since_demote p' = windows_since_demote p /\ starvation_count p' = starvation_count p /\
  learned_prior p' = learned_prior p /\
  (leading p' = leading p \/
   (ok = true /\ mcs_of p' = mcs_of p - 1 /\ leading p' = external_demote (pc_selector pc) (leading p) (mcs_of p - 1) ts)).

Lemma demote_step cfg (s : LeadingSelector F) ts :
  sel_ok cfg s -> Z.max (current_mcs s - 1) 0 < current_mcs s ->
  external_demote cfg s (Z.max (current_mcs s - 1) 0) ts = external_demote cfg s (current_mcs s - 1) ts /\
  current_mcs (external_demote cfg s (current_mcs s - 1) ts) = current_mcs s - 1.
Proof.
  unfold sel_ok. intros Hok Hlt. rewrite external_demote_mcs. unfold clamp.
  replace (Z.max (current_mcs s - 1) 0) with (current_mcs s - 1) by lia. split; [done|lia].
Qed.

Lemma tick_predict_prepared pc p sig slope ok p' r g :
  pol_ok pc p -> tick_predict pc p sig slope ok = (p', r, g) -> prepared pc ok (ts_ms_of sig) p p'.
Proof.
  intros Hok H. unfold tick_predict in H. unfold prepared, mcs_of.
  destruct (snr sig) as [v|], slope as [sl|]; try (injection H as <- <- <-; by auto).
  destruct (snr_predictive_rung_unviable _ _ _ _ _ _); [|injection H as <- <- <-; by auto].
  destruct (_ <=f _); [|injection H as <- <- <-; by auto].
  destruct (_ && ok) eqn:Eo; [|injection H as <- <- <-; by auto].
  apply andb_true_iff in Eo as [_ ->].
  destruct (_ <? _) eqn:El; injection H as <- <- <-; [|by auto]. apply Z.ltb_lt in El.
  destruct (demote_step _ _ (ts_ms_of sig) Hok El) as [H1 H2].
  do 3 (split; [done|]). right. split; [done|]. cbn [leading]. 
  split; [etrans; [|exact H2]; rewrite <- H1; done|]. rewrite <- H1. done.
Qed.

Lemma tick_snr_demote_prepared pc p sig ok start p' r :
  pol_ok pc p -> tick_snr_demote pc p sig ok start = (p', r) ->
  prepared pc ok (ts_ms_of sig) p p' /\ (leading p' = leading p \/ mcs_of p = start).
Proof.
  intros Hok H. unfold tick_snr_demote in H. unfold prepared, mcs_of.
  destruct (snr_rung_unviable _ _ _ _ _); [|injection H as <- <-; by auto 6].
  destruct (_ && ok && _) eqn:Eo; [|injection H as <- <-; by auto 6].
  apply andb_true_iff in Eo as [[_ ->]%andb_true_iff Es]. apply Z.eqb_eq in Es.
  destruct (_ <? _) eqn:El; injection H as <- <-; [|by auto 6]. apply Z.ltb_lt in El.
  destruct (demote_step _ _ (ts_ms_of sig) Hok El) as [H1 H2].
  split; [|by right]. do 3 (split; [done|]). right. split; [done|]. 
  split; [etrans; [|exact H2]; rewrite <- H1; done|]. rewrite <- H1. done.
Qed.

Lemma tick_probe_frame p sig :
  leading (tick_probe p sig) = leading p /\ windows_since_demote (tick_probe p sig) = windows_since_demote p /\
  starvation_count (tick_probe p sig) = starvation_count p /\ learned_prior (tick_probe p sig) = learned_prior p.
Proof. unfold tick_probe. destruct (bool_decide _), (_ && _); by repeat split. Qed.

Lemma tick_slope_frame pc p sig :
  let p' := (tick_slope pc p sig).1 in
  leading p' = leading p /\ windows_since_demote p' = windows_since_demote p /\
  starvation_count p' = starvation_count p /\ learned_prior p' = learned_prior p.
Proof. unfold tick_slope. by destruct (snr sig). Qed.

Lemma tick_prepare_spec pc p sig p' slope r g :
  pol_ok pc p -> tick_prepare pc p sig = (p', slope, r, g) ->
  prepared pc (cooldown_ok pc (tick_counters p sig)) (ts_ms_of sig) (tick_counters p sig) p' /\ slope = (tick_slope pc p sig).2.
Proof.
  intros Hok H. unfold tick_prepare in H. set (p1 := tick_counters p sig) in *.
  destruct (tick_slope_frame pc p1 sig) as (L2 & W2 & S2 & P2).
  assert (Hsl : (tick_slope pc p1 sig).2 = (tick_slope pc p sig).2) by (unfold tick_slope; by destruct (snr sig)).
  destruct (tick_slope pc p1 sig) as [p2 sl] eqn:E2. cbn [fst snd] in *.
  destruct (tick_predict pc p2 sig sl _) as [[p3 r1] gt] eqn:E3.
  destruct (tick_snr_demote pc p3 sig _ _) as [p4 r2] eqn:E4. injection H as <- <- <- <-.
  split; [|done]. destruct (tick_probe_frame p4 sig) as (L5 & W5 & S5 & P5).
  assert (Hok2 : pol_ok pc p2) by (unfold pol_ok; by rewrite L2).
  destruct (tick_predict_prepared _ _ _ _ _ _ _ _ Hok2 E3) as (W3 & S3 & P3 & L3).
  assert (Hok3 : pol_ok pc p3).
  { unfold pol_ok. destruct L3 as [->|(_ & _ & ->)]; [done|]. by apply external_demote_ok. }
  destruct (tick_snr_demote_prepared _ _ _ _ _ _ _ Hok3 E4) as ((W4 & S4 & P4 & L4) & Hs).
  split; [congruence|]. split; [congruence|]. split; [congruence|].
  unfold mcs_of in *. rewrite L5. destruct L3 as [L3|(Hc & Hm & L3)].
  - rewrite L3, L2 in L4. exact L4.
  - right. destruct Hs as [Hs|Hs].
    + rewrite Hs. split; [done|]. rewrite L2 in *. by eauto.
    + exfalso. rewrite Hm in Hs. rewrite L2 in Hs. subst p1. cbn in Hs. lia.
Qed.

Definition same_control (p p' : Policy F) : Prop :=
  leading p' = leading p /\ windows_since_demote p' = windows_since_demote p /\
  starvation_count p' = starvation_count p /\ probe_clean_ticks p' = probe_clean_ticks p.

Lemma teach_fail_frame pc p : same_control p (teach_fail pc p).1.
Proof. unfold teach_fail. destruct (last_fail _) as [[[r c] v]|]; [|done]. by destruct (teach_failure _ _ _ _). Qed.

Lemma tick_learn_frame pc p sig m : same_control p (tick_learn pc p sig m).1.1.
Proof. unfold tick_learn. destruct (_ && _ && _); [|done]. by destruct (ingest _ _ _ _ _ _). Qed.

Lemma tick_spec pc p sig p' o :
  tick pc p sig = Ok (p', o) ->
  exists p5 slope r g lead m ch d,
    tick_prepare pc p sig = (p5, slope, r, g) /\
    select (pc_selector pc) (leading p5) (tick_sel_in pc p5 sig slope (cooldown_ok pc p5) (mcs_of p))
      = Ok (lead, (m, ch)) /\
    leading p' = lead /\ windows_since_demote p' = (if m <? mcs_of p then 0 else windows_since_demote p5) /\
    starvation_count p' = starvation_count p5 /\ o_decision o = Some d /\ d_mcs d = m /\
    probe_clean_ticks p' = probe_clean_ticks p5.
Proof.
  unfold tick. destruct (tick_prepare pc p sig) as [[[p5 slope] r] g].
  intros ([lead [m ch]] & Hsel & H)%rbind_ok.
  set (p6 := p5 <| leading := lead |> <| windows_since_demote ::= _ |>) in *.
  destruct (teach_fail_frame pc p6) as (L7 & W7 & S7 & C7).
  destruct (teach_fail pc p6) as [p7 w1]. cbn [fst] in *.
  destruct (tick_learn_frame pc p7 sig m) as (L8 & W8 & S8 & C8).
  destruct (tick_learn pc p7 sig m) as [[p8 learn] w2]. cbn [fst] in *. injection H as <- <-.
  exists p5, slope, r, g, lead, m, ch. eexists. split; [done|]. split; [exact Hsel|].
  rewrite L8, L7, W8, W7, S8, S7, C8, C7. by repeat split.
Qed.

(** The effect of a tick on the rung. *)
Lemma tick_cases pc p sig p' o :
  tick pc p sig = Ok (p', o) -> pol_ok pc p ->
  pol_ok pc p' /\
  (exists d, o_decision o = Some d /\ d_mcs d = mcs_of p') /\
  windows_since_demote p' = (if mcs_of p' <? mcs_of p then 0 else windows_since_demote p + 1) /\
  (mcs_of p' = mcs_of p \/
   (mcs_of p' = mcs_of p - 1 /\ demote_cooldown_windows (pc_selector pc) <= windows_since_demote p + 1) \/
   (mcs_of p' = mcs_of p + 1 /\
    exists p5 slope r g, tick_prepare pc p sig = (p5, slope, r, g) /\ leading p5 = leading p /\
      learned_prior p5 = learned_prior p /\ probe_clean_ticks p' = probe_clean_ticks p5 /\
      let i := tick_sel_in pc p5 sig slope (cooldown_ok pc p5) (mcs_of p) in
      dirty (pc_selector pc) i = false /\
      promote_gates (pc_selector pc) (after_clean (pc_selector pc) (leading p) i) i)).
Proof.
  intros H Hok. destruct (tick_spec _ _ _ _ _ H) as (p5 & slope & r & g & lead & m & ch & d & Hp & Hsel & Hl & Hw & _ & Hd & Hdm & Hpt).
  destruct (tick_prepare_spec _ _ _ _ _ _ _ Hok Hp) as ((W5 & S5 & P5 & L5) & _).
  change (windows_since_demote (tick_counters p sig)) with (windows_since_demote p + 1) in W5.
  assert (Hok5 : pol_ok pc p5).
  { unfold pol_ok. destruct L5 as [->|(_ & _ & ->)]; [done|]. by apply external_demote_ok. }
  assert (Hok' := select_sel_ok _ _ _ _ _ _ Hsel Hok5).
  destruct (select_cases _ _ _ _ _ _ Hsel Hok5) as (Hm & _ & Hcase).
  assert (Hm' : mcs_of p' = m) by (unfold mcs_of; by rewrite Hl).
  split; [unfold pol_ok; by rewrite Hl|]. split; [exists d; by rewrite Hm'|].
  split; [by rewrite Hm', Hw, W5|]. rewrite Hm'.
  unfold cooldown_ok in L5. change (mcs_of (tick_counters p sig)) with (mcs_of p) in L5.
  change (leading (tick_counters p sig)) with (leading p) in L5.
  change (windows_since_demote (tick_counters p sig)) with (windows_since_demote p + 1) in L5.
  destruct L5 as [L5|(Hc & Hm5 & _)].
  - rewrite L5 in Hcase. fold (mcs_of p) in Hcase.
    destruct Hcase as [->|[(-> & _ & Hcan)|(-> & Hdirty & Hg)]]; [by left| |].
    + right; left. split; [done|]. cbn in Hcan. unfold cooldown_ok in Hcan. breflect. lia.
    + right; right. split; [done|]. exists p5, slope, r, g. rewrite L5 in *.
      by rewrite Hpt, P5.
  - fold (mcs_of p5) in Hcase. apply Z.geb_le in Hc.
    destruct Hcase as [->|[(-> & _ & Hcan)|(-> & _ & _)]].
    + right; left. lia.
    + cbn in Hcan. fold (mcs_of p5) in Hcan. breflect. lia.
    + left. lia.
Qed.

Lemma loss_event_cases pc p sig lat p' o :
  loss_event pc p sig lat = Ok (p', o) -> pol_ok pc p ->
  pol_ok pc p' /\
  ((o_decision o = None /\ mcs_of p' = mcs_of p /\ windows_since_demote p' = windows_since_demote p /\
    starvation_count p' = starvation_count p /\ o_flight o = [] /\ o_files o = []) \/
   (mcs_of p' = mcs_of p - 1 /\ windows_since_demote p' = 0 /\ starvation_count p' = starvation_count p /\
    demote_cooldown_windows (pc_selector pc) <= windows_since_demote p /\
    (residual_loss_w sig <f video_demote_per (pc_selector pc)) = false /\
    exists d, o_decision o = Some d /\ d_mcs d = mcs_of p')).
Proof.
  intros H Hok. unfold loss_event in H.
  destruct (_ <f _) eqn:El; [injection H as <- <-; split; [done|]; by left|].
  destruct (_ <? _) eqn:Ew; [injection H as <- <-; split; [done|]; by left|]. apply Z.ltb_ge in Ew.
  apply rbind_ok in H as ([lead [m ch]] & Hsel & H).
  assert (Hok' := select_sel_ok _ _ _ _ _ _ Hsel Hok).
  destruct (select_cases _ _ _ _ _ _ Hsel Hok) as (Hm & Hch & Hcase).
  assert (Hd : dirty (pc_selector pc) (loss_sel_in sig) = true) by done.
  rewrite Hd in Hcase. fold (mcs_of p) in *.
  destruct (negb ch || _) eqn:Ec.
  - injection H as <- <-. split; [done|]. left. split; [done|]. split; [|done].
    change (mcs_of (p <| leading := lead |>)) with (current_mcs lead). rewrite <- Hm.
    destruct Hcase as [|[(? & _)|(? & ? & _)]]; [done| |done]. exfalso.
    apply orb_true_iff in Ec as [Ec|Ec].
    + rewrite Hch, negb_involutive in Ec. breflect. lia.
    + breflect. lia.
  - set (p1 := p <| leading := lead |> <| windows_since_demote := 0 |>) in *.
    destruct (teach_fail_frame pc p1) as (L & W & S & _).
    destruct (teach_fail pc p1) as [p2 w]. cbn [fst] in *. injection H as <- <-.
    apply orb_false_iff in Ec as [Ec1 Ec2].
    assert (Hm2 : mcs_of p2 = m) by (unfold mcs_of; by rewrite L).
    split; [unfold pol_ok; by rewrite L|]. right. rewrite Hm2, W, S.
    split; [destruct Hcase as [Hc|[(? & _)|(? & ? & _)]]; [|done|done]; exfalso; breflect; lia|].
    do 4 (split; [done|]). eexists. split; [done|]. done.
Qed.
End Tick.

(* ------------------------------------------------------------------ *)
(** ** Executions *)

Section Runs.
Context {F : Type} {PF : PyFloat F}.
Implicit Types (pc : PolicyConfig F) (p : Policy F) (sig : Signals F).

Inductive pol_event := EvTick (sig : Signals F) | EvLoss (sig : Signals F) (latency_ms : option F).

Definition pol_step pc p (e : pol_event) : res (Policy F * Outputs F) :=
  match e with EvTick sig => tick pc p sig | EvLoss sig lat => loss_event pc p sig lat end.

Fixpoint pol_run pc p (es : list pol_event) : res (Policy F) :=
  match es with
  | [] => Ok p
  | e :: es' => let* (p1, _) := pol_step pc p e in pol_run pc p1 es'
  end.

Definition ticks (es : list pol_event) : Z :=
  sumZ (map (fun e => match e with EvTick _ => 1 | EvLoss _ _ => 0 end) es).

(** Everything the controller does with a policy. *)
Inductive pol_next pc (read : string -> file_read F) p : Policy F -> Prop :=
| N_event e p' o : pol_step pc p e = Ok (p', o) -> pol_next pc read p p'
| N_bind adapter width p' : bind_learned_prior pc read p adapter width = Ok p' -> pol_next pc read p p'
| N_reset p' : reset_for_new_session pc p = Ok p' -> pol_next pc read p p'.

(** The same as operations, with what each puts out. *)
Inductive pol_op := OpEvent (e : pol_event) | OpBind (adapter_id : string) (width : Z) | OpReset.

Definition pol_do pc (read : string -> file_read F) p (op : pol_op) : res (Policy F * Outputs F) :=
  match op with
  | OpEvent e => pol_step pc p e
  | OpBind adapter_id width => let* p' := bind_learned_prior pc read p adapter_id width in Ok (p', mkOut None [] [])
  | OpReset => let* p' := reset_for_new_session pc p in Ok (p', mkOut None [] [])
  end.

Fixpoint pol_ops pc read p (ops : list pol_op) : res (Policy F) :=
  match ops with
  | [] => Ok p
  | op :: ops' => let* (p1, _) := pol_do pc read p op in pol_ops pc read p1 ops'
  end.

Definition op_ticks (ops : list pol_op) : Z :=
  sumZ (map (fun op => match op with OpEvent (EvTick _) => 1 | _ => 0 end) ops).

Lemma pol_do_next pc read p op p' o : pol_do pc read p op = Ok (p', o) -> pol_next pc read p p'.
Proof.
  destruct op as [e|a w|]; cbn; [by apply N_event|..]; intros (p1 & H & [= <- <-])%rbind_ok; [by eapply N_bind|by apply N_reset].
Qed.

(** Neither touches the other counters of the selector: a re-keying leaves the
    rung and the cooldown, a reset puts the rung on its start and the cooldown
    on elapsed. *)
Lemma bind_keeps pc read p a w p' : bind_learned_prior pc read p a w = Ok p' ->
  leading p' = leading p /\ windows_since_demote p' = windows_since_demote p.
Proof.
  unfold bind_learned_prior. destruct (String.eqb _ _); [by intros [= <-]|]. by intros (lp & _ & [= <-])%rbind_ok.
Qed.

Lemma reset_restarts pc p p' : reset_for_new_session pc p = Ok p' ->
  mcs_of p' = Z.min 1 (max_mcs (pc_selector pc)) /\ windows_since_demote p' = demote_cooldown_windows (pc_selector pc).
Proof.
  unfold reset_for_new_session, selector_init, cap_mcs. intros (lead & (u & _ & [= <-])%rbind_ok & [= <-])%rbind_ok.
  split; [|done]. unfold mcs_of. cbn. destruct (1 >? _) eqn:E; breflect; lia.
Qed.

Lemma pol_step_ok pc p e p' o : pol_step pc p e = Ok (p', o) -> pol_ok pc p -> pol_ok pc p'.
Proof.
  destruct e; cbn; intros H Hok.
  - by eapply tick_cases.
  - by eapply loss_event_cases.
Qed.

Lemma pol_next_ok pc read p p' : pol_next pc read p p' -> pol_ok pc p -> pol_ok pc p'.
Proof.
  destruct 1 as [e p' o H|adapter width p' H|p' H]; intros Hok.
  - by eapply pol_step_ok.
  - unfold bind_learned_prior in H. destruct (String.eqb _ _); [by injection H as <-|].
    by apply rbind_ok in H as (lp & _ & [= <-]).
  - unfold reset_for_new_session in H. apply rbind_ok in H as (lead & H & [= <-]).
    by apply selector_init_ok.
Qed.

Lemma policy_init_ok pc read name p : policy_init pc read name = Ok p -> pol_ok pc p.
Proof.
  unfold policy_init. intros (lead & H & (lp & _ & ([] & _ & [= <-])%rbind_ok)%rbind_ok)%rbind_ok.
  by apply selector_init_ok.
Qed.

Lemma reach_ok pc read name p0 p : policy_init pc read name = Ok p0 -> rtc (pol_next pc read) p0 p -> pol_ok pc p.
Proof. intros Hi%policy_init_ok Hr. induction Hr; [done|]. eauto using pol_next_ok. Qed.

(** C1: From boot, after whatever ticks, loss notices, re-keyings and session
    resets, every further such operation that returns leaves the rung between
    0 and the configured cap; a tick or a loss notice moves it by at most one
    rung, a re-keying keeps it, a session reset puts it on rung 1 (or the cap,
    if lower); and a decision it emits carries exactly the new rung. *)
Theorem policy_rung_in_range pc read name p0 p op p' o :
  policy_init pc read name = Ok p0 -> rtc (pol_next pc read) p0 p -> pol_do pc read p op = Ok (p', o) ->
  0 <= mcs_of p' <= max_mcs (pc_selector pc) /\
  match op with
  | OpEvent _ => Z.abs (mcs_of p' - mcs_of p) <= 1
  | OpBind _ _ => mcs_of p' = mcs_of p
  | OpReset => mcs_of p' = Z.min 1 (max_mcs (pc_selector pc))
  end /\
  (forall d, o_decision o = Some d -> d_mcs d = mcs_of p').
Proof.
  intros Hi Hr Hs. assert (Hok := reach_ok _ _ _ _ _ Hi Hr).
  split; [by apply pol_do_next, pol_next_ok in Hs|]. destruct op as [[sig|sig lat]|a w|]; cbn in Hs.
  - apply tick_cases in Hs as (_ & (d & Hd & Hm) & _ & Hc); [|done]. split; [lia|].
    intros d' Hd'. congruence.
  - apply loss_event_cases in Hs as (_ & [(Hd & Hm & _)|(Hm & _ & _ & _ & _ & d & Hd & Hdm)]); [| |done];
      (split; [lia|]); intros d' Hd'; congruence.
  - apply rbind_ok in Hs as (p1 & [L _]%bind_keeps & [= <- <-]). unfold mcs_of. by rewrite L.
  - by apply rbind_ok in Hs as (p1 & [L _]%reset_restarts & [= <- <-]).
Qed.

(** *** The demote cooldown *)

(** No lower than this, even for a negative cooldown. *)
Definition least_windows pc : Z := Z.min 0 (demote_cooldown_windows (pc_selector pc)).

Lemma pol_step_windows pc p e p' o :
  pol_step pc p e = Ok (p', o) -> pol_ok pc p -> least_windows pc <= windows_since_demote p ->
  least_windows pc <= windows_since_demote p' <= Z.max 0 (windows_since_demote p) + ticks [e] /\
  (mcs_of p' < mcs_of p ->
   windows_since_demote p' = 0 /\
   demote_cooldown_windows (pc_selector pc) <= windows_since_demote p + ticks [e]).
Proof.
  intros H Hok Hw. unfold least_windows in *. destruct e as [sig|sig lat]; cbn in H.
  - apply tick_cases in H as (_ & _ & Hw' & Hc); [|done]. unfold ticks, sumZ. cbn.
    rewrite Hw'. destruct (_ <? _) eqn:E; breflect; lia.
  - apply loss_event_cases in H as (_ & H); [|done]. unfold ticks, sumZ. cbn. lia.
Qed.

Lemma pol_next_windows pc read p p' :
  pol_next pc read p p' -> pol_ok pc p -> least_windows pc <= windows_since_demote p -> least_windows pc <= windows_since_demote p'.
Proof.
  destruct 1 as [e p' o H|a w p' H|p' H]; intros Hok Hw.
  - destruct (pol_step_windows _ _ _ _ _ H Hok Hw) as [? _]. lia.
  - apply bind_keeps in H as [_ ->]. done.
  - apply reset_restarts in H as [_ ->]. unfold least_windows. lia.
Qed.

Lemma reach_windows pc read name p0 p :
  policy_init pc read name = Ok p0 -> rtc (pol_next pc read) p0 p -> least_windows pc <= windows_since_demote p.
Proof.
  intros Hi Hr. assert (Hok := policy_init_ok _ _ _ _ Hi).
  assert (Hw : least_windows pc <= windows_since_demote p0).
  { unfold policy_init in Hi. apply rbind_ok in Hi as (lead & _ & (lp & _ & ([] & _ & [= <-])%rbind_ok)%rbind_ok).
    unfold least_windows. cbn. lia. }
  clear Hi. induction Hr as [|p0 p1 p H _ IH]; [done|]. apply IH; [by eapply pol_next_ok|by eapply pol_next_windows].
Qed.

Lemma pol_run_ok pc p es p' :
  pol_run pc p es = Ok p' -> pol_ok pc p -> least_windows pc <= windows_since_demote p ->
  pol_ok pc p' /\ least_windows pc <= windows_since_demote p'.
Proof.
  revert p. induction es as [|e es IH]; intros p H Hok Hw; cbn in H; [by injection H as <-|].
  apply rbind_ok in H as ([p1 o] & H1 & H2). apply (IH p1); [done|by eapply pol_step_ok|].
  by destruct (pol_step_windows _ _ _ _ _ H1 Hok Hw) as [[? _] _].
Qed.

(** Operations of one session count windows no faster than ticks. *)
Lemma session_windows pc read p ops p' :
  pol_ops pc read p ops = Ok p' -> Forall (fun op => op <> OpReset) ops -> pol_ok pc p -> least_windows pc <= windows_since_demote p ->
  pol_ok pc p' /\ least_windows pc <= windows_since_demote p' <= Z.max 0 (windows_since_demote p) + op_ticks ops.
Proof.
  intros H Hs. revert p H. induction Hs as [|op ops Hop Hs IH]; intros p H Hok Hw; cbn in H.
  { injection H as <-. unfold op_ticks, sumZ. cbn. split; [done|lia]. }
  apply rbind_ok in H as ([p1 o] & H1 & H2).
  assert (Hnx := pol_do_next _ _ _ _ _ _ H1). assert (Hok1 := pol_next_ok _ _ _ _ Hnx Hok).
  destruct (IH p1 H2 Hok1) as [Hok' Hw']; [by eapply pol_next_windows|]. split; [done|].
  assert (Hw1 : windows_since_demote p1 <= Z.max 0 (windows_since_demote p) + op_ticks [op]).
  { destruct op as [e|a w|]; cbn in H1; [|apply rbind_ok in H1 as (p2 & [_ E]%bind_keeps & [= <- <-]); rewrite E; unfold op_ticks, sumZ; cbn; lia|done].
    destruct (pol_step_windows _ _ _ _ _ H1 Hok Hw) as [[_ Hu] _]. by destruct e. }
  assert (0 <= op_ticks [op]) by (unfold op_ticks, sumZ; destruct op as [[]| |]; cbn; lia).
  assert (op_ticks (op :: ops) = op_ticks [op] + op_ticks ops) by (unfold op_ticks; change (op :: ops) with ([op] ++ ops); by rewrite map_app, sumZ_app).
  lia.
Qed.

(** C2: Within a session, from any policy reached from boot: between two
    demotes, on whichever path each of them fires (predictive, SNR, reactive,
    emergency or the fast path), with ticks, loss notices and re-keyings but
    no session reset in between, at least demote_cooldown_windows ticks pass,
    the one of the second demote counted. *)
Theorem demotes_are_spaced pc read name p0 p e1 p1 o1 ops p2 e2 p3 o3 :
  policy_init pc read name = Ok p0 -> rtc (pol_next pc read) p0 p ->
  pol_step pc p e1 = Ok (p1, o1) -> mcs_of p1 < mcs_of p ->
  pol_ops pc read p1 ops = Ok p2 -> Forall (fun op => op <> OpReset) ops ->
  pol_step pc p2 e2 = Ok (p3, o3) -> mcs_of p3 < mcs_of p2 ->
  demote_cooldown_windows (pc_selector pc) <= op_ticks (ops ++ [OpEvent e2]).
Proof.
  intros Hi Hr H1 Hd1 Hrun Hs H2 Hd2. assert (Hok := reach_ok _ _ _ _ _ Hi Hr). assert (Hw := reach_windows _ _ _ _ _ Hi Hr).
  destruct (pol_step_windows _ _ _ _ _ H1 Hok Hw) as [[Hl1 _] [Hw1 _]]; [done|].
  destruct (session_windows _ _ _ _ _ Hrun Hs) as [Hok2 Hw2]; [by eapply pol_step_ok|done|].
  destruct (pol_step_windows _ _ _ _ _ H2 Hok2) as [_ [_ Hc]]; [lia|done|].
  assert (E : op_ticks (ops ++ [OpEvent e2]) = op_ticks ops + ticks [e2]) by (unfold op_ticks, ticks; rewrite map_app, sumZ_app; by destruct e2).
  lia.
Qed.

(** *** Sustained loss drives the rung to the floor *)

Lemma dirty_tick pc p sig p' o :
  tick pc p sig = Ok (p', o) -> pol_ok pc p -> sustained_loss pc sig = true ->
  (0 < mcs_of p -> demote_cooldown_windows (pc_selector pc) <= windows_since_demote p + 1 ->
   mcs_of p' = mcs_of p - 1) /\
  mcs_of p' <= mcs_of p.
Proof.
  intros H Hok Hl.
  destruct (tick_spec _ _ _ _ _ H) as (p5 & slope & r & g & lead & m & ch & d & Hp & Hsel & HL & _).
  destruct (tick_prepare_spec _ _ _ _ _ _ _ Hok Hp) as ((W5 & _ & _ & L5) & _).
  set (i := tick_sel_in _ _ _ _ _ _) in Hsel.
  assert (Hd : dirty (pc_selector pc) i = true).
  { unfold dirty. change (si_loss_demote i) with (sustained_loss pc sig). by rewrite Hl. }
  unfold select in Hsel. apply rbind_ok in Hsel as (s1 & Hs1 & [= -> _ _]).
  fold (dirty (pc_selector pc) i) in Hs1. rewrite Hd in Hs1. apply select_demote_mcs in Hs1.
  change (current_mcs (select_begin (leading p5) i)) with (mcs_of p5) in Hs1.
  assert (Hm' : mcs_of p' = current_mcs lead) by (unfold mcs_of; by rewrite HL).
  assert (Hcan : si_can_demote i = cooldown_ok pc p5 && (mcs_of p5 =? mcs_of p)) by done.
  unfold cooldown_ok in Hcan. rewrite W5 in Hcan.
  change (windows_since_demote (tick_counters p sig)) with (windows_since_demote p + 1) in Hcan.
  change (mcs_of (tick_counters p sig)) with (mcs_of p) in L5.
  change (leading (tick_counters p sig)) with (leading p) in L5.
  unfold pol_ok, sel_ok, mcs_of in *. rewrite Hm', Hs1, Hcan.
  destruct L5 as [->|(_ & Hm5 & _)].
  - rewrite Z.eqb_refl, andb_true_r. destruct (_ >=? _) eqn:Ew; unfold clamp; breflect; lia.
  - destruct (current_mcs (leading p5) =? _) eqn:E; breflect; [lia|]. rewrite andb_false_r. lia.
Qed.

(** The ticks left before the rung must drop, in cooldown units. *)
Definition demote_potential pc p : Z :=
  let N := Z.max 1 (demote_cooldown_windows (pc_selector pc)) in
  N * mcs_of p - Z.min (Z.max 0 (windows_since_demote p)) (N - 1).

Lemma dirty_tick_potential pc p sig p' o :
  tick pc p sig = Ok (p', o) -> pol_ok pc p -> sustained_loss pc sig = true ->
  least_windows pc <= windows_since_demote p -> 0 < mcs_of p' -> demote_potential pc p' <= demote_potential pc p - 1.
Proof.
  intros H Hok Hl Hw Hpos. destruct (dirty_tick _ _ _ _ _ H Hok Hl) as [Hd Hle].
  destruct (tick_cases _ _ _ _ _ H Hok) as (_ & _ & Hw' & Hc).
  unfold demote_potential, least_windows in *. rewrite Hw'. destruct (_ <? _) eqn:E; breflect; nia.
Qed.

Lemma dirty_run pc p sigs p' :
  pol_ok pc p -> least_windows pc <= windows_since_demote p -> Forall (fun sig => sustained_loss pc sig = true) sigs ->
  pol_run pc p (map EvTick sigs) = Ok p' ->
  mcs_of p' <= mcs_of p /\
  (0 < mcs_of p' -> demote_potential pc p' <= demote_potential pc p - Z.of_nat (length sigs)).
Proof.
  intros Hok Hw Hall. revert p Hok Hw. induction Hall as [|sig sigs Hl Hall IH]; intros p Hok Hw Hrun.
  { injection Hrun as <-. cbn. lia. }
  cbn in Hrun. apply rbind_ok in Hrun as ([p1 o] & H1 & H2).
  assert (Hok1 : pol_ok pc p1) by (by eapply tick_cases).
  destruct (pol_step_windows _ _ (EvTick sig) _ _ H1 Hok Hw) as [Hw1 _].
  destruct (dirty_tick _ _ _ _ _ H1 Hok Hl) as [_ Hle].
  destruct (IH p1 Hok1) as [Hle' Hphi]; [lia|done|]. split; [lia|]. intros Hpos.
  assert (Hp := dirty_tick_potential _ _ _ _ _ H1 Hok Hl Hw). cbn [length]. lia.
Qed.

(** *** No lookup fails *)

(** Every confirmed rung has its operating SNR. *)
Definition conf_ok (s : LeadingSelector F) : Prop :=
  forall r, is_Some (confirmed_until_ms s !! r) -> is_Some (confirmed_snr s !! r).

Definition same_conf (s s' : LeadingSelector F) : Prop :=
  confirmed_until_ms s' = confirmed_until_ms s /\ confirmed_snr s' = confirmed_snr s.

Lemma same_conf_ok s s' : same_conf s s' -> conf_ok s -> conf_ok s'.
Proof. unfold conf_ok. by intros [-> ->]. Qed.

Lemma commit_conf cfg (s : LeadingSelector F) m w ts : same_conf s (commit cfg s m w ts).
Proof. unfold commit. by case_match. Qed.

Lemma external_demote_conf cfg (s : LeadingSelector F) m ts : same_conf s (external_demote cfg s m ts).
Proof. unfold external_demote. by case_match. Qed.

Lemma suppressed_conf cfg (s : LeadingSelector F) r ts pr : same_conf s (_suppressed cfg s r ts pr).1.
Proof. unfold _suppressed. by repeat case_match. Qed.

Lemma confirm_cases cfg (s : LeadingSelector F) e ts :
  confirm cfg s e ts = s \/
  exists v, e = Some v /\ promote_dwell_ticks cfg <= clean_dwell s /\
    confirmed_until_ms (confirm cfg s e ts) =
      <[current_mcs s := ts +f fofZ (confirm_ttl_ms cfg)]> (confirmed_until_ms s) /\
    confirmed_snr (confirm cfg s e ts) =
      <[current_mcs s := match confirmed_snr s !! current_mcs s with
                         | Some c => if default (fofZ 0) (confirmed_until_ms s !! current_mcs s) >=f ts
                                     then fmax c v else v
                         | None => v
                         end]> (confirmed_snr s).
Proof.
  unfold confirm. destruct e as [v|]; [|by left]. destruct (_ >=? _) eqn:E; [|by left]. right.
  exists v. breflect. repeat split; done || lia.
Qed.

Lemma confirm_conf cfg (s : LeadingSelector F) e ts : conf_ok s -> conf_ok (confirm cfg s e ts).
Proof.
  intros H. destruct (confirm_cases cfg s e ts) as [->|(v & _ & _ & Hu & Hs)]; [done|].
  intros r. rewrite Hu, Hs, !lookup_insert_is_Some. intros [?|[? ?]]; [by left|]. right. auto.
Qed.

Lemma select_clean_conf cfg (s : LeadingSelector F) i : conf_ok s -> conf_ok (select_clean cfg s i).
Proof.
  intros H. unfold select_clean. set (s1 := s <| clean_dwell ::= Z.succ |>).
  assert (H2 : conf_ok (confirm cfg (clear_damper cfg s1) (si_snr_ewma i) (si_ts_ms i))).
  { apply confirm_conf, (same_conf_ok s); [|done]. unfold clear_damper. by case_match. }
  destruct (trial_rung _); [|done]. by destruct (_ <=f _).
Qed.

Lemma charge_flap_conf cfg (s : LeadingSelector F) r e ts s' : _charge_flap cfg s r e ts = Ok s' -> same_conf s s'.
Proof. unfold _charge_flap. intros (eff & _ & (b & _ & [= <-])%rbind_ok)%rbind_ok. done. Qed.

#[local] Instance same_conf_trans : PreOrder same_conf.
Proof. split; [done|]. intros a b c [? ?] [? ?]. split; congruence. Qed.

Lemma demote_on_loss_conf cfg (s : LeadingSelector F) i s' : demote_on_loss cfg s i = Ok s' -> same_conf s s'.
Proof.
  unfold demote_on_loss. set (s1 := commit _ _ _ _ _).
  assert (H1 : same_conf s s1) by apply commit_conf.
  destruct (_ =? _); [by intros [= <-]|].
  set (s2 := match _classify _ _ _ _ _ _ with Fade => _ | _ => _ end).
  assert (H2 : same_conf s s2) by (etrans; [exact H1|]; subst s2; by repeat case_match).
  destruct (on_trial _ _ _); [|by intros [= <-]].
  intros H%charge_flap_conf. by etrans.
Qed.

Lemma select_demote_conf cfg (s : LeadingSelector F) i s' : select_demote cfg s i = Ok s' -> same_conf s s'.
Proof.
  unfold select_demote. intros (s1 & H & [= <-])%rbind_ok. trans s1; [|by destruct (current_mcs s1 =? _)].
  destruct (si_can_demote i); [|by injection H as <-].
  destruct (si_loss_demote i); [by eapply demote_on_loss_conf|]. injection H as <-. apply commit_conf.
Qed.

Lemma promote_route_conf cfg (s : LeadingSelector F) i e sl s' : promote_route cfg s i e sl = Ok s' -> same_conf s s'.
Proof.
  unfold promote_route. intros (sb & _ & [= <-])%rbind_ok. trans (s <| snapback_tgt := sb |>); [done|].
  repeat case_match; done || apply commit_conf.
Qed.

Lemma select_promote_conf cfg (s : LeadingSelector F) i s' : select_promote cfg s i = Ok s' -> same_conf s s'.
Proof.
  unfold select_promote. destruct (si_snr_ewma i) as [e|]; [|by intros [= <-]].
  destruct (_ >? _); [by intros [= <-]|].
  assert (H1 := suppressed_conf cfg s (current_mcs s + 1) (si_ts_ms i) (si_probe_release i)).
  destruct (_suppressed _ _ _ _ _) as [s1 held]. cbn [fst] in H1.
  intros (s3 & H3 & [= <-])%rbind_ok. trans s3; [|by destruct (current_mcs s3 >? _)].
  trans s1; [done|]. destruct (_ && _ && _); [|by injection H3 as <-].
  apply promote_route_conf in H3. by trans (s1 <| promote_suppressed := held |>).
Qed.

Lemma select_conf cfg (s : LeadingSelector F) i s' r : select cfg s i = Ok (s', r) -> conf_ok s -> conf_ok s'.
Proof.
  unfold select. intros (s1 & H & [= <- _])%rbind_ok Hc. assert (Hc0 : conf_ok (select_begin s i)) by done.
  destruct (_ || _).
  - apply select_demote_conf in H. by eapply same_conf_ok.
  - apply select_promote_conf in H. eapply same_conf_ok; [exact H|]. by apply select_clean_conf.
Qed.

(** *** Which exceptions escape *)

Lemma snapback_scan_total cfg (s : LeadingSelector F) e ts best items :
  (forall r, is_Some (list_to_map (M := gmap Z F) items !! r) -> is_Some (confirmed_snr s !! r)) ->
  exists b, snapback_scan cfg s e ts best items = Ok b.
Proof.
  revert best. induction items as [|[r u] items IH]; intros best H; cbn; [by eauto|].
  assert (H' : forall r, is_Some (list_to_map (M := gmap Z F) items !! r) -> is_Some (confirmed_snr s !! r)).
  { intros r' Hr'. apply H. cbn. apply lookup_insert_is_Some'. by right. }
  destruct (_ || _); [by apply IH|].
  destruct (H r) as [c ->]; [|by apply IH]. cbn. rewrite lookup_insert_eq. done.
Qed.

Lemma snapback_target_total cfg (s : LeadingSelector F) e ts : conf_ok s -> exists b, _snapback_target cfg s e ts = Ok b.
Proof. intros H. apply snapback_scan_total. intros r. rewrite list_to_map_to_list. apply H. Qed.

(** The operands [int] is applied to when a flap is charged: the backoff of a
    level and the count of quiet decay periods. *)
Definition flap_operand cfg (x : F) : Prop :=
  (exists k, x = fofZ (flap_base_backoff_ms cfg) *f fpow (flap_backoff_mult cfg) (fofZ k)) \/
  (exists ts last, flap_decay_ms cfg > 0 /\ x = (ts -f last) /f fofZ (flap_decay_ms cfg)).

(** The operation returns, or [int] met such an operand that is not finite. *)
Definition safe {A} cfg (m : res A) : Prop :=
  (exists a, m = Ok a) \/ (exists x, flap_operand cfg x /\ ffinite x = false /\ m = Err (int_error x)).

Lemma safe_ok {A} cfg (a : A) : safe cfg (Ok a).
Proof. left. by exists a. Qed.

Lemma safe_bind {A B} cfg (m : res A) (k : A -> res B) :
  safe cfg m -> (forall a, m = Ok a -> safe cfg (k a)) -> safe cfg (rbind m k).
Proof. intros [[a ->]|(x & ? & ? & ->)] Hk; cbn; [by apply Hk|right; eauto]. Qed.

Lemma int_of_float_safe cfg (x : F) : flap_operand cfg x -> safe cfg (int_of_float x).
Proof. unfold int_of_float. destruct (ffinite x) eqn:E; [intros; apply safe_ok|right; eauto]. Qed.

Lemma charge_flap_safe cfg (s : LeadingSelector F) r e ts : safe cfg (_charge_flap cfg s r e ts).
Proof.
  unfold _charge_flap, _effective_flap_level, _flap_backoff_ms.
  apply safe_bind; [|intros eff _; apply safe_bind; [|intros; apply safe_ok]].
  - destruct (last_flap_ms s !! r); [|apply safe_ok].
    destruct (negb _ && (flap_decay_ms cfg >? 0)) eqn:E; [|apply safe_ok]. breflect.
    apply safe_bind; [apply int_of_float_safe|intros; apply safe_ok]. right. eexists _, _. split; [lia|done].
  - apply safe_bind; [apply int_of_float_safe|intros; apply safe_ok]. left. by eexists.
Qed.

Lemma select_safe cfg (s : LeadingSelector F) i : conf_ok s -> safe cfg (select cfg s i).
Proof.
  intros Hc. unfold select. assert (Hc0 : conf_ok (select_begin s i)) by done.
  apply safe_bind; [|intros; apply safe_ok]. destruct (_ || _).
  - unfold select_demote, demote_on_loss. apply safe_bind; [|intros; apply safe_ok].
    repeat case_match; apply safe_ok || apply charge_flap_safe.
  - apply select_clean_conf with (cfg := cfg) (i := i) in Hc0.
    set (s1 := select_clean _ _ _) in *. unfold select_promote.
    destruct (si_snr_ewma i); [|apply safe_ok]. destruct (_ >? _); [apply safe_ok|].
    assert (H1 := suppressed_conf cfg s1 (current_mcs s1 + 1) (si_ts_ms i) (si_probe_release i)).
    destruct (_suppressed _ _ _ _ _) as [s2 held]. apply safe_bind; [|intros; apply safe_ok].
    destruct (_ && _ && _); [|apply safe_ok]. apply safe_bind; [|intros; apply safe_ok].
    left. apply snapback_target_total. by apply (same_conf_ok s1).
Qed.

Definition pol_inv pc p : Prop := pol_ok pc p /\ conf_ok (leading p).

Lemma prepare_conf pc p sig p' slope r g :
  pol_inv pc p -> tick_prepare pc p sig = (p', slope, r, g) -> conf_ok (leading p').
Proof.
  intros [Hok Hc] H. destruct (tick_prepare_spec _ _ _ _ _ _ _ Hok H) as ((_ & _ & _ & L) & _).
  destruct L as [->|(_ & _ & ->)]; [done|]. eapply same_conf_ok; [apply external_demote_conf|done].
Qed.

Lemma pol_step_safe pc p e : pol_inv pc p -> safe (pc_selector pc) (pol_step pc p e).
Proof.
  intros Hinv. destruct e as [sig|sig lat]; cbn.
  - unfold tick. destruct (tick_prepare pc p sig) as [[[p5 slope] r] g] eqn:E.
    apply safe_bind; [by eapply select_safe, prepare_conf|]. intros [lead [m ch]] _.
    destruct (teach_fail _ _), (tick_learn _ _ _ _) as [[? ?] ?]. apply safe_ok.
  - unfold loss_event. do 2 (case_match; [apply safe_ok|]). apply safe_bind; [by apply select_safe, Hinv|].
    intros [lead [m ch]] _. case_match; [apply safe_ok|]. destruct (teach_fail _ _). apply safe_ok.
Qed.

Lemma pol_step_inv pc p e p' o : pol_step pc p e = Ok (p', o) -> pol_inv pc p -> pol_inv pc p'.
Proof.
  intros H [Hok Hc]. split; [by eapply pol_step_ok|]. destruct e as [sig|sig lat]; cbn in H.
  - destruct (tick_spec _ _ _ _ _ H) as (p5 & slope & r & g & lead & m & ch & d & Hp & Hsel & -> & _).
    eapply select_conf; [exact Hsel|]. by eapply prepare_conf.
  - unfold loss_event in H. do 2 (case_match; [by injection H as <- <-|]).
    apply rbind_ok in H as ([lead [m ch]] & Hsel & H). apply select_conf in Hsel; [|done].
    case_match; [by injection H as <- <-|].
    destruct (teach_fail_frame pc (p <| leading := lead |> <| windows_since_demote := 0 |>)) as (L & _).
    destruct (teach_fail _ _) as [p2 w]. cbn [fst] in L. injection H as <- <-. by rewrite L.
Qed.

Lemma pol_next_inv pc read p p' : pol_next pc read p p' -> pol_inv pc p -> pol_inv pc p'.
Proof.
  intros Hn Hinv. split; [by eapply pol_next_ok, Hinv|].
  destruct Hn as [e p' o H|adapter width p' H|p' H]; [by eapply pol_step_inv in H as [_ ?]| |].
  - unfold bind_learned_prior in H. destruct (String.eqb _ _); [by injection H as <-; apply Hinv|].
    apply rbind_ok in H as (lp & _ & [= <-]). apply Hinv.
  - unfold reset_for_new_session in H. apply rbind_ok in H as (lead & H & [= <-]).
    unfold selector_init in H. apply rbind_ok in H as (? & _ & [= <-]). intros r. cbn.
    by rewrite lookup_empty; intros [].
Qed.

Lemma pol_init_inv pc read name p : policy_init pc read name = Ok p -> pol_inv pc p.
Proof.
  intros H. split; [by eapply policy_init_ok|].
  unfold policy_init in H. apply rbind_ok in H as (lead & H & (lp & _ & ([] & _ & [= <-])%rbind_ok)%rbind_ok).
  unfold selector_init in H. apply rbind_ok in H as (? & _ & [= <-]). intros r. cbn.
  by rewrite lookup_empty; intros [].
Qed.

Lemma pol_reach_inv pc read name p0 p :
  policy_init pc read name = Ok p0 -> rtc (pol_next pc read) p0 p -> pol_inv pc p.
Proof. intros Hi%pol_init_inv Hr. induction Hr; eauto using pol_next_inv. Qed.

(** C33: A policy reached from boot answers every tick and every loss notice;
    the only exception it can raise is int() of a flap back-off or decay
    quotient that is not finite. *)
Theorem policy_never_raises pc read name p0 p e :
  policy_init pc read name = Ok p0 -> rtc (pol_next pc read) p0 p ->
  (exists p' o, pol_step pc p e = Ok (p', o)) \/
  (exists x : F, flap_operand (pc_selector pc) x /\ ffinite x = false /\ pol_step pc p e = Err (int_error x)).
Proof.
  intros Hi Hr. destruct (pol_step_safe pc p e) as [[[p' o] H]|H]; [by eapply pol_reach_inv|left|by right].
  eauto.
Qed.

(** *** Under sustained loss nothing raises but a flap charge of the rung on
    trial *)

Lemma off_trial_demote cfg (s : LeadingSelector F) i :
  trial_rung s <> Some (current_mcs s) -> exists s', select_demote cfg s i = Ok s'.
Proof.
  intros Ht. unfold select_demote, demote_on_loss.
  assert (E : on_trial s (current_mcs s) (si_ts_ms i) = false) by (unfold on_trial; by rewrite bool_decide_eq_false_2).
  rewrite E. repeat case_match; cbn; eauto.
Qed.

Lemma commit_trial cfg (s : LeadingSelector F) m w ts : trial_rung (commit cfg s m w ts) = trial_rung s.
Proof. unfold commit. by case_match. Qed.

Lemma charge_flap_trial cfg (s : LeadingSelector F) r e ts s' : _charge_flap cfg s r e ts = Ok s' -> trial_rung s' = trial_rung s.
Proof. unfold _charge_flap. by intros (eff & _ & (b & _ & [= <-])%rbind_ok)%rbind_ok. Qed.

(** A demote clears the trial; without one the trial stays. *)
Lemma select_demote_trial cfg (s : LeadingSelector F) i s' : select_demote cfg s i = Ok s' ->
  trial_rung s' = None \/ (trial_rung s' = trial_rung s /\ current_mcs s' = current_mcs s).
Proof.
  unfold select_demote. intros (s1 & H1 & [= <-])%rbind_ok. destruct (current_mcs s1 =? current_mcs s) eqn:E; [|by left]. breflect.
  right. cbn. split; [|done]. destruct (si_can_demote i); [|by injection H1 as <-].
  destruct (si_loss_demote i); [|injection H1 as <-; apply commit_trial].
  unfold demote_on_loss in H1. set (c := commit _ _ _ _ _) in H1. assert (Hc : trial_rung c = trial_rung s) by apply commit_trial.
  destruct (current_mcs c =? current_mcs s); [by injection H1 as <-|].
  set (s2 := match _classify _ _ _ _ _ _ with Fade => _ | _ => _ end) in H1.
  assert (H2 : trial_rung s2 = trial_rung c) by (subst s2; by repeat case_match).
  destruct (on_trial _ _ _); [apply charge_flap_trial in H1|injection H1 as <-]; congruence.
Qed.

Lemma prepared_trial pc ok ts p p' : prepared pc ok ts p p' -> leading p' = leading p \/ trial_rung (leading p') = None.
Proof.
  intros (_ & _ & _ & H). destruct H as [->|(_ & _ & ->)]; [by left|]. unfold external_demote. case_match; [by left|by right].
Qed.

Definition trial_here p : Prop := trial_rung (leading p) = Some (mcs_of p).

(** A tick under sustained loss answers unless the rung is on trial, and does
    not start a trial. *)
Lemma lossy_tick pc p sig : pol_inv pc p -> sustained_loss pc sig = true ->
  (~ trial_here p -> exists p' o, tick pc p sig = Ok (p', o)) /\
  (forall p' o, tick pc p sig = Ok (p', o) -> trial_here p' -> trial_here p /\ mcs_of p' = mcs_of p).
Proof.
  intros Hinv Hl. assert (Hok := proj1 Hinv).
  assert (Hsel : forall p5 sl ok i, i = tick_sel_in pc p5 sig sl ok (mcs_of p) -> select (pc_selector pc) (leading p5) i =
    (let* s' := select_demote (pc_selector pc) (select_begin (leading p5) i) i in Ok (s', (current_mcs s', negb (current_mcs s' =? current_mcs (leading p5)))))).
  { intros p5 sl ok i ->. unfold select. cbn [si_loss_demote tick_sel_in]. by rewrite Hl. }
  split.
  - intros Ht. unfold tick. destruct (tick_prepare pc p sig) as [[[p5 sl] r] g] eqn:Ep.
    destruct (tick_prepare_spec _ _ _ _ _ _ _ Hok Ep) as [Hpr _]. apply prepared_trial in Hpr.
    change (current_mcs (leading p)) with (mcs_of p). erewrite Hsel by done.
    set (i := tick_sel_in _ _ _ _ _ _). destruct (off_trial_demote (pc_selector pc) (select_begin (leading p5) i) i) as [s' Es].
    { change (trial_rung (leading p5) <> Some (current_mcs (leading p5))). destruct Hpr as [-> | ->]; done. }
    rewrite Es. cbn [rbind]. destruct (teach_fail _ _), (tick_learn _ _ _ _) as [[? ?] ?]. eauto.
  - intros p' o H Ht. destruct (tick_spec _ _ _ _ _ H) as (p5 & sl & r & g & lead & m & ch & d & Hp & Hs & HL & _).
    destruct (tick_prepare_spec _ _ _ _ _ _ _ Hok Hp) as [Hpr _]. apply prepared_trial in Hpr.
    erewrite Hsel in Hs by done. apply rbind_ok in Hs as (s' & Hs & [= -> _ _]). apply select_demote_trial in Hs.
    unfold trial_here, mcs_of in *. rewrite HL in *. cbn in Hs. destruct Hs as [Hs|[Hs1 Hs2]]; [congruence|].
    change (trial_rung (select_begin _ _)) with (trial_rung (leading p5)) in Hs1. change (current_mcs (select_begin _ _)) with (current_mcs (leading p5)) in Hs2.
    destruct Hpr as [E|E]; [|congruence]. rewrite E in *. change (leading (tick_counters p sig)) with (leading p) in *. split; congruence.
Qed.

(** A run under sustained loss answers, or a flap charge of the rung it began
    on raised. *)
Lemma lossy_run pc p sigs : pol_inv pc p -> Forall (fun sig => sustained_loss pc sig = true) sigs ->
  (exists p', pol_run pc p (map EvTick sigs) = Ok p') \/
  (trial_here p /\ exists x : F, flap_operand (pc_selector pc) x /\ ffinite x = false /\ pol_run pc p (map EvTick sigs) = Err (int_error x)).
Proof.
  intros Hinv Hs. revert p Hinv. induction Hs as [|sig sigs Hl Hs IH]; intros p Hinv; [by left; exists p|]. cbn.
  destruct (lossy_tick pc p sig Hinv Hl) as [Hgo Hkeep].
  destruct (pol_step_safe pc p (EvTick sig) Hinv) as [[[p1 o] H]|(x & Hx & Hf & H)]; cbn in H.
  - rewrite H. cbn. destruct (IH p1) as [Hrun|[Ht Hrun]]; [by eapply (pol_step_inv pc p (EvTick sig))|by left|right].
    by destruct (Hkeep _ _ H Ht) as [? _].
  - right. split; [|exists x; by rewrite H]. unfold trial_here.
    destruct (decide (trial_rung (leading p) = Some (mcs_of p))) as [E|E]; [done|]. destruct (Hgo E) as (? & ? & ?). congruence.
Qed.

(** C12: From any policy reached from boot, for any float arithmetic: over
    windows that all breach the loss threshold, at least cooldown (or one)
    times the rung of them, the policy answers each tick and ends on rung 0;
    unless it stands on a rung still on trial, and then it may instead raise
    the exception of int() on a flap back-off or decay quotient that is not
    finite. *)
Theorem sustained_loss_reaches_floor pc read name p0 p sigs :
  policy_init pc read name = Ok p0 -> rtc (pol_next pc read) p0 p ->
  Forall (fun sig => sustained_loss pc sig = true) sigs ->
  Z.max 1 (demote_cooldown_windows (pc_selector pc)) * mcs_of p <= Z.of_nat (length sigs) ->
  (exists p', pol_run pc p (map EvTick sigs) = Ok p' /\ mcs_of p' = 0) \/
  (trial_rung (leading p) = Some (mcs_of p) /\
   exists x : F, flap_operand (pc_selector pc) x /\ ffinite x = false /\ pol_run pc p (map EvTick sigs) = Err (int_error x)).
Proof.
  intros Hi Hr Hall Hlen. assert (Hinv := pol_reach_inv _ _ _ _ _ Hi Hr). assert (Hw := reach_windows _ _ _ _ _ Hi Hr).
  destruct (lossy_run pc p sigs Hinv Hall) as [[p' Hrun]|H]; [left|by right].
  exists p'. split; [done|].
  destruct (dirty_run pc p sigs p') as [_ Hphi]; [apply Hinv|done..|].
  destruct (pol_run_ok _ _ _ _ Hrun) as [Hok' Hw']; [apply Hinv|done|].
  unfold pol_ok, sel_ok in Hok'. fold (mcs_of p') in Hok'.
  destruct (Z.eq_dec (mcs_of p') 0); [done|]. unfold demote_potential in Hphi. nia.
Qed.
End Runs.
