(* ===== verification/PolicyGates.v ===== *)
(** * The MCS policy: gates, damper and learning

    What a promote needs, stated on the policy and the signals; which rung a
    classified failure is charged to; the high-water confirmation; and, over
    exact arithmetic, the bounded damper and demotes that stick. *)
From Stdlib Require Import ZArith QArith Qpower Lqa Lia Bool String.
From stdpp Require Import base tactics list gmap strings relations.
From S2P Require Import Prelude PyStr Json FloatModels StatsClient Signals LearnedPrior Decision Policy PolicyFacts.
Open Scope Z_scope.

Section Gates.
Context {F : Type} {PF : PyFloat F}.
Implicit Types (pc : PolicyConfig F) (p : Policy F) (sig : Signals F) (cfg : SelectorConfig F) (s : LeadingSelector F).

(** A rung whose knee is not confident is not unviable. *)
Lemma unconfident_viable lc (lp : LearnedPrior F) r v mg :
  snr_rung_confident lc lp (Some r) = false -> snr_rung_unviable lc lp (Some r) v mg = false.
Proof.
  unfold snr_rung_confident, snr_rung_unviable, rung_confident, rung_unviable. destruct v; [|done].
  destruct (out_of_range r); [done|]. by destruct (eff_knee _ _ _).
Qed.

Lemma clean_frame cfg s i :
  clean_dwell (after_clean cfg s i) = clean_dwell s + 1 /\
  last_change_time_ms (after_clean cfg s i) = last_change_time_ms s /\
  snr_w_recent (after_clean cfg s i) = snr_w_recent (select_begin s i).
Proof.
  unfold after_clean, select_clean. set (s1 := select_begin s i <| clean_dwell ::= Z.succ |>).
  set (s2 := confirm _ _ _ _).
  assert (H : clean_dwell s2 = clean_dwell s + 1 /\ last_change_time_ms s2 = last_change_time_ms s /\
              snr_w_recent s2 = snr_w_recent (select_begin s i)).
  { subst s2. unfold confirm, clear_damper. repeat case_match; by repeat split. }
  destruct (trial_rung s2); [|done]. by destruct (_ <=f _).
Qed.

(** The clean-tick bookkeeping clears the damper of the current rung only. *)
Lemma clean_damper cfg s i r :
  r <> current_mcs s ->
  suppress_until_ms (after_clean cfg s i) !! r = suppress_until_ms s !! r /\
  snr_at_last_flap (after_clean cfg s i) !! r = snr_at_last_flap s !! r.
Proof.
  intros Hr. unfold after_clean, select_clean. set (s1 := select_begin s i <| clean_dwell ::= Z.succ |>).
  set (s2 := confirm _ _ _ _).
  assert (H : suppress_until_ms s2 !! r = suppress_until_ms s !! r /\
              snr_at_last_flap s2 !! r = snr_at_last_flap s !! r).
  { assert (Hc : suppress_until_ms s2 = suppress_until_ms (clear_damper cfg s1) /\
                 snr_at_last_flap s2 = snr_at_last_flap (clear_damper cfg s1)).
    { subst s2. unfold confirm. by repeat case_match. }
    destruct Hc as [-> ->]. unfold clear_damper. destruct (_ >=? _); [|done].
    split; apply lookup_delete_ne; by intros <-. }
  destruct (trial_rung s2); [|done]. by destruct (_ <=f _).
Qed.

(** The damper lets [rung] through: its window has run out, the probe has been
    clean long enough, or the raw SNR has stayed above the flap's. *)
Definition damper_open cfg s (recent : list F) (rung : Z) (ts : F) (probe_release : bool) : Prop :=
  (ts >=f default (fofZ 0) (suppress_until_ms s !! rung)) = true \/ probe_release = true \/
  exists laf x l, snr_at_last_flap s !! rung = Some laf /\ recent = x :: l /\
    length recent = RAW_MIN_RELEASE_WINDOW_TICKS /\ (fmin_list x l >=f laf +f flap_snr_release_db cfg) = true.

Lemma suppressed_open cfg s rung ts pr :
  (_suppressed cfg s rung ts pr).2 = false -> damper_open cfg s (snr_w_recent s) rung ts pr.
Proof.
  unfold _suppressed, damper_open. destruct (_ <=f _); [by left|]. destruct pr; [by right; left|].
  destruct (snr_at_last_flap s !! rung) as [laf|]; [|done].
  unfold raw_min_clears. destruct (_ && _) eqn:E; [|done]. intros _. right; right.
  apply andb_true_iff in E as [E1%Nat.eqb_eq E2]. destruct (snr_w_recent s) as [|x l]; [done|]. by eauto 10.
Qed.

(** *** Snap-back *)

Lemma snapback_scan_sound cfg s e ts best items r :
  snapback_scan cfg s e ts best items = Ok (Some r) ->
  best = Some r \/
  exists u c, (r, u) ∈ items /\ (u <f ts) = false /\ r <= cap_mcs cfg /\ confirmed_snr s !! r = Some c /\
    (e >=f c -f snapback_recover_margin_db cfg) = true.
Proof.
  revert best. induction items as [|[r' u] items IH]; intros best H; cbn in H; [left; congruence|].
  destruct (_ || _) eqn:E1.
  { apply IH in H as [?|(u' & c & ? & ?)]; [by left|right]. exists u', c. split; [by right|done]. }
  apply orb_false_iff in E1 as [E1 E2]. rewrite Z.gtb_ltb, Z.ltb_ge in E2.
  destruct (confirmed_snr s !! r') as [c|] eqn:Ec; [|done].
  apply IH in H as [H|(u' & c' & ? & ?)]; [|right; exists u', c'; split; [by right|done]].
  destruct (_ <=f _) eqn:Es; [|by left].
  assert (Hr : best = Some r \/ r = r').
  { destruct best as [b|]; [destruct (_ >? _)|]; simplify_eq; auto. }
  destruct Hr as [?| ->]; [by left|right]. exists u, c. split; [by left|done].
Qed.

(** A live confirmation of [r] whose SNR is back within the margin. *)
Definition confirmed_near cfg s (e ts : F) (r : Z) : Prop :=
  exists u c, confirmed_until_ms s !! r = Some u /\ (u <f ts) = false /\ r <= cap_mcs cfg /\
    confirmed_snr s !! r = Some c /\ (e >=f c -f snapback_recover_margin_db cfg) = true.

Lemma snapback_target_sound cfg s e ts r :
  _snapback_target cfg s e ts = Ok (Some r) -> confirmed_near cfg s e ts r.
Proof.
  intros H. apply snapback_scan_sound in H as [?|(u & c & Hin & ?)]; [done|].
  apply elem_of_map_to_list in Hin. by exists u, c.
Qed.

Lemma clean_confirmed cfg s i r :
  r <> current_mcs s ->
  confirmed_until_ms (after_clean cfg s i) !! r = confirmed_until_ms s !! r /\
  confirmed_snr (after_clean cfg s i) !! r = confirmed_snr s !! r.
Proof.
  intros Hr. unfold after_clean, select_clean. set (s1 := select_begin s i <| clean_dwell ::= Z.succ |>).
  set (s2 := confirm _ _ _ _).
  assert (H : confirmed_until_ms s2 !! r = confirmed_until_ms s !! r /\ confirmed_snr s2 !! r = confirmed_snr s !! r).
  { assert (Hd : same_conf s (clear_damper cfg s1) /\ current_mcs (clear_damper cfg s1) = current_mcs s)
      by (unfold clear_damper; by case_match).
    destruct Hd as [[Hu Hs] Hm]. subst s2.
    destruct (confirm_cases cfg (clear_damper cfg s1) (si_snr_ewma i) (si_ts_ms i)) as [->|(v & _ & _ & -> & ->)].
    - by rewrite Hu, Hs.
    - rewrite Hm, Hu, Hs. split; apply lookup_insert_ne; by intros <-. }
  destruct (trial_rung s2); [|done]. by destruct (_ <=f _).
Qed.

(** The raw-SNR window after this call's sample. *)
Definition recent_with s (w : option F) : list F :=
  match w with Some x => deque_push RAW_MIN_RELEASE_WINDOW_TICKS (snr_w_recent s) x | None => snr_w_recent s end.

(** C3: From a policy whose rung is in range, a tick that raises the rung
    raises it by one, within the cap, and has passed these gates: no sustained
    loss, no FEC emergency, no sustained starvation, no probe veto on the next
    rung, headroom over its confident knee, the rate limit between changes, an
    open damper; and one of the two routes: a rung above confirmed recently
    and recovered to within the margin, with an SNR that is not falling, or a
    full clean dwell with the hold elapsed and a slope of at least
    promote_slope_min. *)
Theorem promote_passes_gates pc p sig p' o :
  pol_ok pc p -> tick pc p sig = Ok (p', o) -> mcs_of p < mcs_of p' ->
  let cfg := pc_selector pc in
  let target := mcs_of p + 1 in
  let ts := ts_ms_of sig in
  let slope := default (fofZ 0) (tick_slope pc p sig).2 in
  mcs_of p' = target /\ target <= max_mcs cfg /\
  sustained_loss pc sig = false /\ (fec_work sig >=f emergency_fec_pressure cfg) = false /\
  sustained_starved pc (tick_counters p sig) = false /\
  probe_veto_of sig target = false /\
  snr_rung_unviable (pc_prior pc) (learned_prior p) (Some target) (snr sig)
    (fopp (snr_promote_margin_db cfg)) = false /\
  since_change (leading p) ts (min_between_changes_ms cfg) = true /\
  damper_open cfg (leading p) (recent_with (leading p) (snr_w sig)) target ts
    (probe_clean_ticks p' >=? PROBE_CLEAN_RELEASE_TICKS) /\
  exists e, snr sig = Some e /\
    ((exists r, mcs_of p < r /\ confirmed_near cfg (leading p) e ts r /\ (slope >=f fofZ 0) = true) \/
     (promote_dwell_ticks cfg <= clean_dwell (leading p) + 1 /\
      since_change (leading p) ts (hold_modes_down_ms cfg) = true /\ (slope >=f promote_slope_min cfg) = true)).
Proof.
  intros Hok H Hlt. cbv zeta.
  destruct (tick_cases _ _ _ _ _ H Hok) as (_ & _ & _ & [?|[[? _]|(Hm & p5 & sl & r & g & Hp & L5 & P5 & C5 & Hd & Hg)]]);
    [lia|lia|]. cbv zeta in Hd, Hg. set (i := tick_sel_in _ _ _ _ _ _) in *. set (cfg := pc_selector pc) in *.
  destruct Hg as (Hcap & Hveto & Hrate & Hsup & e & He & Hroute).
  assert (Hmc := after_clean_mcs cfg (leading p) i). fold (mcs_of p) in Hmc. rewrite Hmc in *.
  destruct (clean_frame cfg (leading p) i) as (Hdw & Hlc & Hrec).
  apply suppressed_open in Hsup. unfold damper_open in Hsup. rewrite Hrec in Hsup.
  destruct (clean_damper cfg (leading p) i (mcs_of p + 1)) as [Hsu Hsf]; [unfold mcs_of; lia|].
  rewrite Hsu, Hsf in Hsup.
  unfold dirty, _emergency_active in Hd. apply orb_false_iff in Hd as [Hd1 [Hd2 Hd3]%orb_false_iff].
  destruct (tick_prepare_spec _ _ _ _ _ _ _ Hok Hp) as ((_ & S5 & _) & Hsl).
  assert (Hbl : promote_blocked pc p5 sig = false).
  { destruct Hroute as [(rr & _ & _ & _ & Hb)|(_ & _ & _ & [Hc|Hb])]; [exact Hb| |exact Hb].
    by apply unconfident_viable. }
  unfold promote_blocked in Hbl. rewrite P5, L5 in Hbl.
  split; [done|]. split; [unfold cap_mcs in Hcap; lia|]. split; [exact Hd1|]. split; [exact Hd2|].
  split; [change (sustained_starved pc p5 = false) in Hd3; unfold sustained_starved in *; by rewrite <- S5|].
  split; [change (probe_veto_of sig (mcs_of p5 + 1) = false) in Hveto; unfold mcs_of in *; by rewrite L5 in Hveto|].
  split; [exact Hbl|].
  unfold since_change in *. rewrite Hlc in Hrate. split; [exact Hrate|].
  split; [rewrite C5; exact Hsup|].
  exists e. split; [exact He|]. unfold route_snapback, route_climb in Hroute. change (si_slope i) with sl in Hroute. rewrite Hsl in Hroute.
  destruct Hroute as [(rr & Hsb & Hrr & Hs0 & _)|(Hh & Hdwl & Hs0 & _)]; [left|right].
  - exists rr. rewrite Hmc in Hrr. split; [exact Hrr|]. apply snapback_target_sound in Hsb.
    unfold confirmed_near in *.
    destruct (clean_confirmed cfg (leading p) i rr) as [<- <-]; [unfold mcs_of in *; lia|]. by split.
  - split; [lia|]. unfold since_change in Hh. rewrite Hlc in Hh. by split.
Qed.

(** *** Which failures teach the prior *)

Lemma charge_flap_fail cfg s r e ts s' : _charge_flap cfg s r e ts = Ok s' -> last_fail s' = last_fail s.
Proof. unfold _charge_flap. intros (eff & _ & (b & _ & [= <-])%rbind_ok)%rbind_ok. done. Qed.

Lemma commit_fail cfg s m w ts : last_fail (commit cfg s m w ts) = last_fail s.
Proof. unfold commit. by case_match. Qed.

Lemma classify_fade cfg s r e w ts :
  _classify cfg s r e w ts = Fade ->
  exists ev wv, e = Some ev /\ w = Some wv /\ (wv <=f ev -f collapse_delta_db cfg) = true.
Proof. unfold _classify. repeat case_match; naive_solver. Qed.

Lemma classify_flap cfg s r e w ts : _classify cfg s r e w ts = Flap -> on_trial s r ts = true.
Proof. unfold _classify. repeat case_match; naive_solver. Qed.

Lemma demote_on_loss_fail cfg s i s' r c v :
  demote_on_loss cfg s i = Ok s' -> last_fail s = None -> last_fail s' = Some (r, c, v) ->
  r = current_mcs s /\ current_mcs s' <> r /\
  ((c = Fade /\ si_snr_w i = Some v /\
    exists e, si_snr_ewma i = Some e /\ (v <=f e -f collapse_delta_db cfg) = true) \/
   (c = Flap /\ si_snr_ewma i = Some v /\ on_trial s r (si_ts_ms i) = true)).
Proof.
  intros H Hn Hf. assert (Hm := demote_on_loss_mcs _ _ _ _ H). unfold demote_on_loss in H.
  set (s1 := commit _ _ _ _ _) in *.
  assert (H1 : last_fail s1 = None) by (subst s1; by rewrite commit_fail).
  assert (Hm1 : current_mcs s1 = current_mcs s') by (subst s1; by rewrite commit_mcs).
  destruct (_ =? _) eqn:E; [injection H as <-; congruence|]. apply Z.eqb_neq in E. rewrite Hm1 in E.
  set (s2 := match _classify _ _ _ _ _ _ with Fade => _ | _ => _ end) in *.
  assert (Hf2 : last_fail s2 = Some (r, c, v)).
  { destruct (on_trial _ _ _); [|by injection H as <-]. by rewrite <- (charge_flap_fail _ _ _ _ _ _ H). }
  clear H Hf. subst s2.
  destruct (_classify cfg s (current_mcs s) (si_snr_ewma i) (si_snr_w i) (si_ts_ms i)) eqn:K.
  - apply classify_fade in K as (e & w & He & Hw & Hc). rewrite Hw in Hf2. injection Hf2 as <- <- <-.
    split; [done|]. split; [done|]. left. by eauto.
  - apply classify_flap in K. destruct (si_snr_ewma i) as [e|]; [|congruence]. injection Hf2 as <- <- <-.
    split; [done|]. split; [done|]. by right.
  - congruence.
Qed.

Lemma promote_route_fail cfg s i e sl s' : promote_route cfg s i e sl = Ok s' -> last_fail s' = last_fail s.
Proof.
  unfold promote_route. intros (sb & _ & [= <-])%rbind_ok.
  trans (last_fail (s <| snapback_tgt := sb |>)); [|done]. repeat case_match; done || apply commit_fail.
Qed.

Lemma select_promote_fail cfg s i s' : select_promote cfg s i = Ok s' -> last_fail s' = last_fail s.
Proof.
  unfold select_promote. destruct (si_snr_ewma i) as [e|]; [|by intros [= <-]].
  destruct (_ >? _); [by intros [= <-]|].
  assert (H1 : last_fail (_suppressed cfg s (current_mcs s + 1) (si_ts_ms i) (si_probe_release i)).1 = last_fail s)
    by (unfold _suppressed; by repeat case_match).
  destruct (_suppressed _ _ _ _ _) as [s1 held]. cbn [fst] in H1.
  intros (s3 & H3 & [= <-])%rbind_ok. trans (last_fail s3); [by destruct (current_mcs s3 >? _)|].
  destruct (_ && _ && _); [|by injection H3 as <-].
  apply promote_route_fail in H3. by rewrite H3.
Qed.

Lemma after_clean_fail cfg s i : last_fail (after_clean cfg s i) = None.
Proof.
  unfold after_clean, select_clean. set (s2 := confirm _ _ _ _).
  assert (H : last_fail s2 = None) by (subst s2; unfold confirm, clear_damper; by repeat case_match).
  destruct (trial_rung s2); [|done]. by destruct (_ <=f _).
Qed.

(** A failure sample is reported only by a loss demote that left the rung
    it names: as a fade with the collapsed raw SNR, or as a flap with the
    smoothed SNR on a rung still on probation. *)
Theorem failure_attribution cfg s i s' m ch r c v :
  select cfg s i = Ok (s', (m, ch)) -> last_fail s' = Some (r, c, v) ->
  r = current_mcs s /\ m <> r /\ si_loss_demote i = true /\ si_can_demote i = true /\
  ((c = Fade /\ si_snr_w i = Some v /\
    exists e, si_snr_ewma i = Some e /\ (v <=f e -f collapse_delta_db cfg) = true) \/
   (c = Flap /\ si_snr_ewma i = Some v /\ on_trial s r (si_ts_ms i) = true)).
Proof.
  unfold select. intros (s1 & H & [= <- <- <-])%rbind_ok Hf. destruct (_ || _).
  - unfold select_demote in H. apply rbind_ok in H as (s2 & H2 & [= <-]).
    change (current_mcs (select_begin s i)) with (current_mcs s) in H2.
    set (s3 := if _ =? _ then s2 else _) in *.
    assert (Hf2 : last_fail s2 = Some (r, c, v)) by (subst s3; by destruct (_ =? _)).
    assert (Hm3 : current_mcs (s3 <| clean_dwell := 0 |>) = current_mcs s2) by (subst s3; by destruct (_ =? _)).
    rewrite Hm3. destruct (si_can_demote i); [|injection H2 as <-; done].
    destruct (si_loss_demote i).
    + destruct (demote_on_loss_fail _ _ _ _ _ _ _ H2 eq_refl Hf2) as (-> & ? & ?). done.
    + injection H2 as <-. by rewrite commit_fail in Hf2.
  - fold (after_clean cfg s i) in H. apply select_promote_fail in H.
    rewrite after_clean_fail in H. congruence.
Qed.

(** *** High-water confirmation *)

Lemma select_clean_confirm cfg s i :
  let s1 := clear_damper cfg (select_begin s i <| clean_dwell ::= Z.succ |>) in
  same_conf (confirm cfg s1 (si_snr_ewma i) (si_ts_ms i)) (after_clean cfg s i) /\
  same_conf s s1 /\ current_mcs s1 = current_mcs s.
Proof.
  cbv zeta. unfold after_clean, select_clean. set (s1 := clear_damper _ _).
  assert (H : same_conf s s1 /\ current_mcs s1 = current_mcs s) by (subst s1; unfold clear_damper; by case_match).
  split; [|done]. destruct (trial_rung _); [|done]. by destruct (_ <=f _).
Qed.

(** While a rung's confirmation is live, no select lowers the SNR it was
    confirmed at. *)
Theorem confirmation_high_water {num : F -> Prop} {PO : PyFloatOrder F num} cfg s i s' m ch r u c :
  select cfg s i = Ok (s', (m, ch)) ->
  confirmed_until_ms s !! r = Some u -> (si_ts_ms i <=f u) = true ->
  confirmed_snr s !! r = Some c -> num c -> (forall e, si_snr_ewma i = Some e -> num e) ->
  exists c', confirmed_snr s' !! r = Some c' /\ (c <=f c') = true.
Proof.
  unfold select. intros (s1 & H & [= <- _ _])%rbind_ok Hu Hts Hc Hnc Hne.
  destruct (_ || _).
  - apply select_demote_conf in H as [_ ->]. exists c. split; [done|]. by apply fleb_refl.
  - apply select_promote_conf in H as [_ ->].
    destruct (select_clean_confirm cfg s i) as ([_ Hac] & [Hu1 Hs1] & Hm1).
    unfold after_clean in Hac. rewrite Hac. set (sd := clear_damper _ _) in *.
    destruct (confirm_cases cfg sd (si_snr_ewma i) (si_ts_ms i)) as [->|(v & Hv & _ & _ & ->)].
    { rewrite Hs1. exists c. split; [done|]. by apply fleb_refl. }
    rewrite Hm1, Hs1, Hu1. destruct (decide (current_mcs s = r)) as [<-|Hr].
    + rewrite lookup_insert_eq, Hc, Hu. change (default (fofZ 0) (Some u)) with u. rewrite Hts. eexists. split; [done|].
      apply fmax_ge_l; [done|]. by apply Hne.
    + rewrite lookup_insert_ne by done. exists c. split; [done|]. by apply fleb_refl.
Qed.

(** *** A new session *)

(** A reset session is a fresh policy that keeps what was learned. *)
Theorem reset_is_fresh pc p p' read name q :
  reset_for_new_session pc p = Ok p' -> policy_init pc read name = Ok q ->
  p' = q <| profile_name := profile_name p |> <| learned_prior := learned_prior p |>.
Proof.
  unfold reset_for_new_session, policy_init. intros (l & Hl & [= <-])%rbind_ok.
  intros (l' & Hl' & (lp & _ & ([] & _ & [= <-])%rbind_ok)%rbind_ok)%rbind_ok.
  rewrite Hl in Hl'. injection Hl' as <-. done.
Qed.

(** The fast path either does nothing (no change, no log entry, no file)
    or demotes exactly one rung under the cooldown on a breaching loss, and
    never touches the starvation counter. *)
Theorem fast_path_only_demotes pc p sig lat p' o :
  pol_ok pc p -> loss_event pc p sig lat = Ok (p', o) ->
  starvation_count p' = starvation_count p /\
  match o_decision o with
  | None => mcs_of p' = mcs_of p /\ windows_since_demote p' = windows_since_demote p /\
            o_flight o = [] /\ o_files o = []
  | Some d => d_mcs d = mcs_of p - 1 /\ mcs_of p' = mcs_of p - 1 /\ windows_since_demote p' = 0 /\
              demote_cooldown_windows (pc_selector pc) <= windows_since_demote p /\
              (residual_loss_w sig <f video_demote_per (pc_selector pc)) = false
  end.
Proof.
  intros Hok H. apply loss_event_cases in H as (_ & H); [|done].
  destruct H as [(-> & ?)|(? & ? & ? & ? & ? & d & -> & ->)]; naive_solver.
Qed.
End Gates.

(* ------------------------------------------------------------------ *)
(** ** Exact arithmetic *)

Section Exact.
Implicit Types (cfg : SelectorConfig Q) (s : LeadingSelector Q).

Lemma Q_trunc_ge z (x : Q) : 0 <= z -> (inject_Z z <= x)%Q -> z <= Q_trunc x.
Proof.
  unfold Q_trunc, Qle. destruct x as [n d]. cbn. intros Hz H.
  rewrite Z.quot_div_nonneg by lia. apply Z.div_le_lower_bound; lia.
Qed.

Lemma Qpower_ge_1 (x : Q) n : (1 <= x)%Q -> 0 <= n -> (1 <= Qpower x n)%Q.
Proof.
  intros Hx Hn. pattern n. apply natlike_ind; [|clear n Hn; intros n Hn IH|done]; [apply Qle_refl|].
  unfold Z.succ. rewrite Qpower_plus' by lia. change (Qpower x 1) with x. nra.
Qed.

Lemma flap_backoff_bounds cfg level b :
  0 <= flap_base_backoff_ms cfg -> (1 <= flap_backoff_mult cfg)%Q -> 1 <= level ->
  _flap_backoff_ms cfg level = Ok b ->
  Z.min (flap_base_backoff_ms cfg) (flap_backoff_cap_ms cfg) <= b <= flap_backoff_cap_ms cfg.
Proof.
  intros Hb Hm Hl. unfold _flap_backoff_ms. intros (ms & Hms & [= <-])%rbind_ok.
  cut (flap_base_backoff_ms cfg <= ms); [lia|]. unfold int_of_float in Hms. cbn [ffinite PyFloat_Q] in Hms.
  injection Hms as <-. apply Q_trunc_ge; [done|]. rewrite !Qred_correct.
  replace (Q_trunc (inject_Z (Z.min (level - 1) 40))) with (Z.min (level - 1) 40)
    by (unfold Q_trunc; cbn; by rewrite Z.quot_1_r).
  assert (H1 := Qpower_ge_1 (flap_backoff_mult cfg) (Z.min (level - 1) 40) Hm ltac:(lia)).
  assert (H0 : (0 <= inject_Z (flap_base_backoff_ms cfg))%Q) by (change 0%Q with (inject_Z 0); by rewrite <- Zle_Qle).
  nra.
Qed.

Lemma effective_level_nonneg cfg s r ts l :
  0 <= default 0 (flap_level s !! r) -> _effective_flap_level cfg s r ts = Ok l -> 0 <= l.
Proof.
  intros H. unfold _effective_flap_level. destruct (last_flap_ms s !! r); [|by intros [= <-]].
  case_match; [|by intros [= <-]]. intros (quiet & _ & [= <-])%rbind_ok. lia.
Qed.

(** A charged flap holds its rung for at least the smaller of the base
    and the cap back-off, and never beyond the cap. *)
Theorem damper_window cfg s r e ts s' :
  0 <= flap_base_backoff_ms cfg -> (1 <= flap_backoff_mult cfg)%Q -> 0 <= default 0 (flap_level s !! r) ->
  (length (snr_w_recent s) < RAW_MIN_RELEASE_WINDOW_TICKS)%nat ->
  _charge_flap cfg s r e ts = Ok s' ->
  forall ts' : Q,
  ((0 < ts' < ts + inject_Z (Z.min (flap_base_backoff_ms cfg) (flap_backoff_cap_ms cfg)))%Q ->
   (_suppressed cfg s' r ts' false).2 = true) /\
  ((ts + inject_Z (flap_backoff_cap_ms cfg) <= ts')%Q -> forall pr, (_suppressed cfg s' r ts' pr).2 = false).
Proof.
  intros Hb Hm Hl Hrec. unfold _charge_flap. intros (eff & Heff & (b & Hbk & [= <-])%rbind_ok)%rbind_ok ts'.
  apply effective_level_nonneg in Heff; [|done].
  apply flap_backoff_bounds in Hbk as [Hlo Hhi]; [|done|done|lia].
  rewrite Zle_Qle in Hlo, Hhi. set (s' := s <| flap_level ::= _ |> <| last_flap_ms ::= _ |>
    <| suppress_until_ms ::= _ |> <| snr_at_last_flap ::= _ |>).
  assert (Hu : suppress_until_ms s' !! r = Some (ts +f fofZ b)) by (apply (lookup_insert_eq (suppress_until_ms s))).
  unfold _suppressed. rewrite Hu. change (default (fofZ 0) (Some (ts +f fofZ b))) with (ts +f fofZ b).
  assert (Hsum : (ts +f fofZ b == ts + inject_Z b)%Q) by apply Q_add_eq.
  split; intros Ht.
  - destruct (_ <=f ts') eqn:E.
    { cbn [fleb PyFloat_Q] in E. apply Qle_bool_iff in E. rewrite Hsum in E. lra. }
    destruct (snr_at_last_flap s' !! r); [|done].
    unfold raw_min_clears. change (snr_w_recent s') with (snr_w_recent s).
    destruct (_ =? _)%nat eqn:E2; [apply Nat.eqb_eq in E2; lia|]. done.
  - intros pr. destruct (_ <=f ts') eqn:E; [done|].
    cbn [fleb PyFloat_Q] in E. rewrite <- not_true_iff_false, Qle_bool_iff, Hsum in E. lra.
Qed.

(** A predictive or SNR demote is neither undone nor doubled by the
    select of the same tick. *)
Theorem prepared_demote_sticks (pc : PolicyConfig Q) p sig p5 slope r g p' o :
  pol_ok pc p -> 0 < min_between_changes_ms (pc_selector pc) ->
  tick_prepare pc p sig = (p5, slope, r, g) -> mcs_of p5 < mcs_of p ->
  tick pc p sig = Ok (p', o) -> mcs_of p' = mcs_of p - 1.
Proof.
  intros Hok Hmin Hp Hlt H.
  destruct (tick_spec _ _ _ _ _ H) as (q5 & sl' & r' & g' & lead & m & ch & d & Hq & Hsel & HL & _).
  rewrite Hp in Hq. injection Hq as <- <- <- <-.
  destruct (tick_prepare_spec _ _ _ _ _ _ _ Hok Hp) as ((_ & _ & _ & L5) & _).
  change (mcs_of (tick_counters p sig)) with (mcs_of p) in L5.
  change (leading (tick_counters p sig)) with (leading p) in L5.
  destruct L5 as [L5|(_ & Hm5 & L5)]; [unfold mcs_of in *; rewrite L5 in Hlt; lia|].
  assert (Hok5 : sel_ok (pc_selector pc) (leading p5)) by (rewrite L5; by apply external_demote_ok).
  assert (Hm' : mcs_of p' = m).
  { unfold mcs_of. rewrite HL. by destruct (select_cases _ _ _ _ _ _ Hsel Hok5) as (-> & _). }
  rewrite Hm'. fold (mcs_of p5) in Hm5.
  destruct (select_cases _ _ _ _ _ _ Hsel Hok5) as (_ & _ & [Hm|[(Hm & _ & Hcan)|(Hm & _ & Hg)]]);
    fold (mcs_of p5) in Hm; [lia| |exfalso].
  - cbn [tick_sel_in si_can_demote] in Hcan. fold (mcs_of p5) in Hcan. breflect. lia.
  - destruct Hg as (_ & _ & Hrate & _). set (i := tick_sel_in _ _ _ _ _ _) in *.
    destruct (clean_frame (pc_selector pc) (leading p5) i) as (_ & Hlc & _).
    unfold since_change in Hrate. rewrite Hlc, L5 in Hrate.
    unfold external_demote in Hrate. destruct (_ =? _) eqn:E.
    { apply Z.eqb_eq in E. unfold mcs_of in *. rewrite L5, external_demote_mcs, E in Hm5. lia. }
    change (last_change_time_ms _) with (ts_ms_of sig) in Hrate. change (si_ts_ms i) with (ts_ms_of sig) in Hrate.
    apply negb_true_iff in Hrate. cbn [fltb PyFloat_Q] in Hrate. apply negb_false_iff, Qle_bool_iff in Hrate.
    assert (Hz : (ts_ms_of sig -f ts_ms_of sig == 0)%Q) by (rewrite Q_sub_eq; ring).
    rewrite Hz in Hrate. change 0%Q with (inject_Z 0) in Hrate. cbn [fofZ PyFloat_Q] in Hrate.
    rewrite <- Zle_Qle in Hrate. lia.
Qed.
End Exact.
