(* ===== verification/Controller.v ===== *)
(** * The dynamic-link controller (gs/fpvdgs/dynlink/controller.py)

    The event loop's handlers: tap records, stats events and the connection
    edges drive the aggregator and the policy, and every decision leaves as one
    sequenced packet.  The tap, when alive, owns folding and ticking; the stats
    feed is the fallback.  Clock readings and the probe snapshot are inputs of a
    handler; packets, flight-log calls and file writes are its outputs.  The
    thread and its lifecycle are not part of the model. *)
From Stdlib Require Import ZArith Lia Bool String.
From stdpp Require Import base tactics list gmap strings relations.
From S2P Require Import Prelude PyStr Json Bytes StatsClient TapWire Probe Signals LearnedPrior Decision Wire Policy PolicyFacts.
Open Scope Z_scope.

(** The controller's snapshot as the loop reads it. *)
Record CtlConfig (F : Type) := mkCtlCfg {
  cc_policy : PolicyConfig F;
  cc_tap_stale_s : F;
  cc_link_width : Z
}.
Arguments mkCtlCfg {F}.
Arguments cc_policy {F} _.
Arguments cc_tap_stale_s {F} _.
Arguments cc_link_width {F} _.

(** The loop's variables and the published status. *)
Record Ctl (F : Type) := mkCtl {
  ct_policy : Policy F;
  ct_agg : SignalAggregator F;
  ct_enc : Encoder;
  ct_last_rx : option F;
  ct_micros : Z;
  ct_tapActive : bool;
  ct_decision : option Z;
  ct_reason : list (reason F);
  ct_lastEmitMs : option Z;
  ct_emitSeq : Z
}.
Arguments mkCtl {F}.
Arguments ct_policy {F} _.
Arguments ct_agg {F} _.
Arguments ct_enc {F} _.
Arguments ct_last_rx {F} _.
Arguments ct_micros {F} _.
Arguments ct_tapActive {F} _.
Arguments ct_decision {F} _.
Arguments ct_reason {F} _.
Arguments ct_lastEmitMs {F} _.
Arguments ct_emitSeq {F} _.
#[export] Instance eta_Ctl F : Settable (Ctl F) := fun r =>
  mkCtl (ct_policy r) (ct_agg r) (ct_enc r) (ct_last_rx r) (ct_micros r) (ct_tapActive r)
    (ct_decision r) (ct_reason r) (ct_lastEmitMs r) (ct_emitSeq r).

(** The clock readings of one handler call, in the order it takes them. *)
Record Clock (F : Type) := mkClock {
  ck_alive : F;  (** [time.monotonic()] in [_tap_alive] *)
  ck_rx : F;     (** [time.monotonic()] stored as the last reception *)
  ck_wall : F;   (** [time.time()] *)
  ck_t0 : F; ck_t1 : F;  (** around [consume_loss] *)
  ck_emit : F; ck_emit_tick : F  (** in [_emit]: fast path, tick *)
}.
Arguments mkClock {F}.
Arguments ck_alive {F} _.
Arguments ck_rx {F} _.
Arguments ck_wall {F} _.
Arguments ck_t0 {F} _.
Arguments ck_t1 {F} _.
Arguments ck_emit {F} _.
Arguments ck_emit_tick {F} _.

Inductive flight_op (F : Type) := FL_write (e : flight_entry F) | FL_begin | FL_sync.
Arguments FL_write {F} e.
Arguments FL_begin {F}.
Arguments FL_sync {F}.

Record CtlOut (F : Type) := mkCOut {
  sent : list (list Z);
  flight_ops : list (flight_op F);
  files : list (string * json F)
}.
Arguments mkCOut {F}.
Arguments sent {F} _.
Arguments flight_ops {F} _.
Arguments files {F} _.

Definition no_out {F} : CtlOut F := mkCOut [] [] [].
Definition out_app {F} (a b : CtlOut F) : CtlOut F :=
  mkCOut (sent a ++ sent b) (flight_ops a ++ flight_ops b) (files a ++ files b).

Section Ops.
Context {F : Type} {PF : PyFloat F}.
Variable cc : CtlConfig F.
Implicit Types (st : Ctl F) (ck : Clock F).

Definition ctl_init (policy : Policy F) (agg : SignalAggregator F) (emit_seq : Z) : Ctl F :=
  mkCtl policy agg (mkEncoder 1) None 0 false None [] None emit_seq.

Definition _is_video (id : string) : bool := contains "video" (lower id).

Definition _tap_alive st (now : F) : bool :=
  match ct_last_rx st with
  | Some lr => (now -f lr) <f cc_tap_stale_s cc
  | None => false
  end.

(** [_emit]: the packet handed to the return link, and the status update. *)
Definition _emit st (d : Decision F) (now : F) : res (Ctl F * CtlOut F) :=
  let '(enc, pkt) := encoder_encode (ct_enc st) d None in
  let* buf := pkt in
  let* ms := int_of_float (now *f fofZ 1000) in
  Ok (st <| ct_enc := enc |> <| ct_decision := Some (d_mcs d) |> <| ct_reason := d_reason d |>
         <| ct_lastEmitMs := Some ms |> <| ct_emitSeq ::= Z.succ |>,
      mkCOut [buf] [] []).

Definition set_signals st (f : Signals F -> Signals F) : Ctl F :=
  st <| ct_agg ::= (fun a => a <| signals ::= f |>) |>.

Definition _mark_tap_rx st ck : Ctl F :=
  let was := _tap_alive st (ck_alive ck) in
  let st1 := st <| ct_last_rx := Some (ck_rx ck) |> in
  if was then st1
  else set_signals (st1 <| ct_micros := 0 |> <| ct_agg ::= reset_micro_window |>)
         (fun s => s <| tap_active := true |>)
         <| ct_tapActive := true |>.

(** A policy operation's outcome, emitted when it decided. *)
Definition emit_if st (r : res (Policy F * Outputs F)) (now : F) : res (Ctl F * CtlOut F) :=
  let* (p, o) := r in
  let st1 := st <| ct_policy := p |> in
  let out := mkCOut [] (map FL_write (o_flight o)) (o_files o) in
  match o_decision o with
  | Some d => let* (st2, e) := _emit st1 d now in Ok (st2, out_app out e)
  | None => Ok (st1, out)
  end.

Definition do_loss_event st (latency : option F) (now : F) : res (Ctl F * CtlOut F) :=
  emit_if st (loss_event (cc_policy cc) (ct_policy st) (signals (ct_agg st)) latency) now.

(** Stamp the probe snapshot on the shared signals, then tick. *)
Definition do_tick st (probe_snapshot : option (gmap Z (ProbeReading F))) (now : F) : res (Ctl F * CtlOut F) :=
  let st1 := set_signals st (fun s => s <| probe := probe_snapshot |>) in
  emit_if st1 (tick (cc_policy cc) (ct_policy st1) (signals (ct_agg st1))) now.

Definition on_micro st (rec : TapMicro) (probe_snapshot : option (gmap Z (ProbeReading F))) ck
    : res (Ctl F * CtlOut F) :=
  let st1 := _mark_tap_rx st ck in
  let st2 := st1 <| ct_agg ::= (fun a => consume_micro a rec (ck_wall ck)) |> in
  let* (st3, o1) := if negb (tm_pkt_lost rec =? 0) then do_loss_event st2 None (ck_emit ck)
                    else Ok (st2, no_out) in
  let st4 := st3 <| ct_micros ::= Z.succ |> in
  let* (st5, o2) := if ct_micros st4 mod 10 =? 0 then do_tick st4 probe_snapshot (ck_emit_tick ck)
                    else Ok (st4, no_out) in
  Ok (st5, out_app o1 o2).

Definition on_loss st (rec : TapLoss) ck : res (Ctl F * CtlOut F) :=
  let st1 := _mark_tap_rx st ck in
  let st2 := st1 <| ct_agg ::= (fun a => consume_loss a rec (ck_wall ck)) |> in
  do_loss_event st2 (Some ((ck_t1 ck -f ck_t0 ck) *f fofZ 1000)) (ck_emit ck).

Definition on_event st (ev : Event F) (probe_snapshot : option (gmap Z (ProbeReading F))) ck
    : res (Ctl F * CtlOut F) :=
  match ev with
  | EvSession e =>
      Ok (if _is_video (ses_id e) then st <| ct_agg ::= (fun a => update_session a (ses_session e)) |> else st,
          no_out)
  | EvRx e =>
      if negb (_is_video (rx_id e)) then Ok (st, no_out)
      else
        let st1 := match rx_session e with
                   | Some ses => st <| ct_agg ::= (fun a => update_session a ses) |>
                   | None => st
                   end in
        if _tap_alive st1 (ck_alive ck) then Ok (st1, no_out)
        else
          let st2 := if tap_active (signals (ct_agg st1))
                     then set_signals st1 (fun s => s <| tap_active := false |>) <| ct_tapActive := false |>
                     else st1 in
          let st3 := st2 <| ct_agg ::= (fun a => consume a e) |> in
          do_tick st3 probe_snapshot (ck_emit_tick ck)
  | _ => Ok (st, no_out)
  end.

(** [_connected_inloop] with [_bind_calibration]: the adapter id of the payload,
    if it has one. *)
Definition _connected_inloop st (read : string -> file_read F) (adapter : option string) : res (Ctl F * CtlOut F) :=
  let st1 := st <| ct_agg ::= reset_smoothed |> in
  let* p1 := match adapter with
             | Some a => if String.eqb a "" then Ok (ct_policy st1)
                         else bind_learned_prior (cc_policy cc) read (ct_policy st1) a (cc_link_width cc)
             | None => Ok (ct_policy st1)
             end in
  let* p2 := reset_for_new_session (cc_policy cc) p1 in
  Ok (st1 <| ct_policy := p2 |>, mkCOut [] [FL_begin] []).

Definition _disconnected_inloop st : Ctl F * CtlOut F :=
  (st, mkCOut [] [FL_sync] (flush (pc_prior (cc_policy cc)) (learned_prior (ct_policy st)))).

(** ** Runs *)

Inductive ctl_in :=
| InMicro (rec : TapMicro) (probe_snapshot : option (gmap Z (ProbeReading F))) (ck : Clock F)
| InLoss (rec : TapLoss) (ck : Clock F)
| InEvent (ev : Event F) (probe_snapshot : option (gmap Z (ProbeReading F))) (ck : Clock F)
| InConnected (read : string -> file_read F) (adapter : option string)
| InDisconnected.

Definition ctl_step st (i : ctl_in) : res (Ctl F * CtlOut F) :=
  match i with
  | InMicro rec pr ck => on_micro st rec pr ck
  | InLoss rec ck => on_loss st rec ck
  | InEvent ev pr ck => on_event st ev pr ck
  | InConnected read a => _connected_inloop st read a
  | InDisconnected => Ok (_disconnected_inloop st)
  end.

Fixpoint ctl_run st (l : list ctl_in) : res (Ctl F * CtlOut F) :=
  match l with
  | [] => Ok (st, no_out)
  | i :: l' =>
      let* (st1, o1) := ctl_step st i in
      let* (st2, o2) := ctl_run st1 l' in
      Ok (st2, out_app o1 o2)
  end.
End Ops.

(* ------------------------------------------------------------------ *)
(** ** Properties *)

(** A stream of packets numbered from [s] on carrying the rungs [ms]. *)
Fixpoint stream (s : Z) (ms : list Z) : list (list Z) :=
  match ms with
  | [] => []
  | m :: ms' => frame_of 0 s m :: stream ((s + 1) mod 2 ^ 32) ms'
  end.

Lemma stream_app s ms1 ms2 :
  u32 s -> stream s (ms1 ++ ms2) = stream s ms1 ++ stream ((s + Z.of_nat (length ms1)) mod 2 ^ 32) ms2.
Proof.
  unfold u32. revert s. induction ms1 as [|m ms1 IH]; intros s Hs; cbn [app stream length].
  - rewrite Z.add_0_r, Z.mod_small by lia. done.
  - rewrite IH by (apply Z.mod_pos_bound; lia). rewrite Zplus_mod_idemp_l.
    replace (s + 1 + Z.of_nat (length ms1)) with (s + Z.of_nat (S (length ms1))) by lia. done.
Qed.

Lemma stream_length s ms : length (stream s ms) = length ms.
Proof. revert s. induction ms as [|m ms IH]; intros s; cbn; [done|]. by rewrite IH. Qed.

(** An uninterrupted stream is applied packet by packet. *)
Lemma stream_received s ms d :
  u32 s -> Forall u8 ms ->
  ever d = false \/ s = (lastSeq d + 1) mod 2 ^ 32 ->
  drone_receive d (stream s ms) = ms.
Proof.
  intros Hs Hms. revert s d Hs. induction Hms as [|m ms Hm Hms IH]; intros s d Hs Hd; [done|].
  cbn [stream drone_receive]. unfold drone_packet. rewrite decode_frame by done.
  assert (Hc : dedup_check d s = (mkDedup s true, false)).
  { unfold dedup_check. destruct (ever d); cbn [negb]; [|done]. destruct Hd as [|Hd]; [done|].
    replace ((s - lastSeq d) mod 2 ^ 32) with 1; [done|].
    rewrite Hd, Zminus_mod_idemp_l. by replace (lastSeq d + 1 - lastSeq d) with 1 by lia. }
  rewrite Hc. cbn. f_equal. apply IH; [|by right]. unfold u32 in *. apply Z.mod_pos_bound. lia.
Qed.

Section Theory.
Context {F : Type} {PF : PyFloat F}.
Variable cc : CtlConfig F.
Implicit Types (st : Ctl F).

(** What every handler keeps: the policy invariant, and the sequence counter. *)
Definition ctl_inv st : Prop := pol_inv (cc_policy cc) (ct_policy st) /\ u32 (seq (ct_enc st)).

Definition rung_ok (m : Z) : Prop := 0 <= m <= max_mcs (pc_selector (cc_policy cc)).

(** The effect of a handler on the outgoing stream. *)
Definition streams st st' (o : CtlOut F) : Prop :=
  exists ms, Forall rung_ok ms /\ Forall u8 ms /\ sent o = stream (seq (ct_enc st)) ms /\
    seq (ct_enc st') = (seq (ct_enc st) + Z.of_nat (length ms)) mod 2 ^ 32 /\
    ct_emitSeq st' = ct_emitSeq st + Z.of_nat (length ms).

Lemma streams_nil st st' o :
  u32 (seq (ct_enc st)) -> ct_enc st' = ct_enc st -> ct_emitSeq st' = ct_emitSeq st -> sent o = [] ->
  streams st st' o.
Proof.
  unfold u32. intros Hs He Hq Ho. exists []. rewrite He, Hq, Ho. cbn. rewrite Z.add_0_r, Z.mod_small by lia.
  repeat split; constructor || lia.
Qed.

Lemma streams_app st st1 st2 o1 o2 :
  u32 (seq (ct_enc st)) -> streams st st1 o1 -> streams st1 st2 o2 -> streams st st2 (out_app o1 o2).
Proof.
  intros Hs (ms1 & Hr1 & Hu1 & Ho1 & He1 & Hq1) (ms2 & Hr2 & Hu2 & Ho2 & He2 & Hq2).
  exists (ms1 ++ ms2). cbn [sent out_app]. rewrite Ho1, Ho2, stream_app, He1, length_app by done.
  rewrite He2, He1, Zplus_mod_idemp_l, Hq2, Hq1.
  split; [by apply Forall_app|]. split; [by apply Forall_app|]. split; [done|]. split; [f_equal; lia|lia].
Qed.

Lemma emit_streams st d now st' o :
  u32 (seq (ct_enc st)) -> rung_ok (d_mcs d) -> _emit st d now = Ok (st', o) ->
  streams st st' o /\ ct_policy st' = ct_policy st /\ u32 (seq (ct_enc st')).
Proof.
  intros Hs Hr. unfold _emit, encoder_encode. cbn [fst snd]. rewrite encode_raw_frame.
  destruct (_ && _) eqn:E; cbn [rbind]; [|done]. apply andb_true_iff in E as [_ E].
  intros (ms & _ & [= <- <-])%rbind_ok. rewrite !land_ones32.
  split; [|split; [done|]].
  - exists [d_mcs d]. cbn [ct_enc ct_emitSeq sent stream length]. 
    split; [by constructor|]. split; [constructor; [unfold u8; breflect; lia|constructor]|].
    split; [done|]. split; [done|]. cbn. lia.
  - cbn. unfold u32. apply Z.mod_pos_bound. lia.
Qed.

Lemma emit_if_streams st e now st' o :
  ctl_inv st -> emit_if st (pol_step (cc_policy cc) (ct_policy st) e) now = Ok (st', o) ->
  streams st st' o /\ ctl_inv st'.
Proof.
  intros [Hp Hs] H. unfold emit_if in H. apply rbind_ok in H as ([p1 po] & Hstep & H).
  assert (Hp1 := pol_step_inv _ _ _ _ _ Hstep Hp).
  assert (Hd : forall d, o_decision po = Some d -> rung_ok (d_mcs d)).
  { intros d Hd. destruct Hp1 as [Hok1 _]. unfold rung_ok. unfold pol_ok, sel_ok in Hok1.
    replace (d_mcs d) with (current_mcs (leading p1)); [exact Hok1|].
    destruct e as [sig|sig lat]; cbn in Hstep.
    - apply tick_cases in Hstep as (_ & (d' & Hd' & Hm) & _); [|apply Hp]. unfold mcs_of in Hm. congruence.
    - apply loss_event_cases in Hstep as (_ & [(Hn & _)|(_ & _ & _ & _ & _ & d' & Hd' & Hm)]); [congruence| |apply Hp].
      unfold mcs_of in Hm. congruence. }
  destruct (o_decision po) as [d|].
  - apply rbind_ok in H as ([st2 oe] & He & [= <- <-]).
    apply emit_streams in He as (Hst & Hpol & Hs'); [|done|by apply Hd].
    split; [|split; [by rewrite Hpol|done]].
    apply (streams_app _ (st <| ct_policy := p1 |>)); [done| |done]. by apply streams_nil.
  - injection H as <- <-. split; [by apply streams_nil|]. by split.
Qed.

(** The handlers only touch the policy and the stream through [emit_if]. *)
Definition quiet st st1 : Prop :=
  ct_policy st1 = ct_policy st /\ ct_enc st1 = ct_enc st /\ ct_emitSeq st1 = ct_emitSeq st.

Lemma quiet_inv st st1 : quiet st st1 -> ctl_inv st -> ctl_inv st1.
Proof. unfold ctl_inv. by intros (-> & -> & _). Qed.

Lemma quiet_streams st st1 st' o : quiet st st1 -> streams st1 st' o -> streams st st' o.
Proof. unfold streams. by intros (_ & -> & ->). Qed.

Lemma mark_quiet st ck : quiet st (_mark_tap_rx cc st ck).
Proof. unfold _mark_tap_rx. by case_match. Qed.

Lemma do_loss_streams st st1 lat now st' o :
  quiet st st1 -> ctl_inv st -> do_loss_event cc st1 lat now = Ok (st', o) -> streams st st' o /\ ctl_inv st'.
Proof.
  intros Hq Hi H. destruct (emit_if_streams st1 (EvLoss (signals (ct_agg st1)) lat) now st' o) as [Hs Hi'];
    [by eapply quiet_inv|exact H|]. split; [by eapply quiet_streams|done].
Qed.

Lemma do_tick_streams st st1 pr now st' o :
  quiet st st1 -> ctl_inv st -> do_tick cc st1 pr now = Ok (st', o) -> streams st st' o /\ ctl_inv st'.
Proof.
  intros Hq Hi H. unfold do_tick in H. set (st2 := set_signals st1 _) in *.
  assert (Hq2 : quiet st st2) by exact Hq.
  destruct (emit_if_streams st2 (EvTick (signals (ct_agg st2))) now st' o) as [Hs Hi'];
    [by eapply quiet_inv|exact H|]. split; [by eapply quiet_streams|done].
Qed.

Lemma on_micro_streams st rec pr ck st' o :
  ctl_inv st -> on_micro cc st rec pr ck = Ok (st', o) -> streams st st' o /\ ctl_inv st'.
Proof.
  intros Hi. unfold on_micro. set (st2 := _ <| ct_agg ::= _ |>).
  assert (Hq2 : quiet st st2) by apply mark_quiet.
  intros ([st3 o1] & H3 & ([st5 o2] & H5 & [= <- <-])%rbind_ok)%rbind_ok.
  assert (H1 : streams st st3 o1 /\ ctl_inv st3).
  { destruct (negb _); [by eapply do_loss_streams; [exact Hq2|done|exact H3]|]. injection H3 as <- <-.
    split; [|by eapply quiet_inv]. destruct Hq2 as (_ & He & Hs). apply streams_nil; [apply Hi|done..]. }
  clear H3. destruct H1 as [Hs1 Hi3]. assert (Hq4 : quiet st3 (st3 <| ct_micros ::= Z.succ |>)) by done.
  assert (H2 : streams st3 st5 o2 /\ ctl_inv st5).
  { destruct (_ =? _); [by eapply do_tick_streams; [exact Hq4|done|exact H5]|]. injection H5 as <- <-.
    split; [|done]. apply streams_nil; [apply Hi3|done..]. }
  destruct H2 as [Hs2 Hi5]. split; [|done]. eapply streams_app; [apply Hi|done..].
Qed.

Lemma on_event_streams st ev pr ck st' o :
  ctl_inv st -> on_event cc st ev pr ck = Ok (st', o) -> streams st st' o /\ ctl_inv st'.
Proof.
  intros Hi. assert (Hnil : forall st1, quiet st st1 -> streams st st1 no_out /\ ctl_inv st1).
  { intros st1 Hq. split; [|by eapply quiet_inv]. destruct Hq as (_ & ? & ?). apply streams_nil; [apply Hi|done..]. }
  unfold on_event. destruct ev as [e|e|e|e]; try (intros [= <- <-]; by apply Hnil).
  - destruct (negb _); [intros [= <- <-]; by apply Hnil|].
    set (st1 := match rx_session e with Some _ => _ | None => _ end).
    assert (Hq1 : quiet st st1) by (subst st1; by case_match).
    destruct (_tap_alive _ _ _); [intros [= <- <-]; by apply Hnil|].
    set (st2 := if tap_active _ then _ else _). assert (Hq2 : quiet st st2) by (subst st2; by case_match).
    intros H. eapply do_tick_streams; [|done|exact H]. exact Hq2.
  - intros [= <- <-]. apply Hnil. by case_match.
Qed.

Lemma ctl_step_streams st i st' o :
  ctl_inv st -> ctl_step cc st i = Ok (st', o) -> streams st st' o /\ ctl_inv st'.
Proof.
  intros Hi. destruct i as [rec pr ck|rec ck|ev pr ck|read ad|]; cbn [ctl_step].
  - by apply on_micro_streams.
  - unfold on_loss. intros H. eapply do_loss_streams; [|done|exact H]. apply mark_quiet.
  - by apply on_event_streams.
  - unfold _connected_inloop. intros (p1 & H1 & (p2 & H2 & [= <- <-])%rbind_ok)%rbind_ok.
    split; [apply streams_nil; [apply Hi|done..]|]. split; [|apply Hi].
    apply (pol_next_inv _ read p1); [by apply N_reset|].
    destruct ad as [a|]; [|injection H1 as <-; apply Hi].
    destruct (String.eqb a ""); [injection H1 as <-; apply Hi|].
    eapply pol_next_inv; [by eapply N_bind|]. apply Hi.
  - intros [= <- <-]. split; [apply streams_nil; [apply Hi|done..]|done].
Qed.

Lemma ctl_run_streams st l st' o :
  ctl_inv st -> ctl_run cc st l = Ok (st', o) -> streams st st' o /\ ctl_inv st'.
Proof.
  revert st o. induction l as [|i l IH]; intros st o Hi; cbn [ctl_run].
  { intros [= <- <-]. split; [apply streams_nil; [apply Hi|done..]|done]. }
  intros ([st1 o1] & H1 & ([st2 o2] & H2 & [= <- <-])%rbind_ok)%rbind_ok.
  destruct (ctl_step_streams _ _ _ _ Hi H1) as [Hs1 Hi1]. destruct (IH _ _ Hi1 H2) as [Hs2 Hi2].
  split; [|done]. eapply streams_app; [apply Hi|done..].
Qed.

(** C4: End to end over any run of the controller from boot: a drone that
    receives the emitted packets in order applies every one of them, each an
    MCS between 0 and the cap, and the published emit counter counts them. *)
Theorem drone_follows_controller read name p0 agg q l st' o :
  policy_init (cc_policy cc) read name = Ok p0 ->
  ctl_run cc (ctl_init p0 agg q) l = Ok (st', o) ->
  let applied := drone_receive (mkDedup 0 false) (sent o) in
  length applied = length (sent o) /\ Forall rung_ok applied /\
  ct_emitSeq st' = q + Z.of_nat (length (sent o)).
Proof.
  intros Hp H. apply pol_init_inv in Hp.
  assert (Hi : ctl_inv (ctl_init p0 agg q)) by (by split).
  destruct (ctl_run_streams _ _ _ _ Hi H) as [(ms & Hr & Hu & Ho & _ & Hq) _].
  cbv zeta. change (seq (ct_enc (ctl_init p0 agg q))) with 1 in Ho. rewrite Ho.
  rewrite stream_received by (done || by left). rewrite stream_length.
  split; [done|]. split; [done|]. exact Hq.
Qed.

(** *** Who drives *)

Definition is_tick_entry (op : flight_op F) : bool :=
  match op with FL_write (Tick_entry _) => true | _ => false end.
Definition tick_count (o : CtlOut F) : nat := length (List.filter is_tick_entry (flight_ops o)).

Lemma emit_if_ticks st e now st' o :
  emit_if st (pol_step (cc_policy cc) (ct_policy st) e) now = Ok (st', o) ->
  tick_count o = (match e with EvTick _ => 1 | EvLoss _ _ => 0 end)%nat /\
  ct_micros st' = ct_micros st.
Proof.
  unfold emit_if. intros ([p1 po] & Hstep & H)%rbind_ok.
  assert (Hf : length (List.filter is_tick_entry (map FL_write (o_flight po))) =
               (match e with EvTick _ => 1 | EvLoss _ _ => 0 end)%nat).
  { clear H. destruct e as [sig|sig lat]; cbn in Hstep.
    - unfold tick in Hstep. destruct (tick_prepare _ _ _) as [[[p5 sl] r] g].
      apply rbind_ok in Hstep as ([lead [m ch]] & _ & Hstep).
      destruct (teach_fail _ _), (tick_learn _ _ _ _) as [[? ?] ?]. by injection Hstep as <- <-.
    - unfold loss_event in Hstep. do 2 (case_match; [by injection Hstep as <- <-|]).
      apply rbind_ok in Hstep as ([lead [m ch]] & _ & Hstep).
      case_match; [by injection Hstep as <- <-|]. destruct (teach_fail _ _). by injection Hstep as <- <-. }
  destruct (o_decision po) as [d|].
  - apply rbind_ok in H as ([st2 oe] & He & [= <- <-]). unfold _emit in He.
    destruct (encoder_encode _ _ _) as [enc pkt]. apply rbind_ok in He as (buf & _ & (ms & _ & [= <- <-])%rbind_ok).
    unfold tick_count. cbn. by rewrite app_nil_r, Hf.
  - injection H as <- <-. split; [exact Hf|done].
Qed.

(** Each micro record counts one slot, starting over when the tap was
    stale, and exactly every tenth slot runs a tick. *)
Theorem micro_cadence st rec pr ck st' o :
  on_micro cc st rec pr ck = Ok (st', o) ->
  ct_micros st' = (if _tap_alive cc st (ck_alive ck) then ct_micros st + 1 else 1) /\
  tick_count o = (if ct_micros st' mod 10 =? 0 then 1%nat else 0%nat).
Proof.
  unfold on_micro. set (st2 := _ <| ct_agg ::= _ |>).
  assert (Hm : ct_micros st2 = if _tap_alive cc st (ck_alive ck) then ct_micros st else 0).
  { subst st2. unfold _mark_tap_rx. by destruct (_tap_alive _ _ _). }
  intros ([st3 o1] & H3 & ([st5 o2] & H5 & [= <- <-])%rbind_ok)%rbind_ok.
  assert (H1 : tick_count o1 = 0%nat /\ ct_micros st3 = ct_micros st2).
  { destruct (negb _); [|by injection H3 as <- <-].
    exact (emit_if_ticks st2 (EvLoss (signals (ct_agg st2)) None) _ _ _ H3). }
  clear H3. destruct H1 as [Ht1 Hm3].
  change (ct_micros (st3 <| ct_micros ::= Z.succ |>)) with (Z.succ (ct_micros st3)) in H5.
  assert (H2 : tick_count o2 = (if Z.succ (ct_micros st3) mod 10 =? 0 then 1%nat else 0%nat) /\
               ct_micros st5 = Z.succ (ct_micros st3)).
  { destruct (_ =? 0); [|by injection H5 as <- <-]. unfold do_tick in H5. set (st4 := set_signals _ _) in H5.
    exact (emit_if_ticks st4 (EvTick (signals (ct_agg st4))) _ _ _ H5). }
  destruct H2 as [Ht2 Hm5]. rewrite Hm5, Hm3, Hm in *. split; [case_match; lia|].
  unfold tick_count in *. cbn [flight_ops out_app]. by rewrite List.filter_app, length_app, Ht1, Ht2.
Qed.

Lemma emit_if_frame st r now st' o :
  emit_if st r now = Ok (st', o) -> ct_agg st' = ct_agg st /\ ct_tapActive st' = ct_tapActive st.
Proof.
  unfold emit_if. intros ([p1 po] & _ & H)%rbind_ok. destruct (o_decision po) as [d|].
  - apply rbind_ok in H as ([st2 oe] & He & [= <- <-]). unfold _emit in He.
    destruct (encoder_encode _ _ _). by apply rbind_ok in He as (? & _ & (? & _ & [= <- <-])%rbind_ok).
  - by injection H as <- <-.
Qed.

Lemma consume_tap_active (a : SignalAggregator F) ev : tap_active (signals (consume a ev)) = tap_active (signals a).
Proof.
  unfold consume. set (s1 := consume_packets (signals a) ev).
  assert (H1 : tap_active s1 = tap_active (signals a)).
  { subst s1. unfold consume_packets, set_loss_rates. by destruct (_ >? 0). }
  rewrite <- H1. clearbody s1. clear H1. set (s2 := fold_ants_if s1 _).
  assert (H2 : tap_active s2 = tap_active s1).
  { subst s2. unfold fold_ants_if, _fold_ants, fold_evm. by repeat case_match. }
  rewrite <- H2. clearbody s2. clear H2. unfold smooth_axis. by repeat case_match.
Qed.

Lemma do_tick_frame st pr now st' o :
  do_tick cc st pr now = Ok (st', o) ->
  tick_count o = 1%nat /\ tap_active (signals (ct_agg st')) = tap_active (signals (ct_agg st)) /\
  ct_tapActive st' = ct_tapActive st.
Proof.
  unfold do_tick. intros H. set (st4 := set_signals st _) in H.
  destruct (emit_if_ticks st4 (EvTick (signals (ct_agg st4))) _ _ _ H) as [Ht _].
  destruct (emit_if_frame _ _ _ _ _ H) as [Ha Hact]. split; [exact Ht|]. by rewrite Ha, Hact.
Qed.

(** A stats record drives the policy exactly when it is a video record
    and the tap is stale: one tick then, no tick, packet or policy change
    otherwise. *)
Theorem stats_feed_is_fallback st e pr ck st' o :
  on_event cc st (EvRx e) pr ck = Ok (st', o) ->
  if _is_video (rx_id e) then
    if _tap_alive cc st (ck_alive ck)
    then tick_count o = 0%nat /\ sent o = [] /\ ct_policy st' = ct_policy st /\
         micro (ct_agg st') = micro (ct_agg st)
    else tick_count o = 1%nat /\ tap_active (signals (ct_agg st')) = false /\
         (tap_active (signals (ct_agg st)) = ct_tapActive st -> ct_tapActive st' = false)
  else st' = st /\ o = no_out.
Proof.
  unfold on_event. destruct (_is_video (rx_id e)); cbn [negb]; [|by intros [= <- <-]].
  set (st1 := match rx_session e with Some _ => _ | None => _ end).
  assert (Hl : _tap_alive cc st1 (ck_alive ck) = _tap_alive cc st (ck_alive ck)) by (subst st1; by case_match).
  rewrite Hl. clear Hl. destruct (_tap_alive _ _ _).
  { intros H. injection H as Hst Ho. subst st' o. subst st1. by case_match. }
  assert (Ht1 : tap_active (signals (ct_agg st1)) = tap_active (signals (ct_agg st)) /\ ct_tapActive st1 = ct_tapActive st)
    by (subst st1; by destruct (rx_session e)).
  destruct Ht1 as [Ht1 Ht2]. set (st2 := if tap_active _ then _ else _).
  assert (Hs2 : tap_active (signals (ct_agg st2)) = false /\
                (tap_active (signals (ct_agg st)) = ct_tapActive st -> ct_tapActive st2 = false)).
  { subst st2. destruct (tap_active (signals (ct_agg st1))) eqn:E; [done|]. split; [exact E|]. rewrite Ht2. congruence. }
  clearbody st2. intros H. destruct (do_tick_frame _ _ _ _ _ H) as (Ht & Ha & Hact).
  split; [exact Ht|]. rewrite Ha, Hact. split; [|apply Hs2]. etrans; [apply consume_tap_active|apply Hs2].
Qed.
End Theory.
