(* ===== verification/LoopThread.v ===== *)
(** * A daemon thread that runs an asyncio loop, and its owner

    idr_relay.py, dynlink/controller.py and connection_monitor.py each own one
    such thread, with the same [start], [stop] and [_thread_main].  The machine
    has a step per stretch of the thread's code and per half of an operator
    call: the lock section, and the return from the wait that follows it, by
    the awaited condition or by its timeout.  Operator calls do not overlap:
    two of the owners hold a lock over them, the third is called under the
    API's.  A loop and a stop event are named by the thread that made them. *)
From Stdlib Require Import Lia Bool.
From stdpp Require Import base tactics list.
From S2P Require Import Prelude.
Open Scope nat_scope.

(** Where a thread is: made; its loop published; its stop event published;
    awaiting the stop event; past its [_run]; gone. *)
Inductive thread_pc := Spawned | Looped | Prepared | Serving | Ending | Dead.
#[export] Instance thread_pc_eq_dec : EqDecision thread_pc.
Proof. solve_decision. Defined.
Record thread := mkThread { th_pc : thread_pc; th_set : bool }.
#[export] Instance eta_Thread : Settable thread := fun r => mkThread (th_pc r) (th_set r).

Inductive op_pc := OpIdle | OpStarting | OpStopping (t : option nat).

Record owner := mkOwner {
  lo_thread : option nat;
  lo_loop : option nat;
  lo_stop : option nat;
  lo_started : bool;
  lo_running : bool;
  lo_op : op_pc;
  lo_threads : list thread
}.
#[export] Instance eta_Owner : Settable owner := fun r =>
  mkOwner (lo_thread r) (lo_loop r) (lo_stop r) (lo_started r) (lo_running r) (lo_op r) (lo_threads r).

Definition owner_new : owner := mkOwner None None None false false OpIdle [].

Definition pc_of (s : owner) (t : nat) : thread_pc := from_option th_pc Dead (lo_threads s !! t).
Definition is_dead (p : thread_pc) : bool := match p with Dead => true | _ => false end.
Definition is_alive (s : owner) (t : nat) : bool := negb (is_dead (pc_of s t)).

(** ** Operator calls *)

Definition call_start (s : owner) : option owner :=
  match lo_op s with
  | OpIdle =>
      if from_option (is_alive s) false (lo_thread s) then Some s
      else Some (s <| lo_started := false |> <| lo_thread := Some (length (lo_threads s)) |>
                   <| lo_threads ::= fun l => l ++ [mkThread Spawned false] |> <| lo_op := OpStarting |>)
  | _ => None
  end.

(** [_started.wait(timeout=5.0)]. *)
Definition start_returns (timeout : bool) (s : owner) : option owner :=
  match lo_op s with
  | OpStarting => if lo_started s || timeout then Some (s <| lo_op := OpIdle |>) else None
  | _ => None
  end.

(** The stop event is set on the loop; a closed loop raises, which is
    suppressed. *)
Definition call_stop (s : owner) : option owner :=
  match lo_op s with
  | OpIdle =>
      let s1 := match lo_loop s, lo_stop s with
                | Some l, Some e => if is_alive s l then s <| lo_threads ::= alter (fun x => x <| th_set := true |>) e |> else s
                | _, _ => s
                end in
      Some (s1 <| lo_op := OpStopping (lo_thread s) |>)
  | _ => None
  end.

(** [thread.join(timeout=5.0)]. *)
Definition stop_returns (timeout : bool) (s : owner) : option owner :=
  match lo_op s with
  | OpStopping t => if negb (from_option (is_alive s) false t) || timeout
                    then Some (s <| lo_thread := None |> <| lo_op := OpIdle |>) else None
  | _ => None
  end.

(** ** The thread *)

(** How a stretch of [_run] ends: it goes on ([ok]: the endpoint was bound), or
    an exception leaves it. *)
Inductive stretch := Goes (ok : bool) | Crashes.

Definition set_pc (t : nat) (p : thread_pc) (s : owner) : owner := s <| lo_threads ::= alter (fun x => x <| th_pc := p |>) t |>.

Definition thread_step (t : nat) (how : stretch) (s : owner) : option owner :=
  x ← lo_threads s !! t;
  match th_pc x, how with
  | Spawned, _ => Some (set_pc t Looped (s <| lo_loop := Some t |>))
  | Looped, Goes _ => Some (set_pc t Prepared (s <| lo_stop := Some t |>))
  | Prepared, Goes ok => Some (set_pc t Serving (s <| lo_running := ok |> <| lo_started := true |>))
  | Serving, Goes _ => if th_set x then Some (set_pc t Ending (s <| lo_running := false |>)) else None
  | Looped, Crashes | Prepared, Crashes => Some (set_pc t Ending s)
  | Serving, Crashes => Some (set_pc t Ending (s <| lo_running := false |>))
  | Ending, _ => Some (set_pc t Dead (s <| lo_loop := None |> <| lo_running := false |> <| lo_started := true |>))
  | Dead, _ => None
  end.

Inductive owner_ev :=
| CallStart
| StartReturns (timeout : bool)
| CallStop
| StopReturns (timeout : bool)
| Thread (t : nat) (how : stretch).

Definition owner_step (s : owner) (e : owner_ev) : option owner :=
  match e with
  | CallStart => call_start s
  | StartReturns timeout => start_returns timeout s
  | CallStop => call_stop s
  | StopReturns timeout => stop_returns timeout s
  | Thread t how => thread_step t how s
  end.

Fixpoint owner_run (s : owner) (es : list owner_ev) : option owner :=
  match es with
  | [] => Some s
  | e :: es => s' ← owner_step s e; owner_run s' es
  end.

(** No wait runs into its timeout. *)
Definition prompt (e : owner_ev) : bool :=
  match e with StartReturns timeout | StopReturns timeout => negb timeout | _ => true end.

(* ------------------------------------------------------------------ *)
(** ** One thread, and every call is heard *)

(** The thread the owner holds, by where it is. *)
Definition held_ok (s : owner) (t : nat) (x : thread) : Prop :=
  match th_pc x with
  | Spawned => lo_op s = OpStarting /\ lo_loop s = None
  | Looped => lo_op s = OpStarting /\ lo_loop s = Some t
  | Prepared => lo_op s = OpStarting /\ lo_loop s = Some t /\ lo_stop s = Some t
  | Serving => lo_loop s = Some t /\ lo_stop s = Some t /\ lo_started s = true /\
               (lo_op s = OpStopping (Some t) -> th_set x = true)
  | Ending => lo_loop s = Some t
  | Dead => lo_loop s = None /\ (lo_op s = OpStarting -> lo_started s = true)
  end.

Record owner_ok (s : owner) : Prop := {
  ow_one : forall t, is_alive s t = true -> lo_thread s = Some t;
  ow_held : forall t, lo_thread s = Some t -> exists x, lo_threads s !! t = Some x /\ held_ok s t x /\
              (lo_running s = true -> th_pc x = Serving) /\
              (lo_started s = true -> th_pc x = Serving \/ th_pc x = Ending \/ th_pc x = Dead);
  ow_none : lo_thread s = None -> lo_loop s = None /\ lo_running s = false /\ lo_op s <> OpStarting;
  ow_op : forall t, lo_op s = OpStopping t -> t = lo_thread s
}.

Lemma pc_alter (f : thread -> thread) t t' s :
  pc_of (s <| lo_threads ::= alter f t |>) t' =
    if decide (t = t') then from_option (fun x => th_pc (f x)) Dead (lo_threads s !! t) else pc_of s t'.
Proof.
  unfold pc_of. cbn. case_decide as H; [subst; rewrite list_lookup_alter_eq|by rewrite list_lookup_alter_ne].
  by destruct (lo_threads s !! t').
Qed.

(** A step of the held thread. *)
Lemma held_step s s' t x p :
  owner_ok s -> lo_threads s !! t = Some x -> th_pc x <> Dead ->
  lo_thread s' = lo_thread s -> lo_op s' = lo_op s -> lo_threads s' = alter (fun x => x <| th_pc := p |>) t (lo_threads s) ->
  (held_ok s t x -> held_ok s' t (x <| th_pc := p |>)) -> (lo_running s' = true -> p = Serving) ->
  (lo_started s' = true -> p = Serving \/ p = Ending \/ p = Dead) -> owner_ok s'.
Proof.
  intros [H1 H2 H3 H4] Hx Hp Et Eo El Hh Hr Hs.
  assert (Ht : lo_thread s = Some t).
  { apply H1. unfold is_alive, pc_of. rewrite Hx. cbn. by destruct (th_pc x). }
  assert (Hpc : forall t', pc_of s' t' = if decide (t = t') then p else pc_of s t').
  { intros t'. unfold pc_of. rewrite El. case_decide as Hd; [subst; by rewrite list_lookup_alter_eq, Hx|by rewrite list_lookup_alter_ne]. }
  split.
  - intros t'. unfold is_alive. rewrite Hpc, Et. case_decide as Hd; [by subst|]. apply H1.
  - intros t'. rewrite Et, Ht. intros [= <-]. exists (x <| th_pc := p |>). rewrite El, list_lookup_alter_eq, Hx.
    split; [done|]. destruct (H2 t Ht) as (x' & Hx' & Hh' & _). rewrite Hx in Hx'. injection Hx' as <-. by auto.
  - rewrite Et, Ht. done.
  - intros t'. rewrite Et, Eo. apply H4.
Qed.

Lemma thread_step_ok s t how s' : owner_ok s -> thread_step t how s = Some s' -> owner_ok s'.
Proof.
  intros H Hs. unfold thread_step in Hs. apply bind_Some in Hs as (x & Hx & Hs).
  assert (Hrs : th_pc x <> Dead -> lo_running s = true -> th_pc x = Serving).
  { intros Hd Hr. destruct (ow_held s H t) as (x' & Hx' & _ & Hr' & _).
    { apply (ow_one s H). unfold is_alive, pc_of. rewrite Hx. cbn. by destruct (th_pc x). }
    rewrite Hx in Hx'. injection Hx' as <-. auto. }
  assert (Hst : th_pc x <> Dead -> lo_started s = true -> th_pc x = Serving \/ th_pc x = Ending \/ th_pc x = Dead).
  { intros Hd Hr. destruct (ow_held s H t) as (x' & Hx' & _ & _ & Hr').
    { apply (ow_one s H). unfold is_alive, pc_of. rewrite Hx. cbn. by destruct (th_pc x). }
    rewrite Hx in Hx'. injection Hx' as <-. auto. }
  destruct (th_pc x) eqn:Ep, how as [ok|]; simplify_eq;
    repeat (match type of Hs with context [if ?b then _ else _] => destruct b eqn:?; simplify_eq end);
    (eapply (held_step s _ t x); [done|done|by rewrite Ep|done|done|done| | | ]); cbn;
    try (unfold held_ok; rewrite Ep; cbn; intuition congruence); try (clear; intuition congruence).
  all: try (intros; exfalso; intuition congruence).
Qed.

(** When the thread held, if any, is gone, everything is. *)
Lemma gone s : owner_ok s -> from_option (is_alive s) false (lo_thread s) = false ->
  (forall t, is_alive s t = false) /\ lo_loop s = None /\ lo_running s = false.
Proof.
  intros [H1 H2 H3 _] Ha. assert (Hall : forall t, is_alive s t = false).
  { intros t. destruct (is_alive s t) eqn:E; [|done]. by rewrite (H1 t E) in Ha; cbn in Ha; rewrite E in Ha. }
  split; [done|]. destruct (lo_thread s) as [t|] eqn:Et; [|by destruct (H3 eq_refl) as (? & ? & _)].
  destruct (H2 t eq_refl) as (x & Hx & Hh & Hr & _). cbn in Ha. unfold is_alive, pc_of in Ha. rewrite Hx in Ha. cbn in Ha.
  unfold held_ok in Hh. destruct (th_pc x); try done. split; [by destruct Hh|].
  destruct (lo_running s); [|done]. by specialize (Hr eq_refl).
Qed.

Lemma call_start_ok s s' : owner_ok s -> call_start s = Some s' -> owner_ok s'.
Proof.
  intros H Hs. unfold call_start in Hs. destruct (lo_op s) eqn:Eo; simplify_eq.
  destruct (from_option (is_alive s) false (lo_thread s)) eqn:Ea; simplify_eq; [done|].
  destruct (gone s H Ea) as (Hd & Hl & Hr). split; [| |done|done].
  - intros t Ht. destruct (decide (t = length (lo_threads s))) as [->|Hne]; [done|]. exfalso.
    specialize (Hd t). unfold is_alive, pc_of in *. cbn in Ht. destruct (decide (t < length (lo_threads s))).
    + by rewrite lookup_app_l, Hd in Ht by done.
    + by rewrite lookup_ge_None_2 in Ht by (rewrite length_app; cbn; lia).
  - intros t [= <-]. exists (mkThread Spawned false). cbn. rewrite list_lookup_middle by done.
    split; [done|]. split; [done|]. split; [by rewrite Hr|done].
Qed.

Lemma start_returns_ok s s' : owner_ok s -> start_returns false s = Some s' -> owner_ok s'.
Proof.
  intros [H1 H2 H3 H4] Hs. unfold start_returns in Hs. destruct (lo_op s) eqn:Eo; simplify_eq.
  rewrite orb_false_r in Hs. destruct (lo_started s) eqn:Es; simplify_eq. split; [exact H1| | |done].
  2: { intros Ht. exfalso. by destruct (H3 Ht) as (_ & _ & ?). }
  intros t Ht. destruct (H2 t Ht) as (x & Hx & Hh & Hr & Hst). exists x. split; [done|].
  assert (Hst' := Hst eq_refl). split; [|by split]. unfold held_ok in *. cbn. destruct Hst' as [E|[E|E]]; rewrite E in *; naive_solver.
Qed.

(** What the lock section of [stop] leaves: a serving thread's event set. *)
Lemma stop_marks s s' t x :
  owner_ok s -> call_stop s = Some s' -> lo_thread s = Some t -> lo_threads s !! t = Some x ->
  exists x', lo_threads s' !! t = Some x' /\ th_pc x' = th_pc x /\ (th_pc x = Serving -> th_set x' = true).
Proof.
  intros H Hs Ht Hx. unfold call_stop in Hs. destruct (lo_op s); simplify_eq.
  destruct (ow_held s H t Ht) as (x0 & Hx0 & Hh & _). rewrite Hx in Hx0. injection Hx0 as <-.
  destruct (decide (th_pc x = Serving)) as [Ep|Ep].
  - unfold held_ok in Hh. rewrite Ep in Hh. destruct Hh as (Hl & He & _). rewrite Hl, He.
    unfold is_alive, pc_of. rewrite Hx. cbn. rewrite Ep. cbn. rewrite list_lookup_alter_eq, Hx. eexists. done.
  - destruct (lo_loop s), (lo_stop s) as [e|]; cbn; try (by exists x).
    destruct (is_alive s n); cbn; [|by exists x].
    destruct (decide (e = t)) as [->|]; [rewrite list_lookup_alter_eq, Hx; eexists; done|].
    rewrite list_lookup_alter_ne by done. by exists x.
Qed.

Lemma stop_frame s s' :
  call_stop s = Some s' ->
  lo_op s = OpIdle /\ lo_op s' = OpStopping (lo_thread s) /\ lo_thread s' = lo_thread s /\ lo_loop s' = lo_loop s /\
  lo_stop s' = lo_stop s /\ lo_started s' = lo_started s /\ lo_running s' = lo_running s /\
  forall t, pc_of s' t = pc_of s t.
Proof.
  unfold call_stop. destruct (lo_op s); [|done..]. intros [= <-].
  destruct (lo_loop s) as [l|] eqn:El, (lo_stop s) as [e|] eqn:Ee; cbn; rewrite ?El, ?Ee; try done.
  destruct (is_alive s l); cbn; rewrite ?El, ?Ee; [|done]. split_and!; try done. intros t.
  match goal with |- pc_of ?y t = _ => change (pc_of (s <| lo_threads ::= alter (fun x => x <| th_set := true |>) e |>) t = pc_of s t) end.
  rewrite pc_alter. case_decide as Hd; [subst|done]. unfold pc_of. by destruct (lo_threads s !! t).
Qed.

Lemma call_stop_ok s s' : owner_ok s -> call_stop s = Some s' -> owner_ok s'.
Proof.
  intros H Hs. assert (H' := H). destruct H' as [H1 H2 H3 H4].
  destruct (stop_frame s s' Hs) as (Eo & Eo' & Et & El & Ee & Est & Er & Hpc). split.
  - intros t. unfold is_alive. rewrite Hpc, Et. apply H1.
  - intros t. rewrite Et. intros Ht. destruct (H2 t Ht) as (x & Hx & Hh & Hr & Hst).
    destruct (stop_marks s s' t x H Hs Ht Hx) as (x' & Hx' & Ep & Hset). exists x'. split; [done|].
    rewrite Ep, Er, Est. split; [|done]. unfold held_ok in *. rewrite Ep, Eo', El, Ee, Est. rewrite Eo in Hh.
    destruct (th_pc x); naive_solver.
  - rewrite Et, El, Er, Eo'. intros Ht. by destruct (H3 Ht) as (? & ? & _).
  - intros t. rewrite Eo', Et. by intros [= ->].
Qed.

Lemma stop_returns_ok s s' : owner_ok s -> stop_returns false s = Some s' -> owner_ok s'.
Proof.
  intros H Hs. unfold stop_returns in Hs. destruct (lo_op s) as [| |t] eqn:Eo; simplify_eq.
  rewrite orb_false_r in Hs. rewrite (ow_op s H t Eo) in Hs.
  destruct (from_option (is_alive s) false (lo_thread s)) eqn:Ea; cbn in Hs; simplify_eq. destruct (gone s H Ea) as (Hd & Hl & Hr).
  split; [|by intros ? [=]|done|by intros ? [=]]. intros t' Ht'. specialize (Hd t'). change (is_alive s t' = true) in Ht'. congruence.
Qed.

Lemma owner_step_ok s e s' : owner_ok s -> prompt e = true -> owner_step s e = Some s' -> owner_ok s'.
Proof.
  intros H Hp Hs. destruct e as [|[]| |[]|t how]; cbn in Hs, Hp; try done.
  - by eapply call_start_ok.
  - by eapply start_returns_ok.
  - by eapply call_stop_ok.
  - by eapply stop_returns_ok.
  - by eapply thread_step_ok.
Qed.

Lemma owner_run_ok s es s' : owner_ok s -> Forall (fun e => prompt e = true) es -> owner_run s es = Some s' -> owner_ok s'.
Proof.
  intros H Hp. revert s H. induction Hp as [|e es He _ IH]; intros s H Hr; cbn in Hr; [by simplify_eq|].
  apply bind_Some in Hr as (s1 & H1 & Hr). apply (IH s1); [|done]. by eapply owner_step_ok.
Qed.

Lemma owner_new_ok : owner_ok owner_new.
Proof. split; by intros. Qed.

(** ** Every call returns before its timeout, if the thread gets its turns *)

(** The call in progress can return without its timeout. *)
Definition returns (s : owner) : Prop := start_returns false s <> None \/ stop_returns false s <> None.

(** Within [k] turns of thread [t]. *)
Definition returns_within (k t : nat) (s : owner) : Prop :=
  exists j s', j <= k /\ owner_run s (replicate j (Thread t (Goes true))) = Some s' /\ returns s'.

Definition next_pc (p : thread_pc) : thread_pc :=
  match p with Spawned => Looped | Looped => Prepared | Prepared => Serving | Serving => Ending | Ending | Dead => Dead end.

(** One turn of a thread that is not waiting for its event. *)
Lemma turn_at s t x :
  lo_threads s !! t = Some x -> th_pc x <> Dead -> (th_pc x = Serving -> th_set x = true) ->
  exists s1 x1, thread_step t (Goes true) s = Some s1 /\ lo_threads s1 !! t = Some x1 /\ th_pc x1 = next_pc (th_pc x) /\
    lo_op s1 = lo_op s /\ (th_pc x = Prepared \/ th_pc x = Ending -> lo_started s1 = true).
Proof.
  intros Hx Hd Hs. unfold thread_step. rewrite Hx. cbn. destruct (th_pc x) eqn:Ep; try done;
    rewrite ?(Hs eq_refl); (eexists _, _; split; [done|]; cbn; rewrite list_lookup_alter_eq, Hx; split; [done|]; cbn; naive_solver).
Qed.

Lemma within_turn k s t s1 : thread_step t (Goes true) s = Some s1 -> returns_within k t s1 -> returns_within (S k) t s.
Proof. intros H (j & s' & Hj & Hr & Hs). exists (S j), s'. split; [lia|]. split; [|done]. cbn. by rewrite H. Qed.

Lemma within_now k t s : returns s -> returns_within k t s.
Proof. intros H. exists 0, s. split; [lia|done]. Qed.

Lemma within_le k k' t s : k <= k' -> returns_within k t s -> returns_within k' t s.
Proof. intros Hk (j & s' & Hj & H). exists j, s'. split; [lia|done]. Qed.

Lemma started_returns s : lo_op s = OpStarting -> lo_started s = true -> returns s.
Proof. intros Ho Hs. left. unfold start_returns. by rewrite Ho, Hs. Qed.

Lemma dead_returns s t x : lo_op s = OpStopping (Some t) -> lo_threads s !! t = Some x -> th_pc x = Dead -> returns s.
Proof. intros Ho Hx Hp. right. unfold stop_returns. rewrite Ho. cbn. unfold is_alive, pc_of. rewrite Hx. cbn. by rewrite Hp. Qed.

(** A starting thread, by how far it still has to go. *)
Lemma starting_within k s t x :
  lo_op s = OpStarting -> lo_threads s !! t = Some x ->
  match th_pc x with Spawned => k = 3 | Looped => k = 2 | Prepared | Ending => k = 1 | _ => False end -> returns_within k t s.
Proof.
  revert s x. induction k as [|k IH]; intros s x Ho Hx Hk; [destruct (th_pc x); lia|].
  destruct (turn_at s t x Hx) as (s1 & x1 & Ht & Hx1 & Hp & Ho1 & Hst); [by destruct (th_pc x)..|].
  apply (within_turn _ _ _ s1 Ht). rewrite Ho in Ho1.
  destruct (th_pc x) eqn:Ep; try done; cbn in Hp; injection Hk as ->;
    first [apply within_now, started_returns; [done|apply Hst; naive_solver]|apply (IH s1 x1); [done|done|by rewrite Hp]].
Qed.

(** A stopping thread. *)
Lemma stopping_within s t x :
  lo_op s = OpStopping (Some t) -> lo_threads s !! t = Some x ->
  (th_pc x = Serving /\ th_set x = true) \/ th_pc x = Ending \/ th_pc x = Dead -> returns_within 2 t s.
Proof.
  intros Ho Hx [[Hp Hs]|[Hp|Hp]].
  - destruct (turn_at s t x Hx) as (s1 & x1 & Ht & Hx1 & Hp1 & Ho1 & _); [by rewrite Hp|done|].
    destruct (turn_at s1 t x1 Hx1) as (s2 & x2 & Ht2 & Hx2 & Hp2 & Ho2 & _); [by rewrite Hp1, Hp|by rewrite Hp1, Hp|].
    apply (within_turn _ _ _ s1 Ht), (within_turn _ _ _ s2 Ht2), within_now, (dead_returns s2 t x2); [congruence|done|].
    by rewrite Hp2, Hp1, Hp.
  - destruct (turn_at s t x Hx) as (s1 & x1 & Ht & Hx1 & Hp1 & Ho1 & _); [by rewrite Hp|by rewrite Hp|].
    apply (within_turn _ _ _ s1 Ht), within_now, (dead_returns s1 t x1); [congruence|done|]. by rewrite Hp1, Hp.
  - by eapply within_now, dead_returns.
Qed.

Lemma calls_return s : owner_ok s -> lo_op s <> OpIdle -> exists t, returns_within 3 t s.
Proof.
  intros H Ho. destruct (lo_op s) as [| |t] eqn:Eo; [done| |].
  - destruct (lo_thread s) as [t|] eqn:Et; [|by destruct (ow_none s H Et) as (_ & _ & ?)]. exists t.
    destruct (ow_held s H t Et) as (x & Hx & Hh & _). unfold held_ok in Hh.
    destruct (th_pc x) eqn:Ep.
    1: apply (starting_within 3 s t x); [done|done|by rewrite Ep].
    1: apply (within_le 2); [lia|]; apply (starting_within 2 s t x); [done|done|by rewrite Ep].
    1: apply (within_le 1); [lia|]; apply (starting_within 1 s t x); [done|done|by rewrite Ep].
    2: apply (within_le 1); [lia|]; apply (starting_within 1 s t x); [done|done|by rewrite Ep].
    all: apply within_now, started_returns; [done|]; naive_solver.
  - rewrite (ow_op s H t Eo) in Eo. destruct (lo_thread s) as [t'|] eqn:Et.
    + exists t'. apply (within_le 2); [lia|]. destruct (ow_held s H t' Et) as (x & Hx & Hh & _).
      apply (stopping_within s t' x); [done|done|]. unfold held_ok in Hh. rewrite Eo in Hh. destruct (th_pc x); naive_solver.
    + exists 0. apply within_now. right. unfold stop_returns. by rewrite Eo.
Qed.

(** C19: For the owners of a loop thread (relay, controller, connection
    monitor), in any interleaving with the threads in which no wait times out:
    at most one thread is alive and it is the one the owner holds, running is
    reported only while it serves, and a start or stop in progress can return
    within three turns of that thread. *)
Theorem loop_thread_owned es s :
  owner_run owner_new es = Some s -> Forall (fun e => prompt e = true) es ->
  (forall t, is_alive s t = true -> lo_thread s = Some t) /\
  (lo_thread s = None -> lo_running s = false) /\
  (lo_running s = true -> exists t, lo_thread s = Some t /\ pc_of s t = Serving) /\
  (lo_op s <> OpIdle -> exists t, returns_within 3 t s).
Proof.
  intros Hr Hp. assert (H := owner_run_ok _ _ _ owner_new_ok Hp Hr). split; [apply H|].
  split; [intros Ht; by apply (ow_none s H)|]. split; [|by apply calls_return].
  intros Hrun. destruct (lo_thread s) as [t|] eqn:Et; [|by destruct (ow_none s H Et) as (_ & ? & _); congruence].
  exists t. split; [done|]. destruct (ow_held s H t Et) as (x & Hx & _ & Hs & _). unfold pc_of. rewrite Hx. by apply Hs.
Qed.

(** A [start] that gives up before the thread has published its stop event,
    followed by a [stop]: the request goes to nobody, the join gives up, and
    the thread goes on without an owner; the next [start] makes a second. *)
Lemma late_start_leaks :
  let es := [CallStart; Thread 0 (Goes true); StartReturns true; CallStop; StopReturns true;
             Thread 0 (Goes true); Thread 0 (Goes true); CallStart] in
  match owner_run owner_new es with
  | Some s => is_alive s 0 = true /\ is_alive s 1 = true /\ pc_of s 0 = Serving /\
              (forall how, how <> Crashes -> thread_step 0 how s = None)
  | None => False
  end.
Proof. vm_compute. repeat split. by intros [] ?. Qed.

(* ------------------------------------------------------------------ *)
(** ** The controller's configuration

    [DynamicLinkController] hands its thread a snapshot: [_run] reads it in the
    stretch that ends with the stop event published, and [set_config], under
    the lock that also serialises [start] and [stop], stops a running thread,
    replaces the snapshot and starts again. *)
Section Snapshot.
Context {S : Type}.

Record controller_life := mkLife { cl_owner : owner; cl_snapshot : S; cl_built : option S }.

Inductive life_ev := Own (e : owner_ev) | SetSnapshot (v : S).

(** [_run] copies the snapshot. *)
Definition reads_snapshot (s : owner) (e : owner_ev) : bool :=
  match e with Thread t (Goes _) => bool_decide (pc_of s t = Looped) | _ => false end.

(** The assignment of [set_config] happens between calls, with the thread gone:
    either none was running or it has been stopped. *)
Definition life_step (c : controller_life) (e : life_ev) : option controller_life :=
  match e with
  | Own e => s ← owner_step (cl_owner c) e;
             Some (mkLife s (cl_snapshot c) (if reads_snapshot (cl_owner c) e then Some (cl_snapshot c) else cl_built c))
  | SetSnapshot v =>
      match lo_op (cl_owner c) with
      | OpIdle => if from_option (is_alive (cl_owner c)) false (lo_thread (cl_owner c)) then None
                  else Some (mkLife (cl_owner c) v (cl_built c))
      | _ => None
      end
  end.

Fixpoint life_run (c : controller_life) (es : list life_ev) : option controller_life :=
  match es with [] => Some c | e :: es => c' ← life_step c e; life_run c' es end.

(** The calls [set_config] makes, its waits included. *)
Definition set_config (running : bool) (v : S) : list life_ev :=
  (if running then [Own CallStop; Own (StopReturns false)] else []) ++ [SetSnapshot v] ++
  (if running then [Own CallStart; Own (StartReturns false)] else []).

Definition life_prompt (e : life_ev) : bool := match e with Own e => prompt e | SetSnapshot _ => true end.

Definition built_ok (c : controller_life) : Prop :=
  owner_ok (cl_owner c) /\
  forall t, pc_of (cl_owner c) t = Prepared \/ pc_of (cl_owner c) t = Serving -> cl_built c = Some (cl_snapshot c).

(** Where a step of the machine takes the threads: only their own steps move
    them. *)
Lemma step_pcs s e s' t p :
  owner_step s e = Some s' -> (p = Prepared \/ p = Serving) -> pc_of s' t = p ->
  pc_of s t = p \/ (p = Serving /\ pc_of s t = Prepared) \/ (p = Prepared /\ reads_snapshot s e = true).
Proof.
  intros Hs Hp Ht. destruct e as [|timeout| |timeout|t' how]; cbn in Hs.
  - left. unfold call_start in Hs. destruct (lo_op s); [|done..]. destruct (from_option _ _ _); injection Hs as <-; [done|].
    unfold pc_of in *. cbn in Ht. destruct (decide (t < length (lo_threads s))) as [Hl|Hl]; [by rewrite lookup_app_l in Ht|].
    destruct (decide (t = length (lo_threads s))) as [->|]; [rewrite list_lookup_middle in Ht by done; naive_solver|].
    rewrite lookup_ge_None_2 in Ht by (rewrite length_app; cbn; lia). naive_solver.
  - left. unfold start_returns in Hs. destruct (lo_op s); try done. destruct (_ || _); [|done]. by injection Hs as <-.
  - left. apply stop_frame in Hs as (_ & _ & _ & _ & _ & _ & _ & Hpc). by rewrite <- Hpc.
  - left. unfold stop_returns in Hs. destruct (lo_op s); try done. destruct (_ || _); [|done]. by injection Hs as <-.
  - unfold thread_step in Hs. apply bind_Some in Hs as (x & Hx & Hs).
    assert (Hold : pc_of s t' = th_pc x) by (unfold pc_of; by rewrite Hx).
    assert (H : exists q, (forall u, pc_of s' u = if decide (t' = u) then q else pc_of s u) /\
      (q = Prepared -> th_pc x = Looped /\ exists ok, how = Goes ok) /\ (q = Serving -> th_pc x = Prepared)).
    { assert (Hpc : forall q s1, lo_threads s1 = lo_threads s -> forall u, pc_of (set_pc t' q s1) u = if decide (t' = u) then q else pc_of s u).
      { intros q s1 E u. unfold set_pc. rewrite pc_alter, E, Hx. case_decide; [done|]. unfold pc_of. by rewrite E. }
      destruct (th_pc x), how as [ok|]; simplify_eq; try (destruct (th_set x); simplify_eq);
        (eexists; split; [by apply Hpc|naive_solver]). }
    destruct H as (q & Hq & Hq1 & Hq2). rewrite Hq in Ht. case_decide as Hd; [subst|by left].
    destruct Hp as [-> | ->].
    + right. right. split; [done|]. destruct (Hq1 eq_refl) as (E & ok & ->). cbn. apply bool_decide_eq_true. congruence.
    + right. left. split; [done|]. rewrite Hold. by apply Hq2.
Qed.

Lemma life_step_ok c e c' : built_ok c -> life_prompt e = true -> life_step c e = Some c' -> built_ok c'.
Proof.
  intros [H Hb] Hp Hs. destruct e as [e|v]; cbn in Hs, Hp.
  - apply bind_Some in Hs as (s & Hs & [= <-]). split; [by eapply owner_step_ok|]. cbn. intros t Ht.
    destruct (reads_snapshot (cl_owner c) e) eqn:Er; [done|].
    assert (Hx := step_pcs _ _ _ t (pc_of s t) Hs Ht eq_refl). destruct Hx as [E|[[E1 E2]|[_ ?]]]; [|by apply (Hb t); left|congruence].
    apply (Hb t). by rewrite E.
  - destruct (lo_op (cl_owner c)) eqn:Eo; try done. destruct (from_option _ _ _) eqn:Ea; simplify_eq.
    destruct (gone _ H Ea) as (Hd & _ & _). split; [done|]. cbn. intros t Ht. specialize (Hd t). unfold is_alive in Hd.
    destruct Ht as [Ht|Ht]; by rewrite Ht in Hd.
Qed.

(** A controller that runs was built from the configuration it was last
    given. *)
Theorem running_snapshot_current v es c :
  life_run (mkLife owner_new v None) es = Some c -> Forall (fun e => life_prompt e = true) es ->
  lo_running (cl_owner c) = true -> cl_built c = Some (cl_snapshot c).
Proof.
  intros Hr Hp Hrun. assert (H : built_ok c).
  { assert (H0 : built_ok (mkLife owner_new v None)) by (split; [apply owner_new_ok|by intros t [|]]).
    revert Hr H0. generalize (mkLife owner_new v None). induction Hp as [|e es He _ IH]; intros c0 Hr H0; cbn in Hr; [by simplify_eq|].
    apply bind_Some in Hr as (c1 & H1 & Hr). apply (IH c1 Hr). by eapply life_step_ok. }
  destruct H as [H Hb]. destruct (lo_thread (cl_owner c)) as [t|] eqn:Et;
    [|by destruct (ow_none _ H Et) as (_ & ? & _); congruence].
  destruct (ow_held _ H t Et) as (x & Hx & _ & Hs & _). apply (Hb t). right. unfold pc_of. rewrite Hx. by apply Hs.
Qed.
End Snapshot.
