(* ===== verification/Handoff.v ===== *)
(** * dynlink/controller.py: the connection's calibration, across threads

    The connection monitor publishes on its own thread; the controller's
    subscribers store the radio the drone reported and post a callback to the
    controller's loop, if there is one.  A loop that starts reads the bus's
    cached state instead.  A step per stretch of either thread: the caching and
    the subscriber's call of one [publish], the making of the loop, of the
    policy, the two halves of the seed, a posted callback, the end.  The second
    part is the loop over the stats client. *)
From Stdlib Require Import Lia Bool.
From stdpp Require Import base tactics list sets.
From S2P Require Import Prelude.

Section Handoff.
(** What a drone reports of its radio, and the adapter id in it, if there is one
    that is not empty. *)
Context {R A : Type} (adapter_of : R -> option A).

(** The two events of the bus, as the controller sees them. *)
Inductive conn_ev := Connected (r : R) | Disconnected.
(** The callbacks posted: they carry nothing. *)
Inductive callback := Connected_inloop | Disconnected_inloop.

(** No loop; a loop with [_run] not started; a policy made; the seed between
    its read and its write; serving; the policy dropped, the loop not closed. *)
Inductive ctl_phase := NoLoop | LoopUp | Built | Seeding (seen : option R) | Live | Dropped.

Record handoff := mkHand {
  hd_bus : option R;               (** the cached state: a connected drone's radio *)
  hd_delivering : option conn_ev;  (** published, its subscriber not called yet *)
  hd_pending : option R;           (** [_pending_cal] *)
  hd_phase : ctl_phase;
  hd_queue : list callback;
  hd_bound : option A;             (** the adapter the policy was last bound to *)
  hd_flights : nat                 (** [begin_flight] calls of this policy *)
}.
#[export] Instance eta_Hand : Settable handoff := fun h =>
  mkHand (hd_bus h) (hd_delivering h) (hd_pending h) (hd_phase h) (hd_queue h) (hd_bound h) (hd_flights h).
Definition hand_init : handoff := mkHand None None None NoLoop [] None 0.
Implicit Types (h : handoff) (e : conn_ev).

(** The lock section of [EventBus.publish]; one publisher, so one at a time. *)
Definition bus_publish (e : conn_ev) (h : handoff) : option handoff :=
  match hd_delivering h with
  | None => Some (h <| hd_bus := match e with Connected r => Some r | Disconnected => None end |> <| hd_delivering := Some e |>)
  | Some _ => None
  end.

(** [_marshal]: nothing to post to when no loop is published. *)
Definition _marshal (c : callback) (h : handoff) : handoff :=
  match hd_phase h with NoLoop => h | _ => h <| hd_queue ::= fun q => q ++ [c] |> end.

Definition _on_drone_connected (r : R) (h : handoff) : handoff := _marshal Connected_inloop (h <| hd_pending := Some r |>).
Definition _on_drone_disconnected (h : handoff) : handoff := _marshal Disconnected_inloop h.

Definition deliver (h : handoff) : option handoff :=
  match hd_delivering h with
  | Some (Connected r) => Some (_on_drone_connected r (h <| hd_delivering := None |>))
  | Some Disconnected => Some (_on_drone_disconnected (h <| hd_delivering := None |>))
  | None => None
  end.

(** [_policy is not None]. *)
Definition has_policy (h : handoff) : bool := match hd_phase h with Built | Seeding _ | Live => true | _ => false end.

(** [_bind_calibration]: only an adapter id that is there is bound. *)
Definition bind_calibration (radio : option R) (h : handoff) : handoff :=
  match radio ≫= adapter_of with Some a => h <| hd_bound := Some a |> | None => h end.

(** [_connected_inloop]: binds what is pending, resets, begins a flight. *)
Definition connected_inloop (h : handoff) : handoff :=
  if has_policy h then bind_calibration (hd_pending h) h <| hd_flights ::= S |> else h.

(** [_seed_from_cached_connection], with the bus's state read and then used. *)
Definition seed_reads (h : handoff) : option handoff :=
  match hd_phase h with Built => Some (h <| hd_phase := Seeding (hd_bus h) |>) | _ => None end.
Definition seed_writes (h : handoff) : option handoff :=
  match hd_phase h with
  | Seeding (Some r) => Some (connected_inloop (h <| hd_pending := Some r |> <| hd_phase := Live |>))
  | Seeding None => Some (h <| hd_phase := Live |>)
  | _ => None
  end.

(** The loop runs a posted callback; never inside the seed, which does not
    await. *)
Definition run_callback (h : handoff) : option handoff :=
  match hd_phase h, hd_queue h with
  | NoLoop, _ | Seeding _, _ | _, [] => None
  | _, Connected_inloop :: q => Some (connected_inloop (h <| hd_queue := q |>))
  | _, Disconnected_inloop :: q => Some (h <| hd_queue := q |>)
  end.

(** The loop's own life. *)
Definition run_phase (h : handoff) : option handoff :=
  match hd_phase h with
  | NoLoop => Some (h <| hd_phase := LoopUp |>)
  | LoopUp => Some (h <| hd_phase := Built |> <| hd_bound := None |> <| hd_flights := 0 |>)
  | Live => Some (h <| hd_phase := Dropped |>)
  | Dropped => Some (h <| hd_phase := NoLoop |> <| hd_queue := [] |>)
  | _ => None
  end.

Inductive hand_ev := Publish (e : conn_ev) | Deliver | SeedReads | SeedWrites | RunCallback | RunPhase.

Definition hand_step (h : handoff) (ev : hand_ev) : option handoff :=
  match ev with
  | Publish e => bus_publish e h
  | Deliver => deliver h
  | SeedReads => seed_reads h
  | SeedWrites => seed_writes h
  | RunCallback => run_callback h
  | RunPhase => run_phase h
  end.

Fixpoint hand_run (h : handoff) (evs : list hand_ev) : option handoff :=
  match evs with [] => Some h | ev :: evs => h' ← hand_step h ev; hand_run h' evs end.

(** No subscriber call falls between the two halves of a seed. *)
Fixpoint seed_undisturbed (h : handoff) (evs : list hand_ev) : bool :=
  match evs with
  | [] => true
  | ev :: evs =>
      match ev, hd_phase h with Deliver, Seeding _ => false | _, _ => true end &&
      match hand_step h ev with Some h' => seed_undisturbed h' evs | None => true end
  end.

(** ** The policy is bound to the drone that is connected *)

Definition cached (e : conn_ev) : option R := match e with Connected r => Some r | Disconnected => None end.

Definition hand_ok (h : handoff) : Prop :=
  (forall e, hd_delivering h = Some e -> hd_bus h = cached e) /\
  match hd_phase h, hd_bus h with
  | Live, Some r => hd_delivering h = Some (Connected r) \/
                    (hd_pending h = Some r /\ (Connected_inloop ∈ hd_queue h \/ forall a, adapter_of r = Some a -> hd_bound h = Some a))
  | Seeding seen, Some r => hd_delivering h = Some (Connected r) \/ seen = Some r
  | _, _ => True
  end.

Lemma bound_after r h : hd_pending h = Some r -> has_policy h = true -> forall a, adapter_of r = Some a -> hd_bound (connected_inloop h) = Some a.
Proof. intros Hp Hh a Ha. unfold connected_inloop, bind_calibration. rewrite Hh, Hp. cbn. by rewrite Ha. Qed.

Lemma inloop_keeps h : hd_bus (connected_inloop h) = hd_bus h /\ hd_delivering (connected_inloop h) = hd_delivering h /\
  hd_pending (connected_inloop h) = hd_pending h /\ hd_phase (connected_inloop h) = hd_phase h /\ hd_queue (connected_inloop h) = hd_queue h.
Proof. unfold connected_inloop, bind_calibration. by destruct (has_policy h), (hd_pending h ≫= adapter_of). Qed.

Lemma bus_publish_ok e h h' : hand_ok h -> bus_publish e h = Some h' -> hand_ok h'.
Proof.
  destruct h as [bus dl pend ph q bd fl]. unfold bus_publish, hand_ok. cbn. destruct dl; [done|]. intros _ [= <-]. cbn.
  split; [by intros ? [= <-]; destruct e|]. destruct ph, e; try done; by left.
Qed.

Lemma deliver_ok h h' : hand_ok h -> (forall seen, hd_phase h <> Seeding seen) -> deliver h = Some h' -> hand_ok h'.
Proof.
  destruct h as [bus dl pend ph q bd fl]. unfold hand_ok, deliver. cbn. intros [Hb H] Hp Hd.
  destruct dl as [[r|]|]; [| |done]; injection Hd as <-; specialize (Hb _ eq_refl); cbn in Hb; subst bus; cbn.
  - destruct ph; cbn; try (by split); [by exfalso; eapply Hp|]. split; [done|]. right. split; [done|]. left. set_solver.
  - by destruct ph.
Qed.

Lemma seed_ok h h' : hand_ok h -> (seed_reads h = Some h' \/ seed_writes h = Some h') -> hand_ok h'.
Proof.
  intros [Hb H] [Hs|Hs]; [unfold seed_reads in Hs|unfold seed_writes in Hs]; destruct (hd_phase h) as [| | |[r|]| |] eqn:Ep; simplify_eq; unfold hand_ok.
  - cbn. split; [done|]. destruct (hd_bus h); [by right|done].
  - set (h0 := h <| hd_pending := _ |> <| hd_phase := _ |>). destruct (inloop_keeps h0) as (-> & -> & -> & -> & ->). cbn. split; [done|].
    destruct (hd_bus h) as [r'|]; [|done]. destruct H as [H|[= ->]]; [by left|]. right. split; [done|]. right. exact (bound_after r' h0 eq_refl eq_refl).
  - cbn. split; [done|]. destruct (hd_bus h) as [r'|]; [|done]. destruct H as [H|H]; [by left|done].
Qed.

Lemma callback_ok h h' : hand_ok h -> run_callback h = Some h' -> hand_ok h'.
Proof.
  intros [Hb H] Hs. unfold run_callback in Hs. destruct (hd_phase h) eqn:Ep; destruct (hd_queue h) as [|[] q] eqn:Eq; simplify_eq;
    unfold hand_ok; try (destruct (inloop_keeps (h <| hd_queue := q |>)) as (-> & -> & -> & -> & ->)); cbn; rewrite Ep; (split; [done|]); try done; destruct (hd_bus h) as [r|]; try done.
  - destruct H as [H|[Hp _]]; [by left|]. right. split; [done|]. right. apply bound_after; [done|]. unfold has_policy. cbn. by rewrite Ep.
  - destruct H as [H|[-> [H|H]]]; [by left| |]; right; (split; [done|]); [left; set_solver|by right].
Qed.

Lemma phase_ok h h' : hand_ok h -> run_phase h = Some h' -> hand_ok h'.
Proof. destruct h as [bus dl pend ph q bd fl]. unfold hand_ok, run_phase. cbn. intros [Hb H]. destruct ph; intros [= <-]; cbn; by destruct bus. Qed.

Lemma hand_run_ok h evs h' :
  hand_ok h -> seed_undisturbed h evs = true -> hand_run h evs = Some h' -> hand_ok h'.
Proof.
  revert h. induction evs as [|ev evs IH]; intros h H Hu Hr; cbn in *; [by simplify_eq|].
  destruct (hand_step h ev) as [h1|] eqn:Es; [|done]. cbn in Hr. apply andb_true_iff in Hu as [Hd Hu]. apply (IH h1); [|done|done].
  destruct ev; cbn in Es.
  - by eapply bus_publish_ok.
  - eapply deliver_ok; [done| |done]. by intros seen E; rewrite E in Hd.
  - eapply seed_ok; [done|by left].
  - eapply seed_ok; [done|by right].
  - by eapply callback_ok.
  - by eapply phase_ok.
Qed.

End Handoff.

(** A reconnection published between the two halves of the seed is
    overwritten: the policy stays bound to the radio that was read. *)
Lemma seed_race {A} (r1 r2 : A) :
  match hand_run Some hand_init
    [Publish (Connected r1); Deliver; RunPhase; RunPhase; SeedReads; Publish Disconnected; Deliver;
     Publish (Connected r2); Deliver; SeedWrites; RunCallback; RunCallback] with
  | Some h => hd_phase h = Live /\ hd_delivering h = None /\ hd_queue h = [] /\ hd_bus h = Some r2 /\ hd_bound h = Some r1
  | None => False
  end.
Proof. cbn. done. Qed.

(** A drone that reports no adapter id leaves the policy on the prior of the
    drone before it. *)
Lemma unreported_adapter {A} (a : A) :
  match hand_run id hand_init
    [RunPhase; RunPhase; SeedReads; SeedWrites; Publish (Connected (Some a)); Deliver; RunCallback;
     Publish Disconnected; Deliver; RunCallback; Publish (Connected None); Deliver; RunCallback] with
  | Some h => hd_phase h = Live /\ hd_queue h = [] /\ hd_bus h = Some None /\ hd_bound h = Some a
  | None => False
  end.
Proof. cbn. done. Qed.

(** ** The stats loop *)

(** How a client's run ends: the stop event is set while it runs, or it ends by
    itself and the stop event is set during the pause after it, or not. *)
Inductive client_turn := StopDuringRun | StopDuringPause | PauseElapses.
Inductive feed_act := MakeClient (n : nat) | StatsConnected (b : bool) | StopClient (n : nat).

Definition client_acts (n : nat) : list feed_act := [MakeClient n; StatsConnected true; StopClient n; StatsConnected false].

(** [_stats_loop]; the flag: it has returned. *)
Fixpoint _stats_loop (n : nat) (turns : list client_turn) : list feed_act * bool :=
  match turns with
  | [] => ([], false)
  | PauseElapses :: turns => let '(acts, fin) := _stats_loop (S n) turns in (client_acts n ++ acts, fin)
  | _ :: _ => (client_acts n, true)
  end.

Definition made_client (a : feed_act) : option nat := match a with MakeClient n => Some n | _ => None end.
Definition stopped_client (a : feed_act) : option nat := match a with StopClient n => Some n | _ => None end.

(** Every client that was made is stopped, before the next is made; the feed is
    reported down at the end; the loop returns at the first stop. *)
Lemma stats_loop_clean n turns :
  let '(acts, fin) := _stats_loop n turns in
  omap made_client acts = omap stopped_client acts /\ NoDup (omap made_client acts) /\ Forall (fun k => n <= k) (omap made_client acts) /\
  (acts <> [] -> last acts = Some (StatsConnected false)) /\
  (fin = true <-> exists t, t ∈ turns /\ t <> PauseElapses).
Proof.
  revert n. induction turns as [|t turns IH]; intros n; cbn; [split_and!; try done; [constructor|split; [done|]]; intros (t & Ht & _); by apply elem_of_nil in Ht|].
  destruct t; cbn.
  1,2: split_and!; try done; [apply NoDup_singleton|repeat constructor|split; [intros _|done]; eexists; split; [by left|done]].
  specialize (IH (S n)). destruct (_stats_loop (S n) turns) as [acts fin]. destruct IH as (H1 & H2 & H3 & H4 & H5). cbn. rewrite H1. split_and!.
  - done.
  - constructor; [|by rewrite <- H1]. rewrite <- H1. intros Hin. rewrite Forall_forall in H3. specialize (H3 n Hin). lia.
  - constructor; [done|]. rewrite <- H1. eapply Forall_impl; [exact H3|]. cbn. lia.
  - intros _. destruct acts as [|a acts]; [done|]. by rewrite <- H4.
  - rewrite H5. split; intros (t & Ht & Hne); exists t; (split; [|done]); [by right|]. apply elem_of_cons in Ht as [->|]; done.
Qed.
