(* ===== verification/FlightLog.v ===== *)
(** * The flight log (gs/fpvdgs/dynlink/flightlog.py)

    One JSONL file per flight.  The log directory is a dict of files, each with
    the lines on the card and the lines still buffered; what the operating
    system answers is an argument of each operation. *)
From Stdlib Require Import ZArith Lia Bool String.
From stdpp Require Import base tactics list strings relations.
From S2P Require Import Prelude PyStr Json.
Open Scope Z_scope.

Record FlightLogConfig (F : Type) := mkFLC {
  fl_enabled : bool; fl_dir : string; fl_max_mb : F; fl_sync_interval : Z
}.
Arguments mkFLC {F}.
Arguments fl_enabled {F} _.
Arguments fl_dir {F} _.
Arguments fl_max_mb {F} _.
Arguments fl_sync_interval {F} _.

Record file := mkFile { f_durable : list string; f_buffered : list string }.
Definition f_lines (f : file) : list string := f_durable f ++ f_buffered f.

(** The directory, by file name. *)
Definition dir := list (string * file).

(** Which system calls succeed. *)
Record IO := mkIO { io_list : bool; io_open : bool; io_write : bool; io_sync : bool }.

Record FlightLog := mkFL {
  fh : option string;
  fl_bytes : Z;
  since_sync : Z;
  reopen_pending : Z;
  max_bytes : Z
}.
#[export] Instance eta_FL : Settable FlightLog := fun r =>
  mkFL (fh r) (fl_bytes r) (since_sync r) (reopen_pending r) (max_bytes r).

(** [f[: -len(suf)]] when [f.endswith(suf)]. *)
Fixpoint strip_suffix (suf s : string) : option string :=
  if String.eqb s suf then Some EmptyString
  else match s with
       | EmptyString => None
       | String c s' => String c <$> strip_suffix suf s'
       end.

(** The flight number of a directory entry. *)
Definition flight_no (name : string) : option Z := strip_suffix ".jsonl" name ≫= parse_int 10.

Definition seq_step (hi : Z) (name : string) : Z :=
  match flight_no name with Some n => Z.max hi n | None => hi end.

Definition _next_seq (io : IO) (d : dir) : Z :=
  (if io_list io then fold_left seq_step (dict_keys d) 0 else 0) + 1.

Definition flight_name (n : Z) : string := zfill 6 n +:+ ".jsonl".

Section Ops.
Context {F : Type} {PF : PyFloat F}.
Variable cfg : FlightLogConfig F.
Implicit Types (l : FlightLog) (d : dir) (io : IO).

(** [open(path, "w")] creates or truncates. *)
Definition _open io l d : FlightLog * dir :=
  if negb (fl_enabled cfg) then (l, d)
  else if io_open io then
    let name := flight_name (_next_seq io d) in
    (l <| fh := Some name |> <| fl_bytes := 0 |> <| since_sync := 0 |>, dict_set name (mkFile [] []) d)
  else (l <| fh := None |>, d).

Definition fl_init io d : res (FlightLog * dir) :=
  let* mb := int_of_float (fl_max_mb cfg *f fofZ 1024 *f fofZ 1024) in
  Ok (_open io (mkFL None 0 0 0 mb) d).

Definition update_file (name : string) (g : file -> file) d : dir :=
  match dict_get name d with Some f => dict_set name (g f) d | None => d end.

Definition sync_file (f : file) : file := mkFile (f_lines f) [].

Definition _sync io l d : dir :=
  match fh l with
  | Some name => if io_sync io then update_file name sync_file d else d
  | None => d
  end.

(** Append one serialised record; [None] is a record [json.dumps] rejects. *)
Definition append io l d (line : option string) (name : string) : FlightLog * dir :=
  match line with
  | Some line =>
      if io_write io then
        let d1 := update_file name (fun f => mkFile (f_durable f) (f_buffered f ++ [line])) d in
        let l1 := l <| fl_bytes ::= Z.add (Z.of_nat (String.length line)) |> <| since_sync ::= Z.succ |> in
        if since_sync l1 >=? fl_sync_interval cfg then (l1 <| since_sync := 0 |>, _sync io l1 d1)
        else (l1, d1)
      else (l, d)
  | None => (l, d)
  end.

Definition write io l d (line : option string) : FlightLog * dir :=
  let '(l1, d1) :=
    match fh l with
    | Some _ => (l, d)
    | None =>
        let l0 := l <| reopen_pending ::= Z.succ |> in
        if reopen_pending l0 >=? fl_sync_interval cfg then _open io (l0 <| reopen_pending := 0 |>) d
        else (l0, d)
    end in
  match fh l1 with
  | None => (l1, d1)
  | Some name => if fl_bytes l1 >=? max_bytes l1 then (l1, d1) else append io l1 d1 line name
  end.

Definition fl_close io l d : FlightLog * dir :=
  match fh l with
  | Some _ => (l <| fh := None |>, _sync io l d)
  | None => (l, d)
  end.

Definition roll io l d : FlightLog * dir :=
  if negb (fl_enabled cfg) then (l, d)
  else let '(l1, d1) := fl_close io l d in _open io l1 d1.

Definition begin_flight io l d : FlightLog * dir :=
  if negb (fl_enabled cfg) then (l, d)
  else match fh l with
       | Some _ => if fl_bytes l =? 0 then (l, d) else roll io l d
       | None => roll io l d
       end.
End Ops.

(* ------------------------------------------------------------------ *)
(** ** Properties *)

Lemma length_append s t : String.length (s +:+ t) = (String.length s + String.length t)%nat.
Proof. induction s as [|c s IH]; [done|]. change (String c s +:+ t) with (String c (s +:+ t)). cbn. by rewrite IH. Qed.

Lemma strip_suffix_app s suf : strip_suffix suf (s +:+ suf) = Some s.
Proof.
  induction s as [|c s IH].
  - change (EmptyString +:+ suf) with suf. destruct suf; [done|]. cbn [strip_suffix]. by rewrite String.eqb_refl.
  - change (String c s +:+ suf) with (String c (s +:+ suf)). cbn [strip_suffix].
    destruct (String.eqb_spec (String c (s +:+ suf)) suf) as [E|_]; [exfalso|by rewrite IH].
    apply (f_equal String.length) in E. cbn [String.length] in E. rewrite length_append in E. lia.
Qed.

Lemma flight_no_name n : 0 <= n -> flight_no (flight_name n) = Some n.
Proof.
  intros Hn. unfold flight_no, flight_name. rewrite strip_suffix_app. cbn. by apply parse_zfill.
Qed.

Lemma fold_seq_ge names hi : hi <= fold_left seq_step names hi /\
  (forall name n, name ∈ names -> flight_no name = Some n -> n <= fold_left seq_step names hi).
Proof.
  revert hi. induction names as [|x names IH]; intros hi; cbn [fold_left].
  { split; [lia|]. intros name n H. by apply not_elem_of_nil in H. }
  destruct (IH (seq_step hi x)) as [H1 H2].
  assert (Hx : hi <= seq_step hi x /\ forall n, flight_no x = Some n -> n <= seq_step hi x).
  { unfold seq_step. destruct (flight_no x); [|split; [lia|done]]. split; [lia|]. intros n [= ->]. lia. }
  destruct Hx as [Hx1 Hx2]. split; [lia|]. intros name n [->|Hin]%elem_of_cons Hn; [|by eapply H2].
  specialize (Hx2 n Hn). lia.
Qed.

Lemma next_seq_fresh io (d : dir) : io_list io = true -> flight_name (_next_seq io d) ∉ dict_keys d.
Proof.
  intros Hl Hin. unfold _next_seq in *. rewrite Hl in *.
  destruct (fold_seq_ge (dict_keys d) 0) as [H0 H].
  assert (Hn := flight_no_name (fold_left seq_step (dict_keys d) 0 + 1)).
  specialize (H _ _ Hin (Hn ltac:(lia))). lia.
Qed.

Section Theory.
Context {F : Type} {PF : PyFloat F}.
Variable cfg : FlightLogConfig F.
Implicit Types (l : FlightLog) (d : dir) (io : IO).

(** The log's operations, under what the system answers. *)
Inductive fl_op := Op_write (line : option string) | Op_sync | Op_begin | Op_roll | Op_close.

Definition fl_do io (op : fl_op) (ld : FlightLog * dir) : FlightLog * dir :=
  let '(l, d) := ld in
  match op with
  | Op_write line => write cfg io l d line
  | Op_sync => (l, _sync io l d)
  | Op_begin => begin_flight cfg io l d
  | Op_roll => roll cfg io l d
  | Op_close => fl_close io l d
  end.

(** *** Nothing written is lost *)

Definition extends (f f' : file) : Prop :=
  f_durable f `prefix_of` f_durable f' /\ f_lines f `prefix_of` f_lines f'.

Definition grows d d' : Prop :=
  forall name f, dict_get name d = Some f -> exists f', dict_get name d' = Some f' /\ extends f f'.

#[local] Instance grows_preorder : PreOrder grows.
Proof.
  split; [intros d name f H; exists f; done|].
  intros d1 d2 d3 H12 H23 name f H. destruct (H12 _ _ H) as (f2 & Hf2 & E1 & E2).
  destruct (H23 _ _ Hf2) as (f3 & Hf3 & E3 & E4). exists f3. split; [done|]. split; by etrans.
Qed.

Lemma update_grows name g d : (forall f, extends f (g f)) -> grows d (update_file name g d).
Proof.
  intros Hg name' f H. unfold update_file. destruct (dict_get name d) as [f0|] eqn:E; [|by exists f].
  destruct (decide (name = name')) as [<-|Hne].
  - exists (g f0). rewrite dict_get_set_eq. split; [done|]. rewrite E in H. injection H as <-. apply Hg.
  - exists f. by rewrite dict_get_set_ne.
Qed.

Lemma sync_grows io l d : grows d (_sync io l d).
Proof.
  unfold _sync. destruct (fh l); [|done]. destruct (io_sync io); [|done]. apply update_grows.
  intros f. split; cbn; [by apply prefix_app_r|]. unfold f_lines at 2. cbn. by rewrite app_nil_r.
Qed.

Lemma append_grows io l d line name : grows d (append cfg io l d line name).2.
Proof.
  unfold append. destruct line as [line|]; [|done]. destruct (io_write io); [|done].
  set (d1 := update_file _ _ _). assert (H : grows d d1).
  { apply update_grows. intros f. split; [done|]. unfold f_lines. cbn. rewrite app_assoc. by apply prefix_app_r. }
  destruct (_ >=? _); [|done]. etrans; [exact H|apply sync_grows].
Qed.

Lemma open_grows io l d : io_list io = true -> grows d (_open cfg io l d).2.
Proof.
  intros Hl. unfold _open. destruct (negb _); [done|]. destruct (io_open io); [|done].
  intros name f H. exists f. split; [|done]. cbn. rewrite dict_get_set_ne; [done|]. intros E.
  apply (next_seq_fresh io d Hl). rewrite E. by eapply dict_get_some_key.
Qed.

Lemma close_grows io l d : grows d (fl_close io l d).2.
Proof. unfold fl_close. destruct (fh l); [|done]. apply sync_grows. Qed.

Lemma roll_grows io l d : io_list io = true -> grows d (roll cfg io l d).2.
Proof.
  intros Hl. unfold roll. destruct (negb _); [done|]. assert (H := close_grows io l d).
  destruct (fl_close io l d) as [l1 d1]. etrans; [exact H|by apply open_grows].
Qed.

(** No operation of the flight log removes or rewrites a line of any
    file: it only appends or makes lines durable. *)
Theorem log_append_only io op l d name f :
  io_list io = true -> dict_get name d = Some f ->
  exists f', dict_get name (fl_do io op (l, d)).2 = Some f' /\ extends f f'.
Proof.
  intros Hl. revert name f. change (grows d (fl_do io op (l, d)).2).
  destruct op as [line| | | |]; cbn [fl_do].
  - unfold write. set (ld1 := match fh l with Some _ => _ | None => _ end).
    assert (H1 : grows d ld1.2).
    { subst ld1. destruct (fh l); [done|]. destruct (_ >=? _); [by apply open_grows|done]. }
    destruct ld1 as [l1 d1]. destruct (fh l1); [|done]. destruct (_ >=? _); [done|].
    etrans; [exact H1|apply append_grows].
  - apply sync_grows.
  - unfold begin_flight. destruct (negb _); [done|]. destruct (fh l); [destruct (_ =? 0); [done|]|]; by apply roll_grows.
  - by apply roll_grows.
  - apply close_grows.
Qed.

(** *** What a power cut can take *)

Definition total (ls : list string) : Z := sumZ (map (fun s => Z.of_nat (String.length s)) ls).

Definition fl_ok (ld : FlightLog * dir) : Prop :=
  let '(l, d) := ld in
  match fh l with
  | None => True
  | Some name =>
      exists f, dict_get name d = Some f /\ fl_bytes l = total (f_lines f) /\
        Z.of_nat (length (f_buffered f)) <= since_sync l /\
        0 <= since_sync l < Z.max 1 (fl_sync_interval cfg) /\
        forall ls x, f_lines f = ls ++ [x] -> total ls < max_bytes l
  end.

Lemma open_ok io l d : fl_ok (l, d) -> fl_ok (_open cfg io l d).
Proof.
  intros Hok. unfold _open. destruct (negb _); [done|]. destruct (io_open io); [|done].
  cbn. exists (mkFile [] []). rewrite dict_get_set_eq. split; [done|]. split; [done|]. split; [done|].
  split; [lia|]. intros ls x H. by destruct ls.
Qed.

Lemma append_ok io l d line name :
  io_sync io = true -> fl_ok (l, d) -> fh l = Some name -> fl_bytes l < max_bytes l ->
  fl_ok (append cfg io l d line name).
Proof.
  intros Hs Hok Hfh Hb. unfold append. destruct line as [line|]; [|done]. destruct (io_write io); [|done].
  unfold fl_ok in Hok. rewrite Hfh in Hok. destruct Hok as (f & Hf & Hbytes & Hsy & Hlt & Hcap).
  set (l1 := l <| fl_bytes ::= _ |> <| since_sync ::= _ |>). unfold update_file at 1 2. rewrite Hf.
  set (f1 := mkFile (f_durable f) (f_buffered f ++ [line])).
  assert (Hl1 : f_lines f1 = f_lines f ++ [line]) by (unfold f_lines; cbn; by rewrite app_assoc).
  assert (Ht : fl_bytes l1 = total (f_lines f1)).
  { rewrite Hl1. unfold total. rewrite map_app, sumZ_app. cbn. fold (total (f_lines f)). rewrite Hbytes. unfold sumZ. cbn. lia. }
  assert (Hc1 : forall ls x, f_lines f1 = ls ++ [x] -> total ls < max_bytes l1).
  { intros ls x H. rewrite Hl1 in H. apply app_inj_tail in H as [<- _]. cbn. lia. }
  assert (Hs1 : Z.of_nat (length (f_buffered f1)) <= since_sync l1) by (cbn; rewrite length_app; cbn; lia).
  destruct (_ >=? _) eqn:E.
  - unfold fl_ok, _sync. cbn [fh]. rewrite Hs. change (fh l1) with (fh l). 
    change (fh (l1 <| since_sync := 0 |>)) with (fh l). rewrite Hfh. unfold update_file. rewrite dict_get_set_eq.
    exists (sync_file f1). rewrite dict_get_set_eq. split; [done|].
    assert (Hl2 : f_lines (sync_file f1) = f_lines f1) by (unfold f_lines at 1; cbn; by rewrite app_nil_r).
    rewrite Hl2. split; [exact Ht|]. split; [done|]. split; [cbn; lia|exact Hc1].
  - unfold fl_ok. change (fh l1) with (fh l). rewrite Hfh. exists f1. rewrite dict_get_set_eq.
    split; [done|]. split; [exact Ht|]. split; [exact Hs1|]. split; [|exact Hc1].
    rewrite Z.geb_leb, Z.leb_gt in E. cbn in *. lia.
Qed.

Lemma sync_ok io l d : fl_ok (l, d) -> io_sync io = true ->
  match fh l with
  | Some name => exists f, dict_get name (_sync io l d) = Some f /\ f_buffered f = [] /\ fl_bytes l = total (f_lines f) /\
                   forall ls x, f_lines f = ls ++ [x] -> total ls < max_bytes l
  | None => True
  end.
Proof.
  unfold fl_ok, _sync. intros H Hs. rewrite Hs. destruct (fh l) as [name|]; [|done].
  destruct H as (f & Hf & Hb & _ & _ & Hc). unfold update_file. rewrite Hf.
  exists (sync_file f). rewrite dict_get_set_eq. split; [done|]. split; [done|].
  assert (Hl : f_lines (sync_file f) = f_lines f) by (unfold f_lines at 1; cbn; by rewrite app_nil_r).
  rewrite Hl. done.
Qed.

Lemma close_ok io l d : fl_ok (l, d) -> fl_ok (fl_close io l d).
Proof. unfold fl_close. destruct (fh l) as [name|] eqn:E; [done|]. unfold fl_ok. by rewrite E. Qed.

Lemma roll_ok io l d : fl_ok (l, d) -> fl_ok (roll cfg io l d).
Proof.
  intros H. unfold roll. destruct (negb _); [done|]. apply (close_ok io) in H.
  destruct (fl_close io l d). by apply open_ok.
Qed.

Lemma fl_do_ok io op ld : io_sync io = true -> fl_ok ld -> fl_ok (fl_do io op ld).
Proof.
  destruct ld as [l d]. intros Hs Hok. destruct op as [line| | | |]; cbn [fl_do].
  - unfold write. set (ld1 := match fh l with Some _ => _ | None => _ end).
    assert (H1 : fl_ok ld1).
    { subst ld1. destruct (fh l) eqn:E; [done|]. destruct (_ >=? _); [apply open_ok|]; unfold fl_ok; cbn; by rewrite E. }
    destruct ld1 as [l1 d1]. destruct (fh l1) as [name|] eqn:E; [|done]. destruct (_ >=? _) eqn:Eb; [done|].
    rewrite Z.geb_leb, Z.leb_gt in Eb. by apply append_ok.
  - assert (H := sync_ok io l d Hok Hs). unfold fl_ok in *. destruct (fh l); [|done].
    destruct H as (f & Hf & Hbuf & Hb & Hc). destruct Hok as (_ & _ & _ & _ & Hlt & _).
    exists f. rewrite Hbuf. split; [done|]. split; [done|]. split; [cbn; lia|]. by split.
  - unfold begin_flight. destruct (negb _); [done|]. destruct (fh l); [destruct (_ =? 0); [done|]|]; by apply roll_ok.
  - by apply roll_ok.
  - by apply close_ok.
Qed.

Fixpoint fl_run (ops : list (IO * fl_op)) (ld : FlightLog * dir) : FlightLog * dir :=
  match ops with [] => ld | (io, op) :: ops' => fl_run ops' (fl_do io op ld) end.

(** C37: While fsync works, a power loss costs fewer than sync_interval lines
    of the open file, the byte count is the file's size, and a file is left as
    soon as it passes the size limit. *)
Theorem log_loss_bounded io0 d0 ld0 ops name f :
  fl_init cfg io0 d0 = Ok ld0 -> Forall (fun x => io_sync x.1 = true) ops ->
  let ld := fl_run ops ld0 in
  fh ld.1 = Some name -> dict_get name ld.2 = Some f ->
  Z.of_nat (length (f_buffered f)) < Z.max 1 (fl_sync_interval cfg) /\
  fl_bytes ld.1 = total (f_lines f) /\
  (forall ls x, f_lines f = ls ++ [x] -> total ls < max_bytes ld.1).
Proof.
  intros Hi Hops. cbv zeta. unfold fl_init in Hi. apply rbind_ok in Hi as (mb & _ & [= <-]).
  assert (H0 : fl_ok (_open cfg io0 (mkFL None 0 0 0 mb) d0)) by (by apply open_ok).
  revert H0. generalize (_open cfg io0 (mkFL None 0 0 0 mb) d0).
  induction Hops as [|[io op] ops Hio Hops IH]; intros ld H0; cbn [fl_run].
  - destruct ld as [l d]. cbn [fst snd]. intros Hfh Hf. unfold fl_ok in H0. rewrite Hfh in H0.
    destruct H0 as (f' & Hf' & Hb & Hs & Hlt & Hc). rewrite Hf in Hf'. injection Hf' as <-.
    split; [lia|]. by split.
  - apply IH. by apply fl_do_ok.
Qed.
End Theory.
