(* ===== verification/AggQueue.v ===== *)
(** * Message aggregation (gs/fpvdgs/wfb/agg_queue.py)

    Small messages are joined into batches of at most [max_size] bytes, flushed
    when the next message does not fit or when the timer fires.  The timer is
    the event loop's: armed, or a handle that has already fired.  [send] calls
    are returned in order. *)
From Stdlib Require Import ZArith Lia Bool.
From stdpp Require Import base tactics list.
From S2P Require Import Prelude.
Open Scope Z_scope.

Definition bytes := list Z.

(** [self.timer]: none, pending in the loop, or the handle of a timer that ran. *)
Inductive timer_state := NoTimer | Armed | Fired.

Record AggQueue := mkAggQ {
  q_max_size : option Z;
  q_timeout : bool;  (** [bool(self.timeout_s)] *)
  q_queue : list bytes;
  q_size : Z;
  q_timer : timer_state
}.
#[export] Instance eta_AggQueue : Settable AggQueue := fun r =>
  mkAggQ (q_max_size r) (q_timeout r) (q_queue r) (q_size r) (q_timer r).

Definition agg_new (max_size : option Z) (timeout : bool) : AggQueue := mkAggQ max_size timeout [] 0 NoTimer.

Definition blen (b : bytes) : Z := Z.of_nat (length b).

(** Each operation gives the new state and the batches it sent. *)
Definition put (q : AggQueue) (data : bytes) : AggQueue * list bytes :=
  match q_max_size q with
  | None => (q, [data])
  | Some max_size =>
      if negb (q_timeout q) then (q, [data])
      else if blen data >? max_size then (q, [])
      else
        let '(q1, out) :=
          if q_size q + blen data >? max_size then
            let q0 := q <| q_timer := NoTimer |> in
            match q_queue q0 with
            | [] => (q0, [])
            | l => (q0 <| q_queue := [] |> <| q_size := 0 |>, [concat l])
            end
          else (q, []) in
        let q2 := q1 <| q_queue ::= (fun l => l ++ [data]) |> <| q_size ::= Z.add (blen data) |> in
        (match q_timer q2 with NoTimer => q2 <| q_timer := Armed |> | _ => q2 end, out)
  end.

Definition flush (q : AggQueue) : AggQueue * list bytes :=
  if q_size q >? 0 then (q <| q_timer := NoTimer |> <| q_queue := [] |> <| q_size := 0 |>, [concat (q_queue q)])
  else (q, []).

Definition close (q : AggQueue) : AggQueue := q <| q_timer := NoTimer |>.

(** The loop runs an armed timer: the handle is spent, then [flush] runs. *)
Definition fire (q : AggQueue) : AggQueue * list bytes :=
  match q_timer q with Armed => flush (q <| q_timer := Fired |>) | _ => (q, []) end.

Inductive agg_op := Put (data : bytes) | Flush | Fire.

Definition agg_do (q : AggQueue) (op : agg_op) : AggQueue * list bytes :=
  match op with Put d => put q d | Flush => flush q | Fire => fire q end.

Fixpoint agg_run (q : AggQueue) (ops : list agg_op) : AggQueue * list bytes :=
  match ops with
  | [] => (q, [])
  | op :: ops' => let '(q1, o1) := agg_do q op in let '(q2, o2) := agg_run q1 ops' in (q2, o1 ++ o2)
  end.

(** The messages the queue takes: those that fit a batch. *)
Definition accepted (max_size : Z) (ops : list agg_op) : list bytes :=
  omap (fun op => match op with Put d => if blen d >? max_size then None else Some d | _ => None end) ops.

(* ------------------------------------------------------------------ *)
(** ** Properties *)

Section Theory.
Variable max_size : Z.
Implicit Types (q : AggQueue).

Definition agg_ok q : Prop :=
  q_max_size q = Some max_size /\ q_timeout q = true /\
  q_size q = sumZ (map blen (q_queue q)) /\ q_size q <= max_size.

Lemma blen_nonneg b : 0 <= blen b.
Proof. unfold blen. lia. Qed.

Lemma sum_blen_nonneg l : 0 <= sumZ (map blen l).
Proof. apply sumZ_nonneg, Forall_map, Forall_true. intros b. apply blen_nonneg. Qed.

Lemma blen_concat l : blen (concat l) = sumZ (map blen l).
Proof.
  unfold blen. induction l as [|b l IH]; [done|]. cbn. rewrite length_app, Nat2Z.inj_add, IH. done.
Qed.

(** What one operation does: [groups] are the batches, as lists of messages. *)
Definition effect q (new : list bytes) q' (out : list bytes) : Prop :=
  agg_ok q' /\
  exists groups, out = map (@concat Z) groups /\ concat groups ++ q_queue q' = q_queue q ++ new /\
    Forall (fun g => sumZ (map blen g) <= max_size) groups.

Lemma flush_effect q q' out : agg_ok q -> flush q = (q', out) -> effect q [] q' out.
Proof.
  intros Hok. assert (Hok' := Hok). destruct Hok' as (Hm & Ht & Hs & Hle). unfold flush.
  destruct (_ >? 0) eqn:E; intros [= <- <-]; rewrite ?Z.gtb_ltb in E.
  - apply Z.ltb_lt in E. split.
    { split; [done|]. split; [done|]. cbn. split; [done|]. lia. }
    exists [q_queue q]. cbn. rewrite !app_nil_r. split; [done|]. split; [done|]. constructor; [lia|constructor].
  - split; [done|]. exists []. cbn. by rewrite app_nil_r.
Qed.

Lemma put_effect q data q' out :
  agg_ok q -> put q data = (q', out) -> effect q (accepted max_size [Put data]) q' out.
Proof.
  intros Hok. assert (Hok' := Hok). destruct Hok' as (Hm & Ht & Hs & Hle). unfold put. rewrite Hm, Ht. cbn [negb].
  unfold accepted. cbn [omap list_omap]. destruct (_ >? _) eqn:Eb.
  { intros [= <- <-]. split; [done|]. exists []. cbn. by rewrite app_nil_r. }
  rewrite Z.gtb_ltb, Z.ltb_ge in Eb.
  set (r := if q_size q + blen data >? max_size then _ else _).
  assert (Hr : exists groups, r.2 = map (@concat Z) groups /\ concat groups ++ q_queue r.1 = q_queue q /\
    Forall (fun g => sumZ (map blen g) <= max_size) groups /\
    q_max_size r.1 = Some max_size /\ q_timeout r.1 = true /\ q_size r.1 = sumZ (map blen (q_queue r.1)) /\
    q_size r.1 + blen data <= max_size).
  { subst r. destruct (_ + _ >? _) eqn:E; rewrite ?Z.gtb_ltb in E; [|apply Z.ltb_ge in E; by exists []].
    cbn [q_queue]. change (q_queue (q <| q_timer := NoTimer |>)) with (q_queue q).
    destruct (q_queue q) as [|b l] eqn:Eq.
    - exists []. cbn in *. rewrite Eq. repeat split; try done; lia.
    - exists [b :: l]. cbn [snd fst map concat app]. cbn [q_queue]. rewrite !app_nil_r. split; [done|]. split; [done|]. split; [apply Forall_singleton; rewrite <- Hs; lia|].
      repeat split; done || lia. }
  destruct r as [q1 o1]. cbn [fst snd] in Hr.
  destruct Hr as (groups & Ho & Hcat & Hf & Hm1 & Ht1 & Hs1 & Hle1). intros [= <- <-].
  set (q2 := q1 <| q_queue ::= _ |> <| q_size ::= _ |>).
  assert (H2 : agg_ok q2 /\ q_queue q2 = q_queue q1 ++ [data]).
  { split; [|done]. split; [done|]. split; [done|].
    change (q_size q2) with (blen data + q_size q1). change (q_queue q2) with (q_queue q1 ++ [data]).
    rewrite map_app, sumZ_app. change (sumZ (map blen [data])) with (blen data + 0). split; lia. }
  destruct H2 as [H2 Hq2]. clearbody q2. split; [destruct (q_timer q1); exact H2|].
  exists groups. split; [done|]. split; [|done].
  replace (q_queue (match q_timer q1 with NoTimer => _ | _ => _ end)) with (q_queue q2) by (by destruct (q_timer q1)).
  rewrite Hq2, <- Hcat. by rewrite !app_assoc.
Qed.

Lemma agg_do_effect q op q' out :
  agg_ok q -> agg_do q op = (q', out) -> effect q (accepted max_size [op]) q' out.
Proof.
  intros Hok. destruct op as [d| |]; cbn [agg_do].
  - by apply put_effect.
  - by apply flush_effect.
  - unfold fire. destruct (q_timer q) eqn:E.
    2: { intros H. apply flush_effect in H; [exact H|exact Hok]. }
    all: intros [= <- <-]; (split; [done|]); exists []; cbn; by rewrite app_nil_r.
Qed.

Lemma agg_run_effect q ops q' out :
  agg_ok q -> agg_run q ops = (q', out) -> effect q (accepted max_size ops) q' out.
Proof.
  revert q out. induction ops as [|op ops IH]; intros q out Hok; cbn [agg_run].
  { intros [= <- <-]. split; [done|]. exists []. cbn. by rewrite app_nil_r. }
  destruct (agg_do q op) as [q1 o1] eqn:E1. destruct (agg_run q1 ops) as [q2 o2] eqn:E2. intros [= <- <-].
  destruct (agg_do_effect _ _ _ _ Hok E1) as (Hok1 & g1 & -> & Hc1 & Hf1).
  destruct (IH _ _ Hok1 E2) as (Hok2 & g2 & -> & Hc2 & Hf2). split; [done|].
  exists (g1 ++ g2). rewrite map_app, concat_app, <- app_assoc, Hc2, (app_assoc (concat g1)), Hc1. split; [done|].
  split; [|by apply Forall_app]. rewrite <- app_assoc. f_equal. unfold accepted. by rewrite <- omap_app.
Qed.

(** Every batch is a concatenation of whole messages, the batches and the
    queue together are the accepted messages in order, and no batch or queue
    exceeds the size limit. *)
Theorem batches_are_messages timeout ops q' out :
  timeout = true -> 0 <= max_size -> agg_run (agg_new (Some max_size) timeout) ops = (q', out) ->
  exists groups, out = map (@concat Z) groups /\ concat groups ++ q_queue q' = accepted max_size ops /\
    Forall (fun b => blen b <= max_size) out /\ blen (concat (q_queue q')) <= max_size.
Proof.
  intros -> H0 H. apply agg_run_effect in H as ((_ & _ & Hs & Hle) & groups & -> & Hc & Hf); [|by repeat split].
  exists groups. split; [done|]. split; [exact Hc|]. split; [|rewrite blen_concat; lia].
  apply Forall_map. eapply Forall_impl; [exact Hf|]. intros g Hg. cbn. by rewrite blen_concat.
Qed.

(** *** The timer *)

(** Queued bytes have a flush coming, and no timer runs for an empty queue. *)
Definition timer_ok q : Prop :=
  match q_queue q with
  | [] => q_timer q = NoTimer /\ q_size q = 0
  | _ => q_timer q = Armed /\ 0 < q_size q
  end.

Definition nonempty_op (op : agg_op) : Prop := match op with Put d => d <> [] | _ => True end.

Lemma flush_empties q : timer_ok q -> q_queue (flush q).1 = [] /\ timer_ok (flush q).1 /\
  (flush q).2 = (match q_queue q with [] => [] | l => [concat l] end).
Proof.
  unfold timer_ok, flush. destruct (q_queue q) as [|b l] eqn:E; intros [Ht Hs].
  - rewrite Hs. cbn. by rewrite E.
  - destruct (Z.gtb_spec (q_size q) 0); [done|lia].
Qed.

Lemma fire_is_flush q : timer_ok q -> fire q = flush q.
Proof.
  unfold timer_ok, fire. destruct (q_queue q) as [|b l] eqn:E; intros [Ht Hs]; rewrite Ht.
  - unfold flush. by rewrite Hs.
  - unfold flush. cbn. destruct (Z.gtb_spec (q_size q) 0); [done|lia].
Qed.

Lemma agg_do_timer q op : agg_ok q -> timer_ok q -> nonempty_op op -> timer_ok (agg_do q op).1.
Proof.
  intros (Hm & Ht & _) Hok Hne. destruct op as [d| |]; cbn [agg_do].
  - unfold put. rewrite Hm, Ht. cbn [negb]. destruct (_ >? _); [done|].
    set (r := if q_size q + blen d >? max_size then _ else _).
    assert (Hr : q_timer r.1 <> Fired /\ 0 <= q_size r.1).
    { subst r. unfold timer_ok in Hok. destruct (_ >? _).
      - change (q_queue (q <| q_timer := NoTimer |>)) with (q_queue q).
        destruct (q_queue q) as [|b l]; destruct Hok as [_ Hs]; cbn; split; done || lia.
      - cbn [fst]. destruct (q_queue q); destruct Hok as [Hti Hs]; rewrite Hti; split; done || lia. }
    destruct r as [q1 o1]. cbn [fst] in *. destruct Hr as [Hr1 Hr2].
    assert (Hd : 0 < blen d) by (destruct d; [done|]; unfold blen; cbn; lia).
    assert (Hq : forall t, t <> Fired -> timer_ok (match t with NoTimer => q1 <| q_queue ::= (fun l => l ++ [d]) |>
        <| q_size ::= Z.add (blen d) |> <| q_timer := Armed |> | _ => q1 <| q_queue ::= (fun l => l ++ [d]) |>
        <| q_size ::= Z.add (blen d) |> <| q_timer := t |> end)).
    { intros t Htf. unfold timer_ok. destruct t; [| |done]; cbn; destruct (q_queue q1); cbn; (split; [done|lia]). }
    specialize (Hq (q_timer q1) Hr1). destruct q1 as [a b c e t]. cbn in *. by destruct t.
  - by apply flush_empties.
  - rewrite fire_is_flush by done. by apply flush_empties.
Qed.

Lemma agg_run_timer q ops : agg_ok q -> timer_ok q -> Forall nonempty_op ops ->
  agg_ok (agg_run q ops).1 /\ timer_ok (agg_run q ops).1.
Proof.
  intros Hok Ht Hops. revert q Hok Ht. induction Hops as [|op ops Hop Hops IH]; intros q Hok Ht; [done|].
  cbn [agg_run]. assert (Ht1 := agg_do_timer _ _ Hok Ht Hop).
  destruct (agg_do q op) as [q1 o1] eqn:E1. destruct (agg_do_effect _ _ _ _ Hok E1) as [Hok1 _].
  specialize (IH q1 Hok1 Ht1). by destruct (agg_run q1 ops).
Qed.

(** As long as no empty message is put, a non-empty queue has its timer
    armed and the timer sends all of it. *)
Theorem queued_messages_are_flushed ops :
  0 <= max_size -> Forall nonempty_op ops ->
  let q := (agg_run (agg_new (Some max_size) true) ops).1 in
  (q_queue q <> [] -> q_timer q = Armed /\ (fire q).2 = [concat (q_queue q)]) /\ q_queue (fire q).1 = [].
Proof.
  intros H0 Hops. destruct (agg_run_timer (agg_new (Some max_size) true) ops) as [Hok Ht]; [by repeat split|done|done|].
  cbv zeta. set (q := (agg_run _ _).1) in *. rewrite fire_is_flush by done.
  destruct (flush_empties q Ht) as (H1 & _ & H3). split; [|done]. intros Hne. rewrite H3.
  unfold timer_ok in Ht. destruct (q_queue q); [done|]. by destruct Ht.
Qed.
End Theory.

(** An empty message breaks the timer: its handle fires, stays, and later
    messages wait for a flush that is not scheduled. *)
Lemma empty_message_stalls_timer :
  let q := (agg_run (agg_new (Some 1445) true) [Put []; Fire; Put [1; 2; 3]]).1 in
  q_queue q = [[]; [1; 2; 3]] /\ q_timer q = Fired /\ fire q = (q, []).
Proof. repeat split. Qed.
