(* ===== verification/Tunnel.v ===== *)
(** * The IP tunnel (gs/fpvdgs/wfb/tunnel.py)

    The length-prefixed batch codec, the uplink through the aggregation queue,
    the keepalive counters and the table of connected tx sockets.  A socket is
    an identity handed out by [connect]; sends and tun writes are returned. *)
From Stdlib Require Import ZArith Lia Bool String.
From stdpp Require Import base tactics list strings.
From S2P Require Import Prelude Json Bytes AggQueue.
Open Scope Z_scope.

(** ** Framing *)

Definition pack_tun (data : bytes) : res bytes :=
  let* h := pack_be 2 (blen data) in Ok (h ++ data).

(** The loop of [unpack_batch] on what is left of the message; each turn takes
    at least the two header bytes. *)
Fixpoint unpack_go (fuel : nat) (rest : bytes) : list bytes :=
  match fuel with
  | O => []
  | S f =>
      match rest with
      | [] => []
      | _ =>
          if (length rest <? 2)%nat then []
          else
            let pkt_size := Z.to_nat (be_val (take 2 rest)) in
            let body := drop 2 rest in
            if (length body <? pkt_size)%nat then []
            else take pkt_size body :: unpack_go f (drop pkt_size body)
      end
  end.

Definition unpack_batch (msg : bytes) : list bytes := unpack_go (length msg) msg.

(** ** Service state *)

Record TunnelService := mkTun {
  tn_agg : AggQueue;
  pkt_in_sem : Z;
  pkt_out_sem : Z;
  tx_socks : list (string * Z);
  tx_sock_name : option string;
  tx_sock : option Z;
  closed_socks : list Z;
  next_sock : Z
}.
#[export] Instance eta_Tun : Settable TunnelService := fun r =>
  mkTun (tn_agg r) (pkt_in_sem r) (pkt_out_sem r) (tx_socks r) (tx_sock_name r) (tx_sock r)
    (closed_socks r) (next_sock r).

Definition tunnel_new (mtu : Z) (agg_timeout : bool) : TunnelService :=
  mkTun (agg_new (Some mtu) agg_timeout) 0 0 [] None None [] 0.

(** A datagram handed to a socket. *)
Definition send_log := list (Z * bytes).

Definition _send_to_current_tx (t : TunnelService) (data : bytes) : send_log :=
  match tx_sock t with Some s => [(s, data)] | None => [] end.

Definition _broadcast (t : TunnelService) (data : bytes) : send_log :=
  map (fun ns => (ns.2, data)) (tx_socks t).

Definition _keepalive_tick (t : TunnelService) : TunnelService * send_log :=
  let out := if pkt_in_sem t =? 0 then _broadcast t []
             else if pkt_out_sem t =? 0 then _send_to_current_tx t []
             else [] in
  (t <| pkt_in_sem ::= (fun n => if n >? 0 then n - 1 else n) |>
     <| pkt_out_sem ::= (fun n => if n >? 0 then n - 1 else n) |>, out).

(** [_on_tun_readable] on the bytes [os.read] gave. *)
Definition _on_tun_readable (t : TunnelService) (data : bytes) : res (TunnelService * send_log) :=
  match data with
  | [] => Ok (t, [])
  | _ =>
      let t1 := t <| pkt_out_sem := 1 |> in
      let* pkt := pack_tun data in
      let '(agg, batches) := put (tn_agg t1) pkt in
      Ok (t1 <| tn_agg := agg |>, concat (map (_send_to_current_tx t1) batches))
  end.

(** [_on_rx_batch]: the packets written to the tun device. *)
Definition _on_rx_batch (t : TunnelService) (data : bytes) : TunnelService * list bytes :=
  (t <| pkt_in_sem := 2 |>, match data with [] => [] | _ => unpack_batch data end).

(** [_connect_tx_socket]: a new socket, kept when [connect] succeeds. *)
Definition _connect_tx_socket (connects : string -> bool) (t : TunnelService) (name : string)
    : TunnelService * option Z :=
  let s := next_sock t in
  let t1 := t <| next_sock ::= Z.succ |> in
  if connects name then (t1, Some s) else (t1 <| closed_socks ::= cons s |>, None).

Definition close_sock (t : TunnelService) (s : option Z) : TunnelService :=
  match s with Some s => t <| closed_socks ::= cons s |> | None => t end.

(** The loop of [set_all_tx_sockets]: [old] loses the names it meets. *)
Fixpoint reconnect_all (connects : string -> bool) (names : list string) (old new : list (string * Z))
    (t : TunnelService) : TunnelService * list (string * Z) * list (string * Z) :=
  match names with
  | [] => (t, old, new)
  | name :: names' =>
      let t1 := close_sock t (dict_get name old) in
      let '(t2, s) := _connect_tx_socket connects t1 name in
      let new' := match s with Some s => dict_set name s new | None => new end in
      reconnect_all connects names' (dict_del name old) new' t2
  end.

Definition set_all_tx_sockets (connects : string -> bool) (t : TunnelService) (names : list string) : TunnelService :=
  let '(t1, old, new) := reconnect_all connects names (tx_socks t) [] t in
  let t2 := t1 <| closed_socks ::= (fun c => map snd old ++ c) |> <| tx_socks := new |> in
  match tx_sock_name t2 with
  | Some cur => match dict_get cur new with
                | Some s => t2 <| tx_sock := Some s |>
                | None => t2 <| tx_sock := None |> <| tx_sock_name := None |>
                end
  | None => t2
  end.

Definition set_tx_socket (connects : string -> bool) (t : TunnelService) (name : option string) : TunnelService :=
  match name with
  | None => t <| tx_sock_name := None |> <| tx_sock := None |>
  | Some name =>
      let t1 := close_sock t (dict_get name (tx_socks t)) <| tx_socks ::= dict_del name |> in
      let '(t2, s) := _connect_tx_socket connects t1 name in
      match s with
      | None => t2
      | Some s => t2 <| tx_socks ::= dict_set name s |> <| tx_sock_name := Some name |> <| tx_sock := Some s |>
      end
  end.

(* ------------------------------------------------------------------ *)
(** ** The codec *)

Lemma unpack_go_fuel f g rest :
  (length rest <= f)%nat -> (length rest <= g)%nat -> unpack_go f rest = unpack_go g rest.
Proof.
  revert g rest. induction f as [|f IH]; intros g rest Hf Hg.
  { destruct rest; [by destruct g|simpl in Hf; lia]. }
  destruct g as [|g]; [destruct rest; [done|simpl in Hg; lia]|]. cbn [unpack_go].
  destruct rest as [|b rest]; [done|]. destruct (_ <? 2)%nat eqn:E; [done|]. apply Nat.ltb_ge in E.
  destruct (_ <? _)%nat; [done|]. f_equal. cbn [length] in *. apply IH; rewrite !length_drop; simpl in *; lia.
Qed.

Lemma unpack_go_step f a b l :
  unpack_go (S f) (a :: b :: l) =
    let n := Z.to_nat (be_val [a; b]) in
    if (length l <? n)%nat then [] else take n l :: unpack_go f (drop n l).
Proof. reflexivity. Qed.

(** A packet's frame in a batch. *)
Definition tun_frame (p : bytes) : bytes := be_bytes 2 (blen p) ++ p.

Definition pkt_ok (p : bytes) : Prop := blen p < 2 ^ 16.

Lemma pack_tun_ok p : pkt_ok p -> pack_tun p = Ok (tun_frame p).
Proof.
  intros H. unfold pack_tun, pkt_ok in *. assert (Hb : pack_be 2 (blen p) = Ok (be_bytes 2 (blen p))).
  { apply pack_be_ok. split; [|done]. pose proof (blen_nonneg p). change (256 ^ Z.of_nat 2) with (2 ^ 16). lia. }
  rewrite Hb. done.
Qed.

Lemma unpack_frame p rest : pkt_ok p -> unpack_batch (tun_frame p ++ rest) = p :: unpack_batch rest.
Proof.
  intros H. unfold unpack_batch, tun_frame, pkt_ok in *. pose proof (blen_nonneg p).
  rewrite <- app_assoc. set (h := be_bytes 2 (blen p)).
  assert (Hl : length h = 2%nat) by apply be_bytes_length.
  assert (Hv : be_val h = blen p).
  { subst h. rewrite be_val_bytes. change (256 ^ Z.of_nat 2) with (2 ^ 16). apply Z.mod_small. lia. }
  clearbody h. destruct h as [|a [|b [|c h]]]; try done.
  cbn [app length]. rewrite unpack_go_step, Hv. unfold blen. rewrite Nat2Z.id. cbv zeta.
  rewrite length_app. destruct (Nat.ltb_spec (length p + length rest) (length p)); [lia|].
  rewrite take_app_length, drop_app_length. f_equal. apply unpack_go_fuel; lia.
Qed.

Lemma unpack_frames ps : Forall pkt_ok ps -> unpack_batch (concat (map tun_frame ps)) = ps.
Proof. induction 1 as [|p ps Hp Hps IH]; [done|]. cbn [map concat]. by rewrite unpack_frame, IH. Qed.

(** A batch cut short yields a prefix of its packets. *)
Lemma unpack_truncated ps n :
  Forall pkt_ok ps -> unpack_batch (take n (concat (map tun_frame ps))) `prefix_of` ps.
Proof.
  intros H. revert n. induction H as [|p ps Hp Hps IH]; intros n; cbn [map concat].
  { by rewrite take_nil. }
  destruct (decide (length (tun_frame p) <= n)%nat) as [Hle|Hlt].
  - rewrite take_app_ge by lia. rewrite unpack_frame by done. by apply prefix_cons.
  - rewrite take_app_le by lia. unfold unpack_batch, tun_frame in *.
    pose proof (blen_nonneg p). rewrite length_app, be_bytes_length in Hlt.
    assert (Hv : be_val (be_bytes 2 (blen p)) = blen p).
    { rewrite be_val_bytes. change (256 ^ Z.of_nat 2) with (2 ^ 16). unfold pkt_ok in Hp. apply Z.mod_small. lia. }
    assert (Hl := be_bytes_length 2 (blen p)). set (h := be_bytes 2 (blen p)) in *. clearbody h.
    destruct h as [|a [|b [|c h]]]; try done.
    destruct n as [|[|n]]; [apply prefix_nil|apply prefix_nil|].
    cbn [app take length]. rewrite unpack_go_step, Hv. unfold blen. rewrite Nat2Z.id. cbv zeta.
    destruct (Nat.ltb_spec (length (take n p)) (length p)) as [_|Hge]; [apply prefix_nil|].
    rewrite length_take in Hge. lia.
Qed.

(* ------------------------------------------------------------------ *)
(** ** The uplink, end to end *)

(** IP packets read from the tun device, the aggregation timer, and the flush of
    [stop]. *)
Inductive up_ev := Up_pkt (p : bytes) | Up_timer | Up_flush.

Definition up_step (t : TunnelService) (e : up_ev) : res (TunnelService * send_log) :=
  match e with
  | Up_pkt p => _on_tun_readable t p
  | Up_timer => let '(agg, batches) := fire (tn_agg t) in
                Ok (t <| tn_agg := agg |>, concat (map (_send_to_current_tx t) batches))
  | Up_flush => let '(agg, batches) := AggQueue.flush (tn_agg t) in
                Ok (t <| tn_agg := agg |>, concat (map (_send_to_current_tx t) batches))
  end.

Fixpoint up_run (t : TunnelService) (es : list up_ev) : res (TunnelService * send_log) :=
  match es with
  | [] => Ok (t, [])
  | e :: es' => let* (t1, l1) := up_step t e in let* (t2, l2) := up_run t1 es' in Ok (t2, l1 ++ l2)
  end.

Definition up_op (e : up_ev) : agg_op :=
  match e with Up_pkt p => Put (tun_frame p) | Up_timer => Fire | Up_flush => Flush end.
Definition up_pkts (es : list up_ev) : list bytes :=
  omap (fun e => match e with Up_pkt p => Some p | _ => None end) es.

(** What the tun device can deliver: non-empty packets of its MTU. *)
Definition tun_pkt (mtu : Z) (p : bytes) : Prop := 0 < blen p <= mtu - 2.

Lemma concat_singletons {A B} (f : A -> B) l : concat (map (fun x => [f x]) l) = map f l.
Proof. induction l as [|x l IH]; [done|]. cbn. by rewrite IH. Qed.

Lemma map_snd_pair {A B} (a : A) (l : list B) : map snd (map (pair a) l) = l.
Proof. induction l as [|x l IH]; [done|]. cbn. by rewrite IH. Qed.

Lemma send_batches t s batches :
  tx_sock t = Some s -> concat (map (_send_to_current_tx t) batches) = map (pair s) batches.
Proof. intros H. unfold _send_to_current_tx. rewrite H. apply concat_singletons. Qed.

(** The service's uplink is the aggregation queue on framed packets. *)
Lemma up_run_agg mtu t s es :
  mtu < 2 ^ 16 + 2 -> tx_sock t = Some s -> Forall (tun_pkt mtu) (up_pkts es) ->
  exists t', up_run t es = Ok (t', map (pair s) (agg_run (tn_agg t) (map up_op es)).2) /\
    tn_agg t' = (agg_run (tn_agg t) (map up_op es)).1.
Proof.
  intros Hmtu. revert t. induction es as [|e es IH]; intros t Hs Hp; [by exists t|].
  assert (Hp' : Forall (tun_pkt mtu) (up_pkts es)) by (destruct e; [by apply Forall_cons in Hp as [_ ?]|done|done]).
  assert (Hstep : exists t1, up_step t e = Ok (t1, map (pair s) (agg_do (tn_agg t) (up_op e)).2) /\
    tn_agg t1 = (agg_do (tn_agg t) (up_op e)).1 /\ tx_sock t1 = Some s).
  { destruct e as [p| |]; cbn [up_step up_op agg_do].
    - apply Forall_cons in Hp as [[Hp1 Hp2] _]. unfold _on_tun_readable. destruct p as [|b p]; [done|].
      rewrite pack_tun_ok by (unfold pkt_ok; lia). cbn [rbind].
      change (tn_agg (t <| pkt_out_sem := 1 |>)) with (tn_agg t).
      destruct (put (tn_agg t) _) as [agg batches]. eexists. by rewrite (send_batches _ s) by done.
    - destruct (fire (tn_agg t)) as [agg batches]. eexists. by rewrite (send_batches _ s) by done.
    - destruct (AggQueue.flush (tn_agg t)) as [agg batches]. eexists. by rewrite (send_batches _ s) by done. }
  destruct Hstep as (t1 & H1 & Ha & Hs1). cbn [up_run map agg_run]. rewrite H1. cbn [rbind].
  destruct (IH t1 Hs1 Hp') as (t2 & H2 & Ha2). rewrite H2, Ha in *. cbn [rbind].
  destruct (agg_do (tn_agg t) (up_op e)) as [q1 o1]. cbn [fst snd] in *.
  destruct (agg_run q1 (map up_op es)) as [q2 o2]. cbn [fst snd] in *.
  exists t2. by rewrite map_app.
Qed.

Lemma accepted_up mtu es :
  Forall (tun_pkt mtu) (up_pkts es) -> accepted mtu (map up_op es) = map tun_frame (up_pkts es).
Proof.
  unfold accepted, up_pkts.
  induction es as [|[p| |] es IH]; cbn [map omap list_omap up_op]; intros H; [done| |by apply IH|by apply IH].
  apply Forall_cons in H as [[_ Hp] H].
  assert (Hl : blen (tun_frame p) = blen p + 2).
  { unfold blen, tun_frame. rewrite length_app, be_bytes_length. lia. }
  destruct (Z.gtb_spec (blen (tun_frame p)) mtu); [lia|]. cbn [map]. f_equal. by apply IH.
Qed.

(** Splitting a list of images along groups of its image. *)
Lemma map_concat_inv {A B} (f : A -> B) (groups : list (list B)) (xs : list A) :
  concat groups = map f xs -> exists gs, groups = map (map f) gs /\ concat gs = xs.
Proof.
  revert xs. induction groups as [|g groups IH]; intros xs H; cbn in H.
  { exists []. by destruct xs. }
  symmetry in H. apply map_eq_app in H as (x1 & x2 & -> & <- & H). destruct (IH x2) as (gs & -> & <-); [done|].
  by exists (x1 :: gs).
Qed.

Lemma up_ops_nonempty es : Forall nonempty_op (map up_op es).
Proof. apply Forall_map, Forall_true. intros [p| |]; cbn; [|done|done]. unfold tun_frame. by destruct (be_bytes 2 (blen p)) eqn:E. Qed.

Lemma groups_unpack mtu groups ps :
  mtu < 2 ^ 16 + 2 -> Forall (tun_pkt mtu) ps -> concat groups = map tun_frame ps ->
  concat (map unpack_batch (map (@concat Z) groups)) = ps.
Proof.
  intros Hmtu Hps Hc. apply map_concat_inv in Hc as (gs & -> & <-).
  induction gs as [|g gs IH]; [done|]. cbn [concat] in Hps. apply Forall_app in Hps as [Hg Hgs].
  cbn [map concat]. rewrite IH by done. f_equal. apply unpack_frames.
  eapply Forall_impl; [exact Hg|]. intros p [_ Hp]. unfold pkt_ok. lia.
Qed.

(** C14: Packets read from the tun device, framed, aggregated under the radio
    MTU with timer flushes anywhere and unpacked on the other side come out
    unchanged and in order, every datagram within the MTU and on the current
    socket. *)
Theorem tunnel_delivers mtu t s es :
  0 <= mtu < 2 ^ 16 + 2 -> tn_agg t = agg_new (Some mtu) true -> tx_sock t = Some s ->
  Forall (tun_pkt mtu) (up_pkts es) ->
  exists t' log, up_run t (es ++ [Up_flush]) = Ok (t', log) /\
    Forall (fun x => x.1 = s /\ blen x.2 <= mtu) log /\
    concat (map unpack_batch (map snd log)) = up_pkts es.
Proof.
  intros Hmtu Hagg Hs Hp.
  assert (Hpk : up_pkts (es ++ [Up_flush]) = up_pkts es) by (unfold up_pkts; rewrite omap_app; cbn; by rewrite app_nil_r).
  rewrite <- Hpk in Hp. destruct (up_run_agg mtu t s _ ltac:(lia) Hs Hp) as (t' & Hrun & _).
  eexists t', _. split; [exact Hrun|]. rewrite Hagg. clear Hrun.
  assert (Hok : agg_ok mtu (agg_new (Some mtu) true)) by (repeat split; cbn; lia).
  destruct (agg_run (agg_new (Some mtu) true) (map up_op (es ++ [Up_flush]))) as [q out] eqn:E.
  assert (Hq : q_queue q = []).
  { rewrite map_app in E. cbn [map up_op] in E.
    destruct (agg_run_timer mtu (agg_new (Some mtu) true) (map up_op es)) as [_ Ht]; [done|by split|apply up_ops_nonempty|].
    assert (Ha : forall q0 l, agg_run q0 (l ++ [Flush]) =
      (let '(q1, o1) := agg_run q0 l in let '(q2, o2) := AggQueue.flush q1 in (q2, o1 ++ o2))).
    { intros q0 l. revert q0. induction l as [|op l IHl]; intros q0; cbn [app agg_run agg_do].
      - destruct (AggQueue.flush q0). by rewrite app_nil_r.
      - destruct (agg_do q0 op) as [q1 o1]. rewrite IHl. destruct (agg_run q1 l) as [q2 o2].
        destruct (AggQueue.flush q2). by rewrite app_assoc. }
    rewrite Ha in E. destruct (agg_run _ (map up_op es)) as [q1 o1]. cbn [fst] in Ht.
    destruct (flush_empties q1 Ht) as (Hq & _). destruct (AggQueue.flush q1) as [q2 o2]. by injection E as <- <-. }
  apply agg_run_effect with (max_size := mtu) in E as (_ & groups & -> & Hc & Hf); [|done].
  rewrite Hq, app_nil_r, accepted_up in Hc by done. cbn [snd]. split.
  - apply Forall_map, Forall_map. eapply Forall_impl; [exact Hf|]. intros g Hg. cbn. split; [done|]. by rewrite blen_concat.
  - rewrite map_snd_pair, <- Hpk. apply (groups_unpack mtu); [lia|done|exact Hc].
Qed.

(* ------------------------------------------------------------------ *)
(** ** Keepalive *)

Inductive ka_ev := K_rx | K_tx | K_tick.

Definition ka_do (t : TunnelService) (e : ka_ev) : TunnelService :=
  match e with
  | K_rx => t <| pkt_in_sem := 2 |>
  | K_tx => t <| pkt_out_sem := 1 |>
  | K_tick => (_keepalive_tick t).1
  end.

Definition ka_ticks (h : list ka_ev) : Z :=
  sumZ (map (fun e => match e with K_tick => 1 | _ => 0 end) h).

(** The ticks since the last reception (since the start, if there was none). *)
Fixpoint since_rx (h : list ka_ev) : option Z :=
  match h with
  | [] => None
  | e :: h' => match since_rx h' with
               | Some n => Some n
               | None => match e with K_rx => Some (ka_ticks h') | _ => None end
               end
  end.

Lemma ka_sem t h : pkt_in_sem t = 0 ->
  pkt_in_sem (fold_left ka_do h t) = match since_rx h with Some n => Z.max 0 (2 - n) | None => 0 end.
Proof.
  assert (Hgen : forall h t, 0 <= pkt_in_sem t -> pkt_in_sem (fold_left ka_do h t) =
    match since_rx h with Some n => Z.max 0 (2 - n) | None => Z.max 0 (pkt_in_sem t - ka_ticks h) end).
  { clear. intros h. induction h as [|e h IH]; intros t Ht; cbn [fold_left since_rx].
    { unfold ka_ticks. cbn. lia. }
    assert (Hk : forall b, ka_ticks (b :: h) = (match b with K_tick => 1 | _ => 0 end) + ka_ticks h) by done.
    rewrite Hk. rewrite IH by (destruct e; cbn; [lia|lia|destruct (Z.gtb_spec (pkt_in_sem t) 0); lia]).
    destruct (since_rx h); [done|]. destruct e; cbn; [done|done|]. 
    pose proof (sumZ_nonneg (map (fun e => match e with K_tick => 1 | _ => 0 end) h)) as Hn.
    assert (0 <= ka_ticks h) by (apply Hn, Forall_map, Forall_true; intros []; cbn; lia).
    destruct (Z.gtb_spec (pkt_in_sem t) 0); lia. }
  intros H. rewrite Hgen by lia. rewrite H. destruct (since_rx h); [done|].
  assert (0 <= ka_ticks h) by (apply sumZ_nonneg, Forall_map, Forall_true; intros []; cbn; lia). lia.
Qed.

(** The keepalive broadcasts exactly when the peer has been silent. *)
Theorem keepalive_broadcasts_on_silence mtu h socks :
  socks <> [] ->
  let t := fold_left ka_do h (tunnel_new mtu true <| tx_socks := socks |>) in
  (_keepalive_tick t).2 = map (fun ns => (ns.2, [])) socks <->
  match since_rx h with Some n => 2 <= n | None => True end.
Proof.
  intros Hne. cbv zeta. set (t0 := tunnel_new mtu true <| tx_socks := socks |>). set (t := fold_left _ _ _).
  assert (Hin : pkt_in_sem t = match since_rx h with Some n => Z.max 0 (2 - n) | None => 0 end) by (by apply ka_sem).
  assert (Hg : forall h t0, tx_socks (fold_left ka_do h t0) = tx_socks t0 /\ tx_sock (fold_left ka_do h t0) = tx_sock t0).
  { clear. intros h. induction h as [|e h IH]; intros t0; [done|]. cbn [fold_left].
    destruct (IH (ka_do t0 e)) as [-> ->]. by destruct e. }
  destruct (Hg h t0) as [Hsk Hcur]. fold t in Hsk, Hcur. change (tx_socks t0) with socks in Hsk.
  change (tx_sock t0) with (@None Z) in Hcur. unfold _keepalive_tick, _broadcast, _send_to_current_tx. cbn [snd].
  rewrite Hsk, Hcur, Hin. destruct (since_rx h) as [n|]; [|done].
  destruct (Z.eqb_spec (Z.max 0 (2 - n)) 0) as [E|E].
  - split; [lia|done].
  - split; [|lia]. destruct (_ =? 0); by destruct socks.
Qed.

(* ------------------------------------------------------------------ *)
(** ** The socket table *)

Definition live (t : TunnelService) (s : Z) : Prop := s ∈ map snd (tx_socks t) /\ s ∉ closed_socks t.

(** Cached sockets are open, identities are never reused, and there is no
    current socket without a name. *)
Definition sock_ok (t : TunnelService) : Prop :=
  Forall (fun s => s < next_sock t /\ s ∉ closed_socks t) (map snd (tx_socks t)) /\
  Forall (fun s => s < next_sock t) (closed_socks t) /\
  (tx_sock_name t = None -> tx_sock t = None).

Lemma dict_del_vals {V} k (d : list (string * V)) v : v ∈ map snd (dict_del k d) -> v ∈ map snd d.
Proof.
  unfold dict_del. rewrite !list_elem_of_In, !in_map_iff. intros ([k' v'] & <- & H). exists (k', v'). split; [done|].
  rewrite <- list_elem_of_In in *. by apply list_elem_of_filter in H as [_ H].
Qed.

Lemma dict_set_vals {V} k (v : V) d x : x ∈ map snd (dict_set k v d) -> x = v \/ x ∈ map snd d.
Proof.
  induction d as [|[k' v'] d IH]; cbn; [rewrite list_elem_of_singleton; auto|].
  destruct (String.eqb k k'); cbn; rewrite !elem_of_cons; naive_solver.
Qed.

Lemma dict_get_val {V} k (d : list (string * V)) v : dict_get k d = Some v -> v ∈ map snd d.
Proof.
  induction d as [|[k' v'] d IH]; cbn; [done|]. destruct (String.eqb k k'); [intros [= ->]; by left|].
  intros H. right. by apply IH.
Qed.

(** The loop keeps what it hands out apart from everything it closes. *)
Lemma reconnect_all_spec connects names old new t t' old' new' n0 :
  reconnect_all connects names old new t = (t', old', new') -> n0 <= next_sock t ->
  Forall (fun s => s < n0) (map snd old) ->
  Forall (fun s => n0 <= s < next_sock t /\ s ∉ closed_socks t) (map snd new) ->
  Forall (fun s => s < next_sock t) (closed_socks t) ->
  n0 <= next_sock t' /\ Forall (fun s => s < n0) (map snd old') /\
  Forall (fun s => n0 <= s < next_sock t' /\ s ∉ closed_socks t') (map snd new') /\
  Forall (fun s => s < next_sock t') (closed_socks t') /\
  tx_sock_name t' = tx_sock_name t /\ tx_sock t' = tx_sock t.
Proof.
  revert old new t. induction names as [|name names IH]; intros old new t; cbn [reconnect_all].
  { intros [= <- <- <-]. by repeat split. }
  set (t1 := close_sock t (dict_get name old)).
  assert (Ht1 : next_sock t1 = next_sock t /\ tx_sock_name t1 = tx_sock_name t /\ tx_sock t1 = tx_sock t /\
    (closed_socks t1 = closed_socks t \/ exists s, s ∈ map snd old /\ closed_socks t1 = s :: closed_socks t)).
  { subst t1. unfold close_sock. destruct (dict_get name old) as [s|] eqn:E; [|by auto].
    repeat split. right. exists s. split; [by eapply dict_get_val|done]. }
  clearbody t1. destruct Ht1 as (Hn1 & Hm1 & Hc1 & Hcl).
  unfold _connect_tx_socket. intros H Hn Ho Hnew Hcs.
  assert (Hold : Forall (fun s => s < n0) (map snd (dict_del name old))).
  { apply Forall_forall. intros s Hs%dict_del_vals. rewrite Forall_forall in Ho. by apply Ho. }
  assert (Hnew1 : Forall (fun s => n0 <= s < next_sock t /\ s ∉ closed_socks t1) (map snd new)).
  { apply Forall_forall. intros s Hs. rewrite Forall_forall in Hnew. destruct (Hnew s Hs) as [Hr Hnc]. split; [done|].
    destruct Hcl as [->|(s' & Hs' & ->)]; [done|]. rewrite not_elem_of_cons. split; [|done].
    rewrite Forall_forall in Ho. specialize (Ho s' Hs'). lia. }
  assert (Hcs1 : Forall (fun s => s < next_sock t) (closed_socks t1)).
  { destruct Hcl as [->|(s' & Hs' & ->)]; [done|]. constructor; [|done].
    rewrite Forall_forall in Ho. specialize (Ho s' Hs'). lia. }
  assert (Hfresh : next_sock t ∉ closed_socks t1).
  { intros Hin. rewrite Forall_forall in Hcs1. specialize (Hcs1 _ Hin). lia. }
  destruct (connects name).
  - apply IH in H; cbn; rewrite ?Hn1; try lia.
    + cbn in H. by rewrite Hm1, Hc1 in H.
    + done.
    + apply Forall_forall. intros s [->|Hs]%dict_set_vals; [split; [lia|done]|].
      rewrite Forall_forall in Hnew1. destruct (Hnew1 s Hs). split; [lia|done].
    + eapply Forall_impl; [exact Hcs1|]. cbn. lia.
  - apply IH in H; cbn; rewrite ?Hn1; try lia.
    + cbn in H. by rewrite Hm1, Hc1 in H.
    + done.
    + eapply Forall_impl; [exact Hnew1|]. cbn. intros s [Hr Hnc]. split; [lia|].
      rewrite not_elem_of_cons. split; [lia|done].
    + constructor; [lia|]. eapply Forall_impl; [exact Hcs1|]. cbn. lia.
Qed.

(** Reconnecting leaves no dead socket behind. *)
Theorem reconnected_sockets_live connects t names :
  sock_ok t -> let t' := set_all_tx_sockets connects t names in
  sock_ok t' /\ Forall (live t') (map snd (tx_socks t')) /\
  (forall s, tx_sock t' = Some s -> live t' s).
Proof.
  intros (Hs & Hc & Hname). cbv zeta. unfold set_all_tx_sockets.
  destruct (reconnect_all connects names (tx_socks t) [] t) as [[t1 old] new] eqn:E.
  apply (reconnect_all_spec _ _ _ _ _ _ _ _ (next_sock t)) in E as (Hn & Ho & Hnew & Hcl & Hm & Hcur);
    [|lia| |constructor|done]; [|eapply Forall_impl; [exact Hs|]; cbn; naive_solver].
  set (t2 := t1 <| closed_socks ::= _ |> <| tx_socks := new |>).
  assert (Hopen : Forall (fun s => s < next_sock t1 /\ s ∉ map snd old ++ closed_socks t1) (map snd new)).
  { eapply Forall_impl; [exact Hnew|]. cbn. intros s [Hr Hnc]. split; [lia|]. rewrite not_elem_of_app.
    split; [|done]. intros Hin. rewrite Forall_forall in Ho. specialize (Ho _ Hin). lia. }
  assert (Hcl2 : Forall (fun s => s < next_sock t1) (map snd old ++ closed_socks t1)).
  { apply Forall_app. split; [|done]. eapply Forall_impl; [exact Ho|]. cbn. lia. }
  assert (Hlive : forall t', tx_socks t' = new -> closed_socks t' = map snd old ++ closed_socks t1 ->
    Forall (live t') (map snd new)).
  { intros t' E1 E2. unfold live. rewrite E1, E2. apply Forall_forall. intros s Hin. split; [done|].
    rewrite Forall_forall in Hopen. by apply Hopen. }
  change (tx_sock_name t2) with (tx_sock_name t1). rewrite Hm. destruct (tx_sock_name t) as [cur|] eqn:En.
  - destruct (dict_get cur new) as [s0|] eqn:Eg.
    + split; [split; [done|]; split; [done|]; cbn; by rewrite Hm|]. split; [by apply Hlive|].
      intros s [= <-]. assert (Hl := Hlive (t2 <| tx_sock := Some s0 |>) eq_refl eq_refl).
      rewrite Forall_forall in Hl. apply Hl. by eapply dict_get_val.
    + split; [by split|]. split; [by apply Hlive|]. done.
  - split; [split; [done|]; split; [done|]; intros _; change (tx_sock t1 = None); rewrite Hcur; by apply Hname|].
    split; [by apply Hlive|]. intros s. change (tx_sock t2) with (tx_sock t1). rewrite Hcur, Hname by done. done.
Qed.

(** Re-selecting the current card when its socket cannot be reconnected leaves
    the closed socket current: it is not live, and sends go to it. *)
Lemma reselect_keeps_closed_socket :
  let t0 := set_tx_socket (fun _ => true) (tunnel_new 1445 true) (Some "tx0") in
  let t := set_tx_socket (fun _ => false) t0 (Some "tx0") in
  tx_sock t = Some 0 /\ 0 ∈ closed_socks t /\ tx_socks t = [] /\ _send_to_current_tx t [1] = [(0, [1])].
Proof. cbv zeta. repeat split; try done. vm_compute. apply elem_of_cons. right. by left. Qed.
