(* ===== verification/Keepalive.v ===== *)
(** * wfb/tunnel.py: the keepalive timer

    [_schedule_keepalive] and [_keepalive_loop] around the tick of [Tunnel]: the
    pending timer is its deadline.  Theorem [uplink_never_silent]: while the
    loop runs its timers at most [lag] late, the radio link never goes without
    an uplink packet or a keepalive for two periods. *)
From Stdlib Require Import ZArith QArith Lqa Lia Bool String.
From stdpp Require Import base tactics list strings.
From S2P Require Import Prelude FloatModels Json Bytes AggQueue Tunnel.
Open Scope Z_scope.

Record ka_state (F : Type) := mkKa { ka_svc : TunnelService; ka_handle : option F }.
Arguments mkKa {F}.
Arguments ka_svc {F} _.
Arguments ka_handle {F} _.

(** What reaches the service: its timer, packets on either side, its stop. *)
Inductive ka_event := Fires | TunReadable (data : bytes) | RxBatch (data : bytes) | StopKeepalive.

Section Timer.
Context {F : Type} {PF : PyFloat F} (keepalive_s : F).

Definition _schedule_keepalive (now : F) (t : TunnelService) : ka_state F := mkKa t (Some (now +f keepalive_s)).

Definition _keepalive_loop (now : F) (t : TunnelService) : ka_state F * send_log :=
  let '(t', out) := _keepalive_tick t in (_schedule_keepalive now t', out).

(** [None]: the event cannot happen (no timer, or not due yet; a packet longer
    than its length field). *)
Definition ka_step (s : ka_state F) (now : F) (e : ka_event) : option (ka_state F * send_log) :=
  match e with
  | Fires => d ← ka_handle s; if d <=f now then Some (_keepalive_loop now (ka_svc s)) else None
  | TunReadable data =>
      match _on_tun_readable (ka_svc s) data with Ok (t, out) => Some (mkKa t (ka_handle s), out) | Err _ => None end
  | RxBatch data => Some (mkKa (_on_rx_batch (ka_svc s) data).1 (ka_handle s), [])
  | StopKeepalive => Some (mkKa (ka_svc s) None, [])
  end.

(** Something goes out: a datagram, or a packet for the aggregation queue. *)
Definition uplink (e : ka_event) (out : send_log) : bool :=
  match e with
  | TunReadable data => negb (bool_decide (data = []))
  | _ => negb (bool_decide (out = []))
  end.

(** The run with the time of the last uplink activity at each of its events. *)
Fixpoint ka_run (last : F) (s : ka_state F) (es : list (F * ka_event)) : option (list (F * F)) :=
  match es with
  | [] => Some []
  | (now, e) :: es =>
      so ← ka_step s now e;
      let last' := if uplink e so.2 then now else last in
      rest ← ka_run last' so.1 es; Some ((now, last) :: rest)
  end.
End Timer.

(* ------------------------------------------------------------------ *)
(** ** The link is never silent *)

(** A selected socket that is in the table. *)
Definition has_tx (t : TunnelService) : Prop := is_Some (tx_sock t) /\ tx_socks t <> [].

(** Times do not go back, no event finds the timer more than [lag] overdue,
    and the service is not stopped. *)
Fixpoint timely (k lag : Q) (now0 : Q) (s : ka_state Q) (es : list (Q * ka_event)) : Prop :=
  match es with
  | [] => True
  | (now, e) :: es =>
      (now0 <= now)%Q /\ e <> StopKeepalive /\ (forall d, ka_handle s = Some d -> now <= d + lag)%Q /\
      match ka_step k s now e with Some so => timely k lag now so.1 es | None => True end
  end.

Record ka_inv (k lag last fired : Q) (s : ka_state Q) : Prop := {
  ki_tx : has_tx (ka_svc s);
  ki_handle : exists d, ka_handle s = Some d /\ (d == fired + k)%Q;
  ki_out : pkt_out_sem (ka_svc s) = 0 \/ (pkt_out_sem (ka_svc s) = 1 /\ (fired <= last)%Q);
  ki_last : (fired - (k + lag) <= last)%Q }.

Section Silence.
Context (k lag : Q) (Hk : (0 <= k)%Q) (Hlag : (0 <= lag)%Q).

Lemma tun_keeps t data t' out : _on_tun_readable t data = Ok (t', out) ->
  tx_sock t' = tx_sock t /\ tx_socks t' = tx_socks t /\ pkt_out_sem t' = if bool_decide (data = []) then pkt_out_sem t else 1.
Proof.
  unfold _on_tun_readable. destruct data as [|b data]; [by intros [= <- <-]|]. intros (p & _ & H)%rbind_ok.
  destruct (put _ _) as [agg bs]. by injection H as <- <-.
Qed.

(** A tick that sends nothing found both counters up. *)
Lemma quiet_tick t : has_tx t -> (_keepalive_tick t).2 = [] -> pkt_out_sem t <> 0.
Proof.
  intros [[s Hs] Hsk]. unfold _keepalive_tick, _broadcast, _send_to_current_tx. cbn [snd]. rewrite Hs.
  destruct (Z.eqb_spec (pkt_in_sem t) 0); [by destruct (tx_socks t)|]. by destruct (Z.eqb_spec (pkt_out_sem t) 0).
Qed.

Lemma ka_step_inv last fired s now0 now e s' out :
  ka_inv k lag last fired s -> (fired <= now0)%Q -> (last <= now0)%Q -> (now0 <= now)%Q -> e <> StopKeepalive ->
  (forall d, ka_handle s = Some d -> now <= d + lag)%Q -> ka_step k s now e = Some (s', out) ->
  exists fired', ka_inv k lag (if uplink e out then now else last) fired' s' /\ (fired' <= now)%Q.
Proof.
  intros [Htx (d & Hd & Ed) Ho Hl] H1 H2 H3 Hns Hdue Hs. specialize (Hdue d Hd).
  destruct e as [|data|data|]; cbn [ka_step uplink] in *; [|..|done].
  - rewrite Hd in Hs. cbn [mbind option_bind] in Hs. destruct (d <=f now) eqn:Edue; [|done]. unfold _keepalive_loop in Hs.
    assert (Hq := quiet_tick _ Htx). destruct (_keepalive_tick (ka_svc s)) as [t' o] eqn:Et. injection Hs as <- <-. cbn [snd] in Hq.
    assert (Ht' : t' = (_keepalive_tick (ka_svc s)).1) by (by rewrite Et).
    exists now. split; [|lra]. split; cbn [ka_svc ka_handle _schedule_keepalive].
    + subst t'. done.
    + eexists. split; [done|]. apply Q_add_eq.
    + left. subst t'. cbn. destruct Ho as [-> | [-> _]]; done.
    + destruct (bool_decide (o = [])) eqn:Eo; cbn; [|lra]. apply bool_decide_eq_true in Eo. specialize (Hq Eo).
      destruct Ho as [Ho|[_ Ho]]; [done|]. lra.
  - destruct (_on_tun_readable _ data) as [[t o]|] eqn:Et; [|done]. injection Hs as <- <-. destruct (tun_keeps _ _ _ _ Et) as (E1 & E2 & E3).
    exists fired. split; [|lra]. split; cbn [ka_svc ka_handle].
    + unfold has_tx. by rewrite E1, E2.
    + eauto.
    + rewrite E3. destruct (bool_decide (data = [])); cbn; [done|]. right. split; [done|lra].
    + destruct (bool_decide (data = [])); cbn; lra.
  - injection Hs as <- <-. exists fired. split; [|lra]. split; cbn; eauto.
Qed.

Lemma ka_run_gaps es last fired now0 s log :
  ka_inv k lag last fired s -> (fired <= now0)%Q -> (last <= now0)%Q -> timely k lag now0 s es -> ka_run k last s es = Some log ->
  Forall (fun '(now, last) => now - last <= 2 * (k + lag))%Q log.
Proof.
  revert last fired now0 s log. induction es as [|[now e] es IH]; intros last fired now0 s log Hi Hf Hl Ht Hr; cbn in *; [by injection Hr as <-|].
  destruct Ht as (Hnow & Hns & Hdue & Ht). destruct (ka_step k s now e) as [[s' out]|] eqn:Es; [|done]. cbn in Ht, Hr.
  apply bind_Some in Hr as (rest & Hr & [= <-]).
  destruct (ka_step_inv last fired s now0 now e s' out Hi Hf Hl Hnow Hns Hdue Es) as (fired' & Hi' & Hf').
  constructor.
  - destruct Hi as [_ (d & Hd & Ed) _ Hlast]. specialize (Hdue d Hd). lra.
  - eapply (IH _ fired' now); try done. destruct (uplink e out); lra.
Qed.

(** C29: While a transmit socket is selected and the loop runs the keepalive
    timer at most a lag late: whatever arrives on either side and when, the
    last packet or keepalive on the uplink is never older than two keepalive
    periods, each with its lag. *)
Theorem uplink_never_silent t0 svc es log :
  has_tx svc -> pkt_out_sem svc = 0 -> timely k lag t0 (_schedule_keepalive k t0 svc) es ->
  ka_run k t0 (_schedule_keepalive k t0 svc) es = Some log ->
  Forall (fun '(now, last) => now - last <= 2 * (k + lag))%Q log.
Proof.
  intros Htx Hsem Ht Hr.
  assert (Hi : ka_inv k lag t0 t0 (_schedule_keepalive k t0 svc)).
  { split; cbn; [done|eexists; split; [done|apply Q_add_eq]|by left|lra]. }
  exact (ka_run_gaps es t0 t0 t0 _ log Hi (Qle_refl _) (Qle_refl _) Ht Hr).
Qed.
End Silence.
