(* ===== verification/Mavlink.v ===== *)
(** * The MAVLink proxy (gs/fpvdgs/wfb/mavproxy.py)

    The X.25 checksum, the hand-packed RADIO_STATUS frame, the resynchronising
    framer (as the generator's state between two [send]s) and the service's
    handlers. *)
From Stdlib Require Import ZArith Lia Bool.
From stdpp Require Import base tactics list.
From S2P Require Import Prelude Bytes AggQueue.
Open Scope Z_scope.

(** ** Checksum and RADIO_STATUS *)

Definition x25_byte (crc b : Z) : Z :=
  let tmp := Z.land (Z.lxor b (Z.land crc 0xFF)) 0xFF in
  let tmp := Z.land (Z.lxor tmp (Z.shiftl tmp 4)) 0xFF in
  Z.land (Z.lxor (Z.lxor (Z.lxor (Z.shiftr crc 8) (Z.shiftl tmp 8)) (Z.shiftl tmp 3)) (Z.shiftr tmp 4)) 0xFFFF.

Definition x25crc (data : bytes) (crc : Z) : Z := fold_left x25_byte data crc.

Definition RADIO_STATUS_ID : Z := 109.
Definition RADIO_STATUS_CRC_EXTRA : Z := 185.

(** [struct.pack] raises on an id that is not a byte; the other fields are masked. *)
Definition pack_radio_status (seq sys_id comp_id rssi remrssi txbuf noise remnoise rxerrors fixed : Z) : res bytes :=
  let payload :=
    le_bytes 2 (Z.land rxerrors 0xFFFF) ++ le_bytes 2 (Z.land fixed 0xFFFF) ++
    [Z.land rssi 0xFF; Z.land remrssi 0xFF; Z.land txbuf 0xFF; Z.land noise 0xFF; Z.land remnoise 0xFF] in
  let* s := pack_le 1 sys_id in
  let* c := pack_le 1 comp_id in
  let hdr := [0xFE; blen payload; Z.land seq 0xFF] ++ s ++ c ++ [RADIO_STATUS_ID] in
  let crc := x25crc (drop 1 hdr ++ payload ++ [RADIO_STATUS_CRC_EXTRA]) 0xFFFF in
  let* k := pack_le 2 crc in
  Ok (hdr ++ payload ++ k).

(** ** Framer *)

Definition _GC_THRESHOLD : nat := 4096.

(** The generator's variables at its [yield]; [bad] only feeds a log line. *)
Record Framer := mkFramer { fr_buffer : bytes; fr_skip : nat; fr_bad : Z }.

Definition framer_new : Framer := mkFramer [] 0 0.

(** The length of the frame that starts at the head of [rest], if it is a start. *)
Definition frame_len (rest : bytes) : option nat :=
  let version := nth 0 rest 0 in
  if version =? 0xFE then Some (8 + Z.to_nat (nth 1 rest 0%Z))%nat
  else if version =? 0xFD then
    Some (Z.to_nat (nth 1 rest 0%Z) + (if negb (Z.eqb (Z.land (nth 2 rest 0%Z) 0x01%Z) 0%Z) then 25%nat else 12%nat))%nat
  else None.

(** The inner loop, on the index [skip] into [buffer]. *)
Fixpoint scan (fuel : nat) (buffer : bytes) (skip : nat) (bad : Z) (mlist : list bytes)
    : nat * Z * list bytes :=
  match fuel with
  | O => (skip, bad, mlist)
  | S f =>
      let rest := drop skip buffer in
      if (length rest <? 8)%nat then (skip, bad, mlist)
      else match frame_len rest with
           | None => scan f buffer (skip + 1) (bad + 1) mlist
           | Some mlen =>
               if (length rest <? mlen)%nat then (skip, 0, mlist)
               else scan f buffer (skip + mlen) 0 (mlist ++ [take mlen rest])
           end
  end.

Definition gc (f : Framer) : Framer :=
  if (_GC_THRESHOLD <? fr_skip f)%nat then mkFramer (drop (fr_skip f) (fr_buffer f)) 0 (fr_bad f) else f.

(** [gen.send(data)]: each turn of the loop moves [skip] by at least one. *)
Definition framer_send (f : Framer) (data : bytes) : Framer * list bytes :=
  match data with
  | [] => (gc f, [])
  | _ =>
      let buffer := fr_buffer f ++ data in
      let '(skip, bad, mlist) := scan (S (length buffer)) buffer (fr_skip f) (fr_bad f) [] in
      (gc (mkFramer buffer skip bad), mlist)
  end.

Definition _split_frames (data : bytes) : list bytes := (framer_send framer_new data).2.

(** ** Service *)

Record MavlinkService (A : Type) := mkMav {
  mv_inject_rssi : bool; mv_sys_id : Z; mv_comp_id : Z;
  mv_open : bool;            (** the UDP transport exists *)
  mv_reply_addr : option A;
  mv_fixed_addr : bool;
  mv_tx_sock : option Z;
  mv_agg : AggQueue;
  mv_seq : Z
}.
Arguments mkMav {A}.
Arguments mv_inject_rssi {A} _.
Arguments mv_sys_id {A} _.
Arguments mv_comp_id {A} _.
Arguments mv_open {A} _.
Arguments mv_reply_addr {A} _.
Arguments mv_fixed_addr {A} _.
Arguments mv_tx_sock {A} _.
Arguments mv_agg {A} _.
Arguments mv_seq {A} _.
#[export] Instance eta_Mav A : Settable (MavlinkService A) := fun r =>
  mkMav (mv_inject_rssi r) (mv_sys_id r) (mv_comp_id r) (mv_open r) (mv_reply_addr r) (mv_fixed_addr r)
    (mv_tx_sock r) (mv_agg r) (mv_seq r).

Section Service.
Context {A : Type}.
Implicit Types (m : MavlinkService A).

(** The frames sent to the peer, one datagram each. *)
Definition _write_to_peer m (data : bytes) : list (A * bytes) :=
  match mv_open m, mv_reply_addr m with
  | true, Some addr => map (pair addr) (_split_frames data)
  | _, _ => []
  end.

Definition rssi_cb m (rssi noise rx_errors rx_fec flags : Z) : res (MavlinkService A * list (A * bytes)) :=
  if negb (mv_inject_rssi m) then Ok (m, [])
  else
    let seq := mv_seq m in
    let m1 := m <| mv_seq := Z.land (mv_seq m + 1) 0xFF |> in
    let* frame := pack_radio_status seq (mv_sys_id m) (mv_comp_id m) (rssi mod 256) (rssi mod 256) 100
                    (noise mod 256) flags rx_errors rx_fec in
    Ok (m1, _write_to_peer m1 frame).

Definition _send_to_tx_socket m (data : bytes) : list (Z * bytes) :=
  match mv_tx_sock m with Some s => [(s, data)] | None => [] end.

Definition _on_uplink m (data : bytes) (addr : A) : MavlinkService A * list (Z * bytes) :=
  let m1 := if negb (mv_fixed_addr m) then m <| mv_reply_addr := Some addr |> else m in
  let '(agg, batches) := put (mv_agg m1) data in
  (m1 <| mv_agg := agg |>, concat (map (_send_to_tx_socket m1) batches)).
End Service.

(* ------------------------------------------------------------------ *)
(** ** The framer *)

(** The same loop on the bytes left, giving the frames and what remains. *)
Fixpoint frames_go (fuel : nat) (rest : bytes) : list bytes * bytes :=
  match fuel with
  | O => ([], rest)
  | S f =>
      if (length rest <? 8)%nat then ([], rest)
      else match frame_len rest with
           | None => frames_go f (drop 1 rest)
           | Some mlen =>
               if (length rest <? mlen)%nat then ([], rest)
               else let '(fs, r) := frames_go f (drop mlen rest) in (take mlen rest :: fs, r)
           end
  end.

Definition frames (rest : bytes) : list bytes * bytes := frames_go (S (length rest)) rest.

Lemma frame_len_ge8 rest n : (8 <= length rest)%nat -> frame_len rest = Some n -> (8 <= n)%nat.
Proof.
  unfold frame_len. intros _. destruct (_ =? 0xFE); [intros [= <-]; lia|].
  destruct (_ =? 0xFD); [|done]. intros [= <-]. case_match; lia.
Qed.

Lemma frames_go_fuel f g rest :
  (length rest < f)%nat -> (length rest < g)%nat -> frames_go f rest = frames_go g rest.
Proof.
  revert g rest. induction f as [|f IH]; intros g rest Hf Hg; [lia|]. destruct g as [|g]; [lia|].
  cbn [frames_go]. destruct (Nat.ltb_spec (length rest) 8); [done|].
  destruct (frame_len rest) as [n|] eqn:En.
  - apply frame_len_ge8 in En; [|done]. destruct (_ <? n)%nat; [done|].
    rewrite (IH g); [done|rewrite length_drop; lia..].
  - apply IH; rewrite length_drop; lia.
Qed.

Lemma scan_frames fuel buffer skip bad acc :
  (skip <= length buffer)%nat -> (length (drop skip buffer) < fuel)%nat ->
  let '(skip', _, mlist) := scan fuel buffer skip bad acc in
  let '(fs, r) := frames (drop skip buffer) in
  mlist = acc ++ fs /\ drop skip' buffer = r /\ (skip' <= length buffer)%nat.
Proof.
  unfold frames. revert skip bad acc. induction fuel as [|f IH]; intros skip bad acc Hs Hf; [lia|].
  cbn [scan frames_go]. set (rest := drop skip buffer) in *.
  assert (Hl : length rest = (length buffer - skip)%nat) by (subst rest; by rewrite length_drop).
  destruct (Nat.ltb_spec (length rest) 8); [by rewrite app_nil_r|].
  destruct (frame_len rest) as [n|] eqn:En.
  - assert (H8 := frame_len_ge8 _ _ ltac:(eassumption) En).
    destruct (Nat.ltb_spec (length rest) n); [by rewrite app_nil_r|].
    specialize (IH (skip + n)%nat 0 (acc ++ [take n rest])). rewrite <- drop_drop in IH. fold rest in IH.
    rewrite (frames_go_fuel (length rest) (S (length (drop n rest)))) by (rewrite ?length_drop; lia).
    destruct (scan f buffer (skip + n) 0 (acc ++ [take n rest])) as [[skip' bad'] ml].
    destruct (frames_go _ (drop n rest)) as [fs r].
    destruct IH as (-> & Hd & Hle); [lia|rewrite length_drop; lia|].
    split; [by rewrite <- app_assoc|done].
  - specialize (IH (skip + 1)%nat (bad + 1) acc). rewrite <- drop_drop in IH. fold rest in IH.
    rewrite (frames_go_fuel (length rest) (S (length (drop 1 rest)))) by (rewrite ?length_drop; lia).
    apply IH; [lia|rewrite length_drop; lia].
Qed.

(** What a framer still has to parse. *)
Definition pending (f : Framer) : bytes := drop (fr_skip f) (fr_buffer f).
Definition framer_ok (f : Framer) : Prop := (fr_skip f <= length (fr_buffer f))%nat.

Lemma gc_pending f : framer_ok f -> pending (gc f) = pending f /\ framer_ok (gc f).
Proof. unfold gc, pending, framer_ok. case_match; cbn; [|done]. intros. split; [done|lia]. Qed.

Lemma framer_new_ok : framer_ok framer_new.
Proof. unfold framer_ok. cbn. lia. Qed.

(** A [send] parses the pending bytes followed by the new ones. *)
Lemma send_frames f data :
  framer_ok f -> frames (pending f) = ([], pending f) ->
  let '(f', out) := framer_send f data in
  framer_ok f' /\ frames (pending f ++ data) = (out, pending f').
Proof.
  intros Hok Hp. unfold framer_send. destruct data as [|b data].
  { destruct (gc_pending f Hok) as [H1 H2]. split; [done|]. rewrite H1, app_nil_r. exact Hp. }
  set (buffer := fr_buffer f ++ b :: data).
  assert (Hd : drop (fr_skip f) buffer = pending f ++ b :: data) by (subst buffer; by rewrite drop_app_le).
  assert (Hl : (fr_skip f <= length buffer)%nat) by (subst buffer; rewrite length_app; unfold framer_ok in Hok; lia).
  assert (H := scan_frames (S (length buffer)) buffer (fr_skip f) (fr_bad f) [] Hl
    ltac:(rewrite length_drop; lia)).
  destruct (scan _ _ _ _ _) as [[skip bad] ml]. rewrite Hd in H.
  destruct (frames (pending f ++ b :: data)) as [fs r]. destruct H as (-> & Hr & Hle).
  destruct (gc_pending (mkFramer buffer skip bad) Hle) as [H1 H2]. split; [done|].
  rewrite H1. unfold pending. cbn. by rewrite Hr.
Qed.

Lemma frame_len_app rest b : (8 <= length rest)%nat -> frame_len (rest ++ b) = frame_len rest.
Proof. intros H. unfold frame_len. by rewrite !app_nth1 by lia. Qed.

(** One turn of the loop. *)
Lemma frames_step rest :
  frames rest =
    if (length rest <? 8)%nat then ([], rest)
    else match frame_len rest with
         | None => frames (drop 1 rest)
         | Some mlen =>
             if (length rest <? mlen)%nat then ([], rest)
             else let '(fs, r) := frames (drop mlen rest) in (take mlen rest :: fs, r)
         end.
Proof.
  unfold frames at 1. cbn [frames_go]. destruct (Nat.ltb_spec (length rest) 8); [done|].
  destruct (frame_len rest) as [n|] eqn:En; unfold frames.
  - apply frame_len_ge8 in En; [|done]. destruct (Nat.ltb_spec (length rest) n); [done|].
    rewrite (frames_go_fuel (length rest) (S (length (drop n rest)))) by (rewrite ?length_drop; lia). done.
  - apply frames_go_fuel; rewrite ?length_drop; lia.
Qed.

(** Parsing resumes where it stopped. *)
Lemma frames_resume a b :
  let '(fs, r) := frames a in
  frames r = ([], r) /\ frames (a ++ b) = (let '(fs', r') := frames (r ++ b) in (fs ++ fs', r')).
Proof.
  remember (length a) as n eqn:Hn. revert a Hn. induction n as [n IH] using lt_wf_ind. intros a Hn.
  rewrite (frames_step a). destruct (Nat.ltb_spec (length a) 8) as [Hs|H8].
  { rewrite frames_step. destruct (Nat.ltb_spec (length a) 8); [|lia]. split; [done|]. by destruct (frames (a ++ b)). }
  destruct (frame_len a) as [k|] eqn:Ek.
  - assert (Hk := frame_len_ge8 _ _ H8 Ek). destruct (Nat.ltb_spec (length a) k) as [Hlt|Hge].
    { rewrite frames_step. destruct (Nat.ltb_spec (length a) 8); [lia|]. rewrite Ek.
      destruct (Nat.ltb_spec (length a) k); [|lia]. split; [done|]. by destruct (frames (a ++ b)). }
    specialize (IH (length (drop k a)) ltac:(rewrite length_drop; lia) (drop k a) eq_refl).
    rewrite (frames_step (a ++ b)). destruct (Nat.ltb_spec (length (a ++ b)) 8) as [Hc|_]; [rewrite length_app in Hc; lia|].
    rewrite frame_len_app, Ek by done.
    destruct (Nat.ltb_spec (length (a ++ b)) k) as [Hc|_]; [rewrite length_app in Hc; lia|].
    rewrite drop_app_le, take_app_le by lia. destruct (frames (drop k a)) as [fs r]. destruct IH as [Hr IH].
    split; [done|]. rewrite IH. by destruct (frames (r ++ b)).
  - specialize (IH (length (drop 1 a)) ltac:(rewrite length_drop; lia) (drop 1 a) eq_refl).
    rewrite (frames_step (a ++ b)). destruct (Nat.ltb_spec (length (a ++ b)) 8) as [Hc|_]; [rewrite length_app in Hc; lia|].
    rewrite frame_len_app, Ek by done. rewrite drop_app_le by lia. exact IH.
Qed.

Fixpoint framer_run (f : Framer) (chunks : list bytes) : Framer * list bytes :=
  match chunks with
  | [] => (f, [])
  | c :: cs => let '(f1, o1) := framer_send f c in let '(f2, o2) := framer_run f1 cs in (f2, o1 ++ o2)
  end.

Lemma framer_run_frames f chunks :
  framer_ok f -> frames (pending f) = ([], pending f) ->
  (framer_run f chunks).2 = (frames (pending f ++ concat chunks)).1.
Proof.
  revert f. induction chunks as [|c cs IH]; intros f Hok Hp; cbn [framer_run concat].
  { by rewrite app_nil_r, Hp. }
  assert (H := send_frames f c Hok Hp). destruct (framer_send f c) as [f1 o1]. destruct H as [Hok1 Hf].
  assert (Hr := frames_resume (pending f ++ c) (concat cs)). rewrite Hf in Hr. destruct Hr as [Hp1 Hr].
  specialize (IH f1 Hok1 Hp1). destruct (framer_run f1 cs) as [f2 o2]. cbn [snd] in *. rewrite IH.
  rewrite app_assoc, Hr. by destruct (frames (pending f1 ++ concat cs)).
Qed.

(** C36: However the byte stream is cut into chunks, the incremental MAVLink
    framer yields the frames of the whole stream. *)
Theorem framing_ignores_chunks chunks :
  (framer_run framer_new chunks).2 = _split_frames (concat chunks).
Proof.
  rewrite framer_run_frames by (exact framer_new_ok || done). change (pending framer_new ++ concat chunks) with (concat chunks).
  unfold _split_frames. assert (H := send_frames framer_new (concat chunks) framer_new_ok eq_refl).
  destruct (framer_send framer_new (concat chunks)) as [f' out]. destruct H as [_ H].
  change (pending framer_new ++ concat chunks) with (concat chunks) in H. by rewrite H.
Qed.

(** *** Whole frames *)

Definition mav_frame (f : bytes) : Prop := (8 <= length f)%nat /\ frame_len f = Some (length f).

Lemma frames_cons f rest : mav_frame f ->
  frames (f ++ rest) = (let '(fs, r) := frames rest in (f :: fs, r)).
Proof.
  intros [H8 Hf]. rewrite frames_step. destruct (Nat.ltb_spec (length (f ++ rest)) 8) as [Hc|_]; [rewrite length_app in Hc; lia|].
  rewrite frame_len_app, Hf by done.
  destruct (Nat.ltb_spec (length (f ++ rest)) (length f)) as [Hc|_]; [rewrite length_app in Hc; lia|].
  rewrite drop_app_length, take_app_length. done.
Qed.

Definition junk (b : Z) : Prop := b <> 0xFE /\ b <> 0xFD.

Lemma frames_junk j rest : Forall junk j -> (8 <= length rest)%nat -> frames (j ++ rest) = frames rest.
Proof.
  intros Hj H8. induction Hj as [|b j [H1 H2] Hj IH]; [done|]. rewrite frames_step.
  destruct (Nat.ltb_spec (length ((b :: j) ++ rest)) 8) as [Hc|_]; [cbn in Hc; rewrite length_app in Hc; lia|].
  unfold frame_len. cbn [nth app]. destruct (Z.eqb_spec b 0xFE); [done|]. destruct (Z.eqb_spec b 0xFD); [done|]. exact IH.
Qed.

Lemma split_frames_eq data : _split_frames data = (frames data).1.
Proof.
  unfold _split_frames. assert (H := send_frames framer_new data framer_new_ok eq_refl).
  destruct (framer_send framer_new data) as [f' out]. destruct H as [_ H].
  change (pending framer_new ++ data) with data in H. by rewrite H.
Qed.

(** A batch of frames splits into those frames, resynchronising after noise. *)
Theorem split_recovers_frames j f fs :
  Forall junk j -> Forall mav_frame (f :: fs) -> _split_frames (j ++ concat (f :: fs)) = f :: fs.
Proof.
  intros Hj Hfs. rewrite split_frames_eq, frames_junk; [|done|].
  - clear Hj. induction Hfs as [|g gs Hg Hgs IH]; [done|]. cbn [concat]. rewrite frames_cons by done.
    destruct (frames (concat gs)) as [l r]. cbn in *. by rewrite IH.
  - cbn [concat]. apply Forall_cons in Hfs as [[H8 _] _]. rewrite length_app. lia.
Qed.

(* ------------------------------------------------------------------ *)
(** ** RADIO_STATUS *)

Lemma land_ones_bound z n : 0 <= n -> 0 <= Z.land z (Z.ones n) < 2 ^ n.
Proof. intros H. rewrite Z.land_ones by done. apply Z.mod_pos_bound. lia. Qed.

Lemma x25_bound data crc : 0 <= crc < 2 ^ 16 -> 0 <= x25crc data crc < 2 ^ 16.
Proof.
  unfold x25crc. revert crc. induction data as [|b data IH]; intros crc H; [done|]. cbn [fold_left]. apply IH.
  unfold x25_byte. apply (land_ones_bound _ 16). lia.
Qed.

Lemma pack_le_ok n z : 0 <= z < 256 ^ Z.of_nat n -> pack_le n z = Ok (le_bytes n z).
Proof. intros H. unfold pack_le. destruct (Z.leb_spec 0 z), (Z.ltb_spec z (256 ^ Z.of_nat n)); lia || done. Qed.

(** The injected frame. *)
Theorem radio_status_frame seq sys comp rssi remrssi txbuf noise remnoise rxe fixed :
  0 <= sys < 256 -> 0 <= comp < 256 ->
  exists fr, pack_radio_status seq sys comp rssi remrssi txbuf noise remnoise rxe fixed = Ok fr /\
    length fr = 17%nat /\ bytes_ok fr /\ _split_frames fr = [fr] /\
    slice 1 5 fr = [9; seq mod 256; sys; comp; RADIO_STATUS_ID] /\
    le_val (slice 6 2 fr) = rxe mod 65536 /\ le_val (slice 8 2 fr) = fixed mod 65536 /\
    slice 10 5 fr = [rssi mod 256; remrssi mod 256; txbuf mod 256; noise mod 256; remnoise mod 256] /\
    le_val (slice 15 2 fr) = x25crc (slice 1 14 fr ++ [RADIO_STATUS_CRC_EXTRA]) 0xFFFF.
Proof.
  intros Hs Hc. unfold pack_radio_status. rewrite !pack_le_ok by (change (256 ^ Z.of_nat 1) with 256; lia).
  cbn [rbind]. set (crc := x25crc _ 0xFFFF).
  assert (Hcrc : 0 <= crc < 256 ^ Z.of_nat 2) by (apply x25_bound; lia).
  rewrite pack_le_ok by done. cbn [rbind]. eexists. split; [reflexivity|].
  split; [reflexivity|].
  assert (H8 : forall z, Z.land z 0xFF = z mod 256) by (intros z; apply (Z.land_ones z 8); lia).
  assert (H16 : forall z, Z.land z 0xFFFF = z mod 65536) by (intros z; apply (Z.land_ones z 16); lia).
  assert (Hle : forall n z, le_val (le_bytes n z) = z mod 256 ^ Z.of_nat n) by apply le_val_bytes.
  assert (Hb1 : forall z, 0 <= z < 256 -> le_bytes 1 z = [z]).
  { intros z Hz. cbn. by rewrite Z.mod_small. }
  split.
  { rewrite !bytes_ok_app. assert (Hm : forall z, byte_ok (Z.land z 0xFF)).
    { intros z. rewrite H8. apply Z.mod_pos_bound. lia. }
    repeat match goal with |- _ /\ _ => split end; try apply le_bytes_ok;
      unfold bytes_ok; rewrite ?Forall_cons, ?Forall_nil; repeat match goal with |- _ /\ _ => split end;
      first [apply Hm | done | by vm_compute; split]. }
  split.
  { rewrite split_frames_eq. set (fr := _ ++ _).
    assert (Hfr : mav_frame fr) by (split; [cbn; lia|reflexivity]).
    assert (Hf := frames_cons fr [] Hfr). rewrite app_nil_r in Hf. by rewrite Hf. }
  split; [rewrite !Hb1 by done; rewrite !H8; reflexivity|].
  split; [etrans; [exact (Hle 2%nat (Z.land rxe 0xFFFF))|]; rewrite H16; apply Zmod_mod|].
  split; [etrans; [exact (Hle 2%nat (Z.land fixed 0xFFFF))|]; rewrite H16; apply Zmod_mod|].
  split; [rewrite !Hb1 by done; rewrite !H8; reflexivity|].
  etrans; [exact (Hle 2%nat crc)|]. rewrite Z.mod_small by done. reflexivity.
Qed.
