(* ===== verification/ServiceLife.v ===== *)
(** * wfb/tunnel.py and wfb/mavproxy.py: starting and stopping the services

    What [start] opens and [stop] closes, with every call of the system that
    may fail answered by the environment, and the bounded retry of the tun
    device.  The resources opened and closed are returned in order.  Also
    dynlink/return_link.py and the datagram handler of idr_relay.py, whose
    sockets swallow their errors. *)
From Stdlib Require Import ZArith Lia Bool String QArith Lqa.
From stdpp Require Import base tactics list strings.
From S2P Require Import Prelude PyStr FloatModels Json AggQueue Tunnel Mavlink.
Open Scope Z_scope.

(** ** Resources *)

Inductive resource := TunFd | TunReader | UdpPeer | RawSock | RxEndpoint | KeepaliveTimer.
#[export] Instance resource_eq_dec : EqDecision resource.
Proof. solve_decision. Defined.
Inductive io_effect := Opens (r : resource) | Closes (r : resource).

(** How many of [r] are open after a trace. *)
Fixpoint open_count (r : resource) (tr : list io_effect) : Z :=
  match tr with
  | [] => 0
  | Opens r' :: tr => (if decide (r' = r) then 1 else 0) + open_count r tr
  | Closes r' :: tr => (if decide (r' = r) then -1 else 0) + open_count r tr
  end.

(** ** The tun device *)

Definition EBUSY : Z := 16.

(** What opening and configuring the device meets: the device node, the ioctl,
    or one of the two [ip] commands may fail (by its exit status or an errno),
    or the fd is handed out. *)
Inductive tun_attempt := OpenFails (errno : Z) | IoctlFails (errno : Z) | CommandFails (errno : option Z) | Opened.

(** [TunTap.__init__]: the fd is closed when a later step raises. *)
Definition tuntap_init (a : tun_attempt) : list io_effect * bool :=
  match a with
  | OpenFails _ => ([], false)
  | IoctlFails _ | CommandFails _ => ([Opens TunFd; Closes TunFd], false)
  | Opened => ([Opens TunFd], true)
  end.

(** The errno of the [OSError] raised, if it is one. *)
Definition attempt_errno (a : tun_attempt) : option Z :=
  match a with OpenFails e | IoctlFails e => Some e | CommandFails e => e | Opened => None end.

Definition tun_name_argv (name : string) (mtu : Z) : list string := ["ip"; "link"; "set"; name; "up"; "mtu"; pretty.pretty (mtu - 2)].
Definition tun_addr_argv (name addr : string) : list string := ["ip"; "addr"; "add"; addr; "dev"; name].

Section Retry.
Context {F : Type} {PF : PyFloat F}.

Definition TUN_OPEN_RETRY_DELAY_S : F := flit 5 100.
Definition TUN_OPEN_RETRY_MAX_DELAY_S : F := flit 5 10.
Definition TUN_OPEN_RETRY_BUDGET_S : F := fofZ 5.

Definition next_delay (d : F) : F := fmin (fmul d (flit 15 10)) TUN_OPEN_RETRY_MAX_DELAY_S.

(** The loop of [_open_tun_retrying] over its attempts, each with the clock
    read after it failed; [None]: more attempts are needed.  The sleeps made
    are returned too. *)
Fixpoint retry_loop (deadline delay : F) (l : list (tun_attempt * F)) : list io_effect * list F * option bool :=
  match l with
  | [] => ([], [], None)
  | (a, now) :: l =>
      let '(tr, ok) := tuntap_init a in
      if ok then (tr, [], Some true)
      else
        match attempt_errno a with
        | Some e =>
            if negb (e =? EBUSY) || fleb deadline now then (tr, [], Some false)
            else let '(tr', sl, r) := retry_loop deadline (next_delay delay) l in (tr ++ tr', delay :: sl, r)
        | None => (tr, [], Some false)
        end
  end.

Definition _open_tun_retrying (start : F) (l : list (tun_attempt * F)) : list io_effect * list F * option bool :=
  retry_loop (fadd start TUN_OPEN_RETRY_BUDGET_S) TUN_OPEN_RETRY_DELAY_S l.
End Retry.

(** ** The tunnel service *)

(** The datagram endpoint for wfb_rx: the socket is made, bound and handed to
    the event loop, which closes it when it cannot make the endpoint. *)
Inductive rx_outcome := RxSocketFails | RxBindFails | RxEndpointFails | RxUp.
Definition rx_open (o : rx_outcome) : list io_effect * bool :=
  match o with
  | RxSocketFails => ([], false)
  | RxBindFails => ([Opens RawSock], false)
  | RxEndpointFails => ([Opens RawSock; Closes RawSock], false)
  | RxUp => ([Opens RawSock; Closes RawSock; Opens RxEndpoint], true)
  end.

(** Which attributes are not [None]. *)
Record tunnel_life := mkTL { tl_tun : bool; tl_agg : bool; tl_rx : bool; tl_keepalive : bool }.
Definition tunnel_down : tunnel_life := mkTL false false false false.

(** [start] at [now], with the attempts at the device and what the rx socket
    met; [None]: the device is still being tried. *)
Definition tunnel_start {F} `{PyFloat F} (mtu : Z) (agg_timeout : bool) (now : F) (attempts : list (tun_attempt * F))
    (rx : rx_outcome) (svc : TunnelService) : option (tunnel_life * TunnelService * list io_effect * bool) :=
  match _open_tun_retrying now attempts with
  | (_, _, None) => None
  | (tr, _, Some false) => Some (tunnel_down, svc, tr, false)
  | (tr, _, Some true) =>
      let '(tr', up) := rx_open rx in
      Some (mkTL true true up up, svc <| tn_agg := agg_new (Some mtu) agg_timeout |>,
            tr ++ [Opens TunReader] ++ tr' ++ (if up then [Opens KeepaliveTimer] else []), up)
  end.

(** [stop]: what it closes, and the batch its flush sends. *)
Definition tunnel_stop (t : tunnel_life) (svc : TunnelService) : tunnel_life * TunnelService * list io_effect * send_log :=
  let '(agg, batches) := if tl_agg t then let '(q, out) := flush (tn_agg svc) in (AggQueue.close q, out) else (tn_agg svc, []) in
  (tunnel_down,
   svc <| tn_agg := agg |> <| closed_socks ::= (fun c => map snd (tx_socks svc) ++ c) |> <| tx_socks := [] |>
       <| tx_sock := None |> <| tx_sock_name := None |>,
   (if tl_keepalive t then [Closes KeepaliveTimer] else []) ++ (if tl_rx t then [Closes RxEndpoint] else []) ++
   (if tl_tun t then [Closes TunReader] else []) ++ (if tl_tun t then [Closes TunFd] else []),
   concat (map (_send_to_current_tx svc) batches)).

(** ** The MAVLink service *)

(** [_PEER_RE]: scheme, address and port of [connect://addr:port]; the regex
    also takes a final newline. *)
Definition peer_addr_char (c : Ascii.ascii) : bool := negb (code c =? 58) && negb (code c =? 47).
Definition nonempty_all (p : Ascii.ascii -> bool) (s : string) : bool := match s with EmptyString => false | _ => all_chars p s end.
Definition chop_nl (s : string) : string :=
  match String.rev s with String.String c r => if code c =? 10 then String.rev r else s | _ => s end.

Inductive peer_scheme := PeerConnect | PeerListen.
Definition parse_peer (s : string) : option (peer_scheme * string * string) :=
  let '(scheme, found, rest) := partition_at "://" (chop_nl s) in
  let '(addr, found', port) := partition_at ":" rest in
  if (found : bool) && (found' : bool) && nonempty_all peer_addr_char addr && nonempty_all is_digit port then
    if String.eqb scheme "connect" then Some (PeerConnect, addr, port)
    else if String.eqb scheme "listen" then Some (PeerListen, addr, port) else None
  else None.

Record mav_life := mkML { ml_udp : bool; ml_rx : bool; ml_agg : bool; ml_rssi : bool }.
Definition mav_down : mav_life := mkML false false false false.

(** [start]; [udp]: the peer's endpoint was made.  [ml_rssi]: the hub calls the
    service back.  [None]: the peer is not understood. *)
Definition mav_start (peer : string) (agg_max_size : Z) (agg_timeout udp : bool) (rx : rx_outcome) (svc : MavlinkService (string * Z))
    : option (mav_life * MavlinkService (string * Z) * list io_effect * bool) :=
  match parse_peer peer with
  | None => None
  | Some (scheme, addr, port) =>
      let fixed := match scheme with PeerConnect => true | PeerListen => false end in
      let svc1 := svc <| mv_reply_addr := if fixed then Some (addr, default 0 (parse_int 10 port)) else None |>
                      <| mv_fixed_addr := fixed |> in
      if udp then
        let '(tr, up) := rx_open rx in
        Some (mkML true up true (up && mv_inject_rssi svc),
              svc1 <| mv_open := true |> <| mv_agg := agg_new (Some agg_max_size) agg_timeout |>, Opens UdpPeer :: tr, up)
      else Some (mav_down, svc1, [], false)
  end.

(** [stop]; the hub's callback stays. *)
Definition mav_stop (m : mav_life) (svc : MavlinkService (string * Z))
    : mav_life * MavlinkService (string * Z) * list io_effect * list (Z * bytes) :=
  let '(agg, batches) := if ml_agg m then let '(q, out) := flush (mv_agg svc) in (AggQueue.close q, out) else (mv_agg svc, []) in
  (mkML false false false (ml_rssi m),
   svc <| mv_open := false |> <| mv_agg := agg |> <| mv_tx_sock := None |>,
   (if ml_rx m then [Closes RxEndpoint] else []) ++ (if ml_udp m then [Closes UdpPeer] else []),
   concat (map (_send_to_tx_socket svc) batches)).

(** ** Sockets that drop what they cannot send *)

(** [ReturnLink.send]: the packet is sent or an error is counted; the log line
    is a warning for the first error and every hundredth. *)
Record ReturnLink := mkRL { rl_sent : Z; rl_errors : Z }.
Inductive log_level := Warning | Debug.
Definition rl_new : ReturnLink := mkRL 0 0.
Definition rl_send (l : ReturnLink) (ok : bool) : ReturnLink * bool * option log_level :=
  if ok then (mkRL (rl_sent l + 1) (rl_errors l), true, None)
  else let n := rl_errors l + 1 in
       (mkRL (rl_sent l) n, false, Some (if (n =? 1) || (n mod 100 =? 0) then Warning else Debug)).

(** [_IdrRelay.datagram_received]: forwarded to the drone, or dropped. *)
Definition IDR_PORT : Z := 11223.
Record _IdrRelay := mkIdr { idr_dest : string * Z; idr_transport : bool }.
Definition idr_new (dest : string * Z) : _IdrRelay := mkIdr dest false.
Definition idr_connection_made (r : _IdrRelay) : _IdrRelay := mkIdr (idr_dest r) true.
Definition idr_datagram_received (r : _IdrRelay) (data : bytes) (sendto_ok : bool) : list (string * Z * bytes) :=
  if idr_transport r && sendto_ok then [(idr_dest r, data)] else [].

(* ------------------------------------------------------------------ *)
(** ** The retry is bounded and closes what it opened *)

Lemma open_count_app r a b : open_count r (a ++ b) = open_count r a + open_count r b.
Proof. induction a as [|[]]; cbn; lia. Qed.

(** An attempt that is tried again. *)
Definition busy {F} `{PyFloat F} (deadline : F) (x : tun_attempt * F) : bool :=
  bool_decide (attempt_errno x.1 = Some EBUSY) && negb (fleb deadline x.2).

Section RetryFacts.
Context {F : Type} `{PF : PyFloat F}.
Implicit Types l : list (tun_attempt * F).

(** One attempt. *)
Lemma retry_cons deadline delay a now l :
  retry_loop deadline delay ((a, now) :: l) =
    if busy deadline (a, now)
    then let '(tr, sl, r) := retry_loop deadline (next_delay delay) l in ((tuntap_init a).1 ++ tr, delay :: sl, r)
    else ((tuntap_init a).1, [], Some (tuntap_init a).2).
Proof.
  unfold busy. destruct a as [e|e|[e|]|]; cbn -[next_delay]; try done.
  all: destruct (Z.eqb_spec e EBUSY) as [->|Hne]; cbn -[next_delay];
    [rewrite bool_decide_true by done|rewrite bool_decide_false by congruence; done]; cbn; by destruct (fleb deadline now).
Qed.

Lemma init_fd a : open_count TunFd (tuntap_init a).1 = if (tuntap_init a).2 then 1 else 0.
Proof. by destruct a. Qed.

Lemma busy_closed deadline a now : busy deadline (a, now) = true -> (tuntap_init a).2 = false.
Proof. by destruct a. Qed.

Lemma retry_fd deadline delay l :
  open_count TunFd (retry_loop deadline delay l).1.1 = if retry_loop deadline delay l is (_, _, Some true) then 1 else 0.
Proof.
  revert delay. induction l as [|[a now] l IH]; intros delay; [done|]. rewrite retry_cons. destruct (busy _ _) eqn:Eb.
  - specialize (IH (next_delay delay)). apply busy_closed in Eb. destruct (retry_loop _ _ _) as [[tr sl] r].
    cbn [fst snd] in *. rewrite open_count_app, init_fd, Eb, IH. lia.
  - cbn. rewrite init_fd. by destruct (tuntap_init a).2.
Qed.

(** The first attempt that is not tried again decides. *)
Lemma retry_decides deadline delay l :
  (retry_loop deadline delay l).2 = (fun x => (tuntap_init x.1).2) <$> find (fun x => negb (busy deadline x)) l.
Proof.
  revert delay. induction l as [|[a now] l IH]; intros delay; [done|]. rewrite retry_cons. cbn [find].
  destruct (busy _ _); cbn [negb]; [|done]. rewrite <- (IH (next_delay delay)). by destruct (retry_loop _ _ _) as [[]].
Qed.

(** It sleeps after each attempt of the busy prefix. *)
Fixpoint busy_prefix (deadline : F) l : list (tun_attempt * F) :=
  match l with x :: l => if busy deadline x then x :: busy_prefix deadline l else [] | [] => [] end.

Lemma busy_prefix_spec deadline l :
  Forall (fun x => busy deadline x = true) (busy_prefix deadline l) /\ (exists k, l = busy_prefix deadline l ++ k) /\ (busy_prefix deadline l <> l -> find (fun x => negb (busy deadline x)) l <> None).
Proof.
  induction l as [|x l (IH1 & [k IH2] & IH3)]; cbn; [by split_and!; [|exists []|]|]. destruct (busy deadline x) eqn:Eb; cbn.
  - split; [by constructor|]. split; [exists k; congruence|]. intros Hne. apply IH3. congruence.
  - split; [done|]. by split; [exists (x :: l)|].
Qed.

Lemma retry_sleeps deadline delay l : length (retry_loop deadline delay l).1.2 = length (busy_prefix deadline l).
Proof.
  revert delay. induction l as [|[a now] l IH]; intros delay; [done|]. rewrite retry_cons. cbn [busy_prefix].
  destruct (busy _ _); [|done]. specialize (IH (next_delay delay)). destruct (retry_loop _ _ _) as [[]]. cbn in *. by rewrite IH.
Qed.
End RetryFacts.

(** The clock read after each attempt: not before the end of the sleep that
    precedes it. *)
Fixpoint paced (from delay : Q) (l : list (tun_attempt * Q)) : Prop :=
  match l with
  | [] => True
  | (_, now) :: l => (from <= now)%Q /\ paced (now + delay)%Q (next_delay delay) l
  end.

(** What [n] sleeps add up to. *)
Fixpoint slept (delay : Q) (n : nat) : Q :=
  match n with O => 0%Q | S n => (delay + slept (next_delay delay) n)%Q end.

Lemma paced_busy deadline from delay l :
  paced from delay l -> l <> [] -> Forall (fun x => busy deadline x = true) l ->
  (from + slept delay (pred (length l)) < deadline)%Q.
Proof.
  intros Hp Hne Hb. revert from delay Hp Hne. induction Hb as [|[a now] l Hb Hl IH]; intros from delay Hp Hne; [done|].
  destruct Hp as [Hf Hp]. assert (Hn : (now < deadline)%Q).
  { unfold busy in Hb. apply andb_true_iff in Hb as [_ Hb]. apply negb_true_iff in Hb. apply Qnot_le_lt. intros Hle.
    apply Qle_bool_iff in Hle. cbn in Hb. congruence. }
  destruct l as [|y l]; [cbn; lra|]. specialize (IH _ _ Hp). cbn [length pred slept] in *.
  assert (IH' := IH ltac:(done)). lra.
Qed.

Lemma paced_prefix from delay a b : paced from delay (a ++ b) -> paced from delay a.
Proof. revert from delay. induction a as [|[x now] a IH]; intros from delay; cbn; [done|]. intros [H1 H2]. eauto. Qed.

Lemma next_delay_nonneg (d : Q) : (0 <= d)%Q -> (0 <= next_delay d)%Q.
Proof.
  intros H. unfold next_delay, fmin, TUN_OPEN_RETRY_MAX_DELAY_S. destruct (fltb _ _); [by apply Qle_bool_iff; vm_compute|].
  change (0 <= Qred (d * flit 15 10))%Q. rewrite Qred_correct. apply Qmult_le_0_compat; [done|by apply Qle_bool_iff; vm_compute].
Qed.

Lemma slept_le delay n m : (0 <= delay)%Q -> (n <= m)%nat -> (slept delay n <= slept delay m)%Q.
Proof.
  revert delay m. induction n as [|n IH]; intros delay m Hd Hm.
  - cbn. clear Hm. revert delay Hd. induction m as [|m IH]; intros delay Hd; cbn; [lra|].
    specialize (IH _ (next_delay_nonneg _ Hd)). lra.
  - destruct m as [|m]; [lia|]. cbn [slept]. specialize (IH _ m (next_delay_nonneg _ Hd) ltac:(lia)). lra.
Qed.

(** Fourteen sleeps fill the budget. *)
Lemma busy_prefix_short start l :
  paced start TUN_OPEN_RETRY_DELAY_S l ->
  (length (busy_prefix (fadd start TUN_OPEN_RETRY_BUDGET_S) l) <= 14)%nat.
Proof.
  intros Hp. destruct (busy_prefix_spec (fadd start TUN_OPEN_RETRY_BUDGET_S) l) as (Hb & [k Hk] & _).
  set (pre := busy_prefix _ l) in *. destruct (decide (length pre <= 14)%nat) as [|Hlen]; [done|exfalso].
  rewrite Hk in Hp. apply paced_prefix in Hp. assert (Hne : pre <> []) by (by intros ->; cbn in Hlen; lia).
  assert (H := paced_busy _ _ _ _ Hp Hne Hb).
  assert (Hm := slept_le TUN_OPEN_RETRY_DELAY_S 14 (pred (length pre)) ltac:(by apply Qle_bool_iff; vm_compute) ltac:(lia)).
  assert (H14 : (TUN_OPEN_RETRY_BUDGET_S <= slept TUN_OPEN_RETRY_DELAY_S 14)%Q) by (by apply Qle_bool_iff; vm_compute).
  assert (Hd := Qred_correct (start + TUN_OPEN_RETRY_BUDGET_S)). change (Qred (start + TUN_OPEN_RETRY_BUDGET_S)) with (fadd start TUN_OPEN_RETRY_BUDGET_S) in Hd.
  lra.
Qed.

(** C27: With a clock that advances by at least the sleeps, the opening of the
    tun device decides within fifteen attempts and fourteen sleeps, as the
    first attempt that is not a busy one before the deadline; and no failed
    attempt leaves a descriptor open. *)
Theorem tun_open_bounded start l :
  paced start TUN_OPEN_RETRY_DELAY_S l ->
  let '(tr, sleeps, r) := _open_tun_retrying start l in
  ((15 <= length l)%nat -> r <> None) /\ (length sleeps <= 14)%nat /\
  open_count TunFd tr = (if r is Some true then 1 else 0) /\
  r = (fun x => (tuntap_init x.1).2) <$> find (fun x => negb (busy (fadd start TUN_OPEN_RETRY_BUDGET_S) x)) l.
Proof.
  intros Hp. assert (Hl := busy_prefix_short start l Hp). unfold _open_tun_retrying.
  assert (Hfd := retry_fd (fadd start TUN_OPEN_RETRY_BUDGET_S) TUN_OPEN_RETRY_DELAY_S l).
  assert (Hr := retry_decides (fadd start TUN_OPEN_RETRY_BUDGET_S) TUN_OPEN_RETRY_DELAY_S l).
  assert (Hs := retry_sleeps (fadd start TUN_OPEN_RETRY_BUDGET_S) TUN_OPEN_RETRY_DELAY_S l).
  destruct (busy_prefix_spec (fadd start TUN_OPEN_RETRY_BUDGET_S) l) as (_ & _ & Hf).
  destruct (retry_loop _ _ _) as [[tr sl] r]. cbn [fst snd] in *. split_and!; [|by rewrite Hs|done|done].
  intros H15. rewrite Hr. assert (Hd : busy_prefix (fadd start TUN_OPEN_RETRY_BUDGET_S) l <> l) by (intros E; rewrite E in Hl; lia).
  specialize (Hf Hd).
  by destruct (find _ l).
Qed.

(** ** What is started is stopped *)

(** What is not closed: a socket whose bind failed, left to the interpreter. *)
Definition left_open (opened : bool) (rx : rx_outcome) (r : resource) : Z :=
  match rx, r with RxBindFails, RawSock => if opened then 1 else 0 | _, _ => 0 end.

Lemma retry_other {F} `{PyFloat F} r deadline delay l :
  r <> TunFd -> open_count r (retry_loop deadline delay l).1.1 = 0.
Proof.
  intros Hr. assert (Hi : forall a, open_count r (tuntap_init a).1 = 0).
  { intros a. destruct a; cbn; rewrite ?decide_False by congruence; done. }
  revert delay. induction l as [|[a now] l IH]; intros delay; [done|]. rewrite retry_cons.
  destruct (busy _ _); [|apply Hi]. specialize (IH (next_delay delay)). destruct (retry_loop _ _ _) as [[tr sl] o].
  cbn [fst snd] in *. by rewrite open_count_app, Hi, IH.
Qed.

Lemma flush_close q : timer_ok q ->
  q_timer (AggQueue.close (flush q).1) = NoTimer /\ q_queue (AggQueue.close (flush q).1) = [] /\ concat (flush q).2 = concat (q_queue q).
Proof.
  intros H. destruct (flush_empties q H) as (H1 & _ & H2). split; [done|]. split; [exact H1|]. rewrite H2.
  destruct (q_queue q); [done|]. cbn. apply app_nil_r.
Qed.

(** Whatever the system answered to start: after stop nothing the tunnel
    opened is open, except a socket that could not be bound; what was queued
    has gone to the selected socket, no timer is armed, and every transmit
    socket is closed. *)
Theorem tunnel_stop_releases {F} `{PyFloat F} mtu agg_timeout (now : F) attempts rx svc t svc0 tr ok svc1 :
  tunnel_start mtu agg_timeout now attempts rx svc = Some (t, svc0, tr, ok) ->
  let '(t', svc', tr', sent) := tunnel_stop t svc1 in
  t' = tunnel_down /\ (forall r, open_count r (tr ++ tr') = left_open (tl_tun t) rx r) /\
  tx_sock svc' = None /\ tx_socks svc' = [] /\ (forall s, s ∈ map snd (tx_socks svc1) -> s ∈ closed_socks svc') /\
  (tl_agg t = true -> timer_ok (tn_agg svc1) -> q_timer (tn_agg svc') = NoTimer /\ q_queue (tn_agg svc') = [] /\
     forall s, tx_sock svc1 = Some s ->
       concat (map snd sent) = concat (q_queue (tn_agg svc1)) /\ Forall (fun x => x.1 = s) sent).
Proof.
  intros Hs. unfold tunnel_start in Hs. unfold _open_tun_retrying in Hs.
  assert (Hfd := retry_fd (fadd now TUN_OPEN_RETRY_BUDGET_S) TUN_OPEN_RETRY_DELAY_S attempts).
  assert (Ho := fun r => retry_other r (fadd now TUN_OPEN_RETRY_BUDGET_S) TUN_OPEN_RETRY_DELAY_S attempts).
  destruct (retry_loop _ _ _) as [[tr0 sl] [[]|]]; [| |done]; cbn [fst snd] in *.
  - destruct (rx_open rx) as [trx up] eqn:Er. injection Hs as <- <- <- <-. unfold tunnel_stop. cbn [tl_agg tl_tun tl_rx tl_keepalive].
    destruct (flush (tn_agg svc1)) as [q out] eqn:Ef. cbn [fst snd]. split_and!; try done.
    + intros r. rewrite !open_count_app. assert (E : open_count r tr0 = if decide (r = TunFd) then 1 else 0).
      { case_decide as Hd; [by subst|auto]. } rewrite E. destruct rx; cbn in Er; injection Er as <- <-; by destruct r.
    + intros s Hin. cbn. apply elem_of_app. by left.
    + intros _ Ht. assert (Hc := flush_close _ Ht). rewrite Ef in Hc. cbn [fst snd] in Hc.
      destruct Hc as (? & ? & Hc). split; [done|]. split; [done|]. intros s Hsock.
      rewrite (send_batches svc1 s) by done. rewrite map_snd_pair. split; [done|]. apply Forall_fmap, Forall_true. done.
  - injection Hs as <- <- <- <-. cbn. split_and!; try done.
    + intros r. rewrite app_nil_r. destruct (decide (r = TunFd)) as [->|Hr]; [rewrite Hfd|rewrite Ho by done]; destruct rx; try done; by destruct r.
    + intros s Hin. apply elem_of_app. by left.
Qed.

(** The MAVLink service; a peer that is not understood opens nothing. *)
Theorem mav_stop_releases peer size agg_timeout udp rx svc m svc0 tr ok svc1 :
  mav_start peer size agg_timeout udp rx svc = Some (m, svc0, tr, ok) ->
  let '(m', svc', tr', sent) := mav_stop m svc1 in
  (forall r, open_count r (tr ++ tr') = left_open (ml_udp m) rx r) /\
  mv_open svc' = false /\ mv_tx_sock svc' = None /\
  (ml_agg m = true -> timer_ok (mv_agg svc1) -> q_timer (mv_agg svc') = NoTimer /\ q_queue (mv_agg svc') = [] /\
     forall s, mv_tx_sock svc1 = Some s ->
       concat (map snd sent) = concat (q_queue (mv_agg svc1)) /\ Forall (fun x => x.1 = s) sent).
Proof.
  intros Hs. unfold mav_start in Hs. destruct (parse_peer peer) as [[[scheme addr] port]|]; [|done].
  destruct udp; [|injection Hs as <- <- <- <-; cbn; split_and!; try done; intros []; by destruct rx].
  destruct (rx_open rx) as [trx up] eqn:Er. injection Hs as <- <- <- <-. unfold mav_stop. cbn [ml_agg ml_udp ml_rx].
  destruct (flush (mv_agg svc1)) as [q out] eqn:Ef. cbn [fst snd]. split_and!; try done.
  - intros r. destruct rx; cbn in Er; injection Er as <- <-; by destruct r.
  - intros _ Ht. assert (Hc := flush_close _ Ht). rewrite Ef in Hc. cbn [fst snd] in Hc.
    destruct Hc as (? & ? & Hc). split; [done|]. split; [done|]. intros s Hsock.
    unfold _send_to_tx_socket. rewrite Hsock. rewrite concat_singletons, map_snd_pair. split; [done|]. apply Forall_fmap, Forall_true. done.
Qed.

(** ** Every packet is accounted for *)

Fixpoint rl_run (l : ReturnLink) (oks : list bool) : ReturnLink * list (option log_level) :=
  match oks with
  | [] => (l, [])
  | ok :: oks => let '(l1, _, lg) := rl_send l ok in let '(l2, lgs) := rl_run l1 oks in (l2, lg :: lgs)
  end.

(** [stats] counts every send once; the log has a warning for the first error
    and one per hundred. *)
Definition is_warning (o : option log_level) : bool := match o with Some Warning => true | _ => false end.
Definition warnings (lgs : list (option log_level)) : Z := Z.of_nat (length (filter (fun o => is_warning o = true) lgs)).
Definition warned (n : Z) : Z := n / 100 + (if 0 <? n then 1 else 0).

Lemma rl_run_from l oks :
  0 <= rl_errors l ->
  let '(l', lgs) := rl_run l oks in
  rl_sent l' + rl_errors l' = rl_sent l + rl_errors l + Z.of_nat (length oks) /\ rl_errors l <= rl_errors l' /\
  warnings lgs = warned (rl_errors l') - warned (rl_errors l).
Proof.
  revert l. induction oks as [|ok oks IH]; intros l Hl; cbn [rl_run length].
  { change (warnings []) with 0. lia. }
  assert (Hl1 : 0 <= rl_errors (rl_send l ok).1.1) by (destruct ok; cbn; lia). specialize (IH _ Hl1).
  destruct (rl_send l ok) as [[l1 b] lg] eqn:Es. cbn [fst snd] in *. destruct (rl_run l1 oks) as [l2 lgs]. destruct IH as (H1 & H2 & H3).
  assert (Hw : warnings (lg :: lgs) = (if is_warning lg then 1 else 0) + warnings lgs).
  { unfold warnings. rewrite filter_cons. case_decide as Hd; destruct (is_warning lg); cbn [length]; try done; lia. }
  rewrite Hw, H3. unfold rl_send in Es. destruct ok; injection Es as <- <- <-; cbn [rl_sent rl_errors is_warning] in *; [lia|].
  split; [lia|]. split; [lia|]. unfold warned.
  assert (Hd := Z.div_mod (rl_errors l) 100). assert (Hd' := Z.div_mod (rl_errors l + 1) 100).
  assert (Hb := Z.mod_pos_bound (rl_errors l) 100). assert (Hb' := Z.mod_pos_bound (rl_errors l + 1) 100).
  destruct (Z.eqb_spec (rl_errors l + 1) 1), (Z.eqb_spec ((rl_errors l + 1) mod 100) 0), (Z.ltb_spec 0 (rl_errors l)), (Z.ltb_spec 0 (rl_errors l + 1));
    cbn; lia.
Qed.

Theorem return_link_counts oks :
  let '(l, lgs) := rl_run rl_new oks in
  rl_sent l + rl_errors l = Z.of_nat (length oks) /\ warnings lgs = warned (rl_errors l).
Proof.
  assert (H := rl_run_from rl_new oks ltac:(cbn; lia)). destruct (rl_run rl_new oks) as [l lgs].
  change (warned (rl_errors rl_new)) with 0 in H. change (rl_sent rl_new) with 0 in H. change (rl_errors rl_new) with 0 in H. lia.
Qed.
