(* ===== verification/LineProto.v ===== *)
(** * The wfb telemetry lines (gs/fpvdgs/wfb/lineproto.py)

    The two line parsers as state machines: a line gives the new state and the
    callback it makes, if any.  A malformed line is dropped whole. *)
From Stdlib Require Import ZArith Lia Bool String Ascii.
From stdpp Require Import base tactics list strings.
From S2P Require Import Prelude PyStr Json.
Open Scope Z_scope.

Definition FEC_TYPES (n : Z) : string :=
  if n =? 1 then "VDM_RS" else if n =? 2 then "swfec" else "Unknown".

Definition RX_PKT_KEYS : list string :=
  ["all"; "all_bytes"; "dec_err"; "session"; "data"; "uniq"; "fec_rec"; "lost"; "bad"; "out"; "out_bytes"].
Definition TX_PKT_KEYS : list string :=
  ["fec_timeouts"; "incoming"; "incoming_bytes"; "injected"; "injected_bytes"; "dropped"; "truncated"].

(** The antenna dict of a window: ((freq, mcs, bw), antenna) to ten values. *)
Definition ant_key : Type := list Z * Z.
Definition ant_dict := list (ant_key * list Z).

(** Packet counters: name to (window, cumulative). *)
Definition packets := list (string * (Z * Z)).

Record session_rec := mkSessionRec {
  sr_fec_type : string; sr_fec_k : Z; sr_fec_n : Z; sr_epoch : Z; sr_contract_version : Z
}.
#[export] Instance session_rec_eq_dec : EqDecision session_rec.
Proof. solve_decision. Defined.

Inductive line_event :=
| OnWindow (p : packets) (ant : ant_dict) (ses : option session_rec)
| OnSession (ses : session_rec)
| OnTxWindow (p : packets) (latency : list (Z * list Z))
| OnHandshake.

(** [d[k] = v] on a dict with decidable keys. *)
Fixpoint kset {K V} `{EqDecision K} (k : K) (v : V) (d : list (K * V)) : list (K * V) :=
  match d with
  | [] => [(k, v)]
  | (k', v') :: d' => if decide (k = k') then (k', v) :: d' else (k', v') :: kset k v d'
  end.

Definition _pairs (counters : list Z) (cumulative : option (list Z)) : list Z :=
  match cumulative with None => counters | Some c => zip_with Z.add counters c end.

Definition tab : ascii := "009"%char.
Definition columns (line : string) : list string := split tab (strip line).

(** ** wfb_rx *)

Record RxLineParser := mkRxP {
  rp_ant : ant_dict;
  rp_cum : option (list Z);
  rp_session : option session_rec
}.
#[export] Instance eta_RxP : Settable RxLineParser := fun r => mkRxP (rp_ant r) (rp_cum r) (rp_session r).

Definition rx_parser_new : RxLineParser := mkRxP [] None None.

(** The values of an RX_ANT line, the EVM triple filled in for an older wfb_rx. *)
Definition ant_vals (vals : list Z) : option (list Z) :=
  let vals := if (length vals =? 7)%nat then vals ++ [-1; -1; -1] else vals in
  if (length vals =? 10)%nat then Some vals else None.

Definition parse_rx_ant (cols : list string) : option (ant_key * list Z) :=
  match cols with
  | [_; _; c2; c3; c4] =>
      key ← parse_ints c2;
      if negb (length key =? 3)%nat then None
      else vs ← parse_ints c4; vals ← ant_vals vs; ant ← parse_int 16 c3; Some ((key, ant), vals)
  | _ => None
  end.

Definition parse_pkt (n : nat) (exact : bool) (cols : list string) : option (list Z) :=
  match cols with
  | [_; _; c2] =>
      counters ← parse_ints c2;
      if exact then if negb (length counters =? n)%nat then None else Some counters
      else if (length counters <? n)%nat then None else Some (take n counters)
  | _ => None
  end.

Definition parse_session (cols : list string) : option session_rec :=
  match cols with
  | [_; _; c2] =>
      parts ← parse_ints c2;
      match parts with
      | epoch :: fec_type :: fec_k :: fec_n :: more =>
          Some (mkSessionRec (FEC_TYPES fec_type) fec_k fec_n epoch (default 1 (head more)))
      | _ => None
      end
  | _ => None
  end.

Definition rx_feed_line (p : RxLineParser) (line : string) : RxLineParser * option line_event :=
  let cols := columns line in
  match cols with
  | _ :: cmd :: _ =>
      if String.eqb cmd "RX_ANT" then
        match parse_rx_ant cols with
        | Some (k, v) => (p <| rp_ant ::= kset k v |>, None)
        | None => (p, None)
        end
      else if String.eqb cmd "PKT" then
        match parse_pkt (length RX_PKT_KEYS) false cols with
        | Some counters =>
            let cum := _pairs counters (rp_cum p) in
            (p <| rp_cum := Some cum |> <| rp_ant := [] |>,
             Some (OnWindow (zip RX_PKT_KEYS (zip counters cum)) (rp_ant p) (rp_session p)))
        | None => (p, None)
        end
      else if String.eqb cmd "SESSION" then
        match parse_session cols with
        | Some ses => if decide (rp_session p = Some ses) then (p, None)
                      else (p <| rp_session := Some ses |>, Some (OnSession ses))
        | None => (p, None)
        end
      else (p, None)
  | _ => (p, None)
  end.

(** ** wfb_tx *)

Record TxLineParser := mkTxP {
  tp_ports : list (Z * Z);
  tp_unix_sockets : list (Z * string);
  tp_control_port : option Z;
  tp_handshake_done : bool;
  tp_ant : list (Z * list Z);
  tp_cum : option (list Z)
}.
#[export] Instance eta_TxP : Settable TxLineParser := fun r =>
  mkTxP (tp_ports r) (tp_unix_sockets r) (tp_control_port r) (tp_handshake_done r) (tp_ant r) (tp_cum r).

Definition tx_parser_new : TxLineParser := mkTxP [] [] None false [] None.

(** [s.split(":", 1)] and [s.rsplit(":", 1)] into two parts. *)
Definition split_first (s : string) : option (string * string) :=
  let '(h, found, t) := partition_at ":" s in if found : bool then Some (h, t) else None.
Definition split_last (s : string) : option (string * string) :=
  let '(h, found, t) := rpartition_char ":"%char s in if found : bool then Some (h, t) else None.

Definition tx_feed_line (p : TxLineParser) (line : string) : TxLineParser * option line_event :=
  let cols := columns line in
  match cols with
  | _ :: cmd :: _ =>
      if String.eqb cmd "LISTEN_UDP" && (length cols =? 3)%nat then
        match split_first (nth 2 cols "") ≫= (fun pw => w ← parse_int 16 pw.2; n ← parse_int 10 pw.1; Some (w, n)) with
        | Some (w, n) => (p <| tp_ports ::= kset w n |>, None)
        | None => (p, None)
        end
      else if String.eqb cmd "LISTEN_UDP_END" then (p <| tp_handshake_done := true |>, Some OnHandshake)
      else if String.eqb cmd "LISTEN_UNIX" && (length cols =? 3)%nat then
        match split_last (nth 2 cols "") ≫= (fun sw => w ← parse_int 16 sw.2; Some (w, sw.1)) with
        | Some (w, s) => (p <| tp_unix_sockets ::= kset w s |>, None)
        | None => (p, None)
        end
      else if String.eqb cmd "LISTEN_UNIX_END" then (p <| tp_handshake_done := true |>, Some OnHandshake)
      else if String.eqb cmd "LISTEN_UDP_CONTROL" && (length cols =? 3)%nat then
        match parse_int 10 (nth 2 cols "") with
        | Some n => (p <| tp_control_port := Some n |>, None)
        | None => (p, None)
        end
      else if String.eqb cmd "TX_ANT" then
        match cols with
        | [_; _; c2; c3] =>
            match (a ← parse_int 16 c2; v ← parse_ints c3; Some (a, v)) with
            | Some (a, v) => (p <| tp_ant ::= kset a v |>, None)
            | None => (p, None)
            end
        | _ => (p, None)
        end
      else if String.eqb cmd "PKT" then
        match parse_pkt (length TX_PKT_KEYS) true cols with
        | Some counters =>
            let cum := _pairs counters (tp_cum p) in
            (p <| tp_cum := Some cum |> <| tp_ant := [] |>,
             Some (OnTxWindow (zip TX_PKT_KEYS (zip counters cum)) (tp_ant p)))
        | None => (p, None)
        end
      else (p, None)
  | _ => (p, None)
  end.

(* ------------------------------------------------------------------ *)
(** ** What the receiver's callbacks may rely on *)

Definition opt_list {A} (o : option A) : list A := match o with Some x => [x] | None => [] end.

Definition rx_step (s : RxLineParser * list line_event) (line : string) : RxLineParser * list line_event :=
  let '(p, e) := rx_feed_line s.1 line in (p, s.2 ++ opt_list e).

Definition rx_run (lines : list string) : RxLineParser * list line_event :=
  fold_left rx_step lines (rx_parser_new, []).

(** The last session announced, and the sums of the windows, of a history. *)
Definition last_ses (evs : list line_event) : option session_rec :=
  fold_left (fun acc e => match e with OnSession s => Some s | _ => acc end) evs None.
Definition win_sum (evs : list line_event) : option (list Z) :=
  fold_left (fun acc e => match e with OnWindow p _ _ => Some (_pairs (map (fun kv => kv.2.1) p) acc) | _ => acc end)
    evs None.

Lemma last_ses_snoc evs e : last_ses (evs ++ [e]) = match e with OnSession s => Some s | _ => last_ses evs end.
Proof. unfold last_ses. rewrite fold_left_app. by destruct e. Qed.

Lemma win_sum_snoc evs e :
  win_sum (evs ++ [e]) =
    match e with OnWindow p _ _ => Some (_pairs (map (fun kv => kv.2.1) p) (win_sum evs)) | _ => win_sum evs end.
Proof. unfold win_sum. rewrite fold_left_app. by destruct e. Qed.

Definition ant_entry_ok (e : ant_key * list Z) : Prop := length e.1.1 = 3%nat /\ length e.2 = 10%nat.

(** An event is right for the history it follows: a window names the eleven
    counters, its cumulative column is the running sum, it carries the last
    session and complete antenna entries; a session differs from the last one. *)
Definition event_ok (evs : list line_event) (e : line_event) : Prop :=
  match e with
  | OnWindow p ant ses =>
      map fst p = RX_PKT_KEYS /\
      map (fun kv => kv.2.2) p = _pairs (map (fun kv => kv.2.1) p) (win_sum evs) /\
      ses = last_ses evs /\ Forall ant_entry_ok ant
  | OnSession s => last_ses evs <> Some s
  | _ => False
  end.

Inductive trace_ok : list line_event -> Prop :=
| T_nil : trace_ok []
| T_snoc evs e : trace_ok evs -> event_ok evs e -> trace_ok (evs ++ [e]).

Definition rx_inv (s : RxLineParser * list line_event) : Prop :=
  trace_ok s.2 /\ rp_session s.1 = last_ses s.2 /\ rp_cum s.1 = win_sum s.2 /\
  Forall ant_entry_ok (rp_ant s.1) /\
  (forall c, rp_cum s.1 = Some c -> length c = length RX_PKT_KEYS).

Lemma kset_forall {K V} `{EqDecision K} (P : K * V -> Prop) k v d :
  P (k, v) -> Forall P d -> Forall P (kset k v d).
Proof.
  intros Hk Hd. induction Hd as [|[k' v'] d Hp Hd IH]; cbn; [by constructor|].
  destruct (decide (k = k')) as [<-|]; by constructor.
Qed.

Lemma parse_rx_ant_ok cols k v : parse_rx_ant cols = Some (k, v) -> ant_entry_ok (k, v).
Proof.
  unfold parse_rx_ant. destruct cols as [|c0 [|c1 [|c2 [|c3 [|c4 [|]]]]]]; try done.
  intros (key & _ & H)%bind_Some. destruct (negb _) eqn:E; [done|].
  apply bind_Some in H as (vs & _ & (vals & Hv & (ant & _ & [= <- <-])%bind_Some)%bind_Some).
  split; cbn; [by apply negb_false_iff, Nat.eqb_eq in E|].
  unfold ant_vals in Hv. destruct (_ =? 10)%nat eqn:E2; [|done]. apply Nat.eqb_eq in E2. by injection Hv as <-.
Qed.

Lemma parse_pkt_length n ex cols c : parse_pkt n ex cols = Some c -> length c = n.
Proof.
  unfold parse_pkt. destruct cols as [|c0 [|c1 [|c2 [|]]]]; try done. intros (cs & _ & H)%bind_Some.
  destruct ex.
  - destruct (negb _) eqn:E; [done|]. apply negb_false_iff, Nat.eqb_eq in E. by injection H as <-.
  - destruct (_ <? n)%nat eqn:E; [done|]. apply Nat.ltb_ge in E. injection H as <-. rewrite length_take. lia.
Qed.

Lemma zip_cols (ks : list string) (a b : list Z) :
  length a = length ks -> length b = length ks ->
  map fst (zip ks (zip a b)) = ks /\ map (fun kv => kv.2.1) (zip ks (zip a b)) = a /\
  map (fun kv => kv.2.2) (zip ks (zip a b)) = b.
Proof.
  revert a b. induction ks as [|k ks IH]; intros [|x a] [|y b] Ha Hb; try done.
  injection Ha as Ha. injection Hb as Hb. cbn. destruct (IH a b Ha Hb) as (-> & -> & ->). done.
Qed.

Lemma pairs_length c cum n : length c = n -> (forall c', cum = Some c' -> length c' = n) -> length (_pairs c cum) = n.
Proof.
  intros Hc Hcum. unfold _pairs. destruct cum as [c'|]; [|done]. rewrite length_zip_with, Hc, (Hcum c' eq_refl). lia.
Qed.

Lemma rx_step_inv s line : rx_inv s -> rx_inv (rx_step s line).
Proof.
  destruct s as [p evs]. intros (Ht & Hs & Hc & Ha & Hl). cbn [fst snd] in *. unfold rx_step, rx_feed_line. cbn [fst snd].
  assert (Hid : rx_inv (p, evs ++ [])) by (rewrite app_nil_r; by repeat split).
  set (cols := columns line). destruct cols as [|c0 [|cmd cs]] eqn:Ecols; [exact Hid|exact Hid|]. rewrite <- Ecols.
  destruct (String.eqb cmd "RX_ANT").
  { destruct (parse_rx_ant cols) as [[k v]|] eqn:E; [|exact Hid]. apply parse_rx_ant_ok in E.
    cbn [opt_list]. rewrite app_nil_r. repeat split; try done. by apply kset_forall. }
  destruct (String.eqb cmd "PKT").
  { destruct (parse_pkt _ _ cols) as [c|] eqn:E; [|exact Hid]. apply parse_pkt_length in E.
    assert (Hlen : length (_pairs c (rp_cum p)) = length RX_PKT_KEYS) by (by apply pairs_length).
    destruct (zip_cols RX_PKT_KEYS c (_pairs c (rp_cum p)) E Hlen) as (H1 & H2 & H3).
    set (e := OnWindow _ _ _). change (rx_inv (p <| rp_cum := Some (_pairs c (rp_cum p)) |> <| rp_ant := [] |>, evs ++ [e])).
    assert (He : event_ok evs e) by (unfold event_ok, e; rewrite H1, H2, H3, Hc; by repeat split).
    split; [by constructor|]. cbn [fst snd]. rewrite last_ses_snoc, win_sum_snoc. unfold e. rewrite H2, <- Hc.
    split; [exact Hs|]. split; [done|]. split; [done|]. intros c' [= <-]. exact Hlen. }
  destruct (String.eqb cmd "SESSION"); [|exact Hid].
  destruct (parse_session cols) as [ses|]; [|exact Hid]. destruct (decide _) as [|Hne]; [exact Hid|].
  change (rx_inv (p <| rp_session := Some ses |>, evs ++ [OnSession ses])).
  split; [constructor; [done|]; cbn; by rewrite <- Hs|]. cbn [fst snd].
  rewrite last_ses_snoc, win_sum_snoc. by repeat split.
Qed.

Lemma rx_run_inv lines : rx_inv (rx_run lines).
Proof.
  unfold rx_run. assert (H0 : rx_inv (rx_parser_new, [])) by (repeat split; try constructor; done).
  revert H0. generalize (rx_parser_new, @nil line_event). induction lines as [|l ls IH]; intros s H0; [done|].
  cbn [fold_left]. apply IH. by apply rx_step_inv.
Qed.

(** An event of a trace is right for the events before it. *)
Lemma trace_ok_elem evs e : trace_ok evs -> e ∈ evs -> exists before, event_ok before e.
Proof.
  induction 1 as [|evs e' _ IH He']; [by intros ?%not_elem_of_nil|].
  intros [H| ->%list_elem_of_singleton]%elem_of_app; eauto.
Qed.

(** Every callback the receiver's line parser makes is right for its
    history: the counters of a window have all names, the cumulative ones sum
    the windows since the session began, and the session is the last one
    announced. *)
Theorem rx_callbacks_consistent lines : trace_ok (rx_run lines).2.
Proof. apply rx_run_inv. Qed.

Example rx_lines_example :
  (rx_run ["1	SESSION	7:1:8:12:3"; "1	RX_ANT	5805:2:20	0100	9:-60:-55:-50:10:20:30";
           "1	PKT	10:1000:0:1:9:9:0:0:0:9:900"; "bad"; "2	PKT	1:1:1:1:1:1:1:1:1:1:1"]).2 =
  [OnSession (mkSessionRec "VDM_RS" 8 12 7 3);
   OnWindow (zip RX_PKT_KEYS (zip [10; 1000; 0; 1; 9; 9; 0; 0; 0; 9; 900] [10; 1000; 0; 1; 9; 9; 0; 0; 0; 9; 900]))
     [([5805; 2; 20], 256, [9; -60; -55; -50; 10; 20; 30; -1; -1; -1])] (Some (mkSessionRec "VDM_RS" 8 12 7 3));
   OnWindow (zip RX_PKT_KEYS (zip [1; 1; 1; 1; 1; 1; 1; 1; 1; 1; 1] [11; 1001; 1; 2; 10; 10; 1; 1; 1; 10; 901])) []
     (Some (mkSessionRec "VDM_RS" 8 12 7 3))].
Proof. vm_compute. reflexivity. Qed.
