(* ===== verification/TxSel.v ===== *)
(** * TX antenna selection (gs/fpvdgs/wfb/txsel.py)

    Cards are ranked by packet count; among those near the best the strongest
    wins, with hysteresis against the current one. *)
From Stdlib Require Import ZArith QArith Lia Bool.
From stdpp Require Import base tactics list sets.
From S2P Require Import Prelude FloatModels.
Open Scope Z_scope.

Record TxSelectorConfig (F : Type) := mkTxSelCfg {
  rssi_delta_db : Z; counter_rel_delta : F; counter_abs_delta : Z
}.
Arguments mkTxSelCfg {F}.
Arguments rssi_delta_db {F} _.
Arguments counter_rel_delta {F} _.
Arguments counter_abs_delta {F} _.

Record TxSelector := mkTxSel { rx_only_wlan_ids : list Z; current : option Z }.

(** One antenna of the aggregated window: packets, RSSI min/avg/max, SNR
    min/avg/max. *)
Record ant_agg := mkAntAgg {
  ag_pkt : Z; ag_rssi_min : Z; ag_rssi_avg : Z; ag_rssi_max : Z;
  ag_snr_min : Z; ag_snr_avg : Z; ag_snr_max : Z
}.

(** [(wlan, pkt_s, rssi_avg)], ordered like Python tuples. *)
Definition row : Type := Z * Z * Z.
Definition row_leb (a b : row) : bool :=
  let '(a1, a2, a3) := a in let '(b1, b2, b3) := b in
  (a1 <? b1) || ((a1 =? b1) && ((a2 <? b2) || ((a2 =? b2) && (a3 <=? b3)))).

Fixpoint insert_row (x : row) (l : list row) : list row :=
  match l with
  | [] => [x]
  | y :: l' => if row_leb x y then x :: l else y :: insert_row x l'
  end.
Definition sort_rows (l : list row) : list row := foldr insert_row [] l.

(** [groupby] on the first column, each group reduced to (wlan, max rssi, max
    packets); consecutive rows of one wlan meet in the accumulator. *)
Fixpoint group_rows (l : list row) : list (Z * (Z * Z)) :=
  match l with
  | [] => []
  | (w, p, r) :: l' =>
      match group_rows l' with
      | (w', (r', p')) :: g => if w =? w' then (w, (Z.max r r', Z.max p p')) :: g
                               else (w, (r, p)) :: (w', (r', p')) :: g
      | [] => [(w, (r, p))]
      end
  end.

Section Ops.
Context {F : Type} {PF : PyFloat F}.
Variable cfg : TxSelectorConfig F.

(** The cards that may transmit, with RSSI and packets. *)
Definition cards_of (t : TxSelector) (stats_agg : list (Z * ant_agg)) : list (Z * (Z * Z)) :=
  let rows := sort_rows (map (fun av => (Z.shiftr av.1 8, ag_pkt av.2, ag_rssi_avg av.2)) stats_agg) in
  filter (fun c => c.1 ∉ rx_only_wlan_ids t) (group_rows rows).

Definition max_pkts_of (cards : list (Z * (Z * Z))) : Z := fold_left (fun m c => Z.max c.2.2 m) cards 0.

Definition threshold (max_pkts : Z) : F :=
  fofZ max_pkts -f fmax (fofZ (counter_abs_delta cfg)) (fofZ max_pkts *f counter_rel_delta cfg).

Definition near_max_of (cards : list (Z * (Z * Z))) : list (Z * (Z * Z)) :=
  filter (fun c => (fofZ c.2.2 >=f threshold (max_pkts_of cards)) = true) cards.

(** [max((rssi, wlan))]. *)
Definition better (a b : Z * (Z * Z)) : bool :=
  (b.2.1 <? a.2.1) || ((b.2.1 =? a.2.1) && (b.1 <? a.1)).
Definition best_card (c : Z * (Z * Z)) (l : list (Z * (Z * Z))) : Z * (Z * Z) :=
  fold_left (fun b x => if better x b then x else b) l c.

Fixpoint card_get (w : Z) (cards : list (Z * (Z * Z))) : option (Z * Z) :=
  match cards with
  | [] => None
  | (w', v) :: l => if w =? w' then Some v else card_get w l
  end.

Definition is_current (t : TxSelector) (w : Z) : bool := bool_decide (current t = Some w).

Definition select (t : TxSelector) (stats_agg : list (Z * ant_agg)) : TxSelector * option Z :=
  let cards := cards_of t stats_agg in
  match near_max_of cards with
  | [] => (t, None)
  | c :: l =>
      let new := best_card c l in
      let cur_rssi := match current t with
                      | Some w => match card_get w cards with Some v => v.1 | None => -1000 end
                      | None => -1000
                      end in
      let cur_near := match current t with
                      | Some w => is_some (card_get w (c :: l))
                      | None => false
                      end in
      if is_current t new.1 then (t, None)
      else if cur_near && (new.2.1 - cur_rssi <? rssi_delta_db cfg) then (t, None)
      else (mkTxSel (rx_only_wlan_ids t) (Some new.1), Some new.1)
  end.
End Ops.

(* ------------------------------------------------------------------ *)
(** ** Properties *)

Lemma best_card_spec c l :
  best_card c l ∈ c :: l /\ Forall (fun x => x.2.1 <= (best_card c l).2.1) (c :: l).
Proof.
  unfold best_card. revert c. induction l as [|x l IH]; intros c; cbn [fold_left].
  { split; [by left|]. by repeat constructor. }
  assert (Hb : c.2.1 <= (if better x c then x else c).2.1 /\ x.2.1 <= (if better x c then x else c).2.1 /\
               (if better x c then x else c) ∈ [c; x]).
  { unfold better. destruct (_ || _) eqn:E; [|split; [lia|split; [|by left]]].
    - split; [|split; [lia|by right; left]]. apply orb_true_iff in E as [E|E]; breflect; lia.
    - apply orb_false_iff in E as [E _]. breflect. lia. }
  destruct Hb as (Hb1 & Hb2 & Hin). set (d := if better x c then x else c) in *.
  destruct (IH d) as [H1 H2]. apply Forall_cons in H2 as [Hd Hl]. split.
  { apply elem_of_cons in H1 as [->|H1]; [|by do 2 right].
    apply elem_of_cons in Hin as [->|Hin]; [by left|]. apply list_elem_of_singleton in Hin as ->. right. by left. }
  constructor; [lia|]. constructor; [lia|done].
Qed.

Lemma card_get_filter (P : Z * (Z * Z) -> Prop) `{!forall c, Decision (P c)} w cards :
  card_get w cards = None -> card_get w (filter P cards) = None.
Proof.
  induction cards as [|[w1 v1] cards IH]; [done|]. cbn [card_get]. destruct (w =? w1) eqn:E; [done|]. intros Hn.
  rewrite filter_cons. case_decide; [|by apply IH]. cbn [card_get]. rewrite E. by apply IH.
Qed.

Section Theory.
Context {F : Type} {PF : PyFloat F}.
Variable cfg : TxSelectorConfig F.

(** A switch goes to the strongest near-best card, and is worth it. *)
Theorem tx_switch_justified t stats t' w :
  select cfg t stats = (t', Some w) ->
  let cards := cards_of t stats in
  let near := near_max_of cfg cards in
  current t' = Some w /\ current t <> Some w /\ (w ∉ rx_only_wlan_ids t) /\
  exists rssi pkts, (w, (rssi, pkts)) ∈ near /\ Forall (fun c => c.2.1 <= rssi) near /\
    forall w0 cur, current t = Some w0 -> card_get w0 near = Some cur ->
      exists v, card_get w0 cards = Some v /\ rssi_delta_db cfg <= rssi - v.1.
Proof.
  unfold select. set (cards := cards_of t stats). cbv zeta.
  destruct (near_max_of cfg cards) as [|c l] eqn:En; [done|].
  set (new := best_card c l). destruct (is_current t new.1) eqn:Ec; [done|].
  destruct (_ && _) eqn:Eh; [done|]. intros [= <- <-].
  destruct (best_card_spec c l) as [Hin Hmax]. fold new in Hin, Hmax.
  split; [done|]. split; [unfold is_current in Ec; by apply bool_decide_eq_false in Ec|].
  assert (Hcards : new ∈ cards).
  { rewrite <- En in Hin. unfold near_max_of in Hin. by apply list_elem_of_filter in Hin as [_ Hin]. }
  split; [subst cards; unfold cards_of in Hcards; by apply list_elem_of_filter in Hcards as [? _]|].
  exists new.2.1, new.2.2. split; [by destruct new as [? []]|]. split; [done|].
  intros w0 cur Hcur Hget. rewrite Hcur in Eh. rewrite Hget in Eh. cbn [is_some andb] in Eh.
  destruct (card_get w0 cards) as [v|] eqn:Ev.
  - exists v. split; [done|]. breflect. lia.
  - exfalso. rewrite <- En in Hget. unfold near_max_of in Hget. by rewrite card_get_filter in Hget.
Qed.

(** The same window again changes nothing. *)
Theorem tx_selection_settles t stats t' r :
  select cfg t stats = (t', r) -> select cfg t' stats = (t', None).
Proof.
  intros H. destruct r as [w|].
  - unfold select in *. destruct (near_max_of cfg (cards_of t stats)) as [|c l] eqn:En; [done|].
    destruct (is_current t _); [done|]. destruct (_ && _); [done|]. injection H as <- <-.
    change (cards_of (mkTxSel (rx_only_wlan_ids t) (Some (best_card c l).1)) stats) with (cards_of t stats).
    rewrite En. unfold is_current. cbn [current]. by rewrite bool_decide_true.
  - assert (t' = t) as ->; [|done]. unfold select in H. by repeat case_match; simplify_eq.
Qed.
End Theory.
