(* ===== verification/StatsHub.v ===== *)
(** * The stats hub (gs/fpvdgs/wfb/aggregator.py)

    Parser callbacks are stored per child and fanned out as events; at the log
    interval the windows gathered since the last pass are merged per antenna,
    the TX card is selected and the RSSI tuple for the flight controller is
    computed.  Subscribers' queues and threads are not modelled: the events of
    an update are its result. *)
From Stdlib Require Import ZArith Lia Bool String.
From stdpp Require Import base tactics list strings.
From S2P Require Import Prelude Json StatsClient LineProto TxSel.
Open Scope Z_scope.

Definition LINK_LOST : Z := 1.
Definition LINK_JAMMED : Z := 2.

Definition _to_session_info (ses : session_rec) : SessionInfo :=
  mkSession (sr_fec_type ses) (sr_fec_k ses) (sr_fec_n ses) (sr_epoch ses) 1 (sr_contract_version ses).

(** [v[i]] of an antenna tuple; the parser guarantees ten values. *)
Definition at_ (l : list Z) (i : nat) : Z := nth i l 0.

Definition to_rx_ant (e : ant_key * list Z) : RxAnt :=
  let '((key, ant_id), v) := e in
  mkRxAnt ant_id (at_ key 0) (at_ key 1) (at_ key 2) (at_ v 0) (at_ v 1) (at_ v 2) (at_ v 3)
    (at_ v 4) (at_ v 5) (at_ v 6) (at_ v 7) (at_ v 8) (at_ v 9).

Definition windows_of (p : packets) : list (string * Z) := map (fun kv => (kv.1, kv.2.1)) p.

Definition _to_rx_event {F} (ts : F) (child_id : string) (p : packets) (ant : ant_dict)
    (ses : option session_rec) (tx_wlan : option Z) : RxEvent F :=
  mkRx ts child_id (windows_of p) (map to_rx_ant ant) (_to_session_info <$> ses)
    (match tx_wlan with Some w => Some (JInt w) | None => None end).

(** ** State *)

Record StatsHub := mkHub {
  hub_txsel : TxSelector;
  hub_cur : list (string * (ant_dict * packets));
  hub_sessions : list (string * session_rec);
  last_rx_raw : list (string * (packets * ant_dict * option session_rec));
  last_tx_raw : list (string * (packets * list (Z * list Z)))
}.
#[export] Instance eta_Hub : Settable StatsHub := fun r =>
  mkHub (hub_txsel r) (hub_cur r) (hub_sessions r) (last_rx_raw r) (last_tx_raw r).

Section Ops.
Context {F : Type} {PF : PyFloat F}.
Variable cfg : TxSelectorConfig F.

Definition update_rx_stats (h : StatsHub) (ts : F) (child_id : string) (p : packets) (ant : ant_dict)
    (ses : option session_rec) : StatsHub * Event F :=
  (h <| hub_cur ::= dict_set child_id (ant, p) |>
     <| last_rx_raw ::= dict_set child_id (p, ant, ses) |>
     <| hub_sessions ::= (fun d => match ses with Some s => dict_set child_id s d | None => d end) |>,
   EvRx (_to_rx_event ts child_id p ant ses (current (hub_txsel h)))).

Definition process_new_session (h : StatsHub) (ts : F) (child_id : string) (ses : session_rec) : StatsHub * Event F :=
  (h <| hub_sessions ::= dict_set child_id ses |>, EvSession (mkSes ts child_id (_to_session_info ses))).

Definition update_tx_stats (h : StatsHub) (ts : F) (child_id : string) (p : packets) (lat : list (Z * list Z))
    : StatsHub * Event F :=
  (h <| last_tx_raw ::= dict_set child_id (p, lat) |>, EvTx (mkTx ts child_id (windows_of p))).

(** *** Merging antennas *)

(** The running sums of one antenna: averages are packet-weighted sums. *)
Definition ant_first (v : list Z) : ant_agg :=
  let pkt_s := at_ v 0 in
  mkAntAgg pkt_s (at_ v 1) (at_ v 2 * pkt_s) (at_ v 3) (at_ v 4) (at_ v 5 * pkt_s) (at_ v 6).

Definition ant_merge (v : list Z) (t : ant_agg) : ant_agg :=
  let pkt_s := at_ v 0 in
  mkAntAgg (pkt_s + ag_pkt t) (Z.min (at_ v 1) (ag_rssi_min t)) (at_ v 2 * pkt_s + ag_rssi_avg t)
    (Z.max (at_ v 3) (ag_rssi_max t)) (Z.min (at_ v 4) (ag_snr_min t)) (at_ v 5 * pkt_s + ag_snr_avg t)
    (Z.max (at_ v 6) (ag_snr_max t)).

Fixpoint agg_upd (ant_id : Z) (v : list Z) (agg : list (Z * ant_agg)) : list (Z * ant_agg) :=
  match agg with
  | [] => [(ant_id, ant_first v)]
  | (k, t) :: agg' => if ant_id =? k then (k, ant_merge v t) :: agg' else (k, t) :: agg_upd ant_id v agg'
  end.

Definition agg_sums (ant_stats_by_rx : list ant_dict) : list (Z * ant_agg) :=
  fold_left (fun agg e => agg_upd e.1.2 e.2 agg) (concat ant_stats_by_rx) [].

(** The averages: [//] by the packet count, which raises on zero. *)
Definition ant_final (t : ant_agg) : res ant_agg :=
  if ag_pkt t =? 0 then Err ZeroDivisionError
  else Ok (mkAntAgg (ag_pkt t) (ag_rssi_min t) (ag_rssi_avg t / ag_pkt t) (ag_rssi_max t)
             (ag_snr_min t) (ag_snr_avg t / ag_pkt t) (ag_snr_max t)).

Definition _stats_agg_by_freq_and_rxid (ant_stats_by_rx : list ant_dict) : res (list (Z * ant_agg)) :=
  map_res (fun kt => let* t := ant_final kt.2 in Ok (kt.1, t)) (agg_sums ant_stats_by_rx).

(** *** The window pass *)

Definition counter (k : string) (p : packets) : res Z :=
  match dict_get k p with Some wc => Ok wc.1 | None => Err (KeyError k) end.

Definition sum_counters (ks : list string) (ps : list packets) : res Z :=
  let* l := map_res (fun p => let* cs := map_res (fun k => counter k p) ks in Ok (sumZ cs)) ps in Ok (sumZ l).

Record Window := mkWindow {
  w_stats : list (Z * ant_agg);
  w_rssi : Z * Z * Z * Z * Z;  (** rssi, noise, rx_errors, rx_fec, flags *)
  w_tx_sel : option Z
}.

(** [max] of (rssi, noise) pairs. *)
Definition max_pair (a b : Z * Z) : Z * Z :=
  if (a.1 <? b.1) || ((a.1 =? b.1) && (a.2 <? b.2)) then b else a.

Definition aggregate_window (h : StatsHub) : res (StatsHub * Window) :=
  let h0 := h <| hub_cur := [] |> in
  let ants := map (fun c => c.2.1) (hub_cur h) in
  let pkts := map (fun c => c.2.2) (hub_cur h) in
  let* stats := _stats_agg_by_freq_and_rxid ants in
  let '(sel, tx_sel) := match stats with [] => (hub_txsel h0, None) | _ => select cfg (hub_txsel h0) stats end in
  let h1 := h0 <| hub_txsel := sel |> in
  let* bad_packets := sum_counters ["dec_err"; "bad"] pkts in
  let cards := map (fun kt => (ag_rssi_avg kt.2, ag_rssi_avg kt.2 - ag_snr_avg kt.2)) stats in
  let '(mav_rssi, mav_noise, flags) :=
    match cards with
    | [] => (-128, -128, LINK_LOST)
    | c :: cs => let m := fold_left max_pair cs c in
                 (m.1, m.2, if bad_packets >? 0 then LINK_JAMMED else 0)
    end in
  let* errs := sum_counters ["dec_err"; "bad"; "lost"] pkts in
  let* fec := sum_counters ["fec_rec"] pkts in
  Ok (h1, mkWindow stats (mav_rssi, mav_noise, Z.min errs 65535, Z.min fec 65535, flags) tx_sel).
End Ops.

(* ------------------------------------------------------------------ *)
(** ** Properties *)

(** A plausible antenna line: it counted packets, and its averages lie between
    its extremes. *)
Definition ant_sane (v : list Z) : Prop :=
  0 < at_ v 0 /\ at_ v 1 <= at_ v 2 <= at_ v 3 /\ at_ v 4 <= at_ v 5 <= at_ v 6.

Definition sums_ok (t : ant_agg) : Prop :=
  0 < ag_pkt t /\
  ag_rssi_min t * ag_pkt t <= ag_rssi_avg t <= ag_rssi_max t * ag_pkt t /\
  ag_snr_min t * ag_pkt t <= ag_snr_avg t <= ag_snr_max t * ag_pkt t.

(** What a merged antenna promises. *)
Definition merged_ok (t : ant_agg) : Prop :=
  0 < ag_pkt t /\ ag_rssi_min t <= ag_rssi_avg t <= ag_rssi_max t /\ ag_snr_min t <= ag_snr_avg t <= ag_snr_max t.

Lemma ant_first_ok v : ant_sane v -> sums_ok (ant_first v).
Proof. unfold ant_sane, sums_ok, ant_first. cbn. nia. Qed.

Lemma weighted_merge p a lo hi q s l h :
  0 < p -> lo <= a <= hi -> 0 < q -> l * q <= s <= h * q ->
  Z.min lo l * (p + q) <= a * p + s <= Z.max hi h * (p + q).
Proof.
  intros. split.
  - destruct (Z.min_spec lo l) as [[? ->]|[? ->]]; nia.
  - destruct (Z.max_spec hi h) as [[? ->]|[? ->]]; nia.
Qed.

Lemma ant_merge_ok v t : ant_sane v -> sums_ok t -> sums_ok (ant_merge v t).
Proof.
  intros (Hp & Hr & Hs) (Hq & Hr' & Hs'). unfold sums_ok, ant_merge. cbn. split; [lia|].
  split; by apply weighted_merge.
Qed.

Lemma agg_upd_ok k v agg : ant_sane v -> Forall (fun kt => sums_ok kt.2) agg -> Forall (fun kt => sums_ok kt.2) (agg_upd k v agg).
Proof.
  intros Hv Ha. induction Ha as [|[k' t] agg Ht Ha IH]; cbn.
  - constructor; [by apply ant_first_ok|constructor].
  - destruct (k =? k'); constructor; try done. by apply ant_merge_ok.
Qed.

Lemma agg_sums_ok l : Forall (Forall (fun e => ant_sane e.2)) l -> Forall (fun kt => sums_ok kt.2) (agg_sums l).
Proof.
  intros H%Forall_concat. unfold agg_sums. assert (H0 : Forall (fun kt : Z * ant_agg => sums_ok kt.2) []) by constructor.
  revert H0. generalize (@nil (Z * ant_agg)). induction H as [|e es He Hes IH]; intros agg Ha; [done|].
  cbn [fold_left]. apply IH. by apply agg_upd_ok.
Qed.

Lemma ant_final_ok t : sums_ok t -> exists t', ant_final t = Ok t' /\ merged_ok t'.
Proof.
  intros (Hp & Hr & Hs). unfold ant_final. destruct (Z.eqb_spec (ag_pkt t) 0); [lia|]. eexists. split; [done|].
  unfold merged_ok. cbn. split; [done|].
  split; split; (apply Z.div_le_lower_bound; lia) || (apply Z.div_le_upper_bound; lia).
Qed.

Lemma stats_agg_ok l :
  Forall (Forall (fun e => ant_sane e.2)) l ->
  exists s, _stats_agg_by_freq_and_rxid l = Ok s /\ Forall (fun kt => merged_ok kt.2) s.
Proof.
  intros H%agg_sums_ok. unfold _stats_agg_by_freq_and_rxid. induction H as [|[k t] agg Ht Ha IH]; cbn; [by exists []|].
  destruct (ant_final_ok t Ht) as (t' & Ht' & Hm). cbn in Ht'. rewrite Ht'. cbn. destruct IH as (s & Hs & Hf).
  rewrite Hs. cbn. eexists. split; [done|]. by constructor.
Qed.

(** The packets of a parsed window: every counter is there. *)
Definition packets_ok (p : packets) : Prop := map fst p = RX_PKT_KEYS.

Lemma counter_ok k p : packets_ok p -> k ∈ RX_PKT_KEYS -> exists z, counter k p = Ok z.
Proof.
  intros Hp Hk. unfold counter. destruct (dict_get k p) eqn:E; [by eauto|].
  apply dict_get_none in E. unfold dict_keys in E. by rewrite Hp in E.
Qed.

Lemma sum_counters_ok ks ps :
  Forall packets_ok ps -> Forall (fun k => k ∈ RX_PKT_KEYS) ks -> exists z, sum_counters ks ps = Ok z.
Proof.
  intros Hps Hks. unfold sum_counters.
  assert (Hp : forall p, packets_ok p -> exists cs, map_res (fun k => counter k p) ks = Ok cs).
  { intros p Hp. induction Hks as [|k ks Hk Hks IH]; [by eexists|]. cbn.
    destruct (counter_ok k p Hp Hk) as [z ->]. destruct IH as [cs ->]. by eexists. }
  assert (H : exists l, map_res (fun p => let* cs := map_res (fun k => counter k p) ks in Ok (sumZ cs)) ps = Ok l).
  { induction Hps as [|p ps Hpp Hps IH]; [by eexists|]. cbn. destruct (Hp p Hpp) as [cs ->]. destruct IH as [l Hl].
    cbn. rewrite Hl. by eexists. }
  destruct H as [l ->]. by eexists.
Qed.

Section Theory.
Context {F : Type} {PF : PyFloat F}.
Variable cfg : TxSelectorConfig F.

Definition child_ok (c : string * (ant_dict * packets)) : Prop :=
  Forall (fun e => ant_sane e.2) c.2.1 /\ packets_ok c.2.2.

(** A window pass over sane children returns, empties the window, keeps
    every merged antenna's averages between its extremes, clamps the 16-bit
    MAVLink counters and flags the link lost exactly when no antenna reported. *)
Theorem window_pass_sound (h : StatsHub) :
  Forall child_ok (hub_cur h) ->
  exists h' w, aggregate_window cfg h = Ok (h', w) /\ hub_cur h' = [] /\
    Forall (fun kt => merged_ok kt.2) (w_stats w) /\
    (let '(rssi, noise, errs, fec, flags) := w_rssi w in
     errs <= 65535 /\ fec <= 65535 /\ (w_stats w = [] <-> flags = LINK_LOST)).
Proof.
  intros H. unfold aggregate_window. set (ants := map _ (hub_cur h)). set (pkts := map _ (hub_cur h)).
  assert (Ha : Forall (Forall (fun e => ant_sane e.2)) ants).
  { apply Forall_map. eapply Forall_impl; [exact H|]. by intros ? []. }
  assert (Hp : Forall packets_ok pkts).
  { apply Forall_map. eapply Forall_impl; [exact H|]. by intros ? []. }
  destruct (stats_agg_ok ants Ha) as (s & Hs & Hm). rewrite Hs. cbn [rbind].
  destruct (match s with [] => _ | _ => _ end) as [sel tx_sel].
  destruct (sum_counters_ok ["dec_err"; "bad"] pkts Hp) as [bad ->]; [by repeat constructor|]. cbn [rbind].
  set (cards := map _ s). destruct (match cards with [] => _ | _ => _ end) as [[mr mn] fl] eqn:Ec.
  destruct (sum_counters_ok ["dec_err"; "bad"; "lost"] pkts Hp) as [errs ->]; [by repeat constructor|]. cbn [rbind].
  destruct (sum_counters_ok ["fec_rec"] pkts Hp) as [fec ->]; [by repeat constructor|]. cbn [rbind].
  eexists _, _. split; [done|]. split; [done|]. split; [done|]. cbn.
  split; [lia|]. split; [lia|]. subst cards. destruct s as [|kt s]; cbn in Ec; simplify_eq; [done|].
  split; [done|]. by destruct (_ >? 0).
Qed.
End Theory.

(** An antenna line that counted no packet makes the pass raise. *)
Lemma zero_packets_raise {F} `{PyFloat F} (cfg : TxSelectorConfig F) p :
  let h := mkHub (mkTxSel [] None) [("video rx", ([(([5805; 2; 20], 0), [0; -60; -60; -60; 10; 10; 10; -1; -1; -1])], p))] [] [] [] in
  aggregate_window cfg h = Err ZeroDivisionError.
Proof. reflexivity. Qed.
