(* ===== verification/Statsd.v ===== *)
(** * wfb/statsd.py: the stats feed over TCP

    [StatsServer] hears every update of the hub as a raw payload, flattens it
    into the record of the newline-JSON wire and writes it to each connected
    client; a client too slow to read is dropped.  A record is the JSON value
    the line holds.  What the transports answer (a full buffer, a write that
    raises) comes with the event; writes, closes and aborts are outputs. *)
From Stdlib Require Import ZArith Lia Bool String.
From stdpp Require Import base tactics list strings sets.
From S2P Require Import Prelude Json StatsClient LineProto TxSel StatsHub.
Open Scope Z_scope.

(** ** Records *)

(** What the raw listeners of the hub are called with. *)
Inductive raw_event :=
| RawRx (p : packets) (ant : ant_dict) (ses : option session_rec) (tx_wlan : option Z)
| RawTx (p : packets) (ant_latency : list (Z * list Z))
| RawNewSession (ses : session_rec).

Definition _RX_ANT_KEYS : list string := ["ant"; "freq"; "mcs"; "bw"].
Definition _RX_ANT_VALUE_KEYS : list string :=
  ["pkt_recv"; "rssi_min"; "rssi_avg"; "rssi_max"; "snr_min"; "snr_avg"; "snr_max"; "evm_min"; "evm_avg"; "evm_max"].
Definition _TX_ANT_KEYS : list string := ["ant"].
Definition _TX_ANT_VALUE_KEYS : list string := ["pkt_sent"; "pkt_drop"; "lat_min"; "lat_avg"; "lat_max"].

Section Records.
Context {F : Type} {PF : PyFloat F}.

Definition ints (l : list Z) : list (json F) := map JInt l.

Definition flat_rx (e : ant_key * list Z) : json F :=
  let '((key, ant_id), values) := e in
  JDict (zip (_RX_ANT_KEYS ++ _RX_ANT_VALUE_KEYS) (ints (ant_id :: key ++ values))).

Definition _flatten_rx_ant_stats (ant : ant_dict) : list (json F) := map flat_rx ant.

Definition _flatten_tx_ant_stats (lat : list (Z * list Z)) : list (json F) :=
  map (fun e => JDict (zip (_TX_ANT_KEYS ++ _TX_ANT_VALUE_KEYS) (ints (e.1 :: e.2)))) lat.

(** The parser's dicts as JSON: a (window, cumulative) tuple is a list. *)
Definition packets_json (p : packets) : json F := JDict (map (fun kv => (kv.1, JList (ints [kv.2.1; kv.2.2]))) p).

Definition session_dict (s : session_rec) : list (string * json F) :=
  [("fec_type", JStr (sr_fec_type s)); ("fec_k", JInt (sr_fec_k s)); ("fec_n", JInt (sr_fec_n s));
   ("epoch", JInt (sr_epoch s)); ("contract_version", JInt (sr_contract_version s))].

(** The record of one raw event, at the clock reading [now]. *)
Definition raw_record (now : F) (child_id : string) (r : raw_event) : json F :=
  match r with
  | RawRx p ant ses tx_wlan =>
      JDict [("type", JStr "rx"); ("timestamp", JFloat now); ("id", JStr child_id);
             ("tx_wlan", match tx_wlan with Some w => JInt w | None => JNull end); ("packets", packets_json p);
             ("rx_ant_stats", JList (_flatten_rx_ant_stats ant));
             ("session", match ses with Some s => JDict (session_dict s) | None => JNull end)]
  | RawTx p lat =>
      JDict [("type", JStr "tx"); ("timestamp", JFloat now); ("id", JStr child_id); ("packets", packets_json p);
             ("tx_ant_stats", JList (_flatten_tx_ant_stats lat)); ("rf_temperature", JDict [])]
  | RawNewSession s =>
      JDict (fold_left (fun d kv => dict_set kv.1 kv.2 d) (session_dict s)
               [("type", JStr "new_session"); ("timestamp", JFloat now); ("id", JStr child_id)])
  end.

Definition _settings_record (settings : list (string * json F)) : json F :=
  JDict [("type", JStr "settings"); ("profile", JStr "gs"); ("is_cluster", JBool false); ("wlans", JList []);
         ("settings", JDict settings)].
End Records.

(** ** The server *)

Record StatsServer := mkServer { srv_listening : bool; srv_writers : list nat }.
#[export] Instance eta_Server : Settable StatsServer := fun r => mkServer (srv_listening r) (srv_writers r).

Inductive srv_out (F : Type) :=
| Wrote (c : nat) (rec : json F)
| WriterClosed (c : nat)
| Aborted (c : nat).
Arguments Wrote {F} c rec.
Arguments WriterClosed {F} c.
Arguments Aborted {F} c.

(** What a transport answers to one line. *)
Inductive writable := Accepts | Slow | Broken.
#[export] Instance writable_eq_dec : EqDecision writable.
Proof. solve_decision. Defined.

Section Server.
Context {F : Type} {PF : PyFloat F}.

Definition srv_started : StatsServer := mkServer true [].

Definition discard (c : nat) (s : StatsServer) : StatsServer := s <| srv_writers ::= filter (fun x => x <> c) |>.

Definition _send_line (s : StatsServer) (c : nat) (t : writable) (rec : json F) : StatsServer * list (srv_out F) :=
  match t with
  | Slow => (discard c s, [WriterClosed c])
  | Accepts => (s, [Wrote c rec])
  | Broken => (discard c s, [])
  end.

(** [_broadcast]: over a snapshot of the writers. *)
Fixpoint broadcast_to (answers : nat -> writable) (rec : json F) (cs : list nat) (s : StatsServer)
    : StatsServer * list (srv_out F) :=
  match cs with
  | [] => (s, [])
  | c :: cs => let '(s1, o1) := _send_line s c (answers c) rec in
               let '(s2, o2) := broadcast_to answers rec cs s1 in (s2, o1 ++ o2)
  end.

Definition _broadcast (answers : nat -> writable) (rec : json F) (s : StatsServer) : StatsServer * list (srv_out F) :=
  broadcast_to answers rec (srv_writers s) s.

Definition _on_raw (s : StatsServer) (now : F) (child_id : string) (r : raw_event) (answers : nat -> writable)
    : StatsServer * list (srv_out F) :=
  _broadcast answers (raw_record now child_id r) s.

(** [_handle_client] up to its first read, and from the end of its reads. *)
Definition client_joins (s : StatsServer) (c : nat) (t : writable) (settings : list (string * json F))
    : StatsServer * list (srv_out F) :=
  _send_line (s <| srv_writers ::= fun l => l ++ [c] |>) c t (_settings_record settings).

Definition client_leaves (s : StatsServer) (c : nat) : StatsServer * list (srv_out F) :=
  (discard c s, [WriterClosed c]).

Definition srv_stop (s : StatsServer) : StatsServer * list (srv_out F) :=
  (mkServer false [], map Aborted (srv_writers s)).

Inductive srv_ev :=
| Joins (c : nat) (t : writable) (settings : list (string * json F))
| Leaves (c : nat)
| Raw (now : F) (child_id : string) (r : raw_event) (answers : nat -> writable)
| StopServer.

(** The hub calls the listener only while it is registered. *)
Definition srv_step (s : StatsServer) (e : srv_ev) : StatsServer * list (srv_out F) :=
  match e with
  | Joins c t settings => client_joins s c t settings
  | Leaves c => client_leaves s c
  | Raw now child_id r answers => if srv_listening s then _on_raw s now child_id r answers else (s, [])
  | StopServer => srv_stop s
  end.

Definition srv_run (es : list srv_ev) : StatsServer * list (srv_out F) :=
  fold_left (fun st e => let '(s, o) := srv_step st.1 e in (s, st.2 ++ o)) es (srv_started, []).
End Server.
Arguments srv_ev : clear implicits.

(* ------------------------------------------------------------------ *)
(** ** The wire says what the in-process subscribers are told *)

Section WireContract.
Context {F : Type} {PF : PyFloat F} (repr : json F -> string).

(** One parser callback at the hub: the event published to the subscribers and
    the payload of the raw listeners. *)
Definition hub_do (h : StatsHub) (ts : F) (child_id : string) (e : line_event) : option (Event F * raw_event) :=
  match e with
  | OnWindow p ant ses => Some ((update_rx_stats h ts child_id p ant ses).2, RawRx p ant ses (current (hub_txsel h)))
  | OnTxWindow p lat => Some ((update_tx_stats h ts child_id p lat).2, RawTx p lat)
  | OnSession ses => Some ((process_new_session h ts child_id ses).2, RawNewSession ses)
  | OnHandshake => None
  end.

(** The event with the clock reading of the server. *)
Definition stamped (now : F) (e : Event F) : Event F :=
  match e with
  | EvSettings s => EvSettings (mkSettings (se_profile F s) (se_is_cluster F s) (se_wlans F s) (se_settings F s) now)
  | EvRx r => EvRx (mkRx now (rx_id r) (packets_window r) (rx_ant_stats r) (rx_session r) (rx_tx_wlan r))
  | EvTx t => EvTx (mkTx now (tx_id F t) (tx_packets_window F t))
  | EvSession s => EvSession (mkSes now (ses_id s) (ses_session s))
  end.

Definition line_session (e : line_event) : option session_rec :=
  match e with OnWindow _ _ ses => ses | OnSession s => Some s | _ => None end.

(** Every session the event carries is of a contract version the decoder
    speaks. *)
Definition spoken (e : line_event) : bool :=
  match line_session e with
  | Some s => bool_decide (sr_contract_version s ∈ CONTRACT_VERSIONS_SUPPORTED)
  | None => true
  end.

Lemma packets_json_parse p : _parse_packets (packets_json p : json F) = Ok (windows_of p).
Proof. unfold packets_json, windows_of. cbn. induction p as [|kv p IH]; [done|]. cbn. by rewrite IH. Qed.

Lemma flat_rx_parse ant :
  Forall ant_entry_ok ant -> map_res (_parse_rx_ant (F := F)) (_flatten_rx_ant_stats ant) = Ok (map to_rx_ant ant).
Proof.
  unfold _flatten_rx_ant_stats. induction 1 as [|e ant He _ IH]; [done|].
  assert (H1 : _parse_rx_ant (F := F) (flat_rx e) = Ok (to_rx_ant e)).
  { destruct e as [[key a] v]. destruct He as [Hk Hv]. cbn [fst snd] in *.
    destruct key as [|k0 [|k1 [|k2 [|]]]]; try done. do 10 (destruct v as [|? v]; [done|]). by destruct v. }
  cbn [map map_res]. rewrite H1. cbn [rbind]. by rewrite IH.
Qed.

Lemma session_parse s (d : list (string * json F)) :
  (forall k v, (k, v) ∈ session_dict s -> dict_get k d = Some v) -> dict_get "interleave_depth" d = None ->
  _parse_session repr (JDict d) = Ok (_to_session_info s).
Proof.
  intros H Hn. unfold _parse_session, obj_get, int_item, item. cbn [rbind].
  rewrite (H "fec_type" (JStr (sr_fec_type s))) by set_solver. rewrite (H "fec_k" (JInt (sr_fec_k s))) by set_solver.
  rewrite (H "fec_n" (JInt (sr_fec_n s))) by set_solver. rewrite (H "epoch" (JInt (sr_epoch s))) by set_solver.
  rewrite (H "contract_version" (JInt (sr_contract_version s))) by set_solver. by rewrite Hn.
Qed.

Lemma spoken_contract s :
  bool_decide (sr_contract_version s ∈ CONTRACT_VERSIONS_SUPPORTED) = true -> check_contract (_to_session_info s) = Ok tt.
Proof. intros H%bool_decide_eq_true. by apply check_contract_ok. Qed.

(** A concrete dict holds the keys of a session. *)
Ltac session_keys :=
  first [done
        |intros k v Hkv; repeat (apply elem_of_cons in Hkv as [[= -> ->]|Hkv]; [done|]); by apply not_elem_of_nil in Hkv].

Definition ants_ok (e : line_event) : Prop := match e with OnWindow _ ant _ => Forall ant_entry_ok ant | _ => True end.

Lemma record_parses h ts now child e ev raw :
  ants_ok e -> spoken e = true -> hub_do h ts child e = Some (ev, raw) ->
  parse_record repr (raw_record now child raw) = Ok (Some (stamped now ev)).
Proof.
  intros Ha Hs Hd. unfold spoken in Hs. destruct e as [p ant ses|ses|p lat|]; simplify_eq/=.
  - unfold parse_record. cbn -[_parse_packets packets_json _parse_session session_dict].
    destruct ses as [s|]; cbn -[_parse_packets packets_json _parse_session session_dict].
    + rewrite (session_parse s) by session_keys.
      cbn -[_parse_packets packets_json check_contract]. rewrite (spoken_contract s Hs). cbn -[_parse_packets packets_json].
      rewrite packets_json_parse. cbn. rewrite flat_rx_parse by done. cbn. by destruct (current (hub_txsel h)).
    + rewrite packets_json_parse. cbn. rewrite flat_rx_parse by done. cbn. by destruct (current (hub_txsel h)).
  - unfold parse_record. cbn -[_parse_session].
    rewrite (session_parse ses) by session_keys.
    cbn -[check_contract]. by rewrite (spoken_contract ses Hs).
  - unfold parse_record. cbn -[_parse_packets packets_json]. by rewrite packets_json_parse.
Qed.

(** For every event a receiver's or transmitter's output can cause, with
    sessions of a contract version the decoder speaks: the record the stats
    server writes parses to the event the hub hands its in-process
    subscribers, apart from the clock reading. *)
Theorem feed_matches_hub lines e h ts now child ev raw :
  e ∈ (rx_run lines).2 \/ (exists p lat, e = OnTxWindow p lat) ->
  spoken e = true -> hub_do h ts child e = Some (ev, raw) ->
  parse_record repr (raw_record now child raw) = Ok (Some (stamped now ev)).
Proof.
  intros He. apply record_parses. destruct He as [He|(p & lat & ->)]; [|done].
  destruct (rx_run_inv lines) as (Ht & _). destruct (trace_ok_elem _ _ Ht He) as (b & Hb).
  destruct e; try done. by destruct Hb as (_ & _ & _ & ?).
Qed.

(** A session of another contract version is refused on the wire, and handed
    to the in-process subscribers all the same. *)
Lemma unspoken_session_published h ts now child ses :
  sr_contract_version ses ∉ CONTRACT_VERSIONS_SUPPORTED ->
  parse_record repr (raw_record now child (RawNewSession ses)) = Err (ContractVersionError (sr_contract_version ses)) /\
  hub_do h ts child (OnSession ses) = Some (EvSession (mkSes ts child (_to_session_info ses)), RawNewSession ses).
Proof.
  intros H. split; [|done]. unfold parse_record. cbn -[_parse_session].
  rewrite (session_parse ses) by session_keys. cbn -[check_contract].
  unfold check_contract. cbn [contract_version _to_session_info]. by rewrite bool_decide_false.
Qed.
End WireContract.

(* ------------------------------------------------------------------ *)
(** ** A client misses nothing until it is dropped *)

Section Clients.
Context {F : Type} {PF : PyFloat F}.
Implicit Types (es : list (srv_ev F)) (o : list (srv_out F)).

Definition sent_to (c : nat) o : list (json F) :=
  omap (fun x => match x with Wrote c' r => if decide (c' = c) then Some r else None | _ => None end) o.

(** The records of the hub's updates, and the connections made. *)
Definition raw_records es : list (json F) :=
  omap (fun e => match e with Raw now id r _ => Some (raw_record now id r) | _ => None end) es.
Definition joins es : list nat := omap (fun e => match e with Joins c _ _ => Some c | _ => None end) es.

(** The settings of [c]'s connection, and the events after it. *)
Fixpoint joined (c : nat) es : option (list (string * json F) * list (srv_ev F)) :=
  match es with
  | [] => None
  | Joins c' _ st :: es' => if decide (c' = c) then Some (st, es') else joined c es'
  | _ :: es' => joined c es'
  end.

Lemma joined_snoc c es e :
  joined c (es ++ [e]) =
    match joined c es with
    | Some (st, es') => Some (st, es' ++ [e])
    | None => match e with Joins c' _ st => if decide (c' = c) then Some (st, []) else None | _ => None end
    end.
Proof. induction es as [|[] es IH]; cbn; try done. case_decide; [done|exact IH]. Qed.

Lemma joined_none c es : joined c es = None <-> c ∉ joins es.
Proof.
  induction es as [|[c'| | |] es IH]; cbn; try exact IH; [split; [intros _; apply not_elem_of_nil|done]|].
  rewrite not_elem_of_cons. case_decide; [split; [done|naive_solver]|]. rewrite IH. naive_solver.
Qed.

Lemma sent_to_app c o1 o2 : sent_to c (o1 ++ o2) = sent_to c o1 ++ sent_to c o2.
Proof. apply omap_app. Qed.

Lemma discard_writers c x s : x ∈ srv_writers (discard c s) <-> x <> c /\ x ∈ srv_writers s.
Proof.
  change (srv_writers (discard c s)) with (filter (fun x => x <> c) (srv_writers s)). by rewrite list_elem_of_filter.
Qed.

Lemma send_line_spec s c t rec x :
  let '(s', o) := _send_line (F := F) s c t rec in
  srv_listening s' = srv_listening s /\ (NoDup (srv_writers s) -> NoDup (srv_writers s')) /\
  (x ∈ srv_writers s' <-> x ∈ srv_writers s /\ (x = c -> t = Accepts)) /\
  sent_to x o = if decide (x = c /\ t = Accepts) then [rec] else [].
Proof.
  destruct t; cbn -[discard]; rewrite ?discard_writers.
  - repeat split; try naive_solver. unfold sent_to. cbn. repeat case_decide; naive_solver.
  - repeat split; try naive_solver; [by apply NoDup_filter|]. case_decide; naive_solver.
  - repeat split; try naive_solver; [by apply NoDup_filter|]. case_decide; naive_solver.
Qed.

Lemma broadcast_spec answers rec cs s x :
  NoDup cs ->
  let '(s', o) := broadcast_to (F := F) answers rec cs s in
  srv_listening s' = srv_listening s /\ (NoDup (srv_writers s) -> NoDup (srv_writers s')) /\
  (x ∈ srv_writers s' <-> x ∈ srv_writers s /\ (x ∈ cs -> answers x = Accepts)) /\
  sent_to x o = if decide (x ∈ cs /\ answers x = Accepts) then [rec] else [].
Proof.
  intros Hnd. revert s. induction Hnd as [|c cs Hc Hnd IH]; intros s; cbn.
  { repeat split; set_solver. }
  assert (H1 := send_line_spec s c (answers c) rec x). destruct (_send_line s c (answers c) rec) as [s1 o1].
  assert (H2 := IH s1). destruct (broadcast_to answers rec cs s1) as [s2 o2].
  destruct H1 as (E1 & N1 & W1 & S1), H2 as (E2 & N2 & W2 & S2).
  split; [congruence|]. split; [auto|]. split.
  - rewrite W2, W1, elem_of_cons. naive_solver.
  - rewrite sent_to_app, S1, S2. repeat case_decide; try done; set_solver.
Qed.

Definition fed (c : nat) (es : list (srv_ev F)) (s : StatsServer) (got : list (json F)) : Prop :=
  match joined c es with
  | None => got = [] /\ c ∉ srv_writers s
  | Some (st, es') =>
      (got = [] /\ c ∉ srv_writers s) \/
      exists missed, got ++ missed = _settings_record st :: raw_records es' /\ got <> [] /\
                     (c ∈ srv_writers s -> srv_listening s = true -> missed = [])
  end.

(** Every event but [c]'s own connection: [c] stays out of the writers, or it
    is told exactly the record of the event, if any, or it leaves them. *)
Lemma step_client c s e s' o :
  NoDup (srv_writers s) -> c ∉ joins [e] -> srv_step s e = (s', o) ->
  (c ∈ srv_writers s' -> c ∈ srv_writers s) /\ (srv_listening s' = true -> srv_listening s = true) /\
  ((sent_to c o = [] /\ (c ∈ srv_writers s' -> srv_listening s' = true -> raw_records [e] = [])) \/
   (c ∈ srv_writers s /\ srv_listening s = true /\ sent_to c o = raw_records [e])).
Proof.
  intros Hnd Hc Hs. destruct e as [c' t st|c'|now id r answers|]; cbn in Hs, Hc.
  - assert (Hne : c <> c') by set_solver. unfold client_joins in Hs.
    assert (H := send_line_spec (s <| srv_writers ::= fun l => l ++ [c'] |>) c' t (_settings_record st) c).
    rewrite Hs in H. destruct H as (Hl & _ & Hw & Ho). rewrite decide_False in Ho by naive_solver.
    rewrite Hl, Hw, Ho. cbn [srv_writers srv_listening upd]. split; [|split; [done|by left]].
    intros [[?|?%list_elem_of_singleton]%elem_of_app _]; done.
  - injection Hs as <- <-. rewrite discard_writers. naive_solver.
  - destruct (srv_listening s) eqn:Hl; [|simplify_eq; rewrite Hl; naive_solver].
    assert (H := broadcast_spec answers (raw_record now id r) (srv_writers s) s c Hnd).
    unfold _on_raw, _broadcast in Hs. rewrite Hs in H. destruct H as (Hl' & _ & Hw & Ho).
    rewrite Hw, Ho. split; [naive_solver|]. split; [done|]. cbn. case_decide as Hd; [right; by destruct Hd|left]. naive_solver.
  - injection Hs as <- <-. cbn. split; [by intros ?%not_elem_of_nil|]. split; [done|]. left.
    split; [|done]. clear. unfold sent_to. by induction (srv_writers s).
Qed.

Lemma raw_records_app es1 es2 : raw_records (es1 ++ es2) = raw_records es1 ++ raw_records es2.
Proof. apply omap_app. Qed.

Lemma fed_step c es e s o s' o' :
  NoDup (joins (es ++ [e])) -> NoDup (srv_writers s) ->
  fed c es s (sent_to c o) -> srv_step s e = (s', o') ->
  fed c (es ++ [e]) s' (sent_to c (o ++ o')).
Proof.
  intros Hj Hnd Hf Hs. unfold fed in *. rewrite joined_snoc, sent_to_app.
  unfold joins in Hj. rewrite omap_app in Hj. apply NoDup_app in Hj as (_ & Hj & _).
  destruct (joined c es) as [[st es']|] eqn:Ej.
  - assert (Hin : c ∈ joins es) by (destruct (decide (c ∈ joins es)) as [|Hn]; [done|]; apply joined_none in Hn; congruence).
    destruct (step_client c s e s' o' Hnd (Hj c Hin) Hs) as (Hw & Hl & H). rewrite raw_records_app.
    destruct Hf as [[-> Hn]|(missed & Hg & Hne & Hm)].
    { left. destruct H as [[-> _]|(? & _)]; [|done]. split; [done|auto]. }
    right. destruct H as [[-> H]|(Hc & Hli & ->)].
    + exists (missed ++ raw_records [e]). rewrite app_nil_r, app_assoc, Hg. split; [done|]. split; [done|].
      intros H1 H2. by rewrite (Hm (Hw H1) (Hl H2)), (H H1 H2).
    + exists []. rewrite (Hm Hc Hli), app_nil_r in Hg. rewrite Hg, app_nil_r. split; [done|]. split; [|done]. done.
  - destruct Hf as [-> Hn]. destruct (decide (c ∈ joins [e])) as [Hc|Hc].
    + destruct e as [c' t st| | |]; try by apply not_elem_of_nil in Hc. apply list_elem_of_singleton in Hc as <-.
      rewrite decide_True by done. cbn in Hs.
      assert (H := send_line_spec (s <| srv_writers ::= fun l => l ++ [c] |>) c t (_settings_record st) c).
      unfold client_joins in Hs. rewrite Hs in H. destruct H as (_ & _ & Hw & ->). case_decide as Hd.
      * right. exists []. done.
      * left. split; [done|]. rewrite Hw. naive_solver.
    + destruct (step_client c s e s' o' Hnd Hc Hs) as (Hw & _ & H).
      assert (Hno : c ∉ srv_writers s') by auto.
      assert (He : sent_to c o' = []) by (destruct H as [[? _]|[? _]]; [done|contradiction]). rewrite He.
      destruct e as [c' t st| | |]; try done. rewrite decide_False; [done|]. intros ->. apply Hc. by left.
Qed.

Lemma step_writers s e s' o :
  NoDup (srv_writers s) -> (forall c, c ∈ joins [e] -> c ∉ srv_writers s) -> srv_step s e = (s', o) -> NoDup (srv_writers s').
Proof.
  intros Hnd Hj Hs. destruct e as [c t st|c|now id r answers|]; cbn in Hs.
  - assert (H := send_line_spec (s <| srv_writers ::= fun l => l ++ [c] |>) c t (_settings_record st) c).
    unfold client_joins in Hs. rewrite Hs in H. apply H. cbn. apply NoDup_app. split; [done|].
    split; [|apply NoDup_singleton]. intros x Hx ->%list_elem_of_singleton. by apply (Hj c); [left|].
  - injection Hs as <- <-. by apply NoDup_filter.
  - destruct (srv_listening s); [|by simplify_eq].
    assert (H := broadcast_spec answers (raw_record now id r) (srv_writers s) s 0%nat Hnd).
    unfold _on_raw, _broadcast in Hs. rewrite Hs in H. by apply H.
  - injection Hs as <- <-. constructor.
Qed.

(** C24: Over any sequence of connections, disconnections, slow and broken
    clients and records: what a client received is its settings and then,
    without a gap, the records since it connected, all of them while it is
    still connected. *)
Theorem clients_miss_nothing c es :
  NoDup (joins es) -> let '(s, o) := srv_run es in fed c es s (sent_to c o).
Proof.
  intros Hj. assert (H : NoDup (srv_writers (srv_run es).1) /\ forall c, fed c es (srv_run es).1 (sent_to c (srv_run es).2)).
  2: { destruct H as [_ H]. specialize (H c). by destruct (srv_run es). }
  clear c. induction es as [|e es IH] using rev_ind.
  { split; [constructor|]. intros c. split; [done|apply not_elem_of_nil]. }
  assert (Hj' := Hj). unfold joins in Hj'. rewrite omap_app in Hj'. apply NoDup_app in Hj' as (Hj' & Hd & _).
  destruct (IH Hj') as [Hnd Hf]. unfold srv_run in *. rewrite fold_left_app. cbn.
  destruct (fold_left _ es _) as [s o]. cbn [fst snd] in *. destruct (srv_step s e) as [s' o'] eqn:Hs. cbn [fst snd].
  split; [|intros c; by apply (fed_step c es e s o s' o')].
  apply (step_writers s e s' o'); [done| |done]. intros c Hc Hw. specialize (Hf c). unfold fed in Hf.
  destruct (joined c es) as [[st es']|] eqn:E; [|tauto]. apply (Hd c); [|done].
  destruct (decide (c ∈ joins es)) as [|Hn]; [done|]. apply joined_none in Hn. congruence.
Qed.
End Clients.
