(* ===== verification/HubCallbacks.v ===== *)
(** * wfb/aggregator.py: the callbacks of the stats hub

    The three lists of callbacks next to the hub's state: raw listeners, the
    RSSI callbacks of the MAVLink proxy, and those told the selected transmit
    antenna.  A callback is a number; a call that raises is logged and the next
    one is made. *)
From Stdlib Require Import ZArith Lia Bool String.
From stdpp Require Import base tactics list strings.
From S2P Require Import Prelude Json StatsClient LineProto TxSel StatsHub Statsd.
Open Scope Z_scope.

Record hub_cbs := mkHubCbs { hc_hub : StatsHub; raw_listeners : list nat; _rssi_cbs : list nat; _ant_sel_cbs : list nat }.
#[export] Instance eta_hub_cbs : Settable hub_cbs := fun h =>
  mkHubCbs (hc_hub h) (raw_listeners h) (_rssi_cbs h) (_ant_sel_cbs h).

Inductive cb_arg := ArgRaw (child_id : string) (r : raw_event) | ArgRssi (rssi : Z * Z * Z * Z * Z) | ArgSel (wlan : option Z).

(** A call: to whom, with what. *)
Definition call : Type := nat * cb_arg.

Definition call_all (cbs : list nat) (x : cb_arg) : list call := map (fun cb => (cb, x)) cbs.

(** [l.remove(x)], absent or not. *)
Fixpoint remove_one (x : nat) (l : list nat) : list nat :=
  match l with [] => [] | y :: l' => if Nat.eqb x y then l' else y :: remove_one x l' end.

Section Hub.
Context {F : Type} {PF : PyFloat F} (cfg : TxSelectorConfig F).
Implicit Types (h : hub_cbs).

Definition add_raw_listener (cb : nat) h : hub_cbs := h <| raw_listeners ::= (fun l => l ++ [cb]) |>.
Definition remove_raw_listener (cb : nat) h : hub_cbs := h <| raw_listeners ::= remove_one cb |>.
Definition add_rssi_cb (cb : nat) h : hub_cbs := h <| _rssi_cbs ::= (fun l => l ++ [cb]) |>.

(** Called once at registration, with the antenna in use. *)
Definition add_ant_sel_cb (cb : nat) h : hub_cbs * list call :=
  (h <| _ant_sel_cbs ::= (fun l => l ++ [cb]) |>, [(cb, ArgSel (current (hub_txsel (hc_hub h))))]).

(** A parser's callback, and the raw listeners after it. *)
Definition hub_update (ts : F) (child_id : string) (e : line_event) h : hub_cbs * list call :=
  let s := hc_hub h in
  match e with
  | OnWindow p ant ses => (h <| hc_hub := (update_rx_stats s ts child_id p ant ses).1 |>,
                           call_all (raw_listeners h) (ArgRaw child_id (RawRx p ant ses (current (hub_txsel s)))))
  | OnTxWindow p lat => (h <| hc_hub := (update_tx_stats s ts child_id p lat).1 |>, call_all (raw_listeners h) (ArgRaw child_id (RawTx p lat)))
  | OnSession ses => (h <| hc_hub := (process_new_session s ts child_id ses).1 |>, call_all (raw_listeners h) (ArgRaw child_id (RawNewSession ses)))
  | OnHandshake => (h, [])
  end.

(** [aggregate_window] with its calls: an exception of the merge comes before
    the selection, one of the counters after it. *)
Definition window_pass h : hub_cbs * list call * option pyerr :=
  let s := hc_hub h in
  match _stats_agg_by_freq_and_rxid (map (fun c => c.2.1) (hub_cur s)) with
  | Err e => (h <| hc_hub := s <| hub_cur := [] |> |>, [], Some e)
  | Ok stats =>
      let '(sel, tx_sel) := match stats with [] => (hub_txsel s, None) | _ => select cfg (hub_txsel s) stats end in
      let told := match tx_sel with Some w => call_all (_ant_sel_cbs h) (ArgSel (Some w)) | None => [] end in
      match aggregate_window cfg s with
      | Ok (s', win) => (h <| hc_hub := s' |>, told ++ call_all (_rssi_cbs h) (ArgRssi (w_rssi win)), None)
      | Err e => (h <| hc_hub := s <| hub_cur := [] |> <| hub_txsel := sel |> |>, told, Some e)
      end
  end.

Inductive hub_op :=
| AddRaw (cb : nat) | RemoveRaw (cb : nat) | AddRssi (cb : nat) | AddSel (cb : nat)
| Update (ts : F) (child_id : string) (e : line_event) | WindowPass.

Definition hub_step h (o : hub_op) : hub_cbs * list call :=
  match o with
  | AddRaw cb => (add_raw_listener cb h, [])
  | RemoveRaw cb => (remove_raw_listener cb h, [])
  | AddRssi cb => (add_rssi_cb cb h, [])
  | AddSel cb => add_ant_sel_cb cb h
  | Update ts child_id e => hub_update ts child_id e h
  | WindowPass => (window_pass h).1
  end.

Fixpoint hub_calls h (os : list hub_op) : hub_cbs * list call :=
  match os with
  | [] => (h, [])
  | o :: os => let '(h1, c1) := hub_step h o in let '(h2, c2) := hub_calls h1 os in (h2, c1 ++ c2)
  end.
End Hub.
Arguments hub_op F : clear implicits.

(* ------------------------------------------------------------------ *)
(** ** Who is told what *)

(** What was told to one callback. *)
Definition told (cb : nat) (l : list call) : list cb_arg := omap (fun c => if Nat.eqb c.1 cb then Some c.2 else None) l.
Definition sel_of (x : cb_arg) : option (option Z) := match x with ArgSel w => Some w | _ => None end.
Definition sels (cb : nat) (l : list call) : list (option Z) := omap sel_of (told cb l).
Definition raw_of (x : cb_arg) : option (string * raw_event) := match x with ArgRaw c r => Some (c, r) | _ => None end.
Definition raws (cb : nat) (l : list call) : list (string * raw_event) := omap raw_of (told cb l).

Lemma told_app cb l1 l2 : told cb (l1 ++ l2) = told cb l1 ++ told cb l2.
Proof. apply omap_app. Qed.
Lemma sels_app cb l1 l2 : sels cb (l1 ++ l2) = sels cb l1 ++ sels cb l2.
Proof. unfold sels. by rewrite told_app, omap_app. Qed.
Lemma raws_app cb l1 l2 : raws cb (l1 ++ l2) = raws cb l1 ++ raws cb l2.
Proof. unfold raws. by rewrite told_app, omap_app. Qed.

Lemma sels_all cb cbs x : sels cb (call_all cbs x) = omap (fun c => if Nat.eqb c cb then sel_of x else None) cbs.
Proof. unfold sels, told, call_all. induction cbs as [|c cbs IH]; [done|]. cbn. destruct (Nat.eqb c cb); cbn; by rewrite IH. Qed.
Lemma raws_all cb cbs x : raws cb (call_all cbs x) = omap (fun c => if Nat.eqb c cb then raw_of x else None) cbs.
Proof. unfold raws, told, call_all. induction cbs as [|c cbs IH]; [done|]. cbn. destruct (Nat.eqb c cb); cbn; by rewrite IH. Qed.

Lemma last_told {A} (y : A) cb cbs :
  last (omap (fun c => if Nat.eqb c cb then Some y else None) cbs) = if decide (cb ∈ cbs) then Some y else None.
Proof.
  induction cbs as [|c cbs IH]; [done|]. cbn. destruct (Nat.eqb_spec c cb) as [->|Hne].
  - rewrite last_cons, IH, (decide_True _ _ (list_elem_of_here cb cbs)). by case_decide.
  - rewrite IH. apply decide_ext. rewrite elem_of_cons. naive_solver.
Qed.

Lemma not_told {A} (y : option A) cb cbs : cb ∉ cbs -> omap (fun c => if Nat.eqb c cb then y else None) cbs = [].
Proof.
  induction cbs as [|c cbs IH]; [done|]. intros [Hn1 Hn2]%not_elem_of_cons. cbn. destruct (Nat.eqb_spec c cb) as [->|]; [done|]. by apply IH.
Qed.
Lemma never_told {A} cb cbs : omap (fun c => if Nat.eqb c cb then None : option A else None) cbs = [].
Proof. induction cbs as [|c cbs IH]; [done|]. cbn. by destruct (Nat.eqb c cb). Qed.

Section Followers.
Context {F : Type} {PF : PyFloat F} (cfg : TxSelectorConfig F).
Implicit Types (h : hub_cbs) (os : list (hub_op F)).

Lemma select_tells t stats : match (select cfg t stats).2 with Some w => current (select cfg t stats).1 = Some w | None => current (select cfg t stats).1 = current t end.
Proof. unfold select. destruct (near_max_of _ _); [done|]. repeat (case_match; simplify_eq/=); done. Qed.

(** The antenna a window pass leaves in use, and what it tells of it. *)
Lemma window_sel h : exists w l1 l2, (window_pass cfg h).1.2 = l1 ++ l2 /\ (forall cb, sels cb l2 = []) /\ _ant_sel_cbs (window_pass cfg h).1.1 = _ant_sel_cbs h /\
  current (hub_txsel (hc_hub (window_pass cfg h).1.1)) = w /\
  (l1 = call_all (_ant_sel_cbs h) (ArgSel w) \/ l1 = [] /\ w = current (hub_txsel (hc_hub h))).
Proof.
  unfold window_pass, aggregate_window. destruct (_stats_agg_by_freq_and_rxid _) as [stats|e]; cbn [rbind].
  2: { exists (current (hub_txsel (hc_hub h))), [], []. by split_and!; [..|right]. }
  assert (Ht : forall t, match stats with [] => (t, None) | _ => select cfg t stats end = (t, None) \/
                         match stats with [] => (t, None) | _ => select cfg t stats end = select cfg t stats) by (intros t; destruct stats; auto).
  change (hub_txsel (hc_hub h <| hub_cur := [] |>)) with (hub_txsel (hc_hub h)).
  assert (Hsel : exists sel tx, match stats with [] => (hub_txsel (hc_hub h), None) | _ => select cfg (hub_txsel (hc_hub h)) stats end = (sel, tx) /\
                 match tx with Some w => current sel = Some w | None => current sel = current (hub_txsel (hc_hub h)) end).
  { destruct (Ht (hub_txsel (hc_hub h))) as [->| ->]; [by eexists _, _|]. assert (T := select_tells (hub_txsel (hc_hub h)) stats).
    destruct (select cfg _ _) as [sel tx]. by exists sel, tx. }
  destruct Hsel as (sel & tx & -> & Hw). clear Ht.
  set (rest := rbind _ _). exists (current sel), (match tx with Some w => call_all (_ant_sel_cbs h) (ArgSel (Some w)) | None => [] end).
  assert (Hl : match tx with Some w => call_all (_ant_sel_cbs h) (ArgSel (Some w)) | None => [] end = call_all (_ant_sel_cbs h) (ArgSel (current sel)) \/
               match tx with Some w => call_all (_ant_sel_cbs h) (ArgSel (Some w)) | None => [] end = [] /\ current sel = current (hub_txsel (hc_hub h))).
  { destruct tx as [w|]; [left; by rewrite Hw|by right]. }
  destruct rest as [[s' win]|e] eqn:Er; cbn.
  - exists (call_all (_rssi_cbs h) (ArgRssi (w_rssi win))). split; [done|]. split; [|split; [done|split; [|done]]].
    + intros cb. rewrite sels_all. apply never_told.
    + subst rest. apply rbind_ok in Er as (bad & _ & Er). do 2 case_match. apply rbind_ok in Er as (errs & _ & (fec & _ & [= <- _])%rbind_ok). done.
  - exists []. by split_and!; [rewrite app_nil_r|..].
Qed.

(** The antenna in use, and the callbacks, after a step. *)
Lemma step_sels h o cb : last (sels cb (hub_step cfg h o).2) = Some (current (hub_txsel (hc_hub (hub_step cfg h o).1))) \/
  (sels cb (hub_step cfg h o).2 = [] /\
   (cb ∈ _ant_sel_cbs (hub_step cfg h o).1 -> cb ∈ _ant_sel_cbs h /\ current (hub_txsel (hc_hub (hub_step cfg h o).1)) = current (hub_txsel (hc_hub h)))).
Proof.
  destruct o as [c|c|c|c|ts child e|]; cbn [hub_step]; try (by right).
  - unfold add_ant_sel_cb, sels, told. cbn. destruct (Nat.eqb_spec c cb) as [->|Hne]; [by left|right]. split; [done|].
    rewrite elem_of_app, list_elem_of_singleton. naive_solver.
  - right. unfold hub_update. destruct e; cbn [fst snd]; rewrite ?sels_all; split; try done; apply never_told.
  - destruct (window_sel h) as (w & l1 & l2 & Ec & H2 & Hcbs & Hcur & Hl). rewrite Ec, sels_app, H2, app_nil_r, Hcbs, Hcur.
    destruct Hl as [->|[-> ->]]; [|by right]. rewrite sels_all. cbn [sel_of]. rewrite last_told.
    destruct (decide (cb ∈ _ant_sel_cbs h)) as [Hin|Hn]; [by left|right]. split; [|done].
    by apply not_told.
Qed.

(** The last value a callback for the transmit antenna was told is the antenna
    in use, after any sequence of registrations, updates and window passes,
    failed passes and callbacks that raise included. *)
Theorem antenna_followers_in_sync h os cb :
  _ant_sel_cbs h = [] ->
  let '(h', calls) := hub_calls cfg h os in
  cb ∈ _ant_sel_cbs h' -> last (sels cb calls) = Some (current (hub_txsel (hc_hub h'))).
Proof.
  intros H0. cut (forall before, (cb ∈ _ant_sel_cbs h -> last (sels cb before) = Some (current (hub_txsel (hc_hub h)))) ->
    let '(h', calls) := hub_calls cfg h os in cb ∈ _ant_sel_cbs h' -> last (sels cb (before ++ calls)) = Some (current (hub_txsel (hc_hub h')))).
  { intros H. specialize (H []). rewrite H0 in H. apply H. by intros ?%elem_of_nil. }
  clear H0. revert h. induction os as [|o os IH]; intros h before Hb; cbn; [by rewrite app_nil_r|].
  assert (S := step_sels h o cb). destruct (hub_step cfg h o) as [h1 c1]. specialize (IH h1 (before ++ c1)). destruct (hub_calls cfg h1 os) as [h2 c2].
  rewrite app_assoc. apply IH. intros Hin. rewrite sels_app. cbn [fst snd] in S. destruct S as [S|[S1 S2]].
  - by rewrite last_app, S.
  - rewrite S1, app_nil_r. destruct (S2 Hin) as [Hin' ->]. by apply Hb.
Qed.

(** ** A raw listener hears every update while it is registered *)

(** The payloads of the updates, each against the hub it found. *)
Fixpoint raw_log h os : list (string * raw_event) :=
  match os with
  | [] => []
  | o :: os =>
      (match o with
       | Update ts child e => match hub_do (hc_hub h) ts child e with Some (_, r) => [(child, r)] | None => [] end
       | _ => []
       end) ++ raw_log (hub_step cfg h o).1 os
  end.

Definition leaves_listener (cb : nat) (o : hub_op F) : Prop := o <> AddRaw cb /\ o <> RemoveRaw cb.

Definition count (cb : nat) (l : list nat) : nat := length (filter (fun c => c = cb) l).

Lemma count_cons cb c l : count cb (c :: l) = ((if Nat.eqb c cb then 1 else 0) + count cb l)%nat.
Proof. unfold count. rewrite filter_cons. destruct (Nat.eqb_spec c cb); case_decide; done. Qed.
Lemma count_app cb l1 l2 : count cb (l1 ++ l2) = (count cb l1 + count cb l2)%nat.
Proof. unfold count. by rewrite filter_app, length_app. Qed.
Lemma count_absent cb l : cb ∉ l -> count cb l = 0%nat.
Proof. induction l as [|c l IH]; [done|]. intros [H1 H2]%not_elem_of_cons. rewrite count_cons, IH by done. by destruct (Nat.eqb_spec c cb). Qed.
Lemma count_remove cb l : count cb (remove_one cb l) = (count cb l - 1)%nat.
Proof.
  induction l as [|c l IH]; [done|]. cbn [remove_one]. destruct (Nat.eqb_spec cb c) as [<-|Hne]; rewrite !count_cons; [rewrite Nat.eqb_refl; lia|].
  rewrite IH. destruct (Nat.eqb_spec c cb); [congruence|lia].
Qed.
Lemma count_remove_ne cb c l : c <> cb -> count cb (remove_one c l) = count cb l.
Proof.
  intros Hne. induction l as [|x l IH]; [done|]. cbn [remove_one]. destruct (Nat.eqb_spec c x) as [<-|]; rewrite !count_cons; [|by rewrite IH].
  by destruct (Nat.eqb_spec c cb).
Qed.

Lemma raws_count cb cbs child r : raws cb (call_all cbs (ArgRaw child r)) = repeat (child, r) (count cb cbs).
Proof.
  rewrite raws_all. cbn [raw_of]. induction cbs as [|c cbs IH]; [done|]. rewrite count_cons. cbn [omap list_omap]. destruct (Nat.eqb c cb); cbn [Nat.add repeat]; by rewrite <- IH.
Qed.

Lemma window_raws h cb : raws cb (window_pass cfg h).1.2 = [] /\ raw_listeners (window_pass cfg h).1.1 = raw_listeners h.
Proof.
  unfold window_pass. destruct (_stats_agg_by_freq_and_rxid _); [|done]. destruct (match _ with [] => _ | _ => _ end) as [sel tx].
  assert (E : raws cb (match tx with Some w => call_all (_ant_sel_cbs h) (ArgSel (Some w)) | None => [] end) = []).
  { destruct tx; [|done]. rewrite raws_all. apply never_told. }
  destruct (aggregate_window cfg _) as [[s' win]|e]; cbn [fst snd]; split; try done.
  rewrite raws_app, E, raws_all. apply never_told.
Qed.

Lemma step_raws h o cb : leaves_listener cb o ->
  count cb (raw_listeners (hub_step cfg h o).1) = count cb (raw_listeners h) /\
  raws cb (hub_step cfg h o).2 = flat_map (fun x => repeat x (count cb (raw_listeners h)))
    (match o with Update ts child e => match hub_do (hc_hub h) ts child e with Some (_, r) => [(child, r)] | None => [] end | _ => [] end).
Proof.
  intros [H1 H2]. destruct o as [c|c|c|c|ts child e|]; cbn [hub_step]; try done.
  - split; [|done]. cbn [fst]. change (raw_listeners (add_raw_listener c h)) with (raw_listeners h ++ [c]). rewrite count_app, count_cons. destruct (Nat.eqb_spec c cb) as [->|]; [done|]. unfold count. cbn. lia.
  - split; [|done]. apply count_remove_ne. congruence.
  - cbn. split; [done|]. unfold raws, told. cbn. by destruct (Nat.eqb c cb).
  - destruct e; cbn [hub_update hub_do fst snd flat_map]; rewrite ?app_nil_r, ?raws_count; done.
  - destruct (window_raws h cb) as [-> ->]. done.
Qed.

Lemma calls_raws h os cb : Forall (leaves_listener cb) os ->
  count cb (raw_listeners (hub_calls cfg h os).1) = count cb (raw_listeners h) /\
  raws cb (hub_calls cfg h os).2 = flat_map (fun x => repeat x (count cb (raw_listeners h))) (raw_log h os).
Proof.
  intros H. revert h. induction H as [|o os Ho Hos IH]; intros h; [done|]. cbn. destruct (step_raws h o cb Ho) as [S1 S2].
  destruct (hub_step cfg h o) as [h1 c1]. specialize (IH h1). destruct (hub_calls cfg h1 os) as [h2 c2]. cbn [fst snd] in *.
  destruct IH as [I1 I2]. rewrite raws_app, flat_map_app, S2, I2, I1, S1. done.
Qed.

(** Registered once, a raw listener is called with every update until it is
    removed, once each and in order, and not after. *)
Theorem raw_listener_hears h cb os os' :
  cb ∉ raw_listeners h -> Forall (leaves_listener cb) os -> Forall (leaves_listener cb) os' ->
  let h1 := add_raw_listener cb h in
  let '(h2, calls) := hub_calls cfg h1 os in
  raws cb calls = raw_log h1 os /\ raws cb (hub_calls cfg (remove_raw_listener cb h2) os').2 = [].
Proof.
  intros Hn Ho Ho' h1. assert (Hc : count cb (raw_listeners h1) = 1%nat).
  { unfold h1. change (raw_listeners (add_raw_listener cb h)) with (raw_listeners h ++ [cb]). rewrite count_app, count_cons, Nat.eqb_refl. by rewrite count_absent. }
  destruct (calls_raws h1 os cb Ho) as [E1 E2]. destruct (hub_calls cfg h1 os) as [h2 calls]. cbn [fst snd] in *. rewrite Hc in *. split.
  - rewrite E2. clear. induction (raw_log h1 os) as [|x l IH]; [done|]. cbn in *. congruence.
  - destruct (calls_raws (remove_raw_listener cb h2) os' cb Ho') as [_ ->].
    change (raw_listeners (remove_raw_listener cb h2)) with (remove_one cb (raw_listeners h2)). rewrite count_remove, E1. cbn.
    by induction (raw_log _ os').
Qed.
End Followers.
