(* ===== verification/Pump.v ===== *)
(** * wfb/children.py and wfb/cluster.py: the readers of a child's output

    [_pump_stdout] feeds each line to the parser, [_drain_stdout] throws it
    away, and the pump of a node session logs it.  A read is a line, the end of
    the stream, or an exception of the stream (a line over the reader's limit);
    a callback of the parser may raise what the parser does not catch. *)
From Stdlib Require Import ZArith Bool String.
From stdpp Require Import base tactics list strings.
From S2P Require Import Prelude PyStr Json StatsClient LineProto TxSel StatsHub Statsd HubCallbacks.
Open Scope Z_scope.

Inductive stdout_read := RdLine (line : string) | RdEof | RdFails.

(** Still reading, returned at the end of the stream, or ended by an exception
    that was logged. *)
Inductive pump_end := Reading | Returned | Crashed.

Section Pump.
Context {P : Type} (feed : P -> string -> P * option line_event) (raises : line_event -> bool).

Fixpoint _pump_stdout (p : P) (reads : list stdout_read) : P * list line_event * pump_end :=
  match reads with
  | [] => (p, [], Reading)
  | RdEof :: _ => (p, [], Returned)
  | RdFails :: _ => (p, [], Crashed)
  | RdLine line :: reads =>
      let '(p1, ev) := feed p line in
      if from_option raises false ev then (p1, opt_list ev, Crashed)
      else let '(p2, evs, how) := _pump_stdout p1 reads in (p2, opt_list ev ++ evs, how)
  end.
End Pump.

(** Without a parser; and with the log as the only consumer. *)
Definition _drain_stdout (reads : list stdout_read) : pump_end :=
  (_pump_stdout (fun (_ : unit) _ => (tt, None)) (fun _ => false) tt reads).2.
Definition rstrip (s : string) : string := rstrip_if is_space s.
Definition node_pump (reads : list stdout_read) : list string * pump_end :=
  let '(log, _, how) := _pump_stdout (fun log line => (log ++ [rstrip line], None)) (fun _ => false) [] reads in (log, how).

(** ** From a child's lines to the listeners of the hub *)

(** The parser over all lines. *)
Fixpoint feed_all {P} (feed : P -> string -> P * option line_event) (p : P) (lines : list string) : P * list line_event :=
  match lines with
  | [] => (p, [])
  | line :: lines => let '(p1, ev) := feed p line in let '(p2, evs) := feed_all feed p1 lines in (p2, opt_list ev ++ evs)
  end.

Lemma rx_run_feed lines : rx_run lines = feed_all rx_feed_line rx_parser_new lines.
Proof.
  unfold rx_run. cut (forall p acc, fold_left rx_step lines (p, acc) = (let '(p', evs) := feed_all rx_feed_line p lines in (p', acc ++ evs))).
  { intros ->. by destruct (feed_all _ _ _). }
  induction lines as [|line lines IH]; intros p acc; cbn [fold_left feed_all]; [by rewrite app_nil_r|].
  unfold rx_step at 2. cbn [fst snd]. destruct (rx_feed_line p line) as [p1 ev]. rewrite IH. destruct (feed_all _ p1 lines). by rewrite app_assoc.
Qed.

(** How a pump ends on what follows the lines. *)
Definition ends (r : stdout_read) : option pump_end := match r with RdLine _ => None | RdEof => Some Returned | RdFails => Some Crashed end.

Lemma pump_lines {P} (feed : P -> string -> P * option line_event) raises p lines r how rest :
  (forall e, raises e = false) -> ends r = Some how ->
  _pump_stdout feed raises p (map RdLine lines ++ r :: rest) = (feed_all feed p lines, how).
Proof.
  intros Hr He. revert p. induction lines as [|line lines IH]; intros p; cbn [map app _pump_stdout feed_all].
  { destruct r; by simplify_eq/=. }
  destruct (feed p line) as [p1 ev]. assert (Hn : from_option raises false ev = false) by (destruct ev; [apply Hr|done]).
  rewrite Hn, IH. by destruct (feed_all feed p1 lines).
Qed.

(** The payload of an event of a receiver, with the antenna in use. *)
Definition rx_payload (w : option Z) (e : line_event) : list raw_event :=
  match e with OnWindow p ant ses => [RawRx p ant ses w] | OnSession ses => [RawNewSession ses] | OnTxWindow p lat => [RawTx p lat] | OnHandshake => [] end.

Lemma raw_log_updates {F} {PF : PyFloat F} (cfg : TxSelectorConfig F) h ts child evs :
  raw_log cfg h (map (Update ts child) evs) = map (pair child) (concat (map (rx_payload (current (hub_txsel (hc_hub h)))) evs)).
Proof.
  revert h. induction evs as [|e evs IH]; intros h; [done|]. cbn [map raw_log concat]. rewrite IH, map_app.
  f_equal; [by destruct e|]. do 2 f_equal. by destruct e.
Qed.

(** Every line a receiver prints up to the end of its output is parsed, and a
    raw listener of the hub is called once with each window and each new
    session the lines spell, in order; the pump then returns, or logs the
    exception that ended the stream. *)
Theorem telemetry_reaches_listeners {F} {PF : PyFloat F} (cfg : TxSelectorConfig F) raises lines r how rest h cb ts child :
  (forall e, raises e = false) -> ends r = Some how -> cb ∉ raw_listeners h ->
  exists p evs, _pump_stdout rx_feed_line raises rx_parser_new (map RdLine lines ++ r :: rest) = (p, evs, how) /\
    (p, evs) = rx_run lines /\
    raws cb (hub_calls cfg (add_raw_listener cb h) (map (Update ts child) evs)).2 =
      map (pair child) (concat (map (rx_payload (current (hub_txsel (hc_hub h)))) evs)).
Proof.
  intros Hr He Hn. rewrite (pump_lines _ _ _ _ _ how) by done. rewrite <- rx_run_feed. destruct (rx_run lines) as [p evs].
  exists p, evs. split; [done|]. split; [done|].
  assert (Hl : Forall (leaves_listener cb) (map (Update ts child) evs)) by (apply Forall_map, Forall_true; done).
  assert (T := raw_listener_hears cfg h cb _ [] Hn Hl (List.Forall_nil _)). cbv zeta in T.
  destruct (hub_calls cfg (add_raw_listener cb h) _) as [h2 calls]. destruct T as [E _]. cbn [snd]. rewrite E. exact (raw_log_updates cfg (add_raw_listener cb h) ts child evs).
Qed.
