(* ===== verification/FeedText.v ===== *)
(** * The text of the stats feed

    From a receiver's telemetry lines to the text the stats server writes, and
    back through a replay of it: the line protocol, the hub, wfb/statsd.py, the
    JSON encoder, and [ReplayClient] of dynlink/stats_client.py, composed. *)
From Stdlib Require Import ZArith Lia Bool Ascii String.
From stdpp Require Import base tactics list sets strings.
From S2P Require Import Prelude PyStr Json StatsClient JsonText Bytes TapWire Capture LineProto TxSel StatsHub Statsd.
Open Scope Z_scope.

Section Text.
Context {F : Type} {PF : PyFloat F} (repr : json F -> string) (frepr : F -> string) (fok : F -> bool) {FR : FloatRepr frepr fok}.

(** [json.dumps(record) + "\n"] of [_on_raw]. *)
Definition raw_line (now : F) (child_id : string) (r : raw_event) : string :=
  dumps frepr (raw_record now child_id r) +:+ String LF EmptyString.

Definition packets_of (r : raw_event) : packets := match r with RawRx p _ _ _ | RawTx p _ => p | RawNewSession _ => [] end.

Lemma zip_keys_NoDup {A} (ks : list string) (vs : list A) : NoDup ks -> NoDup (map fst (zip ks vs)).
Proof.
  intros H. revert vs. induction H as [|k ks Hk _ IH]; intros [|v vs]; cbn; try apply NoDup_nil_2. constructor; [|done].
  intros Hin. apply Hk. apply list_elem_of_fmap in Hin as ((k' & v') & -> & Hin). by apply elem_of_zip_l in Hin.
Qed.

Lemma ints_plain l : forallb (plain fok) (ints l) = true.
Proof. by induction l. Qed.

Lemma zip_ints_plain ks l : forallb (fun kv : string * json F => plain fok kv.2) (zip ks (ints l)) = true.
Proof. revert l. induction ks as [|k ks IH]; intros [|z l]; cbn; try done. apply IH. Qed.

Lemma packets_plain p : NoDup (map fst p) -> plain fok (packets_json p) = true.
Proof.
  intros H. cbn. apply andb_true_iff. split.
  - apply bool_decide_eq_true. unfold dict_keys. rewrite map_map. exact H.
  - rewrite forallb_forall. intros [k v] Hin. apply in_map_iff in Hin as (kv & [= <- <-] & _). exact (ints_plain [kv.2.1; kv.2.2]).
Qed.

Lemma flat_plain ant : forallb (plain fok) (_flatten_rx_ant_stats ant) = true.
Proof.
  induction ant as [|[[key a] v] ant IH]; [done|]. cbn [_flatten_rx_ant_stats map forallb]. fold (_flatten_rx_ant_stats (F := F) ant). rewrite IH, andb_true_r.
  cbn [flat_rx plain]. rewrite zip_ints_plain, andb_true_r. apply bool_decide_eq_true, zip_keys_NoDup. vm_compute. repeat constructor; set_solver.
Qed.

Lemma flat_tx_plain lat : forallb (plain fok) (_flatten_tx_ant_stats lat) = true.
Proof.
  induction lat as [|e lat IH]; [done|]. cbn [_flatten_tx_ant_stats map forallb]. fold (_flatten_tx_ant_stats (F := F) lat). rewrite IH, andb_true_r.
  cbn [plain]. rewrite zip_ints_plain, andb_true_r. apply bool_decide_eq_true, zip_keys_NoDup. vm_compute. repeat constructor; set_solver.
Qed.

(** A record is an object that the encoder and the decoder agree on. *)
Lemma raw_plain now child r :
  fok now = true -> NoDup (map fst (packets_of r)) -> plain fok (raw_record now child r) = true /\ exists d, raw_record now child r = JDict d.
Proof.
  intros Hn Hp. split; [|destruct r; by eexists]. destruct r as [p ant ses tx|p lat|s].
  - assert (E1 := packets_plain p Hp). assert (E2 := flat_plain ant). cbn -[packets_json _flatten_rx_ant_stats session_dict] in *.
    rewrite Hn, E1, E2. by destruct ses, tx.
  - assert (E1 := packets_plain p Hp). assert (E2 := flat_tx_plain lat). cbn -[packets_json _flatten_tx_ant_stats] in *.
    rewrite Hn, E1, E2. done.
  - cbn. rewrite Hn. done.
Qed.

(** The counters of a window have distinct names. *)
Definition from_output (e : line_event) : Prop :=
  (exists lines, e ∈ (rx_run lines).2) \/ (exists p lat, e = OnTxWindow p lat /\ NoDup (map fst p)).

Lemma output_packets e h ts child ev raw :
  from_output e -> hub_do (F := F) h ts child e = Some (ev, raw) -> NoDup (map fst (packets_of raw)).
Proof.
  intros [(lines & Hin)|(p & lat & -> & Hp)] Hd; [|by injection Hd as <- <-].
  destruct (trace_ok_elem _ e (proj1 (rx_run_inv lines)) Hin) as (before & Hok).
  destruct e as [p ant ses|ses|p lat|]; cbn in Hd; [|by injection Hd as <- <-; apply NoDup_nil_2|done|done].
  injection Hd as <- <-. cbn. destruct Hok as (Hk & _). rewrite Hk. vm_compute. repeat constructor; set_solver.
Qed.

Lemma output_ants e : from_output e -> ants_ok e.
Proof.
  intros [(lines & Hin)|(p & lat & -> & _)]; [|done].
  destruct (trace_ok_elem _ e (proj1 (rx_run_inv lines)) Hin) as (b & Hb). destruct e; try done. by destruct Hb as (_ & _ & _ & ?).
Qed.

(** One update of the hub: when it was written, by whom, what the in-process
    subscribers were handed, and the raw event of the record. *)
Record update := mkUpdate { u_now : F; u_child : string; u_event : Event F; u_raw : raw_event }.
Definition feed_text (us : list update) : string := fold_right (fun u t => raw_line (u_now u) (u_child u) (u_raw u) +:+ t) EmptyString us.

(** The update that an output line of a child caused. *)
Definition caused (u : update) : Prop :=
  exists h ts e, from_output e /\ spoken e = true /\ hub_do h ts (u_child u) e = Some (u_event u, u_raw u) /\ fok (u_now u) = true.

Lemma line_replays u t i :
  caused u ->
  feed_replay repr (fun _ => false) i (text_lines (raw_line (u_now u) (u_child u) (u_raw u) +:+ t)) =
    (stamped (u_now u) (u_event u) :: (feed_replay repr (fun _ => false) (S i) (text_lines t)).1,
     (feed_replay repr (fun _ => false) (S i) (text_lines t)).2).
Proof.
  intros (h & ts & e & Ho & Hs & Hd & Hn). destruct (raw_plain (u_now u) (u_child u) (u_raw u) Hn (output_packets _ _ _ _ _ _ Ho Hd)) as [Hp [d Ed]].
  assert (Hr := record_parses repr h ts (u_now u) (u_child u) e _ _ (output_ants e Ho) Hs Hd). rewrite Ed in Hr, Hp.
  assert (Hl := loads_dumps frepr fok (JDict d) "" Hp eq_refl). rewrite sapp_nil_r in Hl.
  unfold raw_line. rewrite Ed. sapp. rewrite text_lines_line by (by apply (dumps_printable frepr fok)).
  cbn [feed_replay]. rewrite strip_obj, Hl, Hr. by destruct (String.eqb_spec (dumps frepr (JDict d)) "").
Qed.

(** C21: Through the text of the feed: for any sequence of updates that
    receivers' and transmitters' output causes, with sessions of a contract
    version the decoder speaks, a replay of what the stats server writes hands
    on the events the hub handed its in-process subscribers, all of them, in
    order, apart from the clock reading. *)
Theorem feed_text_replays us :
  Forall caused us ->
  feed_replay repr (fun _ => false) 0 (text_lines (feed_text us)) = (map (fun u => stamped (u_now u) (u_event u)) us, None).
Proof.
  generalize O. induction us as [|u us IH]; intros i Hc; [done|]. apply Forall_cons in Hc as [Hu Hc].
  cbn [feed_text fold_right map]. rewrite line_replays by done. fold (feed_text us). by rewrite (IH (S i) Hc).
Qed.
End Text.
