(* ===== verification/StatsFeed.v ===== *)
(** * wfb/aggregator.py and wfb/engine.py: the in-process stats feed

    A consumer (the controller, the connection monitor) runs one source on its
    own loop; the source resolves the engine's current hub, subscribes to it
    and waits until the hub closes or it is stopped, then starts over.  Hubs
    come and go with engine restarts, on the engine's thread.  The machine has
    one step per stretch of code that no other thread can interrupt: a lock
    section, a wake-up, or what a coroutine does between two awaits.

    A subscription's queue is a bounded deque, filled on the engine's thread
    and drained on the consumer's loop. *)
From Stdlib Require Import ZArith Lia Bool.
From stdpp Require Import base tactics list sets.
From S2P Require Import Prelude.
Open Scope nat_scope.

(** ** The queue of a subscription *)

Section Queue.
Context {E : Type}.

Record Subscription := mkSub { sub_queue : list E; sub_drains : nat }.
#[export] Instance eta_Sub : Settable Subscription := fun r => mkSub (sub_queue r) (sub_drains r).

Definition QUEUE_MAX : nat := 256.

(** [_push]: append, dropping the oldest when full, and schedule a drain. *)
Definition _push (s : Subscription) (ev : E) : Subscription :=
  s <| sub_queue ::= fun q => deque_push QUEUE_MAX q ev |> <| sub_drains ::= S |>.

(** [_drain]: hand over until the queue is empty or the handler raises, after
    [raises] events ([None]: it does not). *)
Definition _drain (s : Subscription) (raises : option nat) : Subscription * list E :=
  let n := match raises with Some k => S k | None => length (sub_queue s) end in
  (s <| sub_queue ::= drop n |> <| sub_drains ::= Nat.pred |>, take n (sub_queue s)).

Inductive sub_op := Push (ev : E) | Drain (raises : option nat).

Record sub_hist := mkHist { sh_sub : Subscription; sh_pushed : list E; sh_given : list E; sh_full : nat }.

(** The history of a subscription: what was pushed, what the handler got, and
    how many pushes found the queue full. *)
Definition sub_do (s : sub_hist) (o : sub_op) : sub_hist :=
  match o with
  | Push ev => mkHist (_push (sh_sub s) ev) (sh_pushed s ++ [ev]) (sh_given s)
                 (if length (sub_queue (sh_sub s)) =? QUEUE_MAX then S (sh_full s) else sh_full s)
  | Drain r => if sub_drains (sh_sub s) =? 0 then s
               else let '(q, l) := _drain (sh_sub s) r in mkHist q (sh_pushed s) (sh_given s ++ l) (sh_full s)
  end.
Definition sub_run (os : list sub_op) : sub_hist := fold_left sub_do os (mkHist (mkSub [] 0) [] [] 0).
End Queue.
Arguments Subscription : clear implicits.
Arguments sub_op : clear implicits.
Arguments sub_hist : clear implicits.

(** ** Hubs, the engine and the sources *)

(** A subscription is named by its consumer and a count of that consumer's. *)
Definition sub_id : Type := nat * nat.

Record hub_state := mkHubS { hs_closed : bool; hs_subs : list sub_id }.
#[export] Instance eta_HubS : Settable hub_state := fun r => mkHubS (hs_closed r) (hs_subs r).

(** Where a source's [run] is. *)
Inductive source_pc :=
| Idle
| Top                                            (** before reading [engine.hub] *)
| Poll                                           (** no hub: waits half a second *)
| Resolved (h : nat)
| Registered (h : nat) (s : sub_id) (already_closed : bool)
| Waiting (h : nat) (s : sub_id)
| Returned
| Raised.

Record source := mkSource { src_pc : source_pc; src_stop : bool; src_gen : nat }.
#[export] Instance eta_Source : Settable source := fun r => mkSource (src_pc r) (src_stop r) (src_gen r).

(** [w_down]: the teardown in progress, at the hub's [close] or at the
    subscribers it still has to wake. *)
Record world := mkWorld {
  w_hub : option nat;
  w_hubs : list hub_state;
  w_down : option (nat * option (list sub_id));
  w_srcs : list source;
  w_woken : list sub_id
}.
#[export] Instance eta_World : Settable world := fun r => mkWorld (w_hub r) (w_hubs r) (w_down r) (w_srcs r) (w_woken r).

Inductive feed_ev :=
| EnginePublish
| EngineDrop
| EngineClose
| EngineWake
| EngineFail
| EngineForget
| SourceRun (i : nat)
| SourceStep (i : nat) (replay_ok : bool)
| SourceStop (i : nat).

Definition hub_closed (w : world) (h : nat) : bool := from_option hs_closed true (w_hubs w !! h).
Definition hub_subs (w : world) (h : nat) : list sub_id := from_option hs_subs [] (w_hubs w !! h).

(** *** The engine's side *)

(** [_setup] publishes a fresh hub. *)
Definition engine_publish (w : world) : option world :=
  match w_hub w, w_down w with
  | None, None => Some (w <| w_hubs ::= fun l => l ++ [mkHubS false []] |> <| w_hub := Some (length (w_hubs w)) |>)
  | _, _ => None
  end.

(** [_teardown]: the hub is taken out under the engine's lock, then closed. *)
Definition engine_drop (w : world) : option world :=
  match w_down w with
  | None => Some (w <| w_hub := None |> <| w_down := (fun h => (h, None)) <$> w_hub w |>)
  | Some _ => None
  end.

(** [StatsHub.close]: its lock section, then one wake-up per subscriber. *)
Definition engine_close (w : world) : option world :=
  match w_down w with
  | Some (h, None) =>
      if hub_closed w h then Some (w <| w_down := None |>)
      else Some (w <| w_hubs ::= alter (fun x => x <| hs_closed := true |>) h |>
                   <| w_down := Some (h, Some (hub_subs w h)) |>)
  | _ => None
  end.

Definition engine_wake (w : world) : option world :=
  match w_down w with
  | Some (h, Some (s :: l)) => Some (w <| w_woken ::= cons s |> <| w_down := Some (h, Some l) |>)
  | Some (_, Some []) => Some (w <| w_down := None |>)
  | _ => None
  end.

(** The failing [_setup] closes the hub it has published, and takes it out of
    [engine.hub] only after its services are stopped. *)
Definition engine_fail (w : world) : option world :=
  match w_hub w, w_down w with
  | Some h, None =>
      if hub_closed w h then None
      else Some (w <| w_hubs ::= alter (fun x => x <| hs_closed := true |>) h |>
                   <| w_down := Some (h, Some (hub_subs w h)) |>)
  | _, _ => None
  end.

Definition engine_forget (w : world) : option world :=
  match w_hub w, w_down w with
  | Some h, None => if hub_closed w h then Some (w <| w_hub := None |>) else None
  | _, _ => None
  end.

(** *** The source's side *)

Definition set_source (i : nat) (c : source) (w : world) : world := w <| w_srcs ::= <[i := c]> |>.

(** [subscribe]'s lock section. *)
Definition subscribe (i h : nat) (c : source) (w : world) : world :=
  let s := (i, src_gen c) in
  let w1 := if hub_closed w h then w else w <| w_hubs ::= alter (fun x => x <| hs_subs ::= fun l => l ++ [s] |>) h |> in
  set_source i (c <| src_pc := Registered h s (hub_closed w h) |> <| src_gen ::= S |>) w1.

Definition unsubscribe (h : nat) (s : sub_id) (w : world) : world :=
  w <| w_hubs ::= alter (fun x => x <| hs_subs ::= filter (fun y => y <> s) |>) h |>.

(** The next stretch of a source's [run]; [replay_ok]: the handler took the
    replayed sessions without raising. *)
Definition source_step (i : nat) (replay_ok : bool) (c : source) (w : world) : option world :=
  match src_pc c with
  | Top => Some (set_source i (c <| src_pc := if src_stop c then Returned
                                              else match w_hub w with Some h => Resolved h | None => Poll end |>) w)
  | Poll => Some (set_source i (c <| src_pc := Top |>) w)
  | Resolved h => Some (subscribe i h c w)
  | Registered h s already =>
      let w1 := if already then w <| w_woken ::= cons s |> else w in
      Some (set_source i (c <| src_pc := if replay_ok then Waiting h s else Raised |>) w1)
  | Waiting h s =>
      if src_stop c || bool_decide (s ∈ w_woken w)
      then Some (set_source i (c <| src_pc := Top |>) (unsubscribe h s w)) else None
  | Idle | Returned | Raised => None
  end.

(** [stop()] is called on the source's own loop, so only where [run] awaits;
    before [run] it does nothing. *)
Definition source_stop (i : nat) (c : source) (w : world) : option world :=
  match src_pc c with
  | Poll | Waiting _ _ => Some (set_source i (c <| src_stop := true |>) w)
  | Idle | Returned | Raised => Some w
  | _ => None
  end.

Definition source_run (i : nat) (c : source) (w : world) : option world :=
  match src_pc c with Idle => Some (set_source i (c <| src_pc := Top |>) w) | _ => None end.

Definition feed_step (w : world) (e : feed_ev) : option world :=
  match e with
  | EnginePublish => engine_publish w
  | EngineDrop => engine_drop w
  | EngineClose => engine_close w
  | EngineWake => engine_wake w
  | EngineFail => engine_fail w
  | EngineForget => engine_forget w
  | SourceRun i => c ← w_srcs w !! i; source_run i c w
  | SourceStep i ok => c ← w_srcs w !! i; source_step i ok c w
  | SourceStop i => c ← w_srcs w !! i; source_stop i c w
  end.

Fixpoint feed_run (w : world) (es : list feed_ev) : option world :=
  match es with
  | [] => Some w
  | e :: es => w' ← feed_step w e; feed_run w' es
  end.

(** No hub yet, [n] sources not yet running. *)
Definition feed_init (n : nat) : world := mkWorld None [] None (replicate n (mkSource Idle false 0)) [].

(* ------------------------------------------------------------------ *)
(** ** The queue loses only its oldest, and only when full *)

Section QueueFacts.
Context {E : Type}.

Lemma sub_run_snoc (os : list (sub_op E)) o : sub_run (os ++ [o]) = sub_do (sub_run os) o.
Proof. unfold sub_run. by rewrite fold_left_app. Qed.

Definition no_raise (o : sub_op E) : Prop := match o with Drain (Some _) => False | _ => True end.

(** C25: What a subscriber's handler got and what is still queued for it is
    what was pushed, in order, less one event per push that found the queue
    full; the queue holds the newest and at most its bound; and unless the
    handler raised, a drain is scheduled whenever something is queued. *)
Theorem subscriber_feed (os : list (sub_op E)) :
  let s := sub_run os in
  sublist (sh_given s ++ sub_queue (sh_sub s)) (sh_pushed s) /\
  length (sh_given s ++ sub_queue (sh_sub s)) + sh_full s = length (sh_pushed s) /\
  sub_queue (sh_sub s) `suffix_of` sh_pushed s /\ length (sub_queue (sh_sub s)) <= QUEUE_MAX /\
  (Forall no_raise os -> sub_queue (sh_sub s) <> [] -> 0 < sub_drains (sh_sub s)).
Proof.
  induction os as [|o os IH] using rev_ind.
  { cbn. repeat split; try done. unfold QUEUE_MAX. lia. }
  rewrite sub_run_snoc. destruct (sub_run os) as [[q n] pushed given full]. cbn in IH.
  destruct IH as (Hs & Hl & Hq & Hb & Hd). destruct o as [ev|r]; cbn [sub_do sh_sub sub_queue sub_drains sh_pushed sh_given sh_full].
  - change (sub_queue (_push (mkSub q n) ev)) with (deque_push QUEUE_MAX q ev).
    change (sub_drains (_push (mkSub q n) ev)) with (S n).
    assert (Hin : sublist (deque_push QUEUE_MAX q ev) (q ++ [ev])) by (unfold deque_push; apply sublist_drop).
    split; [|split; [|split; [|split]]].
    + etrans; [apply sublist_app; [reflexivity|exact Hin]|]. rewrite app_assoc. by apply sublist_app.
    + rewrite !length_app in *. rewrite deque_push_length. cbn [length].
      destruct (Nat.eqb_spec (length q) QUEUE_MAX); lia.
    + destruct Hq as [k ->]. unfold deque_push. set (d := _ - _). exists (k ++ take d (q ++ [ev])).
      by rewrite <- !app_assoc, take_drop.
    + rewrite deque_push_length. lia.
    + lia.
  - destruct (Nat.eqb_spec n 0) as [->|Hn]; cbn -[QUEUE_MAX].
    { split_and!; try done. intros Ha. apply Forall_app in Ha as [Ha _]. by apply Hd. }
    set (m := match r with Some k => S k | None => length q end).
    rewrite <- (app_assoc given), take_drop. split_and!; try done.
    + etrans; [|exact Hq]. eexists. symmetry. apply take_drop.
    + rewrite length_drop. lia.
    + intros [_ Ha]%Forall_app Hne. rewrite Forall_singleton in Ha.
      destruct r as [k|]; cbn in Ha; [done|]. contradict Hne. apply drop_all.
Qed.
End QueueFacts.

(* ------------------------------------------------------------------ *)
(** ** No source is left behind on a closed hub *)

(** [s], subscribed to [h], will be told that [h] closes: it has been, it is
    registered while the hub is open, or the closing hub is about to wake it. *)
Definition told (w : world) (h : nat) (s : sub_id) : Prop :=
  s ∈ w_woken w \/ (hub_closed w h = false /\ s ∈ hub_subs w h) \/ (exists l, w_down w = Some (h, Some l) /\ s ∈ l).

Definition src_ok (w : world) (i : nat) (c : source) : Prop :=
  match src_pc c with
  | Registered h s already => s = (i, Nat.pred (src_gen c)) /\ 0 < src_gen c /\ (already = false -> told w h s)
  | Waiting h s => s = (i, Nat.pred (src_gen c)) /\ 0 < src_gen c /\ told w h s
  | _ => True
  end.

(** Subscription names that exist. *)
Definition issued (w : world) (s : sub_id) : Prop := exists c, w_srcs w !! s.1 = Some c /\ s.2 < src_gen c.

Definition named (w : world) (s : sub_id) : Prop :=
  s ∈ w_woken w \/ (exists h, s ∈ hub_subs w h) \/ (exists h l, w_down w = Some (h, Some l) /\ s ∈ l).

Record feed_ok (w : world) : Prop := {
  ok_open : forall h, hub_closed w h = false -> w_hub w = Some h \/ w_down w = Some (h, None);
  ok_named : forall s, named w s -> issued w s;
  ok_srcs : forall i c, w_srcs w !! i = Some c -> src_ok w i c
}.

(** *** Hubs after an update *)

Lemma closed_close w h h' d :
  hub_closed (w <| w_hubs ::= alter (fun x => x <| hs_closed := true |>) h |> <| w_down := d |>) h' =
    if decide (h = h') then true else hub_closed w h'.
Proof.
  unfold hub_closed. cbn. case_decide as H; [subst; rewrite list_lookup_alter_eq|by rewrite list_lookup_alter_ne].
  by destruct (w_hubs w !! h').
Qed.

Lemma subs_close w h h' d :
  hub_subs (w <| w_hubs ::= alter (fun x => x <| hs_closed := true |>) h |> <| w_down := d |>) h' = hub_subs w h'.
Proof.
  unfold hub_subs. cbn. destruct (decide (h = h')) as [<-|]; [rewrite list_lookup_alter_eq|by rewrite list_lookup_alter_ne].
  by destruct (w_hubs w !! h).
Qed.

Lemma subs_alter (f : list sub_id -> list sub_id) w h h' :
  f [] = [] \/ hub_closed w h = false ->
  hub_subs (w <| w_hubs ::= alter (fun x => x <| hs_subs ::= f |>) h |>) h' =
    if decide (h = h') then f (hub_subs w h') else hub_subs w h'.
Proof.
  unfold hub_subs, hub_closed. cbn. intros Hf. case_decide as H; [subst; rewrite list_lookup_alter_eq|by rewrite list_lookup_alter_ne].
  destruct (w_hubs w !! h'); cbn; [done|]. by destruct Hf as [->|Hf].
Qed.

Lemma closed_alter (f : list sub_id -> list sub_id) w h h' :
  hub_closed (w <| w_hubs ::= alter (fun x => x <| hs_subs ::= f |>) h |>) h' = hub_closed w h'.
Proof.
  unfold hub_closed. cbn. destruct (decide (h = h')) as [<-|]; [rewrite list_lookup_alter_eq|by rewrite list_lookup_alter_ne].
  by destruct (w_hubs w !! h).
Qed.

Lemma publish_hubs w h :
  let w' := w <| w_hubs ::= fun l => l ++ [mkHubS false []] |> <| w_hub := Some (length (w_hubs w)) |> in
  hub_subs w' h = hub_subs w h /\ hub_closed w' h = if decide (h = length (w_hubs w)) then false else hub_closed w h.
Proof.
  unfold hub_subs, hub_closed. cbn. case_decide as H.
  - subst. rewrite list_lookup_middle by done. by rewrite lookup_ge_None_2 by lia.
  - destruct (decide (h < length (w_hubs w))) as [Hl|Hl]; [by rewrite lookup_app_l by done|].
    rewrite !lookup_ge_None_2; [done|lia|rewrite length_app; cbn; lia].
Qed.

(** *** Every step keeps it *)

(** Steps of the engine: the sources stay as they are. *)
Lemma engine_keeps w w' :
  feed_ok w -> w_srcs w' = w_srcs w -> (forall s, named w' s -> named w s) -> (forall h s, told w h s -> told w' h s) ->
  (forall h, hub_closed w' h = false -> w_hub w' = Some h \/ w_down w' = Some (h, None)) -> feed_ok w'.
Proof.
  intros [_ Hn Hs] Esrc En Et Ho. split; [done| |].
  - intros s H. unfold issued. rewrite Esrc. by apply Hn, En.
  - intros i c Hi. rewrite Esrc in Hi. specialize (Hs i c Hi). unfold src_ok in *. destruct (src_pc c); naive_solver.
Qed.

(** Steps of source [i]. *)
Lemma source_keeps w w' i c c' :
  feed_ok w -> w_srcs w !! i = Some c -> w_srcs w' = <[i := c']> (w_srcs w) -> src_gen c <= src_gen c' ->
  (forall s, named w' s -> named w s \/ (s.1 = i /\ s.2 < src_gen c')) ->
  (forall h s, s.1 <> i -> told w h s -> told w' h s) ->
  (forall h, hub_closed w' h = false -> w_hub w' = Some h \/ w_down w' = Some (h, None)) ->
  src_ok w' i c' -> feed_ok w'.
Proof.
  intros [_ Hn Hs] Hi Esrc Hg En Et Ho Hc. assert (Hlt := lookup_lt_Some _ _ _ Hi). split; [done| |].
  - intros s H. unfold issued. rewrite Esrc. destruct (decide (s.1 = i)) as [Ei|Ei].
    + exists c'. rewrite Ei, list_lookup_insert_eq by done. split; [done|].
      destruct (En s H) as [H'|[_ ?]]; [|done]. destruct (Hn s H') as (c0 & H0 & ?). rewrite Ei, Hi in H0. simplify_eq. lia.
    + rewrite list_lookup_insert_ne by congruence. destruct (En s H) as [H'|[? _]]; [|done]. by apply Hn.
  - intros j d Hj. rewrite Esrc in Hj. destruct (decide (i = j)) as [<-|Hne].
    + rewrite list_lookup_insert_eq in Hj by done. by simplify_eq.
    + rewrite list_lookup_insert_ne in Hj by done. specialize (Hs j d Hj). unfold src_ok in *.
      destruct (src_pc d); try done; destruct Hs as (-> & ? & ?); (split; [done|]; split; [done|]); intros; apply Et; naive_solver.
Qed.

(** Marking hub [h] closed and listing its subscribers for the wake-ups. *)
Lemma close_keeps w h :
  feed_ok w -> hub_closed w h = false -> (forall h' l, w_down w <> Some (h', Some l)) ->
  (forall h', h' <> h -> w_down w <> Some (h', None)) ->
  feed_ok (w <| w_hubs ::= alter (fun x => x <| hs_closed := true |>) h |> <| w_down := Some (h, Some (hub_subs w h)) |>).
Proof.
  intros H Hc Hd Hd'. apply (engine_keeps w); [done|done| | |].
  - intros s [?|[[h' Hs]|(h' & l & [= <- <-] & Hs)]]; unfold named; [by left| |by eauto].
    rewrite subs_close in Hs. eauto.
  - intros h' s [?|[[Hn Hs]|(l & Hl & _)]]; unfold told; [by left| |by apply Hd in Hl].
    destruct (decide (h = h')) as [<-|Hne]; [by eauto|].
    right. left. by rewrite closed_close, subs_close, decide_False by done.
  - intros h'. rewrite closed_close. case_decide as Hne; [done|]. intros Hn.
    destruct (ok_open w H h' Hn) as [?|Hx]; [by left|]. by apply Hd' in Hx.
Qed.

Lemma publish_ok w w' : feed_ok w -> engine_publish w = Some w' -> feed_ok w'.
Proof.
  intros H Hs. assert (Ho := ok_open w H). unfold engine_publish in Hs.
  destruct (w_hub w) eqn:Eh, (w_down w) eqn:Ed; simplify_eq.
  assert (P := publish_hubs w). cbn zeta in P. apply (engine_keeps w); [done|done| | |].
  - intros s [?|[[h Hs]|?]]; unfold named; [by left| |by eauto]. rewrite (proj1 (P h)) in Hs. eauto.
  - intros h s [?|[[Hc Hs]|?]]; unfold told; [by left| |by eauto]. right. left.
    rewrite (proj1 (P h)), (proj2 (P h)), Hc. by case_decide.
  - intros h. rewrite (proj2 (P h)). case_decide as E; [subst; by left|]. intros Hc. destruct (Ho h Hc); congruence.
Qed.

Lemma drop_ok w w' : feed_ok w -> engine_drop w = Some w' -> feed_ok w'.
Proof.
  intros H Hs. assert (Ho := ok_open w H). unfold engine_drop in Hs.
  destruct (w_down w) as [[? ?]|] eqn:Ed; simplify_eq. apply (engine_keeps w); [done|done| | |].
  - intros s [?|[?|(h & l & Hl & _)]]; unfold named; [by left|by eauto|]. cbn in Hl. by destruct (w_hub w).
  - intros h s [?|[?|(l & Hl & _)]]; unfold told; [by left|by eauto|congruence].
  - intros h Hc. right. cbn. destruct (Ho h Hc) as [->|?]; [done|congruence].
Qed.

Lemma hub_close_ok w w' : feed_ok w -> engine_close w = Some w' -> feed_ok w'.
Proof.
  intros H Hs. assert (Ho := ok_open w H). unfold engine_close in Hs.
  destruct (w_down w) as [[h [l|]]|] eqn:Ed; simplify_eq.
  destruct (hub_closed w h) eqn:Ec; simplify_eq; [|apply close_keeps; try done; naive_solver].
  apply (engine_keeps w); [done|done| | |].
  - intros s [?|[?|(h' & l & [=] & _)]]; unfold named; [by left|by eauto].
  - intros h' s [?|[?|(l & Hl & _)]]; unfold told; [by left|by eauto|congruence].
  - intros h' Hc. left. change (hub_closed w h' = false) in Hc. destruct (Ho h' Hc) as [?|?]; [done|congruence].
Qed.

Lemma wake_ok w w' : feed_ok w -> engine_wake w = Some w' -> feed_ok w'.
Proof.
  intros H Hs. assert (Ho := ok_open w H). unfold engine_wake in Hs.
  destruct (w_down w) as [[h [[|s l]|]]|] eqn:Ed; simplify_eq; (apply (engine_keeps w); [done|done| | |]).
  3, 6: intros h' Hc; left; destruct (Ho h' Hc) as [?|?]; [done|congruence].
  - intros s [?|[?|(h' & l & [=] & _)]]; unfold named; [by left|by eauto].
  - intros h' s [?|[?|(l & Hl & Hin)]]; unfold told; [by left|by eauto|]. rewrite Ed in Hl. simplify_eq.
    by apply not_elem_of_nil in Hin.
  - intros s' [Hw|[?|(h' & l' & [= <- <-] & ?)]]; unfold named; [|by eauto|].
    + apply elem_of_cons in Hw as [->|?]; [|by left]. right. right. exists h, (s :: l). split; [done|by left].
    + right. right. exists h, (s :: l). split; [done|by right].
  - intros h' s' [?|[?|(l' & Hl & Hin)]]; unfold told; [left; by right|by eauto|]. rewrite Ed in Hl. simplify_eq.
    apply elem_of_cons in Hin as [->|?]; [left; by left|]. by eauto.
Qed.

Lemma fail_ok w w' : feed_ok w -> engine_fail w = Some w' -> feed_ok w'.
Proof.
  intros H Hs. unfold engine_fail in Hs. destruct (w_hub w) as [h|] eqn:Eh, (w_down w) eqn:Ed; simplify_eq.
  destruct (hub_closed w h) eqn:Ec; simplify_eq. apply close_keeps; try done; intros; by rewrite Ed.
Qed.

Lemma forget_ok w w' : feed_ok w -> engine_forget w = Some w' -> feed_ok w'.
Proof.
  intros H Hs. assert (Ho := ok_open w H). unfold engine_forget in Hs.
  destruct (w_hub w) as [h|] eqn:Eh, (w_down w) eqn:Ed; simplify_eq.
  destruct (hub_closed w h) eqn:Ec; simplify_eq. apply (engine_keeps w); [done|done|done|done|].
  intros h' Hc. change (hub_closed w h' = false) in Hc. destruct (Ho h' Hc) as [?|?]; congruence.
Qed.

(** A source that moves on without touching a hub, perhaps woken by itself. *)
Lemma move_ok w i c c' woken :
  feed_ok w -> w_srcs w !! i = Some c -> src_gen c' = src_gen c ->
  (forall s, s ∈ woken -> s.1 = i /\ s.2 < src_gen c) -> src_ok (w <| w_woken ::= fun l => woken ++ l |>) i c' ->
  feed_ok (set_source i c' (w <| w_woken ::= fun l => woken ++ l |>)).
Proof.
  intros H Hi Hg Hw Hc. apply (source_keeps w _ i c c'); [done|done|done|lia| | | |exact Hc].
  - intros s [Hs|?]; [|left; by right]. cbn in Hs. apply elem_of_app in Hs as [Hs|?]; [right; rewrite Hg; auto|left; by left].
  - intros h s _ [?|?]; [left; cbn; apply elem_of_app; by right|by right].
  - intros h Hh. by apply (ok_open w H h).
Qed.

Lemma goto_ok w i c c' :
  feed_ok w -> w_srcs w !! i = Some c -> src_gen c' = src_gen c -> src_ok w i c' -> feed_ok (set_source i c' w).
Proof.
  intros H Hi Hg Hc. assert (E : w <| w_woken ::= fun l => [] ++ l |> = w) by by destruct w.
  rewrite <- E. apply (move_ok w i c c' []); try done. by intros s ?%not_elem_of_nil.
Qed.

Lemma subscribe_ok w i h c :
  feed_ok w -> w_srcs w !! i = Some c -> feed_ok (subscribe i h c w).
Proof.
  intros H Hi. assert (Ho := ok_open w H). unfold subscribe. destruct (hub_closed w h) eqn:Ec.
  - apply (source_keeps w _ i c (c <| src_pc := Registered h (i, src_gen c) true |> <| src_gen ::= S |>));
      try done; [cbn; lia|by left|]. split; [done|]. split; [cbn; lia|done].
  - set (w1 := w <| w_hubs ::= alter (fun x => x <| hs_subs ::= fun l => l ++ [(i, src_gen c)] |>) h |>).
    assert (Hsub : forall h', hub_subs w1 h' = if decide (h = h') then hub_subs w h' ++ [(i, src_gen c)] else hub_subs w h').
    { intros h'. apply (subs_alter (fun l => l ++ _)). by right. }
    assert (Hcl : forall h', hub_closed w1 h' = hub_closed w h') by (intros; apply closed_alter).
    apply (source_keeps w _ i c (c <| src_pc := Registered h (i, src_gen c) false |> <| src_gen ::= S |>)); try done.
    + cbn. lia.
    + intros s [?|[[h' Hs]|?]]; [left; by left| |left; right; by right].
      change (s ∈ hub_subs w1 h') in Hs. rewrite Hsub in Hs. case_decide; [|left; right; eauto].
      apply elem_of_app in Hs as [?| ->%list_elem_of_singleton]; [left; right; eauto|]. right. cbn. lia.
    + intros h' s Hne [?|[[Hc Hs]|?]]; [by left| |by right; right]. right. left.
      change (hub_closed w1 h' = false /\ s ∈ hub_subs w1 h'). rewrite Hcl, Hsub. split; [done|].
      case_decide; [apply elem_of_app; by left|done].
    + intros h' Hc. change (hub_closed w1 h' = false) in Hc. rewrite Hcl in Hc. by apply Ho.
    + split; [done|]. split; [cbn; lia|]. intros _. right. left. change (hub_closed w1 h = false /\ (i, src_gen c) ∈ hub_subs w1 h).
      rewrite Hcl, Hsub, decide_True by done. split; [done|]. apply elem_of_app. right. by left.
Qed.

Lemma unsubscribe_ok w i h s c c' :
  feed_ok w -> w_srcs w !! i = Some c -> s.1 = i -> src_gen c' = src_gen c -> src_pc c' = Top ->
  feed_ok (set_source i c' (unsubscribe h s w)).
Proof.
  intros H Hi Hs Hg Hp. set (w1 := unsubscribe h s w).
  assert (Hsub : forall h', hub_subs w1 h' = if decide (h = h') then filter (fun y => y <> s) (hub_subs w h') else hub_subs w h').
  { intros h'. apply (subs_alter (filter (fun y => y <> s))). by left. }
  assert (Hcl : forall h', hub_closed w1 h' = hub_closed w h') by (intros; apply closed_alter).
  apply (source_keeps w _ i c c'); [done|done|done|lia| | | |unfold src_ok; by rewrite Hp].
  - intros s' [?|[[h' Hs']|?]]; [left; by left| |left; right; by right]. left. right. left. exists h'.
    change (s' ∈ hub_subs w1 h') in Hs'. rewrite Hsub in Hs'. case_decide; [by apply list_elem_of_filter in Hs' as [_ ?]|done].
  - intros h' s' Hne [?|[[Hc Hs']|?]]; [by left| |by right; right]. right. left.
    change (hub_closed w1 h' = false /\ s' ∈ hub_subs w1 h'). rewrite Hcl, Hsub. split; [done|].
    case_decide; [|done]. apply list_elem_of_filter. split; [congruence|done].
  - intros h' Hc. change (hub_closed w1 h' = false) in Hc. rewrite Hcl in Hc. by apply (ok_open w H).
Qed.

Lemma source_step_ok w i ok c w' :
  feed_ok w -> w_srcs w !! i = Some c -> source_step i ok c w = Some w' -> feed_ok w'.
Proof.
  intros H Hi Hs. assert (Hc := ok_srcs w H i c Hi). unfold source_step in Hs. unfold src_ok in Hc.
  destruct (src_pc c) as [| | |h|h s already|h s| |] eqn:Ep; simplify_eq.
  - apply goto_ok with c; try done. unfold src_ok. cbn. by destruct (src_stop c), (w_hub w).
  - by apply goto_ok with c.
  - by apply subscribe_ok.
  - destruct Hc as (-> & Hg & Ht). destruct already.
    + apply (move_ok w i c _ [(i, Nat.pred (src_gen c))]); [done|done|done| |].
      * intros s ->%list_elem_of_singleton. cbn. lia.
      * unfold src_ok. cbn. destruct ok; [|done]. split; [done|]. split; [done|]. left. by left.
    + apply goto_ok with c; try done. unfold src_ok. cbn. destruct ok; [|done]. by auto.
  - destruct Hc as (-> & _). destruct (src_stop c || _); simplify_eq. by apply unsubscribe_ok with c.
Qed.

Lemma feed_step_ok w e w' : feed_ok w -> feed_step w e = Some w' -> feed_ok w'.
Proof.
  intros H Hs. destruct e as [| | | | | |i|i ok|i]; cbn in Hs.
  7-9: apply bind_Some in Hs as (c & Hi & Hs).
  - by eapply publish_ok.
  - by eapply drop_ok.
  - by eapply hub_close_ok.
  - by eapply wake_ok.
  - by eapply fail_ok.
  - by eapply forget_ok.
  - unfold source_run in Hs. destruct (src_pc c); simplify_eq. by apply goto_ok with c.
  - by eapply source_step_ok.
  - assert (Hc := ok_srcs w H i c Hi). unfold src_ok in Hc. unfold source_stop in Hs.
    destruct (src_pc c) eqn:Ep; simplify_eq; try done; (apply goto_ok with c; [done..|]); unfold src_ok; cbn; by rewrite Ep.
Qed.

Lemma feed_init_ok n : feed_ok (feed_init n).
Proof.
  split.
  - by intros h.
  - intros s [?%not_elem_of_nil|[[h ?%not_elem_of_nil]|(h & l & [=] & _)]]; done.
  - intros i c [-> _]%lookup_replicate. done.
Qed.

Lemma feed_run_app w es es' : feed_run w (es ++ es') = w' ← feed_run w es; feed_run w' es'.
Proof. revert w. induction es as [|e es IH]; intros w; cbn; [done|]. by destruct (feed_step w e); cbn. Qed.

Lemma feed_run_ok w es w' : feed_ok w -> feed_run w es = Some w' -> feed_ok w'.
Proof.
  revert w. induction es as [|e es IH]; intros w H Hr; cbn in Hr; [by simplify_eq|].
  apply bind_Some in Hr as (w1 & H1 & Hr). apply (IH w1); [|done]. by eapply feed_step_ok.
Qed.

(** ** Every running source finds the hub the engine has published *)

(** The engine is up on hub [h], and source [i] has not been stopped. *)
Record up (w : world) (i h : nat) (c : source) : Prop := {
  up_ok : feed_ok w;
  up_down : w_down w = None;
  up_hub : w_hub w = Some h;
  up_open : hub_closed w h = false;
  up_src : w_srcs w !! i = Some c;
  up_stop : src_stop c = false
}.

(** Within [k] turns of its loop source [i] is subscribed to [h] and waits. *)
Definition settles (k : nat) (w : world) (i h : nat) : Prop :=
  exists j w' c s, j <= k /\ feed_run w (replicate j (SourceStep i true)) = Some w' /\ up w' i h c /\
    src_pc c = Waiting h s /\ s ∈ hub_subs w' h /\ feed_step w' (SourceStep i true) = None.

Lemma settles_step k w i h w1 : feed_step w (SourceStep i true) = Some w1 -> settles k w1 i h -> settles (S k) w i h.
Proof.
  intros H (j & w' & c & s & Hj & Hr & Hrest). exists (S j), w', c, s. split; [lia|]. split; [|done].
  cbn [replicate feed_run]. by rewrite H.
Qed.

Lemma settles_le k k' w i h : k <= k' -> settles k w i h -> settles k' w i h.
Proof. intros Hk (j & w' & c & s & Hj & H). exists j, w', c, s. split; [lia|done]. Qed.

Lemma up_set w i h c c1 w0 :
  up w i h c -> feed_ok (set_source i c1 w0) -> w_down w0 = w_down w -> w_hub w0 = w_hub w ->
  hub_closed w0 h = hub_closed w h -> w_srcs w0 = w_srcs w -> src_stop c1 = src_stop c -> up (set_source i c1 w0) i h c1.
Proof.
  intros [Hok Hd Hh Hc Hi Hst] H Ed Eh Ec Es Et. split; [done| | | | |by rewrite Et].
  - change (w_down w0 = None). by rewrite Ed.
  - change (w_hub w0 = Some h). by rewrite Eh.
  - change (hub_closed w0 h = false). by rewrite Ec.
  - cbn. rewrite Es. apply list_lookup_insert_eq. by apply lookup_lt_Some in Hi.
Qed.

(** What one step of an unstopped source does while the engine is up. *)
Definition moved (i h : nat) (w : world) (c : source) (w1 : world) (c1 : source) : Prop :=
  match src_pc c with
  | Top => src_pc c1 = Resolved h
  | Poll => src_pc c1 = Top
  | Resolved h0 => src_pc c1 = Registered h0 (i, src_gen c) (hub_closed w h0) /\ ((i, src_gen c) ∉ w_woken w1) /\
                   (h0 = h -> (i, src_gen c) ∈ hub_subs w1 h)
  | Registered h0 s already => src_pc c1 = Waiting h0 s /\ (already = false -> w_woken w1 = w_woken w) /\
                               hub_subs w1 h = hub_subs w h
  | Waiting _ _ => src_pc c1 = Top
  | _ => True
  end.

Lemma up_step w i h c w1 :
  up w i h c -> source_step i true c w = Some w1 ->
  feed_step w (SourceStep i true) = Some w1 /\ exists c1, up w1 i h c1 /\ moved i h w c w1 c1.
Proof.
  intros Hup Hs. assert (Hup' := Hup). destruct Hup' as [Hok Hd Hh Hc Hi Hst]. assert (Hf : feed_step w (SourceStep i true) = Some w1) by (cbn; by rewrite Hi).
  split; [done|]. assert (Hok1 := feed_step_ok _ _ _ Hok Hf). assert (Hlt := lookup_lt_Some _ _ _ Hi).
  unfold moved. unfold source_step in Hs. rewrite Hst, Hh in Hs. destruct (src_pc c) as [| | |h0|h0 s already|h0 s| |] eqn:Ep; simplify_eq.
  - eexists. split; [by eapply up_set|done].
  - eexists. split; [by eapply up_set|done].
  - assert (Hw : (i, src_gen c) ∉ w_woken w).
    { intros Hin. destruct (ok_named w Hok (i, src_gen c)) as (c' & Hc' & Hg); [by left|]. cbn in *. rewrite Hi in Hc'. simplify_eq. lia. }
    unfold subscribe in *. destruct (hub_closed w h0) eqn:E0.
    + eexists. split; [by eapply up_set|]. split; [done|]. split; [done|]. intros ->. congruence.
    + assert (Hcl := closed_alter (fun l => l ++ [(i, src_gen c)]) w h0 h).
      assert (Hsub := subs_alter (fun l => l ++ [(i, src_gen c)]) w h0 h (or_intror E0)).
      eexists. split; [by eapply up_set|]. split; [done|]. split; [done|]. intros ->. rewrite decide_True in Hsub by done.
      match type of Hsub with hub_subs ?x _ = _ => change ((i, src_gen c) ∈ hub_subs x h) end.
      rewrite Hsub. apply elem_of_app. right. by left.
  - destruct already; (eexists; split; [by eapply up_set|done]).
  - destruct (false || _); simplify_eq. assert (Hcl := closed_alter (filter (fun y => y <> s)) w h0 h).
    eexists. split; [by eapply up_set|done].
Qed.

(** Subscribed to the open hub and not woken: it stays there. *)
Lemma settled w i h c s :
  up w i h c -> src_pc c = Waiting h s -> s ∈ hub_subs w h -> s ∉ w_woken w -> settles 0 w i h.
Proof.
  intros Hup Hp Hs Hw. exists 0, w, c, s. do 5 (split; [done|]). cbn. rewrite (up_src _ _ _ _ Hup). cbn.
  unfold source_step. rewrite Hp, (up_stop _ _ _ _ Hup). cbn. by rewrite bool_decide_false.
Qed.

Lemma settles_move k w i h c :
  up w i h c -> source_step i true c w <> None ->
  (forall w1 c1, up w1 i h c1 -> moved i h w c w1 c1 -> settles k w1 i h) -> settles (S k) w i h.
Proof.
  intros H Hs Hk. destruct (source_step i true c w) as [w1|] eqn:E; [|done].
  destruct (up_step _ _ _ _ _ H E) as (F & c1 & H1 & P). eapply settles_step; [exact F|eauto].
Qed.

(** The move of a source that does not wait. *)
Ltac moves H Hp :=
  apply (settles_move _ _ _ _ _ H); [unfold source_step; by rewrite Hp|];
  let w := fresh "w" in let c := fresh "c" in let H' := fresh "H" in let P := fresh "P" in
  intros w c H' P; unfold moved in P; rewrite Hp in P.

Lemma from_registered_open w i h c s :
  up w i h c -> src_pc c = Registered h s false -> s ∉ w_woken w -> s ∈ hub_subs w h -> settles 1 w i h.
Proof.
  intros H Hp Hw Hs. moves H Hp. destruct P as (P & Ew & Es).
  eapply settled; [done|done|by rewrite Es|by rewrite (Ew eq_refl)].
Qed.

Lemma from_top w i h c : up w i h c -> src_pc c = Top -> settles 3 w i h.
Proof.
  intros H Hp. moves H Hp. moves H0 P. destruct P0 as (P0 & Hw & Hs). rewrite (up_open _ _ _ _ H0) in P0.
  eapply from_registered_open; eauto.
Qed.

Lemma from_waiting w i h c h0 s : up w i h c -> src_pc c = Waiting h0 s -> settles 4 w i h.
Proof.
  intros H Hp. assert (Hc := ok_srcs w (up_ok _ _ _ _ H) i c (up_src _ _ _ _ H)). unfold src_ok in Hc. rewrite Hp in Hc.
  destruct Hc as (_ & _ & Ht). destruct (decide (s ∈ w_woken w)) as [Hw|Hw].
  - apply (settles_move _ _ _ _ _ H).
    { unfold source_step. by rewrite Hp, (up_stop _ _ _ _ H), bool_decide_true by done. }
    intros w1 c1 H1 P. unfold moved in P. rewrite Hp in P. by eapply from_top.
  - apply (settles_le 0); [lia|]. destruct Ht as [?|[[Ho Hs]|(l & Hl & _)]]; [done| |by rewrite (up_down _ _ _ _ H) in Hl].
    assert (h0 = h) as ->.
    { destruct (ok_open w (up_ok _ _ _ _ H) h0 Ho) as [E|E]; [by rewrite (up_hub _ _ _ _ H) in E; simplify_eq|].
      by rewrite (up_down _ _ _ _ H) in E. }
    by eapply settled.
Qed.

Lemma from_registered w i h c h0 s a : up w i h c -> src_pc c = Registered h0 s a -> settles 5 w i h.
Proof. intros H Hp. moves H Hp. destruct P as (P & _). by eapply from_waiting. Qed.

(** Where [run] is neither idle, returned nor raised. *)
Definition running (c : source) : bool := match src_pc c with Idle | Returned | Raised => false | _ => true end.

Lemma up_settles w i h c : up w i h c -> running c = true -> settles 6 w i h.
Proof.
  intros H Hr. unfold running in Hr. destruct (src_pc c) as [| | |h0|h0 s a|h0 s| |] eqn:Ep; try done.
  - apply (settles_le 3); [lia|]. by eapply from_top.
  - apply (settles_le 4); [lia|]. moves H Ep. by eapply from_top.
  - moves H Ep. destruct P as (P & _). by eapply from_registered.
  - apply (settles_le 5); [lia|]. by eapply from_registered.
  - apply (settles_le 4); [lia|]. by eapply from_waiting.
Qed.

(** C18: However engines, hubs and subscribers came and went before: once a
    hub is up and open, every stats source that is running and not stopped is
    registered with it and waits on it within six of its own turns. *)
Theorem sources_rebind n es w i h c :
  feed_run (feed_init n) es = Some w -> w_down w = None -> w_hub w = Some h -> hub_closed w h = false ->
  w_srcs w !! i = Some c -> src_stop c = false -> running c = true ->
  settles 6 w i h.
Proof.
  intros Hr Hd Hh Hc Hi Hs Hrun. apply (up_settles w i h c); [|done]. split; try done.
  eapply feed_run_ok, Hr. apply feed_init_ok.
Qed.

(** ** The window of a failing set-up *)

Definition spinning (k : nat) (subs woken : list sub_id) : world :=
  mkWorld (Some 0) [mkHubS true subs] None [mkSource (Waiting 0 (0, k)) false (S k)] woken.

Definition turn : list feed_ev := replicate 4 (SourceStep 0 true).

Lemma spin_turn k subs woken :
  (0, k) ∈ woken -> exists subs', feed_run (spinning k subs woken) turn = Some (spinning (S k) subs' ((0, S k) :: woken)).
Proof. intros H. eexists. cbn. by rewrite (bool_decide_true _ H). Qed.

Lemma spin_turns n k subs woken :
  (0, k) ∈ woken ->
  exists subs' woken', feed_run (spinning k subs woken) (concat (replicate n turn)) = Some (spinning (n + k) subs' woken') /\
    (0, n + k) ∈ woken'.
Proof.
  revert k subs woken. induction n as [|n IH]; intros k subs woken H; [by eauto|].
  destruct (spin_turn k subs woken H) as (subs1 & E).
  destruct (IH (S k) subs1 ((0, S k) :: woken) ltac:(by left)) as (subs' & woken' & E' & H').
  exists subs', woken'. cbn [replicate concat]. replace (S n + k) with (n + S k) by lia. split; [|done].
  by rewrite (feed_run_app _ turn), E.
Qed.

(** From the [close] of a failing set-up to the moment it forgets its hub, a
    source turns round the closed hub as often as its loop runs, subscribing
    and replaying the sessions each time. *)
Lemma failed_setup_spins n :
  let setup := [EnginePublish; SourceRun 0] ++ replicate 3 (SourceStep 0 true) ++ [EngineFail; EngineWake; EngineWake] in
  exists w subs woken, feed_run (feed_init 1) setup = Some w /\
    feed_run w (concat (replicate n turn)) = Some (spinning n subs woken) /\
    feed_step (spinning n subs woken) EngineForget <> None.
Proof.
  cbn zeta. destruct (spin_turns n 0 [(0, 0)] [(0, 0)] ltac:(by left)) as (subs & woken & E & _).
  rewrite Nat.add_0_r in E. exists (spinning 0 [(0, 0)] [(0, 0)]), subs, woken. done.
Qed.
