(* ===== verification/Cards.v ===== *)
(** * wfb/cards.py: the cards of the link

    [link.cards] is a list of wifi cards, each on this host or on a remote
    node; [link.wlans] is the legacy list of local interfaces.  [parse_cards]
    chooses between the two, [resolve_cards] expands "auto" with the detected
    interfaces (the detector reads sysfs and is a parameter). *)
From Stdlib Require Import ZArith Lia Bool String.
From stdpp Require Import base tactics list strings.
From S2P Require Import Prelude PyStr Json.
Open Scope Z_scope.

(** The fields keep whatever JSON value the entry carries; only the port is
    converted. *)
Record Card (F : Type) := mkCard {
  host : json F; iface : json F; ssh_user : json F; ssh_port : Z;
  ssh_key : json F; txpower_dbm : json F; init_script : json F }.
Arguments mkCard {F}.
Arguments host {F} _.
Arguments iface {F} _.
Arguments ssh_user {F} _.
Arguments ssh_port {F} _.
Arguments ssh_key {F} _.
Arguments txpower_dbm {F} _.
Arguments init_script {F} _.

(** A list of cards, or the string "auto". *)
Inductive parsed_cards (F : Type) := Auto | Cards (cs : list (Card F)).
Arguments Auto {F}.
Arguments Cards {F} cs.

Section Cards.
Context {F : Type} {PF : PyFloat F}.
Implicit Types (d : list (string * json F)) (v : json F) (c : Card F).

(** [d.get(k, default)] on a dict. *)
Definition get_or (k : string) (default : json F) d : json F :=
  match dict_get k d with Some x => x | None => default end.
(** [d.get(k)]. *)
Definition get_ (k : string) d : json F := get_or k JNull d.
(** [k in d]. *)
Definition has_key (k : string) d : bool := is_some (dict_get k d).

(** [v == s] for a string [s]. *)
Definition is_string (s : string) v : bool := match v with JStr t => String.eqb t s | _ => false end.

Definition is_local c : bool := is_none (host c).
Definition is_rx_only c : bool := is_string "off" (txpower_dbm c).

(** [Card(host=None, iface=entry)]. *)
Definition local_card (i : json F) : Card F := mkCard JNull i (JStr "root") 22 JNull JNull JNull.

Definition _card_from_dict d : res (Card F) :=
  raise_if (negb (has_key "iface" d)) (ValueError "card object requires 'iface'") ;;;
  let* port := py_int (get_or "sshPort" (JInt 22) d) in
  Ok (mkCard (get_ "host" d) (get_ "iface" d) (get_or "sshUser" (JStr "root") d) port
             (get_ "sshKey" d) (get_ "txPowerDbm" d) (get_ "initScript" d)).

Definition card_of_entry v : res (Card F) :=
  match v with
  | JStr _ => Ok (local_card v)
  | JDict d => _card_from_dict d
  | _ => Err (ValueError "invalid card entry")
  end.

Definition _parse_entries (entries : list (json F)) : res (list (Card F)) := map_res card_of_entry entries.

Definition parse_cards (link : list (string * json F)) : res (parsed_cards F) :=
  match get_ "cards" link with
  | JList l => let* cs := _parse_entries l in Ok (Cards cs)
  | _ => match get_ "wlans" link with
         | JList l =>
             let* cs := _parse_entries l in
             raise_if (existsb (fun c => negb (is_local c)) cs)
               (ValueError "link.wlans (legacy) cannot contain a remote card entry") ;;;
             Ok (Cards cs)
         | _ => Ok Auto
         end
  end.

(** [nics]: what the NIC detector returns. *)
Definition resolve_cards (effective : list (string * json F)) (nics : list string) : res (list (Card F)) :=
  match get_or "link" (JDict []) effective with
  | JDict link =>
      let* p := parse_cards link in
      match p with
      | Cards cs => Ok cs
      | Auto => Ok (map (fun i => local_card (JStr i)) nics)
      end
  | _ => Err AttributeError
  end.

Definition local_ifaces (cs : list (Card F)) : list (json F) := map iface (List.filter is_local cs).
Definition remote_cards (cs : list (Card F)) : list (Card F) := List.filter (fun c => negb (is_local c)) cs.
Definition has_remote (cs : list (Card F)) : bool := existsb (fun c => negb (is_local c)) cs.

(** ** What the cards resolve to *)

Lemma existsb_false {A} (p : A -> bool) l : existsb p l = false <-> Forall (fun x => p x = false) l.
Proof.
  induction l as [|x l IH]; simpl; [by split|]. rewrite orb_false_iff, IH, Forall_cons. done.
Qed.

(** Local cards and remote cards partition a card list. *)
Lemma cards_partition (cs : list (Card F)) :
  local_ifaces cs ++ map iface (remote_cards cs) ≡ₚ map iface cs.
Proof.
  unfold local_ifaces, remote_cards. induction cs as [|c cs IH]; [done|]. simpl.
  destruct (is_local c); simpl; [by rewrite IH|].
  rewrite <- IH. by rewrite Permutation_middle.
Qed.

Lemma has_remote_spec (cs : list (Card F)) : has_remote cs = false <-> remote_cards cs = [].
Proof.
  unfold has_remote, remote_cards. induction cs as [|c cs IH]; simpl; [by split|].
  destruct (is_local c); simpl; [exact IH|]. by split.
Qed.

(** A remote card only ever comes from an explicit [cards] list. *)
Lemma remote_needs_cards (link : list (string * json F)) cs :
  parse_cards link = Ok (Cards cs) -> has_remote cs = true ->
  exists l, get_ "cards" link = JList l /\ _parse_entries l = Ok cs.
Proof.
  unfold parse_cards. intros H Hr.
  destruct (get_ "cards" link) as [| | | | |l|];
    [..|exists l; split; [done|]; by apply rbind_ok in H as (cs' & -> & [= <-])|];
    (destruct (get_ "wlans" link) as [| | | | |l|]; try done;
     apply rbind_ok in H as (cs0 & _ & ([] & Hf & [= ->])%rbind_ok);
     apply raise_if_ok in Hf; unfold has_remote in Hr; congruence).
Qed.

Lemma resolve_parsed (cfg link : list (string * json F)) nics p :
  get_or "link" (JDict []) cfg = JDict link -> parse_cards link = Ok p ->
  resolve_cards cfg nics = Ok (match p with Cards cs => cs | Auto => map (fun i => local_card (JStr i)) nics end).
Proof. unfold resolve_cards. intros -> ->. by destruct p. Qed.

Lemma auto_all_local nics : has_remote (map (fun i => local_card (JStr i)) nics) = false.
Proof. unfold has_remote. induction nics as [|i nics IH]; simpl; [done|exact IH]. Qed.

Lemma remote_card_entry (l : list (json F)) cs c :
  _parse_entries l = Ok cs -> c ∈ remote_cards cs ->
  exists d, JDict d ∈ l /\ _card_from_dict d = Ok c /\ is_local c = false.
Proof.
  intros H%map_res_ok Hin. apply list_elem_of_In, filter_In in Hin as [Hin Hl%negb_true_iff].
  apply list_elem_of_In, list_elem_of_lookup_1 in Hin as [i Hi].
  destruct (Forall2_lookup_r _ _ _ _ _ H Hi) as (v & Hv & Hc).
  destruct v as [| | | |s| |d]; try done; [by injection Hc as <-|].
  exists d. split; [by eapply list_elem_of_lookup_2|done].
Qed.
End Cards.
