(* ===== verification/Schema.v ===== *)
(** * schema.py: the validation of the configuration

    Every check of the validators is here in the order the code makes it, the
    exception it raises included.  The messages are the code's; where one
    lists the offending keys, the list is left out.  [bf_capable] is the hook
    [set_bf_capable] installs (a probe of the driver's sysfs nodes). *)
From Stdlib Require Import ZArith Lia Bool String Ascii.
From stdpp Require Import base tactics list sets strings.
From S2P Require Import Prelude PyStr Json Cards.
Open Scope Z_scope.

Definition LINK_KEYS : list string :=
  ["channel"; "width"; "txPowerDbm"; "region"; "linkId"; "beamforming"; "cards"; "serverAddress";
   "wlans"; "videoEncryption"].
Definition CONFIG_TOP_KEYS : list string :=
  ["link"; "wfb"; "drone"; "dynamicLink"; "pixelpilot"; "idrForward"; "connectionMonitor"].
Definition DYNAMIC_LINK_KEYS : list string :=
  ["enabled"; "maxMcs"; "dronePort"; "selector"; "smoothing"; "flightlog"; "learnedPrior"; "tap"; "probe"].
Definition DRONE_KEYS : list string := ["host"; "apiPort"].
Definition SELECTOR_KEYS : list string :=
  ["videoDemotePer"; "emergencyFecPressure"; "holdModesDownMs"; "minBetweenChangesMs"; "starvationWindows";
   "snrPromoteMarginDb"; "snrDemoteMarginDb"; "flapBaseBackoffMs"; "flapBackoffMult"; "flapBackoffCapMs";
   "flapResetCleanDwellTicks"; "trialWindowMs"; "promoteDwellTicks"; "promoteSlopeMin"; "collapseDeltaDb";
   "snapbackRecoverMarginDb"; "confirmTtlMs"; "flapSnrReleaseDb"; "flapDecayMs"].
Definition SMOOTHING_KEYS : list string :=
  ["ewmaAlphaRssi"; "ewmaAlphaFec"; "ewmaAlphaBurst"; "starvationThresholdPps"].
Definition LEARNED_PRIOR_KEYS : list string :=
  ["settleTicks"; "viableLoss"; "alphaTighten"; "alphaRelax"; "minSamples"; "recencyDecay"].
Definition TAP_KEYS : list string := ["enabled"; "port"; "staleMs"; "captureRaw"].
Definition PROBE_KEYS : list string := ["enabled"].
Definition CARD_KEYS : list string :=
  ["host"; "iface"; "sshUser"; "sshPort"; "sshKey"; "txPowerDbm"; "initScript"].
Definition VALID_WIDTHS : list Z := [5; 10; 20; 40].
Definition TX_SELECTOR_KEYS : list string := ["rssiDeltaDb"; "counterRelDelta"; "counterAbsDelta"].

Section Schema.
Context {F : Type} {PF : PyFloat F}.
Implicit Types (v : json F).
#[local] Abbreviation dict := (list (string * json F)).

(** ** Python idioms of the validators *)

(** [if c: raise SchemaError(msg)]. *)
Definition check (c : bool) (msg : string) : res unit := raise_if c (SchemaError msg).

Definition has_unknown (known : list string) (d : dict) : bool :=
  match unknown_keys known d with [] => false | _ => true end.

(** [isinstance(v, (int, float))] for a [v] that is not a [bool]. *)
Definition number v : bool := match v with JInt _ | JFloat _ => true | _ => false end.

(** Comparisons of a number with an integral constant. *)
Definition le_Z v (c : Z) : bool := match v with JInt z => z <=? c | _ => num_val v <=f fofZ c end.
Definition Z_le (c : Z) v : bool := match v with JInt z => c <=? z | _ => fofZ c <=f num_val v end.
Definition lt_Z v (c : Z) : bool := match v with JInt z => z <? c | _ => num_val v <f fofZ c end.
Definition Z_lt (c : Z) v : bool := match v with JInt z => c <? z | _ => fofZ c <f num_val v end.

(** [a <= b]: numbers compare (two ints exactly, an int with a float as a
    float); a null operand raises.  The two places that use it have rejected
    strings, lists and dicts before. *)
Definition py_le (a b : json F) : res bool :=
  if is_num a && is_num b
  then Ok (match a, b with JInt x, JInt y => x <=? y | _, _ => num_val a <=f num_val b end)
  else Err TypeError.

(** [isinstance(v, bool) or not isinstance(v, int) or not lo <= v <= hi]. *)
Definition bad_int (lo hi : Z) v : bool :=
  match v with JInt z => negb ((lo <=? z) && (z <=? hi)) | _ => true end.

(** [not isinstance(v, str) or not v]. *)
Definition bad_str v : bool := match v with JStr s => String.eqb s "" | _ => true end.

(** [v in (a, b, ...)]. *)
Definition in_ints v (zs : list Z) : bool :=
  match v with
  | JInt z => existsb (Z.eqb z) zs
  | JBool b => existsb (Z.eqb (if b then 1 else 0)) zs
  | JFloat f => existsb (fun z => feqb f (fofZ z)) zs
  | _ => false
  end.
(** [v in s] for a set [s], which hashes [v]. *)
Definition in_set v (zs : list Z) : res bool :=
  match v with JList _ | JDict _ => Err TypeError | _ => Ok (in_ints v zs) end.

(** [v or {}]. *)
Definition or_empty v : json F := if truthy v then v else JDict [].

(** [set(v) - known] raising [msg] when it is not empty, then [v] used as a
    dict.  A string iterates over its characters, a list over its items;
    neither has a [get].  (A list with an item that is not a string raises
    [TypeError], from hashing it or from sorting the message's key list.) *)
Definition known_dict (known : list string) (msg : string) v : res dict :=
  match v with
  | JDict d => check (has_unknown known d) msg ;;; Ok d
  | JStr s => check (existsb (fun c => negb (bool_decide (String c "" ∈ known))) (String.list_ascii_of_string s)) msg ;;;
              Err AttributeError
  | JList l =>
      raise_if (negb (forallb is_str l)) TypeError ;;;
      check (existsb (fun x => match x with JStr s => negb (bool_decide (s ∈ known)) | _ => true end) l) msg ;;;
      Err AttributeError
  | _ => Err TypeError
  end.

(** ** The shared knob validators *)

Definition _validate_block_keys (name : string) (known : list string) v : res dict :=
  match v with
  | JDict d => check (has_unknown known d) ("unknown " +:+ name +:+ " keys") ;;; Ok d
  | _ => Err (SchemaError (name +:+ " must be an object"))
  end.

Definition _validate_prob (name : string) v : res unit :=
  check (negb (is_none v) && (negb (number v) || negb (Z_le 0 v && le_Z v 1))) (name +:+ " must be a number in 0..1").

Definition _validate_alpha (name : string) v : res unit :=
  check (negb (is_none v) && (negb (number v) || negb (Z_lt 0 v && le_Z v 1))) (name +:+ " must be a number in (0,1]").

Definition _validate_pos_int (name : string) v : res unit :=
  check (negb (is_none v) && match v with JInt z => z <=? 0 | _ => true end) (name +:+ " must be a positive int").

Definition _validate_non_neg_num (name : string) v : res unit :=
  check (negb (is_none v) && (negb (number v) || lt_Z v 0)) (name +:+ " must be a non-negative number").

(** ** The blocks *)

Definition _validate_drone v : res unit :=
  match v with
  | JDict dr =>
      check (bad_str (get_or "host" (JStr "10.5.0.10") dr)) "drone.host must be a non-empty string" ;;;
      check (bad_int 1 65535 (get_or "apiPort" (JInt 8080) dr)) "drone.apiPort must be an int in 1..65535"
  | _ => Err (SchemaError "drone must be an object")
  end.

Definition _validate_mavlink_peer (name : string) v : res unit :=
  match v with
  | JStr s =>
      check (String.eqb s "") (name +:+ " must be a non-empty string") ;;;
      let '(scheme, sep, rest) := partition_at "://" s in
      check (negb sep || negb (String.eqb scheme "connect" || String.eqb scheme "listen"))
        (name +:+ " must match connect://host:port or listen://host:port") ;;;
      let '(hst, sep2, port) := rpartition_char ":" rest in
      check (negb sep2 || String.eqb hst "" || negb (isdigit port))
        (name +:+ " must match connect://host:port or listen://host:port")
  | _ => Err (SchemaError (name +:+ " must be a non-empty string"))
  end.

Definition validate_tx_selector v : res unit :=
  let* txsel := _validate_block_keys "wfb.txSelector" TX_SELECTOR_KEYS v in
  _validate_non_neg_num "wfb.txSelector.rssiDeltaDb" (get_ "rssiDeltaDb" txsel) ;;;
  _validate_prob "wfb.txSelector.counterRelDelta" (get_ "counterRelDelta" txsel) ;;;
  let abs_delta := get_ "counterAbsDelta" txsel in
  check (negb (is_none abs_delta) && match abs_delta with JInt z => z <? 0 | _ => true end)
    "wfb.txSelector.counterAbsDelta must be a non-negative int".

Definition _validate_wfb v : res unit :=
  match v with
  | JDict wfb =>
      let txsel := get_ "txSelector" wfb in
      (if is_none txsel then Ok tt else validate_tx_selector txsel) ;;;
      match get_ "mavlink" wfb with
      | JNull => Ok tt
      | JDict mav => _validate_mavlink_peer "wfb.mavlink.peer" (get_ "peer" mav)
      | _ => Err (SchemaError "wfb.mavlink must be an object")
      end
  | _ => Err (SchemaError "wfb must be an object")
  end.

Definition _validate_beamforming v : res unit :=
  match v with
  | JDict bf =>
      check (has_unknown ["enabled"] bf) "unknown link.beamforming keys" ;;;
      check (negb (is_bool (get_or "enabled" (JBool false) bf))) "link.beamforming.enabled must be a bool"
  | _ => Err (SchemaError "link.beamforming must be an object")
  end.

Definition validate_card (v : json F) : res unit :=
  match v with
  | JStr _ => Ok tt
  | JDict c =>
      check (negb (has_key "iface" c)) "link.cards object entries require 'iface'" ;;;
      check (has_unknown CARD_KEYS c) "unknown link.cards keys" ;;;
      check (has_key "host" c && bad_str (get_ "host" c)) "link.cards.host must be a non-empty string" ;;;
      check (bad_int 1 65535 (get_or "sshPort" (JInt 22) c)) "link.cards.sshPort must be an int in 1..65535" ;;;
      check (bad_str (get_or "sshUser" (JStr "root") c)) "link.cards.sshUser must be a non-empty string" ;;;
      (let ssh_key := get_ "sshKey" c in
       check (negb (is_none ssh_key) && negb (is_str ssh_key)) "link.cards.sshKey must be a string or absent") ;;;
      (let txp := get_ "txPowerDbm" c in
       check (has_key "txPowerDbm" c && (negb (is_none txp) && negb (is_string "off" txp) && negb (number txp)))
         "link.cards.txPowerDbm must be a number, 'off', or null") ;;;
      (let s := get_ "initScript" c in
       check (has_key "initScript" c && (negb (is_none s) && negb (is_str s)))
         "link.cards.initScript must be a string or null")
  | _ => Err (SchemaError "link.cards entries must be a string or an object")
  end.

Definition _validate_cards v : res unit :=
  match v with
  | JList cards => for_each validate_card cards
  | _ => Err (SchemaError "link.cards must be a list or 'auto'")
  end.

(** [len({h, ...}) > 1]: some element differs from the first. *)
Definition distinct_hosts (hosts : list (json F)) : res bool :=
  raise_if (existsb (fun h => is_list h || is_dict h) hosts) TypeError ;;;
  Ok (match hosts with [] => false | h :: t => existsb (fun x => negb (scalar_eqb h x)) t end).

Definition _validate_single_remote_host (link : dict) : res unit :=
  match parse_cards link with
  | Err (ValueError msg) => Err (SchemaError msg)
  | Err e => Err e
  | Ok Auto => Ok tt
  | Ok (Cards cs) =>
      let* many := distinct_hosts (map host (remote_cards cs)) in
      check many "multiple remote-card hosts not yet supported"
  end.

Definition validate_tap v : res unit :=
  match v with
  | JDict tap =>
      check (has_unknown TAP_KEYS tap) "unknown dynamicLink.tap keys" ;;;
      check (negb (is_bool (get_or "enabled" (JBool true) tap))) "dynamicLink.tap.enabled must be a bool" ;;;
      check (negb (is_bool (get_or "captureRaw" (JBool false) tap))) "dynamicLink.tap.captureRaw must be a bool" ;;;
      check (bad_int 1024 65535 (get_or "port" (JInt 8110) tap)) "dynamicLink.tap.port must be an int in 1024..65535" ;;;
      (let stale := get_or "staleMs" (JInt 500) tap in
       check (negb (number stale) || le_Z stale 0) "dynamicLink.tap.staleMs must be > 0")
  | _ => Err (SchemaError "dynamicLink.tap must be an object")
  end.

Definition validate_probe v : res unit :=
  match v with
  | JDict probe =>
      check (has_unknown PROBE_KEYS probe) "unknown dynamicLink.probe keys" ;;;
      check (has_key "enabled" probe && negb (is_bool (get_ "enabled" probe))) "dynamicLink.probe.enabled must be a bool"
  | _ => Err (SchemaError "dynamicLink.probe must be an object")
  end.

Definition SELECTOR_PROBS : list string := ["videoDemotePer"; "emergencyFecPressure"].
Definition SELECTOR_POS_INTS : list string := ["starvationWindows"; "promoteDwellTicks"].
Definition SELECTOR_NON_NEG : list string :=
  ["holdModesDownMs"; "minBetweenChangesMs"; "snrPromoteMarginDb"; "snrDemoteMarginDb"; "trialWindowMs";
   "collapseDeltaDb"; "snapbackRecoverMarginDb"; "confirmTtlMs"; "flapSnrReleaseDb"; "flapDecayMs"].

Definition validate_selector v : res unit :=
  let* sel := _validate_block_keys "dynamicLink.selector" SELECTOR_KEYS v in
  for_each (fun k => _validate_prob ("dynamicLink.selector." +:+ k) (get_ k sel)) SELECTOR_PROBS ;;;
  for_each (fun k => _validate_pos_int ("dynamicLink.selector." +:+ k) (get_ k sel)) SELECTOR_POS_INTS ;;;
  for_each (fun k => _validate_non_neg_num ("dynamicLink.selector." +:+ k) (get_ k sel)) SELECTOR_NON_NEG ;;;
  (let slope := get_ "promoteSlopeMin" sel in
   check (negb (is_none slope) && negb (number slope)) "dynamicLink.selector.promoteSlopeMin must be a number") ;;;
  let pm := get_or "snrPromoteMarginDb" (JFloat (fofZ 1)) sel in
  let dm := get_or "snrDemoteMarginDb" (JFloat (flit 15 10)) sel in
  let* bad := py_le dm pm in
  check bad "dynamicLink.selector.snrDemoteMarginDb must be > snrPromoteMarginDb (hysteresis dead-band)".

Definition validate_smoothing v : res unit :=
  let* sm := _validate_block_keys "dynamicLink.smoothing" SMOOTHING_KEYS v in
  for_each (fun k => _validate_alpha ("dynamicLink.smoothing." +:+ k) (get_ k sm))
    ["ewmaAlphaRssi"; "ewmaAlphaFec"; "ewmaAlphaBurst"] ;;;
  _validate_non_neg_num "dynamicLink.smoothing.starvationThresholdPps" (get_ "starvationThresholdPps" sm).

Definition validate_learned_prior v : res unit :=
  let* lp := _validate_block_keys "dynamicLink.learnedPrior" LEARNED_PRIOR_KEYS v in
  _validate_pos_int "dynamicLink.learnedPrior.settleTicks" (get_ "settleTicks" lp) ;;;
  _validate_non_neg_num "dynamicLink.learnedPrior.minSamples" (get_ "minSamples" lp) ;;;
  _validate_prob "dynamicLink.learnedPrior.viableLoss" (get_ "viableLoss" lp) ;;;
  for_each (fun k => _validate_alpha ("dynamicLink.learnedPrior." +:+ k) (get_ k lp))
    ["alphaTighten"; "alphaRelax"; "recencyDecay"].

Definition validate_flightlog v : res unit :=
  let* fl := _validate_block_keys "dynamicLink.flightlog" ["enabled"] v in
  check (negb (is_bool (get_or "enabled" (JBool true) fl))) "dynamicLink.flightlog.enabled must be a bool".

(** [v = d.get(k); if v is not None: body(v)]. *)
Definition opt_block (k : string) (body : json F -> res unit) (d : dict) : res unit :=
  let v := get_ k d in if is_none v then Ok tt else body v.

Definition _validate_dynamic_link v : res unit :=
  let* dl := known_dict DYNAMIC_LINK_KEYS "unknown dynamicLink keys" v in
  check (bad_int 0 7 (get_or "maxMcs" (JInt 5) dl)) "dynamicLink.maxMcs must be an int in 0..7" ;;;
  check (bad_int 1 65535 (get_or "dronePort" (JInt 9999) dl)) "dynamicLink.dronePort must be an int in 1..65535" ;;;
  opt_block "tap" validate_tap dl ;;;
  opt_block "probe" validate_probe dl ;;;
  check (negb (is_bool (get_or "enabled" (JBool false) dl))) "dynamicLink.enabled must be a bool" ;;;
  opt_block "selector" validate_selector dl ;;;
  opt_block "smoothing" validate_smoothing dl ;;;
  opt_block "learnedPrior" validate_learned_prior dl ;;;
  opt_block "flightlog" validate_flightlog dl.

Definition _validate_idr_forward v : res unit :=
  match v with
  | JDict idr =>
      check (negb (is_bool (get_or "enabled" (JBool true) idr))) "idrForward.enabled must be a bool" ;;;
      check (bad_int 1 65535 (get_or "port" (JInt 11223) idr)) "idrForward.port must be an int in 1..65535"
  | _ => Err AttributeError
  end.

Definition MONITOR_POSITIVE : list string :=
  ["tunnelStaleS"; "httpPollS"; "httpTimeoutS"; "evalIntervalS"; "disconnectGraceS"].

Definition _validate_connection_monitor v : res unit :=
  match v with
  | JDict cm =>
      check (negb (is_bool (get_or "enabled" (JBool true) cm))) "connectionMonitor.enabled must be a bool" ;;;
      for_each (fun k => let v := get_ k cm in
                  check (negb (is_none v) && (negb (number v) || le_Z v 0))
                    ("connectionMonitor." +:+ k +:+ " must be a positive number")) MONITOR_POSITIVE ;;;
      _validate_pos_int "connectionMonitor.httpFailCount" (get_ "httpFailCount" cm) ;;;
      let stale := get_or "tunnelStaleS" (JFloat (fofZ 4)) cm in
      let poll := get_or "httpPollS" (JFloat (flit 15 10)) cm in
      let* bad := py_le stale poll in
      check bad "connectionMonitor.tunnelStaleS must be > httpPollS"
  | _ => Err (SchemaError "connectionMonitor must be an object")
  end.

Definition opt_str (name : string) (d : dict) (key : string) : res unit :=
  let val := get_ key d in
  check (negb (is_none val) && bad_str val) (name +:+ "." +:+ key +:+ " must be a non-empty string").

Definition _validate_pixelpilot v : res unit :=
  match v with
  | JDict pp =>
      check (negb (is_bool (get_or "enabled" (JBool true) pp))) "pixelpilot.enabled must be a bool" ;;;
      check (bad_int 1 65535 (get_or "rtpPort" (JInt 5600) pp)) "pixelpilot.rtpPort must be an int in 1..65535" ;;;
      for_each (opt_str "pixelpilot" pp) ["screenMode"; "bin"; "configPath"; "osdConfigPath"; "codec"] ;;;
      match get_or "dvr" (JDict []) pp with
      | JDict dvr =>
          for_each (opt_str "pixelpilot.dvr" dvr) ["dir"; "template"] ;;;
          for_each (fun key => check (has_key key dvr && negb (is_bool (get_ key dvr)))
                                 ("pixelpilot.dvr." +:+ key +:+ " must be a bool")) ["fmp4"; "sequencedFiles"]
      | _ => Err (SchemaError "pixelpilot.dvr must be an object")
      end ;;;
      check (match get_or "env" (JDict []) pp with
             | JDict env => negb (forallb (fun kv => is_str kv.2) env)
             | _ => true
             end) "pixelpilot.env must be a map of string to string" ;;;
      check (match get_or "extraArgs" (JList []) pp with
             | JList extra => negb (forallb is_str extra)
             | _ => true
             end) "pixelpilot.extraArgs must be a list of strings"
  | _ => Err AttributeError
  end.

(** ** The two entry points *)

Definition patch_block (k : string) (known : list string) (sparse : dict) : res unit :=
  match get_ k sparse with
  | JNull => Ok tt
  | JDict d => check (has_unknown known d) ("unknown " +:+ k +:+ " keys")
  | _ => Err (SchemaError (k +:+ " must be an object"))
  end.

Definition validate_config_patch v : res unit :=
  let* sparse := known_dict CONFIG_TOP_KEYS "unknown config keys" v in
  patch_block "link" LINK_KEYS sparse ;;;
  patch_block "dynamicLink" DYNAMIC_LINK_KEYS sparse ;;;
  patch_block "drone" DRONE_KEYS sparse.

(** The checks on the [link] block, up to [_bf_capable]. *)
Definition validate_link (bf_capable : option (dict -> res bool)) (cfg link : dict) : res unit :=
  let width := get_ "width" link in
  (if is_none width then Ok tt
   else let* ok := in_set width VALID_WIDTHS in check (negb ok) "link.width must be one of [5, 10, 20, 40]") ;;;
  (if in_ints width [5; 40]
   then let* en := obj_get "enabled" (JBool false) (or_empty (get_ "dynamicLink" cfg)) in
        check (truthy en) "link.width 5/40 MHz requires dynamicLink.enabled=false"
   else Ok tt) ;;;
  check (negb (truthy (get_ "region" link))) "link.region is required" ;;;
  check (negb (truthy (get_ "channel" link))) "link.channel is required" ;;;
  let bf := get_ "beamforming" link in
  (if is_none bf then Ok tt else _validate_beamforming bf) ;;;
  let cards := get_ "cards" link in
  (if is_none cards || is_string "auto" cards then Ok tt else _validate_cards cards) ;;;
  _validate_single_remote_host link ;;;
  let server_addr := get_ "serverAddress" link in
  check (negb (is_none server_addr) && negb (is_str server_addr)) "link.serverAddress must be a string or null" ;;;
  match bf, bf_capable with
  | JDict d, Some capable =>
      if truthy (get_ "enabled" d)
      then let* ok := capable cfg in check (negb ok) "beamforming requires a card with a bf_monitor_conf node"
      else Ok tt
  | _, _ => Ok tt
  end.

Definition validate_effective (bf_capable : option (dict -> res bool)) (cfg : dict) : res unit :=
  match get_or "link" (JDict []) cfg with
  | JDict link => validate_link bf_capable cfg link
  | _ => Err AttributeError
  end ;;;
  opt_block "dynamicLink" _validate_dynamic_link cfg ;;;
  opt_block "pixelpilot" _validate_pixelpilot cfg ;;;
  opt_block "idrForward" _validate_idr_forward cfg ;;;
  opt_block "connectionMonitor" _validate_connection_monitor cfg ;;;
  opt_block "drone" _validate_drone cfg ;;;
  opt_block "wfb" _validate_wfb cfg.
End Schema.

(* ------------------------------------------------------------------ *)
(** ** What a validated configuration guarantees *)

Section Facts.
Context {F : Type} {PF : PyFloat F}.
Implicit Types (v : json F) (d : list (string * json F)).

Lemma check_ok c msg : check c msg = Ok tt <-> c = false.
Proof. apply raise_if_ok. Qed.

(** Only [SchemaError], or [TypeError] under the condition [P]. *)
Definition schema_or {A} (P : Prop) (m : res A) : Prop :=
  match m with Ok _ => True | Err (SchemaError _) => True | Err e => e = TypeError /\ P end.

Lemma schema_or_bind {A B} P (m : res A) (k : A -> res B) :
  schema_or P m -> (forall a, m = Ok a -> schema_or P (k a)) -> schema_or P (rbind m k).
Proof. destruct m as [a|[]]; cbn; auto. Qed.

Lemma schema_or_check P c msg : schema_or P (check c msg).
Proof. by destruct c. Qed.

Lemma schema_or_mono {A} (P Q : Prop) (m : res A) : (P -> Q) -> schema_or P m -> schema_or Q m.
Proof. destruct m as [|[]]; cbn; tauto. Qed.

Lemma schema_or_for_each {A} P (body : A -> res unit) l :
  (forall x, schema_or P (body x)) -> schema_or P (for_each body l).
Proof. intros H. induction l as [|x l IH]; cbn; [done|]. by apply schema_or_bind. Qed.

Lemma schema_or_block_keys P name known v : schema_or P (_validate_block_keys name known v).
Proof. destruct v; try done. apply schema_or_bind; [apply schema_or_check|done]. Qed.

Lemma schema_or_opt P k body d : (forall v, schema_or P (body v)) -> schema_or P (opt_block k body d).
Proof. intros H. unfold opt_block. by destruct (is_none _). Qed.

Ltac schema_only :=
  repeat match goal with
  | |- schema_or _ (check _ _) => apply schema_or_check
  | |- schema_or _ (Ok _) => done
  | |- schema_or _ (Err (SchemaError _)) => done
  | |- schema_or _ (rbind _ _) => apply schema_or_bind; [|intros ? ?]
  | |- schema_or _ (for_each _ _) => apply schema_or_for_each; intros ?
  | |- schema_or _ (_validate_block_keys _ _ _) => apply schema_or_block_keys
  | |- schema_or _ (opt_block _ _ _) => apply schema_or_opt; intros ?
  | |- schema_or _ (match ?v with _ => _ end) => destruct v
  end.

(** A numeric knob [k] of block [d] is present and null. *)
Definition null_knob (k : string) d : Prop := dict_get k d = Some JNull.

Lemma get_or_num k (dflt : json F) d msg :
  check (negb (is_none (get_ k d)) && negb (number (get_ k d))) msg = Ok tt ->
  number dflt = true -> number (get_or k dflt d) = true \/ null_knob k d.
Proof.
  intros H%check_ok Hd. unfold get_, get_or, null_knob in *. destruct (dict_get k d) as [x|]; [|by left].
  destruct x; cbn in *; try done; auto.
Qed.

Lemma non_neg_number name v msg :
  _validate_non_neg_num name v = Ok tt -> check (negb (is_none v) && negb (number v)) msg = Ok tt.
Proof. intros H%check_ok. apply check_ok. destruct (is_none v), (number v); done. Qed.

Lemma py_le_num (a b : json F) : number a = true -> number b = true -> exists r, py_le a b = Ok r.
Proof. destruct a, b; cbn; try done; eauto. Qed.

Lemma schema_or_py_le P k1 k2 (d1 d2 : json F) d msg :
  number d1 = true -> number d2 = true ->
  check (negb (is_none (get_ k1 d)) && negb (number (get_ k1 d))) msg = Ok tt ->
  check (negb (is_none (get_ k2 d)) && negb (number (get_ k2 d))) msg = Ok tt ->
  (null_knob k1 d \/ null_knob k2 d -> P) -> schema_or P (py_le (get_or k1 d1 d) (get_or k2 d2 d)).
Proof.
  intros H1 H2 C1 C2 HP.
  destruct (get_or_num _ d1 _ _ C1 H1) as [N1|N1], (get_or_num _ d2 _ _ C2 H2) as [N2|N2].
  { destruct (py_le_num _ _ N1 N2) as [r ->]. done. }
  all: unfold py_le; destruct (is_num _ && is_num _); [done|split; [done|auto]].
Qed.

Definition null_margin v : Prop :=
  exists sel, v = JDict sel /\ (null_knob "snrDemoteMarginDb" sel \/ null_knob "snrPromoteMarginDb" sel).

Lemma selector_schema v : schema_or (null_margin v) (validate_selector v).
Proof.
  unfold validate_selector, _validate_prob, _validate_pos_int.
  apply schema_or_bind; [apply schema_or_block_keys|]. intros sel Hsel.
  assert (v = JDict sel) as ->.
  { destruct v; try done. by apply rbind_ok in Hsel as ([] & _ & [= ->]). }
  do 2 (apply schema_or_bind; [schema_only|intros _ _]).
  apply schema_or_bind; [unfold _validate_non_neg_num; schema_only|].
  intros [] Hnn%for_each_ok. rewrite Forall_forall in Hnn.
  apply schema_or_bind; [schema_only|intros _ _]. apply schema_or_bind; [|schema_only; intros; schema_only].
  apply (schema_or_py_le _ _ _ _ _ _ ""); try done.
  1,2: eapply non_neg_number, Hnn; set_solver.
  intros H. by exists sel.
Qed.

Lemma opt_block_schema k (body : json F -> res unit) d (P : json F -> Prop) Q :
  (forall v, schema_or (P v) (body v)) -> (P (get_ k d) -> Q) -> schema_or Q (opt_block k body d).
Proof. intros H HQ. unfold opt_block. destruct (is_none _); [done|]. eapply schema_or_mono; [exact HQ|apply H]. Qed.

(** Validation of a [dynamicLink] object fails with [SchemaError]. *)
Theorem dynamic_link_errors d e :
  _validate_dynamic_link (JDict d) = Err e ->
  (exists msg, e = SchemaError msg) \/ (e = TypeError /\ null_margin (get_ "selector" d)).
Proof.
  intros H. cut (schema_or (null_margin (get_ "selector" d)) (_validate_dynamic_link (JDict d))).
  { rewrite H. destruct e; cbn; eauto. }
  clear H. unfold _validate_dynamic_link, known_dict. apply schema_or_bind; [schema_only; done|]. intros d' Hd.
  apply rbind_ok in Hd as ([] & _ & [= ->]).
  repeat (apply schema_or_bind; [|intros _ _]).
  6: { eapply opt_block_schema; [apply selector_schema|done]. }
  all: unfold validate_tap, validate_probe, validate_smoothing, validate_learned_prior, validate_flightlog,
       _validate_alpha, _validate_non_neg_num, _validate_pos_int, _validate_prob; schema_only; intros; schema_only.
Qed.

(** The same for [connectionMonitor]. *)
Theorem monitor_errors d e :
  _validate_connection_monitor (JDict d) = Err e ->
  (exists msg, e = SchemaError msg) \/
  (e = TypeError /\ (null_knob "tunnelStaleS" d \/ null_knob "httpPollS" d)).
Proof.
  intros H. cut (schema_or (null_knob "tunnelStaleS" d \/ null_knob "httpPollS" d) (_validate_connection_monitor (JDict d))).
  { rewrite H. destruct e; cbn; eauto. }
  clear H. unfold _validate_connection_monitor, _validate_pos_int.
  apply schema_or_bind; [schema_only|intros _ _].
  apply schema_or_bind; [schema_only|]. intros [] Hpos%for_each_ok. rewrite Forall_forall in Hpos.
  apply schema_or_bind; [schema_only|intros _ _]. apply schema_or_bind; [|intros; schema_only].
  apply (schema_or_py_le _ _ _ _ _ _ ""); try done.
  all: apply check_ok; match goal with |- context [get_ ?k ?x] => specialize (Hpos k ltac:(set_solver)) end;
    cbn beta zeta in Hpos; apply check_ok in Hpos; destruct (is_none _), (number _); done.
Qed.

(** ** The remote host *)

Lemma opt_block_ok k (body : json F -> res unit) d v :
  opt_block k body d = Ok tt -> dict_get k d = Some v -> is_none v = false -> body v = Ok tt.
Proof. unfold opt_block, get_, get_or. intros H Hv Hn. rewrite Hv, Hn in H. done. Qed.

(** The checks [validate_effective] has passed on the cards of [link]. *)
Lemma validated_link bf (cfg : list (string * json F)) :
  validate_effective bf cfg = Ok tt ->
  exists link, get_or "link" (JDict []) cfg = JDict link /\
    (forall l, get_ "cards" link = JList l -> Forall (fun x => validate_card x = Ok tt) l) /\
    _validate_single_remote_host link = Ok tt.
Proof.
  unfold validate_effective. intros ([] & H & _)%rbind_ok.
  destruct (get_or "link" (JDict []) cfg) as [| | | | | |link]; try done. exists link. split; [done|].
  unfold validate_link in H.
  do 5 (apply rbind_ok in H as ([] & _ & H)). apply rbind_ok in H as ([] & Hc & H).
  apply rbind_ok in H as ([] & Hs & _). split; [|done].
  intros l E. rewrite E in Hc. cbn in Hc. by apply for_each_ok.
Qed.

(** The host of a card built from a validated entry: none, or a name. *)
Lemma card_host_string d c :
  validate_card (JDict d) = Ok tt -> _card_from_dict d = Ok c -> is_local c = false ->
  exists h, host c = JStr h /\ h <> "".
Proof.
  intros Hv Hc Hl. unfold _card_from_dict in Hc.
  apply rbind_ok in Hc as ([] & _ & (port & _ & [= <-])%rbind_ok). cbn [host] in *.
  cbn [validate_card] in Hv. do 2 (apply rbind_ok in Hv as ([] & _ & Hv)).
  apply rbind_ok in Hv as ([] & Hh & _). apply check_ok in Hh.
  unfold is_local in Hl. cbn [host] in Hl. unfold get_, get_or, has_key in *.
  destruct (dict_get "host" d) as [h|]; [|done]. cbn in Hh.
  destruct h as [| | | |s| |]; try done. exists s. split; [done|].
  cbn in Hh. by destruct (String.eqb_spec s "").
Qed.

Lemma distinct_hosts_one (hs : list (json F)) :
  distinct_hosts hs = Ok false -> Forall (fun h => exists s, h = JStr s) hs ->
  exists s, Forall (fun h => h = JStr s) hs.
Proof.
  unfold distinct_hosts. intros ([] & _ & [= H])%rbind_ok Hs.
  destruct hs as [|h t]; [by exists ""|]. inversion Hs as [|? ? [s ->] Ht]; subst.
  exists s. constructor; [done|]. apply existsb_false in H.
  rewrite Forall_forall in *. intros x Hx. destruct (Ht x Hx) as [t' ->]. specialize (H _ Hx). cbn in H.
  apply negb_false_iff, String.eqb_eq in H. by subst.
Qed.

(** The cards of a configuration that validates resolve without error,
    and all remote ones name the same non-empty host. *)
Theorem single_remote_host bf (cfg : list (string * json F)) nics :
  validate_effective bf cfg = Ok tt ->
  exists cs, resolve_cards cfg nics = Ok cs /\
    exists h, Forall (fun c => host c = JStr h /\ h <> "") (remote_cards cs).
Proof.
  intros H. destruct (validated_link _ _ H) as (link & Hl & Hcards & Hs). unfold _validate_single_remote_host in Hs.
  destruct (parse_cards link) as [p|[]] eqn:Hp; try done. exists (match p with Cards cs => cs | Auto => map (fun i => local_card (JStr i)) nics end).
  split; [by apply resolve_parsed with link|]. destruct p as [|cs].
  { exists "h". rewrite (proj1 (has_remote_spec _) (auto_all_local nics)). constructor. }
  destruct (has_remote cs) eqn:Hr; [|exists "h"; rewrite (proj1 (has_remote_spec _) Hr); constructor].
  destruct (remote_needs_cards _ _ Hp Hr) as (l & El & Hparse). specialize (Hcards _ El).
  rewrite Forall_forall in Hcards.
  assert (Hh : Forall (fun c => exists h, host c = JStr h /\ h <> "") (remote_cards cs)).
  { apply Forall_forall. intros c Hc. destruct (remote_card_entry _ _ _ Hparse Hc) as (d & Hd & Hcd & Hloc).
    by eapply card_host_string; [apply Hcards, Hd|..]. }
  apply rbind_ok in Hs as (many & Hm & Hc). apply check_ok in Hc. subst many.
  destruct (distinct_hosts_one _ Hm) as [h Hall].
  { apply Forall_map. eapply Forall_impl; [exact Hh|]. intros c (h & -> & _). by exists h. }
  exists h. rewrite Forall_map, Forall_forall in Hall. rewrite Forall_forall in *.
  intros c Hc. destruct (Hh c Hc) as (h' & E & Hne). specialize (Hall c Hc). cbn in Hall.
  rewrite Hall in E. injection E as <-. done.
Qed.
End Facts.
