(* ===== verification/Events.v ===== *)
(** * events.py: the in-process event bus

    [publish] snapshots the subscribers and caches the payload under the
    lock, then calls the subscribers one after the other outside it; an
    exception of one is logged and the next is called.  All of them receive
    the same payload dict, so what one stores in it the next one sees; the
    cache holds a copy of its bindings.  The values of a payload are
    references ([V] is whatever they denote): the copy is shallow. *)
From Stdlib Require Import ZArith Lia Bool String.
From stdpp Require Import base tactics list strings gmap.
From S2P Require Import Prelude Json.

Definition DRONE_CONNECTED : string := "drone.connected".
Definition DRONE_DISCONNECTED : string := "drone.disconnected".

Definition _STATE_KEY (event : string) : option string :=
  if String.eqb event DRONE_CONNECTED || String.eqb event DRONE_DISCONNECTED then Some "drone" else None.

Section Bus.
Context {V : Type}.
Definition payload : Type := list (string * V).

(** A callback is known by its identity; [behave] below says what it does. *)
Record EventBus := mkBus { eb_subs : gmap string (list nat); eb_state : gmap string payload }.
#[export] Instance eta_bus : Settable EventBus := fun b => mkBus (eb_subs b) (eb_state b).

Definition bus_init : EventBus := mkBus ∅ ∅.

Implicit Types (b : EventBus) (event : string) (cb : nat) (p : payload).

Definition subs_of b event : list nat := default [] (eb_subs b !! event).

Definition subscribe b event cb : EventBus := b <| eb_subs ::= <[event := subs_of b event ++ [cb]]> |>.

(** [list.remove]: the first occurrence. *)
Fixpoint remove_first (cb : nat) (l : list nat) : list nat :=
  match l with
  | [] => []
  | x :: l' => if Nat.eqb cb x then l' else x :: remove_first cb l'
  end.

Definition unsubscribe b event cb : EventBus :=
  if existsb (Nat.eqb cb) (subs_of b event)
  then b <| eb_subs ::= <[event := remove_first cb (subs_of b event)]> |>
  else b.

(** [behave cb p]: the payload as the callback leaves it, and whether the
    callback raised.  The second component of the loop is what each callback
    received, in call order. *)
Fixpoint dispatch (behave : nat -> payload -> payload * bool) (subs : list nat) p : list (nat * payload) :=
  match subs with
  | [] => []
  | cb :: subs' => let '(p', _raised) := behave cb p in (cb, p) :: dispatch behave subs' p'
  end.

Definition publish (behave : nat -> payload -> payload * bool) b event p : EventBus * list (nat * payload) :=
  let b' := match _STATE_KEY event with
            | Some key => b <| eb_state ::= <[key := p]> |>
            | None => b
            end in
  (b', dispatch behave (subs_of b event) p).

Definition bus_get b (key : string) : option payload := eb_state b !! key.

(** ** Delivery and the state cache *)

Inductive bus_op := OpSub (event : string) (cb : nat) | OpUnsub (event : string) (cb : nat)
  | OpPub (event : string) (p : payload).

Section Runs.
Variable behave : nat -> payload -> payload * bool.

Definition bus_step b (op : bus_op) : EventBus * list (nat * payload) :=
  match op with
  | OpSub e cb => (subscribe b e cb, [])
  | OpUnsub e cb => (unsubscribe b e cb, [])
  | OpPub e p => publish behave b e p
  end.

Fixpoint bus_run b (ops : list bus_op) : EventBus :=
  match ops with [] => b | op :: ops' => bus_run (bus_step b op).1 ops' end.

(** The payload of the last drone event of a history. *)
Definition last_drone (ops : list bus_op) : option payload :=
  fold_left (fun acc op => match op with
                           | OpPub e p => if is_some (_STATE_KEY e) then Some p else acc
                           | _ => acc end) ops None.

(** How many registrations of [cb] for [e] a history leaves. *)
Definition subscriptions (e : string) (cb : nat) (ops : list bus_op) : nat :=
  fold_left (fun n op => match op with
                         | OpSub e' cb' => if String.eqb e e' && Nat.eqb cb cb' then S n else n
                         | OpUnsub e' cb' => if String.eqb e e' && Nat.eqb cb cb' then pred n else n
                         | OpPub _ _ => n end) ops O.

Lemma dispatch_calls subs p : map fst (dispatch behave subs p) = subs.
Proof.
  revert p. induction subs as [|cb subs IH]; intros p; simpl; [done|].
  destruct (behave cb p) as [p' r]. simpl. by rewrite IH.
Qed.

Definition count (cb : nat) (l : list nat) : nat := count_occ Nat.eq_dec l cb.

Lemma count_remove_first cb x l :
  count cb (remove_first x l) = if Nat.eqb cb x then pred (count cb l) else count cb l.
Proof.
  unfold count. induction l as [|y l IH]; simpl; [by destruct (Nat.eqb cb x)|].
  destruct (Nat.eqb_spec x y) as [->|Hn].
  - destruct (Nat.eqb_spec cb y) as [->|]; destruct (Nat.eq_dec _ _); try done; congruence.
  - simpl. rewrite IH. destruct (Nat.eq_dec y cb) as [->|]; [|done].
    destruct (Nat.eqb_spec cb x); [congruence|done].
Qed.

Lemma absent_count cb l : existsb (Nat.eqb cb) l = false -> count cb l = O.
Proof.
  unfold count. induction l as [|y l IH]; simpl; [done|]. intros [H1 H2]%orb_false_iff.
  apply Nat.eqb_neq in H1. destruct (Nat.eq_dec y cb); [congruence|auto].
Qed.

Lemma step_count b op e cb n :
  count cb (subs_of b e) = n ->
  count cb (subs_of (bus_step b op).1 e) = (subscriptions e cb [op] + match op with OpUnsub e' cb' =>
    if String.eqb e e' && Nat.eqb cb cb' then pred n else n | _ => n end)%nat.
Proof.
  intros <-. unfold subscriptions, subs_of. destruct op as [e' cb'|e' cb'|e' p]; simpl.
  - unfold subscribe. cbn. destruct (String.eqb_spec e e') as [->|Hn]; cbn.
    + rewrite lookup_insert_eq. cbn. unfold count, subs_of. rewrite count_occ_app. cbn.
      destruct (Nat.eqb_spec cb cb') as [->|]; destruct (Nat.eq_dec _ _); cbn; try congruence; lia.
    + by rewrite lookup_insert_ne by congruence.
  - replace (if String.eqb e e' && Nat.eqb cb cb' then O else O) with O by (by destruct (_ && _)). cbn.
    unfold unsubscribe. destruct (existsb _ _) eqn:Hex; cbn.
    + destruct (String.eqb_spec e e') as [->|Hn]; cbn; [|by rewrite lookup_insert_ne by congruence].
      rewrite lookup_insert_eq. cbn [default]. unfold subs_of, id. apply count_remove_first.
    + destruct (String.eqb_spec e e') as [->|]; cbn; [|done].
      destruct (Nat.eqb_spec cb cb') as [->|]; [|done]. unfold subs_of in Hex. by rewrite absent_count.
  - unfold publish. by destruct (_STATE_KEY e').
Qed.

Lemma run_app b ops1 ops2 : bus_run b (ops1 ++ ops2) = bus_run (bus_run b ops1) ops2.
Proof. revert b. induction ops1 as [|op ops IH]; intros b; simpl; [done|apply IH]. Qed.

Lemma run_count ops e cb : count cb (subs_of (bus_run bus_init ops) e) = subscriptions e cb ops.
Proof.
  induction ops as [|op ops IH] using rev_ind; [done|]. rewrite run_app. cbn [bus_run].
  rewrite (step_count _ _ _ _ _ IH). unfold subscriptions. rewrite !fold_left_app. cbn.
  destruct op; cbn; [..|done]; by destruct (_ && _).
Qed.

Lemma run_state ops : bus_get (bus_run bus_init ops) "drone" = last_drone ops.
Proof.
  induction ops as [|op ops IH] using rev_ind; [done|]. rewrite run_app. cbn [bus_run].
  unfold last_drone in *. rewrite fold_left_app. cbn. rewrite <- IH. unfold bus_get.
  destruct op as [e cb|e cb|e p]; cbn; [done|unfold unsubscribe; by destruct (existsb _ _)|].
  unfold publish, _STATE_KEY. destruct (_ || _); [|done]. cbn. by rewrite lookup_insert_eq.
Qed.

(** What a publish delivers and what a late subscriber reads. *)
Theorem bus_delivers ops e p :
  let b := bus_run bus_init ops in
  (forall cb, count cb (map fst (publish behave b e p).2) = subscriptions e cb ops) /\
  (match (publish behave b e p).2 with [] => True | (_, q) :: _ => q = p end) /\
  bus_get b "drone" = last_drone ops.
Proof.
  cbn zeta. repeat split; [| |apply run_state].
  - intros cb. unfold publish. cbn [snd]. rewrite dispatch_calls. apply run_count.
  - cbn. destruct (subs_of _ _) as [|cb l]; cbn; [done|]. by destruct (behave cb p).
Qed.
End Runs.
End Bus.
