(* ===== verification/ConnMonitor.v ===== *)
(** * connection_monitor.py: is the drone there?

    The monitor's state machine.  [_on_stats_event] runs on the monitor's
    loop whenever a record of the stats feed arrives; [_evaluate] runs every
    [eval_interval_s].  [_evaluate] reads the clock several times and awaits
    the drone's HTTP API, during which tunnel records may arrive: what it
    observes is the argument [obs], one field per reading, in program order. *)
From Stdlib Require Import ZArith Lia Bool String QArith.
From stdpp Require Import base tactics list sets strings.
From S2P Require Import Prelude PyStr FloatModels Json Cards StatsClient.
Open Scope Z_scope.

Record ConnectionMonitorConfig (F : Type) := mkMonCfg {
  cm_enabled : bool; tunnel_stale_s : F; http_poll_s : F; http_timeout_s : F;
  http_fail_count : Z; eval_interval_s : F; disconnect_grace_s : F }.
Arguments mkMonCfg {F}.
Arguments cm_enabled {F} _.
Arguments tunnel_stale_s {F} _.
Arguments http_poll_s {F} _.
Arguments http_timeout_s {F} _.
Arguments http_fail_count {F} _.
Arguments eval_interval_s {F} _.
Arguments disconnect_grace_s {F} _.

Inductive conn_state := Disconnected | Armed | Connected.
(** The reason strings of the code; where one is optional, [None] is the
    empty string. *)
Inductive lost_reason := TunnelLost | HttpFailed.

(** The drone info of the status and of the connected event: the reported
    version, and the radio's adapter id and power curve when it reports any. *)
Record drone_info (F : Type) := mkInfo { di_version : option (json F); di_radio : option (json F * json F) }.
Arguments mkInfo {F}.
Arguments di_version {F} _.
Arguments di_radio {F} _.

Inductive conn_event (F : Type) :=
| EvConnected (at_mono : F) (info : drone_info F)
| EvDisconnected (at_mono : F) (why : option lost_reason) (last_seen : F).
Arguments EvConnected {F} _ _.
Arguments EvDisconnected {F} _ _ _.

Record ConnectionMonitor (F : Type) := mkMon {
  m_state : conn_state;
  m_since : F;
  m_reason : option lost_reason;
  m_info : option (drone_info F);
  m_last_tunnel_rx : F;
  m_fail : Z;
  m_last_http : F;
  m_bad_since : option F;
  m_pending : option lost_reason }.
Arguments mkMon {F}.
Arguments m_state {F} _.
Arguments m_since {F} _.
Arguments m_reason {F} _.
Arguments m_info {F} _.
Arguments m_last_tunnel_rx {F} _.
Arguments m_fail {F} _.
Arguments m_last_http {F} _.
Arguments m_bad_since {F} _.
Arguments m_pending {F} _.
#[export] Instance eta_mon F : Settable (ConnectionMonitor F) := fun m =>
  mkMon (m_state m) (m_since m) (m_reason m) (m_info m) (m_last_tunnel_rx m) (m_fail m) (m_last_http m)
        (m_bad_since m) (m_pending m).

(** What one [_evaluate] observes: the clock at the freshness check of the
    disconnected state; the answer of [get_status] ([JNull] when it fails) and
    the tunnel record that arrived while it was awaited; the clock after it;
    the clock at the heartbeat's due check and at its start; its outcome and
    the tunnel record that arrived meanwhile; the clock at the freshness check
    and at the decision. *)
Record obs (F : Type) := mkObs {
  o_arm : F; o_snap : json F; o_snap_rx : option F; o_after : F;
  o_due : F; o_http : F; o_ok : bool; o_ok_rx : option F; o_fresh : F; o_now : F }.
Arguments mkObs {F}.
Arguments o_arm {F} _.
Arguments o_snap {F} _.
Arguments o_snap_rx {F} _.
Arguments o_after {F} _.
Arguments o_due {F} _.
Arguments o_http {F} _.
Arguments o_ok {F} _.
Arguments o_ok_rx {F} _.
Arguments o_fresh {F} _.
Arguments o_now {F} _.

Section Monitor.
Context {F : Type} {PF : PyFloat F}.
Variable cfg : ConnectionMonitorConfig F.
Implicit Types (m : ConnectionMonitor F) (o : obs F).

(** The dataclass defaults. *)
Definition default_moncfg : ConnectionMonitorConfig F :=
  mkMonCfg true (fofZ 4) (flit 15 10) (fofZ 3) 2 (flit 5 10) (fofZ 6).

Definition mon_init : ConnectionMonitor F :=
  mkMon Disconnected (fofZ 0) None None (fofZ (-1000000000)) 0 (fofZ (-1000000000)) None None.

Definition mark_tunnel m (now : F) : ConnectionMonitor F := m <| m_last_tunnel_rx := now |>.

(** Only the tunnel stream marks reachability. *)
Definition _on_stats_event m (ev : Event F) (now : F) : ConnectionMonitor F :=
  match ev with
  | EvRx rx => if negb (String.eqb (rx_id rx) "") && contains "tunnel" (lower (rx_id rx))
              then mark_tunnel m now else m
  | _ => m
  end.

Definition _tunnel_fresh m (now : F) : bool := (now -f m_last_tunnel_rx m) <f tunnel_stale_s cfg.

(** A tunnel record that arrived during an await. *)
Definition arrived m (rx : option F) : ConnectionMonitor F :=
  match rx with Some t => mark_tunnel m t | None => m end.

Definition info_of (snap : json F) : drone_info F :=
  match snap with
  | JDict d =>
      mkInfo (Some (get_ "version" d))
             (match get_ "radio" d with
              | JDict r => Some (get_ "adapterId" r, get_ "txPowerCurve" r)
              | _ => None
              end)
  | _ => mkInfo None None
  end.

Definition _enter_connected m (snap : json F) (now : F) : ConnectionMonitor F * list (conn_event F) :=
  let info := info_of snap in
  (m <| m_state := Connected |> <| m_since := now |> <| m_reason := None |> <| m_info := Some info |>
     <| m_fail := 0 |> <| m_last_http := now |> <| m_bad_since := None |> <| m_pending := None |>,
   [EvConnected now info]).

Definition _enter_disconnected m (why : option lost_reason) (now : F) : ConnectionMonitor F * list (conn_event F) :=
  (m <| m_state := Disconnected |> <| m_reason := why |> <| m_info := None |> <| m_fail := 0 |>
     <| m_bad_since := None |> <| m_pending := None |>,
   [EvDisconnected now why (m_since m)]).

Definition eval_armed m o : ConnectionMonitor F * list (conn_event F) :=
  let m := arrived m (o_snap_rx o) in
  if negb (is_none (o_snap o)) then _enter_connected m (o_snap o) (o_after o)
  else if negb (_tunnel_fresh m (o_after o)) then (m <| m_state := Disconnected |>, [])
  else (m, []).

(** The heartbeat, when it is due. *)
Definition heartbeat m o : ConnectionMonitor F :=
  if (o_due o -f m_last_http m) >=f http_poll_s cfg
  then arrived m (o_ok_rx o) <| m_last_http := o_http o |>
         <| m_fail := if o_ok o then 0 else m_fail m + 1 |>
  else m.

Definition is_bad m o : bool := negb (_tunnel_fresh m (o_fresh o)) || (m_fail m >=? http_fail_count cfg).

Definition bad_reason m o : lost_reason := if negb (_tunnel_fresh m (o_fresh o)) then TunnelLost else HttpFailed.

Definition eval_connected m o : ConnectionMonitor F * list (conn_event F) :=
  let m := heartbeat m o in
  if negb (is_bad m o) then (m <| m_bad_since := None |> <| m_pending := None |>, [])
  else match m_bad_since m with
       | None => (m <| m_bad_since := Some (o_now o) |> <| m_pending := Some (bad_reason m o) |>, [])
       | Some bad_since =>
           if (o_now o -f bad_since) >=f disconnect_grace_s cfg
           then _enter_disconnected m (m_pending m) (o_now o)
           else (m, [])
       end.

Definition _evaluate m o : ConnectionMonitor F * list (conn_event F) :=
  match m_state m with
  | Disconnected =>
      if negb (_tunnel_fresh m (o_arm o)) then (m, []) else eval_armed (m <| m_state := Armed |>) o
  | Armed => eval_armed m o
  | Connected => eval_connected m o
  end.

(** [status()], the clock read twice. *)
Record mon_status := mkMonStatus {
  st_enabled : bool; st_state : conn_state; st_reason : option lost_reason;
  st_since_ms : option Z; st_suspect_ms : option Z; st_drone : option (drone_info F) }.

Definition elapsed_ms (now since : F) : res Z := int_of_float ((now -f since) *f fofZ 1000).

Definition status m (t1 t2 : F) : res mon_status :=
  let* since_ms := match m_state m with
                   | Connected => let* z := elapsed_ms t1 (m_since m) in Ok (Some z)
                   | _ => Ok None
                   end in
  let* suspect_ms := match m_bad_since m with
                     | Some b => let* z := elapsed_ms t2 b in Ok (Some z)
                     | None => Ok None
                     end in
  Ok (mkMonStatus (cm_enabled cfg) (m_state m) (m_reason m) since_ms suspect_ms
        (match m_info m with
         | Some (mkInfo None None) => None
         | i => i
         end)).

(** ** Runs: the feed's records and the evaluations in their order *)

Inductive mon_in := InStats (ev : Event F) (now : F) | InEval (o : obs F).

Definition mon_step m (i : mon_in) : ConnectionMonitor F * list (conn_event F) :=
  match i with InStats ev now => (_on_stats_event m ev now, []) | InEval o => _evaluate m o end.

Fixpoint mon_run m (l : list mon_in) : ConnectionMonitor F * list (conn_event F) :=
  match l with
  | [] => (m, [])
  | i :: l' => let '(m1, e1) := mon_step m i in let '(m2, e2) := mon_run m1 l' in (m2, e1 ++ e2)
  end.

Definition st_after m (l : list mon_in) : ConnectionMonitor F := (mon_run m l).1.
Definition evs_of m (l : list mon_in) : list (conn_event F) := (mon_run m l).2.

Lemma mon_run_app m l1 l2 :
  mon_run m (l1 ++ l2) = (st_after (st_after m l1) l2, evs_of m l1 ++ evs_of (st_after m l1) l2).
Proof.
  revert m. induction l1 as [|i l1 IH]; intros m; cbn.
  { unfold st_after, evs_of. cbn. by destruct (mon_run m l2). }
  unfold st_after, evs_of in *. cbn. destruct (mon_step m i) as [m1 e1]. rewrite IH.
  destruct (mon_run m1 l1) as [m2 e2]. cbn. by rewrite app_assoc.
Qed.

Lemma st_after_snoc m l i : st_after m (l ++ [i]) = (mon_step (st_after m l) i).1.
Proof. unfold st_after at 1. rewrite mon_run_app. cbn. unfold st_after at 1. cbn. by destruct (mon_step _ i). Qed.

Lemma st_after_cons m i l : st_after m (i :: l) = st_after (mon_step m i).1 l.
Proof. unfold st_after. cbn. destruct (mon_step m i) as [m1 e1]. cbn. by destruct (mon_run m1 l). Qed.

Lemma evs_of_cons m i l : evs_of m (i :: l) = (mon_step m i).2 ++ evs_of (mon_step m i).1 l.
Proof. unfold evs_of. cbn. destruct (mon_step m i) as [m1 e1]. cbn. by destruct (mon_run m1 l). Qed.

(** *** Alternation *)

(** Connected and disconnected events in turn, [up] being the side the next
    event leaves. *)
Fixpoint alternates (up : bool) (evs : list (conn_event F)) : Prop :=
  match evs with
  | [] => True
  | EvConnected _ _ :: evs' => up = false /\ alternates true evs'
  | EvDisconnected _ _ _ :: evs' => up = true /\ alternates false evs'
  end.

Definition is_up m : bool := match m_state m with Connected => true | _ => false end.
Definition ends_up (up : bool) (evs : list (conn_event F)) : bool :=
  fold_left (fun _ e => match e with EvConnected _ _ => true | _ => false end) evs up.

Lemma alternates_app up e1 e2 : alternates up e1 -> alternates (ends_up up e1) e2 -> alternates up (e1 ++ e2).
Proof. revert up. induction e1 as [|[] e1 IH]; intros up; cbn; [done|..]; intros [-> ?] ?; auto. Qed.

Lemma ends_up_app up e1 e2 : ends_up up (e1 ++ e2) = ends_up (ends_up up e1) e2.
Proof. apply fold_left_app. Qed.

Lemma arrived_state m rx : m_state (arrived m rx) = m_state m.
Proof. by destruct rx. Qed.

Lemma heartbeat_frame m o :
  m_state (heartbeat m o) = m_state m /\ m_bad_since (heartbeat m o) = m_bad_since m /\
  m_pending (heartbeat m o) = m_pending m.
Proof. unfold heartbeat. destruct (_ >=f _); [|done]. by destruct (o_ok_rx o). Qed.

Lemma eval_armed_up m o :
  is_up m = false -> alternates false (eval_armed m o).2 /\ is_up (eval_armed m o).1 = ends_up false (eval_armed m o).2.
Proof.
  intros Hm. unfold eval_armed, _enter_connected.
  destruct (negb (is_none _)); [by cbn|]. destruct (negb _); cbn; (split; [done|]); [done|].
  unfold is_up in *. by rewrite arrived_state.
Qed.

Lemma step_up m i :
  alternates (is_up m) (mon_step m i).2 /\ is_up (mon_step m i).1 = ends_up (is_up m) (mon_step m i).2.
Proof.
  destruct i as [ev now|o]; cbn [mon_step].
  { split; [done|]. cbn. unfold _on_stats_event, is_up. destruct ev; try done. by destruct (_ && _). }
  unfold _evaluate, is_up at 1 3. destruct (m_state m) eqn:E.
  - destruct (negb _); [|by apply eval_armed_up]. cbn. split; [done|]. unfold is_up. by rewrite E.
  - apply eval_armed_up. unfold is_up. by rewrite E.
  - unfold eval_connected. destruct (heartbeat_frame m o) as (Hs & _).
    destruct (negb _); cbn; [split; [done|]; unfold is_up; cbn; by rewrite Hs, E|].
    destruct (m_bad_since _); [|cbn; split; [done|]; unfold is_up; cbn; by rewrite Hs, E].
    destruct (_ >=f _); cbn; [done|]. split; [done|]. unfold is_up. by rewrite Hs, E.
Qed.

(** Over any run from boot the published events alternate, a connect
    first, and the monitor's state is connected exactly when the last event
    was a connect. *)
Theorem events_alternate l :
  alternates false (evs_of mon_init l) /\ is_up (st_after mon_init l) = ends_up false (evs_of mon_init l).
Proof.
  change false with (is_up mon_init). generalize mon_init. induction l as [|i l IH]; intros m; [done|].
  rewrite evs_of_cons, st_after_cons, ends_up_app. destruct (step_up m i) as [Ha Hu].
  destruct (IH (mon_step m i).1) as [IHa IHu]. rewrite <- Hu. split; [|done].
  apply alternates_app; [done|]. by rewrite <- Hu.
Qed.

(** *** A disconnect is confirmed over the grace period *)

(** Every evaluation of [l] finds the connected link bad and publishes nothing. *)
Fixpoint suspect m (l : list mon_in) : Prop :=
  match l with
  | [] => True
  | i :: l' =>
      match i with
      | InEval o => m_state m = Connected /\ is_bad (heartbeat m o) o = true
      | InStats _ _ => True
      end /\ (mon_step m i).2 = [] /\ suspect (mon_step m i).1 l'
  end.

Lemma suspect_snoc m l i :
  suspect m l ->
  match i with
  | InEval o => let m' := st_after m l in m_state m' = Connected /\ is_bad (heartbeat m' o) o = true
  | InStats _ _ => True
  end -> (mon_step (st_after m l) i).2 = [] -> suspect m (l ++ [i]).
Proof.
  revert m. induction l as [|j l IH]; intros m; cbn [suspect app].
  - intros _ H1 H2. unfold st_after in *. cbn [mon_run fst] in *. by destruct i.
  - intros (H1 & H2 & H3) H4 H5. rewrite st_after_cons in *. auto.
Qed.

(** [l] ends in a bad run that began with the evaluation [o1] at [t]. *)
Definition bad_run (l : list mon_in) (t : F) (why : lost_reason) : Prop :=
  exists l1 o1 l2, l = l1 ++ InEval o1 :: l2 /\
    let m1 := st_after mon_init l1 in
    m_bad_since m1 = None /\ o_now o1 = t /\ why = bad_reason (heartbeat m1 o1) o1 /\
    suspect m1 (InEval o1 :: l2).

Definition suspect_inv (l : list mon_in) : Prop :=
  let m := st_after mon_init l in
  match m_bad_since m with
  | Some t => m_state m = Connected /\ exists why, m_pending m = Some why /\ bad_run l t why
  | None => True
  end.

Lemma armed_not_suspect m o : m_bad_since m = None -> m_bad_since (eval_armed m o).1 = None.
Proof.
  intros H. unfold eval_armed, _enter_connected. destruct (negb (is_none _)); [done|].
  destruct (negb _); cbn; by destruct (o_snap_rx o).
Qed.

Lemma stats_frame m ev now :
  m_bad_since (_on_stats_event m ev now) = m_bad_since m /\ m_pending (_on_stats_event m ev now) = m_pending m /\
  m_state (_on_stats_event m ev now) = m_state m.
Proof. unfold _on_stats_event. destruct ev; try done. by destruct (_ && _). Qed.

Lemma bad_run_snoc l t why i :
  bad_run l t why ->
  match i with
  | InEval o => let m := st_after mon_init l in m_state m = Connected /\ is_bad (heartbeat m o) o = true
  | InStats _ _ => True
  end -> (mon_step (st_after mon_init l) i).2 = [] -> bad_run (l ++ [i]) t why.
Proof.
  intros (l1 & o1 & l2 & -> & Hn & Ht & Hw & Hs) Hi He.
  exists l1, o1, (l2 ++ [i]). rewrite <- app_assoc, <- app_comm_cons.
  split; [done|]. cbv zeta. split; [done|]. split; [done|]. split; [done|].
  assert (E : st_after mon_init (l1 ++ InEval o1 :: l2) = st_after (st_after mon_init l1) (InEval o1 :: l2)).
  { unfold st_after at 1. by rewrite mon_run_app. }
  rewrite E in *. rewrite app_comm_cons. by apply suspect_snoc.
Qed.

(** The three outcomes of an evaluation of the connected state. *)
Lemma eval_connected_spec m o :
  let h := heartbeat m o in let r := eval_connected m o in
  (is_bad h o = false /\ m_bad_since r.1 = None /\ r.2 = []) \/
  (is_bad h o = true /\ m_bad_since m = None /\ r.2 = [] /\ m_state r.1 = m_state m /\
     m_bad_since r.1 = Some (o_now o) /\ m_pending r.1 = Some (bad_reason h o)) \/
  (exists t, is_bad h o = true /\ m_bad_since m = Some t /\
     if (o_now o -f t) >=f disconnect_grace_s cfg
     then r.2 = [EvDisconnected (o_now o) (m_pending m) (m_since h)] /\ m_bad_since r.1 = None
     else r = (h, [])).
Proof.
  cbn zeta. unfold eval_connected. destruct (heartbeat_frame m o) as (Hs & Hb & Hp).
  destruct (is_bad _ o) eqn:E; cbn [negb]; [right|by left]. rewrite Hb.
  destruct (m_bad_since m) as [t|] eqn:Et; [right|left].
  - exists t. split_and!; try done. destruct (_ >=f _); [|done]. unfold _enter_disconnected. by rewrite Hp.
  - by split_and!.
Qed.

Lemma suspect_reach l : suspect_inv l.
Proof.
  induction l as [|i l IH] using rev_ind; [done|]. unfold suspect_inv in *. rewrite st_after_snoc.
  set (m := st_after mon_init l) in *. destruct i as [ev now|o]; cbn [mon_step fst].
  - destruct (stats_frame m ev now) as (-> & -> & ->). destruct (m_bad_since m); [|done].
    destruct IH as (Hc & why & Hp & Hr). split; [done|]. exists why. split; [done|]. by apply bad_run_snoc.
  - unfold _evaluate. destruct (m_state m) eqn:Es.
    1,2: assert (Hn : m_bad_since m = None) by (destruct (m_bad_since m); [by destruct IH|done]);
         try destruct (negb _); cbn [fst]; rewrite ?Hn; try done; by rewrite armed_not_suspect.
    assert (Hstep : mon_step m (InEval o) = eval_connected m o) by (cbn; unfold _evaluate; by rewrite Es).
    destruct (eval_connected_spec m o) as [(_ & -> & _)|[(Hb & Hn & He & Hc & -> & ->)|(t & Hb & Ht & Hx)]]; [done|..].
    + split; [by rewrite Hc|]. exists (bad_reason (heartbeat m o) o). split; [done|].
      exists l, o, []. fold m. split_and!; try done. cbn [suspect]. rewrite Hstep. by split_and!.
    + destruct (_ >=f _); [by destruct Hx as [_ ->]|]. rewrite Hx. cbn [fst].
      destruct (heartbeat_frame m o) as (-> & -> & ->). rewrite Ht in *.
      destruct IH as (Hc & why & Hp & Hr). split; [done|]. exists why. split; [done|].
      apply bad_run_snoc; [done|by fold m|]. fold m. by rewrite Hstep, Hx.
Qed.

(** C15: DRONE_DISCONNECTED is only published by an evaluation that finds the
    link bad, after an unbroken run of bad evaluations that began at least
    disconnect_grace_s earlier, and it carries the reason of the run's first
    evaluation. *)
Theorem disconnect_confirmed l o at_mono why last_seen :
  EvDisconnected at_mono why last_seen ∈ (mon_step (st_after mon_init l) (InEval o)).2 ->
  is_bad (heartbeat (st_after mon_init l) o) o = true /\ at_mono = o_now o /\
  exists t w, why = Some w /\ bad_run l t w /\ ((o_now o -f t) >=f disconnect_grace_s cfg) = true.
Proof.
  assert (IH := suspect_reach l). unfold suspect_inv in IH. set (m := st_after mon_init l) in *.
  cbn [mon_step]. unfold _evaluate.
  assert (Ha : forall m' o', EvDisconnected at_mono why last_seen ∈ (eval_armed m' o').2 -> False).
  { intros m' o'. unfold eval_armed, _enter_connected. destruct (negb (is_none _)); cbn; [set_solver|].
    destruct (negb _); set_solver. }
  destruct (m_state m) eqn:Es.
  - destruct (negb _); [cbn; set_solver|]. by intros ?%Ha.
  - by intros ?%Ha.
  - destruct (eval_connected_spec m o) as [(_ & _ & ->)|[(_ & _ & -> & _)|(t & Hb & Ht & Hx)]]; [set_solver..|].
    destruct (_ >=f _) eqn:Eg; [|rewrite Hx; set_solver]. destruct Hx as [-> _]. intros [= -> -> ->]%list_elem_of_singleton.
    rewrite Ht in IH. destruct IH as (_ & w & Hp & Hr). split_and!; [done..|]. by exists t, w.
Qed.

(** *** Silence disconnects *)

(** No tunnel record arrives during [l], and at every evaluation the last one,
    received at [t], is stale. *)
Definition silent (t : F) (l : list mon_in) : Prop :=
  Forall (fun i => match i with
    | InStats ev now => forall m, _on_stats_event m ev now = m
    | InEval o => o_ok_rx o = None /\ ((o_fresh o -f t) <f tunnel_stale_s cfg) = false end) l.

Lemma silent_bad m o :
  o_ok_rx o = None -> ((o_fresh o -f m_last_tunnel_rx m) <f tunnel_stale_s cfg) = false ->
  is_bad (heartbeat m o) o = true /\ bad_reason (heartbeat m o) o = TunnelLost /\
  m_last_tunnel_rx (heartbeat m o) = m_last_tunnel_rx m.
Proof.
  intros Hn Hs. assert (E : m_last_tunnel_rx (heartbeat m o) = m_last_tunnel_rx m).
  { unfold heartbeat. rewrite Hn. by destruct (_ >=f _). }
  unfold is_bad, bad_reason, _tunnel_fresh. by rewrite E, Hs.
Qed.

Lemma silent_run m t0 why l on :
  m_state m = Connected -> m_bad_since m = Some t0 -> m_pending m = Some why ->
  silent (m_last_tunnel_rx m) (l ++ [InEval on]) -> ((o_now on -f t0) >=f disconnect_grace_s cfg) = true ->
  exists at_mono last_seen, EvDisconnected at_mono (Some why) last_seen ∈ evs_of m (l ++ [InEval on]).
Proof.
  intros Hc Hb Hp Hs Hg. revert m Hc Hb Hp Hs. induction l as [|i l IH]; intros m Hc Hb Hp Hs.
  - apply Forall_singleton in Hs as [Hn Hs]. destruct (silent_bad m on Hn Hs) as (Hbad & _).
    cbn [app]. rewrite evs_of_cons. cbn [mon_step]. unfold _evaluate. rewrite Hc.
    destruct (eval_connected_spec m on) as [(? & _)|[(_ & ? & _)|(t & _ & Ht & Hx)]]; [congruence..|].
    assert (t = t0) as -> by congruence. rewrite Hg in Hx. destruct Hx as [-> _]. rewrite Hp. eexists _, _. by left.
  - unfold silent in Hs. cbn [app] in Hs. apply Forall_cons in Hs as [Hi Hs]. cbn [app]. rewrite evs_of_cons. destruct i as [ev now|o]; cbn [mon_step].
    { cbn [fst snd]. rewrite Hi. by apply IH. }
    destruct Hi as [Hn Hst]. destruct (silent_bad m o Hn Hst) as (Hbad & _ & Hrx).
    unfold _evaluate. rewrite Hc.
    destruct (eval_connected_spec m o) as [(? & _)|[(_ & ? & _)|(t & _ & Ht & Hx)]]; [congruence..|].
    destruct (disconnect_grace_s cfg <=f o_now o -f t).
    + destruct Hx as [-> _]. rewrite Hp. eexists _, _. by left.
    + rewrite Hx. cbn [fst snd]. destruct (heartbeat_frame m o) as (E1 & E2 & E3).
      apply IH; [by rewrite ?E1, ?E2, ?E3..|by rewrite Hrx].
Qed.

(** C16: After any history from boot that leaves the monitor connected: if
    from some evaluation on no tunnel record arrives and the last one is stale
    at every evaluation, the disconnect is published no later than the first
    evaluation a grace period after that one, or after the evaluation that
    began a suspicion already under way; its reason is tunnel_lost, or that of
    the suspicion under way. *)
Theorem silence_disconnects l0 o1 l on :
  let m := st_after mon_init l0 in
  m_state m = Connected -> silent (m_last_tunnel_rx m) (InEval o1 :: l ++ [InEval on]) ->
  ((o_now on -f default (o_now o1) (m_bad_since m)) >=f disconnect_grace_s cfg) = true ->
  exists at_mono why last_seen,
    EvDisconnected at_mono (Some why) last_seen ∈ evs_of m (InEval o1 :: l ++ [InEval on]) /\
    match m_bad_since m with None => why = TunnelLost | Some _ => m_pending m = Some why end.
Proof.
  intros m Hc Hs Hg. assert (Hi := suspect_reach l0). unfold suspect_inv in Hi. fold m in Hi.
  destruct (m_bad_since m) as [t0|] eqn:Hb; cbn [default] in Hg.
  { destruct Hi as (_ & why & Hp & _). destruct (silent_run m t0 why (InEval o1 :: l) on Hc Hb Hp Hs Hg) as (a & s & H). by exists a, why, s. }
  apply Forall_cons in Hs as [[Hn Hst] Hs]. destruct (silent_bad m o1 Hn Hst) as (Hbad & Hwhy & Hrx).
  rewrite evs_of_cons. cbn [mon_step]. unfold _evaluate. rewrite Hc.
  destruct (eval_connected_spec m o1) as [(? & _)|[(_ & _ & He & E1 & E2 & E3)|(t & _ & ? & _)]]; [congruence| |congruence].
  rewrite He. cbn [app]. destruct (silent_run (eval_connected m o1).1 (o_now o1) TunnelLost l on) as (a & s & H); try done;
    [by rewrite E1|by rewrite E3, Hwhy| |by exists a, TunnelLost, s].
  replace (m_last_tunnel_rx (eval_connected m o1).1) with (m_last_tunnel_rx m); [done|].
  unfold eval_connected. rewrite Hbad. cbn [negb]. destruct (heartbeat_frame m o1) as (_ & -> & _). by rewrite Hb.
Qed.
End Monitor.
