(* ===== verification/MonitorLoop.v ===== *)
(** * connection_monitor.py: the monitor's loop

    [_run] starts three tasks on one loop: the stats client, whose records
    arrive at any await, [_eval_loop], and the wait for the stop event.
    [_evaluate] awaits the drone's HTTP API in the middle.  [ConnMonitor] treats
    an evaluation as one step with what arrived meanwhile as its observation:
    the theorem says that the interleaved code does nothing else. *)
From Stdlib Require Import ZArith Lia Bool String.
From stdpp Require Import base tactics list strings.
From S2P Require Import Prelude PyStr Json StatsClient ConnMonitor.
Open Scope Z_scope.

(** [_eval_loop]: at its test; awaiting [get_status] or [healthz]; in the pause
    after an evaluation; returned or cancelled. *)
Inductive eval_pc := AtTest | AskingStatus | AskingHealth | Pausing | LoopOver.

Section Loop.
Context {F : Type} {PF : PyFloat F}.
Variable cfg : ConnectionMonitorConfig F.
Implicit Types (m : ConnectionMonitor F) (o : obs F).

Record mon_loop := mkLoop {
  ml_mon : ConnectionMonitor F; ml_pub : list (conn_event F); ml_pc : eval_pc;
  ml_stop : bool; ml_client : bool; ml_over : bool }.
#[export] Instance eta_mon_loop : Settable mon_loop := fun s =>
  mkLoop (ml_mon s) (ml_pub s) (ml_pc s) (ml_stop s) (ml_client s) (ml_over s).
Implicit Types s : mon_loop.

Definition loop_new : mon_loop := mkLoop mon_init [] AtTest false true false.

(** [_evaluate], after the heartbeat. *)
Definition decide_connected m (fresh now : F) : ConnectionMonitor F * list (conn_event F) :=
  let is_fresh := _tunnel_fresh cfg m fresh in
  if negb (negb is_fresh || (m_fail m >=? http_fail_count cfg)) then (m <| m_bad_since := None |> <| m_pending := None |>, [])
  else match m_bad_since m with
       | None => (m <| m_bad_since := Some now |> <| m_pending := Some (if negb is_fresh then TunnelLost else HttpFailed) |>, [])
       | Some bad_since => if (now -f bad_since) >=f disconnect_grace_s cfg then _enter_disconnected m (m_pending m) now else (m, [])
       end.

Definition publish (r : ConnectionMonitor F * list (conn_event F)) s : mon_loop :=
  s <| ml_mon := r.1 |> <| ml_pub ::= (fun l => l ++ r.2) |> <| ml_pc := Pausing |>.

(** From the loop's test to the first await, the clock read as written. *)
Definition begin_evaluate (arm due http fresh now : F) s : mon_loop :=
  let m := ml_mon s in
  match m_state m with
  | Disconnected => if negb (_tunnel_fresh cfg m arm) then s <| ml_pc := Pausing |>
                    else s <| ml_mon := m <| m_state := Armed |> |> <| ml_pc := AskingStatus |>
  | Armed => s <| ml_pc := AskingStatus |>
  | Connected => if (due -f m_last_http m) >=f http_poll_s cfg
                 then s <| ml_mon := m <| m_last_http := http |> |> <| ml_pc := AskingHealth |>
                 else publish (decide_connected m fresh now) s
  end.

(** [get_status] is answered: [JNull] for an exception, as [_call] has it. *)
Definition status_answered (snap : json F) (after : F) s : mon_loop :=
  let m := ml_mon s in
  publish (if negb (is_none snap) then _enter_connected m snap after
           else if negb (_tunnel_fresh cfg m after) then (m <| m_state := Disconnected |>, []) else (m, [])) s.

(** [healthz] is answered: false for an exception, as [_call_bool] has it. *)
Definition health_answered (ok : bool) (fresh now : F) s : mon_loop :=
  let m := ml_mon s <| m_fail ::= (fun n => if ok then 0 else n + 1) |> in publish (decide_connected m fresh now) s.

Inductive loop_ev :=
| Arrives (ev : Event F) (now : F)                     (* the stats client hands a record on *)
| Turn (arm due http fresh now : F)
| StatusAnswer (snap : json F) (after : F)
| HealthAnswer (ok : bool) (fresh now : F)
| PauseEnds
| StopSet
| ClientEnds
| RunEnds.

Definition loop_step s (e : loop_ev) : option mon_loop :=
  if ml_over s then None
  else match e, ml_pc s with
       | Arrives ev now, _ => if ml_client s then Some (s <| ml_mon ::= (fun m => _on_stats_event m ev now) |>) else None
       | Turn arm due http fresh now, AtTest =>
           Some (if ml_stop s then s <| ml_pc := LoopOver |> else begin_evaluate arm due http fresh now s)
       | StatusAnswer snap after, AskingStatus => Some (status_answered snap after s)
       | HealthAnswer ok fresh now, AskingHealth => Some (health_answered ok fresh now s)
       | PauseEnds, Pausing => Some (s <| ml_pc := AtTest |>)
       | StopSet, _ => Some (s <| ml_stop := true |>)
       | ClientEnds, _ => Some (s <| ml_client := false |>)
       | RunEnds, pc =>
           (* the first task is done; the others are cancelled where they are *)
           if ml_stop s || negb (ml_client s) || match pc with LoopOver => true | _ => false end
           then Some (s <| ml_pc := LoopOver |> <| ml_client := false |> <| ml_over := true |>) else None
       | _, _ => None
       end.

Fixpoint loop_run s (es : list loop_ev) : option mon_loop :=
  match es with [] => Some s | e :: es => s' ← loop_step s e; loop_run s' es end.

(* ------------------------------------------------------------------ *)
(** ** Evaluations as one step *)

(** What a record leaves of itself in the monitor. *)
Lemma stats_arrived m ev now : exists rx, _on_stats_event m ev now = arrived m rx.
Proof. unfold _on_stats_event. destruct ev; try (by exists None). destruct (_ && _); [by exists (Some now)|by exists None]. Qed.

Lemma arrived_twice m rx rx' : arrived (arrived m rx) rx' = arrived m (match rx' with Some _ => rx' | None => rx end).
Proof. by destruct rx, rx'. Qed.

(** The one-step monitor [m0] at the start of the evaluation in progress. *)
Definition in_progress s (m0 : ConnectionMonitor F) : Prop :=
  match ml_pc s with
  | AskingStatus => exists rx arm, ml_mon s = arrived (m0 <| m_state := Armed |>) rx /\
                      (m_state m0 = Armed \/ (m_state m0 = Disconnected /\ _tunnel_fresh cfg m0 arm = true))
  | AskingHealth => exists rx due http, ml_mon s = arrived m0 rx <| m_last_http := http |> /\ m_state m0 = Connected /\
                      ((due -f m_last_http m0) >=f http_poll_s cfg) = true
  | LoopOver => ml_over s = true \/ ml_mon s = m0
  | _ => ml_mon s = m0
  end.

Definition simulates s (l : list (mon_in (F := F))) : Prop :=
  exists m0, mon_run cfg mon_init l = (m0, ml_pub s) /\ in_progress s m0.

Lemma run_snoc l i m0 pub :
  mon_run cfg mon_init l = (m0, pub) -> mon_run cfg mon_init (l ++ [i]) = ((mon_step cfg m0 i).1, pub ++ (mon_step cfg m0 i).2).
Proof.
  intros E. rewrite mon_run_app. unfold st_after, evs_of. rewrite E. cbn. destruct (mon_step cfg m0 i). by rewrite app_nil_r.
Qed.

Lemma connected_decided m o : eval_connected cfg m o = decide_connected (heartbeat cfg m o) (o_fresh o) (o_now o).
Proof. reflexivity. Qed.

(** An evaluation that completes is the one-step one on what it observed. *)
Lemma completes s l m0 o r :
  mon_run cfg mon_init l = (m0, ml_pub s) -> _evaluate cfg m0 o = r -> simulates (publish r s) (l ++ [InEval o]).
Proof. intros E <-. exists (_evaluate cfg m0 o).1. split; [|done]. by rewrite (run_snoc l (InEval o) m0 (ml_pub s) E). Qed.

Lemma begin_simulates arm due http fresh now s l :
  ml_pc s = AtTest -> simulates s l -> exists l', simulates (begin_evaluate arm due http fresh now s) l'.
Proof.
  intros Hpc (m0 & E & Hp). unfold in_progress in Hp. rewrite Hpc in Hp. unfold begin_evaluate. rewrite Hp.
  destruct (m_state m0) eqn:Em.
  - destruct (_tunnel_fresh cfg m0 arm) eqn:Ef; cbn [negb].
    + exists l, m0. split; [done|]. unfold in_progress. cbn. exists None, arm. split; [done|]. by right.
    + exists (l ++ [InEval (mkObs arm JNull None arm arm arm false None arm arm)]), m0. split; [|done].
      rewrite (run_snoc l _ m0 (ml_pub s) E). cbn [mon_step]. unfold _evaluate. rewrite Em. cbn [o_arm]. rewrite Ef. cbn. by rewrite app_nil_r.
  - exists l, m0. split; [done|]. unfold in_progress. cbn. exists None, arm. split; [cbn; rewrite Hp; destruct m0; cbn in *; by subst|]. by left.
  - destruct ((due -f m_last_http m0) >=f http_poll_s cfg) eqn:Ed.
    + exists l, m0. split; [done|]. unfold in_progress. cbn. exists None, due, http. split; [done|]. by split.
    + exists (l ++ [InEval (mkObs arm JNull None arm due http false None fresh now)]). apply (completes s l m0); [done|].
      unfold _evaluate. rewrite Em, connected_decided. unfold heartbeat. cbn [o_due]. by rewrite Ed.
Qed.

Lemma step_simulates s e s' l : simulates s l -> loop_step s e = Some s' -> exists l', simulates s' l'.
Proof.
  intros Hs H. unfold loop_step in H. destruct (ml_over s) eqn:Eo; [done|].
  destruct e as [ev now|arm due http fresh now|snap after|ok fresh now| | | |].
  - destruct (ml_client s); [|by destruct (ml_pc s)]. assert (s' = s <| ml_mon ::= (fun m => _on_stats_event m ev now) |>) as -> by (destruct (ml_pc s); congruence). clear H.
    destruct Hs as (m0 & E & Hp). destruct (stats_arrived (ml_mon s) ev now) as [rx Hrx]. unfold in_progress in Hp.
    assert (Hout : ml_mon s = m0 -> exists l', mon_run cfg mon_init l' = (_on_stats_event (ml_mon s) ev now, ml_pub s)).
    { intros ->. exists (l ++ [InStats ev now]). rewrite (run_snoc l _ m0 (ml_pub s) E). cbn. by rewrite app_nil_r. }
    destruct (ml_pc s) eqn:Epc.
    + destruct (Hout Hp) as (l' & Hl). exists l', (_on_stats_event (ml_mon s) ev now). split; [done|]. unfold in_progress. cbn. by rewrite Epc.
    + destruct Hp as (rx0 & arm & Hm & Ha). exists l, m0. split; [done|]. unfold in_progress. cbn. rewrite Epc, Hrx, Hm.
      eexists _, arm. split; [apply arrived_twice|done].
    + destruct Hp as (rx0 & due & http & Hm & Ha). exists l, m0. split; [done|]. unfold in_progress. cbn. rewrite Epc, Hrx, Hm.
      exists (match rx with Some _ => rx | None => rx0 end), due, http. split; [by destruct rx, rx0|done].
    + destruct (Hout Hp) as (l' & Hl). exists l', (_on_stats_event (ml_mon s) ev now). split; [done|]. unfold in_progress. cbn. by rewrite Epc.
    + destruct Hp as [Hp|Hp]; [congruence|]. destruct (Hout Hp) as (l' & Hl). exists l', (_on_stats_event (ml_mon s) ev now). split; [done|].
      unfold in_progress. cbn. rewrite Epc. by right.
  - destruct (ml_pc s) eqn:Epc; try done. injection H as <-. destruct (ml_stop s); [|by apply (begin_simulates _ _ _ _ _ s l)].
    destruct Hs as (m0 & E & Hp). exists l, m0. split; [done|]. unfold in_progress in *. rewrite Epc in Hp. cbn. by right.
  - destruct (ml_pc s) eqn:Epc; try done. injection H as <-. destruct Hs as (m0 & E & Hp). unfold in_progress in Hp. rewrite Epc in Hp.
    destruct Hp as (rx & arm & Hm & Ha). exists (l ++ [InEval (mkObs arm snap rx after arm arm false None arm arm)]).
    apply (completes s l m0); [done|]. unfold _evaluate. rewrite Hm.
    assert (Hs : eval_armed cfg (m0 <| m_state := Armed |>) (mkObs arm snap rx after arm arm false None arm arm) =
      if negb (is_none snap) then _enter_connected (arrived (m0 <| m_state := Armed |>) rx) snap after
      else if negb (_tunnel_fresh cfg (arrived (m0 <| m_state := Armed |>) rx) after)
           then (arrived (m0 <| m_state := Armed |>) rx <| m_state := Disconnected |>, []) else (arrived (m0 <| m_state := Armed |>) rx, [])) by done.
    destruct Ha as [Ha|[Ha Hf]]; rewrite Ha.
    + replace m0 with (m0 <| m_state := Armed |>) at 1 by (destruct m0; cbn in *; by subst). exact Hs.
    + cbn [o_arm]. rewrite Hf. exact Hs.
  - destruct (ml_pc s) eqn:Epc; try done. injection H as <-. destruct Hs as (m0 & E & Hp). unfold in_progress in Hp. rewrite Epc in Hp.
    destruct Hp as (rx & due & http & Hm & Hc & Hd). exists (l ++ [InEval (mkObs due JNull None due due http ok rx fresh now)]).
    apply (completes s l m0); [done|]. unfold _evaluate. rewrite Hc, connected_decided. unfold heartbeat. cbn [o_due o_ok_rx o_http o_ok o_fresh o_now].
    rewrite Hd, Hm. f_equal. by destruct rx.
  - destruct (ml_pc s) eqn:Epc; try done. injection H as <-. destruct Hs as (m0 & E & Hp). exists l, m0. split; [done|].
    unfold in_progress in *. by rewrite Epc in Hp.
  - assert (s' = s <| ml_stop := true |>) as -> by (destruct (ml_pc s); congruence). exact (ex_intro _ l Hs).
  - assert (s' = s <| ml_client := false |>) as -> by (destruct (ml_pc s); congruence). exact (ex_intro _ l Hs).
  - assert (s' = s <| ml_pc := LoopOver |> <| ml_client := false |> <| ml_over := true |>) as ->
      by (destruct (ml_pc s), (ml_stop s), (ml_client s); cbn in H; congruence).
    destruct Hs as (m0 & E & _). exists l, m0. split; [done|]. by left.
Qed.

(** C17: However records, evaluations, the drone's answers and the ends of the
    monitor's tasks interleave: what was published is what a sequence of
    records and one-step evaluations publishes, connects and disconnects in
    turn; and between evaluations the monitor is where that sequence leaves
    it. *)
Theorem monitor_loop_refines es s :
  loop_run loop_new es = Some s ->
  alternates false (ml_pub s) /\
  exists l, evs_of cfg mon_init l = ml_pub s /\
    (ml_pc s = AtTest \/ ml_pc s = Pausing -> st_after cfg mon_init l = ml_mon s).
Proof.
  intros Hr. assert (H : exists l, simulates s l).
  { assert (H0 : exists l, simulates loop_new l) by (exists [], mon_init; done). revert H0 Hr. generalize loop_new.
    induction es as [|e es IH]; intros s0 H0 Hr; cbn in Hr; [by injection Hr as <-|].
    apply bind_Some in Hr as (s1 & H1 & Hr). destruct H0 as [l0 H0]. apply (IH s1); [by eapply step_simulates|done]. }
  destruct H as (l & m0 & E & Hp). assert (He : evs_of cfg mon_init l = ml_pub s) by (unfold evs_of; by rewrite E). split.
  - rewrite <- He. apply (events_alternate cfg l).
  - exists l. split; [done|]. unfold st_after. rewrite E. unfold in_progress in Hp. intros [Hpc|Hpc]; rewrite Hpc in Hp; done.
Qed.
End Loop.
