(* ===== verification/Config.v ===== *)
(** * config.py and config_defaults.py: defaults, the config file, the store

    The effective configuration is the code's defaults with the file merged
    onto them; a PATCH merges onto the pending configuration, [commit] makes it
    effective and rewrites the file.  The file is the JSON value it holds:
    writing and parsing the text is the language's.  Copies are values here:
    the code copies at every boundary, so no two parts share a dict. *)
From Stdlib Require Import ZArith Lia Bool String.
From stdpp Require Import base tactics list sets strings.
From S2P Require Import Prelude PyStr Json Cards Schema StatsClient LearnedPrior Decision Signals Policy ConnMonitor.
Open Scope Z_scope.

Section Config.
Context {F : Type} {PF : PyFloat F}.
#[local] Abbreviation dict := (list (string * json F)).
Implicit Types (v : json F) (d : dict).

(** ** Merging *)

(** The value a merge stores for an overlay [value] whose key holds [old]. *)
Fixpoint merge_value (value : json F) (old : option (json F)) : json F :=
  match value, old with
  | JDict items, Some (JDict base) =>
      JDict ((fix go (items out : dict) : dict :=
                match items with
                | [] => out
                | (key, v) :: rest => go rest (dict_set key (merge_value v (dict_get key out)) out)
                end) items base)
  | _, _ => value
  end.

Fixpoint deep_merge (base overlay : dict) : dict :=
  match overlay with
  | [] => base
  | (key, v) :: rest => deep_merge (dict_set key (merge_value v (dict_get key base)) base) rest
  end.

Lemma merge_value_dict (base items : dict) :
  merge_value (JDict items) (Some (JDict base)) = JDict (deep_merge base items).
Proof.
  cbn. f_equal. revert base. induction items as [|[k v] items IH]; intros base; [done|apply IH].
Qed.

(** ** Dropping stale keys of an old file *)

Definition prune_keys (known : list string) d : dict := List.filter (fun kv => bool_decide (kv.1 ∈ known)) d.

(** [sub = d.get(k); if isinstance(sub, dict): sub is updated in place]. *)
Definition in_block (k : string) (f : dict -> dict) d : dict :=
  match dict_get k d with Some (JDict sub) => dict_set k (JDict (f sub)) d | _ => d end.

Definition _warn_unknown (loaded defaults : dict) : dict :=
  let pruned := prune_keys (dict_keys defaults) loaded in
  let pruned := in_block "dynamicLink" (prune_keys DYNAMIC_LINK_KEYS) pruned in
  let pruned := in_block "drone" (prune_keys DRONE_KEYS) pruned in
  let pruned := in_block "dynamicLink" (fun dl =>
    in_block "tap" (prune_keys TAP_KEYS)
      (in_block "learnedPrior" (prune_keys LEARNED_PRIOR_KEYS)
        (in_block "smoothing" (prune_keys SMOOTHING_KEYS)
          (in_block "selector" (prune_keys SELECTOR_KEYS) dl)))) pruned in
  in_block "wfb" (in_block "txSelector" (prune_keys TX_SELECTOR_KEYS)) pruned.

(** ** The defaults *)

Definition _dynamic_link_defaults : json F :=
  let sel := default_selcfg in
  let lp := default_lpc in
  JDict [("enabled", JBool false); ("maxMcs", JInt 5); ("dronePort", JInt 9999);
    ("selector", JDict [
      ("videoDemotePer", JFloat (video_demote_per sel));
      ("emergencyFecPressure", JFloat (emergency_fec_pressure sel));
      ("holdModesDownMs", JInt (hold_modes_down_ms sel));
      ("minBetweenChangesMs", JInt (min_between_changes_ms sel));
      ("starvationWindows", JInt (starvation_windows sel));
      ("flapBaseBackoffMs", JInt (flap_base_backoff_ms sel));
      ("flapBackoffMult", JFloat (flap_backoff_mult sel));
      ("flapBackoffCapMs", JInt (flap_backoff_cap_ms sel));
      ("flapResetCleanDwellTicks", JInt (flap_reset_clean_dwell_ticks sel));
      ("trialWindowMs", JInt (trial_window_ms sel));
      ("promoteDwellTicks", JInt (promote_dwell_ticks sel));
      ("promoteSlopeMin", JFloat (promote_slope_min sel));
      ("collapseDeltaDb", JFloat (collapse_delta_db sel));
      ("snapbackRecoverMarginDb", JFloat (snapback_recover_margin_db sel));
      ("confirmTtlMs", JInt (confirm_ttl_ms sel));
      ("flapSnrReleaseDb", JFloat (flap_snr_release_db sel));
      ("flapDecayMs", JInt (flap_decay_ms sel))]);
    ("smoothing", JDict [
      ("ewmaAlphaRssi", JFloat (flit 2 10)); ("ewmaAlphaFec", JFloat (flit 2 10));
      ("ewmaAlphaBurst", JFloat (flit 1 10)); ("starvationThresholdPps", JFloat (fofZ 50))]);
    ("learnedPrior", JDict [
      ("settleTicks", JInt (settle_ticks lp)); ("viableLoss", JFloat (viable_loss lp));
      ("alphaTighten", JFloat (alpha_tighten lp)); ("alphaRelax", JFloat (alpha_relax lp));
      ("minSamples", JFloat (min_samples lp)); ("recencyDecay", JFloat (recency_decay lp))]);
    ("flightlog", JDict [("enabled", JBool true)]);
    ("tap", JDict [("enabled", JBool true); ("port", JInt 8110); ("staleMs", JInt 500); ("captureRaw", JBool false)]);
    ("probe", JDict [("enabled", JBool false)])].

Definition _connection_monitor_defaults : json F :=
  let cm := default_moncfg in
  JDict [("enabled", JBool (cm_enabled cm)); ("tunnelStaleS", JFloat (tunnel_stale_s cm));
    ("httpPollS", JFloat (http_poll_s cm)); ("httpTimeoutS", JFloat (http_timeout_s cm));
    ("httpFailCount", JInt (http_fail_count cm)); ("evalIntervalS", JFloat (eval_interval_s cm));
    ("disconnectGraceS", JFloat (disconnect_grace_s cm))].

Definition default_config : dict :=
  [("link", JDict [("channel", JInt 132); ("width", JInt 20); ("txPowerDbm", JNull); ("region", JStr "US");
      ("linkId", JInt 7669206); ("beamforming", JDict [("enabled", JBool false)]); ("cards", JStr "auto");
      ("serverAddress", JNull); ("videoEncryption", JBool true)]);
   ("wfb", JDict [("profile", JStr "gs"); ("mavlink", JDict [("peer", JStr "connect://127.0.0.1:14550")]);
      ("txSelector", JDict [("rssiDeltaDb", JInt 3); ("counterRelDelta", JFloat (flit 1 10)); ("counterAbsDelta", JInt 3)]);
      ("raw", JDict [])]);
   ("drone", JDict [("host", JStr "10.5.0.10"); ("apiPort", JInt 8080)]);
   ("dynamicLink", _dynamic_link_defaults);
   ("idrForward", JDict [("enabled", JBool true); ("port", JInt 11223)]);
   ("connectionMonitor", _connection_monitor_defaults);
   ("pixelpilot", JDict [("enabled", JBool true); ("bin", JStr "/usr/bin/pixelpilot"); ("env", JDict []);
      ("configPath", JStr "/etc/pixelpilot.yaml"); ("osdConfigPath", JStr "/etc/pixelpilot/osd.json");
      ("screenMode", JStr "1920x1080@60"); ("codec", JStr "h265"); ("rtpPort", JInt 5600);
      ("dvr", JDict [("dir", JStr "/media/dvr"); ("template", JStr "record_%Y-%m-%d_%H-%M-%S.mp4");
         ("fmp4", JBool true); ("sequencedFiles", JBool true)]);
      ("extraArgs", JList [])])].

(** ** The store *)

Record ConfigStore := mkStore { cs_defaults : dict; cs_config : dict; cs_pending : dict; cs_path : string }.
#[export] Instance eta_store : Settable ConfigStore := fun s =>
  mkStore (cs_defaults s) (cs_config s) (cs_pending s) (cs_path s).

Implicit Types (s : ConfigStore).

Definition store_init (defaults loaded : dict) (path : string) : ConfigStore :=
  let config := deep_merge defaults loaded in mkStore defaults config config path.

(** [_warn_unknown] of a file whose top level is not an object: the set of its
    items is taken, an unknown one is deleted, and then [get] is called. *)
Definition warn_unknown_file (loaded : json F) (defaults : dict) : res dict :=
  match loaded with
  | JDict d => Ok (_warn_unknown d defaults)
  | JStr "" => Err AttributeError
  | JList l => if forallb (fun x => match x with JStr k => bool_decide (k ∈ dict_keys defaults) | _ => false end) l
               then Err AttributeError else Err TypeError
  | _ => Err TypeError
  end.

(** [file]: the parsed file at a path that exists, or the error reading and
    parsing it raises. *)
Definition store_load (path : string) (file : option (res (json F))) : res ConfigStore :=
  match file with
  | Some r => if String.eqb path "" then Ok (store_init default_config [] path)
              else let* doc := r in
                   let* loaded := warn_unknown_file doc default_config in
                   Ok (store_init default_config loaded path)
  | None => Ok (store_init default_config [] path)
  end.

Definition effective s : dict := cs_config s.
Definition pending s : dict := cs_pending s.
Definition patch s (sparse : dict) : ConfigStore := s <| cs_pending := deep_merge (cs_pending s) sparse |>.

(** [_persist]: what the file holds afterwards; [io] is the error writing or
    renaming the temporary file raises, which leaves the old file. *)
Definition _persist s (file : option (json F)) (io : option pyerr) : option (json F) * res unit :=
  if String.eqb (cs_path s) "" then (file, Ok tt)
  else match io with
       | Some e => (file, Err e)
       | None => (Some (JDict (cs_config s)), Ok tt)
       end.

Definition commit s (file : option (json F)) (io : option pyerr) : ConfigStore * (option (json F) * res unit) :=
  let s' := s <| cs_config := cs_pending s |> in (s', _persist s' file io).

Definition reset s (file : option (json F)) (io : option pyerr) : ConfigStore * (option (json F) * res unit) :=
  let s' := s <| cs_config := cs_defaults s |> <| cs_pending := cs_defaults s |> in (s', _persist s' file io).

(** ** Lookup in a merge *)

(** Every object of a parsed JSON value has distinct keys. *)
Inductive wf : json F -> Prop :=
| wf_dict d : NoDup (dict_keys d) -> (forall k v, dict_get k d = Some v -> wf v) -> wf (JDict d)
| wf_leaf v : is_dict v = false -> wf v.

Lemma dict_get_merge k (o b : dict) :
  NoDup (dict_keys o) ->
  dict_get k (deep_merge b o) =
    match dict_get k o with Some v => Some (merge_value v (dict_get k b)) | None => dict_get k b end.
Proof.
  revert b. induction o as [|[k' v'] o IH]; intros b Hd; [done|]. cbn. cbn in Hd.
  apply NoDup_cons in Hd as [Hni Hd]. rewrite IH by done.
  destruct (String.eqb_spec k k') as [->|Hne].
  - apply dict_get_none in Hni. by rewrite Hni, dict_get_set_eq.
  - by rewrite dict_get_set_ne by congruence.
Qed.

(** What a path leads to: nothing, an object, or a leaf. *)
Fixpoint look (p : list string) (v : json F) : option (option (json F)) :=
  match p with
  | [] => Some (match v with JDict _ => None | _ => Some v end)
  | k :: p' => match v with
               | JDict d => match dict_get k d with Some x => look p' x | None => None end
               | _ => None
               end
  end.

(** Equal as Python compares them: the same bindings, in any order. *)
Definition jeq (a b : json F) : Prop := forall p, look p a = look p b.

#[export] Instance jeq_equiv : Equivalence jeq.
Proof. split; [by intros v p|by intros a b H p; symmetry|by intros a b c H1 H2 p; rewrite H1]. Qed.

(** [o] does not mention the path: an object on the way lacks the next key. *)
Fixpoint untouched (p : list string) (o : json F) : Prop :=
  match p with
  | [] => False
  | k :: p' => match o with
               | JDict d => match dict_get k d with Some x => untouched p' x | None => True end
               | _ => False
               end
  end.

Lemma wf_get k d v : wf (JDict d) -> dict_get k d = Some v -> wf v.
Proof. inversion 1; subst; [eauto|done]. Qed.
Lemma wf_keys d : wf (JDict d) -> NoDup (dict_keys d).
Proof. by inversion 1. Qed.
Hint Resolve wf_get wf_keys : fpvd.

Lemma merge_value_leaf (v : json F) old p l : wf v -> look p v = Some (Some l) -> look p (merge_value v old) = Some (Some l).
Proof.
  revert v old. induction p as [|k p IH]; intros v old Hwf.
  { destruct v; cbn; try done. }
  destruct v as [| | | | | |o]; try done. destruct old as [[| | | | | |b]|]; try done.
  rewrite merge_value_dict. cbn [look]. rewrite dict_get_merge by eauto with fpvd.
  destruct (dict_get k o) eqn:E; [|done]. eauto with fpvd.
Qed.

Lemma merge_value_untouched (o b : json F) p :
  wf o -> untouched p o -> look p (merge_value o (Some b)) = look p b.
Proof.
  revert o b. induction p as [|k p IH]; intros o b Hwf Hu; [done|]. cbn in Hu.
  destruct o as [| | | | | |o]; try done. destruct b as [| | | | | |b].
  1-6: cbn; destruct (dict_get k o) as [x|] eqn:E; [|done];
       transitivity (look p (merge_value x (Some JNull))); [|rewrite IH; [by destruct p|eauto with fpvd|done]];
       destruct x; done.
  rewrite merge_value_dict. cbn [look]. rewrite dict_get_merge by eauto with fpvd.
  destruct (dict_get k o) as [x|] eqn:E; [|done]. destruct (dict_get k b) as [y|].
  - apply IH; eauto with fpvd.
  - transitivity (look p (merge_value x (Some JNull))); [by destruct x|].
    rewrite IH; [destruct p; [done|by cbn]|eauto with fpvd|done].
Qed.

(** A patch sets every leaf it names, leaves every path it does not
    mention as it was, and changes the pending configuration only. *)
Theorem patch_sets_and_keeps s (sparse : dict) p :
  wf (JDict sparse) ->
  (forall leaf, look p (JDict sparse) = Some (Some leaf) -> look p (JDict (pending (patch s sparse))) = Some (Some leaf)) /\
  (untouched p (JDict sparse) -> look p (JDict (pending (patch s sparse))) = look p (JDict (pending s))) /\
  effective (patch s sparse) = effective s.
Proof.
  intros Hwf. change (pending (patch s sparse)) with (deep_merge (cs_pending s) sparse).
  rewrite <- merge_value_dict. split_and!; [|by intros; apply merge_value_untouched|done].
  intros leaf. by apply merge_value_leaf.
Qed.

(** ** The file and the store agree *)

(** [c] has every key of [b], and an object where [b] has one. *)
Definition extends (b c : json F) : Prop := forall p,
  match look p b with Some None => look p c = Some None | Some (Some _) => look p c <> None | None => True end.

(** [o] puts no scalar or list where [b] has an object. *)
Definition respects (b o : json F) : Prop := forall p leaf, look p b = Some None -> look p o <> Some (Some leaf).

Lemma extends_refl (b : json F) : extends b b.
Proof. intros p. by destruct (look p b) as [[]|]. Qed.

Lemma extends_get k d c y : extends (JDict d) (JDict c) -> dict_get k d = Some y ->
  exists x, dict_get k c = Some x /\ extends y x.
Proof.
  intros H Hy. destruct (dict_get k c) as [x|] eqn:Hx.
  - exists x. split; [done|]. intros p. specialize (H (k :: p)). cbn in H. by rewrite Hy, Hx in H.
  - specialize (H [k]). cbn in H. rewrite Hy, Hx in H. by destruct y.
Qed.

Lemma respects_get k d o y x : respects (JDict d) (JDict o) -> dict_get k d = Some y -> dict_get k o = Some x -> respects y x.
Proof. intros H Hy Hx p leaf Hp. specialize (H (k :: p) leaf). cbn in H. rewrite Hy, Hx in H. auto. Qed.

Lemma dict_extends d (c : json F) : extends (JDict d) c -> exists c', c = JDict c'.
Proof. intros H. specialize (H []). cbn in H. destruct c; try done. eauto. Qed.

Lemma dict_respects d (o : json F) : respects (JDict d) o -> exists o', o = JDict o'.
Proof. intros H. destruct o as [| | | | | |o']; [..|eauto]; exfalso; eapply (H []); done. Qed.

Lemma extends_merge (b c o : json F) : wf o -> extends b c -> respects b o -> extends b (merge_value o (Some c)).
Proof.
  intros Hwf He Hr p. revert b c o Hwf He Hr. induction p as [|k p IH]; intros b c o Hwf He Hr.
  - destruct b as [| | | | | |b]; try done. destruct (dict_extends _ _ He) as [c' ->].
    destruct (dict_respects _ _ Hr) as [o' ->]. by rewrite merge_value_dict.
  - destruct b as [| | | | | |b]; try done. destruct (dict_extends _ _ He) as [c' ->].
    destruct (dict_respects _ _ Hr) as [o' ->]. rewrite merge_value_dict. cbn [look].
    destruct (dict_get k b) as [y|] eqn:Hy; [|done]. destruct (extends_get _ _ _ _ He Hy) as (x & Hx & Hex).
    rewrite dict_get_merge by eauto with fpvd. destruct (dict_get k o') as [w|] eqn:Hw; rewrite Hx.
    + apply IH; [eauto with fpvd|done|by eapply respects_get].
    + apply Hex.
Qed.

Lemma merge_extended (b c : json F) : wf c -> extends b c -> jeq (merge_value c (Some b)) c.
Proof.
  intros Hwf He p. revert b c Hwf He. induction p as [|k p IH]; intros b c Hwf He.
  { by destruct c, b. }
  destruct c as [| | | | | |c]; try done. destruct b as [| | | | | |b]; try done.
  rewrite merge_value_dict. cbn [look]. rewrite dict_get_merge by eauto with fpvd.
  destruct (dict_get k c) as [x|] eqn:Hx.
  - destruct (dict_get k b) as [y|] eqn:Hy; [|by destruct x].
    destruct (extends_get _ _ _ _ He Hy) as (x' & Hx' & Hex). assert (x' = x) as -> by congruence. apply IH; eauto with fpvd.
  - destruct (dict_get k b) as [y|] eqn:Hy; [|done].
    destruct (extends_get _ _ _ _ He Hy) as (x' & Hx' & _). congruence.
Qed.

Fixpoint jsize (v : json F) : nat :=
  match v with
  | JDict d => S ((fix go (d : dict) := match d with [] => O | (_, x) :: d' => (jsize x + go d')%nat end) d)
  | _ => 1
  end.

Lemma jsize_get k d v : dict_get k d = Some v -> (jsize v < jsize (JDict d))%nat.
Proof.
  cbn. induction d as [|[k' v'] d IH]; cbn; [done|]. destruct (String.eqb k k'); [intros [= ->]; lia|].
  intros H%IH. lia.
Qed.

(** [wf] as a test. *)
Fixpoint wfb (v : json F) : bool :=
  match v with
  | JDict d => bool_decide (NoDup (dict_keys d)) &&
               (fix go (d : dict) := match d with [] => true | (_, x) :: d' => wfb x && go d' end) d
  | _ => true
  end.

Lemma wfb_wf (v : json F) : wfb v = true -> wf v.
Proof.
  remember (jsize v) as n eqn:Hn. revert v Hn. induction n as [n IH] using lt_wf_ind. intros v -> H.
  destruct v as [| | | | | |d]; [by constructor..|]. apply andb_true_iff in H as [Hd%bool_decide_eq_true Hg].
  constructor; [done|]. intros k x Hx. eapply IH; [by eapply jsize_get|done|]. clear IH Hd.
  induction d as [|[k' v'] d IHd]; [done|]. cbn in Hx. apply andb_true_iff in Hg as [? Hg].
  destruct (String.eqb k k'); [by simplify_eq|]. by apply IHd.
Qed.

Lemma merge_keys_NoDup (o b : dict) : NoDup (dict_keys b) -> NoDup (dict_keys (deep_merge b o)).
Proof. revert b. induction o as [|[k v] o IH]; intros b Hb; cbn; [done|]. by apply IH, dict_keys_set_NoDup. Qed.

Lemma wf_merge (o : json F) old : wf o -> (forall c, old = Some c -> wf c) -> wf (merge_value o old).
Proof.
  remember (jsize o) as n eqn:Hn. revert o old Hn. induction n as [n IH] using lt_wf_ind. intros o old -> Ho Hc.
  destruct o as [| | | | | |o]; [by constructor..|]. destruct old as [[| | | | | |b]|]; try done.
  rewrite merge_value_dict. specialize (Hc _ eq_refl). constructor; [eauto using merge_keys_NoDup with fpvd|].
  intros k v. rewrite dict_get_merge by eauto with fpvd. destruct (dict_get k o) as [x|] eqn:Hx; [|by eauto with fpvd].
  intros [= <-]. eapply IH; [by eapply jsize_get|done|by eauto with fpvd|]. intros c Hk. by eauto with fpvd.
Qed.

Definition patches s (ps : list dict) : ConfigStore := fold_left patch ps s.

Definition store_ok (defaults : dict) s : Prop :=
  cs_defaults s = defaults /\ wf (JDict (cs_pending s)) /\ extends (JDict defaults) (JDict (cs_pending s)).

Lemma init_ok (defaults loaded : dict) path :
  wf (JDict defaults) -> wf (JDict loaded) -> respects (JDict defaults) (JDict loaded) ->
  store_ok defaults (store_init defaults loaded path).
Proof.
  intros Hd Hl Hr. split; [done|]. cbn. rewrite <- merge_value_dict. split.
  - apply wf_merge; [done|]. by intros c [= <-].
  - apply extends_merge; [done|apply extends_refl|done].
Qed.

Lemma patch_ok defaults s (sparse : dict) :
  store_ok defaults s -> wf (JDict sparse) -> respects (JDict defaults) (JDict sparse) -> store_ok defaults (patch s sparse).
Proof.
  intros (Hd & Hw & He) Hs Hr. split; [done|]. cbn. rewrite <- merge_value_dict. split.
  - apply wf_merge; [done|]. by intros c [= <-].
  - by apply extends_merge.
Qed.

Lemma patches_ok defaults s ps :
  store_ok defaults s -> Forall (fun o => wf (JDict o) /\ respects (JDict defaults) (JDict o)) ps ->
  store_ok defaults (patches s ps).
Proof.
  unfold patches. intros Hs Hps. revert s Hs. induction Hps as [|o ps [Hw Hr] _ IH]; intros s Hs; [done|].
  cbn. apply IH. by apply patch_ok.
Qed.

Lemma patches_path s ps : cs_path (patches s ps) = cs_path s.
Proof. unfold patches. revert s. induction ps as [|o ps IH]; intros s; [done|]. cbn. by rewrite IH. Qed.
End Config.

(** ** The defaults and the stale keys *)

Section Defaults.
Context {F : Type} {PF : PyFloat F}.
Implicit Types (d : list (string * json F)).

Lemma default_config_wf : wf (JDict (default_config (F := F))).
Proof. by apply wfb_wf. Qed.

(** C31: For a store loaded from a file and patched any number of times, where
    neither the file nor a patch puts a scalar, null or list in place of a
    default object and the pending configuration uses known keys: a commit
    whose write succeeds makes the pending configuration effective, and a
    restart that loads the file it wrote has the same effective configuration,
    up to the order of keys. *)
Theorem commit_load_roundtrip path (loaded : list (string * json F)) ps file :
  path <> "" ->
  wf (JDict loaded) -> respects (JDict default_config) (JDict loaded) ->
  Forall (fun o => wf (JDict o) /\ respects (JDict default_config) (JDict o)) ps ->
  let s := patches (store_init default_config loaded path) ps in
  _warn_unknown (pending s) default_config = pending s ->
  let '(s1, (file', r)) := commit s file None in
  r = Ok tt /\ effective s1 = pending s /\
  exists doc s2, file' = Some doc /\ store_load path (Some (Ok doc)) = Ok s2 /\
    jeq (JDict (effective s2)) (JDict (effective s1)).
Proof.
  intros Hp Hl Hr Hps s Hk. cbn [commit]. unfold _persist. cbn [cs_path].
  assert (Hs : store_ok default_config s) by (apply patches_ok; [apply init_ok; auto using default_config_wf|done]).
  assert (Hpath : cs_path s = path) by (apply patches_path).
  change (cs_path (s <| cs_config := cs_pending s |>)) with (cs_path s). rewrite Hpath.
  destruct (String.eqb_spec path ""); [done|]. split_and!; [done..|].
  eexists _, _. split; [done|]. unfold store_load. destruct (String.eqb_spec path ""); [done|].
  cbn [rbind warn_unknown_file]. change (cs_config (s <| cs_config := cs_pending s |>)) with (pending s).
  rewrite Hk. split; [done|]. cbn [effective store_init cs_config]. rewrite <- merge_value_dict.
  destruct Hs as (_ & Hw & He). by apply merge_extended.
Qed.

(** The blocks whose keys validation checks and loading prunes. *)
Definition STRICT_BLOCKS : list (list string * list string) :=
  [([], CONFIG_TOP_KEYS); (["dynamicLink"], DYNAMIC_LINK_KEYS); (["drone"], DRONE_KEYS);
   (["dynamicLink"; "selector"], SELECTOR_KEYS); (["dynamicLink"; "smoothing"], SMOOTHING_KEYS);
   (["dynamicLink"; "learnedPrior"], LEARNED_PRIOR_KEYS); (["dynamicLink"; "tap"], TAP_KEYS);
   (["wfb"; "txSelector"], TX_SELECTOR_KEYS)].

Lemma dict_get_prune k known d :
  dict_get k (prune_keys known d) = if bool_decide (k ∈ known) then dict_get k d else None.
Proof.
  unfold prune_keys. induction d as [|[k' v'] d IH]; cbn; [by case_match|].
  destruct (String.eqb_spec k k') as [->|Hne].
  - destruct (bool_decide (k' ∈ known)) eqn:E; cbn; [by rewrite String.eqb_refl|exact IH].
  - destruct (bool_decide (k' ∈ known)); cbn; [|done]. by destruct (String.eqb_spec k k').
Qed.

Definition on_dict (f : list (string * json F) -> list (string * json F)) (v : json F) : json F :=
  match v with JDict d => JDict (f d) | _ => v end.

Lemma dict_get_in_block k k' f d :
  dict_get k' (in_block k f d) = if String.eqb k' k then on_dict f <$> dict_get k d else dict_get k' d.
Proof.
  unfold in_block. destruct (String.eqb_spec k' k) as [->|Hne].
  - destruct (dict_get k d) as [[| | | | | |sub]|] eqn:E; try by rewrite ?E. by rewrite dict_get_set_eq.
  - destruct (dict_get k d) as [[| | | | | |sub]|] eqn:E; try done. by rewrite dict_get_set_ne by congruence.
Qed.

Lemma look_merge_none (o b : json F) p :
  wf o -> look p o = None -> look p b = None -> look p (merge_value o (Some b)) = None.
Proof.
  revert o b. induction p as [|k p IH]; intros o b Hwf Ho Hb; [done|].
  destruct o as [| | | | | |o]; try done. destruct b as [| | | | | |b]; try done.
  rewrite merge_value_dict. cbn [look] in *. rewrite dict_get_merge by (by apply wf_keys).
  destruct (dict_get k o) as [x|] eqn:Hx; [|done]. destruct (dict_get k b) as [y|] eqn:Hy.
  - apply IH; [by eapply wf_get|done..].
  - by destruct x.
Qed.

Ltac eval_eqb :=
  repeat match goal with
  | |- context [String.eqb ?a ?b] =>
      let r := eval vm_compute in (String.eqb a b) in
      match r with true => idtac | false => idtac end; change (String.eqb a b) with r; cbv iota
  end.

(** Below an entry that is not an object there is nothing to look up. *)
Lemma look_on_dict (o : option (json F)) f k :
  (forall d, o = Some (JDict d) -> dict_get k (f d) = None) ->
  match on_dict f <$> o with Some x => look [k] x | None => None end = None.
Proof.
  intros H. destruct o as [[| | | | | |d]|]; try done. cbn. by rewrite H.
Qed.

Lemma look2_on_dict (o : option (json F)) f k1 k2 g :
  (forall d, dict_get k1 (f d) = on_dict g <$> dict_get k1 d) -> (forall d, dict_get k2 (g d) = None) ->
  match on_dict f <$> o with Some x => look [k1; k2] x | None => None end = None.
Proof.
  intros Hf Hg. destruct o as [[| | | | | |d]|]; try done. cbn [fmap option_fmap option_map on_dict].
  change (look [k1; k2] (JDict (f d))) with (match dict_get k1 (f d) with Some x => look [k2] x | None => None end).
  rewrite Hf. by apply look_on_dict.
Qed.

Lemma on_dict_comp f g (o : option (json F)) : on_dict f <$> (on_dict g <$> o) = on_dict (fun d => f (g d)) <$> o.
Proof. by destruct o as [[]|]. Qed.

Lemma prune_unknown k known d : k ∉ known -> dict_get k (prune_keys known d) = None.
Proof. intros H. rewrite dict_get_prune. by rewrite bool_decide_false. Qed.

Lemma default_top_keys k : k ∈ dict_keys (default_config (F := F)) <-> k ∈ CONFIG_TOP_KEYS.
Proof. unfold default_config, CONFIG_TOP_KEYS. cbn [dict_keys map fst]. set_solver. Qed.

Lemma in_block_none k k' f d : dict_get k d = None -> dict_get k (in_block k' f d) = None.
Proof. intros H. rewrite dict_get_in_block. destruct (String.eqb_spec k k') as [->|]; [by rewrite H|done]. Qed.

Lemma look_pruned_none (loaded : list (string * json F)) p known k :
  (p, known) ∈ STRICT_BLOCKS -> k ∉ known -> look (p ++ [k]) (JDict (_warn_unknown loaded default_config)) = None.
Proof.
  intros Hin Hk. unfold _warn_unknown, STRICT_BLOCKS in *. cbv zeta.
  repeat (apply elem_of_cons in Hin as [[= -> ->]|Hin]); [..|by apply elem_of_nil in Hin]; cbn [app].
  all: match goal with |- look (?k0 :: ?p0) (JDict ?d) = None =>
         change (match dict_get k0 d with Some x => look p0 x | None => None end = None) end.
  1: { rewrite in_block_none; [done|]. repeat apply in_block_none. apply prune_unknown. by rewrite default_top_keys. }
  all: rewrite ?dict_get_in_block; eval_eqb; rewrite ?dict_get_prune, ?on_dict_comp.
  all: match goal with |- context [on_dict _ <$> ?o] => generalize o; intros o0 end.
  all: lazymatch goal with
       | |- context [look [_]] => apply look_on_dict; intros d _
       | _ => match goal with H : _ ∉ ?kn |- _ => apply (look2_on_dict _ _ _ _ (prune_keys kn)); intros d end
       end.
  all: try by apply prune_unknown.
  1: { repeat apply in_block_none. by apply prune_unknown. }
  all: rewrite ?dict_get_in_block; eval_eqb; rewrite ?dict_get_prune, ?on_dict_comp; reflexivity.
Qed.

Lemma look_default_none p known k :
  (p, known) ∈ STRICT_BLOCKS -> k ∉ known -> look (p ++ [k]) (JDict (default_config (F := F))) = None.
Proof.
  intros Hin Hk. unfold STRICT_BLOCKS in *.
  repeat (apply elem_of_cons in Hin as [[= -> ->]|Hin]); [..|by apply elem_of_nil in Hin].
  all: unfold default_config, _dynamic_link_defaults; cbv zeta; cbn [app look dict_get]; do 3 (eval_eqb; cbn [look dict_get]).
  all: repeat match goal with |- context [String.eqb ?kk ?lit] =>
         destruct (String.eqb_spec kk lit) as [->|];
         [exfalso; apply Hk; apply (bool_decide_eq_true_1 _); reflexivity|] end; reflexivity.
Qed.

Lemma wf_filter (P : string * json F -> bool) d : wf (JDict d) -> wf (JDict (List.filter P d)).
Proof.
  intros H. assert (Hd := wf_keys _ H).
  assert (Hsub : forall k v, dict_get k (List.filter P d) = Some v -> dict_get k d = Some v).
  { clear H. induction d as [|[k' v'] d IH]; cbn; [done|]. apply NoDup_cons in Hd as [Hni Hd]. intros k v.
    destruct (P (k', v')); cbn; [destruct (String.eqb k k'); [done|by apply IH]|].
    destruct (String.eqb_spec k k') as [->|]; [|by apply IH].
    intros Hg%IH; [|done]. exfalso. by apply Hni, (dict_get_some_key _ _ v). }
  constructor; [|intros k v Hk; by eapply wf_get; [exact H|apply Hsub]].
  clear H Hsub. induction d as [|[k' v'] d IH]; cbn; [constructor|]. apply NoDup_cons in Hd as [Hni Hd].
  destruct (P (k', v')); cbn; [|by apply IH]. constructor; [|by apply IH].
  intros Hin. apply Hni. clear -Hin. induction d as [|[k0 v0] d IH]; cbn in *; [done|].
  destruct (P (k0, v0)); cbn in *; [apply elem_of_cons in Hin as [->|]; [by left|right; by apply IH]|right; by apply IH].
Qed.

Lemma wf_in_block k f d : (forall d, wf (JDict d) -> wf (JDict (f d))) -> wf (JDict d) -> wf (JDict (in_block k f d)).
Proof.
  intros Hf H. unfold in_block. destruct (dict_get k d) as [[| | | | | |sub]|] eqn:E; try done.
  constructor; [by apply dict_keys_set_NoDup, wf_keys|]. intros k' v.
  destruct (String.eqb_spec k k') as [->|]; [rewrite dict_get_set_eq; intros [= <-]; by eapply Hf, wf_get|].
  rewrite dict_get_set_ne by done. by apply wf_get.
Qed.

Lemma wf_warn_unknown d defaults : wf (JDict d) -> wf (JDict (_warn_unknown d defaults)).
Proof.
  intros H. unfold _warn_unknown, prune_keys. repeat (apply wf_in_block; intros); by repeat (apply wf_filter || apply wf_in_block; intros).
Qed.

(** Whatever object the config file holds, after loading the top level
    and the dynamicLink, drone, selector, smoothing, learnedPrior, tap and
    txSelector blocks hold no key that validation would reject as unknown. *)
Theorem load_drops_stale_keys path doc s p known k :
  store_load path (Some (Ok doc)) = Ok s -> wf doc ->
  (p, known) ∈ STRICT_BLOCKS -> k ∉ known -> look (p ++ [k]) (JDict (effective s)) = None.
Proof.
  unfold store_load. destruct (String.eqb path "").
  { intros [= <-] _. apply look_default_none. }
  cbn [rbind]. intros (loaded & Hl & [= <-])%rbind_ok Hwf Hin Hk.
  assert (exists d, doc = JDict d /\ loaded = _warn_unknown d default_config) as (d & -> & ->).
  { destruct doc as [| | | |str|l|d]; try done; [destruct str; done|cbn in Hl; by destruct (forallb _ _)|].
    injection Hl as <-. eauto. }
  cbn [effective store_init cs_config]. rewrite <- merge_value_dict.
  apply look_merge_none; [by apply wf_warn_unknown|by eapply look_pruned_none|by eapply look_default_none].
Qed.
End Defaults.
