(* ===== verification/ConfigBuild.v ===== *)
(** * dynlink/config_build.py: from the config block to the controller's objects

    [make_dl_snapshot] cuts the controller's snapshot out of the effective
    configuration; [build_policy_config] and [build_aggregator] convert its
    knobs.  A knob that is absent takes the dataclass default; one that is
    present is converted with [float] or [int], which may raise. *)
From Stdlib Require Import ZArith Lia Bool String QArith.
From Stdlib.Floats Require Import SpecFloat.
From stdpp Require Import base tactics list sets strings.
From S2P Require Import Prelude PyStr FloatModels Json Cards Schema StatsClient LearnedPrior Signals Policy FlightLog ConnMonitor Config.
Open Scope Z_scope.

Section Build.
Context {F : Type} {PF : PyFloat F}.
#[local] Abbreviation dict := (list (string * json F)).
Implicit Types (d block : dict).

Definition default_flc : FlightLogConfig F := mkFLC true "/media/dvr/log/dynamic-link/" (fofZ 8) 50.

(** [float(d.get(k, default))] and [int(d.get(k, default))]. *)
Definition float_knob (k : string) (default : F) d : res F := py_float (get_or k (JFloat default) d).
Definition int_knob (k : string) (default : Z) d : res Z := py_int (get_or k (JInt default) d).

(** [block.get(k, {}) or {}], used as a dict. *)
Definition sub_block (k : string) block : res dict :=
  match or_empty (get_or k (JDict []) block) with JDict d => Ok d | _ => Err AttributeError end.

Definition build_selector block : res (SelectorConfig F) :=
  let* sel := sub_block "selector" block in
  let d := default_selcfg in
  let* video_demote_per_ := float_knob "videoDemotePer" (video_demote_per d) sel in
  let* emergency_ := float_knob "emergencyFecPressure" (emergency_fec_pressure d) sel in
  let* max_mcs_ := int_knob "maxMcs" (max_mcs d) block in
  let* hold_ := int_knob "holdModesDownMs" (hold_modes_down_ms d) sel in
  let* min_between_ := int_knob "minBetweenChangesMs" (min_between_changes_ms d) sel in
  let* starvation_ := int_knob "starvationWindows" (starvation_windows d) sel in
  let* promote_margin_ := float_knob "snrPromoteMarginDb" (snr_promote_margin_db d) sel in
  let* demote_margin_ := float_knob "snrDemoteMarginDb" (snr_demote_margin_db d) sel in
  let* cooldown_ := int_knob "demoteCooldownWindows" (demote_cooldown_windows d) sel in
  let* flap_base_ := int_knob "flapBaseBackoffMs" (flap_base_backoff_ms d) sel in
  let* flap_mult_ := float_knob "flapBackoffMult" (flap_backoff_mult d) sel in
  let* flap_cap_ := int_knob "flapBackoffCapMs" (flap_backoff_cap_ms d) sel in
  let* flap_reset_ := int_knob "flapResetCleanDwellTicks" (flap_reset_clean_dwell_ticks d) sel in
  let* trial_ := int_knob "trialWindowMs" (trial_window_ms d) sel in
  let* dwell_ := int_knob "promoteDwellTicks" (promote_dwell_ticks d) sel in
  let* slope_ := float_knob "promoteSlopeMin" (promote_slope_min d) sel in
  let* collapse_ := float_knob "collapseDeltaDb" (collapse_delta_db d) sel in
  let* snapback_ := float_knob "snapbackRecoverMarginDb" (snapback_recover_margin_db d) sel in
  let* ttl_ := int_knob "confirmTtlMs" (confirm_ttl_ms d) sel in
  let* release_ := float_knob "flapSnrReleaseDb" (flap_snr_release_db d) sel in
  let* decay_ := int_knob "flapDecayMs" (flap_decay_ms d) sel in
  Ok (mkSelCfg video_demote_per_ emergency_ max_mcs_ hold_ min_between_ starvation_ cooldown_ (snr_demote_debounce d)
        promote_margin_ demote_margin_ flap_base_ flap_mult_ flap_cap_ flap_reset_ dwell_ slope_ trial_ collapse_
        release_ decay_ snapback_ ttl_).

Definition build_learned_prior block : res (LearnedPriorConfig F) :=
  let* lp := sub_block "learnedPrior" block in
  let dlp := default_lpc in
  let* settle_ := int_knob "settleTicks" (settle_ticks dlp) lp in
  let* viable_ := float_knob "viableLoss" (viable_loss dlp) lp in
  let* tighten_ := float_knob "alphaTighten" (alpha_tighten dlp) lp in
  let* relax_ := float_knob "alphaRelax" (alpha_relax dlp) lp in
  let* samples_ := float_knob "minSamples" (min_samples dlp) lp in
  let* decay_ := float_knob "recencyDecay" (recency_decay dlp) lp in
  Ok (mkLPC settle_ viable_ tighten_ relax_ samples_ decay_ (predictive_horizon_ticks dlp)
        (predictive_slope_window_ticks dlp) (predictive_min_drop_db dlp) (predictive_debounce_windows dlp)
        (predictive_demote_margin_db dlp) (flush_interval_observations dlp) (persist_dir dlp)).

(** The policy's configuration and the flight log's, which the code keeps in
    one object. *)
Definition build_policy_config block : res (PolicyConfig F * FlightLogConfig F) :=
  let* selector := build_selector block in
  let* fl := sub_block "flightlog" block in
  let flightlog := mkFLC (truthy (get_or "enabled" (JBool true) fl)) (fl_dir default_flc)
                     (fl_max_mb default_flc) (fl_sync_interval default_flc) in
  let* learned_prior := build_learned_prior block in
  let* width := int_knob "linkWidth" 20 block in
  Ok (mkPolCfg selector learned_prior width, flightlog).

Definition build_aggregator block : res (SignalAggregator F) :=
  let* s := sub_block "smoothing" block in
  let* rssi_ := float_knob "ewmaAlphaRssi" (flit 2 10) s in
  let* fec_ := float_knob "ewmaAlphaFec" (flit 2 10) s in
  let* burst_ := float_knob "ewmaAlphaBurst" (flit 1 10) s in
  let* threshold_ := float_knob "starvationThresholdPps" (fofZ 50) s in
  Ok (agg_init rssi_ fec_ burst_ threshold_).

Definition make_dl_snapshot (effective : dict) : res dict :=
  let* block := py_dict (get_or "dynamicLink" (JDict []) effective) in
  let* addr := obj_get "host" (JStr "10.5.0.10") (get_or "drone" (JDict []) effective) in
  let block := dict_set "droneAddr" addr block in
  let port := get_ "dronePort" block in
  let* port := py_int (if truthy port then port else JInt 9999) in
  let block := dict_set "dronePort" (JInt port) block in
  let* width := obj_get "width" (JInt 20) (get_or "link" (JDict []) effective) in
  let* width := py_int width in
  Ok (dict_set "linkWidth" (JInt width) block).
End Build.

(* ------------------------------------------------------------------ *)
(** ** Validated knobs convert, and land in range

    Over the doubles, bit for bit.  [json.load] reads [1e999], [Infinity] and
    [NaN] into floats that the range checks let through, and compares an int
    with a float exactly; so the knobs are [finite_knob]s: finite, an int below 2^53.
    [infinite_knob_raises] below shows what happens otherwise. *)

Notation "x <=d y" := (fleb (F := binary64) x y = true) (at level 70).
Notation "x <d y" := (fltb (F := binary64) x y = true) (at level 70).

Section Ranges.
Implicit Types (d : list (string * json binary64)) (v : json binary64).
#[local] Abbreviation zero := (b64_ofZ 0).
#[local] Abbreviation one := (b64_ofZ 1).

Definition finite_knob v : bool :=
  match v with JInt z => Z.abs z <? 2 ^ 53 | JFloat x => ffinite x | _ => false end.

(** Every knob the block sets is a finite number: no null, no string. *)
Definition numeric d : Prop := forall k v, dict_get k d = Some v -> finite_knob v = true.

Lemma plain_number v : finite_knob v = true -> number v = true.
Proof. by destruct v. Qed.

Lemma plain_int z : finite_knob (JInt z) = true -> exact_int z.
Proof. cbn. by intros ?%Z.ltb_lt. Qed.

Lemma plain_finite v : finite_knob v = true -> ffinite (num_val v) = true.
Proof. destruct v; try done. intros H%plain_int. by apply b64_ofZ_finite. Qed.

Lemma plain_num v : finite_knob v = true -> b64_num (num_val v).
Proof. intros H%plain_finite. by apply finite_num. Qed.

Lemma ofZ_le a b : exact_int a -> exact_int b -> (b64_ofZ a <=f b64_ofZ b) = (a <=? b).
Proof. apply b64_ofZ_leb. Qed.

Lemma b64_not_le x y : b64_num x -> b64_num y -> (x <=f y) = false -> y <d x.
Proof. intros Hx Hy H. by rewrite (fltb_fleb (num := b64_num)), H by done. Qed.

(** A knob with a finite default, set or not, reads as a finite number. *)
Lemma get_or_plain k (dflt : json binary64) d : numeric d -> finite_knob dflt = true -> finite_knob (get_or k dflt d) = true.
Proof. intros Hn Hd. unfold get_or. destruct (dict_get k d) eqn:E; [by eapply Hn|done]. Qed.

(** A validator's verdict on [d.get(k)] holds of the knob that is read, when
    the default satisfies it too. *)
Lemma knob_checked (P : json binary64 -> bool) k (dflt : json binary64) d msg :
  check (negb (is_none (get_ k d)) && P (get_ k d)) msg = Ok tt -> numeric d -> P dflt = false ->
  P (get_or k dflt d) = false.
Proof.
  intros H%check_ok Hn Hd. unfold get_, get_or in *. destruct (dict_get k d) as [v|] eqn:E; [|done].
  assert (finite_knob v = true) by (by eapply Hn). by destruct v.
Qed.

Lemma py_float_plain v : finite_knob v = true -> py_float v = Ok (num_val v).
Proof. destruct v; try done. intros H%plain_finite. cbn in *. by rewrite H. Qed.

Lemma py_int_plain v : finite_knob v = true -> exists z, py_int v = Ok z /\ (zero <=d num_val v -> 0 <= z).
Proof.
  destruct v as [| |z|x| | |]; try done; intros H.
  - exists z. split; [done|]. apply plain_int in H. cbn [num_val fofZ PyFloat_b64]. rewrite ofZ_le by done. by intros ?%Z.leb_le.
  - exists (ftrunc x). cbn in *. unfold int_of_float. cbn. rewrite H. split; [done|]. by apply b64_trunc_nonneg.
Qed.

Section Constants.
Context v c (Hv : finite_knob v = true) (Hc : exact_int c).

Lemma le_Z_64 : le_Z v c = true <-> num_val v <=d fofZ c.
Proof. destruct v; try done. apply plain_int in Hv. cbn [le_Z Z_le num_val fofZ PyFloat_b64]. by rewrite ofZ_le. Qed.
Lemma Z_le_64 : Z_le c v = true <-> fofZ c <=d num_val v.
Proof. destruct v; try done. apply plain_int in Hv. cbn [le_Z Z_le num_val fofZ PyFloat_b64]. by rewrite ofZ_le. Qed.
Lemma Z_lt_64 : Z_lt c v = true <-> fofZ c <d num_val v.
Proof.
  destruct v; try done. assert (Hf := plain_num _ Hv). assert (Hn := finite_num _ (b64_ofZ_finite c Hc)). apply plain_int in Hv.
  cbn [Z_lt num_val fofZ PyFloat_b64] in *. rewrite (fltb_fleb (num := b64_num)) by done. rewrite ofZ_le by done. by rewrite Z.ltb_antisym.
Qed.
Lemma lt_Z_64 : lt_Z v c = false <-> fofZ c <=d num_val v.
Proof.
  assert (Hf := plain_num _ Hv). assert (Hn := finite_num _ (b64_ofZ_finite c Hc)).
  destruct v as [| |z|x| | |]; try done; cbn [lt_Z num_val fofZ PyFloat_b64] in *.
  - apply plain_int in Hv. rewrite ofZ_le by done. by rewrite Z.ltb_ge, Z.leb_le.
  - by rewrite (fltb_fleb (num := b64_num)), negb_false_iff by done.
Qed.
Lemma le_Z_false : le_Z v c = false -> fofZ c <d num_val v.
Proof.
  intros H. apply b64_not_le; [by apply plain_num|by apply finite_num, b64_ofZ_finite|].
  apply not_true_iff_false. rewrite <- le_Z_64. by apply not_true_iff_false.
Qed.
End Constants.

Lemma prob_knob name k (dflt : binary64) d :
  _validate_prob name (get_ k d) = Ok tt -> numeric d -> ffinite dflt = true -> zero <=d dflt /\ dflt <=d one ->
  exists x, float_knob k dflt d = Ok x /\ zero <=d x /\ x <=d one.
Proof.
  intros H Hn Hf [H0 H1]. assert (N := get_or_plain k (JFloat dflt) d Hn Hf).
  exists (num_val (get_or k (JFloat dflt) d)). split; [by apply py_float_plain|].
  eapply (knob_checked (fun v => negb (number v) || negb (Z_le 0 v && le_Z v 1))) in H; [|done|].
  - rewrite (plain_number _ N) in H. cbn [negb orb] in H. breflect. split; [by apply (Z_le_64 _ 0)|by apply (le_Z_64 _ 1)].
  - cbn in *. by rewrite H0, H1.
Qed.

Lemma alpha_knob name k (dflt : binary64) d :
  _validate_alpha name (get_ k d) = Ok tt -> numeric d -> ffinite dflt = true -> zero <d dflt /\ dflt <=d one ->
  exists x, float_knob k dflt d = Ok x /\ zero <d x /\ x <=d one.
Proof.
  intros H Hn Hf [H0 H1]. assert (N := get_or_plain k (JFloat dflt) d Hn Hf).
  exists (num_val (get_or k (JFloat dflt) d)). split; [by apply py_float_plain|].
  eapply (knob_checked (fun v => negb (number v) || negb (Z_lt 0 v && le_Z v 1))) in H; [|done|].
  - rewrite (plain_number _ N) in H. cbn [negb orb] in H. breflect. split; [by apply (Z_lt_64 _ 0)|by apply (le_Z_64 _ 1)].
  - cbn in *. by rewrite H0, H1.
Qed.

Lemma non_neg_checked name k (dflt : json binary64) d :
  _validate_non_neg_num name (get_ k d) = Ok tt -> numeric d -> finite_knob dflt = true -> zero <=d num_val dflt ->
  zero <=d num_val (get_or k dflt d).
Proof.
  intros H Hn Hd H0. assert (N := get_or_plain k dflt d Hn Hd).
  eapply (knob_checked (fun v => negb (number v) || lt_Z v 0)) in H; [|done|].
  - rewrite (plain_number _ N) in H. cbn [negb orb] in H. by apply (lt_Z_64 _ 0).
  - rewrite (plain_number _ Hd). cbn [negb orb]. by apply (lt_Z_64 _ 0).
Qed.

Lemma non_neg_float name k (dflt : binary64) d :
  _validate_non_neg_num name (get_ k d) = Ok tt -> numeric d -> ffinite dflt = true -> zero <=d dflt ->
  exists x, float_knob k dflt d = Ok x /\ zero <=d x.
Proof.
  intros H Hn Hf Hd. eexists. split; [by apply py_float_plain, get_or_plain|]. by eapply non_neg_checked.
Qed.

Lemma non_neg_int name k (dflt : Z) d :
  _validate_non_neg_num name (get_ k d) = Ok tt -> numeric d -> finite_knob (JInt dflt) = true -> 0 <= dflt ->
  exists x, int_knob k dflt d = Ok x /\ 0 <= x.
Proof.
  intros H Hn Hp Hd. destruct (py_int_plain (get_or k (JInt dflt) d)) as (z & Hz & H0); [by apply get_or_plain|].
  exists z. split; [done|]. apply H0. eapply non_neg_checked; try done. cbn [num_val fofZ PyFloat_b64]. rewrite ofZ_le by (done || by apply plain_int). by apply Z.leb_le.
Qed.

Lemma pos_int name k (dflt : Z) d :
  _validate_pos_int name (get_ k d) = Ok tt -> numeric d -> 0 < dflt ->
  exists x, int_knob k dflt d = Ok x /\ 0 < x.
Proof.
  intros H Hn Hd.
  eapply (knob_checked (fun v => match v with JInt z => z <=? 0 | _ => true end) _ (JInt dflt)) in H;
    [|done|by apply Z.leb_gt].
  unfold int_knob. destruct (get_or k (JInt dflt) d) as [| |z| | | |]; try done. exists z. split; [done|]. by apply Z.leb_gt.
Qed.

Lemma any_float k (dflt : binary64) d : numeric d -> ffinite dflt = true -> exists x, float_knob k dflt d = Ok x.
Proof. intros Hn Hf. eexists. by apply py_float_plain, get_or_plain. Qed.
Lemma any_int k (dflt : Z) d : numeric d -> finite_knob (JInt dflt) = true -> exists x, int_knob k dflt d = Ok x.
Proof. intros Hn Hp. destruct (py_int_plain (get_or k (JInt dflt) d)) as (z & Hz & _); [by apply get_or_plain|by exists z]. Qed.

(** ** The whole block *)

(** A validated sub-block, as the builders read it: absent, null and empty
    blocks read as no knob set. *)
Lemma sub_validated k (body : json binary64 -> res unit) (block : list (string * json binary64)) :
  opt_block k body block = Ok tt -> (forall v, body v = Ok tt -> exists d, v = JDict d) -> body (JDict []) = Ok tt ->
  (forall d, get_ k block = JDict d -> numeric d) ->
  exists d, sub_block k block = Ok d /\ numeric d /\ body (JDict d) = Ok tt.
Proof.
  unfold opt_block, sub_block, get_, get_or. intros H Hd He Hn.
  destruct (dict_get k block) as [v|]; [|by exists []].
  destruct (is_none v) eqn:E; [destruct v; try done; by exists []|].
  destruct (Hd _ H) as [d ->]. exists d. split; [|by auto]. by destruct d.
Qed.

Lemma block_keys_dict name known v d : _validate_block_keys name known v = Ok d -> v = JDict d.
Proof. destruct v; try done. cbn. by intros ([] & _ & [= ->])%rbind_ok. Qed.

Record sane_selector (c : SelectorConfig binary64) : Prop := {
  sane_cap : 0 <= max_mcs c <= 7;
  sane_per : zero <=d video_demote_per c /\ video_demote_per c <=d one;
  sane_fec : zero <=d emergency_fec_pressure c /\ emergency_fec_pressure c <=d one;
  sane_margins : zero <=d snr_promote_margin_db c /\ snr_promote_margin_db c <d snr_demote_margin_db c;
  sane_times : 0 <= hold_modes_down_ms c /\ 0 <= min_between_changes_ms c /\ 0 <= trial_window_ms c /\
               0 <= confirm_ttl_ms c /\ 0 <= flap_decay_ms c;
  sane_counts : 0 < starvation_windows c /\ 0 < promote_dwell_ticks c;
  sane_db : zero <=d collapse_delta_db c /\ zero <=d snapback_recover_margin_db c /\ zero <=d flap_snr_release_db c }.

(** Of two finite numbers. *)
Lemma py_le_false a b : finite_knob a = true -> finite_knob b = true -> py_le a b = Ok false -> num_val b <d num_val a.
Proof.
  intros Ha Hb. assert (Na := plain_num _ Ha). assert (Nb := plain_num _ Hb).
  unfold py_le. destruct (is_num a && is_num b); [|done]. intros [= H]. apply b64_not_le; [done..|].
  destruct a, b; try done. apply plain_int in Ha, Hb. cbn [num_val fofZ PyFloat_b64]. by rewrite ofZ_le.
Qed.

Lemma margins_apart d :
  numeric d -> py_le (get_or "snrDemoteMarginDb" (JFloat (flit 15 10)) d) (get_or "snrPromoteMarginDb" (JFloat (fofZ 1)) d) = Ok false ->
  forall p q, float_knob "snrPromoteMarginDb" (snr_promote_margin_db default_selcfg) d = Ok p ->
    float_knob "snrDemoteMarginDb" (snr_demote_margin_db default_selcfg) d = Ok q -> p <d q.
Proof.
  intros Hn H p q. unfold float_knob.
  change (snr_promote_margin_db default_selcfg) with (fofZ 1 : binary64).
  change (snr_demote_margin_db default_selcfg) with (flit 15 10 : binary64).
  assert (N1 := get_or_plain "snrPromoteMarginDb" (JFloat (fofZ 1)) d Hn eq_refl).
  assert (N2 := get_or_plain "snrDemoteMarginDb" (JFloat (flit 15 10)) d Hn eq_refl).
  rewrite !py_float_plain by done. intros [= <-] [= <-]. by apply py_le_false.
Qed.

Lemma bad_int_knob lo hi k (block : list (string * json binary64)) dflt dflt' :
  bad_int lo hi (get_or k (JInt dflt) block) = false -> lo <= dflt' <= hi ->
  exists z, int_knob k dflt' block = Ok z /\ lo <= z <= hi.
Proof.
  unfold int_knob, get_or. intros H Hd. destruct (dict_get k block) as [v|].
  - destruct v as [| |z| | | |]; try done. exists z. split; [done|]. cbn in H. breflect. lia.
  - by exists dflt'.
Qed.

Lemma selector_builds (block : list (string * json binary64)) :
  opt_block "selector" validate_selector block = Ok tt ->
  (forall d, get_ "selector" block = JDict d -> numeric d) ->
  bad_int 0 7 (get_or "maxMcs" (JInt 5) block) = false ->
  exists c, build_selector block = Ok c /\ sane_selector c.
Proof.
  intros H Hn Hmax.
  destruct (sub_validated _ _ _ H) as (d & Hd & Hnum & Hv); [|by vm_compute|done|].
  { intros v (d & Hd & _)%rbind_ok. apply block_keys_dict in Hd. eauto. }
  unfold validate_selector in Hv. apply rbind_ok in Hv as (d' & Hk & Hv). apply block_keys_dict in Hk as [= <-].
  apply rbind_ok in Hv as ([] & Hprob & Hv). apply rbind_ok in Hv as ([] & Hpos & Hv).
  apply rbind_ok in Hv as ([] & Hnn & Hv). apply rbind_ok in Hv as ([] & _ & Hv).
  apply rbind_ok in Hv as (bad & Hle & Hbad). apply check_ok in Hbad as ->.
  apply for_each_ok in Hprob, Hpos, Hnn. unfold SELECTOR_PROBS, SELECTOR_POS_INTS, SELECTOR_NON_NEG in *.
  rewrite !Forall_cons in Hprob. rewrite !Forall_cons in Hpos. rewrite !Forall_cons in Hnn.
  destruct Hprob as (P1 & P2 & _), Hpos as (I1 & I2 & _), Hnn as (N1 & N2 & N3 & N4 & N5 & N6 & N7 & N8 & N9 & N10 & _).
  assert (Hm := margins_apart d Hnum Hle).
  set (dc := default_selcfg (F := binary64)) in *.
  destruct (prob_knob _ _ (video_demote_per dc) _ P1 Hnum) as (x1 & E1 & R1); [done..|].
  destruct (prob_knob _ _ (emergency_fec_pressure dc) _ P2 Hnum) as (x2 & E2 & R2); [done..|].
  destruct (bad_int_knob _ _ _ _ _ (max_mcs dc) Hmax) as (x3 & E3 & R3); [done|].
  destruct (pos_int _ _ (starvation_windows dc) _ I1 Hnum) as (x4 & E4 & R4); [done..|].
  destruct (pos_int _ _ (promote_dwell_ticks dc) _ I2 Hnum) as (x5 & E5 & R5); [done..|].
  destruct (non_neg_int _ _ (hold_modes_down_ms dc) _ N1 Hnum) as (x6 & E6 & R6); [done..|].
  destruct (non_neg_int _ _ (min_between_changes_ms dc) _ N2 Hnum) as (x7 & E7 & R7); [done..|].
  destruct (non_neg_float _ _ (snr_promote_margin_db dc) _ N3 Hnum) as (x8 & E8 & R8); [done..|].
  destruct (non_neg_float _ _ (snr_demote_margin_db dc) _ N4 Hnum) as (x9 & E9 & R9); [done..|].
  destruct (non_neg_int _ _ (trial_window_ms dc) _ N5 Hnum) as (x10 & E10 & R10); [done..|].
  destruct (non_neg_float _ _ (collapse_delta_db dc) _ N6 Hnum) as (x11 & E11 & R11); [done..|].
  destruct (non_neg_float _ _ (snapback_recover_margin_db dc) _ N7 Hnum) as (x12 & E12 & R12); [done..|].
  destruct (non_neg_int _ _ (confirm_ttl_ms dc) _ N8 Hnum) as (x13 & E13 & R13); [done..|].
  destruct (non_neg_float _ _ (flap_snr_release_db dc) _ N9 Hnum) as (x14 & E14 & R14); [done..|].
  destruct (non_neg_int _ _ (flap_decay_ms dc) _ N10 Hnum) as (x15 & E15 & R15); [done..|].
  destruct (any_int "demoteCooldownWindows" (demote_cooldown_windows dc) d Hnum) as (y1 & F1); [done|].
  destruct (any_int "flapBaseBackoffMs" (flap_base_backoff_ms dc) d Hnum) as (y2 & F2); [done|].
  destruct (any_float "flapBackoffMult" (flap_backoff_mult dc) d Hnum) as (y3 & F3); [done|].
  destruct (any_int "flapBackoffCapMs" (flap_backoff_cap_ms dc) d Hnum) as (y4 & F4); [done|].
  destruct (any_int "flapResetCleanDwellTicks" (flap_reset_clean_dwell_ticks dc) d Hnum) as (y5 & F5); [done|].
  destruct (any_float "promoteSlopeMin" (promote_slope_min dc) d Hnum) as (y6 & F6); [done|].
  specialize (Hm _ _ E8 E9).
  eexists. split.
  - unfold build_selector. cbv zeta. fold dc. rewrite Hd. cbn [rbind].
    rewrite E1, E2, E3, E6, E7, E4, E8, E9, F1, F2, F3, F4, F5, E10, E5, F6, E11, E12, E13, E14, E15. reflexivity.
  - by split.
Qed.

Definition in_unit (x : binary64) : Prop := zero <d x /\ x <=d one.

Record sane_prior (c : LearnedPriorConfig binary64) : Prop := {
  sane_settle : 0 < settle_ticks c;
  sane_loss : zero <=d viable_loss c /\ viable_loss c <=d one;
  sane_alphas : in_unit (alpha_tighten c) /\ in_unit (alpha_relax c) /\ in_unit (recency_decay c);
  sane_samples : zero <=d min_samples c }.

Record sane_aggregator (a : SignalAggregator binary64) : Prop := {
  sane_ewma : in_unit (ewma_alpha_rssi a) /\ in_unit (ewma_alpha_fec a) /\ in_unit (ewma_alpha_burst a);
  sane_threshold : zero <=d starvation_threshold_pps a }.

Lemma learned_prior_builds (block : list (string * json binary64)) :
  opt_block "learnedPrior" validate_learned_prior block = Ok tt ->
  (forall d, get_ "learnedPrior" block = JDict d -> numeric d) ->
  exists c, build_learned_prior block = Ok c /\ sane_prior c.
Proof.
  intros H Hn. destruct (sub_validated _ _ _ H) as (d & Hd & Hnum & Hv); [|by vm_compute|done|].
  { intros v (d & Hd & _)%rbind_ok. apply block_keys_dict in Hd. eauto. }
  unfold validate_learned_prior in Hv. apply rbind_ok in Hv as (d' & Hk & Hv). apply block_keys_dict in Hk as [= <-].
  apply rbind_ok in Hv as ([] & V1 & Hv). apply rbind_ok in Hv as ([] & V2 & Hv).
  apply rbind_ok in Hv as ([] & V3 & Ha). apply for_each_ok in Ha. rewrite !Forall_cons in Ha.
  destruct Ha as (A1 & A2 & A3 & _). set (dc := default_lpc (F := binary64)) in *.
  destruct (pos_int _ _ (settle_ticks dc) _ V1 Hnum) as (x1 & E1 & R1); [done..|].
  destruct (prob_knob _ _ (viable_loss dc) _ V3 Hnum) as (x2 & E2 & R2); [done..|].
  destruct (alpha_knob _ _ (alpha_tighten dc) _ A1 Hnum) as (x3 & E3 & R3); [done..|].
  destruct (alpha_knob _ _ (alpha_relax dc) _ A2 Hnum) as (x4 & E4 & R4); [done..|].
  destruct (non_neg_float _ _ (min_samples dc) _ V2 Hnum) as (x5 & E5 & R5); [done..|].
  destruct (alpha_knob _ _ (recency_decay dc) _ A3 Hnum) as (x6 & E6 & R6); [done..|].
  eexists. split.
  - unfold build_learned_prior. cbv zeta. fold dc. rewrite Hd. cbn [rbind]. rewrite E1, E2, E3, E4, E5, E6. reflexivity.
  - by split.
Qed.

Lemma aggregator_builds (block : list (string * json binary64)) :
  opt_block "smoothing" validate_smoothing block = Ok tt ->
  (forall d, get_ "smoothing" block = JDict d -> numeric d) ->
  exists a, build_aggregator block = Ok a /\ sane_aggregator a.
Proof.
  intros H Hn. destruct (sub_validated _ _ _ H) as (d & Hd & Hnum & Hv); [|by vm_compute|done|].
  { intros v (d & Hd & _)%rbind_ok. apply block_keys_dict in Hd. eauto. }
  unfold validate_smoothing in Hv. apply rbind_ok in Hv as (d' & Hk & Hv). apply block_keys_dict in Hk as [= <-].
  apply rbind_ok in Hv as ([] & Ha & V). apply for_each_ok in Ha. rewrite !Forall_cons in Ha.
  destruct Ha as (A1 & A2 & A3 & _).
  destruct (alpha_knob _ _ (flit 2 10) _ A1 Hnum) as (x1 & E1 & R1); [done..|].
  destruct (alpha_knob _ _ (flit 2 10) _ A2 Hnum) as (x2 & E2 & R2); [done..|].
  destruct (alpha_knob _ _ (flit 1 10) _ A3 Hnum) as (x3 & E3 & R3); [done..|].
  destruct (non_neg_float _ _ (fofZ 50) _ V Hnum) as (x4 & E4 & R4); [done..|].
  eexists. split.
  - unfold build_aggregator. rewrite Hd. cbn [rbind]. rewrite E1, E2, E3, E4. reflexivity.
  - by split.
Qed.

(** The snapshot only adds to the block. *)
Lemma snapshot_adds (cfg dl : list (string * json binary64)) snap :
  get_or "dynamicLink" (JDict []) cfg = JDict dl -> make_dl_snapshot cfg = Ok snap ->
  forall k dflt, k ∉ ["droneAddr"; "dronePort"; "linkWidth"] -> get_or k dflt snap = get_or k dflt dl.
Proof.
  intros Hdl H k dflt Hk. unfold make_dl_snapshot in H. rewrite Hdl in H. cbn [py_dict rbind] in H.
  apply rbind_ok in H as (addr & _ & H). cbv zeta in H. apply rbind_ok in H as (port & _ & H).
  apply rbind_ok in H as (w & _ & H). apply rbind_ok in H as (w' & _ & [= <-]).
  unfold get_or. by rewrite !dict_get_set_ne by set_solver.
Qed.

Lemma get_or_set k (dflt v : json binary64) d : get_or k dflt (dict_set k v d) = v.
Proof. unfold get_or. by rewrite dict_get_set_eq. Qed.

(** What the operator may not do: set a knob, the width or the drone block to
    null, or a knob to an infinity, to NaN or to an int past 2^53 (or one that
    validation leaves unchecked to a string). *)
Record no_nulls (cfg dl : list (string * json binary64)) : Prop := {
  nn_selector : forall d, get_ "selector" dl = JDict d -> numeric d;
  nn_smoothing : forall d, get_ "smoothing" dl = JDict d -> numeric d;
  nn_prior : forall d, get_ "learnedPrior" dl = JDict d -> numeric d;
  nn_drone : is_dict (get_or "drone" (JDict []) cfg) = true;
  nn_width : forall link, get_or "link" (JDict []) cfg = JDict link ->
             exists w, get_or "width" (JInt 20) link = JInt w }.

Lemma snapshot_builds bf (cfg dl : list (string * json binary64)) :
  validate_effective bf cfg = Ok tt -> get_or "dynamicLink" (JDict []) cfg = JDict dl -> no_nulls cfg dl ->
  bad_int 1 65535 (get_or "dronePort" (JInt 9999) dl) = false ->
  exists snap w, make_dl_snapshot cfg = Ok snap /\ int_knob "linkWidth" 20 snap = Ok w /\ w ∈ VALID_WIDTHS.
Proof.
  intros Hv Hdl Hn Hport. destruct (validated_link _ _ Hv) as (link & Hl & _ & _).
  unfold validate_effective in Hv. rewrite Hl in Hv. apply rbind_ok in Hv as ([] & Hlink & _).
  destruct (nn_width _ _ Hn _ Hl) as [w Hw].
  assert (Hwin : w ∈ VALID_WIDTHS).
  { unfold validate_link in Hlink. apply rbind_ok in Hlink as ([] & Hset & _).
    unfold get_, get_or in Hset, Hw. destruct (dict_get "width" link) as [x|]; [|injection Hw as <-; set_solver].
    subst x. cbn in Hset. apply check_ok, negb_false_iff in Hset.
    repeat (apply orb_true_iff in Hset as [Hset%Z.eqb_eq|Hset]; [subst; set_solver|]). done. }
  assert (Hnd := nn_drone _ _ Hn).
  unfold make_dl_snapshot. rewrite Hdl, Hl. cbn [py_dict rbind obj_get].
  destruct (get_or "drone" (JDict []) cfg) as [| | | | | |dr]; try done. cbn [obj_get rbind].
  assert (Hp : exists port, py_int (if truthy (get_ "dronePort" (dict_set "droneAddr"
      (match dict_get "host" dr with Some x => x | None => JStr "10.5.0.10" end) dl))
      then get_ "dronePort" (dict_set "droneAddr" (match dict_get "host" dr with Some x => x | None => JStr "10.5.0.10" end) dl)
      else JInt 9999) = Ok port).
  { unfold get_, get_or in *. rewrite dict_get_set_ne by done. destruct (dict_get "dronePort" dl) as [x|]; [|by eexists].
    destruct x; try done. cbn. by destruct (_ =? 0); eexists. }
  destruct Hp as [port ->]. cbn [rbind]. unfold get_or in Hw. rewrite Hw. cbn [py_int rbind].
  eexists _, w. split; [done|]. split; [|done]. unfold int_knob. by rewrite get_or_set.
Qed.

(** A configuration that validates and sets no knob, width or drone block
    to null gives a controller snapshot from which the policy configuration
    and the aggregator build without raising, every value in the range the
    policy assumes: cap 0..7, probabilities in 0..1, smoothing factors in
    (0,1], demote margin above promote margin, a valid width. *)
Theorem validated_config_builds bf (cfg dl : list (string * json binary64)) :
  validate_effective bf cfg = Ok tt -> dict_get "dynamicLink" cfg = Some (JDict dl) -> no_nulls cfg dl ->
  exists snap pc fl agg,
    make_dl_snapshot cfg = Ok snap /\ build_policy_config snap = Ok (pc, fl) /\ build_aggregator snap = Ok agg /\
    sane_selector (pc_selector pc) /\ sane_prior (pc_prior pc) /\ sane_aggregator agg /\ link_width pc ∈ VALID_WIDTHS.
Proof.
  intros Hv Hdl Hn.
  assert (Hdl' : get_or "dynamicLink" (JDict []) cfg = JDict dl) by (unfold get_or; by rewrite Hdl).
  assert (Hb : _validate_dynamic_link (JDict dl) = Ok tt).
  { unfold validate_effective in Hv. apply rbind_ok in Hv as ([] & _ & ([] & Hd & _)%rbind_ok).
    by eapply opt_block_ok in Hd. }
  unfold _validate_dynamic_link in Hb. cbn [known_dict] in Hb.
  apply rbind_ok in Hb as (dl0 & Hk & Hb). apply rbind_ok in Hk as ([] & _ & [= <-]).
  apply rbind_ok in Hb as ([] & Hmax%check_ok & Hb). apply rbind_ok in Hb as ([] & Hport%check_ok & Hb).
  do 3 (apply rbind_ok in Hb as ([] & _ & Hb)).
  apply rbind_ok in Hb as ([] & Hsel & Hb). apply rbind_ok in Hb as ([] & Hsm & Hb). apply rbind_ok in Hb as ([] & Hlp & Hfl).
  destruct (snapshot_builds _ _ _ Hv Hdl' Hn Hport) as (snap & w & Hs & Hw & Hin).
  assert (Hget := snapshot_adds _ _ _ Hdl' Hs).
  assert (Hopt : forall k body, k ∉ ["droneAddr"; "dronePort"; "linkWidth"] -> opt_block k body snap = opt_block k body dl)
    by (intros k body Hk; unfold opt_block, get_; by rewrite Hget).
  destruct (selector_builds snap) as (sc & Hsc & Rsc);
    [by rewrite Hopt by set_solver|unfold get_; rewrite Hget by set_solver; apply Hn|by rewrite Hget by set_solver|].
  destruct (learned_prior_builds snap) as (lc & Hlc & Rlc);
    [by rewrite Hopt by set_solver|unfold get_; rewrite Hget by set_solver; apply Hn|].
  destruct (aggregator_builds snap) as (ac & Hac & Rac);
    [by rewrite Hopt by set_solver|unfold get_; rewrite Hget by set_solver; apply Hn|].
  assert (exists fl, sub_block "flightlog" snap = Ok fl) as [fl Hflb].
  { unfold sub_block. rewrite Hget by set_solver. unfold opt_block, get_, get_or in *.
    destruct (dict_get "flightlog" dl) as [v|]; [|by eexists]. destruct v as [| | | | | |d]; try done; [by eexists|].
    destruct d; by eexists. }
  exists snap. eexists (mkPolCfg sc lc w), _, ac. split; [done|]. split; [|by split_and!].
  unfold build_policy_config. rewrite Hsc. cbn [rbind]. rewrite Hflb. cbn [rbind]. rewrite Hlc. cbn [rbind]. by rewrite Hw.
Qed.
End Ranges.

(* ------------------------------------------------------------------ *)
(** ** The shipped defaults, and configurations validation lets through *)

(** The defaults validate, bit-exactly and over the rationals. *)
Lemma defaults_validate :
  validate_effective None (default_config (F := binary64)) = Ok tt /\
  validate_effective None (default_config (F := Q)) = Ok tt.
Proof. split; vm_compute; reflexivity. Qed.

Definition with_patch (p : list (string * json Q)) : list (string * json Q) := deep_merge default_config p.

(** [link.width: null] validates, and the snapshot built at boot raises. *)
Lemma null_width_raises :
  let cfg := with_patch [("link", JDict [("width", JNull)])] in
  validate_effective None cfg = Ok tt /\ make_dl_snapshot cfg = Err TypeError.
Proof. split; vm_compute; reflexivity. Qed.

(** A null knob validates, and building the policy raises. *)
Lemma null_knob_raises :
  let cfg := with_patch [("dynamicLink", JDict [("selector", JDict [("videoDemotePer", JNull)])])] in
  validate_effective None cfg = Ok tt /\
  exists snap, make_dl_snapshot cfg = Ok snap /\ build_policy_config snap = Err TypeError.
Proof. split; [vm_compute; reflexivity|]. eexists. split; [vm_compute; reflexivity|]. vm_compute. reflexivity. Qed.

(** So does an infinite one ([1e999] in the file), when it is made an int; and
    NaN passes the checks of the monitor's times. *)
Lemma infinite_knob_raises :
  let cfg := deep_merge default_config
    [("dynamicLink", JDict [("selector", JDict [("holdModesDownMs", JFloat (S754_infinity false))])])] in
  validate_effective None cfg = Ok tt /\
  exists snap, make_dl_snapshot cfg = Ok snap /\ build_policy_config snap = Err OverflowError.
Proof. split; [vm_compute; reflexivity|]. eexists. split; [vm_compute; reflexivity|]. vm_compute. reflexivity. Qed.

Lemma nan_interval_validates :
  validate_effective None
    (deep_merge default_config [("connectionMonitor", JDict [("evalIntervalS", JFloat S754_nan)])]) = Ok tt.
Proof. vm_compute. reflexivity. Qed.

(** A null margin makes the validator itself raise. *)
Lemma null_margin_raises :
  validate_effective None
    (with_patch [("dynamicLink", JDict [("selector", JDict [("snrPromoteMarginDb", JNull)])])]) = Err TypeError.
Proof. vm_compute. reflexivity. Qed.

(** A stale key of [dynamicLink.flightlog] survives loading, and validation at
    boot rejects the configuration. *)
Lemma stale_flightlog_key_rejected :
  exists s, store_load (F := Q) "/etc/fpvd/config.json"
      (Some (Ok (JDict [("dynamicLink", JDict [("flightlog", JDict [("dir", JStr "/tmp")])])]))) = Ok s /\
    validate_effective None (effective s) = Err (SchemaError "unknown dynamicLink.flightlog keys").
Proof. eexists. split; [vm_compute; reflexivity|]. vm_compute. reflexivity. Qed.

(** The knob the builder reads and validation calls unknown. *)
Lemma cooldown_knob_unreachable :
  validate_effective None
    (with_patch [("dynamicLink", JDict [("selector", JDict [("demoteCooldownWindows", JInt 5)])])])
  = Err (SchemaError "unknown dynamicLink.selector keys").
Proof. vm_compute. reflexivity. Qed.
