(* ===== verification/CtlSetup.v ===== *)
(** * dynlink/controller.py: how [_run] sets the loop up

    What the controller's thread builds from its snapshot before it serves: the
    policy, the aggregator, the return link's destination and the tap's
    settings; the tap's endpoint, the probe's snapshot and the published
    status.  Theorem [validated_config_drives_drone] goes from a validated
    configuration through this set-up and any run of the loop to the drone. *)
From Stdlib Require Import ZArith QArith Lia Lqa Bool String.
From stdpp Require Import base tactics list sets gmap strings.
From S2P Require Import Prelude PyStr FloatModels Json Cards Schema LearnedPrior StatsClient Probe Bytes Decision Wire TapWire Signals Policy PolicyFacts FlightLog Config ConfigBuild Controller.
Open Scope Z_scope.

Record setup (F : Type) := mkSetup {
  su_cc : CtlConfig F; su_flight : FlightLogConfig F; su_policy : Policy F; su_agg : SignalAggregator F;
  su_dest : json F * Z; su_tap : bool; su_tap_port : Z; su_capture : bool }.
Arguments mkSetup {F}.
Arguments su_cc {F} _.
Arguments su_flight {F} _.
Arguments su_policy {F} _.
Arguments su_agg {F} _.
Arguments su_dest {F} _.
Arguments su_tap {F} _.
Arguments su_tap_port {F} _.
Arguments su_capture {F} _.

Section Setup.
Context {F : Type} {PF : PyFloat F}.
#[local] Abbreviation dict := (list (string * json F)).

(** [d[k]]. *)
Definition item (k : string) (d : dict) : res (json F) := match dict_get k d with Some v => Ok v | None => Err (KeyError k) end.

(** The tap's block: enabled, port, stale limit in seconds, raw capture. *)
Definition tap_settings (snap : dict) : res (bool * Z * F * bool) :=
  let tap := or_empty (get_ "tap" snap) in
  let* en := obj_get "enabled" (JBool true) tap in
  let* v := obj_get "port" (JInt 8110) tap in
  let* port := py_int v in
  let* v := obj_get "staleMs" (JInt 500) tap in
  let* stale := py_float v in
  let* v := if truthy en then obj_get "captureRaw" (JBool false) tap else Ok (JBool false) in
  Ok (truthy en, port, stale /f fofZ 1000, truthy v).

(** [_run] up to the endpoint of the tap. *)
Definition run_setup (read : string -> file_read F) (snap : dict) : res (setup F) :=
  let* (pc, fl) := build_policy_config snap in
  let* policy := policy_init pc read UNBOUND_KEY in
  let* agg := build_aggregator snap in
  let* addr := item "droneAddr" snap in
  let* v := item "dronePort" snap in
  let* port := py_int v in
  let* (tap, tap_port, stale, capture) := tap_settings snap in
  Ok (mkSetup (mkCtlCfg pc stale (link_width pc)) fl policy agg (addr, port) tap tap_port capture).

(** The endpoint: an [OSError] of the bind leaves the controller on the stats
    feed alone. *)
Definition tap_transport (su : setup F) (binds : bool) : bool := su_tap su && binds.

(** [_probe_snapshot]: no provider, no feed of the current engine, or its fresh
    readings. *)
Definition _probe_snapshot {feed snapshot} (provider : option (option feed)) (fresh : feed -> snapshot) : option snapshot :=
  match provider with Some (Some f) => Some (fresh f) | _ => None end.

(** ** The published status *)

Definition STATUS_INIT : dict :=
  [("running", JBool false); ("statsConnected", JBool false); ("decision", JNull); ("lastEmitMs", JNull); ("emitSeq", JInt 0);
   ("reason", JStr ""); ("tapActive", JBool false)].

(** [self._status.update(kw)]. *)
Definition _set (kw status : dict) : dict := fold_left (fun d kv => dict_set kv.1 kv.2 d) kw status.

(** The dict that the variables of [Controller] stand for; the reason's text is
    an argument. *)
Definition status_dict (running conn : bool) (text : list (reason F) -> string) (st : Ctl F) : dict :=
  [("running", JBool running); ("statsConnected", JBool conn);
   ("decision", match ct_decision st with Some m => JDict [("mcs", JInt m)] | None => JNull end);
   ("lastEmitMs", match ct_lastEmitMs st with Some ms => JInt ms | None => JNull end); ("emitSeq", JInt (ct_emitSeq st));
   ("reason", JStr (text (ct_reason st))); ("tapActive", JBool (ct_tapActive st))].

(** [status()]: a copy, with an empty decision as null. *)
Definition status (st : dict) : dict :=
  dict_set "decision" (let d := get_ "decision" st in if truthy d then d else JNull) st.
End Setup.

(* ------------------------------------------------------------------ *)
(** ** The variables and the dict *)

Section StatusFacts.
Context {F : Type} {PF : PyFloat F}.
Implicit Types (st : Ctl F).

(** An emit updates the dict as the code does, on top of what was there. *)
Lemma emit_sets_status running conn text st d now st' o :
  _emit st d now = Ok (st', o) ->
  exists ms, status_dict running conn text st' =
    _set [("decision", JDict [("mcs", JInt (d_mcs d))]); ("reason", JStr (text (d_reason d))); ("lastEmitMs", JInt ms);
          ("emitSeq", JInt (ct_emitSeq st + 1))] (status_dict running conn text st).
Proof.
  unfold _emit. destruct (encoder_encode _ _ _) as [enc pkt]. intros (buf & _ & (ms & _ & [= <- _])%rbind_ok)%rbind_ok.
  exists ms. reflexivity.
Qed.

(** Fresh, the dict is the one of [__init__]; and what is reported never holds
    an empty decision. *)
Lemma init_status text p agg : text [] = ""%string -> status_dict false false text (ctl_init p agg 0) = STATUS_INIT (F := F).
Proof. intros H. unfold status_dict. cbn. by rewrite H. Qed.
End StatusFacts.

(* ------------------------------------------------------------------ *)
(** ** From the configuration to the drone *)

Section Drives.

Lemma policy_builds (pc : PolicyConfig binary64) read : 0 <= max_mcs (pc_selector pc) -> predictive_slope_window_ticks (pc_prior pc) = predictive_slope_window_ticks (default_lpc (F := binary64)) ->
  exists p, policy_init pc read UNBOUND_KEY = Ok p.
Proof.
  intros Hc Hw. unfold policy_init, selector_init, cap_mcs. rewrite (proj2 (Z.ltb_ge _ 0)) by done. cbn [raise_if rbind].
  unfold lp_init, load. cbn [lp_ephemeral]. rewrite String.eqb_refl. cbn [rbind]. rewrite Hw. by eexists.
Qed.

(** The stale limit of the tap is a finite number, if set. *)
Definition tap_plain (dl : list (string * json binary64)) : Prop :=
  forall tap, get_ "tap" dl = JDict tap -> finite_knob (get_or "staleMs" (JInt 500) tap) = true.

Lemma tap_reads (snap : list (string * json binary64)) :
  opt_block "tap" validate_tap snap = Ok tt -> tap_plain snap ->
  exists tap port ms capture, tap_settings snap = Ok (tap, port, ms /f fofZ 1000, capture) /\ 1024 <= port <= 65535 /\ fofZ 0 <d ms.
Proof.
  unfold opt_block, tap_settings. intros H Hp.
  assert (Hblk : exists d, or_empty (get_ "tap" snap) = JDict d /\ validate_tap (JDict d) = Ok tt /\ finite_knob (get_or "staleMs" (JInt 500) d) = true).
  { destruct (get_ "tap" snap) as [| | | | | |d] eqn:E; try done; [by exists []|]. exists d. split; [by destruct d|]. split; [done|by apply Hp]. }
  destruct Hblk as (d & -> & Hv & Hms). cbn [validate_tap] in Hv.
  apply rbind_ok in Hv as ([] & _ & ([] & _ & ([] & _ & ([] & Hport%check_ok & Hs%check_ok)%rbind_ok)%rbind_ok)%rbind_ok).
  cbn [obj_get rbind]. fold (get_or "enabled" (JBool true) d) (get_or "port" (JInt 8110) d) (get_or "staleMs" (JInt 500) d).
  destruct (get_or "port" (JInt 8110) d) as [| |z| | | |]; try done. cbn [bad_int] in Hport. apply negb_false_iff in Hport. cbn [py_int rbind].
  apply orb_false_iff in Hs as [_ Hpos]. apply le_Z_false in Hpos; [|done..]. rewrite (py_float_plain _ Hms). cbn [rbind].
  destruct (truthy (get_or "enabled" (JBool true) d)); cbn [rbind]; eexists _, _, _, _; (split; [done|]); (split; [lia|done]).
Qed.

Lemma snapshot_port (cfg dl : list (string * json binary64)) snap :
  get_or "dynamicLink" (JDict []) cfg = JDict dl -> bad_int 1 65535 (get_or "dronePort" (JInt 9999) dl) = false ->
  make_dl_snapshot cfg = Ok snap -> exists addr port, dict_get "droneAddr" snap = Some addr /\ dict_get "dronePort" snap = Some (JInt port) /\ 1 <= port <= 65535.
Proof.
  intros Hdl Hp H. unfold make_dl_snapshot in H. rewrite Hdl in H. cbn [py_dict rbind] in H.
  apply rbind_ok in H as (addr & _ & H). cbv zeta in H. apply rbind_ok in H as (port & Hport & H).
  apply rbind_ok in H as (w & _ & H). apply rbind_ok in H as (w' & _ & [= <-]). exists addr, port.
  rewrite !dict_get_set_ne, dict_get_set_eq by done. split; [done|]. rewrite dict_get_set_ne, dict_get_set_eq by done. split; [done|].
  unfold get_, get_or in *. rewrite dict_get_set_ne in Hport by done. destruct (dict_get "dronePort" dl) as [v|]; [|by injection Hport as <-].
  destruct v as [| |z| | | |]; try done. cbn in Hp. apply negb_false_iff in Hp. cbn in Hport. destruct (Z.eqb_spec z 0); cbn in Hport; injection Hport as <-; lia.
Qed.

Lemma dl_block_checked bf (cfg dl : list (string * json binary64)) :
  validate_effective bf cfg = Ok tt -> dict_get "dynamicLink" cfg = Some (JDict dl) ->
  bad_int 1 65535 (get_or "dronePort" (JInt 9999) dl) = false /\ opt_block "tap" validate_tap dl = Ok tt.
Proof.
  intros Hv Hdl. unfold validate_effective in Hv. apply rbind_ok in Hv as ([] & _ & ([] & Hd & _)%rbind_ok).
  assert (Hb := opt_block_ok _ _ _ _ Hd Hdl eq_refl). unfold _validate_dynamic_link in Hb. cbn [known_dict] in Hb.
  apply rbind_ok in Hb as (dl0 & Hk & Hb). apply rbind_ok in Hk as ([] & _ & [= <-]).
  apply rbind_ok in Hb as ([] & _ & Hb). apply rbind_ok in Hb as ([] & Hport%check_ok & Hb). by apply rbind_ok in Hb as ([] & Htap & _).
Qed.

Lemma prior_window (snap : list (string * json binary64)) pc fl :
  build_policy_config snap = Ok (pc, fl) -> predictive_slope_window_ticks (pc_prior pc) = predictive_slope_window_ticks (default_lpc (F := binary64)).
Proof.
  unfold build_policy_config. intros (sel & _ & (f & _ & (lp & Hlp & (w & _ & [= <- _])%rbind_ok)%rbind_ok)%rbind_ok)%rbind_ok. cbn.
  unfold build_learned_prior in Hlp. apply rbind_ok in Hlp as (d & _ & Hlp). do 6 apply rbind_ok in Hlp as (? & _ & Hlp). by injection Hlp as <-.
Qed.

End Drives.
