(* ===== verification/SimChannel.v ===== *)
(** * gs/tools/simulate_channel.py and gs/tools/replay_flightlog.py

    The closed-loop channel simulation over a recorded flight, and the replay
    of a flight's signals through the current policy.  Both drive the policy of
    [Policy] with its default configuration, the simulation from an empty prior
    directory, the replay from one that is an argument.  A log is the list of
    its parsed lines.  A field used as a number that is neither a number nor
    null raises [TypeError] where it is read (the tools carry it to the
    arithmetic that first uses it).  [statistics.mean] is the sum over the
    count; numbers that the tools print rounded are left as computed. *)
From Stdlib Require Import ZArith QArith Lqa Lia Bool String.
From stdpp Require Import base tactics list gmap strings relations.
From S2P Require Import Prelude PyStr FloatModels Json Cards LearnedPrior StatsClient Probe Decision Signals Policy PolicyFacts.
Open Scope Z_scope.

(** [d[k] = d.get(k, 0) + 1]. *)
Fixpoint bump (k : Z) (d : list (Z * Z)) : list (Z * Z) :=
  match d with
  | [] => [(k, 1)]
  | (k', n) :: d' => if k =? k' then (k', n + 1) :: d' else (k', n) :: bump k d'
  end.

Section Sim.
Context {F : Type} {PF : PyFloat F}.

Definition number (v : json F) : res F := if is_num v then Ok (num_val v) else Err TypeError.

(** ** The channel *)

(** One line of the log; [None]: skipped. *)
Definition channel_tick (r : list (string * json F)) : res (option (F * F * F)) :=
  match get_ "snr" r, get_ "snr_ewma" r with
  | JNull, _ | _, JNull => Ok None
  | snr, ewma =>
      match dict_get "ts" r with
      | None => Err (KeyError "ts")
      | Some ts => let* e := py_float ewma in let* s := py_float snr in let* t := number ts in Ok (Some (t, e, s))
      end
  end.

(** [for i, k in enumerate(...): if k is not None: knees[i] = float(k)]. *)
Fixpoint take_knees (i : nat) (ks : list (json F)) (knees : list (option F)) : res (list (option F)) :=
  match ks with
  | [] => Ok knees
  | JNull :: ks => take_knees (S i) ks knees
  | k :: ks => if bool_decide (i < length knees)%nat
               then let* x := py_float k in take_knees (S i) ks (<[i := Some x]> knees)
               else let* _ := py_float k in Err IndexError
  end.

Fixpoint load_from (ls : list (json F)) (ticks : list (F * F * F)) (knees : list (option F)) : res (list (F * F * F) * list (option F)) :=
  match ls with
  | [] => Ok (ticks, knees)
  | JDict r :: ls =>
      let* t := channel_tick r in
      match t with
      | None => load_from ls ticks knees
      | Some t => let* ks := py_iter (let v := get_ "snr_knees" r in if truthy v then v else JList []) in
                  let* knees' := take_knees 0 ks knees in load_from ls (ticks ++ [t]) knees'
      end
  | _ :: _ => Err AttributeError
  end.
Definition load_channel (ls : list (json F)) : res (list (F * F * F) * list (option F)) := load_from ls [] (repeat None 8).

(** ** Viability *)

Fixpoint learned_from (i : nat) (knees : list (option F)) : list (nat * F) :=
  match knees with
  | [] => []
  | Some k :: knees => (i, k) :: learned_from (S i) knees
  | None :: knees => learned_from (S i) knees
  end.
Definition learned_of (knees : list (option F)) : list (nat * F) := learned_from 0 knees.

Definition fidx (i j : nat) : F := fofZ (Z.of_nat i - Z.of_nat j).
Definition seg_step (p : (nat * F) * (nat * F)) : F := (p.2.2 -f p.1.2) /f fidx p.2.1 p.1.1.
Definition pairs (l : list (nat * F)) : list ((nat * F) * (nat * F)) := zip l (tail l).

Definition mean_step (l : list (nat * F)) : F :=
  match map seg_step (pairs l) with [] => fofZ 3 | steps => fsum steps /f fofZ (Z.of_nat (length steps)) end.

Definition extended (k step : F) (i at_ : nat) : F := k +f step *f fidx i at_.
Definition interior (p : (nat * F) * (nat * F)) (i : nat) : F :=
  p.1.2 +f ((p.2.2 -f p.1.2) *f fidx i p.1.1) /f fidx p.2.1 p.1.1.

(** [for i in idxs: out[i] = f(i)]. *)
Definition fill (f : nat -> F) (idxs : list nat) (out : list (option F)) : list (option F) :=
  fold_left (fun out i => <[i := Some (f i)]> out) idxs out.

(** [None]: [SystemExit]. *)
Definition fit_viability (knees : list (option F)) : option (list (option F)) :=
  match learned_of knees with
  | [] => None
  | (lo_i, lo_k) :: rest =>
      let learned := (lo_i, lo_k) :: rest in
      let step := mean_step learned in
      let '(hi_i, hi_k) := List.last rest (lo_i, lo_k) in
      let out := fill (fun i => extended lo_k step i lo_i) (rev (seq 0 lo_i)) knees in
      let out := fill (fun i => extended hi_k step i hi_i) (seq (S hi_i) (length out - S hi_i)) out in
      Some (fold_left (fun out p => fill (interior p) (seq (S p.1.1) (p.2.1 - S p.1.1)) out) (pairs learned) out)
  end.

(** ** The closed loop *)

Definition LOSS_BELOW_KNEE : F := flit 3 10.
Definition sim_config : PolicyConfig F := mkPolCfg default_selcfg default_lpc 20.

Record sim := mkSim { sim_policy : Policy F; sim_glitch : Z; sim_changes : Z; sim_hist : list (Z * Z); sim_last : Z }.

Definition sim_signals (ts ewma raw loss : F) : Signals F :=
  signals_init <| snr := Some ewma |> <| snr_w := Some raw |> <| residual_loss_w := loss |> <| fec_work := fofZ 0 |>
    <| link_starved_w := false |> <| timestamp := ts |> <| packet_rate_w := fofZ 1000 |>.

(** One turn: the loss of the applied rung, the policy's tick, the counts. *)
Definition sim_step (viability : list (option F)) (s : sim) (t : F * F * F) : res sim :=
  let '(ts, ewma, raw) := t in
  let mcs := current_mcs (leading (sim_policy s)) in
  match viability !! Z.to_nat mcs with
  | None => Err IndexError
  | Some None => Err TypeError
  | Some (Some v) =>
      let loss := if raw <f v then LOSS_BELOW_KNEE else fofZ 0 in
      let* (p, _) := tick sim_config (sim_policy s) (sim_signals ts ewma raw loss) in
      let cur := current_mcs (leading p) in
      Ok (mkSim p (sim_glitch s + if flit 5 100 <f loss then 1 else 0) (sim_changes s + if cur =? sim_last s then 0 else 1)
            (bump cur (sim_hist s)) cur)
  end.

Fixpoint sim_loop (viability : list (option F)) (s : sim) (ts : list (F * F * F)) : res sim :=
  match ts with [] => Ok s | t :: ts => let* s' := sim_step viability s t in sim_loop viability s' ts end.

Record sim_report := mkReport {
  r_ticks : Z; r_glitch_ticks : Z; r_glitch_s : F; r_mcs_changes : Z; r_changes_per_min : F; r_mean_mcs : F; r_time_at_mcs : list (Z * Z) }.

Definition fdiv_res (x y : F) : res F := if feqb y (fofZ 0) then Err ZeroDivisionError else Ok (x /f y).

Definition sim_init : res sim :=
  let* p := policy_init sim_config (fun _ => FileNotFound) "sim" in Ok (mkSim p 0 0 [] (current_mcs (leading p))).

Definition dur_min (ticks : list (F * F * F)) : F :=
  match ticks, List.last ticks (fofZ 0, fofZ 0, fofZ 0) with
  | (t0, _, _) :: _ :: _, (t1, _, _) => (t1 -f t0) /f fofZ 60
  | _, _ => fofZ 1
  end.

Definition sim_run (ticks : list (F * F * F)) (viability : list (option F)) : res sim_report :=
  let* s0 := sim_init in
  let* s := sim_loop viability s0 ticks in
  let total := Z.of_nat (length ticks) in
  let* per_min := fdiv_res (fofZ (sim_changes s)) (dur_min ticks) in
  let* mean := fdiv_res (fofZ (sumZ (map (fun kv => kv.1 * kv.2) (sim_hist s)))) (fofZ total) in
  Ok (mkReport total (sim_glitch s) (fofZ (sim_glitch s) /f fofZ 10) (sim_changes s) per_min mean (sim_hist s)).

(** [main]; [None]: [SystemExit]. *)
Definition sim_main (ls : list (json F)) : res (option sim_report) :=
  let* (ticks, knees) := load_channel ls in
  match fit_viability knees with
  | None => Ok None
  | Some viability => let* r := sim_run ticks viability in Ok (Some r)
  end.

(** ** The replay of a flight *)

Definition or_zero (v : json F) : res F := if truthy v then number v else Ok (fofZ 0).
Definition opt_num (v : json F) : res (option F) := match v with JNull => Ok None | v => let* x := number v in Ok (Some x) end.

Definition replay_signals (r : list (string * json F)) (ts : json F) : res (Signals F) :=
  let* t := number ts in
  let* ewma := opt_num (get_ "snr_ewma" r) in
  let* raw := opt_num (get_ "snr" r) in
  let* loss := or_zero (get_ "residual_loss_w" r) in
  let* work := or_zero (get_ "fec_work" r) in
  let starved := truthy (get_ "link_starved" r) in
  Ok (signals_init <| timestamp := t |> <| snr := ewma |> <| snr_w := raw |> <| residual_loss_w := loss |> <| fec_work := work |>
        <| link_starved_w := starved |> <| packet_rate_w := if starved then fofZ 0 else fofZ 1000 |>).

Record replay := mkReplay { rp_policy : Policy F; rp_changes : Z; rp_suppressed : Z; rp_hist : list (Z * Z); rp_last : Z }.

Definition replay_step (s : replay) (l : json F) : res replay :=
  match l with
  | JDict r =>
      match dict_get "ts" r with
      | None => Err (KeyError "ts")
      | Some ts =>
          let* sig := replay_signals r ts in
          let* (p, _) := tick sim_config (rp_policy s) sig in
          let cur := current_mcs (leading p) in
          Ok (mkReplay p (rp_changes s + if cur =? rp_last s then 0 else 1)
                (rp_suppressed s + if promote_suppressed (leading p) then 1 else 0) (bump cur (rp_hist s)) cur)
      end
  | _ => Err AttributeError
  end.

Fixpoint replay_loop (s : replay) (ls : list (json F)) : res replay :=
  match ls with [] => Ok s | l :: ls => let* s' := replay_step s l in replay_loop s' ls end.

(** [read]: the prior that earlier replays left; the share of suppressed ticks
    is printed in percent. *)
Definition replay_main (read : string -> file_read F) (ls : list (json F)) : res (replay * F) :=
  let* p := policy_init sim_config read "replay" in
  let* s := replay_loop (mkReplay p 0 0 [] (current_mcs (leading p))) ls in
  let total := sumZ (map snd (rp_hist s)) in
  let* share := fdiv_res (fofZ (100 * rp_suppressed s)) (fofZ total) in
  Ok (s, share).
End Sim.

(* ------------------------------------------------------------------ *)
(** ** Accounts *)

Lemma bump_sum k d : sumZ (map snd (bump k d)) = sumZ (map snd d) + 1.
Proof. induction d as [|[k' n] d IH]; [done|]. cbn. destruct (k =? k'); cbn in *; unfold sumZ in *; cbn in *; lia. Qed.

Lemma bump_keys (P : Z -> Prop) k d : P k -> Forall (fun kv => P kv.1 /\ 0 < kv.2) d -> Forall (fun kv => P kv.1 /\ 0 < kv.2) (bump k d).
Proof.
  intros Hk. induction 1 as [|[k' n] d [H1 H2] Hd IH]; cbn; [constructor; [split; [done|cbn; lia]|constructor]|].
  destruct (k =? k'); (constructor; [split; [done|cbn in *; lia]|done]).
Qed.

(** The weighted mean of values between [0] and [m] is. *)
Lemma weighted_bounds m d :
  Forall (fun kv : Z * Z => 0 <= kv.1 <= m /\ 0 < kv.2) d -> 0 <= sumZ (map (fun kv => kv.1 * kv.2) d) <= m * sumZ (map snd d).
Proof. unfold sumZ. induction 1 as [|[k n] d [H1 H2] Hd IH]; cbn in *; nia. Qed.

Section Accounts.
Context {F : Type} {PF : PyFloat F}.

(** After [n] ticks. *)
Definition sim_ok (n : Z) (s : sim (F := F)) : Prop :=
  pol_inv sim_config (sim_policy s) /\ sim_last s = mcs_of (sim_policy s) /\ sumZ (map snd (sim_hist s)) = n /\
  Forall (fun kv => 0 <= kv.1 <= 7 /\ 0 < kv.2) (sim_hist s) /\ 0 <= sim_changes s <= n /\ 0 <= sim_glitch s <= n.

Lemma sim_init_ok : exists s, sim_init = Ok s /\ sim_ok 0 s.
Proof.
  destruct (policy_init sim_config (fun _ => FileNotFound) "sim") as [p|e] eqn:E; [|done].
  unfold sim_init. rewrite E. cbn. eexists. split; [done|]. split; [by eapply pol_init_inv|]. split; [done|]. split; [done|]. split; [constructor|].
  split; cbn; lia.
Qed.

Hypothesis all_finite : forall x : F, ffinite x = true.
Variable viability : list (option F).
Hypothesis full : (8 <= length viability)%nat.
Hypothesis known : Forall (fun v => v <> None) viability.

Lemma sim_step_ok n s t : sim_ok n s -> exists s', sim_step viability s t = Ok s' /\ sim_ok (n + 1) s'.
Proof.
  intros (Hp & Hl & Hh & Hk & Hc & Hg). destruct t as [[ts ewma] raw]. unfold sim_step.
  assert (Hr : 0 <= mcs_of (sim_policy s) <= 7) by (destruct Hp as [Hok _]; exact (Hok : 0 <= _ <= _)).
  destruct (lookup_lt_is_Some_2 viability (Z.to_nat (mcs_of (sim_policy s)))) as [v Hv]; [lia|]. unfold mcs_of in Hv. rewrite Hv.
  destruct v as [v|]; [|by apply Forall_lookup_1 with (2 := Hv) in known].
  set (loss := if raw <f v then _ else _). set (sig := sim_signals ts ewma raw loss).
  destruct (pol_step_safe sim_config (sim_policy s) (EvTick sig) Hp) as [[[p o] H]|(x & _ & Hx & _)]; [|by rewrite all_finite in Hx].
  assert (Hp' := pol_step_inv sim_config _ (EvTick sig) p o H Hp). cbn [pol_step] in H. rewrite H. cbn [rbind]. eexists. split; [done|].
  assert (Hr' : 0 <= mcs_of p <= 7) by (destruct Hp' as [Hok _]; exact (Hok : 0 <= _ <= _)).
  split; [done|]. split; [done|]. cbn. split; [rewrite bump_sum; lia|]. split; [by apply (bump_keys (fun k => 0 <= k <= 7))|].
  clearbody loss. repeat case_match; lia.
Qed.

Lemma sim_loop_ok n s ts : sim_ok n s -> exists s', sim_loop viability s ts = Ok s' /\ sim_ok (n + Z.of_nat (length ts)) s'.
Proof.
  revert n s. induction ts as [|t ts IH]; intros n s H; [exists s; cbn; by rewrite Z.add_0_r|].
  destruct (sim_step_ok n s t H) as (s1 & E1 & H1). cbn. rewrite E1. cbn. destruct (IH (n + 1) s1 H1) as (s2 & E2 & H2).
  exists s2. split; [done|]. by replace (n + Z.of_nat (S (length ts))) with (n + 1 + Z.of_nat (length ts)) by lia.
Qed.
End Accounts.

(* ------------------------------------------------------------------ *)
(** ** The fit is piecewise linear *)

Section Fit.
Context {F : Type} {PF : PyFloat F}.
Implicit Types (l : list (nat * F)) (out : list (option F)).

(** Through the learned knees, with [step] per rung beyond them. *)
Fixpoint interp (step : F) l (i : nat) : F :=
  match l with
  | [] => fofZ 0
  | (a, ka) :: rest =>
      if (i =? a)%nat then ka
      else if (i <? a)%nat then extended ka step i a
      else match rest with
           | [] => extended ka step i a
           | (b, kb) :: _ => if (i <? b)%nat then interior ((a, ka), (b, kb)) i else interp step rest i
           end
  end.

(** Rungs in order, from [i] on. *)
Fixpoint ascending (i : nat) l : Prop := match l with [] => True | (a, _) :: l => (i <= a)%nat /\ ascending (S a) l end.

Lemma fill_length f idxs out : length (fill (F := F) f idxs out) = length out.
Proof. unfold fill. revert out. induction idxs as [|j idxs IH]; intros out; cbn; [done|]. by rewrite IH, length_insert. Qed.

Lemma fill_lookup f idxs out i :
  (i < length out)%nat -> fill (F := F) f idxs out !! i = if decide (i ∈ idxs) then Some (Some (f i)) else out !! i.
Proof.
  unfold fill. revert out. induction idxs as [|j idxs IH]; intros out Hi; cbn; [done|]. rewrite IH by (by rewrite length_insert).
  destruct (decide (i ∈ idxs)) as [H1|H1]; [by rewrite decide_True by set_solver|]. destruct (decide (i = j)) as [->|H2].
  - rewrite decide_True by set_solver. by rewrite list_lookup_insert_eq.
  - rewrite decide_False by set_solver. by rewrite list_lookup_insert_ne.
Qed.

Lemma learned_ascending i (knees : list (option F)) : ascending i (learned_from i knees).
Proof.
  revert i. induction knees as [|[k|] knees IH]; intros i; cbn; [done| |].
  - split; [lia|]. apply IH.
  - specialize (IH (S i)). destruct (learned_from (S i) knees) as [|[a k] l]; [done|]. cbn in *. destruct IH. split; [lia|done].
Qed.

(** The knee of a rung, learned or not. *)
Fixpoint knee_at l (i : nat) : option F := match l with [] => None | (a, k) :: l => if (i =? a)%nat then Some k else knee_at l i end.

Lemma knee_below b l m : ascending b l -> (m < b)%nat -> knee_at l m = None.
Proof.
  revert b. induction l as [|[a x] l IH]; intros b H Hm; [done|]. cbn in *. destruct H as [H1 H2].
  destruct (Nat.eqb_spec m a); [lia|]. apply (IH (S a)); [done|lia].
Qed.

Lemma knee_at_learned i0 (knees : list (option F)) j : knees !! j = (if decide (j < length knees)%nat then Some (knee_at (learned_from i0 knees) (i0 + j)) else None).
Proof.
  revert i0 j. induction knees as [|k knees IH]; intros i0 j; [done|].
  assert (Hlow := fun m => knee_below (S i0) _ m (learned_ascending (S i0) knees)).
  destruct j as [|j].
  - rewrite decide_True by (cbn; lia). rewrite Nat.add_0_r. change ((k :: knees) !! 0%nat) with (Some k). destruct k as [k|]; cbn; [by rewrite Nat.eqb_refl|]. by rewrite Hlow by lia.
  - change ((k :: knees) !! S j) with (knees !! j). rewrite (IH (S i0) j). replace (S i0 + j)%nat with (i0 + S j)%nat by lia.
    destruct (decide (j < length knees)%nat) as [Hj|Hj]; [rewrite decide_True by (cbn; lia)|by rewrite decide_False by (cbn; lia)].
    destruct k as [k|]; cbn; [|done]. destruct (Nat.eqb_spec (i0 + S j) i0); [lia|done].
Qed.

(** The segment around a rung strictly between two knees. *)
Fixpoint segment l (i : nat) : option F :=
  match l with
  | (a, ka) :: (((b, kb) :: _) as rest) =>
      if (a <? i)%nat && (i <? b)%nat then Some (interior ((a, ka), (b, kb)) i) else segment rest i
  | _ => None
  end.

Lemma segment_cons a ka c kc l i :
  segment ((a, ka) :: (c, kc) :: l) i =
    if (a <? i)%nat && (i <? c)%nat then Some (interior ((a, ka), (c, kc)) i) else segment ((c, kc) :: l) i.
Proof. done. Qed.

Lemma segment_below b l i : ascending b l -> (i <= b)%nat -> segment l i = None.
Proof.
  revert b. induction l as [|[a ka] l IH]; intros b H Hi; [done|]. cbn in H. destruct H as [H1 H2]. destruct l as [|[c kc] l]; [done|].
  rewrite segment_cons. destruct (Nat.ltb_spec a i); [lia|]. cbn [andb]. apply (IH (S a)); [done|lia].
Qed.

Definition fill_pair (p : (nat * F) * (nat * F)) out := fill (interior p) (seq (S p.1.1) (p.2.1 - S p.1.1)) out.

Lemma fill_pairs b l out i :
  ascending b l -> (i < length out)%nat ->
  fold_left (fun out p => fill_pair p out) (pairs l) out !! i = match segment l i with Some v => Some (Some v) | None => out !! i end.
Proof.
  revert b out. induction l as [|[a ka] l IH]; intros b out H Hi; [done|]. cbn in H. destruct H as [H1 H2]. destruct l as [|[c kc] l]; [done|].
  change (pairs ((a, ka) :: (c, kc) :: l)) with (((a, ka), (c, kc)) :: pairs ((c, kc) :: l)). cbn [fold_left].
  assert (Hl : length (fill_pair ((a, ka), (c, kc)) out) = length out) by apply fill_length.
  rewrite (IH (S a)); [|done|by rewrite Hl]. rewrite segment_cons.
  assert (Hf : fill_pair ((a, ka), (c, kc)) out !! i = if (a <? i)%nat && (i <? c)%nat then Some (Some (interior ((a, ka), (c, kc)) i)) else out !! i).
  { unfold fill_pair. cbn [fst snd]. rewrite fill_lookup by done. cbn in H2. destruct H2 as [H2 _].
    destruct (decide (i ∈ seq (S a) (c - S a))) as [Hs|Hs]; rewrite elem_of_seq in Hs;
      destruct (Nat.ltb_spec a i), (Nat.ltb_spec i c); cbn; try done; lia. }
  destruct ((a <? i)%nat && (i <? c)%nat) eqn:E.
  - apply andb_true_iff in E as [E1%Nat.ltb_lt E2%Nat.ltb_lt]. cbn in H2. destruct H2 as [H2 H3].
    assert (Hn : segment ((c, kc) :: l) i = None) by (apply (segment_below c); [by split|lia]). rewrite Hn. exact Hf.
  - rewrite Hf. done.
Qed.

Lemma last_any {A} (x : A) (l : list A) d d' : List.last (x :: l) d = List.last (x :: l) d'.
Proof. revert x. induction l as [|y l IH]; intros x; [done|]. exact (IH y). Qed.

(** What is neither a knee nor between two is beyond them. *)
Lemma interp_cases step b l i lo klo hi khi :
  ascending b l -> head l = Some (lo, klo) -> List.last l (lo, klo) = (hi, khi) ->
  Some (interp step l i) =
    match knee_at l i with
    | Some k => Some k
    | None => match segment l i with
              | Some v => Some v
              | None => if (i <? lo)%nat then Some (extended klo step i lo) else if (hi <? i)%nat then Some (extended khi step i hi) else None
              end
    end.
Proof.
  revert b lo klo. induction l as [|[a ka] l IH]; intros b lo klo H Hh Hl; [done|]. cbn in Hh. injection Hh as -> ->. cbn in H. destruct H as [H1 H2].
  cbn [interp knee_at]. destruct (Nat.eqb_spec i lo) as [->|Hne]; [done|]. destruct l as [|[c kc] l].
  - cbn in Hl. injection Hl as <- <-. cbn [segment knee_at]. destruct (Nat.ltb_spec i lo); [done|]. destruct (Nat.ltb_spec lo i); [done|lia].
  - assert (Hc : (lo < c)%nat) by (cbn in H2; lia). change (List.last ((lo, klo) :: (c, kc) :: l) (lo, klo)) with (List.last ((c, kc) :: l) (lo, klo)) in Hl.
    assert (Hl' : List.last ((c, kc) :: l) (c, kc) = (hi, khi)) by (rewrite <- Hl; apply last_any).
    specialize (IH (S lo) c kc H2 eq_refl Hl'). rewrite segment_cons. destruct (Nat.ltb_spec i lo) as [Hlt|Hge].
    + rewrite (knee_below (S lo) ((c, kc) :: l) i H2) by lia. destruct (Nat.ltb_spec lo i); [lia|]. cbn [andb].
      by rewrite (segment_below (S lo) ((c, kc) :: l) i H2) by lia.
    + destruct (Nat.ltb_spec lo i); [|lia]. cbn [andb]. destruct (Nat.ltb_spec i c) as [Hic|Hic].
      * rewrite (knee_below c ((c, kc) :: l) i); [done|split; [lia|apply H2]|lia].
      * rewrite IH. destruct (knee_at ((c, kc) :: l) i); [done|]. destruct (segment ((c, kc) :: l) i); [done|]. destruct (Nat.ltb_spec i c); [lia|]. done.
Qed.

Lemma last_reaches b a ka l d hi khi : ascending b ((a, ka) :: l) -> List.last ((a, ka) :: l) d = (hi, khi) -> (a <= hi)%nat.
Proof.
  revert b a ka. induction l as [|[c kc] l IH]; intros b a ka [_ H] Hl; [cbn in Hl; by injection Hl as -> _|].
  assert (H1 := IH (S a) c kc H Hl). cbn in H. lia.
Qed.

(** A knee is on no segment, and between the first and the last. *)
Lemma knee_inside b l i k lo klo hi khi :
  ascending b l -> knee_at l i = Some k -> head l = Some (lo, klo) -> List.last l (lo, klo) = (hi, khi) ->
  segment l i = None /\ (lo <= i <= hi)%nat.
Proof.
  revert b lo klo. induction l as [|[a ka] l IH]; intros b lo klo H Hk Hh Hl; [done|]. cbn in Hh. injection Hh as -> ->. cbn in H. destruct H as [H1 H2].
  destruct l as [|[c kc] l].
  - cbn in Hl, Hk. injection Hl as <- <-. destruct (Nat.eqb_spec i lo); [subst; split; [done|lia]|done].
  - assert (Hc : (lo < c)%nat) by (cbn in H2; lia).
    assert (Hl' : List.last ((c, kc) :: l) (c, kc) = (hi, khi)) by (rewrite <- Hl; change (List.last ((lo, klo) :: (c, kc) :: l) (lo, klo)) with (List.last ((c, kc) :: l) (lo, klo)); apply last_any).
    assert (Hch : (c <= hi)%nat).
    { apply (last_reaches (S lo) c kc l _ hi khi H2 Hl'). }
    rewrite segment_cons. cbn [knee_at] in Hk. destruct (Nat.eqb_spec i lo) as [->|Hne].
    + destruct (Nat.ltb_spec lo lo); [lia|]. cbn [andb]. split; [by apply (segment_below (S lo)); [|lia]|lia].
    + destruct (IH (S lo) c kc H2 Hk eq_refl Hl') as [Hs Hb]. split; [|lia]. destruct (Nat.ltb_spec i c); [lia|]. by rewrite andb_false_r.
Qed.

Lemma elem_of_rev_seq (i n : nat) : i ∈ rev (seq 0 n) <-> (i < n)%nat.
Proof. rewrite list_elem_of_In, <- in_rev, <- list_elem_of_In, elem_of_seq. lia. Qed.

(** The fit fails only when nothing was learned; otherwise every rung has a
    threshold, its knee where one was learned, on the segment between its
    neighbours' or beyond the last at the mean slope. *)
Theorem fit_is_interpolation (knees : list (option F)) :
  fit_viability knees =
    match learned_of knees with
    | [] => None
    | l => Some (map (fun i => Some (interp (mean_step l) l i)) (seq 0 (length knees)))
    end.
Proof.
  unfold fit_viability. assert (Ha := learned_ascending 0 knees). assert (Hk := knee_at_learned 0 knees). fold (learned_of knees) in Ha, Hk.
  destruct (learned_of knees) as [|[lo klo] rest] eqn:El; [done|]. destruct (List.last rest (lo, klo)) as [hi khi] eqn:Eh. f_equal.
  set (l := (lo, klo) :: rest) in *. assert (Hl : List.last l (lo, klo) = (hi, khi)) by (rewrite <- Eh; by destruct rest).
  apply list_eq. intros i. set (out1 := fill _ _ knees). set (out2 := fill _ _ out1).
  assert (L2 : length out2 = length knees) by (unfold out2, out1; by rewrite !fill_length).
  assert (L3 : length (fold_left (fun out p => fill_pair p out) (pairs l) out2) = length knees).
  { rewrite <- L2. generalize out2. induction (pairs l) as [|p ps IH]; intros o; [done|]. cbn. rewrite IH. apply fill_length. }
  destruct (decide (i < length knees)%nat) as [Hi|Hi].
  2: { rewrite !lookup_ge_None_2; [done|rewrite length_map, length_seq; lia|]. change (length (fold_left (fun out p => fill_pair p out) (pairs l) out2) <= i)%nat. lia. }
  rewrite list_lookup_fmap, lookup_seq_lt by done. cbn [fmap option_fmap option_map plus].
  change (fold_left (fun out p => fill_pair p out) (pairs l) out2 !! i = Some (Some (interp (mean_step l) l i))).
  rewrite (fill_pairs 0 l out2 i Ha) by lia. rewrite (interp_cases (mean_step l) 0 l i lo klo hi khi Ha eq_refl Hl).
  specialize (Hk i). rewrite decide_True, Nat.add_0_l in Hk by done.
  unfold out2. rewrite fill_lookup by (unfold out1; rewrite fill_length; done). unfold out1. rewrite fill_lookup by done. rewrite fill_length, Hk.
  destruct (knee_at l i) as [k|] eqn:Ek.
  - destruct (knee_inside 0 l i k lo klo hi khi Ha Ek eq_refl Hl) as [-> Hb].
    rewrite !decide_False; [done|rewrite elem_of_rev_seq; lia|intros Hs%elem_of_seq; lia].
  - assert (Hlo : (lo <= hi)%nat) by (destruct (knee_inside 0 l lo klo lo klo hi khi Ha) as [_ ?]; [cbn; by rewrite Nat.eqb_refl|done|done|lia]).
    destruct (segment l i); [done|]. destruct (Nat.ltb_spec i lo), (Nat.ltb_spec hi i); try lia; repeat case_decide; try done;
      exfalso; rewrite ?elem_of_rev_seq, ?elem_of_seq in *; lia.
Qed.
End Fit.

(** ** Thresholds rise with the rung *)

Section Monotone.
Open Scope Q_scope.
Implicit Types (l : list (nat * Q)).

Fixpoint rising l : Prop :=
  match l with (_, ka) :: (((_, kb) :: _) as rest) => ka <= kb /\ rising rest | _ => True end.

Lemma fidx_le i j a : (i <= j)%nat -> (fidx i a : Q) <= fidx j a.
Proof. intros H. unfold fidx, fofZ, PyFloat_Q. rewrite <- Zle_Qle. lia. Qed.
Lemma fidx_pos i a : (a < i)%nat -> 0 < (fidx i a : Q).
Proof. intros H. change 0 with (inject_Z 0). unfold fidx, fofZ, PyFloat_Q. rewrite <- Zlt_Qlt. lia. Qed.
Lemma fidx_nonneg i a : (a <= i)%nat -> 0 <= (fidx i a : Q).
Proof. intros H. change 0 with (inject_Z 0). unfold fidx, fofZ, PyFloat_Q. rewrite <- Zle_Qle. lia. Qed.
Lemma fidx_nonpos i a : (i <= a)%nat -> (fidx i a : Q) <= 0.
Proof. intros H. change 0 with (inject_Z 0). unfold fidx, fofZ, PyFloat_Q. rewrite <- Zle_Qle. lia. Qed.

Lemma Qdiv_nonneg x y : 0 <= x -> 0 < y -> 0 <= x / y.
Proof. intros Hx Hy. unfold Qdiv. apply Qmult_le_0_compat; [done|]. apply Qlt_le_weak, Qinv_lt_0_compat, Hy. Qed.

Lemma fsum_nonneg (xs : list Q) : Forall (fun x => 0 <= x) xs -> 0 <= fsum xs.
Proof.
  unfold fsum. intros H. assert (H0 : 0 <= (fofZ 0 : Q)) by apply Qle_refl. revert H0. generalize (fofZ 0 : Q).
  induction H as [|x xs Hx _ IH]; intros a Ha; [done|]. cbn [fold_left]. apply IH. cbn beta in Hx. rewrite Q_add_eq. lra.
Qed.

Lemma steps_nonneg b l : ascending b l -> rising l -> Forall (fun x => 0 <= x) (map seg_step (pairs l)).
Proof.
  revert b. induction l as [|[a ka] l IH]; intros b H Hr; [by constructor|]. destruct l as [|[c kc] l]; [by constructor|].
  destruct H as [_ H]. destruct Hr as [Hr Hr']. change (pairs ((a, ka) :: (c, kc) :: l)) with (((a, ka), (c, kc)) :: pairs ((c, kc) :: l)).
  cbn [map]. constructor; [|by apply (IH (S a))]. unfold seg_step. cbn [fst snd]. autorewrite with qarith. destruct H as [Hc _].
  apply Qdiv_nonneg; [lra|]. apply fidx_pos. lia.
Qed.

Lemma mean_step_nonneg b l : ascending b l -> rising l -> 0 <= mean_step l.
Proof.
  intros H Hr. assert (Hs := steps_nonneg b l H Hr). unfold mean_step. destruct (map seg_step (pairs l)) as [|x xs]; [by apply Qle_bool_iff|].
  autorewrite with qarith. apply Qdiv_nonneg; [by apply fsum_nonneg|]. change 0 with (inject_Z 0). unfold fofZ, PyFloat_Q. rewrite <- Zlt_Qlt. cbn. lia.
Qed.

Lemma extended_le k step i j a : 0 <= step -> (i <= j)%nat -> extended k step i a <= extended k step j a.
Proof.
  intros Hs Hij. unfold extended. autorewrite with qarith. assert (H := fidx_le i j a Hij). apply Qplus_le_r.
  rewrite (Qmult_comm step), (Qmult_comm step (fidx j a)). by apply Qmult_le_compat_r.
Qed.

Lemma interior_le ka kb a b i j : ka <= kb -> (a < b)%nat -> (i <= j)%nat -> interior ((a, ka), (b, kb)) i <= interior ((a, ka), (b, kb)) j.
Proof.
  intros Hk Hab Hij. unfold interior. cbn [fst snd]. autorewrite with qarith. apply Qplus_le_r. unfold Qdiv.
  apply Qmult_le_compat_r; [|apply Qlt_le_weak, Qinv_lt_0_compat, fidx_pos, Hab]. assert (H := fidx_le i j a Hij).
  rewrite (Qmult_comm (kb - ka)), (Qmult_comm (kb - ka) (fidx j a)). apply Qmult_le_compat_r; [done|lra].
Qed.

Lemma interior_ends ka kb a b : (a < b)%nat -> interior ((a, ka), (b, kb)) a == ka /\ interior ((a, ka), (b, kb)) b == kb.
Proof.
  intros Hab. assert (Hp := fidx_pos b a Hab). unfold interior. cbn [fst snd]. autorewrite with qarith.
  assert (Hz : (fidx a a : Q) == 0) by (unfold fidx; by rewrite Z.sub_diag). split; [rewrite Hz|]; field; lra.
Qed.

Lemma extended_at k step a : extended k step a a == k.
Proof. unfold extended. autorewrite with qarith. assert (Hz : (fidx a a : Q) == 0) by (unfold fidx; by rewrite Z.sub_diag). rewrite Hz. ring. Qed.

Lemma interp_cons step a ka l i :
  interp step ((a, ka) :: l) i =
    if (i =? a)%nat then ka
    else if (i <? a)%nat then extended ka step i a
    else match l with
         | [] => extended ka step i a
         | (b, kb) :: _ => if (i <? b)%nat then interior ((a, ka), (b, kb)) i else interp step l i
         end.
Proof. done. Qed.

Lemma interp_ge step b a ka l j :
  0 <= step -> ascending b ((a, ka) :: l) -> rising ((a, ka) :: l) -> (a <= j)%nat -> ka <= interp step ((a, ka) :: l) j.
Proof.
  intros Hs. revert b a ka. induction l as [|[c kc] l IH]; intros b a ka H Hr Hj; rewrite interp_cons; cbv iota beta;
    (destruct (Nat.eqb_spec j a); [apply Qle_refl|]); (destruct (Nat.ltb_spec j a); [lia|]).
  - rewrite <- (extended_at ka step a) at 1. apply extended_le; [done|lia].
  - destruct H as [_ H]. destruct Hr as [Hr Hr']. assert (Hac : (a < c)%nat) by (destruct H; lia). destruct (Nat.ltb_spec j c).
    + destruct (interior_ends ka kc a c Hac) as [E _]. rewrite <- E at 1. apply interior_le; [done|done|lia].
    + apply (Qle_trans _ kc); [done|]. apply (IH (S a)); [done|done|lia].
Qed.

Lemma interp_mono step b l i j : 0 <= step -> ascending b l -> rising l -> (i <= j)%nat -> interp step l i <= interp step l j.
Proof.
  intros Hs. revert b. induction l as [|[a ka] l IH]; intros b H Hr Hij; [apply Qle_refl|].
  destruct (Nat.le_gt_cases a i) as [Hai|Hai].
  2: { assert (Hi : interp step ((a, ka) :: l) i = extended ka step i a).
       { rewrite interp_cons. destruct (Nat.eqb_spec i a); [lia|]. destruct (Nat.ltb_spec i a); [done|lia]. }
       rewrite Hi. destruct (Nat.le_gt_cases a j) as [Haj|Haj].
       - apply (Qle_trans _ ka); [|by apply (interp_ge step b)]. rewrite <- (extended_at ka step a) at 2. apply extended_le; [done|lia].
       - rewrite interp_cons. destruct (Nat.eqb_spec j a); [lia|]. destruct (Nat.ltb_spec j a); [|lia]. by apply extended_le. }
  destruct (Nat.eqb_spec i a) as [->|Hne].
  { assert (Hi : interp step ((a, ka) :: l) a = ka) by (rewrite interp_cons; by rewrite Nat.eqb_refl). rewrite Hi. by apply (interp_ge step b). }
  rewrite (interp_cons _ _ _ _ i), (interp_cons _ _ _ _ j). destruct (Nat.eqb_spec i a); [lia|]. destruct (Nat.ltb_spec i a); [lia|]. destruct (Nat.eqb_spec j a); [lia|]. destruct (Nat.ltb_spec j a); [lia|].
  destruct l as [|[c kc] l]; [by apply extended_le|]. destruct H as [_ H]. destruct Hr as [Hr Hr']. assert (Hac : (a < c)%nat) by (destruct H; lia).
  destruct (Nat.ltb_spec i c), (Nat.ltb_spec j c); [by apply interior_le| |lia|by apply (IH (S a))].
  apply (Qle_trans _ kc); [|apply (interp_ge step (S a)); [done|done|done|lia]].
  destruct (interior_ends ka kc a c Hac) as [_ E].
  apply (Qle_trans _ (interior ((a, ka), (c, kc)) c)); [apply interior_le; [done|done|lia]|by rewrite E; apply Qle_refl].
Qed.

(** With knees that rise with the rung, every rung has a threshold and the
    thresholds rise: a better rung never needs less. *)
Theorem viability_monotone (knees : list (option Q)) :
  learned_of knees <> [] -> rising (learned_of knees) ->
  exists out, fit_viability knees = Some (map Some out) /\ length out = length knees /\
    (forall i k, knees !! i = Some (Some k) -> out !! i = Some k) /\
    (forall i j x y, (i <= j)%nat -> out !! i = Some x -> out !! j = Some y -> x <= y).
Proof.
  intros Hne Hr. assert (Ha := learned_ascending 0 knees). fold (learned_of knees) in Ha. assert (Hk := knee_at_learned 0 knees). fold (learned_of knees) in Hk.
  assert (Hf := fit_is_interpolation knees). destruct (learned_of knees) as [|p l'] eqn:El; [done|]. set (l := p :: l') in *.
  exists (map (interp (mean_step l) l) (seq 0 (length knees))). split_and!.
  - rewrite Hf. f_equal. by rewrite map_map.
  - by rewrite length_map, length_seq.
  - intros i k Hi. assert (Hlt := lookup_lt_Some _ _ _ Hi). rewrite list_lookup_fmap, lookup_seq_lt by done. cbn. f_equal.
    rewrite Hk, decide_True, Nat.add_0_l in Hi by done. injection Hi as Hi. clear -Hi Ha.
    destruct p as [lo klo]. destruct (List.last l (lo, klo)) as [hi khi] eqn:Eh.
    assert (H := interp_cases (mean_step l) 0 l i lo klo hi khi Ha eq_refl Eh).
    rewrite (Hi : knee_at l i = Some k) in H. by injection H.
  - intros i j x y Hij Hx Hy. rewrite list_lookup_fmap in Hx, Hy. apply fmap_Some in Hx as (i' & Hi & ->), Hy as (j' & Hj & ->).
    apply lookup_seq in Hi as [-> _], Hj as [-> _]. apply (interp_mono _ 0); [by apply (mean_step_nonneg 0)|done|done|lia].
Qed.
End Monotone.

(** ** The whole simulation *)

Section Simulation.

(** Knees come from lines that are ticks. *)
Lemma load_no_ticks (ls : list (json Q)) ticks knees ticks' knees' :
  (ticks = [] -> learned_of knees = []) -> load_from ls ticks knees = Ok (ticks', knees') -> ticks' = [] -> learned_of knees' = [].
Proof.
  revert ticks knees. induction ls as [|l ls IH]; intros ticks knees H0 H Ht; cbn in H; [injection H as <- <-; by apply H0|].
  destruct l as [| | | | | |r]; try done. destruct (channel_tick r) as [[t|]|]; cbn in H; [|by apply (IH ticks knees)|done].
  destruct (py_iter _) as [ks|]; cbn in H; [|done]. destruct (take_knees 0 ks knees) as [knees1|] eqn:Ek; cbn in H; [|done].
  apply (IH (ticks ++ [t]) knees1); try done. intros Hn. by destruct ticks.
Qed.

Lemma take_knees_length i (ks : list (json Q)) knees knees' : take_knees i ks knees = Ok knees' -> length knees' = length knees.
Proof.
  revert i knees. induction ks as [|k ks IH]; intros i knees H; cbn [take_knees] in H; [by injection H as <-|].
  assert (Hc : take_knees (S i) ks knees = Ok knees' \/ exists x, take_knees (S i) ks (<[i := Some x]> knees) = Ok knees').
  { destruct k as [| | | | | |]; [by left|..]; right; (destruct (bool_decide _); destruct (py_float _) as [x|]; [by exists x|done..]). }
  destruct Hc as [Hc|[x Hc]]; apply IH in Hc; [done|by rewrite length_insert in Hc].
Qed.

Lemma load_length (ls : list (json Q)) ticks knees ticks' knees' :
  load_from ls ticks knees = Ok (ticks', knees') -> length knees' = length knees.
Proof.
  revert ticks knees. induction ls as [|l ls IH]; intros ticks knees H; cbn in H; [by injection H as _ <-|].
  destruct l as [| | | | | |r]; try done. destruct (channel_tick r) as [[t|]|]; cbn in H; [|by apply (IH ticks)|done].
  destruct (py_iter _) as [ks|]; cbn in H; [|done]. destruct (take_knees 0 ks knees) as [knees1|] eqn:Ek; cbn in H; [|done].
  apply IH in H. rewrite H. by eapply take_knees_length.
Qed.

Lemma feqb_Q (x y : Q) : feqb x y = true <-> (x == y)%Q.
Proof. unfold feqb. cbn. rewrite andb_true_iff, !Qle_bool_iff. split; [intros []; lra|intros E; rewrite E; split; apply Qle_refl]. Qed.

Lemma fdiv_res_ok (x y : Q) : ~ (y == 0)%Q -> fdiv_res x y = Ok (x /f y)%py.
Proof. intros H. unfold fdiv_res. destruct (feqb y (fofZ 0)) eqn:E; [|done]. by apply feqb_Q in E. Qed.

Lemma fit_full (knees out : list (option Q)) :
  fit_viability knees = Some out -> learned_of knees <> [] /\ length out = length knees /\ Forall (fun v => v <> None) out.
Proof.
  rewrite fit_is_interpolation. destruct (learned_of knees) as [|p l]; [done|]. intros [= <-]. split; [done|].
  rewrite length_map, length_seq. split; [done|]. apply Forall_fmap, Forall_true. done.
Qed.

Definition first_ts (ticks : list (Q * Q * Q)) : Q := match ticks with (t, _, _) :: _ => t | [] => 0%Q end.
Definition last_ts (ticks : list (Q * Q * Q)) : Q := match List.last ticks (0%Q, 0%Q, 0%Q) with (t, _, _) => t end.

(** On every log that can be read, the closed-loop simulation reports: it
    stops early only when no knee was learned and raises only when two or more
    ticks span no time; each tick is accounted to one rung between 0 and 7,
    glitches and changes number at most the ticks, and the mean rung is
    between 0 and 7. *)
Theorem simulation_reports (ls : list (json Q)) ticks knees :
  load_channel ls = Ok (ticks, knees) ->
  match sim_main ls with
  | Ok None => learned_of knees = []
  | Ok (Some r) =>
      r_ticks r = Z.of_nat (length ticks) /\ sumZ (map snd (r_time_at_mcs r)) = r_ticks r /\
      Forall (fun kv => 0 <= kv.1 <= 7 /\ 0 < kv.2) (r_time_at_mcs r) /\
      0 <= r_glitch_ticks r <= r_ticks r /\ 0 <= r_mcs_changes r <= r_ticks r /\ (0 <= r_mean_mcs r <= 7)%Q
  | Err e => e = ZeroDivisionError /\ (1 < length ticks)%nat /\ (first_ts ticks == last_ts ticks)%Q
  end.
Proof.
  intros Hl. unfold sim_main. rewrite Hl. cbn [rbind]. destruct (fit_viability knees) as [v|] eqn:Ef.
  2: { rewrite fit_is_interpolation in Ef. by destruct (learned_of knees). }
  destruct (fit_full knees v Ef) as (Hne & Hlen & Hall). assert (Hk := load_length _ _ _ _ _ Hl). cbn in Hk.
  destruct (sim_init_ok (F := Q)) as (s0 & E0 & H0).
  destruct (sim_loop_ok (F := Q) (PF := PyFloat_Q) (fun _ => eq_refl) v ltac:(lia) Hall 0 s0 ticks H0) as (s & Es & Hp & _ & Hh & Hb & Hc & Hg).
  assert (Hpos : (0 < length ticks)%nat).
  { destruct ticks as [|t ts]; [|cbn; lia]. by apply (load_no_ticks ls [] (repeat None 8) [] knees) in Hl. }
  unfold sim_run. rewrite E0. cbn [rbind]. rewrite Es. cbn [rbind]. rewrite Z.add_0_l in *.
  unfold fdiv_res at 1. destruct (feqb (dur_min ticks) (fofZ 0)) eqn:Ed.
  - apply feqb_Q in Ed. split; [done|]. unfold dur_min in Ed. destruct ticks as [|[[t0 a0] b0] [|t1 ts]]; try by apply feqb_Q in Ed.
    split; [cbn; lia|]. unfold first_ts, last_ts. change (fofZ 0 : Q) with 0%Q in Ed. destruct (List.last _ _) as [[t2 a2] b2]. revert Ed. autorewrite with qarith. intros Ed.
    change (fofZ 60 : Q) with 60%Q in Ed. assert (E2 : (t2 - t0 == 0)%Q); [|lra].
    rewrite <- (Qmult_div_r (t2 - t0) 60) by lra. rewrite Ed. ring.
  - cbn [rbind]. assert (Htot : ~ (inject_Z (Z.of_nat (length ticks)) == 0)%Q) by (change 0%Q with (inject_Z 0); rewrite inject_Z_injective; lia).
    rewrite fdiv_res_ok by done. cbn [rbind r_ticks r_time_at_mcs r_glitch_ticks r_mcs_changes r_mean_mcs]. split_and!; try done; try lia.
    + assert (Hw := weighted_bounds 7 (sim_hist s) Hb). rewrite Q_div_eq. apply Qdiv_nonneg; [|]; change 0%Q with (inject_Z 0);
        [rewrite <- Zle_Qle|rewrite <- Zlt_Qlt]; lia.
    + assert (Hw := weighted_bounds 7 (sim_hist s) Hb). rewrite Q_div_eq. apply Qle_shift_div_r; [change 0%Q with (inject_Z 0); rewrite <- Zlt_Qlt; lia|].
      change 7%Q with (inject_Z 7). rewrite <- inject_Z_mult, <- Zle_Qle. lia.
Qed.

(** A replay of an empty log divides by its number of ticks. *)
Lemma empty_replay_raises : replay_main (fun _ => FileNotFound) ([] : list (json Q)) = Err ZeroDivisionError.
Proof. vm_compute. done. Qed.
End Simulation.
