(* ===== verification/Analyze.v ===== *)
(** * gs/tools/flightlog_analyze.py

    The summary of a flight log: [_records] reads the lines, [summarize] goes
    over the records once, and what the policy's entries look like as records.
    A field that is used as a number and is none raises [TypeError] at its
    record (the code may carry it along until it is used); when several fields
    of a record are malformed, which exception comes first is not modelled. *)
From Stdlib Require Import ZArith Lia Bool Ascii String.
From stdpp Require Import base tactics list gmap strings.
From S2P Require Import Prelude PyStr Json Cards JsonText LearnedPrior StatsClient Probe Decision Signals Policy.
Open Scope Z_scope.

Section Analyze.
Context {F : Type} {PF : PyFloat F}.
Implicit Types (r : list (string * json F)).

(** ** Reading *)

(** Blank lines and lines that are no JSON are skipped. *)
Definition _records (lines : list string) : list (json F) :=
  omap (fun l => let l := strip l in if String.eqb l "" then None else loads l) lines.

Definition as_num (v : json F) : res F := if is_num v then Ok (num_val v) else Err TypeError.

Definition one (b : bool) : Z := if b then 1 else 0.

(** [sub in v]. *)
Definition py_in (sub : string) (v : json F) : res bool :=
  match v with
  | JStr s => Ok (contains sub s)
  | JList l => Ok (existsb (json_eqb (JStr sub)) l)
  | JDict d => Ok (is_some (dict_get sub d))
  | _ => Err TypeError
  end.

(** [d[k] = d.get(k, 0) + 1]; a list or a dict is no key. *)
Fixpoint tally (k : json F) (d : list (json F * Z)) : list (json F * Z) :=
  match d with
  | [] => [(k, 1)]
  | (k', n) :: d' => if scalar_eqb k k' then (k', n + 1) :: d' else (k', n) :: tally k d'
  end.
Definition count (k : json F) (d : list (json F * Z)) : res (list (json F * Z)) :=
  if is_list k || is_dict k then Err TypeError else Ok (tally k d).

(** [repr]: the text of a float. *)
Definition probe_target_per (repr : json F -> string) (rec : json F) : res (json F) :=
  let* mcs := obj_get "mcs" JNull rec in
  match mcs with
  | JNull => Ok JNull
  | mcs =>
      let* key := match mcs with
                  | JInt z => Ok (str_int (z + 1))
                  | JBool b => Ok (str_int (one b + 1))
                  | JFloat x => Ok (repr (JFloat (x +f fofZ 1)))
                  | _ => Err TypeError
                  end in
      let* p := obj_get "probe" JNull rec in
      let* entry := obj_get key JNull (if truthy p then p else JDict []) in
      obj_get "per" JNull (if truthy entry then entry else JDict [])
  end.

(** ** The running totals *)

Record totals := mkTotals {
  t_time_at_mcs : list (json F * Z);
  t_predictive : Z; t_reactive : Z; t_gated : Z; t_prior_learn : Z; t_promote_suppressed : Z;
  t_max_flap_level : F; t_last_knees : json F;
  t_mcss : list F; t_snrs : list F; t_snr_ewmas : list F; t_evms : list F; t_min_evm : option F;
  t_fail_class_counts : list (json F * Z); t_promote_route_counts : list (json F * Z);
  t_fade_recovery : list F; t_fade_from : option (F * F); t_prev_mcs : json F;
  t_fast_demotes : Z; t_loss_latencies : list F; t_tap_active_ticks : Z }.
#[export] Instance eta_totals : Settable totals := fun t =>
  mkTotals (t_time_at_mcs t) (t_predictive t) (t_reactive t) (t_gated t) (t_prior_learn t) (t_promote_suppressed t)
    (t_max_flap_level t) (t_last_knees t) (t_mcss t) (t_snrs t) (t_snr_ewmas t) (t_evms t) (t_min_evm t)
    (t_fail_class_counts t) (t_promote_route_counts t) (t_fade_recovery t) (t_fade_from t) (t_prev_mcs t)
    (t_fast_demotes t) (t_loss_latencies t) (t_tap_active_ticks t).
Implicit Types (t : totals).

Definition totals_new : totals :=
  mkTotals [] 0 0 0 0 0 (fofZ 0) JNull [] [] [] [] None [] [] [] None JNull 0 [] 0.

(** [if v is not None: l.append(v)]. *)
Definition appended (v : json F) (l : list F) : res (list F) :=
  match v with JNull => Ok l | v => let* x := as_num v in Ok (l ++ [x]) end.

Definition reason_of r : json F := let v := get_ "reason" r in if truthy v then v else JStr "".

(** The counters. *)
Definition add_counts r t : res totals :=
  let reason := reason_of r in
  let* time := count (get_ "mcs" r) (t_time_at_mcs t) in
  let* pred := py_in "predict_demote" reason in
  let* video := py_in "video_per_demote" reason in
  let* emerg := if video then Ok true else py_in "emergency" reason in
  let* fast := py_in "_fast" reason in
  let* flap := match get_ "flap_level" r with JNull => Ok (t_max_flap_level t) | v => let* x := as_num v in Ok (fmax (t_max_flap_level t) x) end in
  let fc := get_ "fail_class" r in
  let* fails := if truthy fc then count fc (t_fail_class_counts t) else Ok (t_fail_class_counts t) in
  let* sb := py_in "snapback_promote" reason in
  let* kn := py_in "knee_promote" reason in
  let* ex := py_in "explore_promote" reason in
  let routes := fold_left (fun d (kb : string * bool) => if kb.2 then tally (JStr kb.1) d else d)
                  [("snapback_promote", sb); ("knee_promote", kn); ("explore_promote", ex)] (t_promote_route_counts t) in
  Ok (t <| t_time_at_mcs := time |> <| t_predictive ::= Z.add (one pred) |> <| t_reactive ::= Z.add (one emerg) |>
        <| t_gated ::= Z.add (one (truthy (get_ "predict_gated" r))) |> <| t_prior_learn ::= Z.add (one (truthy (get_ "prior_learn" r))) |>
        <| t_promote_suppressed ::= Z.add (one (truthy (get_ "promote_suppressed" r))) |> <| t_max_flap_level := flap |>
        <| t_last_knees ::= (fun k => match get_ "snr_knees" r with JNull => k | v => v end) |>
        <| t_fail_class_counts := fails |> <| t_promote_route_counts := routes |> <| t_fast_demotes ::= Z.add (one fast) |>
        <| t_tap_active_ticks ::= Z.add (one (truthy (get_ "tap_active" r))) |>).

(** The series. *)
Definition add_series r t : res totals :=
  let* mcss := appended (get_ "mcs" r) (t_mcss t) in
  let* snrs := appended (get_ "snr" r) (t_snrs t) in
  let* ewmas := appended (get_ "snr_ewma" r) (t_snr_ewmas t) in
  let* evms := appended (get_ "evm" r) (t_evms t) in
  let* lats := appended (get_ "loss_latency_ms" r) (t_loss_latencies t) in
  let* min_evm := match get_ "evm_min" r with
                  | JNull => Ok (t_min_evm t)
                  | v => let* x := as_num v in Ok (Some (match t_min_evm t with Some m => fmin m x | None => x end))
                  end in
  Ok (t <| t_mcss := mcss |> <| t_snrs := snrs |> <| t_snr_ewmas := ewmas |> <| t_evms := evms |> <| t_loss_latencies := lats |>
        <| t_min_evm := min_evm |>).

(** The fades: from the rung before the fade until the rung is back. *)
Definition fade_begins r t : res (option (F * F)) :=
  if json_eqb (get_ "fail_class" r) (JStr "fade") && negb (is_some (t_fade_from t)) && negb (is_none (t_prev_mcs t)) then
    match dict_get "ts" r with
    | None => Err (KeyError "ts")
    | Some ts => let* x := as_num ts in let* m := as_num (t_prev_mcs t) in Ok (Some (x, m))
    end
  else Ok (t_fade_from t).

Definition add_fades r t : res totals :=
  let* from := fade_begins r t in
  let done := t <| t_fade_from := from |> <| t_prev_mcs := get_ "mcs" r |> in
  match from, get_ "mcs" r with
  | Some (ts0, m0), JNull => Ok done
  | Some (ts0, m0), mcs =>
      let* m := as_num mcs in
      if m0 <=f m then
        match dict_get "ts" r with
        | None => Err (KeyError "ts")
        | Some ts => let* x := as_num ts in Ok (done <| t_fade_recovery ::= (fun l => l ++ [x -f ts0]) |> <| t_fade_from := None |>)
        end
      else Ok done
  | None, _ => Ok done
  end.

Definition add_record (rec : json F) t : res totals :=
  match rec with
  | JDict r => let* t1 := add_counts r t in let* t2 := add_series r t1 in add_fades r t2
  | _ => Err AttributeError
  end.

Fixpoint add_records (recs : list (json F)) t : res totals :=
  match recs with [] => Ok t | rec :: recs => let* t' := add_record rec t in add_records recs t' end.

(** ** The summary *)

Definition mean (l : list F) : option F := match l with [] => None | l => Some (fsum l /f fofZ (Z.of_nat (length l))) end.

Fixpoint insert_sorted (x : F) (l : list F) : list F :=
  match l with [] => [x] | y :: l' => if x <f y then x :: l else y :: insert_sorted x l' end.
Definition sorted_floats (l : list F) : list F := fold_left (fun acc x => insert_sorted x acc) l [].

(** [statistics.median], and [max]. *)
Definition median (l : list F) : option F :=
  let s := sorted_floats l in
  let n := length s in
  if Nat.odd n then s !! Nat.div2 n
  else a ← s !! (Nat.div2 n - 1)%nat; b ← s !! Nat.div2 n; Some ((a +f b) /f fofZ 2).
Definition largest (l : list F) : option F := match l with [] => None | x :: l => Some (fmax_list x l) end.

Record summary := mkSummary {
  s_records : Z; s_totals : totals; s_mean_mcs : option F; s_mean_snr : option F; s_mean_snr_ewma : option F; s_mean_evm : option F;
  s_fade_p50 : option F; s_fade_max : option F; s_latency_p50 : option F; s_latency_max : option F }.

Definition summarize (lines : list string) : res summary :=
  let recs := _records lines in
  let* t := add_records recs totals_new in
  Ok (mkSummary (Z.of_nat (length recs)) t (mean (t_mcss t)) (mean (t_snrs t)) (mean (t_snr_ewmas t)) (mean (t_evms t))
        (median (t_fade_recovery t)) (largest (t_fade_recovery t)) (median (t_loss_latencies t)) (largest (t_loss_latencies t))).

(** ** The plot *)

Definition column (k : string) (dflt : json F) (recs : list (json F)) : res (list (json F)) := map_res (obj_get k dflt) recs.

(** [_plot]: the time axis, and each curve with its axis and label, which
    matplotlib draws; the fourth axis shows the probe when some record has
    one. *)
Definition _plot (repr : json F -> string) (lines : list string) : res (list (json F) * list (Z * string * list (json F))) :=
  let recs := _records lines in
  let* ts := column "ts" JNull recs in
  let* ewma := column "snr_ewma" JNull recs in
  let* snr := column "snr" JNull recs in
  let* rssi := column "rssi" JNull recs in
  let* rssi_raw := column "rssi_raw" JNull recs in
  let* mcs := column "mcs" JNull recs in
  let* flap := column "flap_level" (JInt 0) recs in
  let* probes := column "probe" JNull recs in
  let* fourth :=
    if existsb (fun v => negb (is_none v)) probes
    then let* per := map_res (probe_target_per repr) recs in Ok [(3, "probe per (mcs+1)", per)]
    else let* tgt := column "snapback_tgt" JNull recs in
         let* trial := column "trial" JNull recs in Ok [(3, "snapback_tgt", tgt); (3, "trial", trial)] in
  Ok (ts, [(0, "snr_ewma", ewma); (0, "snr_raw", snr); (1, "rssi", rssi); (1, "rssi_raw", rssi_raw); (2, "mcs", mcs); (2, "flap_level", flap)] ++ fourth).

(** Every curve has a point for every record. *)
Lemma plot_points repr lines ts curves : _plot repr lines = Ok (ts, curves) -> Forall (fun c => length c.2 = length ts) curves.
Proof.
  unfold _plot, column. intros H. apply rbind_ok in H as (t & Ht%map_res_length & H). do 7 (apply rbind_ok in H as (? & ?%map_res_length & H)).
  apply rbind_ok in H as (fourth & Hf & [= <- <-]). do 6 (constructor; [cbn; congruence|]).
  destruct (existsb _ _).
  - apply rbind_ok in Hf as (per & Hp%map_res_length & [= <-]). repeat constructor; cbn; congruence.
  - apply rbind_ok in Hf as (tgt & E1%map_res_length & (trial & E2%map_res_length & [= <-])%rbind_ok). repeat constructor; cbn; congruence.
Qed.
End Analyze.

(* ------------------------------------------------------------------ *)
(** ** The policy's entries as records *)

Section Entries.
Context {F : Type} {PF : PyFloat F} (fmt3 : F -> string).

Definition class_text (k : fail_class) : string := match k with Fade => "fade" | Flap => "flap" | Burst => "burst" end.

(** The f-strings of the policy. *)
Definition reason_text (r : reason F) : string :=
  match r with
  | R_video_per_demote loss k => "video_per_demote loss=" +:+ fmt3 loss +:+ " class=" +:+ class_text k
  | R_emergency fec starved => "emergency fec=" +:+ fmt3 fec +:+ " starved=" +:+ (if starved then "True" else "False")
  | R_snapback_promote tgt => "snapback_promote tgt=" +:+ str_int tgt
  | R_knee_promote => "knee_promote"
  | R_explore_promote => "explore_promote"
  | R_predict_demote cur tgt => "predict_demote mcs" +:+ str_int cur +:+ "->" +:+ str_int tgt
  | R_snr_demote cur tgt => "snr_demote mcs" +:+ str_int cur +:+ "->" +:+ str_int tgt
  | R_fast => " _fast"
  end.

Definition is_fast (r : reason F) : bool := match r with R_fast => true | _ => false end.

(** ["; ".join(...)], and [" _fast"] after it. *)
Definition reasons_text (why : list (reason F)) : string :=
  join "; " (map reason_text (List.filter (fun r => negb (is_fast r)) why)) +:+ (if existsb is_fast why then " _fast" else "").

Definition jopt (v : option F) : json F := match v with Some x => JFloat x | None => JNull end.
Definition jopt_int (v : option Z) : json F := match v with Some z => JInt z | None => JNull end.
Definition release_text (v : release) : string := match v with RelTimer => "timer" | RelRawMin => "raw_min" | RelProbe => "probe" end.
Definition jclass (k : option fail_class) : json F := match k with Some k => JStr (class_text k) | None => JNull end.

Definition tick_json (e : TickEntry F) : json F := JDict
  [("ts", JFloat (te_ts _ e)); ("rssi", jopt (te_rssi _ e)); ("rssi_raw", jopt (te_rssi_raw _ e)); ("snr", jopt (te_snr _ e));
   ("snr_ewma", jopt (te_snr_ewma _ e)); ("promote_blocked", JBool (te_promote_blocked _ e));
   ("promote_suppressed", JBool (te_promote_suppressed _ e)); ("flap_level", JInt (te_flap_level _ e));
   ("snr_knees", JList (map jopt (te_snr_knees _ e))); ("evm", jopt (te_evm _ e)); ("evm_lo", jopt (te_evm_lo _ e));
   ("evm_min", jopt (te_evm_min _ e)); ("mcs", JInt (te_mcs _ e)); ("width", JInt (te_width _ e));
   ("reason", JStr (reasons_text (te_reason _ e))); ("residual_loss_w", JFloat (te_residual_loss_w _ e));
   ("fec_work", JFloat (te_fec_work _ e)); ("link_starved", JBool (te_link_starved _ e)); ("fail_class", jclass (te_fail_class _ e));
   ("trial", jopt_int (te_trial _ e)); ("snapback_tgt", jopt_int (te_snapback_tgt _ e)); ("clean_dwell", JInt (te_clean_dwell _ e));
   ("prior_learn", JBool (te_prior_learn _ e)); ("slope", jopt (te_slope _ e)); ("predict_gated", JBool (te_predict_gated _ e));
   ("tap_active", JBool (te_tap_active _ e));
   ("damper_release", match te_damper_release _ e with Some v => JStr (release_text v) | None => JNull end);
   ("probe_per", jopt (te_probe_per _ e)); ("probe_fresh", JBool (te_probe_fresh _ e)); ("probe_veto", JBool (te_probe_veto _ e))].

Definition fast_json (e : FastEntry F) : json F := JDict
  [("ts", JFloat (fe_ts _ e)); ("snr", jopt (fe_snr _ e)); ("snr_ewma", jopt (fe_snr_ewma _ e)); ("mcs", JInt (fe_mcs _ e));
   ("width", JInt (fe_width _ e)); ("reason", JStr (reasons_text (fe_reason _ e))); ("residual_loss_w", JFloat (fe_residual_loss_w _ e));
   ("fail_class", jclass (fe_fail_class _ e)); ("fast_path", JBool (fe_fast_path _ e)); ("loss_latency_ms", jopt (fe_loss_latency_ms _ e));
   ("tap_active", JBool (fe_tap_active _ e))].

Definition entry_json (e : flight_entry F) : json F := match e with Tick_entry e => tick_json e | Fast_entry e => fast_json e end.
End Entries.

(* ------------------------------------------------------------------ *)
(** ** Words in a reason *)

Section Words.
Definition in_key (key : string) (c : ascii) : bool := negb (all_chars (fun d => negb (bool_decide (d = c))) key).

Lemma prefix_gap key s c t : in_key key c = false -> key <> EmptyString -> String.prefix key (s +:+ String c t) = String.prefix key s.
Proof.
  revert s. induction key as [|k key IH]; intros s Hc Hne; [done|]. unfold in_key in Hc. cbn in Hc. apply negb_false_iff, andb_true_iff in Hc as [Hk Hc].
  apply negb_true_iff, bool_decide_eq_false in Hk. destruct s as [|a s].
  - rewrite sapp_nil_l. cbn. by destruct (ascii_dec k c).
  - rewrite sapp_cons. cbn. destruct (ascii_dec k a); [|done]. destruct key as [|k' key]; [by destruct (s +:+ String c t), s|].
    apply IH; [|done]. unfold in_key. by rewrite Hc.
Qed.

(** A character the key has not splits the search. *)
Lemma contains_split key s c t : in_key key c = false -> key <> EmptyString -> contains key (s +:+ String c t) = contains key s || contains key t.
Proof.
  intros Hc Hne. induction s as [|a s IH].
  - rewrite sapp_nil_l. cbn [contains]. assert (H := prefix_gap key EmptyString c t Hc Hne). rewrite sapp_nil_l in H. rewrite H. by destruct key.
  - rewrite sapp_cons. cbn [contains]. rewrite <- sapp_cons, (prefix_gap key (String a s) c t Hc Hne), IH. by rewrite orb_assoc.
Qed.

Lemma contains_gap key s w t :
  all_chars (fun c => negb (in_key key c)) w = true -> w <> EmptyString -> key <> EmptyString ->
  contains key (s +:+ w +:+ t) = contains key s || contains key t.
Proof.
  intros Hw Hne Hk. revert s. induction w as [|c w IH]; intros s; [done|]. cbn in Hw. apply andb_true_iff in Hw as [Hc Hw]. apply negb_true_iff in Hc.
  rewrite sapp_cons, contains_split by done. destruct w as [|d w]; [done|]. rewrite <- (sapp_nil_l (String d w +:+ t)), (IH Hw ltac:(done) EmptyString).
  by destruct key.
Qed.

(** Without the key's first character there is no key. *)
Lemma contains_alien k key s : all_chars (fun c => negb (bool_decide (c = k))) s = true -> contains (String k key) s = false.
Proof.
  induction s as [|a s IH]; intros H; [done|]. cbn in H. apply andb_true_iff in H as [Ha H]. apply negb_true_iff, bool_decide_eq_false in Ha.
  cbn. destruct (ascii_dec k a); [by subst|]. by apply IH.
Qed.

Lemma contains_join key l : in_key key " " = false -> in_key key ";" = false -> key <> EmptyString -> contains key (join "; " l) = existsb (contains key) l.
Proof.
  intros H1 H2 Hk. induction l as [|s l IH]; [by destruct key|]. destruct l as [|s' l]; [cbn; by rewrite orb_false_r|].
  rewrite join_cons, contains_gap; [|cbn; by rewrite H1, H2|done|done]. by rewrite IH.
Qed.
End Words.

(** [format(x, ".3f")]: digits, point, sign, and the letters of nan and inf. *)
Definition fixed_char (c : ascii) : bool := is_digit c || bool_decide (c ∈ ["."%char; "-"%char; "n"%char; "a"%char; "i"%char; "f"%char]).
Class FixedFormat {F} (fmt3 : F -> string) : Prop := fixed_chars : forall x, all_chars fixed_char (fmt3 x) = true.

Section Reasons.
Context {F : Type} {PF : PyFloat F} (fmt3 : F -> string) {FF : FixedFormat fmt3}.

(** The words [summarize] looks for. *)
Definition keys : list string :=
  ["predict_demote"; "video_per_demote"; "emergency"; "snapback_promote"; "knee_promote"; "explore_promote"; "_fast"].

Ltac each_key Hk tac :=
  unfold keys in Hk; repeat (apply elem_of_cons in Hk as [->|Hk]; [tac|]); by apply not_elem_of_nil in Hk.

(** The one a reason is named by. *)
Definition key_of (r : reason F) : string :=
  match r with
  | R_video_per_demote _ _ => "video_per_demote" | R_emergency _ _ => "emergency" | R_snapback_promote _ => "snapback_promote"
  | R_knee_promote => "knee_promote" | R_explore_promote => "explore_promote" | R_predict_demote _ _ => "predict_demote"
  | R_snr_demote _ _ => "snr_demote" | R_fast => "_fast"
  end.

Lemma fixed_free key x : key ∈ keys -> contains key (fmt3 x) = false.
Proof.
  intros Hk. assert (Hf := fixed_chars x). assert (H : forall k, fixed_char k = false -> all_chars (fun c => negb (bool_decide (c = k))) (fmt3 x) = true).
  { intros k Hn. revert Hf. apply all_chars_mono. intros c Hc. apply negb_true_iff, bool_decide_eq_false. intros ->. congruence. }
  each_key Hk ltac:(by apply contains_alien, H).
Qed.

Definition wordy (c : ascii) : bool := ((97 <=? code c) && (code c <=? 122)) || (code c =? 95).

Lemma not_in_key key c : all_chars wordy key = true -> wordy c = false -> in_key key c = false.
Proof.
  intros Hk Hc. unfold in_key. apply negb_false_iff. revert Hk. apply all_chars_mono. intros d Hd. apply negb_true_iff, bool_decide_eq_false.
  intros ->. congruence.
Qed.

Lemma keys_wordy key : key ∈ keys -> all_chars wordy key = true /\ key <> EmptyString.
Proof. intros Hk. each_key Hk ltac:(done). Qed.

(** Text without letters or underscores. *)
Lemma neutral key w : key ∈ keys -> all_chars (fun c => negb (wordy c)) w = true -> all_chars (fun c => negb (in_key key c)) w = true.
Proof.
  intros [Hk _]%keys_wordy. apply all_chars_mono. intros c Hc. apply negb_true_iff in Hc. apply negb_true_iff. by apply not_in_key.
Qed.

Lemma int_neutral z : all_chars (fun c => negb (wordy c)) (str_int z) = true.
Proof.
  assert (H : forall n, 0 <= n -> all_chars (fun c => negb (wordy c)) (str_nat n) = true).
  { intros n Hn. assert (Hd := str_nat_digits n Hn). revert Hd. apply all_chars_mono. intros c. unfold is_digit, wordy. lia. }
  unfold str_int. destruct (Z.ltb_spec z 0); [|apply H; lia]. sapp. cbn [all_chars]. by rewrite H by lia.
Qed.

Lemma int_nonempty z : str_int z <> EmptyString.
Proof. intros E. assert (H := str_int_len z). rewrite E in H. cbn in H. lia. Qed.

(** What stands before and after text without letters. *)
Lemma around key s w t :
  key ∈ keys -> all_chars (fun c => negb (wordy c)) w = true -> w <> EmptyString -> contains key (s +:+ w +:+ t) = contains key s || contains key t.
Proof. intros Hk Hw Hne. apply contains_gap; [by apply neutral|done|by apply keys_wordy in Hk as [_ ?]]. Qed.

Lemma reason_found key r : key ∈ keys -> contains key (reason_text fmt3 r) = String.eqb key (key_of r).
Proof.
  intros Hk.
  assert (Hfix : forall a x b, contains key (a +:+ "=" +:+ fmt3 x +:+ " " +:+ b) = contains key a || contains key b).
  { intros a x b. rewrite (around key a "=" _ Hk) by done. rewrite (around key (fmt3 x) " " b Hk) by done. by rewrite fixed_free by done. }
  assert (Hint : forall a z, contains key (a +:+ str_int z) = contains key a).
  { intros a z. rewrite <- (sapp_nil_r (str_int z)), (around key a (str_int z) "" Hk (int_neutral z) (int_nonempty z)).
    destruct (keys_wordy key Hk) as [_ Hne]. destruct key; [done|]. by rewrite orb_false_r. }
  assert (Harrow : forall a y z, contains key (a +:+ str_int y +:+ "->" +:+ str_int z) = contains key a).
  { intros a y z. rewrite (around key a (str_int y) _ Hk (int_neutral y) (int_nonempty y)). rewrite <- (sapp_nil_l ("->" +:+ str_int z)).
    rewrite (around key "" "->" _ Hk) by done. rewrite <- (sapp_nil_l (str_int z)) at 1. rewrite Hint. destruct (keys_wordy key Hk) as [_ Hne].
    destruct key; [done|]. by rewrite !orb_false_r. }
  destruct r as [x k|x b|z| | |y z|y z|]; cbn [reason_text key_of].
  - change ("video_per_demote loss=" +:+ fmt3 x +:+ " class=" +:+ class_text k) with ("video_per_demote loss" +:+ "=" +:+ fmt3 x +:+ " " +:+ ("class=" +:+ class_text k)).
    rewrite Hfix. each_key Hk ltac:(by destruct k).
  - change ("emergency fec=" +:+ fmt3 x +:+ " starved=" +:+ (if b then "True" else "False")) with ("emergency fec" +:+ "=" +:+ fmt3 x +:+ " " +:+ ("starved=" +:+ (if b then "True" else "False"))).
    rewrite Hfix. each_key Hk ltac:(by destruct b).
  - rewrite Hint. each_key Hk ltac:(done).
  - each_key Hk ltac:(done).
  - each_key Hk ltac:(done).
  - rewrite Harrow. each_key Hk ltac:(done).
  - rewrite Harrow. each_key Hk ltac:(done).
  - each_key Hk ltac:(done).
Qed.

Lemma reasons_found key why : key ∈ keys -> contains key (reasons_text fmt3 why) = existsb (fun r => String.eqb key (key_of r)) why.
Proof.
  intros Hk. unfold reasons_text. set (calm := List.filter (fun r => negb (is_fast r)) why).
  assert (Hj : contains key (join "; " (map (reason_text fmt3) calm)) = existsb (fun r => String.eqb key (key_of r)) calm).
  { destruct (keys_wordy key Hk) as [Hw Hne]. rewrite contains_join; [|by apply not_in_key|by apply not_in_key|done]. induction calm as [|r l IH]; [done|]. cbn. by rewrite IH, reason_found. }
  assert (Hf : contains key (join "; " (map (reason_text fmt3) calm) +:+ (if existsb is_fast why then " _fast" else "")) =
               existsb (fun r => String.eqb key (key_of r)) calm || (existsb is_fast why && String.eqb key "_fast")).
  { destruct (existsb is_fast why); [|rewrite sapp_nil_r, Hj; by rewrite orb_false_r].
    change " _fast" with (" " +:+ "_fast"). rewrite (around key _ " " _ Hk), Hj by done. f_equal. each_key Hk ltac:(done). }
  rewrite Hf. unfold calm. clear. induction why as [|r why IH]; [done|]. cbn. destruct r; cbn in *; rewrite <- ?IH; cbn;
    try (by rewrite orb_assoc). by destruct (String.eqb key "_fast"), (existsb is_fast why), (existsb _ (List.filter _ why)).
Qed.
End Reasons.

(* ------------------------------------------------------------------ *)
(** ** The summary of a flight *)

Section Flight.
Context {F : Type} {PF : PyFloat F} (fmt3 : F -> string) {FF : FixedFormat fmt3}.
Implicit Types (e : flight_entry F) (t : totals (F := F)).

Definition entry_mcs e : Z := match e with Tick_entry e => te_mcs _ e | Fast_entry e => fe_mcs _ e end.
Definition entry_why e : list (reason F) := match e with Tick_entry e => te_reason _ e | Fast_entry e => fe_reason _ e end.
Definition entry_tap e : bool := match e with Tick_entry e => te_tap_active _ e | Fast_entry e => fe_tap_active _ e end.
Definition named (key : string) e : bool := existsb (fun r => String.eqb key (key_of r)) (entry_why e).
Definition entry_latency e : option F := match e with Tick_entry _ => None | Fast_entry e => fe_loss_latency_ms _ e end.

Definition how_many {A} (p : A -> bool) (l : list A) : Z := Z.of_nat (length (List.filter p l)).

Fixpoint tally_get (k : json F) (d : list (json F * Z)) : Z :=
  match d with [] => 0 | (k', n) :: d' => if scalar_eqb k k' then n else tally_get k d' end.

Lemma tally_get_same k d : scalar_eqb k k = true -> tally_get k (tally k d) = tally_get k d + 1.
Proof. intros Hk. induction d as [|[k' n] d IH]; cbn; [by rewrite Hk|]. destruct (scalar_eqb k k') eqn:E; cbn; rewrite E; [lia|done]. Qed.

(** Keys of one kind. *)
Definition int_keys (d : list (json F * Z)) : Prop := Forall (fun kn => exists m, kn.1 = JInt m) d.

Lemma tally_ints m d : int_keys d -> int_keys (tally (JInt m) d).
Proof.
  induction 1 as [|[k n] d [m' Hm] Hd IH]; [repeat constructor; by eexists|]. cbn in Hm. subst k. cbn. destruct (m =? m'); constructor; try done; by eexists.
Qed.

Lemma tally_get_int m m' d : int_keys d -> tally_get (JInt m) (tally (JInt m') d) = tally_get (JInt m) d + one (m' =? m).
Proof.
  induction 1 as [|[k n] d [a Ha] Hd IH]; cbn.
  - rewrite Z.eqb_sym. destruct (Z.eqb_spec m' m); [done|]. done.
  - cbn in Ha. subst k. cbn. destruct (Z.eqb_spec m' a) as [->|Hne]; cbn; destruct (Z.eqb_spec m a) as [->|Hne']; cbn; unfold one;
      try rewrite Z.eqb_refl; try lia; try (destruct (Z.eqb_spec a m); [congruence|lia]); try (destruct (Z.eqb_spec m' a); [congruence|lia]). exact IH.
Qed.

Definition olist (o : option F) : list F := match o with Some x => [x] | None => [] end.
Lemma appended_jopt o l : appended (jopt o) l = Ok (l ++ olist o).
Proof. destruct o; cbn; [done|by rewrite app_nil_r]. Qed.

(** The fields of an entry's record that [summarize] reads. *)
Record view e (r : list (string * json F)) : Prop := {
  v_mcs : get_ "mcs" r = JInt (entry_mcs e);
  v_why : get_ "reason" r = JStr (reasons_text fmt3 (entry_why e));
  v_tap : get_ "tap_active" r = JBool (entry_tap e);
  v_latency : get_ "loss_latency_ms" r = jopt (entry_latency e);
  v_flap : get_ "flap_level" r = JNull \/ exists z, get_ "flap_level" r = JInt z;
  v_class : exists k, get_ "fail_class" r = jclass k;
  v_opts : Forall (fun k => exists o, get_ k r = jopt o) ["snr"; "snr_ewma"; "evm"; "evm_min"];
  v_ts : exists ts, dict_get "ts" r = Some (JFloat ts) }.

Lemma entry_view e : exists r, entry_json fmt3 e = JDict r /\ view e r.
Proof.
  destruct e as [e|e]; cbn [entry_json]; eexists; (split; [reflexivity|]); split; try reflexivity; try by eexists.
  - right. by eexists.
  - repeat constructor; by eexists.
  - by left.
  - repeat constructor; [by eexists|by eexists|by exists None|by exists None].
Qed.

Definition flight_ok t : Prop := int_keys (t_time_at_mcs t) /\ (t_prev_mcs t = JNull \/ exists m, t_prev_mcs t = JInt m).

(** What [add_counts] makes of an entry. *)
Lemma counts_entry e r t :
  view e r -> flight_ok t -> exists t', add_counts r t = Ok t' /\ flight_ok t' /\
    (forall m, tally_get (JInt m) (t_time_at_mcs t') = tally_get (JInt m) (t_time_at_mcs t) + one (entry_mcs e =? m)) /\
    t_predictive t' = t_predictive t + one (named "predict_demote" e) /\
    t_reactive t' = t_reactive t + one (named "video_per_demote" e || named "emergency" e) /\
    t_fast_demotes t' = t_fast_demotes t + one (named "_fast" e) /\
    t_tap_active_ticks t' = t_tap_active_ticks t + one (entry_tap e) /\
    t_mcss t' = t_mcss t /\ t_loss_latencies t' = t_loss_latencies t.
Proof.
  intros V [Hi Hp]. unfold add_counts. rewrite (v_mcs _ _ V).
  assert (Hw : reason_of r = JStr (reasons_text fmt3 (entry_why e))).
  { unfold reason_of. rewrite (v_why _ _ V). cbn. by destruct (String.eqb_spec (reasons_text fmt3 (entry_why e)) "") as [->|]. }
  assert (Hin : forall key, key ∈ keys -> py_in key (reason_of r) = Ok (named key e)).
  { intros key Hk. rewrite Hw. cbn. by rewrite reasons_found. }
  assert (Hfl : exists fl, match get_ "flap_level" r with JNull => Ok (t_max_flap_level t) | v => let* x := as_num v in Ok (fmax (t_max_flap_level t) x) end = Ok fl).
  { destruct (v_flap _ _ V) as [->|[z ->]]; by eexists. }
  assert (Hfc : exists fails, (if truthy (get_ "fail_class" r) then count (get_ "fail_class" r) (t_fail_class_counts t) else Ok (t_fail_class_counts t)) = Ok fails).
  { destruct (v_class _ _ V) as [[[]|] ->]; by eexists. }
  destruct Hfl as [fl Hfl], Hfc as [fails Hfc]. change (count (JInt (entry_mcs e)) (t_time_at_mcs t)) with (Ok (tally (JInt (entry_mcs e)) (t_time_at_mcs t))).
  cbn [rbind]. do 2 (rewrite Hin by (unfold keys; set_solver); cbn [rbind]).
  assert (He : (if named "video_per_demote" e then Ok true else py_in "emergency" (reason_of r)) = Ok (named "video_per_demote" e || named "emergency" e)).
  { rewrite Hin by (unfold keys; set_solver). by destruct (named "video_per_demote" e). }
  rewrite He. cbn [rbind]. rewrite Hin by (unfold keys; set_solver). cbn [rbind]. rewrite Hfl. cbn [rbind]. rewrite Hfc. cbn [rbind].
  do 3 (rewrite Hin by (unfold keys; set_solver); cbn [rbind]). rewrite (v_tap _ _ V). eexists. split; [reflexivity|].
  split; [split; [by apply tally_ints|done]|]. cbn. split_and!; try lia; try done. intros m. by apply tally_get_int.
Qed.

Lemma series_entry e r t :
  view e r -> flight_ok t -> exists t', add_series r t = Ok t' /\ flight_ok t' /\ t_time_at_mcs t' = t_time_at_mcs t /\
    (t_predictive t', t_reactive t', t_fast_demotes t', t_tap_active_ticks t') = (t_predictive t, t_reactive t, t_fast_demotes t, t_tap_active_ticks t) /\
    t_mcss t' = t_mcss t ++ [fofZ (entry_mcs e)] /\ t_loss_latencies t' = t_loss_latencies t ++ olist (entry_latency e).
Proof.
  intros V Hok. unfold add_series. rewrite (v_mcs _ _ V), (v_latency _ _ V).
  destruct (proj1 (Forall_cons _ _ _) (v_opts _ _ V)) as [[o1 H1] V1]. destruct (proj1 (Forall_cons _ _ _) V1) as [[o2 H2] V2].
  destruct (proj1 (Forall_cons _ _ _) V2) as [[o3 H3] V3]. destruct (proj1 (Forall_cons _ _ _) V3) as [[o4 H4] _].
  rewrite H1, H2, H3, H4, !appended_jopt. cbn -[jopt]. destruct o4; eexists; (split; [reflexivity|]); (split; [exact Hok|]); done.
Qed.

Lemma fades_entry e r t :
  view e r -> flight_ok t -> exists t', add_fades r t = Ok t' /\ flight_ok t' /\ t_time_at_mcs t' = t_time_at_mcs t /\
    (t_predictive t', t_reactive t', t_fast_demotes t', t_tap_active_ticks t') = (t_predictive t, t_reactive t, t_fast_demotes t, t_tap_active_ticks t) /\
    t_mcss t' = t_mcss t /\ t_loss_latencies t' = t_loss_latencies t.
Proof.
  intros V [Hi Hp]. unfold add_fades. rewrite (v_mcs _ _ V). destruct (v_ts _ _ V) as [ts Hts].
  assert (Hf : exists from, fade_begins r t = Ok from).
  { unfold fade_begins. rewrite Hts. destruct (json_eqb _ _ && _); [|by eexists]. destruct Hp as [->|[m ->]]; cbn; by eexists. }
  destruct Hf as [from Hf]. rewrite Hf, Hts. cbn [rbind]. destruct from as [[ts0 m0]|]; cbn [as_num is_num num_val rbind].
  - destruct (m0 <=f fofZ (entry_mcs e)); eexists; (split; [reflexivity|]); (split; [split; [done|right; by eexists]|done]).
  - eexists. split; [reflexivity|]. split; [split; [done|right; by eexists]|done].
Qed.

Lemma how_many_cons {A} (p : A -> bool) x l : how_many p (x :: l) = one (p x) + how_many p l.
Proof. unfold how_many, one. cbn. destruct (p x); cbn; lia. Qed.

(** The summary of the records a policy's entries make never raises:
    every entry is counted at its rung, predictive, reactive and fast demotes
    are the entries with such a reason, whatever numbers stand in its text,
    and the rungs and latencies are those of the entries in order. *)
Theorem flight_summary (es : list (flight_entry F)) :
  exists t, add_records (map (entry_json fmt3) es) totals_new = Ok t /\
    (forall m, tally_get (JInt m) (t_time_at_mcs t) = how_many (fun e => entry_mcs e =? m) es) /\
    t_predictive t = how_many (named "predict_demote") es /\
    t_reactive t = how_many (fun e => named "video_per_demote" e || named "emergency" e) es /\
    t_fast_demotes t = how_many (named "_fast") es /\ t_tap_active_ticks t = how_many entry_tap es /\
    t_mcss t = map (fun e => fofZ (entry_mcs e)) es /\ t_loss_latencies t = omap entry_latency es.
Proof.
  assert (H : forall t, flight_ok t -> exists t', add_records (map (entry_json fmt3) es) t = Ok t' /\
    (forall m, tally_get (JInt m) (t_time_at_mcs t') = tally_get (JInt m) (t_time_at_mcs t) + how_many (fun e => entry_mcs e =? m) es) /\
    t_predictive t' = t_predictive t + how_many (named "predict_demote") es /\
    t_reactive t' = t_reactive t + how_many (fun e => named "video_per_demote" e || named "emergency" e) es /\
    t_fast_demotes t' = t_fast_demotes t + how_many (named "_fast") es /\ t_tap_active_ticks t' = t_tap_active_ticks t + how_many entry_tap es /\
    t_mcss t' = t_mcss t ++ map (fun e => fofZ (entry_mcs e)) es /\ t_loss_latencies t' = t_loss_latencies t ++ omap entry_latency es).
  { induction es as [|e es IH]; intros t Hok.
    - exists t. split; [done|]. rewrite !app_nil_r. unfold how_many. cbn. split_and!; first [done|lia|intros m; lia].
    - destruct (entry_view e) as (r & Er & V). cbn [map add_records]. rewrite Er. cbn [add_record].
      destruct (counts_entry e r t V Hok) as (t1 & E1 & Hok1 & A1 & A2 & A3 & A4 & A5 & A6 & A7). rewrite E1. cbn [rbind].
      destruct (series_entry e r t1 V Hok1) as (t2 & E2 & Hok2 & B1 & [= B2 B3 B4 B5] & B6 & B7). rewrite E2. cbn [rbind].
      destruct (fades_entry e r t2 V Hok2) as (t3 & E3 & Hok3 & C1 & [= C2 C3 C4 C5] & C6 & C7). rewrite E3. cbn [rbind].
      destruct (IH t3 Hok3) as (t' & E' & D1 & D2 & D3 & D4 & D5 & D6 & D7). exists t'. split; [done|]. rewrite !how_many_cons.
      split_and!; try lia.
      + intros m. rewrite how_many_cons, D1, C1, B1, A1. lia.
      + rewrite D6, C6, B6, A6, <- app_assoc. done.
      + rewrite D7, C7, B7, A7, <- app_assoc. f_equal. cbn. by destruct (entry_latency e). }
  destruct (H totals_new) as (t & E & H1 & H2 & H3 & H4 & H5 & H6 & H7); [split; [constructor|by left]|]. exists t. split_and!; done.
Qed.
End Flight.
