(* ===== verification/CrashBudget.v ===== *)
(** * The crash-loop budget shared by the supervisors

    [runner_supervisor.py] (the display process) and [wfb/children.py] (the
    radio processes) both keep the times of recent crashes, drop those older
    than [restart_window], append the new one and give up when more than
    [max_restarts] remain.  The incremental list is the sliding window of the
    whole crash history. *)
From Stdlib Require Import ZArith Lia Bool QArith Lqa.
From stdpp Require Import base tactics list.
From S2P Require Import Prelude FloatModels.

Section Budget.
Context {F : Type} {PF : PyFloat F}.

Definition in_window (window now t : F) : bool := (now -f t) <f window.

(** [recent = [t for t in recent if now - t < window]; recent.append(now)]. *)
Definition charge (window now : F) (recent : list F) : list F :=
  List.filter (in_window window now) recent ++ [now].

(** The list after a history of crashes. *)
Definition charged (window : F) (crashes : list F) : list F :=
  fold_left (fun recent now => charge window now recent) crashes [].

Lemma charged_snoc window crashes now :
  charged window (crashes ++ [now]) = charge window now (charged window crashes).
Proof. unfold charged. by rewrite fold_left_app. Qed.

(** Crashes of the history that fall in the window ending at [now]. *)
Definition crashes_in (window now : F) (crashes : list F) : Z :=
  Z.of_nat (length (List.filter (in_window window now) crashes)).
End Budget.
Arguments in_window : simpl never.

(** ** The window over exact time *)

Open Scope Q_scope.

Definition clock_order (l : list Q) : Prop :=
  forall i j a b, l !! i = Some a -> l !! j = Some b -> (i <= j)%nat -> a <= b.

Lemma clock_order_app_l l1 l2 : clock_order (l1 ++ l2) -> clock_order l1.
Proof. intros H i j a b Ha Hb. apply (H i j); by apply lookup_app_l_Some. Qed.

Lemma clock_order_last l now : clock_order (l ++ [now]) -> Forall (fun t => t <= now) l.
Proof.
  intros H. apply Forall_lookup. intros i a Ha.
  apply (H i (length l) a now); [by apply lookup_app_l_Some|by apply list_lookup_middle|].
  apply lookup_lt_Some in Ha. lia.
Qed.

Lemma clock_order_nil : clock_order [].
Proof. intros i j a b Ha. by rewrite lookup_nil in Ha. Qed.

Lemma in_window_true (w now t : Q) : in_window w now t = true <-> now - t < w.
Proof.
  unfold in_window, fltb, fsub; simpl. rewrite negb_true_iff, <- not_true_iff_false, Qle_bool_iff, Qred_correct.
  split; intros; [apply Qnot_le_lt|apply Qlt_not_le]; done.
Qed.

(** A time that has left the window never comes back. *)
Lemma in_window_mono (w t1 t2 t : Q) : t1 <= t2 -> in_window w t2 t = true -> in_window w t1 t = true.
Proof. rewrite !in_window_true. lra. Qed.

Lemma filter_filter_window (w t1 t2 : Q) l :
  t1 <= t2 -> List.filter (in_window w t2) (List.filter (in_window w t1) l) = List.filter (in_window w t2) l.
Proof.
  intros Hle. induction l as [|x l IH]; [done|]. simpl.
  destruct (in_window w t1 x) eqn:E1; simpl; [by rewrite IH|].
  destruct (in_window w t2 x) eqn:E2; [|done].
  by rewrite (in_window_mono w t1 t2 x Hle E2) in E1.
Qed.

(** The incremental list is the window of the history. *)
Lemma charged_window (w : Q) crashes now :
  0 < w -> clock_order (crashes ++ [now]) ->
  charged w (crashes ++ [now]) = List.filter (in_window w now) (crashes ++ [now]).
Proof.
  intros Hw. revert now. induction crashes as [|c prev IH] using rev_ind; intros now Ho.
  - unfold charged, charge; simpl.
    assert (in_window w now now = true) as -> by (apply in_window_true; lra). done.
  - rewrite charged_snoc. unfold charge. rewrite IH by by eapply clock_order_app_l.
    rewrite filter_filter_window.
    + rewrite !List.filter_app. f_equal. simpl.
      assert (in_window w now now = true) as -> by (apply in_window_true; lra). done.
    + apply clock_order_last in Ho. rewrite Forall_app, Forall_singleton in Ho. apply Ho.
Qed.

Lemma charged_count (w : Q) crashes now :
  0 < w -> clock_order (crashes ++ [now]) ->
  Z.of_nat (length (charged w (crashes ++ [now]))) = crashes_in w now (crashes ++ [now]).
Proof. intros. unfold crashes_in. by rewrite charged_window. Qed.
