(* ===== verification/RunnerSupervisor.v ===== *)
(** * runner_supervisor.py: the supervised child process

    [ProcessSupervisor] keeps one child process alive: operator calls
    (start, stop, restart, shutdown) and the watcher thread's turns, each under
    the lock for its whole body, so a run is a sequence of atomic operations.
    What the operating system answers (opening the log, [Popen], [poll],
    [wait]) and the clock readings are arguments; spawned and reaped processes,
    signals and the watcher's verdicts are outputs.  A readiness wait that has
    not seen its deadline yet has no result ([None]). *)
From Stdlib Require Import ZArith Lia Bool String QArith Lqa.
From stdpp Require Import base tactics list strings.
From S2P Require Import Prelude FloatModels CrashBudget.
Open Scope Z_scope.

Record Popen := mkPopen { p_pid : Z; p_returncode : option Z }.

Record ProcessSupervisor (F : Type) := mkPS {
  _argv_list : list string; _extra_env : list (string * string);
  _ready_check : bool;              (* a check is configured *)
  ready_timeout : F; _ready_on_timeout : bool; log_path : option string;
  max_restarts : Z; restart_window : F;
  _proc : option Popen; _log_fh : bool;   (* the log is open *)
  _restarts : Z; _auto_restarts : Z; _last_exit : option Z; _fault : bool;
  _recent : list F; _supervise : bool;
  _watcher : bool;                  (* the thread is alive *)
  _stop_evt : bool }.
Arguments mkPS {F}.
Arguments _argv_list {F} _.
Arguments _extra_env {F} _.
Arguments _ready_check {F} _.
Arguments ready_timeout {F} _.
Arguments _ready_on_timeout {F} _.
Arguments log_path {F} _.
Arguments max_restarts {F} _.
Arguments restart_window {F} _.
Arguments _proc {F} _.
Arguments _log_fh {F} _.
Arguments _restarts {F} _.
Arguments _auto_restarts {F} _.
Arguments _last_exit {F} _.
Arguments _fault {F} _.
Arguments _recent {F} _.
Arguments _supervise {F} _.
Arguments _watcher {F} _.
Arguments _stop_evt {F} _.
#[export] Instance eta_ps F : Settable (ProcessSupervisor F) := fun s =>
  mkPS (_argv_list s) (_extra_env s) (_ready_check s) (ready_timeout s) (_ready_on_timeout s) (log_path s)
       (max_restarts s) (restart_window s) (_proc s) (_log_fh s) (_restarts s) (_auto_restarts s)
       (_last_exit s) (_fault s) (_recent s) (_supervise s) (_watcher s) (_stop_evt s).

(** Answers of the operating system: the errno, if any, of opening the log and
    of [Popen]; one turn of the readiness loop; the end of a killed process. *)
Record spawn_ans := mkSpawn { sa_open : option (option Z); sa_popen : option Z + Z }.
Record wait_turn (F : Type) := mkTurn { wt_now : F; wt_poll : option Z; wt_ready : bool }.
Arguments mkTurn {F}.
Arguments wt_now {F} _.
Arguments wt_poll {F} _.
Arguments wt_ready {F} _.
Record wait_ans (F : Type) := mkWait { wa_now : F; wa_turns : list (wait_turn F) }.
Arguments mkWait {F}.
Arguments wa_now {F} _.
Arguments wa_turns {F} _.
Record kill_ans := mkKill { ka_poll : option Z; ka_in_time : bool; ka_exit : Z }.

Inductive signal := SIGTERM | SIGKILL.
Inductive sup_out (F : Type) :=
| Started                                            (* an operator start begins *)
| Spawned (pid : Z) (argv : list string) (env : list (string * string))
| Signalled (sig : signal) (pid : Z)
| Exited (pid : Z) (rc : Z)                          (* its exit was collected *)
| Crashed (now : F)
| Respawn (now : F)                                  (* the watcher tries a respawn *)
| GaveUp (now : F).                                  (* the watcher faults *)
Arguments Started {F}.
Arguments Spawned {F} _ _ _.
Arguments Signalled {F} _ _.
Arguments Exited {F} _ _.
Arguments Crashed {F} _.
Arguments Respawn {F} _.
Arguments GaveUp {F} _.

Section Supervisor.
Context {F : Type} {PF : PyFloat F}.
Implicit Types s : ProcessSupervisor F.

Definition sup_init (argv : list string) (env : list (string * string)) (check : bool) (timeout : F)
    (on_timeout : bool) (log : option string) (maxr : Z) (window : F) : ProcessSupervisor F :=
  mkPS argv env check timeout on_timeout log maxr window None false 0 0 None false [] false false false.

Definition set_argv s (argv : list string) : ProcessSupervisor F := s <| _argv_list := argv |>.
Definition set_env s (env : list (string * string)) : ProcessSupervisor F := s <| _extra_env := env |>.

(** [Popen.poll]: the return code sticks once collected. *)
Definition poll (p : Popen) (ans : option Z) : option Z :=
  match p_returncode p with Some rc => Some rc | None => ans end.

Definition wants_log s : bool :=
  match log_path s with Some path => negb (String.eqb path "") | None => false end.

(** [_spawn]: the state, what was spawned, and the [errno] of the [OSError]
    that escapes, if one does.  Opening the log is outside the [try]. *)
Definition _spawn s (a : spawn_ans) : ProcessSupervisor F * list (sup_out F) * option (option Z) :=
  match (if wants_log s then sa_open a else None) with
  | Some errno => (s, [], Some errno)
  | None =>
      let s1 := s <| _log_fh := wants_log s |> in
      match sa_popen a with
      | inl errno => (s1 <| _log_fh := false |> <| _proc := None |>, [], Some errno)
      | inr pid => (s1 <| _proc := Some (mkPopen pid None) |>, [Spawned pid (_argv_list s) (_extra_env s)], None)
      end
  end.

(** The loop of [_wait_ready] from its next turn on. *)
Fixpoint wait_loop s (deadline : F) (p : Popen) (turns : list (wait_turn F)) : option (ProcessSupervisor F * bool) :=
  match turns with
  | [] => None
  | t :: rest =>
      if wt_now t <f deadline then
        match poll p (wt_poll t) with
        | Some rc => Some (s <| _proc := Some (mkPopen (p_pid p) (Some rc)) |> <| _last_exit := Some rc |>, false)
        | None => if _ready_check s && wt_ready t then Some (s, true) else wait_loop s deadline p rest
        end
      else Some (s, _ready_on_timeout s)
  end.

Definition _wait_ready s (w : wait_ans F) : option (ProcessSupervisor F * bool) :=
  match _proc s with
  | Some p => wait_loop s (wa_now w +f ready_timeout s) p (wa_turns w)
  | None => None
  end.

Definition _spawn_and_wait s (a : spawn_ans) (w : wait_ans F)
    : option (ProcessSupervisor F * list (sup_out F) * bool) :=
  let '(s1, o, err) := _spawn s a in
  match err with
  | Some errno => Some (s1 <| _last_exit := Some (default (-1) errno) |>, o, false)
  | None => match _wait_ready s1 w with
            | Some (s2, ok) => Some (s2, o, ok)
            | None => None
            end
  end.

Definition _kill_locked s (k : kill_ans) : ProcessSupervisor F * list (sup_out F) :=
  match _proc s with
  | None => (s, [])
  | Some p =>
      let '(rc, o) := match poll p (ka_poll k) with
                      | Some rc => (rc, [])
                      | None => (ka_exit k, Signalled SIGTERM (p_pid p)
                                   :: if ka_in_time k then [] else [Signalled SIGKILL (p_pid p)])
                      end in
      (s <| _last_exit := Some rc |> <| _proc := None |> <| _log_fh := false |>, o ++ [Exited (p_pid p) rc])
  end.

Definition _ensure_watcher s : ProcessSupervisor F :=
  if _watcher s then s else s <| _stop_evt := false |> <| _watcher := true |>.

(** [_on_crash_locked]: [p] is the dead child, [rc] its return code. *)
Definition _on_crash_locked s (p : Popen) (rc : Z) (now : F) (a : spawn_ans) (w : wait_ans F)
    : option (ProcessSupervisor F * list (sup_out F)) :=
  let s1 := s <| _last_exit := Some rc |> <| _proc := None |> <| _log_fh := false |>
              <| _recent ::= charge (restart_window s) now |> in
  let o := [Exited (p_pid p) rc; Crashed now] in
  if Z.of_nat (length (_recent s1)) >? max_restarts s
  then Some (s1 <| _fault := true |> <| _supervise := false |>, o ++ [GaveUp now])
  else match _spawn_and_wait (s1 <| _auto_restarts ::= Z.succ |>) a w with
       | Some (s2, o2, _) => Some (s2, o ++ Respawn now :: o2)
       | None => None
       end.

(** What one turn of the watcher sees. *)
Record watch_in := mkWatch { wi_poll : option Z; wi_now : F; wi_spawn : spawn_ans; wi_wait : wait_ans F }.

(** One turn of [_watch_loop]. *)
Definition _watch_loop s (i : watch_in) : option (ProcessSupervisor F * list (sup_out F)) :=
  if _stop_evt s then Some (s <| _watcher := false |>, [])
  else if negb (_supervise s) then Some (s, [])
  else match _proc s with
       | None => Some (s, [])
       | Some p => match poll p (wi_poll i) with
                   | None => Some (s, [])
                   | Some rc => _on_crash_locked s p rc (wi_now i) (wi_spawn i) (wi_wait i)
                   end
       end.

Definition start s (a : spawn_ans) (w : wait_ans F) : option (ProcessSupervisor F * list (sup_out F) * bool) :=
  match _spawn_and_wait (s <| _fault := false |> <| _recent := [] |>) a w with
  | Some (s1, o, ok) => Some (_ensure_watcher (s1 <| _supervise := true |>), Started :: o, ok)
  | None => None
  end.

Definition stop s (k : kill_ans) : ProcessSupervisor F * list (sup_out F) :=
  _kill_locked (s <| _supervise := false |>) k.

Definition restart s (k : kill_ans) (a : spawn_ans) (w : wait_ans F)
    : option (ProcessSupervisor F * list (sup_out F) * bool) :=
  let '(s1, o1) := stop s k in
  match start (s1 <| _restarts ::= Z.succ |>) a w with
  | Some (s2, o2, ok) => Some (s2, o1 ++ o2, ok)
  | None => None
  end.

(** [shutdown]: the event, the stop, and the watcher joined. *)
Definition shutdown s (k : kill_ans) : ProcessSupervisor F * list (sup_out F) :=
  let '(s1, o) := stop (s <| _stop_evt := true |>) k in (s1 <| _watcher := false |>, o).

Record sup_state := mkSupState {
  ss_running : bool; ss_pid : option Z; ss_restarts : Z; ss_auto : Z; ss_last_exit : option Z; ss_fault : bool }.
Definition state s (ans : option Z) : sup_state :=
  let running := match _proc s with Some p => negb (is_some (poll p ans)) | None => false end in
  mkSupState running (if running then p_pid <$> _proc s else None) (_restarts s) (_auto_restarts s)
    (_last_exit s) (_fault s).

(** ** Runs *)

Inductive sup_op :=
| OpArgv (argv : list string)
| OpEnv (env : list (string * string))
| OpStart (a : spawn_ans) (w : wait_ans F)
| OpStop (k : kill_ans)
| OpRestart (k : kill_ans) (a : spawn_ans) (w : wait_ans F)
| OpShutdown (k : kill_ans)
| OpWatch (i : watch_in).

(** The watcher's turn needs a live watcher. *)
Definition sup_do s (op : sup_op) : option (ProcessSupervisor F * list (sup_out F)) :=
  match op with
  | OpArgv argv => Some (set_argv s argv, [])
  | OpEnv env => Some (set_env s env, [])
  | OpStart a w => fst <$> start s a w
  | OpStop k => Some (stop s k)
  | OpRestart k a w => fst <$> restart s k a w
  | OpShutdown k => Some (shutdown s k)
  | OpWatch i => if _watcher s then _watch_loop s i else None
  end.

Fixpoint sup_run s (ops : list sup_op) : option (ProcessSupervisor F * list (sup_out F)) :=
  match ops with
  | [] => Some (s, [])
  | op :: rest =>
      match sup_do s op with
      | Some (s1, o1) => match sup_run s1 rest with Some (s2, o2) => Some (s2, o1 ++ o2) | None => None end
      | None => None
      end
  end.

(** The application's use: [start] is called on a supervisor without a child. *)
Fixpoint starts_idle s (ops : list sup_op) : Prop :=
  match ops with
  | [] => True
  | op :: rest =>
      (match op with OpStart _ _ => _proc s = None | _ => True end) /\
      match sup_do s op with Some (s1, _) => starts_idle s1 rest | None => True end
  end.
End Supervisor.
Arguments sup_op F : clear implicits.
Arguments watch_in F : clear implicits.

(** ** What a spawn does *)

Section Facts.
Context {F : Type} {PF : PyFloat F}.
Implicit Types s : ProcessSupervisor F.

(** The fields a spawn leaves alone. *)
Definition same_control s s' : Prop :=
  _recent s' = _recent s /\ _fault s' = _fault s /\ _supervise s' = _supervise s /\ _watcher s' = _watcher s /\
  _stop_evt s' = _stop_evt s /\ max_restarts s' = max_restarts s /\ restart_window s' = restart_window s.

Definition held s : list Z := match _proc s with Some p => [p_pid p] | None => [] end.
Definition tidy s : Prop := _log_fh s = true -> _proc s <> None.

Lemma wait_loop_spec s deadline p turns s' ok :
  wait_loop s deadline p turns = Some (s', ok) ->
  s' = s \/ exists rc, s' = s <| _proc := Some (mkPopen (p_pid p) (Some rc)) |> <| _last_exit := Some rc |>.
Proof. induction turns as [|t rest IH]; simpl; intros; [done|]. cases; eauto. Qed.

Lemma spawn_spec s a w s' o ok :
  _proc s = None -> _spawn_and_wait s a w = Some (s', o, ok) ->
  same_control s s' /\
  ((_proc s' = None /\ o = [] /\ ok = false) \/
   (exists pid rc, _proc s' = Some (mkPopen pid rc) /\ o = [Spawned pid (_argv_list s) (_extra_env s)])) /\
  (tidy s -> tidy s').
Proof.
  intros Hp. unfold _spawn_and_wait, _spawn, tidy. intros H.
  destruct (if wants_log s then sa_open a else None) as [errno|]; simplify_eq/=.
  { split; [done|]. split; [by left|]. intros Ht. by rewrite Hp in *. }
  destruct (sa_popen a) as [errno|pid]; simplify_eq/=.
  { split; [done|]. split; [by left|]. done. }
  unfold _wait_ready in H. simpl in H.
  destruct (wait_loop _ _ _ _) as [[s2 ok2]|] eqn:E; simplify_eq/=.
  apply wait_loop_spec in E as [->|[rc ->]]; simpl; (split; [done|]; split; [right; eauto|done]).
Qed.

Lemma kill_spec s k s' o :
  _kill_locked s k = (s', o) ->
  same_control s s' /\ _proc s' = None /\ _log_fh s' = (match _proc s with Some _ => false | None => _log_fh s end) /\
  (o = [] /\ _proc s = None \/
   exists p rc, _proc s = Some p /\
     (o = [Exited (p_pid p) rc] \/ o = [Signalled SIGTERM (p_pid p); Exited (p_pid p) rc] \/
      o = [Signalled SIGTERM (p_pid p); Signalled SIGKILL (p_pid p); Exited (p_pid p) rc])).
Proof.
  unfold _kill_locked. destruct (_proc s) as [p|] eqn:Hp; [|intros [= <- <-]; repeat split; auto].
  destruct (poll p (ka_poll k)), (ka_in_time k); intros [= <- <-]; repeat split; right; eauto 10.
Qed.

(** ** No process is ever lost *)

(** The processes spawned and not yet collected, from the outputs. *)
Definition owns (l : list Z) (o : sup_out F) : list Z :=
  match o with
  | Spawned pid _ _ => l ++ [pid]
  | Exited pid _ => List.filter (fun q => negb (q =? pid)) l
  | _ => l
  end.
Definition owned (l : list Z) (os : list (sup_out F)) : list Z := fold_left owns os l.

Lemma owned_app l o1 o2 : owned l (o1 ++ o2) = owned (owned l o1) o2.
Proof. apply fold_left_app. Qed.

Lemma owned_kill s k s' o : _kill_locked s k = (s', o) -> owned (held s) o = [] /\ held s' = [] /\ (tidy s -> _log_fh s' = false).
Proof.
  intros (_ & Hp' & Hl & H)%kill_spec. unfold held, tidy. rewrite Hp', Hl.
  destruct H as [[-> Hp]|(p & rc & Hp & H)]; rewrite Hp.
  { split; [done|]. split; [done|]. intros Ht. destruct (_log_fh s); [by destruct (Ht eq_refl)|done]. }
  split; [|done]. destruct H as [->|[->| ->]]; unfold owned; simpl; by rewrite Z.eqb_refl.
Qed.

Lemma owned_spawn s a w s' o ok :
  _proc s = None -> tidy s -> _spawn_and_wait s a w = Some (s', o, ok) -> owned [] o = held s' /\ tidy s'.
Proof.
  intros Hp Ht H. destruct (spawn_spec _ _ _ _ _ _ Hp H) as (_ & Hc & Htidy). split; [|auto].
  unfold held. destruct Hc as [(-> & -> & _)|(pid & rc & -> & ->)]; done.
Qed.

Lemma owned_start s a w s' o ok :
  _proc s = None -> tidy s -> start s a w = Some (s', o, ok) -> owned [] o = held s' /\ tidy s'.
Proof.
  intros Hp Ht. unfold start. destruct (_spawn_and_wait _ _ _) as [[[s1 o1] ok1]|] eqn:E; intros; simplify_eq.
  apply owned_spawn in E as [Ho Htidy]; [|done..].
  unfold held, tidy, _ensure_watcher in *. by destruct (_watcher _).
Qed.

Lemma owned_do s op s' o :
  tidy s -> match op with OpStart _ _ => _proc s = None | _ => True end ->
  sup_do s op = Some (s', o) -> owned (held s) o = held s' /\ tidy s'.
Proof.
  intros Ht Hd H. destruct op; simpl in H; simplify_eq.
  - done.
  - done.
  - apply fmap_Some in H as ([[s1 o1] ok] & H & [= -> ->]).
    unfold held at 1. rewrite Hd. by eapply owned_start.
  - destruct (stop s k) as [s1 o1] eqn:E. simplify_eq.
    destruct (owned_kill _ _ _ _ E) as (H1 & H2 & H3). split; [by rewrite H2|]. intros Hl. by rewrite H3 in Hl.
  - unfold restart in H. destruct (stop s k) as [s1 o1] eqn:E.
    destruct (start _ _ _) as [[[s2 o2] ok]|] eqn:E2; simplify_eq/=.
    destruct (kill_spec _ _ _ _ E) as (_ & Hp & _). destruct (owned_kill _ _ _ _ E) as (H1 & H2 & H3).
    rewrite owned_app. change (held (s <| _supervise := false |>)) with (held s) in H1. rewrite H1.
    eapply owned_start; [| |exact E2]; [done|]. intros Hl. simpl in Hl. by rewrite H3 in Hl.
  - unfold shutdown in H. destruct (stop _ k) as [s1 o1] eqn:E. simplify_eq.
    destruct (owned_kill _ _ _ _ E) as (H1 & H2 & H3). split; [etransitivity; [exact H1|symmetry; exact H2]|].
    intros Hl. simpl in Hl. by rewrite H3 in Hl.
  - destruct (_watcher s); [|done]. unfold _watch_loop in H.
    destruct (_stop_evt s), (_supervise s); simplify_eq/=; try done.
    destruct (_proc s) as [p|] eqn:Hp; simplify_eq/=; [|unfold held; by rewrite Hp].
    destruct (poll p (wi_poll i)) as [rc|]; simplify_eq/=; [|unfold held; by rewrite Hp].
    unfold _on_crash_locked in H. unfold held at 1. rewrite Hp. cbn [_recent upd] in H.
    destruct (_ >? _); simplify_eq/=.
    { unfold owned. simpl. by rewrite Z.eqb_refl. }
    destruct (_spawn_and_wait _ _ _) as [[[s2 o2] ok]|] eqn:E; simplify_eq/=.
    rewrite Z.eqb_refl. simpl. by eapply owned_spawn in E.
Qed.

(** The child held is exactly what was spawned and not yet collected. *)
Lemma owned_run s ops s' os :
  tidy s -> starts_idle s ops -> sup_run s ops = Some (s', os) -> owned (held s) os = held s' /\ tidy s'.
Proof.
  revert s os. induction ops as [|op rest IH]; simpl; intros s os Ht Hd H; simplify_eq; [done|].
  destruct Hd as [Hop Hd]. destruct (sup_do s op) as [[s1 o1]|] eqn:E; [|done].
  destruct (sup_run s1 rest) as [[s2 o2]|] eqn:E2; simplify_eq.
  destruct (owned_do _ _ _ _ Ht Hop E) as [H1 Ht1]. rewrite owned_app, H1. by apply IH.
Qed.

(** C26: Over any sequence of operator calls and watcher turns, with start
    called only without a process, the processes spawned and not yet reaped
    are exactly the one the supervisor holds, and the log is open only while
    it holds one. *)
Theorem no_process_lost argv env check timeout on_timeout log maxr window ops s os :
  let s0 := sup_init argv env check timeout on_timeout log maxr window in
  starts_idle s0 ops -> sup_run s0 ops = Some (s, os) ->
  owned [] os = held s /\ (_log_fh s = true -> _proc s <> None).
Proof. intros s0 Hd H. by apply (owned_run s0 ops s os). Qed.
End Facts.

(** ** The restart budget *)

Section Budget.
Context {F : Type} {PF : PyFloat F}.
Implicit Types s : ProcessSupervisor F.

(** Crash times since the last operator start. *)
Definition crash_log (l : list F) (o : sup_out F) : list F :=
  match o with Started => [] | Crashed now => l ++ [now] | _ => l end.
Definition crashes (os : list (sup_out F)) : list F := fold_left crash_log os [].

(** No process is spawned before the next operator start. *)
Fixpoint quiet (os : list (sup_out F)) : Prop :=
  match os with
  | [] | Started :: _ => True
  | Spawned _ _ _ :: _ | Respawn _ :: _ => False
  | _ :: rest => quiet rest
  end.

(** The watcher's verdicts against the charged list. *)
Fixpoint verdicts (window : F) (maxr : Z) (l : list F) (os : list (sup_out F)) : Prop :=
  match os with
  | [] => True
  | o :: rest =>
      match o with
      | Respawn now => Z.of_nat (length (charged window l)) <= maxr /\ exists l', l = l' ++ [now]
      | GaveUp now => (maxr < Z.of_nat (length (charged window l)) /\ exists l', l = l' ++ [now]) /\ quiet rest
      | _ => True
      end /\ verdicts window maxr (crash_log l o) rest
  end.

Definition plain (o : sup_out F) : Prop :=
  match o with Spawned _ _ _ | Signalled _ _ | Exited _ _ | Started => True | _ => False end.

Lemma verdicts_plain window maxr l o1 o2 :
  Forall plain o1 -> verdicts window maxr l (o1 ++ o2) <-> verdicts window maxr (fold_left crash_log o1 l) o2.
Proof.
  intros H. revert l. induction H as [|o o1 Ho _ IH]; intros l; [done|]. simpl. rewrite IH.
  destruct o; naive_solver.
Qed.

Definition silent (o : sup_out F) : Prop := match o with Signalled _ _ | Exited _ _ => True | _ => False end.
Lemma silent_plain os : Forall silent os -> Forall plain os.
Proof. intros H. eapply Forall_impl; [exact H|]. by intros []. Qed.
Lemma quiet_silent o1 o2 : Forall silent o1 -> quiet (o1 ++ o2) <-> quiet o2.
Proof. induction 1 as [|o o1 Ho _ IH]; [done|]. by destruct o. Qed.
Lemma crash_log_silent o l : Forall silent o -> fold_left crash_log o l = l.
Proof. induction 1 as [|x o Hx _ IH]; [done|]. by destruct x. Qed.

Lemma kill_silent s k s' o : _kill_locked s k = (s', o) -> Forall silent o.
Proof. intros (_ & _ & _ & [[-> _]|(p & rc & _ & [->|[->| ->]])])%kill_spec; repeat constructor. Qed.

(** A readiness wait and a spawn never touch the budget, in any state. *)
Lemma spawn_control s a w s' o ok :
  _spawn_and_wait s a w = Some (s', o, ok) ->
  same_control s s' /\ (o = [] \/ exists pid, o = [Spawned pid (_argv_list s) (_extra_env s)]).
Proof.
  unfold _spawn_and_wait, _spawn. intros H.
  destruct (if wants_log s then sa_open a else None) as [errno|]; simplify_eq/=; [split; [done|by left]|].
  destruct (sa_popen a) as [errno|pid]; simplify_eq/=; [split; [done|by left]|].
  unfold _wait_ready in H. simpl in H.
  destruct (wait_loop _ _ _ _) as [[s2 ok2]|] eqn:E; simplify_eq/=.
  apply wait_loop_spec in E as [->|[rc ->]]; (split; [done|eauto]).
Qed.

Lemma start_outs s a w s' o ok :
  start s a w = Some (s', o, ok) ->
  (exists o', o = Started :: o' /\ Forall plain o' /\ fold_left crash_log o' [] = []) /\
  _recent s' = [] /\ _supervise s' = true /\ max_restarts s' = max_restarts s /\ restart_window s' = restart_window s.
Proof.
  unfold start. destruct (_spawn_and_wait _ _ _) as [[[s1 o1] ok1]|] eqn:E; intros; simplify_eq.
  apply spawn_control in E as ((Hr & _ & _ & _ & _ & Hm & Hw) & Ho). simpl in *.
  split; [exists o1; destruct Ho as [->|[pid ->]]; repeat constructor|].
  unfold _ensure_watcher. destruct (_watcher _); simpl; by rewrite ?Hr, ?Hm, ?Hw.
Qed.

(** A crash is charged and answered by a fault or by one respawn. *)
Lemma crash_outs s p rc now a w s' o l :
  _recent s = charged (restart_window s) l -> _on_crash_locked s p rc now a w = Some (s', o) ->
  let n := Z.of_nat (length (charged (restart_window s) (l ++ [now]))) in
  _recent s' = charged (restart_window s) (l ++ [now]) /\ max_restarts s' = max_restarts s /\
  restart_window s' = restart_window s /\
  (o = [Exited (p_pid p) rc; Crashed now; GaveUp now] /\ max_restarts s < n /\ _supervise s' = false \/
   exists o3, o = Exited (p_pid p) rc :: Crashed now :: Respawn now :: o3 /\ Forall plain o3 /\
     n <= max_restarts s /\ fold_left crash_log o3 (l ++ [now]) = l ++ [now]).
Proof.
  intros Hr Hc. unfold _on_crash_locked in Hc. cbn [_recent upd] in Hc. simpl in Hc.
  rewrite Hr, <- charged_snoc in Hc. destruct (_ >? _) eqn:Hn; simplify_eq/=.
  { rewrite Hr, <- charged_snoc. repeat split. left. repeat split. breflect. lia. }
  destruct (_spawn_and_wait _ _ _) as [[[s2 o2] ok]|] eqn:E; simplify_eq/=.
  apply spawn_control in E as ((Hrec & _ & _ & _ & _ & Hm & Hw) & Ho). simpl in *.
  rewrite Hrec, Hr, <- charged_snoc. repeat split; [done..|]. right. exists o2.
  breflect. destruct Ho as [->|[pid ->]]; repeat split; repeat constructor; lia.
Qed.

(** What an operation prints, and the charged list after it. *)
Definition op_shape s s' (l : list F) (o : list (sup_out F)) : Prop :=
  (Forall plain o /\ (_supervise s = false -> (Forall silent o /\ _supervise s' = false) \/
                        exists o1 o2, o = o1 ++ Started :: o2 /\ Forall silent o1)) \/
  (_supervise s = true /\ exists pid rc now o2, o = Exited pid rc :: Crashed now :: o2 /\
    let n := Z.of_nat (length (charged (restart_window s) (l ++ [now]))) in
    (o2 = [GaveUp now] /\ max_restarts s < n /\ _supervise s' = false \/
     exists o3, o2 = Respawn now :: o3 /\ Forall plain o3 /\ n <= max_restarts s /\
       fold_left crash_log o3 (l ++ [now]) = l ++ [now])).

Lemma shape_nil s s' l : _supervise s' = _supervise s -> op_shape s s' l [].
Proof. intros E. left. split; [done|]. intros; left. by rewrite E. Qed.

Lemma shape_silent s s' l o : Forall silent o -> _supervise s' = false -> op_shape s s' l o.
Proof. intros Ho Hs. left. split; [by apply silent_plain|]. intros _. left. by split. Qed.

Lemma shape_started s s' l o1 o2 : Forall silent o1 -> Forall plain o2 -> op_shape s s' l (o1 ++ Started :: o2).
Proof.
  intros H1 H2. left. split; [apply Forall_app; split; [by apply silent_plain|by constructor]|].
  intros _. right. by exists o1, o2.
Qed.

Lemma do_outs s op s' o l :
  _recent s = charged (restart_window s) l -> sup_do s op = Some (s', o) ->
  _recent s' = charged (restart_window s) (fold_left crash_log o l) /\
  max_restarts s' = max_restarts s /\ restart_window s' = restart_window s /\ op_shape s s' l o.
Proof.
  intros Hr H. destruct op; simpl in H; simplify_eq.
  - repeat split; [done|]. by apply shape_nil.
  - repeat split; [done|]. by apply shape_nil.
  - apply fmap_Some in H as ([[s1 o1] ok] & H & [= -> ->]).
    apply start_outs in H as ((o' & -> & Hp & Hc) & Hrec & _ & Hm & Hw). simpl. rewrite Hc, Hrec.
    repeat split; [done..|]. by apply (shape_started _ _ _ []).
  - pose proof (kill_silent _ _ _ _ H) as Hs. apply kill_spec in H as ((Hrec & _ & Hsup & _ & _ & Hm & Hw) & _).
    rewrite crash_log_silent, Hrec by done. repeat split; [done..|]. by apply shape_silent.
  - unfold restart in H. destruct (stop s k) as [s1 o1] eqn:E. pose proof (kill_silent _ _ _ _ E) as Hs.
    apply kill_spec in E as ((_ & _ & _ & _ & _ & Hm1 & Hw1) & _).
    destruct (start _ _ _) as [[[s2 o2] ok]|] eqn:E2; simplify_eq/=.
    apply start_outs in E2 as ((o' & -> & Hp & Hc) & Hrec & _ & Hm & Hw).
    rewrite fold_left_app. simpl in *. rewrite Hc, Hrec. repeat split; [congruence..|]. by apply shape_started.
  - unfold shutdown in H. destruct (stop _ k) as [s1 o1] eqn:E. simplify_eq/=.
    pose proof (kill_silent _ _ _ _ E) as Hs. apply kill_spec in E as ((Hrec & _ & Hsup & _ & _ & Hm & Hw) & _).
    rewrite crash_log_silent by done. simpl in *. rewrite Hrec. repeat split; [done..|]. by apply shape_silent.
  - destruct (_watcher s); [|done]. unfold _watch_loop in H.
    destruct (_stop_evt s); [injection H as <- <-; repeat split; [done|]; by apply shape_nil|].
    destruct (_supervise s) eqn:Hsup; [|injection H as <- <-; repeat split; [done|]; by apply shape_nil].
    destruct (_proc s) as [p|]; [|injection H as <- <-; repeat split; [done|]; by apply shape_nil].
    destruct (poll p _) as [rc|]; [|injection H as <- <-; repeat split; [done|]; by apply shape_nil].
    apply (crash_outs _ _ _ _ _ _ _ _ l) in H as (Hrec & Hm & Hw & Hc); [|done].
    destruct Hc as [(-> & Hn & Hsup')|(o3 & -> & Hpl & Hn & Hl)]; simpl; rewrite Hrec, ?Hl;
      (repeat split; [done..|]); right; (split; [done|]); eexists _, _, _, _; (split; [done|]); simpl; eauto 10.
Qed.

Lemma quiet_run s ops s' os l :
  _recent s = charged (restart_window s) l -> _supervise s = false -> sup_run s ops = Some (s', os) -> quiet os.
Proof.
  revert s os l. induction ops as [|op rest IH]; simpl; intros s os l Hr Hs H; simplify_eq; [done|].
  destruct (sup_do s op) as [[s1 o1]|] eqn:E; [|done].
  destruct (sup_run s1 rest) as [[s2 o2]|] eqn:E2; simplify_eq.
  destruct (do_outs s op s1 o1 l Hr E) as (Hr1 & _ & Hw & [[_ Hq]|[? _]]); [|congruence].
  destruct (Hq Hs) as [[Ho Hs1]|(o1a & o1b & -> & Ho)].
  - apply quiet_silent; [done|]. rewrite <- Hw in Hr1. by eapply IH.
  - rewrite <- app_assoc. by apply quiet_silent.
Qed.

Lemma run_verdicts s ops s' os l :
  _recent s = charged (restart_window s) l -> sup_run s ops = Some (s', os) ->
  verdicts (restart_window s) (max_restarts s) l os.
Proof.
  revert s os l. induction ops as [|op rest IH]; simpl; intros s os l Hr H; simplify_eq; [done|].
  destruct (sup_do s op) as [[s1 o1]|] eqn:E; [|done].
  destruct (sup_run s1 rest) as [[s2 o2]|] eqn:E2; simplify_eq.
  destruct (do_outs s op s1 o1 l Hr E) as (Hr1 & Hm & Hw & Hshape).
  rewrite <- Hw in Hr1. pose proof (IH _ _ _ Hr1 E2) as Hrest. rewrite Hm, Hw in Hrest.
  destruct Hshape as [[Hp _]|(_ & pid & rc & now & o3 & -> & [(-> & Hn & Hs1)|(o4 & -> & Hp & Hn & Hl)])].
  - by apply verdicts_plain.
  - simpl in *. repeat split; eauto. by eapply quiet_run.
  - simpl in *. repeat split; eauto. apply verdicts_plain; [done|]. by rewrite Hl in *.
Qed.

Lemma verdicts_at window maxr l pre o post :
  verdicts window maxr l (pre ++ o :: post) -> verdicts window maxr (fold_left crash_log pre l) (o :: post).
Proof. revert l. induction pre as [|x pre IH]; intros l H; [done|]. apply IH, H. Qed.
End Budget.

Theorem restart_budget argv env check timeout on_timeout log maxr (window : Q) ops s os :
  (0 < window)%Q ->
  sup_run (sup_init argv env check timeout on_timeout log maxr window) ops = Some (s, os) ->
  forall pre now post, clock_order (crashes pre) ->
  (os = pre ++ Respawn now :: post -> crashes_in window now (crashes pre) <= maxr) /\
  (os = pre ++ GaveUp now :: post -> maxr < crashes_in window now (crashes pre) /\ quiet post).
Proof.
  intros Hw H pre now post Ho. apply (run_verdicts _ _ _ _ []) in H; [|done].
  split; intros ->; apply verdicts_at in H as [H _]; simpl in H; fold (crashes pre) in H.
  - destruct H as [H [l' Hl]]. rewrite Hl in *. by rewrite charged_count in H.
  - destruct H as [[H [l' Hl]] Hq]. rewrite Hl in *. by rewrite charged_count in H.
Qed.

(** ** The readiness wait *)

Section Ready.
Context (s : ProcessSupervisor Q).
Open Scope Q_scope.

(** A turn that lets the loop go on: before the deadline, child alive, no
    positive check. *)
Definition undecided (deadline : Q) (t : wait_turn Q) : Prop :=
  (wt_now t <f deadline) = true /\ wt_poll t = None /\ _ready_check s && wt_ready t = false.

Lemma wait_loop_first deadline p turns s' ok :
  p_returncode p = None -> wait_loop s deadline p turns = Some (s', ok) ->
  exists before t, Forall (undecided deadline) before /\ turns = before ++ t :: drop (S (length before)) turns /\
    if wt_now t <f deadline
    then match wt_poll t with
         | Some rc => ok = false /\ _last_exit s' = Some rc
         | None => ok = true /\ _ready_check s = true /\ wt_ready t = true
         end
    else ok = _ready_on_timeout s.
Proof.
  intros Hp. induction turns as [|t rest IH]; [done|].
  cbn [wait_loop]. unfold poll. rewrite Hp. intros H.
  destruct (wt_now t <f deadline) eqn:En.
  - destruct (wt_poll t) as [rc|] eqn:Ept.
    { injection H as <- <-. exists [], t. simpl in *. by rewrite En, Ept. }
    destruct (_ready_check s && wt_ready t) eqn:Er.
    { injection H as <- <-. apply andb_true_iff in Er as [? ?]. exists [], t. simpl in *. by rewrite En, Ept. }
    destruct (IH H) as (before & u & Hb & Hr & Hu). exists (t :: before), u. split; [by constructor|].
    split; [|done]. simpl. by f_equal.
  - injection H as <- <-. exists [], t. simpl in *. by rewrite En.
Qed.

Lemma wait_loop_returns deadline p turns :
  Exists (fun t => deadline <= wt_now t) turns -> wait_loop s deadline p turns <> None.
Proof.
  induction 1 as [t rest Ht|t rest _ IH]; simpl.
  - assert (Qle_bool deadline (wt_now t) = true) as -> by by apply Qle_bool_iff. done.
  - destruct (negb _); [|done]. destruct (poll p _); [done|]. by destruct (_ && _).
Qed.

(** If every poll of the readiness loop is at least 0.2 s after the one
    before, the wait returns within timeout/0.2 polls, and its result is that
    of the first poll that decides: failure with the exit code, success of the
    check, or the configured answer at the deadline. *)
Theorem wait_ready_returns p w n :
  _proc s = Some p -> p_returncode p = None ->
  (forall i t, wa_turns w !! i = Some t -> wa_now w + (1 # 5) * inject_Z (Z.of_nat i) <= wt_now t) ->
  ready_timeout s <= (1 # 5) * inject_Z (Z.of_nat n) -> (n < length (wa_turns w))%nat ->
  exists s' ok before t, _wait_ready s w = Some (s', ok) /\ Forall (undecided (wa_now w +f ready_timeout s)) before /\
    (length before <= n)%nat /\ wa_turns w !! length before = Some t /\
    if wt_now t <f (wa_now w +f ready_timeout s)
    then match wt_poll t with
         | Some rc => ok = false /\ _last_exit s' = Some rc
         | None => ok = true /\ _ready_check s = true /\ wt_ready t = true
         end
    else ok = _ready_on_timeout s.
Proof.
  intros Hp Hrc Hclock Hn Hlen. unfold _wait_ready. rewrite Hp.
  set (deadline := wa_now w +f ready_timeout s).
  assert (Hd : forall i t, wa_turns w !! i = Some t -> (n <= i)%nat -> deadline <= wt_now t).
  { intros i t Ht Hi. apply Hclock in Ht. unfold deadline. rewrite Q_add_eq.
    assert (inject_Z (Z.of_nat n) <= inject_Z (Z.of_nat i)) by (rewrite <- Zle_Qle; lia). lra. }
  destruct (wait_loop s deadline p (wa_turns w)) as [[s' ok]|] eqn:E.
  2: { destruct (wait_loop_returns deadline p (wa_turns w)); [|done].
       destruct (lookup_lt_is_Some_2 _ _ Hlen) as [t Ht]. apply Exists_exists. exists t.
       split; [by eapply list_elem_of_lookup_2|]. by eapply Hd. }
  destruct (wait_loop_first _ _ _ _ _ Hrc E) as (before & t & Hb & Hturns & Hdec).
  exists s', ok, before, t. repeat split; [done| | |done].
  - destruct (le_lt_dec (length before) n) as [|Hgt]; [done|].
    destruct (lookup_lt_is_Some_2 before n) as [u Hu]; [lia|].
    assert (wa_turns w !! n = Some u) as Hw by (rewrite Hturns; by apply lookup_app_l_Some).
    apply Hd in Hw; [|lia]. rewrite Forall_lookup in Hb. destruct (Hb _ _ Hu) as [Hlt _].
    apply negb_true_iff in Hlt. apply Qle_bool_iff in Hw. simpl in Hlt. congruence.
  - rewrite Hturns. by apply list_lookup_middle.
Qed.
End Ready.

(** ** A respawn that fails to spawn is not retried *)

(** After a crash within the budget whose respawn fails in [Popen], the
    supervisor reports no fault, holds no child, and no later turn of the
    watcher changes anything. *)
Lemma failed_respawn_is_forgotten {F} {PF : PyFloat F} (s : ProcessSupervisor F) p rc now errno w s' o :
  _on_crash_locked s p rc now (mkSpawn None (inl errno)) w = Some (s', o) ->
  _supervise s = true -> _stop_evt s = false -> _fault s = false ->
  Z.of_nat (length (charge (restart_window s) now (_recent s))) <= max_restarts s ->
  _proc s' = None /\ _fault s' = false /\ (forall i, _watch_loop s' i = Some (s', [])).
Proof.
  unfold _on_crash_locked. cbn [_recent upd]. simpl. intros H Hs He Hf Hn.
  destruct (_ >? _) eqn:E; [breflect; lia|].
  unfold _spawn_and_wait, _spawn in H. simpl in H.
  destruct (wants_log _); simplify_eq/=; (split; [done|]; split; [done|]; intros i; unfold _watch_loop; simpl; by rewrite He, Hs).
Qed.
