(* ===== verification/Radio.v ===== *)
(** * radio.py: tuning the cards with [iw]

    The command lists, and running them: a command that fails is remembered and
    the next one is still run.  The words of a command keep the JSON values the
    configuration carries.  [repr] is the language's text of a number, list or
    dict; [run] is the outcome of each command. *)
From Stdlib Require Import ZArith Lia Bool String.
From stdpp Require Import base tactics list strings pretty.
From S2P Require Import Prelude PyStr Json Cards StatsClient.
Open Scope Z_scope.

(** [subprocess.run(..., check=True)]: success, [OSError] or
    [SubprocessError], or another exception (a word that is no string). *)
Inductive run_ans := RunOk | RunFailed | RunRaises (e : pyerr).

Section Radio.
Context {F : Type} {PF : PyFloat F}.
Variable repr : json F -> string.
#[local] Abbreviation words := (list (json F)).
#[local] Abbreviation dict := (list (string * json F)).

Definition WIDTH_HTMODE : list (Z * string) := [(5, "5MHz"); (10, "10MHz"); (20, "HT20"); (40, "HT40+")].

Fixpoint htmode_in (l : list (Z * string)) (width : json F) : string :=
  match l with
  | [] => "HT20"
  | (w, mode) :: l' => if scalar_eqb width (JInt w) then mode else htmode_in l' width
  end.
Definition htmode (width : json F) : res string :=
  if is_list width || is_dict width then Err TypeError else Ok (htmode_in WIDTH_HTMODE width).

(** [v > z] for a number. *)
Definition gt_Z (v : json F) (z : Z) : res bool :=
  match v with
  | JInt x => Ok (x >? z)
  | JBool _ | JFloat _ => Ok (num_val v >f fofZ z)
  | _ => Err TypeError
  end.

Definition iw_args (wlan channel width : json F) : res words :=
  let* mode := htmode width in
  let* freq := gt_Z channel 2000 in
  Ok [JStr "iw"; JStr "dev"; wlan; JStr "set"; JStr (if freq then "freq" else "channel");
      JStr (py_str repr channel); JStr mode].

(** [round(dbm * 100)]. *)
Definition mbm_of (dbm : json F) : res Z :=
  match dbm with
  | JInt z => Ok (z * 100)
  | JBool b => Ok (if b then 100 else 0)
  | JFloat f => round_float (f *f fofZ 100)
  | _ => Err TypeError
  end.

Definition reg_cmd (region : json F) : words := [JStr "iw"; JStr "reg"; JStr "set"; region].
Definition txpower_cmd (wlan dbm : json F) : res words :=
  if is_none dbm then Ok [JStr "iw"; JStr "dev"; wlan; JStr "set"; JStr "txpower"; JStr "auto"]
  else let* mbm := mbm_of dbm in
       Ok [JStr "iw"; JStr "dev"; wlan; JStr "set"; JStr "txpower"; JStr "fixed"; JStr (pretty mbm)].

(** The commands for one interface. *)
Definition tune_wlan (channel width dbm wlan : json F) : res (list words) :=
  let* tune := if is_none channel then Ok [] else let* c := iw_args wlan channel width in Ok [c] in
  let* power := txpower_cmd wlan dbm in
  Ok (tune ++ [power]).

Definition reg_cmds (link : dict) : list words :=
  let region := get_ "region" link in if truthy region then [reg_cmd region] else [].

Definition retune_commands (wlans : words) (link : dict) : res (list words) :=
  let* per := map_res (tune_wlan (get_ "channel" link) (get_or "width" (JInt 20) link) (get_ "txPowerDbm" link)) wlans in
  Ok (reg_cmds link ++ concat per).

Definition monitor_cmds (wlan : json F) : list words :=
  [[JStr "ip"; JStr "link"; JStr "set"; wlan; JStr "down"];
   [JStr "iw"; JStr "dev"; wlan; JStr "set"; JStr "monitor"; JStr "otherbss"];
   [JStr "ip"; JStr "link"; JStr "set"; wlan; JStr "up"]].

(** [cmd == ["iw", "reg", "set", region]]. *)
Definition is_reg_cmd (region : json F) (cmd : words) : bool := json_eqb (JList cmd) (JList (reg_cmd region)).

Definition init_commands (wlans : words) (link : dict) : res (list words) :=
  let* tune := retune_commands wlans link in
  Ok (reg_cmds link ++ concat (map monitor_cmds wlans) ++
      List.filter (fun cmd => negb (is_reg_cmd (get_ "region" link) cmd)) tune).

(** The loop of [init_cards] and [retune]: the commands run and the result. *)
Fixpoint run_all (run : words -> run_ans) (cmds : list words) (ok : bool) : res bool :=
  match cmds with
  | [] => Ok ok
  | c :: rest => match run c with
                 | RunOk => run_all run rest ok
                 | RunFailed => run_all run rest false
                 | RunRaises e => Err e
                 end
  end.

Definition init_cards (run : words -> run_ans) (wlans : words) (link : dict) : res bool :=
  let* cmds := init_commands wlans link in run_all run cmds true.
Definition retune (run : words -> run_ans) (wlans : words) (link : dict) : res bool :=
  let* cmds := retune_commands wlans link in run_all run cmds true.

(** ** Order and outcome *)

(** A command of one interface names it and is no regulatory one. *)
Lemma tune_wlan_words channel width dbm wlan cmds :
  tune_wlan channel width dbm wlan = Ok cmds ->
  Forall (fun c => exists rest, c = JStr "iw" :: JStr "dev" :: wlan :: JStr "set" :: rest) cmds.
Proof.
  unfold tune_wlan, txpower_cmd, iw_args. intros (tune & Ht & (power & Hp & [= <-])%rbind_ok)%rbind_ok.
  apply Forall_app. split.
  - destruct (is_none channel); [by simplify_eq|].
    apply rbind_ok in Ht as (c & (m & _ & (fr & _ & [= <-])%rbind_ok)%rbind_ok & [= <-]). repeat constructor. eauto.
  - repeat constructor. destruct (is_none dbm); [simplify_eq; eauto|].
    apply rbind_ok in Hp as (mbm & _ & [= <-]). eauto.
Qed.

Lemma tune_not_reg channel width dbm wlan cmds region :
  tune_wlan channel width dbm wlan = Ok cmds ->
  List.filter (fun cmd => negb (is_reg_cmd region cmd)) cmds = cmds.
Proof.
  intros H%tune_wlan_words. induction H as [|c cmds [rest ->] _ IH]; [done|].
  cbn [List.filter]. rewrite IH. done.
Qed.

Lemma concat_not_reg channel width dbm wlans per region :
  map_res (tune_wlan channel width dbm) wlans = Ok per ->
  List.filter (fun cmd => negb (is_reg_cmd region cmd)) (concat per) = concat per.
Proof.
  revert per. induction wlans as [|w wlans IH]; simpl; intros per Hper; [by simplify_eq|].
  apply rbind_ok in Hper as (c & Hc & (rest & Hrest & [= <-])%rbind_ok). simpl.
  rewrite List.filter_app, (tune_not_reg _ _ _ _ _ _ Hc). f_equal. by apply IH.
Qed.

(** Initialising is: the regulatory domain once, every card into monitor mode,
    then the tuning commands of a live retune. *)
Theorem init_is_monitor_then_tune wlans link cmds region :
  get_ "region" link = JStr region -> init_commands wlans link = Ok cmds ->
  exists tune, retune_commands wlans link = Ok (reg_cmds link ++ tune) /\
    Forall (fun c => forall r, is_reg_cmd r c = false) tune /\
    cmds = reg_cmds link ++ concat (map monitor_cmds wlans) ++ tune.
Proof.
  unfold init_commands, retune_commands. intros Hr (cmds' & (per & Hper & [= <-])%rbind_ok & [= <-])%rbind_ok.
  exists (concat per). rewrite Hper. split; [done|]. split.
  - apply Forall_forall. intros c Hc r. apply (concat_not_reg _ _ _ _ _ r) in Hper.
    rewrite <- Hper in Hc. apply list_elem_of_In, filter_In in Hc as [_ Hc]. by apply negb_true_iff.
  - rewrite List.filter_app, (concat_not_reg _ _ _ _ _ _ Hper). do 2 f_equal.
    unfold reg_cmds. rewrite Hr. destruct (truthy _); [|done]. unfold is_reg_cmd, reg_cmd.
    cbn [List.filter json_eqb scalar_eqb]. by rewrite !String.eqb_refl.
Qed.

Lemma run_all_spec run cmds ok b :
  run_all run cmds ok = Ok b ->
  Forall (fun c => run c = RunOk \/ run c = RunFailed) cmds /\ (b = true <-> ok = true /\ Forall (fun c => run c = RunOk) cmds).
Proof.
  revert ok. induction cmds as [|c rest IH]; simpl; intros ok H.
  - simplify_eq. split; [constructor|]. split; [by split; [|constructor]|by intros []].
  - destruct (run c) eqn:E; [| |done].
    all: apply IH in H as [H1 H2]; rewrite Forall_cons, H2, Forall_cons, E; intuition congruence.
Qed.

(** A retune reports success exactly when every command succeeded, and a
    failure does not keep the later commands from running. *)
Theorem retune_reports run wlans link b :
  retune run wlans link = Ok b ->
  exists cmds, retune_commands wlans link = Ok cmds /\
    (b = true <-> Forall (fun c => run c = RunOk) cmds) /\
    Forall (fun c => run c = RunOk \/ run c = RunFailed) cmds.
Proof.
  unfold retune. intros (cmds & Hc & H)%rbind_ok. apply run_all_spec in H as [H1 H2].
  exists cmds. naive_solver.
Qed.
End Radio.
