(* ===== verification/Cluster.v ===== *)
(** * wfb/cluster.py: ports, wlan ids and the node script

    [plan_cluster] gives every service one UDP port on the ground station and
    every (node, service) a block of injector ports, one per card of the node.
    [render_node_script] writes the shell script pushed to a remote node.  A
    card's host is absent or a string, as its dataclass says and validation
    enforces; the interface keeps its JSON value.  [inet_aton] is the system's
    address parser, [repr] the language's text of a number, list or dict. *)
From Stdlib Require Import ZArith Lia Bool String Ascii.
From stdpp Require Import base tactics list strings pretty sorting.
From S2P Require Import Prelude PyStr Json Cards StatsClient Radio.
Open Scope Z_scope.

Definition SERVICE_ORDER : list string := ["video"; "mavlink"; "tunnel"].

Record streams := mkStreams { st_rx : option Z; st_tx : option Z }.
Definition DEFAULT_STREAMS : list (string * streams) :=
  [("video", mkStreams (Some 0) None); ("mavlink", mkStreams (Some 16) (Some 144));
   ("tunnel", mkStreams (Some 32) (Some 160))].
Definition PROBE_SERVICE : string := "probe".
Definition PROBE_STREAMS : streams := mkStreams (Some 50) None.

Definition service_order (with_probe : bool) : list string :=
  SERVICE_ORDER ++ (if with_probe then [PROBE_SERVICE] else []).
Definition streams_for (with_probe : bool) : list (string * streams) :=
  if with_probe then dict_set PROBE_SERVICE PROBE_STREAMS DEFAULT_STREAMS else DEFAULT_STREAMS.

Definition LOCAL_NODE : string := "127.0.0.1".

(** A [for] loop over a state, whose body may raise. *)
Fixpoint fold_res {A S} (f : S -> A -> res S) (l : list A) (s : S) : res S :=
  match l with
  | [] => Ok s
  | x :: l' => let* s1 := f s x in fold_res f l' s1
  end.

Record ClusterPlan (F : Type) := mkPlan {
  nodes : list (string * list (Card F));
  server_port : list (string * Z);
  injector_base : list (string * string * Z);
  peers : list (string * list string);
  rx_only_wlan_ids : list Z }.
Arguments mkPlan {F}.
Arguments nodes {F} _.
Arguments server_port {F} _.
Arguments injector_base {F} _.
Arguments peers {F} _.
Arguments rx_only_wlan_ids {F} _.

Section Cluster.
Context {F : Type} {PF : PyFloat F}.
Variable repr : json F -> string.
Variable inet_aton : string -> option Z.
Implicit Types (c : Card F).
#[local] Abbreviation dict := (list (string * json F)).

(** [card.host or "127.0.0.1"]. *)
Definition node_key c : string :=
  match host c with JStr s => if String.eqb s "" then LOCAL_NODE else s | _ => LOCAL_NODE end.

Definition node_ipv4_int (h : string) : res Z :=
  match inet_aton h with Some ip => Ok ip | None => Err (OSError 0) end.

Definition cluster_wlan_id (h : string) (wlan_idx : Z) : res Z :=
  let* ip := node_ipv4_int h in Ok (Z.lor (Z.shiftl ip 24) wlan_idx).

(** [nodes.setdefault(node_key(card), []).append(card)]. *)
Definition add_card (d : list (string * list (Card F))) c : list (string * list (Card F)) :=
  dict_set (node_key c) (default [] (dict_get (node_key c) d) ++ [c]) d.
Definition group_cards (cards : list (Card F)) : list (string * list (Card F)) := fold_left add_card cards [].

(** [sorted(nodes)]. *)
Definition sorted_keys {V} (d : list (string * V)) : list string := merge_sort String.le (dict_keys d).

(** The injector ports of one node for one service: the node's counter, the
    base ports and the peers are threaded through the two loops. *)
Record alloc := mkAlloc {
  al_next : list (string * Z); al_inj : list (string * string * Z); al_peers : list (string * list string) }.

Definition min_list (l : list Z) : res Z :=
  match l with [] => Err (ValueError "min() arg is an empty sequence") | x :: l' => Ok (fold_left Z.min l' x) end.

Definition peer_entry (node : string) (ports : list Z) : string :=
  node +:+ ":" +:+ join "," (map pretty ports).

Definition alloc_node (base : Z) (ns : list (string * list (Card F))) (service : string) (st : alloc) (node : string)
    : res alloc :=
  let cs := default [] (dict_get node ns) in
  let first := default base (dict_get node (al_next st)) in
  let n := Z.of_nat (length cs) in
  let ports := seqZ first n in
  let* lo := min_list ports in
  Ok (mkAlloc (dict_set node (first + n) (al_next st)) (al_inj st ++ [(node, service, lo)])
        (dict_set service (default [] (dict_get service (al_peers st)) ++ [peer_entry node ports]) (al_peers st))).

Definition alloc_service (base : Z) (ns : list (string * list (Card F))) (st : alloc) (service : string) : res alloc :=
  fold_res (alloc_node base ns service) (sorted_keys ns) st.

(** [injector_base[(node, service)]]. *)
Fixpoint inj_get (node service : string) (l : list (string * string * Z)) : option Z :=
  match l with
  | [] => None
  | (n, s, p) :: l' => if String.eqb node n && String.eqb service s then Some p else inj_get node service l'
  end.

(** The ids of the receive-only cards of one node. *)
Definition rx_only_ids (cs : list (Card F)) : res (list Z) :=
  let* ids := map_res (fun ic : nat * Card F => let '(i, c) := ic in
                         if is_rx_only c then let* z := cluster_wlan_id (node_key c) (Z.of_nat i) in Ok [z] else Ok [])
                      (imap (fun i c => (i, c)) cs) in
  Ok (concat ids).

Definition plan_cluster (cards : list (Card F)) (base_port_server base_port_node : Z) (with_probe : bool)
    : res (ClusterPlan F) :=
  let ns := group_cards cards in
  let services := service_order with_probe in
  let sp := imap (fun i s => (s, base_port_server + Z.of_nat i)) services in
  let* st := fold_res (alloc_service base_port_node ns) services
               (mkAlloc [] [] (map (fun s => (s, [])) services)) in
  let* ids := map_res (fun nc => rx_only_ids nc.2) ns in
  Ok (mkPlan ns sp (al_inj st) (al_peers st) (concat ids)).
End Cluster.

(** ** The node script *)

(** [str.splitlines]: the ASCII line boundaries; CR LF is one. *)
Definition is_break (c : ascii) : bool :=
  let n := code c in ((10 <=? n) && (n <=? 13)) || ((28 <=? n) && (n <=? 30)).
Fixpoint splitlines_go (s acc : string) : list string :=
  match s with
  | EmptyString => if String.eqb acc "" then [] else [acc]
  | String c s' =>
      if is_break c then
        acc :: match s' with
               | String d s'' => if (code c =? 13) && (code d =? 10) then splitlines_go s'' "" else splitlines_go s' ""
               | EmptyString => []
               end
      else splitlines_go s' (acc +:+ String c EmptyString)
  end.
Definition splitlines (s : string) : list string := splitlines_go s "".

Definition dq : string := String "034"%char EmptyString.
Definition newline : string := String "010"%char EmptyString.

Definition script_preamble : list string :=
  ["#!/bin/sh"; "set -em"; ""; "export LC_ALL=C"; ""; "exec 3<&0"; ""; "PIDS=" +:+ dq +:+ dq; "";
   "_cleanup()"; "{"; "  [ -n " +:+ dq +:+ "$PIDS" +:+ dq +:+ " ] && kill -TERM $PIDS 2>/dev/null"; "  exit 1"; "}"; "";
   "trap _cleanup EXIT HUP INT TERM"; "";
   "for _p in $(ps | grep -E 'wfb_(rx|tx)' | grep -v grep | awk '{print $1}'); do";
   "  kill -9 $_p 2>/dev/null || true"; "done"; ""].

Definition script_tail (ssh_mode : bool) : list string :=
  (if ssh_mode then
     ["# Will fail in case of connection loss (reads fd 3 = the";
      "# saved SSH stdin; see the `exec 3<&0` note above).";
      "(sleep 1; exec cat <&3 > /dev/null) & PIDS=" +:+ dq +:+ "$PIDS $!" +:+ dq; ""]
   else []) ++
  ["echo " +:+ dq +:+ "WFB-ng init done" +:+ dq; ""; "while :; do"; "  for p in $PIDS; do";
   "    kill -0 $p 2>/dev/null || exit 1"; "  done"; "  sleep 1"; "done"; ""].

Section Script.
Context {F : Type} {PF : PyFloat F}.
Variable repr : json F -> string.
Implicit Types (c : Card F).
#[local] Abbreviation dict := (list (string * json F)).

(** [" ".join(words)]: every word must be a string. *)
Definition join_words (l : list (json F)) : res string :=
  let* ws := map_res (fun v => match v with JStr s => Ok s | _ => Err TypeError end) l in Ok (join " " ws).

(** [(card.init_script or "").strip()]. *)
Definition init_snippet c : res string :=
  match init_script c with
  | JStr s => Ok (strip s)
  | v => if truthy v then Err AttributeError else Ok ""
  end.

(** The init hooks, each once: the snippets seen and the lines. *)
Definition init_step (st : list string * list string) c : res (list string * list string) :=
  let '(seen, lines) := st in
  let* s := init_snippet c in
  if String.eqb s "" || bool_decide (s ∈ seen) then Ok st
  else Ok (seen ++ [s], lines ++ ["# custom init (per link.cards initScript)"] ++ splitlines s ++ [""]).
Definition init_lines (cards : list (Card F)) : res (list string) :=
  let* st := fold_res init_step cards ([], []) in Ok st.2.

Definition card_lines (channel width : json F) c : res (list string) :=
  let wlan := py_str repr (iface c) in
  let* tune := if is_none channel then Ok []
               else let* cmd := iw_args repr (iface c) channel width in let* l := join_words cmd in Ok [l] in
  let* power := if is_none (txpower_dbm c) || is_rx_only c then Ok []
                else let* f := py_float (txpower_dbm c) in
                     let* mbm := round_float (f *f fofZ 100) in
                     Ok ["iw dev " +:+ wlan +:+ " set txpower fixed " +:+ pretty mbm] in
  Ok (["# init " +:+ wlan;
       "if which nmcli > /dev/null && ! nmcli device show " +:+ wlan +:+ " | grep -q '(unmanaged)'"; "then";
       "  nmcli device set " +:+ wlan +:+ " managed no"; "  sleep 1"; "fi"; "";
       "ip link set " +:+ wlan +:+ " down"; "iw dev " +:+ wlan +:+ " set monitor otherbss";
       "ip link set " +:+ wlan +:+ " up"] ++ tune ++ power ++ [""]).

Definition background (cmd : string) : string := cmd +:+ " & PIDS=" +:+ dq +:+ "$PIDS $!" +:+ dq.
Definition fwd_line (server_address wlans : string) (port rx_id link_id : Z) : string :=
  background ("wfb_rx -f -c " +:+ server_address +:+ " -u " +:+ pretty port +:+ " -p " +:+ pretty rx_id +:+
              " -i " +:+ pretty link_id +:+ " -R 2097152 " +:+ wlans).
Definition inj_line (wlans : string) (base : Z) : string :=
  background ("wfb_tx -I " +:+ pretty base +:+ " -R 2097152 " +:+ wlans).

Definition service_lines (node wlans server_address : string) (plan : ClusterPlan F) (link_id : Z)
    (svc : string * streams) : res (list string) :=
  let '(service, st) := svc in
  match st_rx st, st_tx st with
  | None, None => Ok []
  | rx, tx =>
      let* l1 := match rx with
                 | Some rx_id => match dict_get service (server_port plan) with
                                 | Some port => Ok [fwd_line server_address wlans port rx_id link_id]
                                 | None => Err (KeyError service)
                                 end
                 | None => Ok []
                 end in
      let* l2 := match tx with
                 | Some _ => match inj_get node service (injector_base plan) with
                             | Some base => Ok [inj_line wlans base]
                             | None => Err (KeyError service)
                             end
                 | None => Ok []
                 end in
      Ok (["# " +:+ service] ++ l1 ++ l2 ++ [""])
  end.

Definition script_lines (node : string) (cards : list (Card F)) (plan : ClusterPlan F) (link : dict) (link_id : Z)
    (server_address : string) (ssh_mode : bool) (sts : list (string * streams)) : res (list string) :=
  let* wlans := join_words (map iface cards) in
  let* hooks := init_lines cards in
  let* inits := map_res (card_lines (get_ "channel" link) (get_or "width" (JInt 20) link)) cards in
  let* services := map_res (service_lines node wlans server_address plan link_id) sts in
  Ok (script_preamble ++ hooks ++ ["iw reg set " +:+ py_str repr (get_ "region" link); ""] ++
      concat inits ++ concat services ++ script_tail ssh_mode).

Definition render_node_script (node : string) (cards : list (Card F)) (plan : ClusterPlan F) (link : dict)
    (link_id : Z) (server_address : string) (ssh_mode : bool) (sts : list (string * streams)) : res string :=
  let* lines := script_lines node cards plan link link_id server_address ssh_mode sts in
  Ok (join newline lines).

(** [route]: the source address of the kernel's route to the node. *)
Definition derive_server_address (route : string -> res string) (node_host : string) (override : json F) : res (json F) :=
  if truthy override then Ok override else let* a := route node_host in Ok (JStr a).

Definition ssh_argv c : list (json F) :=
  map JStr ["ssh"; "-o"; "BatchMode=yes"; "-o"; "ServerAliveInterval=5"; "-o"; "ServerAliveCountMax=3";
            "-o"; "StrictHostKeyChecking=accept-new"; "-p"; pretty (ssh_port c)] ++
  (if truthy (ssh_key c) then [JStr "-i"; ssh_key c] else []) ++
  [JStr (py_str repr (ssh_user c) +:+ "@" +:+ py_str repr (host c)); JStr "exec sh -s"].
End Script.

(** ** The plan in closed form *)

Section Plan.
Context {F : Type} {PF : PyFloat F}.
Implicit Types (c : Card F) (ns : list (string * list (Card F))).

Definition on_node (node : string) c : bool := String.eqb (node_key c) node.
Definition cards_of ns (node : string) : list (Card F) := default [] (dict_get node ns).
Definition count ns (node : string) : Z := Z.of_nat (length (cards_of ns node)).

Lemma group_cards_snoc (cards : list (Card F)) c :
  group_cards (cards ++ [c]) = add_card (group_cards cards) c.
Proof. unfold group_cards. by rewrite fold_left_app. Qed.

(** Each node holds its cards, in order; a node exists because of a card. *)
Lemma group_cards_spec (cards : list (Card F)) node :
  dict_get node (group_cards cards) =
  match List.filter (on_node node) cards with [] => None | l => Some l end.
Proof.
  induction cards as [|c cards IH] using rev_ind; [done|].
  rewrite group_cards_snoc, List.filter_app. simpl. unfold add_card, on_node at 2.
  destruct (String.eqb_spec (node_key c) node) as [->|Hne].
  - rewrite dict_get_set_eq, IH. by destruct (List.filter _ cards).
  - rewrite dict_get_set_ne, IH, app_nil_r by done. done.
Qed.

Lemma group_cards_keys (cards : list (Card F)) : NoDup (dict_keys (group_cards cards)).
Proof.
  induction cards as [|c cards IH] using rev_ind; [constructor|].
  rewrite group_cards_snoc. by apply dict_keys_set_NoDup.
Qed.

Lemma cards_of_group (cards : list (Card F)) node :
  cards_of (group_cards cards) node = List.filter (on_node node) cards.
Proof. unfold cards_of. rewrite group_cards_spec. by destruct (List.filter _ _). Qed.

Lemma group_nonempty (cards : list (Card F)) node :
  node ∈ dict_keys (group_cards cards) -> 0 < count (group_cards cards) node.
Proof.
  intros H. unfold count. rewrite cards_of_group.
  destruct (dict_get node (group_cards cards)) as [l|] eqn:E; [|by apply dict_get_none in E].
  rewrite group_cards_spec in E. destruct (List.filter _ _); simplify_eq. simpl. lia.
Qed.

Lemma sorted_keys_elem {V} (d : list (string * V)) k : k ∈ sorted_keys d <-> k ∈ dict_keys d.
Proof. unfold sorted_keys. by rewrite merge_sort_Permutation. Qed.
Lemma sorted_keys_NoDup {V} (d : list (string * V)) : NoDup (dict_keys d) -> NoDup (sorted_keys d).
Proof. unfold sorted_keys. by rewrite merge_sort_Permutation. Qed.

Lemma min_list_seqZ a n : 0 < n -> min_list (seqZ a n) = Ok a.
Proof.
  intros H. rewrite seqZ_cons by done. unfold min_list. f_equal.
  assert (Forall (Z.le a) (seqZ (Z.succ a) (Z.pred n))) as Hf by (apply Forall_seqZ; lia).
  induction Hf as [|x l Hx _ IH]; [done|]. simpl. by rewrite Z.min_l.
Qed.

(** The ports a node gives to its [i]-th service. *)
Definition node_ports (base : Z) ns (i : nat) (node : string) : list Z :=
  seqZ (base + Z.of_nat i * count ns node) (count ns node).

Lemma inj_get_app node service l1 l2 :
  inj_get node service (l1 ++ l2) = match inj_get node service l1 with Some p => Some p | None => inj_get node service l2 end.
Proof. induction l1 as [|[[n s] p] l1 IH]; simpl; [done|]. by destruct (_ && _). Qed.

Lemma inj_get_map node service service' (f : string -> Z) l :
  node ∈ l -> inj_get node service (map (fun n => (n, service', f n)) l) = if String.eqb service service' then Some (f node) else None.
Proof.
  induction l as [|n l IH]; [by intros ?%not_elem_of_nil|]. intros H. simpl.
  destruct (String.eqb_spec node n) as [->|Hne]; simpl.
  - destruct (String.eqb service service') eqn:E; [done|]. clear IH H.
    induction l as [|m l IH]; simpl; [done|]. by rewrite E, andb_false_r.
  - apply IH. by apply elem_of_cons in H as [|].
Qed.

Section Alloc.
Context (base : Z) (ns : list (string * list (Card F))) (Hne : forall node, node ∈ dict_keys ns -> 0 < count ns node).

(** The counters before the [i]-th service. *)
Definition counters_at (i : nat) (st : alloc) : Prop :=
  forall node, node ∈ dict_keys ns -> default base (dict_get node (al_next st)) = base + Z.of_nat i * count ns node.

Lemma alloc_nodes_spec i service l st done_ :
  NoDup l -> (forall node, node ∈ l -> node ∈ dict_keys ns) ->
  (forall node, node ∈ l -> default base (dict_get node (al_next st)) = base + Z.of_nat i * count ns node) ->
  dict_get service (al_peers st) = Some done_ ->
  exists st', fold_res (alloc_node base ns service) l st = Ok st' /\
    (forall node, node ∈ l -> default base (dict_get node (al_next st')) = base + Z.of_nat (S i) * count ns node) /\
    (forall node, node ∉ l -> dict_get node (al_next st') = dict_get node (al_next st)) /\
    al_inj st' = al_inj st ++ map (fun node => (node, service, base + Z.of_nat i * count ns node)) l /\
    dict_get service (al_peers st') = Some (done_ ++ map (fun node => peer_entry node (node_ports base ns i node)) l) /\
    (forall s, s <> service -> dict_get s (al_peers st') = dict_get s (al_peers st)).
Proof.
  intros Hnd. revert st done_. induction Hnd as [|node l Hnot Hnd IH]; intros st done_ Hin Hnext Hpeers; simpl.
  { exists st. rewrite !app_nil_r. repeat split; try done. by intros ? ?%not_elem_of_nil. }
  unfold alloc_node at 1. fold (cards_of ns node). fold (count ns node).
  rewrite (Hnext node) by left. rewrite min_list_seqZ by by apply Hne, Hin; left. simpl.
  set (st1 := mkAlloc _ _ _).
  destruct (IH st1 (done_ ++ [peer_entry node (node_ports base ns i node)])) as (st' & Hf & H1 & H2 & H3 & H4 & H5).
  - intros m Hm. apply Hin. by right.
  - intros m Hm. simpl. rewrite dict_get_set_ne by by intros ->. apply Hnext. by right.
  - simpl. by rewrite dict_get_set_eq, Hpeers.
  - exists st'. split; [exact Hf|]. split; [|split; [|split; [|split]]].
    + intros m [->|Hm]%elem_of_cons; [|by apply H1]. rewrite H2 by done. simpl. rewrite dict_get_set_eq. simpl. lia.
    + intros m [Hm1 Hm2]%not_elem_of_cons. rewrite H2 by done. simpl. by apply dict_get_set_ne.
    + rewrite H3. simpl. by rewrite <- app_assoc.
    + rewrite H4. by rewrite <- app_assoc.
    + intros s Hs. rewrite H5 by done. simpl. by apply dict_get_set_ne.
Qed.

(** All services, one after the other. *)
Lemma alloc_services_spec services i st :
  NoDup services -> NoDup (dict_keys ns) -> counters_at i st ->
  (forall s, s ∈ services -> dict_get s (al_peers st) = Some [] /\ forall node, inj_get node s (al_inj st) = None) ->
  exists st', fold_res (alloc_service base ns) services st = Ok st' /\
    (forall k s node, services !! k = Some s -> node ∈ dict_keys ns ->
       inj_get node s (al_inj st') = Some (base + Z.of_nat (i + k) * count ns node)) /\
    (forall k s, services !! k = Some s ->
       dict_get s (al_peers st') = Some (map (fun node => peer_entry node (node_ports base ns (i + k) node)) (sorted_keys ns))) /\
    (forall s, s ∉ services -> dict_get s (al_peers st') = dict_get s (al_peers st) /\
       forall node, inj_get node s (al_inj st) <> None -> inj_get node s (al_inj st') = inj_get node s (al_inj st)).
Proof.
  intros Hnd Hk. revert i st. induction Hnd as [|s services Hnot Hnd IH]; intros i st Hc Hs; simpl.
  { exists st. repeat split; intros; by rewrite ?lookup_nil in *. }
  destruct (alloc_nodes_spec i s (sorted_keys ns) st []) as (st1 & Hf & Hn1 & _ & Hi1 & Hp1 & Ho1).
  { by apply sorted_keys_NoDup. }
  { intros node. by rewrite sorted_keys_elem. }
  { intros node Hnode. apply Hc. by apply sorted_keys_elem. }
  { apply Hs. left. }
  unfold alloc_service at 1. rewrite Hf. simpl.
  destruct (IH (S i) st1) as (st' & Hf' & Hi' & Hp' & Ho').
  { intros node Hnode. apply Hn1. by apply sorted_keys_elem. }
  { intros s' Hs'. assert (s' <> s) as Hne' by by intros ->. destruct (Hs s') as [Hs1 Hs2]; [by right|].
    rewrite Ho1 by done. split; [done|]. intros node. rewrite Hi1, inj_get_app, Hs2. clear -Hne'.
    induction (sorted_keys ns) as [|m l IH]; simpl; [done|].
    destruct (String.eqb_spec s' s); [done|]. by rewrite andb_false_r. }
  destruct (Ho' s Hnot) as [Hps His].
  exists st'. split; [exact Hf'|]. split; [|split].
  - intros [|k] s' node Hl Hnode; simpl in Hl; simplify_eq.
    + rewrite Nat.add_0_r. destruct (Hs s') as [_ Hs2]; [left|].
      assert (inj_get node s' (al_inj st1) = Some (base + Z.of_nat i * count ns node)) as E.
      { rewrite Hi1, inj_get_app, Hs2, inj_get_map by by apply sorted_keys_elem. by rewrite String.eqb_refl. }
      by rewrite His; rewrite E.
    + replace (i + S k)%nat with (S i + k)%nat by lia. by apply Hi'.
  - intros [|k] s' Hl; simpl in Hl; simplify_eq.
    + by rewrite Nat.add_0_r, Hps, Hp1.
    + replace (i + S k)%nat with (S i + k)%nat by lia. by apply Hp'.
  - intros s' [Hs1 Hs2]%not_elem_of_cons. destruct (Ho' s' Hs2) as [H1 H2].
    rewrite H1, Ho1 by done. split; [done|]. intros node Hnode.
    assert (inj_get node s' (al_inj st1) = inj_get node s' (al_inj st)) as E.
    { rewrite Hi1, inj_get_app. by destruct (inj_get node s' (al_inj st)). }
    rewrite H2; rewrite E; done.
Qed.
End Alloc.
End Plan.

(** ** What a plan promises *)

Section Promise.
Context {F : Type} {PF : PyFloat F} (inet_aton : string -> option Z).

Lemma service_order_NoDup with_probe : NoDup (service_order with_probe).
Proof. apply (bool_decide_unpack _). by destruct with_probe. Qed.

Lemma dict_get_imap (base : Z) (i0 : nat) services k s :
  NoDup services -> services !! k = Some s ->
  dict_get s (imap (fun i s => (s, base + Z.of_nat (i0 + i))) services) = Some (base + Z.of_nat (i0 + k)).
Proof.
  intros Hnd. revert i0 k. induction Hnd as [|x services Hnot _ IH]; intros i0 k Hk; [by rewrite lookup_nil in Hk|].
  rewrite imap_cons. simpl. destruct k as [|k]; simpl in Hk; simplify_eq.
  - by rewrite String.eqb_refl.
  - destruct (String.eqb_spec s x) as [->|_]; [by apply list_elem_of_lookup_2 in Hk|].
    rewrite (imap_ext _ (fun i s0 => (s0, base + Z.of_nat (S i0 + i)))).
    + rewrite (IH (S i0) k) by done. do 2 f_equal. lia.
    + intros. simpl. do 2 f_equal. lia.
Qed.

Lemma dict_get_const {V} (v : V) services s :
  s ∈ services -> dict_get s (map (fun s => (s, v)) services) = Some v.
Proof.
  induction services as [|x l IH]; [by intros ?%not_elem_of_nil|]. intros [->|H]%elem_of_cons; simpl.
  - by rewrite String.eqb_refl.
  - destruct (String.eqb s x); [done|by apply IH].
Qed.

(** A plan succeeds when the hosts of the receive-only cards are addresses, and
    gives each service its port and each (node, service) its block. *)
Lemma plan_spec (cards : list (Card F)) bs bn with_probe plan :
  plan_cluster inet_aton cards bs bn with_probe = Ok plan ->
  nodes plan = group_cards cards /\
  (forall k s, service_order with_probe !! k = Some s -> dict_get s (server_port plan) = Some (bs + Z.of_nat k)) /\
  (forall k s node, service_order with_probe !! k = Some s -> node ∈ dict_keys (nodes plan) ->
     inj_get node s (injector_base plan) = Some (bn + Z.of_nat k * count (nodes plan) node)) /\
  (forall k s, service_order with_probe !! k = Some s ->
     dict_get s (peers plan) =
     Some (map (fun node => peer_entry node (node_ports bn (nodes plan) k node)) (sorted_keys (nodes plan)))).
Proof.
  unfold plan_cluster. intros (st & Hst & (ids & _ & [= <-])%rbind_ok)%rbind_ok.
  cbn [nodes server_port injector_base peers].
  pose proof (service_order_NoDup with_probe) as Hnd.
  destruct (alloc_services_spec bn (group_cards cards) (group_nonempty cards) (service_order with_probe) 0
              (mkAlloc [] [] (map (fun s => (s, [])) (service_order with_probe)))) as (st' & Hf & Hi & Hp & _).
  - done.
  - apply group_cards_keys.
  - intros node _. simpl. lia.
  - intros s Hs. split; [by apply dict_get_const|done].
  - rewrite Hst in Hf. simplify_eq. repeat split; [|exact Hi|exact Hp].
    intros k s Hk. exact (dict_get_imap bs 0 _ k s Hnd Hk).
Qed.

Theorem plan_ports (cards : list (Card F)) bs bn with_probe plan :
  plan_cluster inet_aton cards bs bn with_probe = Ok plan ->
  (forall node, cards_of (nodes plan) node = List.filter (on_node node) cards) /\
  (forall k s, service_order with_probe !! k = Some s ->
     dict_get s (server_port plan) = Some (bs + Z.of_nat k) /\
     dict_get s (peers plan) =
       Some (map (fun node => peer_entry node (node_ports bn (nodes plan) k node)) (sorted_keys (nodes plan))) /\
     (forall node, node ∈ dict_keys (nodes plan) ->
        inj_get node s (injector_base plan) = head (node_ports bn (nodes plan) k node) /\
        length (node_ports bn (nodes plan) k node) = length (cards_of (nodes plan) node))) /\
  (forall node k k' p, p ∈ node_ports bn (nodes plan) k node -> p ∈ node_ports bn (nodes plan) k' node -> k = k').
Proof.
  intros H. destruct (plan_spec _ _ _ _ _ H) as (Hn & Hs & Hi & Hp). split; [|split].
  - intros node. rewrite Hn. apply cards_of_group.
  - intros k s Hk. split; [by apply Hs|]. split; [by apply Hp|]. intros node Hnode.
    rewrite (Hi k s node) by done. unfold node_ports. rewrite length_seqZ. unfold count at 4. rewrite Nat2Z.id.
    split; [|done]. rewrite Hn in *. rewrite seqZ_cons by by apply group_nonempty. done.
  - intros node k k' p. unfold node_ports. rewrite !elem_of_seqZ. intros H1 H2.
    assert (0 < count (nodes plan) node) by lia. nia.
Qed.

(** Turning the probe on moves nothing that was planned without it. *)
Theorem probe_appends_only (cards : list (Card F)) bs bn p0 p1 :
  plan_cluster inet_aton cards bs bn false = Ok p0 -> plan_cluster inet_aton cards bs bn true = Ok p1 ->
  nodes p1 = nodes p0 /\ rx_only_wlan_ids p1 = rx_only_wlan_ids p0 /\
  forall s, s ∈ SERVICE_ORDER ->
    dict_get s (server_port p1) = dict_get s (server_port p0) /\ dict_get s (peers p1) = dict_get s (peers p0) /\
    forall node, node ∈ dict_keys (nodes p0) ->
      inj_get node s (injector_base p1) = inj_get node s (injector_base p0).
Proof.
  intros H0 H1. destruct (plan_spec _ _ _ _ _ H0) as (Hn0 & Hs0 & Hi0 & Hp0).
  destruct (plan_spec _ _ _ _ _ H1) as (Hn1 & Hs1 & Hi1 & Hp1).
  split; [congruence|]. split.
  { unfold plan_cluster in H0, H1. apply rbind_ok in H0 as (? & _ & (ids0 & E0 & [= <-])%rbind_ok).
    apply rbind_ok in H1 as (? & _ & (ids1 & E1 & [= <-])%rbind_ok). simpl. congruence. }
  intros s (k & Hk)%list_elem_of_lookup_1.
  assert (service_order false !! k = Some s /\ service_order true !! k = Some s) as [K0 K1].
  { unfold service_order. split; by apply lookup_app_l_Some. }
  rewrite (Hs0 k s), (Hs1 k s), (Hp0 k s), (Hp1 k s), Hn1, Hn0 by done. repeat split. intros node Hnode.
  rewrite (Hi0 k s), (Hi1 k s), Hn1, Hn0; rewrite ?Hn1, ?Hn0; done.
Qed.

(** The id of a card gives back its address and its index. *)
Lemma wlan_id_fields h (i id : Z) :
  cluster_wlan_id inet_aton h i = Ok id -> 0 <= i < 2 ^ 24 ->
  exists ip, inet_aton h = Some ip /\ Z.shiftr id 24 = ip /\ Z.land id (Z.ones 24) = i.
Proof.
  unfold cluster_wlan_id, node_ipv4_int. destruct (inet_aton h) as [ip|]; simpl; [|done]. intros [= <-] Hi.
  exists ip. split; [done|]. rewrite Z.shiftr_lor, Z.land_lor_distr_l. split.
  - rewrite Z.shiftr_shiftl_l by lia. change (24 - 24) with 0. rewrite Z.shiftl_0_r, (Z.shiftr_div_pow2 i) by lia.
    rewrite Z.div_small by lia. apply Z.lor_0_r.
  - rewrite !Z.land_ones by lia. rewrite Z.shiftl_mul_pow2, Z.mod_mul by lia. by rewrite Z.mod_small.
Qed.
End Promise.
