(* ===== verification/Cli.v ===== *)
(** * wfb/cli.py: the terminal viewer of the stats feed

    [fpvd-stats] reads the feed line by line, groups the events into windows
    and draws one frame per window.  [StickyRenderer] keeps a row for every
    stream and antenna it has seen, so that the frame does not jump when one
    misses a window.  A line of the feed is its text with the document it
    parses to, if it does; what is printed is returned. *)
From Stdlib Require Import ZArith Lia Bool String Ascii Sorted.
From stdpp Require Import base tactics list strings pretty sorting.
From S2P Require Import Prelude PyStr Json StatsClient Cluster.
Open Scope Z_scope.

Definition nl : string := String.String "010"%char EmptyString.
Definition CLEAR : string :=
  String.String "027"%char (String.append "[H" (String.String "027"%char "[2J")).

Section Cli.
Context {F : Type} {PF : PyFloat F}.
Variable repr : json F -> string.
Implicit Types (evs : list (Event F)).

Record feed_line := mkLine { fl_text : string; fl_json : option (json F) }.

(** ** Windows *)

(** The exceptions of [parse_record] that skip the record. *)
Definition skipped (e : pyerr) : bool :=
  match e with ContractVersionError _ | KeyError _ | ValueError _ | TypeError => true | _ => false end.

Definition event_of_line (l : feed_line) : res (option (Event F)) :=
  match fl_json l with
  | None => Ok None
  | Some raw => match parse_record repr raw with
                | Err e => if skipped e then Ok None else Err e
                | r => r
                end
  end.

Record win_state := mkWin { ws_settings : option (SettingsEvent F); ws_batch : list (Event F); ws_seen : list string }.

Definition with_settings (s : option (SettingsEvent F)) (batch : list (Event F)) : list (Event F) :=
  match s with Some e => EvSettings e :: batch | None => batch end.

(** One event: the new state and the window it closes, if any. *)
Definition win_step (st : win_state) (ev : Event F) : win_state * option (list (Event F)) :=
  match ev with
  | EvSettings s => (mkWin (Some s) (ws_batch st) (ws_seen st), None)
  | EvRx r =>
      if bool_decide (rx_id r ∈ ws_seen st)
      then (mkWin (ws_settings st) [ev] [rx_id r], Some (with_settings (ws_settings st) (ws_batch st)))
      else (mkWin (ws_settings st) (ws_batch st ++ [ev]) (rx_id r :: ws_seen st), None)
  | _ => (mkWin (ws_settings st) (ws_batch st ++ [ev]) (ws_seen st), None)
  end.

(** [_iter_windows]: the windows yielded, and the exception that ends the
    iteration, if one escapes. *)
Fixpoint iter_from (st : win_state) (lines : list feed_line) : list (list (Event F)) * option pyerr :=
  match lines with
  | [] => (match ws_batch st with [] => [] | b => [with_settings (ws_settings st) b] end, None)
  | l :: lines =>
      match event_of_line l with
      | Err e => ([], Some e)
      | Ok None => iter_from st lines
      | Ok (Some ev) =>
          let '(st1, w) := win_step st ev in
          let '(ws, err) := iter_from st1 lines in
          (match w with Some w => w :: ws | None => ws end, err)
      end
  end.
Definition _iter_windows (lines : list feed_line) : list (list (Event F)) * option pyerr :=
  iter_from (mkWin None [] []) lines.

(** ** Lines of a frame *)

Definition _fmt_triplet (lo avg hi : Z) : string := pretty lo +:+ "/" +:+ pretty avg +:+ "/" +:+ pretty hi.

(** [socket.inet_ntoa(struct.pack("!L", n))]. *)
Definition inet_ntoa (n : Z) : string :=
  join "." (map pretty [Z.shiftr n 24; Z.land (Z.shiftr n 16) 255; Z.land (Z.shiftr n 8) 255; Z.land n 255]).

Definition _card_label (wlan : Z) : res string :=
  let node_part := Z.shiftr wlan 24 in
  if node_part =? 0 then Ok ("card " +:+ pretty wlan)
  else if (0 <=? node_part) && (node_part <? 2 ^ 32)
  then Ok ("node " +:+ inet_ntoa node_part +:+ " card " +:+ pretty (Z.land wlan 0xFFFFFF))
  else Err StructError.

Definition NO_DATA : string := "(no data)".

(** [','.join(wlans)] takes strings only. *)
Definition as_str (v : json F) : res string := match v with JStr s => Ok s | _ => Err TypeError end.

Definition _settings_line (ev : SettingsEvent F) : res string :=
  let* ws := map_res as_str (se_wlans F ev) in
  Ok ("[settings] profile=" +:+ se_profile F ev +:+ " cluster=" +:+ (if se_is_cluster F ev then "True" else "False") +:+
      " wlans=" +:+ join "," ws).

(** The star of the card that transmits. *)
Definition marker (wlan : Z) (tx_wlan : option (json F)) : string :=
  match tx_wlan with Some v => if scalar_eqb (JInt wlan) v then " *" else "" | None => "" end.

(** The head of an antenna's line, and the line with its values. *)
Definition ant_head (ant_id : Z) (tx_wlan : option (json F)) : res string :=
  let wlan := Z.shiftr ant_id 8 in
  let* label := _card_label wlan in
  Ok (label +:+ marker wlan tx_wlan +:+ " ant " +:+ pretty (Z.land ant_id 0xFF) +:+ " | ").

Definition _ant_line (ant : RxAnt) (tx_wlan : option (json F)) : res string :=
  let* head := ant_head (ra_ant ant) tx_wlan in
  Ok (head +:+ "pkt " +:+ pretty (ra_pkt_recv ant) +:+ " | rssi " +:+
      _fmt_triplet (ra_rssi_min ant) (ra_rssi_avg ant) (ra_rssi_max ant) +:+ " | snr " +:+
      _fmt_triplet (ra_snr_min ant) (ra_snr_avg ant) (ra_snr_max ant) +:+ " | evm " +:+
      _fmt_triplet (ra_evm_min ant) (ra_evm_avg ant) (ra_evm_max ant)).

Definition _ant_placeholder_line (ant_id : Z) (tx_wlan : option (json F)) : res string :=
  let* head := ant_head ant_id tx_wlan in Ok (head +:+ NO_DATA).

Definition counter_of (k : string) (p : list (string * Z)) : string := pretty (default 0 (dict_get k p)).

Definition _counters_line (ev : RxEvent F) : string :=
  "  counters: fec_rec=" +:+ counter_of "fec_rec" (packets_window ev) +:+ " lost=" +:+
  counter_of "lost" (packets_window ev) +:+ " bad=" +:+ counter_of "bad" (packets_window ev).

Definition session_text (s : SessionInfo) : string :=
  "session: " +:+ fec_type s +:+ " k=" +:+ pretty (fec_k s) +:+ "/n=" +:+ pretty (fec_n s) +:+ " epoch=" +:+ pretty (epoch s).
Definition _session_line (s : SessionInfo) : string := "  " +:+ session_text s.

Definition sent_of (ev : TxEvent F) : string := counter_of "sent" (tx_packets_window F ev).

Definition event_id (ev : Event F) : string :=
  match ev with EvSettings _ => "" | EvRx r => rx_id r | EvTx t => tx_id F t | EvSession s => ses_id s end.

(** ** The stateless frame *)

(** Python's stable [sorted] by a key, as insertion. *)
Fixpoint insert_by {A} (le : A -> A -> bool) (x : A) (l : list A) : list A :=
  match l with
  | [] => [x]
  | y :: l' => if le x y then x :: y :: l' else y :: insert_by le x l'
  end.
Definition sort_by {A} (le : A -> A -> bool) (l : list A) : list A := foldr (insert_by le) [] l.

Definition frame_le (a b : Event F) : bool :=
  match a, b with
  | EvSettings _, _ => true
  | _, EvSettings _ => false
  | _, _ => bool_decide (String.le (event_id a) (event_id b))
  end.

Definition session_tail (s : option SessionInfo) : list string :=
  match s with Some s => [_session_line s] | None => [] end.

Definition frame_lines (ev : Event F) : res (list string) :=
  match ev with
  | EvSettings s => let* l := _settings_line s in Ok [l]
  | EvRx r =>
      let* ants := map_res (fun a => _ant_line a (rx_tx_wlan r))
                     (sort_by (fun a b => ra_ant a <=? ra_ant b) (rx_ant_stats r)) in
      Ok (("-- " +:+ rx_id r +:+ " --") :: ants ++ _counters_line r :: session_tail (rx_session r))
  | EvSession s => Ok ["-- " +:+ ses_id s +:+ " " +:+ session_text (ses_session s) +:+ " --"]
  | EvTx t => Ok ["-- " +:+ tx_id F t +:+ " (tx) -- sent=" +:+ sent_of t]
  end.

Definition frame_text (lines : list string) : string := join nl lines +:+ nl.

Definition render_frame evs : res string :=
  let* ls := map_res frame_lines (sort_by frame_le evs) in Ok (frame_text (concat ls)).

(** ** The sticky frame *)

Inductive stream_kind := KRx | KTx.

(** The streams seen, the antennas seen of each, the last epoch of each. *)
Record StickyRenderer := mkSticky {
  sk_streams : list (string * stream_kind);
  sk_ants : list (string * list Z);
  sk_epoch : list (string * Z)
}.
Definition sticky_new : StickyRenderer := mkSticky [] [] [].

(** [d.setdefault(k, v)], and adding to a set. *)
Definition setdefault {V} (k : string) (v : V) (d : list (string * V)) : list (string * V) :=
  match dict_get k d with Some _ => d | None => dict_set k v d end.
Definition set_add (s : list Z) (x : Z) : list Z := if bool_decide (x ∈ s) then s else s ++ [x].

Definition event_epoch (ev : Event F) : option (string * Z) :=
  match ev with
  | EvRx r => (fun s => (rx_id r, epoch s)) <$> rx_session r
  | EvSession s => Some (ses_id s, epoch (ses_session s))
  | _ => None
  end.

Definition _session_epochs evs : list (string * Z) := omap event_epoch evs.

Definition epoch_changed (st : StickyRenderer) (e : string * Z) : bool :=
  match dict_get e.1 (sk_epoch st) with Some x => negb (x =? e.2) | None => false end.

Definition _maybe_reset (st : StickyRenderer) evs : StickyRenderer :=
  if existsb (epoch_changed st) (_session_epochs evs) then sticky_new else st.

(** What [_register] builds up: the memory, the settings and the event of each
    stream. *)
Record registered := mkReg { rg_sticky : StickyRenderer; rg_settings : option (SettingsEvent F); rg_by_id : list (string * Event F) }.

Definition remember (k : stream_kind) (id : string) (ants : list Z) (ep : option Z) (st : StickyRenderer) : StickyRenderer :=
  mkSticky (setdefault id k (sk_streams st))
    (let d := setdefault id [] (sk_ants st) in dict_set id (fold_left set_add ants (default [] (dict_get id d))) d)
    (match ep with Some e => dict_set id e (sk_epoch st) | None => sk_epoch st end).

Definition register_event (g : registered) (ev : Event F) : registered :=
  match ev with
  | EvSettings s => mkReg (rg_sticky g) (Some s) (rg_by_id g)
  | EvRx r => mkReg (remember KRx (rx_id r) (map ra_ant (rx_ant_stats r)) (epoch <$> rx_session r) (rg_sticky g))
                (rg_settings g) (dict_set (rx_id r) ev (rg_by_id g))
  | EvTx t => mkReg (remember KTx (tx_id F t) [] None (rg_sticky g)) (rg_settings g) (dict_set (tx_id F t) ev (rg_by_id g))
  | EvSession s => mkReg (remember KRx (ses_id s) [] (Some (epoch (ses_session s))) (rg_sticky g)) (rg_settings g)
                     (setdefault (ses_id s) ev (rg_by_id g))
  end.
Definition _register (st : StickyRenderer) evs : registered := fold_left register_event evs (mkReg st None []).

(** [{a.ant: a}.get(ant_id)]: the last antenna of that id. *)
Definition present (ant_id : Z) (l : list RxAnt) : option RxAnt := last (filter (fun a => ra_ant a = ant_id) l).

Definition slot_line (ev : option (Event F)) (ant_id : Z) : res string :=
  match ev with
  | Some (EvRx r) => match present ant_id (rx_ant_stats r) with
                     | Some a => _ant_line a (rx_tx_wlan r)
                     | None => _ant_placeholder_line ant_id (rx_tx_wlan r)
                     end
  | _ => _ant_placeholder_line ant_id None
  end.

Definition known_ants (st : StickyRenderer) (sid : string) : res (list Z) :=
  match dict_get sid (sk_ants st) with Some l => Ok (merge_sort Z.le l) | None => Err (KeyError sid) end.

Definition _emit_rx (st : StickyRenderer) (sid : string) (ev : option (Event F)) : res (list string) :=
  let* ants := known_ants st sid in
  let* rows := map_res (slot_line ev) ants in
  Ok (("-- " +:+ sid +:+ " --") :: rows ++
      match ev with
      | Some (EvRx r) => _counters_line r :: session_tail (rx_session r)
      | Some (EvSession s) => ["  counters: " +:+ NO_DATA; _session_line (ses_session s)]
      | _ => ["  counters: " +:+ NO_DATA]
      end).

Definition _emit_tx (sid : string) (ev : option (Event F)) : list string :=
  match ev with
  | Some (EvTx t) => ["-- " +:+ sid +:+ " (tx) -- sent=" +:+ sent_of t]
  | _ => ["-- " +:+ sid +:+ " (tx) -- " +:+ NO_DATA]
  end.

Definition emit_stream (g : registered) (sid : string) : res (list string) :=
  match dict_get sid (sk_streams (rg_sticky g)) with
  | Some KTx => Ok (_emit_tx sid (dict_get sid (rg_by_id g)))
  | _ => _emit_rx (rg_sticky g) sid (dict_get sid (rg_by_id g))
  end.

(** The memory is kept whatever the drawing raises. *)
Definition render (st : StickyRenderer) evs : StickyRenderer * res string :=
  let g := _register (_maybe_reset st evs) evs in
  (rg_sticky g,
   let* head := match rg_settings g with Some s => let* l := _settings_line s in Ok [l] | None => Ok [] end in
   let* blocks := map_res (emit_stream g) (sorted_keys (sk_streams (rg_sticky g))) in
   Ok (frame_text (head ++ concat blocks))).

(** ** The two modes of the tool *)

(** What is printed, and the exception that ends the run, if any. *)
Fixpoint _run_json (once : bool) (lines : list feed_line) : list string * option pyerr :=
  match lines with
  | [] => (["fpvd-stats: disconnected"], None)
  | l :: rest =>
      let next := let '(o, e) := _run_json once rest in (fl_text l :: o, e) in
      if once then
        match fl_json l with
        | None => next
        | Some raw => match obj_get "type" JNull raw with
                      | Err e => ([fl_text l], Some e)
                      | Ok t => if scalar_eqb t (JStr "rx") then ([fl_text l], None) else next
                      end
        end
      else next
  end.

Fixpoint draw (st : StickyRenderer) (ws : list (list (Event F))) (ended : option pyerr) : list string * option pyerr :=
  match ws with
  | [] => match ended with Some e => ([], Some e) | None => (["fpvd-stats: disconnected"], None) end
  | w :: ws => let '(st1, r) := render st w in
               match r with
               | Err e => ([CLEAR], Some e)
               | Ok frame => let '(o, e) := draw st1 ws ended in (CLEAR :: frame :: o, e)
               end
  end.

Definition _run_rendered (once : bool) (lines : list feed_line) : list string * option pyerr :=
  let '(ws, ended) := _iter_windows lines in
  if once then
    match ws with
    | w :: _ => match (render sticky_new w).2 with Ok frame => ([frame], None) | Err e => ([], Some e) end
    | [] => draw sticky_new [] ended
    end
  else draw sticky_new ws ended.
End Cli.

(* ------------------------------------------------------------------ *)
(** ** The windows partition the feed *)

Section Windows.
Context {F : Type} {PF : PyFloat F} (repr : json F -> string).
Implicit Types (w : list (Event F)) (ws : list (list (Event F))).

Definition is_settings (e : Event F) : bool := match e with EvSettings _ => true | _ => false end.

(** A window without its settings header; the receivers it has heard. *)
Definition body w : list (Event F) := List.filter (fun e => negb (is_settings e)) w.
Definition rx_ids w : list string := omap (fun e => match e with EvRx r => Some (rx_id r) | _ => None end) w.

(** The events of the lines that parse, less the settings. *)
Definition feed_events (lines : list (feed_line (F := F))) : list (Event F) :=
  body (omap (fun l => match event_of_line repr l with Ok o => o | Err _ => None end) lines).

(** Each window but the first starts with a receiver the one before it has
    heard. *)
Fixpoint chained ws : Prop :=
  match ws with
  | w1 :: ((w2 :: _) as rest) => (exists r tl, body w2 = EvRx r :: tl /\ rx_id r ∈ rx_ids w1) /\ chained rest
  | _ => True
  end.

Definition window_ok w : Prop := body w <> [] /\ NoDup (rx_ids w).

Definition win_ok (st : win_state (F := F)) : Prop :=
  body (ws_batch st) = ws_batch st /\ NoDup (rx_ids (ws_batch st)) /\ (forall id, id ∈ ws_seen st <-> id ∈ rx_ids (ws_batch st)).

Lemma body_app w1 w2 : body (w1 ++ w2) = body w1 ++ body w2.
Proof. unfold body. induction w1 as [|e w1 IH]; cbn; [done|]. destruct (negb _); cbn; by rewrite IH. Qed.

Lemma body_with_settings s w : body (with_settings s w) = body w.
Proof. by destruct s. Qed.

Lemma rx_ids_app w1 w2 : rx_ids (w1 ++ w2) = rx_ids w1 ++ rx_ids w2.
Proof. apply omap_app. Qed.

Lemma rx_ids_with_settings s w : rx_ids (with_settings s w) = rx_ids w.
Proof. by destruct s. Qed.

(** What an event does to the batch. *)
Lemma win_step_spec st ev st1 o :
  win_ok st -> win_step st ev = (st1, o) ->
  win_ok st1 /\
  match o with
  | None => ws_batch st1 = ws_batch st ++ body [ev]
  | Some w => body w = ws_batch st /\ window_ok w /\ ws_batch st1 = body [ev] /\
              exists r, ev = EvRx r /\ rx_id r ∈ rx_ids w
  end.
Proof.
  intros (Hb & Hn & Hs) H. destruct ev as [s|r|t|s]; cbn in H.
  - simplify_eq. cbn. by rewrite app_nil_r.
  - destruct (bool_decide_reflect (rx_id r ∈ ws_seen st)) as [Hin|Hin]; simplify_eq; cbn [ws_batch ws_seen ws_settings].
    + split; [split; [done|]; split; [apply NoDup_singleton|done]|].
      rewrite body_with_settings. split; [done|]. split; [|split; [done|]].
      * split; [rewrite body_with_settings, Hb|by rewrite rx_ids_with_settings].
        intros E. apply Hs in Hin. rewrite E in Hin. by apply not_elem_of_nil in Hin.
      * exists r. split; [done|]. rewrite rx_ids_with_settings. by apply Hs.
    + split; [|done]. unfold win_ok. cbn [ws_batch ws_seen]. rewrite body_app, Hb, rx_ids_app. split; [done|]. split.
      * apply NoDup_app. split; [done|]. split; [|apply NoDup_singleton].
        intros id Hid ->%list_elem_of_singleton. by apply Hin, Hs.
      * intros id. change (rx_ids [EvRx r]) with [rx_id r]. rewrite elem_of_cons, elem_of_app, list_elem_of_singleton, Hs. tauto.
  - simplify_eq. unfold win_ok. cbn [ws_batch ws_seen]. rewrite body_app, Hb, rx_ids_app, app_nil_r. by cbn.
  - simplify_eq. unfold win_ok. cbn [ws_batch ws_seen]. rewrite body_app, Hb, rx_ids_app, app_nil_r. by cbn.
Qed.

Lemma feed_events_cons l lines :
  feed_events (l :: lines) = match event_of_line repr l with Ok (Some ev) => body [ev] | _ => [] end ++ feed_events lines.
Proof.
  unfold feed_events. cbn. destruct (event_of_line repr l) as [[ev|]|e]; [|done|done].
  exact (body_app [ev] _).
Qed.

Lemma iter_from_spec lines st ws err :
  win_ok st -> iter_from repr st lines = (ws, err) ->
  concat (map body ws) `prefix_of` ws_batch st ++ feed_events lines /\
  (err = None -> concat (map body ws) = ws_batch st ++ feed_events lines) /\
  Forall window_ok ws /\ chained ws /\
  match ws with w :: _ => ws_batch st `prefix_of` body w | [] => True end.
Proof.
  revert st ws err. induction lines as [|l lines IH]; intros st ws err Hok H.
  - cbn in H. destruct Hok as (Hb & Hn & _). destruct (ws_batch st) as [|e b] eqn:E; simplify_eq; cbn [map concat].
    { by split_and!. }
    rewrite body_with_settings, Hb, !app_nil_r. split_and!; try done.
    constructor; [|constructor]. split; [by rewrite body_with_settings, Hb|by rewrite rx_ids_with_settings].
  - rewrite feed_events_cons. cbn in H. destruct (event_of_line repr l) as [[ev|]|e]; [| |simplify_eq].
    + destruct (win_step st ev) as [st1 o] eqn:Es. destruct (win_step_spec _ _ _ _ Hok Es) as (Hok1 & Ho).
      destruct (iter_from repr st1 lines) as [ws1 err1] eqn:Ei. destruct (IH _ _ _ Hok1 Ei) as (Hp & He & Hw & Hc & Hf).
      destruct o as [w|]; injection H as <- <-.
      * destruct Ho as (Hbw & Hww & Hb1 & r & -> & Hr). rewrite Hb1 in *. cbn [map concat]. rewrite Hbw.
        split; [by apply prefix_app|]. split; [intros E; by rewrite (He E)|]. split; [by constructor|].
        split; [|done]. destruct ws1 as [|w2 ws2]; [done|]. split; [|done]. destruct Hf as [tl ->]. by exists r, tl.
      * rewrite Ho, <- app_assoc in *. split; [done|]. split; [done|]. split; [done|]. split; [done|].
        destruct ws1; [done|]. etrans; [by apply prefix_app_r|done].
    + by apply (IH st).
    + split_and!; try done. apply prefix_nil.
Qed.

(** What [_iter_windows] yields. *)
Theorem windows_partition lines :
  let '(ws, err) := _iter_windows repr lines in
  concat (map body ws) `prefix_of` feed_events lines /\ (err = None -> concat (map body ws) = feed_events lines) /\
  Forall window_ok ws /\ chained ws.
Proof.
  destruct (_iter_windows repr lines) as [ws err] eqn:E. eapply iter_from_spec in E; [|by repeat constructor; intros ?%not_elem_of_nil].
  naive_solver.
Qed.

(** A line of JSON that is not an object ends the viewer. *)
Lemma non_object_line_escapes text : _iter_windows repr [mkLine text (Some (JList []))] = ([], Some AttributeError).
Proof. done. Qed.
End Windows.

(* ------------------------------------------------------------------ *)
(** ** Rows stay where they are *)

(** A sorted list without duplicates is a subsequence of every sorted list that
    holds its elements. *)
Lemma sorted_incl_sublist {A} (R : relation A) `{!AntiSymm (=) R} (l1 l2 : list A) :
  StronglySorted R l1 -> StronglySorted R l2 -> NoDup l1 -> (forall x, x ∈ l1 -> x ∈ l2) -> sublist l1 l2.
Proof.
  revert l1. induction l2 as [|y l2 IH]; intros l1 H1 H2 Hn Hin.
  { destruct l1 as [|a l1]; [done|]. exfalso. apply (not_elem_of_nil a). apply Hin. by left. }
  destruct l1 as [|x l1]; [apply sublist_nil_l|].
  apply StronglySorted_inv in H1 as [H1 Hx]. apply StronglySorted_inv in H2 as [H2 Hy].
  apply NoDup_cons in Hn as [Hxn Hn]. assert (Hxin := Hin x (list_elem_of_here _ _)). apply elem_of_cons in Hxin as [-> |Hxl].
  - apply sublist_skip. apply IH; try done. intros z Hz.
    assert (Hzin := Hin z (list_elem_of_further _ _ _ Hz)). apply elem_of_cons in Hzin as [-> |]; done.
  - apply sublist_cons. apply IH; [by constructor|done|by apply NoDup_cons|]. intros z Hz.
    assert (Hzin := Hin z Hz). apply elem_of_cons in Hzin as [-> |]; [|done]. apply elem_of_cons in Hz as [-> |Hz]; [done|].
    rewrite Forall_forall in Hx, Hy. by rewrite (anti_symm R y x (Hy x Hxl) (Hx y Hz)).
Qed.

Lemma merge_sort_sublist {A} (R : relation A) `{!RelDecision R, !AntiSymm (=) R, !Transitive R, !Total R} (l1 l2 : list A) :
  NoDup l1 -> (forall x, x ∈ l1 -> x ∈ l2) -> sublist (merge_sort R l1) (merge_sort R l2).
Proof.
  intros Hn Hin. apply (sorted_incl_sublist R).
  - apply Sorted_StronglySorted, Sorted_merge_sort; [apply _|done].
  - apply Sorted_StronglySorted, Sorted_merge_sort; [apply _|done].
  - by rewrite merge_sort_Permutation.
  - intros x. rewrite !merge_sort_Permutation. apply Hin.
Qed.

Lemma sublist_map {A B} (f : A -> B) (l1 l2 : list A) : sublist l1 l2 -> sublist (map f l1) (map f l2).
Proof. induction 1; cbn; [apply sublist_nil|by apply sublist_skip|by apply sublist_cons]. Qed.

Lemma sublist_concat_map {A B} (f g : A -> list B) (l1 l2 : list A) :
  sublist l1 l2 -> (forall x, x ∈ l1 -> sublist (f x) (g x)) -> sublist (concat (map f l1)) (concat (map g l2)).
Proof.
  induction 1 as [|x l1 l2 _ IH|x l1 l2 _ IH]; intros Hfg; cbn; [done| |].
  - apply sublist_app; [apply Hfg; by left|]. apply IH. intros y Hy. apply Hfg. by right.
  - apply sublist_inserts_l. by apply IH.
Qed.

Section Rows.
Context {F : Type} {PF : PyFloat F}.
Implicit Types (st : StickyRenderer) (w : list (Event F)) (ws : list (list (Event F))).

(** The rows of a frame that belong to a stream: its header, and one per
    antenna unless it transmits. *)
Definition stream_slots st (sid : string) : list (string * option Z) :=
  (sid, None) :: match dict_get sid (sk_streams st) with
                 | Some KTx => []
                 | _ => map (fun a => (sid, Some a)) (merge_sort Z.le (default [] (dict_get sid (sk_ants st))))
                 end.
Definition slots st : list (string * option Z) := concat (map (stream_slots st) (sorted_keys (sk_streams st))).

Record sticky_ok st : Prop := {
  st_keys : NoDup (dict_keys (sk_streams st));
  st_ants : forall sid, sid ∈ dict_keys (sk_streams st) -> is_Some (dict_get sid (sk_ants st));
  st_sets : forall sid l, dict_get sid (sk_ants st) = Some l -> NoDup l
}.

Record grows st st' : Prop := {
  gr_streams : forall sid k, dict_get sid (sk_streams st) = Some k -> dict_get sid (sk_streams st') = Some k;
  gr_ants : forall sid x, x ∈ default [] (dict_get sid (sk_ants st)) -> x ∈ default [] (dict_get sid (sk_ants st'))
}.

Lemma grows_refl st : grows st st.
Proof. by split. Qed.
Lemma grows_trans st1 st2 st3 : grows st1 st2 -> grows st2 st3 -> grows st1 st3.
Proof. intros [H1 H2] [H3 H4]. split; auto. Qed.

Lemma set_add_elem s x y : y ∈ set_add s x <-> y ∈ s \/ y = x.
Proof. unfold set_add. case_bool_decide; [naive_solver|]. rewrite elem_of_app, list_elem_of_singleton. tauto. Qed.
Lemma set_add_NoDup s x : NoDup s -> NoDup (set_add s x).
Proof.
  intros H. unfold set_add. case_bool_decide as Hx; [done|]. apply NoDup_app. split; [done|]. split; [|apply NoDup_singleton].
  by intros y Hy ->%list_elem_of_singleton.
Qed.
Lemma set_update_elem l s y : y ∈ fold_left set_add l s <-> y ∈ s \/ y ∈ l.
Proof.
  revert s. induction l as [|x l IH]; intros s; cbn; [rewrite elem_of_nil; tauto|].
  rewrite IH, set_add_elem, elem_of_cons. tauto.
Qed.
Lemma set_update_NoDup l s : NoDup s -> NoDup (fold_left set_add l s).
Proof. revert s. induction l as [|x l IH]; intros s H; cbn; [done|]. apply IH. by apply set_add_NoDup. Qed.

Lemma setdefault_get {V} k (v : V) d k' :
  dict_get k' (setdefault k v d) = match dict_get k' d with Some x => Some x | None => if String.eqb k k' then Some v else None end.
Proof.
  unfold setdefault. destruct (String.eqb_spec k k') as [<-|Hne].
  - destruct (dict_get k d) eqn:E; [done|]. apply dict_get_set_eq.
  - destruct (dict_get k d); [|rewrite dict_get_set_ne by done]; by destruct (dict_get k' d).
Qed.

Lemma setdefault_NoDup {V} k (v : V) d : NoDup (dict_keys d) -> NoDup (dict_keys (setdefault k v d)).
Proof. intros H. unfold setdefault. destruct (dict_get k d); [done|]. by apply dict_keys_set_NoDup. Qed.

Lemma key_get {V} k (d : list (string * V)) : k ∈ dict_keys d <-> is_Some (dict_get k d).
Proof.
  destruct (dict_get k d) as [v|] eqn:E; [by apply dict_get_some_key in E; naive_solver|].
  apply dict_get_none in E. split; [done|]. by intros [? [=]].
Qed.

(** The antennas of a stream after [remember]. *)
Lemma remember_ants k id ants ep st sid :
  dict_get sid (sk_ants (remember k id ants ep st)) =
    if String.eqb id sid then Some (fold_left set_add ants (default [] (dict_get id (sk_ants st)))) else dict_get sid (sk_ants st).
Proof.
  unfold remember. cbn. destruct (String.eqb_spec id sid) as [<-|Hne].
  - rewrite dict_get_set_eq, setdefault_get, String.eqb_refl. by destruct (dict_get id (sk_ants st)).
  - rewrite dict_get_set_ne, setdefault_get by done. destruct (String.eqb_spec id sid); [done|]. by destruct (dict_get sid (sk_ants st)).
Qed.

Lemma remember_grows k id ants ep st : grows st (remember k id ants ep st).
Proof.
  split.
  - intros sid k' H. cbn. by rewrite setdefault_get, H.
  - intros sid x Hx. rewrite remember_ants. destruct (String.eqb_spec id sid) as [->|]; [|done]. apply set_update_elem. by left.
Qed.

Lemma remember_ok k id ants ep st : sticky_ok st -> sticky_ok (remember k id ants ep st).
Proof.
  intros [H1 H2 H3]. split.
  - by apply setdefault_NoDup.
  - intros sid. rewrite key_get. cbn [sk_streams remember]. rewrite setdefault_get, remember_ants.
    destruct (String.eqb_spec id sid) as [->|]; [by eauto|]. intros Hs. apply H2, key_get.
    by destruct (dict_get sid (sk_streams st)).
  - intros sid l. rewrite remember_ants. destruct (String.eqb_spec id sid) as [->|]; [|by apply H3]. intros [= <-].
    apply set_update_NoDup. destruct (dict_get sid (sk_ants st)) eqn:E; [by eapply H3|constructor].
Qed.

Lemma register_spec w g :
  let g' := fold_left register_event w g in
  grows (rg_sticky g) (rg_sticky g') /\ (sticky_ok (rg_sticky g) -> sticky_ok (rg_sticky g')) /\
  (forall r a, EvRx r ∈ w -> a ∈ rx_ant_stats r ->
     is_Some (dict_get (rx_id r) (sk_streams (rg_sticky g'))) /\
     ra_ant a ∈ default [] (dict_get (rx_id r) (sk_ants (rg_sticky g')))).
Proof.
  revert g. induction w as [|e w IH]; intros g; cbn zeta.
  { split; [apply grows_refl|]. split; [done|]. by intros r a ?%not_elem_of_nil. }
  cbn [fold_left]. destruct (IH (register_event g e)) as (Hg & Hok & Hr).
  assert (H1 : grows (rg_sticky g) (rg_sticky (register_event g e)) /\ (sticky_ok (rg_sticky g) -> sticky_ok (rg_sticky (register_event g e)))).
  { destruct e; cbn [register_event rg_sticky]; split; try done; try apply grows_refl; try apply remember_grows; apply remember_ok. }
  destruct H1 as [Hg1 Hok1]. split; [by eapply grows_trans|]. split; [auto|].
  intros r a [<-|Hin]%elem_of_cons Ha; [|by apply Hr]. destruct Hg as [Gs Ga]. split.
  - cbn [register_event rg_sticky] in Gs. cbn [remember sk_streams] in Gs. specialize (Gs (rx_id r)).
    rewrite setdefault_get, String.eqb_refl in Gs. destruct (dict_get (rx_id r) (sk_streams (rg_sticky g))); eauto.
  - apply Ga. cbn [register_event rg_sticky]. rewrite remember_ants, String.eqb_refl. cbn. apply set_update_elem. right.
    apply list_elem_of_fmap. eauto.
Qed.

Lemma grows_slots st st' : sticky_ok st -> grows st st' -> sublist (slots st) (slots st').
Proof.
  intros [Hn Ha Hs] [Gs Ga]. apply sublist_concat_map.
  - apply (merge_sort_sublist String.le); [done|]. intros sid. rewrite !key_get. intros [k Hk]. eauto.
  - intros sid Hsid. apply sorted_keys_elem, key_get in Hsid as [k Hk]. unfold stream_slots. rewrite Hk, (Gs _ _ Hk).
    apply sublist_skip. destruct k; [|done]. apply sublist_map, (merge_sort_sublist Z.le); [|apply Ga].
    destruct (dict_get sid (sk_ants st)) eqn:E; [by eapply Hs|constructor].
Qed.

(** The memory after some windows. *)
Definition sticky_after ws : StickyRenderer := fold_left (fun st w => (render st w).1) ws sticky_new.

Lemma reset_ok st w : sticky_ok st -> sticky_ok (_maybe_reset st w).
Proof.
  intros H. unfold _maybe_reset. destruct (existsb _ _); [|done].
  split; [constructor|by intros sid ?%not_elem_of_nil|done].
Qed.

Lemma sticky_after_ok ws : sticky_ok (sticky_after ws).
Proof.
  unfold sticky_after. assert (H : sticky_ok sticky_new) by (split; [constructor|by intros sid ?%not_elem_of_nil|done]).
  revert H. generalize sticky_new. induction ws as [|w ws IH]; intros st H; cbn [fold_left]; [done|].
  apply IH. apply (register_spec w (mkReg (_maybe_reset st w) None [])). by apply reset_ok.
Qed.

(** *** What drawing may raise *)

(** The exceptions of a wlan id or a wlan name that cannot be shown. *)
Definition shown {A} (r : res A) : Prop := forall e, r = Err e -> e = StructError \/ e = TypeError.

Lemma shown_bind {A B} (m : res A) (k : A -> res B) : shown m -> (forall x, m = Ok x -> shown (k x)) -> shown (rbind m k).
Proof. intros Hm Hk e. destruct m as [x|e']; cbn; [exact (Hk x eq_refl e)|]. intros [= <-]. by apply Hm. Qed.
Lemma shown_ok {A} (x : A) : shown (Ok x).
Proof. by intros e [=]. Qed.
Lemma shown_map {A B} (f : A -> res B) l : (forall x, x ∈ l -> shown (f x)) -> shown (map_res f l).
Proof.
  induction l as [|x l IH]; intros H; cbn; [apply shown_ok|]. apply shown_bind; [apply H; by left|]. intros y _.
  apply shown_bind; [apply IH; intros z Hz; apply H; by right|]. intros; apply shown_ok.
Qed.

Lemma label_shown wlan : shown (_card_label wlan).
Proof. unfold _card_label. repeat case_match; try apply shown_ok. intros e [= <-]. by left. Qed.
Lemma ant_head_shown id (t : option (json F)) : shown (ant_head id t).
Proof. apply shown_bind; [apply label_shown|]. intros; apply shown_ok. Qed.

Lemma slot_shown (ev : option (Event F)) id : shown (slot_line ev id).
Proof.
  unfold slot_line, _ant_line, _ant_placeholder_line.
  destruct ev as [[]|]; try destruct (present _ _); (apply shown_bind; [apply ant_head_shown|intros; apply shown_ok]).
Qed.

Lemma settings_shown (s : SettingsEvent F) : shown (_settings_line s).
Proof.
  apply shown_bind; [|intros; apply shown_ok]. apply shown_map. intros v _.
  destruct v; first [apply shown_ok|intros e [= <-]; by right].
Qed.

Lemma render_shown st w : sticky_ok (rg_sticky (_register (_maybe_reset st w) w)) -> shown (render st w).2.
Proof.
  intros [_ Ha _]. unfold render. set (g := _register _ w) in *. cbn [snd]. apply shown_bind.
  { destruct (rg_settings g) as [s|]; [|apply shown_ok]. apply shown_bind; [apply settings_shown|]. intros; apply shown_ok. }
  intros head _. apply shown_bind; [|intros; apply shown_ok]. apply shown_map. intros sid Hsid.
  apply sorted_keys_elem in Hsid. unfold emit_stream, _emit_rx, known_ants. destruct (Ha sid Hsid) as [l ->].
  assert (H : forall k, shown (let* rows := map_res (slot_line (dict_get sid (rg_by_id g))) (merge_sort Z.le l) in
                               Ok (k rows : list string))).
  { intros k. apply shown_bind; [|intros; apply shown_ok]. apply shown_map. intros a _. apply slot_shown. }
  destruct (dict_get sid (sk_streams (rg_sticky g))) as [[]|]; [apply (H (fun rows => _))|apply shown_ok|apply (H (fun rows => _))].
Qed.

(** After any windows, the next frame. *)
Theorem sticky_frames ws w :
  let st := sticky_after ws in
  let st' := (render st w).1 in
  (existsb (epoch_changed st) (_session_epochs w) = false -> sublist (slots st) (slots st')) /\
  (forall r a, EvRx r ∈ w -> a ∈ rx_ant_stats r -> dict_get (rx_id r) (sk_streams st') <> Some KTx ->
     (rx_id r, Some (ra_ant a)) ∈ slots st') /\
  shown (render st w).2.
Proof.
  cbn zeta. set (st := sticky_after ws). assert (Hok : sticky_ok st) by apply sticky_after_ok.
  destruct (register_spec w (mkReg (_maybe_reset st w) None [])) as (Hg & Hok' & Hr).
  change (fold_left register_event w (mkReg (_maybe_reset st w) None [])) with (_register (_maybe_reset st w) w) in *.
  cbn [rg_sticky] in *. assert (Hok1 := Hok' (reset_ok st w Hok)). split; [|split].
  - intros He. apply grows_slots; [done|]. unfold render. cbn [fst]. unfold _maybe_reset in Hg |- *. by rewrite He in Hg |- *.
  - intros r a Hin Ha Hk. destruct (Hr r a Hin Ha) as [[k Hs] Ha']. unfold render in *. cbn [fst] in *.
    set (st' := rg_sticky _) in *. unfold slots. apply list_elem_of_In, in_concat. exists (stream_slots st' (rx_id r)).
    split; apply list_elem_of_In.
    + apply list_elem_of_fmap. exists (rx_id r). split; [done|]. apply sorted_keys_elem, key_get. by eauto.
    + right. rewrite Hs in Hk |- *. destruct k; [|done]. apply list_elem_of_fmap. exists (ra_ant a). split; [done|].
      by rewrite merge_sort_Permutation.
  - by apply render_shown.
Qed.
End Rows.

(** The viewer shows a remote card by the address and index its id was made
    of. *)
Lemma card_label_of_cluster (inet_aton : string -> option Z) h i id ip :
  cluster_wlan_id inet_aton h i = Ok id -> inet_aton h = Some ip -> 0 < ip < 2 ^ 32 -> 0 <= i < 2 ^ 24 ->
  _card_label id = Ok ("node " +:+ inet_ntoa ip +:+ " card " +:+ pretty i).
Proof.
  intros Hid Ha Hip Hi. destruct (wlan_id_fields inet_aton h i id Hid Hi) as (ip' & Ha' & Hs & Hl).
  rewrite Ha in Ha'. injection Ha' as <-. unfold _card_label. rewrite Hs.
  destruct (Z.eqb_spec ip 0); [lia|]. rewrite (proj2 (Z.leb_le 0 ip)), (proj2 (Z.ltb_lt ip (2 ^ 32))) by lia.
  cbn [andb]. change 0xFFFFFF with (Z.ones 24). by rewrite Hl.
Qed.

Example remote_label : _card_label (Z.shiftl 0x0A000002 24 + 1) = Ok "node 10.0.0.2 card 1".
Proof. vm_compute. reflexivity. Qed.
