(* ===== verification/CliMain.v ===== *)
(** * wfb/cli.py: the connection and [main]

    From the command line to the output: the endpoint is parsed and connected,
    the lines of the stream are stripped and the empty ones dropped, and one of
    the two modes of [Cli] runs over them.  The parsed arguments, whether the
    connect succeeds, and the stream up to its end are arguments. *)
From Stdlib Require Import ZArith Lia Bool Ascii String.
From stdpp Require Import base tactics list sets strings.
From S2P Require Import Prelude PyStr Json StatsClient JsonText Url Bytes TapWire Capture LineProto TxSel StatsHub Statsd FeedText Cli.
Open Scope Z_scope.

Record cli_args := mkCliArgs { ca_endpoint : string; ca_json : bool; ca_once : bool }.
Definition default_endpoint : string := "tcp://127.0.0.1:8103".

(** The exit status and what was printed; or an exception that escapes. *)
Inductive cli_outcome := CliExit (code : Z) (out : list string) | CliRaises (out : list string) (e : pyerr).

Section Main.
Context {F : Type} {PF : PyFloat F} (repr : json F -> string) (bracket_ok : string -> bool).

Definition _lines (stream : list string) : list (feed_line (F := F)) :=
  omap (fun raw => let line := strip raw in if String.eqb line "" then None else Some (mkLine line (loads line))) stream.

(** The viewer's copy of the stats client's parser: the same code. *)
Definition cli_parse_endpoint : string -> res (string * Z) := _parse_endpoint bracket_ok.

(** [connect]: the [OSError] a connect raises, or nothing. *)
Definition _connect (connect : string * Z -> option pyerr) (endpoint : string) : res unit :=
  let* hp := cli_parse_endpoint endpoint in
  match connect hp with Some e => Err e | None => Ok tt end.

Definition is_oserror (e : pyerr) : bool := match e with OSError _ => true | _ => false end.

Definition cli_main (connect : string * Z -> option pyerr) (a : cli_args) (stream : list string) : cli_outcome :=
  match _connect connect (ca_endpoint a) with
  | Err e => if is_oserror e then CliExit 1 ["fpvd-stats: connect " +:+ ca_endpoint a +:+ " failed"] else CliRaises [] e
  | Ok _ =>
      let '(out, ended) := if ca_json a then _run_json (ca_once a) (_lines stream) else _run_rendered repr (ca_once a) (_lines stream) in
      match ended with
      | None => CliExit 0 out
      | Some e => if is_oserror e then CliExit 1 (out ++ ["fpvd-stats: disconnected"]) else CliRaises out e
      end
  end.
End Main.

(* ------------------------------------------------------------------ *)
(** ** The viewer shows the feed *)

Section Shows.
Context {F : Type} {PF : PyFloat F} (repr : json F -> string) (frepr : F -> string) (fok : F -> bool) {FR : FloatRepr frepr fok}.
Context (bracket_ok : string -> bool).

Lemma rstrip_drops p s c : p c = true -> rstrip_if p (s +:+ String c EmptyString) = rstrip_if p s.
Proof. intros Hc. induction s as [|a s IH]; [rewrite sapp_nil_l; cbn; by rewrite Hc|]. rewrite sapp_cons. cbn. by rewrite IH. Qed.

Lemma strip_line (d : list (string * json F)) : strip (dumps frepr (JDict d) +:+ String LF EmptyString) = dumps frepr (JDict d).
Proof.
  assert (H := strip_obj frepr d). unfold strip in *.
  assert (E : forall t, lstrip (dumps frepr (JDict d) +:+ t) = dumps frepr (JDict d) +:+ t) by (intros t; cbn [dumps]; by rewrite sapp_assoc).
  assert (E0 := E EmptyString). rewrite sapp_nil_r in E0. rewrite E0 in H. by rewrite E, rstrip_drops.
Qed.

Lemma server_line now child r : fok now = true -> NoDup (map fst (packets_of r)) ->
  exists d, raw_record now child r = JDict d /\ strip (raw_line frepr now child r) = dumps frepr (JDict d) /\
    dumps frepr (JDict d) <> EmptyString /\ loads (dumps frepr (JDict d)) = Some (JDict d).
Proof.
  intros Hn Hp. destruct (raw_plain frepr fok now child r Hn Hp) as [Hpl [d Ed]]. exists d. split; [done|]. unfold raw_line. rewrite Ed.
  split; [apply strip_line|]. split; [by cbn [dumps]|]. rewrite Ed in Hpl. rewrite <- (sapp_nil_r (dumps frepr (JDict d))). by apply loads_dumps with fok.
Qed.

Lemma json_prints (recs : list (F * string * raw_event)) :
  Forall (fun r => fok r.1.1 = true /\ NoDup (map fst (packets_of r.2))) recs ->
  _run_json false (_lines (map (fun r => raw_line frepr r.1.1 r.1.2 r.2) recs)) =
    (map (dumps frepr) (map (fun r => raw_record r.1.1 r.1.2 r.2) recs) ++ ["fpvd-stats: disconnected"], None).
Proof.
  induction 1 as [|[[now child] r] recs [Hn Hp] Hr IH]; [done|]. cbn [map _lines omap list_omap fst snd] in *.
  destruct (server_line now child r Hn Hp) as (d & Ed & Es & Hne & Hl). rewrite Es. destruct (String.eqb_spec (dumps frepr (JDict d)) "") as [|_]; [done|].
  cbn [_run_json fl_text]. unfold _lines in IH. rewrite IH, Ed. done.
Qed.

Lemma records_read (recs : list (F * string * raw_event)) :
  Forall (fun r => fok r.1.1 = true /\ NoDup (map fst (packets_of r.2))) recs ->
  map loads (map (dumps frepr) (map (fun r => raw_record r.1.1 r.1.2 r.2) recs)) = map Some (map (fun r => raw_record r.1.1 r.1.2 r.2) recs).
Proof.
  induction 1 as [|[[now child] r] recs [Hn Hp] Hr IH]; [done|]. cbn [map fst snd] in *. rewrite IH. f_equal.
  destruct (server_line now child r Hn Hp) as (d & -> & _ & _ & Hl). exact Hl.
Qed.

(** The raw mode, on the lines a stats server writes: each record's text, in
    order, and each reads back as the record; an endpoint that is not a host
    and a port escapes as a [ValueError], and a refused connection exits 1. *)
Theorem viewer_shows_feed connect h n (recs : list (F * string * raw_event)) :
  h <> EmptyString -> all_chars host_char h = true -> 1 <= n <= 65535 ->
  Forall (fun r => fok r.1.1 = true /\ NoDup (map fst (packets_of r.2))) recs ->
  let stream := map (fun r => raw_line frepr r.1.1 r.1.2 r.2) recs in
  let records := map (fun r => raw_record r.1.1 r.1.2 r.2) recs in
  cli_main repr bracket_ok connect (mkCliArgs ("tcp://" +:+ h +:+ ":" +:+ str_nat n) true false) stream =
    match connect (lower h, n) with
    | None => CliExit 0 (map (dumps frepr) records ++ ["fpvd-stats: disconnected"])
    | Some e => if is_oserror e then CliExit 1 ["fpvd-stats: connect " +:+ ("tcp://" +:+ h +:+ ":" +:+ str_nat n) +:+ " failed"] else CliRaises [] e
    end /\
  map loads (map (dumps frepr) records) = map Some records.
Proof.
  intros Hh Hc Hn Hr stream records. split; [|by apply records_read].
  unfold cli_main, _connect, cli_parse_endpoint. cbn [ca_endpoint ca_json ca_once].
  assert (E := endpoint_read bracket_ok h n EmptyString Hh Hc Hn (or_introl eq_refl)). rewrite sapp_nil_r in E. rewrite E. cbn [rbind].
  destruct (connect (lower h, n)) as [e|]; [done|]. unfold stream. cbn iota. rewrite (json_prints recs Hr). done.
Qed.
End Shows.
