(* ===== verification/Sha1.v ===== *)
(** * SHA-1

    [hashlib.sha1], as far as the link id needs it: the digest of a short byte
    string, on 32-bit words with their wrap-around. *)
From Stdlib Require Import ZArith Lia Bool String Ascii.
From stdpp Require Import base tactics list strings.
From S2P Require Import Prelude PyStr Bytes.
Open Scope Z_scope.

Definition w32 (x : Z) : Z := Z.land x 0xFFFFFFFF.
Definition rotl (n x : Z) : Z := w32 (Z.lor (Z.shiftl x n) (Z.shiftr x (32 - n))).

(** Padding to a multiple of 64 bytes. *)
Definition sha1_pad (m : list Z) : list Z :=
  let zeros := (119 - Z.of_nat (length m) mod 64) mod 64 in
  m ++ 128 :: replicate (Z.to_nat zeros) 0 ++ be_bytes 8 (8 * Z.of_nat (length m)).

Fixpoint chunks (fuel n : nat) (l : list Z) : list (list Z) :=
  match fuel, l with
  | S f, _ :: _ => take n l :: chunks f n (drop n l)
  | _, _ => []
  end.

(** The message schedule: [w] holds the last words, newest first. *)
Fixpoint schedule (n : nat) (w : list Z) : list Z :=
  match n with
  | O => w
  | S n' => let at_ i := nth i w 0 in
            schedule n' (rotl 1 (Z.lxor (Z.lxor (at_ 2%nat) (at_ 7%nat)) (Z.lxor (at_ 13%nat) (at_ 15%nat))) :: w)
  end.

Definition round_f (i : nat) (b c d : Z) : Z * Z :=
  if (i <? 20)%nat then (Z.lor (Z.land b c) (Z.land (w32 (Z.lnot b)) d), 0x5A827999)
  else if (i <? 40)%nat then (Z.lxor (Z.lxor b c) d, 0x6ED9EBA1)
  else if (i <? 60)%nat then (Z.lor (Z.lor (Z.land b c) (Z.land b d)) (Z.land c d), 0x8F1BBCDC)
  else (Z.lxor (Z.lxor b c) d, 0xCA62C1D6).

Fixpoint rounds (i : nat) (ws : list Z) (st : Z * Z * Z * Z * Z) : Z * Z * Z * Z * Z :=
  match ws with
  | [] => st
  | w :: ws' =>
      let '(a, b, c, d, e) := st in
      let '(f, k) := round_f i b c d in
      rounds (S i) ws' (w32 (rotl 5 a + f + e + k + w), a, rotl 30 b, c, d)
  end.

Definition sha1_block (h : Z * Z * Z * Z * Z) (block : list Z) : Z * Z * Z * Z * Z :=
  let words := map be_val (chunks 16 4 block) in
  let ws := rev (schedule 64 (rev words)) in
  let '(a, b, c, d, e) := h in
  let '(a', b', c', d', e') := rounds 0 ws h in
  (w32 (a + a'), w32 (b + b'), w32 (c + c'), w32 (d + d'), w32 (e + e')).

Definition sha1 (m : list Z) : list Z :=
  let p := sha1_pad m in
  let '(a, b, c, d, e) := fold_left sha1_block (chunks (length p) 64 p)
                            (0x67452301, 0xEFCDAB89, 0x98BADCFE, 0x10325476, 0xC3D2E1F0) in
  concat (map (be_bytes 4) [a; b; c; d; e]).

(** [s.encode()] of an ASCII string. *)
Definition encode_ascii (s : string) : list Z := map code (list_ascii_of_string s).

(** The test vectors of the standard, one and two blocks. *)
Example sha1_abc : be_val (sha1 (encode_ascii "abc")) = 0xa9993e364706816aba3e25717850c26c9cd0d89d.
Proof. vm_compute. reflexivity. Qed.
Example sha1_two_blocks :
  be_val (sha1 (encode_ascii "abcdbcdecdefdefgefghfghighijhijkijkljklmklmnlmnomnopnopq")) =
  0x84983e441c3bd26ebaae4aa1f95129e5e54670f1.
Proof. vm_compute. reflexivity. Qed.
