(* ===== verification/Graph.v ===== *)
(** * wfb/graph.py: from the configuration to the command lines

    The five radio processes of a flight, the probe receiver when it is on,
    and, when a card is remote, the local forwarders and injectors and one
    script per remote node.  [sortable] is whether the language can sort a list
    (the code sorts [wfb.raw] only to log it); [sfx] are the four random
    suffixes in the order they are drawn. *)
From Stdlib Require Import ZArith Lia Bool String QArith.
From stdpp Require Import base tactics list strings pretty sorting.
From S2P Require Import Prelude PyStr FloatModels Json Bytes Sha1 Cards Schema StatsClient Radio Cluster.
Open Scope Z_scope.

Definition GS_KEY : string := "/etc/gs.key".
Definition LOG_INTERVAL : Z := 100.
Definition BUF_R : Z := 2097152.
Definition BUF_S : Z := 2097152.
Definition VIDEO_UDP_PORT : Z := 5600.
Definition PROBE_RADIO_PORT : Z := 50.
Definition PROBE_SINK_PORT : Z := 7000.
Definition WFB_RX : string := "/usr/bin/wfb_rx".
Definition WFB_TX : string := "/usr/bin/wfb_tx".

Definition link_id (link_domain : string) : Z := be_val (take 3 (sha1 (encode_ascii link_domain))).
Arguments link_id : simpl never.

Inductive leg_kind := KRx | KTx.
Inductive leg_parser := ParseRx | ParseTx | ParseProbe.

Record ServiceSpec (F : Type) := mkSpec {
  sp_name : string; sp_kind : leg_kind; sp_argv : list (json F); sp_parser : option leg_parser;
  sp_unix_path : option string }.
Arguments mkSpec {F}.
Arguments sp_name {F} _.
Arguments sp_kind {F} _.
Arguments sp_argv {F} _.
Arguments sp_parser {F} _.
Arguments sp_unix_path {F} _.

Record TunnelConfig := mkTunCfg { tc_ifname : string; tc_ifaddr : string; tc_mtu : Z }.

Record GsGraph (F : Type) := mkGraph {
  video_rx : ServiceSpec F; mavlink_rx : ServiceSpec F; mavlink_tx : ServiceSpec F;
  tunnel_rx : ServiceSpec F; tunnel_tx : ServiceSpec F;
  mav_rx_sock : string; mav_peer : json F; tun_rx_sock : string; tun_cfg : TunnelConfig;
  local_forwarders : list (ServiceSpec F); local_injectors : list (ServiceSpec F);
  node_scripts : list (string * string); probe_rx : option (ServiceSpec F) }.
Arguments mkGraph {F}.
Arguments video_rx {F} _.
Arguments mavlink_rx {F} _.
Arguments mavlink_tx {F} _.
Arguments tunnel_rx {F} _.
Arguments tunnel_tx {F} _.
Arguments mav_rx_sock {F} _.
Arguments mav_peer {F} _.
Arguments tun_rx_sock {F} _.
Arguments tun_cfg {F} _.
Arguments local_forwarders {F} _.
Arguments local_injectors {F} _.
Arguments node_scripts {F} _.
Arguments probe_rx {F} _.

Record suffixes := mkSfx { sfx_mav_rx : string; sfx_mav_tx : string; sfx_tun_rx : string; sfx_tun_tx : string }.

Section Graph.
Context {F : Type} {PF : PyFloat F}.
Variable repr : json F -> string.
Variable sortable : list (json F) -> bool.
#[local] Abbreviation dict := (list (string * json F)).
#[local] Abbreviation words := (list (json F)).

Definition strs (l : list string) : words := map JStr l.

Definition _rx_common_tail (lid : Z) : words :=
  strs ["-R"; pretty BUF_R; "-s"; pretty BUF_S; "-l"; pretty LOG_INTERVAL; "-i"; pretty lid].

Definition _rx_argv (cluster_flag head key : words) (lid : Z) (extra tail : words) : words :=
  [JStr WFB_RX] ++ cluster_flag ++ head ++ key ++ _rx_common_tail lid ++ extra ++ tail.

Definition _tx_middle (port : Z) (unix_path : string) (key : words) (bandwidth : json F) (lid : Z) : words :=
  strs ["-f"; "data"; "-p"; pretty port; "-U"; unix_path] ++ key ++
  [JStr "-B"; JStr (py_str repr bandwidth)] ++
  strs ["-G"; "long"; "-S"; "1"; "-L"; "1"; "-M"; "1"; "-k"; "1"; "-n"; "2"; "-T"; "0"; "-F"; "0";
        "-i"; pretty lid; "-R"; pretty BUF_R; "-s"; pretty BUF_S; "-l"; pretty LOG_INTERVAL; "-C"; "0"].

Definition _tx_argv (cluster_flag : words) (port : Z) (unix_path : string) (key : words) (bandwidth : json F)
    (lid : Z) (tail : words) : words :=
  [JStr WFB_TX] ++ cluster_flag ++ _tx_middle port unix_path key bandwidth lid ++ tail.

(** [a < b] on numbers. *)
Definition num_lt (a b : json F) : res bool :=
  match a, b with
  | JInt x, JInt y => Ok (x <? y)
  | _, _ => if is_num a && is_num b then Ok (num_val a <f num_val b) else Err TypeError
  end.

(** [min(max(width, 10), 20)]. *)
Definition uplink_bw (width : json F) : res (json F) :=
  let* lo := num_lt width (JInt 10) in
  let m := if lo then JInt 10 else width in
  let* hi := num_lt (JInt 20) m in
  Ok (if hi then JInt 20 else m).

(** [log.warning(..., sorted(raw))]. *)
Definition warn_raw (raw : json F) : res unit :=
  if negb (truthy raw) then Ok tt
  else match raw with
       | JStr _ | JDict _ => Ok tt
       | JList l => if sortable l then Ok tt else Err TypeError
       | _ => Err TypeError
       end.

(** What both builders read from the configuration. *)
Record legs_cfg := mkLegs {
  lc_bw : json F; lc_video_key : words; lc_tap : words; lc_wfb : json F; lc_dl : json F; lc_link : dict }.

Definition key_flag : words := strs ["-K"; GS_KEY].

(** [effective.get(k, {}) or {}]. *)
Definition block_or (k : string) (effective : dict) : json F := or_empty (get_or k (JDict []) effective).

Definition probe_enabled (dl : json F) : res bool :=
  let* en := obj_get "enabled" (JBool false) dl in
  if truthy en
  then let* p := obj_get "probe" JNull dl in
       let* pe := obj_get "enabled" (JBool false) (or_empty p) in Ok (truthy pe)
  else Ok false.

Definition read_legs (effective : dict) : res legs_cfg :=
  let link := block_or "link" effective in
  let wfb := block_or "wfb" effective in
  let dl := block_or "dynamicLink" effective in
  let* tap0 := obj_get "tap" (JDict []) dl in
  let tap := or_empty tap0 in
  let* raw := obj_get "raw" JNull wfb in
  warn_raw (or_empty raw) ;;;
  let* width := obj_get "width" (JInt 20) link in
  let* bw := uplink_bw width in
  let* enc := obj_get "videoEncryption" (JBool true) link in
  let* tap_on := obj_get "enabled" (JBool true) tap in
  let* tap_port := obj_get "port" (JInt 8110) tap in
  let tap_flag := if truthy tap_on then [JStr "-D"; JStr (py_str repr tap_port)] else [] in
  Ok (mkLegs bw (if truthy enc then key_flag else []) tap_flag wfb dl
        (match link with JDict d => d | _ => [] end)).

(** [(wfb.get("mavlink", {}) or {}).get("peer")], required. *)
Definition mav_peer_of (wfb : json F) : res (json F) :=
  let* mav := obj_get "mavlink" (JDict []) wfb in
  let* peer := obj_get "peer" JNull (or_empty mav) in
  raise_if (negb (truthy peer)) (ValueError "wfb.mavlink.peer required") ;;; Ok peer.

Definition gs_tun_cfg : TunnelConfig := mkTunCfg "gs-wfb" "10.5.0.1/24" 1445.

(** The legs, with the parts in which local and cluster wiring differ: the
    cluster flag of a service and the positional tail of a receiver and of a
    transmitter. *)
Definition video_spec (lid : Z) (l : legs_cfg) (flag tail : words) : ServiceSpec F :=
  mkSpec "video_rx" KRx
    (_rx_argv flag (strs ["-p"; "0"; "-c"; "127.0.0.1"; "-u"; pretty VIDEO_UDP_PORT]) (lc_video_key l) lid (lc_tap l) tail)
    (Some ParseRx) None.
Definition rx_spec (name radio_port sock : string) (lid : Z) (flag tail : words) : ServiceSpec F :=
  mkSpec name KRx (_rx_argv flag (strs ["-p"; radio_port; "-U"; sock]) key_flag lid [] tail) (Some ParseRx) (Some sock).
Definition tx_spec (name : string) (port : Z) (sock : string) (bw : json F) (lid : Z) (flag tail : words) : ServiceSpec F :=
  mkSpec name KTx (_tx_argv flag port sock key_flag bw lid tail) (Some ParseTx) (Some sock).
Definition probe_spec (lid : Z) (flag tail : words) : ServiceSpec F :=
  mkSpec "probe_rx" KRx
    (_rx_argv flag (strs ["-p"; pretty PROBE_RADIO_PORT; "-c"; "127.0.0.1"; "-u"; pretty PROBE_SINK_PORT]) key_flag lid [] tail)
    (Some ParseProbe) None.

Definition build_graph (effective : dict) (wlans : words) (sfx : suffixes) : res (GsGraph F) :=
  let* l := read_legs effective in
  let lid := link_id "default" in
  let mav_rx := "mavlink-rx-" +:+ sfx_mav_rx sfx in
  let mav_tx := "mavlink-tx-" +:+ sfx_mav_tx sfx in
  let tun_rx := "tunnel-rx-" +:+ sfx_tun_rx sfx in
  let tun_tx := "tunnel-tx-" +:+ sfx_tun_tx sfx in
  let* peer := mav_peer_of (lc_wfb l) in
  let* probe := probe_enabled (lc_dl l) in
  Ok (mkGraph (video_spec lid l [] wlans)
        (rx_spec "mavlink_rx" "16" mav_rx lid [] wlans) (tx_spec "mavlink_tx" 144 mav_tx (lc_bw l) lid [] wlans)
        (rx_spec "tunnel_rx" "32" tun_rx lid [] wlans) (tx_spec "tunnel_tx" 160 tun_tx (lc_bw l) lid [] wlans)
        mav_rx peer tun_rx gs_tun_cfg [] [] []
        (if probe then Some (probe_spec lid [] wlans) else None)).

(** [plan.server_port[service]]. *)
Definition port_of (plan : ClusterPlan F) (service : string) : res Z :=
  match dict_get service (server_port plan) with Some p => Ok p | None => Err (KeyError service) end.
Definition peers_of (plan : ClusterPlan F) (service : string) : res (list string) :=
  match dict_get service (peers plan) with Some p => Ok p | None => Err (KeyError service) end.

Definition fwd_spec (service : string) (port rx_id lid : Z) (ifaces : words) : ServiceSpec F :=
  mkSpec (service +:+ " fwd") KRx
    (strs [WFB_RX; "-f"; "-c"; "127.0.0.1"; "-u"; pretty port; "-p"; pretty rx_id; "-i"; pretty lid; "-R"; pretty BUF_R] ++ ifaces)
    None None.
Definition inj_spec (service : string) (base : Z) (ifaces : words) : ServiceSpec F :=
  mkSpec (service +:+ " inj") KTx (strs [WFB_TX; "-I"; pretty base; "-R"; pretty BUF_R] ++ ifaces) None None.

(** One service of the local node: its forwarder and its injector. *)
Definition local_service (plan : ClusterPlan F) (lid : Z) (ifaces : words) (svc : string * streams)
    : res (list (ServiceSpec F) * list (ServiceSpec F)) :=
  let '(service, st) := svc in
  let* fwd := match st_rx st with
              | Some rx_id => let* port := port_of plan service in Ok [fwd_spec service port rx_id lid ifaces]
              | None => Ok []
              end in
  let* inj := match st_tx st with
              | Some _ => match inj_get LOCAL_NODE service (injector_base plan) with
                          | Some base => Ok [inj_spec service base ifaces]
                          | None => Err (KeyError service)
                          end
              | None => Ok []
              end in
  Ok (fwd, inj).

Definition local_children (cards : list (Card F)) (plan : ClusterPlan F) (lid : Z) (probe : bool)
    : res (list (ServiceSpec F) * list (ServiceSpec F)) :=
  match default [] (dict_get LOCAL_NODE (nodes plan)) with
  | [] => Ok ([], [])
  | _ => let* l := map_res (local_service plan lid (local_ifaces cards)) (streams_for probe) in
         Ok (concat (map fst l), concat (map snd l))
  end.

Definition remote_nodes (plan : ClusterPlan F) : list string :=
  List.filter (fun n => negb (String.eqb n LOCAL_NODE)) (sorted_keys (nodes plan)).

Definition node_script_of (plan : ClusterPlan F) (link : dict) (lid : Z) (server_address : string) (probe : bool)
    (node : string) : res (string * string) :=
  let* s := render_node_script repr node (default [] (dict_get node (nodes plan))) plan link lid server_address true
              (streams_for probe) in
  Ok (node, s).

Definition build_graph_remote (effective : dict) (cards : list (Card F)) (plan : ClusterPlan F) (server_address : string)
    (sfx : suffixes) : res (GsGraph F) :=
  let* l := read_legs effective in
  let lid := link_id "default" in
  let* probe := probe_enabled (lc_dl l) in
  let* video_port := port_of plan "video" in
  let* mav_port := port_of plan "mavlink" in
  let* tun_port := port_of plan "tunnel" in
  let agg (port : Z) := strs ["-a"; pretty port] in
  let mav_rx := "mavlink-rx-" +:+ sfx_mav_rx sfx in
  let mav_tx := "mavlink-tx-" +:+ sfx_mav_tx sfx in
  let tun_rx := "tunnel-rx-" +:+ sfx_tun_rx sfx in
  let tun_tx := "tunnel-tx-" +:+ sfx_tun_tx sfx in
  let* mav_peers := peers_of plan "mavlink" in
  let* tun_peers := peers_of plan "tunnel" in
  let* peer := mav_peer_of (lc_wfb l) in
  let* probe_leg := if probe then let* p := port_of plan "probe" in Ok (Some (probe_spec lid (agg p) [])) else Ok None in
  let* locals := local_children cards plan lid probe in
  let* scripts := map_res (node_script_of plan (lc_link l) lid server_address probe) (remote_nodes plan) in
  Ok (mkGraph (video_spec lid l (agg video_port) [])
        (rx_spec "mavlink_rx" "16" mav_rx lid (agg mav_port) [])
        (tx_spec "mavlink_tx" 144 mav_tx (lc_bw l) lid (strs ["-d"]) (strs mav_peers))
        (rx_spec "tunnel_rx" "32" tun_rx lid (agg tun_port) [])
        (tx_spec "tunnel_tx" 160 tun_tx (lc_bw l) lid (strs ["-d"]) (strs tun_peers))
        mav_rx peer tun_rx gs_tun_cfg locals.1 locals.2 scripts probe_leg).
End Graph.

(** ** The wiring of a cluster *)

Section Wiring.
Context {F : Type} {PF : PyFloat F}.
Variable repr : json F -> string.
Variable sortable : list (json F) -> bool.
Variable inet_aton : string -> option Z.
#[local] Abbreviation words := (list (json F)).

(** The receiver leg and the transmitter leg of a service. *)
Definition rx_leg (g : GsGraph F) (s : string) : option (ServiceSpec F) :=
  if String.eqb s "video" then Some (video_rx g)
  else if String.eqb s "mavlink" then Some (mavlink_rx g)
  else if String.eqb s "tunnel" then Some (tunnel_rx g)
  else if String.eqb s "probe" then probe_rx g else None.
Definition tx_leg (g : GsGraph F) (s : string) : option (ServiceSpec F) :=
  if String.eqb s "mavlink" then Some (mavlink_tx g)
  else if String.eqb s "tunnel" then Some (tunnel_tx g) else None.

Lemma map_res_in {A B} (f : A -> res B) l ys x :
  map_res f l = Ok ys -> x ∈ l -> exists y, f x = Ok y /\ y ∈ ys.
Proof.
  revert ys. induction l as [|a l IH]; intros ys H Hx; [by apply not_elem_of_nil in Hx|].
  simpl in H. apply rbind_ok in H as (y & Hy & (ys' & Hys & [= <-])%rbind_ok).
  apply elem_of_cons in Hx as [->|Hx]; [exists y; split; [done|left]|].
  destruct (IH _ Hys Hx) as (z & Hz & Hin). exists z. split; [done|by right].
Qed.

Lemma elem_of_concat_in {A} (x : A) l ll : x ∈ l -> l ∈ ll -> x ∈ concat ll.
Proof. rewrite !list_elem_of_In, in_concat. eauto. Qed.

(** The lines of one service in a node's script. *)
Lemma script_service node cards (plan : ClusterPlan F) link lid addr sts lines s st :
  script_lines repr node cards plan link lid addr true sts = Ok lines -> (s, st) ∈ sts ->
  exists wlans, join_words (map iface cards) = Ok wlans /\
    (forall rx port, st_rx st = Some rx -> dict_get s (server_port plan) = Some port ->
       fwd_line addr wlans port rx lid ∈ lines) /\
    (forall tx base, st_tx st = Some tx -> inj_get node s (injector_base plan) = Some base ->
       inj_line wlans base ∈ lines).
Proof.
  unfold script_lines. intros (wlans & Hw & (hooks & _ & (inits & _ & (svc & Hsvc & [= <-])%rbind_ok)%rbind_ok)%rbind_ok)%rbind_ok Hin.
  exists wlans. split; [done|]. destruct (map_res_in _ _ _ _ Hsvc Hin) as (ls & Hls & Hin').
  assert (Hsub : forall x, x ∈ ls -> x ∈ script_preamble ++ hooks ++
     ["iw reg set " +:+ py_str repr (get_ "region" link); ""] ++ concat inits ++ concat svc ++ script_tail true).
  { intros x Hx. rewrite !elem_of_app. right; right; right; right; left. by eapply elem_of_concat_in. }
  unfold service_lines in Hls. split.
  - intros rx port Hrx Hp. apply Hsub. rewrite Hrx, Hp in Hls. simpl in Hls.
    apply rbind_ok in Hls as (l2 & _ & [= <-]). right. left.
  - intros tx base Htx Hb. apply Hsub. rewrite Htx, Hb in Hls.
    destruct (st_rx st); (apply rbind_ok in Hls as (l1 & _ & [= <-]); right; apply elem_of_app; right; left).
Qed.
(** A card is on the local node because it names no host: no card names the
    loopback address. *)
Definition no_loopback (cards : list (Card F)) : Prop := Forall (fun c => is_local c = on_node LOCAL_NODE c) cards.

Lemma local_ifaces_node (cards : list (Card F)) :
  no_loopback cards -> local_ifaces cards = map iface (List.filter (on_node LOCAL_NODE) cards).
Proof.
  intros H. unfold local_ifaces. f_equal. induction H as [|c cards Hc _ IH]; [done|]. simpl. by rewrite Hc, IH.
Qed.

(** What a remote node, or the local one, runs for a service. *)
Definition runs_forwarder (g : GsGraph F) (plan : ClusterPlan F) (addr : string) (lid : Z)
    (s : string) (port rx : Z) (node : string) : Prop :=
  if String.eqb node LOCAL_NODE then fwd_spec s port rx lid (map iface (cards_of (nodes plan) node)) ∈ local_forwarders g
  else exists lines wlans, (node, join newline lines) ∈ node_scripts g /\
    join_words (map iface (cards_of (nodes plan) node)) = Ok wlans /\ fwd_line addr wlans port rx lid ∈ lines.
Definition runs_injector (g : GsGraph F) (plan : ClusterPlan F) (s : string) (base : Z) (node : string) : Prop :=
  if String.eqb node LOCAL_NODE then inj_spec s base (map iface (cards_of (nodes plan) node)) ∈ local_injectors g
  else exists lines wlans, (node, join newline lines) ∈ node_scripts g /\
    join_words (map iface (cards_of (nodes plan) node)) = Ok wlans /\ inj_line wlans base ∈ lines.

Lemma local_children_in cards (plan : ClusterPlan F) lid probe fwds injs s st :
  local_children cards plan lid probe = Ok (fwds, injs) -> (s, st) ∈ streams_for probe ->
  LOCAL_NODE ∈ dict_keys (nodes plan) -> (forall node, node ∈ dict_keys (nodes plan) -> 0 < count (nodes plan) node) ->
  (forall rx port, st_rx st = Some rx -> dict_get s (server_port plan) = Some port ->
     fwd_spec s port rx lid (local_ifaces cards) ∈ fwds) /\
  (forall tx base, st_tx st = Some tx -> inj_get LOCAL_NODE s (injector_base plan) = Some base ->
     inj_spec s base (local_ifaces cards) ∈ injs).
Proof.
  unfold local_children. intros H Hin Hl Hne. specialize (Hne _ Hl). unfold count, cards_of in Hne.
  destruct (default [] _) as [|c cs]; [simpl in Hne; lia|].
  apply rbind_ok in H as (l & Hm & [= <- <-]). destruct (map_res_in _ _ _ _ Hm Hin) as ([f i] & Hs & Hfi).
  unfold local_service, port_of in Hs. split.
  - intros rx port Hrx Hp. rewrite Hrx, Hp in Hs. simpl in Hs. apply rbind_ok in Hs as (i' & _ & [= <- <-]).
    eapply elem_of_concat_in; [|apply list_elem_of_fmap; by eexists]. left.
  - intros tx base Htx Hb. rewrite Htx, Hb in Hs. simpl in Hs. apply rbind_ok in Hs as (f' & _ & [= <- <-]).
    eapply elem_of_concat_in; [|apply list_elem_of_fmap; by eexists]. left.
Qed.

(** Both wirings read the same ports and peers. *)
Lemma graph_parts eff cards plan addr sfx g l :
  read_legs repr sortable eff = Ok l -> build_graph_remote repr sortable eff cards plan addr sfx = Ok g ->
  exists probe vp mp tp mpeers tpeers,
    probe_enabled (lc_dl l) = Ok probe /\ dict_get "video" (server_port plan) = Some vp /\
    dict_get "mavlink" (server_port plan) = Some mp /\ dict_get "tunnel" (server_port plan) = Some tp /\
    dict_get "mavlink" (peers plan) = Some mpeers /\ dict_get "tunnel" (peers plan) = Some tpeers /\
    let lid := link_id "default" in let agg (port : Z) := strs ["-a"; pretty port] in
    video_rx g = video_spec lid l (agg vp) [] /\
    (exists sock, mavlink_rx g = rx_spec "mavlink_rx" "16" sock lid (agg mp) []) /\
    (exists sock, mavlink_tx g = tx_spec repr "mavlink_tx" 144 sock (lc_bw l) lid (strs ["-d"]) (strs mpeers)) /\
    (exists sock, tunnel_rx g = rx_spec "tunnel_rx" "32" sock lid (agg tp) []) /\
    (exists sock, tunnel_tx g = tx_spec repr "tunnel_tx" 160 sock (lc_bw l) lid (strs ["-d"]) (strs tpeers)) /\
    (if probe then exists p, dict_get "probe" (server_port plan) = Some p /\ probe_rx g = Some (probe_spec lid (agg p) [])
     else probe_rx g = None) /\
    local_children cards plan lid probe = Ok (local_forwarders g, local_injectors g) /\
    map_res (node_script_of repr plan (lc_link l) lid addr probe) (remote_nodes plan) = Ok (node_scripts g).
Proof.
  unfold build_graph_remote. intros -> H. cbn [rbind] in H. set (lid := link_id "default") in *.
  apply rbind_ok in H as (probe & Hprobe & H). unfold port_of, peers_of in H.
  destruct (dict_get "video" (server_port plan)) as [vp|] eqn:Ev; [|done].
  destruct (dict_get "mavlink" (server_port plan)) as [mp|] eqn:Em; [|done].
  destruct (dict_get "tunnel" (server_port plan)) as [tp|] eqn:Et; [|done].
  destruct (dict_get "mavlink" (peers plan)) as [mpe|] eqn:Emp; [|done].
  destruct (dict_get "tunnel" (peers plan)) as [tpe|] eqn:Etp; [|done].
  cbn [rbind] in H. apply rbind_ok in H as (peer & _ & (pleg & Hp & ([fw ij] & Hl & (sc & Hsc & [= <-])%rbind_ok)%rbind_ok)%rbind_ok).
  exists probe, vp, mp, tp, mpe, tpe. cbn [fst snd video_rx mavlink_rx mavlink_tx tunnel_rx tunnel_tx probe_rx local_forwarders local_injectors node_scripts].
  repeat (split; [solve [eauto]|]). split; [|by split].
  destruct probe; [|by injection Hp as <-]. destruct (dict_get "probe" (server_port plan)) as [p|]; [|done].
  injection Hp as <-. eauto.
Qed.

Lemma remote_script eff cards plan addr sfx g l probe node :
  read_legs repr sortable eff = Ok l -> build_graph_remote repr sortable eff cards plan addr sfx = Ok g ->
  probe_enabled (lc_dl l) = Ok probe -> node ∈ dict_keys (nodes plan) -> node <> LOCAL_NODE ->
  exists lines, (node, join newline lines) ∈ node_scripts g /\
    script_lines repr node (cards_of (nodes plan) node) plan (lc_link l) (link_id "default") addr true (streams_for probe) = Ok lines.
Proof.
  intros Hl Hg Hp Hn Hne. destruct (graph_parts _ _ _ _ _ _ _ Hl Hg) as (pr & ? & ? & ? & ? & ? & Hp' & H).
  rewrite Hp in Hp'. simplify_eq. destruct H as (_ & _ & _ & _ & _ & _ & _ & _ & _ & _ & _ & _ & Hsc).
  destruct (map_res_in _ _ _ node Hsc) as (y & Hy & Hin).
  { unfold remote_nodes. apply list_elem_of_In, filter_In. split.
    - by apply list_elem_of_In, sorted_keys_elem.
    - destruct (String.eqb_spec node LOCAL_NODE); done. }
  unfold node_script_of, render_node_script in Hy. apply rbind_ok in Hy as (sc & (lines & Hlines & [= <-])%rbind_ok & [= <-]).
  by exists lines.
Qed.

Section OneGraph.
Context (eff : list (string * json F)) (cards : list (Card F)) (bs bn : Z) (probe : bool) (plan : ClusterPlan F)
  (addr : string) (sfx : suffixes) (g : GsGraph F) (l : @legs_cfg F).
Context (Hl : read_legs repr sortable eff = Ok l) (Hp : probe_enabled (lc_dl l) = Ok probe)
  (Hplan : plan_cluster inet_aton cards bs bn probe = Ok plan) (Hloop : no_loopback cards)
  (Hg : build_graph_remote repr sortable eff cards plan addr sfx = Ok g).

Lemma node_runs k s st node :
  service_order probe !! k = Some s -> (s, st) ∈ streams_for probe -> node ∈ dict_keys (nodes plan) ->
  (forall rx, st_rx st = Some rx ->
     runs_forwarder g plan addr (link_id "default") s (bs + Z.of_nat k) rx node) /\
  (forall tx, st_tx st = Some tx -> exists base, head (node_ports bn (nodes plan) k node) = Some base /\
     runs_injector g plan s base node).
Proof.
  intros Hk Hin Hnode. destruct (plan_spec inet_aton _ _ _ _ _ Hplan) as (Hn & Hs & Hi & _).
  specialize (Hs _ _ Hk). specialize (Hi _ _ _ Hk Hnode).
  assert (Hne : forall n, n ∈ dict_keys (nodes plan) -> 0 < count (nodes plan) n) by (rewrite Hn; apply group_nonempty).
  assert (Hhead : head (node_ports bn (nodes plan) k node) = Some (bn + Z.of_nat k * count (nodes plan) node)).
  { unfold node_ports. by rewrite seqZ_cons by by apply Hne. }
  unfold runs_forwarder, runs_injector. destruct (String.eqb_spec node LOCAL_NODE) as [->|Hloc].
  - destruct (graph_parts _ _ _ _ _ _ _ Hl Hg) as (pr & ? & ? & ? & ? & ? & Hp' & H).
    rewrite Hp in Hp'. simplify_eq. destruct H as (_ & _ & _ & _ & _ & _ & _ & _ & _ & _ & _ & Hloc & _).
    destruct (local_children_in _ _ _ _ _ _ _ _ Hloc Hin Hnode Hne) as [H1 H2].
    rewrite local_ifaces_node, <- cards_of_group, <- Hn in H1, H2 by done.
    split; [intros rx Hrx; by apply H1|]. intros tx Htx. eexists. split; [exact Hhead|]. by eapply H2.
  - destruct (remote_script _ _ _ _ _ _ _ _ _ Hl Hg Hp Hnode Hloc) as (lines & Hsc & Hlines).
    destruct (script_service _ _ _ _ _ _ _ _ _ _ Hlines Hin) as (wlans & Hw & H1 & H2).
    split; [intros rx Hrx; exists lines, wlans; auto|].
    intros tx Htx. eexists. split; [exact Hhead|]. exists lines, wlans. eauto.
Qed.

(** C23: In a cluster whose plan and graph are built without an error and none
    of whose cards is configured with the host 127.0.0.1: every node runs
    (locally or by its script) a forwarder of each service's radio port, for
    all its cards, to the port on which that service's aggregator listens. *)
Theorem forwarders_feed_aggregators k s st rx :
  service_order probe !! k = Some s -> (s, st) ∈ streams_for probe -> st_rx st = Some rx ->
  (exists leg rest, rx_leg g s = Some leg /\
     sp_argv leg = strs [WFB_RX; "-a"; pretty (bs + Z.of_nat k); "-p"; pretty rx] ++ rest) /\
  (forall node, node ∈ dict_keys (nodes plan) ->
     runs_forwarder g plan addr (link_id "default") s (bs + Z.of_nat k) rx node).
Proof.
  intros Hk Hin Hrx. split; [|intros node Hnode; by eapply node_runs].
  destruct (plan_spec inet_aton _ _ _ _ _ Hplan) as (_ & Hs & _). specialize (Hs _ _ Hk).
  destruct (graph_parts _ _ _ _ _ _ _ Hl Hg) as (pr & vp & mp & tp & mpe & tpe & Hp' & Hv & Hm & Ht & _ & _ & H).
  rewrite Hp in Hp'. injection Hp' as <-. destruct H as (Ev & (s1 & Em) & _ & (s2 & Et) & _ & Epr & _).
  unfold rx_leg. rewrite Ev, Em, Et.
  assert (s = "video" /\ rx = 0 \/ s = "mavlink" /\ rx = 16 \/ s = "tunnel" /\ rx = 32 \/ s = "probe" /\ rx = 50 /\ probe = true) as Hc.
  { destruct probe; repeat (apply elem_of_cons in Hin as [[= -> ->]|Hin]; [simpl in Hrx; simplify_eq; tauto|]);
      by apply not_elem_of_nil in Hin. }
  destruct Hc as [[-> ->]|[[-> ->]|[[-> ->]|(-> & -> & ->)]]]; simpl.
  - rewrite Hv in Hs. injection Hs as ->. by eexists _, _.
  - rewrite Hm in Hs. injection Hs as ->. by eexists _, _.
  - rewrite Ht in Hs. injection Hs as ->. by eexists _, _.
  - destruct Epr as (p & Hpp & Eleg). rewrite Hpp in Hs. injection Hs as ->. rewrite Eleg. by eexists _, _.
Qed.

Lemma distributor_argv name port sock bw lid tail :
  exists mid, sp_argv (tx_spec repr name port sock bw lid (strs ["-d"]) tail) =
    strs [WFB_TX; "-d"; "-f"; "data"; "-p"; pretty port] ++ mid ++ tail.
Proof. exists (drop 4 (_tx_middle repr port sock key_flag bw lid)). reflexivity. Qed.

(** C22: In a cluster whose plan and graph are built without an error and none
    of whose cards is configured with the host 127.0.0.1: each distributor
    names, for every node in sorted order, consecutive ports, one per card,
    and that node runs (locally or by its script) an injector that listens
    from the first of them. *)
Theorem distributors_reach_injectors k s st tx :
  service_order probe !! k = Some s -> (s, st) ∈ streams_for probe -> st_tx st = Some tx ->
  (exists leg mid, tx_leg g s = Some leg /\
     sp_argv leg = strs [WFB_TX; "-d"; "-f"; "data"; "-p"; pretty tx] ++ mid ++
       strs (map (fun node => peer_entry node (node_ports bn (nodes plan) k node)) (sorted_keys (nodes plan)))) /\
  (forall node, node ∈ dict_keys (nodes plan) ->
     exists base, node_ports bn (nodes plan) k node = seqZ base (Z.of_nat (length (List.filter (on_node node) cards))) /\
       runs_injector g plan s base node).
Proof.
  intros Hk Hin Htx. destruct (plan_spec inet_aton _ _ _ _ _ Hplan) as (Hn & _ & _ & Hpe). split.
  - specialize (Hpe _ _ Hk).
    destruct (graph_parts _ _ _ _ _ _ _ Hl Hg) as (pr & vp & mp & tp & mpe & tpe & Hp' & _ & _ & _ & Hm & Ht & H).
    destruct H as (_ & _ & (s1 & Em) & _ & (s2 & Et) & _). unfold tx_leg. rewrite Em, Et.
    assert (s = "mavlink" /\ tx = 144 \/ s = "tunnel" /\ tx = 160) as Hc.
    { destruct probe; repeat (apply elem_of_cons in Hin as [[= -> ->]|Hin]; [simpl in Htx; simplify_eq; tauto|]);
        by apply not_elem_of_nil in Hin. }
    destruct Hc as [[-> ->]|[-> ->]]; simpl.
    + rewrite Hm in Hpe. injection Hpe as <-.
      destruct (distributor_argv "mavlink_tx" 144 s1 (lc_bw l) (link_id "default") (strs mpe)) as [mid Hmid].
      by eexists _, mid.
    + rewrite Ht in Hpe. injection Hpe as <-.
      destruct (distributor_argv "tunnel_tx" 160 s2 (lc_bw l) (link_id "default") (strs tpe)) as [mid Hmid].
      by eexists _, mid.
  - intros node Hnode. destruct (node_runs _ _ _ _ Hk Hin Hnode) as [_ H]. destruct (H _ Htx) as (base & Hb & Hr).
    exists base. split; [|done]. assert (0 < count (nodes plan) node) as Hpos by by rewrite Hn in *; apply group_nonempty.
    unfold node_ports in *. rewrite seqZ_cons in Hb by done. injection Hb as <-.
    unfold count at 2. by rewrite Hn, cards_of_group.
Qed.
End OneGraph.

End Wiring.

(** The id every leg carries. *)
Example default_link_id : link_id "default" = 7669206.
Proof. vm_compute. reflexivity. Qed.

(** A card whose host is written as the loopback address is planned on the
    local node, whose injectors only serve the cards without a host, and gets
    no script either: the distributor feeds a port nobody listens on. *)
Lemma loopback_card_unserved :
  let card h i := mkCard (F := Q) h (JStr i) (JStr "root") 22 JNull JNull JNull in
  let cards := [card JNull "wlan0"; card (JStr "127.0.0.1") "wlan1"; card (JStr "10.0.0.2") "wlan2"] in
  let eff := [("wfb", JDict [("mavlink", JDict [("peer", JStr "connect://127.0.0.1:14550")])])] in
  (let* plan := plan_cluster (fun _ => Some 0) cards 10000 11000 false in
   let* g := build_graph_remote (fun _ => "") (fun _ => true) eff cards plan "10.0.0.1" (mkSfx "" "" "" "") in
   Ok (dict_get "tunnel" (peers plan), map sp_argv (local_injectors g), map fst (node_scripts g))) =
  Ok (Some ["10.0.0.2:11002"; "127.0.0.1:11004,11005"],
      [strs [WFB_TX; "-I"; "11002"; "-R"; "2097152"; "wlan0"]; strs [WFB_TX; "-I"; "11004"; "-R"; "2097152"; "wlan0"]],
      ["10.0.0.2"]).
Proof. vm_compute. reflexivity. Qed.
