(* ===== verification/Children.v ===== *)
(** * wfb/children.py: one supervised radio process

    [WfbChild] runs on the engine's event loop: between two [await]s a
    coroutine is atomic, so the model is a machine whose state holds, beside
    the object's fields, where the engine's call ([start] or [stop]) and the
    watch task are suspended.  An event is an operator call, the child's exit,
    the transmitter's handshake, or the loop resuming one of the two; what the
    system answers (the spawn, a timeout, the clock) comes with it.  An event
    that is not enabled has no step.

    Cancellation is the loop's: [stop] requests it, and it takes effect where
    the watch task is suspended, which ends the task, except while it awaits
    the exit task it has itself just cancelled, where the code swallows it. *)
From Stdlib Require Import ZArith Lia Bool String QArith.
From stdpp Require Import base tactics list strings.
From S2P Require Import Prelude FloatModels Json CrashBudget Graph.
Open Scope Z_scope.

Record Process := mkProcess { pr_pid : Z; returncode : option Z }.

(** Identity of the line parser: the shared sink, or the parser made by the
    [n]-th spawn. *)
Inductive parser_obj := Sink | Parser (n : nat).

(** Where [_spawn_and_wait] is suspended: at the spawn, at the race of
    handshake, exit and timeout, at the kill after the timeout, or at the
    cancelled exit task, with the result it will return. *)
Inductive spawn_pc := AtExec | AtRace | AtKill | AtExitTask (ok : bool).
Inductive watch_pc := NoWatch | WatchNew | WatchExit | WatchBackoff | WatchSpawn (p : spawn_pc) | WatchDone.
Inductive call_pc := Idle | InStart (p : spawn_pc) | StopAwaitsWatch | StopAwaitsExit.

Record WfbChild (F : Type) := mkChild {
  spec : ServiceSpec F; max_restarts : Z; restart_window : F;
  _proc : option Process; _parser : option parser_obj; _pump_task : option Z;  (* pid whose output is read *)
  _auto_restarts : Z; _last_exit : option Z; _fault : bool; _recent : list F; _supervise : bool;
  spawns : nat;             (* parsers made so far *)
  handshake : bool;         (* the current parser has seen it *)
  watch : watch_pc; cancel_requested : bool; call : call_pc }.
Arguments mkChild {F}.
Arguments spec {F} _.
Arguments max_restarts {F} _.
Arguments restart_window {F} _.
Arguments _proc {F} _.
Arguments _parser {F} _.
Arguments _pump_task {F} _.
Arguments _auto_restarts {F} _.
Arguments _last_exit {F} _.
Arguments _fault {F} _.
Arguments _recent {F} _.
Arguments _supervise {F} _.
Arguments spawns {F} _.
Arguments handshake {F} _.
Arguments watch {F} _.
Arguments cancel_requested {F} _.
Arguments call {F} _.
#[export] Instance eta_child F : Settable (WfbChild F) := fun c =>
  mkChild (spec c) (max_restarts c) (restart_window c) (_proc c) (_parser c) (_pump_task c) (_auto_restarts c)
    (_last_exit c) (_fault c) (_recent c) (_supervise c) (spawns c) (handshake c) (watch c) (cancel_requested c) (call c).

(** What the system answers to the coroutine that is resumed. *)
Record resume (F : Type) := mkResume {
  r_exec : option Z + Z;        (* errno of the spawn, or the pid *)
  r_exited : option Z;          (* the fresh child is already reaped *)
  r_exit_seen : bool;           (* the exit task is done *)
  r_rc : Z;                     (* return code of a killed child *)
  r_now : F }.
Arguments mkResume {F}.
Arguments r_exec {F} _.
Arguments r_exited {F} _.
Arguments r_exit_seen {F} _.
Arguments r_rc {F} _.
Arguments r_now {F} _.

Inductive child_out (F : Type) :=
| Begun                                (* [start] is called *)
| Spawned (pid : Z)
| Exited (pid : Z)                     (* on its own *)
| Killed (pid : Z)                     (* signalled and awaited *)
| Crashed (now : F) (gave_up : bool)   (* a crash or failed respawn is charged *)
| OnFault
| Returned (ok : option bool).         (* the operator call ends: [start]'s result *)
Arguments Begun {F}.
Arguments Spawned {F} _.
Arguments Exited {F} _.
Arguments Killed {F} _.
Arguments Crashed {F} _ _.
Arguments OnFault {F}.
Arguments Returned {F} _.

Section Child.
Context {F : Type} {PF : PyFloat F}.
Implicit Types c : WfbChild F.

Definition child_init (sp : ServiceSpec F) (maxr : Z) (window : F) : WfbChild F :=
  mkChild sp maxr window None None None 0 None false [] false 0 false NoWatch false Idle.

Definition tx_parser c : option parser_obj := _parser c.

(** [_make_parser]. *)
Definition _make_parser c : WfbChild F :=
  match sp_parser (spec c) with
  | None => c <| _parser := None |>
  | Some ParseProbe => c <| _parser := Some Sink |>
  | Some _ => c <| _parser := Some (Parser (spawns c)) |> <| spawns ::= S |> <| handshake := false |>
  end.

(** [_check_rx_ready]. *)
Definition _check_rx_ready c : WfbChild F * bool :=
  match _proc c with
  | Some p => match returncode p with Some rc => (c <| _last_exit := Some rc |>, false) | None => (c, true) end
  | None => (c, false)
  end.

(** The coroutine [_spawn_and_wait], from one suspension to the next or to its
    result.  It starts by making the parser. *)
Definition spawn_begin c : WfbChild F * (spawn_pc + bool) := (_make_parser c, inl AtExec).

(** [finally]: an exit task that is not done is cancelled and awaited. *)
Definition finish_race c (ok exit_seen : bool) : WfbChild F * (spawn_pc + bool) :=
  (c, if exit_seen then inr ok else inl (AtExitTask ok)).

Definition spawn_exec c (r : resume F) : WfbChild F * list (child_out F) * (spawn_pc + bool) :=
  match r_exec r with
  | inl errno => (c <| _proc := None |> <| _last_exit := Some (default (-1) errno) |>, [], inr false)
  | inr pid =>
      let c1 := c <| _proc := Some (mkProcess pid (r_exited r)) |> <| _pump_task := Some pid |> in
      let o := Spawned pid :: (if is_some (r_exited r) then [Exited pid] else []) in
      match _parser c1, sp_kind (spec c1) with
      | Some _, KTx => (c1, o, inl AtRace)
      | _, _ => let '(c2, ok) := _check_rx_ready c1 in (c2, o, inr ok)
      end
  end.

(** [_wait_tx_ready] when one of the three wakes it; the timeout is the wake-up
    with neither handshake nor exit. *)
Definition spawn_race c (r : resume F) : WfbChild F * (spawn_pc + bool) :=
  match _proc c with
  | None => (c, inr false)
  | Some p =>
      if handshake c then finish_race c true (is_some (returncode p) && r_exit_seen r)
      else match returncode p with
           | Some rc => if r_exit_seen r then (c <| _last_exit := Some rc |>, inr false) else (c, inl AtKill)
           | None => (c, inl AtKill)
           end
  end.

(** [_kill_process], once the child is gone. *)
Definition kill_done c (rc : Z) : WfbChild F * list (child_out F) :=
  match _proc c with
  | None => (c, [])
  | Some p => (c <| _last_exit := Some (default rc (returncode p)) |> <| _proc := None |>,
               if is_some (returncode p) then [] else [Killed (pr_pid p)])
  end.

Definition spawn_resume c (pc : spawn_pc) (r : resume F) : WfbChild F * list (child_out F) * (spawn_pc + bool) :=
  match pc with
  | AtExec => spawn_exec c r
  | AtRace => let '(c1, k) := spawn_race c r in (c1, [], k)
  | AtKill => let '(c1, o) := kill_done c (r_rc r) in
              let '(c2, k) := finish_race c1 false (r_exit_seen r) in (c2, o, k)
  | AtExitTask ok => (c, [], inr ok)
  end.

(** ** The watch task *)

(** The head of the outer loop. *)
Definition watch_top c : WfbChild F :=
  c <| watch := match _proc c with Some _ => WatchExit | None => WatchDone end |>.

(** The budget: charge a crash (or a failed respawn), fault or back off. *)
Definition watch_charge c (now : F) : WfbChild F * list (child_out F) :=
  let c1 := c <| _recent ::= charge (restart_window c) now |> in
  if Z.of_nat (length (_recent c1)) >? max_restarts c
  then (c1 <| _fault := true |> <| _supervise := false |> <| _proc := None |> <| watch := WatchDone |>,
        [Crashed now true; OnFault])
  else (c1 <| _auto_restarts ::= Z.succ |> <| watch := WatchBackoff |>, [Crashed now false]).

(** After [_spawn_and_wait] in the watch. *)
Definition watch_spawned c (k : spawn_pc + bool) (now : F) : WfbChild F * list (child_out F) :=
  match k with
  | inl pc => (c <| watch := WatchSpawn pc |>, [])
  | inr _ => match _proc c with
             | Some _ => (watch_top c, [])
             | None => watch_charge c now
             end
  end.

(** The loop resumes the watch task. *)
Definition _watch c (r : resume F) : option (WfbChild F * list (child_out F)) :=
  match watch c with
  | NoWatch | WatchDone => None
  | WatchSpawn (AtExitTask ok) =>
      (* the cancellation, if requested, is swallowed here *)
      Some (watch_spawned (c <| cancel_requested := false |>) (inr ok) (r_now r))
  | pc =>
      if cancel_requested c then Some (c <| watch := WatchDone |>, [])
      else match pc with
           | WatchNew => Some (watch_top c, [])
           | WatchExit =>
               match _proc c with
               | Some p => match returncode p with
                           | None => None
                           | Some rc => if _supervise c then Some (watch_charge (c <| _last_exit := Some rc |>) (r_now r))
                                        else Some (c <| watch := WatchDone |>, [])
                           end
               | None => None
               end
           | WatchBackoff =>
               if _supervise c then let '(c1, k) := spawn_begin c in Some (watch_spawned c1 k (r_now r))
               else Some (c <| watch := WatchDone |>, [])
           | WatchSpawn sp =>
               let '(c1, o, k) := spawn_resume c sp r in
               let '(c2, o2) := watch_spawned c1 k (r_now r) in Some (c2, o ++ o2)
           | _ => None
           end
  end.

(** ** The operator's calls *)

Definition start_spawned c (k : spawn_pc + bool) : WfbChild F * list (child_out F) :=
  match k with
  | inl pc => (c <| call := InStart pc |>, [])
  | inr ok => (match _proc c with
               | Some _ => c <| _supervise := true |> <| watch := WatchNew |>
               | None => c
               end <| call := Idle |>, [Returned (Some ok)])
  end.

Definition start c : WfbChild F * list (child_out F) :=
  let '(c1, k) := spawn_begin (c <| _fault := false |> <| _recent := [] |>) in
  let '(c2, o) := start_spawned c1 k in (c2, Begun :: o).

(** [stop] after the watch task: kill, then drop the pump. *)
Definition stop_kill c : WfbChild F * list (child_out F) :=
  match _proc c with
  | Some p => match returncode p with
              | None => (c <| call := StopAwaitsExit |>, [])
              | Some _ => let '(c1, o) := kill_done c 0 in
                          (c1 <| _pump_task := None |> <| call := Idle |>, o ++ [Returned None])
              end
  | None => (c <| _pump_task := None |> <| call := Idle |>, [Returned None])
  end.

Definition stop c : WfbChild F * list (child_out F) :=
  let c1 := c <| _supervise := false |> in
  match watch c1 with
  | NoWatch => stop_kill c1
  | _ => (c1 <| cancel_requested := true |> <| call := StopAwaitsWatch |>, [])
  end.

(** The loop resumes the operator's call. *)
Definition call_resume c (r : resume F) : option (WfbChild F * list (child_out F)) :=
  match call c with
  | Idle => None
  | InStart pc => let '(c1, o, k) := spawn_resume c pc r in
                  let '(c2, o2) := start_spawned c1 k in Some (c2, o ++ o2)
  | StopAwaitsWatch => match watch c with
                       | WatchDone => Some (stop_kill (c <| watch := NoWatch |> <| cancel_requested := false |>))
                       | _ => None
                       end
  | StopAwaitsExit => let '(c1, o) := kill_done c (r_rc r) in
                      Some (c1 <| _pump_task := None |> <| call := Idle |>, o ++ [Returned None])
  end.

Record child_state := mkChildState {
  cs_running : bool; cs_pid : option Z; cs_auto : Z; cs_last_exit : option Z; cs_fault : bool }.
Definition state c : child_state :=
  let running := match _proc c with Some p => negb (is_some (returncode p)) | None => false end in
  mkChildState running (if running then pr_pid <$> _proc c else None) (_auto_restarts c) (_last_exit c) (_fault c).

(** ** Steps *)

Inductive child_ev :=
| EvStart | EvStop | EvExit (rc : Z) | EvHandshake | EvCall (r : resume F) | EvWatch (r : resume F).

(** The engine starts a child that is idle and has no watch, and stops one that
    is idle; the exit is the live child's. *)
Definition child_step c (e : child_ev) : option (WfbChild F * list (child_out F)) :=
  match e with
  | EvStart => match call c, watch c, _proc c with
               | Idle, NoWatch, None => Some (start c)
               | _, _, _ => None
               end
  | EvStop => match call c with Idle => Some (stop c) | _ => None end
  | EvExit rc => match _proc c with
                 | Some (mkProcess pid None) => Some (c <| _proc := Some (mkProcess pid (Some rc)) |>, [Exited pid])
                 | _ => None
                 end
  | EvHandshake => match _proc c, _parser c with
                   | Some _, Some (Parser _) => Some (c <| handshake := true |>, [])
                   | _, _ => None
                   end
  | EvCall r => call_resume c r
  | EvWatch r => _watch c r
  end.

Fixpoint child_run c (es : list child_ev) : option (WfbChild F * list (child_out F)) :=
  match es with
  | [] => Some (c, [])
  | e :: rest => match child_step c e with
                 | Some (c1, o1) => match child_run c1 rest with
                                    | Some (c2, o2) => Some (c2, o1 ++ o2)
                                    | None => None
                                    end
                 | None => None
                 end
  end.
End Child.
Arguments child_ev F : clear implicits.

(** ** Invariants *)

Section Facts.
Context {F : Type} {PF : PyFloat F}.
Implicit Types c : WfbChild F.

Definition dead (p : option Process) : Prop := match p with Some q => returncode q <> None | None => True end.

(** What a suspended spawn knows of the process. *)
Definition spawn_ok (pc : spawn_pc) (p : option Process) : Prop :=
  match pc with
  | AtExec => dead p
  | AtRace | AtKill | AtExitTask true => p <> None
  | AtExitTask false => p = None
  end.
Definition watch_ok (w : watch_pc) (p : option Process) : Prop :=
  match w with
  | WatchNew | WatchExit => p <> None
  | WatchBackoff => dead p
  | WatchSpawn pc => spawn_ok pc p
  | NoWatch | WatchDone => True
  end.

Definition inv c : Prop :=
  match watch c, call c with
  | NoWatch, Idle => _proc c = None /\ cancel_requested c = false
  | NoWatch, InStart pc => spawn_ok pc (_proc c) /\ _fault c = false /\ cancel_requested c = false
  | NoWatch, StopAwaitsExit => cancel_requested c = false
  | WatchDone, Idle => _fault c = true /\ _proc c = None /\ cancel_requested c = false
  | WatchDone, StopAwaitsWatch => True
  | w, Idle => watch_ok w (_proc c) /\ _fault c = false /\ _supervise c = true /\ cancel_requested c = false
  | w, StopAwaitsWatch => watch_ok w (_proc c) /\ _fault c = false
  | _, _ => False
  end.

(** Live processes, as the outputs tell. *)
Definition alive_step (l : list Z) (o : child_out F) : list Z :=
  match o with
  | Spawned pid => l ++ [pid]
  | Exited pid | Killed pid => List.filter (fun q => negb (q =? pid)) l
  | _ => l
  end.
Definition live c : list Z :=
  match _proc c with Some p => if is_some (returncode p) then [] else [pr_pid p] | None => [] end.

(** Fault callbacks and charged times since the last start. *)
Definition fault_step (n : nat) (o : child_out F) : nat := match o with Begun => O | OnFault => S n | _ => n end.
Definition crash_step (l : list F) (o : child_out F) : list F :=
  match o with Begun => [] | Crashed now _ => l ++ [now] | _ => l end.

(** Every verdict follows the charged list. *)
Fixpoint verdicts (window : F) (maxr : Z) (l : list F) (os : list (child_out F)) : Prop :=
  match os with
  | [] => True
  | o :: rest =>
      match o with
      | Crashed now gave_up => gave_up = (Z.of_nat (length (charged window (l ++ [now]))) >? maxr)
      | _ => True
      end /\ verdicts window maxr (crash_step l o) rest
  end.

(** Outputs that only report processes. *)
Definition process_out (o : child_out F) : Prop :=
  match o with Spawned _ | Exited _ | Killed _ | Returned _ => True | _ => False end.

Lemma process_outs o : Forall process_out o ->
  (forall n, fold_left fault_step o n = n) /\ (forall l, fold_left crash_step o l = l) /\
  (forall w m l, verdicts w m l o).
Proof.
  induction 1 as [|x o Hx _ (IH1 & IH2 & IH3)]; [done|].
  destruct x; try done; simpl; repeat split; eauto.
Qed.

(** The fields a spawn does not touch. *)
Definition control c := (max_restarts c, restart_window c, _fault c, _recent c, _supervise c, (watch c, cancel_requested c, call c)).

Lemma filter_self pid : List.filter (fun q => negb (q =? pid)) [pid] = [].
Proof. simpl. by rewrite Z.eqb_refl. Qed.

Lemma make_parser_frame c :
  control (_make_parser c) = control c /\ _proc (_make_parser c) = _proc c /\ live (_make_parser c) = live c.
Proof. unfold _make_parser. by destruct (sp_parser (spec c)) as [[]|]. Qed.

Lemma spawn_exec_spec c r c' o k :
  spawn_exec c r = (c', o, k) -> dead (_proc c) ->
  control c' = control c /\ Forall process_out o /\ fold_left alive_step o (live c) = live c' /\
  match k with inl pc => spawn_ok pc (_proc c') | inr _ => True end.
Proof.
  unfold spawn_exec. intros H Hd.
  assert (live c = []) as ->.
  { unfold live, dead in *. destruct (_proc c) as [[pid []]|]; done. }
  destruct (r_exec r) as [e|pid]; [by simplify_eq|].
  unfold _check_rx_ready in H. simpl in H.
  destruct (r_exited r) as [rc|], (_parser c), (sp_kind (spec c)); simplify_eq/=;
    repeat split; repeat constructor; unfold live; simpl; rewrite ?Z.eqb_refl; done.
Qed.

Lemma kill_done_spec c rc c' o :
  kill_done c rc = (c', o) ->
  control c' = control c /\ Forall process_out o /\ fold_left alive_step o (live c) = live c' /\ _proc c' = None.
Proof.
  unfold kill_done. destruct (_proc c) as [[pid [rc0|]]|] eqn:E; intros; simplify_eq/=;
    repeat split; repeat constructor; unfold live; rewrite E; simpl; rewrite ?Z.eqb_refl; done.
Qed.

Lemma spawn_resume_spec c pc r c' o k :
  spawn_resume c pc r = (c', o, k) -> spawn_ok pc (_proc c) ->
  control c' = control c /\ Forall process_out o /\ fold_left alive_step o (live c) = live c' /\
  match k with inl pc' => spawn_ok pc' (_proc c') | inr _ => True end.
Proof.
  destruct pc as [| | |ok]; simpl; intros H Hok.
  - by eapply spawn_exec_spec.
  - unfold spawn_race, finish_race in H. destruct (_proc c) as [[pid [rc|]]|] eqn:E; [| |done];
      destruct (handshake c), (r_exit_seen r); simplify_eq/=; rewrite ?E; repeat split; try done;
      unfold live; by rewrite E.
  - destruct (kill_done c (r_rc r)) as [c1 o1] eqn:E. unfold finish_race in H.
    destruct (kill_done_spec _ _ _ _ E) as (H1 & H2 & H3 & H4).
    destruct (r_exit_seen r); injection H as <- <- <-; simpl; auto.
  - by simplify_eq.
Qed.

Lemma live_control c c' : _proc c' = _proc c -> live c' = live c.
Proof. unfold live. by intros ->. Qed.

(** The accounts compose. *)
Definition ledger c c' (o : list (child_out F)) : Prop :=
  fold_left alive_step o (live c) = live c' /\
  fold_left fault_step o (if _fault c then 1 else 0)%nat = (if _fault c' then 1 else 0)%nat /\
  max_restarts c' = max_restarts c /\ restart_window c' = restart_window c /\
  (forall l, _recent c = charged (restart_window c) l ->
     _recent c' = charged (restart_window c) (fold_left crash_step o l) /\
     verdicts (restart_window c) (max_restarts c) l o).

Lemma verdicts_app w m l o1 o2 :
  verdicts w m l (o1 ++ o2) <-> verdicts w m l o1 /\ verdicts w m (fold_left crash_step o1 l) o2.
Proof. revert l. induction o1 as [|x o1 IH]; intros l; simpl; [tauto|]. rewrite IH. tauto. Qed.

Lemma ledger_trans c c1 c2 o1 o2 : ledger c c1 o1 -> ledger c1 c2 o2 -> ledger c c2 (o1 ++ o2).
Proof.
  intros (A1 & A2 & A3 & A4 & A5) (B1 & B2 & B3 & B4 & B5). unfold ledger. rewrite !fold_left_app, A1, A2.
  split; [done|]. split; [done|]. split; [congruence|]. split; [congruence|]. intros l H.
  destruct (A5 l H) as [H1 H2]. rewrite <- A4 in H1. destruct (B5 _ H1) as [H3 H4]. rewrite A4, A3 in *.
  rewrite fold_left_app. split; [done|]. by apply verdicts_app.
Qed.

Lemma ledger_plain c c' o :
  max_restarts c' = max_restarts c -> restart_window c' = restart_window c -> _fault c' = _fault c ->
  _recent c' = _recent c -> Forall process_out o -> fold_left alive_step o (live c) = live c' -> ledger c c' o.
Proof.
  intros H1 H2 H3 H4 Ho Hl. destruct (process_outs o Ho) as (E1 & E2 & E3).
  unfold ledger. rewrite E1, H1, H2, H3, H4. repeat split; auto. rewrite E2. auto.
Qed.

Lemma ledger_control c c' o :
  control c' = control c -> Forall process_out o -> fold_left alive_step o (live c) = live c' -> ledger c c' o.
Proof. intros [= H1 H2 H3 H4 _ _ _ _] Ho Hl. by apply ledger_plain. Qed.

Lemma dead_live c : dead (_proc c) -> live c = [].
Proof. unfold dead, live. by destruct (_proc c) as [[pid []]|]. Qed.

Lemma charge_ledger c now c' o :
  watch_charge c now = (c', o) -> dead (_proc c) -> _fault c = false -> ledger c c' o.
Proof.
  unfold watch_charge. cbn [_recent upd]. simpl. intros H Hd Hf.
  destruct (_ >? _) eqn:E; injection H as <- <-; unfold ledger; rewrite (dead_live _ Hd), Hf; simpl;
    (split; [symmetry; by apply dead_live|]; split; [by rewrite ?Hf|]; split; [done|]; split; [done|]);
    intros l Hl; rewrite Hl, <- charged_snoc in *; repeat split; by rewrite E.
Qed.

(** The calls in which the watch runs. *)
Definition watched c : Prop :=
  _fault c = false /\ (call c = Idle /\ _supervise c = true /\ cancel_requested c = false \/ call c = StopAwaitsWatch).

Lemma charge_inv c now c' o :
  watch_charge c now = (c', o) -> dead (_proc c) -> watched c -> inv c'.
Proof.
  unfold watch_charge. cbn [_recent upd]. simpl. intros H Hd (Hf & Hc).
  destruct (_ >? _); injection H as <- <-; unfold inv; simpl; destruct Hc as [(-> & Hs & Hcr)| ->]; simpl; auto.
Qed.

Lemma watch_spawned_ok c k now c' o :
  watch_spawned c k now = (c', o) -> watched c ->
  match k with inl pc => spawn_ok pc (_proc c) | inr _ => True end -> ledger c c' o /\ inv c'.
Proof.
  unfold watch_spawned. intros H Hw Hk. destruct k as [pc|ok].
  - injection H as <- <-. split; [by apply ledger_plain|].
    destruct Hw as (Hf & [(E & Hs & Hc)|E]); unfold inv; simpl; rewrite E; auto.
  - destruct (_proc c) as [p|] eqn:Hp.
    + injection H as <- <-. split; [apply ledger_plain; try done; unfold live; simpl; by rewrite Hp|].
      destruct Hw as (Hf & [(E & Hs & Hc)|E]); unfold inv, watch_top; simpl; rewrite !Hp, E; simpl; rewrite ?Hp; auto.
    + split; [eapply charge_ledger|eapply charge_inv]; try exact H; rewrite ?Hp; try done. by destruct Hw.
Qed.

Lemma watched_control c c' : control c' = control c -> watched c -> watched c'.
Proof. intros [= _ _ E3 _ E5 _ E7 E8]. unfold watched. by rewrite E3, E5, E7, E8. Qed.

(** A spawn inside the watch, then what the watch makes of it. *)
Lemma watch_via c c1 o1 k now c2 o2 :
  control c1 = control c -> Forall process_out o1 -> fold_left alive_step o1 (live c) = live c1 ->
  match k with inl pc => spawn_ok pc (_proc c1) | inr _ => True end -> watched c ->
  watch_spawned c1 k now = (c2, o2) -> ledger c c2 (o1 ++ o2) /\ inv c2.
Proof.
  intros Hc Ho Hl Hk Hw H. destruct (watch_spawned_ok _ _ _ _ _ H) as [L I]; [by eapply watched_control|done|].
  split; [|done]. by apply (ledger_trans c c1 c2); [apply ledger_control|].
Qed.

Lemma watch_end_ok c : call c = StopAwaitsWatch -> ledger c (c <| watch := WatchDone |>) [] /\ inv (c <| watch := WatchDone |>).
Proof. intros E. split; [by apply ledger_plain|]. unfold inv. simpl. by rewrite E. Qed.

Lemma inv_watched c : inv c -> watch c <> NoWatch -> watch c <> WatchDone -> watched c /\ watch_ok (watch c) (_proc c).
Proof. unfold inv, watched. intros Hi H1 H2. destruct (watch c), (call c); try done; tauto. Qed.

Lemma watched_stop c : watched c -> _supervise c = false \/ cancel_requested c = true -> call c = StopAwaitsWatch.
Proof. intros (_ & [(_ & H1 & H2)|E]); [|done]. intros []; congruence. Qed.

(** The task suspended in a spawn, outside the swallowing [await]. *)
Lemma watch_spawn_ok c pc r c' o :
  watched c -> spawn_ok pc (_proc c) ->
  (let '(c1, o1, k) := spawn_resume c pc r in
   let '(c2, o2) := watch_spawned c1 k (r_now r) in Some (c2, o1 ++ o2)) = Some (c', o) -> ledger c c' o /\ inv c'.
Proof.
  intros Hw Hok. destruct (spawn_resume c pc r) as [[c1 o1] k] eqn:E.
  destruct (watch_spawned c1 k (r_now r)) as [c2 o2] eqn:E2. intros [= <- <-].
  destruct (spawn_resume_spec _ _ _ _ _ _ E Hok) as (C1 & C2 & C3 & C4). by eapply watch_via.
Qed.

Lemma watch_step_ok c r c' o : _watch c r = Some (c', o) -> inv c -> ledger c c' o /\ inv c'.
Proof.
  unfold _watch. intros H Hi. pose proof (inv_watched c Hi) as Hw.
  destruct (watch c) as [| | | |pc|] eqn:Ew; try done; (destruct Hw as [Hw Hok]; [done|done|]); simpl in Hok.
  - destruct (cancel_requested c) eqn:Ec; injection H as <- <-; [apply watch_end_ok, watched_stop; auto|].
    split; [by apply ledger_plain|]. destruct Hw as (Hf & [(E & Hs & Hc)|E]); unfold inv, watch_top; simpl;
      destruct (_proc c) eqn:Hp; try done; simpl; rewrite E; simpl; rewrite ?Hp; auto.
  - destruct (cancel_requested c) eqn:Ec; [injection H as <- <-; apply watch_end_ok, watched_stop; auto|].
    destruct (_proc c) as [[pid [rc|]]|] eqn:Hp; try done. simpl in H.
    destruct (_supervise c) eqn:Es; injection H as H; [|subst; apply watch_end_ok, watched_stop; auto].
    split; [|eapply charge_inv; [exact H|simpl; by rewrite Hp|done]].
    eapply (ledger_trans c (c <| _last_exit := Some rc |>) c' []); [by apply ledger_plain|].
    eapply charge_ledger; [exact H|simpl; by rewrite Hp|by destruct Hw].
  - destruct (cancel_requested c) eqn:Ec; [injection H as <- <-; apply watch_end_ok, watched_stop; auto|].
    destruct (_supervise c) eqn:Es; injection H as <- <-; [|apply watch_end_ok, watched_stop; auto].
    destruct (make_parser_frame c) as (Hc & Hp & Hl).
    eapply (watch_via c (_make_parser c) [] (inl AtExec) (r_now r)); try done. simpl. by rewrite Hp.
  - destruct pc as [| | |ok]; [| | |injection H as H].
    1-3: destruct (cancel_requested c) eqn:Ec; [injection H as <- <-; apply watch_end_ok, watched_stop; auto|];
      by eapply watch_spawn_ok.
    change (watch_spawned (c <| cancel_requested := false |>) (inr ok) (r_now r) = (c', o)) in H.
    destruct (watch_spawned_ok _ _ _ _ _ H) as [L I]; [|done|].
    { destruct Hw as (Hf & [(E & Hs & Hc)|E]); split; simpl; auto. }
    split; [|done]. eapply (ledger_trans c _ c' []); [|exact L]. by apply ledger_plain.
Qed.

Lemma start_spawned_ok c k c' o :
  start_spawned c k = (c', o) -> watch c = NoWatch -> _fault c = false -> cancel_requested c = false ->
  match k with inl pc => spawn_ok pc (_proc c) | inr _ => True end -> ledger c c' o /\ inv c'.
Proof.
  unfold start_spawned. intros H Hw Hf Hc Hk. destruct k as [pc|ok]; [|destruct (_proc c) as [p|] eqn:Hp];
    injection H as <- <-; (split; [apply ledger_plain; try done; repeat constructor; unfold live; simpl; by rewrite ?Hp|]);
    unfold inv; simpl; rewrite ?Hw, ?Hp; auto.
Qed.

Lemma child_start_ok c c' o :
  start c = (c', o) -> call c = Idle -> watch c = NoWatch -> _proc c = None -> cancel_requested c = false ->
  ledger c c' o /\ inv c'.
Proof.
  unfold start, spawn_begin. set (c0 := c <| _fault := false |> <| _recent := [] |>). intros H Hi Hw Hp Hc.
  destruct (make_parser_frame c0) as ([= E1 E2 E3 E4 E5 E6 E7 E8] & Ep & El).
  destruct (start_spawned (_make_parser c0) (inl AtExec)) as [c2 o2] eqn:E. injection H as <- <-.
  destruct (start_spawned_ok _ _ _ _ E) as [L I].
  { by rewrite E6. } { by rewrite E3. } { by rewrite E7. } { simpl. rewrite Ep. unfold c0. simpl. by rewrite Hp. }
  split; [|done]. change (Begun :: o2) with ([Begun] ++ o2).
  apply (ledger_trans c (_make_parser c0) c2); [|done]. unfold ledger. rewrite E1, E2, E3, E4, El. simpl.
  repeat split.
Qed.

Lemma stop_kill_ok c c' o :
  stop_kill c = (c', o) -> watch c = NoWatch -> cancel_requested c = false -> ledger c c' o /\ inv c'.
Proof.
  unfold stop_kill. intros H Hw Hc. destruct (_proc c) as [[pid [rc|]]|] eqn:Hp.
  - simpl in H. destruct (kill_done c 0) as [c1 o1] eqn:E. injection H as <- <-.
    destruct (kill_done_spec _ _ _ _ E) as ([= E1 E2 E3 E4 E5 E6 E7 E8] & C2 & C3 & C4). split.
    + apply ledger_plain; try done; [apply Forall_app; by repeat constructor|].
      rewrite fold_left_app, C3. simpl. by apply live_control.
    + unfold inv. simpl. by rewrite E6, E7, Hw.
  - injection H as <- <-. split; [by apply ledger_plain|]. unfold inv. simpl. by rewrite Hw.
  - injection H as <- <-. split; [apply ledger_plain; repeat constructor|]. unfold inv. simpl. by rewrite Hw, Hp.
Qed.

Lemma child_stop_ok c c' o : stop c = (c', o) -> inv c -> call c = Idle -> ledger c c' o /\ inv c'.
Proof.
  unfold stop. simpl. intros H Hi Hc.
  assert (Hcancel : cancel_requested c = false) by (unfold inv in Hi; destruct (watch c); rewrite Hc in Hi; tauto).
  destruct (watch c) eqn:Ew.
  1: { destruct (stop_kill_ok _ _ _ H) as [L I]; [done|done|]. split; [|done].
       by apply (ledger_trans c (c <| _supervise := false |>) c' []); [apply ledger_plain|]. }
  all: injection H as <- <-; (split; [by apply ledger_plain|]); unfold inv in *; simpl; rewrite Ew, Hc in *; simpl in *; tauto.
Qed.

Lemma call_step_ok c r c' o : call_resume c r = Some (c', o) -> inv c -> ledger c c' o /\ inv c'.
Proof.
  unfold call_resume. intros H Hi. destruct (call c) as [|pc| |] eqn:Ec; try done.
  - assert (watch c = NoWatch /\ spawn_ok pc (_proc c) /\ _fault c = false /\ cancel_requested c = false) as (Hw & Hok & Hf & Hcr).
    { unfold inv in Hi. rewrite Ec in Hi. destruct (watch c); tauto. }
    destruct (spawn_resume c pc r) as [[c1 o1] k] eqn:E. destruct (start_spawned c1 k) as [c2 o2] eqn:E2.
    injection H as <- <-. destruct (spawn_resume_spec _ _ _ _ _ _ E Hok) as (C1 & C2 & C3 & C4).
    pose proof C1 as [= E1 E2' E3 E4 E5 E6 E7 E8].
    destruct (start_spawned_ok _ _ _ _ E2) as [L I]; [congruence|congruence|congruence|done|].
    split; [|done]. by apply (ledger_trans c c1 c2); [apply ledger_control|].
  - destruct (watch c) eqn:Ew; try done. injection H as H.
    destruct (stop_kill_ok _ _ _ H) as [L I]; [done|done|]. split; [|done].
    eapply (ledger_trans c _ c' []); [|exact L]. by apply ledger_plain.
  - destruct (kill_done c (r_rc r)) as [c1 o1] eqn:E. injection H as <- <-.
    destruct (kill_done_spec _ _ _ _ E) as ([= E1 E2 E3 E4 E5 E6 E7 E8] & C2 & C3 & C4). split.
    + apply ledger_plain; try done; [apply Forall_app; by repeat constructor|].
      rewrite fold_left_app, C3. simpl. by apply live_control.
    + unfold inv in *. simpl. rewrite Ec in Hi. rewrite E6, E7. destruct (watch c); try done.
Qed.

Lemma child_step_ok c e c' o : child_step c e = Some (c', o) -> inv c -> ledger c c' o /\ inv c'.
Proof.
  intros H Hi. destruct e as [| |rc| |r|r]; simpl in H.
  - destruct (call c) eqn:Ec, (watch c) eqn:Ew, (_proc c) eqn:Ep; try done.
    assert (start c = (c', o)) as Hs by by injection H as <- <-.
    apply child_start_ok; try done. unfold inv in Hi. rewrite Ew, Ec in Hi. tauto.
  - destruct (call c) eqn:Ec; try done. apply Some_inj in H. by apply child_stop_ok.
  - destruct (_proc c) as [[pid [rc0|]]|] eqn:Hp; try done. injection H as <- <-. split.
    + apply ledger_plain; try done; [repeat constructor|]. unfold live. rewrite Hp. simpl. by rewrite Z.eqb_refl.
    + unfold inv in *. simpl. rewrite Hp in Hi.
      destruct (watch c) as [| | | |[| | |[]]|], (call c) as [|[| | |[]]| |]; simpl in *; naive_solver.
  - destruct (_proc c), (_parser c) as [[]|]; try done. injection H as <- <-. split; [by apply ledger_plain|done].
  - by apply call_step_ok in H.
  - by apply watch_step_ok in H.
Qed.

Lemma run_ok c es c' os : child_run c es = Some (c', os) -> inv c -> ledger c c' os /\ inv c'.
Proof.
  revert c os. induction es as [|e es IH]; simpl; intros c os H Hi.
  { simplify_eq. split; [|done]. by apply ledger_plain. }
  destruct (child_step c e) as [[c1 o1]|] eqn:E; [|done].
  destruct (child_run c1 es) as [[c2 o2]|] eqn:E2; [|done]. injection H as <- <-.
  destruct (child_step_ok _ _ _ _ E Hi) as [L1 I1]. destruct (IH _ _ E2 I1) as [L2 I2].
  split; [|done]. by eapply ledger_trans.
Qed.

Lemma init_inv sp maxr window : inv (child_init sp maxr window : WfbChild F).
Proof. done. Qed.

(** Fault callbacks since the last start. *)
Definition faults (os : list (child_out F)) : nat := fold_left fault_step os 0%nat.

(** C7: The invariant the watch documents: between operator calls a child with
    no watch task has no process; a watch that ended has faulted, with the
    callback made exactly once since the start; any other watch supervises,
    with no fault reported. *)
Theorem watch_ends_in_fault sp maxr window es (c : WfbChild F) os :
  child_run (child_init sp maxr window) es = Some (c, os) -> call c = Idle ->
  match watch c with
  | NoWatch => _proc c = None
  | WatchDone => _fault c = true /\ faults os = 1%nat /\ _proc c = None
  | _ => _fault c = false /\ faults os = 0%nat /\ _supervise c = true /\
         (watch c = WatchExit -> _proc c <> None)
  end.
Proof.
  intros H Hc. destruct (run_ok _ _ _ _ H (init_inv _ _ _)) as ((_ & L & _) & I).
  change (fold_left fault_step os 0%nat) with (faults os) in L.
  unfold inv in I. rewrite Hc in I. destruct (watch c); simpl in *; destruct I as (I1 & I); try done;
    [..|by rewrite I1 in L; destruct I];
    destruct I as (If & Is & _); rewrite If in L; auto.
Qed.

Theorem child_processes_owned sp maxr window es (c : WfbChild F) os :
  child_run (child_init sp maxr window) es = Some (c, os) ->
  fold_left alive_step os [] = live c /\
  (call c = Idle -> watch c = NoWatch \/ watch c = WatchDone -> live c = []).
Proof.
  intros H. destruct (run_ok _ _ _ _ H (init_inv _ _ _)) as ((L & _) & I). split; [done|].
  intros Hc [Hw|Hw]; unfold inv in I; rewrite Hw, Hc in I; apply dead_live; [destruct I as [-> _]|destruct I as (_ & -> & _)]; done.
Qed.
End Facts.

(** The watch gives up on a crash or failed respawn exactly when more
    than max_restarts of those since the start, this one included, fall within
    the restart window. *)
Theorem child_budget sp maxr (window : Q) es c os :
  (0 < window)%Q -> child_run (child_init sp maxr window) es = Some (c, os) ->
  forall pre now gave_up post, os = pre ++ Crashed now gave_up :: post ->
  let crashes := fold_left crash_step pre [] ++ [now] in
  clock_order crashes -> gave_up = (crashes_in window now crashes >? maxr).
Proof.
  intros Hw H pre now gave_up post -> crashes Ho.
  destruct (run_ok _ _ _ _ H (init_inv _ _ _)) as ((_ & _ & _ & _ & L) & _).
  destruct (L [] eq_refl) as [_ V]. apply verdicts_app in V as [_ [V _]]. simpl in V.
  unfold crashes. by rewrite <- charged_count.
Qed.

(** ** A cancellation that is swallowed *)

(** [stop] requested while the watch task awaits the exit task it has just
    cancelled: the request is lost, and [stop] waits on a watch that waits for
    a healthy child to exit. *)
Section Swallowed.
Let tx_spec_ : ServiceSpec Q := mkSpec "mavlink_tx" KTx [] (Some ParseTx) None.
Let go (e : option Z + Z) : resume Q := mkResume e None false 0 0%Q.
Let script : list (child_ev Q) :=
  [EvStart; EvCall (go (inr 7)); EvHandshake; EvCall (go (inr 7)); EvCall (go (inr 7));    (* started *)
   EvWatch (go (inr 7)); EvExit 1; EvWatch (go (inr 7)); EvWatch (go (inr 7));             (* crashed, respawning *)
   EvWatch (go (inr 8)); EvHandshake; EvWatch (go (inr 8));                                (* handshake; exit task cancelled *)
   EvStop; EvWatch (go (inr 8))].

Lemma stop_can_hang :
  match child_run (child_init tx_spec_ 5 60%Q) script with
  | Some (c, _) =>
      call c = StopAwaitsWatch /\ watch c = WatchExit /\ live c = [8] /\
      forall e, child_step c e <> None -> (exists rc, e = EvExit rc) \/ e = EvHandshake
  | None => False
  end.
Proof.
  vm_compute. repeat split. intros [| |rc| |r|r] H; try done; eauto.
Qed.
End Swallowed.
