(* ===== verification/NodeSession.v ===== *)
(** * wfb/cluster.py: the persistent session of a remote node

    [NodeSession] on the engine's event loop, as a machine: between two
    [await]s its coroutines are atomic.  An event is an operator call, the ssh
    process exiting, or the loop resuming the call or the watch task with what
    the system answers.  [Notify] outputs are the [on_state] callbacks. *)
From Stdlib Require Import ZArith Lia Bool String QArith Lqa.
From stdpp Require Import base tactics list strings.
From S2P Require Import Prelude FloatModels CrashBudget.
Open Scope Z_scope.

(** The spawn is suspended at the fork or, with a process, at writing the
    script to its stdin. *)
Inductive node_spawn := NodeExec | NodeDrain.
Inductive node_watch := NoTask | TaskNew | TaskExit | TaskBackoff | TaskSpawn (p : node_spawn) | TaskDone.
Inductive node_call := CallIdle | CallStart (p : node_spawn) | CallStopTask | CallStopExit.

Record Ssh := mkSsh { ssh_pid : Z; ssh_exited : bool }.

Record NodeSession (F : Type) := mkNode {
  backoff : F; max_backoff : F; _stable_reset_s : F;
  alive : bool; _restarts : Z; _proc : option Ssh; _supervise : bool; _spawned_at : option F;
  delay : F;                     (* local of the watch task *)
  task_spawned_at : option F;    (* local of the watch task, read before the wait *)
  task : node_watch; cancelling : bool; op : node_call }.
Arguments mkNode {F}.
Arguments backoff {F} _.
Arguments max_backoff {F} _.
Arguments _stable_reset_s {F} _.
Arguments alive {F} _.
Arguments _restarts {F} _.
Arguments _proc {F} _.
Arguments _supervise {F} _.
Arguments _spawned_at {F} _.
Arguments delay {F} _.
Arguments task_spawned_at {F} _.
Arguments task {F} _.
Arguments cancelling {F} _.
Arguments op {F} _.
#[export] Instance eta_node F : Settable (NodeSession F) := fun s =>
  mkNode (backoff s) (max_backoff s) (_stable_reset_s s) (alive s) (_restarts s) (_proc s) (_supervise s)
    (_spawned_at s) (delay s) (task_spawned_at s) (task s) (cancelling s) (op s).

Inductive node_out (F : Type) :=
| Notify (up : bool)
| Slept (d : F)               (* the watch starts a back-off of [d] seconds *)
| ClockUp (now : F)           (* [_spawned_at] is read from the clock *)
| ClockLost (now : F)         (* the clock, read when the watch sees the exit *)
| SshSpawned (pid : Z)
| SshEnded (pid : Z)
| CallReturned (ok : option bool).
Arguments Notify {F} _.
Arguments Slept {F} _.
Arguments ClockUp {F} _.
Arguments ClockLost {F} _.
Arguments SshSpawned {F} _.
Arguments SshEnded {F} _.
Arguments CallReturned {F} _.

(** Answers: the pid of the fork or its failure, and the loop's clock. *)
Record node_resume (F : Type) := mkNR { nr_exec : option Z; nr_now : F }.
Arguments mkNR {F}.
Arguments nr_exec {F} _.
Arguments nr_now {F} _.

Section Node.
Context {F : Type} {PF : PyFloat F}.
Implicit Types s : NodeSession F.

Definition node_init (b mb : F) (stable : option F) : NodeSession F :=
  mkNode b mb (default mb stable) false 0 None false None b None NoTask false CallIdle.

(** [_spawn]: resumed at the fork, then at the drain.  The write may fail with a
    broken pipe, which changes nothing. *)
Definition node_spawn_step s (p : node_spawn) (r : node_resume F)
    : NodeSession F * list (node_out F) * (node_spawn + bool) :=
  match p with
  | NodeExec =>
      match nr_exec r with
      | None => (s <| _proc := None |> <| alive := false |> <| _spawned_at := None |>, [], inr false)
      | Some pid => (s <| _proc := Some (mkSsh pid false) |>, [SshSpawned pid], inl NodeDrain)
      end
  | NodeDrain => (s <| alive := true |> <| _spawned_at := Some (nr_now r) |>, [ClockUp (nr_now r)], inr true)
  end.

(** [await asyncio.sleep(delay)]. *)
Definition to_backoff s : NodeSession F * list (node_out F) := (s <| task := TaskBackoff |>, [Slept (delay s)]).

(** The head of the outer loop. *)
Definition watch_head s : NodeSession F * list (node_out F) :=
  match _proc s with
  | Some _ => (s <| task := TaskExit |> <| task_spawned_at := _spawned_at s |>, [])
  | None => let '(s1, o) := to_backoff s in (s1, Notify false :: o)
  end.

Definition durable s (now : F) : bool :=
  match task_spawned_at s with Some t => (now -f t) >=f _stable_reset_s s | None => false end.

Definition _watch s (r : node_resume F) : option (NodeSession F * list (node_out F)) :=
  match task s with
  | NoTask | TaskDone => None
  | pc =>
      if cancelling s then Some (s <| task := TaskDone |>, [])
      else match pc with
           | TaskNew => Some (watch_head s)
           | TaskExit =>
               match _proc s with
               | Some p =>
                   if negb (ssh_exited p) then None
                   else if negb (_supervise s) then Some (s <| task := TaskDone |>, [])
                   else let s1 := s <| alive := false |> in
                        let s2 := if durable s1 (nr_now r) then s1 <| delay := backoff s |> else s1 in
                        let '(s3, o) := to_backoff s2 in Some (s3, ClockLost (nr_now r) :: Notify false :: o)
               | None => None
               end
           | TaskBackoff =>
               let s1 := s <| delay := fmin (delay s *f fofZ 2) (max_backoff s) |> in
               if negb (_supervise s) then Some (s1 <| task := TaskDone |>, [])
               else Some (s1 <| _restarts ::= Z.succ |> <| task := TaskSpawn NodeExec |>, [])
           | TaskSpawn p =>
               let '(s1, o, k) := node_spawn_step s p r in
               match k with
               | inl p' => Some (s1 <| task := TaskSpawn p' |>, o)
               | inr true => let '(s2, o2) := watch_head s1 in Some (s2, o ++ Notify true :: o2)
               | inr false => let '(s2, o2) := to_backoff s1 in Some (s2, o ++ o2)
               end
           | _ => None
           end
  end.

(** [start] ends by creating the watch task, whatever the spawn gave. *)
Definition start_end s (k : node_spawn + bool) : NodeSession F * list (node_out F) :=
  match k with
  | inl p => (s <| op := CallStart p |>, [])
  | inr ok => (s <| op := CallIdle |> <| task := TaskNew |> <| delay := backoff s |>, [CallReturned (Some ok)])
  end.

Definition node_start s : NodeSession F * list (node_out F) := start_end (s <| _supervise := true |>) (inl NodeExec).

(** [_kill]: a live process is terminated and awaited. *)
Definition node_kill s : NodeSession F * list (node_out F) :=
  match _proc s with
  | Some p => if ssh_exited p
              then (s <| _proc := None |> <| alive := false |> <| op := CallIdle |>, [CallReturned None])
              else (s <| _proc := None |> <| alive := false |> <| op := CallStopExit |>, [SshEnded (ssh_pid p)])
  | None => (s <| alive := false |> <| op := CallIdle |>, [CallReturned None])
  end.

Definition node_stop s : NodeSession F * list (node_out F) :=
  let s1 := s <| _supervise := false |> in
  match task s1 with
  | NoTask => node_kill s1
  | _ => (s1 <| cancelling := true |> <| op := CallStopTask |>, [])
  end.

Definition call_step s (r : node_resume F) : option (NodeSession F * list (node_out F)) :=
  match op s with
  | CallIdle => None
  | CallStart p => let '(s1, o, k) := node_spawn_step s p r in
                   let '(s2, o2) := start_end s1 k in Some (s2, o ++ o2)
  | CallStopTask => match task s with
                    | TaskDone => Some (node_kill (s <| task := NoTask |> <| cancelling := false |>))
                    | _ => None
                    end
  | CallStopExit => Some (s <| op := CallIdle |>, [CallReturned None])
  end.

Definition node_state s : bool * Z := (alive s, _restarts s).

Inductive node_ev :=
| NStart | NStop | NExit | NCall (r : node_resume F) | NWatch (r : node_resume F).

Definition node_step s (e : node_ev) : option (NodeSession F * list (node_out F)) :=
  match e with
  | NStart => match op s, task s, _proc s with CallIdle, NoTask, None => Some (node_start s) | _, _, _ => None end
  | NStop => match op s with CallIdle => Some (node_stop s) | _ => None end
  | NExit => match _proc s with
             | Some (mkSsh pid false) => Some (s <| _proc := Some (mkSsh pid true) |>, [SshEnded pid])
             | _ => None
             end
  | NCall r => call_step s r
  | NWatch r => _watch s r
  end.

Fixpoint node_run s (es : list node_ev) : option (NodeSession F * list (node_out F)) :=
  match es with
  | [] => Some (s, [])
  | e :: rest => match node_step s e with
                 | Some (s1, o1) => match node_run s1 rest with
                                    | Some (s2, o2) => Some (s2, o1 ++ o2)
                                    | None => None
                                    end
                 | None => None
                 end
  end.
End Node.
Arguments node_ev F : clear implicits.

(** ** A node is retried for ever *)

Section Facts.
Context {F : Type} {PF : PyFloat F}.
Implicit Types s : NodeSession F.

Definition running (t : node_watch) : bool := match t with NoTask | TaskDone => false | _ => true end.

Definition inv s : Prop :=
  match task s, op s with
  | NoTask, CallIdle => cancelling s = false
  | NoTask, CallStart _ => _supervise s = true /\ cancelling s = false
  | NoTask, CallStopExit => cancelling s = false
  | NoTask, CallStopTask => False
  | TaskDone, CallStopTask => True
  | TaskDone, _ => False
  | _, CallIdle => _supervise s = true /\ cancelling s = false /\ (task s = TaskExit -> _proc s <> None)
  | _, CallStopTask => task s = TaskExit -> _proc s <> None
  | _, _ => False
  end.

(** The callbacks of a session: down first, then alternating.  [last] is the
    last one, up before any. *)
Fixpoint alternates (last : bool) (os : list (node_out F)) : Prop :=
  match os with
  | [] => True
  | Notify up :: rest => up = negb last /\ alternates up rest
  | CallReturned (Some _) :: rest => alternates true rest
  | _ :: rest => alternates last rest
  end.
Definition notified (last : bool) (o : node_out F) : bool :=
  match o with Notify up => up | CallReturned (Some _) => true | _ => last end.
Definition expects s (last : bool) : Prop :=
  match task s with
  | TaskNew | TaskExit => last = true
  | TaskBackoff | TaskSpawn _ => last = false
  | NoTask | TaskDone => True
  end.

(** The pace of the retries: the next delay, and the clock when the last spawn
    was up.  A delay is the last one doubled up to the maximum; a session that
    lasted [stable], or a start, brings it back to the base. *)
Definition pace_step (base maxd stable : F) (st : F * option F) (o : node_out F) : F * option F :=
  match o with
  | Slept d => (fmin (d *f fofZ 2) maxd, st.2)
  | ClockUp t => (st.1, Some t)
  | ClockLost t => (match st.2 with Some t0 => if (t -f t0) >=f stable then base else st.1 | None => st.1 end, st.2)
  | CallReturned (Some _) => (base, st.2)
  | _ => st
  end.
Fixpoint paced (base maxd stable : F) (st : F * option F) (os : list (node_out F)) : Prop :=
  match os with
  | [] => True
  | o :: rest => match o with Slept d => d = st.1 | _ => True end /\ paced base maxd stable (pace_step base maxd stable st o) rest
  end.
Definition next_delay s : F :=
  match task s with TaskBackoff => fmin (delay s *f fofZ 2) (max_backoff s) | _ => delay s end.

(** The watch's delay is the next one, and what it will compare the clock with
    is the last spawn's. *)
Definition in_pace s (st : F * option F) : Prop :=
  (running (task s) = true -> next_delay s = st.1) /\
  match task s with TaskExit => task_spawned_at s = st.2 | TaskNew => _proc s <> None -> _spawned_at s = st.2 | _ => True end /\
  (op s = CallStart NodeExec -> _proc s = None).

Lemma calls_alternate_app last o1 o2 :
  alternates last (o1 ++ o2) <-> alternates last o1 /\ alternates (fold_left notified o1 last) o2.
Proof.
  revert last. induction o1 as [|x o1 IH]; intros last; simpl; [tauto|].
  destruct x as [up|d|c|c|pid|pid|[ok|]]; simpl; rewrite IH; tauto.
Qed.
Lemma paced_app b m sb st o1 o2 :
  paced b m sb st (o1 ++ o2) <-> paced b m sb st o1 /\ paced b m sb (fold_left (pace_step b m sb) o1 st) o2.
Proof. revert st. induction o1 as [|x o1 IH]; intros st; simpl; [tauto|]. rewrite IH. tauto. Qed.

(** One step, from a state with its last callback and its pace. *)
Definition good s s' (last : bool) (st : F * option F) (o : list (node_out F)) : Prop :=
  backoff s' = backoff s /\ max_backoff s' = max_backoff s /\ _stable_reset_s s' = _stable_reset_s s /\ inv s' /\
  alternates last o /\ expects s' (fold_left notified o last) /\
  paced (backoff s) (max_backoff s) (_stable_reset_s s) st o /\
  in_pace s' (fold_left (pace_step (backoff s) (max_backoff s) (_stable_reset_s s)) o st).

Lemma watch_good s r s' o last st :
  _watch s r = Some (s', o) -> inv s -> expects s last -> in_pace s st -> good s s' last st o.
Proof.
  unfold _watch. intros H Hi He (Hn & Ht & Hx).
  destruct (task s) as [| | | |p|] eqn:Et; try done; specialize (Hn eq_refl); unfold next_delay in Hn; rewrite Et in Hn;
    unfold expects in He; rewrite Et in He; subst last; destruct st as [next up]; simpl in Hn, Ht; subst next;
    (destruct (cancelling s) eqn:Ec; [injection H as <- <-; unfold inv in Hi; rewrite Et, Ec in Hi;
       destruct (op s) eqn:Eo; unfold good, inv, expects, in_pace; simpl; rewrite ?Eo; intuition congruence|]).
  all: assert (op s = CallIdle /\ _supervise s = true \/ op s = CallStopTask) as Hop
    by (unfold inv in Hi; rewrite Et in Hi; destruct (op s); tauto).
  - unfold watch_head in H. destruct (_proc s) eqn:Hp; injection H as <- <-;
      unfold good, inv, expects, in_pace, next_delay; simpl; rewrite ?Hp; destruct Hop as [[E Hs]|E]; rewrite E, ?Hs; intuition congruence.
  - destruct (_proc s) as [p|] eqn:Hp; [|done]. destruct (ssh_exited p); [|done]. simpl in H.
    destruct (_supervise s) eqn:Hs; [|injection H as <- <-; unfold good, inv, expects, in_pace; simpl;
      destruct Hop as [[E ?]|E]; rewrite E; intuition congruence].
    simpl in H. unfold durable in H. simpl in H. rewrite Ht in H.
    destruct up as [t0|]; [destruct (_stable_reset_s s <=f _) eqn:Ed|]; injection H as <- <-; unfold good, inv, expects, in_pace, next_delay; simpl;
      rewrite ?Ed, ?Hs; destruct Hop as [[E ?]|E]; rewrite E; intuition congruence.
  - destruct (_supervise s) eqn:Hs; injection H as <- <-; unfold good, inv, expects, in_pace, next_delay; simpl; rewrite ?Hs;
      destruct Hop as [[E ?]|E]; rewrite E; intuition congruence.
  - destruct p; simpl in H.
    + destruct (nr_exec r); injection H as <- <-; unfold good, inv, expects, in_pace, next_delay; simpl;
        destruct Hop as [[E Hs]|E]; rewrite E, ?Hs; intuition congruence.
    + unfold watch_head in H. simpl in H. destruct (_proc s) eqn:Hp; injection H as <- <-;
        unfold good, inv, expects, in_pace, next_delay; simpl; rewrite ?Hp; destruct Hop as [[E Hs]|E]; rewrite E, ?Hs; intuition congruence.
Qed.

Lemma kill_good s s' o last st :
  node_kill s = (s', o) -> task s = NoTask -> cancelling s = false -> good s s' last st o.
Proof.
  unfold node_kill. intros H Ht Hc.
  destruct (_proc s) as [p|]; [destruct (ssh_exited p)|]; injection H as <- <-;
    unfold good, inv, expects, in_pace, next_delay; simpl; rewrite Ht; simpl; intuition congruence.
Qed.

Lemma call_good s r s' o last st :
  call_step s r = Some (s', o) -> inv s -> in_pace s st -> good s s' last st o.
Proof.
  unfold call_step. intros H Hi (_ & _ & Hx). destruct (op s) as [|p| |] eqn:Eo; try done.
  - assert (task s = NoTask /\ _supervise s = true /\ cancelling s = false) as (Ht & Hs & Hc).
    { unfold inv in Hi. rewrite Eo in Hi. destruct (task s); tauto. }
    destruct p; simpl in H; [destruct (nr_exec r)|]; injection H as <- <-;
      unfold good, inv, expects, in_pace, next_delay; simpl; rewrite ?Ht; simpl; intuition congruence.
  - destruct (task s) eqn:Et; try done. apply Some_inj in H.
    apply (kill_good _ _ _ last st) in H; done.
  - assert (task s = NoTask /\ cancelling s = false) as (Ht & Hc).
    { unfold inv in Hi. rewrite Eo in Hi. destruct (task s); tauto. }
    injection H as <- <-. unfold good, inv, expects, in_pace, next_delay; simpl; rewrite ?Ht; simpl; intuition congruence.
Qed.

Lemma step_good s e s' o last st :
  node_step s e = Some (s', o) -> inv s -> expects s last -> in_pace s st -> good s s' last st o.
Proof.
  intros H Hi He Hn. destruct e as [| | |r|r]; simpl in H.
  - destruct (op s) eqn:Eo, (task s) eqn:Et, (_proc s) eqn:Ep; try done. injection H as <- <-.
    unfold inv in Hi. rewrite Et, Eo in Hi. unfold good, inv, expects, in_pace, next_delay; simpl; rewrite ?Et, ?Ep; simpl; intuition congruence.
  - destruct (op s) eqn:Eo; try done. apply Some_inj in H. unfold node_stop in H. simpl in H.
    unfold inv in Hi. rewrite Eo in Hi. destruct (task s) eqn:Et.
    1: { by apply (kill_good _ _ _ last st) in H. }
    all: injection H as <- <-; unfold good, inv, expects, in_pace, next_delay in *; simpl in *; rewrite ?Et in *; simpl in *; intuition congruence.
  - destruct (_proc s) as [[pid []]|] eqn:Hp; try done. injection H as <- <-.
    unfold good, inv, expects, in_pace, next_delay in *; simpl in *. rewrite Hp in Hi, Hn.
    destruct (task s) eqn:Et, (op s) eqn:Eo; simpl in *; intuition congruence.
  - by eapply call_good.
  - by eapply watch_good.
Qed.

Lemma run_good s es s' os last st :
  node_run s es = Some (s', os) -> inv s -> expects s last -> in_pace s st -> good s s' last st os.
Proof.
  revert s os last st. induction es as [|e es IH]; simpl; intros s os last st H Hi He Hn.
  { simplify_eq. by unfold good; simpl. }
  destruct (node_step s e) as [[s1 o1]|] eqn:E; [|done].
  destruct (node_run s1 es) as [[s2 o2]|] eqn:E2; [|done]. injection H as <- <-.
  destruct (step_good _ _ _ _ _ _ E Hi He Hn) as (A1 & A2 & A3 & A4 & A5 & A6 & A7 & A8).
  destruct (IH _ _ _ _ E2 A4 A6 A8) as (B1 & B2 & B3 & B4 & B5 & B6 & B7 & B8). rewrite A1, A2, A3 in *.
  unfold good. rewrite calls_alternate_app, paced_app, !fold_left_app. intuition congruence.
Qed.

(** C34: A node session is never given up: between operator calls it is
    stopped, or its watch is alive and supervising; the callbacks alternate,
    down first; and each wait is exactly the previous one doubled up to the
    maximum, except that a start or a session that lasted at least the
    stable-reset time (by the clock readings around it), and nothing else,
    brings it back to the base. *)
Theorem node_never_given_up b mb stable es (s : NodeSession F) os :
  node_run (node_init b mb stable) es = Some (s, os) ->
  alternates true os /\ paced b mb (default mb stable) (b, None) os /\
  (op s = CallIdle -> task s = NoTask \/ running (task s) = true /\ _supervise s = true).
Proof.
  intros H. destruct (run_good _ _ _ _ true (b, None) H) as (_ & _ & _ & I & A & _ & P & _); [done..|].
  split; [done|]. split; [done|]. intros E. unfold inv in I. rewrite E in I.
  destruct (task s); simpl; tauto.
Qed.
End Facts.

(** ** The pace over exact time *)

Section Pace.
Open Scope Q_scope.

Lemma paced_bounds (b mb sb : Q) st os :
  0 <= b -> b <= mb -> b <= st.1 <= mb -> paced b mb sb st os -> forall d, Slept d ∈ os -> b <= d <= mb.
Proof.
  intros H0 Hb. revert st. induction os as [|o os IH]; intros st Hn Hp d Hd; [by apply not_elem_of_nil in Hd|].
  destruct Hp as [Ho Hp]. apply elem_of_cons in Hd as [<-|Hd]; [by subst|].
  eapply IH; [|exact Hp|done]. destruct o as [up|x|t|t|pid|pid|[ok|]]; cbn [pace_step fst]; try done; [|destruct st.2; [case_match|]; lra|lra].
  subst x. unfold fmin. destruct (mb <f _) eqn:E; [lra|].
  apply negb_false_iff, Qle_bool_iff in E. rewrite Q_mul_eq in *. simpl in *. change (inject_Z 2) with 2 in *. lra.
Qed.

(** Every retry comes after a delay between the base and the maximum. *)
Theorem node_backoff_bounded (b mb : Q) stable es s os :
  0 <= b -> b <= mb -> node_run (node_init b mb stable) es = Some (s, os) ->
  forall d, Slept d ∈ os -> b <= d <= mb.
Proof.
  intros H0 Hb H. destruct (run_good _ _ _ _ true (b, None) H) as (_ & _ & _ & _ & _ & _ & P & _); [done..|].
  eapply paced_bounds; [done|done| |exact P]. simpl. lra.
Qed.
End Pace.
