(* ===== verification/Pixelpilot.v ===== *)
(** * pixelpilot.py: the display process's command line and environment

    Rendered from the effective configuration.  The words keep the JSON values
    of the configuration; a word that is no string makes the spawn raise. *)
From Stdlib Require Import ZArith Lia Bool String QArith.
From stdpp Require Import base tactics list sets strings pretty.
From S2P Require Import Prelude PyStr FloatModels Json Cards Schema StatsClient LearnedPrior Decision Signals Policy ConnMonitor Config.
Open Scope Z_scope.

Section Pixelpilot.
Context {F : Type} {PF : PyFloat F}.
Variable repr : json F -> string.
#[local] Abbreviation dict := (list (string * json F)).

(** [os.path.join(dir, file)]. *)
Definition os_path_join (dir file : json F) : res (json F) :=
  match dir, file with
  | JStr d, JStr f => Ok (JStr (if String.prefix "/" f then f else path_join d f))
  | _, _ => Err TypeError
  end.

Definition render_pixelpilot_argv (effective : dict) : res (list (json F)) :=
  let pp := get_or "pixelpilot" (JDict []) effective in
  let* dvr := obj_get "dvr" (JDict []) pp in
  let* dvr_dir := obj_get "dir" (JStr "/media/dvr") dvr in
  let* dvr_template := obj_get "template" (JStr "record_%Y-%m-%d_%H-%M-%S.mp4") dvr in
  let* bin := obj_get "bin" (JStr "/usr/bin/pixelpilot") pp in
  let* config := obj_get "configPath" (JStr "/etc/pixelpilot.yaml") pp in
  let* osd := obj_get "osdConfigPath" (JStr "/etc/pixelpilot/osd.json") pp in
  let* codec := obj_get "codec" (JStr "h265") pp in
  let* mode := obj_get "screenMode" (JStr "1920x1080@60") pp in
  let* fmp4 := obj_get "fmp4" (JBool true) dvr in
  let* seqf := obj_get "sequencedFiles" (JBool true) dvr in
  let* path := os_path_join dvr_dir dvr_template in
  let* port := obj_get "rtpPort" (JInt 5600) pp in
  let* extra := obj_get "extraArgs" (JList []) pp in
  let* extra := py_iter extra in
  Ok ([bin; JStr "--config"; config; JStr "--osd"; JStr "--osd-custom-message"; JStr "--osd-config"; osd;
       JStr "--codec"; codec; JStr "--screen-mode"; mode] ++
      (if truthy fmp4 then [JStr "--dvr-fmp4"] else []) ++
      (if truthy seqf then [JStr "--dvr-sequenced-files"] else []) ++
      [JStr "--dvr-template"; path; JStr "-p"; JStr (py_str repr port)] ++ extra).

Definition render_pixelpilot_env (effective : dict) : res (list (string * string)) :=
  let* env := obj_get "env" (JDict []) (get_or "pixelpilot" (JDict []) effective) in
  match env with
  | JDict d => Ok (map (fun kv => (kv.1, py_str repr kv.2)) d)
  | _ => Err AttributeError
  end.

(** ** A validated block renders to strings *)

(** The keys whose null validation lets through. *)
Definition player_keys : list string := ["bin"; "configPath"; "osdConfigPath"; "codec"; "screenMode"].

Definition all_strings (l : list (json F)) : Prop := Forall (fun v => is_str v = true) l.

Lemma opt_str_ok name (d : dict) k dflt :
  opt_str name d k = Ok tt -> dict_get k d <> Some JNull ->
  is_str (get_or k (JStr dflt) d) = true.
Proof.
  unfold opt_str, get_, get_or. intros H%check_ok Hn. destruct (dict_get k d) as [[]|]; done.
Qed.

Lemma obj_get_dict k v (d : dict) : obj_get k v (JDict d) = Ok (get_or k v d).
Proof. done. Qed.

Lemma for_each_in {A} (f : A -> res unit) l x : for_each f l = Ok tt -> x ∈ l -> f x = Ok tt.
Proof. intros H%for_each_ok Hx. by eapply Forall_forall in H. Qed.

(** A display block that validates, with none of its strings null,
    renders without raising to a command line and an environment made of
    strings. *)
Theorem validated_player_renders cfg pp :
  get_or "pixelpilot" (JDict []) cfg = JDict pp -> _validate_pixelpilot (JDict pp) = Ok tt ->
  (forall k, k ∈ player_keys -> dict_get k pp <> Some JNull) ->
  (forall dvr k, dict_get "dvr" pp = Some (JDict dvr) -> k ∈ ["dir"; "template"] -> dict_get k dvr <> Some JNull) ->
  exists argv env, render_pixelpilot_argv cfg = Ok argv /\ render_pixelpilot_env cfg = Ok env /\ all_strings argv.
Proof.
  intros Hpp Hv Hn Hd. unfold _validate_pixelpilot in Hv.
  apply rbind_ok in Hv as ([] & _ & ([] & _ & ([] & Hstr & ([] & Hdvr & ([] & Henv & Hextra)%rbind_ok)%rbind_ok)%rbind_ok)%rbind_ok).
  apply check_ok in Henv, Hextra.
  destruct (get_or "dvr" (JDict []) pp) as [| | | | | |dvr] eqn:Edvr; try done.
  destruct (get_or "env" (JDict []) pp) as [| | | | | |env] eqn:Eenv; try done.
  destruct (get_or "extraArgs" (JList []) pp) as [| | | | |extra|] eqn:Eextra; try done.
  apply rbind_ok in Hdvr as ([] & Hdvr & _).
  assert (Hs : forall k dflt, k ∈ player_keys -> is_str (get_or k (JStr dflt) pp) = true).
  { intros k dflt Hk. eapply opt_str_ok; [|by apply Hn]. eapply for_each_in; [exact Hstr|].
    unfold player_keys in Hk. set_solver. }
  assert (Hds : forall k dflt, k ∈ ["dir"; "template"] -> is_str (get_or k (JStr dflt) dvr) = true).
  { intros k dflt Hk. eapply opt_str_ok; [by eapply for_each_in|]. unfold get_or in Edvr.
    destruct (dict_get "dvr" pp) eqn:E; simplify_eq; [by eapply Hd|done]. }
  unfold render_pixelpilot_argv, render_pixelpilot_env. rewrite Hpp, !obj_get_dict, Edvr, Eenv, Eextra. cbn [rbind].
  rewrite !obj_get_dict. cbn [rbind py_iter].
  pose proof (Hds "dir" "/media/dvr" ltac:(left)) as Hdir.
  pose proof (Hds "template" "record_%Y-%m-%d_%H-%M-%S.mp4" ltac:(right; left)) as Htpl.
  destruct (get_or "dir" _ dvr) as [| | | |dir| |] eqn:E1; try done.
  destruct (get_or "template" _ dvr) as [| | | |tpl| |] eqn:E2; try done. cbn [os_path_join rbind].
  eexists _, _. split; [done|]. split; [done|]. unfold all_strings.
  rewrite !Forall_app. repeat split.
  - repeat (apply Forall_cons; split; [first [done | apply Hs; unfold player_keys; set_solver]|]). constructor.
  - destruct (truthy _); repeat constructor.
  - destruct (truthy _); repeat constructor.
  - repeat constructor.
  - apply Forall_forall. intros v Hv. apply negb_false_iff in Hextra. rewrite forallb_forall in Hextra.
    apply Hextra. by apply list_elem_of_In.
Qed.
End Pixelpilot.

(** A null binary validates, and the command line then holds a null word. *)
Lemma null_bin_rendered :
  let cfg := deep_merge default_config [("pixelpilot", JDict [("bin", JNull)])] : list (string * json Q) in
  validate_effective None cfg = Ok tt /\
  exists rest, render_pixelpilot_argv (fun _ => ""%string) cfg = Ok (JNull :: rest).
Proof. split; [vm_compute; reflexivity|]. eexists. vm_compute. reflexivity. Qed.
