(* ===== verification/Engine.v ===== *)
(** * wfb/engine.py: building and tearing down the radio data plane

    [_setup] and [_teardown] as functions of what the system answers (the stale
    process scan, the radio, each child's start, the services' starts, each
    node's start), with the effects in order as a trace; the thread-safe
    surface (start, stop, restart, state); and the wiring of the uplink
    services to the transmitters' sockets, re-done when a transmitter is
    respawned.  A transmitter child is seen through its parser: the object's
    identity and the sockets its handshake announced so far. *)
From Stdlib Require Import ZArith Lia Bool String.
From stdpp Require Import base tactics list sets strings pretty.
From S2P Require Import Prelude PyStr Json Cards Schema StatsClient TxSel Radio Cluster Graph AggQueue Tunnel.
Open Scope Z_scope.

(** ** State *)

(** A child, as the wiring reads it. *)
Record tx_view := mkTxView { tv_parser : option nat; tv_sockets : list (Z * string) }.

(** What the engine can hold open. *)
Inductive resource := RChild (name : string) | RMav | RTun | RStats | RHub | RNode (node : string) | RTicker.
#[export] Instance resource_dec : EqDecision resource.
Proof. solve_decision. Defined.

Inductive effect (F : Type) :=
| Reaped
| RadioInit (wlans : list (json F))
| Opened (r : resource)
| Closed (r : resource).
Arguments Reaped {F}.
Arguments RadioInit {F} wlans.
Arguments Opened {F} r.
Arguments Closed {F} r.

(** The ticker task: none, running, or ended by an exception. *)
Inductive tick_state := NoTick | Ticking | TickCrashed.

Record WfbEngine (F : Type) := mkEngine {
  _staged_config : option (list (string * json F));
  _thread : bool;                                   (* alive *)
  _start_ok : bool;
  _children : list (string * tx_view);
  _extra_rx_names : list string; _extra_tx_names : list string;
  _mav_service : option (option string);            (* running: the connected tx socket *)
  _tunnel_service : option TunnelService;
  _stats_server : bool; _tick_task : tick_state; hub : bool; probe_feed : bool;
  _tx_selector : option TxSelector;
  _tx_parser_ids : list (string * option nat);
  _node_sessions : list string;
  _nodes_state : list (string * (bool * Z));
  _restarts : Z; _engine_fault : bool }.
Arguments mkEngine {F}.
Arguments _staged_config {F} _.
Arguments _thread {F} _.
Arguments _start_ok {F} _.
Arguments _children {F} _.
Arguments _extra_rx_names {F} _.
Arguments _extra_tx_names {F} _.
Arguments _mav_service {F} _.
Arguments _tunnel_service {F} _.
Arguments _stats_server {F} _.
Arguments _tick_task {F} _.
Arguments hub {F} _.
Arguments probe_feed {F} _.
Arguments _tx_selector {F} _.
Arguments _tx_parser_ids {F} _.
Arguments _node_sessions {F} _.
Arguments _nodes_state {F} _.
Arguments _restarts {F} _.
Arguments _engine_fault {F} _.
#[export] Instance eta_engine F : Settable (WfbEngine F) := fun e =>
  mkEngine (_staged_config e) (_thread e) (_start_ok e) (_children e) (_extra_rx_names e) (_extra_tx_names e)
    (_mav_service e) (_tunnel_service e) (_stats_server e) (_tick_task e) (hub e) (probe_feed e) (_tx_selector e)
    (_tx_parser_ids e) (_node_sessions e) (_nodes_state e) (_restarts e) (_engine_fault e).

(** How a child's construction and start went. *)
Inductive child_ans := CReady (v : tx_view) | CNotReady (v : tx_view) | CRaised.

(** What the system answers during one setup. *)
Record answers (F : Type) := mkAnswers {
  a_provider : res (list (string * json F));                  (* the store's configuration *)
  a_reap : res unit;
  a_wlans : list (string * json F) -> res (list (json F));    (* the local interfaces *)
  a_iw : list (json F) -> run_ans;
  a_route : string -> res string;                             (* the source address towards a host *)
  a_suffixes : suffixes;
  a_child : string -> ServiceSpec F -> child_ans;
  a_mav : bool; a_tun : bool; a_stats : bool;                 (* the service's start does not raise *)
  a_connects : string -> bool;                                (* connecting to a socket name *)
  a_node : string -> bool }.                                  (* a node session starts *)
Arguments mkAnswers {F}.
Arguments a_provider {F} _.
Arguments a_reap {F} _.
Arguments a_wlans {F} _.
Arguments a_iw {F} _.
Arguments a_route {F} _.
Arguments a_suffixes {F} _.
Arguments a_child {F} _.
Arguments a_mav {F} _.
Arguments a_tun {F} _.
Arguments a_stats {F} _.
Arguments a_connects {F} _.
Arguments a_node {F} _.

Definition RX_LEG_ORDER : list string := ["video_rx"; "mavlink_rx"; "tunnel_rx"].
Definition TX_LEG_ORDER : list string := ["mavlink_tx"; "tunnel_tx"].

(** ** Stale processes *)

(** [reap_stale_wfb]: [kill] succeeds or raises [OSError]. *)
Definition reap_stale_wfb (pids : list Z) (kill : Z -> bool) (me : Z) : list Z :=
  List.filter (fun pid => negb (pid =? me) && kill pid) pids.

Section Engine.
Context {F : Type} {PF : PyFloat F}.
Variable repr : json F -> string.
Variable inet_aton : string -> option Z.
Variable sortable : list (json F) -> bool.
#[local] Abbreviation dict := (list (string * json F)).
#[local] Abbreviation trace := (list (effect F)).
Implicit Types (e : WfbEngine F) (a : answers F).

Definition engine_init : WfbEngine F :=
  mkEngine None false false [] [] [] None None false NoTick false false None [] [] [] 0 false.

(** ** The wiring *)

Fixpoint kget (k : Z) (d : list (Z * string)) : option string :=
  match d with [] => None | (k', v) :: d' => if k =? k' then Some v else kget k d' end.

Definition tx_child e (name : string) : option tx_view := dict_get name (_children e).

Definition _tx_socket_for (child : option tx_view) (wlan_id : option Z) : option string :=
  match child with
  | None => None
  | Some c =>
      match tv_parser c, tv_sockets c with
      | Some _, (_, first) :: _ => Some (default first (wlan_id ≫= (fun w => kget w (tv_sockets c))))
      | _, _ => None
      end
  end.

(** [MavlinkService.set_tx_socket]: the connected socket afterwards. *)
Definition mav_set_tx_socket (connects : string -> bool) (name : option string) : option string :=
  name ≫= (fun n => if connects n then Some n else None).

Definition _apply_tx_selection (connects : string -> bool) (wlan_id : option Z) e : WfbEngine F :=
  e <| _mav_service ::= fmap (fun _ => mav_set_tx_socket connects (_tx_socket_for (tx_child e "mavlink_tx") wlan_id)) |>
    <| _tunnel_service ::= fmap (fun t => set_tx_socket connects t (_tx_socket_for (tx_child e "tunnel_tx") wlan_id)) |>.

(** A transmitter whose handshake has announced a socket, under a parser not
    wired up yet. *)
Definition respawned e (ids : list (string * option nat)) (name : string) : bool :=
  match tx_child e name with
  | Some (mkTxView (Some p) (_ :: _)) => negb (bool_decide (dict_get name ids = Some (Some p)))
  | _ => false
  end.

Definition commit_id e (ids : list (string * option nat)) (name : string) : list (string * option nat) :=
  if respawned e ids name then dict_set name (tx_child e name ≫= tv_parser) ids else ids.

Definition broadcast_sockets (connects : string -> bool) e : WfbEngine F :=
  match tx_child e "tunnel_tx" with
  | Some (mkTxView (Some _) socks) => e <| _tunnel_service ::= fmap (fun t => set_all_tx_sockets connects t (map snd socks)) |>
  | _ => e
  end.

Definition _check_tx_respawns (connects : string -> bool) e : WfbEngine F :=
  if existsb (respawned e (_tx_parser_ids e)) TX_LEG_ORDER then
    broadcast_sockets connects
      (_apply_tx_selection connects (_tx_selector e ≫= current)
         (e <| _tx_parser_ids := fold_left (commit_id e) TX_LEG_ORDER (_tx_parser_ids e) |>))
  else e.

(** One turn of [_ticker]: the window pass may switch the antenna ([Some]), or
    raise, which ends the task. *)
Definition _ticker (connects : string -> bool) (window : res (option (option Z * TxSelector))) e : WfbEngine F :=
  match _tick_task e with
  | Ticking =>
      let e1 := _check_tx_respawns connects e in
      match window with
      | Err _ => e1 <| _tick_task := TickCrashed |>
      | Ok None => e1
      | Ok (Some (wlan, sel)) => _apply_tx_selection connects wlan (e1 <| _tx_selector ::= fmap (fun _ => sel) |>)
      end
  | _ => e
  end.

(** ** Setup *)

Definition _tx_selector_config (cfg : dict) : res (json F * json F * json F) :=
  let* t := obj_get "txSelector" (JDict []) (or_empty (get_or "wfb" (JDict []) cfg)) in
  let t := or_empty t in
  let* r := obj_get "rssiDeltaDb" (JInt 3) t in
  let* rel := obj_get "counterRelDelta" (JFloat (flit 1 10)) t in
  let* abs := obj_get "counterAbsDelta" (JInt 3) t in
  Ok (r, rel, abs).

(** Resolving the configuration: the link block, the cards, whether any is
    remote, and whether the probe leg is on. *)
Record resolved := mkResolved { rv_cfg : dict; rv_link : dict; rv_cards : list (Card F); rv_remote : bool; rv_probe : bool }.

Definition resolve (staged : option dict) a : res resolved :=
  let* cfg := match staged with Some c => Ok c | None => a_provider a end in
  a_reap a ;;;
  let* link := match or_empty (get_or "link" (JDict []) cfg) with JDict l => Ok l | _ => Err AttributeError end in
  let* parsed := parse_cards link in
  let cards := match parsed with Auto => [] | Cards cs => cs end in
  let dl := or_empty (get_ "dynamicLink" cfg) in
  let* en := obj_get "enabled" (JBool false) dl in
  let* probe := if truthy en then let* p := obj_get "probe" JNull dl in
                                  let* pe := obj_get "enabled" (JBool false) (or_empty p) in Ok (truthy pe)
                else Ok false in
  Ok (mkResolved cfg link cards (has_remote cards) probe).

Definition plan_and_address a (r : resolved) : res (option (ClusterPlan F) * string) :=
  if rv_remote r then
    let* plan := plan_cluster inet_aton (rv_cards r) 10000 11000 (rv_probe r) in
    match remote_cards (rv_cards r) with
    | c :: _ => let* addr := derive_server_address (a_route a) (py_str repr (host c)) (get_ "serverAddress" (rv_link r)) in
                Ok (Some plan, py_str repr addr)
    | [] => Err (ValueError "list index out of range")
    end
  else Ok (None, "").

Definition graph_for a (r : resolved) (wlans : list (json F)) (plan : option (ClusterPlan F)) (addr : string) : res (GsGraph F) :=
  match plan with
  | Some p => build_graph_remote repr sortable (rv_cfg r) (rv_cards r) p addr (a_suffixes a)
  | None => build_graph repr sortable (rv_cfg r) wlans (a_suffixes a)
  end.

(** The legs in start order, with the extra receive and transmit names. *)
Definition leg_specs (g : GsGraph F) (remote : bool) : list (string * ServiceSpec F) :=
  [("video_rx", video_rx g); ("mavlink_rx", mavlink_rx g); ("tunnel_rx", tunnel_rx g);
   ("mavlink_tx", mavlink_tx g); ("tunnel_tx", tunnel_tx g)] ++
  (if remote then map (fun sp => (sp_name sp, sp)) (local_forwarders g ++ local_injectors g) else []) ++
  match probe_rx g with Some sp => [("probe_rx", sp)] | None => [] end.
Definition extra_rx (g : GsGraph F) (remote : bool) : list string :=
  (if remote then map sp_name (local_forwarders g) else []) ++ match probe_rx g with Some _ => ["probe_rx"] | None => [] end.
Definition extra_tx (g : GsGraph F) (remote : bool) : list string :=
  if remote then map sp_name (local_injectors g) else [].

(** The start loop: the children so far, the names in start order, success. *)
Fixpoint start_legs (ask : string -> ServiceSpec F -> child_ans) (legs : list (string * ServiceSpec F))
    (children : list (string * tx_view)) (order : list string) : list (string * tx_view) * list string * bool :=
  match legs with
  | [] => (children, order, true)
  | (name, spec) :: rest =>
      match ask name spec with
      | CRaised => (children, order, false)
      | CNotReady c => (dict_set name c children, order ++ [name], false)
      | CReady c => start_legs ask rest (dict_set name c children) (order ++ [name])
      end
  end.

Definition _stop_children (children : list (string * tx_view)) (order : list string) : trace :=
  map (fun n => Closed (RChild n)) (List.filter (fun n => is_some (dict_get n children)) order).

(** The services' wiring: the trace, and whether it got to the end. *)
Definition wire_services a : trace * bool :=
  if negb (a_mav a) then ([], false)
  else if negb (a_tun a) then ([Opened RMav], false)
  else if negb (a_stats a) then ([Opened RMav; Opened RTun; Opened RHub], false)
  else ([Opened RMav; Opened RTun; Opened RHub; Opened RStats], true).

Definition _start_node_sessions a (nodes : list string) e : WfbEngine F * trace :=
  (e <| _node_sessions := nodes |> <| _nodes_state := map (fun n => (n, (a_node a n, 0))) nodes |>,
   map (fun n => Opened (RNode n)) nodes).

(** [_setup] after the graph is built: [Err] is an exception that escapes. *)
Definition setup_children a (r : resolved) (plan : option (ClusterPlan F)) (g : GsGraph F) e : WfbEngine F * trace * res bool :=
  match _tx_selector_config (rv_cfg r) with
  | Err x => (e, [], Err x)
  | Ok _ =>
      let sel := mkTxSel (match plan with Some p => Cluster.rx_only_wlan_ids p | None => [] end) None in
      let '(children, order, ok) := start_legs (a_child a) (leg_specs g (rv_remote r)) [] [] in
      let started := map (fun n => Opened (RChild n)) order in
      if negb ok then (e, started ++ _stop_children children (rev order), Ok false)
      else
        let '(tr, wired) := wire_services a in
        let e1 := e <| _tx_parser_ids := map (fun n => (n, dict_get n children ≫= tv_parser)) TX_LEG_ORDER |>
                    <| _extra_rx_names := extra_rx g (rv_remote r) |> <| _extra_tx_names := extra_tx g (rv_remote r) |> in
        if negb wired then
          ((if a_mav a && a_tun a then e1 else e)
             <| _children := [] |> <| _mav_service := None |> <| _tunnel_service := None |> <| _tx_selector := None |>
             <| hub := false |> <| probe_feed := false |>,
           started ++ tr ++ [Closed RHub; Closed RStats; Closed RTun; Closed RMav] ++ _stop_children children (rev order),
           Ok false)
        else
          let tun := tunnel_new 1445 true in
          let tun := match dict_get "tunnel_tx" children with
                     | Some (mkTxView (Some _) socks) => set_all_tx_sockets (a_connects a) tun (map snd socks)
                     | _ => tun
                     end in
          (* registering the antenna callback fires it once, with no selection yet *)
          let e2 := _apply_tx_selection (a_connects a) None
                    (e1 <| _children := children |> <| _mav_service := Some None |> <| _tunnel_service := Some tun |>
                       <| _tx_selector := Some sel |> <| hub := true |> <| probe_feed := is_some (probe_rx g) |>
                       <| _stats_server := true |>) in
          let '(e3, nodes) := if rv_remote r then _start_node_sessions a (dict_keys (node_scripts g)) e2 else (e2, []) in
          (e3 <| _tick_task := Ticking |>, started ++ tr ++ nodes ++ [Opened RTicker], Ok true)
  end.

Definition _setup a e : WfbEngine F * trace * res bool :=
  let e0 := e <| _engine_fault := false |> <| _staged_config := None |> in
  let reaped := [Reaped] in
  match resolve (_staged_config e) a with
  | Err _ => (e0, [], Ok false)
  | Ok r =>
      match (if rv_remote r then Ok (local_ifaces (rv_cards r)) else a_wlans a (rv_cfg r)) with
      | Err _ => (e0, reaped, Ok false)
      | Ok wlans =>
          match init_cards repr (a_iw a) wlans (rv_link r) with
          | Ok true =>
              match plan_and_address a r with
              | Err _ => (e0, reaped ++ [RadioInit wlans], Ok false)
              | Ok (plan, addr) =>
                  match graph_for a r wlans plan addr with
                  | Err _ => (e0, reaped ++ [RadioInit wlans], Ok false)
                  | Ok g => let '(e1, tr, ok) := setup_children a r plan g e0 in
                            (e1, reaped ++ RadioInit wlans :: tr, ok)
                  end
              end
          | _ => (e0, reaped ++ [RadioInit wlans], Ok false)
          end
      end
  end.

(** ** Teardown *)

Definition closing (b : bool) (r : resource) : trace := if b then [Closed r] else [].

(** The tunnel first, then the nodes, the hub and the ticker, the services, the
    transmitters, the receivers.  Awaiting a ticker that ended with an exception
    raises it again, and the rest is skipped. *)
Definition _teardown e : WfbEngine F * trace :=
  let head := closing (is_some (_tunnel_service e)) RTun ++ map (fun n => Closed (RNode n)) (_node_sessions e) ++
              closing (hub e) RHub in
  let e1 := e <| _tunnel_service := None |> <| _node_sessions := [] |> <| _nodes_state := [] |>
              <| hub := false |> <| probe_feed := false |> in
  match _tick_task e with
  | TickCrashed => (e1, head)
  | t =>
      let tick := closing (match t with Ticking => true | _ => false end) RTicker in
      (e1 <| _tick_task := NoTick |> <| _stats_server := false |> <| _mav_service := None |> <| _children := [] |>
          <| _tx_selector := None |> <| _tx_parser_ids := [] |> <| _extra_rx_names := [] |> <| _extra_tx_names := [] |>,
       head ++ tick ++ closing (_stats_server e) RStats ++ closing (is_some (_mav_service e)) RMav ++
       _stop_children (_children e) (TX_LEG_ORDER ++ _extra_tx_names e) ++
       _stop_children (_children e) (RX_LEG_ORDER ++ _extra_rx_names e))
  end.

(** ** The thread-safe surface

    Starts and stops that end within their thirty seconds. *)

Definition start a e : WfbEngine F * trace * bool :=
  if _thread e then (e, [], _start_ok e)
  else
    let '(e1, tr, r) := _setup a (e <| _start_ok := false |>) in
    match r with
    | Ok true => (e1 <| _thread := true |> <| _start_ok := true |>, tr, true)
    | _ => (e1, tr, false)
    end.

Definition stop e : WfbEngine F * trace :=
  if _thread e then let '(e1, tr) := _teardown e in (e1 <| _thread := false |>, tr) else (e, []).

Definition restart (config : option dict) a e : WfbEngine F * trace * bool :=
  let '(e1, tr1) := stop e in
  let '(e2, tr2, ok) := start a (e1 <| _restarts ::= Z.succ |> <| _staged_config := config |>) in
  (e2, tr1 ++ tr2, ok).

(** [state()], over the children's own states. *)
Record leg_state := mkLeg { lg_running : bool; lg_pid : option Z; lg_auto : Z; lg_exit : option Z; lg_fault : bool }.
Record engine_state := mkEngState {
  st_running : bool; st_pid : option Z; st_restarts : Z; st_auto : Z; st_exit : option Z; st_fault : bool;
  st_nodes : list (string * (bool * Z)) }.

Definition last_exit (states : list (string * leg_state)) : option Z :=
  head (omap (fun n => dict_get n states ≫= lg_exit) (RX_LEG_ORDER ++ TX_LEG_ORDER)).

Definition state (states : list (string * leg_state)) e : engine_state :=
  if bool_decide (_children e = []) then mkEngState false None (_restarts e) 0 None (_engine_fault e) (_nodes_state e)
  else mkEngState (forallb (fun s => lg_running s.2) states) (dict_get "video_rx" states ≫= lg_pid) (_restarts e)
         (fold_left Z.add (map (fun s => lg_auto s.2) states) 0) (last_exit states)
         (_engine_fault e || existsb (fun s => lg_fault s.2) states) (_nodes_state e).

Definition _on_child_fault e : WfbEngine F := e <| _engine_fault := true |>.

(** A node session's report, with its restart count. *)
Definition _on_node_state (node : string) (up : bool) (restarts : Z) e : WfbEngine F :=
  e <| _nodes_state ::= dict_set node (up, restarts) |>.

(** A transmitter child's parser changes: respawned, or another socket
    announced. *)
Definition child_view (name : string) (v : tx_view) e : WfbEngine F :=
  if is_some (tx_child e name) then e <| _children ::= dict_set name v |> else e.

(** ** Runs *)

Inductive engine_op :=
| OStart (a : answers F) | OStop | ORestart (config : option dict) (a : answers F)
| OTick (connects : string -> bool) (window : res (option (option Z * TxSelector)))
| OChildFault | ONodeState (node : string) (up : bool) (restarts : Z) | OChildView (name : string) (v : tx_view).

Definition engine_do e (o : engine_op) : WfbEngine F * trace :=
  match o with
  | OStart a => (start a e).1
  | OStop => stop e
  | ORestart c a => (restart c a e).1
  | OTick connects window => (_ticker connects window e, [])
  | OChildFault => (_on_child_fault e, [])
  | ONodeState n up k => (_on_node_state n up k e, [])
  | OChildView n v => (child_view n v e, [])
  end.

Fixpoint engine_run e (os : list engine_op) : WfbEngine F * trace :=
  match os with
  | [] => (e, [])
  | o :: rest => let '(e1, t1) := engine_do e o in let '(e2, t2) := engine_run e1 rest in (e2, t1 ++ t2)
  end.
End Engine.
Arguments engine_op F : clear implicits.

(** ** What is open *)

Section Open.
Context {F : Type} {PF : PyFloat F}.
Variable repr : json F -> string.
Variable inet_aton : string -> option Z.
Variable sortable : list (json F) -> bool.
#[local] Abbreviation dict := (list (string * json F)).
#[local] Abbreviation trace := (list (effect F)).
Implicit Types (e : WfbEngine F) (a : answers F) (r : resource) (tr : trace).

Definition live_step r (b : bool) (x : effect F) : bool :=
  match x with
  | Opened r' => if decide (r = r') then true else b
  | Closed r' => if decide (r = r') then false else b
  | _ => b
  end.
(** Whether [r] is open after a trace, open or not before. *)
Definition live r (b : bool) tr : bool := fold_left (live_step r) tr b.

Lemma live_app r b tr1 tr2 : live r b (tr1 ++ tr2) = live r (live r b tr1) tr2.
Proof. apply fold_left_app. Qed.

Lemma live_opened {A} (f : A -> resource) r b (l : list A) :
  live r b (map (fun x => Opened (f x)) l) = b || bool_decide (r ∈ map f l).
Proof.
  revert b. induction l as [|x l IH]; intros b; cbn; [by rewrite orb_false_r|].
  change (live r (live_step r b (Opened (f x))) (map (fun x => Opened (f x)) l) = b || bool_decide (r ∈ f x :: map f l)).
  rewrite IH. cbn. destruct (decide (r = f x)) as [->|Hne].
  - rewrite (bool_decide_true (f x ∈ f x :: _)) by set_solver. by destruct b.
  - f_equal. apply bool_decide_ext. set_solver.
Qed.

Lemma live_closed {A} (f : A -> resource) r b (l : list A) :
  live r b (map (fun x => Closed (f x)) l) = b && negb (bool_decide (r ∈ map f l)).
Proof.
  revert b. induction l as [|x l IH]; intros b; cbn; [by rewrite andb_true_r|].
  change (live r (live_step r b (Closed (f x))) (map (fun x => Closed (f x)) l) = b && negb (bool_decide (r ∈ f x :: map f l))).
  rewrite IH. cbn. destruct (decide (r = f x)) as [->|Hne].
  - rewrite (bool_decide_true (f x ∈ f x :: _)) by set_solver. by destruct b.
  - do 2 f_equal. apply bool_decide_ext. set_solver.
Qed.

(** What the engine's fields say it holds. *)
Definition held e r : bool :=
  match r with
  | RChild n => is_some (dict_get n (_children e))
  | RMav => is_some (_mav_service e)
  | RTun => is_some (_tunnel_service e)
  | RStats => _stats_server e
  | RHub => hub e
  | RNode n => bool_decide (n ∈ _node_sessions e)
  | RTicker => match _tick_task e with NoTick => false | _ => true end
  end.

Definition idle e : Prop := forall r, held e r = false.

(** The services, the hub, the ticker and the five base legs. *)
Definition base : list resource := [RMav; RTun; RStats; RHub; RTicker] ++ map RChild (RX_LEG_ORDER ++ TX_LEG_ORDER).
Definition up e : Prop := forall r, r ∈ base -> held e r = true.

Lemma base_no_node n : RNode n ∉ base.
Proof. intros H%list_elem_of_In. cbn in H. intuition discriminate. Qed.

(** Every child is under a name the teardown visits. *)
Definition visited e : Prop :=
  forall n, is_some (dict_get n (_children e)) = true ->
  n ∈ TX_LEG_ORDER ++ _extra_tx_names e \/ n ∈ RX_LEG_ORDER ++ _extra_rx_names e.

(** The start loop: children under the started names; all of them on success. *)
Lemma start_legs_spec ask legs children order :
  (forall n, is_some (dict_get n children) = bool_decide (n ∈ order)) ->
  let '(children', order', ok) := start_legs (F := F) ask legs children order in
  (forall n, is_some (dict_get n children') = bool_decide (n ∈ order')) /\
  (forall n, n ∈ order' -> n ∈ order \/ n ∈ map fst legs) /\
  (ok = true -> order' = order ++ map fst legs).
Proof.
  revert children order. induction legs as [|[name spec] legs IH]; intros children order H; cbn.
  { split_and!; [done|auto|]. intros _. by rewrite app_nil_r. }
  assert (Hset : forall c n, is_some (dict_get n (dict_set name c children)) = bool_decide (n ∈ order ++ [name])).
  { intros c n. destruct (decide (n = name)) as [->|Hne].
    - rewrite dict_get_set_eq. symmetry. apply bool_decide_true. set_solver.
    - rewrite dict_get_set_ne by congruence. rewrite H. apply bool_decide_ext. set_solver. }
  destruct (ask name spec) as [c|c|].
  - specialize (IH _ _ (Hset c)). destruct (start_legs _ _ _ _) as [[ch' or'] ok]. destruct IH as (H1 & H2 & H3).
    split_and!; [done| |].
    + intros n Hn. apply H2 in Hn. set_solver.
    + intros Hok. rewrite (H3 Hok). by rewrite <- app_assoc.
  - split_and!; [apply Hset|set_solver|done].
  - split_and!; [done|set_solver|done].
Qed.

Lemma stop_children_live children order r b :
  live r b (_stop_children (F := F) children order) =
  match r with
  | RChild n => b && negb (bool_decide (n ∈ order) && is_some (dict_get n children))
  | _ => b
  end.
Proof.
  unfold _stop_children. rewrite live_closed. destruct r as [n| | | | | |];
    try (rewrite bool_decide_false; [by rewrite andb_true_r|intros (x & ? & _)%list_elem_of_fmap; done]).
  do 2 f_equal. destruct (bool_decide (n ∈ order) && is_some (dict_get n children)) eqn:E.
  - apply andb_prop in E as [E1%bool_decide_eq_true E2]. apply bool_decide_true. apply list_elem_of_fmap.
    exists n. split; [done|]. apply list_elem_of_In, filter_In. split; [by apply list_elem_of_In|done].
  - apply bool_decide_false. intros (x & [= <-] & Hx)%list_elem_of_fmap.
    apply list_elem_of_In, filter_In in Hx as [Hx%list_elem_of_In Hs].
    rewrite Hs, (bool_decide_true _ Hx) in E. done.
Qed.

Lemma started_live r b (order : list string) :
  live r b (map (fun n => Opened (RChild n)) order) =
  match r with RChild n => b || bool_decide (n ∈ order) | _ => b end.
Proof.
  rewrite live_opened. destruct r as [n| | | | | |];
    try (rewrite bool_decide_false; [by rewrite orb_false_r|intros (x & ? & _)%list_elem_of_fmap; done]).
  f_equal. apply bool_decide_ext. rewrite list_elem_of_fmap. split; [intros (x & [= <-] & ?); done|eauto].
Qed.

Lemma nodes_live r b (l : list string) :
  live r b (map (fun n => Opened (RNode n)) l) = match r with RNode n => b || bool_decide (n ∈ l) | _ => b end.
Proof.
  rewrite live_opened. destruct r as [n| | | | |n|];
    try (rewrite bool_decide_false; [by rewrite orb_false_r|intros (x & ? & _)%list_elem_of_fmap; done]).
  f_equal. apply bool_decide_ext. rewrite list_elem_of_fmap. split; [intros (x & [= <-] & ?); done|eauto].
Qed.

Lemma nodes_closed r b (l : list string) :
  live r b (map (fun n => Closed (RNode n)) l) = match r with RNode n => b && negb (bool_decide (n ∈ l)) | _ => b end.
Proof.
  rewrite live_closed. destruct r as [n| | | | |n|];
    try (rewrite bool_decide_false; [by rewrite andb_true_r|intros (x & ? & _)%list_elem_of_fmap; done]).
  do 2 f_equal. apply bool_decide_ext. rewrite list_elem_of_fmap. split; [intros (x & [= <-] & ?); done|eauto].
Qed.

Lemma leg_names (g : GsGraph F) remote n :
  n ∈ map fst (leg_specs g remote) ->
  n ∈ TX_LEG_ORDER ++ extra_tx g remote \/ n ∈ RX_LEG_ORDER ++ extra_rx g remote.
Proof.
  unfold leg_specs, extra_tx, extra_rx. rewrite !map_app. cbn [map fst].
  destruct remote, (probe_rx g); rewrite ?map_map, ?map_app; cbn [map fst]; set_solver.
Qed.

(** The failed wiring closes every service; the complete one opens them. *)
Lemma wire_closed a r b :
  live r b ((wire_services a).1 ++ [Closed RHub; Closed RStats; Closed RTun; Closed RMav]) =
  match r with RMav | RTun | RHub | RStats => false | _ => b end.
Proof. unfold wire_services. destruct (a_mav a), (a_tun a), (a_stats a); cbn [negb fst app]; by destruct r. Qed.

Lemma wire_open a r b :
  (wire_services a).2 = true ->
  live r b (wire_services a).1 = match r with RMav | RTun | RHub | RStats => true | _ => b end.
Proof. unfold wire_services. destruct (a_mav a), (a_tun a), (a_stats a); cbn [negb fst snd]; [|done..]. by destruct r. Qed.

Lemma stopped_live (children : list (string * tx_view)) order r b :
  (forall n, is_some (dict_get n children) = bool_decide (n ∈ order)) ->
  live r b (_stop_children (F := F) children (rev order)) =
  match r with RChild n => b && negb (bool_decide (n ∈ order)) | _ => b end.
Proof.
  intros Hch. rewrite stop_children_live. destruct r as [n| | | | | |]; try done. rewrite Hch. do 2 f_equal.
  assert (bool_decide (n ∈ rev order) = bool_decide (n ∈ order)) as ->; [|apply andb_diag].
  apply bool_decide_ext. by rewrite !list_elem_of_In, <- in_rev.
Qed.

Lemma idle_cleared e ids rx tx :
  idle e ->
  idle (e <| _tx_parser_ids := ids |> <| _extra_rx_names := rx |> <| _extra_tx_names := tx |>
          <| _children := [] |> <| _mav_service := None |> <| _tunnel_service := None |> <| _tx_selector := None |>
          <| hub := false |> <| probe_feed := false |>).
Proof. intros Hidle r. specialize (Hidle r). by destruct r. Qed.

Lemma idle_visited e : idle e -> visited e.
Proof. intros H n Hn. specialize (H (RChild n)). cbn in H. congruence. Qed.

Lemma setup_children_ok a rv plan g e :
  idle e ->
  let '(e', tr, res) := setup_children a rv plan g e in
  (forall r, live r false tr = held e' r) /\ (res <> Ok true -> idle e') /\ visited e' /\
  (res = Ok true -> up e').
Proof.
  intros Hidle. assert (Hvis := idle_visited e Hidle). unfold setup_children.
  destruct (_tx_selector_config (rv_cfg rv)); [|split_and!; [by intros r; rewrite Hidle|done|done|done]].
  assert (Hsp := start_legs_spec (a_child a) (leg_specs g (rv_remote rv)) [] [] ltac:(done)).
  destruct (start_legs _ _ _ _) as [[children order] ok]. destruct Hsp as (Hch & Hin & Hall).
  destruct ok; cbn [negb].
  2:{ split_and!; [|done|done|done]. intros r. rewrite live_app, started_live, stopped_live, Hidle by done.
      destruct r; try done. by destruct (bool_decide _). }
  destruct (wire_services a) as [tr wired] eqn:Ew. destruct wired; cbn [negb].
  2:{ assert (Hid : forall e0, e0 = (if a_mav a && a_tun a then e <| _tx_parser_ids := map (fun n => (n, dict_get n children ≫= tv_parser)) TX_LEG_ORDER |>
                    <| _extra_rx_names := extra_rx g (rv_remote rv) |> <| _extra_tx_names := extra_tx g (rv_remote rv) |> else e) ->
          idle (e0 <| _children := [] |> <| _mav_service := None |> <| _tunnel_service := None |> <| _tx_selector := None |>
                   <| hub := false |> <| probe_feed := false |>)).
      { intros e0 ->. destruct (a_mav a && a_tun a); [by apply idle_cleared|]. intros r. specialize (Hidle r). by destruct r. }
      specialize (Hid _ eq_refl). split_and!; [|done|by apply idle_visited|done]. intros r. rewrite Hid, live_app, started_live.
      rewrite app_assoc, live_app. assert (Hw := wire_closed a). rewrite Ew in Hw. cbn [fst] in Hw. rewrite Hw, stopped_live by done.
      destruct r; try done. by destruct (bool_decide _). }
  assert (Hw := fun r b => wire_open a r b ltac:(by rewrite Ew)). rewrite Ew in Hw. cbn [fst] in Hw.
  rewrite (Hall eq_refl) in *. cbn [app] in *.
  assert (Hup : up (e <| _children := children |> <| _mav_service := Some None |> <| _tunnel_service := Some (tunnel_new 1445 true) |>
                   <| hub := true |> <| _stats_server := true |> <| _tick_task := Ticking |>)).
  { intros r Hr. assert (Hb : forall n, n ∈ RX_LEG_ORDER ++ TX_LEG_ORDER -> is_some (dict_get n children) = true).
    { intros n Hn. rewrite Hch. apply bool_decide_true. unfold leg_specs. rewrite map_app. set_solver. }
    unfold base in Hr. apply elem_of_app in Hr as [Hr|(n & -> & Hn)%list_elem_of_fmap]; [|by apply Hb].
    repeat (apply list_elem_of_In in Hr; destruct Hr as [<-|Hr]; [done|apply list_elem_of_In in Hr]). by apply not_elem_of_nil in Hr. }
  destruct (rv_remote rv) eqn:Er; cbn [_start_node_sessions]; (split_and!; [intros r|done|intros n Hn|intros _ r Hr]).
  - rewrite !live_app, started_live, Hw, nodes_live. specialize (Hidle r). destruct r; cbn in *; rewrite ?Hch; done.
  - apply (leg_names g true). eapply bool_decide_eq_true_1. rewrite <- Hch. exact Hn.
  - specialize (Hup r Hr). destruct r; try done. by apply base_no_node in Hr.
  - rewrite !live_app, started_live, Hw. specialize (Hidle r). destruct r; cbn in *; rewrite ?Hch; done.
  - apply (leg_names g false). eapply bool_decide_eq_true_1. rewrite <- Hch. exact Hn.
  - specialize (Hup r Hr). by destruct r.
Qed.

Lemma setup_ok a e :
  idle e ->
  let '(e', tr, res) := _setup repr inet_aton sortable a e in
  (forall r, live r false tr = held e' r) /\ (res <> Ok true -> idle e') /\ visited e' /\ (res = Ok true -> up e') /\ _thread e' = _thread e /\
  (_tick_task e' = Ticking \/ _tick_task e' = _tick_task e).
Proof.
  intros Hidle. set (e0 := e <| _engine_fault := false |> <| _staged_config := None |>).
  assert (Hid0 : idle e0) by (intros r; specialize (Hidle r); by destruct r).
  assert (Hnone : forall tr, Forall (fun x => match x with Opened _ | Closed _ => False | _ => True end) tr ->
            (forall r, live r false tr = held e0 r) /\ (Ok false <> Ok true -> idle e0) /\ visited e0 /\ (Ok false = Ok true -> up e0) /\ _thread e0 = _thread e /\
            (_tick_task e0 = Ticking \/ _tick_task e0 = _tick_task e)).
  { intros tr Htr. split_and!; [|done|by apply idle_visited|done|done|by right]. intros r. rewrite Hid0.
    induction Htr as [|x tr Hx _ IH]; [done|]. by destruct x. }
  unfold _setup. fold e0. destruct (resolve _ _) as [rv|]; [|by apply Hnone].
  destruct (if rv_remote rv then _ else _) as [wlans|]; [|apply Hnone; by repeat constructor].
  destruct (init_cards _ _ _ _) as [[]|]; [|apply Hnone; by repeat constructor..].
  destruct (plan_and_address _ _ _ _) as [[plan addr]|]; [|apply Hnone; by repeat constructor].
  destruct (graph_for _ _ _ _ _ _ _) as [g|]; [|apply Hnone; by repeat constructor].
  assert (H := setup_children_ok a rv plan g e0 Hid0).
  assert (Ht : let e1 := (setup_children a rv plan g e0).1.1 in
            _thread e1 = _thread e /\ (_tick_task e1 = Ticking \/ _tick_task e1 = _tick_task e)).
  { unfold setup_children. destruct (_tx_selector_config _); [|by auto]. destruct (start_legs _ _ _ _) as [[? ?] []]; [|by auto].
    cbn [negb]. destruct (wire_services a) as [? []]; cbn [negb]; [destruct (rv_remote rv)|destruct (a_mav a && a_tun a)]; by auto. }
  destruct (setup_children a rv plan g e0) as [[e1 tr] res]. destruct H as (H1 & H2 & H3 & H4), Ht as [Ht1 Ht2]. by split_and!.
Qed.

(** The last part of the teardown closes every child. *)
Lemma kids_closed e r b :
  visited e ->
  live r b (_stop_children (_children e) (TX_LEG_ORDER ++ _extra_tx_names e) ++
            _stop_children (_children e) (RX_LEG_ORDER ++ _extra_rx_names e)) =
  match r with RChild n => b && negb (is_some (dict_get n (_children e))) | _ => b end.
Proof.
  intros Hv. rewrite live_app, !stop_children_live. destruct r as [n| | | | | |]; try done.
  specialize (Hv n). destruct (is_some (dict_get n (_children e))).
  - destruct (Hv eq_refl) as [H|H]; rewrite (bool_decide_true _ H); cbn; rewrite ?andb_false_r; done.
  - by rewrite !andb_false_r, !andb_true_r.
Qed.

Lemma head_closed e r b :
  live r b (closing (is_some (_tunnel_service e)) RTun ++ map (fun n => Closed (RNode n)) (_node_sessions e) ++ closing (hub e) RHub) =
  match r with
  | RTun => b && negb (is_some (_tunnel_service e)) | RHub => b && negb (hub e)
  | RNode n => b && negb (bool_decide (n ∈ _node_sessions e)) | _ => b end.
Proof.
  rewrite !live_app, nodes_closed. unfold closing.
  destruct (is_some (_tunnel_service e)), (hub e), r; cbn; rewrite ?andb_true_r, ?andb_false_r; done.
Qed.

Lemma teardown_ok e :
  visited e -> _tick_task e <> TickCrashed ->
  let '(e', tr) := _teardown e in idle e' /\ forall r, live r (held e r) tr = false.
Proof.
  intros Hv Ht. unfold _teardown.
  destruct (_tick_task e) eqn:Et; [| |done]; (split; [by intros []|]); intros r;
    rewrite live_app, head_closed, live_app, live_app, live_app, (kids_closed _ _ _ Hv); unfold closing;
    (destruct r as [n| | | | |n|]; cbn -[bool_decide]; rewrite ?Et;
     [by destruct (_stats_server e), (is_some (_mav_service e)), (is_some (dict_get n (_children e)))|..];
     rewrite ?andb_negb_r; by destruct (_stats_server e), (is_some (_mav_service e))).
Qed.

(** ** Runs *)

Record engine_ok e : Prop := {
  eo_visited : visited e;
  eo_down : _thread e = false -> idle e;
  eo_up : _thread e = true -> up e;
  eo_tick : _tick_task e <> TickCrashed }.

(** No window pass raises. *)
Definition no_crash (o : engine_op F) : Prop := match o with OTick _ (Err _) => False | _ => True end.

Lemma engine_stop_ok e :
  engine_ok e -> let '(e', tr) := stop e in
  idle e' /\ _thread e' = false /\ (forall r, live r (held e r) tr = held e' r) /\ _tick_task e' <> TickCrashed.
Proof.
  intros [Hv Hd _ Ht]. unfold stop. destruct (_thread e) eqn:Eth; [|split_and!; [by apply Hd|done|done|done]].
  assert (H := teardown_ok e Hv Ht). destruct (_teardown e) as [e' tr] eqn:E. destruct H as [Hi Hl].
  assert (Hid : idle (e' <| _thread := false |>)) by (intros r; specialize (Hi r); by destruct r).
  split_and!; [done|done|intros r; rewrite Hl; symmetry; apply Hid|].
  specialize (Hi RTicker). cbn in Hi |- *. by destruct (_tick_task e').
Qed.

Lemma engine_start_ok a e :
  engine_ok e -> let '(e', tr, ok) := start repr inet_aton sortable a e in
  engine_ok e' /\ (forall r, live r (held e r) tr = held e' r) /\ (ok = true -> _start_ok e' = true).
Proof.
  intros [Hv Hd Hu Ht]. unfold start. destruct (_thread e) eqn:Eth; [split_and!; [by split; rewrite ?Eth|done|done]|].
  set (e0 := e <| _start_ok := false |>).
  assert (Hid : idle e0) by (intros r; specialize (Hd eq_refl r); by destruct r).
  assert (H := setup_ok a e0 Hid). destruct (_setup _ _ _ a e0) as [[e1 tr] res]. destruct H as (H1 & H2 & H3 & Hup & H4 & H5).
  assert (Hl : forall r, live r (held e r) tr = held e1 r) by (intros r; rewrite (Hd eq_refl r); apply H1).
  assert (Htk : _tick_task e1 <> TickCrashed) by (destruct H5 as [-> | ->]; done).
  assert (Hth : _thread e1 = false) by (rewrite H4; exact Eth).
  destruct res as [[]|]; (split_and!; [split|..]); rewrite ?Hth; try done; [|by intros _; apply H2..].
  intros _ r Hr. specialize (Hup eq_refl r Hr). by destruct r.
Qed.

(** Steps that touch neither the threads nor what is held. *)
Lemma same_held_ok e e' :
  engine_ok e -> (forall r, held e' r = held e r) -> _thread e' = _thread e ->
  _extra_tx_names e' = _extra_tx_names e -> _extra_rx_names e' = _extra_rx_names e -> _tick_task e' <> TickCrashed ->
  engine_ok e'.
Proof.
  intros [Hv Hd Hu Ht] Hh Hth E1 E2 Htk.
  split; [|rewrite Hth; intros H r; rewrite Hh; by apply Hd|rewrite Hth; intros H r Hr; rewrite Hh; by apply Hu|done].
  intros n Hn. unfold visited in Hv. rewrite E1, E2. apply Hv. specialize (Hh (RChild n)). cbn in Hh. congruence.
Qed.

Lemma apply_selection_held connects wlan e :
  let e' := _apply_tx_selection connects wlan e in
  (forall r, held e' r = held e r) /\ _thread e' = _thread e /\ _extra_tx_names e' = _extra_tx_names e /\
  _extra_rx_names e' = _extra_rx_names e /\ _tick_task e' = _tick_task e.
Proof.
  split_and!; [|done..]. intros []; try done; cbn; [by destruct (_mav_service e)|by destruct (_tunnel_service e)].
Qed.

Lemma respawns_held connects e :
  let e' := _check_tx_respawns connects e in
  (forall r, held e' r = held e r) /\ _thread e' = _thread e /\ _extra_tx_names e' = _extra_tx_names e /\
  _extra_rx_names e' = _extra_rx_names e /\ _tick_task e' = _tick_task e.
Proof.
  unfold _check_tx_respawns. destruct (existsb _ _); [|done]. unfold broadcast_sockets.
  destruct (tx_child _ _) as [[[p|] socks]|]; (split_and!; [|done..]); intros []; try done; cbn;
    by destruct (_mav_service e), (_tunnel_service e).
Qed.

Lemma engine_step_ok o e :
  engine_ok e -> no_crash o ->
  let '(e', tr) := engine_do repr inet_aton sortable e o in
  engine_ok e' /\ forall r, live r (held e r) tr = held e' r.
Proof.
  intros Hok Hn. destruct o as [a| |c a|connects window| |n up k|n v]; cbn [engine_do].
  - assert (H := engine_start_ok a e Hok). destruct (start _ _ _ a e) as [[e1 tr] ok]. by destruct H as (? & ? & _).
  - assert (H := engine_stop_ok e Hok). destruct (stop e) as [e1 tr]. destruct H as (H1 & H2 & H3 & H4).
    split; [split; auto using idle_visited; congruence|done].
  - unfold restart. assert (H := engine_stop_ok e Hok). destruct (stop e) as [e1 tr1]. destruct H as (H1 & H2 & H3 & H4).
    set (e2 := e1 <| _restarts ::= Z.succ |> <| _staged_config := c |>).
    assert (Hi2 : idle e2) by (intros r; specialize (H1 r); by destruct r).
    assert (H := engine_start_ok a e2). destruct (start _ _ _ a e2) as [[e3 tr2] ok].
    destruct H as (H5 & H6 & _); [split; auto using idle_visited; cbn; congruence|]. split; [done|]. intros r.
    rewrite live_app, H3, (H1 r), <- (Hi2 r). apply H6.
  - unfold _ticker. destruct (_tick_task e) eqn:Et; [by split| |by split].
    destruct (respawns_held connects e) as (R1 & R2 & R3 & R4 & R5).
    assert (Hok1 : engine_ok (_check_tx_respawns connects e)) by (eapply same_held_ok; eauto; congruence).
    destruct window as [[[wlan sel]|]|]; [| |done].
    + set (e1 := _check_tx_respawns connects e <| _tx_selector ::= fmap (fun _ => sel) |>).
      destruct (apply_selection_held connects wlan e1) as (A1 & A2 & A3 & A4 & A5).
      assert (He1 : forall r, held e1 r = held e r) by (intros r; rewrite <- R1; by destruct r).
      split; [|intros r; cbn; by rewrite A1, He1]. apply (same_held_ok e); [done|..].
      * intros r. by rewrite A1.
      * rewrite A2. exact R2.
      * rewrite A3. exact R3.
      * rewrite A4. exact R4.
      * rewrite A5. change (_tick_task (_check_tx_respawns connects e) <> TickCrashed). by rewrite R5, Et.
    + split; [done|]. intros r. cbn. by rewrite R1.
  - split; [|by intros []]. apply (same_held_ok e); try done; by destruct Hok.
  - split; [|by intros []]. apply (same_held_ok e); try done; by destruct Hok.
  - unfold child_view. destruct (is_some (tx_child e n)) eqn:Es; [|by split].
    assert (Hh : forall r, held (e <| _children ::= dict_set n v |>) r = held e r).
    { intros [n'| | | | | |]; try done. cbn. destruct (decide (n = n')) as [<-|Hne].
      - rewrite dict_get_set_eq. symmetry. exact Es.
      - by rewrite dict_get_set_ne. }
    split; [|intros r; cbn; by rewrite Hh]. apply (same_held_ok e); try done; by destruct Hok.
Qed.

(** C8: Over any sequence of starts, stops, restarts (whatever fails in them),
    ticks, faults and node reports in which no window pass raises, what is
    open is what the engine's fields hold; a stopped or failed engine has no
    child, service or node session open, a running one has every base leg and
    service up. *)
Theorem engine_all_or_nothing os :
  Forall no_crash os ->
  let '(e, tr) := engine_run repr inet_aton sortable engine_init os in
  (forall r, live r false tr = held e r) /\
  (_thread e = false -> forall r, live r false tr = false) /\
  (_thread e = true -> forall r, r ∈ base -> live r false tr = true).
Proof.
  intros Hos.
  assert (H : forall e, engine_ok e -> let '(e', tr) := engine_run repr inet_aton sortable e os in
            engine_ok e' /\ forall r, live r (held e r) tr = held e' r).
  { induction Hos as [|o os Ho _ IH]; intros e He; cbn; [done|].
    assert (H1 := engine_step_ok o e He Ho). destruct (engine_do _ _ _ e o) as [e1 t1]. destruct H1 as [He1 H1].
    specialize (IH e1 He1). destruct (engine_run _ _ _ e1 os) as [e2 t2]. destruct IH as [He2 H2].
    split; [done|]. intros r. by rewrite live_app, H1. }
  assert (Hi : idle (engine_init (F := F))) by (by intros []).
  specialize (H engine_init ltac:(split; try done; by apply idle_visited)).
  destruct (engine_run _ _ _ engine_init os) as [e tr]. destruct H as [[Hv Hd Hu Ht] Hl].
  assert (Hl' : forall r, live r false tr = held e r) by (intros r; rewrite <- (Hi r); apply Hl).
  split_and!; [done|intros H r; rewrite Hl'; by apply Hd|intros H r Hr; rewrite Hl'; by apply Hu].
Qed.

(** A window pass that raised ends the ticker; stopping the engine then raises
    it again half-way: the thread is gone, the statistics server, the MAVLink
    service and every child are still open. *)
Lemma crashed_ticker_leaks e r :
  engine_ok e -> _thread e = true -> r ∈ [RStats; RMav] ++ map RChild (RX_LEG_ORDER ++ TX_LEG_ORDER) ->
  let e1 := e <| _tick_task := TickCrashed |> in
  let '(e2, tr) := stop e1 in _thread e2 = false /\ live r (held e1 r) tr = true.
Proof.
  intros [_ _ Hu _] Hth Hr. unfold stop. cbn [_thread]. change (_thread (e <| _tick_task := TickCrashed |>)) with (_thread e).
  rewrite Hth. split; [done|]. cbn -[live closing]. 
  assert (Hh : held e r = true) by (apply (Hu Hth); unfold base; set_solver).
  rewrite (head_closed e). destruct r as [n| | | | |n|]; try exact Hh.
  all: exfalso; apply list_elem_of_In in Hr; cbn in Hr; intuition discriminate.
Qed.
End Open.

(** ** The uplink follows the transmitters *)

Section Uplink.
Context {F : Type} {PF : PyFloat F}.
Variable repr : json F -> string.
Variable inet_aton : string -> option Z.
Variable sortable : list (json F) -> bool.
Implicit Types (e : WfbEngine F) (a : answers F).

(** The socket a service sends to. *)
Definition target e (name : string) : option string :=
  if String.eqb name "mavlink_tx" then mjoin (_mav_service e) else _tunnel_service e ≫= tx_sock_name.

(** The antenna selected, if any. *)
Definition selected_wlan e : option Z := _tx_selector e ≫= current.

(** The service behind a transmitter sends to the socket it announced for the
    selected card, or to the first announced if it has none for that card. *)
Definition on_target e (name : string) (p : nat) (socks : list (Z * string)) : Prop :=
  target e name = _tx_socket_for (Some (mkTxView (Some p) socks)) (selected_wlan e).

(** So it is for every transmitter wired up under its current parser... *)
Definition wired e : Prop :=
  (forall name v, tx_child e name = Some v -> is_some (_tx_selector e) = true) /\
  forall name p socks,
    name ∈ TX_LEG_ORDER -> tx_child e name = Some (mkTxView (Some p) socks) ->
    dict_get name (_tx_parser_ids e) = Some (Some p) -> socks <> [] /\ on_target e name p socks.

(** ... and, after a tick, for every one that has announced a socket. *)
Definition wired_now e : Prop := forall name p socks,
  name ∈ TX_LEG_ORDER -> tx_child e name = Some (mkTxView (Some p) socks) -> socks <> [] -> on_target e name p socks.

Lemma kget_in w socks s : kget w socks = Some s -> s ∈ map snd socks.
Proof.
  induction socks as [|[k v] socks IH]; [done|]. cbn. destruct (w =? k); [intros [= ->]; left|right; auto].
Qed.

Lemma tx_socket_in p socks w :
  socks <> [] -> exists s, _tx_socket_for (Some (mkTxView (Some p) socks)) w = Some s /\ s ∈ map snd socks.
Proof.
  intros Hne. destruct socks as [|[k first] socks]; [done|]. cbn [_tx_socket_for tv_parser tv_sockets].
  eexists. split; [done|]. destruct (w ≫= _) as [s|] eqn:E; cbn; [|left].
  destruct w as [w|]; [|done]. cbn -[kget] in E. apply (kget_in w ((k, first) :: socks)). exact E.
Qed.

Lemma reconnect_all_names connects names old new t cur :
  (forall s, connects s = true) ->
  let '(t', old', new') := reconnect_all connects names old new t in
  tx_sock_name t' = tx_sock_name t /\ (cur ∈ names \/ is_some (dict_get cur new) = true -> is_some (dict_get cur new') = true).
Proof.
  intros Hc. revert old new t. induction names as [|n names IH]; intros old new t; cbn.
  { split; [done|]. intros [H|H]; [by apply not_elem_of_nil in H|done]. }
  unfold _connect_tx_socket. rewrite Hc. cbn.
  specialize (IH (dict_del n old) (dict_set n (next_sock (close_sock t (dict_get n old))) new)
                (close_sock t (dict_get n old) <| next_sock ::= Z.succ |>)).
  destruct (reconnect_all _ _ _ _ _) as [[t' old'] new']. destruct IH as [IH1 IH2]. split.
  - rewrite IH1. by destruct (dict_get n old).
  - intros H. apply IH2. destruct (decide (cur = n)) as [->|Hne]; [right; by rewrite dict_get_set_eq|].
    destruct H as [H|H]; [left; set_solver|right; by rewrite dict_get_set_ne].
Qed.

Lemma set_all_keeps connects t names cur :
  (forall s, connects s = true) -> tx_sock_name t = Some cur -> cur ∈ names ->
  tx_sock_name (set_all_tx_sockets connects t names) = Some cur.
Proof.
  intros Hc Ht Hin. unfold set_all_tx_sockets.
  assert (H := reconnect_all_names connects names (tx_socks t) [] t cur Hc).
  destruct (reconnect_all _ _ _ _ _) as [[t' old'] new']. destruct H as [H1 H2]. cbn. rewrite H1, Ht.
  specialize (H2 (or_introl Hin)). destruct (dict_get cur new') as [s|]; [|done]. cbn. by rewrite H1.
Qed.

Lemma selection_targets connects w e :
  (forall s, connects s = true) -> is_some (_mav_service e) = true -> is_some (_tunnel_service e) = true ->
  selected_wlan e = w -> wired_now (_apply_tx_selection connects w e).
Proof.
  intros Hc Hm Ht Hw name p socks Hn Hch Hne. unfold on_target. change (selected_wlan (_apply_tx_selection connects w e)) with (selected_wlan e). rewrite Hw.
  assert (Hs := tx_socket_in p socks w Hne). destruct Hs as (s & Hs & _). rewrite Hs.
  assert (Hch' : tx_child e name = Some (mkTxView (Some p) socks)) by exact Hch.
  unfold target. apply list_elem_of_In in Hn as [<-|[<-|[]]].
  - cbn -[_tx_socket_for]. destruct (_mav_service e); [|done]. cbn -[_tx_socket_for]. rewrite Hch', Hs. cbn. by rewrite Hc.
  - cbn -[_tx_socket_for set_tx_socket]. destruct (_tunnel_service e) as [t|]; [|done].
    cbn -[_tx_socket_for set_tx_socket]. rewrite Hch', Hs. unfold set_tx_socket, _connect_tx_socket. by rewrite Hc.
Qed.

Lemma services_up e : engine_ok e -> _thread e = true -> is_some (_mav_service e) = true /\ is_some (_tunnel_service e) = true.
Proof.
  intros [_ _ Hu _] Hth. split; [apply (Hu Hth RMav)|apply (Hu Hth RTun)]; unfold base; set_solver.
Qed.

Lemma children_running e name v : engine_ok e -> tx_child e name = Some v -> _thread e = true.
Proof.
  intros [_ Hd _ _] Hc. destruct (_thread e); [done|]. specialize (Hd eq_refl (RChild name)). cbn in Hd.
  unfold tx_child in Hc. by rewrite Hc in Hd.
Qed.

Lemma broadcast_keeps connects e :
  (forall s, connects s = true) -> wired_now e -> wired_now (broadcast_sockets connects e).
Proof.
  intros Hc Hw. unfold broadcast_sockets. destruct (tx_child e "tunnel_tx") as [[[q|] socks']|] eqn:Et; [|done..].
  intros name p socks Hn Hch Hne. assert (Hch' : tx_child e name = Some (mkTxView (Some p) socks)) by exact Hch.
  assert (Hs := Hw name p socks Hn Hch' Hne). unfold on_target in *. change (selected_wlan (e <| _tunnel_service ::= _ |>)) with (selected_wlan e).
  destruct (tx_socket_in p socks (selected_wlan e) Hne) as (s & Es & Hin). rewrite Es in *.
  unfold target in *. apply list_elem_of_In in Hn as [<-|[<-|[]]]; [exact Hs|].
  cbn -[set_all_tx_sockets] in Hs |- *. destruct (_tunnel_service e) as [t|]; [|done]. cbn -[set_all_tx_sockets] in Hs |- *.
  apply set_all_keeps; [done|done|]. rewrite Et in Hch'. by simplify_eq.
Qed.

(** One tick brings every announced transmitter's service on target. *)
Lemma respawns_targets connects e :
  (forall s, connects s = true) -> engine_ok e -> wired e -> wired_now (_check_tx_respawns connects e).
Proof.
  intros Hc Hok Hw. unfold _check_tx_respawns. destruct (existsb _ _) eqn:Ex.
  - destruct (_thread e) eqn:Eth.
    + destruct (services_up e Hok Eth) as [Hm Ht]. apply broadcast_keeps; [done|]. by apply selection_targets.
    + apply existsb_exists in Ex as (n & _ & Hn). unfold respawned in Hn.
      destruct (tx_child e n) eqn:En; [|done]. assert (_thread e = true) by eauto using children_running. congruence.
  - intros name p socks Hn Hch Hne. apply Hw; [done..|].
    assert (Hr : respawned e (_tx_parser_ids e) name = false).
    { apply not_true_iff_false. intros Hr. assert (existsb (respawned e (_tx_parser_ids e)) TX_LEG_ORDER = true); [|congruence].
      apply existsb_exists. exists name. split; [by apply list_elem_of_In|done]. }
    unfold respawned in Hr. rewrite Hch in Hr. destruct socks; [done|]. by apply negb_false_iff, bool_decide_eq_true in Hr.
Qed.

(** What is assumed of the system: sockets connect; a ready transmitter has
    announced one; the antenna a window pass reports is the selector's; a
    respawn comes with a new parser, and the sockets of a parser that is wired
    up do not change. *)
Definition handshaken a : Prop := forall name spec v,
  name ∈ TX_LEG_ORDER -> a_child a name spec = CReady v -> tv_sockets v <> [].
Definition fair e (o : engine_op F) : Prop :=
  match o with
  | OStart a | ORestart _ a => (forall s, a_connects a s = true) /\ handshaken a
  | OTick connects window =>
      (forall s, connects s = true) /\ match window with Ok (Some (wlan, sel)) => current sel = wlan | _ => True end
  | OChildView n v =>
      forall p, tv_parser v = Some p -> dict_get n (_tx_parser_ids e) = Some (Some p) ->
      tx_child e n = Some (mkTxView (Some p) (tv_sockets v))
  | _ => True
  end.

(** Re-targeting keeps what is wired: only announced parsers are committed. *)
Lemma retarget_wired e e' :
  wired e -> wired_now e' -> (forall n, tx_child e' n = tx_child e n) -> is_some (_tx_selector e') = is_some (_tx_selector e) ->
  (forall n p, tx_child e n = Some (mkTxView (Some p) []) -> dict_get n (_tx_parser_ids e') = Some (Some p) ->
               dict_get n (_tx_parser_ids e) = Some (Some p)) ->
  wired e'.
Proof.
  intros [Hsel Hw] Hnow Hch Hs Hids. split; [intros n v; rewrite Hch, Hs; apply Hsel|].
  intros name p socks Hn Hc Hp. destruct socks as [|x socks]; [|split; [done|by apply Hnow]].
  rewrite Hch in Hc. by destruct (Hw name p [] Hn Hc (Hids _ _ Hc Hp)).
Qed.

Lemma commit_fold e names ids n p :
  tx_child e n = Some (mkTxView (Some p) []) -> dict_get n (fold_left (commit_id e) names ids) = dict_get n ids.
Proof.
  intros Hc. revert ids. induction names as [|m names IH]; intros ids; [done|]. cbn [fold_left]. rewrite IH.
  unfold commit_id. destruct (respawned e ids m) eqn:Er; [|done]. apply dict_get_set_ne. intros ->.
  unfold respawned in Er. by rewrite Hc in Er.
Qed.

Lemma respawns_ids connects e : _tx_parser_ids (_check_tx_respawns connects e) =
    _tx_parser_ids e \/ _tx_parser_ids (_check_tx_respawns connects e) = fold_left (commit_id e) TX_LEG_ORDER (_tx_parser_ids e).
Proof.
  unfold _check_tx_respawns. destruct (existsb _ _); [right|by left]. unfold broadcast_sockets.
  by destruct (tx_child _ _) as [[[p|] socks]|].
Qed.

Lemma respawns_children connects e n : tx_child (_check_tx_respawns connects e) n = tx_child e n.
Proof.
  unfold _check_tx_respawns. destruct (existsb _ _); [|done]. unfold broadcast_sockets.
  by destruct (tx_child _ "tunnel_tx") as [[[p|] socks]|].
Qed.

Lemma respawns_selector connects e : _tx_selector (_check_tx_respawns connects e) = _tx_selector e.
Proof.
  unfold _check_tx_respawns. destruct (existsb _ _); [|done]. unfold broadcast_sockets.
  by destruct (tx_child _ "tunnel_tx") as [[[p|] socks]|].
Qed.

Lemma respawns_wired connects e :
  (forall s, connects s = true) -> engine_ok e -> wired e -> wired (_check_tx_respawns connects e).
Proof.
  intros Hc Hok Hw. apply (retarget_wired e); [done|by apply respawns_targets|apply respawns_children|by rewrite respawns_selector|].
  intros n p Hn Hp. destruct (respawns_ids connects e) as [E|E]; rewrite E in Hp; [done|]. by rewrite (commit_fold e _ _ _ p) in Hp.
Qed.

Lemma start_legs_ready ask legs children order children' order' n v :
  start_legs (F := F) ask legs children order = (children', order', true) ->
  dict_get n children' = Some v -> dict_get n children = Some v \/ exists spec, ask n spec = CReady v.
Proof.
  revert children order. induction legs as [|[name spec] legs IH]; intros children order H; cbn in H.
  { simplify_eq. auto. }
  destruct (ask name spec) as [c|c|] eqn:Ea; [|done..]. intros Hg.
  destruct (IH _ _ H Hg) as [Hs|Hs]; [|auto]. destruct (decide (name = n)) as [->|Hne].
  - rewrite dict_get_set_eq in Hs. simplify_eq. eauto.
  - rewrite dict_get_set_ne in Hs by done. auto.
Qed.

(** A failed or stopped engine has no children; a started one is wired. *)
Lemma no_children_wired e : idle e -> wired e /\ wired_now e.
Proof.
  intros Hi. assert (H : forall n v, tx_child e n <> Some v).
  { intros n v Hc. specialize (Hi (RChild n)). cbn in Hi. unfold tx_child in Hc. by rewrite Hc in Hi. }
  split; [split|]; [intros n v Hc; by apply H in Hc|intros name p socks _ Hc; by apply H in Hc..].
Qed.

Lemma wired_ext e e' :
  _children e' = _children e -> _tx_parser_ids e' = _tx_parser_ids e -> _mav_service e' = _mav_service e ->
  _tunnel_service e' = _tunnel_service e -> _tx_selector e' = _tx_selector e -> wired e -> wired e'.
Proof.
  unfold wired, on_target, target, selected_wlan, tx_child. by intros -> -> -> -> ->.
Qed.

Lemma setup_children_wired a rv plan g e :
  (forall s, a_connects a s = true) -> handshaken a -> idle e ->
  let '(e', _, res) := setup_children a rv plan g e in res = Ok true -> wired e'.
Proof.
  intros Hc Hh Hidle. unfold setup_children. destruct (_tx_selector_config _); [|done].
  destruct (start_legs _ _ _ _) as [[children order] ok] eqn:El. destruct ok; [cbn [negb]|done].
  destruct (wire_services a) as [tr wired']. destruct wired'; cbn [negb]; [|done].
  assert (Hsock : forall n p, n ∈ TX_LEG_ORDER -> dict_get n children <> Some (mkTxView (Some p) [])).
  { intros n p Hn Hg. destruct (start_legs_ready _ _ _ _ _ _ _ _ El Hg) as [?|[spec Hs]]; [done|]. by apply (Hh _ _ _ Hn) in Hs. }
  set (e1 := _ <| _stats_server := true |>).
  assert (Hnow := selection_targets (a_connects a) None e1 Hc eq_refl eq_refl eq_refl).
  assert (Hw : wired (_apply_tx_selection (a_connects a) None e1)).
  { split; [done|]. intros name p socks Hn Hch _. assert (socks <> []) by (intros ->; by apply (Hsock name p Hn)). split; [done|by apply Hnow]. }
  clearbody e1. revert Hw. generalize (_apply_tx_selection (a_connects a) None e1). intros e2 Hw.
  destruct (rv_remote rv); intros _; by apply (wired_ext e2).
Qed.

Lemma start_wired a e :
  (forall s, a_connects a s = true) -> handshaken a -> engine_ok e -> wired e ->
  wired (start repr inet_aton sortable a e).1.1.
Proof.
  intros Hc Hh Hok Hw. unfold start. destruct (_thread e) eqn:Eth; [done|].
  set (e0 := e <| _start_ok := false |>).
  assert (Hid : idle e0) by (intros r; assert (H := eo_down e Hok Eth r); by destruct r).
  assert (Hs := setup_ok repr inet_aton sortable a e0 Hid).
  assert (Hset : let '(e1, _, res) := _setup repr inet_aton sortable a e0 in res = Ok true -> wired e1).
  { unfold _setup. set (e2 := e0 <| _engine_fault := false |> <| _staged_config := None |>).
    assert (Hid2 : idle e2) by (intros r; specialize (Hid r); by destruct r).
    destruct (resolve _ _) as [rv|]; [|done]. destruct (if rv_remote rv then _ else _) as [wlans|]; [|done].
    destruct (init_cards _ _ _ _) as [[]|]; [|done..]. destruct (plan_and_address _ _ _ _) as [[plan addr]|]; [|done].
    destruct (graph_for _ _ _ _ _ _ _) as [g|]; [|done].
    assert (H := setup_children_wired a rv plan g e2 Hc Hh Hid2). by destruct (setup_children a rv plan g e2) as [[e1 tr] res]. }
  destruct (_setup _ _ _ a e0) as [[e1 tr] res]. destruct Hs as (_ & Hdown & _). destruct res as [[]|]; cbn.
  - apply (wired_ext e1); auto.
  - by apply no_children_wired, Hdown.
  - by apply no_children_wired, Hdown.
Qed.

Lemma tick_wired connects window e :
  engine_ok e -> (forall s, connects s = true) -> match window with Ok (Some (wlan, sel)) => current sel = wlan | _ => True end -> wired e ->
  wired (_ticker connects window e) /\ wired_now (_ticker connects window e).
Proof.
  intros Hok Hf Hsel Hw. assert (Hr := respawns_wired connects e Hf Hok Hw). assert (Ht := respawns_targets connects e Hf Hok Hw).
  unfold _ticker. destruct (_tick_task e) eqn:Et; [| |by destruct (eo_tick e Hok)].
  { split; [done|]. destruct (_thread e) eqn:Eth; [|by apply no_children_wired, (eo_down e Hok)].
    assert (H := eo_up e Hok Eth RTicker ltac:(unfold base; set_solver)). cbn in H. by rewrite Et in H. }
  destruct window as [[[wlan sel]|]|]; [|done|split; [by apply (wired_ext (_check_tx_respawns connects e))|exact Ht]].
  set (e1 := _check_tx_respawns connects e <| _tx_selector ::= fmap (fun _ => sel) |>).
  destruct (respawns_held connects e) as (R1 & _). destruct (_thread e) eqn:Eth.
  - destruct (services_up e Hok Eth) as [Hm Htn].
    assert (Hnow : wired_now (_apply_tx_selection connects wlan e1)).
    { intros name p socks Hn Hch Hne.
      assert (Hs : is_some (_tx_selector (_check_tx_respawns connects e)) = true) by exact (proj1 Hr name _ Hch).
      refine (selection_targets connects wlan e1 Hf (eq_trans (R1 RMav) Hm) (eq_trans (R1 RTun) Htn) _ name p socks Hn Hch Hne).
      unfold selected_wlan, e1. cbn. destruct (_tx_selector (_check_tx_respawns connects e)); [done|done]. }
    split; [|done]. apply (retarget_wired (_check_tx_respawns connects e)); try done. cbn. by destruct (_tx_selector (_check_tx_respawns connects e)).
  - assert (Hi : idle (_apply_tx_selection connects wlan e1)); [|by apply no_children_wired].
    intros r. destruct (apply_selection_held connects wlan e1) as [-> _].
    rewrite <- (eo_down e Hok Eth r), <- R1. by destruct r.
Qed.

Lemma step_wired o e :
  engine_ok e -> no_crash o -> fair e o -> wired e ->
  let e' := (engine_do repr inet_aton sortable e o).1 in
  wired e' /\ (match o with OTick _ _ => wired_now e' | _ => True end).
Proof.
  intros Hok Hnc Hf Hw. destruct o as [a| |c a|connects window| |n up k|n v]; cbn [engine_do fst].
  - split; [|done]. destruct Hf. by apply start_wired.
  - split; [|done]. assert (H := engine_stop_ok e Hok). destruct (stop e) as [e1 tr]. destruct H as [H1 _]. by apply no_children_wired.
  - split; [|done]. unfold restart. assert (H := engine_stop_ok e Hok). destruct (stop e) as [e1 tr1]. destruct H as (H1 & H2 & _ & H4).
    set (e2 := e1 <| _restarts ::= Z.succ |> <| _staged_config := c |>). destruct Hf as [Hc Hh].
    assert (Hi2 : idle e2) by (intros r; specialize (H1 r); by destruct r).
    assert (Hok2 : engine_ok e2) by (split; auto using idle_visited; cbn; congruence).
    assert (H := start_wired a e2 Hc Hh Hok2 (proj1 (no_children_wired e2 Hi2))).
    by destruct (start _ _ _ a e2) as [[e3 tr2] ok].
  - destruct Hf. by apply tick_wired.
  - split; [|done]. by apply (wired_ext e).
  - split; [|done]. by apply (wired_ext e).
  - split; [|done]. unfold child_view. destruct (is_some (tx_child e n)) eqn:Es; [|done].
    destruct Hw as [Hsel Hw]. split.
    { intros m u Hm. change (is_some (_tx_selector e) = true). destruct (tx_child e n) as [u'|] eqn:En; [exact (Hsel n u' En)|done]. }
    intros name p socks Hn Hch Hp. unfold tx_child in Hch. cbn in Hch, Hp.
    destruct (decide (n = name)) as [->|Hne].
    + rewrite dict_get_set_eq in Hch. simplify_eq. exact (Hw name p socks Hn (Hf p eq_refl Hp) Hp).
    + rewrite dict_get_set_ne in Hch by done. exact (Hw name p socks Hn Hch Hp).
Qed.

(** A run in which the system keeps its promises. *)
Fixpoint fair_run e (os : list (engine_op F)) : Prop :=
  match os with
  | [] => True
  | o :: rest => no_crash o /\ fair e o /\ fair_run (engine_do repr inet_aton sortable e o).1 rest
  end.

End Uplink.

(** ** The legs *)

Section Legs.
Context {F : Type} {PF : PyFloat F}.
Variable repr : json F -> string.
Variable sortable : list (json F) -> bool.

Lemma local_names (plan : ClusterPlan F) lid ifaces sts l :
  map_res (local_service plan lid ifaces) sts = Ok l ->
  map sp_name (concat (map fst l)) = map (fun s => s.1 +:+ " fwd") (List.filter (fun s => is_some (st_rx s.2)) sts) /\
  map sp_name (concat (map snd l)) = map (fun s => s.1 +:+ " inj") (List.filter (fun s => is_some (st_tx s.2)) sts).
Proof.
  revert l. induction sts as [|[svc st] sts IH]; intros l H; cbn in H; [by simplify_eq|].
  apply rbind_ok in H as ([fw ij] & Hs & (l' & Hl & [= <-])%rbind_ok). destruct (IH _ Hl) as [IH1 IH2].
  cbn. rewrite !map_app, IH1, IH2. unfold local_service in Hs.
  apply rbind_ok in Hs as (fw' & Hf & (ij' & Hi & [= -> ->])%rbind_ok).
  destruct (st_rx st); [apply rbind_ok in Hf as (port & _ & [= <-])|simplify_eq];
    (destruct (st_tx st); [destruct (inj_get _ _ _); simplify_eq|simplify_eq]); done.
Qed.

(** No two children of an engine share a name, so none is lost from its table. *)
Lemma legs_distinct cfg cards plan addr sfx (g : GsGraph F) remote :
  build_graph_remote repr sortable cfg cards plan addr sfx = Ok g -> NoDup (map fst (leg_specs g remote)).
Proof.
  unfold build_graph_remote. intros (l & _ & (probe & _ & H)%rbind_ok)%rbind_ok.
  do 6 (apply rbind_ok in H as (? & _ & H)). apply rbind_ok in H as (pleg & _ & H).
  apply rbind_ok in H as ([fw ij] & Hl & (sc & _ & [= <-])%rbind_ok).
  unfold leg_specs. cbn [video_rx mavlink_rx tunnel_rx mavlink_tx tunnel_tx local_forwarders local_injectors probe_rx fst snd].
  rewrite !(map_app fst). assert (Hn : map fst (if remote then map (fun sp => (sp_name sp, sp)) (fw ++ ij) else []) =
            if remote then map sp_name fw ++ map sp_name ij else []).
  { destruct remote; [|done]. by rewrite map_map, <- map_app. }
  rewrite Hn. unfold local_children in Hl. destruct (default [] _).
  - simplify_eq. apply (bool_decide_unpack _). by destruct remote, pleg.
  - apply rbind_ok in Hl as (ls & Hl & [= <- <-]). destruct (local_names _ _ _ _ _ Hl) as [-> ->].
    apply (bool_decide_unpack _). by destruct remote, pleg, probe.
Qed.
End Legs.
