(* ===== verification/EngineThread.v ===== *)
(** * wfb/engine.py: the engine's thread

    [start], [stop] and [restart] run on the caller's thread and wait, at most
    thirty seconds, for the engine's own thread, in which [_setup], the loop's
    callbacks and [_teardown] run.  The machine has a step per stretch of
    either thread; operator calls hold the lifecycle lock and do not overlap.
    [Engine] treats a call as one step: the theorem says that, as long as no
    wait times out, it may.  Callbacks that run while [_setup] awaits are part
    of its answers. *)
From Stdlib Require Import ZArith Lia Bool String.
From stdpp Require Import base tactics list strings.
From S2P Require Import Prelude PyStr Json Cards TxSel Radio Cluster Graph AggQueue Tunnel Engine.
Open Scope nat_scope.

(** Made; the loop published; the stop event published; awaiting it; past
    [_run]; gone. *)
Inductive eng_pc := ESpawned | ELooped | EPrepared | EServing | EEnding | EDead.
#[export] Instance eng_pc_dec : EqDecision eng_pc.
Proof. solve_decision. Defined.
Record eng_thread := mkEng { en_pc : eng_pc; en_set : bool }.
#[export] Instance eta_eng : Settable eng_thread := fun x => mkEng (en_pc x) (en_set x).

Section Life.
Context {F : Type} {PF : PyFloat F}.
Variable repr : json F -> string.
Variable inet_aton : string -> option Z.
Variable sortable : list (json F) -> bool.
#[local] Abbreviation dict := (list (string * json F)).

(** Between calls; [start] in its wait; [start] about to return what it found;
    [stop] in its join, alone or as the first half of a [restart]. *)
Inductive eng_call := NoCall | Starting | Answering | Stopping (t : option nat) (next : option (option dict)).

(** [_thread] of [el_engine] is set while a thread serves; the attribute is
    [el_thread]. *)
Record engine_life := mkEngLife {
  el_engine : WfbEngine F; el_trace : list (effect F);
  el_thread : option nat; el_loop : option nat; el_stop : option nat; el_started : bool;
  el_call : eng_call; el_threads : list eng_thread }.
#[export] Instance eta_engine_life : Settable engine_life := fun c =>
  mkEngLife (el_engine c) (el_trace c) (el_thread c) (el_loop c) (el_stop c) (el_started c) (el_call c) (el_threads c).
Implicit Types (c : engine_life) (a : answers F).

Definition life_new : engine_life := mkEngLife engine_init [] None None None false NoCall [].

Definition pc_at c (t : nat) : eng_pc := from_option en_pc EDead (el_threads c !! t).
Definition alive c (t : nat) : bool := negb (bool_decide (pc_at c t = EDead)).

(** The lock section of [start]. *)
Definition spawn c : engine_life :=
  c <| el_started := false |> <| el_engine ::= (fun e => e <| _start_ok := false |>) |>
    <| el_thread := Some (length (el_threads c)) |> <| el_threads ::= (fun l => l ++ [mkEng ESpawned false]) |>
    <| el_call := Starting |>.

Definition eng_call_start c : option engine_life :=
  match el_call c with
  | NoCall => Some (if from_option (alive c) false (el_thread c) then c <| el_call := Answering |> else spawn c)
  | _ => None
  end.

(** [start] returns, with its answer. *)
Definition eng_start_returns (timeout : bool) c : option (engine_life * bool) :=
  match el_call c with
  | Starting => if el_started c || timeout then Some (c <| el_call := NoCall |>, _start_ok (el_engine c)) else None
  | Answering => Some (c <| el_call := NoCall |>, _start_ok (el_engine c))
  | _ => None
  end.

Definition signal c : engine_life :=
  match el_loop c, el_stop c with
  | Some l, Some e => if alive c l then c <| el_threads ::= alter (fun x => x <| en_set := true |>) e |> else c
  | _, _ => c
  end.

(** [stop], or [restart] with the configuration for its second half. *)
Definition eng_call_stop (next : option (option dict)) c : option engine_life :=
  match el_call c with
  | NoCall => Some (signal c <| el_call := Stopping (el_thread c) next |>)
  | _ => None
  end.

(** The join returns; a [restart] goes on to its [start]. *)
Definition eng_stop_returns (timeout : bool) c : option engine_life :=
  match el_call c with
  | Stopping t next =>
      if negb (from_option (alive c) false t) || timeout then
        let c1 := c <| el_thread := None |> in
        Some match next with
             | None => c1 <| el_call := NoCall |>
             | Some config => spawn (c1 <| el_engine ::= (fun e => e <| _restarts ::= Z.succ |> <| _staged_config := config |>) |>)
             end
      else None
  | _ => None
  end.

Definition move (t : nat) (p : eng_pc) c : engine_life := c <| el_threads ::= alter (fun x => x <| en_pc := p |>) t |>.

(** [_thread_main] and [_run]; [a] is read by the stretch that runs
    [_setup]. *)
Definition _run (t : nat) a c : option engine_life :=
  x ← el_threads c !! t;
  match en_pc x with
  | ESpawned => Some (move t ELooped (c <| el_loop := Some t |>))
  | ELooped => Some (move t EPrepared (c <| el_stop := Some t |>))
  | EPrepared =>
      let '(e1, tr, r) := _setup repr inet_aton sortable a (el_engine c) in
      let c1 := c <| el_trace ::= (fun l => l ++ tr) |> in
      Some match r with
           | Ok true => move t EServing (c1 <| el_engine := e1 <| _thread := true |> <| _start_ok := true |> |> <| el_started := true |>)
           | Ok false => move t EEnding (c1 <| el_engine := e1 <| _start_ok := false |> |> <| el_started := true |>)
           | Err _ => move t EEnding (c1 <| el_engine := e1 |>)
           end
  | EServing =>
      if en_set x then
        let '(e1, tr) := _teardown (el_engine c) in
        Some (move t EEnding (c <| el_engine := e1 <| _thread := false |> |> <| el_trace ::= (fun l => l ++ tr) |>))
      else None
  | EEnding => Some (move t EDead (c <| el_loop := None |> <| el_started := true |>))
  | EDead => None
  end.

(** A turn of the ticker or a report of a child or a node, on the loop. *)
Definition is_callback (o : engine_op F) : bool :=
  match o with OStart _ | OStop | ORestart _ _ => false | _ => true end.

Inductive eng_ev :=
| EvStart | EvStartReturns (timeout : bool)
| EvStop (next : option (option dict)) | EvStopReturns (timeout : bool)
| EvThread (t : nat) (a : answers F)
| EvCallback (t : nat) (o : engine_op F).

Definition eng_step c (ev : eng_ev) : option engine_life :=
  match ev with
  | EvStart => eng_call_start c
  | EvStartReturns timeout => fst <$> eng_start_returns timeout c
  | EvStop next => eng_call_stop next c
  | EvStopReturns timeout => eng_stop_returns timeout c
  | EvThread t a => _run t a c
  | EvCallback t o =>
      if is_callback o && bool_decide (pc_at c t = EServing)
      then let '(e, tr) := engine_do repr inet_aton sortable (el_engine c) o in
           Some (c <| el_engine := e |> <| el_trace ::= (fun l => l ++ tr) |>)
      else None
  end.

Fixpoint eng_run c (evs : list eng_ev) : option engine_life :=
  match evs with [] => Some c | ev :: evs => c' ← eng_step c ev; eng_run c' evs end.

Definition eng_prompt (ev : eng_ev) : bool :=
  match ev with EvStartReturns timeout | EvStopReturns timeout => negb timeout | _ => true end.
End Life.
Arguments NoCall {F}.
Arguments Starting {F}.
Arguments Answering {F}.
Arguments Stopping {F} t next.
Arguments EvStart {F}.
Arguments EvStartReturns {F} timeout.
Arguments EvStop {F} next.
Arguments EvStopReturns {F} timeout.
Arguments EvThread {F} t a.
Arguments EvCallback {F} t o.

(* ------------------------------------------------------------------ *)
(** ** Calls as one step *)

Section Refinement.
Context {F : Type} {PF : PyFloat F}.
Variable repr : json F -> string.
Variable inet_aton : string -> option Z.
Variable sortable : list (json F) -> bool.
#[local] Abbreviation dict := (list (string * json F)).
#[local] Abbreviation do_ := (engine_do repr inet_aton sortable).
#[local] Abbreviation run := (engine_run repr inet_aton sortable).
#[local] Abbreviation setup := (_setup repr inet_aton sortable).
Implicit Types (c : engine_life (F := F)) (a : answers F) (e : WfbEngine F) (x : eng_thread).

(** The flags of the surface are the surface's. *)
Definition flags e : bool * bool := (_thread e, _start_ok e).

Lemma setup_flags a e : flags (setup a e).1.1 = flags e.
Proof.
  unfold _setup. destruct (resolve _ _) as [rv|]; [|done].
  destruct (if rv_remote rv then _ else _) as [wlans|]; [|done]. destruct (init_cards _ _ _ _) as [[]|]; [|done..].
  destruct (plan_and_address _ _ _ _) as [[plan addr]|]; [|done]. destruct (graph_for _ _ _ _ _ _ _) as [g|]; [|done].
  assert (H : forall e0, flags (setup_children a rv plan g e0).1.1 = flags e0).
  { intros e0. unfold setup_children. destruct (_tx_selector_config _); [|done]. destruct (start_legs _ _ _ _) as [[? ?] []]; [|done].
    cbn [negb]. destruct (wire_services a) as [? []]; cbn [negb]; [destruct (rv_remote rv)|destruct (a_mav a && a_tun a)]; done. }
  specialize (H (e <| _engine_fault := false |> <| _staged_config := None |>)).
  by destruct (setup_children _ _ _ _ _) as [[e1 tr] r].
Qed.

Lemma callback_flags o e : is_callback o = true -> flags (do_ e o).1 = flags e.
Proof.
  destruct o as [a| |c a|connects window| |n up k|n v]; intros Ho; try done; cbn.
  - assert (H : forall e, flags (_check_tx_respawns connects e) = flags e).
    { intros e0. unfold _check_tx_respawns. destruct (existsb _ _); [|done]. unfold broadcast_sockets. by destruct (tx_child _ _) as [[[p|] socks]|]. }
    unfold _ticker. destruct (_tick_task e); [done| |done]. destruct window as [[[wlan sel]|]|]; apply (H e).
  - unfold child_view. by destruct (is_some _).
Qed.

(** What [_setup] and the lines after it make of an engine, as one step. *)
Definition set_up a e : WfbEngine F * list (effect F) :=
  let '(e1, tr, r) := setup a e in
  (match r with Ok true => e1 <| _thread := true |> <| _start_ok := true |> | _ => e1 end, tr).

(** The engine in [_setup]'s hands, and the one-step engine before the call. *)
Definition pending (core e : WfbEngine F) : Prop :=
  flags core = (false, false) /\ exists op, forall a, is_callback (op a) = false /\ do_ e (op a) = set_up a core.

Lemma pending_start e : _thread e = false -> pending (e <| _start_ok := false |>) e.
Proof.
  intros He. split; [unfold flags; cbn; by rewrite He|]. exists OStart. intros a. split; [done|]. unfold set_up. cbn. unfold start. rewrite He.
  destruct (setup _ _) as [[e1 tr] [[]|]]; done.
Qed.

Lemma pending_restart config e :
  _thread e = false -> pending (e <| _restarts ::= Z.succ |> <| _staged_config := config |> <| _start_ok := false |>) e.
Proof.
  intros He. split; [unfold flags; cbn; by rewrite He|]. exists (ORestart config). intros a. split; [done|]. unfold set_up. cbn. unfold restart, stop, start.
  rewrite He. cbn [_thread upd]. change (_thread (e <| _restarts ::= Z.succ |> <| _staged_config := config |>)) with (_thread e). rewrite He.
  destruct (setup _ _) as [[e1 tr] [[]|]]; done.
Qed.

(** Where the held thread is, what it has made of the engine, and what the call
    in progress waits for. *)
Definition settled c (t : nat) e : Prop :=
  el_engine c = e /\ _thread e = false /\
  match el_call c with Stopping t' _ => t' = Some t | _ => _start_ok e = false end.

Definition coming c x e : Prop := el_call c = Starting /\ el_started c = false /\ en_set x = false /\ pending (el_engine c) e.

Definition phase c (t : nat) x e : Prop :=
  match en_pc x with
  | ESpawned => coming c x e
  | ELooped => coming c x e /\ el_loop c = Some t
  | EPrepared => coming c x e /\ el_loop c = Some t /\ el_stop c = Some t
  | EServing => el_engine c = e /\ flags e = (true, true) /\ el_loop c = Some t /\ el_stop c = Some t /\ el_started c = true /\
                match el_call c with Stopping t' _ => t' = Some t /\ en_set x = true | _ => en_set x = false end
  | EEnding => settled c t e
  | EDead => settled c t e
  end.

Definition refines c e (tr : list (effect F)) : Prop :=
  el_trace c = tr /\ (forall t, alive c t = true -> el_thread c = Some t) /\
  match el_thread c with
  | None => el_engine c = e /\ _thread e = false /\ match el_call c with NoCall => True | Stopping t _ => t = None | _ => False end
  | Some t => exists x, el_threads c !! t = Some x /\ phase c t x e
  end.

Lemma engine_run_app e os1 os2 : run e (os1 ++ os2) = let '(e1, t1) := run e os1 in let '(e2, t2) := run e1 os2 in (e2, t1 ++ t2).
Proof.
  revert e. induction os1 as [|o os1 IH]; intros e; cbn; [by destruct (run e os2)|].
  destruct (do_ e o) as [e1 t1]. rewrite IH. destruct (run e1 os1) as [e2 t2]. destruct (run e2 os2) as [e3 t3]. by rewrite app_assoc.
Qed.

Lemma alive_alter c (f : eng_thread -> eng_thread) t x u :
  el_threads c !! t = Some x ->
  alive (c <| el_threads ::= alter f t |>) u = if decide (u = t) then negb (bool_decide (en_pc (f x) = EDead)) else alive c u.
Proof.
  intros Hx. unfold alive, pc_at. cbn. case_decide as Hd; [subst; by rewrite list_lookup_alter_eq, Hx|].
  by rewrite list_lookup_alter_ne by congruence.
Qed.

Lemma alive_spawn c u : alive (spawn c) u = true -> alive c u = true \/ u = length (el_threads c).
Proof.
  unfold alive, pc_at, spawn. cbn. intros H. destruct (decide (u < length (el_threads c))) as [Hl|Hl].
  - rewrite lookup_app_l in H by done. by left.
  - destruct (decide (u = length (el_threads c))) as [->|Hne]; [by right|].
    by rewrite lookup_ge_None_2 in H by (rewrite length_app; cbn; lia).
Qed.

Lemma spawn_refines c core e tr :
  el_trace c = tr -> (forall t, alive c t = false) -> el_engine c = core -> pending (core <| _start_ok := false |>) e -> refines (spawn c) e tr.
Proof.
  intros Htr Hd He Hp. split; [done|]. split.
  - intros t [H| ->]%alive_spawn; [by rewrite Hd in H|done].
  - exists (mkEng ESpawned false). split; [cbn; by rewrite list_lookup_middle|]. unfold phase, coming. cbn. by rewrite He.
Qed.

(** The one-step operations a step of the machine amounts to. *)
Definition callbacks (evs : list (eng_ev (F := F))) : list (engine_op F) :=
  omap (fun ev => match ev with EvCallback _ o => Some o | _ => None end) evs.

Definition follows e (tr : list (effect F)) cbs c' : Prop :=
  exists os, List.filter is_callback os = cbs /\ let '(e', tr') := run e os in refines c' e' (tr ++ tr').

Lemma follows_none e tr c' : refines c' e tr -> follows e tr [] c'.
Proof. intros H. exists []. split; [done|]. cbn. by rewrite app_nil_r. Qed.

Lemma follows_one e tr o c' : (let '(e', tr') := do_ e o in refines c' e' (tr ++ tr')) -> follows e tr (List.filter is_callback [o]) c'.
Proof. intros H. exists [o]. split; [done|]. cbn. destruct (do_ e o) as [e' tr']. by rewrite app_nil_r. Qed.

Lemma held_gone c e tr :
  refines c e tr -> from_option (alive c) false (el_thread c) = false -> el_engine c = e /\ _thread e = false /\ forall t, alive c t = false.
Proof.
  intros (_ & H1 & H2) Hg. destruct (el_thread c) as [t|] eqn:Et; cbn in Hg.
  - destruct H2 as (x & Hx & Hp). unfold alive, pc_at in Hg. rewrite Hx in Hg. cbn in Hg. unfold phase in Hp.
    destruct (en_pc x) eqn:Ex; try done. destruct Hp as (He & Hth & _). split; [done|]. split; [done|].
    intros u. destruct (alive c u) eqn:Hu; [|done]. assert (E := H1 u Hu). injection E as <-.
    unfold alive, pc_at in Hu. rewrite Hx in Hu. cbn in Hu. by rewrite Ex in Hu.
  - destruct H2 as (He & Hth & _). split; [done|]. split; [done|]. intros u. destruct (alive c u) eqn:Hu; [|done]. by specialize (H1 u Hu).
Qed.

Lemma start_follows c e tr c' : refines c e tr -> eng_call_start c = Some c' -> follows e tr [] c'.
Proof.
  intros H Hs. unfold eng_call_start in Hs. destruct (el_call c) eqn:Ec; try done. injection Hs as <-. apply follows_none.
  destruct (from_option (alive c) false (el_thread c)) eqn:Ea.
  - destruct H as (H0 & H1 & H2). split; [done|]. split; [done|]. cbn. destruct (el_thread c) as [t|]; [|by rewrite Ec in H2].
    destruct H2 as (x & Hx & Hp). exists x. split; [done|]. unfold phase, settled, coming in *. cbn. rewrite Ec in Hp.
    destruct (en_pc x); naive_solver.
  - destruct (held_gone c e tr H Ea) as (He & Hth & Hd). apply (spawn_refines c e); [apply H|done|done|by apply pending_start].
Qed.

Lemma start_returns_follows c e tr c' ok :
  refines c e tr -> eng_start_returns false c = Some (c', ok) -> follows e tr [] c' /\ ok = _thread (el_engine c).
Proof.
  intros (H0 & H1 & H2) Hs. unfold eng_start_returns in Hs.
  destruct (el_thread c) as [t|] eqn:Et; [|destruct (el_call c); naive_solver]. destruct H2 as (x & Hx & Hp).
  assert (Hc : el_call c = Starting /\ el_started c = true \/ el_call c = Answering)
    by (destruct (el_call c), (el_started c); naive_solver).
  assert (E : c' = c <| el_call := NoCall |> /\ ok = _start_ok (el_engine c)) by (destruct (el_call c), (el_started c); naive_solver).
  destruct E as [-> ->]. unfold phase, coming, settled, flags in Hp. split.
  - apply follows_none. split; [done|]. split; [intros u Hu; cbn; rewrite Et; by apply H1|]. cbn. rewrite Et. exists x. split; [done|]. unfold phase, settled, coming, flags. cbn.
    destruct (en_pc x), Hc as [[Hc Hst]|Hc]; rewrite Hc in Hp; naive_solver congruence.
  - destruct (en_pc x), Hc as [[Hc Hst]|Hc]; rewrite Hc in Hp; naive_solver congruence.
Qed.

Lemma stop_follows next c e tr c' : refines c e tr -> eng_call_stop next c = Some c' -> follows e tr [] c'.
Proof.
  intros (H0 & H1 & H2) Hs. unfold eng_call_stop in Hs. destruct (el_call c) eqn:Ec; try done. injection Hs as <-. apply follows_none.
  assert (Hsame : forall u, alive (signal c <| el_call := Stopping (el_thread c) next |>) u = alive c u).
  { intros u. unfold signal. destruct (el_loop c) as [l|], (el_stop c) as [s|]; try done. destruct (alive c l); [|done].
    destruct (el_threads c !! s) as [y|] eqn:Ey.
    - change (alive (c <| el_threads ::= alter (fun x => x <| en_set := true |>) s |>) u = alive c u). rewrite (alive_alter c _ s y u Ey).
      case_decide as Hd; [subst|done]. unfold alive, pc_at. by rewrite Ey.
    - unfold alive, pc_at. cbn. destruct (decide (u = s)) as [->|]; [by rewrite list_lookup_alter_eq, Ey|by rewrite list_lookup_alter_ne by congruence]. }
  assert (Ht : el_thread (signal c <| el_call := Stopping (el_thread c) next |>) = el_thread c)
    by (unfold signal; repeat case_match; done).
  assert (Hf : el_trace (signal c) = el_trace c /\ el_engine (signal c) = el_engine c /\ el_loop (signal c) = el_loop c /\
               el_stop (signal c) = el_stop c /\ el_started (signal c) = el_started c)
    by (unfold signal; repeat case_match; done).
  destruct Hf as (F1 & F2 & F3 & F4 & F5).
  split; [cbn; by rewrite F1|]. split; [intros u Hu; rewrite Hsame in Hu; rewrite Ht; by apply H1|]. rewrite Ht.
  destruct (el_thread c) as [t|] eqn:Et; [|destruct H2 as (He & Hth & _); cbn; by rewrite F2].
  destruct H2 as (x & Hx & Hp). unfold phase, coming, settled in *.
  assert (Hx' : exists y, el_threads (signal c) !! t = Some y /\ en_pc y = en_pc x /\ (el_loop c = Some t -> el_stop c = Some t -> alive c t = true -> en_set y = true)).
  { unfold signal. destruct (el_loop c) as [l|], (el_stop c) as [s|]; try (exists x; by split_and!).
    destruct (alive c l) eqn:Ea; [|exists x; split_and!; [done|done|congruence]]. cbn.
    destruct (decide (s = t)) as [->|]; [rewrite list_lookup_alter_eq, Hx; by eexists|].
    rewrite list_lookup_alter_ne by done. exists x. split_and!; [done|done|congruence]. }
  destruct Hx' as (y & Hy & Ey & Hset). exists y. split; [exact Hy|]. rewrite Ey. cbn. rewrite F2, F3, F4, F5.
  destruct (en_pc x) eqn:Ex.
  1: destruct Hp as (Hp & _); congruence.
  1, 2: destruct Hp as ((Hp & _) & _); congruence.
  - destruct Hp as (P1 & P2 & P3 & P4 & P5 & _). split_and!; try done. apply Hset; [done|done|]. unfold alive, pc_at. rewrite Hx. cbn. by rewrite Ex.
  - destruct Hp as (P1 & P2 & _). by split_and!.
  - destruct Hp as (P1 & P2 & _). by split_and!.
Qed.

Lemma stop_returns_follows c e tr c' : refines c e tr -> eng_stop_returns false c = Some c' -> follows e tr [] c'.
Proof.
  intros H Hs. unfold eng_stop_returns in Hs. destruct (el_call c) as [| | |t next] eqn:Ec; try done. rewrite orb_false_r in Hs.
  destruct (negb _) eqn:Ea; [|done]. apply negb_true_iff in Ea. injection Hs as <-. apply follows_none.
  assert (Et : t = el_thread c).
  { destruct H as (_ & _ & H2). destruct (el_thread c) as [t0|]; [|destruct H2 as (_ & _ & H2); by rewrite Ec in H2].
    destruct H2 as (x & _ & Hp). unfold phase, coming, settled in Hp. rewrite Ec in Hp.
    destruct (en_pc x); [by destruct Hp|by destruct Hp as [[]]|by destruct Hp as [[]]|by destruct Hp as (_ & _ & _ & _ & _ & [])|by destruct Hp as (_ & _ & Hp)|by destruct Hp as (_ & _ & Hp)]. }
  rewrite Et in Ea. destruct (held_gone c e tr H Ea) as (He & Hth & Hd). destruct H as (H0 & _ & _). destruct next as [config|].
  - eapply spawn_refines; [exact H0|exact Hd|reflexivity|]. cbn. rewrite He. by apply pending_restart.
  - split; [done|]. split; [intros u Hu; by rewrite (Hd u : alive (c <| el_thread := None |> <| el_call := NoCall |>) u = false) in Hu|done].
Qed.

(** A stretch of the held thread. *)
Lemma moved c t x p e tr c1 :
  el_threads c !! t = Some x -> el_thread c = Some t -> (forall u, alive c u = true -> el_thread c = Some u) ->
  el_threads c1 = el_threads c -> el_thread c1 = el_thread c -> el_trace c1 = tr -> phase (move t p c1) t (x <| en_pc := p |>) e ->
  refines (move t p c1) e tr.
Proof.
  intros Hx Ht H1 E1 E2 E3 Hp. split; [done|]. assert (Hx1 : el_threads c1 !! t = Some x) by congruence. split.
  - intros u Hu. unfold move in Hu. rewrite (alive_alter c1 _ t x u Hx1) in Hu. cbn. rewrite E2. case_decide as Hd; [by subst|].
    apply H1. unfold alive, pc_at in *. by rewrite <- E1.
  - cbn. rewrite E2, Ht. exists (x <| en_pc := p |>). split; [|done]. by rewrite list_lookup_alter_eq, Hx1.
Qed.

Lemma thread_follows t a c e tr c' : refines c e tr -> _run repr inet_aton sortable t a c = Some c' -> follows e tr [] c'.
Proof.
  intros (H0 & H1 & H2) Hs. apply bind_Some in Hs as (x & Hx & Hs).
  assert (Ht : en_pc x <> EDead -> el_thread c = Some t).
  { intros Hne. apply H1. unfold alive, pc_at. rewrite Hx. cbn. by rewrite bool_decide_false. }
  destruct (en_pc x) eqn:Ex; try done; specialize (Ht ltac:(done)); rewrite Ht in H2; destruct H2 as (x' & Hx' & Hp);
    assert (x' = x) as -> by congruence; unfold phase in Hp; rewrite Ex in Hp.
  - injection Hs as <-. apply follows_none, (moved c t x); try done.
  - injection Hs as <-. apply follows_none, (moved c t x); try done. unfold phase. cbn. naive_solver.
  - destruct Hp as ((Hc & _ & Hset & Hfl & op & Hop) & Hl & Hst). destruct (Hop a) as [Hcb Hdo].
    assert (Hnil : List.filter is_callback [op a] = []) by (cbn; by rewrite Hcb).
    rewrite <- Hnil. apply follows_one. rewrite Hdo. unfold set_up. assert (Hf := setup_flags a (el_engine c)). rewrite Hfl in Hf.
    destruct (setup a (el_engine c)) as [[e1 tr1] r]. cbn in Hf. injection Hf as Hf1 Hf2.
    assert (Eid : e1 <| _start_ok := false |> = e1) by (destruct e1; cbn in *; by subst).
    destruct r as [[]|]; injection Hs as <-; apply (moved c t x); try done; try (cbn; by rewrite H0); unfold phase, settled; cbn; rewrite Hc, ?Eid; done.
  - destruct (en_set x) eqn:Es; [|done]. destruct Hp as (He & Hfl & Hl & Hst & Hsd & Hc).
    destruct (el_call c) as [| | |t' next] eqn:Ec; try done. destruct Hc as [-> _].
    change ([] : list (engine_op F)) with (List.filter is_callback ([OStop] : list (engine_op F))). apply follows_one. cbn. unfold stop.
    injection Hfl as Hth Hsk. rewrite Hth, <- He. destruct (_teardown (el_engine c)) as [e1 tr1]. injection Hs as <-.
    apply (moved c t x); try done; [cbn; by rewrite H0|]. unfold phase, settled. cbn. by rewrite Ec.
  - injection Hs as <-. apply follows_none, (moved c t x); try done.
Qed.

Lemma callback_follows t o c e tr c' :
  refines c e tr -> eng_step repr inet_aton sortable c (EvCallback t o) = Some c' -> follows e tr [o] c'.
Proof.
  intros (H0 & H1 & H2) Hs. cbn [eng_step] in Hs. destruct (is_callback o) eqn:Eo; [|done]. cbn in Hs. case_bool_decide as Hpc; [|done].
  assert (Ht : el_thread c = Some t) by (apply H1; unfold alive; by rewrite Hpc). rewrite Ht in H2. destruct H2 as (x & Hx & Hp).
  assert (Ex : en_pc x = EServing) by (unfold pc_at in Hpc; by rewrite Hx in Hpc). unfold phase in Hp. rewrite Ex in Hp.
  destruct Hp as (He & Hfl & Hp). assert (Hf := callback_flags o e Eo).
  assert (Hone : List.filter is_callback [o] = [o]) by (cbn; by rewrite Eo). rewrite <- Hone. apply follows_one. rewrite He in Hs.
  destruct (do_ e o) as [e1 tr1]. injection Hs as <-. split; [cbn; by rewrite H0|]. split; [done|].
  cbn. rewrite Ht. exists x. split; [done|]. unfold phase. rewrite Ex. cbn in Hf |- *. by rewrite Hf.
Qed.

Lemma step_follows c e tr ev c' :
  refines c e tr -> eng_prompt ev = true -> eng_step repr inet_aton sortable c ev = Some c' -> follows e tr (callbacks [ev]) c'.
Proof.
  intros H Hp Hs. destruct ev as [|[]|next|[]|t a|t o]; try done.
  - by eapply start_follows.
  - cbn in Hs. destruct (eng_start_returns false c) as [[c1 ok]|] eqn:E; [|done]. injection Hs as <-. by eapply start_returns_follows.
  - by eapply stop_follows.
  - by eapply stop_returns_follows.
  - by eapply thread_follows.
  - by eapply callback_follows.
Qed.

Lemma run_follows c e tr evs c' :
  refines c e tr -> Forall (fun ev => eng_prompt ev = true) evs -> eng_run repr inet_aton sortable c evs = Some c' ->
  follows e tr (callbacks evs) c'.
Proof.
  intros H Hp. revert c e tr H. induction Hp as [|ev evs He _ IH]; intros c e tr H Hr; cbn in Hr.
  { injection Hr as <-. by apply follows_none. }
  apply bind_Some in Hr as (c1 & H1 & Hr). destruct (step_follows c e tr ev c1 H He H1) as (os1 & Ho1 & Hs1).
  destruct (run e os1) as [e1 tr1] eqn:E1. destruct (IH c1 e1 _ Hs1 Hr) as (os2 & Ho2 & Hs2).
  exists (os1 ++ os2). split; [rewrite List.filter_app, Ho1, Ho2; by destruct ev|]. rewrite engine_run_app, E1. destruct (run e1 os2) as [e2 tr2].
  by rewrite app_assoc.
Qed.

(** C9: However the engine's thread and its callers interleave, as long as no
    wait times out: between calls the engine is where one-step starts, stops
    and restarts take it and the effects so far are theirs, with the loop's
    callbacks in order; at most one thread is alive, the one held; it serves
    exactly while the engine is up; and what a start answers is whether it is. *)
Theorem engine_thread_refines evs c :
  eng_run repr inet_aton sortable life_new evs = Some c -> Forall (fun ev => eng_prompt ev = true) evs ->
  (forall t, alive c t = true -> el_thread c = Some t) /\
  (forall c' ok, eng_start_returns false c = Some (c', ok) -> ok = _thread (el_engine c)) /\
  (el_call c = NoCall -> exists os,
     run engine_init os = (el_engine c, el_trace c) /\ List.filter is_callback os = callbacks evs /\
     (_thread (el_engine c) = true <-> exists t, el_thread c = Some t /\ pc_at c t = EServing)).
Proof.
  intros Hr Hp. assert (H0 : refines life_new engine_init []) by done.
  destruct (run_follows _ _ _ _ _ H0 Hp Hr) as (os & Ho & Hs). destruct (run engine_init os) as [e tr] eqn:E.
  split; [apply Hs|]. split; [intros c' ok Hok; by destruct (start_returns_follows _ _ _ _ _ Hs Hok)|].
  intros Hc. exists os. destruct Hs as (Htr & _ & Hh). rewrite E, Htr. destruct (el_thread c) as [t|] eqn:Et.
  - destruct Hh as (x & Hx & Hph). unfold phase, coming, settled, flags in Hph. rewrite Hc in Hph. assert (Hpc : pc_at c t = en_pc x) by (unfold pc_at; by rewrite Hx).
    split; [destruct (en_pc x); naive_solver|]. split; [done|]. rewrite <- Hpc in Hph. destruct (pc_at c t) eqn:Epc; naive_solver congruence.
  - destruct Hh as (He & Hth & _). split; [by rewrite He|]. split; [done|]. rewrite He, Hth. naive_solver.
Qed.
End Refinement.
