(* ===== verification/Beamforming.v ===== *)
(** * beamforming.py, beamforming_armer.py and drone_client.py

    The beamformee controller, the reconcile loop's turn, and the drone client
    calls it makes.  The driver's [bf_monitor_conf] nodes are a dict of the
    last text written to each; whether a node exists, a write succeeds, or an
    address can be read is asked of the platform, and an HTTP exchange is its
    status code with its body parsed, or the exception it raises. *)
From Stdlib Require Import ZArith Lia Bool String.
From stdpp Require Import base tactics list strings.
From S2P Require Import Prelude PyStr Json Cards Schema StatsClient.
Open Scope Z_scope.

Record BeamformingController (F : Type) := mkBf {
  bf_armed : bool; bf_iface : json F; bf_peer : json F; bf_state : string; bf_reason : string }.
Arguments mkBf {F}.
Arguments bf_armed {F} _.
Arguments bf_iface {F} _.
Arguments bf_peer {F} _.
Arguments bf_state {F} _.
Arguments bf_reason {F} _.

(** The platform during one call: node exists, write succeeds, address text. *)
Record platform := mkPlatform { os_exists : string -> bool; os_write : string -> bool; os_address : string -> option string }.

(** An exchange with the drone: the status code and the body, parsed. *)
Abbreviation http F := (res (Z * res (json F))).

Section Beamforming.
Context {F : Type} {PF : PyFloat F}.
Variable repr : json F -> string.
#[local] Abbreviation dict := (list (string * json F)).
Implicit Types (c : BeamformingController F) (pf : platform) (conf : list (string * string)) (iface peer : json F).

(** ** drone_client.py *)

Definition _ok_json (r : http F) : res (json F) :=
  let* cb := r in
  let '(code, body) := cb in
  if (400 <=? code) && (code <? 500) then Err (DroneRejected code)
  else if code >=? 500 then Err DroneUnreachable
  else body.

Definition healthz (r : http F) : res bool :=
  match r with
  | Ok (code, _) => Ok (code =? 200)
  | Err DroneUnreachable => Ok false
  | Err e => Err e
  end.

(** ** The controller *)

Definition bf_init : BeamformingController F := mkBf false (JStr "") (JStr "") "disabled" "".

Definition PROC_BASE : string := "/proc/net/rtl88x2eu".
Definition SYS_BASE : string := "/sys/class/net".
Definition conf_node iface : string := PROC_BASE +:+ "/" +:+ py_str repr iface +:+ "/bf_monitor_conf".

Definition supported pf iface : bool := os_exists pf (conf_node iface).

Definition read_mac pf iface : string :=
  match os_address pf (SYS_BASE +:+ "/" +:+ py_str repr iface +:+ "/address") with Some t => strip t | None => "" end.

Definition _write_conf pf iface (content : string) conf : list (string * string) * bool :=
  if os_write pf (conf_node iface) then (dict_set (conf_node iface) content conf, true) else (conf, false).

Definition RESET : string := "0 00:00:00:00:00:00 0 0".
Definition arm_text peer : string := "1 " +:+ py_str repr peer +:+ " 0 0".

Definition reconcile pf (enabled : bool) iface peer c conf : BeamformingController F * list (string * string) :=
  if negb enabled then
    let disabled := mkBf false iface (JStr "") "disabled" "" in
    if bf_armed c && supported pf (bf_iface c) then
      let '(conf', ok) := _write_conf pf (bf_iface c) RESET conf in
      if ok then (disabled, conf')
      else (mkBf false (bf_iface c) (bf_peer c) "error" "bf_monitor_conf reset failed", conf')
    else (disabled, conf)
  else if negb (supported pf iface) then
    (mkBf false iface peer "unsupported" ("no bf_monitor_conf node on " +:+ py_str repr iface), conf)
  else if bf_armed c && json_eqb (bf_iface c) iface && json_eqb (bf_peer c) peer then (c, conf)
  else
    let '(conf', ok) := _write_conf pf iface (arm_text peer) conf in
    if ok then (mkBf true iface peer "active" "", conf')
    else (mkBf false iface peer "error" "bf_monitor_conf write failed", conf').

Definition status pf c : dict :=
  [("requested", JBool (negb (String.eqb (bf_state c) "disabled"))); ("state", JStr (bf_state c));
   ("reason", JStr (bf_reason c)); ("iface", bf_iface c);
   ("localMac", JStr (if truthy (bf_iface c) then read_mac pf (bf_iface c) else "")); ("peerMac", bf_peer c)].

Definition status_with_primary pf c (primary : json F) : dict :=
  let st := status pf c in
  if negb (truthy (get_ "localMac" st)) && truthy primary then
    let st := dict_set "localMac" (JStr (read_mac pf primary)) st in
    if negb (truthy (get_ "iface" st)) then dict_set "iface" primary st else st
  else st.

(** ** The armer's turn *)

(** [wlans[0] if wlans else None], a false value tested next. *)
Definition primary_of (wlans : list (json F)) : json F := match wlans with w :: _ => w | [] => JNull end.

Definition wants_bf (cfg : dict) : res bool :=
  let* bf := obj_get "beamforming" (JDict []) (or_empty (get_or "link" (JDict []) cfg)) in
  let* en := obj_get "enabled" JNull (or_empty bf) in Ok (truthy en).

(** The address of the drone's card; [None]: the drone did not answer or
    rejected the request. *)
Definition drone_mac (answer : http F) : res (option (json F)) :=
  match _ok_json answer with
  | Ok st => let* b := obj_get "beamforming" (JDict []) st in
             let* m := obj_get "localMac" (JStr "") b in Ok (Some m)
  | Err DroneUnreachable | Err (DroneRejected _) => Ok None
  | Err e => Err e
  end.

Definition tick pf (cfg : dict) (wlans : res (list (json F))) (health answer : http F) c conf
  : (BeamformingController F * list (string * string)) * res unit :=
  let r :=
    let* want := wants_bf cfg in
    let active := String.eqb (bf_state c) "active" in
    if negb want then
      if active then
        let* ws := wlans in
        let primary := primary_of ws in
        Ok (if truthy primary then reconcile pf false primary (JStr "") c conf else (c, conf))
      else Ok (c, conf)
    else if active then Ok (c, conf)
    else
      let* ws := wlans in
      let primary := primary_of ws in
      if negb (truthy primary) || negb (supported pf primary) then Ok (c, conf)
      else
        let* up := healthz health in
        if negb up then Ok (c, conf)
        else
          let* mac := drone_mac answer in
          match mac with
          | Some m => Ok (if truthy m then reconcile pf true primary m c conf else (c, conf))
          | None => Ok (c, conf)
          end
  in match r with Ok s => (s, Ok tt) | Err e => ((c, conf), Err e) end.

(** A turn with its surroundings. *)
Record turn := mkTurn { t_pf : platform; t_cfg : dict; t_wlans : res (list (json F)); t_health : http F; t_answer : http F }.

Definition run_turn (s : BeamformingController F * list (string * string)) (t : turn) :=
  (tick (t_pf t) (t_cfg t) (t_wlans t) (t_health t) (t_answer t) s.1 s.2).1.
Definition turns := fold_left run_turn.
End Beamforming.
Arguments turn F : clear implicits.

(** ** What the loop maintains and reaches *)

Section Reached.
Context {F : Type} {PF : PyFloat F}.
Variable repr : json F -> string.
Implicit Types (c : BeamformingController F) (conf : list (string * string)) (t : turn F).

(** Armed and active are the same; the node of an armed interface holds its
    peer's address. *)
Definition bf_ok c conf : Prop :=
  (bf_armed c = true <-> bf_state c = "active") /\
  (bf_armed c = true -> dict_get (conf_node repr (bf_iface c)) conf = Some (arm_text repr (bf_peer c))).

Lemma reconcile_ok pf en iface peer c conf :
  bf_ok c conf -> let r := reconcile repr pf en iface peer c conf in bf_ok r.1 r.2.
Proof.
  intros Hok. unfold reconcile, _write_conf.
  repeat case_match; simplify_eq; simpl; auto; (split; [by split|try done]).
  intros _. apply dict_get_set_eq.
Qed.

(** A turn leaves everything, or reconciles once in the direction configured,
    from a state that is not the wanted one. *)
Lemma armer_tick_cases pf cfg wlans health answer c conf :
  let r := (tick repr pf cfg wlans health answer c conf).1 in
  r = (c, conf) \/
  exists want ws peer, wants_bf cfg = Ok want /\ wlans = Ok ws /\
    String.eqb (bf_state c) "active" = negb want /\ r = reconcile repr pf want (primary_of ws) peer c conf.
Proof.
  unfold tick. destruct (wants_bf cfg) as [[]|]; [..|by left]; cbn [rbind negb];
    destruct (String.eqb _ _) eqn:Ha; [by left| | |by left]; destruct wlans as [ws|]; cbn [rbind]; try by left.
  - cbn zeta; destruct (negb (truthy _) || _); [by left|]. destruct (healthz health) as [[]|]; cbn; try by left.
    destruct (drone_mac answer) as [[m|]|]; cbn; try by left. destruct (truthy m); [|by left].
    right. exists true, ws, m. done.
  - destruct (truthy _); [|by left]. right. exists false, ws, (JStr ""). done.
Qed.

Lemma turn_ok t s : bf_ok s.1 s.2 -> let s' := run_turn repr s t in bf_ok s'.1 s'.2.
Proof.
  intros H. unfold run_turn.
  destruct (armer_tick_cases (t_pf t) (t_cfg t) (t_wlans t) (t_health t) (t_answer t) s.1 s.2)
    as [->|(want & ws & peer & _ & _ & _ & ->)]; [done|by apply reconcile_ok].
Qed.

Lemma turns_ok ts s : bf_ok s.1 s.2 -> let s' := turns repr ts s in bf_ok s'.1 s'.2.
Proof.
  revert s. induction ts as [|t ts IH]; intros s H; [done|]. cbn. apply IH. by apply (turn_ok t).
Qed.

Lemma bf_init_ok : bf_ok bf_init [].
Proof. by split. Qed.

(** No node but the tracked one is armed. *)
Definition only_tracked c conf : Prop :=
  forall node text, dict_get node conf = Some text -> text <> RESET ->
  bf_armed c = true /\ node = conf_node repr (bf_iface c).

(** If the turn switches an active beamformee off, its node takes the reset. *)
Definition reset_taken (s : BeamformingController F * list (string * string)) t : Prop :=
  bf_state s.1 = "active" -> wants_bf (t_cfg t) = Ok false ->
  os_exists (t_pf t) (conf_node repr (bf_iface s.1)) = true /\ os_write (t_pf t) (conf_node repr (bf_iface s.1)) = true.
Fixpoint resets_taken (s : BeamformingController F * list (string * string)) (ts : list (turn F)) : Prop :=
  match ts with [] => True | t :: ts => reset_taken s t /\ resets_taken (run_turn repr s t) ts end.

Lemma turn_only_tracked t s :
  reset_taken s t -> bf_ok s.1 s.2 -> only_tracked s.1 s.2 ->
  let s' := run_turn repr s t in only_tracked s'.1 s'.2.
Proof.
  intros Hr [Hiff _] Ho. unfold run_turn.
  destruct (armer_tick_cases (t_pf t) (t_cfg t) (t_wlans t) (t_health t) (t_answer t) s.1 s.2)
    as [->|(want & ws & peer & Hw & _ & Ha & ->)]; [done|].
  assert (Harm : bf_armed s.1 = negb want).
  { destruct (String.eqb_spec (bf_state s.1) "active") as [E|E]; rewrite <- Ha.
    - by apply Hiff.
    - destruct (bf_armed s.1); [|done]. destruct E. by apply Hiff. }
  unfold reconcile, _write_conf, supported. rewrite Harm. destruct want; cbn [negb andb].
  - assert (Hnone : forall node text, dict_get node s.2 = Some text -> text <> RESET -> False).
    { intros node text Hg Hne. destruct (Ho _ _ Hg Hne) as [Hx _]. by rewrite Harm in Hx. }
    destruct (os_exists _ _); [|intros node text Hg Hne; by destruct (Hnone _ _ Hg Hne)]. cbn.
    destruct (os_write _ _); intros node text Hg Hne; [|by destruct (Hnone _ _ Hg Hne)]. cbn in Hg |- *.
    destruct (decide (node = conf_node repr (primary_of ws))) as [->|E]; [by split|].
    rewrite dict_get_set_ne in Hg by congruence. by destruct (Hnone _ _ Hg Hne).
  - destruct Hr as [-> ->]; [by apply String.eqb_eq|done|]. cbn. intros node text Hget Hne. cbn in Hget.
    destruct (decide (node = conf_node repr (bf_iface s.1))) as [->|E].
    + rewrite dict_get_set_eq in Hget. simplify_eq.
    + rewrite dict_get_set_ne in Hget by congruence. by destruct (Ho _ _ Hget Hne).
Qed.

Lemma turns_tracked ts s : resets_taken s ts -> bf_ok s.1 s.2 -> only_tracked s.1 s.2 ->
  let s' := turns repr ts s in bf_ok s'.1 s'.2 /\ only_tracked s'.1 s'.2.
Proof.
  revert s. induction ts as [|t ts IH]; intros s Hr Hok Ho; [done|]. destruct Hr as [Hr Hrs]. cbn.
  apply IH; [done|by apply (turn_ok t)|by apply (turn_only_tracked t)].
Qed.

Definition nodes_present pf : Prop := (forall p, os_exists pf p = true) /\ (forall p, os_write pf p = true).

Lemma nodes_take ts s : Forall (fun t => nodes_present (t_pf t)) ts -> resets_taken s ts.
Proof. intros H. revert s. induction H as [|t ts [Hex Hwr] _ IH]; intros s; [done|]. split; [by split|apply IH]. Qed.

Lemma init_tracked : only_tracked bf_init [].
Proof. by intros ??. Qed.

(** While the driver's nodes are there and take writes, at most one card ever
    answers the drone's sounding, the tracked one, with the peer it reports. *)
Theorem one_beamformee ts node text :
  Forall (fun t => nodes_present (t_pf t)) ts ->
  let '(c, conf) := turns repr ts (bf_init, []) in
  dict_get node conf = Some text -> text <> RESET ->
  bf_state c = "active" /\ node = conf_node repr (bf_iface c) /\ text = arm_text repr (bf_peer c).
Proof.
  intros Hts. assert (H := turns_tracked ts (bf_init, []) (nodes_take _ _ Hts) bf_init_ok init_tracked).
  destruct (turns repr ts (bf_init, [])) as [c conf]. cbn in H. destruct H as [[Hiff Hn] Ho].
  intros Hget Hne. destruct (Ho _ _ Hget Hne) as [Harm ->].
  rewrite (Hn Harm) in Hget. simplify_eq. split; [by apply Hiff|done].
Qed.

(** What the driver's nodes hold: nothing but resets; or the peer's address in
    that of one interface and nothing but resets in the others. *)
Definition all_reset conf : Prop := forall node text, dict_get node conf = Some text -> text = RESET.
Definition armed_only iface peer conf : Prop :=
  dict_get (conf_node repr iface) conf = Some (arm_text repr peer) /\
  forall node text, dict_get node conf = Some text -> node = conf_node repr iface \/ text = RESET.

Lemma tracked_nodes c conf : bf_ok c conf -> only_tracked c conf ->
  if bf_armed c then armed_only (bf_iface c) (bf_peer c) conf else all_reset conf.
Proof.
  intros [_ Hn] Ho. destruct (bf_armed c) eqn:E; [split; [by apply Hn|]|]; intros node text Hg;
    (destruct (decide (text = RESET)) as [|Hne]; [by auto|]); destruct (Ho _ _ Hg Hne) as [Hx ->]; [by left|congruence].
Qed.

(** C35: From any state the reconcile loop reaches without an earlier reset
    having been refused by the driver, one turn with the driver's nodes there
    and writable, a primary card, and the drone up with its address known
    brings the nodes to what the configuration wants: off, every node holds
    only resets; on, the primary card's node holds the drone's address and
    every other only resets, or, if a beamformee was active already, the nodes
    stay as it was armed; the state reads active exactly when wanted, and the
    next turn leaves everything alone. *)
Theorem armer_converges ts t want ws body st beam mac :
  resets_taken (bf_init, []) ts ->
  nodes_present (t_pf t) -> wants_bf (t_cfg t) = Ok want ->
  t_wlans t = Ok ws -> truthy (primary_of ws) = true ->
  t_health t = Ok (200, body) -> t_answer t = Ok (200, Ok (JDict st)) ->
  dict_get "beamforming" st = Some (JDict beam) -> dict_get "localMac" beam = Some mac -> truthy mac = true ->
  let s := turns repr ts (bf_init, []) in
  let s' := run_turn repr s t in
  (bf_state s'.1 = "active" <-> want = true) /\ run_turn repr s' t = s' /\
  (if want then
     if String.eqb (bf_state s.1) "active" then s' = s /\ armed_only (bf_iface s.1) (bf_peer s.1) s.2
     else armed_only (primary_of ws) mac s'.2
   else all_reset s'.2).
Proof.
  intros Hr [Hex Hwr] Hw Hws Hp Hh Ha Hb Hl Hm. cbn zeta.
  destruct (turns_tracked ts (bf_init, []) Hr bf_init_ok init_tracked) as [Hok Ho]. revert Hok Ho.
  generalize (turns repr ts (bf_init, [])) as s. intros s Hok Ho. assert (Hiff := proj1 Hok).
  assert (Hok' := turn_ok t s Hok).
  assert (Ho' : only_tracked (run_turn repr s t).1 (run_turn repr s t).2) by (apply (turn_only_tracked t); [by intros _ _|done..]).
  assert (N := tracked_nodes _ _ Hok Ho). assert (N' := tracked_nodes _ _ Hok' Ho'). revert N'. clear Hok' Ho'.
  assert (Hmac : drone_mac (t_answer t) = Ok (Some mac)).
  { rewrite Ha. unfold drone_mac, _ok_json, obj_get. cbn. rewrite Hb. cbn. by rewrite Hl. }
  unfold run_turn, tick. rewrite Hw, Hws, Hmac, Hh. cbn [rbind negb healthz]. rewrite Z.eqb_refl. cbn [negb].
  unfold supported. rewrite Hex, Hp, Hm. cbn [orb negb].
  destruct want; cbn [negb]; destruct (String.eqb_spec (bf_state s.1) "active") as [E|E]; cbn [fst snd].
  - intros _. rewrite E. apply Hiff in E as E'. rewrite E' in N. cbn. destruct s. by split_and!.
  - unfold reconcile, supported, _write_conf. rewrite !Hex, !Hwr.
    destruct (bf_armed s.1); [destruct E; by apply Hiff|]. intros N'. by split_and!.
  - apply Hiff in E as E'. unfold reconcile, supported, _write_conf. rewrite !Hex, !Hwr, E'. intros N'. by split_and!.
  - intros N'. rewrite (proj2 (String.eqb_neq _ _) E). cbn. assert (Hf : bf_armed s.1 = false) by (destruct (bf_armed s.1); [destruct E; by apply Hiff|done]).
    rewrite Hf in N. destruct s. by split_and!.
Qed.

(** A reset the driver refuses once is never tried again while beamforming
    stays off: the node keeps the peer's address, whatever the later turns
    meet. *)
Lemma failed_reset_stays ts c conf :
  bf_state c = "error" -> Forall (fun t => wants_bf (t_cfg t) = Ok false) ts ->
  turns repr ts (c, conf) = (c, conf).
Proof.
  intros Hc Hts. induction Hts as [|t ts Ht _ IH]; [done|].
  unfold turns in *. cbn. unfold run_turn at 2, tick. cbn [fst snd]. rewrite Ht, Hc. cbn. done.
Qed.

Definition refused_reset (pf : platform) c conf : BeamformingController F * list (string * string) :=
  reconcile repr pf false (bf_iface c) (JStr "") c conf.

Lemma refused_reset_keeps_node pf c conf :
  bf_armed c = true -> os_exists pf (conf_node repr (bf_iface c)) = true -> os_write pf (conf_node repr (bf_iface c)) = false ->
  let s := refused_reset pf c conf in bf_state s.1 = "error" /\ s.2 = conf.
Proof. intros Ha He Hw. unfold refused_reset, reconcile, supported, _write_conf. by rewrite Ha, He, Hw. Qed.
End Reached.
