(* ===== verification/DroneClient.v ===== *)
(** * drone_client.py: an exchange with the drone's API

    [DroneClient] on what [urlopen] and the read of the body answer.  Bytes are
    strings of code points below 256; [decode] is [json.loads]'s decoding of
    bytes, which ASCII text survives. *)
From Stdlib Require Import ZArith Lia Bool Ascii String.
From stdpp Require Import base tactics list strings.
From S2P Require Import Prelude PyStr Json Cards Schema StatsClient JsonText Beamforming.
Open Scope Z_scope.

(** The read of a body: its bytes, an [OSError] (a timeout among them), or an
    [HTTPException] (a body cut short). *)
Inductive read_ans := Body (raw : string) | ReadFails (errno : Z) | ReadCut.

(** [urlopen]: a response; an [HTTPError], which is one too; a [URLError] or
    [OSError]; or an [HTTPException] (no HTTP). *)
Inductive open_ans := Answered (code : Z) (b : read_ans) | ErrorStatus (code : Z) (b : read_ans) | Unreached | NoHttp.

Record wire_request := mkWire { wr_method : string; wr_url : string; wr_data : option string; wr_json : bool }.

Section Client.
Context {F : Type} {PF : PyFloat F} (frepr : F -> string) (decode : string -> option string).

Definition client_endpoint (endpoint : string) : string := rstrip_if (fun c => code c =? 47) endpoint.

Definition request_for (endpoint method path : string) (body : option (json F)) : wire_request :=
  let data := dumps frepr <$> body in
  mkWire method (client_endpoint endpoint +:+ path) data (is_some data).

(** The read of a response is inside the [try], that of an error's body is in
    the handler. *)
Definition _request (a : open_ans) : res (Z * string) :=
  match a with
  | Answered code (Body raw) => Ok (code, raw)
  | Answered _ (ReadFails _) => Err DroneUnreachable
  | ErrorStatus code (Body raw) => Ok (code, raw)
  | ErrorStatus _ (ReadFails n) => Err (OSError n)
  | Unreached => Err DroneUnreachable
  | Answered _ ReadCut | ErrorStatus _ ReadCut | NoHttp => Err HTTPException
  end.

(** [json.loads(raw or b"{}")]. *)
Definition body_json (raw : string) : res (json F) :=
  match decode (if String.eqb raw "" then "{}" else raw) with
  | Some t => match loads t with Some v => Ok v | None => Err (ValueError "JSONDecodeError") end
  | None => Err (ValueError "UnicodeDecodeError")
  end.

(** The exchange as its callers see it. *)
Definition exchange (a : open_ans) : http F := let* cr := _request a in Ok (cr.1, body_json cr.2).

Definition get_status (a : open_ans) : res (json F) := _ok_json (exchange a).
Definition client_healthz (a : open_ans) : res bool := healthz (exchange a).

(** The calls that change something at the drone, on the server [drone] behind
    the endpoint. *)
Definition call_drone (drone : wire_request -> open_ans) (endpoint method path : string) (body : option (json F)) : res (json F) :=
  _ok_json (exchange (drone (request_for endpoint method path body))).
Definition get_config (drone : wire_request -> open_ans) (endpoint : string) : res (json F) := call_drone drone endpoint "GET" "/config" None.
Definition patch_config (drone : wire_request -> open_ans) (endpoint : string) (sparse : json F) : res (json F) :=
  call_drone drone endpoint "PATCH" "/config" (Some sparse).
Definition apply (drone : wire_request -> open_ans) (endpoint : string) : res (json F) := call_drone drone endpoint "POST" "/apply" None.

(** The message of a [DroneRejected]: the body's, or one of its own. *)
Definition rejected_message (code : Z) (body : json F) : json F :=
  let m := match body with JDict d => get_ "message" d | _ => JNull end in
  if truthy m then m else JStr ("drone rejected (" +:+ str_int code +:+ ")").

(* ------------------------------------------------------------------ *)
(** ** What a call tells *)

(** The outcomes of a call, by what happened on the wire: the parsed body of a
    status below 400; a rejection exactly for a 4xx that could be read;
    unreachable for no connection, a body that broke off in a timeout and a
    5xx; and otherwise an exception of neither class. *)
Inductive outcome : open_ans -> res (json F) -> Prop :=
| out_answer code raw v a : a = Answered code (Body raw) \/ a = ErrorStatus code (Body raw) -> code < 400 -> body_json raw = Ok v -> outcome a (Ok v)
| out_garbled code raw e a : a = Answered code (Body raw) \/ a = ErrorStatus code (Body raw) -> code < 400 -> body_json raw = Err e -> outcome a (Err e)
| out_rejected code raw a : a = Answered code (Body raw) \/ a = ErrorStatus code (Body raw) -> 400 <= code < 500 -> outcome a (Err (DroneRejected code))
| out_broken code raw a : a = Answered code (Body raw) \/ a = ErrorStatus code (Body raw) -> 500 <= code -> outcome a (Err DroneUnreachable)
| out_unreached : outcome Unreached (Err DroneUnreachable)
| out_timeout code n : outcome (Answered code (ReadFails n)) (Err DroneUnreachable)
| out_error_timeout code n : outcome (ErrorStatus code (ReadFails n)) (Err (OSError n))
| out_cut a : a = NoHttp \/ (exists code, a = Answered code ReadCut \/ a = ErrorStatus code ReadCut) -> outcome a (Err HTTPException).

Lemma status_outcome a : outcome a (get_status a).
Proof.
  assert (Hb : forall code raw a, a = Answered code (Body raw) \/ a = ErrorStatus code (Body raw) -> outcome a (_ok_json (Ok (code, body_json raw)))).
  { intros code raw b Hb. unfold _ok_json. cbn. destruct (Z.leb_spec 400 code), (Z.ltb_spec code 500); cbn [andb]; try lia.
    - by eapply out_rejected.
    - destruct (Z.geb_spec code 500); [|lia]. by eapply out_broken.
    - destruct (Z.geb_spec code 500); [lia|]. destruct (body_json raw) eqn:E; [by eapply out_answer|by eapply out_garbled]. }
  destruct a as [code []|code []| |]; cbn; first [apply Hb; by auto|apply out_cut; by eauto|constructor].
Qed.

(** A timeout while the body of an error answer is read is reported as an
    [OSError], not as an unreachable drone. *)
Lemma error_body_timeout code n : client_healthz (ErrorStatus code (ReadFails n)) = Err (OSError n).
Proof. done. Qed.
End Client.

(* ------------------------------------------------------------------ *)
(** ** What the drone reads *)

Section Sent.
Context {F : Type} {PF : PyFloat F} (frepr : F -> string) (fok : F -> bool) {FR : FloatRepr frepr fok}.

(** A body is sent as ASCII text marked as JSON, and its text is the body. *)
Lemma sent_body_read endpoint method path (v : json F) :
  plain fok v = true ->
  exists t, request_for frepr endpoint method path (Some v) = mkWire method (client_endpoint endpoint +:+ path) (Some t) true /\
            all_chars printable t = true /\ loads t = Some v.
Proof.
  intros Hp. exists (dumps frepr v). split; [done|]. split; [by apply (dumps_printable frepr fok)|].
  assert (H := loads_dumps frepr fok v "" Hp eq_refl). by rewrite sapp_nil_r in H.
Qed.

(** A patch reaches the drone as the object it is, and its answer comes back as
    the value the drone's text spells. *)
Lemma patch_roundtrip decode drone endpoint (v reply : json F) code :
  plain fok v = true -> plain fok reply = true -> 200 <= code < 400 -> (forall t, all_chars printable t = true -> decode t = Some t) ->
  (forall q t, wr_url q = client_endpoint endpoint +:+ "/config" -> wr_method q = "PATCH" -> wr_data q = Some t -> loads t = Some v ->
     drone q = Answered code (Body (dumps frepr reply))) ->
  patch_config frepr decode drone endpoint v = Ok reply.
Proof.
  intros Hv Hr Hc Hd Hs. destruct (sent_body_read endpoint "PATCH" "/config" v Hv) as (t & Eq & _ & Ht).
  unfold patch_config, call_drone. rewrite Eq. rewrite (Hs _ t) by done. unfold exchange, _ok_json, body_json. cbn [_request rbind fst snd].
  rewrite (proj2 (Z.leb_gt 400 code)) by lia. cbn [andb]. destruct (Z.geb_spec code 500); [lia|].
  assert (Hst := dumps_starts frepr fok reply "" Hr). rewrite sapp_nil_r in Hst.
  destruct (String.eqb_spec (dumps frepr reply) "") as [E|_]; [by rewrite E in Hst|]. rewrite Hd by (by apply (dumps_printable frepr fok)).
  assert (Hl := loads_dumps frepr fok reply "" Hr eq_refl). rewrite sapp_nil_r in Hl. by rewrite Hl.
Qed.
End Sent.
