(* ===== verification/MonitorCalls.v ===== *)
(** * connection_monitor.py: the thread, and its calls to the drone

    [start], [stop] and [_thread_main] of the monitor are those of
    [LoopThread], behind the switch of its configuration; [_call] and
    [_call_bool] make an answer of whatever [DroneClient] returns or raises.
    Theorem [monitor_asks] says what the answers mean on the wire. *)
From Stdlib Require Import ZArith Lia Bool String.
From stdpp Require Import base tactics list strings.
From S2P Require Import Prelude PyStr Json Cards Schema StatsClient JsonText LoopThread Beamforming DroneClient ConnMonitor MonitorLoop.
Open Scope Z_scope.

Section Calls.
Context {F : Type} {PF : PyFloat F} (decode : string -> option string).

(** ** The thread *)

Definition monitor_start (cfg : ConnectionMonitorConfig F) (s : owner) : option owner := if cm_enabled cfg then call_start s else Some s.
Definition monitor_stop (s : owner) : option owner := call_stop s.
Definition monitor_thread_main (t : nat) (how : stretch) (s : owner) : option owner := thread_step t how s.

(** ** The calls *)

Definition _call (r : res (json F)) : json F := match r with Ok v => v | Err _ => JNull end.
Definition _call_bool (r : res bool) : bool := match r with Ok b => b | Err _ => false end.

(** The events of the loop that an exchange ends in. *)
Definition status_event (a : open_ans) (after : F) : loop_ev (F := F) := StatusAnswer (_call (get_status decode a)) after.
Definition health_event (a : open_ans) (fresh now : F) : loop_ev (F := F) := HealthAnswer (_call_bool (client_healthz decode a)) fresh now.

(** What came back: a status with a body that could be read. *)
Definition replied (a : open_ans) (code : Z) (raw : string) : Prop := a = Answered code (Body raw) \/ a = ErrorStatus code (Body raw).

Lemma call_status a : _call (get_status decode a) <> JNull <->
  exists code raw v, replied a code raw /\ code < 400 /\ body_json decode raw = Ok v /\ v <> JNull.
Proof.
  assert (H := status_outcome decode a). split.
  - intros Hn. destruct H; cbn in Hn; try done. by exists code, raw, v.
  - intros (code & raw & v & Hr & Hc & Hb & Hn). assert (E : get_status decode a = Ok v); [|by rewrite E].
    unfold get_status, exchange, _ok_json. destruct Hr as [->| ->]; cbn [_request rbind fst snd]; rewrite (proj2 (Z.leb_gt 400 code)) by lia; cbn [andb].
    all: by destruct (Z.geb_spec code 500); [lia|].
Qed.

Lemma call_health a : _call_bool (client_healthz decode a) = true <-> exists raw, replied a 200 raw.
Proof.
  unfold client_healthz, exchange, replied. split.
  - destruct a as [code []|code []| |]; cbn; try done; intros ->%Z.eqb_eq; eauto.
  - by intros (raw & [->| ->]).
Qed.

(** A decision keeps the count, or clears it with the disconnect. *)
Lemma decided_fail cfg (m : ConnectionMonitor F) fresh now :
  (m_state (decide_connected cfg m fresh now).1 = Connected -> m_fail (decide_connected cfg m fresh now).1 = m_fail m) /\
  (m_fail m = 0 -> m_fail (decide_connected cfg m fresh now).1 = 0).
Proof.
  unfold decide_connected. destruct (negb (negb _ || _)); [done|]. destruct (m_bad_since m); [|done]. by destruct (_ >=f _).
Qed.

(** However an exchange with the drone goes, a monitor that awaits it gets an
    answer: an armed one connects exactly when the drone replied with a status
    below 400 and JSON that is not null, and a connected one's count of failed
    polls is cleared exactly by a reply with status 200 and goes up otherwise. *)
Theorem monitor_asks cfg (s : mon_loop (F := F)) a after fresh now :
  ml_over s = false ->
  (ml_pc s = AskingStatus -> m_state (ml_mon s) = Armed ->
     exists s', loop_step cfg s (status_event a after) = Some s' /\
       (m_state (ml_mon s') = Connected <-> exists code raw v, replied a code raw /\ code < 400 /\ body_json decode raw = Ok v /\ v <> JNull)) /\
  (ml_pc s = AskingHealth -> m_state (ml_mon s) = Connected ->
     exists s', loop_step cfg s (health_event a fresh now) = Some s' /\ ml_pc s' = Pausing /\
       ((exists raw, replied a 200 raw) -> m_fail (ml_mon s') = 0) /\
       (~ (exists raw, replied a 200 raw) -> m_state (ml_mon s') = Connected -> m_fail (ml_mon s') = m_fail (ml_mon s) + 1)).
Proof.
  intros Ho. split.
  - intros Hpc Hst. unfold loop_step, status_event. rewrite Ho, Hpc. eexists. split; [done|]. rewrite <- call_status.
    unfold status_answered, publish. destruct (_call (get_status decode a)) as [| | | | | |d]; cbn; try (split; [done|by intros _]).
    split; [|done]. unfold _tunnel_fresh. destruct (negb _); cbn; congruence.
  - intros Hpc Hst. unfold loop_step, health_event. rewrite Ho, Hpc. eexists. split; [done|]. split; [done|]. rewrite <- call_health.
    destruct (_call_bool (client_healthz decode a)); (split; [intros H|intros H Hc]); try done; try (by destruct H).
    + by apply (decided_fail _ (ml_mon s <| m_fail := 0 |>)).
    + by apply (decided_fail _ (ml_mon s <| m_fail ::= (fun n => n + 1) |>)) in Hc.
Qed.
End Calls.
