(* ===== verification/Armer.v ===== *)
(** * beamforming_armer.py: the thread of the reconcile loop

    [start], [stop] and [_loop] of [BeamformingArmer]; what a turn does is
    [Beamforming.tick].  The stop event is one object for every thread that was
    ever started, and [stop] waits for its thread at most the interval and a
    second, less than a turn that waits for the drone can take. *)
From Stdlib Require Import Lia Bool.
From stdpp Require Import base tactics list.
From S2P Require Import Prelude.

(** At the test of the stop event; in a turn; in the pause; returned. *)
Inductive arm_pc := AtTest | InTurn | InPause | Returned.
#[export] Instance arm_pc_eq_dec : EqDecision arm_pc.
Proof. solve_decision. Defined.

Record armer := mkArmer { ar_stop : bool; ar_thr : option nat; ar_joining : option nat; ar_threads : list arm_pc; ar_turns : list nat }.
#[export] Instance eta_Armer : Settable armer := fun a =>
  mkArmer (ar_stop a) (ar_thr a) (ar_joining a) (ar_threads a) (ar_turns a).
Definition armer_new : armer := mkArmer false None None [] [].

Definition armer_start (a : armer) : option armer :=
  match ar_joining a, ar_thr a with
  | None, None => Some (a <| ar_stop := false |> <| ar_thr := Some (length (ar_threads a)) |> <| ar_threads ::= fun l => l ++ [AtTest] |>)
  | None, Some _ => Some a
  | Some _, _ => None
  end.

Definition armer_stop (a : armer) : option armer :=
  match ar_joining a with
  | None => Some (a <| ar_stop := true |> <| ar_joining := ar_thr a |>)
  | Some _ => None
  end.

(** [join(timeout)] returns. *)
Definition armer_joined (timeout : bool) (a : armer) : option armer :=
  match ar_joining a with
  | Some t => if timeout || bool_decide (ar_threads a !! t = Some Returned)
              then Some (a <| ar_joining := None |> <| ar_thr := None |>) else None
  | None => None
  end.

(** One stretch of [_loop]; an exception of the turn is swallowed, and the
    pause ends when the event is set or the interval has passed. *)
Definition _loop (t : nat) (a : armer) : option armer :=
  match ar_threads a !! t with
  | Some AtTest => Some (if ar_stop a then a <| ar_threads ::= <[t := Returned]> |>
                         else a <| ar_threads ::= <[t := InTurn]> |> <| ar_turns ::= cons t |>)
  | Some InTurn => Some (a <| ar_threads ::= <[t := InPause]> |>)
  | Some InPause => Some (a <| ar_threads ::= <[t := AtTest]> |>)
  | _ => None
  end.

Inductive armer_ev := StartArmer | StopArmer | Joined (timeout : bool) | Loop (t : nat).
Definition armer_step (a : armer) (e : armer_ev) : option armer :=
  match e with StartArmer => armer_start a | StopArmer => armer_stop a | Joined timeout => armer_joined timeout a | Loop t => _loop t a end.
Fixpoint armer_run (a : armer) (es : list armer_ev) : option armer :=
  match es with [] => Some a | e :: es => a' ← armer_step a e; armer_run a' es end.

Definition in_time (e : armer_ev) : bool := match e with Joined timeout => negb timeout | _ => true end.

(** ** One reconcile loop *)

Definition loops (a : armer) (t : nat) : Prop := exists p, ar_threads a !! t = Some p /\ p <> Returned.

Definition armer_ok (a : armer) : Prop :=
  (forall t, loops a t -> ar_thr a = Some t) /\ (forall t, ar_joining a = Some t -> ar_thr a = Some t).

Lemma armer_step_ok a e a' : armer_ok a -> in_time e = true -> armer_step a e = Some a' -> armer_ok a'.
Proof.
  intros [H1 H2] Ht Hs. destruct e as [| |timeout|t]; cbn in Hs, Ht.
  - unfold armer_start in Hs. destruct (ar_joining a) eqn:Ej; [done|]. destruct (ar_thr a) as [t0|] eqn:Et; injection Hs as <-.
    { split; [by rewrite Et|by rewrite Ej]. }
    split; [|cbn; by rewrite Ej]. intros t (p & Hp & Hne). cbn in *. destruct (decide (t < length (ar_threads a))) as [Hl|Hl].
    + rewrite lookup_app_l in Hp by done. by specialize (H1 t (ex_intro _ p (conj Hp Hne))).
    + rewrite lookup_app_r in Hp by lia. destruct (t - length (ar_threads a)) eqn:E; [|done]. f_equal. lia.
  - unfold armer_stop in Hs. destruct (ar_joining a); [done|]. injection Hs as <-. by split.
  - unfold armer_joined in Hs. destruct (ar_joining a) as [t|] eqn:Ej; [|done]. destruct timeout; [done|]. cbn in Hs.
    case_bool_decide as Hr; [|done]. injection Hs as <-. split; [|done]. intros t' (p & Hp & Hne). cbn in *. exfalso.
    assert (Et := H1 t' (ex_intro _ p (conj Hp Hne))). rewrite (H2 t eq_refl) in Et. injection Et as ->. congruence.
  - unfold _loop in Hs. destruct (ar_threads a !! t) as [[]|] eqn:Et; try done; injection Hs as <-;
      [destruct (ar_stop a)| |]; cbn; (split; [|done]); intros t' (p & Hp & Hne); cbn in *;
      (destruct (decide (t = t')) as [->|Hd]; [apply H1; by eexists|rewrite list_lookup_insert_ne in Hp by done; apply H1; by eexists]).
Qed.

(** If no join times out, the thread held is the only one that loops, and after
    a stop has returned none does. *)
Theorem one_reconcile_loop es a :
  armer_run armer_new es = Some a -> Forall (fun e => in_time e = true) es ->
  (forall t, loops a t -> ar_thr a = Some t) /\ (ar_thr a = None -> forall t, ~ loops a t).
Proof.
  intros Hr Hf. assert (H : armer_ok a).
  { assert (H0 : armer_ok armer_new) by (split; [by intros t (p & ? & _)|done]). revert Hr H0. generalize armer_new.
    induction Hf as [|e es He _ IH]; intros a0 Hr H0; cbn in Hr; [by injection Hr as ->|].
    destruct (armer_step a0 e) as [a1|] eqn:Es; [|done]. cbn in Hr. apply (IH a1 Hr). by eapply armer_step_ok. }
  destruct H as [H1 _]. split; [done|]. intros Hn t Ht. apply H1 in Ht. congruence.
Qed.

(** A stop that gave up on a long turn, then a start: the event is cleared and
    both threads go on. *)
Lemma restart_revives_thread :
  match armer_run armer_new [StartArmer; Loop 0; StopArmer; Joined true; StartArmer; Loop 0; Loop 0; Loop 0; Loop 1] with
  | Some a => ar_threads a = [InTurn; InTurn] /\ ar_thr a = Some 1
  | None => False
  end.
Proof. vm_compute. done. Qed.
