(* ===== verification/Status.v ===== *)
(** * status.py, node_radio.py and the status functions of supervisor.py

    The text of [iw dev <iface> info] and what is read from it, the radio report
    of the cards of every node, and the page of GET /gs/status.  What a command
    prints or how it fails is the environment's answer. *)
From Stdlib Require Import ZArith Lia Bool Ascii String.
From stdpp Require Import base tactics list strings pretty.
From S2P Require Import Prelude PyStr Json StatsClient JsonText Cards Schema Beamforming.
Open Scope Z_scope.

(** ** Searching a text *)

(** [re.search]: the leftmost position where the pattern matches. *)
Fixpoint search {A} (m : string -> option A) (s : string) : option A :=
  match m s with
  | Some x => Some x
  | None => match s with EmptyString => None | String _ s => search m s end
  end.

(** A pattern that starts with [^], in multi-line mode. *)
Fixpoint search_bol {A} (m : string -> option A) (bol : bool) (s : string) : option A :=
  match (if bol then m s else None) with
  | Some x => Some x
  | None => match s with EmptyString => None | String c s => search_bol m (code c =? 10) s end
  end.

Fixpoint take_while (p : ascii -> bool) (s : string) : string * string :=
  match s with
  | String c r => if p c then let '(a, b) := take_while p r in (String c a, b) else (EmptyString, s)
  | EmptyString => (EmptyString, EmptyString)
  end.

(** One or more characters of a class. *)
Definition some_of (p : ascii -> bool) (s : string) : option (string * string) :=
  let '(a, b) := take_while p s in if String.eqb a EmptyString then None else Some (a, b).

Definition word_char (c : ascii) : bool :=
  is_digit c || ((65 <=? code c) && (code c <=? 90)) || ((97 <=? code c) && (code c <=? 122)) || (code c =? 95).
Definition dec_char (c : ascii) : bool := is_digit c || (code c =? 46).

(** The three patterns. *)
Definition match_type (s : string) : option string :=
  r ← after "type " (lstrip s); '(w, _) ← some_of word_char r; Some w.

Definition match_channel (s : string) : option (string * string * string) :=
  r ← after "channel " s; '(c, r) ← some_of is_digit r;
  r ← after " (" r; '(f, r) ← some_of is_digit r;
  r ← after " MHz), width: " r; '(w, r) ← some_of is_digit r;
  _ ← after " MHz" r; Some (c, f, w).

Definition match_txpower (s : string) : option string :=
  r ← after "txpower " s; '(t, r) ← some_of dec_char r; _ ← after " dBm" r; Some t.

Section Iw.
Context {F : Type} {PF : PyFloat F}.
#[local] Abbreviation dict := (list (string * json F)).

(** [float(t)] of digits and dots: one dot at most, and a digit; the quotient
    of the digits by a power of ten, which is the nearest double for up to
    fifteen of them. *)
Definition dec_float (t : string) : res F :=
  let '(i, dot, f) := partition_at "." t in
  let digits := i +:+ f in
  if all_chars is_digit digits && negb (String.eqb digits EmptyString)
  then Ok (fdiv (fofZ (default 0 (parse_int 10 digits))) (fofZ (10 ^ Z.of_nat (String.length f))))
  else Err (ValueError "could not convert string to float").

Definition int_of (t : string) : json F := JInt (default 0 (parse_int 10 t)).

Definition parse_iw_info (text : string) : res dict :=
  let ty := match search_bol match_type true text with Some t => [("type", JStr t)] | None => [] end in
  let ch := match search match_channel text with
            | Some (c, f, w) => [("channel", int_of c); ("freqMhz", int_of f); ("widthMhz", int_of w)]
            | None => []
            end in
  let* tx := match search match_txpower text with
             | Some t => let* x := dec_float t in Ok [("txpowerDbm", JFloat x)]
             | None => Ok []
             end in
  Ok (ty ++ ch ++ tx).

(** [subprocess.run]: its exit code and output; an [OSError] or
    [SubprocessError], which the callers catch; or another exception. *)
Inductive run_answer := Ran (returncode : Z) (stdout : string) | RunFails | RunRaises (e : pyerr).
Variable runner : list (json F) -> run_answer.

Definition iw_info (wlan : json F) : res dict :=
  match runner [JStr "iw"; JStr "dev"; wlan; JStr "info"] with
  | Ran _ out => parse_iw_info out
  | RunFails => Ok []
  | RunRaises e => Err e
  end.

(** ** node_radio.py *)

Variable repr : json F -> string.

Definition SSH_OPTS : list string :=
  ["-o"; "BatchMode=yes"; "-o"; "StrictHostKeyChecking=accept-new"; "-o"; "ConnectTimeout=4"].
Definition _local_iw_argv (iface : json F) : list (json F) := [JStr "iw"; JStr "dev"; iface; JStr "info"].
Definition _remote_iw_argv (card : Card F) : list (json F) :=
  map JStr ("ssh" :: SSH_OPTS ++ ["-p"; pretty (ssh_port card)]) ++
  (if truthy (ssh_key card) then [JStr "-i"; ssh_key card] else []) ++
  [JStr (py_str repr (ssh_user card) +:+ "@" +:+ py_str repr (host card)); JStr ("iw dev " +:+ py_str repr (iface card) +:+ " info")].

Definition card_argv (card : Card F) : list (json F) :=
  if is_local card then _local_iw_argv (iface card) else _remote_iw_argv card.

Definition card_radio (card : Card F) : res dict :=
  let entry := [("host", host card); ("iface", iface card); ("local", JBool (is_local card))] in
  match runner (card_argv card) with
  | RunRaises e => Err e
  | RunFails => Ok (entry ++ [("reachable", JBool false)])
  | Ran rc out =>
      if rc =? 0 then let* radio := parse_iw_info out in Ok (entry ++ [("reachable", JBool true); ("radio", JDict radio)])
      else Ok (entry ++ [("reachable", JBool false)])
  end.

(** The pool's [map] keeps the order; the first exception, in that order, is
    raised. *)
Definition query_cards (cards : list (Card F)) : res (list dict) := map_res card_radio cards.

(** [nics]: what the detector finds, when there is one. *)
Definition nodes_status (effective : dict) (nics : option (list string)) : res (json F) :=
  match get_or "link" (JDict []) effective with
  | JDict link =>
      let* parsed := parse_cards link in
      match parsed, nics with
      | Auto, None => Ok (JDict [("nodes", JList [])])
      | Auto, Some ns => let* cards := resolve_cards effective ns in
                         let* es := query_cards cards in Ok (JDict [("nodes", JList (map JDict es))])
      | Cards cs, _ => let* es := query_cards cs in Ok (JDict [("nodes", JList (map JDict es))])
      end
  | _ => Err AttributeError
  end.

(** ** The status page *)

(** [{**a, **b}]. *)
Definition dict_update (a b : dict) : dict := fold_left (fun d kv => dict_set kv.1 kv.2 d) b a.

Definition section_of (k : string) (v : option dict) : dict := match v with Some d => [(k, JDict d)] | None => [] end.

Definition build_status (version : string) (runner_state : dict) (wlans : list (string * dict)) (link_info : dict)
    (link_stats : option dict) (uptime_ms : option Z) (dynamic_link pixelpilot probe beamforming connection : option dict) : dict :=
  let radio := map (fun wi => JDict (dict_update [("wlan", JStr wi.1)] wi.2)) wlans in
  let link := [("linkId", get_ "linkId" link_info)] ++
              match link_stats with Some ((_ :: _) as st) => [("stats", JDict st)] | _ => [] end in
  let fpvd := [("version", JStr version)] ++ match uptime_ms with Some u => [("uptimeMs", JInt u)] | None => [] end in
  [("fpvd", JDict fpvd); ("runner", JDict runner_state); ("radio", JList radio); ("link", JDict link)] ++
  section_of "dynamicLink" dynamic_link ++ section_of "pixelpilot" pixelpilot ++ section_of "probe" probe ++
  section_of "beamforming" beamforming ++ section_of "connection" connection.

(** [_dynamic_link_status]: the controller's own view, [enabled] from the
    configuration. *)
Definition _dynamic_link_status (effective dl_status : dict) : res dict :=
  let* en := obj_get "enabled" JNull (get_or "dynamicLink" (JDict []) effective) in
  Ok (dict_set "enabled" (JBool (truthy en)) dl_status).

Definition _pixelpilot_status (effective pp_state : dict) : res dict :=
  let* en := obj_get "enabled" (JBool true) (get_or "pixelpilot" (JDict []) effective) in
  if truthy en then Ok (dict_update [("enabled", JBool true)] pp_state)
  else Ok [("enabled", JBool false); ("running", JBool false)].

Definition or_dict (v : json F) : json F := if truthy v then v else JDict [].
Definition _probe_status (effective : dict) (probe_feed : bool) : res dict :=
  let* p := obj_get "probe" JNull (or_dict (get_ "dynamicLink" effective)) in
  let* en := obj_get "enabled" (JBool false) (or_dict p) in
  Ok [("enabled", JBool (truthy en)); ("running", JBool probe_feed)].

(** [{w: iw_info(w) for w in wlans}]; a name that is no string raises. *)
Fixpoint wlan_infos (wlans : list (json F)) (acc : list (string * dict)) : res (list (string * dict)) :=
  match wlans with
  | [] => Ok acc
  | JStr w :: ws => let* i := iw_info (JStr w) in wlan_infos ws (dict_set w i acc)
  | _ :: _ => Err TypeError
  end.

(** [status_fn]: the states of the services are their own reports. *)
Record reports := mkReports {
  rp_runner : dict; rp_dynlink : dict; rp_pixelpilot : dict; rp_probe_feed : bool;
  rp_platform : platform; rp_beam : BeamformingController F; rp_connection : dict }.

Definition status_fn (version : string) (effective : dict) (nics : list string) (uptime_ms : Z) (rp : reports) : res dict :=
  let* cards := resolve_cards effective nics in
  let wlans := local_ifaces cards in
  let* infos := wlan_infos wlans [] in
  let* link_id := obj_get "linkId" JNull (get_or "link" (JDict []) effective) in
  let* dl := _dynamic_link_status effective (rp_dynlink rp) in
  let* pp := _pixelpilot_status effective (rp_pixelpilot rp) in
  let* pr := _probe_status effective (rp_probe_feed rp) in
  Ok (build_status version (rp_runner rp) infos [("linkId", link_id)] None (Some uptime_ms) (Some dl) (Some pp) (Some pr)
        (Some (status_with_primary repr (rp_platform rp) (rp_beam rp) (primary_of wlans))) (Some (rp_connection rp))).
End Iw.

(* ------------------------------------------------------------------ *)
(** ** Reading the report of [iw] *)

Section Reads.
Context {F : Type} {PF : PyFloat F}.
Implicit Types s r t : string.

Definition NL : ascii := ascii_of_N 10.

(** A literal with a space in it does not start inside a word. *)
Lemma after_word w l s r :
  all_chars word_char w = true -> all_chars word_char s = true -> after (w +:+ String " " l) (s +:+ String NL r) = None.
Proof.
  revert s. induction w as [|a w IH]; intros s Hw Hs.
  - destruct s as [|c s]; [done|]. sapp. cbn [after all_chars] in *. apply andb_true_iff in Hs as [Hc _].
    by destruct (ascii_dec " " c) as [<-|].
  - cbn [all_chars] in Hw. apply andb_true_iff in Hw as [Ha Hw]. destruct s as [|c s]; sapp; cbn [after all_chars] in *.
    + by destruct (ascii_dec a NL) as [->|].
    + apply andb_true_iff in Hs as [Hc Hs]. destruct (ascii_dec a c); [by apply IH|done].
Qed.

Lemma search_skip {A} (m : string -> option A) s r :
  (forall c t, all_chars word_char (String c t) = true -> m (String c t +:+ r) = None) -> all_chars word_char s = true ->
  search m (s +:+ r) = search m r.
Proof.
  intros Hm. induction s as [|c s IH]; intros Hs; [done|]. assert (Hc := Hm c s Hs). rewrite sapp_cons in *. cbn [search]. rewrite Hc.
  apply IH. cbn [all_chars] in Hs. by apply andb_true_iff in Hs as [_ Hs].
Qed.

Lemma search_channel_word s r : all_chars word_char s = true ->
  search match_channel (s +:+ String NL r) = search match_channel (String NL r).
Proof.
  apply search_skip. intros c t Ht. unfold match_channel. change "channel " with ("channel" +:+ String " " ""). by rewrite after_word.
Qed.

Lemma search_txpower_word s r : all_chars word_char s = true ->
  search match_txpower (s +:+ String NL r) = search match_txpower (String NL r).
Proof.
  apply search_skip. intros c t Ht. unfold match_txpower. change "txpower " with ("txpower" +:+ String " " ""). by rewrite after_word.
Qed.

Lemma search_txpower_digits s r : all_chars is_digit s = true -> search match_txpower (s +:+ r) = search match_txpower r.
Proof.
  intros Hs. induction s as [|c s IH]; [done|]. cbn [all_chars] in Hs. apply andb_true_iff in Hs as [Hc Hs]. rewrite sapp_cons. cbn [search].
  assert (E : match_txpower (String c (s +:+ r)) = None); [|rewrite E; by apply IH].
  unfold match_txpower. cbn [after]. by destruct (ascii_dec "t" c) as [<-|].
Qed.

Lemma search_bol_word {A} (m : string -> option A) s r : all_chars word_char s = true ->
  search_bol m false (s +:+ String NL r) = search_bol m true r.
Proof.
  induction s as [|c s IH]; intros Hs; [done|]. cbn [all_chars] in Hs. apply andb_true_iff in Hs as [Hc Hs]. rewrite sapp_cons. cbn [search_bol].
  destruct (Z.eqb_spec (code c) 10) as [E|]; [apply (code_inj c 10%N) in E as ->; done|by apply IH].
Qed.

Lemma take_while_app p s c r : all_chars p s = true -> p c = false -> take_while p (s +:+ String c r) = (s, String c r).
Proof.
  intros Hs Hc. induction s as [|a s IH]; [rewrite sapp_nil_l; cbn; by rewrite Hc|]. cbn [all_chars] in Hs. apply andb_true_iff in Hs as [Ha Hs].
  rewrite sapp_cons. cbn. by rewrite Ha, IH.
Qed.

Lemma some_of_app p s c r : all_chars p s = true -> s <> EmptyString -> p c = false -> some_of p (s +:+ String c r) = Some (s, String c r).
Proof. intros Hs Hne Hc. unfold some_of. rewrite take_while_app by done. by destruct (String.eqb_spec s ""). Qed.

(** The report, as the driver's tool prints it. *)
Definition tab_nl : string := String NL (String (ascii_of_N 9) EmptyString).
Definition iw_text (name ifindex ty : string) (channel freq width center : Z) (txpower : string) : string :=
  "Interface " +:+ name +:+ tab_nl +:+ "ifindex " +:+ ifindex +:+ tab_nl +:+ "type " +:+ ty +:+ tab_nl +:+
  "channel " +:+ str_nat channel +:+ " (" +:+ str_nat freq +:+ " MHz), width: " +:+ str_nat width +:+ " MHz, center1: " +:+
  str_nat center +:+ " MHz" +:+ tab_nl +:+ "txpower " +:+ txpower +:+ " dBm" +:+ String NL EmptyString.

Lemma str_nat_nonempty n : 0 <= n -> str_nat n <> EmptyString.
Proof. intros Hn E. destruct (str_nat_head n Hn) as (d & t & _ & E'). by rewrite E in E'. Qed.

(** Steps over the constant parts. *)
Lemma search_step {A} (m : string -> option A) c s : m (String c s) = None -> search m (String c s) = search m s.
Proof. intros H. cbn [search]. by rewrite H. Qed.
Lemma search_here {A} (m : string -> option A) s x : m s = Some x -> search m s = Some x.
Proof. intros H. destruct s; cbn [search]; by rewrite H. Qed.
Lemma bol_step {A} (m : string -> option A) (b b' : bool) c s :
  (if b then m (String c s) else None) = None -> (code c =? 10) = b' -> search_bol m b (String c s) = search_bol m b' s.
Proof. intros H <-. cbn [search_bol]. by rewrite H. Qed.
Ltac search_steps := repeat (rewrite search_step by reflexivity).
Ltac bol_steps := repeat (erewrite bol_step; [|reflexivity|reflexivity]).

Lemma iw_type name ifindex ty r :
  all_chars word_char name = true -> all_chars word_char ifindex = true -> all_chars word_char ty = true -> ty <> EmptyString ->
  search_bol match_type true ("Interface " +:+ name +:+ tab_nl +:+ "ifindex " +:+ ifindex +:+ tab_nl +:+ "type " +:+ ty +:+ tab_nl +:+ r) = Some ty.
Proof.
  intros Hn Hi Ht Ht0. unfold tab_nl. sapp. bol_steps. rewrite search_bol_word by done. bol_steps. rewrite search_bol_word by done.
  assert (Hm : match_type (String (ascii_of_N 9) ("type " +:+ ty +:+ String NL (String (ascii_of_N 9) r))) = Some ty).
  { unfold match_type. change (lstrip (String (ascii_of_N 9) ?x)) with (lstrip x). sapp.
    change (lstrip (String "t" ?x)) with (String "t" x). cbn [after ascii_dec].
    repeat match goal with |- context [ascii_dec ?x ?x] => destruct (ascii_dec x x); [|done] end.
    cbn [mbind option_bind]. by rewrite some_of_app. }
  revert Hm. sapp. intros Hm. cbn [search_bol]. by rewrite Hm.
Qed.

Lemma iw_channel name ifindex ty channel freq width r :
  all_chars word_char name = true -> all_chars word_char ifindex = true -> all_chars word_char ty = true ->
  0 <= channel -> 0 <= freq -> 0 <= width ->
  search match_channel ("Interface " +:+ name +:+ tab_nl +:+ "ifindex " +:+ ifindex +:+ tab_nl +:+ "type " +:+ ty +:+ tab_nl +:+
    "channel " +:+ str_nat channel +:+ " (" +:+ str_nat freq +:+ " MHz), width: " +:+ str_nat width +:+ " MHz" +:+ r)
    = Some (str_nat channel, str_nat freq, str_nat width).
Proof.
  intros Hn Hi Ht Hc Hf Hw. unfold tab_nl. sapp. search_steps. rewrite search_channel_word by done. search_steps.
  rewrite search_channel_word by done. search_steps. rewrite search_channel_word by done. search_steps. apply search_here.
  assert (Hd := str_nat_digits). assert (Hne := str_nat_nonempty).
  unfold match_channel. cbn [after].
  repeat match goal with |- context [ascii_dec ?x ?x] => destruct (ascii_dec x x); [|done] end. cbn [mbind option_bind].
  rewrite some_of_app by auto. cbn [mbind option_bind after].
  repeat match goal with |- context [ascii_dec ?x ?x] => destruct (ascii_dec x x); [|done] end. cbn [mbind option_bind].
  rewrite some_of_app by auto. cbn [mbind option_bind after].
  repeat match goal with |- context [ascii_dec ?x ?x] => destruct (ascii_dec x x); [|done] end. cbn [mbind option_bind].
  rewrite some_of_app by auto. done.
Qed.

Lemma iw_txpower name ifindex ty channel freq width center txpower :
  all_chars word_char name = true -> all_chars word_char ifindex = true -> all_chars word_char ty = true ->
  0 <= channel -> 0 <= freq -> 0 <= width -> 0 <= center -> all_chars dec_char txpower = true -> txpower <> EmptyString ->
  search match_txpower (iw_text name ifindex ty channel freq width center txpower) = Some txpower.
Proof.
  intros Hn Hi Ht Hc Hf Hw Hce Hp Hp0. assert (Hd := str_nat_digits). unfold iw_text, tab_nl. sapp.
  search_steps. rewrite search_txpower_word by done. search_steps. rewrite search_txpower_word by done. search_steps.
  rewrite search_txpower_word by done. search_steps. rewrite search_txpower_digits by auto. search_steps.
  rewrite search_txpower_digits by auto. search_steps. rewrite search_txpower_digits by auto. search_steps.
  rewrite search_txpower_digits by auto. search_steps. apply search_here. unfold match_txpower. cbn [after].
  repeat match goal with |- context [ascii_dec ?x ?x] => destruct (ascii_dec x x); [|done] end. cbn [mbind option_bind].
  rewrite some_of_app by done. done.
Qed.

(** Every field of the report is read, with the value printed. *)
Theorem iw_report_read name ifindex ty channel freq width center txpower :
  all_chars word_char name = true -> all_chars is_digit ifindex = true -> all_chars word_char ty = true -> ty <> EmptyString ->
  0 <= channel -> 0 <= freq -> 0 <= width -> 0 <= center -> all_chars dec_char txpower = true -> txpower <> EmptyString ->
  parse_iw_info (iw_text name ifindex ty channel freq width center txpower) =
    (let* x := dec_float txpower in
     Ok [("type", JStr ty); ("channel", JInt channel); ("freqMhz", JInt freq); ("widthMhz", JInt width); ("txpowerDbm", JFloat (x : F))]).
Proof.
  intros Hn Hi Ht Ht0 Hc Hf Hw Hce Hp Hp0.
  assert (Hiw : all_chars word_char ifindex = true) by (revert Hi; apply all_chars_mono; intros c E; unfold word_char; by rewrite E).
  unfold parse_iw_info. rewrite iw_txpower by done. unfold iw_text.
  rewrite iw_type by done. change " MHz, center1: " with (" MHz" +:+ ", center1: "). rewrite sapp_assoc, iw_channel by done.
  unfold int_of. rewrite !parse_str_nat by done. by destruct (dec_float txpower).
Qed.

(** ** The radio report *)

(** One entry per card, in order; a card whose command failed is unreachable
    and has no radio, and only a remote one is asked over ssh. *)
Definition entry_ok (runner : list (json F) -> run_answer) (repr : json F -> string) (card : Card F) (e : list (string * json F)) : Prop :=
  dict_get "host" e = Some (host card) /\ dict_get "iface" e = Some (iface card) /\
  match runner (if is_local card then _local_iw_argv (iface card) else _remote_iw_argv repr card) with
  | Ran 0 out => exists radio, parse_iw_info out = Ok radio /\ dict_get "reachable" e = Some (JBool true) /\ dict_get "radio" e = Some (JDict radio)
  | _ => dict_get "reachable" e = Some (JBool false) /\ dict_get "radio" e = None
  end.

Lemma card_radio_ok runner repr card e : card_radio runner repr card = Ok e -> entry_ok runner repr card e.
Proof.
  unfold card_radio, entry_ok, card_argv. destruct (runner _) as [rc out| |]; [|by intros [= <-]|done].
  destruct (Z.eqb_spec rc 0) as [->|Hrc].
  - destruct (parse_iw_info out) as [radio|]; [|done]. intros [= <-]. split; [done|]. split; [done|]. by exists radio.
  - intros [= <-]. split; [done|]. split; [done|]. by destruct rc.
Qed.

(** The command was run or failed in one of the ways that are caught, and a
    report that came is one that can be read. *)
Definition answered (runner : list (json F) -> run_answer) (repr : json F -> string) (card : Card F) : Prop :=
  match runner (card_argv repr card) with
  | Ran 0 out => exists radio, parse_iw_info out = Ok (radio : list (string * json F))
  | RunRaises _ => False
  | _ => True
  end.

Lemma card_radio_answered runner repr card :
  answered runner repr card -> exists e, card_radio runner repr card = Ok e /\ entry_ok runner repr card e.
Proof.
  intros H. assert (He : exists e, card_radio runner repr card = Ok e).
  { unfold answered in H. unfold card_radio. destruct (runner _) as [rc out| |]; [|by eexists|done].
    destruct (Z.eqb_spec rc 0) as [->|]; [|by eexists]. destruct H as [radio ->]. by eexists. }
  destruct He as [e He]. exists e. split; [done|]. by apply card_radio_ok.
Qed.

Lemma query_answered runner repr cards :
  Forall (answered runner repr) cards -> exists es, query_cards runner repr cards = Ok es /\ Forall2 (entry_ok runner repr) cards es.
Proof.
  induction 1 as [|c cards Hc _ (es & Hes & IH)]; [exists []; by split|].
  destruct (card_radio_answered _ _ _ Hc) as (e & He & Hok). exists (e :: es). split; [|by constructor].
  unfold query_cards in *. cbn. by rewrite He, Hes.
Qed.

Theorem nodes_reported runner repr effective nics cards :
  resolve_cards effective nics = Ok cards -> Forall (answered runner repr) cards ->
  exists es, nodes_status runner repr effective (Some nics) = Ok (JDict [("nodes", JList (map JDict es))]) /\
    Forall2 (entry_ok runner repr) cards es.
Proof.
  intros Hc Ha. destruct (query_answered _ _ _ Ha) as (es & Hq & Hok). exists es. split; [|done].
  unfold nodes_status, resolve_cards in *. destruct (get_or _ _ _); try done. destruct (parse_cards _) as [[|cs]|]; [| |done].
  - cbn in *. injection Hc as <-. by rewrite Hq.
  - cbn in *. injection Hc as <-. by rewrite Hq.
Qed.

(** ** The status page *)

Lemma dict_update_get (a b : list (string * json F)) k :
  NoDup (dict_keys b) -> dict_get k (dict_update a b) = match dict_get k b with Some v => Some v | None => dict_get k a end.
Proof.
  unfold dict_update. revert a. induction b as [|[k' v] b IH]; intros a Hn; cbn; [done|].
  cbn in Hn. apply NoDup_cons in Hn as [Hk Hn]. rewrite IH by done. destruct (String.eqb_spec k k') as [->|Hne].
  - assert (E : dict_get k' b = None) by (by apply dict_get_none). by rewrite E, dict_get_set_eq.
  - destruct (dict_get k b); [done|]. by rewrite dict_get_set_ne.
Qed.

Lemma wlan_infos_acc (runner : list (json F) -> run_answer) wlans acc infos :
  wlan_infos runner wlans acc = Ok infos ->
  forall w i, dict_get w infos = Some i -> dict_get w acc = Some i \/ (JStr w ∈ wlans /\ iw_info runner (JStr w) = Ok i).
Proof.
  revert acc. induction wlans as [|x wlans IH]; intros acc Hw w i Hi; cbn in Hw; [injection Hw as <-; by left|].
  destruct x as [| | | |s| |]; try done. destruct (iw_info runner (JStr s)) as [d|] eqn:Ed; [|done]. cbn in Hw.
  destruct (IH _ Hw w i Hi) as [H|[H1 H2]]; [|right; split; [by right|done]].
  destruct (String.eqb_spec w s) as [->|Hne]; [rewrite dict_get_set_eq in H; injection H as <-; right; split; [by left|done]|].
  rewrite dict_get_set_ne in H by congruence. by left.
Qed.

(** The page has every section whatever the services report; each radio entry
    is of a local card, named, with what [iw] said of it. *)
Lemma status_page runner repr version effective nics uptime rp page :
  status_fn runner repr version effective nics uptime rp = Ok page ->
  dict_keys page = ["fpvd"; "runner"; "radio"; "link"; "dynamicLink"; "pixelpilot"; "probe"; "beamforming"; "connection"] /\
  dict_get "runner" page = Some (JDict (rp_runner rp)) /\ dict_get "connection" page = Some (JDict (rp_connection rp)) /\
  exists cards infos, resolve_cards effective nics = Ok cards /\
    dict_get "radio" page = Some (JList (map (fun wi => JDict (dict_update [("wlan", JStr wi.1)] wi.2)) infos)) /\
    forall w i, dict_get w infos = Some i -> JStr w ∈ local_ifaces cards /\ iw_info runner (JStr w) = Ok i.
Proof.
  unfold status_fn. destruct (resolve_cards effective nics) as [cards|]; [|done]. cbn.
  destruct (wlan_infos runner (local_ifaces cards) []) as [infos|] eqn:Ei; [|done]. cbn.
  destruct (obj_get _ _ _) as [lid|]; [|done]. cbn. destruct (_dynamic_link_status _ _) as [dl|]; [|done]. cbn.
  destruct (_pixelpilot_status _ _) as [pp|]; [|done]. cbn. destruct (_probe_status _ _) as [pr|]; [|done]. cbn.
  intros [= <-]. split; [done|]. split; [done|]. split; [done|]. exists cards, infos. split; [done|]. split; [done|].
  intros w i Hw. by destruct (wlan_infos_acc _ _ _ _ Ei w i Hw).
Qed.
End Reads.
