(* ===== verification/Api.v ===== *)
(** * api.py: the HTTP API and the apply transaction

    The daemon as the API sees it is one state: the configuration store, the
    engine, the controller, the display process and the keyframe relay.  A
    handler is a function of that state in a small monad: exceptions leave what
    was already done in place, as they do in the code, and [handle] turns them
    into responses.  Whether an engine start, a live retune or a write of the
    config file succeeds is the environment's, asked by the number of the
    call. *)
From Stdlib Require Import ZArith Lia Bool String QArith.
From stdpp Require Import base tactics list sets strings pretty.
From S2P Require Import Prelude PyStr FloatModels Json Cards Schema StatsClient LearnedPrior Decision Signals Policy FlightLog ConnMonitor Config ConfigBuild Radio Graph Pixelpilot Beamforming.
Open Scope Z_scope.

(** ** The daemon *)

(** The engine: the configuration it was built from, or down. *)
Inductive engine (F : Type) := EngineDown | EngineUp (cfg : list (string * json F)).
Arguments EngineDown {F}.
Arguments EngineUp {F} cfg.

Record daemon (F : Type) := mkDaemon {
  store : ConfigStore (F := F);
  file : option (json F);                     (* the config file *)
  runner : engine F;
  tuned : option (list (string * json F));    (* the link block of the last live retune *)
  dl_running : bool; dl_snapshot : list (string * json F);
  pp_running : bool; pp_argv : list (json F); pp_env : list (string * string);
  idr_running : bool;
  beam : BeamformingController F; bf_conf : list (string * string);
  calls : nat }.                              (* calls into the environment so far *)
Arguments mkDaemon {F}.
Arguments store {F} _.
Arguments file {F} _.
Arguments runner {F} _.
Arguments tuned {F} _.
Arguments dl_running {F} _.
Arguments dl_snapshot {F} _.
Arguments pp_running {F} _.
Arguments pp_argv {F} _.
Arguments pp_env {F} _.
Arguments idr_running {F} _.
Arguments beam {F} _.
Arguments bf_conf {F} _.
Arguments calls {F} _.
#[export] Instance eta_daemon F : Settable (daemon F) := fun w =>
  mkDaemon (store w) (file w) (runner w) (tuned w) (dl_running w) (dl_snapshot w) (pp_running w) (pp_argv w)
    (pp_env w) (idr_running w) (beam w) (bf_conf w) (calls w).

(** The environment's answers, by call number. *)
Record environment (F : Type) := mkEnv {
  e_start : nat -> bool;                                    (* an engine start succeeds *)
  e_nics : nat -> list string;                              (* detected interfaces *)
  e_iw : nat -> list (json F) -> run_ans;                   (* an iw command *)
  e_write : nat -> option pyerr;                            (* writing the config file *)
  e_bf : nat -> option (list (string * json F) -> res bool);  (* the beamforming probe *)
  e_platform : nat -> platform;
  e_drone : nat -> string -> string -> option (json F) -> http F;           (* an exchange with the drone *)
  e_popen : list (json F) -> list (string * string) -> option pyerr;        (* what is no [OSError] that a spawn raises *)
  e_repr : json F -> string;
  e_str : pyerr -> string }.
Arguments mkEnv {F}.
Arguments e_start {F} _.
Arguments e_nics {F} _.
Arguments e_iw {F} _.
Arguments e_write {F} _.
Arguments e_bf {F} _.
Arguments e_platform {F} _.
Arguments e_drone {F} _.
Arguments e_popen {F} _.
Arguments e_repr {F} _.
Arguments e_str {F} _.

(** ** The monad: state that survives exceptions *)

Definition M (F A : Type) : Type := daemon F -> daemon F * res A.

Section Monad.
Context {F : Type}.
Definition ret {A} (a : A) : M F A := fun w => (w, Ok a).
Definition bind {A B} (m : M F A) (k : A -> M F B) : M F B :=
  fun w => let '(w1, r) := m w in match r with Ok a => k a w1 | Err e => (w1, Err e) end.
Definition lift {A} (r : res A) : M F A := fun w => (w, r).
Definition get : M F (daemon F) := fun w => (w, Ok w).
Definition modify (f : daemon F -> daemon F) : M F unit := fun w => (f w, Ok tt).
End Monad.

Declare Scope api_scope.
Delimit Scope api_scope with api.
Notation "'let!' x ':=' m 'in' k" := (bind m (fun x => k))
  (at level 10, x pattern, m at level 100, k at level 200,
   format "'[v' 'let!'  x  ':='  m  'in' '/' k ']'") : api_scope.
Notation "'do!' m ';' k" := (bind m (fun _ => k))
  (at level 10, m at level 100, k at level 200, format "'[v' 'do!'  m ';' '/' k ']'") : api_scope.
Open Scope api_scope.

Section Api.
Context {F : Type} {PF : PyFloat F}.
Variable env : environment F.
#[local] Abbreviation dict := (list (string * json F)).
Implicit Types (w : daemon F).

(** ** The services, as the API drives them *)

(** [runner.restart(config)]. *)
Definition runner_restart (config : dict) : M F bool := fun w =>
  let ok := e_start env (calls w) in
  (w <| runner := if ok then EngineUp config else EngineDown |> <| tuned := None |> <| calls ::= S |>, Ok ok).

(** [runner.restart()]: the engine reads the store. *)
Definition runner_restart_store : M F bool := fun w => runner_restart (effective (store w)) w.

(** supervisor.py's [_retune]: not with a remote card. *)
Definition _retune (lnk : dict) : M F bool := fun w =>
  let n := calls w in
  let r := let* cards := resolve_cards (effective (store w)) (e_nics env n) in
           if has_remote cards then Ok false
           else Radio.retune (e_repr env) (e_iw env n) (local_ifaces cards) lnk in
  (w <| tuned := match r with Ok true => Some lnk | _ => tuned w end |> <| calls ::= S |>, r).

(** [dynlink.set_config]: a running controller is rebuilt. *)
Definition dl_set_config (snap : dict) : M F unit := modify (fun w => w <| dl_snapshot := snap |>).
Definition dl_start : M F unit := modify (fun w => w <| dl_running := true |>).
Definition dl_stop : M F unit := modify (fun w => w <| dl_running := false |>).

(** The display process: an [OSError] of the spawn is absorbed and the child
    still supervised; anything else (a word that is no string) leaves [start],
    after the old child was stopped. *)
Definition pp_stop : M F unit := modify (fun w => w <| pp_running := false |>).
Definition pp_start : M F unit := fun w =>
  match e_popen env (pp_argv w) (pp_env w) with
  | None => (w <| pp_running := true |>, Ok tt)
  | Some e => (w, Err e)
  end.
Definition pp_restart : M F unit := do! pp_stop; pp_start.

Definition idr_start : M F unit := modify (fun w => w <| idr_running := true |>).
Definition idr_stop : M F unit := modify (fun w => w <| idr_running := false |>).
Definition resolve_wlans (config : dict) (nics : list string) : res (list (json F)) :=
  let* cards := resolve_cards config nics in Ok (local_ifaces cards).

(** The armer's turn, on the store's effective configuration. *)
Definition armer_tick : M F unit := fun w =>
  let n := calls w in
  let '((c, conf), r) := tick (e_repr env) (e_platform env n) (effective (store w))
                           (resolve_wlans (effective (store w)) (e_nics env n))
                           (e_drone env n "GET" "/healthz" None) (e_drone env (S n) "GET" "/status" None)
                           (beam w) (bf_conf w) in
  (w <| beam := c |> <| bf_conf := conf |> <| calls ::= (fun k => S (S k)) |>, r).

(** [store.commit()] and [store.reset()]: the store changes before the file. *)
Definition store_commit : M F unit := fun w =>
  let '(s, (f, r)) := commit (store w) (file w) (e_write env (calls w)) in
  (w <| store := s |> <| file := f |> <| calls ::= S |>, r).
Definition store_reset : M F unit := fun w =>
  let '(s, (f, r)) := reset (store w) (file w) (e_write env (calls w)) in
  (w <| store := s |> <| file := f |> <| calls ::= S |>, r).

(** ** Render views and comparisons *)

Definition same (a b : json F) : bool := json_eqb a b.

Definition _without (cfg : dict) (keys : list string) : dict :=
  List.filter (fun kv => negb (bool_decide (kv.1 ∈ keys))) cfg.

Definition _tap_render_view (cfg : dict) : res (bool * Z) :=
  let* tap := obj_get "tap" JNull (or_empty (get_ "dynamicLink" cfg)) in
  let tap := or_empty tap in
  let* en := obj_get "enabled" (JBool true) tap in
  let* port := obj_get "port" (JInt 8110) tap in
  let* port := py_int port in Ok (truthy en, port).

Definition _probe_render_view (cfg : dict) : res bool :=
  let dl := or_empty (get_ "dynamicLink" cfg) in
  let* p := obj_get "probe" JNull dl in
  let* en := obj_get "enabled" (JBool false) dl in
  if truthy en then let* pe := obj_get "enabled" (JBool false) (or_empty p) in Ok (truthy pe) else Ok false.

Definition NOT_WFB : list string := ["dynamicLink"; "pixelpilot"; "idrForward"; "link"].

Definition wfb_changed (pending effective : dict) : res bool :=
  if negb (same (JDict (_without pending NOT_WFB)) (JDict (_without effective NOT_WFB))) then Ok true
  else let* t1 := _tap_render_view pending in
       let* t2 := _tap_render_view effective in
       if negb (bool_decide (t1 = t2)) then Ok true
       else let* p1 := _probe_render_view pending in
            let* p2 := _probe_render_view effective in
            Ok (negb (Bool.eqb p1 p2)).

(** The keys of [set(old) | set(new)] whose values differ, [beamforming] apart. *)
Definition changed_keys (old new : dict) : list string :=
  List.filter (fun k => negb (String.eqb k "beamforming") && negb (same (get_ k old) (get_ k new)))
    (dict_keys old ++ List.filter (fun k => negb (has_key k old)) (dict_keys new)).

Definition _bw_class (width : json F) : Z := if same width (JInt 40) then 40 else 20.

Definition _can_retune_live (old new : dict) : bool :=
  forallb (fun k => bool_decide (k ∈ ["channel"; "width"; "txPowerDbm"; "region"])) (changed_keys old new) &&
  (_bw_class (get_ "width" old) =? _bw_class (get_ "width" new)).

Definition _apply_link_local (old_link new_link new_config : dict) (force_bounce : bool) : M F bool :=
  let non_bf_changed := negb (bool_decide (changed_keys old_link new_link = [])) in
  if negb force_bounce && non_bf_changed && _can_retune_live old_link new_link then
    let! ok := _retune new_link in
    if ok then ret true else runner_restart new_config
  else runner_restart new_config.

(** ** Routing a change to its service *)

(** [bool(block.get("enabled", default))]. *)
Definition enabled_of (block : json F) (dflt : json F) : res bool :=
  let* v := obj_get "enabled" dflt block in Ok (truthy v).

Definition _route_dynamic_link (dl_old dl_new : json F) (pending : dict) (width_changed : bool) : M F unit :=
  let! was := lift (enabled_of dl_old JNull) in
  let! now := lift (enabled_of dl_new JNull) in
  if negb was && now then
    let! snap := lift (make_dl_snapshot pending) in
    do! dl_set_config snap;
    dl_start
  else if was && negb now then dl_stop
  else if was && now && (negb (same dl_old dl_new) || width_changed) then
    let! snap := lift (make_dl_snapshot pending) in dl_set_config snap
  else ret tt.

Definition _route_pixelpilot (pp_old pp_new : json F) (pending : dict) : M F unit :=
  if same pp_old pp_new then ret tt
  else
    let! was := lift (enabled_of pp_old (JBool true)) in
    let! now := lift (enabled_of pp_new (JBool true)) in
    if now then
      let! argv := lift (render_pixelpilot_argv (e_repr env) pending) in
      do! modify (fun w => w <| pp_argv := argv |>);
      let! penv := lift (render_pixelpilot_env (e_repr env) pending) in
      do! modify (fun w => w <| pp_env := penv |>);
      if was then pp_restart else pp_start
    else if was then pp_stop
    else ret tt.

Definition _route_idr_forward (old new : json F) : M F unit :=
  if same old new then ret tt
  else
    let! was := lift (enabled_of old (JBool true)) in
    let! now := lift (enabled_of new (JBool true)) in
    if now && negb was then idr_start
    else if was && negb now then idr_stop
    else if now && was then
      let! p1 := lift (obj_get "port" JNull old) in
      let! p2 := lift (obj_get "port" JNull new) in
      if negb (same p1 p2) then do! idr_stop; idr_start else ret tt
    else ret tt.

(** ** The apply transaction *)

Definition as_dict (v : json F) : res dict := match v with JDict d => Ok d | _ => Err AttributeError end.

Definition APPLIED : json F := JDict [("applied", JBool true)].
Definition ROLLED_BACK : json F :=
  JDict [("applied", JBool false); ("error", JStr "apply failed; rolled back to last-good cfg")].

Definition route_all (eff pend : dict) (width_changed : bool) : M F unit :=
  do! _route_dynamic_link (get_or "dynamicLink" (JDict []) eff) (get_or "dynamicLink" (JDict []) pend) pend width_changed;
  do! _route_pixelpilot (get_or "pixelpilot" (JDict []) eff) (get_or "pixelpilot" (JDict []) pend) pend;
  _route_idr_forward (get_or "idrForward" (JDict []) eff) (get_or "idrForward" (JDict []) pend).

Definition apply_engine (eff pend : dict) : M F bool :=
  let link_changed := negb (same (get_ "link" pend) (get_ "link" eff)) in
  let! wfb := lift (wfb_changed pend eff) in
  if link_changed || wfb then
    let! old := lift (as_dict (get_or "link" (JDict []) eff)) in
    let! new := lift (as_dict (get_or "link" (JDict []) pend)) in
    _apply_link_local old new pend wfb
  else ret true.

(** [_apply_gs]; [during] is what the server's other threads do while the
    services are being driven, before the commit. *)
Definition apply_with (during : M F unit) : M F (Z * json F) :=
  let! w0 := get in
  let pend := pending (store w0) in
  let eff := effective (store w0) in
  do! lift (validate_effective (e_bf env (calls w0)) pend);
  let! ok := apply_engine eff pend in
  if ok then
    let! w_old := lift (obj_get "width" JNull (or_empty (get_ "link" eff))) in
    let! w_new := lift (obj_get "width" JNull (or_empty (get_ "link" pend))) in
    do! route_all eff pend (negb (same w_old w_new));
    do! during;
    do! store_commit;
    do! armer_tick;
    ret (200, APPLIED)
  else
    do! runner_restart eff;
    ret (500, ROLLED_BACK).

Definition _apply_gs : M F (Z * json F) := apply_with (ret tt).

(** ** Requests *)

(** [_proxy]: the drone's answer verbatim; any exception is a 502. *)
Definition _proxy (method sub : string) (body : res (option (json F))) : M F (Z * json F) := fun w =>
  if bool_decide (method ∈ ["GET"; "PATCH"; "POST"]) then
    let r := let* b := body in
             let* cr := e_drone env (calls w) method sub b in
             let '(code, parsed) := cr in let* v := parsed in Ok (code, v) in
    (w <| calls ::= S |>,
     Ok (match r with
         | Ok x => x
         | Err e => (502, JDict [("error", JStr ("drone unreachable: " +:+ e_str env e))])
         end))
  else (w, Ok (405, JDict [("error", JStr "method not allowed")])).

Definition NOT_FOUND : Z * json F := (404, JDict [("error", JStr "not found")]).

(** A request: its query parsed, the JSON of its body ([None] when the body is
    empty), and what the status function would return. *)
Record request := mkReq { rq_method : string; rq_path : string; rq_query : list (string * list string);
                          rq_body : option (res (json F)); rq_status : res (json F) }.

Definition _json (body : option (res (json F))) : res (json F) := default (Ok (JDict [])) body.

Definition wants_pending (query : list (string * list string)) : bool :=
  match dict_get "pending" query with Some (v :: _) => String.eqb v "true" | _ => false end.

Definition route (r : request) : M F (Z * json F) :=
  let key k p := String.eqb (rq_method r) k && String.eqb (rq_path r) p in
  if String.prefix "/air/" (rq_path r) then
    _proxy (rq_method r) (String.substring 4 (String.length (rq_path r) - 4) (rq_path r))
      (match rq_body r with Some b => let* v := b in Ok (Some v) | None => Ok None end)
  else if key "GET" "/healthz" then ret (200, JDict [("ok", JBool true)])
  else if key "GET" "/gs/defaults" then let! w := get in ret (200, JDict (cs_defaults (store w)))
  else if key "GET" "/gs/config" then
    let! w := get in
    ret (200, JDict (if wants_pending (rq_query r) then pending (store w) else effective (store w)))
  else if key "PATCH" "/gs/config" then
    let! sparse := lift (_json (rq_body r)) in
    do! lift (validate_config_patch sparse);
    let! d := lift (as_dict sparse) in
    do! modify (fun w => w <| store ::= (fun s => patch s d) |>);
    let! w := get in ret (200, JDict (pending (store w)))
  else if key "POST" "/gs/apply" then _apply_gs
  else if key "POST" "/gs/reset" then
    do! store_reset; do! runner_restart_store; ret (200, JDict [("reset", JBool true)])
  else if key "GET" "/gs/status" || key "GET" "/gs/nodes" then let! st := lift (rq_status r) in ret (200, st)
  else ret NOT_FOUND.

(** [handle]: every exception becomes a response. *)
Definition handle (r : request) (w : daemon F) : daemon F * (Z * json F) :=
  let '(w', res) := route r w in
  (w', match res with
       | Ok x => x
       | Err (SchemaError msg) => (400, JDict [("error", JStr msg)])
       | Err e => (500, JDict [("error", JStr (e_str env e))])
       end).

Definition serve (w : daemon F) (rs : list request) : daemon F := fold_left (fun w r => (handle r w).1) rs w.

(** ** supervisor.py: building the daemon and starting it *)

(** The monitor's configuration; an absent or null block is all defaults. *)
Definition monitor_config (eff : dict) : res (ConnectionMonitorConfig F) :=
  let cm := or_empty (get_ "connectionMonitor" eff) in
  let seconds k dflt := let* v := obj_get k (JFloat dflt) cm in py_float v in
  let* en := obj_get "enabled" (JBool (cm_enabled (F := F) default_moncfg)) cm in
  let* stale := seconds "tunnelStaleS" (tunnel_stale_s default_moncfg) in
  let* poll := seconds "httpPollS" (http_poll_s default_moncfg) in
  let* timeout := seconds "httpTimeoutS" (http_timeout_s default_moncfg) in
  let* v := obj_get "httpFailCount" (JInt (http_fail_count (F := F) default_moncfg)) cm in
  let* fails := py_int v in
  let* interval := seconds "evalIntervalS" (eval_interval_s default_moncfg) in
  let* grace := seconds "disconnectGraceS" (disconnect_grace_s default_moncfg) in
  Ok (mkMonCfg (truthy en) stale poll timeout fails interval grace).

(** What the clients of the drone are built from: the URL of its API, the
    monitor's configuration, and where the relay forwards to. *)
Record links := mkLinks { ln_url : string; ln_monitor : ConnectionMonitorConfig F; ln_relay : json F * Z }.

Definition build_links (eff : dict) : res links :=
  let drone_cfg := get_or "drone" (JDict []) eff in
  let* host := obj_get "host" (JStr "10.5.0.10") drone_cfg in
  let* v := obj_get "apiPort" (JInt 8080) drone_cfg in
  let* api_port := py_int v in
  let* mon_cfg := monitor_config eff in
  let idr_cfg := get_or "idrForward" (JDict []) eff in
  let* v := obj_get "port" (JInt 11223) idr_cfg in
  let* idr_port := py_int v in
  Ok (mkLinks ("http://" +:+ py_str (e_repr env) host +:+ ":" +:+ pretty api_port) mon_cfg (host, idr_port)).

(** [build_app]: the file at [path] is loaded and validated, the clients of the
    drone, the controller and the display process are given their
    configuration; nothing runs yet. *)
Definition build_app (path : string) (f : option (res (json F))) : res (daemon F) :=
  let* s := store_load path f in
  let eff := effective s in
  validate_effective None eff ;;;
  let* _ := build_links eff in
  let* snap := make_dl_snapshot eff in
  let* argv := render_pixelpilot_argv (e_repr env) eff in
  let* penv := render_pixelpilot_env (e_repr env) eff in
  Ok (mkDaemon s (match f with Some (Ok doc) => Some doc | _ => None end) EngineDown None
        false snap false argv penv false bf_init [] 0).

(** [App.start]. *)
Definition runner_start : M F unit := do! runner_restart_store; ret tt.

Definition app_start : M F unit :=
  do! runner_start;
  let! w := get in
  let eff := effective (store w) in
  let! pp := lift (enabled_of (get_or "pixelpilot" (JDict []) eff) (JBool true)) in
  do! (if pp then pp_start else ret tt);
  let! idr := lift (enabled_of (get_or "idrForward" (JDict []) eff) (JBool true)) in
  do! (if idr then idr_start else ret tt);
  let! dl := lift (enabled_of (get_or "dynamicLink" (JDict []) eff) JNull) in
  if dl then dl_start else ret tt.

(** [App.shutdown]: the controller, the display, the relay, then the engine. *)
Definition app_shutdown : M F unit :=
  do! dl_stop; do! pp_stop; do! idr_stop; modify (fun w => w <| runner := EngineDown |> <| tuned := None |>).
End Api.
Arguments request F : clear implicits.
