(* ===== verification/HttpServer.v ===== *)
(** * api.py: [make_http_server]

    The handler between the HTTP library and [Api.handle]: the target and the
    body of a request are parsed, the answer is written as JSON.  A request is
    what the library has read of it (method, target, the content-length header)
    and the bytes the client sends before it closes its side. *)
From Stdlib Require Import ZArith Lia Bool Ascii String.
From stdpp Require Import base tactics list sets strings.
From S2P Require Import Prelude PyStr FloatModels Json Cards JsonText Url Schema StatsClient LearnedPrior Decision Signals Policy FlightLog ConnMonitor Config ConfigBuild Radio Graph Pixelpilot Beamforming Api.
Open Scope Z_scope.

Record http_request := mkHttp { hq_method : string; hq_target : string; hq_length : option string; hq_rfile : string }.

(** An answer (status, headers, data); or the connection is closed without
    one, by an exception of the handler. *)
Inductive http_answer := HttpReply (code : Z) (headers : list (string * string)) (data : string) | NoReply (e : pyerr).

(** [rfile.read(n)]: to the end of the stream for a negative [n]. *)
Definition read_body (n : Z) (rfile : string) : string := if n <? 0 then rfile else String.substring 0 (Z.to_nat n) rfile.

Section Server.
Context {F : Type} {PF : PyFloat F} (env : environment F) (frepr : F -> string) (bracket_ok : string -> bool).

(** [json.loads(body)], asked only of a body that is not empty. *)
Definition request_json (body : string) : option (res (json F)) :=
  match body with
  | EmptyString => None
  | _ => Some (match loads body with Some v => Ok v | None => Err (ValueError "json") end)
  end.

(** [send_response], [send_header] twice, [end_headers] and the write. *)
Definition send (code : Z) (obj : json F) : http_answer :=
  let data := dumps frepr obj in
  HttpReply code [("content-type", "application/json"); ("content-length", str_nat (Z.of_nat (String.length data)))] data.

(** [_dispatch]; [status] is what the status functions return. *)
Definition _dispatch (status : res (json F)) (q : http_request) (w : daemon F) : daemon F * http_answer :=
  match urlparse bracket_ok (hq_target q) with
  | Err e => (w, NoReply e)
  | Ok parsed =>
      match match hq_length q with None => Some 0 | Some s => parse_int 10 s end with
      | None => (w, NoReply (ValueError "int"))
      | Some n =>
          let body := if n =? 0 then EmptyString else read_body n (hq_rfile q) in
          let '(w', (code, obj)) :=
            handle env (mkReq (hq_method q) (sr_path parsed) (parse_qs (sr_query parsed)) (request_json body) status) w in
          (w', send code obj)
      end
  end.

(** [do_GET], [do_POST] and [do_PATCH]; the library refuses another method. *)
Definition do_method (status : res (json F)) (q : http_request) (w : daemon F) : daemon F * http_answer :=
  if bool_decide (hq_method q ∈ ["GET"; "POST"; "PATCH"]) then _dispatch status q w
  else (w, HttpReply 501 [("content-type", "text/html;charset=utf-8")] "Unsupported method").
End Server.

(* ------------------------------------------------------------------ *)
(** ** An exchange carries the request and the answer unchanged *)

(** A client's request for [path], with its body as JSON text. *)
Definition client_request {F} (frepr : F -> string) (method path query : string) (body : option (json F)) : http_request :=
  let data := from_option (dumps frepr) EmptyString body in
  mkHttp method (if String.eqb query "" then path else path +:+ "?" +:+ query)
    (match body with None => None | Some _ => Some (str_nat (Z.of_nat (String.length data))) end) data.

Definition path_char (c : ascii) : bool := host_char c || is_char 47 c.
(** Without spaces, control characters and [#]. *)
Definition query_char (c : ascii) : bool := (32 <? code c) && negb (is_char 35 c).

Definition is_path (path : string) : bool :=
  match path with String c (String d _) => is_char 47 c && negb (is_char 47 d) && all_chars path_char path | _ => false end.

Lemma rpartition_back sep s : let '(h, found, t) := rpartition_char sep s in s = if found then h +:+ String sep t else t.
Proof.
  induction s as [|c s IH]; [done|]. cbn [rpartition_char]. destruct (rpartition_char sep s) as [[h f] t].
  destruct f; [by rewrite sapp_cons, <- IH|]. subst s. by destruct (ascii_dec c sep) as [->|].
Qed.

Lemma cut_nothing path : all_chars (fun c => negb (is_char 59 c)) path = true -> cut_params path = path.
Proof.
  intros H. unfold cut_params. assert (B := rpartition_back "/"%char path). destruct (rpartition_char _ path) as [[h f] t].
  subst path. destruct f; [|by rewrite break_none].
  rewrite all_chars_sapp in H. apply andb_prop in H as [_ H]. cbn [all_chars] in H. by rewrite break_none.
Qed.

Lemma path_char_not n c :
  path_char c = true -> n ∉ [45; 46; 47; 95; 58] -> (n < 48 \/ 57 < n) -> (n < 65 \/ 90 < n) -> (n < 97 \/ 122 < n) -> is_char n c = false.
Proof.
  intros [H|H]%orb_prop Hn ? ? ?; [apply word_char_not; [unfold word_char; by rewrite H|set_solver|done..]|].
  unfold is_char in *. apply Z.eqb_eq in H. apply Z.eqb_neq. rewrite H. intros <-. set_solver.
Qed.

Lemma path_without n s :
  all_chars path_char s = true -> n ∉ [45; 46; 47; 95; 58] -> (n < 48 \/ 57 < n) -> (n < 65 \/ 90 < n) -> (n < 97 \/ 122 < n) ->
  all_chars (fun c => negb (is_char n c)) s = true.
Proof. intros H ? ? ? ?. eapply all_chars_mono, H. intros c Hc. by rewrite path_char_not. Qed.

Lemma query_without n s : all_chars query_char s = true -> n <= 35 -> n <= 32 \/ n = 35 -> all_chars (fun c => negb (is_char n c)) s = true.
Proof.
  intros H _ Hn. eapply all_chars_mono, H. intros c Hc. unfold query_char, is_char in *. apply andb_prop in Hc as [H1 H2%negb_true_iff].
  apply negb_true_iff. lia.
Qed.

Lemma slash_no_scheme s : split_scheme (String "/" s) = (EmptyString, String "/" s).
Proof. unfold split_scheme. cbn [break]. change (is_char 58 "/") with false. cbv iota. destruct (break (is_char 58) s) as [h [|c t]]; reflexivity. Qed.

Lemma one_slash d s : is_char 47 d = false -> String.prefix "//" (String "/" (String d s)) = false.
Proof. intros H. cbn [String.prefix]. destruct (ascii_dec "/" "/") as [_|]; [|done]. by destruct (ascii_dec "/" d) as [<-|]. Qed.

Section Exchange.
Context {F : Type} {PF : PyFloat F} (env : environment F) (frepr : F -> string) (fok : F -> bool) {FR : FloatRepr frepr fok}.
Context (bracket_ok : string -> bool).

Lemma target_parsed path q :
  is_path path = true -> all_chars (fun c => negb (is_char 35 c) && negb (unsafe_char c)) q = true -> (q = EmptyString \/ exists t, q = String "?" t) ->
  exists r, urlparse bracket_ok (path +:+ q) = Ok r /\ sr_path r = path /\ sr_query r = tail_of q.
Proof.
  intros Hp Hq Hq0. destruct path as [|c [|d path]]; [done..|]. cbn [is_path] in Hp. apply andb_prop in Hp as [[Hc%Z.eqb_eq Hd%negb_true_iff]%andb_prop Hp].
  apply (code_inj c 47%N) in Hc as ->. change (ascii_of_N 47) with "/"%char in *. set (p := String "/" (String d path)) in *.
  assert (Es : lstrip_if (fun c => code c <=? 32) (p +:+ q) = p +:+ q) by (unfold p; by rewrite !sapp_cons).
  assert (Eu : remove_if unsafe_char (p +:+ q) = p +:+ q).
  { apply remove_if_none. rewrite all_chars_sapp, andb_true_iff. split; eapply all_chars_mono; [|done| |done]; intros x Hx.
    - unfold unsafe_char. rewrite !path_char_not by (done || set_solver || lia). done.
    - by apply andb_prop in Hx as [_ ?]. }
  unfold urlparse, urlsplit. rewrite Es, Eu. unfold p at 1. rewrite !sapp_cons, slash_no_scheme, one_slash by done. rewrite <- !sapp_cons. fold p.
  change (check_brackets bracket_ok "") with (Ok tt). cbv iota beta.
  rewrite (break_none (is_char 35)).
  2: { rewrite all_chars_sapp, path_without by (done || set_solver || lia). cbn. eapply all_chars_mono, Hq. by intros x [? _]%andb_prop. }
  rewrite (break_app (is_char 63)) by (apply path_without; done || set_solver || lia).
  assert (Eq : break (is_char 63) q = (EmptyString, q)) by (by destruct Hq0 as [->|[t ->]]).
  rewrite Eq. cbn [fst snd rbind sr_scheme sr_path sr_query sr_netloc sr_fragment]. rewrite sapp_nil_r.
  change (bool_decide ("" ∈ uses_params)) with true. cbv iota. eexists. split; [done|]. cbn [sr_path sr_query].
  rewrite cut_nothing; [done|]. apply path_without; done || set_solver || lia.
Qed.

Lemma substring_all s : String.substring 0 (String.length s) s = s.
Proof. induction s as [|c s IH]; cbn; by rewrite ?IH. Qed.

Lemma body_read v : plain fok v = true ->
  let data := dumps frepr v in let n := Z.of_nat (String.length data) in
  n <> 0 /\ read_body n data = data /\ request_json data = Some (Ok v).
Proof.
  intros Hv data n. assert (Hs : starts data = true) by (unfold data; rewrite <- (sapp_nil_r (dumps frepr v)); by apply dumps_starts with fok).
  assert (Hl := loads_dumps frepr fok v "" Hv eq_refl). rewrite sapp_nil_r in Hl. fold data in Hl. split_and!.
  - unfold n. destruct data; [done|]. cbn [String.length]. lia.
  - unfold read_body, n. rewrite (proj2 (Z.ltb_ge _ 0)) by lia. rewrite Nat2Z.id. apply substring_all.
  - unfold request_json. destruct data as [|c data]; [done|]. by rewrite Hl.
Qed.

Lemma sent (w : daemon F) code obj : exists length data,
  (w, send frepr code obj) = (w, HttpReply code [("content-type", "application/json"); ("content-length", length)] data) /\
  parse_int 10 length = Some (Z.of_nat (String.length data)) /\ (plain fok obj = true -> loads data = Some obj).
Proof.
  eexists _, _. split; [done|]. split; [apply parse_str_nat; lia|].
  intros Hp. rewrite <- (sapp_nil_r (dumps frepr obj)). by apply loads_dumps with fok.
Qed.

(** C38: Through the text of an HTTP exchange: a request for a path with any
    query and JSON body is handled as that method, path, query and body; the
    daemon is left as the handler leaves it, the status is the handler's, the
    content-length is the length of the data, and the data reads back as the
    handler's answer. *)
Theorem exchange_faithful status method path query body w :
  method ∈ ["GET"; "POST"; "PATCH"] -> is_path path = true -> all_chars query_char query = true ->
  (forall v, body = Some v -> plain fok v = true) ->
  let '(w', (code, obj)) := handle env (mkReq method path (parse_qs query) (Ok <$> body) status) w in
  exists length data,
    do_method env frepr bracket_ok status (client_request frepr method path query body) w =
      (w', HttpReply code [("content-type", "application/json"); ("content-length", length)] data) /\
    parse_int 10 length = Some (Z.of_nat (String.length data)) /\ (plain fok obj = true -> loads data = Some obj).
Proof.
  intros Hm Hp Hq Hb. set (q := if String.eqb query "" then EmptyString else String "?" query).
  assert (Ht : hq_target (client_request frepr method path query body) = path +:+ q).
  { unfold client_request, q. cbn. destruct (String.eqb query ""); [by rewrite sapp_nil_r|done]. }
  destruct (target_parsed path q Hp) as (r & Er & Ep & Eq).
  { unfold q. destruct (String.eqb query ""); [done|]. cbn [all_chars]. eapply all_chars_mono, Hq. intros c Hc.
    unfold query_char, unsafe_char, is_char in *. apply andb_prop in Hc as [H1 H2]. rewrite H2. lia. }
  { unfold q. destruct (String.eqb query ""); eauto. }
  assert (Hq' : sr_query r = query) by (rewrite Eq; unfold q; by destruct (String.eqb_spec query "") as [->|]).
  unfold do_method. rewrite bool_decide_eq_true_2 by done. unfold _dispatch. rewrite Ht, Er, Ep, Hq'.
  cbn [client_request hq_length hq_rfile hq_method]. destruct body as [v|]; cbn [from_option fmap option_fmap option_map].
  - destruct (body_read v (Hb v eq_refl)) as (Hn & Hr & Hj). rewrite parse_str_nat by lia. rewrite (proj2 (Z.eqb_neq _ 0)) by done. rewrite Hr, Hj.
    destruct (handle _ _ _) as [w' [code obj]]. by apply sent.
  - change (0 =? 0) with true. cbv iota. cbn [request_json]. destruct (handle _ _ _) as [w' [code obj]]. by apply sent.
Qed.
End Exchange.
