(* ===== verification/AppMain.v ===== *)
(** * supervisor.py: [App] and [main]

    The daemon's process: it is built, started service by service, serves
    requests until a signal interrupts it, and is shut down.  The SIGTERM
    handler raises [KeyboardInterrupt] wherever the main thread is; [sig n] says
    whether a signal arrives at the [n]-th of the points of [main] at which the
    model looks: before each service of [App.start] (0 to 5), after the last
    (6), inside the [try] before the server has begun (7), and before each step
    of [App.shutdown] (8 to 14).  The signal that ends the serving is always
    there.  The parsed command line is an argument. *)
From Stdlib Require Import ZArith Lia Bool String.
From stdpp Require Import base tactics list sets strings.
From S2P Require Import Prelude PyStr FloatModels Json Cards Schema StatsClient LearnedPrior Decision Signals Policy FlightLog ConnMonitor Config ConfigBuild Radio Graph Pixelpilot Beamforming Api.
Open Scope Z_scope.

(** socketserver's server: made; or out of [serve_forever], with the event set
    that [shutdown] waits for. *)
Inductive http_server := Made | Served.

Inductive exc := Raised (e : pyerr) | KeyboardInterrupt.

Record args (F : Type) := mkArgs { a_config : string; a_file : option (res (json F)); a_dump : bool }.
Arguments mkArgs {F}.
Arguments a_config {F} _.
Arguments a_file {F} _.
Arguments a_dump {F} _.

Record App (F : Type) := mkApp { app : daemon F; app_links : links (F := F); app_monitor : bool; app_armer : bool; app_http : http_server }.
Arguments mkApp {F}.
Arguments app {F} _.
Arguments app_links {F} _.
Arguments app_monitor {F} _.
Arguments app_armer {F} _.
Arguments app_http {F} _.
#[export] Instance eta_App F : Settable (App F) := fun a => mkApp (app a) (app_links a) (app_monitor a) (app_armer a) (app_http a).

(** How the process ends: by itself, by an exception nobody catches, or not at
    all. *)
Inductive ending := Exits | Escapes (e : exc) | Hangs.

Section Main.
Context {F : Type} {PF : PyFloat F} (env : environment F).
Implicit Types (a : App F).

Definition step : Type := App F -> App F * option pyerr.

(** An operation of the daemon's part. *)
Definition on_daemon (m : M F unit) : step := fun a =>
  let '(w, r) := m (app a) in (a <| app := w |>, match r with Ok _ => None | Err e => Some e end).

(** [if effective().get(block, {}).get("enabled", default): start()]. *)
Definition start_if (block : string) (dflt : json F) (start : M F unit) : M F unit :=
  let! w := get in
  let! on := lift (enabled_of (get_or block (JDict []) (effective (store w))) dflt) in
  if on then start else ret tt.

Definition start_steps : list step :=
  [on_daemon (runner_start env);
   fun a => (a <| app_monitor := cm_enabled (ln_monitor (app_links a)) |>, None);
   fun a => (a <| app_armer := true |>, None);
   on_daemon (start_if "pixelpilot" (JBool true) (pp_start env));
   on_daemon (start_if "idrForward" (JBool true) idr_start);
   on_daemon (start_if "dynamicLink" JNull dl_start)].

(** [App.shutdown] after the server's: monitor, armer, controller, display,
    relay, engine. *)
Definition stop_steps : list step :=
  [fun a => (a <| app_monitor := false |>, None);
   fun a => (a <| app_armer := false |>, None);
   on_daemon dl_stop;
   on_daemon pp_stop;
   on_daemon idr_stop;
   on_daemon (modify (fun w => w <| runner := EngineDown |> <| tuned := None |>))].

(** The steps in turn, until one raises or a signal arrives before one. *)
Fixpoint run_steps (sig : nat -> bool) (n : nat) (l : list step) a : App F * option exc :=
  match l with
  | [] => (a, None)
  | s :: l =>
      if sig n then (a, Some KeyboardInterrupt)
      else let '(a', e) := s a in
           match e with Some e => (a', Some (Raised e)) | None => run_steps sig (S n) l a' end
  end.

(** [App.shutdown]: the server's [shutdown] waits for the end of a
    [serve_forever] that may never have begun. *)
Definition shutdown (sig : nat -> bool) a : App F * ending :=
  if sig 8%nat then (a, Escapes KeyboardInterrupt)
  else match app_http a with
       | Served => let '(a', e) := run_steps sig 9 stop_steps a in (a', match e with None => Exits | Some e => Escapes e end)
       | Made => (a, Hangs)
       end.

(** [serve_forever]: the requests that came, and its end by the signal. *)
Definition serve_forever (rs : list (request F)) a : App F :=
  a <| app ::= (fun w => serve env w rs) |> <| app_http := Served |>.

(** [app.start()], the line to stderr, and the [try]. *)
Definition run_app (sig : nat -> bool) (rs : list (request F)) a : App F * ending :=
  match run_steps sig 0 start_steps a with
  | (a1, Some e) => (a1, Escapes e)
  | (a1, None) =>
      if sig 6%nat then (a1, Escapes KeyboardInterrupt)
      else shutdown sig (if sig 7%nat then a1 else serve_forever rs a1)
  end.

(** [build_app] with everything it makes. *)
Definition build (g : args F) : res (App F) :=
  let* w := build_app env (a_config g) (a_file g) in
  let* ln := build_links env (effective (store w)) in
  Ok (mkApp w ln false false Made).

(** What the process did: printed the defaults, failed to build, or ran. *)
Inductive outcome := Dumped (cfg : list (string * json F)) | NotBuilt (e : pyerr) | Ran (a : App F) (how : ending).

Definition main (sig : nat -> bool) (rs : list (request F)) (g : args F) : outcome :=
  if a_dump g then Dumped default_config
  else match build g with
       | Err e => NotBuilt e
       | Ok a => let '(a', how) := run_app sig rs a in Ran a' how
       end.
End Main.
Arguments step F : clear implicits.
Arguments outcome F : clear implicits.

(* ------------------------------------------------------------------ *)
(** ** The end of the process *)

Section Ends.
Context {F : Type} {PF : PyFloat F} (env : environment F).
Implicit Types (a : App F).

Definition no_signal : nat -> bool := fun _ => false.

Record stopped a : Prop := {
  st_engine : runner (app a) = EngineDown; st_controller : dl_running (app a) = false; st_display : pp_running (app a) = false;
  st_relay : idr_running (app a) = false; st_monitor : app_monitor a = false; st_armer : app_armer a = false; st_http : app_http a = Served }.

(** Left alone, the start is the daemon's [app_start] of [Api], with the
    monitor and the armer besides. *)
Definition start_result (e : option exc) : res unit := match e with Some (Raised e) => Err e | _ => Ok tt end.

Lemma start_is_app_start a : let '(a1, e) := run_steps no_signal 0 (start_steps env) a in app_start env (app a) = (app a1, start_result e).
Proof.
  cbn [start_steps run_steps no_signal]. unfold on_daemon, app_start, start_if, pp_start, idr_start, dl_start, modify, bind, get, lift, ret. cbn.
  destruct (enabled_of (get_or "pixelpilot" _ _) _) as [[]|e]; cbn; [destruct (e_popen env _ _); cbn; [done|]| |done].
  all: destruct (enabled_of (get_or "idrForward" _ _) _) as [[]|e]; cbn; [| |done].
  all: by destruct (enabled_of (get_or "dynamicLink" _ _) _) as [[]|e].
Qed.

(** Steps that succeed undisturbed: with signals they do the same, or the first
    signal interrupts them. *)
Lemma steps_interrupted sig n l a a1 :
  run_steps no_signal n l a = (a1, None) ->
  (run_steps sig n l a = (a1, None) /\ forall i, (i < length l)%nat -> sig (n + i)%nat = false) \/
  (exists i a2, (i < length l)%nat /\ sig (n + i)%nat = true /\ run_steps sig n l a = (a2, Some KeyboardInterrupt)).
Proof.
  revert n a. induction l as [|s l IH]; intros n a H; cbn in *; [left; split; [done|lia]|].
  destruct (sig n) eqn:Es; [right; exists 0%nat, a; rewrite Nat.add_0_r; split_and!; [lia|done..]|].
  destruct (s a) as [a' [e|]]; [done|]. destruct (IH (S n) a' H) as [[E Hq]|(i & a2 & Hi & Hs & E)].
  - left. split; [done|]. intros [|i] Hi; [by rewrite Nat.add_0_r|]. rewrite <- (Hq i) by lia. f_equal. lia.
  - right. exists (S i), a2. split; [lia|]. split; [|done]. rewrite <- Hs. f_equal. lia.
Qed.

(** The stops do not raise and leave the store. *)
Lemma stops_done a : app_http a = Served ->
  exists a', run_steps no_signal 9 stop_steps a = (a', None) /\ stopped a' /\ store (app a') = store (app a).
Proof. intros H. eexists. split; [done|]. split; [by split|done]. Qed.

Lemma steps_keep sig n l a : Forall (fun s : step F => forall a, app_http (s a).1 = app_http a) l -> app_http (run_steps sig n l a).1 = app_http a.
Proof.
  intros Hl. revert n a. induction Hl as [|s l Hs Hl IH]; intros n a; [done|]. cbn. destruct (sig n); [done|].
  specialize (Hs a). destruct (s a) as [a' [e|]]; cbn in *; [done|]. by rewrite IH.
Qed.

Lemma on_daemon_http (m : M F unit) a : app_http (on_daemon m a).1 = app_http a.
Proof. unfold on_daemon. by destruct (m (app a)). Qed.

Lemma start_keeps_http a a1 e : run_steps no_signal 0 (start_steps env) a = (a1, e) -> app_http a1 = app_http a.
Proof.
  intros H. change a1 with (a1, e).1. rewrite <- H. apply steps_keep. unfold start_steps.
  repeat (apply Forall_cons; split; [intros a0|]); try constructor; try done; apply on_daemon_http.
Qed.

(** A signal at point [k] lets an exception escape. *)
Ltac escaped k :=
  eexists _, _; split; [done|]; split_and!; try done; (split; [done|]); intros H; exfalso;
  [specialize (H k ltac:(lia))|destruct H as [H7 H]; destruct (decide (k <= 8)%nat); [specialize (H k ltac:(lia) ltac:(lia))|]]; first [congruence | lia].

(** C39: A daemon that starts when left alone: wherever in main further
    signals arrive besides the one that ends the serving, it exits by itself
    exactly if there are none, and then with every service stopped and the
    configuration as the requests left it; and it hangs, everything still
    running, exactly if the first comes inside the try before the server's
    loop has begun and none while shutdown is entered. *)
Theorem main_stops sig rs g a a1 :
  a_dump g = false -> build env g = Ok a -> run_steps no_signal 0 (start_steps env) a = (a1, None) ->
  exists a' how, main env sig rs g = Ran a' how /\
    (how = Exits <-> forall n, (n <= 14)%nat -> sig n = false) /\
    (how = Exits -> stopped a' /\ store (app a') = store (serve env (app a1) rs)) /\
    (how = Hangs <-> sig 7%nat = true /\ (forall n, (n <= 8)%nat -> n <> 7%nat -> sig n = false)) /\
    (how = Hangs -> a' = a1).
Proof.
  intros Hd Hb Hst. unfold main. rewrite Hd, Hb. unfold run_app.
  assert (Hmade : app_http a1 = Made).
  { rewrite (start_keeps_http _ _ _ Hst). unfold build in Hb. apply rbind_ok in Hb as (w & _ & (ln & _ & [= <-])%rbind_ok). done. }
  destruct (steps_interrupted sig 0 _ _ _ Hst) as [[-> Hq]|(i & a2 & Hi & Hs & ->)]; [|cbn in Hi, Hs; by escaped i].
  cbn [length start_steps] in Hq.
  destruct (sig 6%nat) eqn:E6; [by escaped 6%nat|]. unfold shutdown. destruct (sig 8%nat) eqn:E8; [by escaped 8%nat|].
  assert (H08 : forall n, (n <= 8)%nat -> n <> 7%nat -> sig n = false).
  { intros n Hn Hn7. destruct (decide (n < 6)%nat) as [Hl|]; [by apply (Hq n)|]. assert (n = 6%nat \/ n = 8%nat) as [->| ->] by lia; done. }
  destruct (sig 7%nat) eqn:E7.
  { rewrite Hmade. eexists _, _. split; [done|]. split_and!; try done; split; try done.
    intros H. specialize (H 7%nat ltac:(lia)). congruence. }
  change (app_http (serve_forever env rs a1)) with Served. cbv iota.
  destruct (stops_done (serve_forever env rs a1) eq_refl) as (a3 & Hr & Hsp & Hse).
  destruct (steps_interrupted sig 9 _ _ _ Hr) as [[-> Hq9]|(i & a2 & Hi & Hs & ->)]; [|cbn in Hi; by escaped (9 + i)%nat].
  eexists _, _. split; [done|]. split_and!; try done; split; try done; [|by intros [? _]].
  intros _ n Hn. destruct (decide (n = 7%nat)) as [->|]; [done|]. destruct (decide (n <= 8)%nat); [by apply H08|].
  replace n with (9 + (n - 9))%nat by lia. apply Hq9. cbn. lia.
Qed.
End Ends.
