(* ===== verification/Wiring.v ===== *)
(** * The closures that tie the components together

    Small functions of supervisor.py and wfb/engine.py through which one
    component reads another: the probe that validation asks about beamforming,
    the page of the nodes, and the settings record of the stats server. *)
From Stdlib Require Import ZArith Lia Bool String.
From stdpp Require Import base tactics list sets strings.
From S2P Require Import Prelude PyStr FloatModels Json Cards Schema StatsClient LearnedPrior Decision Signals Policy FlightLog ConnMonitor Config ConfigBuild Radio Graph Pixelpilot Beamforming Status Api.
Open Scope Z_scope.

Section Wiring.
Context {F : Type} {PF : PyFloat F} (repr : json F -> string).
#[local] Abbreviation dict := (list (string * json F)).

(** [_bf_capable]: the first local interface has the driver's node. *)
Definition _bf_capable (pf : platform) (nics : list string) (cfg : dict) : res bool :=
  let* wlans := resolve_wlans cfg nics in
  Ok (match wlans with [] => false | primary :: _ => truthy primary && supported repr pf primary end).

(** [_nodes_status_fn], over the store's effective configuration. *)
Definition _nodes_status_fn (ask : list (json F) -> run_answer) (s : ConfigStore (F := F)) (nics : list string) : res (json F) :=
  nodes_status ask repr (effective s) (Some nics).

(** [_settings_fn]: what the configuration provider raises is no settings. *)
Definition _settings_fn (cfg : res dict) : res dict :=
  match cfg with
  | Err _ => Ok []
  | Ok cfg => py_dict (or_empty (get_or "wfb" (JDict []) cfg))
  end.
End Wiring.

(** The settings of a configuration that validates are its [wfb] block, and
    reading them never raises. *)
Lemma settings_never_raise {F} {PF : PyFloat F} bf (cfg : list (string * json F)) :
  validate_effective bf cfg = Ok tt -> exists d, _settings_fn (Ok cfg) = Ok d /\ (get_ "wfb" cfg = JDict d \/ get_ "wfb" cfg = JNull /\ d = []).
Proof.
  intros Hv. unfold validate_effective in Hv. do 6 (apply rbind_ok in Hv as ([] & _ & Hv)). unfold opt_block in Hv. unfold _settings_fn.
  unfold get_, get_or in *. destruct (dict_get "wfb" cfg) as [[| | | | | |d]|]; try done; cbn [is_none] in Hv.
  all: first [by exists []; auto|destruct d; eexists; by split; [|left]].
Qed.

(** An interface is only called capable when it is the first local one and its
    node exists. *)
Lemma bf_capable_node {F} {PF : PyFloat F} repr pf nics (cfg : list (string * json F)) :
  _bf_capable repr pf nics cfg = Ok true -> exists primary rest, resolve_wlans cfg nics = Ok (primary :: rest) /\ os_exists pf (conf_node repr primary) = true.
Proof.
  unfold _bf_capable. intros ([|p rest] & Hw & [= H])%rbind_ok. apply andb_prop in H as [_ H]. eauto.
Qed.
