(* ===== verification/ApiFacts.v ===== *)
(** * What an apply guarantees

    Postconditions of the monad, in both outcomes; then the transaction, the
    configuration the daemon may run, and how the engine and the services follow
    the effective configuration over any sequence of requests. *)
From Stdlib Require Import ZArith Lia Bool String QArith.
From stdpp Require Import base tactics list sets strings relations.
From S2P Require Import Prelude PyStr FloatModels Json Cards Schema StatsClient LearnedPrior Decision Signals Policy FlightLog ConnMonitor Config ConfigBuild Radio Graph Pixelpilot Beamforming Api.
Open Scope Z_scope.
Open Scope api_scope.

Section Post.
Context {F : Type} {PF : PyFloat F}.
Implicit Types (w : daemon F).

(** [post m w Q R]: [m] from [w] returns with [Q] or raises with [R]. *)
Definition post {A} (m : M F A) w (Q : A -> daemon F -> Prop) (R : pyerr -> daemon F -> Prop) : Prop :=
  match m w with (w', Ok a) => Q a w' | (w', Err e) => R e w' end.

Lemma post_bind {A B} (m : M F A) (k : A -> M F B) w Q R :
  post m w (fun a w' => post (k a) w' Q R) R -> post (bind m k) w Q R.
Proof. unfold post, bind. destruct (m w) as [w' [a|e]]; done. Qed.

Lemma post_ret {A} (a : A) w Q R : Q a w -> post (ret a) w Q R.
Proof. done. Qed.

Lemma post_lift {A} (r : res A) w Q R :
  (forall a, r = Ok a -> Q a w) -> (forall e, r = Err e -> R e w) -> post (lift r) w Q R.
Proof. unfold post, lift. destruct r; auto. Qed.

Lemma post_get w Q R : Q w w -> post get w Q R.
Proof. done. Qed.

Lemma post_modify f w Q R : Q tt (f w) -> post (modify f) w Q R.
Proof. done. Qed.

Lemma post_weaken {A} (m : M F A) w (Q Q' : A -> daemon F -> Prop) (R R' : pyerr -> daemon F -> Prop) :
  post m w Q R -> (forall a w', Q a w' -> Q' a w') -> (forall e w', R e w' -> R' e w') -> post m w Q' R'.
Proof. unfold post. destruct (m w) as [w' [a|e]]; auto. Qed.

Lemma post_and {A} (m : M F A) w (Q Q' : A -> daemon F -> Prop) (R R' : pyerr -> daemon F -> Prop) :
  post m w Q R -> post m w Q' R' ->
  post m w (fun a w' => Q a w' /\ Q' a w') (fun e w' => R e w' /\ R' e w').
Proof. unfold post. destruct (m w) as [w' [a|e]]; auto. Qed.

Lemma post_run {A} (m : M F A) w w' (r : res A) Q R :
  post m w Q R -> m w = (w', r) -> match r with Ok a => Q a w' | Err e => R e w' end.
Proof. unfold post. intros H E. rewrite E in H. by destruct r. Qed.
End Post.

Ltac post_step :=
  match goal with
  | |- post (bind _ _) _ _ _ => apply post_bind
  | |- post (ret _) _ _ _ => apply post_ret
  | |- post get _ _ _ => apply post_get
  | |- post (modify _) _ _ _ => apply post_modify
  | |- post (dl_set_config _) _ _ _ => apply post_modify
  | |- post dl_start _ _ _ => apply post_modify
  | |- post dl_stop _ _ _ => apply post_modify
  | |- post pp_stop _ _ _ => apply post_modify
  | |- post idr_start _ _ _ => apply post_modify
  | |- post idr_stop _ _ _ => apply post_modify
  | |- post (lift _) _ _ _ => apply post_lift; intros ? ?
  | |- post (if ?c then _ else _) _ _ _ => let E := fresh "Ec" in destruct c eqn:E
  end.

Section Facts.
Context {F : Type} {PF : PyFloat F}.
Variable env : environment F.
#[local] Abbreviation dict := (list (string * json F)).
Implicit Types (w : daemon F) (eff pend : dict).

(** ** What each step leaves alone *)

Definition config_of w := (store w, file w).
Definition engine_of w := (runner w, tuned w).
Definition controller_of w := (dl_running w, dl_snapshot w).
Definition display_of w := (pp_running w, pp_argv w, pp_env w).
Definition services_of w := (controller_of w, display_of w, idr_running w).

(** [m] leaves what [f] reads, returning or raising. *)
Definition leaves {A B} (f : daemon F -> B) (m : M F A) : Prop := forall w, f (m w).1 = f w.

Lemma leaves_bind {A B C} (f : daemon F -> C) (m : M F A) (k : A -> M F B) :
  leaves f m -> (forall a, leaves f (k a)) -> leaves f (bind m k).
Proof.
  intros Hm Hk w. unfold bind. specialize (Hm w). destruct (m w) as [w' [a|e]]; [|done].
  rewrite Hk. exact Hm.
Qed.

Lemma leaves_lift {A B} (f : daemon F -> B) (r : res A) : leaves f (lift r).
Proof. done. Qed.
Lemma leaves_ret {A B} (f : daemon F -> B) (a : A) : leaves f (ret a).
Proof. done. Qed.
Lemma leaves_modify {B} (f : daemon F -> B) (g : daemon F -> daemon F) : (forall w, f (g w) = f w) -> leaves f (modify g).
Proof. intros H w. apply H. Qed.

Lemma leaves_pp_start {B} (f : daemon F -> B) :
  (forall w b, f (w <| pp_running := b |>) = f w) -> leaves f (pp_start env).
Proof. intros H w. unfold pp_start. destruct (e_popen _ _ _); [done|apply H]. Qed.

Lemma leaves_post {A B} (f : daemon F -> B) (m : M F A) w :
  leaves f m -> post m w (fun _ w' => f w' = f w) (fun _ w' => f w' = f w).
Proof. unfold post. intros H. specialize (H w). by destruct (m w) as [w' [a|e]]. Qed.
End Facts.

Ltac leaves_solve :=
  repeat match goal with
  | |- leaves _ (bind _ _) => apply leaves_bind; [|intros ?]
  | |- leaves _ (lift _) => apply leaves_lift
  | |- leaves _ (ret _) => apply leaves_ret
  | |- leaves _ (modify _) => apply leaves_modify; done
  | |- leaves _ (pp_start _) => apply leaves_pp_start; done
  | |- leaves _ (if ?c then _ else _) => destruct c
  | |- leaves _ pp_stop => apply leaves_modify; done
  | |- leaves _ dl_start => apply leaves_modify; done
  | |- leaves _ dl_stop => apply leaves_modify; done
  | |- leaves _ (dl_set_config _) => apply leaves_modify; done
  | |- leaves _ idr_start => apply leaves_modify; done
  | |- leaves _ idr_stop => apply leaves_modify; done
  | |- leaves _ (pp_restart _) => unfold pp_restart
  end.

Section Steps.
Context {F : Type} {PF : PyFloat F}.
Variable env : environment F.
#[local] Abbreviation dict := (list (string * json F)).
Implicit Types (w : daemon F) (eff pend : dict).

Lemma route_dl_leaves a b pend c :
  leaves (fun w => (config_of w, engine_of w, display_of w, idr_running w)) (_route_dynamic_link a b pend c).
Proof. unfold _route_dynamic_link. leaves_solve. Qed.

Lemma route_pp_leaves a b pend :
  leaves (fun w => (config_of w, engine_of w, controller_of w, idr_running w)) (_route_pixelpilot env a b pend).
Proof. unfold _route_pixelpilot. leaves_solve. Qed.

Lemma route_idr_leaves (a b : json F) :
  leaves (fun w => (config_of w, engine_of w, controller_of w, display_of w)) (_route_idr_forward a b).
Proof. unfold _route_idr_forward. leaves_solve. Qed.

Lemma route_all_leaves eff pend c : leaves (fun w => (config_of w, engine_of w)) (route_all env eff pend c).
Proof.
  unfold route_all. apply leaves_bind; [|intros _; apply leaves_bind; [|intros _]]; intros w.
  - assert (H := route_dl_leaves (get_or "dynamicLink" (JDict []) eff) (get_or "dynamicLink" (JDict []) pend) pend c w).
    cbn in *. congruence.
  - assert (H := route_pp_leaves (get_or "pixelpilot" (JDict []) eff) (get_or "pixelpilot" (JDict []) pend) pend w).
    cbn in *. congruence.
  - assert (H := route_idr_leaves (get_or "idrForward" (JDict []) eff) (get_or "idrForward" (JDict []) pend) w).
    cbn in *. congruence.
Qed.

(** ** The engine step *)

Lemma restart_post config w :
  post (runner_restart env config) w
    (fun ok w' => engine_of w' = (if ok then EngineUp config else EngineDown, None) /\
                  config_of w' = config_of w /\ services_of w' = services_of w)
    (fun _ _ => False).
Proof. done. Qed.

Lemma retune_post lnk w :
  post (_retune env lnk) w
    (fun ok w' => engine_of w' = (runner w, if ok then Some lnk else tuned w) /\
                  config_of w' = config_of w /\ services_of w' = services_of w)
    (fun _ w' => engine_of w' = engine_of w /\ config_of w' = config_of w /\ services_of w' = services_of w).
Proof. unfold post, _retune. destruct (rbind _ _) as [[]|]; done. Qed.

(** The engine needs nothing for [pend]: nothing it renders changed. *)
Definition quiet_wfb eff pend : Prop := wfb_changed pend eff = Ok false.
Definition quiet_link eff pend : Prop := same (get_ "link" pend) (get_ "link" eff) = true.

(** How a successful engine step brings [pend] about. *)
Inductive engine_took eff pend (e : engine F * option dict) : engine F * option dict -> Prop :=
| took_nothing : quiet_wfb eff pend -> quiet_link eff pend -> engine_took eff pend e e
| took_retune l : quiet_wfb eff pend -> get_or "link" (JDict []) pend = JDict l -> engine_took eff pend e (e.1, Some l)
| took_restart : engine_took eff pend e (EngineUp pend, None).

Lemma engine_post eff pend w :
  post (apply_engine env eff pend) w
    (fun ok w' => (if ok then engine_took eff pend (engine_of w) (engine_of w') else ~ (quiet_wfb eff pend /\ quiet_link eff pend)) /\
                  config_of w' = config_of w /\ services_of w' = services_of w)
    (fun _ w' => engine_of w' = engine_of w /\ config_of w' = config_of w /\ services_of w' = services_of w).
Proof.
  unfold apply_engine, _apply_link_local, as_dict. post_step. post_step; [|done].
  destruct (negb (same _ _) || a) eqn:Ech.
  - assert (Hloud : ~ (quiet_wfb eff pend /\ quiet_link eff pend)).
    { unfold quiet_wfb, quiet_link. intros [E1 E2]. rewrite E2 in Ech. cbn in Ech. congruence. }
    assert (Hbounce : forall w1, config_of w1 = config_of w -> services_of w1 = services_of w ->
      post (runner_restart env pend) w1
        (fun ok w' => (if ok then engine_took eff pend (engine_of w) (engine_of w') else ~ (quiet_wfb eff pend /\ quiet_link eff pend)) /\
                      config_of w' = config_of w /\ services_of w' = services_of w)
        (fun _ w' => engine_of w' = engine_of w /\ config_of w' = config_of w /\ services_of w' = services_of w)).
    { intros w1 Hc Hs. eapply post_weaken; [apply restart_post| |done]. intros ok w2 (He2 & Hc2 & Hs2).
      split_and!; [|congruence|congruence]. destruct ok; [|done]. rewrite He2. constructor. }
    do 2 (post_step; post_step; [|done]).
    destruct (get_or "link" (JDict []) eff) as [| | | | | |old]; try done.
    destruct (get_or "link" (JDict []) pend) as [| | | | | |new] eqn:El; try done. simplify_eq.
    post_step; [|by apply Hbounce].
    apply andb_prop in Ec as [[Ea _]%andb_prop _]. destruct a; [done|].
    post_step. eapply post_weaken; [apply retune_post| |done].
    intros [] w1 (He & Hc & Hs); [|by apply Hbounce].
    post_step. split_and!; [|done|done]. rewrite He. by eapply (took_retune _ _ (engine_of w)).
  - post_step. split_and!; [|done|done]. apply orb_false_elim in Ech as [E1 ->].
    constructor; [done|]. unfold quiet_link. by apply negb_false_iff in E1.
Qed.

(** ** The transaction *)

Definition committed (s : ConfigStore (F := F)) : ConfigStore := s <| cs_config := cs_pending s |>.
Definition saved (s : ConfigStore (F := F)) (f : option (json F)) : option (json F) :=
  if String.eqb (cs_path s) "" then f else Some (JDict (cs_pending s)).

(** The patches that other requests make while an apply runs: nothing locks the
    store, and the commit takes them along. *)
Definition patched (ds : list dict) (s : ConfigStore (F := F)) : ConfigStore := fold_left patch ds s.
Fixpoint late_edits (ds : list dict) : M F unit :=
  match ds with
  | [] => ret tt
  | d :: ds' => do! modify (fun w => w <| store ::= (fun s => patch s d) |>); late_edits ds'
  end.

Definition valid_pending w : Prop := validate_effective (e_bf env (calls w)) (pending (store w)) = Ok tt.

(** Everything an apply can end in, [ds] patched while it drove the services. *)
Inductive apply_outcome (ds : list dict) w : daemon F -> res (Z * json F) -> Prop :=
| apply_rejected e :            (* validation fails: nothing was touched *)
    validate_effective (e_bf env (calls w)) (pending (store w)) = Err e -> apply_outcome ds w w (Err e)
| apply_unreadable w' e :       (* the change cannot be worked out: engine and services as before *)
    valid_pending w ->
    config_of w' = config_of w -> engine_of w' = engine_of w -> services_of w' = services_of w ->
    apply_outcome ds w w' (Err e)
| apply_rolled_back w' (up : bool) :   (* the engine refuses: it is restarted on the old configuration *)
    valid_pending w -> ~ (quiet_wfb (effective (store w)) (pending (store w)) /\ quiet_link (effective (store w)) (pending (store w))) ->
    config_of w' = config_of w -> services_of w' = services_of w ->
    engine_of w' = (if up then EngineUp (effective (store w)) else EngineDown, None) ->
    apply_outcome ds w w' (Ok (500, ROLLED_BACK))
| apply_broken w' e :           (* the engine took it, then a service raised: not committed *)
    valid_pending w ->
    engine_took (effective (store w)) (pending (store w)) (engine_of w) (engine_of w') ->
    config_of w' = config_of w -> apply_outcome ds w w' (Err e)
| apply_unsaved w' e :          (* committed, but the file could not be written *)
    valid_pending w ->
    engine_took (effective (store w)) (pending (store w)) (engine_of w) (engine_of w') ->
    config_of w' = (committed (patched ds (store w)), file w) -> apply_outcome ds w w' (Err e)
| apply_late w' r :             (* committed and saved; then the beamformee is reconciled *)
    valid_pending w ->
    engine_took (effective (store w)) (pending (store w)) (engine_of w) (engine_of w') ->
    config_of w' = (committed (patched ds (store w)), saved (patched ds (store w)) (file w)) ->
    r = Ok (200, APPLIED) \/ (exists e, r = Err e) -> apply_outcome ds w w' r.

Lemma late_edits_post ds w :
  post (late_edits ds) w
    (fun _ w' => config_of w' = (patched ds (store w), file w) /\ engine_of w' = engine_of w /\ services_of w' = services_of w)
    (fun _ _ => False).
Proof. revert w. induction ds as [|d ds IH]; intros w; [done|]. cbn. do 2 post_step. exact (IH (w <| store ::= (fun s => patch s d) |>)). Qed.

Lemma armer_leaves : leaves (fun w => (config_of w, engine_of w, services_of w)) (armer_tick env).
Proof. intros w. unfold armer_tick. destruct (tick _ _ _ _ _ _ _ _) as [[]]. done. Qed.

Lemma commit_post w :
  post (store_commit env) w
    (fun _ w' => config_of w' = (committed (store w), saved (store w) (file w)) /\
                 engine_of w' = engine_of w /\ services_of w' = services_of w)
    (fun _ w' => config_of w' = (committed (store w), file w) /\ engine_of w' = engine_of w).
Proof.
  unfold post, store_commit, commit, _persist, saved. cbn.
  destruct (String.eqb (cs_path (store w)) ""); [done|]. by destruct (e_write env (calls w)).
Qed.

Lemma route_all_post eff pend c w :
  post (route_all env eff pend c) w
    (fun _ w' => config_of w' = config_of w /\ engine_of w' = engine_of w)
    (fun _ w' => config_of w' = config_of w /\ engine_of w' = engine_of w).
Proof.
  eapply post_weaken; [apply (leaves_post _ _ _ (route_all_leaves eff pend c))| |]; cbn; intros x w' H; split; congruence.
Qed.

Lemma apply_ends ds w : let '(w', r) := apply_with env (late_edits ds) w in apply_outcome ds w w' r.
Proof.
  enough (H : post (apply_with env (late_edits ds)) w (fun a w' => apply_outcome ds w w' (Ok a)) (fun e w' => apply_outcome ds w w' (Err e))).
  { unfold post in H. by destruct (apply_with env (late_edits ds) w) as [w' [a|e]]. }
  unfold apply_with. do 2 post_step. post_step. post_step; [|by constructor].
  assert (Hv : valid_pending w) by (destruct a; done). clear H a.
  post_step. eapply post_weaken; [apply engine_post| |by intros e w' (? & ? & ?); apply apply_unreadable].
  intros [] w1 (He & Hc & Hs).
  - do 2 (post_step; post_step; [|by apply apply_broken]).
    post_step. eapply post_weaken; [apply route_all_post| |by intros e w' [? E]; apply apply_broken; rewrite ?E; congruence].
    intros _ w2 [Hc2 He2].
    assert (Hst : store w2 = store w) by (unfold config_of in *; congruence).
    assert (Hfl : file w2 = file w) by (unfold config_of in *; congruence).
    post_step. eapply post_weaken; [apply late_edits_post| |done]. intros _ w3 (Hc3 & He3 & _).
    rewrite Hst, Hfl in Hc3. injection Hc3 as Hst3 Hfl3.
    post_step. eapply post_weaken; [apply commit_post| |].
    2:{ intros e w' [Hu E]. apply apply_unsaved; [done| |by rewrite Hu, Hst3, Hfl3]. by rewrite E, He3, He2. }
    intros _ w4 (Hc4 & He4 & _). rewrite Hst3, Hfl3 in Hc4. post_step.
    assert (Hlate : forall w5 r, (config_of w5, engine_of w5, services_of w5) = (config_of w4, engine_of w4, services_of w4) ->
              r = Ok (200, APPLIED) \/ (exists e, r = Err e) -> apply_outcome ds w w5 r).
    { intros w5 r H5 Hr. apply apply_late; [done| |congruence|done].
      assert (engine_of w5 = engine_of w1) as -> by congruence. done. }
    eapply post_weaken; [apply (leaves_post _ _ _ armer_leaves)| |]; intros x w5 H5; [post_step|]; apply Hlate; eauto.
  - post_step. eapply post_weaken; [apply restart_post| |done]. intros up w2 (He2 & Hc2 & Hs2).
    post_step. eapply (apply_rolled_back _ _ _ up); congruence.
Qed.


(** ** The configuration in force *)

Definition defaulted (s : ConfigStore (F := F)) : ConfigStore :=
  s <| cs_config := cs_defaults s |> <| cs_pending := cs_defaults s |>.

(** What a request can do to the store. *)
Inductive store_step (r : request F) w : ConfigStore (F := F) -> Prop :=
| step_same : store_step r w (store w)
| step_patch d : rq_body r = Some (Ok (JDict d)) \/ d = [] -> store_step r w (patch (store w) d)
| step_commit n : validate_effective (e_bf env n) (pending (store w)) = Ok tt -> store_step r w (committed (store w))
| step_reset : rq_path r = "/gs/reset" -> store_step r w (defaulted (store w)).

Lemma apply_store r w : store_step r w (store (_apply_gs env w).1).
Proof.
  assert (H := apply_ends [] w). unfold _apply_gs. change (late_edits []) with (ret tt : M F unit) in H.
  destruct (apply_with env (ret tt) w) as [w' res]. cbn.
  destruct H as [e _|w' e _ Hc _ _|w' up _ _ Hc _ _|w' e _ _ Hc|w' e Hv _ Hc|w' r' Hv _ Hc _]; [apply step_same|..];
    apply (f_equal fst) in Hc; cbn in Hc; rewrite Hc; solve [apply step_same|by eapply step_commit].
Qed.

(** What a request can do: nothing (but ask the environment), patch the store,
    apply, or reset. *)
Lemma route_cases r w :
  (let w' := (route env r w).1 in (config_of w', engine_of w', services_of w') = (config_of w, engine_of w, services_of w)) \/
  (exists d, (rq_body r = Some (Ok (JDict d)) \/ d = []) /\ (route env r w).1 = w <| store ::= (fun s => patch s d) |>) \/
  route env r w = _apply_gs env w \/
  (rq_path r = "/gs/reset" /\ store (route env r w).1 = defaulted (store w)).
Proof.
  unfold route. cbn zeta. destruct (String.prefix _ _).
  { left. unfold _proxy. by case_bool_decide. }
  repeat match goal with |- context [if ?c then _ else _] => destruct c eqn:? end; try by left.
  - unfold bind, lift, modify, get, as_dict, ret.
    destruct (_json (rq_body r)) as [v|] eqn:Ej; [|by left].
    destruct (validate_config_patch v); [|by left]. destruct v as [| | | | | |d]; try by left.
    right; left. exists d. split; [|done]. unfold _json in Ej. destruct (rq_body r) as [b|]; cbn in Ej; simplify_eq; auto.
  - auto.
  - do 3 right. split; [by match goal with
      | H : _ && String.eqb _ "/gs/reset" = true |- _ => apply andb_prop in H as [_ ?%String.eqb_eq] end|].
    unfold bind, store_reset, reset, runner_restart_store, runner_restart. cbn. by destruct (_persist _ _ _) as [f [|]].
  - left. unfold bind, lift. by destruct (rq_status r).
Qed.

Lemma route_store r w : store_step r w (store (route env r w).1).
Proof.
  destruct (route_cases r w) as [H|[(d & Hd & H)|[H|[Hp H]]]].
  - apply (f_equal (fun x => x.1.1.1)) in H. cbn in H. rewrite H. apply step_same.
  - rewrite H. by apply step_patch.
  - rewrite H. apply apply_store.
  - rewrite H. by apply step_reset.
Qed.

Lemma handle_store r w : store_step r w (store (handle env r w).1).
Proof. assert (H := route_store r w). unfold handle. by destruct (route env r w). Qed.
End Steps.

(** ** Following the effective configuration *)

Section Follow.
Context {F : Type} {PF : PyFloat F}.
Variable env : environment F.
#[local] Abbreviation dict := (list (string * json F)).
Implicit Types (w : daemon F) (eff pend : dict).

Definition dl_block eff : json F := get_or "dynamicLink" (JDict []) eff.
Definition pp_block eff : json F := get_or "pixelpilot" (JDict []) eff.
Definition idr_block eff : json F := get_or "idrForward" (JDict []) eff.
Definition width_of eff : res (json F) := obj_get "width" JNull (or_empty (get_ "link" eff)).

(** Changes the controller and the display need not be told. *)
Definition quiet_dl eff pend : Prop :=
  same (dl_block eff) (dl_block pend) = true /\
  exists v1 v2, width_of eff = Ok v1 /\ width_of pend = Ok v2 /\ same v1 v2 = true.
Definition quiet_pp eff pend : Prop := same (pp_block eff) (pp_block pend) = true.

(** The controller runs iff enabled, on the snapshot of a configuration with
    this [dynamicLink] block and width. *)
Definition controller_follows eff (c : bool * dict) : Prop :=
  enabled_of (dl_block eff) JNull = Ok c.1 /\
  (c.1 = true -> exists cfg, make_dl_snapshot cfg = Ok c.2 /\ rtc quiet_dl cfg eff).

Definition display_follows eff (d : bool * list (json F) * list (string * string)) : Prop :=
  enabled_of (pp_block eff) (JBool true) = Ok d.1.1 /\
  (d.1.1 = true -> exists cfg, render_pixelpilot_argv (e_repr env) cfg = Ok d.1.2 /\
                   render_pixelpilot_env (e_repr env) cfg = Ok d.2 /\ rtc quiet_pp cfg eff).

Definition relay_follows eff (running : bool) : Prop := enabled_of (idr_block eff) (JBool true) = Ok running.

(** The engine is down, or was built from a configuration from which only
    things it does not render changed, and has the link block of the last
    retune. *)
Definition engine_follows eff (e : engine F * option dict) : Prop :=
  match e.1 with
  | EngineDown => True
  | EngineUp base =>
      rtc quiet_wfb base eff /\
      match e.2 with
      | None => rtc quiet_link base eff
      | Some l => exists cfg, get_or "link" (JDict []) cfg = JDict l /\ rtc quiet_link cfg eff
      end
  end.

Definition coherent w : Prop :=
  let eff := effective (store w) in
  engine_follows eff (engine_of w) /\ controller_follows eff (controller_of w) /\
  display_follows eff (display_of w) /\ relay_follows eff (idr_running w).

Lemma engine_follows_took eff pend e e' : engine_follows eff e -> engine_took eff pend e e' -> engine_follows pend e'.
Proof.
  intros Hf Ht. unfold engine_follows in *. destruct Ht as [Hw Hl|l Hw Hl|]; cbn.
  - destruct e.1 as [|base]; [done|]. destruct Hf as [H1 H2]. split; [by eapply rtc_r|].
    destruct e.2 as [l|]; [destruct H2 as (cfg & ? & ?); exists cfg; split; [done|]|]; by eapply rtc_r.
  - destruct e.1 as [|base]; [done|]. destruct Hf as [H1 _]. split; [by eapply rtc_r|].
    exists pend. split; [done|reflexivity].
  - split; reflexivity.
Qed.

Lemma route_dl_follows eff pend v1 v2 w :
  width_of eff = Ok v1 -> width_of pend = Ok v2 -> controller_follows eff (controller_of w) ->
  post (_route_dynamic_link (dl_block eff) (dl_block pend) pend (negb (same v1 v2))) w
    (fun _ w' => controller_follows pend (controller_of w')) (fun _ _ => True).
Proof.
  intros H1 H2 [He Hs]. unfold _route_dynamic_link. rewrite He.
  post_step. post_step; [|done]. simplify_eq. post_step. post_step; [|done]. rename a into now, H into Hnow.
  cbn in He, Hs. destruct (dl_running w) eqn:Er, now; cbn [negb andb].
  - destruct (negb (same _ _) || negb _) eqn:Ec.
    + post_step. post_step; [|done]. do 1 post_step. split; cbn; [by rewrite Er|]. eauto using rtc_refl.
    + post_step. apply orb_false_elim in Ec as [E1%negb_false_iff E2%negb_false_iff].
      split; cbn; rewrite Er; [done|]. intros _. destruct (Hs eq_refl) as (cfg & Hc & Hr).
      exists cfg. split; [done|]. eapply rtc_r; [done|]. split; eauto.
  - do 1 post_step. by split.
  - post_step. post_step; [|done]. do 3 post_step. split; cbn; [done|]. eauto using rtc_refl.
  - post_step. split; cbn; rewrite Er; done.
Qed.

(** Equal dicts have the same keys, with equal values. *)
Lemma eqb_dict_incl (d e : dict) :
  json_eqb (JDict d) (JDict e) = true ->
  length d = length e /\ (forall k x, dict_get k d = Some x -> exists y, dict_get k e = Some y /\ json_eqb x y = true).
Proof.
  cbn. intros [Hl Hg]%andb_prop. split; [by apply Nat.eqb_eq|]. clear Hl.
  induction d as [|[k x] d IH]; intros k' x'; [done|].
  apply andb_prop in Hg as [Hk Hg]. cbn. destruct (String.eqb_spec k' k) as [->|]; [|by apply IH].
  intros [= <-]. destruct (dict_get k e) as [y|]; [eauto|done].
Qed.

Lemma eqb_dict_none (d e : dict) k :
  NoDup (dict_keys d) -> json_eqb (JDict d) (JDict e) = true -> dict_get k d = None -> dict_get k e = None.
Proof.
  intros Hd [Hl Hincl]%eqb_dict_incl Hk. apply dict_get_none. apply dict_get_none in Hk. intros He. apply Hk.
  apply list_elem_of_In. apply list_elem_of_In in He. clear Hk. revert k He.
  apply List.NoDup_length_incl; [by apply NoDup_ListNoDup|unfold dict_keys; rewrite !length_map; lia|].
  intros k Hk%list_elem_of_In. apply list_elem_of_In.
  destruct (dict_get k d) as [x|] eqn:E; [|by apply dict_get_none in E].
  destruct (Hincl _ _ E) as (y & Hy & _). by eapply dict_get_some_key.
Qed.

Lemma enabled_of_dict (d : dict) b : enabled_of (JDict d) b = Ok (truthy (get_or "enabled" b d)).
Proof. done. Qed.

(** The [enabled] of equal blocks, where it is a bool. *)
Lemma same_enabled (a b : json F) (dflt : bool) en :
  wf a -> same a b = true -> (forall d, a = JDict d -> is_bool (get_or "enabled" (JBool dflt) d) = true) ->
  (forall d, b = JDict d -> is_bool (get_or "enabled" (JBool dflt) d) = true) ->
  enabled_of a (JBool dflt) = Ok en -> enabled_of b (JBool dflt) = Ok en.
Proof.
  intros Hwf Hs Ha Hb. destruct a as [| | | | | |d]; try done. destruct b as [| | | | | |e]; try done.
  rewrite !enabled_of_dict. specialize (Ha d eq_refl). specialize (Hb e eq_refl). unfold same in Hs.
  intros [= <-]. do 2 f_equal. unfold get_or in *. apply wf_keys in Hwf.
  destruct (dict_get "enabled" d) as [x|] eqn:Ed.
  - apply eqb_dict_incl in Hs as [_ Hincl]. destruct (Hincl _ _ Ed) as (y & Hy & Hxy). rewrite Hy in *.
    destruct x as [|x| | | | |]; try done. destruct y as [|y| | | | |]; try done. cbn in Hxy.
    by apply eqb_prop in Hxy as ->.
  - by rewrite (eqb_dict_none d e "enabled" Hwf Hs Ed).
Qed.

Lemma validated_enabled bf (cfg : dict) :
  validate_effective bf cfg = Ok tt ->
  (forall d, pp_block cfg = JDict d -> is_bool (get_or "enabled" (JBool true) d) = true) /\
  (forall d, idr_block cfg = JDict d -> is_bool (get_or "enabled" (JBool true) d) = true).
Proof.
  unfold validate_effective. intros ([] & _ & H)%rbind_ok. apply rbind_ok in H as ([] & _ & H).
  apply rbind_ok in H as ([] & Hp & H). apply rbind_ok in H as ([] & Hi & _).
  unfold pp_block, idr_block, get_or, opt_block, get_ in *. unfold get_or in Hp, Hi. split.
  - destruct (dict_get "pixelpilot" cfg) as [v|]; [|by intros d [= <-]]. intros d ->. cbn in Hp.
    apply rbind_ok in Hp as ([] & Hc%check_ok & _). by apply negb_false_iff in Hc.
  - destruct (dict_get "idrForward" cfg) as [v|]; [|by intros d [= <-]]. intros d ->. cbn in Hi.
    apply rbind_ok in Hi as ([] & Hc%check_ok & _). by apply negb_false_iff in Hc.
Qed.

Lemma block_wf k (cfg : dict) : wf (JDict cfg) -> wf (get_or k (JDict []) cfg).
Proof.
  intros Hw. unfold get_or. destruct (dict_get k cfg) eqn:E; [by eapply wf_get|]. constructor; [constructor|done].
Qed.

Lemma route_pp_follows bf eff pend w :
  wf (JDict eff) -> validate_effective bf eff = Ok tt -> validate_effective bf pend = Ok tt ->
  display_follows eff (display_of w) ->
  post (_route_pixelpilot env (pp_block eff) (pp_block pend) pend) w
    (fun _ w' => display_follows pend (display_of w')) (fun _ _ => True).
Proof.
  intros Hwf [Hve _]%validated_enabled [Hvp _]%validated_enabled [He Hr]. unfold _route_pixelpilot.
  destruct (same (pp_block eff) (pp_block pend)) eqn:Es.
  { post_step. split; [by apply (same_enabled (pp_block eff)); [apply block_wf|..]|].
    intros Hon. destruct (Hr Hon) as (cfg & H1 & H2 & H3). exists cfg. split_and!; [done..|]. by eapply rtc_r. }
  rewrite He. post_step. post_step; [|done]. simplify_eq. post_step. post_step; [|done].
  rename a into now, H into Hnow. destruct now.
  - post_step. post_step; [|done]. do 3 post_step. post_step; [|done]. do 2 post_step.
    assert (Hstart : forall w1, pp_argv w1 = a -> pp_env w1 = a0 ->
              post (pp_start env) w1 (fun _ w' => display_follows pend (display_of w')) (fun _ _ => True)).
    { intros w1 E1 E2. unfold post, pp_start. destruct (e_popen _ _ _); [done|]. split; [done|]. cbn. intros _.
      exists pend. rewrite E1, E2. eauto using rtc_refl. }
    post_step; [unfold pp_restart; do 2 post_step|]; by apply Hstart.
  - post_step; [post_step|post_step]; split; cbn; try done; rewrite Ec; done.
Qed.

Lemma route_idr_follows bf eff pend w :
  wf (JDict eff) -> validate_effective bf eff = Ok tt -> validate_effective bf pend = Ok tt ->
  relay_follows eff (idr_running w) ->
  post (_route_idr_forward (idr_block eff) (idr_block pend)) w
    (fun _ w' => relay_follows pend (idr_running w')) (fun _ _ => True).
Proof.
  intros Hwf [_ Hve]%validated_enabled [_ Hvp]%validated_enabled He. unfold _route_idr_forward, relay_follows in *.
  destruct (same (idr_block eff) (idr_block pend)) eqn:Es.
  { post_step. by apply (same_enabled (idr_block eff)); [apply block_wf|..]. }
  rewrite He. post_step. post_step; [|done]. simplify_eq. post_step. post_step; [|done].
  rename a into now, H into Hnow. destruct now, (idr_running w) eqn:Er; cbn [negb andb].
  - do 2 (post_step; post_step; [|done]). post_step; [do 2 post_step; post_step|post_step; rewrite Er]; done.
  - by post_step.
  - by post_step.
  - post_step. by rewrite Er.
Qed.

(** The beamforming probe only ever rejects. *)
Lemma validate_none bf (cfg : dict) : validate_effective bf cfg = Ok tt -> validate_effective None cfg = Ok tt.
Proof.
  unfold validate_effective. intros ([] & Hl & H)%rbind_ok. rewrite H.
  destruct (get_or "link" (JDict []) cfg) as [| | | | | |link]; try done.
  enough (validate_link None cfg link = Ok tt) as -> by done. unfold validate_link in *.
  repeat (apply rbind_ok in Hl as ([] & -> & Hl); cbn [rbind]). by destruct (get_ "beamforming" link).
Qed.

Lemma route_all_follows eff pend v1 v2 w :
  wf (JDict eff) -> validate_effective None eff = Ok tt -> validate_effective None pend = Ok tt ->
  width_of eff = Ok v1 -> width_of pend = Ok v2 ->
  controller_follows eff (controller_of w) -> display_follows eff (display_of w) -> relay_follows eff (idr_running w) ->
  post (route_all env eff pend (negb (same v1 v2))) w
    (fun _ w' => config_of w' = config_of w /\ engine_of w' = engine_of w /\ controller_follows pend (controller_of w') /\
                 display_follows pend (display_of w') /\ relay_follows pend (idr_running w'))
    (fun _ _ => True).
Proof.
  intros Hwf Hve Hvp H1 H2 Hc Hd Hi. unfold route_all.
  post_step. eapply post_weaken; [|intros u w1 H|done].
  { apply (post_and _ _ _ _ _ _ (leaves_post _ _ w (route_dl_leaves _ _ pend _)) (route_dl_follows eff pend v1 v2 w H1 H2 Hc)). }
  destruct H as [L1 Hc1]. cbn in L1.
  post_step. eapply post_weaken; [|intros u' w2 H|done].
  { eapply post_and; [apply (leaves_post _ _ w1 (route_pp_leaves env _ _ pend))|].
    apply (route_pp_follows None eff pend w1); try done. by replace (display_of w1) with (display_of w) by congruence. }
  destruct H as [L2 Hd2]. cbn in L2.
  eapply post_weaken; [|intros u'' w3 H|done].
  { eapply post_and; [apply (leaves_post _ _ w2 (route_idr_leaves _ _))|].
    apply (route_idr_follows None eff pend w2); try done. by replace (idr_running w2) with (idr_running w) by congruence. }
  destruct H as [L3 Hi3]. cbn in L3. split_and!; congruence.
Qed.

(** ** The invariant *)

(** The configurations are JSON values, the effective one validates, and the
    engine and the services follow it. *)
Record daemon_ok w : Prop := {
  ok_eff_wf : wf (JDict (effective (store w)));
  ok_pend_wf : wf (JDict (pending (store w)));
  ok_valid : validate_effective None (effective (store w)) = Ok tt;
  ok_coherent : coherent w }.

Lemma apply_ok w : daemon_ok w -> post (_apply_gs env) w (fun _ w' => daemon_ok w') (fun _ _ => True).
Proof.
  intros [Hwe Hwp Hv (He & Hc & Hd & Hi)]. unfold _apply_gs, apply_with. do 2 post_step. post_step. post_step; [|done].
  rename H into Hpv. destruct a. apply validate_none in Hpv.
  post_step. eapply post_weaken; [apply engine_post| |done]. intros [] w1 (Ht & Hc1 & Hs1).
  - post_step. post_step; [|done]. rename a into v1, H into Hv1.
    post_step. post_step; [|done]. rename a into v2, H into Hv2.
    post_step. eapply post_weaken; [apply (route_all_follows _ _ v1 v2 w1); try done| |done].
    { by replace (controller_of w1) with (controller_of w) by (unfold services_of in Hs1; congruence). }
    { by replace (display_of w1) with (display_of w) by (unfold services_of in Hs1; congruence). }
    { by replace (idr_running w1) with (idr_running w) by (unfold services_of in Hs1; congruence). }
    intros _ w2 (Hc2 & He2 & Hf1 & Hf2 & Hf3). do 2 post_step. post_step.
    eapply post_weaken; [apply commit_post| |done]. intros _ w3 (Hc3 & He3 & Hs3).
    post_step. eapply post_weaken; [apply (leaves_post _ _ _ (armer_leaves env))| |done]. intros u w4 H4. cbn beta in H4. post_step.
    assert (Hst : store w2 = store w) by (apply (f_equal fst) in Hc1, Hc2; cbn in *; congruence).
    assert (Hst4 : store w4 = committed (store w)).
    { rewrite <- Hst. apply (f_equal fst) in Hc3. apply (f_equal (fun x => x.1.1.1)) in H4. cbn in *. congruence. }
    split; rewrite ?Hst4; try done. unfold coherent. rewrite Hst4. cbn -[engine_of]. unfold services_of in *.
    split_and!.
    + replace (engine_of w4) with (engine_of w1) by congruence. by eapply engine_follows_took.
    + by replace (controller_of w4) with (controller_of w2) by congruence.
    + by replace (display_of w4) with (display_of w2) by congruence.
    + by replace (idr_running w4) with (idr_running w2) by congruence.
  - post_step. eapply post_weaken; [apply restart_post| |done]. intros up w2 (He2 & Hc2 & Hs2). post_step.
    assert (Hst : store w2 = store w) by (apply (f_equal fst) in Hc1, Hc2; cbn in *; congruence).
    split; rewrite ?Hst; try done. unfold coherent. rewrite Hst. unfold services_of in *. split_and!.
    + rewrite He2. destruct up; [split; apply rtc_refl|done].
    + by replace (controller_of w2) with (controller_of w) by congruence.
    + by replace (display_of w2) with (display_of w) by congruence.
    + by replace (idr_running w2) with (idr_running w) by congruence.
Qed.

(** A request's body is JSON; it is no reset and does not fail half-way. *)
Definition rq_wf (r : request F) : Prop := forall v, rq_body r = Some (Ok v) -> wf v.
Definition clean w (r : request F) : Prop :=
  rq_path r <> "/gs/reset" /\ forall e, (route env r w).2 = Err e -> (route env r w).1 = w.

Lemma patch_wf s (d : dict) : wf (JDict (pending s)) -> wf (JDict d) -> wf (JDict (pending (patch s d))).
Proof.
  intros Hp Hd. cbn. rewrite <- (merge_value_dict (cs_pending s) d). apply wf_merge; [done|]. by intros c [= <-].
Qed.

Lemma handle_ok w r : daemon_ok w -> rq_wf r -> clean w r -> daemon_ok (handle env r w).1.
Proof.
  intros Hok Hwf [Hnr Hcl]. assert ((handle env r w).1 = (route env r w).1) as -> by (unfold handle; by destruct (route env r w)).
  destruct (route_cases env r w) as [H|[(d & Hd & H)|[H|[Hp _]]]]; [..|done].
  - destruct Hok as [H1 H2 H3 (H4 & H5 & H6 & H7)]. revert H. generalize (route env r w).1. intros w' H. unfold services_of in H.
    assert (Hst : store w' = store w) by (apply (f_equal (fun x => x.1.1.1)) in H; exact H).
    split; rewrite ?Hst; try done. unfold coherent. rewrite Hst. split_and!; congruence.
  - rewrite H. destruct Hok as [H1 H2 H3 H4]. split; [done| |done|done]. apply patch_wf; [done|].
    destruct Hd as [Hd| ->]; [by apply Hwf|]. constructor; [constructor|done].
  - assert (P := apply_ok w Hok). unfold post in P. rewrite <- H in P.
    destruct (route env r w) as [w' [a|e]] eqn:E; [done|]. cbn in Hcl. by rewrite (Hcl e eq_refl).
Qed.

Fixpoint clean_run w (rs : list (request F)) : Prop :=
  match rs with [] => True | r :: rs' => clean w r /\ rq_wf r /\ clean_run (handle env r w).1 rs' end.

Lemma serve_ok rs w : daemon_ok w -> clean_run w rs -> daemon_ok (serve env w rs).
Proof.
  revert w. induction rs as [|r rs IH]; intros w Hok Hcl; [done|]. destruct Hcl as (Hc & Hwf & Hcl).
  change (daemon_ok (serve env (handle env r w).1 rs)). apply IH; [by apply handle_ok|exact Hcl].
Qed.

(** ** Boot *)

Lemma build_app_ok path f w0 :
  build_app env path f = Ok w0 -> (forall doc, f = Some (Ok doc) -> wf doc) ->
  wf (JDict (effective (store w0))) /\ pending (store w0) = effective (store w0) /\
  validate_effective None (effective (store w0)) = Ok tt /\ cs_defaults (store w0) = default_config /\
  make_dl_snapshot (effective (store w0)) = Ok (dl_snapshot w0) /\
  render_pixelpilot_argv (e_repr env) (effective (store w0)) = Ok (pp_argv w0) /\
  render_pixelpilot_env (e_repr env) (effective (store w0)) = Ok (pp_env w0) /\
  dl_running w0 = false /\ pp_running w0 = false /\ idr_running w0 = false.
Proof.
  unfold build_app. intros (s & Hs & ([] & Hv & H)%rbind_ok)%rbind_ok Hwf.
  apply rbind_ok in H as (_ & _ & H). apply rbind_ok in H as (snap & Hsn & H). apply rbind_ok in H as (argv & Ha & H).
  apply rbind_ok in H as (penv & He & [= <-]). cbn.
  assert (Hload : exists loaded, s = store_init default_config loaded path /\ wf (JDict loaded)).
  { assert (Hnil : wf (JDict (F := F) [])) by (constructor; [constructor|done]).
    unfold store_load in Hs. destruct f as [r|]; [|simplify_eq; eauto].
    destruct (String.eqb path ""); [simplify_eq; eauto|]. apply rbind_ok in Hs as (doc & -> & Hs).
    apply rbind_ok in Hs as (loaded & Hl & [= <-]). exists loaded. split; [done|]. specialize (Hwf doc eq_refl).
    destruct doc as [| | | |[]| |d]; cbn in Hl; try done; [by destruct (forallb _ _)|]. simplify_eq. by apply wf_warn_unknown. }
  destruct Hload as (loaded & -> & Hl). split_and!; try done. cbn.
  rewrite <- (merge_value_dict default_config loaded). apply wf_merge; [done|]. intros c [= <-]. apply default_config_wf.
Qed.

Lemma app_start_ok path f w0 w1 :
  build_app env path f = Ok w0 -> (forall doc, f = Some (Ok doc) -> wf doc) -> app_start env w0 = (w1, Ok tt) ->
  daemon_ok w1.
Proof.
  intros Hb Hf Hst. destruct (build_app_ok _ _ _ Hb Hf) as (H1 & H2 & H3 & _ & H4 & H5 & H6 & H7 & H8 & H9).
  enough (P : post (app_start env) w0 (fun _ w' => daemon_ok w') (fun _ _ => True)).
  { unfold post in P. by rewrite Hst in P. }
  clear Hst. unfold app_start, runner_start, runner_restart_store. do 2 post_step.
  eapply post_weaken; [apply restart_post| |done]. intros up w2 (He2 & Hc2 & Hs2). do 3 post_step.
  assert (Hst : store w2 = store w0) by (apply (f_equal fst) in Hc2; exact Hc2). rewrite Hst.
  assert (Hs2' : dl_running w2 = false /\ pp_running w2 = false /\ idr_running w2 = false /\
                 dl_snapshot w2 = dl_snapshot w0 /\ pp_argv w2 = pp_argv w0 /\ pp_env w2 = pp_env w0).
  { unfold services_of, controller_of, display_of in Hs2. simplify_eq. split_and!; congruence. }
  destruct Hs2' as (D1 & D2 & D3 & D4 & D5 & D6).
  post_step. post_step; [|done]. rename a into pp, H into Hpp.
  post_step. eapply (post_weaken _ _ (fun _ w3 => w3 = w2 <| pp_running := pp |>)); [| |done].
  { destruct pp; [|post_step; destruct w2; cbn in *; by subst].
    instantiate (1 := fun _ _ => True). unfold post, pp_start. by destruct (e_popen _ _ _). }
  intros _ w3 ->. post_step. post_step; [|done]. rename a into idr, H into Hidr.
  post_step. eapply (post_weaken _ _ (fun _ w4 => w4 = w2 <| pp_running := pp |> <| idr_running := idr |>)); [| |done].
  { instantiate (1 := fun _ _ => True). destruct idr; post_step; [done|]. destruct w2; cbn in *; by subst. }
  intros _ w4 ->. post_step. post_step; [|done]. rename a into dl, H into Hdl.
  eapply (post_weaken _ _ (fun _ w5 => w5 = w2 <| pp_running := pp |> <| idr_running := idr |> <| dl_running := dl |>)); [| |done].
  { instantiate (1 := fun _ _ => True). destruct dl; post_step; [done|]. destruct w2; cbn in *; by subst. }
  intros _ w5 ->. split; cbn -[engine_of]; rewrite ?Hst, ?H2; try done. unfold coherent. cbn. rewrite Hst. split_and!.
  - change (engine_follows (effective (store w0)) (engine_of w2)). rewrite He2. destruct up; [split; apply rtc_refl|done].
  - split; [done|]. intros _. exists (effective (store w0)). cbn. rewrite D4. split; [done|apply rtc_refl].
  - split; [done|]. intros _. exists (effective (store w0)). cbn. rewrite D5, D6. split_and!; [done..|apply rtc_refl].
  - done.
Qed.

(** ** The theorems *)


Lemma app_start_store w : store (app_start env w).1 = store w.
Proof.
  assert (L : leaves store (app_start env)); [|apply L].
  unfold app_start, runner_start, runner_restart_store.
  apply leaves_bind; [apply leaves_bind; [done|intros; apply leaves_ret]|intros _].
  apply leaves_bind; [done|intros w']. leaves_solve.
Qed.

(** Whatever is asked of the daemon, one request after the other, resets,
    failures and interrupted applies included, the configuration in force
    validates, if the defaults do. *)
Theorem served_config_validates path f w0 rs :
  build_app env path f = Ok w0 -> (forall doc, f = Some (Ok doc) -> wf doc) ->
  validate_effective None (default_config (F := F)) = Ok tt ->
  validate_effective None (effective (store (serve env (app_start env w0).1 rs))) = Ok tt.
Proof.
  intros Hb Hf Hd. destruct (build_app_ok _ _ _ Hb Hf) as (_ & _ & Hv & Hdef & _).
  rewrite <- (app_start_store w0) in Hv, Hdef. revert Hv Hdef. generalize (app_start env w0).1.
  induction rs as [|r rs IH]; intros w Hv Hdef; [done|].
  change (validate_effective None (effective (store (serve env (handle env r w).1 rs))) = Ok tt).
  assert (H := handle_store env r w). apply IH.
  - destruct H as [|d _|n Hn|_]; [done|done|by eapply validate_none|]. cbn. by rewrite Hdef.
  - destruct H; done.
Qed.
End Follow.

