(* ===== verification/ApiScenarios.v ===== *)
(** * The daemon on a bench: concrete runs of the API

    An environment in which everything succeeds, the daemon booted on its
    defaults there, and runs that show where the effective configuration and
    the running services part. *)
From Stdlib Require Import ZArith Lia Bool String QArith.
From stdpp Require Import base tactics list sets strings relations.
From S2P Require Import Prelude PyStr FloatModels Json Cards Schema StatsClient LearnedPrior Decision Signals Policy FlightLog ConnMonitor Config ConfigBuild Radio Graph Pixelpilot Beamforming Api ApiFacts.
Open Scope Z_scope.

(** The drone is up and reports its card's address. *)
Definition bench_drone (answer : json Q) : environment Q :=
  mkEnv (fun _ => true) (fun _ => ["wlan0"]) (fun _ _ => RunOk) (fun _ => None) (fun _ => None)
    (fun _ => mkPlatform (fun _ => true) (fun _ => true) (fun _ => Some "84:fc:14:6c:36:e6"))
    (fun _ _ path _ => Ok (200, Ok (if String.eqb path "/status" then answer else JDict [])))
    (fun argv _ => if forallb is_str argv then None else Some TypeError) (fun _ => "?") (fun _ => "error").
Definition bench : environment Q :=
  bench_drone (JDict [("beamforming", JDict [("localMac", JStr "00:11:22:33:44:55")])]).

Definition request_of (method path : string) (body : option (json Q)) : request Q :=
  mkReq method path [] (Ok <$> body) (Ok (JDict [])).
Definition PATCH (d : list (string * json Q)) : request Q := request_of "PATCH" "/gs/config" (Some (JDict d)).
Definition APPLY : request Q := request_of "POST" "/gs/apply" None.
Definition RESET_ALL : request Q := request_of "POST" "/gs/reset" None.

(** Booted on the defaults, saving to a file. *)
Definition booted : daemon Q :=
  match build_app bench "/etc/fpvd/config.json" None with
  | Ok w => (app_start bench w).1
  | Err _ => mkDaemon (store_init [] [] "") None EngineDown None false [] false [] [] false bf_init [] 0
  end.

(** The answer to the last of some requests. *)
Definition answer (env : environment Q) (w : daemon Q) (rs : list (request Q)) (r : request Q) : Z :=
  (handle env r (serve env w rs)).2.1.

Definition dl_on : request Q := PATCH [("dynamicLink", JDict [("enabled", JBool true)])].

(** A new drone address is committed and reported, but the running controller
    keeps sending to the old one: its block did not change. *)
Lemma drone_host_not_routed :
  let move := PATCH [("drone", JDict [("host", JStr "10.9.9.9")])] in
  let w := serve bench booted [dl_on; APPLY; move; APPLY] in
  answer bench booted [dl_on; APPLY; move] APPLY = 200 /\ dl_running w = true /\
  get_ "droneAddr" (dl_snapshot w) = JStr "10.5.0.10" /\
  (exists snap, make_dl_snapshot (effective (store w)) = Ok snap /\ get_ "droneAddr" snap = JStr "10.9.9.9").
Proof. vm_compute. eauto 10. Qed.

(** A reset restarts the engine on the defaults and leaves the display stopped
    and the controller running, against the configuration it reports. *)
Lemma reset_leaves_services :
  let edit := PATCH [("pixelpilot", JDict [("enabled", JBool false)]); ("dynamicLink", JDict [("enabled", JBool true)])] in
  let w := serve bench booted [edit; APPLY; RESET_ALL] in
  answer bench booted [edit; APPLY] RESET_ALL = 200 /\ effective (store w) = default_config /\
  enabled_of (pp_block (effective (store w))) (JBool true) = Ok true /\ pp_running w = false /\
  enabled_of (dl_block (effective (store w))) JNull = Ok false /\ dl_running w = true.
Proof. vm_compute. split_and!; reflexivity. Qed.

(** A null controller block passes validation and the patch checks; applying it
    with a new channel moves the radio and then raises: the answer is an error
    and the store keeps the old channel. *)
Lemma null_block_half_applied :
  let edit := PATCH [("link", JDict [("channel", JInt 36)]); ("dynamicLink", JNull)] in
  let w := serve bench booted [edit; APPLY] in
  answer bench booted [] edit = 200 /\ answer bench booted [edit] APPLY = 500 /\
  get_ "channel" (default [] (tuned w)) = JInt 36 /\
  get_or "link" JNull (effective (store w)) = get_or "link" JNull default_config /\
  get_ "channel" (match get_or "link" JNull (effective (store w)) with JDict l => l | _ => [] end) = JInt 132.
Proof. vm_compute. split_and!; reflexivity. Qed.

(** A drone whose status is no object: the apply commits, saves, and answers an
    error. *)
Lemma late_error_after_commit :
  let odd := bench_drone (JList []) in
  let edit := PATCH [("link", JDict [("beamforming", JDict [("enabled", JBool true)])])] in
  let w := serve odd booted [edit; APPLY] in
  answer odd booted [edit] APPLY = 500 /\ effective (store w) = pending (store (serve odd booted [edit])) /\
  file w = Some (JDict (effective (store w))).
Proof. vm_compute. split_and!; reflexivity. Qed.

(** A patch that arrives while an apply drives the services is committed with
    it, though it was neither validated nor applied. *)
Lemma patch_during_apply_committed :
  let late := PATCH [("link", JDict [("width", JInt 7)])] in
  let '(w, r) := apply_with bench (fun w => ((handle bench late w).1, Ok tt)) booted in
  r = Ok (200, APPLIED) /\ is_ok (validate_effective None (effective (store booted))) = true /\
  is_ok (validate_effective None (effective (store w))) = false /\ file w = Some (JDict (effective (store w))).
Proof. vm_compute. split_and!; reflexivity. Qed.

(** Changing only the tap port of the controller's block restarts the engine;
    switching the controller on does not. *)
Lemma tap_port_bounces :
  let edit := PATCH [("dynamicLink", JDict [("tap", JDict [("port", JInt 8111)])])] in
  let w := serve bench booted [edit; APPLY] in
  runner booted = EngineUp default_config /\ runner w = EngineUp (effective (store w)) /\
  ~ (effective (store w) = default_config) /\ runner (serve bench booted [dl_on; APPLY]) = EngineUp default_config.
Proof. vm_compute. split_and!; [reflexivity..|discriminate|reflexivity]. Qed.

(** An apply of a new channel, a patch of the width arriving while it runs. *)
Definition moved : daemon Q := serve bench booted [PATCH [("link", JDict [("channel", JInt 36)])]].
Definition late_width : list (list (string * json Q)) := [[("link", JDict [("width", JInt 40)])]].

