(* ===== verification/Boot.v ===== *)
(** * supervisor.py: what boots

    [build_app] on a configuration that validates: the clients of the drone, the
    connection monitor, the controller and the display are built without an
    exception, unless the file sets one of the knobs to a null, an infinity or
    NaN that validation lets through; and a null, applied over the API, keeps
    the daemon from booting again. *)
From Stdlib Require Import ZArith Lia Bool String QArith.
From stdpp Require Import base tactics list sets strings pretty.
From S2P Require Import Prelude PyStr FloatModels Json Cards Schema StatsClient LearnedPrior Decision Signals Policy FlightLog ConnMonitor Config ConfigBuild Radio Graph Pixelpilot Beamforming Api ApiFacts ApiScenarios.
Open Scope Z_scope.

(** ** The monitor's configuration *)

Definition monitor_keys : list string := "httpFailCount" :: MONITOR_POSITIVE.

(** Every knob of the monitor that is set is a finite number. *)
Definition monitor_set (eff : list (string * json binary64)) : Prop :=
  forall cm k v, get_ "connectionMonitor" eff = JDict cm -> k ∈ monitor_keys -> dict_get k cm = Some v -> finite_knob v = true.

Record sane_monitor (c : ConnectionMonitorConfig binary64) : Prop := {
  sm_timeout : fofZ 0 <d http_timeout_s c; sm_interval : fofZ 0 <d eval_interval_s c; sm_grace : fofZ 0 <d disconnect_grace_s c;
  sm_fails : 1 <= http_fail_count c; sm_poll : fofZ 0 <d http_poll_s c; sm_stale : http_poll_s c <d tunnel_stale_s c }.

Lemma obj_get_or k v (d : list (string * json binary64)) : obj_get k v (JDict d) = Ok (get_or k v d).
Proof. done. Qed.

Section Monitor.
Context (eff cm : list (string * json binary64)) (Hcm : get_ "connectionMonitor" eff = JDict cm) (Hset : monitor_set eff).
Context (Hv : _validate_connection_monitor (JDict cm) = Ok tt).

(** A knob in seconds, read with its default. *)
Lemma seconds_read k (dflt : binary64) : k ∈ MONITOR_POSITIVE -> ffinite dflt = true -> fofZ 0 <d dflt ->
  finite_knob (get_or k (JFloat dflt) cm) = true /\ fofZ 0 <d num_val (get_or k (JFloat dflt) cm) /\
  py_float (get_or k (JFloat dflt) cm) = Ok (num_val (get_or k (JFloat dflt) cm)).
Proof.
  intros Hk Hf Hd. cbn [_validate_connection_monitor] in Hv. apply rbind_ok in Hv as ([] & _ & H).
  apply rbind_ok in H as ([] & Hpos & _). rewrite for_each_ok, Forall_forall in Hpos. specialize (Hpos k Hk). cbn beta zeta in Hpos.
  apply check_ok in Hpos. assert (Hp : forall v, dict_get k cm = Some v -> finite_knob v = true) by (intros v; eapply Hset; [done|unfold monitor_keys; set_solver]).
  unfold get_, get_or in *. destruct (dict_get k cm) as [v|]; [|done]. specialize (Hp v eq_refl).
  split; [done|]. split; [|by apply py_float_plain]. rewrite (plain_number _ Hp) in Hpos.
  apply (le_Z_false _ 0); [done..|]. by destruct v.
Qed.

Lemma monitor_builds : exists mc, monitor_config eff = Ok mc /\ sane_monitor mc.
Proof.
  destruct (seconds_read "tunnelStaleS" (tunnel_stale_s default_moncfg)) as (N1 & P1 & E1); [set_solver|done|done|].
  destruct (seconds_read "httpPollS" (http_poll_s default_moncfg)) as (N2 & P2 & E2); [set_solver|done|done|].
  destruct (seconds_read "httpTimeoutS" (http_timeout_s default_moncfg)) as (N3 & P3 & E3); [set_solver|done|done|].
  destruct (seconds_read "evalIntervalS" (eval_interval_s default_moncfg)) as (N4 & P4 & E4); [set_solver|done|done|].
  destruct (seconds_read "disconnectGraceS" (disconnect_grace_s default_moncfg)) as (N5 & P5 & E5); [set_solver|done|done|].
  cbn [_validate_connection_monitor] in Hv. apply rbind_ok in Hv as ([] & _ & ([] & _ & ([] & Hf & Hlt)%rbind_ok)%rbind_ok).
  apply rbind_ok in Hlt as (bad & Hle & ->%check_ok).
  assert (Hfails : exists n, get_or "httpFailCount" (JInt 2) cm = JInt n /\ 1 <= n).
  { unfold _validate_pos_int, get_, get_or in *. apply check_ok in Hf. assert (Hn : forall v, dict_get "httpFailCount" cm = Some v -> finite_knob v = true) by (intros v; eapply Hset; [done|unfold monitor_keys; set_solver]).
    destruct (dict_get "httpFailCount" cm) as [v|]; [|exists 2; done]. specialize (Hn v eq_refl). destruct v; try done. cbn in Hf. eexists. split; [done|lia]. }
  destruct Hfails as (n & Hn & Hn1).
  unfold monitor_config. rewrite Hcm.
  assert (Hor : or_empty (JDict cm) = JDict cm) by (by destruct cm). rewrite Hor. rewrite !obj_get_or. cbn [rbind].
  rewrite E1. cbn [rbind]. rewrite E2. cbn [rbind]. rewrite E3. cbn [rbind]. change (http_fail_count default_moncfg) with 2. rewrite Hn. cbn [py_int rbind].
  rewrite E4. cbn [rbind]. rewrite E5. cbn [rbind]. eexists. split; [done|]. split; try done. exact (py_le_false _ _ N1 N2 Hle).
Qed.
End Monitor.

(** ** Boot *)

Definition blocks_set (eff : list (string * json binary64)) : Prop :=
  is_dict (get_or "idrForward" (JDict []) eff) = true /\ monitor_set eff.

(** The display block is there and none of its strings is null. *)
Definition display_set (eff pp : list (string * json binary64)) : Prop :=
  get_or "pixelpilot" (JDict []) eff = JDict pp /\ (forall k, k ∈ player_keys -> dict_get k pp <> Some JNull) /\
  (forall dvr k, dict_get "dvr" pp = Some (JDict dvr) -> k ∈ ["dir"; "template"] -> dict_get k dvr <> Some JNull).

Lemma bad_int_false lo hi (v : json binary64) : bad_int lo hi v = false -> exists n, v = JInt n /\ lo <= n <= hi.
Proof. destruct v; try done. cbn. intros H%negb_false_iff. eexists. split; [done|lia]. Qed.

Lemma opt_block_dict k body (d blk : list (string * json binary64)) :
  opt_block k body d = Ok tt -> get_or k (JDict []) d = JDict blk -> dict_get k d = None \/ body (JDict blk) = Ok tt.
Proof.
  unfold opt_block, get_, get_or. destruct (dict_get k d) as [v|]; [|by left]. intros H ->. right. exact H.
Qed.

Lemma player_validated bf (eff pp : list (string * json binary64)) :
  validate_effective bf eff = Ok tt -> get_or "pixelpilot" (JDict []) eff = JDict pp -> _validate_pixelpilot (JDict pp) = Ok tt.
Proof.
  intros Hv Hpp. unfold validate_effective in Hv. apply rbind_ok in Hv as ([] & _ & ([] & _ & ([] & Hvp & _)%rbind_ok)%rbind_ok).
  destruct (opt_block_dict _ _ _ _ Hvp Hpp) as [E|E]; [|done]. unfold get_or in Hpp. rewrite E in Hpp. simplify_eq. by vm_compute.
Qed.

Section Boot.
Context (env : environment binary64).

Lemma links_build bf (eff : list (string * json binary64)) :
  validate_effective bf eff = Ok tt -> is_dict (get_or "drone" (JDict []) eff) = true -> blocks_set eff ->
  exists ln, build_links env eff = Ok ln /\ sane_monitor (ln_monitor ln) /\ 1 <= (ln_relay ln).2 <= 65535.
Proof.
  intros Hv Hd (Hi & Hm). unfold validate_effective in Hv.
  apply rbind_ok in Hv as ([] & _ & ([] & _ & ([] & _ & ([] & Hidr & ([] & Hcm & ([] & Hdr & _)%rbind_ok)%rbind_ok)%rbind_ok)%rbind_ok)%rbind_ok).
  destruct (get_or "drone" (JDict []) eff) as [| | | | | |dr] eqn:Edr; try done.
  destruct (get_or "idrForward" (JDict []) eff) as [| | | | | |idr] eqn:Eidr; try done.
  assert (Hport : exists n, get_or "apiPort" (JInt 8080) dr = JInt n).
  { destruct (opt_block_dict _ _ _ _ Hdr Edr) as [E|E].
    - unfold get_or in Edr. rewrite E in Edr. simplify_eq. by exists 8080.
    - cbn [_validate_drone] in E. apply rbind_ok in E as ([] & _ & (n & -> & _)%check_ok%bad_int_false). by exists n. }
  assert (Hrelay : exists n, get_or "port" (JInt 11223) idr = JInt n /\ 1 <= n <= 65535).
  { destruct (opt_block_dict _ _ _ _ Hidr Eidr) as [E|E].
    - unfold get_or in Eidr. rewrite E in Eidr. simplify_eq. by exists 11223.
    - cbn [_validate_idr_forward] in E. by apply rbind_ok in E as ([] & _ & ?%check_ok%bad_int_false). }
  assert (Hmon : exists mc, monitor_config eff = Ok mc /\ sane_monitor mc).
  { destruct (get_ "connectionMonitor" eff) as [| | | | | |cm] eqn:Ecm; unfold opt_block in Hcm; rewrite Ecm in Hcm; try done.
    - exists default_moncfg. unfold monitor_config. rewrite Ecm. split; [done|]. by split.
    - by apply (monitor_builds eff cm). }
  destruct Hport as [n Hn], Hrelay as (m & Hm1 & Hm2), Hmon as (mc & Hmc & Hs).
  unfold build_links. rewrite Edr, Eidr, !obj_get_or. cbn [rbind]. rewrite Hn. cbn [py_int rbind]. rewrite Hmc. cbn [rbind].
  rewrite Hm1. cbn [py_int rbind]. eexists. split; [done|]. done.
Qed.

End Boot.

(** ** A null that validates and keeps the daemon from booting *)

Definition null_interval : request Q := PATCH [("connectionMonitor", JDict [("evalIntervalS", JNull)])].

(** The apply is answered with a 200 and writes the file; the next boot from
    that file raises a [TypeError]. *)
Lemma null_interval_no_boot :
  answer bench booted [null_interval] APPLY = 200 /\
  exists doc, file (serve bench booted [null_interval; APPLY]) = Some doc /\
    build_app bench "/etc/fpvd/config.json" (Some (Ok doc)) = Err TypeError.
Proof. split; [vm_compute; reflexivity|]. eexists. split; [vm_compute; reflexivity|]. vm_compute. reflexivity. Qed.

(** Nor does it boot from a file with a null drone block. *)
Lemma null_drone_no_boot :
  let s := serve bench booted [PATCH [("drone", JNull)]; APPLY] in
  answer bench booted [PATCH [("drone", JNull)]] APPLY = 200 /\
  exists doc, file s = Some doc /\ build_app bench "/etc/fpvd/config.json" (Some (Ok doc)) = Err AttributeError.
Proof. split; [vm_compute; reflexivity|]. eexists. split; [vm_compute; reflexivity|]. vm_compute. reflexivity. Qed.
