(* ===== verification/Witnesses.v ===== *)
(** * The theorems at concrete inputs

    Each lemma applies one theorem of the library to a concrete run, over the
    exact rationals where the theorem is about any float: its hypotheses hold
    there by evaluation. *)
From Stdlib Require Import ZArith Lia Bool String QArith.
From stdpp Require Import base tactics list gmap strings relations.
From S2P Require Import Prelude PyStr FloatModels Json Bytes StatsClient Decision Wire TapWire Signals LearnedPrior Policy PolicyFacts PolicyGates Controller.
Open Scope Z_scope.

(** The value of a computation that returns. *)
Definition the_ok {A} (r : res A) : option A := match r with Ok a => Some a | Err _ => None end.
Definition force {A : Type} (o : option A) : match o return Type with Some _ => A | None => unit end :=
  match o with Some a => a | None => tt end.

(* ------------------------------------------------------------------ *)
(** ** The policy *)

Module PolicyRuns.
Definition pc : PolicyConfig Q := mkPolCfg default_selcfg default_lpc 20.
Definition read : string -> file_read Q := fun _ => FileNotFound.
Definition p0 : Policy Q := Eval vm_compute in force (the_ok (policy_init pc read "p")).

(** A window at time [t] seconds with SNR [v] and residual loss [loss]. *)
Definition sig (t : Z) (v loss : Q) : Signals Q :=
  signals_init <| timestamp := inject_Z t |> <| snr := Some v |> <| snr_w := Some v |>
    <| residual_loss_w := loss |>.

Definition clean (t : Z) : pol_event (F := Q) := EvTick (sig t 30 0).
Definition lossy (t : Z) : pol_event (F := Q) := EvTick (sig t 30 (1 # 2)%Q).

(** A tick that finds half of the packets lost demotes rung 1 to rung 0. *)
Definition after_loss := Eval vm_compute in force (the_ok (pol_step pc p0 (lossy 10))).

Lemma policy_rung_in_range_witness :
  0 <= mcs_of after_loss.1 <= 7 /\ Z.abs (mcs_of after_loss.1 - mcs_of p0) <= 1 /\
  (forall d, o_decision after_loss.2 = Some d -> d_mcs d = mcs_of after_loss.1).
Proof.
  apply (policy_rung_in_range pc read "p" p0 p0 (OpEvent (lossy 10))); [reflexivity|apply rtc_refl|].
  vm_compute. reflexivity.
Defined.

(** Thirty clean windows of a second each promote. *)
Definition cleans (n : nat) : list (pol_event (F := Q)) := map (fun i => clean (100 + Z.of_nat i)) (List.seq 0 n).
Definition dwelt : Policy Q := Eval vm_compute in force (the_ok (pol_run pc p0 (cleans 29))).
Definition promoted := Eval vm_compute in force (the_ok (tick pc dwelt (sig 129 30 0))).

Lemma promote_passes_gates_witness :
  mcs_of promoted.1 = 2 /\ 2 <= 7 /\ sustained_loss pc (sig 129 30 0) = false /\
  (fec_work (sig 129 30 0) >=f emergency_fec_pressure (pc_selector pc)) = false.
Proof.
  pose proof (promote_passes_gates pc dwelt (sig 129 30 0) promoted.1 promoted.2) as H. cbv zeta in H.
  destruct H as (H1 & H2 & H3 & H4 & _); [vm_compute; split; discriminate|vm_compute; reflexivity|vm_compute; reflexivity|].
  exact (conj H1 (conj H2 (conj H3 H4))).
Defined.

(** A run of events is reachable. *)
Lemma run_reach es (p p' : Policy Q) : pol_run pc p es = Ok p' -> rtc (pol_next pc read) p p'.
Proof.
  revert p. induction es as [|e es IH]; intros p; cbn; [intros [= <-]; apply rtc_refl|].
  intros ([p1 o] & H & Hr)%rbind_ok. eapply rtc_l; [by eapply N_event|by apply IH].
Qed.

(** Two demotes, three ticks apart, the prior re-keyed in between. *)
Definition d1 := Eval vm_compute in force (the_ok (pol_step pc promoted.1 (lossy 140))).
Definition between : list (pol_op (F := Q)) := [OpEvent (lossy 141); OpBind "bl-r8812" 40; OpEvent (lossy 142)].
Definition d2 : Policy Q := Eval vm_compute in force (the_ok (pol_ops pc read d1.1 between)).
Definition d3 := Eval vm_compute in force (the_ok (pol_step pc d2 (lossy 143))).

Lemma demotes_are_spaced_witness : demote_cooldown_windows (pc_selector pc) <= op_ticks (between ++ [OpEvent (lossy 143)]).
Proof.
  apply (demotes_are_spaced pc read "p" p0 promoted.1 (lossy 140) d1.1 d1.2 between d2 (lossy 143) d3.1 d3.2);
    [reflexivity|apply (run_reach (cleans 30)); vm_compute; reflexivity|vm_compute; reflexivity|vm_compute; reflexivity|
     vm_compute; reflexivity| |vm_compute; reflexivity|vm_compute; reflexivity].
  repeat constructor; discriminate.
Defined.

Lemma sustained_loss_reaches_floor_witness :
  exists p', pol_run pc p0 (map EvTick [sig 10 30 (1 # 2)%Q; sig 11 30 (1 # 2)%Q; sig 12 30 (1 # 2)%Q]) = Ok p' /\ mcs_of p' = 0.
Proof.
  destruct (sustained_loss_reaches_floor pc read "p" p0 p0 [sig 10 30 (1 # 2)%Q; sig 11 30 (1 # 2)%Q; sig 12 30 (1 # 2)%Q]) as [H|[H _]].
  - reflexivity.
  - apply rtc_refl.
  - repeat constructor.
  - vm_compute. discriminate.
  - exact H.
  - vm_compute in H. discriminate.
Defined.

Lemma policy_never_raises_witness : exists p' o, pol_step pc p0 (clean 10) = Ok (p', o).
Proof.
  destruct (policy_never_raises pc read "p" p0 p0 (clean 10)) as [H|(x & _ & H & _)];
    [reflexivity|apply rtc_refl|exact H|discriminate].
Defined.

(** The fast path on a loss notice, from rung 2. *)
Definition fast := Eval vm_compute in force (the_ok (loss_event pc promoted.1 (sig 140 30 (1 # 2)%Q) None)).

Lemma fast_path_only_demotes_witness :
  mcs_of fast.1 = mcs_of promoted.1 - 1 /\ windows_since_demote fast.1 = 0.
Proof.
  destruct (fast_path_only_demotes pc promoted.1 (sig 140 30 (1 # 2)%Q) None fast.1 fast.2) as [_ H];
    [vm_compute; split; discriminate|vm_compute; reflexivity|].
  destruct (o_decision fast.2) as [d|] eqn:E; [|vm_compute in E; discriminate].
  destruct H as (_ & H1 & H2 & _). split; [exact H1|exact H2].
Defined.

(** A loss on the trial of a fresh promote is attributed to the flap. *)
Definition trial_in : SelIn Q :=
  mkSelIn (Some 30%Q) (Some 30%Q) None (1 # 2)%Q true false false 0%Q false true 130000%Q false false.
Definition flapped := Eval vm_compute in force (the_ok (select (pc_selector pc) (leading promoted.1) trial_in)).

Lemma failure_attribution_witness :
  2 = current_mcs (leading promoted.1) /\ si_loss_demote trial_in = true /\
  on_trial (leading promoted.1) 2 (si_ts_ms trial_in) = true.
Proof.
  destruct (failure_attribution (pc_selector pc) (leading promoted.1) trial_in flapped.1 flapped.2.1 flapped.2.2 2 Flap 30%Q)
    as (H1 & _ & H2 & _ & [(H & _)|(_ & _ & H3)]); [vm_compute; reflexivity|vm_compute; reflexivity|discriminate|].
  exact (conj H1 (conj H2 H3)).
Defined.

Definition sel0 : LeadingSelector Q := leading p0.
Definition charged := Eval vm_compute in force (the_ok (_charge_flap (pc_selector pc) sel0 3 (Some 20%Q) 1000%Q)).

Lemma damper_window_witness :
  (_suppressed (pc_selector pc) charged 3 2000%Q false).2 = true /\ (_suppressed (pc_selector pc) charged 3 11000%Q false).2 = false.
Proof.
  assert (H : forall ts' : Q, _) by
    (refine (damper_window (pc_selector pc) sel0 3 (Some 20%Q) 1000%Q charged _ _ _ _ _);
     [vm_compute; discriminate|vm_compute; discriminate|vm_compute; discriminate|apply Nat.ltb_lt; reflexivity|vm_compute; reflexivity]).
  split.
  - apply (proj1 (H 2000%Q)). split; vm_compute; reflexivity.
  - apply (proj2 (H 11000%Q)). vm_compute. discriminate.
Defined.

(** A rung confirmed at 20 dB, confirmed again at 25 dB. *)
Definition confirmed : LeadingSelector Q :=
  sel0 <| confirmed_until_ms := {[ 1 := 60000%Q ]} |> <| confirmed_snr := {[ 1 := 20%Q ]} |>.
Definition quiet_in : SelIn Q :=
  mkSelIn (Some 25%Q) (Some 25%Q) None 0%Q false false false 0%Q false false 1000%Q false false.
Definition again := Eval vm_compute in force (the_ok (select (pc_selector pc) confirmed quiet_in)).

Lemma confirmation_high_water_witness : exists c', confirmed_snr again.1 !! 1 = Some c' /\ (20%Q <=f c') = true.
Proof.
  apply (confirmation_high_water (num := fun _ : Q => True) (pc_selector pc) confirmed quiet_in again.1 again.2.1 again.2.2 1 60000%Q 20%Q);
    first [exact I|vm_compute; reflexivity|intros; exact I].
Defined.

(** An SNR two decibels under a confident knee demotes, and the tick keeps it. *)
Definition knee_at (v : Q) : LearnedPrior Q :=
  mkLP "a" false (mkKnee (repeat (Some v) 8) (repeat 10%Q 8)) 0.
Definition armed : Policy Q :=
  promoted.1 <| learned_prior := knee_at 20%Q |> <| snr_demote_count := 1 |>.
Definition fade : Signals Q := sig 140 18%Q 0%Q.
Definition prep := Eval vm_compute in tick_prepare pc armed fade.
Definition faded := Eval vm_compute in force (the_ok (tick pc armed fade)).

Lemma prepared_demote_sticks_witness : mcs_of faded.1 = mcs_of armed - 1.
Proof.
  apply (prepared_demote_sticks pc armed fade prep.1.1.1 prep.1.1.2 prep.1.2 prep.2 faded.1 faded.2);
    [vm_compute; split; discriminate|vm_compute; reflexivity..].
Defined.
End PolicyRuns.

(* ------------------------------------------------------------------ *)
(** ** The controller, its wire formats and the signals *)

Module ControllerRuns.
Import PolicyRuns.

Definition cc : CtlConfig Q := mkCtlCfg pc (1 # 2)%Q 20.
Definition agg0 : SignalAggregator Q := agg_init (1 # 5)%Q (1 # 5)%Q (1 # 10)%Q 50%Q.
Definition st0 : Ctl Q := ctl_init p0 agg0 0.

Definition ck (t : Z) : Clock Q := let q := inject_Z t in mkClock q q q q q q q.
Definition ant : RxAnt := mkRxAnt 1 5805 1 20 700 (-50) (-48) (-46) 28 30 32 0 0 0.
(** A 10 ms slot of the tap with seven packets of which two are lost. *)
Definition micro_lossy : TapMicro := mkMicro 1 1000 7 5 0 2 5 [ant].
Definition micro_clean : TapMicro := mkMicro 1 1000 7 7 0 0 7 [ant].

Definition inputs : list (ctl_in (F := Q)) :=
  InMicro micro_lossy None (ck 10) :: repeat (InMicro micro_clean None (ck 10)) 9.
Definition ran := Eval vm_compute in force (the_ok (ctl_run cc st0 inputs)).

Lemma drone_follows_controller_witness :
  let applied := drone_receive (mkDedup 0 false) (sent ran.2) in
  length applied = length (sent ran.2) /\ Forall (rung_ok cc) applied /\
  ct_emitSeq ran.1 = 0 + Z.of_nat (length (sent ran.2)).
Proof.
  apply (drone_follows_controller cc read "p" p0 agg0 0 inputs ran.1 ran.2); vm_compute; reflexivity.
Defined.

Definition one := Eval vm_compute in force (the_ok (on_micro cc st0 micro_lossy None (ck 10))).

Lemma micro_cadence_witness : ct_micros one.1 = 1 /\ tick_count one.2 = 0%nat.
Proof.
  destruct (micro_cadence cc st0 micro_lossy None (ck 10) one.1 one.2) as [H1 H2]; [vm_compute; reflexivity|].
  split; [exact H1|exact H2].
Defined.

Definition video_rx : RxEvent Q :=
  mkRx 10%Q "video rx" [("all", 70); ("data", 70); ("out", 70); ("lost", 0)] [ant] None None.
Definition fed := Eval vm_compute in force (the_ok (on_event cc st0 (EvRx video_rx) None (ck 10))).

Lemma stats_feed_is_fallback_witness :
  tick_count fed.2 = 1%nat /\ tap_active (signals (ct_agg fed.1)) = false.
Proof.
  pose proof (stats_feed_is_fallback cc st0 video_rx None (ck 10) fed.1 fed.2) as H.
  destruct H as (H1 & H2 & _); [vm_compute; reflexivity|]. split; [exact H1|exact H2].
Defined.

(** *** The decision packet *)

Definition dec : Decision Q := mkDecision 10%Q 5 [] (mkSnapshot None None 0%Q 0%Q None 5).
Definition packet := Eval vm_compute in force (the_ok (encode dec 77)).

(** Bits 3 and 90 flipped on the way. *)
Lemma corruption_detected_witness :
  decodeDecision (xor_bytes packet (bit_error 3)) <> DR_Ok 0 77 5 /\
  decodeDecision (xor_bytes packet (xor_bytes (bit_error 3) (bit_error 90))) <> DR_Ok 0 77 5.
Proof.
  destruct (corruption_detected dec 77 packet 3 90) as [H1 H2];
    [vm_compute; reflexivity|apply Nat.ltb_lt; reflexivity|apply Nat.ltb_lt; reflexivity|discriminate|].
  split; [apply H1|apply H2].
Defined.

(** Across the wrap-around of the counter. *)
Lemma sequence_dedup_witness :
  (dedup_check (mkDedup (seq (encoder_after (mkEncoder (2 ^ 32 - 1)) dec 0)) true)
     (seq (encoder_after (mkEncoder (2 ^ 32 - 1)) dec 1))).2 = false.
Proof.
  apply (sequence_dedup (mkEncoder (2 ^ 32 - 1)) dec 0 1); [split; vm_compute; [discriminate|reflexivity]|vm_compute; reflexivity].
Defined.

(** *** The tap *)

Ltac in_range := unfold rec_ok, bucket_ok, un, sn; repeat match goal with |- _ /\ _ => split end; cbn [tm_seq tm_timestamp_ms tm_pkt_all tm_pkt_data tm_pkt_fec_rec tm_pkt_lost tm_pkt_out tm_rx_ant_stats micro_lossy length ant ra_freq ra_mcs ra_bw ra_ant ra_pkt_recv ra_rssi_min ra_rssi_avg ra_rssi_max ra_snr_min ra_snr_avg ra_snr_max ra_evm_min ra_evm_avg ra_evm_max]; try lia.

Lemma tap_roundtrip_witness : decode (tap_bytes (Micro micro_lossy)) = Ok (Some (Micro micro_lossy)).
Proof.
  apply tap_roundtrip. in_range. constructor; [in_range|constructor].
Defined.

Definition datagram : list Z := Eval vm_compute in tap_bytes (Loss (mkLoss 3 1000 2 40 43)).

Lemma tap_decode_exact_witness : tap_bytes (Loss (mkLoss 3 1000 2 40 43)) = datagram.
Proof.
  apply (tap_decode_exact datagram (Loss (mkLoss 3 1000 2 40 43))); [|vm_compute; reflexivity].
  unfold datagram. repeat constructor; discriminate.
Defined.

(** *** The smoothed signals: a tap slot, its loss notice and a reset. *)

Definition a0 : SignalAggregator Q := agg_init (1 # 5)%Q 0%Q 0%Q 50%Q.
Definition tenth_root (x y : Q) : Q := x.
Definition a1 := @consume_micro Q (PyFloat_Qpow tenth_root) a0 micro_lossy 10%Q.

Lemma signals_bounded_witness : unit_q (residual_loss_w (signals a1)) /\ opt_in_range 0 60 (snr (signals a1)).
Proof.
  destruct (signals_bounded tenth_root 0 60 (1 # 5)%Q 0%Q 0%Q 50%Q a1) as (H1 & _ & H2);
    [split; vm_compute; discriminate|split; vm_compute; discriminate| |split; [exact H1|exact H2]].
  apply rtc_once. apply S_micro; [split; vm_compute; discriminate|].
  constructor; [split; vm_compute; discriminate|constructor].
Defined.
End ControllerRuns.

(* ------------------------------------------------------------------ *)
(** ** The learned prior *)

Module PriorRuns.
Import PolicyRuns.
Definition cfg : LearnedPriorConfig Q := default_lpc.
Definition learned : LearnedPrior Q := mkLP "adapter_20" false (mkKnee [Some 5%Q; None; Some 9%Q; None; None; None; None; None] (repeat 9%Q 8)) 3.

Lemma flush_load_roundtrip_witness :
  exists p doc, flush cfg learned = [(p, doc)] /\
    lp_init cfg (fun _ => FileDoc doc) "adapter_20" = Ok (learned <| lp_since_flush := 0 |>).
Proof.
  destruct (flush_load_roundtrip cfg learned) as (p & doc & H1 & H2); [split; reflexivity|reflexivity|reflexivity|].
  exists p, doc. split; [exact H1|]. apply H2. reflexivity.
Defined.

Definition born : LearnedPrior Q := Eval vm_compute in force (the_ok (lp_init cfg read "a")).

Lemma lp_reach_inv_witness : lp_inv cfg (teach_failure cfg (ingest cfg born (Some 20%Q) (Some 3) true true).1 (Some 4) (Some 12%Q)).1.
Proof.
  apply (lp_reach_inv cfg read); [reflexivity|].
  apply reach_teach, reach_ingest, (reach_init cfg read "a"). vm_compute. reflexivity.
Defined.

Lemma knee_step_moves_witness :
  exists k1, knee_step cfg (Some 10%Q) 6%Q true = Some k1 /\ (6 <= k1 <= 10)%Q.
Proof.
  destruct (knee_step_moves cfg (Some 10%Q) 6%Q) as [H _]; [split; vm_compute; discriminate|split; vm_compute; discriminate|].
  destruct (knee_step cfg (Some 10%Q) 6%Q true) as [k1|]; [|destruct H]. exists k1. split; [reflexivity|].
  destruct H as (H1 & H2 & _). split; [apply H2; vm_compute; discriminate|exact H1].
Defined.

Lemma eff_knees_monotone_witness : fleb (5%Q) (9%Q) = true.
Proof.
  apply (eff_knees_monotone (num := fun _ : Q => True) cfg (lp_model learned) 0 2 5%Q 9%Q);
    [|split; discriminate|vm_compute; reflexivity|vm_compute; reflexivity].
  repeat constructor.
Defined.
End PriorRuns.
