(* ===== verification/SystemWitnesses.v ===== *)
(** * The theorems about the link services and the configuration at concrete inputs *)
From Stdlib Require Import ZArith Lia Bool String QArith.
From stdpp Require Import base tactics list gmap strings.
From S2P Require Import Prelude PyStr FloatModels Json AggQueue Tunnel FlightLog LineProto TxSel StatsHub Cards Schema StatsClient ConnMonitor Config ConfigBuild.
Open Scope Z_scope.

Module QueueRuns.
Definition ops : list agg_op := [Put [1; 2; 3]; Put [4; 5]; Put [6; 7; 8]; Fire; Put [9]].
Definition ran := Eval vm_compute in agg_run (agg_new (Some 6) true) ops.

Lemma batches_are_messages_witness :
  exists groups, ran.2 = map (@concat Z) groups /\ concat groups ++ q_queue ran.1 = accepted 6 ops.
Proof.
  destruct (batches_are_messages 6 true ops ran.1 ran.2) as (g & H1 & H2 & _);
    [reflexivity|discriminate|vm_compute; reflexivity|]. exists g. split; [exact H1|exact H2].
Defined.

Lemma queued_messages_are_flushed_witness :
  q_timer (agg_run (agg_new (Some 6) true) ops).1 = AggQueue.Armed /\ (fire (agg_run (agg_new (Some 6) true) ops).1).2 = [[9]].
Proof.
  destruct (queued_messages_are_flushed 6 ops) as [H _]; [discriminate|repeat constructor; discriminate|].
  apply H. discriminate.
Defined.

Definition tun : TunnelService := tunnel_new 100 true <| tx_sock := Some 4 |>.

Lemma tunnel_delivers_witness :
  exists t' log, up_run tun ([Up_pkt [1; 2]; Up_pkt [3]; Up_timer; Up_pkt [4; 5; 6]] ++ [Up_flush]) = Ok (t', log) /\
    concat (map unpack_batch (map snd log)) = [[1; 2]; [3]; [4; 5; 6]].
Proof.
  destruct (tunnel_delivers 100 tun 4 [Up_pkt [1; 2]; Up_pkt [3]; Up_timer; Up_pkt [4; 5; 6]]) as (t' & log & H1 & _ & H2);
    [split; [discriminate|reflexivity]|reflexivity|reflexivity|repeat constructor; discriminate|].
  exists t', log. split; [exact H1|exact H2].
Defined.
End QueueRuns.

Module LogRuns.
Definition cfg : FlightLogConfig Q := mkFLC true "/log" (1 # 1000)%Q 2.
Definition io : IO := mkIO true true true true.
Definition d0 : dir := [("000001.jsonl", mkFile ["a"] [])].

Lemma log_append_only_witness :
  exists f', dict_get "000001.jsonl" (fl_do cfg io (Op_write (Some "b")) (mkFL (Some "000001.jsonl") 1 1 0 1000, d0)).2 = Some f' /\
    FlightLog.extends (mkFile ["a"] []) f'.
Proof. apply log_append_only; reflexivity. Defined.

Definition started := Eval vm_compute in match fl_init cfg io d0 with Ok x => x | Err _ => (mkFL None 0 0 0 0, []) end.
Definition log_ops : list (IO * fl_op) := [(io, Op_write (Some "x")); (io, Op_write (Some "y")); (io, Op_write (Some "z"))].

Lemma log_loss_bounded_witness :
  Z.of_nat (length (f_buffered (mkFile ["x"; "y"] ["z"]))) < Z.max 1 2.
Proof.
  apply (log_loss_bounded cfg io d0 started log_ops "000002.jsonl" (mkFile ["x"; "y"] ["z"]));
    [vm_compute; reflexivity|repeat constructor|vm_compute; reflexivity|vm_compute; reflexivity].
Defined.
End LogRuns.

Module HubRuns.
Definition key1 : ant_key := ([5805; 1; 20], 1).
Definition child : string * (ant_dict * packets) :=
  ("video rx", ([(key1, [100; -60; -50; -40; 20; 25; 30])], map (fun k => (k, (1, 1))) RX_PKT_KEYS)).
Definition hub : StatsHub := mkHub (mkTxSel [] None) [child] [] [] [].
Definition txcfg : TxSelectorConfig Q := mkTxSelCfg 3 (1 # 10)%Q 3.

Lemma window_pass_sound_witness :
  exists h' w, aggregate_window txcfg hub = Ok (h', w) /\ hub_cur h' = [].
Proof.
  destruct (window_pass_sound txcfg hub) as (h' & w & H1 & H2 & _).
  - constructor; [|constructor]. split; [|reflexivity].
    constructor; [|constructor]. unfold ant_sane. cbn. lia.
  - exists h', w. split; [exact H1|exact H2].
Defined.
End HubRuns.

Module MonitorRuns.
Definition cfg : ConnectionMonitorConfig Q := default_moncfg.
Definition tunnel_rx : Event Q := EvRx (mkRx 0%Q "tunnel rx" [] [] None None).
(** An evaluation at [t] whose HTTP calls succeed or fail. *)
Definition at_ (t : Z) (snap : json Q) (ok : bool) : obs Q :=
  let q := inject_Z t in mkObs q snap None q q q ok None q q.
Definition up : list (mon_in (F := Q)) := [InStats tunnel_rx 10%Q; InEval (at_ 11 (JDict []) true)].
Definition gone : list (mon_in (F := Q)) := [InEval (at_ 14 JNull true); InEval (at_ 17 JNull true)].

Lemma disconnect_confirmed_witness :
  exists t w, Some TunnelLost = Some w /\ bad_run cfg (up ++ gone) t w /\ ((20%Q -f t) >=f disconnect_grace_s cfg) = true.
Proof.
  apply (disconnect_confirmed cfg (up ++ gone) (at_ 20 JNull true) 20%Q (Some TunnelLost) 11%Q).
  vm_compute. left.
Defined.

Lemma silence_disconnects_witness :
  exists at_mono why last_seen, EvDisconnected at_mono (Some why) last_seen ∈
    evs_of cfg (st_after cfg mon_init up) (InEval (at_ 14 JNull true) :: [InEval (at_ 17 JNull true)] ++ [InEval (at_ 20 JNull true)]) /\
    why = TunnelLost.
Proof.
  destruct (silence_disconnects cfg up (at_ 14 JNull true) [InEval (at_ 17 JNull true)] (at_ 20 JNull true)) as (a & why & s & H & Hw).
  - vm_compute. reflexivity.
  - repeat constructor.
  - vm_compute. reflexivity.
  - exists a, why, s. split; [exact H|exact Hw].
Defined.
End MonitorRuns.

Module ConfigRuns.
Definition store : ConfigStore (F := Q) := store_init default_config [] "/etc/fpvd/config.json".
Definition sparse : list (string * json Q) := [("link", JDict [("channel", JInt 149)])].

Lemma patch_sets_and_keeps_witness :
  look ["link"; "channel"] (JDict (pending (patch store sparse))) = Some (Some (JInt 149)).
Proof.
  destruct (patch_sets_and_keeps store sparse ["link"; "channel"]) as [H _]; [apply wfb_wf; reflexivity|].
  apply H. reflexivity.
Defined.

Lemma respects_channel (d : list (string * json Q)) :
  look ["link"; "channel"] (JDict d) = Some (Some (JInt 132)) -> respects (JDict d) (JDict sparse).
Proof.
  intros H p leaf Hp. destruct p as [|k p]; [done|]. cbn.
  destruct (String.eqb_spec k "link") as [->|]; [|done]. destruct p as [|k p]; cbn; [done|].
  destruct (String.eqb_spec k "channel") as [->|]; [|done]. destruct p as [|? ?]; cbn; [|done].
  congruence.
Qed.

Lemma respects_nothing (d : list (string * json Q)) : respects (JDict d) (JDict []).
Proof. intros [|k p] leaf _; done. Qed.

Lemma commit_load_roundtrip_witness :
  exists doc s2, (commit (patches store [sparse]) None None).2.1 = Some doc /\
    store_load "/etc/fpvd/config.json" (Some (Ok doc)) = Ok s2 /\
    jeq (JDict (effective s2)) (JDict (pending (patches store [sparse]))).
Proof.
  refine (proj2 (proj2 (commit_load_roundtrip "/etc/fpvd/config.json" [] [sparse] None _ _ _ _ _)));
    [discriminate|apply wfb_wf; reflexivity|apply respects_nothing| |vm_compute; reflexivity].
  constructor; [|constructor]. split; [apply wfb_wf; reflexivity|]. apply respects_channel. reflexivity.
Defined.

Definition stale : json Q := JDict [("dynamicLink", JDict [("selector", JDict [("emergencyLossRate", JFloat 1%Q)])])].
Definition loaded := Eval vm_compute in match store_load "/etc/fpvd/config.json" (Some (Ok stale)) with Ok s => s | Err _ => store end.

Lemma load_drops_stale_keys_witness :
  look (["dynamicLink"; "selector"] ++ ["emergencyLossRate"]) (JDict (effective loaded)) = None.
Proof.
  apply (load_drops_stale_keys "/etc/fpvd/config.json" stale loaded _ SELECTOR_KEYS);
    [vm_compute; reflexivity|apply wfb_wf; reflexivity|apply (bool_decide_eq_true_1 _); reflexivity|].
  apply (bool_decide_eq_true_1 _). reflexivity.
Defined.

Definition two_nodes : list (string * json Q) :=
  deep_merge default_config [("link", JDict [("cards", JList
    [JStr "wlan0"; JDict [("host", JStr "10.0.0.7"); ("iface", JStr "wlan1")]])])].

Lemma single_remote_host_witness :
  exists cs, resolve_cards two_nodes [] = Ok cs /\
    exists h, Forall (fun c => host c = JStr h /\ h <> "") (remote_cards cs).
Proof. apply (single_remote_host None). vm_compute. reflexivity. Defined.

Definition dl : list (string * json binary64) := match dict_get "dynamicLink" default_config with Some (JDict d) => d | _ => [] end.

Lemma all_numeric (d : list (string * json binary64)) :
  forallb (fun kv => finite_knob kv.2) d = true -> numeric d.
Proof.
  intros H k' v. revert H. induction d as [|[k0 v0] d IH]; cbn; [discriminate|]. intros [H1 H2]%andb_true_iff.
  destruct (String.eqb k' k0); [intros [= <-]; exact H1|by apply IH].
Qed.

Lemma validated_config_builds_witness :
  exists snap pc fl agg, make_dl_snapshot (default_config (F := binary64)) = Ok snap /\
    build_policy_config snap = Ok (pc, fl) /\ build_aggregator snap = Ok agg.
Proof.
  destruct (validated_config_builds None default_config dl) as (snap & pc & fl & agg & H1 & H2 & H3 & _).
  - vm_compute. reflexivity.
  - reflexivity.
  - split.
    1-3: intros d [= <-]; apply all_numeric; reflexivity.
    + reflexivity.
    + intros link [= <-]. exists 20. reflexivity.
  - exists snap, pc, fl, agg. exact (conj H1 (conj H2 H3)).
Defined.
End ConfigRuns.
