(* ===== verification/ServiceWitnesses.v ===== *)
(** * Concrete runs: processes, the cluster, the engine and the API

    The hypotheses of the theorems about supervised processes, node sessions,
    the cluster's wiring, the engine, beamforming and the daemon, discharged on
    small runs over the rationals. *)
From Stdlib Require Import ZArith Lia Bool String QArith.
From stdpp Require Import base tactics list sets strings pretty relations.
From S2P Require Import Prelude PyStr FloatModels Json Cards Schema StatsClient LearnedPrior Decision Signals Policy FlightLog ConnMonitor Config ConfigBuild CrashBudget TxSel Radio Cluster Graph AggQueue Tunnel Pixelpilot Beamforming Api ApiFacts ApiScenarios.
From S2P Require Import RunnerSupervisor Children NodeSession Engine EngineThread.
Open Scope Z_scope.

(** ** Processes *)

Module ProcessRuns.
Import RunnerSupervisor.

Definition quick : wait_ans Q := mkWait 0%Q [mkTurn 2%Q None false].
Definition ops : list (sup_op Q) :=
  [OpStart (mkSpawn None (inr 41)) quick; OpRestart (mkKill None true 0) (mkSpawn None (inr 42)) quick].
Definition sup0 : ProcessSupervisor Q := sup_init ["/usr/bin/pixelpilot"] [] false (3 # 2) true None 5 60%Q.

Definition ended := Eval vm_compute in default (sup0, []) (sup_run sup0 ops).

Lemma no_process_lost_witness : owned [] ended.2 = held ended.1.
Proof.
  refine (proj1 (no_process_lost ["/usr/bin/pixelpilot"] [] false (3 # 2)%Q true None 5 60%Q ops ended.1 ended.2 _ _));
    vm_compute; auto.
Defined.

Definition waiting : ProcessSupervisor Q := sup0 <| _proc := Some (mkPopen 41 None) |>.
Definition clock : wait_ans Q := mkWait 0%Q (map (fun i => mkTurn ((1 # 5) * inject_Z i)%Q None false) (seqZ 0 10)).

Lemma wait_ready_returns_witness : exists s' ok, _wait_ready waiting clock = Some (s', ok).
Proof.
  destruct (wait_ready_returns waiting (mkPopen 41 None) clock 8) as (s' & ok & before & t & H & _).
  - reflexivity.
  - reflexivity.
  - intros i t Ht. do 10 (destruct i as [|i]; [injection Ht as <-; vm_compute; discriminate|]). discriminate Ht.
  - vm_compute. discriminate.
  - vm_compute. lia.
  - exists s', ok. exact H.
Defined.
End ProcessRuns.

Module ChildRuns.
Import Children.
Definition leg : ServiceSpec Q := rx_spec "mavlink_rx" "16" "sock" 7 [] [].
Definition at_time (t : Q) (pid : Z) : resume Q := mkResume (inr pid) None true 0 t.
(** Started; crashes and is respawned once; crashes again past the budget. *)
Definition crash_loop : list (child_ev Q) :=
  [EvStart; EvCall (at_time 0 41); EvWatch (at_time 0 41); EvExit 1; EvWatch (at_time 1 41);
   EvWatch (at_time 2 42); EvWatch (at_time 2 42); EvExit 1; EvWatch (at_time 3 42)].

Definition ended := Eval vm_compute in default (child_init leg 1 60%Q, []) (child_run (child_init leg 1 60%Q) crash_loop).

Lemma watch_ends_in_fault_witness : watch ended.1 = WatchDone /\ _fault ended.1 = true /\ faults ended.2 = 1%nat.
Proof.
  assert (E : child_run (child_init leg 1 60%Q) crash_loop = Some (ended.1, ended.2)) by (vm_compute; reflexivity).
  assert (H := watch_ends_in_fault leg 1 60%Q crash_loop ended.1 ended.2 E eq_refl).
  exact (conj eq_refl (conj (proj1 H) (proj1 (proj2 H)))).
Defined.

Lemma child_budget_witness : true = (crashes_in 60%Q 3%Q [1%Q; 3%Q] >? 1).
Proof.
  refine (child_budget leg 1 60%Q crash_loop ended.1 ended.2 _ _
    [Begun; Spawned 41; Returned (Some true); Exited 41; Crashed 1%Q false; Spawned 42; Exited 42] 3%Q true [OnFault] _ _);
    [reflexivity|vm_compute; reflexivity|vm_compute; reflexivity|].
  intros [|[|i]] [|[|j]] a b Ha Hb Hij; try discriminate; try lia;
    injection Ha as <-; injection Hb as <-; vm_compute; discriminate.
Defined.
End ChildRuns.

Module NodeRuns.
Import NodeSession.
Definition answer (t : Q) (pid : option Z) : node_resume Q := mkNR pid t.
(** The node cannot be reached, then comes up. *)
Definition flaky : list (node_ev Q) :=
  [NStart; NCall (answer 0 None); NWatch (answer 0 None); NWatch (answer 1 None); NWatch (answer 1 None);
   NWatch (answer 3 None); NWatch (answer 3 (Some 51)); NWatch (answer 3 None)].
Definition node0 : NodeSession Q := node_init 1%Q 30%Q None.
Definition ended := Eval vm_compute in default (node0, []) (node_run node0 flaky).

Lemma node_never_given_up_witness :
  alternates true ended.2 /\ running (task ended.1) = true /\ alive ended.1 = true.
Proof.
  assert (E : node_run node0 flaky = Some (ended.1, ended.2)) by (vm_compute; reflexivity).
  destruct (node_never_given_up 1%Q 30%Q None flaky ended.1 ended.2 E) as (H & _ & _). exact (conj H (conj eq_refl eq_refl)).
Defined.
End NodeRuns.

(** ** The cluster *)

Module ClusterRuns.
Definition repr (v : json Q) : string := "?".
Definition aton (s : string) : option Z := if String.eqb s "10.0.0.7" then Some 167772167 else Some 2130706433.
Definition cfg : list (string * json Q) :=
  deep_merge default_config [("link", JDict [("cards", JList
    [JStr "wlan0"; JDict [("host", JStr "10.0.0.7"); ("iface", JStr "wlan1")]; JDict [("host", JStr "10.0.0.7"); ("iface", JStr "wlan2")]])])].
Definition cards := Eval vm_compute in match resolve_cards cfg [] with Ok cs => cs | Err _ => [] end.
Definition plan := Eval vm_compute in
  match plan_cluster aton cards 10000 11000 false with Ok p => p | Err _ => mkPlan [] [] [] [] [] end.
Definition legs := Eval vm_compute in match read_legs repr (fun _ => true) cfg with Ok l => Some l | Err _ => None end.
Definition sfx : suffixes := mkSfx "a" "b" "c" "d".
Definition graph := Eval vm_compute in
  match build_graph_remote repr (fun _ => true) cfg cards plan "10.0.0.1" sfx with Ok g => Some g | Err _ => None end.

Lemma plan_ports_witness :
  dict_get "tunnel" (server_port plan) = Some 10002 /\
  inj_get "10.0.0.7" "tunnel" (injector_base plan) = Some 11004.
Proof.
  assert (E : plan_cluster aton cards 10000 11000 false = Ok plan) by (vm_compute; reflexivity).
  destruct (plan_ports aton cards 10000 11000 false plan E) as (_ & H & _).
  destruct (H 2%nat "tunnel" eq_refl) as (H1 & _ & H2). split; [exact H1|].
  destruct (H2 "10.0.0.7") as [H3 _]; [|exact H3]. apply list_elem_of_In. cbn. auto.
Defined.

Lemma forwarders_feed_aggregators_witness :
  match legs, graph with
  | Some l, Some g =>
      exists leg rest, rx_leg g "video" = Some leg /\
        sp_argv leg = strs [WFB_RX; "-a"; pretty (10000 + Z.of_nat 0); "-p"; pretty 0] ++ rest
  | _, _ => False
  end.
Proof.
  unfold legs, graph.
  refine (proj1 (forwarders_feed_aggregators repr (fun _ => true) aton cfg cards 10000 11000 false plan "10.0.0.1" sfx _ _ _ _ _ _ _
            0%nat "video" (mkStreams (Some 0) None) 0 _ _ _)); try (vm_compute; reflexivity).
  - apply (bool_decide_unpack _). vm_compute. reflexivity.
  - apply list_elem_of_In. cbn. auto.
Defined.
End ClusterRuns.

Module MoreClusterRuns.
Import ClusterRuns.

Lemma distributors_reach_injectors_witness :
  match graph with
  | Some g => exists leg mid, tx_leg g "mavlink" = Some leg /\
      sp_argv leg = strs [WFB_TX; "-d"; "-f"; "data"; "-p"; pretty 144] ++ mid ++
        strs (map (fun node => peer_entry node (node_ports 11000 (nodes plan) 1 node)) (sorted_keys (nodes plan)))
  | None => False
  end.
Proof.
  unfold graph.
  refine (proj1 (distributors_reach_injectors repr (fun _ => true) aton cfg cards 10000 11000 false plan "10.0.0.1" sfx _ _ _ _ _ _ _
            1%nat "mavlink" (mkStreams (Some 16) (Some 144)) 144 _ _ _)); try (vm_compute; reflexivity).
  - apply (bool_decide_unpack _). vm_compute. reflexivity.
  - apply list_elem_of_In. cbn. auto.
Defined.

(** ** The display *)

Definition player : list (string * json Q) := match dict_get "pixelpilot" default_config with Some (JDict d) => d | _ => [] end.

Lemma validated_player_renders_witness :
  exists argv env, render_pixelpilot_argv repr default_config = Ok argv /\ render_pixelpilot_env repr default_config = Ok env /\
    all_strings argv.
Proof.
  apply (validated_player_renders repr default_config player); [reflexivity|vm_compute; reflexivity| |].
  - intros k Hk. apply list_elem_of_In in Hk. repeat (destruct Hk as [<-|Hk]; [discriminate|]). destruct Hk.
  - intros dvr k Hd Hk. injection Hd as <-. apply list_elem_of_In in Hk.
    repeat (destruct Hk as [<-|Hk]; [discriminate|]). destruct Hk.
Defined.
End MoreClusterRuns.

(** ** Beamforming *)

Module BeamRuns.
Import Beamforming.
Definition all_ok : platform := mkPlatform (fun _ => true) (fun _ => true) (fun _ => Some "84:fc:14:6c:36:e6").
Definition wanting (b : bool) : list (string * json Q) :=
  deep_merge default_config [("link", JDict [("beamforming", JDict [("enabled", JBool b)])])].
Definition mac : json Q := JStr "00:11:22:33:44:55".
Definition beat (b : bool) : turn Q :=
  mkTurn all_ok (wanting b) (Ok [JStr "wlan0"]) (Ok (200, Ok (JDict [])))
    (Ok (200, Ok (JDict [("beamforming", JDict [("localMac", mac)])]))).

Lemma one_beamformee_witness :
  let s := turns ClusterRuns.repr [beat true] (bf_init, []) in
  bf_state s.1 = "active" /\ dict_get (conf_node ClusterRuns.repr (bf_iface s.1)) s.2 = Some (arm_text ClusterRuns.repr (bf_peer s.1)).
Proof.
  assert (H := one_beamformee ClusterRuns.repr [beat true] "/proc/net/rtl88x2eu/wlan0/bf_monitor_conf" "1 00:11:22:33:44:55 0 0"
    ltac:(repeat constructor)). vm_compute in H |- *. split; [|reflexivity]. apply H; [reflexivity|discriminate].
Defined.

Lemma armer_converges_witness :
  let s := run_turn ClusterRuns.repr (turns ClusterRuns.repr [beat true] (bf_init, [])) (beat false) in
  bf_state s.1 <> "active" /\ run_turn ClusterRuns.repr s (beat false) = s /\ all_reset s.2.
Proof.
  destruct (armer_converges ClusterRuns.repr [beat true] (beat false) false [JStr "wlan0"] (Ok (JDict []))
    [("beamforming", JDict [("localMac", mac)])] [("localMac", mac)] mac) as (H1 & H2 & H3); try reflexivity; [by apply nodes_take; repeat constructor|done|].
  split; [|exact (conj H2 H3)]. intros E. discriminate (proj1 H1 E).
Defined.
End BeamRuns.

(** ** The API *)

Module ApiRuns.
Definition built := Eval vm_compute in match build_app bench "/etc/fpvd/config.json" None with Ok w => w | Err _ => booted end.
Definition up := Eval vm_compute in (app_start bench built).1.


Lemma served_config_validates_witness :
  validate_effective None (effective (store (serve bench (app_start bench built).1 [dl_on; APPLY; RESET_ALL]))) = Ok tt.
Proof.
  apply (served_config_validates bench "/etc/fpvd/config.json" None built [dl_on; APPLY; RESET_ALL]);
    [vm_compute; reflexivity|discriminate|vm_compute; reflexivity].
Defined.
End ApiRuns.

(** ** The engine *)

Module EngineRuns.
Import Engine.
Definition good (stats : bool) : answers Q :=
  mkAnswers (Ok default_config) (Ok tt) (fun _ => Ok [JStr "wlan0"]) (fun _ => RunOk) (fun _ => Ok "10.0.0.1") ClusterRuns.sfx
    (fun _ _ => CReady (mkTxView (Some 0%nat) [(0, "wfb-tx-0")])) true true stats (fun _ => true) (fun _ => true).
Definition engine_ops : list (engine_op Q) := [OStart (good true); ORestart (Some default_config) (good false)].
Definition after := Eval vm_compute in engine_run ClusterRuns.repr ClusterRuns.aton (fun _ => true) engine_init engine_ops.

(** The statistics port cannot be bound on the restart: nothing stays open. *)
Lemma engine_all_or_nothing_witness :
  Forall no_crash engine_ops /\ _thread after.1 = false /\ (forall r, live r false after.2 = false).
Proof.
  assert (E : engine_run ClusterRuns.repr ClusterRuns.aton (fun _ => true) engine_init engine_ops = after) by (vm_compute; reflexivity).
  assert (H := engine_all_or_nothing ClusterRuns.repr ClusterRuns.aton (fun _ => true) engine_ops ltac:(repeat constructor)).
  rewrite E in H. destruct H as (_ & H & _).
  split; [repeat constructor|]. split; [reflexivity|]. exact (H eq_refl).
Defined.

(** Started, ticking, restarted with the statistics port gone. *)
Definition turns (t n : nat) (a : answers Q) : list (eng_ev (F := Q)) := repeat (EvThread t a) n.
Definition interleaved : list (eng_ev (F := Q)) :=
  EvStart :: turns 0 3 (good true) ++ [EvStartReturns false; EvCallback 0 (OTick (fun _ => true) (Ok None)); EvStop (Some (Some default_config))] ++
  turns 0 2 (good true) ++ [EvStopReturns false] ++ turns 1 3 (good false) ++ [EvStartReturns false] ++ turns 1 1 (good false).
Definition life1 := Eval vm_compute in default life_new (eng_run ClusterRuns.repr ClusterRuns.aton (fun _ => true) life_new interleaved).

Lemma engine_thread_refines_witness :
  _thread (el_engine life1) = false /\ exists os, engine_run ClusterRuns.repr ClusterRuns.aton (fun _ => true) engine_init os = (el_engine life1, el_trace life1) /\
    List.filter is_callback os = [OTick (fun _ => true) (Ok None)].
Proof.
  assert (H := engine_thread_refines ClusterRuns.repr ClusterRuns.aton (fun _ => true) interleaved life1).
  destruct H as (_ & _ & H); [vm_compute; reflexivity|repeat constructor|].
  split; [reflexivity|]. destruct (H eq_refl) as (os & H1 & H2 & _). exists os. split; [exact H1|exact H2].
Defined.

(** Card 1 is selected, and the transmitter comes back with new sockets. *)
Definition sockets : list (Z * string) := [(0, "wfb-tx-8"); (1, "wfb-tx-9")].
Definition respawn : list (engine_op Q) :=
  [OStart (good true); OTick (fun _ => true) (Ok (Some (Some 1, mkTxSel [] (Some 1)))); OChildView "mavlink_tx" (mkTxView (Some 1%nat) sockets)].


(** A tick between two announcements of one handshake wires the first socket;
    the second, the selected card's, is not picked up by later ticks. *)
Definition selected : WfbEngine Q :=
  (engine_run ClusterRuns.repr ClusterRuns.aton (fun _ => true) engine_init
     [OStart (good true); OTick (fun _ => true) (Ok (Some (Some 1, mkTxSel [] (Some 1))));
      OChildView "mavlink_tx" (mkTxView (Some 1%nat) [(0, "new-0")]); OTick (fun _ => true) (Ok None);
      OChildView "mavlink_tx" (mkTxView (Some 1%nat) [(0, "new-0"); (1, "new-1")]); OTick (fun _ => true) (Ok None)]).1.

Lemma partial_handshake_sticks :
  target selected "mavlink_tx" = Some "new-0" /\
  _tx_socket_for (tx_child selected "mavlink_tx") (Some 1) = Some "new-1" /\ (_tx_selector selected ≫= current) = Some 1.
Proof. vm_compute. repeat split. Qed.
End EngineRuns.
