(* ===== verification/FeedWitnesses.v ===== *)
(** * Concrete runs: feeds, captures, threads and services

    The hypotheses of the theorems about the stats feed and its server, the tap
    capture, the threads that run a loop and the data-plane services, discharged
    on small runs over the rationals. *)
From Stdlib Require Import ZArith Lia Bool Ascii String QArith.
From stdpp Require Import base tactics list sets strings.
From S2P Require Import Prelude PyStr FloatModels Json StatsClient Bytes TapWire AggQueue Tunnel LineProto TxSel StatsHub.
From S2P Require Import ConnMonitor MonitorLoop Statsd StatsFeed JsonText Capture FeedText LoopThread Handoff ServiceLife.
Open Scope Z_scope.

(** ** The feed *)

Module FeedRuns.
Definition lines : list string :=
  ["1	SESSION	7:1:8:12:3"; "1	RX_ANT	5805:2:20	0100	9:-60:-55:-50:10:20:30"; "1	PKT	10:1000:0:1:9:9:0:0:0:9:900"].
Definition hub0 : StatsHub := mkHub (mkTxSel [] (Some 256)) [] [] [] [].
Definition announced : line_event := Eval vm_compute in default OnHandshake ((rx_run lines).2 !! 0%nat).
Definition window : line_event := Eval vm_compute in default OnHandshake ((rx_run lines).2 !! 1%nat).
Definition no_repr (_ : json Q) : string := "".
Definition told (e : line_event) : Event Q * raw_event :=
  default (EvTx (mkTx 0%Q "" []), RawTx [] []) (hub_do hub0 1%Q "video rx" e).

(** Whole seconds, printed and read as Python does: "7.0". *)
Definition seconds : PyFloat Q := {|
  fofZ := fofZ; fadd := fadd; fsub := fsub; fmul := fmul; fdiv := fdiv; fopp := fopp; fleb := fleb; fltb := fltb;
  ftrunc := ftrunc; ffinite := ffinite; fround := fround; fround1 := fround1; fpow := fpow;
  fofstr s := match split "." s with [i; "0"] => inject_Z <$> parse_int 10 i | _ => None end
|}.
Definition show (x : Q) : string := str_int (Qnum x) +:+ ".0".
Definition whole (x : Q) : bool := (Qden x =? 1)%positive.

Lemma seconds_repr : @FloatRepr Q seconds show whole.
Proof.
  split; intros x Hx.
  - exists (str_int (Qnum x)), ".0", EmptyString. split; [done|]. split; [apply str_int_literal|]. split; [right; by exists "0"|]. split; [by left|done].
  - unfold fofstr, show. cbn [seconds]. rewrite (split_line "." (str_int (Qnum x)) "0").
    + change (split "." "0") with ["0"]. cbv iota. rewrite parse_str_int. cbn. unfold inject_Z. apply Pos.eqb_eq in Hx. by destruct x; cbn in *; subst.
    + destruct (str_int_literal (Qnum x)) as (sign & n & Hs & Hn & ->). rewrite all_chars_sapp, (all_chars_mono is_digit _ (str_nat n)), andb_true_r.
      * by destruct Hs as [-> | ->].
      * intros c Hc. apply negb_true_iff, bool_decide_eq_false. by intros ->.
      * by apply str_nat_digits.
Qed.

Definition updates : list (update (F := Q)) :=
  [mkUpdate 2%Q "video rx" (told announced).1 (told announced).2; mkUpdate 3%Q "video rx" (told window).1 (told window).2].

Lemma feed_text_replays_witness :
  feed_replay (PF := seconds) no_repr (fun _ => false) 0 (text_lines (feed_text show updates)) =
    (map (fun u => stamped (u_now u) (u_event u)) updates, None).
Proof.
  apply (@feed_text_replays Q seconds no_repr show whole seconds_repr).
  constructor; [|constructor; [|constructor]].
  - exists hub0, 1%Q, announced. split; [left; exists lines; apply (list_elem_of_lookup_2 _ 0%nat); vm_compute; reflexivity|].
    split; [vm_compute; reflexivity|]. split; vm_compute; reflexivity.
  - exists hub0, 1%Q, window. split; [left; exists lines; apply (list_elem_of_lookup_2 _ 1%nat); vm_compute; reflexivity|].
    split; [vm_compute; reflexivity|]. split; vm_compute; reflexivity.
Defined.

(** Two viewers; one is slow, and dropped. *)
Definition serving : list (srv_ev Q) :=
  [Joins 0%nat Accepts []; Joins 1%nat Accepts []; Raw 1%Q "video rx" (told window).2 (fun c => if Nat.eqb c 1 then Slow else Accepts);
   Raw 2%Q "video rx" (told announced).2 (fun _ => Accepts)].

Lemma clients_miss_nothing_witness :
  let '(s, o) := srv_run serving in fed 0%nat serving s (sent_to 0%nat o) /\ srv_writers s = [0%nat].
Proof.
  assert (H := clients_miss_nothing 0%nat serving ltac:(vm_compute; repeat constructor; set_solver)).
  destruct (srv_run serving) as [s o] eqn:E. split; [exact H|]. vm_compute in E. injection E as <- _. reflexivity.
Defined.

(** A source that ran through a restart of the engine. *)
Definition restarted : list feed_ev :=
  [EnginePublish; SourceRun 0; SourceStep 0 true; SourceStep 0 true; SourceStep 0 true; EngineDrop; EngineClose; EngineWake; EngineWake; EnginePublish].
Definition world1 : world := Eval vm_compute in default (feed_init 1) (feed_run (feed_init 1) restarted).
Definition source1 : source := Eval vm_compute in default (mkSource Idle false 0) (w_srcs world1 !! 0%nat).

Lemma sources_rebind_witness : settles 6 world1 0 1.
Proof.
  apply (sources_rebind 1 restarted world1 0 1 source1); vm_compute; reflexivity.
Defined.
End FeedRuns.

(** ** A capture *)

Module CaptureRuns.
Definition micro : tap_rec := Micro (mkMicro 1 2 3 4 5 6 7 [mkRxAnt 256 5805 2 20 9 (-60) (-55) (-50) 10 20 30 (-1) (-1) (-1)]).
Definition loss : tap_rec := Loss (mkLoss 2 3 4 5 6).
Definition no_float (_ : Q) : string := "0.0".
Definition file : string := Eval vm_compute in tc_file (capture_run no_float (capture_open true) [(micro, Written); (loss, Written)]).
(** Cut inside the second line. *)
Definition cut : string := Eval vm_compute in substring 0 (String.length file - 5) file.
Definition rest : string := Eval vm_compute in substring (String.length file - 5) 5 file.

Lemma capture_replays_witness :
  (exists k, replay_run cut = (map (shown (F := Q)) (take k [micro; loss]), None)) /\ replay_run cut = ([shown (F := Q) micro], None).
Proof.
  split.
  - apply (capture_replays no_float true [(micro, Written); (loss, Written)] cut rest). vm_compute. reflexivity.
  - vm_compute. reflexivity.
Defined.
End CaptureRuns.

(** ** Threads *)

Module ThreadRuns.
Definition restart : list owner_ev :=
  [CallStart; Thread 0 (Goes true); Thread 0 (Goes true); Thread 0 (Goes true); StartReturns false; CallStop; Thread 0 (Goes true);
   Thread 0 (Goes true); StopReturns false; CallStart].
Definition owner1 : owner := Eval vm_compute in default owner_new (owner_run owner_new restart).

Lemma loop_thread_owned_witness : exists t, returns_within 3 t owner1.
Proof.
  apply (loop_thread_owned restart owner1); [vm_compute; reflexivity|repeat constructor|vm_compute; discriminate].
Defined.

(** The drone connects before the loop is started, and again while it runs. *)
Definition connects : list (hand_ev (R := Z)) :=
  [Publish (Connected 7); Deliver; RunPhase; RunPhase; SeedReads; SeedWrites; Publish Disconnected; Deliver;
   Publish (Connected 8); Deliver; RunCallback; RunCallback].
(** A radio with an odd number has no adapter id. *)
Definition even_id (r : Z) : option Z := if Z.even r then Some (r + 100) else None.
Definition hand1 : handoff (R := Z) (A := Z) := Eval vm_compute in default hand_init (hand_run even_id hand_init connects).


(** The tunnel comes up, the drone answers, and a record arrives meanwhile. *)
Definition tunnel_ev : Event Q := (default (EvTx (mkTx 0%Q "" []), RawTx [] []) (hub_do FeedRuns.hub0 1%Q "tunnel rx" FeedRuns.window)).1.
Definition monitored : list (loop_ev (F := Q)) :=
  [Arrives tunnel_ev 1%Q; Turn 2%Q 2%Q 2%Q 2%Q 2%Q; Arrives tunnel_ev 3%Q; StatusAnswer (JDict []) 4%Q; PauseEnds;
   Turn 6%Q 6%Q 6%Q 6%Q 6%Q; Arrives tunnel_ev 7%Q; HealthAnswer true 8%Q 8%Q; StopSet; RunEnds].
Definition loop1 : mon_loop (F := Q) := Eval vm_compute in default loop_new (loop_run default_moncfg loop_new monitored).

Lemma monitor_loop_refines_witness :
  length (ml_pub loop1) = 1%nat /\ alternates false (ml_pub loop1) /\ exists l, evs_of default_moncfg mon_init l = ml_pub loop1.
Proof.
  assert (H := monitor_loop_refines (PF := PyFloat_Q) default_moncfg monitored loop1).
  destruct H as [H (l & Hl & _)]; [vm_compute; reflexivity|]. split; [reflexivity|]. split; [exact H|]. exists l. exact Hl.
Defined.
End ThreadRuns.

(** ** Services *)

Module LifeRuns.
(** Busy twice, then opened. *)
Definition attempts : list (tun_attempt * Q) := [(IoctlFails 16, 1%Q); (IoctlFails 16, (11 # 10)%Q); (Opened, (6 # 5)%Q)].

Lemma tun_open_bounded_witness : _open_tun_retrying 1%Q attempts = ([Opens TunFd; Closes TunFd; Opens TunFd; Closes TunFd; Opens TunFd],
    [(1 # 20)%Q; (3 # 40)%Q], Some true) /\ let '(tr, sleeps, r) := _open_tun_retrying 1%Q attempts in (length sleeps <= 14)%nat.
Proof.
  split; [vm_compute; reflexivity|]. assert (H := tun_open_bounded 1%Q attempts).
  assert (Hp : paced 1%Q TUN_OPEN_RETRY_DELAY_S attempts) by (vm_compute; repeat split; discriminate).
  specialize (H Hp). destruct (_open_tun_retrying 1%Q attempts) as [[tr sleeps] r]. apply H.
Defined.

Definition idle : TunnelService := tunnel_new 1445 true.
Definition queued : TunnelService :=
  idle <| tn_agg := (put (agg_new (Some 1445) true) [0; 1; 9]).1 |> <| tx_sock := Some 3 |> <| tx_socks := [("a", 3)] |>.
Definition started := Eval vm_compute in default (tunnel_down, idle, [], false) (tunnel_start 1445 true 1%Q attempts RxUp idle).

Lemma tunnel_stop_releases_witness :
  let '(_, svc', tr', sent) := tunnel_stop started.1.1.1 queued in
  (forall r, open_count r (started.1.2 ++ tr') = 0) /\ sent = [(3, [0; 1; 9])] /\ closed_socks svc' = [3].
Proof.
  assert (H := tunnel_stop_releases (F := Q) 1445 true 1%Q attempts RxUp idle started.1.1.1 started.1.1.2 started.1.2 started.2 queued).
  specialize (H ltac:(vm_compute; reflexivity)).
  destruct (tunnel_stop started.1.1.1 queued) as [[[t' svc'] tr'] sent] eqn:E. destruct H as (_ & H & _).
  vm_compute in E. injection E as _ <- <- <-. split; [exact H|]. split; reflexivity.
Defined.
End LifeRuns.
