(* ===== verification/ToolWitnesses.v ===== *)
(** * Concrete runs: the offline tools

    The theorems about gs/tools applied to small logs over the rationals. *)
From Stdlib Require Import ZArith Lia Bool Ascii String QArith.
From stdpp Require Import base tactics list strings.
From S2P Require Import Prelude PyStr FloatModels Json JsonText Decision Signals Policy SimChannel Analyze.
Open Scope Z_scope.

Module ChannelRuns.
(** Two knees learned, two rungs apart. *)
Definition knees : list (option Q) := [None; Some 5%Q; None; Some 11%Q; None; None; None; None].

Lemma viability_monotone_witness :
  fit_viability knees = Some (map Some [2%Q; 5%Q; 8%Q; 11%Q; 14%Q; 17%Q; 20%Q; 23%Q]) /\
  exists out, fit_viability knees = Some (map Some out) /\ forall i j x y, (i <= j)%nat -> out !! i = Some x -> out !! j = Some y -> (x <= y)%Q.
Proof.
  split; [vm_compute; reflexivity|]. destruct (viability_monotone knees) as (out & H1 & _ & _ & H2).
  - vm_compute. discriminate.
  - vm_compute. split; [discriminate|exact I].
  - exists out. split; [exact H1|exact H2].
Defined.

(** Three ticks, the last below every threshold. *)
Definition line (ts snr : Q) : json Q :=
  JDict [("ts", JFloat ts); ("snr", JFloat snr); ("snr_ewma", JFloat snr); ("snr_knees", JList [JNull; JFloat 5%Q; JNull; JFloat 11%Q])].
Definition log : list (json Q) := [line 1%Q 20%Q; line 2%Q 20%Q; line 3%Q 0%Q].
Definition loaded := Eval vm_compute in match load_channel log with Ok x => x | Err _ => ([], []) end.

Lemma simulation_reports_witness :
  match sim_main log with
  | Ok (Some r) => r_ticks r = 3 /\ r_glitch_ticks r = 1 /\ sumZ (map snd (r_time_at_mcs r)) = r_ticks r
  | _ => False
  end.
Proof.
  assert (H := simulation_reports log loaded.1 loaded.2 ltac:(vm_compute; reflexivity)).
  destruct (sim_main log) as [[r|]|e] eqn:E; vm_compute in E; [|discriminate|discriminate].
  injection E as <-. destruct H as (_ & H & _). split; [reflexivity|]. split; [reflexivity|]. exact H.
Defined.
End ChannelRuns.

Module SummaryRuns.
(** Whole numbers, for the format. *)
Definition fmt (x : Q) : string := str_int (fround x).

#[export] Instance fmt_fixed : FixedFormat fmt.
Proof.
  intros x. unfold fmt. destruct (str_int_literal (fround x)) as (sign & n & Hs & Hn & ->). rewrite all_chars_sapp.
  rewrite (all_chars_mono is_digit _ (str_nat n)), andb_true_r; [by destruct Hs as [-> | ->]| |by apply str_nat_digits].
  intros c Hc. unfold fixed_char. by rewrite Hc.
Qed.

Definition tick_entry (why : list (reason Q)) (mcs : Z) : flight_entry Q :=
  Tick_entry (mkTickEntry 1%Q None None None None false false 0 [] None None None mcs 20 why 0%Q 0%Q false None None None 0 false None false true None None false false).
Definition fast_entry : flight_entry Q :=
  Fast_entry (mkFastEntry 2%Q None None 2 20 [R_video_per_demote 1%Q Fade; R_fast] 1%Q (Some Fade) true (Some 7%Q) true).
Definition flight : list (flight_entry Q) := [tick_entry [R_knee_promote] 3; fast_entry; tick_entry [R_predict_demote 2 1] 1].

Lemma flight_summary_witness :
  exists t, add_records (map (entry_json fmt) flight) totals_new = Ok t /\ t_reactive t = 1 /\ t_fast_demotes t = 1 /\ t_predictive t = 1.
Proof.
  destruct (flight_summary fmt flight) as (t & H & _ & H1 & H2 & H3 & _). exists t. split; [exact H|].
  split; [exact H2|]. split; [exact H3|exact H1].
Defined.
End SummaryRuns.
