(* ===== verification/BootWitnesses.v ===== *)
(** * Concrete runs: the process, its boot and its HTTP server

    The theorems about [main], the boot, the set-up of the controller, the HTTP
    exchange and the keepalive applied on the bench of [ApiScenarios]; and the
    two points of [main] at which a signal does not end the daemon in order. *)
From Stdlib Require Import ZArith Lia Lqa Bool Ascii String QArith.
From stdpp Require Import base tactics list sets strings.
From S2P Require Import Prelude PyStr FloatModels Json Cards JsonText Url Schema StatsClient LearnedPrior Bytes Decision Wire Signals Policy PolicyFacts FlightLog Controller AggQueue Tunnel Keepalive ConnMonitor Config ConfigBuild CtlSetup Radio Graph Pixelpilot Beamforming Api HttpServer AppMain ApiFacts ApiScenarios Boot SystemWitnesses.
Open Scope Z_scope.

(** ** The process *)

Module MainRuns.
Definition conf : string := "/etc/fpvd/config.json".
Definition defaults : args Q := mkArgs conf None false.

Lemma main_stops_witness :
  exists a', main bench no_signal [dl_on; APPLY] defaults = Ran a' Exits /\ stopped a'.
Proof.
  assert (Hb : exists a, build bench defaults = Ok a) by (eexists; vm_compute; reflexivity).
  destruct Hb as [a Hb].
  assert (Hs : exists a1, run_steps no_signal 0 (start_steps bench) a = (a1, None)).
  { vm_compute in Hb. injection Hb as <-. eexists. vm_compute. reflexivity. }
  destruct Hs as [a1 Hs].
  destruct (main_stops bench no_signal [dl_on; APPLY] defaults a a1 eq_refl Hb Hs) as (a' & how & Hm & He & Hst & _).
  assert (how = Exits) as -> by (apply He; reflexivity). exists a'. split; [exact Hm|apply Hst; reflexivity].
Defined.

(** A signal at one point of [main]. *)
Definition at_point (k : nat) : nat -> bool := Nat.eqb k.

(** A signal while the services start escapes from [main], which has not
    entered its [try]: the engine, the monitor and the armer are left as they
    are. *)
Lemma signal_in_start_leaks :
  exists a', main bench (at_point 4) [] defaults = Ran a' (Escapes KeyboardInterrupt) /\
    runner (app a') = EngineUp default_config /\ pp_running (app a') = true /\ app_armer a' = true.
Proof. eexists. split; [vm_compute; reflexivity|]. split_and!; vm_compute; reflexivity. Qed.

(** A signal between the [try] and the server's loop: [shutdown] waits for the
    end of a loop that never ran, with every service still up. *)
Lemma signal_before_serving_hangs :
  exists a', main bench (at_point 7) [] defaults = Ran a' Hangs /\
    runner (app a') = EngineUp default_config /\ pp_running (app a') = true /\ app_armer a' = true.
Proof. eexists. split; [vm_compute; reflexivity|]. split_and!; vm_compute; reflexivity. Qed.
End MainRuns.

(** ** Boot and set-up *)

Module BootRuns.
(** The bench over the doubles. *)
Definition bench64 : environment binary64 :=
  mkEnv (fun _ => true) (fun _ => ["wlan0"]) (fun _ _ => RunOk) (fun _ => None) (fun _ => None)
    (fun _ => mkPlatform (fun _ => true) (fun _ => true) (fun _ => Some "84:fc:14:6c:36:e6"))
    (fun _ _ _ _ => Ok (200, Ok (JDict []))) (fun _ _ => None) (fun _ => "?") (fun _ => "error").

(** A file that sets some knobs. *)
Definition conf_file : json binary64 :=
  JDict [("dynamicLink", JDict [("selector", JDict [("videoDemotePer", JFloat (flit 5 100)); ("snrDemoteMarginDb", JInt 3)]);
                                ("tap", JDict [("staleMs", JFloat (flit 2505 10))])]);
         ("connectionMonitor", JDict [("evalIntervalS", JFloat (flit 3 10)); ("tunnelStaleS", JInt 9)])].
Definition stored : ConfigStore (F := binary64) :=
  match store_load MainRuns.conf (Some (Ok conf_file)) with Ok s => s | Err _ => store_init [] [] "" end.
Definition cfg : list (string * json binary64) := Eval vm_compute in effective stored.
Definition block (k : string) : list (string * json binary64) := match dict_get k cfg with Some (JDict d) => d | _ => [] end.

Lemma knobs_set : no_nulls cfg (block "dynamicLink").
Proof.
  split; [intros d [= <-]; apply ConfigRuns.all_numeric; reflexivity..|reflexivity|].
  intros link [= <-]. exists 20. reflexivity.
Qed.

(** None of some keys is null. *)
Lemma keys_set (ks : list string) (d : list (string * json binary64)) :
  forallb (fun k => match dict_get k d with Some JNull => false | _ => true end) ks = true ->
  forall k, k ∈ ks -> dict_get k d <> Some JNull.
Proof. intros H k Hk E. rewrite forallb_forall in H. specialize (H k). rewrite E in H. by discriminate H; apply list_elem_of_In. Qed.

Lemma keys_finite (ks : list string) (d : list (string * json binary64)) :
  forallb (fun k => match dict_get k d with Some v => finite_knob v | None => true end) ks = true ->
  forall k v, k ∈ ks -> dict_get k d = Some v -> finite_knob v = true.
Proof. intros H k v Hk E. rewrite forallb_forall in H. specialize (H k). rewrite E in H. by apply H, list_elem_of_In. Qed.


End BootRuns.

(** ** The HTTP exchange *)

Module HttpRuns.
(** A patch of the channel, as the client sends it. *)
Definition patch : json Q := JDict [("link", JDict [("channel", JInt 149)])].

Lemma exchange_faithful_witness :
  exists w' length data,
    do_method bench (fun _ => "?") (fun _ => true) (Ok JNull) (client_request (fun _ => "?") "PATCH" "/gs/config" "" (Some patch)) booted =
      (w', HttpReply 200 [("content-type", "application/json"); ("content-length", length)] data) /\
    parse_int 10 length = Some (Z.of_nat (String.length data)).
Proof.
  assert (H := exchange_faithful bench (fun _ => "?") (fun _ => false) (fun _ => true) (Ok JNull) "PATCH" "/gs/config" "" (Some patch) booted).
  assert (Ec : (handle bench (mkReq "PATCH" "/gs/config" (parse_qs "") (Ok <$> Some patch) (Ok JNull)) booted).2.1 = 200) by (vm_compute; reflexivity).
  destruct (handle bench _ booted) as [w' [code obj]]. cbn in Ec. subst code.
  destruct H as (length & data & H1 & H2 & _).
  - apply (bool_decide_eq_true_1 _). reflexivity.
  - reflexivity.
  - reflexivity.
  - intros v [= <-]. reflexivity.
  - exists w', length, data. exact (conj H1 H2).
Defined.
End HttpRuns.

(** ** The keepalive *)

Module KeepaliveRuns.
Definition svc : TunnelService := set_tx_socket (fun _ => true) (tunnel_new 1445 false) (Some "tx").

(** Period 1/2 s: a tick, a packet, and two ticks, the last half silent. *)
Definition events : list (Q * ka_event) := [(1#2, Fires); (3#4, TunReadable [7%Z]); (1, Fires); (3#2, Fires)]%Q.

Lemma uplink_never_silent_witness :
  exists log, ka_run (1#2)%Q 0%Q (_schedule_keepalive (1#2)%Q 0%Q svc) events = Some log /\
    Forall (fun '(now, last) => now - last <= 2 * ((1#2) + (1#10)))%Q log.
Proof.
  eexists. split; [vm_compute; reflexivity|].
  apply (uplink_never_silent (1#2) (1#10) ltac:(discriminate) ltac:(discriminate) 0%Q svc events).
  - vm_compute. split; [eauto|discriminate].
  - reflexivity.
  - vm_compute. repeat split; try discriminate; intros d [= <-]; discriminate.
  - vm_compute. reflexivity.
Defined.
End KeepaliveRuns.
